(* ===== verification/_CoqProject ===== *)
-Q . S2P
Prelude.v
Pmm.v
Heap.v
Paging.v
WorkQueue.v
TimerTask.v
Libc.v
LibcNum.v
Proc.v
ProcEnv.v
ProcSched.v
ProcKill.v
ProcOwn.v
ProcInv.v
ProcReach.v
BlockDev.v
Path.v
Ata.v
Disk.v
Rescan.v
Xvfs.v
XvfsVol.v
XvfsDir.v
XvfsFile.v
XvfsCreate.v
XvfsFormat.v
XvfsClaims.v
Elf.v
ElfSafe.v
ElfClaims.v
Fat16Name.v
Fat16.v
SparseDev.v
Fat16Vol.v
Fat16Chain.v
Fat16Write.v
Fat16Dir.v
Fat16File.v
Fat16Format.v
Fat16Claims.v
Fat32Name.v
Fat32.v
Fat32Vol.v
Fat32Alloc.v
Fat32File.v
Fat32Write.v
Fat32Claims.v
SysEnv.v
Syscall.v
SysSafe.v
SysCalls.v
Olibc.v
SysApp.v
SysClaims.v
Klog.v
Font.v
Screen.v
ScreenSafe.v
ScreenClaims.v
Keyboard.v
KbdEdit.v
KbdClaims.v
Progress.v
Fscmd.v
FscmdClaims.v
Fsbg.v
FsbgClaims.v
UsbHc.v
HidParse.v
UsbKbd.v
UsbKbdSafe.v
UsbKbdClaims.v
UsbKbdKeys.v
Usb.v
UsbMsc.v
UsbCfg.v
UsbDev.v
UsbDevSafe.v
UsbHidSafe.v
UsbDevClaims.v
