(* ===== verification/Prelude.v ===== *)
(** * orionOS: a verification library

    orionOS is a 32-bit x86 kernel in C.  This library models its memory management, its
    deferred work and timers, its C library, its processes and scheduler, its storage stack up to
    the XVFS, FAT16 and FAT32 file systems and the commands on files, its program loader, its
    system calls with the library of user programs, its console with its fonts, its keyboard and its
    USB drivers, as executable functions on explicit states, and proves what they promise to each
    other.

    ** The parts and the files

    - [Prelude]: machine words (u8 ... u64 with explicit wrap-around), the state-and-error monad
      [M] with its results [Ok], [Fault] (an access the C code has no right to make) and
      [NoFuel], weakest preconditions [wp], arrays, byte memory and C strings.
    - [Pmm] (mm/pmm.c): the physical page allocator: bitmap, counters, construction from the
      Multiboot2 information.  Refines an abstract allocator over the set of free pages.
    - [Heap] (mm/mem.c): the kernel heap: headers in memory, splitting, coalescing, growth over
      an interface [V] of virtual memory.  The invariant ties the doubly linked list to the
      blocks; clients that free only what they hold are safe.
    - [Paging] (mm/paging.c): page directories and tables in physical memory, the recursive
      mapping, mapping and translation; proved against a model of the processor's walk, and
      composed with [Pmm] and [Heap].
    - [WorkQueue] (kernel/proc/workqueue.c) and [TimerTask] (kernel/proc/timer_task.c): the ring
      of deferred work refines a queue; due tasks fire exactly once.
    - [Libc], [LibcNum] (libc/string.c, olibc/string.c): strings, memory, tokens, numbers and
      formatted output, on byte memory.
    - [Proc] (kernel/proc/proc.c): the process table, creation, fork, exec, exit, kill, reaping
      and the scheduler, over the interface [ProcEnv] to heap, paging, stacks and interrupt
      flag.  [ProcEnv] also holds the laws and a concrete instance, [ProcSched] the scheduler and
      the timer interrupt that calls it at every fifth tick (timer_callback of cpu/timer.c), [ProcKill] exit and kill, [ProcOwn] the ownership of kernel blocks, [ProcInv] and
      [ProcReach] the invariant of every reachable state.
    - [BlockDev]: the interface between disk drivers and file systems, as a class of operations
      and a class of laws.
    - [Ata] (drivers/ata.c, drivers/ramdisk.c): drive numbers, dispatch, programmed I/O, the RAM
      disk; the RAM disk discharges the laws of [BlockDev].
    - [Disk] (fs/disk.c, ramdisk_attach): probing, the table of disks; [Rescan]: the rescan that
      interrupt handlers request, as a step relation over critical sections.
    - [Path] (normalize_path of kernel/cmd.c): canonical paths.
    - [Xvfs] (fs/xvfs.c): every operation of the file system, on any block device.  [XvfsVol] is
      the view of a volume, the rules for blocks and the allocator, [XvfsDir]
      entries, names and path resolution, [XvfsFile] file contents, [XvfsCreate] creation and
      removal, [XvfsFormat] formatting and mounting, [XvfsClaims] the properties.
    - [Elf] (kernel/elf.c): the program loader, over the interface [ElfSafe.ElfEnv.ElfEnvOk] to files,
      heap and paging; [ElfSafe] the bounds of every access, the outcome of a load and the
      relocations as the i386 ABI defines them, apart from the loader, [ElfClaims] the properties.
    - [Fat16Name] (structures and names) and [Fat16] (operations) of fs/fat16.c: every operation of
      the driver, on any block device and any allocator of buffers.  [Fat16Name.Fat16Lfn]
      is what becomes of long names, [SparseDev] a drive of realistic size that runs it, [Fat16Vol] the mounted volume as a table
      and a set of sectors, [Fat16Chain] allocation, chains and their data, [Fat16Write] the
      bytes of a chain, [Fat16Dir] directories, [Fat16File] files, [Fat16Format] formatting and
      mounting, [Fat16Claims] the properties.
    - [Fat32Name] and [Fat32] (fs/fat32.c): the FAT32 driver in the same way; its names are those of
      [Fat16Name].  [Fat32Vol] is the mounted volume, [Fat32Alloc] the allocator with its hint,
      [Fat32File] the bytes of a chain, [Fat32Write] overwriting a file and giving a chain
      back, [Fat32Claims] the properties.
    - [Syscall] (kernel/syscall.c): the system call handler, the table of open files and the message
      queue, over the interface [SysEnv] to all other parts; an operation of the process manager also
      returns the numbers of the processes it cleans up, whose files the handler's table closes.  [SysSafe] is what a call keeps,
      [SysCalls] every call, [Olibc] (olibc/) the library and the stubs of user programs,
      [SysApp] a kernel that fulfils the interface and a program on it, [SysClaims] the
      properties.
    - [Klog] (kernel/log.c): the boot log and the ring of the kernel log.
    - [Font] (drivers/font.c): the font of the console, PSF files, and the part [Vga] of the display
      adapter that holds it.  [Screen] (drivers/screen.c): the console: the buffer of lines, text
      memory and frame buffer, the cursor, scrolling, graphics, strings and formats.  [ScreenSafe]
      is drawing, what the display shows, and the invariant, [ScreenClaims] every operation, the
      terminal that printing refines, and the properties.
    - [Keyboard] (drivers/keyboard.c): scan codes, line editing with a history, the queue of keys,
      over the interface [KbdEnv] to console, processes and ports.  [KbdEdit] is the abstract line
      editor and queue and the operations on the arrays, [KbdClaims] the dispatch and the
      properties.
    - [Progress], [Fscmd] (fs/fscmd.c): the commands on files, dispatched to the file system of the
      current drive, with the display of the progress of a write; [FscmdClaims] a file written
      through them on a FAT16 drive.
    - [Fsbg] (fs/fsbg.c): copying and moving between file systems, over the interface [FsOps] and
      the record FSDriver that the three file systems implement; [FsbgClaims] their laws [FsbgOk]
      and [DriverOk], which names the files that a write or a removal may change, stores in memory
      that fulfil them, one that keeps its files apart and one that does not, and the properties.
    - [UsbHc] (drivers/usb/usbhc.h): the interface of a USB host controller.  [HidParse]: report
      descriptors, for keyboards and mice.
    - [UsbKbd] (drivers/usb/hid_boot_kbd.c): USB keyboards.  [UsbKbdSafe] is what they rely on, the
      class [UsbWorld], and the invariant, [UsbKbdClaims] every operation, [UsbKbdKeys] the keys
      that are down and a controller with a keyboard.
    - [Usb] (drivers/usb/usb.c): its state, requests, the bulk-only transport, SCSI commands and
      drives; [UsbMsc] the laws [BotLaws] of a storage device, a device, and writing and reading
      back.  [UsbCfg]: configurations and the reports of a mouse.  [UsbDev]: enumeration, hubs,
      removal and polling; [UsbDevSafe] the class [CoreWorld], the invariant and storage devices,
      [UsbHidSafe] mice, [UsbDevClaims] every operation, and a controller with mice.

    How they interact: the heap grows through paging, which takes frames from the page
    allocator; processes own heap blocks and page directories; interrupt handlers hand work to
    the queue and the timer tasks; the file system sees a drive through the block device
    interface, which the ATA layer implements by the RAM disk or by hardware; the commands on
    files and the copies between drives call the file systems; USB keyboards hand scan codes to
    the keyboard, and the timer interrupt polls USB while its drivers wait.

    ** What the theorems show

    - Refinement of abstract machines: page allocator, work queue, heap on real paging, line
      editor and key queue, message queue, logs, the terminal that the console is.
    - Invariants of all reachable states: heap, timer tasks, processes, the rescan flags, the console.
    - Functional behaviour on every branch, errors included: allocation and release, mapping and
      translation, creation, exec, kill and exit of processes, block allocation, path
      resolution, range reads, removal of directories, attaching a disk, loading a program.
    - Round trips: printing and reading numbers, writing and reading sectors, formatting and
      mounting a volume, creating or overwriting a file and reading it, storing a long name, a user
      program that writes and reads a file.
    - Safety of the boundary to programs: every system call but two (number 2 prints from any
      address, 7 restarts the machine) returns for all registers, given a path that the file systems
      take and for call 10 a readable name; it touches only mapped memory, gives its blocks back and
      leaves the open files of other processes that have not exited alone.
    - Safety towards devices: whatever descriptors and reports USB devices send, the drivers end,
      stay within their buffers and tables and keep drives and keyboards numbered; the keys that
      are down are those of the last report; sectors written to a USB drive are read back, retries
      included.
    - Safety and truth of the display: no sequence of operations on the console that [op_ok] admits
      (complete formats, a font that fits the grid) leaves the text buffer, the text memory or the
      frame buffer, and the pixels are those of the visible lines; font files are checked.
    - A move between file systems does not lose the file when neither its write nor its removal may
      touch the other of the two files.
    - Fairness and termination: every runnable process with a number runs within 80 timer interrupts,
      the loops over due tasks (with intervals of at most 2^31 ticks) and queued work end, freeing a
      chain of clusters ends even when it is cyclic.
    - Where the code does not terminate, wraps around or leaves its bounds, theorems show it on a
      concrete input, and the properties name the condition that excludes it.  Specifications are
      written apart from the functions they judge: decimal digits, relocations, the preference among
      settings and the stack in use each have a definition of their own.

    ** Bounds and fuel

    Loops that are bounded by a count in the code recurse on that count.  The others take fuel:
    strings are walked with one more than the size of the memory, block lists with one more than
    the number of headers, file loops with one more than the bytes that remain, chains of clusters
    with one more than the numbers a cluster can have, in FAT32 2^32 steps, a wait for the clock
    with 100 turns (no wait is longer than 90 ticks), the reports of one poll with one more than
    a controller delivers at once, hubs with 6 levels (usb.c stops at depth 4).  The theorems that
    conclude [Ok] show that the fuel suffices.

    ** Parameters

    Work and timer functions, the virtual memory below the heap, the environments of the process
    manager, of the program loader, of the system calls and of the keyboard with the shell, the
    machine below the ATA layer (I/O ports, AHCI and USB storage transfers), the USB host
    controllers with what an interrupt does while a driver waits, and the bytes in fresh memory or
    behind a local array are parameters; each law about them is a field of a class or a named
    hypothesis, with a concrete instance.

    ** Not modelled

    The shell, the USB host controllers, AHCI, PCI, sound, the PS/2 mouse and the boot sequence:
    hardware register programming, floating point, or terminal output; the manifest lists them with
    the reason.  The terminal output of the functions of other parts is left out, and so are
    interrupts at other points than the waits of the code. *)
From Stdlib Require Export ZArith Lia Bool.
From stdpp Require Export base tactics list gmap numbers option.

#[global] Open Scope Z_scope.

(** ** Machine words

    A C unsigned integer of width w is a [Z] in [0, 2^w); every operation that can wrap is
    followed by the explicit conversion [u8], [u16], [u32] or [u64].  A C signed integer is a
    [Z] in its two's complement range and [s32]/[s8] is the conversion into it. *)

Definition u8 (x : Z) : Z := x mod 256.
Definition u16 (x : Z) : Z := x mod 65536.
Definition u32 (x : Z) : Z := x mod 4294967296.
Definition u64 (x : Z) : Z := x mod 18446744073709551616.
Definition s8 (x : Z) : Z := let y := u8 x in if y <? 128 then y else y - 256.
Definition s32 (x : Z) : Z := let y := u32 x in if y <? 2147483648 then y else y - 4294967296.

Definition is_u8 (x : Z) : Prop := 0 <= x < 256.
Definition is_u32 (x : Z) : Prop := 0 <= x < 4294967296.
Definition is_u64 (x : Z) : Prop := 0 <= x < 18446744073709551616.

(** [~x] on a 32-bit operand. *)
Definition not32 (x : Z) : Z := u32 (Z.lnot x).

(** ** Results and the state-and-error monad

    [Fault] is an access the C code has no right to make (outside an object, through a pointer
    that designates nothing, on an unmapped page); [NoFuel] is a loop that ran longer
    than its bound: one that does not end where the bound exceeds the number of states the loop
    can go through, as in a cyclic chain of clusters. *)

Inductive res (A : Type) : Type :=
| Ok (a : A)
| Fault
| NoFuel.
Arguments Ok {A} a.
Arguments Fault {A}.
Arguments NoFuel {A}.

Definition M (S A : Type) : Type := S -> res (A * S).

Definition ret {S A} (a : A) : M S A := fun s => Ok (a, s).
Definition bind {S A B} (m : M S A) (k : A -> M S B) : M S B :=
  fun s => match m s with
           | Ok (a, s') => k a s'
           | Fault => Fault
           | NoFuel => NoFuel
           end.
Definition fault {S A} : M S A := fun _ => Fault.
Definition nofuel {S A} : M S A := fun _ => NoFuel.
Definition get {S} : M S S := fun s => Ok (s, s).
Definition gets {S A} (f : S -> A) : M S A := fun s => Ok (f s, s).
Definition modify {S} (f : S -> S) : M S unit := fun s => Ok (tt, f s).

Declare Scope orion_scope.
Delimit Scope orion_scope with orion.
Notation "x <- m ;; k" := (bind m (fun x => k))
  (at level 100, m at next level, right associativity) : orion_scope.
Notation "m ;;; k" := (bind m (fun _ => k))
  (at level 100, right associativity) : orion_scope.
#[global] Open Scope orion_scope.

Lemma bind_ok {S A B} (m : M S A) (k : A -> M S B) s a s' :
  m s = Ok (a, s') -> bind m k s = k a s'.
Proof. intros H. unfold bind. by rewrite H. Qed.

Lemma bind_inv {S A B} (m : M S A) (k : A -> M S B) s b s'' :
  bind m k s = Ok (b, s'') -> exists a s', m s = Ok (a, s') /\ k a s' = Ok (b, s'').
Proof. unfold bind. destruct (m s) as [[a s']| |]; [eauto|done|done]. Qed.

Lemma bind_ret {S A B} (a : A) (k : A -> M S B) s : bind (ret a) k s = k a s.
Proof. done. Qed.
Lemma bind_gets {S A B} (f : S -> A) (k : A -> M S B) s : bind (gets f) k s = k (f s) s.
Proof. done. Qed.
Lemma bind_get {S B} (k : S -> M S B) s : bind get k s = k s s.
Proof. done. Qed.
Lemma bind_modify {S B} (f : S -> S) (k : unit -> M S B) s : bind (modify f) k s = k tt (f s).
Proof. done. Qed.
Lemma bind_ext {S A B} (m : M S A) (k h : A -> M S B) s :
  (forall a s', k a s' = h a s') -> bind m k s = bind m h s.
Proof. intros He. unfold bind. by destruct (m s) as [[a s']| |]. Qed.
Lemma bind_bind {S A B C} (m : M S A) (k : A -> M S B) (h : B -> M S C) s :
  bind (bind m k) h s = bind m (fun a => bind (k a) h) s.
Proof. unfold bind. by destruct (m s) as [[a s']| |]. Qed.

(** ** Weakest preconditions

    [wp F m Q s]: m run in s never runs out of fuel, ends in a state that satisfies Q or, where F
    allows it, in a fault.  With F = False it is total correctness. *)
Definition wp {S A} (F : Prop) (m : M S A) (Q : A -> S -> Prop) (s : S) : Prop :=
  match m s with
  | Ok (a, s') => Q a s'
  | Fault => F
  | NoFuel => False
  end.

Lemma wp_bind {S A B} F (m : M S A) (k : A -> M S B) Q s :
  wp F m (fun a s' => wp F (k a) Q s') s -> wp F (bind m k) Q s.
Proof. unfold wp, bind. by destruct (m s) as [[a s']| |]. Qed.
Lemma wp_mono {S A} F (m : M S A) (P Q : A -> S -> Prop) s :
  wp F m P s -> (forall a s', P a s' -> Q a s') -> wp F m Q s.
Proof. unfold wp. destruct (m s) as [[a s']| |]; auto. Qed.
Lemma wp_ok {S A} F (m : M S A) (Q : A -> S -> Prop) s a s' : m s = Ok (a, s') -> Q a s' -> wp F m Q s.
Proof. unfold wp. by intros ->. Qed.
Lemma wp_inv {S A} F (m : M S A) (Q : A -> S -> Prop) s a s' : wp F m Q s -> m s = Ok (a, s') -> Q a s'.
Proof. unfold wp. intros Hw E. by rewrite E in Hw. Qed.
Lemma wp_run {S A} (m : M S A) (Q : A -> S -> Prop) s :
  wp False m Q s -> exists a s', m s = Ok (a, s') /\ Q a s'.
Proof. unfold wp. destruct (m s) as [[a s']| |]; [eauto|done|done]. Qed.
Lemma wp_ret {S A} F (a : A) (Q : A -> S -> Prop) s : Q a s -> wp F (ret a) Q s.
Proof. done. Qed.
Lemma wp_gets {S A} F (f : S -> A) (Q : A -> S -> Prop) s : Q (f s) s -> wp F (gets f) Q s.
Proof. done. Qed.
Lemma wp_modify {S} F (f : S -> S) (Q : unit -> S -> Prop) s : Q tt (f s) -> wp F (modify f) Q s.
Proof. done. Qed.
Lemma wp_if {S A} F (b : bool) (m k : M S A) Q s :
  (b = true -> wp F m Q s) -> (b = false -> wp F k Q s) -> wp F (if b then m else k) Q s.
Proof. destruct b; auto. Qed.

(** The final state of a run that succeeds, for running programs on concrete states. *)
Definition final {S A} (r : res (A * S)) (d : S) : S := match r with Ok (_, s) => s | _ => d end.

(** One step of symbolic execution of a monadic program. *)
Ltac mstep H := erewrite bind_ok; [| exact H].
Ltac msimpl := unfold ret, get, gets, modify, fault, nofuel in *.

(** ** Arithmetic automation *)

Ltac unword := unfold u8, u16, u32, u64, is_u8, is_u32, is_u64 in *.
(** [lia] after the words are unfolded and div/mod turned into equations. *)
Ltac word_lia := unword; Z.div_mod_to_equations; lia.
(** Case analysis on every boolean comparison of the goal and the context. *)
Ltac bdestr :=
  repeat match goal with
  | |- context [Z.eqb ?a ?b] => destruct (Z.eqb_spec a b)
  | |- context [Z.ltb ?a ?b] => destruct (Z.ltb_spec a b)
  | |- context [Z.leb ?a ?b] => destruct (Z.leb_spec a b)
  | H : context [Z.eqb ?a ?b] |- _ => destruct (Z.eqb_spec a b)
  | H : context [Z.ltb ?a ?b] |- _ => destruct (Z.ltb_spec a b)
  | H : context [Z.leb ?a ?b] |- _ => destruct (Z.leb_spec a b)
  end.

Create HintDb word.

Lemma u8_small x : is_u8 x -> u8 x = x.
Proof. unfold is_u8, u8. intros. by apply Z.mod_small. Qed.
Lemma u32_small x : is_u32 x -> u32 x = x.
Proof. unfold is_u32, u32. intros. by apply Z.mod_small. Qed.
Lemma u64_small x : is_u64 x -> u64 x = x.
Proof. unfold is_u64, u64. intros. by apply Z.mod_small. Qed.
Lemma u8_range x : is_u8 (u8 x).
Proof. apply Z.mod_pos_bound; lia. Qed.
Lemma u32_range x : is_u32 (u32 x).
Proof. apply Z.mod_pos_bound; lia. Qed.
Lemma u64_range x : is_u64 (u64 x).
Proof. apply Z.mod_pos_bound; lia. Qed.
Lemma s32_small x : -2147483648 <= x < 2147483648 -> s32 x = x.
Proof. intros. unfold s32. bdestr; word_lia. Qed.
#[export] Hint Resolve u8_range u32_range u64_range : word.

(** ** Bits and masks *)

Lemma testbit_pow2 n m : 0 <= n -> Z.testbit (Z.shiftl 1 n) m = (n =? m).
Proof.
  intros Hn. rewrite Z.shiftl_1_l.
  destruct (Z.eqb_spec n m) as [->|Hne].
  - by apply Z.pow2_bits_true.
  - by apply Z.pow2_bits_false.
Qed.

(** [b & (1 << n)] is non-zero exactly when bit n of b is set. *)
Lemma land_pow2 b n : 0 <= n -> (Z.land b (Z.shiftl 1 n) =? 0) = negb (Z.testbit b n).
Proof.
  intros Hn. destruct (Z.testbit b n) eqn:Hb; simpl.
  - apply Z.eqb_neq. intros H0.
    assert (Z.testbit (Z.land b (Z.shiftl 1 n)) n = false) as Ht by (by rewrite H0, Z.bits_0).
    rewrite Z.land_spec, testbit_pow2, Hb, Z.eqb_refl in Ht by done. done.
  - apply Z.eqb_eq, Z.bits_inj_iff'. intros m Hm.
    rewrite Z.land_spec, testbit_pow2, Z.bits_0 by done.
    destruct (Z.eqb_spec n m) as [->|]; [by rewrite Hb | apply andb_false_r].
Qed.

Lemma lor_pow2_bit b n m : 0 <= n -> Z.testbit (Z.lor b (Z.shiftl 1 n)) m = Z.testbit b m || (n =? m).
Proof. intros Hn. by rewrite Z.lor_spec, testbit_pow2. Qed.

Lemma ldiff_pow2_bit b n m :
  0 <= n -> Z.testbit (Z.land b (Z.lnot (Z.shiftl 1 n))) m = Z.testbit b m && negb (n =? m).
Proof.
  intros Hn. destruct (Z.ltb_spec m 0).
  - by rewrite !Z.testbit_neg_r by done.
  - by rewrite Z.land_spec, Z.lnot_spec, testbit_pow2.
Qed.

(** The bits of a conversion to 8 and to 32 bits. *)
Lemma u8_bit x m : 0 <= m < 8 -> Z.testbit (u8 x) m = Z.testbit x m.
Proof. intros. unfold u8. change 256 with (2 ^ 8). by rewrite Z.mod_pow2_bits_low by lia. Qed.
Lemma u32_bit x m : 0 <= m < 32 -> Z.testbit (u32 x) m = Z.testbit x m.
Proof. intros. unfold u32. change 4294967296 with (2 ^ 32). by rewrite Z.mod_pow2_bits_low by lia. Qed.
Lemma u32_bit_high x m : 32 <= m -> Z.testbit (u32 x) m = false.
Proof. intros. unfold u32. change 4294967296 with (2 ^ 32). by rewrite Z.mod_pow2_bits_high by lia. Qed.

Lemma land_u32_r x y : is_u32 x -> Z.land x (u32 y) = Z.land x y.
Proof.
  intros Hx. apply Z.bits_inj_iff'. intros m Hm. rewrite !Z.land_spec.
  destruct (Z.ltb_spec m 32).
  - by rewrite u32_bit by lia.
  - rewrite <-(u32_small x Hx), u32_bit_high by lia. done.
Qed.

(** [x & ~(2^k - 1)] rounds down to a multiple of 2^k. *)
Lemma land_lnot_ones x k : 0 <= k -> Z.land x (Z.lnot (2 ^ k - 1)) = x / 2 ^ k * 2 ^ k.
Proof.
  intros Hk. replace (2 ^ k - 1) with (Z.ones k) by (rewrite Z.ones_equiv; lia).
  rewrite <-Z.ldiff_land, Z.ldiff_ones_r, Z.shiftr_div_pow2, Z.shiftl_mul_pow2 by lia. done.
Qed.

(** The mask [ALIGN_UP] and its relatives use: rounding down to a power of two. *)
Lemma align_mask x k : 0 <= k -> is_u32 x -> Z.land x (not32 (2 ^ k - 1)) = x / 2 ^ k * 2 ^ k.
Proof. intros Hk Hx. unfold not32. by rewrite land_u32_r, land_lnot_ones. Qed.

(** ** Arrays

    A C array of [arr_len] cells: the cells listed in [arr_over] hold what was stored there
    since the last [memset], every other cell of the array the value it filled in.  An index
    outside the array is a fault, on reading and on writing. *)

Record array := Array { arr_len : Z; arr_fill : Z; arr_over : gmap Z Z }.

Definition arr_in (a : array) (i : Z) : bool := (0 <=? i) && (i <? arr_len a).
Definition arr_get (a : array) (i : Z) : option Z :=
  if arr_in a i then Some (default (arr_fill a) (arr_over a !! i)) else None.
Definition arr_set (a : array) (i v : Z) : option array :=
  if arr_in a i then Some (Array (arr_len a) (arr_fill a) (<[i := v]> (arr_over a))) else None.
Definition arr_memset (a : array) (v : Z) : array := Array (arr_len a) v ∅.

Lemma arr_get_in a i : is_Some (arr_get a i) <-> 0 <= i < arr_len a.
Proof. unfold arr_get, arr_in. split; [intros [? H]|intros ?]; bdestr; simpl in *; eauto; try done; lia. Qed.
Lemma arr_set_len a i v a' : arr_set a i v = Some a' -> arr_len a' = arr_len a.
Proof. unfold arr_set. destruct (arr_in a i); naive_solver. Qed.
Lemma arr_get_set a i v a' j :
  arr_set a i v = Some a' -> arr_get a' j = if decide (i = j) then Some v else arr_get a j.
Proof.
  unfold arr_set, arr_get, arr_in. intros H. destruct (_ && _) eqn:Hi in H; [|done].
  simplify_eq/=. rewrite lookup_insert. case_decide; simplify_eq; [by rewrite Hi|done].
Qed.
Lemma arr_get_memset a v i : arr_get (arr_memset a v) i = if arr_in a i then Some v else None.
Proof. unfold arr_get, arr_memset, arr_in; simpl. by rewrite lookup_empty. Qed.
Lemma arr_set_ok a i v : 0 <= i < arr_len a -> exists a', arr_set a i v = Some a'.
Proof. intros. unfold arr_set, arr_in. bdestr; simpl; eauto; lia. Qed.

(** ** Byte memory and C strings

    Memory is a partial map from addresses to bytes.  Reading or writing an address that is
    not mapped is a fault. *)

Abbreviation mem := (gmap Z Z).

Definition load (p : Z) : M mem Z :=
  fun m => match m !! p with Some v => Ok (v, m) | None => Fault end.
Definition store (p v : Z) : M mem unit :=
  fun m => match m !! p with Some _ => Ok (tt, <[p := u8 v]> m) | None => Fault end.

(** [bytes_at m p l]: the bytes l lie at p, p+1, ... *)
Fixpoint bytes_at (m : mem) (p : Z) (l : list Z) : Prop :=
  match l with
  | [] => True
  | c :: l' => m !! p = Some c /\ bytes_at m (p + 1) l'
  end.

(** A string's characters are the non-zero bytes. *)
Definition is_char (c : Z) : Prop := 0 < c < 256.
(** [cstr m p s]: a NUL-terminated string with the characters s lies at p. *)
Definition cstr (m : mem) (p : Z) (s : list Z) : Prop :=
  bytes_at m p (s ++ [0]) /\ Forall is_char s.

Lemma bytes_at_app m p l1 l2 :
  bytes_at m p (l1 ++ l2) <-> bytes_at m p l1 /\ bytes_at m (p + Z.of_nat (length l1)) l2.
Proof.
  revert p. induction l1 as [|c l1 IH]; intros p; simpl.
  - rewrite Z.add_0_r. tauto.
  - rewrite IH. replace (p + 1 + Z.of_nat (length l1)) with (p + Z.of_nat (S (length l1))) by lia. tauto.
Qed.

Lemma bytes_at_lookup m p l i c : bytes_at m p l -> l !! i = Some c -> m !! (p + Z.of_nat i) = Some c.
Proof.
  revert p i. induction l as [|c' l IH]; intros p i; simpl; [done|].
  intros [Hc Hl]. destruct i; simpl.
  - intros [= ->]. by rewrite Z.add_0_r.
  - intros Hi. replace (p + Z.of_nat (S i)) with (p + 1 + Z.of_nat i) by lia. eauto.
Qed.

Lemma bytes_at_intro m p l :
  (forall i c, l !! i = Some c -> m !! (p + Z.of_nat i) = Some c) -> bytes_at m p l.
Proof.
  revert p. induction l as [|c l IH]; intros p H; simpl; [done|]. split.
  - rewrite <-(Z.add_0_r p). by apply (H 0%nat).
  - apply IH. intros i c' Hi. replace (p + 1 + Z.of_nat i) with (p + Z.of_nat (S i)) by lia. by apply H.
Qed.

(** Stores outside a region leave it alone. *)
Lemma bytes_at_frame m p l q v :
  q < p \/ p + Z.of_nat (length l) <= q -> bytes_at m p l -> bytes_at (<[q := v]> m) p l.
Proof.
  intros Hq H. apply bytes_at_intro. intros i c Hi.
  rewrite lookup_insert_ne by (apply lookup_lt_Some in Hi; lia). by eapply bytes_at_lookup.
Qed.
#[export] Hint Resolve bytes_at_frame : word.

Lemma cstr_cons m p c s : cstr m p (c :: s) <-> m !! p = Some c /\ is_char c /\ cstr m (p + 1) s.
Proof. unfold cstr. simpl. rewrite list.Forall_cons. tauto. Qed.
Lemma cstr_nil m p : cstr m p [] <-> m !! p = Some 0.
Proof. unfold cstr. simpl. split; [tauto|]. auto. Qed.

(** Little-endian 32-bit accesses. *)
Definition le32 (b0 b1 b2 b3 : Z) : Z := b0 + 256 * b1 + 65536 * b2 + 16777216 * b3.
Definition load32 (p : Z) : M mem Z :=
  b0 <- load p;; b1 <- load (p + 1);; b2 <- load (p + 2);; b3 <- load (p + 3);;
  ret (le32 b0 b1 b2 b3).
Definition load64 (p : Z) : M mem Z :=
  lo <- load32 p;; hi <- load32 (p + 4);; ret (lo + 4294967296 * hi).
(** The four bytes of a 32-bit word, lowest first. *)
Definition bytes32 (w : Z) : list Z :=
  [u8 w; u8 (Z.shiftr w 8); u8 (Z.shiftr w 16); u8 (Z.shiftr w 24)].

Lemma le32_bytes32 w :
  is_u32 w ->
  le32 (u8 w) (u8 (Z.shiftr w 8)) (u8 (Z.shiftr w 16)) (u8 (Z.shiftr w 24)) = w.
Proof.
  intros Hw. unfold le32. rewrite !Z.shiftr_div_pow2 by lia.
  change (2 ^ 8) with 256. change (2 ^ 16) with 65536. change (2 ^ 24) with 16777216. word_lia.
Qed.

(** Running a read-only computation on one memory inside another state. *)
Definition peek {S A} (m : mem) (c : M mem A) : M S A :=
  fun s => match c m with
           | Ok (a, _) => Ok (a, s)
           | Fault => Fault
           | NoFuel => NoFuel
           end.
(** A partial operation on the state that has no other result. *)
Definition lift_opt {S A} (o : option A) : M S A :=
  fun s => match o with Some a => Ok (a, s) | None => Fault end.

Lemma bind_lift_some {S A B} (a : A) (k : A -> M S B) s : bind (lift_opt (Some a)) k s = k a s.
Proof. done. Qed.

(** A memory that holds exactly the bytes l at p. *)
Fixpoint mem_of (p : Z) (l : list Z) : mem :=
  match l with
  | [] => ∅
  | c :: l' => <[p := c]> (mem_of (p + 1) l')
  end.

(** Loads do not change memory, so evaluating one only needs its value. *)
Lemma load_same m p v m' : load p m = Ok (v, m') -> m' = m.
Proof. unfold load. destruct (m !! p); naive_solver. Qed.
Lemma load32_same m p v m' : load32 p m = Ok (v, m') -> m' = m.
Proof.
  unfold load32. intros (? & ? & ->%load_same & H)%bind_inv.
  do 3 (apply bind_inv in H as (? & ? & ->%load_same & H)). unfold ret in H. by simplify_eq.
Qed.
Lemma load64_same m p v m' : load64 p m = Ok (v, m') -> m' = m.
Proof.
  unfold load64. intros (? & ? & ->%load32_same & H)%bind_inv.
  apply bind_inv in H as (? & ? & ->%load32_same & H). unfold ret in H. by simplify_eq.
Qed.
Lemma load32_val m p v :
  match load32 p m with Ok (w, _) => w =? v | _ => false end = true -> load32 p m = Ok (v, m).
Proof.
  destruct (load32 p m) as [[w m']| |] eqn:E; [|done..]. intros ->%Z.eqb_eq.
  by rewrite (load32_same _ _ _ _ E).
Qed.
Lemma load64_val m p v :
  match load64 p m with Ok (w, _) => w =? v | _ => false end = true -> load64 p m = Ok (v, m).
Proof.
  destruct (load64 p m) as [[w m']| |] eqn:E; [|done..]. intros ->%Z.eqb_eq.
  by rewrite (load64_same _ _ _ _ E).
Qed.
(** Evaluates a load from a concrete memory. *)
Ltac eval_load := first [apply load32_val | apply load64_val]; vm_compute; reflexivity.

(** ** Arrays of structures

    A C array of records is a list of its cells; an index outside it is a fault. *)
Definition lget {A} (l : list A) (i : Z) : option A := if i <? 0 then None else l !! Z.to_nat i.
Definition lset {A} (l : list A) (i : Z) (v : A) : option (list A) :=
  if (0 <=? i) && (i <? Z.of_nat (length l)) then Some (<[Z.to_nat i := v]> l) else None.

Lemma lget_lookup {A} (l : list A) i : 0 <= i -> lget l i = l !! Z.to_nat i.
Proof. intros. unfold lget. by rewrite (proj2 (Z.ltb_ge _ _)) by lia. Qed.
Lemma lget_in {A} (l : list A) i : 0 <= i < Z.of_nat (length l) -> exists x, lget l i = Some x.
Proof. intros Hi. rewrite lget_lookup by lia. apply lookup_lt_is_Some_2. lia. Qed.
Lemma lset_in {A} (l : list A) i v :
  0 <= i < Z.of_nat (length l) -> lset l i v = Some (<[Z.to_nat i := v]> l).
Proof. intros. unfold lset. by rewrite (proj2 (Z.leb_le _ _)), (proj2 (Z.ltb_lt _ _)) by lia. Qed.

(** [x & (2^k - 1)]: the remainder by a power of two. *)
Lemma land_ones_mod x k : 0 <= k -> Z.land x (2 ^ k - 1) = x mod 2 ^ k.
Proof. intros. rewrite <-Z.land_ones, Z.ones_equiv by lia. by rewrite Z.sub_1_r. Qed.
Lemma lget_insert {A} (l : list A) i j x :
  0 <= i < Z.of_nat (length l) ->
  lget (<[Z.to_nat i := x]> l) j = if decide (i = j) then Some x else lget l j.
Proof.
  intros Hi. unfold lget. bdestr; case_decide; try lia; [done| |].
  - subst. apply list_lookup_insert_eq. lia.
  - apply list_lookup_insert_ne. lia.
Qed.
Lemma lget_some {A} (l : list A) i x : lget l i = Some x -> 0 <= i < Z.of_nat (length l).
Proof. unfold lget. bdestr; [done|]. intros ?%lookup_lt_Some. lia. Qed.

(** ** Buffers

    len bytes of a buffer from offset off on, and bytes stored into it; outside the buffer is a
    fault. *)
Definition slice (b : list Z) (off len : Z) : option (list Z) :=
  if (0 <=? off) && (off + len <=? Z.of_nat (length b)) then Some (take (Z.to_nat len) (drop (Z.to_nat off) b)) else None.
Definition splice (b : list Z) (off : Z) (c : list Z) : option (list Z) :=
  if (0 <=? off) && (off + Z.of_nat (length c) <=? Z.of_nat (length b)) then
    Some (take (Z.to_nat off) b ++ c ++ drop (Z.to_nat off + length c) b)
  else None.

Lemma slice_in (b : list Z) off len : 0 <= off -> off + len <= Z.of_nat (length b) ->
  slice b off len = Some (take (Z.to_nat len) (drop (Z.to_nat off) b)).
Proof. intros. unfold slice. by rewrite (proj2 (Z.leb_le _ _)), (proj2 (Z.leb_le _ _)) by lia. Qed.
Lemma splice_in (b : list Z) off c : 0 <= off -> off + Z.of_nat (length c) <= Z.of_nat (length b) ->
  exists b', splice b off c = Some b' /\ length b' = length b /\
    (forall i, b' !! i = if decide (Z.to_nat off <= i < Z.to_nat off + length c)%nat then c !! (i - Z.to_nat off)%nat else b !! i).
Proof.
  intros Ho Hl. unfold splice. rewrite (proj2 (Z.leb_le _ _)), (proj2 (Z.leb_le _ _)) by lia. cbn [andb].
  eexists. split; [reflexivity|]. split.
  - rewrite !length_app, length_take, length_drop. lia.
  - intros i. destruct (decide (i < Z.to_nat off)%nat).
    + rewrite decide_False by lia. rewrite lookup_app_l by (rewrite length_take; lia). apply lookup_take_lt. lia.
    + rewrite lookup_app_r by (rewrite length_take; lia). rewrite length_take, Nat.min_l by lia. case_decide.
      * rewrite lookup_app_l by lia. done.
      * rewrite lookup_app_r by lia. rewrite lookup_drop. f_equal. lia.
Qed.
Lemma splice_u8 b off c b' : Forall is_u8 b -> Forall is_u8 c -> splice b off c = Some b' -> Forall is_u8 b'.
Proof.
  intros Hb Hc. unfold splice. destruct (_ && _); [|done]. intros [= <-]. rewrite !Forall_app.
  split_and!; [by apply Forall_take|done|by apply Forall_drop].
Qed.

Lemma wp_lift_some {S A} F (a : A) (Q : A -> S -> Prop) s : Q a s -> wp F (lift_opt (Some a)) Q s.
Proof. done. Qed.
Lemma lookup_nth {A} (l : list A) i d : (i < length l)%nat -> l !! i = Some (nth i l d).
Proof. intros [x Hx]%lookup_lt_is_Some_2. rewrite Hx. f_equal. symmetry. by apply nth_lookup_Some. Qed.
Lemma nth_u8 buf i : Forall is_u8 buf -> is_u8 (nth i buf 0).
Proof.
  intros Hu. destruct (decide (i < length buf)%nat) as [Hl|Hl].
  - rewrite list.Forall_forall in Hu. apply Hu, list_elem_of_In, nth_In. lia.
  - rewrite nth_overflow by lia. unfold is_u8. lia.
Qed.
Lemma u8_list (l : list Z) : forallb (fun c => (0 <=? c) && (c <? 256)) l = true -> Forall is_u8 l.
Proof.
  intros Hf. apply list.Forall_forall. intros x Hx%list_elem_of_In. rewrite forallb_forall in Hf. specialize (Hf x Hx).
  apply andb_true_iff in Hf as [?%Z.leb_le ?%Z.ltb_lt]. done.
Qed.
Lemma bytes32_u8 w : Forall is_u8 (bytes32 w).
Proof. unfold bytes32. repeat constructor; apply u8_range. Qed.
Lemma bytes32_length w : length (bytes32 w) = 4%nat.
Proof. done. Qed.

(** Little-endian fields of a buffer *)
Definition get16 (b : list Z) (o : nat) : Z := nth o b 0 + 256 * nth (o + 1) b 0.
Definition get32 (b : list Z) (o : nat) : Z := le32 (nth o b 0) (nth (o + 1) b 0) (nth (o + 2) b 0) (nth (o + 3) b 0).
Lemma get32_u32 b o : Forall is_u8 b -> is_u32 (get32 b o).
Proof.
  intros Hu. pose proof (nth_u8 b o Hu). pose proof (nth_u8 b (o + 1) Hu). pose proof (nth_u8 b (o + 2) Hu).
  pose proof (nth_u8 b (o + 3) Hu). unfold get32, le32, is_u8, is_u32 in *. lia.
Qed.
Lemma get16_range b o : Forall is_u8 b -> 0 <= get16 b o < 65536.
Proof.
  intros Hu. pose proof (nth_u8 b o Hu). pose proof (nth_u8 b (o + 1) Hu). unfold get16, is_u8 in *. lia.
Qed.
Lemma get32_bytes pre w suf : is_u32 w -> get32 (pre ++ bytes32 w ++ suf) (length pre) = w.
Proof.
  intros Hw. unfold get32. rewrite !(app_nth2 pre) by lia.
  replace (length pre - length pre)%nat with 0%nat by lia.
  replace (length pre + 1 - length pre)%nat with 1%nat by lia.
  replace (length pre + 2 - length pre)%nat with 2%nat by lia.
  replace (length pre + 3 - length pre)%nat with 3%nat by lia. by apply le32_bytes32.
Qed.
Lemma get32_at pre w suf o : length pre = o -> is_u32 w -> get32 (pre ++ bytes32 w ++ suf) o = w.
Proof. intros <-. apply get32_bytes. Qed.
(** Fields of a part of a buffer, and of buffers that agree there *)
Lemma get32_take_drop b o n j : (j + 4 <= n)%nat -> get32 (take n (drop o b)) j = get32 b (o + j).
Proof.
  intros Hn. assert (forall i, (i < n)%nat -> nth i (take n (drop o b)) 0 = nth (o + i) b 0) as He.
  { intros i Hi. by rewrite !nth_lookup, lookup_take_lt, lookup_drop by lia. }
  unfold get32. rewrite !He by lia. f_equal; f_equal; lia.
Qed.
Lemma get32_ext b c o : (forall i, (o <= i < o + 4)%nat -> b !! i = c !! i) -> get32 b o = get32 c o.
Proof. intros He. unfold get32. rewrite !nth_lookup, !He by lia. done. Qed.
Lemma get32_splice b off w b' : is_u32 w -> splice b off (bytes32 w) = Some b' -> get32 b' (Z.to_nat off) = w.
Proof.
  intros Hw. unfold splice. rewrite bytes32_length. destruct (_ && _) eqn:Hc; [|done]. intros [= <-].
  apply andb_true_iff in Hc as [?%Z.leb_le ?%Z.leb_le]. apply get32_at; [rewrite length_take; lia|done].
Qed.

(** ** Loops that the code does not bound

    [steps d step a] makes at most 2^d steps, until one of them returns a result. *)

Fixpoint steps {S A B} (d : nat) (step : A -> M S (A + B)) (a : A) : M S (A + B) :=
  match d with
  | O => step a
  | Datatypes.S d' =>
    r <- steps d' step a;;
    match r with
    | inl a' => steps d' step a'
    | inr b => ret (inr b)
    end
  end.
(** A loop that ends within 2^32 steps, more than there are cluster numbers *)
Definition loop {S A B} (step : A -> M S (A + B)) (a : A) : M S B :=
  r <- steps 32 step a;; match r with inl _ => nofuel | inr b => ret b end.

Lemma wp_steps {S A B} F (step : A -> M S (A + B)) (I : nat -> A -> S -> Prop) (Q : B -> S -> Prop) :
  (forall k a s, I k a s -> wp F (step a) (fun r s' => match r with inl a' => exists k', (k' < k)%nat /\ I k' a' s' | inr b => Q b s' end) s) ->
  forall d k a s, I k a s ->
    wp F (steps d step a) (fun r s' => match r with inl a' => exists k', (k' + 2 ^ d <= k)%nat /\ I k' a' s' | inr b => Q b s' end) s.
Proof.
  intros Hstep d. induction d as [|d IH]; intros k a s HI; cbn [steps].
  - eapply wp_mono; [by apply (Hstep k)|]. intros [a'|b] s' Hr; [|done]. destruct Hr as (k' & Hk & HI'). exists k'. simpl. split; [lia|done].
  - apply wp_bind. eapply wp_mono; [by apply (IH k)|]. intros [a'|b] s' Hr; [|by apply wp_ret].
    destruct Hr as (k' & Hk & HI'). eapply wp_mono; [by apply (IH k')|]. intros [a2|b2] s2 Hr2; [|done].
    destruct Hr2 as (k2 & Hk2 & HI2). exists k2. cbn [Nat.pow]. split; [lia|done].
Qed.
Lemma pow2_z n : Z.of_nat (2 ^ n) = 2 ^ Z.of_nat n.
Proof. rewrite Nat2Z.inj_pow. done. Qed.
(** The rule for loops: a measure below 2^32 that goes down. *)
Lemma wp_loop {S A B} F (step : A -> M S (A + B)) (I : nat -> A -> S -> Prop) (Q : B -> S -> Prop) k a s :
  (forall k a s, I k a s -> wp F (step a) (fun r s' => match r with inl a' => exists k', (k' < k)%nat /\ I k' a' s' | inr b => Q b s' end) s) ->
  I k a s -> Z.of_nat k < 4294967296 -> wp F (loop step a) Q s.
Proof.
  intros Hstep HI Hk. unfold loop. apply wp_bind. eapply wp_mono; [by eapply (wp_steps F step I Q Hstep 32 k)|].
  intros [a'|b] s' Hr; [|by apply wp_ret]. destruct Hr as (k' & Hle & _). exfalso.
  apply Nat2Z.inj_le in Hle. rewrite Nat2Z.inj_add, pow2_z in Hle. change (2 ^ Z.of_nat 32) with 4294967296 in Hle. lia.
Qed.
