(* ===== verification/Pmm.v ===== *)
(** * The physical page allocator, src/mm/pmm.c

    The bitmap with one bit for each 4 KiB frame, the counters, the frame allocator and the
    construction of the bitmap from the Multiboot2 memory map.  [pmm] is the file's static
    state; every function of the file is a definition with the same name.  The addresses of
    the linker symbols [_kernel_start] and [_kernel_end] are arguments of [pmm_init], the
    Multiboot2 information is read from a byte memory. *)
From S2P Require Import Prelude.

Definition PAGE_SIZE : Z := 4096.
Definition MAX_PAGES : Z := 1024 * 1024.

Record pmm := Pmm {
  pmm_bitmap : array;
  total_memory : Z;
  free_memory : Z;
  max_physical_page : Z
}.

Definition with_bitmap (a : array) (s : pmm) : pmm :=
  Pmm a (total_memory s) (free_memory s) (max_physical_page s).
Definition with_free_memory (v : Z) (s : pmm) : pmm :=
  Pmm (pmm_bitmap s) (total_memory s) v (max_physical_page s).
Definition with_total_memory (v : Z) (s : pmm) : pmm :=
  Pmm (pmm_bitmap s) v (free_memory s) (max_physical_page s).
Definition with_max_page (v : Z) (s : pmm) : pmm :=
  Pmm (pmm_bitmap s) (total_memory s) (free_memory s) v.

(** ** The bitmap macros *)

Definition BIT_SET (a : array) (i : Z) : option array :=
  match arr_get a (i / 8) with
  | Some b => arr_set a (i / 8) (u8 (Z.lor b (Z.shiftl 1 (i mod 8))))
  | None => None
  end.
Definition BIT_CLEAR (a : array) (i : Z) : option array :=
  match arr_get a (i / 8) with
  | Some b => arr_set a (i / 8) (u8 (Z.land b (Z.lnot (Z.shiftl 1 (i mod 8)))))
  | None => None
  end.
Definition BIT_TEST (a : array) (i : Z) : option bool :=
  match arr_get a (i / 8) with
  | Some b => Some (negb (Z.land b (Z.shiftl 1 (i mod 8)) =? 0))
  | None => None
  end.

Definition bit_test (i : Z) : M pmm bool :=
  s <- get;; lift_opt (BIT_TEST (pmm_bitmap s) i).

(** ** Operations *)

Definition mark_used (p : Z) : M pmm unit :=
  s <- get;;
  if p <? max_physical_page s then
    a <- lift_opt (BIT_SET (pmm_bitmap s) p);; modify (with_bitmap a)
  else ret tt.

Definition mark_free (p : Z) : M pmm unit :=
  s <- get;;
  if p <? max_physical_page s then
    a <- lift_opt (BIT_CLEAR (pmm_bitmap s) p);; modify (with_bitmap a)
  else ret tt.

(** [n] is the number of iterations left, max_physical_page - i. *)
Fixpoint find_free_page_loop (n : nat) (i : Z) : M pmm Z :=
  match n with
  | O => ret (-1)
  | S n' => b <- bit_test i;; if negb b then ret (s32 i) else find_free_page_loop n' (i + 1)
  end.
Definition find_free_page : M pmm Z :=
  s <- get;; find_free_page_loop (Z.to_nat (max_physical_page s)) 0.

(** The body of the loop of pmm_reserve_region. *)
Definition reserve_page (i : Z) : M pmm unit :=
  s <- get;;
  if i <? max_physical_page s then
    b <- bit_test i;;
    (if negb b then modify (fun s => with_free_memory (u64 (free_memory s - PAGE_SIZE)) s)
     else ret tt);;;
    mark_used i
  else ret tt.
Fixpoint reserve_loop (n : nat) (i : Z) : M pmm unit :=
  match n with
  | O => ret tt
  | S n' => reserve_page i;;; reserve_loop n' (i + 1)
  end.
Definition pmm_reserve_region (start end_ : Z) : M pmm unit :=
  let s := start / PAGE_SIZE in
  let e := u32 (end_ + PAGE_SIZE - 1) / PAGE_SIZE in
  reserve_loop (Z.to_nat (e - s)) s.

Definition pmm_alloc_page : M pmm Z :=
  idx <- find_free_page;;
  if idx <? 0 then ret 0
  else
    mark_used idx;;;
    modify (fun s => with_free_memory (u64 (free_memory s - PAGE_SIZE)) s);;;
    ret (u32 (idx * PAGE_SIZE)).

Definition pmm_free_page (addr : Z) : M pmm unit :=
  let idx := u32 addr / PAGE_SIZE in
  s <- get;;
  if max_physical_page s <=? idx then ret tt
  else
    b <- bit_test idx;;
    if b then
      mark_free idx;;;
      modify (fun s => with_free_memory (u64 (free_memory s + PAGE_SIZE)) s)
    else ret tt.

(** ** Construction from the Multiboot2 information *)

Definition MULTIBOOT_TAG_TYPE_MODULE : Z := 3.
Definition MULTIBOOT_TAG_TYPE_MMAP : Z := 6.
(** sizeof(multiboot_tag_mmap_t): four 32-bit fields before the entries. *)
Definition sizeof_mmap : Z := 16.

(** for(p = s; p < en && p < MAX_PAGES; p++) mark_free(p); *)
Fixpoint mark_free_loop (n : nat) (p : Z) : M pmm unit :=
  match n with
  | O => ret tt
  | S n' => mark_free p;;; mark_free_loop n' (p + 1)
  end.

Definition mmap_entry (mb : mem) (e : Z) : M pmm unit :=
  ty <- peek mb (load32 (e + 16));;
  if ty =? 1 then
    addr <- peek mb (load64 e);;
    len <- peek mb (load64 (e + 8));;
    let end_ := u64 (addr + len) in
    let s := addr / PAGE_SIZE in
    let en := end_ / PAGE_SIZE in
    modify (fun st => if max_physical_page st <? en then with_max_page en st else st);;;
    mark_free_loop (Z.to_nat (Z.min en MAX_PAGES - s)) s;;;
    modify (fun st => with_free_memory (u64 (free_memory st + len)) st);;;
    modify (fun st => with_total_memory (u64 (total_memory st + len)) st)
  else ret tt.

Fixpoint mmap_entries (mb : mem) (entries entry_size : Z) (n : nat) (i : Z) : M pmm unit :=
  match n with
  | O => ret tt
  | S n' =>
    mmap_entry mb (entries + u32 (i * entry_size));;;
    mmap_entries mb entries entry_size n' (i + 1)
  end.

Definition mmap_tag (mb : mem) (tag : Z) : M pmm unit :=
  size <- peek mb (load32 (tag + 4));;
  entry_size <- peek mb (load32 (tag + 8));;
  if entry_size =? 0 then fault
  else
    let entries := u32 (size - sizeof_mmap) / entry_size in
    mmap_entries mb (tag + sizeof_mmap) entry_size (Z.to_nat entries) 0.

Definition module_tag (mb : mem) (tag : Z) : M pmm unit :=
  mod_start <- peek mb (load32 (tag + 8));;
  mod_end <- peek mb (load32 (tag + 12));;
  pmm_reserve_region mod_start mod_end.

(** for(tag = first_tag; tag->type != 0; tag += (tag->size + 7) & ~7) with the body for the
    tags of type [want]. *)
Fixpoint tag_loop (fuel : nat) (mb : mem) (want : Z) (body : Z -> M pmm unit) (tag : Z) : M pmm unit :=
  match fuel with
  | O => nofuel
  | S f =>
    ty <- peek mb (load32 tag);;
    if ty =? 0 then ret tt
    else
      (if ty =? want then body tag else ret tt);;;
      size <- peek mb (load32 (tag + 4));;
      tag_loop f mb want body (tag + Z.land (u32 (size + 7)) (not32 7))
  end.

Definition pmm_init (fuel : nat) (mb : mem) (_kernel_start _kernel_end mb_info_addr : Z) : M pmm unit :=
  modify (fun s => with_bitmap (arr_memset (pmm_bitmap s) 0xFF) s);;;
  modify (with_total_memory 0);;;
  modify (with_free_memory 0);;;
  modify (with_max_page 0);;;
  tag_loop fuel mb MULTIBOOT_TAG_TYPE_MMAP (mmap_tag mb) (mb_info_addr + 8);;;
  pmm_reserve_region 0 0x100000;;;
  pmm_reserve_region _kernel_start _kernel_end;;;
  total_size <- peek mb (load32 mb_info_addr);;
  pmm_reserve_region mb_info_addr (u32 (mb_info_addr + total_size));;;
  tag_loop fuel mb MULTIBOOT_TAG_TYPE_MODULE (module_tag mb) (mb_info_addr + 8).

(** The static state at load time: everything zero. *)
Definition pmm_bss : pmm := Pmm (Array (MAX_PAGES / 8) 0 ∅) 0 0 0.

(** ** Specification vocabulary *)

(** The bit of frame p, read from the bitmap. *)
Definition pused (s : pmm) (p : Z) : bool :=
  match arr_get (pmm_bitmap s) (p / 8) with
  | Some b => Z.testbit b (p mod 8)
  | None => true
  end.

(** The bitmap has its declared size and the scan limit stays inside it. *)
Definition pmm_wf (s : pmm) : Prop :=
  arr_len (pmm_bitmap s) = MAX_PAGES / 8 /\ 0 <= max_physical_page s <= MAX_PAGES.

(** The set of allocatable frames. *)
Definition free_pages (s : pmm) : gset Z :=
  list_to_set (filter (fun p => pused s p = false) (seqZ 0 (max_physical_page s))).

(** Same counters and limits, whatever the bitmap. *)
Definition same_limits (s s' : pmm) : Prop :=
  arr_len (pmm_bitmap s') = arr_len (pmm_bitmap s) /\
  max_physical_page s' = max_physical_page s /\ total_memory s' = total_memory s.

Lemma elem_of_free_pages s p :
  p ∈ free_pages s <-> 0 <= p < max_physical_page s /\ pused s p = false.
Proof. unfold free_pages. rewrite elem_of_list_to_set, list_elem_of_filter, elem_of_seqZ. split; intros [??]; split; auto; lia. Qed.

Lemma same_limits_wf s s' : same_limits s s' -> pmm_wf s -> pmm_wf s'.
Proof. intros (E1 & E2 & _) [H1 H2]. unfold pmm_wf. by rewrite E1, E2. Qed.
Lemma same_limits_refl s : same_limits s s.
Proof. done. Qed.
Lemma same_limits_trans s1 s2 s3 : same_limits s1 s2 -> same_limits s2 s3 -> same_limits s1 s3.
Proof. unfold same_limits. intuition congruence. Qed.
#[export] Hint Resolve same_limits_refl same_limits_wf : word.

(** ** The bitmap macros compute the bits they name *)

Lemma byte_index p : 0 <= p -> 0 <= p / 8 /\ 0 <= p mod 8 < 8.
Proof. intros. split; word_lia. Qed.

(** The effect of a bitmap update that only touches bit p. *)
Lemma update_bit s p b v a :
  0 <= p -> arr_get (pmm_bitmap s) (p / 8) = Some b ->
  arr_set (pmm_bitmap s) (p / 8) (u8 v) = Some a ->
  (forall m, 0 <= m < 8 -> m <> p mod 8 -> Z.testbit v m = Z.testbit b m) ->
  forall q, 0 <= q ->
    pused (with_bitmap a s) q = if p =? q then Z.testbit v (p mod 8) else pused s q.
Proof.
  intros Hp Hb Ha Hv q Hq. unfold pused; simpl.
  destruct (byte_index p Hp), (byte_index q Hq).
  rewrite (arr_get_set _ _ _ _ _ Ha). case_decide as E.
  - rewrite u8_bit by done. destruct (Z.eqb_spec p q) as [->|Hne]; [done|].
    rewrite <-E, Hb. apply Hv; [done|]. intros E'. apply Hne. word_lia.
  - destruct (Z.eqb_spec p q); [by subst|done].
Qed.

Lemma in_bitmap s p :
  pmm_wf s -> 0 <= p < MAX_PAGES ->
  exists b, arr_get (pmm_bitmap s) (p / 8) = Some b /\
    forall v, exists a, arr_set (pmm_bitmap s) (p / 8) v = Some a.
Proof.
  intros [Hl _] Hp. assert (0 <= p / 8 < arr_len (pmm_bitmap s)) as Hi.
  { rewrite Hl. change (MAX_PAGES / 8) with 131072. unfold MAX_PAGES in Hp. word_lia. }
  destruct (proj2 (arr_get_in _ _) Hi) as [b Hb]. exists b. split; [done|].
  intros v. by apply arr_set_ok.
Qed.

Lemma bit_test_ok s p :
  pmm_wf s -> 0 <= p < max_physical_page s -> bit_test p s = Ok (pused s p, s).
Proof.
  intros Hwf Hp. destruct (in_bitmap s p Hwf) as (b & Hb & _); [destruct Hwf; lia|].
  unfold bit_test, bind, get, lift_opt, BIT_TEST, pused. rewrite Hb, land_pow2, negb_involutive; [done|].
  apply byte_index. lia.
Qed.

Lemma mark_used_ok s p :
  pmm_wf s -> 0 <= p < max_physical_page s ->
  exists s', mark_used p s = Ok (tt, s') /\ same_limits s s' /\ free_memory s' = free_memory s /\
    free_pages s' = free_pages s ∖ {[p]} /\
    forall q, 0 <= q -> pused s' q = if p =? q then true else pused s q.
Proof.
  intros Hwf Hp. destruct (in_bitmap s p Hwf) as (b & Hb & Hset); [destruct Hwf; lia|].
  destruct (byte_index p) as [_ Hm]; [lia|].
  destruct (Hset (u8 (Z.lor b (Z.shiftl 1 (p mod 8))))) as [a Ha].
  assert (forall q, 0 <= q -> pused (with_bitmap a s) q = if p =? q then true else pused s q) as Hbit.
  { intros q Hq. rewrite (update_bit s p b _ a ltac:(lia) Hb Ha); [|intros m ? ?|done].
    all: rewrite lor_pow2_bit by lia; bdestr; try lia; by rewrite ?orb_true_r, ?orb_false_r. }
  exists (with_bitmap a s). unfold mark_used, bind, get, lift_opt, modify, BIT_SET.
  rewrite (proj2 (Z.ltb_lt _ _)), Hb, Ha by lia.
  split_and!; [done| split_and!; [by eapply arr_set_len|done|done] |done| |done].
  apply set_eq. intros q. rewrite elem_of_difference, elem_of_singleton, !elem_of_free_pages; simpl.
  split; [intros [Hq Hu]|intros [[Hq Hu] Hne]]; first [rewrite Hbit in Hu by lia | rewrite Hbit by lia];
    bdestr; naive_solver.
Qed.

Lemma mark_free_ok s p :
  pmm_wf s -> 0 <= p < max_physical_page s ->
  exists s', mark_free p s = Ok (tt, s') /\ same_limits s s' /\ free_memory s' = free_memory s /\
    free_pages s' = {[p]} ∪ free_pages s /\
    forall q, 0 <= q -> pused s' q = if p =? q then false else pused s q.
Proof.
  intros Hwf Hp. destruct (in_bitmap s p Hwf) as (b & Hb & Hset); [destruct Hwf; lia|].
  destruct (byte_index p) as [_ Hm]; [lia|].
  destruct (Hset (u8 (Z.land b (Z.lnot (Z.shiftl 1 (p mod 8)))))) as [a Ha].
  assert (forall q, 0 <= q -> pused (with_bitmap a s) q = if p =? q then false else pused s q) as Hbit.
  { intros q Hq. rewrite (update_bit s p b _ a ltac:(lia) Hb Ha); [|intros m ? ?|done].
    all: rewrite ldiff_pow2_bit by lia; bdestr; try lia; by rewrite ?andb_true_r, ?andb_false_r. }
  exists (with_bitmap a s). unfold mark_free, bind, get, lift_opt, modify, BIT_CLEAR.
  rewrite (proj2 (Z.ltb_lt _ _)), Hb, Ha by lia.
  split_and!; [done| split_and!; [by eapply arr_set_len|done|done] |done| |done].
  apply set_eq. intros q. rewrite elem_of_union, elem_of_singleton, !elem_of_free_pages; simpl.
  split; [intros [Hq Hu]|intros [->|[Hq Hu]]]; first [rewrite Hbit in Hu by lia | rewrite Hbit by lia];
    bdestr; naive_solver.
Qed.

(** ** The frame allocator refines a set of free frames *)

Inductive pmm_op :=
| OpAlloc
| OpFree (addr : Z)
| OpReserve (start end_ : Z).

Definition exec (o : pmm_op) : M pmm Z :=
  match o with
  | OpAlloc => pmm_alloc_page
  | OpFree a => pmm_free_page a;;; ret 0
  | OpReserve s e => pmm_reserve_region s e;;; ret 0
  end.

Fixpoint exec_all (os : list pmm_op) : M pmm (list Z) :=
  match os with
  | [] => ret []
  | o :: os' => r <- exec o;; rs <- exec_all os';; ret (r :: rs)
  end.

(** The frames of a byte range, as pmm_reserve_region computes them. *)
Definition region (start end_ p : Z) : Prop :=
  start / PAGE_SIZE <= p < u32 (end_ + PAGE_SIZE - 1) / PAGE_SIZE.

(** What an operation does to the set X of free frames below max, and its result. *)
Inductive abs_step (max : Z) : gset Z -> pmm_op -> Z -> gset Z -> Prop :=
| abs_alloc_none : abs_step max ∅ OpAlloc 0 ∅
| abs_alloc X p :
    p ∈ X -> (forall q, q ∈ X -> p <= q) ->
    abs_step max X OpAlloc (p * PAGE_SIZE) (X ∖ {[p]})
| abs_free_in X a :
    u32 a / PAGE_SIZE < max -> abs_step max X (OpFree a) 0 ({[u32 a / PAGE_SIZE]} ∪ X)
| abs_free_out X a :
    max <= u32 a / PAGE_SIZE -> abs_step max X (OpFree a) 0 X
| abs_reserve X s e Y :
    (forall p, p ∈ Y <-> p ∈ X /\ ~ region s e p) -> abs_step max X (OpReserve s e) 0 Y.

(** The counter moves with the number of free frames. *)
Definition accounts (s s' : pmm) : Prop :=
  u64 (free_memory s' - PAGE_SIZE * Z.of_nat (size (free_pages s'))) =
  u64 (free_memory s - PAGE_SIZE * Z.of_nat (size (free_pages s))).

Lemma size_remove (X : gset Z) p : p ∈ X -> Z.of_nat (size (X ∖ {[p]})) = Z.of_nat (size X) - 1.
Proof.
  intros Hp. rewrite size_difference by set_solver. rewrite size_singleton.
  assert (size X <> 0)%nat by (rewrite size_non_empty_iff; set_solver). lia.
Qed.
Lemma size_add (X : gset Z) p : p ∉ X -> Z.of_nat (size ({[p]} ∪ X)) = Z.of_nat (size X) + 1.
Proof. intros Hp. rewrite size_union by set_solver. rewrite size_singleton. lia. Qed.

Lemma u64_sub_sub a b c : u64 (u64 (a - b) - c) = u64 (a - b - c).
Proof. unfold u64. by rewrite Zminus_mod_idemp_l. Qed.
Lemma u64_add_sub a b c : u64 (u64 (a + b) - c) = u64 (a + b - c).
Proof. unfold u64. by rewrite Zminus_mod_idemp_l. Qed.

Lemma find_free_page_loop_ok s n i :
  pmm_wf s -> 0 <= i -> i + Z.of_nat n = max_physical_page s ->
  (find_free_page_loop n i s = Ok (-1, s) /\ forall q, q ∈ free_pages s -> q < i) \/
  (exists p, find_free_page_loop n i s = Ok (p, s) /\ p ∈ free_pages s /\ i <= p /\
     forall q, q ∈ free_pages s -> i <= q -> p <= q).
Proof.
  intros Hwf. revert i. induction n as [|n IH]; intros i Hi Hn; simpl.
  - left. split; [done|]. intros q Hq%elem_of_free_pages. lia.
  - rewrite (bind_ok _ _ _ _ _ (bit_test_ok s i Hwf ltac:(lia))).
    destruct (pused s i) eqn:Hu; simpl.
    + destruct (IH (i + 1)) as [[E Hq]|(p & E & Hp & Hle & Hq)]; [lia|lia| |].
      * left. split; [done|]. intros q Hin. pose proof (Hq q Hin).
        apply elem_of_free_pages in Hin as [_ Hin]. destruct (decide (q = i)); [congruence|lia].
      * right. exists p. split_and!; [done|done|lia|]. intros q Hin Hge. apply Hq; [done|].
        apply elem_of_free_pages in Hin as [_ Hin]. destruct (decide (q = i)); [congruence|lia].
    + right. exists i. destruct Hwf as [_ Hmax]. unfold MAX_PAGES in Hmax. split_and!.
      * unfold ret, s32. rewrite u32_small by (unfold is_u32; lia). bdestr; [done|lia].
      * apply elem_of_free_pages. split; [lia|done].
      * lia.
      * intros q _ Hge. done.
Qed.

Lemma pmm_alloc_page_ok s :
  pmm_wf s ->
  exists r s', pmm_alloc_page s = Ok (r, s') /\ same_limits s s' /\ accounts s s' /\
    abs_step (max_physical_page s) (free_pages s) OpAlloc r (free_pages s').
Proof.
  intros Hwf. unfold pmm_alloc_page, find_free_page.
  destruct (find_free_page_loop_ok s (Z.to_nat (max_physical_page s)) 0 Hwf) as [[E Hq]|(p & E & Hp & Hle & Hq)].
  - lia.
  - destruct Hwf; lia.
  - exists 0, s. unfold bind, get. rewrite E. split_and!; [done..|].
    assert (free_pages s = ∅) as ->; [|constructor].
    apply set_eq. intros q. split; [|set_solver]. intros Hin. specialize (Hq q Hin).
    apply elem_of_free_pages in Hin. lia.
  - assert (Hpr := proj1 (elem_of_free_pages s p) Hp). destruct Hpr as [Hpr _].
    destruct (mark_used_ok s p Hwf Hpr) as (s1 & E1 & Hlim & Hmem & HX & _).
    exists (p * PAGE_SIZE), (with_free_memory (u64 (free_memory s1 - PAGE_SIZE)) s1).
    unfold bind at 1 2. unfold get. rewrite E. rewrite (proj2 (Z.ltb_ge _ _)) by lia.
    unfold bind, modify, ret. rewrite E1.
    assert (max_physical_page s <= MAX_PAGES) as Hmax by (destruct Hwf; lia). unfold MAX_PAGES in Hmax.
    rewrite u32_small by (unfold is_u32, PAGE_SIZE; lia).
    change (free_pages (with_free_memory _ s1)) with (free_pages s1).
    unfold accounts. change (free_pages (with_free_memory _ s1)) with (free_pages s1).
    rewrite HX, size_remove by done. split_and!; [done|done| |].
    + simpl. rewrite Hmem, u64_sub_sub. f_equal. lia.
    + constructor; [done|]. intros q Hin. apply Hq; [done|]. apply elem_of_free_pages in Hin. lia.
Qed.

Lemma pmm_free_page_ok s a :
  pmm_wf s ->
  exists s', pmm_free_page a s = Ok (tt, s') /\ same_limits s s' /\ accounts s s' /\
    abs_step (max_physical_page s) (free_pages s) (OpFree a) 0 (free_pages s').
Proof.
  intros Hwf. unfold pmm_free_page. set (idx := u32 a / PAGE_SIZE).
  assert (0 <= idx) as Hidx by (unfold idx, PAGE_SIZE; pose proof (u32_range a); word_lia).
  unfold bind at 1. unfold get at 1. destruct (Z.leb_spec (max_physical_page s) idx).
  { exists s. split_and!; [done..|]. by constructor. }
  rewrite (bind_ok _ _ _ _ _ (bit_test_ok s idx Hwf ltac:(lia))).
  destruct (pused s idx) eqn:Hu.
  - destruct (mark_free_ok s idx Hwf ltac:(lia)) as (s1 & E1 & Hlim & Hmem & HX & _).
    rewrite (bind_ok _ _ _ _ _ E1). unfold modify. eexists. split; [done|].
    unfold accounts. change (free_pages (with_free_memory _ s1)) with (free_pages s1).
    rewrite HX, size_add by (rewrite elem_of_free_pages; intros [_ ?]; congruence).
    split_and!; [done| |by constructor].
    simpl. rewrite Hmem, u64_add_sub. f_equal. lia.
  - exists s. split_and!; [done..|].
    assert (free_pages s = {[idx]} ∪ free_pages s) as E; [|rewrite E at 2; by constructor].
    apply set_eq. intros q. rewrite elem_of_union, elem_of_singleton. split; [tauto|].
    intros [->|]; [|done]. apply elem_of_free_pages. split; [lia|done].
Qed.

Lemma reserve_page_ok s i :
  pmm_wf s -> 0 <= i ->
  exists s', reserve_page i s = Ok (tt, s') /\ same_limits s s' /\ accounts s s' /\
    free_pages s' = free_pages s ∖ {[i]}.
Proof.
  intros Hwf Hi. unfold reserve_page. unfold bind at 1. unfold get at 1.
  destruct (Z.ltb_spec i (max_physical_page s)).
  2: { exists s. split_and!; [done..|]. apply set_eq. intros q.
       rewrite elem_of_difference, elem_of_singleton. split; [|tauto].
       intros Hq. split; [done|]. intros ->. apply elem_of_free_pages in Hq. lia. }
  rewrite (bind_ok _ _ _ _ _ (bit_test_ok s i Hwf ltac:(lia))).
  destruct (pused s i) eqn:Hu; simpl; unfold bind, ret, modify.
  - destruct (mark_used_ok s i Hwf ltac:(lia)) as (s1 & E1 & Hlim & Hmem & HX & _).
    exists s1. split_and!; [done..| |done]. unfold accounts. rewrite HX, Hmem.
    assert (free_pages s ∖ {[i]} = free_pages s) as ->; [|done].
    apply difference_disjoint_L, disjoint_singleton_r. rewrite elem_of_free_pages. intros [_ ?]; congruence.
  - set (s0 := with_free_memory _ s).
    destruct (mark_used_ok s0 i Hwf ltac:(done)) as (s1 & E1 & Hlim & Hmem & HX & _).
    change (free_pages s0) with (free_pages s) in HX.
    exists s1. split_and!; [done..| |done]. unfold accounts. rewrite HX, Hmem.
    rewrite size_remove by (apply elem_of_free_pages; split; [lia|done]).
    unfold s0; simpl. rewrite u64_sub_sub. f_equal. lia.
Qed.

Lemma reserve_loop_ok n : forall s i,
  pmm_wf s -> 0 <= i ->
  exists s', reserve_loop n i s = Ok (tt, s') /\ same_limits s s' /\ accounts s s' /\
    forall p, p ∈ free_pages s' <-> p ∈ free_pages s /\ ~ (i <= p < i + Z.of_nat n).
Proof.
  induction n as [|n IH]; intros s i Hwf Hi.
  { exists s. split_and!; [done..|]. intros p. split; [|tauto]. intros ?. split; [done|lia]. }
  destruct (reserve_page_ok s i Hwf Hi) as (s1 & E1 & Hlim & Hacc & HX).
  destruct (IH s1 (i + 1)) as (s2 & E2 & Hlim2 & Hacc2 & HX2); [by eapply same_limits_wf|lia|].
  exists s2. split_and!.
  - cbn [reserve_loop]. by rewrite (bind_ok _ _ _ _ _ E1).
  - by eapply same_limits_trans.
  - unfold accounts in *. congruence.
  - intros p. rewrite HX2, HX, elem_of_difference, elem_of_singleton. intuition lia.
Qed.

Lemma pmm_reserve_region_ok s a b :
  pmm_wf s -> is_u32 a ->
  exists s', pmm_reserve_region a b s = Ok (tt, s') /\ same_limits s s' /\ accounts s s' /\
    forall p, p ∈ free_pages s' <-> p ∈ free_pages s /\ ~ region a b p.
Proof.
  intros Hwf Ha. unfold pmm_reserve_region, region.
  set (st := a / PAGE_SIZE). set (e := u32 (b + PAGE_SIZE - 1) / PAGE_SIZE).
  destruct (reserve_loop_ok (Z.to_nat (e - st)) s st Hwf) as (s' & E & Hl & Hacc & HX).
  { unfold st, PAGE_SIZE. word_lia. }
  exists s'. split_and!; [done..|]. intros p. rewrite HX. intuition lia.
Qed.

(** A reservation starts at a 32-bit address. *)
Definition op_ok (o : pmm_op) : Prop :=
  match o with OpReserve s _ => is_u32 s | _ => True end.

Lemma exec_ok o s :
  pmm_wf s -> op_ok o ->
  exists r s', exec o s = Ok (r, s') /\ same_limits s s' /\ accounts s s' /\
    abs_step (max_physical_page s) (free_pages s) o r (free_pages s').
Proof.
  intros Hwf Ho. destruct o as [|a|a b]; simpl in *.
  - apply (pmm_alloc_page_ok s Hwf).
  - destruct (pmm_free_page_ok s a Hwf) as (s' & E & H). exists 0, s'. by rewrite (bind_ok _ _ _ _ _ E).
  - destruct (pmm_reserve_region_ok s a b Hwf Ho) as (s' & E & Hl & Hacc & HX). exists 0, s'.
    rewrite (bind_ok _ _ _ _ _ E). split_and!; [done..|]. by constructor.
Qed.

(** ** Sequences of operations *)

Inductive abs_run (max : Z) : gset Z -> list pmm_op -> list Z -> gset Z -> Prop :=
| run_nil X : abs_run max X [] [] X
| run_cons X o r Y os rs Y' :
    abs_step max X o r Y -> abs_run max Y os rs Y' -> abs_run max X (o :: os) (r :: rs) Y'.

Lemma exec_all_ok os : forall s,
  pmm_wf s -> Forall op_ok os ->
  exists rs s', exec_all os s = Ok (rs, s') /\ same_limits s s' /\ accounts s s' /\
    abs_run (max_physical_page s) (free_pages s) os rs (free_pages s').
Proof.
  induction os as [|o os IH]; intros s Hwf Hos.
  - exists [], s. split_and!; [done..|constructor].
  - apply list.Forall_cons in Hos as [Ho Hos].
    destruct (exec_ok o s Hwf Ho) as (r & s1 & E1 & Hl1 & Ha1 & Hstep).
    destruct (IH s1) as (rs & s2 & E2 & Hl2 & Ha2 & Hrun); [by eapply same_limits_wf|done|].
    exists (r :: rs), s2. cbn [exec_all]. rewrite (bind_ok _ _ _ _ _ E1), (bind_ok _ _ _ _ _ E2).
    split_and!; [done|by eapply same_limits_trans|unfold accounts in *; congruence|].
    destruct Hl1 as (_ & Hm & _). rewrite Hm in Hrun. by econstructor.
Qed.

(** A frame outside the free set is not handed out until it is freed. *)
Lemma abs_run_keeps max X os rs Y p :
  abs_run max X os rs Y -> 0 < p -> p ∉ X ->
  (forall a, OpFree a ∈ os -> u32 a / PAGE_SIZE <> p) ->
  forall i, os !! i = Some OpAlloc -> rs !! i <> Some (p * PAGE_SIZE).
Proof.
  induction 1 as [|X o r Z os rs Y Hstep _ IH]; intros Hp HX Hfree i; [done|].
  assert (p ∉ Z) as HZ.
  { destruct Hstep as [|X p' _ _|X a _| |X s e Y' HY]; try done; [set_solver| |naive_solver].
    pose proof (Hfree a ltac:(left)). set_solver. }
  destruct i as [|i]; simpl.
  - intros [= ->] [= ->]. inversion Hstep; subst; unfold PAGE_SIZE in *; [lia|].
    assert (p0 = p) by lia. by subst.
  - apply IH; [done..|]. intros a Ha. apply Hfree. by right.
Qed.

(** ** Parsing the memory map *)

(** The tags from address t to the end tag: their addresses and types. *)
Inductive tags_at (mb : mem) : Z -> list (Z * Z) -> Prop :=
| tags_end t : load32 t mb = Ok (0, mb) -> tags_at mb t []
| tags_tag t ty sz ts :
    load32 t mb = Ok (ty, mb) -> ty <> 0 -> load32 (t + 4) mb = Ok (sz, mb) ->
    tags_at mb (t + Z.land (u32 (sz + 7)) (not32 7)) ts -> tags_at mb t ((t, ty) :: ts).

(** The usable ranges among n entries of es bytes, numbered from i. *)
Inductive entries_at (mb : mem) (base es : Z) : nat -> Z -> list (Z * Z) -> Prop :=
| entries_end i : entries_at mb base es O i []
| entries_skip n i ty E :
    load32 (base + u32 (i * es) + 16) mb = Ok (ty, mb) -> ty <> 1 ->
    entries_at mb base es n (i + 1) E -> entries_at mb base es (S n) i E
| entries_use n i a l E :
    load32 (base + u32 (i * es) + 16) mb = Ok (1, mb) ->
    load64 (base + u32 (i * es)) mb = Ok (a, mb) ->
    load64 (base + u32 (i * es) + 8) mb = Ok (l, mb) ->
    entries_at mb base es n (i + 1) E -> entries_at mb base es (S n) i ((a, l) :: E).

Inductive mmap_at (mb : mem) (t : Z) (E : list (Z * Z)) : Prop :=
| mmap_at_intro sz es :
    load32 (t + 4) mb = Ok (sz, mb) -> load32 (t + 8) mb = Ok (es, mb) -> es <> 0 ->
    entries_at mb (t + sizeof_mmap) es (Z.to_nat (u32 (sz - sizeof_mmap) / es)) 0 E -> mmap_at mb t E.

(** The usable ranges of all memory-map tags, in order. *)
Inductive usable_at (mb : mem) : list (Z * Z) -> list (Z * Z) -> Prop :=
| usable_nil : usable_at mb [] []
| usable_skip t ty ts E : ty <> MULTIBOOT_TAG_TYPE_MMAP -> usable_at mb ts E -> usable_at mb ((t, ty) :: ts) E
| usable_mmap t ts E1 E2 :
    mmap_at mb t E1 -> usable_at mb ts E2 -> usable_at mb ((t, MULTIBOOT_TAG_TYPE_MMAP) :: ts) (E1 ++ E2).

(** The ranges of all module tags, in order. *)
Inductive modules_at (mb : mem) : list (Z * Z) -> list (Z * Z) -> Prop :=
| modules_nil : modules_at mb [] []
| modules_skip t ty ts R : ty <> MULTIBOOT_TAG_TYPE_MODULE -> modules_at mb ts R -> modules_at mb ((t, ty) :: ts) R
| modules_mod t ts s e R :
    load32 (t + 8) mb = Ok (s, mb) -> load32 (t + 12) mb = Ok (e, mb) -> is_u32 s ->
    modules_at mb ts R -> modules_at mb ((t, MULTIBOOT_TAG_TYPE_MODULE) :: ts) ((s, e) :: R).

(** A usable range of physical memory below 4 GiB. *)
Definition range_ok (r : Z * Z) : Prop :=
  0 <= fst r /\ 0 <= snd r /\ fst r + snd r <= MAX_PAGES * PAGE_SIZE.
(** Frame p lies in one of the ranges, as the initialisation rounds them. *)
Definition covered (E : list (Z * Z)) (p : Z) : Prop :=
  exists r, r ∈ E /\ fst r / PAGE_SIZE <= p < (fst r + snd r) / PAGE_SIZE.

(** The state while the map is read: the clear bits are the frames of the ranges seen. *)
Definition init_inv (E : list (Z * Z)) (s : pmm) : Prop :=
  pmm_wf s /\ forall p, 0 <= p -> (pused s p = false <-> covered E p) /\
                            (covered E p -> p < max_physical_page s).

Lemma mark_free_loop_ok n : forall s p,
  pmm_wf s -> 0 <= p -> p + Z.of_nat n <= max_physical_page s ->
  exists s', mark_free_loop n p s = Ok (tt, s') /\ same_limits s s' /\
    forall q, 0 <= q -> (pused s' q = false <-> pused s q = false \/ p <= q < p + Z.of_nat n).
Proof.
  induction n as [|n IH]; intros s p Hwf Hp Hn.
  { exists s. split_and!; [done..|]. intros q _. intuition lia. }
  destruct (mark_free_ok s p Hwf ltac:(lia)) as (s1 & E1 & Hl1 & _ & _ & Hb1).
  destruct (IH s1 (p + 1)) as (s2 & E2 & Hl2 & Hb2); [by eapply same_limits_wf|lia|destruct Hl1; lia|].
  exists s2. cbn [mark_free_loop]. rewrite (bind_ok _ _ _ _ _ E1).
  split_and!; [done|by eapply same_limits_trans|]. intros q Hq. rewrite Hb2, Hb1 by done.
  bdestr; intuition lia.
Qed.

Lemma covered_cons r E p :
  covered (r :: E) p <-> fst r / PAGE_SIZE <= p < (fst r + snd r) / PAGE_SIZE \/ covered E p.
Proof.
  unfold covered. split.
  - intros (x & Hx & ?). apply elem_of_cons in Hx as [->|]; eauto.
  - intros [?|(x & ? & ?)]; eexists; (split; [|done]); [left|by right].
Qed.
Lemma covered_app E1 E2 p : covered (E1 ++ E2) p <-> covered E1 p \/ covered E2 p.
Proof. unfold covered. setoid_rewrite elem_of_app. naive_solver. Qed.

Lemma peek_ok {S A} mb (c : M mem A) a (s : S) : c mb = Ok (a, mb) -> peek mb c s = Ok (a, s).
Proof. intros H. unfold peek. by rewrite H. Qed.

Lemma mmap_entry_use mb e a l E s :
  load32 (e + 16) mb = Ok (1, mb) -> load64 e mb = Ok (a, mb) -> load64 (e + 8) mb = Ok (l, mb) ->
  range_ok (a, l) -> init_inv E s ->
  exists s', mmap_entry mb e s = Ok (tt, s') /\ init_inv (E ++ [(a, l)]) s'.
Proof.
  intros H1 H2 H3 (Ha & Hlen & Hal) [Hwf Hbits]. cbn [fst snd] in *.
  unfold mmap_entry. rewrite (bind_ok _ _ _ _ _ (peek_ok mb _ _ s H1)). simpl.
  rewrite (bind_ok _ _ _ _ _ (peek_ok mb _ _ s H2)), (bind_ok _ _ _ _ _ (peek_ok mb _ _ s H3)).
  rewrite u64_small by (unfold is_u64, MAX_PAGES, PAGE_SIZE in *; lia).
  set (en := (a + l) / PAGE_SIZE).
  assert (0 <= a / PAGE_SIZE <= en /\ en <= MAX_PAGES) as [Hs Hen].
  { unfold en, MAX_PAGES, PAGE_SIZE in *. word_lia. }
  set (s0 := if max_physical_page s <? en then with_max_page en s else s).
  assert (pmm_wf s0 /\ max_physical_page s <= max_physical_page s0 /\ en <= max_physical_page s0 /\
          forall q, pused s0 q = pused s q) as (Hwf0 & Hm0 & Hen0 & Hb0).
  { unfold s0. destruct (Z.ltb_spec (max_physical_page s) en); [|by split_and!].
    destruct Hwf as [Hlb Hmx]. split_and!; [split; simpl; [done|lia]|simpl; lia|simpl; lia|done]. }
  rewrite Z.min_l by done.
  destruct (mark_free_loop_ok (Z.to_nat (en - a / PAGE_SIZE)) s0 (a / PAGE_SIZE) Hwf0)
    as (s1 & E1 & Hl1 & Hb1); [lia|lia|].
  unfold bind, modify. fold s0. rewrite E1. eexists. split; [done|].
  split; [exact (same_limits_wf _ _ Hl1 Hwf0)|].
  intros p Hp. rewrite covered_app, covered_cons. simpl. fold en.
  change (pused _ p) with (pused s1 p). rewrite Hb1, Hb0, (proj1 (Hbits p Hp)) by done.
  destruct Hl1 as (_ & Hmx & _). simpl. rewrite Hmx.
  assert (~ covered [] p) as Hnil by (intros (r & Hr & _); by apply not_elem_of_nil in Hr).
  split; [intuition lia|]. intros [Hc|[Hc|Hc]]; [|lia|done]. pose proof (proj2 (Hbits p Hp) Hc). lia.
Qed.

Lemma mmap_entries_ok mb base es n i E1 : entries_at mb base es n i E1 -> Forall range_ok E1 ->
  forall E s, init_inv E s ->
  exists s', mmap_entries mb base es n i s = Ok (tt, s') /\ init_inv (E ++ E1) s'.
Proof.
  induction 1 as [i|n i ty E1 Hty Hne _ IH|n i a l E1 H1 H2 H3 _ IH]; intros Hok E s Hinv.
  - exists s. by rewrite app_nil_r.
  - destruct (IH Hok E s Hinv) as (s' & E' & Hinv'). exists s'. split; [|done].
    cbn [mmap_entries]. unfold mmap_entry. unfold bind at 1 2. rewrite (peek_ok mb _ _ s Hty).
    by rewrite (proj2 (Z.eqb_neq _ _) Hne).
  - apply list.Forall_cons in Hok as [Hr Hok].
    destruct (mmap_entry_use mb _ a l E s H1 H2 H3 Hr Hinv) as (s1 & E1' & Hinv1).
    destruct (IH Hok (E ++ [(a, l)]) s1 Hinv1) as (s2 & E2 & Hinv2).
    exists s2. cbn [mmap_entries]. rewrite (bind_ok _ _ _ _ _ E1'). by rewrite <-app_assoc in Hinv2.
Qed.

Lemma mmap_tag_ok mb t E1 E s :
  mmap_at mb t E1 -> Forall range_ok E1 -> init_inv E s ->
  exists s', mmap_tag mb t s = Ok (tt, s') /\ init_inv (E ++ E1) s'.
Proof.
  intros [sz es Hsz Hes Hne Hent] Hok Hinv. unfold mmap_tag.
  rewrite (bind_ok _ _ _ _ _ (peek_ok mb _ _ s Hsz)), (bind_ok _ _ _ _ _ (peek_ok mb _ _ s Hes)).
  rewrite (proj2 (Z.eqb_neq _ _) Hne). by eapply mmap_entries_ok.
Qed.

(** The tag loop runs its body on the tags of the wanted type, in order. *)
Lemma tag_loop_step mb want body t ty sz s f :
  load32 t mb = Ok (ty, mb) -> ty <> 0 -> load32 (t + 4) mb = Ok (sz, mb) ->
  tag_loop (S f) mb want body t s =
  bind (if ty =? want then body t else ret tt)
       (fun _ => tag_loop f mb want body (t + Z.land (u32 (sz + 7)) (not32 7))) s.
Proof.
  intros H1 Hne H2. cbn [tag_loop]. rewrite (bind_ok _ _ _ _ _ (peek_ok mb _ _ s H1)).
  rewrite (proj2 (Z.eqb_neq _ _) Hne). unfold bind. destruct (_ s) as [[[] s1]| |]; [|done..].
  by rewrite (peek_ok mb _ _ s1 H2).
Qed.

Lemma mmap_loop_ok mb t ts : tags_at mb t ts -> forall E1, usable_at mb ts E1 -> Forall range_ok E1 ->
  forall fuel E s, (length ts < fuel)%nat -> init_inv E s ->
  exists s', tag_loop fuel mb MULTIBOOT_TAG_TYPE_MMAP (mmap_tag mb) t s = Ok (tt, s') /\
    init_inv (E ++ E1) s'.
Proof.
  induction 1 as [t H0|t ty sz ts H1 Hne H2 _ IH]; intros E1 HE Hok fuel E s Hf Hinv;
    (destruct fuel as [|f]; [simpl in Hf; lia|]).
  - inversion HE; subst. exists s. rewrite app_nil_r. cbn [tag_loop].
    by rewrite (bind_ok _ _ _ _ _ (peek_ok mb _ _ s H0)).
  - rewrite (tag_loop_step _ _ _ _ _ _ _ _ H1 Hne H2). simpl in Hf.
    inversion HE as [|? ? ? ? Hty HE'|? ? Em E2 Hm HE']; subst.
    + rewrite (proj2 (Z.eqb_neq _ _) Hty). apply IH; [done|done|lia|done].
    + rewrite Z.eqb_refl. apply Forall_app in Hok as [Hok1 Hok2].
      destruct (mmap_tag_ok mb t Em E s Hm Hok1 Hinv) as (s1 & Es & Hinv1).
      rewrite (bind_ok _ _ _ _ _ Es), app_assoc. apply IH; [done|done|lia|done].
Qed.

Lemma module_loop_ok mb t ts : tags_at mb t ts -> forall R, modules_at mb ts R ->
  forall fuel s, (length ts < fuel)%nat -> pmm_wf s ->
  exists s', tag_loop fuel mb MULTIBOOT_TAG_TYPE_MODULE (module_tag mb) t s = Ok (tt, s') /\
    same_limits s s' /\
    forall p, p ∈ free_pages s' <-> p ∈ free_pages s /\ forall r, r ∈ R -> ~ region (fst r) (snd r) p.
Proof.
  induction 1 as [t H0|t ty sz ts H1 Hne H2 _ IH]; intros R HR fuel s Hf Hwf;
    (destruct fuel as [|f]; [simpl in Hf; lia|]).
  - inversion HR; subst. exists s. cbn [tag_loop].
    rewrite (bind_ok _ _ _ _ _ (peek_ok mb _ _ s H0)). split_and!; [done..|].
    intros p. split; [|tauto]. intros ?. split; [done|]. intros r Hr. by apply not_elem_of_nil in Hr.
  - rewrite (tag_loop_step _ _ _ _ _ _ _ _ H1 Hne H2). simpl in Hf.
    inversion HR as [|? ? ? ? Hty HR'|? ? a b R' Ha Hb Hu HR']; subst.
    + rewrite (proj2 (Z.eqb_neq _ _) Hty). apply IH; [done|lia|done].
    + rewrite Z.eqb_refl.
      destruct (pmm_reserve_region_ok s a b Hwf Hu) as (s1 & Es & Hl1 & _ & HX1).
      destruct (IH R' HR' f s1) as (s2 & E2 & Hl2 & HX2); [lia|by eapply same_limits_wf|].
      exists s2. unfold bind at 1. unfold module_tag.
      rewrite (bind_ok _ _ _ _ _ (peek_ok mb _ _ s Ha)), (bind_ok _ _ _ _ _ (peek_ok mb _ _ s Hb)), Es.
      split_and!; [done|by eapply same_limits_trans|]. intros p. rewrite HX2, HX1.
      setoid_rewrite elem_of_cons. naive_solver.
Qed.

Lemma reserve_chain s R : pmm_wf s -> Forall (fun r => is_u32 (fst r)) R ->
  exists s', foldr (fun r k => pmm_reserve_region (fst r) (snd r);;; k) (ret tt) R s = Ok (tt, s') /\
    same_limits s s' /\
    forall p, p ∈ free_pages s' <-> p ∈ free_pages s /\ forall r, r ∈ R -> ~ region (fst r) (snd r) p.
Proof.
  revert s. induction R as [|r R IH]; intros s Hwf HR.
  - exists s. split_and!; [done..|]. intros p. split; [|tauto]. intros ?. split; [done|].
    intros r Hr. by apply not_elem_of_nil in Hr.
  - apply list.Forall_cons in HR as [Hr HR].
    destruct (pmm_reserve_region_ok s (fst r) (snd r) Hwf Hr) as (s1 & E1 & Hl1 & _ & HX1).
    destruct (IH s1) as (s2 & E2 & Hl2 & HX2); [by eapply same_limits_wf|done|].
    exists s2. cbn [foldr]. rewrite (bind_ok _ _ _ _ _ E1).
    split_and!; [done|by eapply same_limits_trans|]. intros p. rewrite HX2, HX1.
    setoid_rewrite elem_of_cons. naive_solver.
Qed.

(** Before the map is read every bit is set. *)
Lemma init_inv_start t f : init_inv [] (Pmm (arr_memset (pmm_bitmap pmm_bss) 0xFF) t f 0).
Proof.
  split; [split; simpl; [done|unfold MAX_PAGES; lia]|]. intros p Hp.
  assert (~ covered [] p) as Hnil by (intros (r & Hr & _); by apply not_elem_of_nil in Hr).
  split; [|tauto]. split; [|tauto]. unfold pused; simpl. rewrite arr_get_memset.
  destruct (arr_in _ _); [|done]. destruct (byte_index p Hp) as [_ Hm].
  assert (p mod 8 ∈ seqZ 0 8) as Hin by (apply elem_of_seqZ; lia). revert Hin. generalize (p mod 8). intros m' Hin.
  apply elem_of_seqZ in Hin.
  assert (m' = 0 \/ m' = 1 \/ m' = 2 \/ m' = 3 \/ m' = 4 \/ m' = 5 \/ m' = 6 \/ m' = 7) as Hc by lia.
  by destruct Hc as [->|[->|[->|[->|[->|[->|[->| ->]]]]]]].
Qed.

(** C1: every sequence of frame allocations, frees and reservations runs without touching
    memory outside the bitmap, its results and the set of clear bits follow the abstract
    set-of-free-frames allocator (lowest frame first), and the free-memory counter changes by
    exactly one page for each frame that enters or leaves the set. *)
Theorem pmm_trace_refines s os :
  pmm_wf s -> Forall op_ok os ->
  exists rs s', exec_all os s = Ok (rs, s') /\ pmm_wf s' /\ accounts s s' /\
    abs_run (max_physical_page s) (free_pages s) os rs (free_pages s').
Proof.
  intros Hwf Hos. destruct (exec_all_ok os s Hwf Hos) as (rs & s' & E & Hl & Ha & Hr).
  exists rs, s'. split_and!; [done|by eapply same_limits_wf|done|done].
Qed.

(** a frame handed out by pmm_alloc_page is not handed out again by any later sequence of
    operations that does not free it. *)
Theorem pmm_no_double_alloc s a s1 os rs s2 :
  pmm_wf s -> pmm_alloc_page s = Ok (a, s1) -> a <> 0 ->
  Forall op_ok os -> (forall x, OpFree x ∈ os -> u32 x / PAGE_SIZE <> a / PAGE_SIZE) ->
  exec_all os s1 = Ok (rs, s2) ->
  forall i, os !! i = Some OpAlloc -> rs !! i <> Some a.
Proof.
  intros Hwf E Ha Hos Hfree Eall i Hi.
  destruct (pmm_alloc_page_ok s Hwf) as (r & s' & E' & Hl & _ & Hstep). rewrite E in E'. injection E' as <- <-.
  destruct (exec_all_ok os s1) as (rs' & s2' & E2 & Hl2 & _ & Hrun); [by eapply same_limits_wf|done|].
  rewrite Eall in E2. injection E2 as <- <-.
  inversion Hstep as [|X p Hp Hmin| | |]; subst; [done|].
  assert (p * PAGE_SIZE / PAGE_SIZE = p) as Hd by (apply Z.div_mul; done). rewrite Hd in Hfree.
  apply elem_of_free_pages in Hp as [Hp _].
  eapply abs_run_keeps; [exact Hrun|unfold PAGE_SIZE in *; lia| |done|done]. set_solver.
Qed.

(** on a well-formed Multiboot2 description of memory below 4 GiB, pmm_init terminates
    without a fault and leaves exactly those frames allocatable that lie in a usable range and
    outside the low megabyte, the kernel image, the Multiboot2 information and every module. *)
Theorem pmm_init_free_set fuel mb ks ke a ts E R total :
  tags_at mb (a + 8) ts -> (length ts < fuel)%nat ->
  usable_at mb ts E -> Forall range_ok E -> modules_at mb ts R ->
  load32 a mb = Ok (total, mb) -> is_u32 ks -> is_u32 a ->
  exists s', pmm_init fuel mb ks ke a pmm_bss = Ok (tt, s') /\ pmm_wf s' /\
    forall p, p ∈ free_pages s' <->
      0 <= p /\ covered E p /\ ~ region 0 0x100000 p /\ ~ region ks ke p /\
      ~ region a (u32 (a + total)) p /\ (forall r, r ∈ R -> ~ region (fst r) (snd r) p).
Proof.
  intros Hts Hf HE Hok HR Htot Hks Ha. unfold pmm_init.
  set (s0 := Pmm (arr_memset (pmm_bitmap pmm_bss) 0xFF) 0 0 0).
  destruct (mmap_loop_ok mb _ ts Hts E HE Hok fuel [] s0 Hf (init_inv_start 0 0)) as (s1 & E1 & Hwf1 & Hb1).
  destruct (reserve_chain s1 [(0, 0x100000); (ks, ke); (a, u32 (a + total))] Hwf1) as (s2 & E2 & Hl2 & HX2).
  { repeat constructor; simpl; unfold is_u32 in *; lia. }
  destruct (module_loop_ok mb _ ts Hts R HR fuel s2 Hf) as (s3 & E3 & Hl3 & HX3); [by eapply same_limits_wf|].
  exists s3. split_and!; [| eapply same_limits_wf; [exact Hl3|]; by eapply same_limits_wf |].
  - unfold bind at 1 2 3 4. unfold modify. rewrite (bind_ok _ _ _ _ _ E1).
    revert E2. simpl. unfold bind, ret. intros E2.
    destruct (pmm_reserve_region 0 1048576 s1) as [[[] x1]| |]; [|done..].
    destruct (pmm_reserve_region ks ke x1) as [[[] x2]| |]; [|done..].
    rewrite (peek_ok mb _ _ x2 Htot).
    destruct (pmm_reserve_region a _ x2) as [[[] x3]| |]; [|done..]. by simplify_eq.
  - intros p. rewrite HX3, HX2, elem_of_free_pages.
    split.
    + intros ((([Hp0 Hp1] & Hu) & HR3) & HRm). specialize (Hb1 p Hp0) as [Hb _].
      split_and!; [done|by apply Hb|..|done].
      * apply (HR3 (0, 0x100000)). set_solver.
      * apply (HR3 (ks, ke)). set_solver.
      * apply (HR3 (a, u32 (a + total))). set_solver.
    + intros (Hp0 & Hc & H1 & H2 & H3 & HRm). specialize (Hb1 p Hp0) as [Hb Hmx].
      split; [split; [split; [split; [done|by apply Hmx]|by apply Hb]|]|done].
      intros r Hr. rewrite !elem_of_cons, elem_of_nil in Hr. naive_solver.
Qed.

(** the scan limit is not capped at the bitmap's size: once every frame below 4 GiB is in
    use, an allocation on a machine with memory above 4 GiB reads past the end of pmm_bitmap
    instead of reporting that memory is exhausted. *)
Theorem pmm_alloc_above_4g_faults s :
  arr_len (pmm_bitmap s) = MAX_PAGES / 8 -> MAX_PAGES < max_physical_page s ->
  (forall p, 0 <= p < MAX_PAGES -> pused s p = true) -> pmm_alloc_page s = Fault.
Proof.
  intros Hlen Hmax Hused. unfold pmm_alloc_page, find_free_page.
  assert (forall n i, 0 <= i <= MAX_PAGES -> MAX_PAGES < i + Z.of_nat n ->
          find_free_page_loop n i s = Fault) as Hloop.
  { induction n as [|n IH]; intros i Hi Hn; [lia|]. cbn [find_free_page_loop].
    unfold bind, bit_test, BIT_TEST, bind, get, lift_opt.
    destruct (decide (i = MAX_PAGES)) as [->|Hne].
    - destruct (arr_get _ _) eqn:Hg; [|done]. exfalso.
      assert (is_Some (arr_get (pmm_bitmap s) (MAX_PAGES / 8))) as H%arr_get_in by eauto. lia.
    - specialize (Hused i ltac:(lia)). unfold pused in Hused.
      assert (is_Some (arr_get (pmm_bitmap s) (i / 8))) as [b Hb].
      { apply arr_get_in. rewrite Hlen. unfold MAX_PAGES in *. word_lia. }
      rewrite Hb in *. rewrite land_pow2, Hused by (apply byte_index; lia). simpl.
      apply IH; lia. }
  unfold bind, get. rewrite Hloop; [done|unfold MAX_PAGES; lia|lia].
Qed.

(** ** Concrete instances *)

Definition small_pmm : pmm := Pmm (Array (MAX_PAGES / 8) 0 ∅) 65536 65536 16.

Lemma pmm_trace_refines_witness :
  exists rs s', exec_all [OpAlloc; OpAlloc; OpFree 0; OpReserve 0 8192; OpAlloc] small_pmm = Ok (rs, s') /\
    pmm_wf s' /\ accounts small_pmm s' /\
    abs_run 16 (free_pages small_pmm) [OpAlloc; OpAlloc; OpFree 0; OpReserve 0 8192; OpAlloc] rs (free_pages s').
Proof.
  apply (pmm_trace_refines small_pmm).
  - split; [reflexivity|vm_compute; split; congruence].
  - repeat constructor; simpl; unfold is_u32; lia.
Defined.

Lemma pmm_no_double_alloc_witness :
  [OpAlloc; OpFree 0; OpAlloc] !! 2%nat = Some OpAlloc /\ [8192; 0; 0] !! 2%nat <> Some 4096.
Proof.
  split; [reflexivity|].
  set (s0 := Pmm (Array (MAX_PAGES / 8) 0 {[0 := 1]}) 0 0 16).
  set (s1 := match pmm_alloc_page s0 with Ok (_, s) => s | _ => s0 end).
  set (s2 := match exec_all [OpAlloc; OpFree 0; OpAlloc] s1 with Ok (_, s) => s | _ => s0 end).
  apply (pmm_no_double_alloc s0 4096 s1 [OpAlloc; OpFree 0; OpAlloc] [8192; 0; 0] s2); [..|reflexivity].
  - split; [reflexivity|vm_compute; split; congruence].
  - vm_compute. reflexivity.
  - discriminate.
  - repeat constructor.
  - intros x Hx. rewrite !elem_of_cons, elem_of_nil in Hx.
    destruct Hx as [?|[Hx|[?|[]]]]; [discriminate| |discriminate]. injection Hx as ->. vm_compute. discriminate.
  - vm_compute. reflexivity.
Defined.

(** A Multiboot2 description: one memory-map tag with a usable and a reserved entry, one module. *)
Definition sample_mb : mem :=
  mem_of 0x9000
    (mjoin (bytes32 <$> [104; 0;
      6; 64; 24; 0;  0; 0; 0x400000; 0; 1; 0;  0x400000; 0; 0x1000; 0; 2; 0;
      3; 16; 0x200000; 0x201000;
      0; 8])).

Lemma pmm_init_free_set_witness :
  exists s', pmm_init 5 sample_mb 0x100000 0x180000 0x9000 pmm_bss = Ok (tt, s') /\ pmm_wf s' /\
    forall p, p ∈ free_pages s' <->
      0 <= p /\ covered [(0, 0x400000)] p /\ ~ region 0 0x100000 p /\ ~ region 0x100000 0x180000 p /\
      ~ region 0x9000 (u32 (0x9000 + 104)) p /\
      (forall r, r ∈ [(0x200000, 0x201000)] -> ~ region (fst r) (snd r) p).
Proof.
  apply (pmm_init_free_set 5 sample_mb 0x100000 0x180000 0x9000 [(0x9008, 6); (0x9048, 3)]).
  - apply (tags_tag _ _ 6 64); [eval_load|lia|eval_load|].
    apply (tags_tag _ _ 3 16); [eval_load|lia|eval_load|].
    apply tags_end. eval_load.
  - simpl. lia.
  - apply (usable_mmap _ _ _ [(0, 0x400000)] []).
    + apply (mmap_at_intro _ _ _ 64 24); [eval_load|eval_load|lia|].
      apply entries_use; [eval_load..|].
      apply (entries_skip _ _ _ _ _ 2); [eval_load|lia|]. apply entries_end.
    + apply usable_skip; [vm_compute; congruence|constructor].
  - repeat constructor; vm_compute; congruence.
  - apply modules_skip; [vm_compute; congruence|].
    apply modules_mod; [eval_load..|unfold is_u32; lia|constructor].
  - eval_load.
  - unfold is_u32; lia.
  - unfold is_u32; lia.
Defined.

Lemma pmm_alloc_above_4g_faults_witness :
  pmm_alloc_page (Pmm (Array (MAX_PAGES / 8) 0xFF ∅) 0 0 (MAX_PAGES + 1)) = Fault.
Proof.
  apply pmm_alloc_above_4g_faults; [reflexivity|simpl; lia|].
  intros p Hp. assert (exists f, init_inv [] (Pmm (arr_memset (pmm_bitmap pmm_bss) 0xFF) 0 f 0)) as [f [_ Hb]].
  { exists 0. apply init_inv_start. }
  destruct (Hb p (proj1 Hp)) as [[H _] _].
  destruct (pused _ p) eqn:Hu in |- *; [done|]. exfalso.
  destruct H as (r & Hr & _); [exact Hu|]. by apply not_elem_of_nil in Hr.
Defined.
