(* ===== verification/Heap.v ===== *)
(** * The kernel heap, src/mm/mem.c

    The first-fit allocator with its doubly linked list of block headers kept in the heap
    itself.  [heap] is the static state of the file together with the headers that lie in heap
    memory; a header is reached through its address, and reaching one on a page that is not
    mapped, or at an address that holds no header, is a fault.  The page mapper of
    src/mm/paging.c is used through the interface [PageMapper]. *)
From S2P Require Import Prelude.

(** What the heap uses of src/mm/paging.c, on a state V: vmm_map_page_alloc(virt, flags, NULL),
    vmm_virt_to_phys, and which addresses can be accessed without a page fault. *)
Class PageMapper (V : Type) := {
  vmm_map_page_alloc : Z -> Z -> M V Z;
  vmm_virt_to_phys : Z -> V -> option Z;
  page_mapped : V -> Z -> bool
}.

Record block_header := BlockHeader {
  size : Z;
  next : Z;
  prev : Z;
  free : Z
}.

Definition set_size (v : Z) (b : block_header) := BlockHeader v (next b) (prev b) (free b).
Definition set_next (v : Z) (b : block_header) := BlockHeader (size b) v (prev b) (free b).
Definition set_prev (v : Z) (b : block_header) := BlockHeader (size b) (next b) v (free b).
Definition set_free (v : Z) (b : block_header) := BlockHeader (size b) (next b) (prev b) v.

Record heap (V : Type) := Heap {
  hdrs : gmap Z block_header;
  heap_base : Z;
  heap_curr : Z;
  heap_commit_end : Z;
  heap_end : Z;
  heap_head : Z;
  heap_tail : Z;
  vm : V
}.
Arguments Heap {V}.
Arguments hdrs {V}.
Arguments heap_base {V}.
Arguments heap_curr {V}.
Arguments heap_commit_end {V}.
Arguments heap_end {V}.
Arguments heap_head {V}.
Arguments heap_tail {V}.
Arguments vm {V}.

Definition KHEAP_DEFAULT_START : Z := 0xC1000000.
Definition KHEAP_DEFAULT_SIZE : Z := 64 * 1024 * 1024.
(** sizeof(block_header_t): four 32-bit fields. *)
Definition HDR : Z := 16.
Definition MIN_SPLIT_SIZE : Z := 8.
Definition MIN_BLOCK_SIZE : Z := HDR + MIN_SPLIT_SIZE.
Definition HEAP_PAGE : Z := 4096.
(** PAGE_PRESENT | PAGE_RW *)
Definition HEAP_FLAGS : Z := 3.

Definition ALIGN4 (x : Z) : Z := Z.land (u32 (x + 3)) (not32 3).
Definition ALIGN_UP (x a : Z) : Z := Z.land (u32 (x + u32 (a - 1))) (not32 (u32 (a - 1))).
Definition PAGE_ALIGN_UP (x : Z) : Z := ALIGN_UP x 0x1000.

Definition align_up (val align : Z) : Z := if align =? 0 then val else ALIGN_UP val align.

Section Operations.
Context {V : Type} `{PageMapper V}.

Definition with_hdrs (m : gmap Z block_header) (h : heap V) : heap V :=
  Heap m (heap_base h) (heap_curr h) (heap_commit_end h) (heap_end h) (heap_head h) (heap_tail h) (vm h).
Definition with_base (v : Z) (h : heap V) : heap V :=
  Heap (hdrs h) v (heap_curr h) (heap_commit_end h) (heap_end h) (heap_head h) (heap_tail h) (vm h).
Definition with_curr (v : Z) (h : heap V) : heap V :=
  Heap (hdrs h) (heap_base h) v (heap_commit_end h) (heap_end h) (heap_head h) (heap_tail h) (vm h).
Definition with_commit_end (v : Z) (h : heap V) : heap V :=
  Heap (hdrs h) (heap_base h) (heap_curr h) v (heap_end h) (heap_head h) (heap_tail h) (vm h).
Definition with_end (v : Z) (h : heap V) : heap V :=
  Heap (hdrs h) (heap_base h) (heap_curr h) (heap_commit_end h) v (heap_head h) (heap_tail h) (vm h).
Definition with_head (v : Z) (h : heap V) : heap V :=
  Heap (hdrs h) (heap_base h) (heap_curr h) (heap_commit_end h) (heap_end h) v (heap_tail h) (vm h).
Definition with_tail (v : Z) (h : heap V) : heap V :=
  Heap (hdrs h) (heap_base h) (heap_curr h) (heap_commit_end h) (heap_end h) (heap_head h) v (vm h).
Definition with_vm (v : V) (h : heap V) : heap V :=
  Heap (hdrs h) (heap_base h) (heap_curr h) (heap_commit_end h) (heap_end h) (heap_head h) (heap_tail h) v.

(** The header at address a spans [a, a + 16), at most two pages. *)
Definition header_mapped (h : heap V) (a : Z) : bool :=
  page_mapped (vm h) a && page_mapped (vm h) (u32 (a + (HDR - 1))).

(** *p, and *p = b. *)
Definition hdr_get (a : Z) : M (heap V) block_header :=
  fun h => if header_mapped h a then
             match hdrs h !! a with Some b => Ok (b, h) | None => Fault end
           else Fault.
Definition hdr_put (a : Z) (b : block_header) : M (heap V) unit :=
  fun h => if header_mapped h a then Ok (tt, with_hdrs (<[a := b]> (hdrs h)) h) else Fault.
(** p->field = v *)
Definition upd (a : Z) (f : block_header -> block_header) : M (heap V) unit :=
  b <- hdr_get a;; hdr_put a (f b).

(** while (p < align) p <<= 1; 32 doublings reach every 32-bit alignment up to 2^31, and past
    that p becomes 0 and the loop does not end. *)
Fixpoint pow2_loop (fuel : nat) (p align : Z) : M (heap V) Z :=
  match fuel with
  | O => nofuel
  | S f => if p <? align then pow2_loop f (u32 (Z.shiftl p 1)) align else ret p
  end.
Definition normalize_align (align : Z) : M (heap V) Z :=
  if align <? 2 then ret 0
  else
    align <- (if negb (Z.land align (u32 (align - 1)) =? 0) then pow2_loop 33 1 align else ret align);;
    ret (if align <? 4 then 4 else align).

Definition block_end (a : Z) : M (heap V) Z :=
  b <- hdr_get a;; ret (u32 (a + HDR + size b)).

Definition blocks_adjacent (a b : Z) : M (heap V) bool :=
  e <- block_end a;; ret (e =? b).

(** A new free header nxt of size sz behind block: the same statements in split_block and in
    allocate_from_block. *)
Definition link_after (block nxt sz : Z) : M (heap V) unit :=
  b <- hdr_get block;;
  hdr_put nxt (BlockHeader sz (next b) block 1);;;
  (if negb (next b =? 0) then upd (next b) (set_prev nxt) else ret tt);;;
  upd block (set_next nxt);;;
  h <- get;;
  if heap_tail h =? block then modify (with_tail nxt) else ret tt.

Definition split_block (block sz : Z) : M (heap V) unit :=
  b <- hdr_get block;;
  if size b <=? sz then ret tt
  else
    let remaining := u32 (size b - sz) in
    if remaining <? MIN_BLOCK_SIZE then ret tt
    else
      let nxt := u32 (block + HDR + sz) in
      link_after block nxt (u32 (remaining - HDR));;;
      upd block (set_size sz).

(** The result is *out_header when the block fits. *)
Definition block_can_fit (block sz align : Z) : M (heap V) (option Z) :=
  let start := block in
  let payload := u32 (start + HDR) in
  let aligned_payload := if negb (align =? 0) then align_up payload align else payload in
  let aligned_header := u32 (aligned_payload - HDR) in
  end_ <- block_end block;;
  if end_ <? u32 (aligned_payload + sz) then ret None
  else
    let leading := u32 (aligned_header - start) in
    if negb (leading =? 0) && (leading <? MIN_BLOCK_SIZE) then ret None
    else ret (Some aligned_header).

(** The list has at most as many blocks as there are headers. *)
Fixpoint find_free_loop (fuel : nat) (cur sz align : Z) : M (heap V) (option (Z * Z)) :=
  match fuel with
  | O => nofuel
  | S f =>
    if cur =? 0 then ret None
    else
      b <- hdr_get cur;;
      if free b =? 0 then find_free_loop f (next b) sz align
      else
        o <- block_can_fit cur sz align;;
        match o with
        | Some hd => ret (Some (cur, hd))
        | None => find_free_loop f (next b) sz align
        end
  end.
Definition find_free_block (sz align : Z) : M (heap V) (option (Z * Z)) :=
  h <- get;; find_free_loop (S (base.size (hdrs h))) (heap_head h) sz align.

Definition allocate_from_block (block aligned_header sz : Z) : M (heap V) Z :=
  let start := block in
  end_ <- block_end block;;
  block <- (if negb (aligned_header =? start) then
              let leading := u32 (aligned_header - start) in
              upd block (set_size (u32 (leading - HDR)));;;
              upd block (set_free 1);;;
              link_after block aligned_header (u32 (end_ - (aligned_header + HDR)));;;
              ret aligned_header
            else ret block);;
  split_block block sz;;;
  upd block (set_free 0);;;
  ret (u32 (block + HDR)).

Fixpoint commit_loop (fuel : nat) (addr new_commit_end : Z) : M (heap V) Z :=
  match fuel with
  | O => nofuel
  | S f =>
    if addr <? new_commit_end then
      h <- get;;
      match vmm_map_page_alloc addr HEAP_FLAGS (vm h) with
      | Ok (r, v) =>
        modify (with_vm v);;;
        if negb (r =? 0) then ret (-1) else commit_loop f (u32 (addr + HEAP_PAGE)) new_commit_end
      | Fault => fault
      | NoFuel => nofuel
      end
    else ret 0
  end.
(** At most one iteration for each page of the interval, and the final test. *)
Definition heap_commit_to (need_end : Z) : M (heap V) Z :=
  let new_commit_end := PAGE_ALIGN_UP need_end in
  h <- get;;
  if new_commit_end <=? heap_commit_end h then ret 0
  else
    r <- commit_loop (S (S (Z.to_nat ((new_commit_end - heap_commit_end h) / HEAP_PAGE))))
           (heap_commit_end h) new_commit_end;;
    if negb (r =? 0) then ret (-1)
    else modify (with_commit_end new_commit_end);;; ret 0.

(** Appending a header to the list: gap_block and block of allocate_new_block. *)
Definition append_block (a sz fr : Z) : M (heap V) unit :=
  h <- get;;
  hdr_put a (BlockHeader sz 0 (heap_tail h) fr);;;
  (if negb (heap_tail h =? 0) then upd (heap_tail h) (set_next a) else modify (with_head a));;;
  modify (with_tail a).

(** The bytes between the old end of the heap and the aligned header: a free block of their
    own when they are enough for one, given to a free last block otherwise. *)
Definition fill_gap (start aligned_header : Z) : M (heap V) unit :=
  h <- get;;
  if start <? aligned_header then
    let gap := u32 (aligned_header - start) in
    if MIN_BLOCK_SIZE <=? gap then append_block start (u32 (gap - HDR)) 1
    else
      if (0 <? gap) && negb (heap_tail h =? 0) then
        t <- hdr_get (heap_tail h);;
        if negb (free t =? 0) then
          adj <- blocks_adjacent (heap_tail h) start;;
          if adj then upd (heap_tail h) (set_size (u32 (size t + gap))) else ret tt
        else ret tt
      else ret tt
  else ret tt.

Definition allocate_new_block (sz align : Z) : M (heap V) Z :=
  h <- get;;
  let start := heap_curr h in
  let payload := u32 (start + HDR) in
  let aligned_payload := if negb (align =? 0) then align_up payload align else payload in
  let aligned_header := u32 (aligned_payload - HDR) in
  let end_ := u32 (aligned_header + HDR + sz) in
  if heap_end h <? end_ then ret 0
  else
    r <- heap_commit_to end_;;
    if negb (r =? 0) then ret 0
    else
      fill_gap start aligned_header;;;
      append_block aligned_header sz 0;;;
      modify (with_curr end_);;;
      ret (u32 (aligned_header + HDR)).

Definition kmalloc_internal (sz align : Z) : M (heap V) Z :=
  if sz =? 0 then ret 0
  else
    let sz := ALIGN4 sz in
    align <- normalize_align align;;
    o <- find_free_block sz align;;
    match o with
    | Some (block, aligned_header) => allocate_from_block block aligned_header sz
    | None => allocate_new_block sz align
    end.

Definition kmalloc_init (heap_start heap_end_addr : Z) : M (heap V) unit :=
  modify (with_base (if negb (heap_start =? 0) then PAGE_ALIGN_UP heap_start else KHEAP_DEFAULT_START));;;
  h <- get;;
  modify (with_end (if negb (heap_end_addr =? 0) then heap_end_addr else u32 (heap_base h + KHEAP_DEFAULT_SIZE)));;;
  modify (with_curr (heap_base h));;;
  modify (with_commit_end (heap_base h));;;
  modify (with_head 0);;;
  modify (with_tail 0);;;
  heap_commit_to (u32 (heap_base h + 1));;;
  ret tt.

(** The second component is what is stored through phys_addr when the caller passes one. *)
Definition kmalloc (sz align : Z) (want_phys : bool) : M (heap V) (Z * option Z) :=
  let use_align := if negb (align =? 0) then HEAP_PAGE else 0 in
  res <- kmalloc_internal sz use_align;;
  if res =? 0 then ret (0, None)
  else
    h <- get;;
    if want_phys then
      match vmm_virt_to_phys res (vm h) with
      | Some phys => ret (res, Some phys)
      | None => ret (res, Some res)
      end
    else ret (res, None).

Definition kmalloc_aligned (sz align : Z) : M (heap V) Z := kmalloc_internal sz align.

(** a takes over its successor b in the list: the same statements in both halves of kfree. *)
Definition absorb (a b : Z) : M (heap V) unit :=
  ha <- hdr_get a;;
  hb <- hdr_get b;;
  upd a (set_size (u32 (size ha + HDR + size hb)));;;
  upd a (set_next (next hb));;;
  (if negb (next hb =? 0) then upd (next hb) (set_prev a) else ret tt);;;
  h <- get;;
  if heap_tail h =? b then modify (with_tail a) else ret tt.

Definition coalesce_next (block : Z) : M (heap V) unit :=
  b <- hdr_get block;;
  if negb (next b =? 0) then
    n <- hdr_get (next b);;
    if negb (free n =? 0) then
      adj <- blocks_adjacent block (next b);;
      if adj then absorb block (next b) else ret tt
    else ret tt
  else ret tt.

Definition coalesce_prev (block : Z) : M (heap V) unit :=
  b <- hdr_get block;;
  if negb (prev b =? 0) then
    p <- hdr_get (prev b);;
    if negb (free p =? 0) then
      adj <- blocks_adjacent (prev b) block;;
      if adj then absorb (prev b) block else ret tt
    else ret tt
  else ret tt.

Definition kfree (ptr : Z) : M (heap V) unit :=
  if ptr =? 0 then ret tt
  else
    let block := u32 (ptr - HDR) in
    upd block (set_free 1);;;
    coalesce_next block;;;
    coalesce_prev block.

End Operations.

(** ** The contract of the page mapper *)

Class PageMapperOk (V : Type) `{PageMapper V} := {
  (** the states the mapper works in, and the kernel addresses it can map *)
  pm_ok : V -> Prop;
  pm_dom : Z -> Prop;
  pm_map_spec : forall v a, pm_ok v -> pm_dom a ->
    exists r v', vmm_map_page_alloc a HEAP_FLAGS v = Ok (r, v') /\ pm_ok v' /\
      (forall b, pm_dom b -> page_mapped v b = true -> page_mapped v' b = true) /\
      (r = 0 -> forall b, b / HEAP_PAGE = a / HEAP_PAGE -> page_mapped v' b = true)
}.

(** ** Blocks as a list

    [blk] is a block as the list of headers presents it: the address of its header, the size of
    its payload and the free flag. *)

Record blk := Blk { b_addr : Z; b_size : Z; b_free : Z }.
Definition b_end (b : blk) : Z := b_addr b + HDR + b_size b.

#[global] Instance blk_eq_dec : EqDecision blk.
Proof. solve_decision. Defined.

Definition hd_addr (bs : list blk) (d : Z) : Z := match bs with [] => d | b :: _ => b_addr b end.
Fixpoint last_addr (d : Z) (bs : list blk) : Z :=
  match bs with [] => d | b :: bs' => last_addr (b_addr b) bs' end.

(** The headers of bs are linked in this order, the first one's prev field is p and the last
    one's next field is n. *)
Fixpoint lseg (m : gmap Z block_header) (p : Z) (bs : list blk) (n : Z) : Prop :=
  match bs with
  | [] => True
  | b :: bs' =>
    m !! b_addr b = Some (BlockHeader (b_size b) (hd_addr bs' n) p (b_free b)) /\
    lseg m (b_addr b) bs' n
  end.

(** The blocks lie in [lo, hi) in increasing order, without overlap, on 4-byte boundaries. *)
Fixpoint chain (lo : Z) (bs : list blk) (hi : Z) : Prop :=
  match bs with
  | [] => lo <= hi
  | b :: bs' =>
    lo <= b_addr b /\ b_addr b mod 4 = 0 /\ 0 <= b_size b /\ b_size b mod 4 = 0 /\
    (b_free b = 0 \/ b_free b = 1) /\ chain (b_end b) bs' hi
  end.

Lemma hd_addr_app xs ys n : hd_addr (xs ++ ys) n = hd_addr xs (hd_addr ys n).
Proof. by destruct xs. Qed.
Lemma last_addr_app p xs ys : last_addr p (xs ++ ys) = last_addr (last_addr p xs) ys.
Proof. revert p. induction xs; simpl; auto. Qed.

Lemma lseg_app m p xs ys n :
  lseg m p (xs ++ ys) n <-> lseg m p xs (hd_addr ys n) /\ lseg m (last_addr p xs) ys n.
Proof.
  revert p. induction xs as [|b xs IH]; intros p; simpl; [tauto|].
  rewrite IH, hd_addr_app. tauto.
Qed.

Lemma chain_app lo xs ys hi : chain lo (xs ++ ys) hi <-> exists mid, chain lo xs mid /\ chain mid ys hi.
Proof.
  revert lo. induction xs as [|b xs IH]; intros lo; simpl.
  - split; [intros H; exists lo; split; [lia|done]|]. intros (mid & Hle & Hc).
    destruct ys as [|y ys]; simpl in *; [lia|]. intuition lia.
  - rewrite IH. naive_solver.
Qed.

Lemma chain_le lo bs hi : chain lo bs hi -> lo <= hi.
Proof.
  revert lo. induction bs as [|b bs IH]; intros lo; simpl; [done|].
  intros (? & _ & ? & _ & _ & Hc%IH). unfold b_end, HDR in *. lia.
Qed.

Lemma chain_weaken lo bs hi lo' hi' : chain lo bs hi -> lo' <= lo -> hi <= hi' -> chain lo' bs hi'.
Proof.
  revert lo lo'. induction bs as [|b bs IH]; intros lo lo'; simpl; [lia|].
  intros (? & ? & ? & ? & ? & Hc) ? ?. split_and!; try done; try lia. eapply IH; [done|lia|lia].
Qed.

Lemma chain_bounds lo bs hi b : chain lo bs hi -> b ∈ bs ->
  lo <= b_addr b /\ 0 <= b_size b /\ b_end b <= hi.
Proof.
  intros Hc (xs & ys & ->)%list_elem_of_split. apply chain_app in Hc as (mid & Hx & Hy).
  apply chain_le in Hx. simpl in Hy. destruct Hy as (? & _ & ? & _ & _ & Hy%chain_le). lia.
Qed.

(** Blocks before and after a block stay clear of its bytes. *)
Lemma chain_clear lo xs b ys hi c :
  chain lo (xs ++ b :: ys) hi -> c ∈ xs ++ ys -> b_end c <= b_addr b \/ b_end b <= b_addr c.
Proof.
  intros (mid & Hx & Hy)%chain_app [Hc|Hc]%elem_of_app.
  - simpl in Hy. destruct Hy as (? & _). pose proof (chain_bounds _ _ _ _ Hx Hc). lia.
  - simpl in Hy. destruct Hy as (_ & _ & ? & _ & _ & Hy). pose proof (chain_bounds _ _ _ _ Hy Hc). lia.
Qed.

(** No header address of another block lies in the bytes of b. *)
Lemma chain_ne lo xs b ys hi a :
  chain lo (xs ++ b :: ys) hi -> b_addr b <= a < b_end b -> forall c, c ∈ xs ++ ys -> b_addr c <> a.
Proof.
  intros Hch Ha c Hc E. pose proof (chain_clear _ _ _ _ _ _ Hch Hc).
  assert (0 <= b_size c).
  { apply (chain_bounds _ _ _ _ Hch). rewrite elem_of_app in *. rewrite elem_of_cons. tauto. }
  unfold b_end, HDR in *. lia.
Qed.

(** ** Relinking a list of headers

    Each lemma gives the lookups that must hold in the new header map for one change of the
    list, so that any order of field updates can be used. *)

Lemma lseg_ext m m' p bs n :
  (forall b, b ∈ bs -> m' !! b_addr b = m !! b_addr b) -> lseg m p bs n -> lseg m' p bs n.
Proof.
  revert p. induction bs as [|b bs IH]; intros p He; simpl; [done|].
  intros [Hb Hs]. split; [rewrite He by left; done|]. apply IH; [|done]. intros c Hc. apply He. by right.
Qed.

(** The node after a change: only its prev field moves. *)
Definition relinked (m m' : gmap Z block_header) (ys : list blk) (p' : Z) : Prop :=
  match ys with
  | [] => True
  | y :: ys' => m' !! b_addr y = set_prev p' <$> m !! b_addr y /\
                forall c, c ∈ ys' -> m' !! b_addr c = m !! b_addr c
  end.

Lemma lseg_relink m m' p p' ys n : relinked m m' ys p' -> lseg m p ys n -> lseg m' p' ys n.
Proof.
  destruct ys as [|y ys]; simpl; [done|]. intros [Hy Hys] [Hm Hs]. split.
  - by rewrite Hy, Hm.
  - by apply (lseg_ext m).
Qed.

Lemma lseg_replace m m' xs b ys s f :
  lseg m 0 (xs ++ b :: ys) 0 ->
  (forall c, c ∈ xs ++ ys -> m' !! b_addr c = m !! b_addr c) ->
  m' !! b_addr b = Some (BlockHeader s (hd_addr ys 0) (last_addr 0 xs) f) ->
  lseg m' 0 (xs ++ Blk (b_addr b) s f :: ys) 0.
Proof.
  rewrite !lseg_app. intros [Hx [_ Hy]] He Hb. split; [|split; [done|]].
  - apply (lseg_ext m); [|done]. intros c Hc. apply He, elem_of_app. by left.
  - apply (lseg_ext m); [|done]. intros c Hc. apply He, elem_of_app. by right.
Qed.

Lemma lseg_divide m m' xs b ys s1 f1 a2 s2 f2 :
  lseg m 0 (xs ++ b :: ys) 0 ->
  (forall c, c ∈ xs -> m' !! b_addr c = m !! b_addr c) -> relinked m m' ys a2 ->
  m' !! b_addr b = Some (BlockHeader s1 a2 (last_addr 0 xs) f1) ->
  m' !! a2 = Some (BlockHeader s2 (hd_addr ys 0) (b_addr b) f2) ->
  lseg m' 0 (xs ++ Blk (b_addr b) s1 f1 :: Blk a2 s2 f2 :: ys) 0.
Proof.
  rewrite !lseg_app. intros [Hx [_ Hy]] He Hr Hb Ha. split; [by apply (lseg_ext m)|].
  split; [done|]. split; [done|]. by apply (lseg_relink m m' (b_addr b)).
Qed.

Lemma lseg_merge m m' xs b1 b2 ys s f :
  lseg m 0 (xs ++ b1 :: b2 :: ys) 0 ->
  (forall c, c ∈ xs -> m' !! b_addr c = m !! b_addr c) -> relinked m m' ys (b_addr b1) ->
  m' !! b_addr b1 = Some (BlockHeader s (hd_addr ys 0) (last_addr 0 xs) f) ->
  lseg m' 0 (xs ++ Blk (b_addr b1) s f :: ys) 0.
Proof.
  rewrite !lseg_app. intros [Hx [_ [_ Hy]]] He Hr Hb. split; [by apply (lseg_ext m)|].
  split; [done|]. by apply (lseg_relink m m' (b_addr b2)).
Qed.

Lemma lseg_append m m' bs a s f :
  lseg m 0 bs 0 ->
  (forall xs t, bs = xs ++ [t] ->
     m' !! b_addr t = set_next a <$> m !! b_addr t /\ forall c, c ∈ xs -> m' !! b_addr c = m !! b_addr c) ->
  m' !! a = Some (BlockHeader s 0 (last_addr 0 bs) f) ->
  lseg m' 0 (bs ++ [Blk a s f]) 0.
Proof.
  intros Hs He Ha. destruct bs as [|t xs _] using rev_ind; [by split|].
  destruct (He xs t eq_refl) as [Ht Hx]. rewrite last_addr_app in Ha. simpl in Ha.
  rewrite lseg_app in Hs. destruct Hs as [Hs [Hm _]]. rewrite <-app_assoc. simpl.
  rewrite lseg_app. simpl. split_and!; [by apply (lseg_ext m)| |done|done].
  by rewrite Ht, Hm.
Qed.

(** The header of a block of the list. *)
Lemma lseg_node m xs b ys n :
  lseg m 0 (xs ++ b :: ys) n ->
  m !! b_addr b = Some (BlockHeader (b_size b) (hd_addr ys n) (last_addr 0 xs) (b_free b)).
Proof. rewrite lseg_app. by intros [_ [? _]]. Qed.

Lemma chain_replace lo xs b cs ys hi :
  chain lo (xs ++ b :: ys) hi -> chain (b_addr b) cs (b_end b) -> chain lo (xs ++ cs ++ ys) hi.
Proof.
  intros (mid & Hx & Hb)%chain_app Hcs. simpl in Hb. destruct Hb as (Hle & _ & _ & _ & _ & Hy).
  apply chain_app. exists mid. split; [done|]. apply chain_app. exists (b_end b). split; [|done].
  by apply (chain_weaken (b_addr b) _ (b_end b)).
Qed.

(** ** The heap invariant *)

Section Spec.
Context {V : Type} `{PageMapperOk V}.

Record heap_inv (h : heap V) (bs : list blk) : Prop := {
  hi_head : heap_head h = hd_addr bs 0;
  hi_tail : heap_tail h = last_addr 0 bs;
  hi_lseg : lseg (hdrs h) 0 bs 0;
  hi_chain : chain (heap_base h) bs (heap_curr h);
  hi_base : 0 < heap_base h /\ heap_base h mod HEAP_PAGE = 0;
  hi_curr : heap_curr h mod 4 = 0 /\ heap_curr h <= heap_commit_end h /\ heap_curr h <= heap_end h;
  hi_commit : heap_commit_end h mod HEAP_PAGE = 0 /\ heap_base h <= heap_commit_end h < heap_end h + HEAP_PAGE;
  hi_end : heap_end h + 2 * HEAP_PAGE <= 4294967296;
  hi_mapped : forall a, heap_base h <= a < heap_commit_end h -> page_mapped (vm h) a = true;
  hi_vm : pm_ok (vm h);
  hi_dom : forall a, heap_base h <= a < heap_end h + HEAP_PAGE -> pm_dom a
}.

(** Everything but the headers and the ends of the list. *)
Definition same_region (h h' : heap V) : Prop :=
  heap_base h' = heap_base h /\ heap_curr h' = heap_curr h /\ heap_commit_end h' = heap_commit_end h /\
  heap_end h' = heap_end h /\ vm h' = vm h.

Lemma same_region_trans h1 h2 h3 : same_region h1 h2 -> same_region h2 h3 -> same_region h1 h3.
Proof. unfold same_region. intuition congruence. Qed.

(** The invariant after a change of the list within the same region. *)
Lemma heap_inv_relist h h' bs bs' :
  heap_inv h bs -> same_region h h' -> heap_head h' = hd_addr bs' 0 -> heap_tail h' = last_addr 0 bs' ->
  lseg (hdrs h') 0 bs' 0 -> chain (heap_base h) bs' (heap_curr h) -> heap_inv h' bs'.
Proof.
  intros [] (E1 & E2 & E3 & E4 & E5) ????. split; rewrite ?E1, ?E2, ?E3, ?E4, ?E5; done.
Qed.

Lemma header_mapped_ok h bs a :
  heap_inv h bs -> heap_base h <= a -> a + HDR <= heap_commit_end h -> header_mapped h a = true.
Proof.
  intros [] ? ?. unfold header_mapped, HDR in *.
  rewrite u32_small by (unfold is_u32, HEAP_PAGE in *; lia).
  rewrite !hi_mapped0 by lia. done.
Qed.

Lemma hdr_get_ok h xs b ys :
  heap_inv h (xs ++ b :: ys) ->
  hdr_get (b_addr b) h = Ok (BlockHeader (b_size b) (hd_addr ys 0) (last_addr 0 xs) (b_free b), h).
Proof.
  intros Hi. pose proof (chain_bounds _ _ _ b (hi_chain _ _ Hi) ltac:(set_solver)) as (? & ? & ?).
  unfold hdr_get. rewrite (header_mapped_ok h (xs ++ b :: ys)); [|done|done|].
  - by rewrite (lseg_node _ _ _ _ _ (hi_lseg _ _ Hi)).
  - destruct (hi_curr _ _ Hi). unfold b_end, HDR in *. lia.
Qed.

Lemma hdr_put_raw h a b :
  header_mapped h a = true -> hdr_put a b h = Ok (tt, with_hdrs (<[a := b]> (hdrs h)) h).
Proof. intros E. unfold hdr_put. by rewrite E. Qed.
Lemma upd_raw h a f b :
  header_mapped h a = true -> hdrs h !! a = Some b ->
  upd a f h = Ok (tt, with_hdrs (<[a := f b]> (hdrs h)) h).
Proof. intros E Eb. unfold upd, bind, hdr_get. by rewrite E, Eb, hdr_put_raw. Qed.
Lemma hdr_get_raw h a b :
  header_mapped h a = true -> hdrs h !! a = Some b -> hdr_get a h = Ok (b, h).
Proof. intros E Eb. unfold hdr_get. by rewrite E, Eb. Qed.

(** The last block of a list, and how it compares with a block before it. *)
Lemma last_addr_ne lo xs b ys hi :
  chain lo (xs ++ b :: ys) hi -> ys <> [] -> last_addr 0 (xs ++ b :: ys) <> b_addr b.
Proof.
  intros Hc Hne. rewrite last_addr_app. simpl.
  destruct ys as [|t ys _] using rev_ind; [done|]. rewrite last_addr_app. simpl.
  apply (chain_ne _ _ _ _ _ _ Hc).
  - assert (0 <= b_size b) by (eapply chain_bounds; [done|set_solver]). unfold b_end, HDR. lia.
  - set_solver.
Qed.

(** What a split does to the block b of the list when sz bytes are asked of it. *)
Definition split_pieces (b : blk) (sz : Z) : list blk :=
  if b_size b - sz <? MIN_BLOCK_SIZE then [b]
  else [Blk (b_addr b) sz (b_free b); Blk (b_addr b + HDR + sz) (b_size b - sz - HDR) 1].

Lemma node_bounds h bs b :
  heap_inv h bs -> b ∈ bs ->
  0 < heap_base h <= b_addr b /\ 0 <= b_size b /\ b_end b <= heap_curr h /\
  heap_curr h <= heap_commit_end h /\ heap_commit_end h + HEAP_PAGE < 4294967296.
Proof.
  intros Hi Hb. pose proof (chain_bounds _ _ _ _ (hi_chain _ _ Hi) Hb).
  destruct Hi as [_ _ _ _ Hbase Hcurr Hcommit Hend _ _ _]. unfold HEAP_PAGE in *. lia.
Qed.

(** Dividing the block b at a2: the header writes of split_block and of the leading part of
    allocate_from_block, whichever order the fields of b are written in. *)
Definition divided (h h' : heap V) (xs : list blk) (b : blk) (ys : list blk) (s1 f1 a2 s2 f2 : Z) : Prop :=
  same_region h h' /\ heap_head h' = heap_head h /\
  heap_tail h' = (if heap_tail h =? b_addr b then a2 else heap_tail h) /\
  (forall c, c ∈ xs -> hdrs h' !! b_addr c = hdrs h !! b_addr c) /\ relinked (hdrs h) (hdrs h') ys a2 /\
  hdrs h' !! b_addr b = Some (BlockHeader s1 a2 (last_addr 0 xs) f1) /\
  hdrs h' !! a2 = Some (BlockHeader s2 (hd_addr ys 0) (b_addr b) f2).

Lemma divided_inv h h' xs b ys s1 f1 a2 s2 f2 :
  heap_inv h (xs ++ b :: ys) -> divided h h' xs b ys s1 f1 a2 s2 f2 ->
  chain (heap_base h) (xs ++ Blk (b_addr b) s1 f1 :: Blk a2 s2 f2 :: ys) (heap_curr h) ->
  heap_inv h' (xs ++ Blk (b_addr b) s1 f1 :: Blk a2 s2 f2 :: ys).
Proof.
  intros Hi (Hr & Hh & Ht & Hx & Hy & Hb & Ha) Hc.
  apply (heap_inv_relist h h' (xs ++ b :: ys)); [done|done|..].
  - rewrite Hh, (hi_head _ _ Hi), !hd_addr_app. done.
  - rewrite Ht, (hi_tail _ _ Hi). destruct ys as [|y ys].
    + rewrite !last_addr_app. simpl. by rewrite Z.eqb_refl.
    + rewrite (proj2 (Z.eqb_neq _ _)); [by rewrite !last_addr_app|].
      by apply (last_addr_ne _ _ _ _ _ (hi_chain _ _ Hi)).
  - by apply (lseg_divide (hdrs h) _ xs b ys); [apply Hi|..].
  - done.
Qed.

(** Distinctness facts used when the map of headers is updated around b. *)
Lemma around h xs b ys a2 :
  heap_inv h (xs ++ b :: ys) -> b_addr b < a2 < b_end b ->
  a2 <> b_addr b /\ (forall c, c ∈ xs -> b_addr c <> b_addr b /\ b_addr c <> a2) /\
  (forall c, c ∈ ys -> b_addr c <> b_addr b /\ b_addr c <> a2) /\
  (forall c d, c ∈ xs -> d ∈ ys -> b_addr c <> b_addr d).
Proof.
  intros Hi Ha. pose proof (hi_chain _ _ Hi) as Hc.
  assert (0 <= b_size b) by (eapply chain_bounds; [done|set_solver]).
  assert (forall a, b_addr b <= a < b_end b -> forall c, c ∈ xs ++ ys -> b_addr c <> a) as Hne.
  { intros a Ha'. by eapply chain_ne. }
  assert (b_addr b <= b_addr b < b_end b) by (unfold b_end, HDR in *; lia).
  split_and!; [lia| | |].
  - intros c Hx; split; apply Hne; try lia; set_solver.
  - intros c Hx; split; apply Hne; try lia; set_solver.
  - intros c d Hx Hy. apply list_elem_of_split in Hy as (y1 & y2 & ->).
    rewrite app_comm_cons, app_assoc in Hc.
    pose proof (chain_clear _ _ _ _ _ c Hc ltac:(set_solver)) as Hcl.
    assert (0 <= b_size c /\ 0 <= b_size d) as [] by (split; eapply chain_bounds; [done|set_solver..]).
    unfold b_end, HDR in *. lia.
Qed.

(** Symbolic execution over header updates: [hm] proves that a header is mapped. *)
Ltac hlookup := cbn [hdrs with_hdrs with_tail with_head]; rewrite ?lookup_insert_ne by (try done; auto);
  first [apply lookup_insert_eq | eassumption | reflexivity].
Ltac hstep hm :=
  first [ erewrite bind_ok; [|apply upd_raw; [hm|hlookup]]
        | erewrite bind_ok; [|apply hdr_put_raw; hm]
        | erewrite bind_ok; [|apply hdr_get_raw; [hm|hlookup]] ]; cbn beta.

Lemma link_after_ok h xs b ys a2 s2 :
  heap_inv h (xs ++ b :: ys) -> header_mapped h a2 = true -> a2 <> b_addr b ->
  (forall c, c ∈ xs ++ ys -> b_addr c <> b_addr b /\ b_addr c <> a2) ->
  (forall c d, c ∈ xs -> d ∈ ys -> b_addr c <> b_addr d) ->
  exists h', link_after (b_addr b) a2 s2 h = Ok (tt, h') /\
    divided h h' xs b ys (b_size b) (b_free b) a2 s2 1.
Proof.
  intros Hi Hma Hne Hoff Hxy.
  assert (forall c, c ∈ xs ++ b :: ys -> header_mapped h (b_addr c) = true /\ b_addr c <> 0) as Hmap.
  { intros c Hc. pose proof (node_bounds _ _ c Hi Hc). unfold b_end, HDR in *.
    split; [|lia]. eapply header_mapped_ok; [done|unfold HDR; lia..]. }
  destruct (Hmap b ltac:(set_solver)) as [Hmb _].
  pose proof (lseg_node _ _ _ _ _ (hi_lseg _ _ Hi)) as Hnode.
  unfold link_after. rewrite (bind_ok _ _ _ _ _ (hdr_get_ok h xs b ys Hi)). cbn [next].
  hstep ltac:(exact Hma).
  destruct ys as [|y ys]; cbn [hd_addr] in *.
  - rewrite Z.eqb_refl. cbn [negb]. unfold bind at 1. unfold ret at 1. hstep ltac:(exact Hmb).
    unfold bind, get, modify, ret. cbn [heap_tail with_hdrs].
    destruct (heap_tail h =? b_addr b) eqn:Et; (eexists; split; [reflexivity|]);
      (split_and!; cbn; rewrite ?Et; try done).
    all: try (intros c Hc; destruct (Hoff c ltac:(set_solver)); by rewrite !lookup_insert_ne by done).
    all: by simplify_map_eq.
  - destruct (Hmap y ltac:(set_solver)) as [Hmy Hy0]. destruct (Hoff y ltac:(set_solver)) as [Hyb Hya].
    rewrite (proj2 (Z.eqb_neq _ _) Hy0). cbn [negb].
    assert (exists hy, hdrs h !! b_addr y = Some hy) as [hy Ehy].
    { pose proof (hi_lseg _ _ Hi) as Hl. rewrite lseg_app in Hl. simpl in Hl. naive_solver. }
    hstep ltac:(exact Hmy). hstep ltac:(exact Hmb).
    unfold bind, get, modify, ret. cbn [heap_tail with_hdrs].
    assert (heap_tail h <> b_addr b) as Et.
    { rewrite (hi_tail _ _ Hi). by apply (last_addr_ne _ _ _ _ _ (hi_chain _ _ Hi)). }
    rewrite (proj2 (Z.eqb_neq _ _) Et). eexists. split; [reflexivity|].
    split_and!; cbn; rewrite ?(proj2 (Z.eqb_neq _ _) Et); try done.
    + intros c Hc. destruct (Hoff c ltac:(set_solver)). pose proof (Hxy c y Hc ltac:(set_solver)).
      by rewrite !lookup_insert_ne by done.
    + split; [rewrite Ehy; by simplify_map_eq|]. intros c Hc. destruct (Hoff c ltac:(set_solver)).
      assert (b_addr c <> b_addr y).
      { pose proof (hi_chain _ _ Hi) as (mid & _ & Hc2)%chain_app. simpl in Hc2.
        destruct Hc2 as (_ & _ & _ & _ & _ & _ & _ & Hs & _ & _ & Hc2).
        pose proof (chain_bounds _ _ _ _ Hc2 Hc). unfold b_end, HDR in *. lia. }
      by rewrite !lookup_insert_ne by done.
    + by simplify_map_eq.
    + by simplify_map_eq.
Qed.

(** Rewriting the header of b in place. *)
Lemma node_update h xs b ys s f :
  heap_inv h (xs ++ b :: ys) -> chain (b_addr b) [Blk (b_addr b) s f] (b_end b) ->
  let h' := with_hdrs (<[b_addr b := BlockHeader s (hd_addr ys 0) (last_addr 0 xs) f]> (hdrs h)) h in
  heap_inv h' (xs ++ Blk (b_addr b) s f :: ys) /\ same_region h h'.
Proof.
  intros Hi Hc h'. split; [|done]. apply (heap_inv_relist h h' (xs ++ b :: ys)); [done|done|..].
  - simpl. rewrite (hi_head _ _ Hi), !hd_addr_app. done.
  - simpl. rewrite (hi_tail _ _ Hi), !last_addr_app. done.
  - apply (lseg_replace (hdrs h)); [apply Hi| |simpl; apply lookup_insert_eq].
    intros c Hin. simpl. rewrite lookup_insert_ne; [done|]. apply not_eq_sym.
    apply (chain_ne _ _ _ _ _ _ (hi_chain _ _ Hi)); [|done].
    pose proof (node_bounds _ _ b Hi ltac:(set_solver)). unfold b_end, HDR. lia.
  - apply (chain_replace _ _ _ [_] _ _ (hi_chain _ _ Hi) Hc).
Qed.

Lemma upd_node h xs b ys f :
  heap_inv h (xs ++ b :: ys) ->
  upd (b_addr b) f h = Ok (tt, with_hdrs (<[b_addr b := f (BlockHeader (b_size b) (hd_addr ys 0) (last_addr 0 xs) (b_free b))]> (hdrs h)) h).
Proof.
  intros Hi. pose proof (node_bounds _ _ b Hi ltac:(set_solver)). unfold b_end, HDR in *.
  apply upd_raw; [eapply header_mapped_ok; [done|unfold HDR; lia..]|].
  by apply (lseg_node _ _ _ _ _ (hi_lseg _ _ Hi)).
Qed.

Lemma set_free_ok h xs b ys f :
  heap_inv h (xs ++ b :: ys) -> f = 0 \/ f = 1 ->
  exists h', upd (b_addr b) (set_free f) h = Ok (tt, h') /\ same_region h h' /\
    heap_inv h' (xs ++ Blk (b_addr b) (b_size b) f :: ys).
Proof.
  intros Hi Hf. rewrite (upd_node h xs b ys _ Hi). eexists. split; [reflexivity|]. apply and_comm.
  apply (node_update h xs b ys (b_size b) f Hi).
  pose proof (hi_chain _ _ Hi) as (mid & _ & Hc)%chain_app. simpl in *. unfold b_end in *. simpl. intuition lia.
Qed.

(** The parts of a block's description that the layout depends on. *)
Lemma node_aligned h xs b ys :
  heap_inv h (xs ++ b :: ys) ->
  b_addr b mod 4 = 0 /\ b_size b mod 4 = 0 /\ (b_free b = 0 \/ b_free b = 1).
Proof. intros Hi. pose proof (hi_chain _ _ Hi) as (mid & _ & Hc)%chain_app. simpl in Hc. tauto. Qed.

Lemma split_block_ok h xs b ys sz :
  heap_inv h (xs ++ b :: ys) -> 0 <= sz <= b_size b -> sz mod 4 = 0 ->
  exists h', split_block (b_addr b) sz h = Ok (tt, h') /\ same_region h h' /\
    heap_inv h' (xs ++ split_pieces b sz ++ ys).
Proof.
  intros Hi Hsz Hm4. destruct (node_aligned _ _ _ _ Hi) as (Ha4 & Hs4 & Hf).
  pose proof (node_bounds _ _ b Hi ltac:(set_solver)) as Hb. unfold b_end, HDR, HEAP_PAGE in Hb.
  unfold split_block, split_pieces. rewrite (bind_ok _ _ _ _ _ (hdr_get_ok h xs b ys Hi)). cbn [size next].
  destruct (Z.leb_spec (b_size b) sz) as [Hle|Hgt].
  { exists h. rewrite (proj2 (Z.ltb_lt _ _)) by (unfold MIN_BLOCK_SIZE, HDR, MIN_SPLIT_SIZE; lia). done. }
  rewrite (u32_small (b_size b - sz)) by (unfold is_u32; lia).
  destruct (Z.ltb_spec (b_size b - sz) MIN_BLOCK_SIZE) as [Hlt|Hge]; [by exists h|].
  unfold MIN_BLOCK_SIZE, MIN_SPLIT_SIZE, HDR in Hge.
  rewrite (u32_small (b_size b - sz - HDR)), (u32_small (b_addr b + HDR + sz)) by (unfold is_u32, HDR; lia).
  set (a2 := b_addr b + HDR + sz).
  destruct (around h xs b ys a2 Hi) as (Hne & Hx & Hy & Hxy); [unfold a2, b_end, HDR; lia|].
  destruct (link_after_ok h xs b ys a2 (b_size b - sz - HDR) Hi) as (h1 & E1 & Hd); [|done| |done|].
  { eapply header_mapped_ok; [done|unfold a2, HDR; lia..]. }
  { intros c [Hc|Hc]%elem_of_app; auto. }
  rewrite (bind_ok _ _ _ _ _ E1). destruct Hd as (Hr & Hh & Ht & Hx1 & Hy1 & Hb1 & Ha1).
  erewrite upd_raw; [| |exact Hb1].
  2: { destruct Hr as (_ & _ & _ & _ & Ev). unfold header_mapped. rewrite Ev.
       by apply (header_mapped_ok h _ (b_addr b) Hi); unfold HDR; lia. }
  eexists. split; [reflexivity|]. split; [done|].
  apply (divided_inv h _ xs b ys sz (b_free b) a2 (b_size b - sz - HDR) 1 Hi).
  - unfold divided. cbn [hdrs with_hdrs heap_head heap_tail set_size next prev free]. split_and!; [done..| | | |].
    + intros c Hc. rewrite lookup_insert_ne; [by apply Hx1|]. apply not_eq_sym, Hx, Hc.
    + destruct ys as [|y ys]; simpl in *; [done|]. destruct Hy1 as [Hy1 Hys1]. split.
      * rewrite lookup_insert_ne; [done|]. apply not_eq_sym, (Hy y). by left.
      * intros c Hc. rewrite lookup_insert_ne; [by apply Hys1|]. apply not_eq_sym, (Hy c). by right.
    + by simplify_map_eq.
    + by rewrite lookup_insert_ne by done.
  - apply (chain_replace _ _ _ [_; _] _ _ (hi_chain _ _ Hi)).
    unfold a2, b_end, HDR in *. simpl. unfold b_end, HDR. simpl.
    split_and!; try done; try lia; word_lia.
Qed.

(** The list after an allocation of sz bytes with its header at ah inside the free block b. *)
Definition alloc_pieces (b : blk) (ah sz : Z) : list blk :=
  (if ah =? b_addr b then [] else [Blk (b_addr b) (ah - b_addr b - HDR) 1]) ++
  (let total := b_end b - (ah + HDR) in
   if total - sz <? MIN_BLOCK_SIZE then [Blk ah total 0]
   else [Blk ah sz 0; Blk (ah + HDR + sz) (total - sz - HDR) 1]).

(** Where the payload of an allocation may start inside b. *)
Definition fits (b : blk) (ah sz : Z) : Prop :=
  (ah = b_addr b \/ b_addr b + MIN_BLOCK_SIZE <= ah) /\ ah mod 4 = 0 /\ ah + HDR + sz <= b_end b.

Lemma allocate_tail h xs b ys sz :
  heap_inv h (xs ++ b :: ys) -> 0 <= sz <= b_size b -> sz mod 4 = 0 ->
  exists h', (split_block (b_addr b) sz;;; upd (b_addr b) (set_free 0);;; ret (u32 (b_addr b + HDR))) h
               = Ok (b_addr b + HDR, h') /\ same_region h h' /\
    heap_inv h' (xs ++ (if b_size b - sz <? MIN_BLOCK_SIZE then [Blk (b_addr b) (b_size b) 0]
                        else [Blk (b_addr b) sz 0; Blk (b_addr b + HDR + sz) (b_size b - sz - HDR) 1]) ++ ys).
Proof.
  intros Hi Hsz H4. destruct (split_block_ok h xs b ys sz Hi Hsz H4) as (h1 & E1 & Hr1 & Hi1).
  pose proof (node_bounds _ _ b Hi ltac:(set_solver)) as Hb. unfold b_end, HDR, HEAP_PAGE in Hb.
  rewrite (bind_ok _ _ _ _ _ E1). unfold split_pieces in Hi1. rewrite u32_small by (unfold is_u32, HDR; lia).
  destruct (b_size b - sz <? MIN_BLOCK_SIZE); simpl in Hi1.
  - destruct (set_free_ok h1 xs b ys 0 Hi1) as (h2 & E2 & Hr2 & Hi2); [by left|].
    exists h2. rewrite (bind_ok _ _ _ _ _ E2). split_and!; [done|by eapply same_region_trans|done].
  - destruct (set_free_ok h1 xs (Blk (b_addr b) sz (b_free b)) (_ :: ys) 0 Hi1) as (h2 & E2 & Hr2 & Hi2); [by left|].
    exists h2. rewrite (bind_ok _ _ _ _ _ E2). split_and!; [done|by eapply same_region_trans|done].
Qed.

Lemma allocate_from_block_ok h xs b ys ah sz :
  heap_inv h (xs ++ b :: ys) -> fits b ah sz -> 0 <= sz -> sz mod 4 = 0 ->
  exists h', allocate_from_block (b_addr b) ah sz h = Ok (ah + HDR, h') /\ same_region h h' /\
    heap_inv h' (xs ++ alloc_pieces b ah sz ++ ys).
Proof.
  intros Hi (Hah & Hah4 & Hfit) Hsz H4. destruct (node_aligned _ _ _ _ Hi) as (Ha4 & Hs4 & Hf).
  pose proof (node_bounds _ _ b Hi ltac:(set_solver)) as Hb. unfold b_end, HDR, HEAP_PAGE in Hb.
  unfold allocate_from_block, alloc_pieces, block_end.
  unfold bind at 1 2. rewrite (hdr_get_ok h xs b ys Hi). unfold ret at 1. cbn [size].
  rewrite (u32_small (b_addr b + HDR + b_size b)) by (unfold is_u32, HDR; lia).
  destruct (Z.eqb_spec ah (b_addr b)) as [->|Hne]; cbn [negb app].
  - unfold bind at 1. unfold ret at 1.
    replace (b_end b - (b_addr b + HDR)) with (b_size b) by (unfold b_end; lia).
    apply allocate_tail; [done|unfold b_end, HDR in *; lia|done].
  - destruct Hah as [|Hah]; [done|]. unfold MIN_BLOCK_SIZE, MIN_SPLIT_SIZE, b_end, HDR in *.
    rewrite (u32_small (ah - b_addr b)), (u32_small (ah - b_addr b - 16)),
      (u32_small (b_addr b + 16 + b_size b - (ah + 16))) by (unfold is_u32; lia).
    set (b1 := Blk (b_addr b) (ah - b_addr b - 16) (b_free b)).
    set (b2 := Blk (b_addr b) (ah - b_addr b - 16) 1).
    destruct (node_update h xs b ys (ah - b_addr b - 16) (b_free b) Hi) as [Hi1 Hr1].
    { simpl. unfold b_end, HDR. simpl. split_and!; try done; try lia; word_lia. }
    unfold bind at 1. unfold bind at 1. rewrite (upd_node h xs b ys _ Hi). cbn [set_size next prev free].
    set (h1 := with_hdrs _ h) in *.
    destruct (set_free_ok h1 xs b1 ys 1 Hi1) as (h2 & E2 & Hr2 & Hi2); [by right|].
    cbn [b_addr b1] in E2. unfold bind at 1. rewrite E2. fold b2 in Hi2.
    destruct (around h xs b ys ah Hi) as (_ & Hx & Hy & Hxy); [unfold b_end, HDR; lia|].
    assert (same_region h h2) as Hr by (by eapply same_region_trans).
    destruct (link_after_ok h2 xs b2 ys ah (b_addr b + 16 + b_size b - (ah + 16)) Hi2) as (h3 & E3 & Hd); [|done| |done|].
    { destruct Hr as (_ & _ & _ & _ & Ev). unfold header_mapped. rewrite Ev.
      apply (header_mapped_ok h _ ah Hi); unfold HDR; lia. }
    { intros c [Hc|Hc]%elem_of_app; cbn [b_addr b2]; auto. }
    cbn [b_addr b2] in E3. unfold bind at 1. rewrite E3. unfold ret at 1.
    assert (heap_inv h3 ((xs ++ [b2]) ++ Blk ah (b_addr b + 16 + b_size b - (ah + 16)) 1 :: ys)) as Hi3.
    { rewrite <-app_assoc. simpl. apply (divided_inv h2 h3 xs b2 ys _ _ _ _ _ Hi2 Hd).
      destruct Hr as (-> & -> & _). apply (chain_replace _ _ _ [_; _] _ _ (hi_chain _ _ Hi)).
      simpl. unfold b_end, HDR. simpl. split_and!; try done; try lia; word_lia. }
    destruct (allocate_tail h3 (xs ++ [b2]) _ ys sz Hi3) as (h4 & E4 & Hr4 & Hi4); [cbn [b_size]; lia|done|].
    cbn [b_addr b_size] in *. exists h4. split_and!; [exact E4| |].
    + eapply same_region_trans; [exact Hr|]. eapply same_region_trans; [apply Hd|done].
    + rewrite <-app_assoc in Hi4. exact Hi4.
Qed.

(** ** Alignment *)

(** The alignments normalize_align produces: none, or a power of two of at least 4. *)
Definition valid_align (A : Z) : Prop := A = 0 \/ exists k, 2 <= k <= 31 /\ A = 2 ^ k.
(** A payload address p respects the alignment A. *)
Definition aligned (p A : Z) : Prop := A <> 0 -> p mod A = 0.

Lemma ALIGN_UP_spec x k :
  0 <= k <= 31 -> 0 <= x -> x + 2 ^ k <= 4294967296 ->
  x <= ALIGN_UP x (2 ^ k) < x + 2 ^ k /\ ALIGN_UP x (2 ^ k) mod 2 ^ k = 0.
Proof.
  intros Hk Hx Hov. assert (0 < 2 ^ k) by (apply Z.pow_pos_nonneg; lia). unfold ALIGN_UP.
  rewrite (u32_small (2 ^ k - 1)), (u32_small (x + (2 ^ k - 1))), align_mask by (unfold is_u32; lia).
  split; [|apply Z.mod_mul; lia].
  pose proof (Z.div_mod (x + (2 ^ k - 1)) (2 ^ k) ltac:(lia)).
  pose proof (Z.mod_pos_bound (x + (2 ^ k - 1)) (2 ^ k) ltac:(lia)). lia.
Qed.

Lemma pow2_mod4 k x : 2 <= k -> x mod 2 ^ k = 0 -> x mod 4 = 0.
Proof.
  intros Hk Hx. apply Z.mod_divide in Hx; [|apply Z.pow_nonzero; lia]. apply Z.mod_divide; [lia|].
  eapply Z.divide_trans; [|exact Hx]. exists (2 ^ (k - 2)). change 4 with (2 ^ 2).
  rewrite <-Z.pow_add_r by lia. f_equal. lia.
Qed.

(** The header position both allocation paths compute from a block start. *)
Lemma aligned_start start A :
  valid_align A -> 0 <= start -> start mod 4 = 0 -> start + HDR + A <= 4294967295 ->
  let payload := u32 (start + HDR) in
  let ap := if negb (A =? 0) then align_up payload A else payload in
  let ah := u32 (ap - HDR) in
  ap = ah + HDR /\ start <= ah /\ (ah = start \/ ah < start + A) /\ ah mod 4 = 0 /\ aligned (ah + HDR) A.
Proof.
  intros HA Hs Hs4 Hov. unfold aligned, align_up, HDR in *. rewrite (u32_small (start + 16)) by (unfold is_u32; destruct HA as [->|(k & Hk & ->)]; [lia|pose proof (Z.pow_pos_nonneg 2 k); lia]).
  destruct HA as [->|(k & Hk & ->)].
  - cbn. rewrite u32_small by (unfold is_u32; lia). repeat split; try lia; word_lia.
  - assert (2 ^ k <> 0) by (apply Z.pow_nonzero; lia). rewrite (proj2 (Z.eqb_neq _ _)) by done. cbn [negb].
    destruct (ALIGN_UP_spec (start + 16) k) as [Hr Hm]; [lia..|].
    rewrite u32_small by (unfold is_u32; lia). pose proof (pow2_mod4 k _ ltac:(lia) Hm).
    split_and!; try lia; try word_lia. intros _. replace (_ - 16 + 16) with (ALIGN_UP (start + 16) (2 ^ k)) by lia. done.
Qed.

(** ** First fit *)

Lemma block_can_fit_ok h xs b ys sz A :
  heap_inv h (xs ++ b :: ys) -> valid_align A -> 0 <= sz -> heap_curr h + A + sz + 64 <= 4294967296 ->
  exists o, block_can_fit (b_addr b) sz A h = Ok (o, h) /\
    match o with
    | Some ah => fits b ah sz /\ aligned (ah + HDR) A
    | None => A = 0 -> b_size b < sz
    end.
Proof.
  intros Hi HA Hsz Hov. destruct (node_aligned _ _ _ _ Hi) as (Ha4 & Hs4 & _).
  pose proof (node_bounds _ _ b Hi ltac:(set_solver)) as Hb. unfold b_end, HEAP_PAGE in Hb.
  assert (0 <= A) by (destruct HA as [->|(k & ? & ->)]; [lia|apply Z.pow_nonneg; lia]).
  unfold HDR in Hb. destruct (aligned_start (b_addr b) A) as (Hap & Hge & Hlt & Hah4 & Hal); [done|lia|done|unfold HDR; lia|].
  unfold block_can_fit, block_end, bind. cbv zeta. rewrite (hdr_get_ok h xs b ys Hi). unfold ret. cbn [size].
  set (ap := if negb (A =? 0) then _ else _) in *. set (ah := u32 (ap - HDR)) in *. rewrite Hap. unfold HDR in *.
  rewrite !(u32_small (_ + 16 + _)) by (unfold is_u32; lia).
  rewrite (u32_small (ah - b_addr b)) by (unfold is_u32; lia).
  destruct (Z.ltb_spec (b_addr b + 16 + b_size b) (ah + 16 + sz)).
  { exists None. split; [done|]. intros ->. lia. }
  unfold MIN_BLOCK_SIZE, MIN_SPLIT_SIZE, HDR.
  destruct (Z.eqb_spec (ah - b_addr b) 0); cbn [negb andb].
  { exists (Some ah). split; [done|]. split; [|done]. unfold fits, b_end, HDR, MIN_BLOCK_SIZE. split_and!; [left; lia|done|lia]. }
  destruct (Z.ltb_spec (ah - b_addr b) (16 + 8)).
  { exists None. split; [done|]. intros ->. lia. }
  exists (Some ah). split; [done|]. split; [|done].
  unfold fits, b_end, HDR, MIN_BLOCK_SIZE, MIN_SPLIT_SIZE, HDR. split_and!; [right; lia|done|lia].
Qed.

Lemma find_free_loop_ok sz A h xs ys fuel :
  heap_inv h (xs ++ ys) -> valid_align A -> 0 <= sz -> heap_curr h + A + sz + 64 <= 4294967296 ->
  (length ys < fuel)%nat ->
  exists o, find_free_loop fuel (hd_addr ys 0) sz A h = Ok (o, h) /\
    match o with
    | Some (a, ah) => exists xs' b ys', xs ++ ys = xs' ++ b :: ys' /\ a = b_addr b /\ b_free b = 1 /\
                        fits b ah sz /\ aligned (ah + HDR) A
    | None => A = 0 -> forall b, b ∈ ys -> b_free b = 1 -> b_size b < sz
    end.
Proof.
  revert xs fuel. induction ys as [|b ys IH]; intros xs fuel Hi HA Hsz Hov Hf; (destruct fuel as [|f]; [simpl in Hf; lia|]).
  { exists None. split; [done|]. intros _ b Hb. by apply not_elem_of_nil in Hb. }
  pose proof (node_bounds _ _ b Hi ltac:(set_solver)) as Hb.
  destruct (node_aligned _ _ _ _ Hi) as (_ & _ & Hfr).
  cbn [find_free_loop hd_addr]. rewrite (proj2 (Z.eqb_neq _ _)) by lia.
  rewrite (bind_ok _ _ _ _ _ (hdr_get_ok h xs b ys Hi)). cbn [free next].
  destruct (IH (xs ++ [b]) f) as (o & E & Ho); [by rewrite <-app_assoc|done..|simpl in Hf; lia|].
  rewrite <-app_assoc in Ho. simpl in Ho.
  destruct (Z.eqb_spec (b_free b) 0) as [Hz|Hnz].
  - exists o. split; [done|]. destruct o as [[a ah]|]; [done|]. intros HA0 c [->|Hc]%elem_of_cons Hc1; [lia|auto].
  - destruct (block_can_fit_ok h xs b ys sz A Hi HA Hsz Hov) as (o1 & E1 & Ho1).
    rewrite (bind_ok _ _ _ _ _ E1). destruct o1 as [ah|].
    + exists (Some (b_addr b, ah)). split; [done|]. exists xs, b, ys. destruct Ho1. split_and!; try done. lia.
    + exists o. split; [done|]. destruct o as [[a ah]|]; [done|].
      intros HA0 c [->|Hc]%elem_of_cons Hc1; auto.
Qed.

Lemma chain_NoDup lo bs hi : chain lo bs hi -> NoDup (b_addr <$> bs).
Proof.
  revert lo. induction bs as [|b bs IH]; intros lo; simpl; [constructor|].
  intros (_ & _ & Hs & _ & _ & Hc). constructor; [|by eapply IH].
  intros (c & E & Hin)%list_elem_of_fmap. pose proof (chain_bounds _ _ _ _ Hc Hin). unfold b_end, HDR in *. lia.
Qed.

(** The list is never longer than the number of headers in memory: the fuel of the search. *)
Lemma list_fuel h bs : heap_inv h bs -> (length bs < S (base.size (hdrs h)))%nat.
Proof.
  intros Hi. rewrite <-(length_fmap b_addr), <-(size_list_to_set (C:=gset Z)), <-size_dom by apply (chain_NoDup _ _ _ (hi_chain _ _ Hi)).
  apply le_n_S, subseteq_size. intros a. rewrite elem_of_list_to_set. intros (b & -> & Hin)%list_elem_of_fmap.
  apply list_elem_of_split in Hin as (xs & ys & ->). apply elem_of_dom.
  rewrite (lseg_node _ _ _ _ _ (hi_lseg _ _ Hi)). by eexists.
Qed.

(** ** Growing the heap *)

Lemma page_up_spec x :
  0 <= x -> x + HEAP_PAGE <= 4294967296 ->
  x <= PAGE_ALIGN_UP x < x + HEAP_PAGE /\ PAGE_ALIGN_UP x mod HEAP_PAGE = 0.
Proof. intros Hx Ho. apply (ALIGN_UP_spec x 12); [lia|done|done]. Qed.

(** Only the page mapper's state moves while pages are mapped. *)
Lemma commit_loop_ok fuel : forall h bs addr new,
  heap_inv h bs -> heap_base h <= addr -> addr mod HEAP_PAGE = 0 -> new mod HEAP_PAGE = 0 ->
  new < heap_end h + HEAP_PAGE -> (Z.to_nat ((new - addr) / HEAP_PAGE) < fuel)%nat ->
  exists r h', commit_loop fuel addr new h = Ok (r, h') /\ (r = 0 \/ r = -1) /\
    h' = with_vm (vm h') h /\ heap_inv h' bs /\
    (forall a, pm_dom a -> page_mapped (vm h) a = true -> page_mapped (vm h') a = true) /\
    (r = 0 -> forall a, addr <= a < new -> page_mapped (vm h') a = true).
Proof.
  induction fuel as [|f IH]; intros h bs addr new Hi Hba Ha4 Hn4 Hn Hf; [lia|]. cbn [commit_loop].
  destruct (Z.ltb_spec addr new) as [Hlt|Hge].
  2: { exists 0, h. split_and!; [done|by left|by destruct h|done|done|]. intros _ a ?. lia. }
  pose proof (hi_end _ _ Hi) as Hend. pose proof (proj1 (hi_base _ _ Hi)) as Hbase.
  destruct (pm_map_spec (vm h) addr) as (r & v & E & Hok & Hmono & Hpage); [apply Hi|apply (hi_dom _ _ Hi); lia|].
  unfold bind at 1. unfold get at 1. rewrite E. unfold bind at 1. unfold modify at 1.
  assert (heap_inv (with_vm v h) bs) as Hi1.
  { pose proof (hi_commit _ _ Hi). destruct Hi as [???????? Hmp ? Hdm]. split; simpl; auto.
    intros a Ha. apply Hmono; [apply Hdm; lia|by apply Hmp]. }
  destruct (Z.eqb_spec r 0) as [->|Hr]; cbn [negb].
  2: { exists (-1), (with_vm v h). split_and!; [done|by right|done..]. }
  rewrite u32_small by (unfold is_u32, HEAP_PAGE in *; lia).
  destruct (IH (with_vm v h) bs (addr + HEAP_PAGE) new Hi1) as (r' & h' & E' & Hr' & Eh & Hi' & Hm' & Hmap);
    [simpl; unfold HEAP_PAGE in *; lia|unfold HEAP_PAGE in *; word_lia|done|done| |].
  { replace (new - addr) with (new - (addr + HEAP_PAGE) + 1 * HEAP_PAGE) in Hf by lia.
    rewrite Z.div_add in Hf by done. unfold HEAP_PAGE in *. word_lia. }
  exists r', h'. split_and!; [done|done|by rewrite Eh|done|auto|]. intros Hr0 a Ha.
  destruct (decide (a < addr + HEAP_PAGE)) as [Hin|]; [|apply Hmap; [done|lia]].
  apply Hm'; [apply (hi_dom _ _ Hi); lia|]. apply Hpage; [done|]. unfold HEAP_PAGE in *. word_lia.
Qed.

Lemma heap_commit_to_ok h bs need :
  heap_inv h bs -> heap_base h <= need <= heap_end h ->
  exists r h', heap_commit_to need h = Ok (r, h') /\ (r = 0 \/ r = -1) /\ heap_inv h' bs /\
    h' = with_commit_end (heap_commit_end h') (with_vm (vm h') h) /\
    (r = 0 -> need <= heap_commit_end h').
Proof.
  intros Hi Hn. pose proof (hi_base _ _ Hi) as [Hb0 Hb4]. pose proof (hi_commit _ _ Hi) as [Hc4 Hc].
  pose proof (hi_end _ _ Hi) as Hend. unfold HEAP_PAGE in Hend.
  destruct (page_up_spec need) as [Hup Hup4]; [lia|unfold HEAP_PAGE; lia|].
  unfold heap_commit_to. unfold bind at 1. unfold get at 1.
  destruct (Z.leb_spec (PAGE_ALIGN_UP need) (heap_commit_end h)) as [Hle|Hgt].
  { exists 0, h. split_and!; [done|by left|done|by destruct h|intros _; lia]. }
  destruct (commit_loop_ok (S (S (Z.to_nat ((PAGE_ALIGN_UP need - heap_commit_end h) / HEAP_PAGE)))) h bs
              (heap_commit_end h) (PAGE_ALIGN_UP need) Hi) as (r & h1 & E1 & Hr & Eh & Hi1 & Hm & Hmap);
    [lia|done|done|lia|lia|].
  rewrite (bind_ok _ _ _ _ _ E1). destruct Hr as [->| ->]; cbn [negb Z.eqb].
  - unfold bind, modify, ret. eexists 0, _. split_and!; [reflexivity|by left| |by rewrite Eh|simpl; intros _; lia].
    rewrite Eh in Hi1 |- *. destruct Hi1. simpl in *. split; simpl; auto; [lia|lia|].
    intros a Ha. destruct (decide (a < heap_commit_end h)); [auto with lia|]. apply Hmap; [done|lia].
  - exists (-1), h1. split_and!; [done|by right|done| |done]. rewrite Eh at 1. rewrite Eh. by destruct h.
Qed.

(** The list part of the invariant, which also holds while the heap grows. *)
Record listed (h : heap V) (bs : list blk) : Prop := {
  li_head : heap_head h = hd_addr bs 0;
  li_tail : heap_tail h = last_addr 0 bs;
  li_lseg : lseg (hdrs h) 0 bs 0;
  li_nodup : NoDup (b_addr <$> bs);
  li_nodes : forall b, b ∈ bs -> header_mapped h (b_addr b) = true /\ b_addr b <> 0
}.

Lemma heap_inv_listed h bs : heap_inv h bs -> listed h bs.
Proof.
  intros Hi. split; [apply Hi..|by apply (chain_NoDup _ _ _ (hi_chain _ _ Hi))|].
  intros b Hb. pose proof (node_bounds _ _ b Hi Hb). unfold b_end, HDR in *.
  split; [eapply header_mapped_ok; [done|unfold HDR; lia..]|lia].
Qed.

Lemma heap_inv_grow h h' bs bs' e :
  heap_inv h bs -> same_region h h' -> listed h' bs' -> chain (heap_base h) bs' e ->
  e mod 4 = 0 -> e <= heap_commit_end h -> e <= heap_end h -> heap_inv (with_curr e h') bs'.
Proof.
  intros [] (E1 & E2 & E3 & E4 & E5) [] ????. split; simpl; rewrite ?E1, ?E3, ?E4, ?E5; done.
Qed.

Lemma nodup_ne xs t c : NoDup (b_addr <$> xs ++ [t]) -> c ∈ xs -> b_addr c <> b_addr t.
Proof.
  rewrite fmap_app. intros (_ & Hd & _)%list.NoDup_app Hc E. apply (Hd (b_addr c)).
  - by apply list_elem_of_fmap_2.
  - rewrite E. set_solver.
Qed.

(** Appending a block behind the last one, in committed memory. *)
Lemma append_block_ok h bs a s f :
  listed h bs -> header_mapped h a = true -> a <> 0 -> (forall b, b ∈ bs -> b_addr b <> a) ->
  exists h', append_block a s f h = Ok (tt, h') /\ same_region h h' /\ listed h' (bs ++ [Blk a s f]).
Proof.
  intros Hi Hm Ha0 Hne. unfold append_block. unfold bind at 1. unfold get at 1. hstep ltac:(exact Hm).
  destruct Hi as [Hh Ht Hs Hnd Hnodes].
  assert (NoDup (b_addr <$> bs ++ [Blk a s f])) as Hnd'.
  { rewrite fmap_app. apply list.NoDup_app. split_and!; [done| |apply NoDup_singleton].
    intros x (b & -> & Hb)%list_elem_of_fmap Hx. apply (Hne b Hb). set_solver. }
  assert (forall h', same_region h h' -> forall b, b ∈ bs ++ [Blk a s f] -> header_mapped h' (b_addr b) = true /\ b_addr b <> 0) as Hnodes'.
  { intros h' (_ & _ & _ & _ & Ev) b [Hb|Hb]%elem_of_app; unfold header_mapped; rewrite Ev; [by apply Hnodes|].
    apply list_elem_of_singleton in Hb as ->. done. }
  destruct bs as [|t xs _] using rev_ind.
  - simpl in Ht, Hh. rewrite Ht. cbn. eexists. split; [reflexivity|]. split; [done|].
    split; [done..| |done|by apply Hnodes']. cbn. by simplify_map_eq.
  - rewrite last_addr_app in Ht. simpl in Ht. destruct (Hnodes t ltac:(set_solver)) as [Hmt Ht0].
    assert (b_addr t <> a) as Hta by (apply Hne; set_solver).
    rewrite Ht, (proj2 (Z.eqb_neq _ _) Ht0). cbn [negb]. pose proof (lseg_node _ _ _ _ _ Hs) as Hnode.
    hstep ltac:(exact Hmt). unfold modify. eexists. split; [reflexivity|]. split; [done|].
    split; [cbn; by rewrite Hh, !hd_addr_app|cbn; by rewrite last_addr_app| |done|by apply Hnodes'].
    cbn. apply (lseg_append (hdrs h)); [done| |].
    + intros xs' t' [-> [= ->]]%app_inj_2; [|done]. split; [rewrite Hnode; by simplify_map_eq|].
      intros c Hc. pose proof (nodup_ne _ _ _ Hnd Hc).
      rewrite !lookup_insert_ne by (try done; apply not_eq_sym, Hne; set_solver). done.
    + rewrite lookup_insert_ne by done. rewrite last_addr_app. simpl. by simplify_map_eq.
Qed.

(** Rewriting the size of the last block. *)
Lemma tail_resize_ok h xs t s :
  listed h (xs ++ [t]) ->
  exists h', upd (b_addr t) (set_size s) h = Ok (tt, h') /\ same_region h h' /\
    listed h' (xs ++ [Blk (b_addr t) s (b_free t)]).
Proof.
  intros [Hh Ht Hs Hnd Hnodes]. destruct (Hnodes t ltac:(set_solver)) as [Hm _].
  rewrite (upd_raw _ _ _ _ Hm (lseg_node _ _ _ _ _ Hs)). eexists. split; [reflexivity|]. split; [done|].
  split; cbn.
  - by rewrite Hh, !hd_addr_app.
  - by rewrite Ht, !last_addr_app.
  - apply (lseg_replace (hdrs h)); [done| |cbn; apply lookup_insert_eq].
    intros c Hc. rewrite app_nil_r in Hc. rewrite lookup_insert_ne; [done|]. apply not_eq_sym. by eapply nodup_ne.
  - by rewrite !fmap_app in *.
  - intros b [Hb|Hb]%elem_of_app; [apply (Hnodes b); set_solver|].
    apply list_elem_of_singleton in Hb as ->. apply (Hnodes t). set_solver.
Qed.

(** The allocated blocks of a list. *)
Definition live (bs : list blk) (b : blk) : Prop := b ∈ bs /\ b_free b = 0.

Lemma live_app xs ys b : live (xs ++ ys) b <-> live xs b \/ live ys b.
Proof. unfold live. rewrite elem_of_app. tauto. Qed.
Lemma live_cons c bs b : live (c :: bs) b <-> (b = c /\ b_free b = 0) \/ live bs b.
Proof. unfold live. rewrite elem_of_cons. tauto. Qed.
Lemma live_nil b : ~ live [] b.
Proof. intros [Hb _]. by apply not_elem_of_nil in Hb. Qed.

Lemma fill_gap_ok h bs ah :
  heap_inv h bs -> heap_curr h <= ah -> ah mod 4 = 0 -> ah + HDR <= heap_commit_end h ->
  exists h' bs', fill_gap (heap_curr h) ah h = Ok (tt, h') /\ same_region h h' /\ listed h' bs' /\
    chain (heap_base h) bs' ah /\ forall b, live bs' b <-> live bs b.
Proof.
  intros Hi Hle Ha4 Hcm. pose proof (heap_inv_listed h bs Hi) as Hl.
  destruct (hi_curr _ _ Hi) as (Hcu4 & Hcc & Hce). pose proof (hi_end _ _ Hi) as Hend.
  pose proof (proj1 (hi_base _ _ Hi)) as Hb0. pose proof (hi_commit _ _ Hi) as [_ Hcommit].
  unfold HEAP_PAGE, HDR in *. pose proof (hi_chain _ _ Hi) as Hch. pose proof (chain_le _ _ _ Hch) as Hbc.
  unfold fill_gap. unfold bind at 1. unfold get at 1.
  destruct (Z.ltb_spec (heap_curr h) ah) as [Hlt|Hge].
  2: { exists h, bs. split_and!; [done..| |done]. eapply chain_weaken; [done|lia|lia]. }
  rewrite (u32_small (ah - heap_curr h)) by (unfold is_u32; lia).
  destruct (Z.leb_spec MIN_BLOCK_SIZE (ah - heap_curr h)) as [Hbig|Hsmall].
  - unfold MIN_BLOCK_SIZE, MIN_SPLIT_SIZE, HDR in Hbig.
    rewrite u32_small by (unfold is_u32, HDR; lia).
    destruct (append_block_ok h bs (heap_curr h) (ah - heap_curr h - HDR) 1 Hl) as (h' & E & Hr & Hl').
    { eapply header_mapped_ok; [done|lia|unfold HDR; lia]. }
    { lia. }
    { intros b Hb. pose proof (chain_bounds _ _ _ _ Hch Hb). unfold b_end, HDR in *. lia. }
    exists h', (bs ++ [Blk (heap_curr h) (ah - heap_curr h - HDR) 1]). split_and!; [done..| |].
    + apply chain_app. exists (heap_curr h). split; [done|]. simpl. unfold b_end, HDR. simpl.
      split_and!; try lia; try done; word_lia.
    + intros b. rewrite live_app, live_cons. pose proof (live_nil b). naive_solver.
  - assert (exists h' bs', Ok (tt, h) = Ok (tt, h') /\ same_region h h' /\ listed h' bs' /\
      chain (heap_base h) bs' ah /\ forall b, live bs' b <-> live bs b) as Hsame.
    { exists h, bs. split_and!; [done..| |done]. eapply chain_weaken; [done|lia|lia]. }
    destruct (_ && _) eqn:Et; [|done]. apply andb_true_iff in Et as [_ Et].
    destruct bs as [|t xs _] using rev_ind.
    { rewrite (li_tail _ _ Hl) in Et. done. }
    pose proof (li_tail _ _ Hl) as Ht. rewrite last_addr_app in Ht. simpl in Ht. rewrite Ht.
    pose proof (hdr_get_ok h xs t [] Hi) as Hg.
    rewrite (bind_ok _ _ _ _ _ Hg). cbn [free size].
    destruct (Z.eqb_spec (b_free t) 0) as [Hf|Hf]; cbn [negb]; [done|].
    pose proof (node_bounds _ _ t Hi ltac:(set_solver)) as Hnb. unfold b_end, HDR in Hnb.
    destruct (node_aligned _ _ _ _ Hi) as (Ht4 & Hs4 & Htf).
    unfold bind at 1, blocks_adjacent, block_end, bind. rewrite Hg. unfold ret. cbn [size].
    rewrite (u32_small (b_addr t + HDR + b_size t)) by (unfold is_u32, HDR; lia).
    destruct (Z.eqb_spec (b_addr t + HDR + b_size t) (heap_curr h)) as [Hadj|]; [|done]. unfold HDR in Hadj.
    rewrite u32_small by (unfold is_u32; lia).
    destruct (tail_resize_ok h xs t (b_size t + (ah - heap_curr h)) Hl) as (h' & E & Hr & Hl').
    eexists h', _. split_and!; [exact E|done|exact Hl'| |].
    + apply chain_app in Hch as (mid & Hx & Hc1). apply chain_app. exists mid. split; [done|].
      simpl in *. unfold b_end, HDR in *. simpl. split_and!; try tauto; try lia. word_lia.
    + intros b. rewrite !live_app, !live_cons. pose proof (live_nil b). naive_solver.
Qed.

(** What an allocation of sz bytes aligned to A achieves: NULL and an unchanged list, or a new
    live block of at least sz bytes beside the old live blocks. *)
Definition allocated (h h' : heap V) (bs bs' : list blk) (p sz A : Z) : Prop :=
  heap_inv h' bs' /\ heap_base h' = heap_base h /\ heap_end h' = heap_end h /\
  ((p = 0 /\ bs' = bs) \/
   (p <> 0 /\ aligned p A /\ (forall b, live bs b -> b_addr b <> p - HDR) /\
    exists n, sz <= n /\ forall b, live bs' b <-> live bs b \/ b = Blk (p - HDR) n 0)).

Lemma allocate_new_block_ok h bs sz A :
  heap_inv h bs -> valid_align A -> 0 <= sz -> sz mod 4 = 0 -> heap_curr h + A + sz + 64 <= 4294967296 ->
  exists p h' bs', allocate_new_block sz A h = Ok (p, h') /\ allocated h h' bs bs' p sz A.
Proof.
  intros Hi HA Hsz H4 Hov. destruct (hi_curr _ _ Hi) as (Hcu4 & Hcc & Hce).
  pose proof (proj1 (hi_base _ _ Hi)) as Hb0. pose proof (chain_le _ _ _ (hi_chain _ _ Hi)) as Hbc.
  assert (0 <= A) by (destruct HA as [->|(k & ? & ->)]; [lia|apply Z.pow_nonneg; lia]).
  destruct (aligned_start (heap_curr h) A) as (Hap & Hge & Hlt & Hah4 & Hal); [done|lia|done|unfold HDR; lia|].
  unfold allocate_new_block. unfold bind at 1. unfold get at 1. cbv zeta.
  set (ah := u32 (_ - HDR)) in *. unfold HDR in *.
  rewrite (u32_small (ah + 16 + sz)), (u32_small (ah + 16)) by (unfold is_u32; lia).
  destruct (Z.ltb_spec (heap_end h) (ah + 16 + sz)) as [Hfull|Hroom].
  { exists 0, h, bs. split; [done|]. split_and!; [done..|by left]. }
  destruct (heap_commit_to_ok h bs (ah + 16 + sz) Hi) as (r & h1 & E1 & Hr & Hi1 & Eh1 & Hcom); [lia|].
  assert (heap_base h1 = heap_base h /\ heap_curr h1 = heap_curr h /\ heap_end h1 = heap_end h) as (Eb & Ec & Ee).
  { rewrite Eh1. done. }
  rewrite (bind_ok _ _ _ _ _ E1). destruct Hr as [->| ->]; cbn [negb Z.eqb].
  2: { exists 0, h1, bs. split; [done|]. split_and!; [done..|by left]. }
  specialize (Hcom eq_refl). rewrite <-Ec.
  destruct (fill_gap_ok h1 bs ah Hi1) as (h2 & bs2 & E2 & Hr2 & Hl2 & Hch2 & Hlive2); [lia|done|unfold HDR; lia|].
  rewrite (bind_ok _ _ _ _ _ E2).
  destruct (append_block_ok h2 bs2 ah sz 0 Hl2) as (h3 & E3 & Hr3 & Hl3).
  { destruct Hr2 as (_ & _ & _ & _ & Ev). unfold header_mapped. rewrite Ev.
    apply (header_mapped_ok h1 bs); [done|lia|unfold HDR; lia]. }
  { lia. }
  { intros b Hb. pose proof (chain_bounds _ _ _ _ Hch2 Hb). unfold b_end, HDR in *. lia. }
  rewrite (bind_ok _ _ _ _ _ E3). unfold bind, modify, ret.
  assert (same_region h1 h3) as Hr13 by (by eapply same_region_trans).
  eexists _, _, (bs2 ++ [Blk ah sz 0]). split; [reflexivity|]. split_and!.
  - apply (heap_inv_grow h1 h3 bs); [done|done|done| |word_lia|done|lia].
    apply chain_app. exists ah. split; [done|]. simpl. unfold b_end, HDR. simpl.
    split_and!; try done; try lia.
  - simpl. by rewrite (proj1 Hr13).
  - destruct Hr13 as (_ & _ & _ & E & _). simpl. by rewrite E.
  - right. split_and!; [lia|done| |].
    { intros b [Hb _]. pose proof (chain_bounds _ _ _ _ (hi_chain _ _ Hi) Hb). unfold b_end, HDR in *. lia. }
    exists sz. split; [done|]. intros b. rewrite live_app, Hlive2, live_cons.
    pose proof (live_nil b). unfold HDR. replace (ah + 16 - 16) with ah by lia. naive_solver.
Qed.

Lemma pow2_of_land x : 2 <= x -> Z.land x (x - 1) = 0 -> x = 2 ^ Z.log2 x.
Proof.
  intros Hx Hz. destruct (Z.log2_spec x ltac:(lia)) as [Hlo Hhi].
  destruct (decide (x = 2 ^ Z.log2 x)) as [|Hne]; [done|]. exfalso.
  assert (Z.log2 (x - 1) = Z.log2 x) as El by (apply Z.log2_unique; [apply Z.log2_nonneg|lia]).
  assert (Z.testbit (Z.land x (x - 1)) (Z.log2 x) = false) as Hb by (by rewrite Hz, Z.bits_0).
  rewrite Z.land_spec, Z.bit_log2 in Hb by lia. rewrite <-El, Z.bit_log2 in Hb by lia. done.
Qed.

Lemma pow2_loop_ok fuel : forall (h : heap V) j align,
  0 <= j <= 31 -> align <= 2 ^ 31 -> 31 < j + Z.of_nat fuel -> (j = 0 \/ 2 ^ (j - 1) < align) ->
  exists k, pow2_loop fuel (2 ^ j) align h = Ok (2 ^ k, h) /\ 0 <= k <= 31 /\ align <= 2 ^ k /\
    (k = 0 \/ 2 ^ (k - 1) < align).
Proof.
  induction fuel as [|f IH]; intros h j align Hj Ha Hf Hmin; [lia|]. cbn [pow2_loop].
  destruct (Z.ltb_spec (2 ^ j) align) as [Hlt|Hge]; [|exists j; done].
  assert (j < 31) by (apply (Z.pow_lt_mono_r_iff 2); lia).
  rewrite Z.shiftl_mul_pow2 by lia. replace (2 ^ j * 2 ^ 1) with (2 ^ (j + 1)) by (rewrite Z.pow_add_r; lia).
  assert (2 ^ (j + 1) <= 2 ^ 31) by (apply Z.pow_le_mono_r; lia).
  rewrite u32_small by (unfold is_u32; split; [apply Z.pow_nonneg; lia|lia]).
  apply IH; [lia|done|lia|]. right. by replace (j + 1 - 1) with j by lia.
Qed.

(** normalize_align rounds an alignment request up to a power of two of at least 4. *)
Lemma normalize_align_ok (h : heap V) align :
  0 <= align <= 2 ^ 31 ->
  exists A, normalize_align align h = Ok (A, h) /\ valid_align A /\ A <= Z.max 4 (2 * align) /\
    (align < 2 -> A = 0) /\ (2 <= align -> align <= A).
Proof.
  intros Ha. unfold normalize_align. destruct (Z.ltb_spec align 2) as [Hlt|Hge].
  { exists 0. split; [done|]. split_and!; [by left|lia|done|lia]. }
  assert (exists k, (if negb (Z.land align (u32 (align - 1)) =? 0) then pow2_loop 33 1 align else ret align) h
            = Ok (2 ^ k, h) /\ 0 <= k <= 31 /\ align <= 2 ^ k /\ 2 ^ k <= 2 * align) as (k & E & Hk & Hle & Hub).
  { rewrite u32_small by (unfold is_u32; lia). destruct (Z.eqb_spec (Z.land align (align - 1)) 0) as [Hz|Hn0]; cbn [negb].
    - exists (Z.log2 align). rewrite <-(pow2_of_land align) by done. split_and!; [done|apply Z.log2_nonneg| |lia|lia].
      change 31 with (Z.log2 (2 ^ 31)). apply Z.log2_le_mono. lia.
    - destruct (pow2_loop_ok 33 h 0 align) as (k & E & Hk & Hle & Hmin); [lia..|by left|].
      exists k. split_and!; [exact E|lia|lia|lia|]. destruct Hmin as [->|Hmin]; [simpl; lia|].
      destruct (decide (k = 0)) as [->|]; [simpl; lia|].
      replace (2 ^ k) with (2 * 2 ^ (k - 1)); [lia|]. rewrite <-(Z.pow_succ_r 2 (k - 1)) by lia. f_equal. lia. }
  rewrite (bind_ok _ _ _ _ _ E). unfold ret. eexists. split; [reflexivity|].
  destruct (Z.ltb_spec (2 ^ k) 4) as [H4|H4].
  - split_and!; [right; exists 2; split; [lia|done]|lia|lia|lia].
  - split_and!; [right; exists k; split; [|done]|lia|lia|lia].
    split; [|lia]. apply (Z.pow_le_mono_r_iff 2); lia.
Qed.

(** ** Allocation *)

Lemma ALIGN4_spec x : 0 <= x -> x + 4 <= 4294967296 -> x <= ALIGN4 x < x + 4 /\ ALIGN4 x mod 4 = 0.
Proof.
  intros Hx Ho. assert (ALIGN4 x = (x + 3) / 4 * 4) as ->; [|word_lia].
  unfold ALIGN4. rewrite u32_small by (unfold is_u32; lia).
  apply (align_mask (x + 3) 2); unfold is_u32; lia.
Qed.

(** The payload size an allocation inside b gets. *)
Definition alloc_len (b : blk) (ah sz : Z) : Z :=
  let total := b_end b - (ah + HDR) in if total - sz <? MIN_BLOCK_SIZE then total else sz.

Lemma alloc_pieces_live b ah sz c : live (alloc_pieces b ah sz) c <-> c = Blk ah (alloc_len b ah sz) 0.
Proof.
  unfold alloc_pieces, alloc_len. rewrite live_app.
  assert (live (if ah =? b_addr b then [] else [Blk (b_addr b) (ah - b_addr b - HDR) 1]) c <-> False) as ->.
  { destruct (ah =? b_addr b); rewrite ?live_cons; (split; [|tauto]); [by intros ?%live_nil|].
    intros [[-> ?]|?%live_nil]; done. }
  cbv zeta. destruct (_ <? MIN_BLOCK_SIZE); rewrite !live_cons; (split; [|by intros ->; right; left]).
  - intros [?|[[? _]|?%live_nil]]; done.
  - intros [?|[[? _]|[[-> ?]|?%live_nil]]]; done.
Qed.

Lemma kmalloc_internal_ok h bs sz align :
  heap_inv h bs -> 0 < sz -> 0 <= align -> heap_end h + sz + 2 * align + 128 <= 4294967296 ->
  exists p h' bs' A, kmalloc_internal sz align h = Ok (p, h') /\ valid_align A /\
    (align < 2 -> A = 0) /\ (2 <= align -> align <= A) /\ allocated h h' bs bs' p sz A.
Proof.
  intros Hi Hsz Hal Hov. pose proof (hi_curr _ _ Hi) as (_ & _ & Hce).
  pose proof (proj1 (hi_base _ _ Hi)) as Hb0. pose proof (chain_le _ _ _ (hi_chain _ _ Hi)) as Hbc.
  destruct (ALIGN4_spec sz) as [Hsz4 H4]; [lia|lia|].
  destruct (normalize_align_ok h align) as (A & EA & HA & HAub & HA0 & HAge); [lia|].
  unfold kmalloc_internal. rewrite (proj2 (Z.eqb_neq _ _)) by lia. cbv zeta.
  rewrite (bind_ok _ _ _ _ _ EA). unfold find_free_block. unfold bind at 1 2. unfold get at 1.
  destruct (find_free_loop_ok (ALIGN4 sz) A h [] bs (S (base.size (hdrs h))) Hi HA) as (o & Eo & Ho);
    [lia|lia|by apply list_fuel|].
  rewrite (hi_head _ _ Hi), Eo. cbn [app] in Ho. destruct o as [[a ah]|].
  - destruct Ho as (xs & b & ys & -> & -> & Hfree & Hfit & Hal').
    destruct (allocate_from_block_ok h xs b ys ah (ALIGN4 sz) Hi Hfit) as (h' & E & Hr & Hi'); [lia|done|].
    exists (ah + HDR), h', (xs ++ alloc_pieces b ah (ALIGN4 sz) ++ ys), A. split_and!; [exact E|done|done|done|]. split_and!; [exact Hi'|apply Hr|apply Hr|].
    right. pose proof (node_bounds _ _ b Hi ltac:(set_solver)) as Hb. destruct Hfit as (Hah & Hah4 & Hend).
    split_and!; [unfold MIN_BLOCK_SIZE, HDR, MIN_SPLIT_SIZE in *; lia|done| |].
    { intros c [Hc Hcf]. destruct (decide (c = b)) as [->|Hcb]; [lia|].
      apply (chain_ne _ xs b ys _ _ (hi_chain _ _ Hi));
        [unfold MIN_BLOCK_SIZE, MIN_SPLIT_SIZE, HDR, b_end in *; lia|rewrite elem_of_app, elem_of_cons in *; tauto]. }
    exists (alloc_len b ah (ALIGN4 sz)). split; [unfold alloc_len, HDR in *; cbv zeta; bdestr; lia|].
    intros c. replace (ah + HDR - HDR) with ah by lia. rewrite !live_app, alloc_pieces_live, live_cons.
    split; [tauto|]. intros [[?|[[-> ?]|?]]|?]; [tauto|lia|tauto|tauto].
  - destruct (allocate_new_block_ok h bs (ALIGN4 sz) A Hi HA) as (p & h' & bs' & E & Hi' & Hb' & He' & Hres); [lia|done|lia|].
    exists p, h', bs', A. split_and!; try done. split_and!; try done.
    destruct Hres as [?|(? & ? & ? & n & ? & ?)]; [by left|]. right. split_and!; try done. exists n. split; [lia|done].
Qed.

(** ** Release *)

(** The state after b1 has taken over b2, whichever order the fields were written in. *)
Lemma absorbed_inv h h' xs b1 b2 ys :
  heap_inv h (xs ++ b1 :: b2 :: ys) -> b_end b1 = b_addr b2 -> same_region h h' -> heap_head h' = heap_head h ->
  heap_tail h' = (if heap_tail h =? b_addr b2 then b_addr b1 else heap_tail h) ->
  (forall c, c ∈ xs -> hdrs h' !! b_addr c = hdrs h !! b_addr c) -> relinked (hdrs h) (hdrs h') ys (b_addr b1) ->
  hdrs h' !! b_addr b1 =
    Some (BlockHeader (b_size b1 + HDR + b_size b2) (hd_addr ys 0) (last_addr 0 xs) (b_free b1)) ->
  heap_inv h' (xs ++ Blk (b_addr b1) (b_size b1 + HDR + b_size b2) (b_free b1) :: ys).
Proof.
  intros Hi Hadj Hr Eh Et Hx Hy Eb. apply (heap_inv_relist h h' (xs ++ b1 :: b2 :: ys)); [done|done|..].
  - by rewrite Eh, (hi_head _ _ Hi), !hd_addr_app.
  - assert (heap_inv h ((xs ++ [b1]) ++ b2 :: ys)) as Hi2 by (by rewrite <-app_assoc).
    rewrite Et, (hi_tail _ _ Hi2). destruct ys as [|y ys].
    + rewrite !last_addr_app. simpl. by rewrite Z.eqb_refl.
    + rewrite (proj2 (Z.eqb_neq _ _)); [by rewrite !last_addr_app|].
      by apply (last_addr_ne _ _ _ _ _ (hi_chain _ _ Hi2)).
  - by apply (lseg_merge (hdrs h) _ xs b1 b2 ys); [apply Hi|..].
  - pose proof (hi_chain _ _ Hi) as (mid & Hx' & Hc)%chain_app. apply chain_app. exists mid. split; [done|].
    simpl in *. unfold b_end, HDR in *. simpl. destruct Hc as (? & ? & ? & ? & ? & ? & ? & ? & ? & ? & Hc).
    split_and!; try done; try lia; try word_lia.
    replace (b_addr b1 + 16 + (b_size b1 + 16 + b_size b2)) with (b_addr b2 + 16 + b_size b2) by lia. done.
Qed.

Lemma absorb_ok h xs b1 b2 ys :
  heap_inv h (xs ++ b1 :: b2 :: ys) -> b_end b1 = b_addr b2 ->
  exists h', absorb (b_addr b1) (b_addr b2) h = Ok (tt, h') /\ same_region h h' /\
    heap_inv h' (xs ++ Blk (b_addr b1) (b_size b1 + HDR + b_size b2) (b_free b1) :: ys).
Proof.
  intros Hi Hadj. pose proof (heap_inv_listed _ _ Hi) as [Hh Ht Hs Hnd Hnodes].
  pose proof (node_bounds _ _ b1 Hi ltac:(set_solver)) as Hb1. pose proof (node_bounds _ _ b2 Hi ltac:(set_solver)) as Hb2.
  unfold absorb. rewrite (bind_ok _ _ _ _ _ (hdr_get_ok h xs b1 (b2 :: ys) Hi)).
  assert (heap_inv h ((xs ++ [b1]) ++ b2 :: ys)) as Hi2 by (by rewrite <-app_assoc).
  rewrite (bind_ok _ _ _ _ _ (hdr_get_ok h (xs ++ [b1]) b2 ys Hi2)). cbn [size next].
  rewrite u32_small by (unfold is_u32, b_end, HDR, HEAP_PAGE in *; lia).
  pose proof (lseg_node _ _ _ _ _ Hs) as Hnode. destruct (Hnodes b1 ltac:(set_solver)) as [Hm1 _].
  assert (forall c, c ∈ xs ++ ys -> b_addr c <> b_addr b1) as Hne1.
  { intros c Hc. apply (chain_ne _ xs b1 (b2 :: ys) _ _ (hi_chain _ _ Hi)); [unfold b_end, HDR in *; lia|set_solver]. }
  hstep ltac:(exact Hm1). hstep ltac:(exact Hm1). cbn [set_size set_next size next prev free].
  assert (forall m k, exists h', (h0 <- get;; (if heap_tail h0 =? b_addr b2 then modify (with_tail (b_addr b1)) else ret tt))
            (with_hdrs m k) = Ok (tt, h') /\ hdrs h' = m /\ same_region k h' /\ heap_head h' = heap_head k /\
            heap_tail h' = (if heap_tail k =? b_addr b2 then b_addr b1 else heap_tail k)) as Htail.
  { intros m k. unfold bind, get, modify, ret. cbn [heap_tail with_hdrs].
    destruct (heap_tail k =? b_addr b2) eqn:Ek; (eexists; split; [reflexivity|]); split_and!; try done. }
  destruct ys as [|y ys]; cbn [hd_addr] in *.
  - unfold bind at 1. cbn [negb Z.eqb]. unfold ret at 1.
    edestruct Htail as (h' & E' & Em & Hr' & Eh' & Et'). exists h'. split; [exact E'|]. split; [done|].
    apply (absorbed_inv h); try done; rewrite Em; cbn [hdrs with_hdrs].
    + intros c Hc. by rewrite !lookup_insert_ne by (apply not_eq_sym, Hne1; set_solver).
    + by simplify_map_eq.
  - destruct (Hnodes y ltac:(set_solver)) as [Hmy Hy0]. rewrite (proj2 (Z.eqb_neq _ _) Hy0). cbn [negb].
    assert (exists hy, hdrs h !! b_addr y = Some hy) as [hy Ehy].
    { rewrite lseg_app in Hs. simpl in Hs. naive_solver. }
    assert (b_addr y <> b_addr b1) as Hyb by (apply Hne1; set_solver).
    assert (forall c, c ∈ xs ++ ys -> b_addr c <> b_addr y) as Hney.
    { assert (heap_inv h ((xs ++ [b1; b2]) ++ y :: ys)) as Hi3 by (by rewrite <-app_assoc).
      pose proof (node_bounds _ _ y Hi ltac:(set_solver)).
      intros c Hc. apply (chain_ne _ _ _ _ _ _ (hi_chain _ _ Hi3)); [unfold b_end, HDR in *; lia|set_solver]. }
    hstep ltac:(exact Hmy).
    edestruct Htail as (h' & E' & Em & Hr' & Eh' & Et'). exists h'. split; [exact E'|]. split; [done|].
    apply (absorbed_inv h); try done; rewrite Em; cbn [hdrs with_hdrs].
    + intros c Hc. by rewrite !lookup_insert_ne by (apply not_eq_sym; first [apply Hne1 | apply Hney]; set_solver).
    + split; [rewrite Ehy; by simplify_map_eq|]. intros c Hc.
      by rewrite !lookup_insert_ne by (apply not_eq_sym; first [apply Hne1 | apply Hney]; set_solver).
    + by simplify_map_eq.
Qed.

Lemma adjacent_ok h xs b ys a :
  heap_inv h (xs ++ b :: ys) -> blocks_adjacent (b_addr b) a h = Ok (b_end b =? a, h).
Proof.
  intros Hi. pose proof (node_bounds _ _ b Hi ltac:(set_solver)). unfold HEAP_PAGE in *.
  unfold blocks_adjacent, block_end, bind. rewrite (hdr_get_ok h xs b ys Hi). unfold ret. cbn [size].
  rewrite u32_small by (unfold is_u32, b_end, HDR in *; lia). done.
Qed.

Lemma coalesce_next_ok h xs b ys :
  heap_inv h (xs ++ b :: ys) -> b_free b = 1 ->
  exists h' b' ys', coalesce_next (b_addr b) h = Ok (tt, h') /\ same_region h h' /\
    heap_inv h' (xs ++ b' :: ys') /\ b_addr b' = b_addr b /\ b_free b' = 1 /\ b_size b <= b_size b' /\
    forall c, live ys' c <-> live ys c.
Proof.
  intros Hi Hf. unfold coalesce_next. rewrite (bind_ok _ _ _ _ _ (hdr_get_ok h xs b ys Hi)). cbn [next].
  assert (exists h' b' ys', Ok (tt, h) = Ok (tt, h') /\ same_region h h' /\
    heap_inv h' (xs ++ b' :: ys') /\ b_addr b' = b_addr b /\ b_free b' = 1 /\ b_size b <= b_size b' /\
    forall c, live ys' c <-> live ys c) as Hsame by (by exists h, b, ys).
  destruct ys as [|y ys]; cbn [hd_addr]; [done|].
  pose proof (node_bounds _ _ y Hi ltac:(set_solver)) as Hy. rewrite (proj2 (Z.eqb_neq _ _)) by lia. cbn [negb].
  assert (heap_inv h ((xs ++ [b]) ++ y :: ys)) as Hi2 by (by rewrite <-app_assoc).
  rewrite (bind_ok _ _ _ _ _ (hdr_get_ok h _ y ys Hi2)). cbn [free].
  destruct (node_aligned _ _ _ _ Hi2) as (_ & _ & Hyf).
  destruct (Z.eqb_spec (b_free y) 0) as [|Hne]; cbn [negb]; [done|].
  rewrite (bind_ok _ _ _ _ _ (adjacent_ok h xs b (y :: ys) _ Hi)).
  destruct (Z.eqb_spec (b_end b) (b_addr y)) as [Hadj|]; [|done].
  destruct (absorb_ok h xs b y ys Hi Hadj) as (h' & E & Hr & Hi').
  exists h', (Blk (b_addr b) (b_size b + HDR + b_size y) (b_free b)), ys. split_and!; try done.
  - simpl. unfold HDR. lia.
  - intros c. rewrite live_cons. split; [tauto|]. intros [[-> ?]|?]; [lia|done].
Qed.

Lemma coalesce_prev_ok h xs b ys :
  heap_inv h (xs ++ b :: ys) -> b_free b = 1 ->
  exists h' xs' b', coalesce_prev (b_addr b) h = Ok (tt, h') /\ same_region h h' /\
    heap_inv h' (xs' ++ b' :: ys) /\ b_free b' = 1 /\ b_size b <= b_size b' /\
    forall c, live xs' c <-> live xs c.
Proof.
  intros Hi Hf. unfold coalesce_prev. rewrite (bind_ok _ _ _ _ _ (hdr_get_ok h xs b ys Hi)). cbn [prev].
  assert (exists h' xs' b', Ok (tt, h) = Ok (tt, h') /\ same_region h h' /\
    heap_inv h' (xs' ++ b' :: ys) /\ b_free b' = 1 /\ b_size b <= b_size b' /\
    forall c, live xs' c <-> live xs c) as Hsame by (by exists h, xs, b).
  destruct xs as [|y xs _] using rev_ind; cbn [last_addr]; [done|].
  rewrite last_addr_app. cbn [last_addr]. pose proof (node_bounds _ _ y Hi ltac:(set_solver)) as Hy.
  rewrite (proj2 (Z.eqb_neq _ _)) by lia. cbn [negb].
  assert (heap_inv h (xs ++ y :: b :: ys)) as Hi2 by (by rewrite <-app_assoc in Hi).
  rewrite (bind_ok _ _ _ _ _ (hdr_get_ok h _ y _ Hi2)). cbn [free].
  destruct (node_aligned _ _ _ _ Hi2) as (_ & _ & Hyf).
  destruct (Z.eqb_spec (b_free y) 0) as [|Hne]; cbn [negb]; [done|].
  rewrite (bind_ok _ _ _ _ _ (adjacent_ok h xs y (b :: ys) _ Hi2)).
  destruct (Z.eqb_spec (b_end y) (b_addr b)) as [Hadj|]; [|done].
  destruct (absorb_ok h xs y b ys Hi2 Hadj) as (h' & E & Hr & Hi').
  exists h', xs, (Blk (b_addr y) (b_size y + HDR + b_size b) (b_free y)). split_and!; try done.
  - simpl. lia.
  - simpl. unfold HDR. lia.
  - intros c. rewrite live_app, live_cons. pose proof (live_nil c). split; [tauto|].
    intros [?|[[-> ?]|?]]; [done|lia|tauto].
Qed.

Lemma kfree_ok h bs b :
  heap_inv h bs -> live bs b ->
  exists h' bs', kfree (b_addr b + HDR) h = Ok (tt, h') /\ same_region h h' /\ heap_inv h' bs' /\
    (forall c, live bs' c <-> live bs c /\ c <> b) /\
    exists f, f ∈ bs' /\ b_free f = 1 /\ b_size b <= b_size f.
Proof.
  intros Hi [Hin Hlive]. pose proof (node_bounds _ _ b Hi Hin) as Hb. unfold HEAP_PAGE in Hb.
  apply list_elem_of_split in Hin as (xs & ys & ->).
  unfold kfree. rewrite (proj2 (Z.eqb_neq _ _)) by (unfold HDR; lia).
  replace (b_addr b + HDR - HDR) with (b_addr b) by lia.
  rewrite u32_small by (unfold is_u32, b_end, HDR in *; lia). cbv zeta.
  destruct (set_free_ok h xs b ys 1 Hi) as (h1 & E1 & Hr1 & Hi1); [by right|]. rewrite (bind_ok _ _ _ _ _ E1).
  destruct (coalesce_next_ok h1 xs _ ys Hi1 eq_refl) as (h2 & b2 & ys2 & E2 & Hr2 & Hi2 & Ea2 & Hf2 & Hs2 & Hl2).
  cbn [b_addr] in E2, Ea2. rewrite (bind_ok _ _ _ _ _ E2). rewrite <-Ea2.
  destruct (coalesce_prev_ok h2 xs b2 ys2 Hi2 Hf2) as (h3 & xs3 & b3 & E3 & Hr3 & Hi3 & Hf3 & Hs3 & Hl3).
  exists h3, (xs3 ++ b3 :: ys2). split_and!; [done| |done| |].
  - eapply same_region_trans; [exact Hr1|]. by eapply same_region_trans.
  - intros c. rewrite !live_app, !live_cons, Hl2, Hl3.
    assert (live xs c \/ live ys c -> c <> b) as Hne.
    { intros Hc ->. apply (chain_ne _ xs b ys _ (b_addr b) (hi_chain _ _ Hi) ltac:(unfold b_end, HDR; lia) b); [|done].
      apply elem_of_app. unfold live in Hc. tauto. }
    split; [|tauto]. intros [Hc|[[-> ?]|Hc]]; [tauto|lia|tauto].
  - exists b3. split_and!; [set_solver|done|simpl in Hs2; lia].
Qed.

(** ** Initialisation *)

Lemma kmalloc_init_ok h hs he :
  0 < hs -> hs + 2 * HEAP_PAGE <= he -> he + 2 * HEAP_PAGE <= 4294967296 -> pm_ok (vm h) ->
  (forall a, hs <= a < he + HEAP_PAGE -> pm_dom a) ->
  exists h', kmalloc_init hs he h = Ok (tt, h') /\ heap_inv h' [] /\
    heap_base h' = PAGE_ALIGN_UP hs /\ heap_end h' = he.
Proof.
  intros Hhs Hroom Hov Hok Hdom. unfold HEAP_PAGE in *.
  destruct (page_up_spec hs) as [Hup Hup4]; [lia|unfold HEAP_PAGE; lia|]. unfold HEAP_PAGE in *.
  set (b := PAGE_ALIGN_UP hs) in *. set (h0 := Heap (hdrs h) b b b he 0 0 (vm h)).
  assert (kmalloc_init hs he h = (heap_commit_to (u32 (b + 1));;; ret tt) h0) as ->.
  { unfold kmalloc_init. rewrite !(proj2 (Z.eqb_neq _ 0)) by lia. reflexivity. }
  assert (heap_inv h0 []) as Hi0.
  { split; simpl; unfold HEAP_PAGE; try done; try lia.
    - split_and!; try lia; word_lia.
    - intros a Ha. apply Hdom. lia. }
  destruct (heap_commit_to_ok h0 [] (b + 1) Hi0) as (r & h1 & E1 & _ & Hi1 & Eh1 & _); [simpl; lia|].
  exists h1. rewrite u32_small by (unfold is_u32; lia). rewrite (bind_ok _ _ _ _ _ E1).
  split_and!; [done|done|by rewrite Eh1|by rewrite Eh1].
Qed.

(** ** Clients

    The states a client of the allocator can reach, with the set of pointers it holds: it
    allocates with sizes for which no 32-bit sum wraps, and frees only pointers it holds. *)

(** No address computation for a request of sz bytes aligned to align wraps around. *)
Definition request_ok (h : heap V) (sz align : Z) : Prop :=
  0 < sz /\ 0 <= align /\ heap_end h + sz + 2 * align + 128 <= 4294967296.

Inductive client : heap V -> gset Z -> Prop :=
| client_start h : heap_inv h [] -> client h ∅
| client_malloc h L sz align p h' :
    client h L -> request_ok h sz align -> kmalloc_internal sz align h = Ok (p, h') ->
    client h' (if p =? 0 then L else {[p]} ∪ L)
| client_free h L p h' :
    client h L -> p ∈ L -> kfree p h = Ok (tt, h') -> client h' (L ∖ {[p]}).

(** The pointers held are the payloads of the live blocks. *)
Lemma client_inv h L :
  client h L -> exists bs, heap_inv h bs /\ forall p, p ∈ L <-> exists b, live bs b /\ p = b_addr b + HDR.
Proof.
  induction 1 as [h Hi|h L sz align p h' _ (bs & Hi & HL) (Hsz & Hal & Hov) E|h L p h' _ (bs & Hi & HL) Hp E].
  - exists []. split; [done|]. intros p. split; [set_solver|]. intros (b & ?%live_nil & _). done.
  - destruct (kmalloc_internal_ok h bs sz align Hi Hsz Hal Hov) as (p' & h2 & bs' & A & E' & _ & _ & _ & Hi' & _ & _ & Hres).
    rewrite E in E'. injection E' as <- <-. exists bs'. split; [done|].
    destruct Hres as [[-> ->]|(Hp0 & _ & _ & n & _ & Hlive)]; [done|].
    rewrite (proj2 (Z.eqb_neq _ _) Hp0). intros q. rewrite elem_of_union, elem_of_singleton, HL. split.
    + intros [->|(b & Hb & ->)]; [exists (Blk (p - HDR) n 0)|exists b]; rewrite Hlive; [split; [by right|simpl; lia]|split; [by left|done]].
    + intros (b & [Hb| ->]%Hlive & ->); [right; eauto|left; simpl; lia].
  - apply HL in Hp as (b & Hb & ->).
    destruct (kfree_ok h bs b Hi Hb) as (h2 & bs' & E' & _ & Hi' & Hlive & _).
    rewrite E in E'. injection E' as <-. exists bs'. split; [done|]. intros q.
    rewrite elem_of_difference, elem_of_singleton, HL. split.
    + intros [(c & Hc & ->) Hne]. exists c. rewrite Hlive. split; [split; [done|]|done]. intros ->. done.
    + intros (c & [Hc Hne]%Hlive & ->). split; [eauto|]. intros Eq. apply Hne.
      destruct Hb as [(xs & ys & ->)%list_elem_of_split Hbf], Hc as [Hc Hcf].
      rewrite elem_of_app, elem_of_cons in Hc.
      destruct (decide (c = b)) as [|Hcb]; [done|]. exfalso.
      pose proof (node_bounds _ _ b Hi ltac:(set_solver)).
      apply (chain_ne _ xs b ys _ (b_addr b) (hi_chain _ _ Hi) ltac:(unfold b_end, HDR; lia) c);
        [rewrite elem_of_app; tauto|lia].
Qed.

(** Live blocks are disjoint from each other. *)
Lemma live_disjoint h bs b c :
  heap_inv h bs -> live bs b -> live bs c -> b <> c -> b_end b <= b_addr c \/ b_end c <= b_addr b.
Proof.
  intros Hi [Hb _] [Hc _] Hne. apply list_elem_of_split in Hb as (xs & ys & ->).
  assert (c ∈ xs ++ ys) as Hc' by (rewrite elem_of_app, elem_of_cons in *; naive_solver).
  destruct (chain_clear _ xs b ys _ c (hi_chain _ _ Hi) Hc'); auto.
Qed.

End Spec.

(** ** Properties *)

Section Properties.
Context {V : Type} `{PageMapperOk V}.

(** C2: for a request that cannot wrap, kmalloc_internal terminates without a fault and either
    returns NULL with the list of blocks unchanged, or returns a suitably aligned payload of
    the requested size that lies inside the heap, on mapped pages, and overlaps neither the
    payload nor the header of any block that was allocated before; all of those stay allocated
    with their sizes, and the heap invariant holds afterwards. *)
Theorem kmalloc_internal_contract (h : heap V) bs sz align :
  heap_inv h bs -> request_ok h sz align ->
  exists p h' bs', kmalloc_internal sz align h = Ok (p, h') /\ heap_inv h' bs' /\
    ((p = 0 /\ bs' = bs) \/
     (p <> 0 /\ (2 <= align -> exists k, align <= 2 ^ k /\ p mod 2 ^ k = 0) /\
      heap_base h <= p - HDR /\ p + sz <= heap_end h /\
      (forall x, p - HDR <= x < p + sz -> page_mapped (vm h') x = true) /\
      (forall b, live bs b -> live bs' b /\ (b_end b <= p - HDR \/ p + sz <= b_addr b)))).
Proof.
  intros Hi (Hsz & Hal & Hov).
  destruct (kmalloc_internal_ok h bs sz align Hi Hsz Hal Hov)
    as (p & h' & bs' & A & E & HA & _ & HAge & Hi' & Eb & Ee & Hres).
  exists p, h', bs'. split_and!; [done|done|]. destruct Hres as [?|(Hp & Halg & Hfresh & n & Hn & Hlive)]; [by left|right].
  assert (live bs' (Blk (p - HDR) n 0)) as Hnew by (apply Hlive; by right).
  pose proof (node_bounds _ _ _ Hi' (proj1 Hnew)) as Hb. unfold b_end in Hb. simpl in Hb.
  pose proof (hi_curr _ _ Hi') as (_ & Hcc & Hce).
  split_and!; [done| |lia|lia| |].
  - intros Ha2. destruct HA as [->|(k & Hk & ->)]; [lia|]. exists k. split; [auto|].
    apply Halg. apply Z.pow_nonzero; lia.
  - intros x Hx. apply (hi_mapped _ _ Hi'). lia.
  - intros b Hb'. assert (live bs' b) as Hlb by (apply Hlive; by left). split; [done|].
    destruct (live_disjoint h' bs' b _ Hi' Hlb Hnew) as [?|?].
    + intros ->. by apply (Hfresh _ Hb').
    + by left.
    + right. unfold b_end in *. simpl in *. unfold HDR in *. lia.
Qed.

(** C3: freeing an allocated block terminates without a fault, keeps the heap invariant and
    every other allocation, and removes exactly that block from the allocated ones. *)
Theorem kfree_contract (h : heap V) bs b :
  heap_inv h bs -> live bs b ->
  exists h' bs', kfree (b_addr b + HDR) h = Ok (tt, h') /\ heap_inv h' bs' /\
    heap_curr h' = heap_curr h /\ forall c, live bs' c <-> live bs c /\ c <> b.
Proof.
  intros Hi Hb. destruct (kfree_ok h bs b Hi Hb) as (h' & bs' & E & (_ & Ec & _) & Hi' & Hl & _).
  exists h', bs'. done.
Qed.

(** C4: in every state a client can reach by allocating and freeing what it holds, with requests that do
    not wrap around the 32-bit address space ([request_ok]: the end of the heap, the size and twice the
    alignment stay below 2^32), each further such request succeeds or reports exhaustion and never
    returns a pointer the client still holds, and each pointer it holds can be freed without a fault. *)
Theorem heap_client_safe (h : heap V) L :
  client h L ->
  (forall sz align, request_ok h sz align ->
     exists p h', kmalloc_internal sz align h = Ok (p, h') /\ (p = 0 \/ p ∉ L)) /\
  (forall p, p ∈ L -> exists h', kfree p h = Ok (tt, h')).
Proof.
  intros (bs & Hi & HL)%client_inv. split.
  - intros sz align (Hsz & Hal & Hov).
    destruct (kmalloc_internal_ok h bs sz align Hi Hsz Hal Hov)
      as (p & h' & bs' & A & E & _ & _ & _ & _ & _ & _ & Hres).
    exists p, h'. split; [done|]. destruct Hres as [[? _]|(_ & _ & Hfresh & _)]; [by left|right].
    rewrite HL. intros (b & Hb & ->). apply (Hfresh b Hb). lia.
  - intros p (b & Hb & ->)%HL. destruct (kfree_ok h bs b Hi Hb) as (h' & _ & E & _). by exists h'.
Qed.

(** memory that was freed is found again: after freeing a block, a request for its size
    succeeds and is served from the existing heap, without growing it. *)
Theorem kfree_kmalloc_reuses (h : heap V) bs b :
  heap_inv h bs -> live bs b -> request_ok h (b_size b) 0 ->
  exists h1 p h2, kfree (b_addr b + HDR) h = Ok (tt, h1) /\
    kmalloc_internal (b_size b) 0 h1 = Ok (p, h2) /\ p <> 0 /\ heap_curr h2 = heap_curr h.
Proof.
  intros Hi Hb (Hsz & _ & Hov).
  destruct (kfree_ok h bs b Hi Hb) as (h1 & bs1 & E1 & (Eb & Ec & _ & Ee & _) & Hi1 & _ & f & Hf & Hff & Hfs).
  assert (b_size b mod 4 = 0) as H4.
  { destruct Hb as [(xs & ys & ->)%list_elem_of_split _]. by apply (node_aligned _ _ _ _ Hi). }
  pose proof (node_bounds _ _ b Hi (proj1 Hb)) as Hnb. pose proof (hi_base _ _ Hi) as [Hb0 _].
  destruct (ALIGN4_spec (b_size b)) as [Hs4 Hm4]; [lia| |].
  { pose proof (hi_curr _ _ Hi). pose proof (hi_end _ _ Hi). unfold b_end, HEAP_PAGE, HDR in *. lia. }
  assert (ALIGN4 (b_size b) = b_size b) as EA by (clear -H4 Hs4 Hm4; word_lia).
  pose proof (hi_curr _ _ Hi1) as (_ & _ & Hce).
  destruct (find_free_loop_ok (b_size b) 0 h1 [] bs1 (S (base.size (hdrs h1))) Hi1) as (o & Eo & Ho);
    [by left|lia|lia|by apply list_fuel|].
  destruct o as [[a ah]|]; [|specialize (Ho eq_refl f Hf Hff); lia].
  cbn [app] in Ho. destruct Ho as (xs & c & ys & -> & -> & Hcf & Hfit & _).
  destruct (allocate_from_block_ok h1 xs c ys ah (b_size b) Hi1 Hfit) as (h2 & E2 & Hr2 & Hi2); [lia|done|].
  exists h1, (ah + HDR), h2. split_and!; [done| | |].
  - unfold kmalloc_internal. rewrite (proj2 (Z.eqb_neq _ _)) by lia. cbv zeta. rewrite EA.
    unfold normalize_align. cbn [Z.ltb Z.compare]. unfold bind at 1. unfold ret at 1.
    unfold find_free_block, bind, get. by rewrite (hi_head _ _ Hi1), Eo.
  - pose proof (node_bounds _ _ c Hi1 ltac:(set_solver)). destruct Hfit as (Hah & _ & _).
    unfold MIN_BLOCK_SIZE, MIN_SPLIT_SIZE, HDR in *. lia.
  - destruct Hr2 as (_ & -> & _). done.
Qed.

(** kmalloc_init leaves an empty heap that satisfies the invariant, starting on the page
    boundary at or above the requested start. *)
Theorem kmalloc_init_contract (h : heap V) hs he :
  0 < hs -> hs + 2 * HEAP_PAGE <= he -> he + 2 * HEAP_PAGE <= 4294967296 -> pm_ok (vm h) ->
  (forall a, hs <= a < he + HEAP_PAGE -> pm_dom a) ->
  exists h', kmalloc_init hs he h = Ok (tt, h') /\ heap_inv h' [] /\
    hs <= heap_base h' < hs + HEAP_PAGE /\ heap_end h' = he /\ client h' ∅.
Proof.
  intros Hhs Hroom Hov Hok Hdom.
  destruct (kmalloc_init_ok h hs he Hhs Hroom Hov Hok Hdom) as (h' & E & Hi & Eb & Ee).
  destruct (page_up_spec hs) as [Hup _]; [lia|unfold HEAP_PAGE in *; lia|].
  exists h'. split_and!; [done|done|lia|lia|done|by constructor].
Qed.
End Properties.

(** ** A concrete page mapper

    Every page can be mapped, at the frame with its own number; used to run the allocator. *)

#[global] Instance flat_mapper : PageMapper (gset Z) := {|
  vmm_map_page_alloc a fl := fun v => Ok (0, {[a / HEAP_PAGE]} ∪ v);
  vmm_virt_to_phys a v := if decide (a / HEAP_PAGE ∈ v) then Some a else None;
  page_mapped v a := bool_decide (a / HEAP_PAGE ∈ v)
|}.

#[global] Program Instance flat_mapper_ok : PageMapperOk (gset Z) := {|
  pm_ok v := True;
  pm_dom a := True
|}.
Next Obligation.
  intros v a _ _. exists 0, ({[a / HEAP_PAGE]} ∪ v). split_and!; [done|done|..].
  - intros b _ Hb%bool_decide_eq_true. apply bool_decide_eq_true. set_solver.
  - intros _ b Hb. apply bool_decide_eq_true. rewrite Hb. set_solver.
Qed.

(** A heap of 1 MiB at 0xC1000000, just initialised. *)
Definition heap0 : heap (gset Z) := Heap ∅ 0 0 0 0 0 0 ∅.
Definition sample_heap : heap (gset Z) :=
  match kmalloc_init 0xC1000000 0xC1100000 heap0 with Ok (_, h) => h | _ => heap0 end.

(** the size of a request is not checked against 32-bit wrap-around: a request for
    0xFFFFFFF0 bytes is granted although the heap has one megabyte, and the next small request
    returns the same pointer. *)
Theorem kmalloc_huge_request_wraps :
  exists h1 h2, kmalloc_internal 0xFFFFFFF0 0 sample_heap = Ok (0xC1000010, h1) /\
    kmalloc_internal 64 0 h1 = Ok (0xC1000010, h2).
Proof.
  set (h1 := match kmalloc_internal 0xFFFFFFF0 0 sample_heap with Ok (_, h) => h | _ => heap0 end).
  set (h2 := match kmalloc_internal 64 0 h1 with Ok (_, h) => h | _ => heap0 end).
  exists h1, h2. split; vm_compute; reflexivity.
Qed.

(** So is a page-aligned request for a gigabyte, as the image of a program with a large
    uninitialised segment makes it: the heap of one megabyte grants it. *)
Example kmalloc_gigabyte_wraps :
  exists h1, kmalloc_internal 0x40000000 4096 sample_heap = Ok (0xC1001000, h1).
Proof.
  exists (match kmalloc_internal 0x40000000 4096 sample_heap with Ok (_, h) => h | _ => heap0 end). vm_compute. reflexivity.
Qed.

(** ** Concrete states for the properties above *)

Definition sample_heap1 : heap (gset Z) :=
  match kmalloc_internal 64 0 sample_heap with Ok (_, h) => h | _ => heap0 end.

(** Fields are evaluated one by one; the mapped range is a single page. *)
Ltac concrete_heap_inv :=
  split; [reflexivity|reflexivity| | |by vm_compute|by vm_compute|by vm_compute|by vm_compute| |done|done].

Lemma sample_heap_vm : vm sample_heap = {[790528]}.
Proof. reflexivity. Qed.

Lemma sample_heap_inv : heap_inv sample_heap [].
Proof.
  concrete_heap_inv; [done|by vm_compute|].
  intros a Ha. change (3238002688 <= a < 3238006784) in Ha. apply bool_decide_eq_true.
  rewrite sample_heap_vm. assert (a / HEAP_PAGE = 790528) as -> by (unfold HEAP_PAGE; word_lia). set_solver.
Qed.

Lemma sample_heap1_inv : heap_inv sample_heap1 [Blk 0xC1000000 64 0].
Proof.
  concrete_heap_inv.
  - split; [|done]. reflexivity.
  - vm_compute. intuition congruence.
  - intros a Ha. change (3238002688 <= a < 3238006784) in Ha. apply bool_decide_eq_true.
    change (vm sample_heap1) with (vm sample_heap).
    rewrite sample_heap_vm. assert (a / HEAP_PAGE = 790528) as -> by (unfold HEAP_PAGE; word_lia). set_solver.
Qed.

Lemma kmalloc_internal_contract_witness :
  exists p h' bs', kmalloc_internal 100 64 sample_heap1 = Ok (p, h') /\ heap_inv h' bs' /\
    ((p = 0 /\ bs' = [Blk 0xC1000000 64 0]) \/
     (p <> 0 /\ (2 <= 64 -> exists k, 64 <= 2 ^ k /\ p mod 2 ^ k = 0) /\
      heap_base sample_heap1 <= p - HDR /\ p + 100 <= heap_end sample_heap1 /\
      (forall x, p - HDR <= x < p + 100 -> page_mapped (vm h') x = true) /\
      (forall b, live [Blk 0xC1000000 64 0] b -> live bs' b /\ (b_end b <= p - HDR \/ p + 100 <= b_addr b)))).
Proof.
  apply (kmalloc_internal_contract sample_heap1 [Blk 0xC1000000 64 0] 100 64 sample_heap1_inv).
  by vm_compute.
Defined.

Lemma kfree_contract_witness :
  exists h' bs', kfree 0xC1000010 sample_heap1 = Ok (tt, h') /\ heap_inv h' bs' /\
    heap_curr h' = heap_curr sample_heap1 /\
    forall c, live bs' c <-> live [Blk 0xC1000000 64 0] c /\ c <> Blk 0xC1000000 64 0.
Proof.
  apply (kfree_contract sample_heap1 [Blk 0xC1000000 64 0] (Blk 0xC1000000 64 0) sample_heap1_inv).
  split; [by apply list_elem_of_singleton|done].
Defined.

Lemma sample_client : client sample_heap1 {[0xC1000010]}.
Proof.
  replace ({[0xC1000010]} : gset Z) with ({[0xC1000010]} ∪ ∅ : gset Z) by set_solver.
  apply (client_malloc sample_heap ∅ 64 0 0xC1000010).
  - apply client_start, sample_heap_inv.
  - by vm_compute.
  - reflexivity.
Qed.

Lemma heap_client_safe_witness :
  (forall sz align, request_ok sample_heap1 sz align ->
     exists p h', kmalloc_internal sz align sample_heap1 = Ok (p, h') /\ (p = 0 \/ p ∉ ({[0xC1000010]} : gset Z))) /\
  (forall p, p ∈ ({[0xC1000010]} : gset Z) -> exists h', kfree p sample_heap1 = Ok (tt, h')).
Proof. apply (heap_client_safe sample_heap1 {[0xC1000010]} sample_client). Defined.

Lemma kfree_kmalloc_reuses_witness :
  exists h1 p h2, kfree 0xC1000010 sample_heap1 = Ok (tt, h1) /\
    kmalloc_internal 64 0 h1 = Ok (p, h2) /\ p <> 0 /\ heap_curr h2 = heap_curr sample_heap1.
Proof.
  apply (kfree_kmalloc_reuses sample_heap1 [Blk 0xC1000000 64 0] (Blk 0xC1000000 64 0) sample_heap1_inv).
  - split; [by apply list_elem_of_singleton|done].
  - by vm_compute.
Defined.

Lemma kmalloc_init_contract_witness :
  exists h', kmalloc_init 0xC1000123 0xC1100000 heap0 = Ok (tt, h') /\ heap_inv h' [] /\
    0xC1000123 <= heap_base h' < 0xC1000123 + HEAP_PAGE /\ heap_end h' = 0xC1100000 /\ client h' ∅.
Proof. apply (kmalloc_init_contract heap0 0xC1000123 0xC1100000); done. Defined.
