(* ===== verification/Paging.v ===== *)
(** * Paging and the virtual memory manager (mm/paging.c)

    Physical memory as 32-bit words, the walk the processor makes through the page directory that
    CR3 designates, and the operations of the kernel on it.  The kernel reaches page tables
    through the recursive entry 1023 of the directory, so its own accesses go through the same
    walk; an access that does not translate is a page fault.  The translation is always taken
    from memory: stale TLB entries are not modelled, invlpg has no effect here. *)
From S2P Require Import Prelude Pmm Heap.

Definition RECURSIVE_PT_BASE : Z := 0xFFC00000.
Definition RECURSIVE_PD_BASE : Z := 0xFFFFF000.
Definition PAGE_PRESENT : Z := 1.
Definition PAGE_RW : Z := 2.
Definition PAGE_USER : Z := 4.
Definition FRAME_MASK : Z := 0xFFFFF000.
Definition CPUID_FEAT_EDX_MSR : Z := Z.shiftl 1 5.
Definition CPUID_FEAT_EDX_PAT : Z := Z.shiftl 1 16.
Definition PAT_TYPE_WC : Z := 1.

(** Where the linker put the static tables and the kernel image, and what cpuid(1) reports in
    edx. *)
Record platform := Platform {
  page_directory : Z;
  first_page_table : Z;
  _kernel_start : Z;
  _kernel_end : Z;
  cpuid_edx : Z
}.

(** The frame allocator, physical memory by word index, CR3, the paging bit of CR0, the PAT
    register, and the static variables of the file. *)
Record paging := Paging {
  frames : pmm;
  phys : gmap Z Z;
  cr3 : Z;
  cr0_pg : bool;
  msr_pat : Z;
  g_pat_wc_enabled : bool;
  current_page_directory : Z;
  current_page_directory_phys : Z;
  kernel_page_directory : Z;
  kernel_page_directory_phys : Z
}.

Definition with_frames (x : pmm) (v : paging) := Paging x (phys v) (cr3 v) (cr0_pg v) (msr_pat v) (g_pat_wc_enabled v)
  (current_page_directory v) (current_page_directory_phys v) (kernel_page_directory v) (kernel_page_directory_phys v).
Definition with_phys (x : gmap Z Z) (v : paging) := Paging (frames v) x (cr3 v) (cr0_pg v) (msr_pat v) (g_pat_wc_enabled v)
  (current_page_directory v) (current_page_directory_phys v) (kernel_page_directory v) (kernel_page_directory_phys v).
Definition with_cr3 (x : Z) (v : paging) := Paging (frames v) (phys v) x (cr0_pg v) (msr_pat v) (g_pat_wc_enabled v)
  (current_page_directory v) (current_page_directory_phys v) (kernel_page_directory v) (kernel_page_directory_phys v).
Definition with_pg (x : bool) (v : paging) := Paging (frames v) (phys v) (cr3 v) x (msr_pat v) (g_pat_wc_enabled v)
  (current_page_directory v) (current_page_directory_phys v) (kernel_page_directory v) (kernel_page_directory_phys v).
Definition with_pat (x : Z) (wc : bool) (v : paging) := Paging (frames v) (phys v) (cr3 v) (cr0_pg v) x wc
  (current_page_directory v) (current_page_directory_phys v) (kernel_page_directory v) (kernel_page_directory_phys v).
Definition with_current (d p : Z) (v : paging) := Paging (frames v) (phys v) (cr3 v) (cr0_pg v) (msr_pat v) (g_pat_wc_enabled v)
  d p (kernel_page_directory v) (kernel_page_directory_phys v).
Definition with_kernel (d p : Z) (v : paging) := Paging (frames v) (phys v) (cr3 v) (cr0_pg v) (msr_pat v) (g_pat_wc_enabled v)
  (current_page_directory v) (current_page_directory_phys v) d p.

(** ** The processor *)

Definition frame_of (e : Z) : Z := Z.land e FRAME_MASK.
Definition present (e : Z) : bool := negb (Z.land e PAGE_PRESENT =? 0).

(** The word at a physical address. *)
Definition pword (v : paging) (a : Z) : Z := default 0 (phys v !! (a / 4)).
Definition set_pword (a x : Z) (v : paging) : paging := with_phys (<[a / 4 := x]> (phys v)) v.

(** The two-level walk of a 32-bit linear address; without paging addresses are physical. *)
Definition mmu (v : paging) (va : Z) : option Z :=
  if cr0_pg v then
    let pde := pword v (frame_of (cr3 v) + 4 * (va / 4194304)) in
    if present pde then
      let pte := pword v (frame_of pde + 4 * (va / 4096 mod 1024)) in
      if present pte then Some (frame_of pte + va mod 4096) else None
    else None
  else Some va.

Definition vread (va : Z) : M paging Z :=
  fun v => match mmu v va with Some a => Ok (pword v a, v) | None => Fault end.
Definition vwrite (va x : Z) : M paging unit :=
  fun v => match mmu v va with Some a => Ok (tt, set_pword a x v) | None => Fault end.

(** memset(va, 0, PAGE_SIZE): [n] words are left. *)
Fixpoint zero_words (n : nat) (va : Z) : M paging unit :=
  match n with
  | O => ret tt
  | S n' => vwrite va 0;;; zero_words n' (va + 4)
  end.
Definition zero_page (va : Z) : M paging unit := zero_words 1024 va.

(** memcpy(dst, src, PAGE_SIZE) by words. *)
Fixpoint copy_words (n : nat) (dst src : Z) : M paging unit :=
  match n with
  | O => ret tt
  | S n' => x <- vread src;; vwrite dst x;;; copy_words n' (dst + 4) (src + 4)
  end.

Definition on_frames {A} (c : M pmm A) : M paging A := fun v =>
  match c (frames v) with
  | Ok (a, f) => Ok (a, with_frames f v)
  | Fault => Fault
  | NoFuel => NoFuel
  end.

Definition paging_is_enabled : M paging bool := gets cr0_pg.
Definition invlpg (addr : Z) : M paging unit := ret tt.
Definition load_pd (pd : Z) : M paging unit := modify (with_cr3 pd).
Definition enable_pg : M paging unit := modify (with_pg true).

(** ** Mapping a page *)

Definition dir_index (virt : Z) : Z := Z.shiftr virt 22.
Definition table_index (virt : Z) : Z := Z.land (Z.shiftr virt 12) 0x3FF.

Definition map_page (dir virt phys flags : Z) : M paging unit :=
  let dir_idx := dir_index virt in
  let table_idx := table_index virt in
  e <- vread (dir + 4 * dir_idx);;
  ok <- (if negb (present e) then
           new_table_phys <- on_frames pmm_alloc_page;;
           if new_table_phys =? 0 then ret false
           else
             vwrite (dir + 4 * dir_idx) (Z.lor (Z.lor (frame_of new_table_phys) PAGE_PRESENT) PAGE_RW);;;
             (if negb (Z.land flags PAGE_USER =? 0) then
                e <- vread (dir + 4 * dir_idx);; vwrite (dir + 4 * dir_idx) (Z.lor e PAGE_USER)
              else ret tt);;;
             on <- paging_is_enabled;;
             (if on : bool then zero_page (RECURSIVE_PT_BASE + dir_idx * PAGE_SIZE)
              else zero_page new_table_phys);;;
             ret true
         else
           (if negb (Z.land flags PAGE_USER =? 0) then vwrite (dir + 4 * dir_idx) (Z.lor e PAGE_USER)
            else ret tt);;; ret true);;
  if negb ok then ret tt
  else
    on <- paging_is_enabled;;
    table <- (if on : bool then ret (RECURSIVE_PT_BASE + dir_idx * PAGE_SIZE)
              else e <- vread (dir + 4 * dir_idx);; ret (frame_of e));;
    vwrite (table + 4 * table_idx) (Z.lor (frame_of phys) flags).

Definition vmm_map_page (virt phys flags : Z) : M paging Z :=
  dir <- gets current_page_directory;;
  map_page dir virt phys flags;;;
  on <- paging_is_enabled;;
  (if on : bool then invlpg virt else ret tt);;;
  ret 0.

(** Returns the result and, in place of *out_phys, the frame. *)
Definition vmm_map_page_alloc_phys (virt flags : Z) : M paging (Z * Z) :=
  phys <- on_frames pmm_alloc_page;;
  if phys =? 0 then ret (-1, 0)
  else vmm_map_page virt phys flags;;; ret (0, phys).

(** for (addr = start; addr < end; addr += PAGE_SIZE) if (f(addr) != 0) return -1; *)
Fixpoint range_loop (fuel : nat) (f : Z -> M paging Z) (addr end_ : Z) : M paging Z :=
  match fuel with
  | O => nofuel
  | S fuel' =>
    if addr <? end_ then
      r <- f addr;;
      if negb (r =? 0) then ret (-1) else range_loop fuel' f (u32 (addr + PAGE_SIZE)) end_
    else ret 0
  end.
(** At most 2^20 pages and the final test. *)
Definition map_range (f : Z -> M paging Z) (virt size : Z) : M paging Z :=
  if size =? 0 then ret 0
  else
    let start := Z.land virt FRAME_MASK in
    let end_ := Z.land (u32 (virt + size + 0xFFF)) FRAME_MASK in
    range_loop (S (Z.to_nat ((end_ - start) / PAGE_SIZE))) f start end_.

Definition vmm_map_range_alloc (virt size flags : Z) : M paging Z :=
  map_range (fun addr => r <- vmm_map_page_alloc_phys addr flags;; ret (fst r)) virt size.

(** The frame through the recursive mapping: [None] for -1. *)
Definition vmm_virt_to_phys_m (virt : Z) : M paging (option Z) :=
  on <- paging_is_enabled;;
  if negb on then ret (Some virt)
  else
    let dir_idx := dir_index virt in
    let table_idx := table_index virt in
    pde <- vread (RECURSIVE_PD_BASE + 4 * dir_idx);;
    if negb (present pde) then ret None
    else
      pte <- vread (RECURSIVE_PT_BASE + dir_idx * PAGE_SIZE + 4 * table_idx);;
      if negb (present pte) then ret None
      else ret (Some (Z.lor (frame_of pte) (Z.land virt 0xFFF))).

Definition vmm_mark_user_range (virt size : Z) : M paging Z :=
  map_range (fun addr =>
    p <- vmm_virt_to_phys_m addr;;
    match p with
    | None => ret (-1)
    | Some p => vmm_map_page addr p (Z.lor (Z.lor PAGE_PRESENT PAGE_RW) PAGE_USER)
    end) virt size.

Definition paging_kernel_dir : M paging Z := gets kernel_page_directory.
Definition paging_kernel_dir_phys : M paging Z := gets kernel_page_directory_phys.
Definition paging_current_dir : M paging Z := gets current_page_directory.
Definition paging_current_dir_phys : M paging Z := gets current_page_directory_phys.
Definition paging_pat_wc_enabled : M paging bool := gets g_pat_wc_enabled.

Definition paging_set_current_dir (dir phys : Z) : M paging unit :=
  if (dir =? 0) || (phys =? 0) then ret tt
  else modify (with_current dir phys);;; load_pd phys.

(** ** Start-up *)

Definition paging_init_pat (pl : platform) : M paging unit :=
  if Z.land (cpuid_edx pl) CPUID_FEAT_EDX_MSR =? 0 then ret tt
  else if Z.land (cpuid_edx pl) CPUID_FEAT_EDX_PAT =? 0 then ret tt
  else
    pat <- gets msr_pat;;
    let entry_mask := Z.shiftl 0xff 32 in
    let new_pat := Z.lor (Z.land pat (u64 (Z.lnot entry_mask))) (Z.shiftl PAT_TYPE_WC 32) in
    modify (with_pat new_pat true).

(** The identity map of the first four megabytes. *)
Fixpoint fill_first (n : nat) (fpt addr : Z) : M paging unit :=
  match n with
  | O => ret tt
  | S n' =>
    vwrite (fpt + 4 * Z.shiftr addr 12) (Z.lor (Z.lor (frame_of addr) PAGE_PRESENT) PAGE_RW);;;
    fill_first n' fpt (addr + PAGE_SIZE)
  end.
(** [n] pages from addr on, mapped at addr + delta. *)
Fixpoint map_pages (n : nat) (dir addr delta : Z) : M paging unit :=
  match n with
  | O => ret tt
  | S n' =>
    map_page dir (u32 (addr + delta)) addr (Z.lor PAGE_PRESENT PAGE_RW);;;
    map_pages n' dir (addr + PAGE_SIZE) delta
  end.
(** A table for every kernel directory entry that has none; stops when memory is exhausted. *)
Fixpoint kernel_tables (n : nat) (dir d : Z) : M paging unit :=
  match n with
  | O => ret tt
  | S n' =>
    e <- vread (dir + 4 * d);;
    if present e then kernel_tables n' dir (d + 1)
    else
      table_phys <- on_frames pmm_alloc_page;;
      if table_phys =? 0 then ret tt
      else
        vwrite (dir + 4 * d) (Z.lor (Z.lor (frame_of table_phys) PAGE_PRESENT) PAGE_RW);;;
        zero_page table_phys;;;
        kernel_tables n' dir (d + 1)
  end.

Definition paging_init (pl : platform) : M paging unit :=
  let pd := page_directory pl in
  let fpt := first_page_table pl in
  zero_page pd;;;
  zero_page fpt;;;
  paging_init_pat pl;;;
  fill_first 1024 fpt 0;;;
  vwrite pd (Z.lor (Z.lor fpt PAGE_PRESENT) PAGE_RW);;;
  map_pages (Z.to_nat (0x3C00000 / PAGE_SIZE)) pd 0x400000 0;;;
  map_pages (Z.to_nat ((_kernel_end pl - _kernel_start pl + 4095) / PAGE_SIZE)) pd (_kernel_start pl)
    (0xC0000000 - _kernel_start pl);;;
  vwrite (pd + 4 * 1023) (Z.lor (Z.lor pd PAGE_PRESENT) PAGE_RW);;;
  kernel_tables 255 pd 768;;;
  load_pd pd;;;
  enable_pg;;;
  modify (with_kernel pd pd);;;
  modify (with_current pd pd).

(** ** The page mapper of the heap, and address spaces on the heap *)

#[global] Instance paging_mapper : PageMapper paging := {|
  vmm_map_page_alloc a fl := r <- vmm_map_page_alloc_phys a fl;; ret (fst r);
  vmm_virt_to_phys a v := match vmm_virt_to_phys_m a v with Ok (r, _) => r | _ => None end;
  page_mapped v a := match mmu v a with Some _ => true | None => false end
|}.

Definition on_vm {A} (c : M paging A) : M (heap paging) A := fun h =>
  match c (vm h) with
  | Ok (a, v) => Ok (a, with_vm v h)
  | Fault => Fault
  | NoFuel => NoFuel
  end.

(** kmalloc(PAGE_SIZE, PAGE_SIZE, &phys) with phys preset to 0 *)
Definition kmalloc_page : M (heap paging) (Z * Z) :=
  r <- kmalloc PAGE_SIZE PAGE_SIZE true;; ret (fst r, default 0 (snd r)).

Fixpoint free_tables (ts : list Z) : M (heap paging) unit :=
  match ts with
  | [] => ret tt
  | t :: ts' => (if negb (t =? 0) then kfree t else ret tt);;; free_tables ts'
  end.

(** for (i = 0; i < 16; i++) of paging_create_user_dir; [tables] are the low_tables filled so far,
    lowest index first; false after the error path. *)
Fixpoint low_tables_loop (n : nat) (i dir prev_dir prev_phys : Z) (tables : list Z) : M (heap paging) bool :=
  match n with
  | O => ret true
  | S n' =>
    kdir <- on_vm paging_kernel_dir;;
    e <- on_vm (vread (kdir + 4 * i));;
    if negb (present e) then low_tables_loop n' (i + 1) dir prev_dir prev_phys (tables ++ [0])
    else
      pt <- kmalloc_page;;
      if fst pt =? 0 then
        on_vm (paging_set_current_dir prev_dir prev_phys);;;
        free_tables tables;;;
        kfree dir;;;
        ret false
      else
        on_vm (copy_words 1024 (fst pt) (RECURSIVE_PT_BASE + i * PAGE_SIZE));;;
        e <- on_vm (vread (kdir + 4 * i));;
        let flags := Z.land (Z.land e 0xFFF) (not32 PAGE_USER) in
        on_vm (vwrite (dir + 4 * i) (Z.lor (frame_of (snd pt)) flags));;;
        low_tables_loop n' (i + 1) dir prev_dir prev_phys (tables ++ [fst pt])
  end.

(** dir[i] = kernel_page_directory[i] for n entries from i on. *)
Fixpoint share_kernel (n : nat) (i dir : Z) : M (heap paging) unit :=
  match n with
  | O => ret tt
  | S n' =>
    kdir <- on_vm paging_kernel_dir;;
    e <- on_vm (vread (kdir + 4 * i));;
    on_vm (vwrite (dir + 4 * i) e);;;
    share_kernel n' (i + 1) dir
  end.

(** The new directory and its frame; (0, 0) for NULL. *)
Definition paging_create_user_dir : M (heap paging) (Z * Z) :=
  r <- kmalloc_page;;
  let dir := fst r in
  let phys := snd r in
  if dir =? 0 then ret (0, 0)
  else
    on_vm (zero_page dir);;;
    prev_dir <- on_vm paging_current_dir;;
    prev_phys <- on_vm paging_current_dir_phys;;
    kdir <- on_vm paging_kernel_dir;;
    kphys <- on_vm paging_kernel_dir_phys;;
    on_vm (paging_set_current_dir kdir kphys);;;
    ok <- low_tables_loop 16 0 dir prev_dir prev_phys [];;
    if negb ok then ret (0, 0)
    else
      on_vm (paging_set_current_dir prev_dir prev_phys);;;
      share_kernel 255 768 dir;;;
      on_vm (vwrite (dir + 4 * 1023) (Z.lor (Z.lor (frame_of phys) PAGE_PRESENT) PAGE_RW));;;
      ret (dir, phys).

(** ** Page table entries *)

Lemma frame_of_spec e : is_u32 e -> frame_of e = e / 4096 * 4096.
Proof. intros He. apply (align_mask e 12); [lia|done]. Qed.
Lemma present_odd e : present e = Z.odd e.
Proof.
  unfold present, PAGE_PRESENT. change 1 with (Z.ones 1). rewrite Z.land_ones by lia. change (2 ^ 1) with 2.
  rewrite Zmod_odd. by destruct (Z.odd e).
Qed.
Lemma frame_of_idem f : is_u32 f -> f mod 4096 = 0 -> frame_of f = f.
Proof. intros Hf Hm. rewrite frame_of_spec by done. word_lia. Qed.

(** A frame address and flag bits do not overlap. *)
Lemma lor_frame f x : f mod 4096 = 0 -> 0 <= x < 4096 -> Z.lor f x = f + x.
Proof.
  intros Hf Hx. rewrite Z.add_nocarry_lor; [done|]. apply Z.bits_inj_iff'. intros i Hi. rewrite Z.land_spec, Z.bits_0.
  destruct (Z.ltb_spec i 12).
  - replace f with (f / 2 ^ 12 * 2 ^ 12) by (change (2 ^ 12) with 4096; word_lia).
    by rewrite Z.mul_pow2_bits_low by lia.
  - replace x with (x mod 2 ^ 12) by (apply Z.mod_small; change (2 ^ 12) with 4096; lia).
    rewrite Z.mod_pow2_bits_high by lia. apply andb_false_r.
Qed.

Lemma entry_ok p fl : is_u32 p -> 0 <= fl < 4096 ->
  is_u32 (Z.lor (frame_of p) fl) /\ frame_of (Z.lor (frame_of p) fl) = frame_of p /\
  present (Z.lor (frame_of p) fl) = Z.odd fl.
Proof.
  intros Hp Hf. rewrite frame_of_spec by done.
  rewrite lor_frame by (done || word_lia). assert (is_u32 (p / 4096 * 4096 + fl)) as Hu by word_lia.
  split_and!; [done| |].
  - rewrite frame_of_spec by done. word_lia.
  - rewrite present_odd, Z.odd_add, Z.odd_mul. by rewrite andb_false_r.
Qed.

(** Adding the user bit changes neither the frame nor the present bit. *)
Lemma lor_user e : is_u32 e -> is_u32 (Z.lor e PAGE_USER) /\ frame_of (Z.lor e PAGE_USER) = frame_of e /\
  present (Z.lor e PAGE_USER) = present e.
Proof.
  intros He. unfold PAGE_USER.
  assert (Z.lor e 4 = e \/ Z.lor e 4 = e + 4 /\ (e / 4) mod 2 = 0) as Hc.
  { destruct (Z.testbit e 2) eqn:Hb.
    - left. apply Z.bits_inj_iff'. intros i Hi. rewrite Z.lor_spec. change 4 with (2 ^ 2). rewrite Z.pow2_bits_eqb by lia.
      destruct (Z.eqb_spec 2 i) as [<-|]; [by rewrite Hb|]. by rewrite orb_false_r.
    - right. rewrite Z.add_nocarry_lor; [split; [done|]|].
      + rewrite <-Z.bit0_mod. change 4 with (2 ^ 2). rewrite Z.div_pow2_bits by lia. by rewrite Z.add_0_l, Hb.
      + apply Z.bits_inj_iff'. intros i Hi. rewrite Z.land_spec, Z.bits_0. change 4 with (2 ^ 2). rewrite Z.pow2_bits_eqb by lia.
        destruct (Z.eqb_spec 2 i) as [<-|]; [by rewrite Hb|]. apply andb_false_r. }
  destruct Hc as [->|[-> Hb]]; [done|].
  assert (is_u32 (e + 4)) as Hu by word_lia. split_and!; [done| |].
  - rewrite !frame_of_spec by done. word_lia.
  - rewrite !present_odd, Z.odd_add. simpl. by destruct (Z.odd e).
Qed.

Lemma dir_index_spec va : dir_index va = va / 4194304.
Proof. unfold dir_index. by rewrite Z.shiftr_div_pow2 by lia. Qed.
Lemma table_index_spec va : table_index va = va / 4096 mod 1024.
Proof. unfold table_index. rewrite Z.shiftr_div_pow2 by lia. apply (land_ones_mod (va / 2 ^ 12) 10). lia. Qed.

(** ** Words and translations *)

Lemma pword_set v a x b : pword (set_pword a x v) b = if decide (a / 4 = b / 4) then x else pword v b.
Proof. unfold pword, set_pword, with_phys. simpl. rewrite lookup_insert. by case_decide. Qed.

(** Words of page-aligned tables. *)
Lemma word_inj f g i j :
  f mod 4096 = 0 -> g mod 4096 = 0 -> 0 <= i < 1024 -> 0 <= j < 1024 ->
  (f + 4 * i) / 4 = (g + 4 * j) / 4 -> f = g /\ i = j.
Proof. intros. split; word_lia. Qed.

(** A translation is made page by page. *)
Lemma mmu_page v va a o : mmu v va = Some a -> va mod 4096 = 0 -> 0 <= o < 4096 -> mmu v (va + o) = Some (a + o).
Proof.
  intros Ha Hv Ho. unfold mmu in *. destruct (cr0_pg v); [|by simplify_eq].
  replace ((va + o) / 4194304) with (va / 4194304) by word_lia.
  replace ((va + o) / 4096) with (va / 4096) by word_lia.
  destruct (present _); [|done]. destruct (present _); [|done]. simplify_eq. f_equal. word_lia.
Qed.

Definition pde (v : paging) (d : Z) : Z := pword v (cr3 v + 4 * d).
Definition pte (v : paging) (d t : Z) : Z := pword v (frame_of (pde v d) + 4 * t).

(** The address space that is loaded: the directory maps itself in its last entry and is the one
    the kernel's variables name, page tables are distinct frames that the frame allocator does
    not hold, and every kernel directory entry has a table. *)
Record vm_ok (v : paging) : Prop := {
  vo_pmm : pmm_wf (frames v);
  vo_zero : 0 ∉ free_pages (frames v);
  vo_pg : cr0_pg v = true;
  vo_cr3 : is_u32 (cr3 v) /\ cr3 v mod 4096 = 0;
  vo_cr3_used : cr3 v / 4096 ∉ free_pages (frames v);
  vo_words : forall a, is_u32 (pword v a);
  vo_self : pde v 1023 = cr3 v + 3;
  vo_cur : 0 <= current_page_directory v < 0xFFC00000 /\ current_page_directory v mod 4096 = 0;
  vo_dir : mmu v (current_page_directory v) = Some (cr3 v);
  vo_used : forall d, 0 <= d < 1023 -> present (pde v d) = true ->
    frame_of (pde v d) / 4096 ∉ free_pages (frames v) /\ frame_of (pde v d) <> cr3 v;
  vo_inj : forall d e, 0 <= d < 1023 -> 0 <= e < 1023 -> present (pde v d) = true -> present (pde v e) = true ->
    frame_of (pde v d) = frame_of (pde v e) -> d = e;
  vo_kernel : forall d, 768 <= d < 1023 -> present (pde v d) = true
}.

Section Walk.
Implicit Types v : paging.

Lemma frame_aligned v a : (forall a, is_u32 (pword v a)) -> frame_of (pword v a) mod 4096 = 0.
Proof. intros Hw. rewrite frame_of_spec by auto. word_lia. Qed.

(** The walk in terms of directory and table entries. *)
Lemma mmu_walk v va :
  vm_ok v ->
  mmu v va = if present (pde v (va / 4194304)) then
               if present (pte v (va / 4194304) (va / 4096 mod 1024))
               then Some (frame_of (pte v (va / 4194304) (va / 4096 mod 1024)) + va mod 4096) else None
             else None.
Proof.
  intros Ho. unfold mmu. rewrite (vo_pg _ Ho). destruct (vo_cr3 _ Ho). by rewrite (frame_of_idem (cr3 v)).
Qed.

(** Entry t of table d through the recursive mapping; d = 1023 is the directory itself. *)
Lemma rec_translate v d t :
  vm_ok v -> 0 <= d < 1024 -> present (pde v d) = true -> 0 <= t < 1024 ->
  mmu v (RECURSIVE_PT_BASE + d * PAGE_SIZE + 4 * t) = Some (frame_of (pde v d) + 4 * t).
Proof.
  intros Ho Hd Hp Ht. rewrite mmu_walk by done. unfold RECURSIVE_PT_BASE, PAGE_SIZE.
  replace ((0xFFC00000 + d * 4096 + 4 * t) / 4194304) with 1023 by word_lia.
  replace ((0xFFC00000 + d * 4096 + 4 * t) / 4096 mod 1024) with d by word_lia.
  replace ((0xFFC00000 + d * 4096 + 4 * t) mod 4096) with (4 * t) by word_lia.
  destruct (vo_cr3 _ Ho) as [Hu Hm]. unfold pte. rewrite (vo_self _ Ho).
  assert (frame_of (cr3 v + 3) = cr3 v) as -> by (rewrite frame_of_spec by word_lia; word_lia).
  assert (present (cr3 v + 3) = true) as ->.
  { rewrite present_odd, Z.odd_add. replace (cr3 v) with (2 * (cr3 v / 2)) by word_lia. by rewrite Z.odd_mul. }
  fold (pde v d). by rewrite Hp.
Qed.

Lemma dir_translate v d : vm_ok v -> 0 <= d < 1024 -> mmu v (current_page_directory v + 4 * d) = Some (cr3 v + 4 * d).
Proof. intros Ho Hd. apply mmu_page; [apply (vo_dir _ Ho)|apply (vo_cur _ Ho)|lia]. Qed.

Lemma pde_set_pde v d x e :
  vm_ok v -> 0 <= d < 1024 -> 0 <= e < 1024 ->
  pde (set_pword (cr3 v + 4 * d) x v) e = if decide (d = e) then x else pde v e.
Proof.
  intros Ho Hd He. unfold pde. rewrite pword_set. change (cr3 (set_pword _ x v)) with (cr3 v).
  destruct (vo_cr3 _ Ho) as [_ Hm].
  destruct (decide (d = e)) as [->|Hne]; [by rewrite decide_True|]. rewrite decide_False; [done|].
  intros [_ ?]%word_inj; done || lia.
Qed.

(** A directory entry is not a word of a table. *)
Lemma pte_word_set_pde v d x f t :
  vm_ok v -> 0 <= d < 1024 -> 0 <= t < 1024 -> f mod 4096 = 0 -> f <> cr3 v ->
  pword (set_pword (cr3 v + 4 * d) x v) (f + 4 * t) = pword v (f + 4 * t).
Proof.
  intros Ho Hd Ht Hf Hne. rewrite pword_set, decide_False; [done|].
  intros [? _]%word_inj; [congruence|apply Ho|done|lia|lia].
Qed.

(** Changing directory entry d changes translations only below d. *)
Lemma mmu_set_pde v d x va :
  vm_ok v -> 0 <= d < 1023 -> 0 <= va < 0xFFC00000 -> va / 4194304 <> d ->
  mmu (set_pword (cr3 v + 4 * d) x v) va = mmu v va.
Proof.
  intros Ho Hd Hva Hne. rewrite (mmu_walk v) by done. unfold mmu. simpl. rewrite (vo_pg _ Ho).
  destruct (vo_cr3 _ Ho) as [Hu Hm]. rewrite (frame_of_idem (cr3 v)) by done.
  set (w := set_pword (cr3 v + 4 * d) x v).
  assert (0 <= va / 4194304 < 1023) as Hi by word_lia.
  change (pword w (cr3 v + 4 * (va / 4194304))) with (pde w (va / 4194304)).
  subst w. rewrite pde_set_pde, decide_False by (done || lia).
  destruct (present (pde v (va / 4194304))) eqn:Hp; [|done]. unfold pte.
  rewrite pte_word_set_pde; [done|done|lia|word_lia|by apply frame_aligned, (vo_words _ Ho)|].
  by apply (vo_used _ Ho).
Qed.

(** An update of an entry that keeps its frame and its present bit changes no translation. *)
Lemma mmu_set_pde_same v d x va :
  vm_ok v -> 0 <= d < 1023 -> 0 <= va < 0xFFC00000 ->
  frame_of x = frame_of (pde v d) -> present x = present (pde v d) ->
  mmu (set_pword (cr3 v + 4 * d) x v) va = mmu v va.
Proof.
  intros Ho Hd Hva Hf Hp. destruct (decide (va / 4194304 = d)) as [Heq|Hne]; [|by apply mmu_set_pde].
  rewrite (mmu_walk v) by done. unfold mmu. simpl. rewrite (vo_pg _ Ho).
  destruct (vo_cr3 _ Ho) as [Hu Hm]. rewrite (frame_of_idem (cr3 v)) by done.
  set (w := set_pword (cr3 v + 4 * d) x v).
  change (pword w (cr3 v + 4 * (va / 4194304))) with (pde w (va / 4194304)).
  subst w. rewrite Heq. rewrite pde_set_pde, decide_True by (done || lia). rewrite Hp.
  destruct (present (pde v d)) eqn:Hpd; [|done]. unfold pte. rewrite Hf.
  rewrite pte_word_set_pde; [done|done|lia|word_lia|by apply frame_aligned, (vo_words _ Ho)|].
  by apply (vo_used _ Ho).
Qed.

Lemma words_set v a x : (forall b, is_u32 (pword v b)) -> is_u32 x -> forall b, is_u32 (pword (set_pword a x v) b).
Proof. intros Hw Hx b. rewrite pword_set. by case_decide. Qed.

(** The invariant after such an update. *)
Lemma vm_ok_set_pde_same v d x :
  vm_ok v -> 0 <= d < 1023 -> is_u32 x -> frame_of x = frame_of (pde v d) -> present x = present (pde v d) ->
  vm_ok (set_pword (cr3 v + 4 * d) x v).
Proof.
  intros Ho Hd Hx Hf Hp. set (w := set_pword (cr3 v + 4 * d) x v).
  assert (forall e, 0 <= e < 1023 -> frame_of (pde w e) = frame_of (pde v e) /\ present (pde w e) = present (pde v e)) as Hw.
  { intros e He. subst w. rewrite pde_set_pde by (done || lia). by destruct (decide (d = e)) as [->|]. }
  destruct Ho as [H1 H2 H3 H4 H5 H6 H7 H8 H9 H10 H11 H12]. split; try done.
  - by apply words_set.
  - subst w. rewrite pde_set_pde, decide_False by (done || lia). done.
  - subst w. change (current_page_directory (set_pword _ x v)) with (current_page_directory v).
    rewrite mmu_set_pde_same; [done|by split|done|apply H8|done|done].
  - intros e He. destruct (Hw e He) as [-> ->]. by apply H10.
  - intros e g He Hg. destruct (Hw e He) as [-> ->], (Hw g Hg) as [-> ->]. by apply H11.
  - intros e He. destruct (Hw e ltac:(lia)) as [_ ->]. by apply H12.
Qed.

(** ** Writing a table entry *)

Lemma pde_set_pte v d t x e :
  vm_ok v -> 0 <= d < 1023 -> present (pde v d) = true -> 0 <= t < 1024 -> 0 <= e < 1024 ->
  pde (set_pword (frame_of (pde v d) + 4 * t) x v) e = pde v e.
Proof.
  intros Ho Hd Hp Ht He. unfold pde at 1. rewrite pword_set, decide_False; [done|]. simpl.
  intros [E _]%word_inj; [by apply (vo_used _ Ho d Hd Hp) in E|by apply frame_aligned, (vo_words _ Ho)|apply Ho|lia|lia].
Qed.

Lemma pte_set_pte v d t x e u :
  vm_ok v -> 0 <= d < 1023 -> present (pde v d) = true -> 0 <= t < 1024 ->
  0 <= e < 1023 -> present (pde v e) = true -> 0 <= u < 1024 ->
  pte (set_pword (frame_of (pde v d) + 4 * t) x v) e u = if decide (e = d /\ u = t) then x else pte v e u.
Proof.
  intros Ho Hd Hp Ht He Hpe Hu. unfold pte. rewrite pde_set_pte, pword_set by (done || lia).
  destruct (decide (e = d /\ u = t)) as [[-> ->]|Hne]; [by rewrite decide_True|].
  rewrite decide_False; [done|]. intros [E ->]%word_inj; [|by apply frame_aligned, (vo_words _ Ho)..|lia|lia].
  apply Hne. split; [|done]. symmetry. by apply (vo_inj _ Ho).
Qed.

Lemma mmu_set_pte v d t x va :
  vm_ok v -> 0 <= d < 1023 -> present (pde v d) = true -> 0 <= t < 1024 -> 0 <= va < 0xFFC00000 ->
  mmu (set_pword (frame_of (pde v d) + 4 * t) x v) va =
  if decide (va / 4096 = d * 1024 + t) then (if present x then Some (frame_of x + va mod 4096) else None) else mmu v va.
Proof.
  intros Ho Hd Hp Ht Hva. rewrite (mmu_walk v) by done. unfold mmu. simpl. rewrite (vo_pg _ Ho).
  destruct (vo_cr3 _ Ho) as [Hu Hm]. rewrite (frame_of_idem (cr3 v)) by done.
  set (w := set_pword (frame_of (pde v d) + 4 * t) x v).
  change (pword w (cr3 v + 4 * (va / 4194304))) with (pde w (va / 4194304)).
  change (pword w (frame_of (pde w (va / 4194304)) + 4 * (va / 4096 mod 1024))) with (pte w (va / 4194304) (va / 4096 mod 1024)).
  assert (0 <= va / 4194304 < 1023) as Hi by word_lia.
  assert (pde w (va / 4194304) = pde v (va / 4194304)) as -> by (apply pde_set_pte; done || lia).
  destruct (decide (va / 4096 = d * 1024 + t)) as [Heq|Hne].
  - replace (va / 4194304) with d by word_lia. replace (va / 4096 mod 1024) with t by word_lia. rewrite Hp.
    subst w. rewrite pte_set_pte, decide_True by (done || lia). done.
  - destruct (present (pde v (va / 4194304))) eqn:Hpe; [|done].
    assert (pte w (va / 4194304) (va / 4096 mod 1024) = pte v (va / 4194304) (va / 4096 mod 1024)) as ->; [|done].
    subst w. rewrite pte_set_pte, decide_False; [done| |done|done|done|done|done|done|word_lia].
    intros [E1 E2]. apply Hne. word_lia.
Qed.

Lemma vm_ok_set_pte v d t x :
  vm_ok v -> 0 <= d < 1023 -> present (pde v d) = true -> 0 <= t < 1024 -> is_u32 x ->
  current_page_directory v / 4096 <> d * 1024 + t ->
  vm_ok (set_pword (frame_of (pde v d) + 4 * t) x v).
Proof.
  intros Ho Hd Hp Ht Hx Hcur. set (w := set_pword (frame_of (pde v d) + 4 * t) x v).
  assert (forall e, 0 <= e < 1024 -> pde w e = pde v e) as Hw by (intros; by apply pde_set_pte).
  pose proof Ho as [H1 H2 H3 H4 H5 H6 H7 H8 H9 H10 H11 H12]. split; try done.
  - by apply words_set.
  - rewrite Hw by lia. done.
  - subst w. change (current_page_directory (set_pword _ x v)) with (current_page_directory v).
    rewrite mmu_set_pte, decide_False; [done|done|done|done|done|done|apply H8].
  - intros e He. rewrite Hw by lia. by apply H10.
  - intros e g He Hg. rewrite !Hw by lia. by apply H11.
  - intros e He. rewrite Hw by lia. by apply H12.
Qed.

(** Clearing the rest of table d from entry t on. *)
Lemma zero_table_ok d n : forall v t,
  vm_ok v -> 0 <= d < 1023 -> present (pde v d) = true -> current_page_directory v / 4194304 <> d ->
  0 <= t -> t + Z.of_nat n = 1024 ->
  exists v', zero_words n (RECURSIVE_PT_BASE + d * PAGE_SIZE + 4 * t) v = Ok (tt, v') /\ vm_ok v' /\
    v' = with_phys (phys v') v /\ (forall e, 0 <= e < 1024 -> pde v' e = pde v e) /\
    (forall va, 0 <= va < 0xFFC00000 -> va / 4194304 <> d -> mmu v' va = mmu v va) /\
    (forall j, t <= j < 1024 -> pte v' d j = 0) /\ (forall j, 0 <= j < t -> pte v' d j = pte v d j).
Proof.
  induction n as [|n IH]; intros v t Ho Hd Hp Hcur Ht Hn; cbn [zero_words].
  - exists v. split_and!; [done|done|by destruct v|done|done|lia|done].
  - unfold bind at 1, vwrite at 1. rewrite rec_translate by (done || lia).
    set (w := set_pword (frame_of (pde v d) + 4 * t) 0 v).
    assert (vm_ok w) as Hw by (apply vm_ok_set_pte; [done|done|done|lia|unfold is_u32; lia|word_lia]).
    assert (forall e, 0 <= e < 1024 -> pde w e = pde v e) as Hpde by (intros; apply pde_set_pte; done || lia).
    replace (RECURSIVE_PT_BASE + d * PAGE_SIZE + 4 * t + 4) with (RECURSIVE_PT_BASE + d * PAGE_SIZE + 4 * (t + 1)) by lia.
    destruct (IH w (t + 1)) as (v' & E & Hv' & Hr & Hpde' & Hm' & Hz & Hs);
      [done|done|by rewrite Hpde by lia|done|lia|lia|].
    exists v'. split_and!; [done|done|by rewrite Hr| | | |].
    + intros e He. by rewrite Hpde', Hpde.
    + intros va Hva Hne. rewrite Hm' by done. subst w. rewrite mmu_set_pte, decide_False; [done|word_lia|done|done|done|lia|done].
    + intros j Hj. destruct (decide (j = t)) as [->|]; [|apply Hz; lia].
      rewrite Hs by lia. subst w. rewrite pte_set_pte, decide_True by (done || lia). done.
    + intros j Hj. rewrite Hs by lia. subst w. rewrite pte_set_pte, decide_False by (done || lia). done.
Qed.

(** A fresh frame becomes the table of an empty directory entry. *)
Lemma vm_ok_new_table v d x fr f :
  vm_ok v -> 0 <= d < 1023 -> present (pde v d) = false -> is_u32 x -> frame_of x = f * PAGE_SIZE -> present x = true ->
  pmm_wf fr -> f ∈ free_pages (frames v) -> free_pages fr = free_pages (frames v) ∖ {[f]} ->
  vm_ok (set_pword (cr3 v + 4 * d) x (with_frames fr v)).
Proof.
  intros Ho Hd Hnp Hx Hf Hp Hwf Hin Hfr. pose proof Ho as [H1 H2 H3 H4 H5 H6 H7 H8 H9 H10 H11 H12].
  set (w := set_pword (cr3 v + 4 * d) x (with_frames fr v)).
  assert (forall e, 0 <= e < 1024 -> pde w e = if decide (d = e) then x else pde v e) as Hw
    by (intros; apply (pde_set_pde v d x e); done || lia).
  assert (f * PAGE_SIZE / 4096 = f) as Hdiv by (apply Z.div_mul; done).
  split; try done.
  - subst w. simpl. rewrite Hfr. set_solver.
  - subst w. simpl. rewrite Hfr. set_solver.
  - apply (words_set v); done.
  - rewrite Hw, decide_False by lia. done.
  - change (mmu (set_pword (cr3 v + 4 * d) x v) (current_page_directory v) = Some (cr3 v)).
    rewrite mmu_set_pde; [done|done|done|apply H8|]. intros Heq.
    pose proof H9 as Hm. rewrite mmu_walk in Hm by done. by rewrite Heq, Hnp in Hm.
  - intros e He. rewrite Hw by lia. change (frames w) with fr. change (cr3 w) with (cr3 v). rewrite Hfr.
    destruct (decide (d = e)) as [->|].
    + intros _. rewrite Hf, Hdiv. split; [set_solver|]. intros Hc. apply H5. rewrite <-Hc, Hdiv. done.
    + intros Hpe. destruct (H10 e He Hpe). split; [set_solver|done].
  - intros e g He Hg. rewrite !Hw by lia.
    assert (forall k, 0 <= k < 1023 -> present (pde v k) = true -> frame_of (pde v k) = f * PAGE_SIZE -> False) as Hno.
    { intros k Hk Hpk Ek. destruct (H10 k Hk Hpk) as [Hnf _]. rewrite Ek, Hdiv in Hnf. done. }
    destruct (decide (d = e)), (decide (d = g)); [congruence| | |by apply H11]; intros ?? E; exfalso.
    + eapply (Hno g); [lia|done|congruence].
    + eapply (Hno e); [lia|done|congruence].
  - intros e He. rewrite Hw by lia. destruct (decide (d = e)); [done|]. by apply H12.
Qed.

(** ** Frames *)

Lemma vm_ok_frames v fr :
  vm_ok v -> pmm_wf fr -> free_pages fr ⊆ free_pages (frames v) -> vm_ok (with_frames fr v).
Proof.
  intros [H1 H2 H3 H4 H5 H6 H7 H8 H9 H10 H11 H12] Hwf Hsub. split; try done; simpl.
  - set_solver.
  - set_solver.
  - intros d Hd Hp. destruct (H10 d Hd Hp). split; [|done]. simpl. set_solver.
Qed.

(** Taking a frame: 0 when there is none. *)
Lemma alloc_frame v :
  vm_ok v ->
  (free_pages (frames v) = ∅ /\ exists fr, on_frames pmm_alloc_page v = Ok (0, with_frames fr v) /\
     vm_ok (with_frames fr v) /\ free_pages fr = ∅) \/
  (exists f fr, on_frames pmm_alloc_page v = Ok (f * PAGE_SIZE, with_frames fr v) /\ f ∈ free_pages (frames v) /\
     pmm_wf fr /\ free_pages fr = free_pages (frames v) ∖ {[f]} /\ is_u32 (f * PAGE_SIZE) /\ f * PAGE_SIZE <> 0).
Proof.
  intros Ho. destruct (pmm_alloc_page_ok (frames v) (vo_pmm _ Ho)) as (r & fr & E & Hl & _ & Hstep).
  assert (pmm_wf fr) as Hwf by (eapply same_limits_wf; [exact Hl|apply Ho]).
  unfold on_frames. rewrite E. inversion Hstep as [Hempty Hr Hempty'|X f Hf Hmin HX Hr HX'| | |]; subst.
  - left. split; [done|]. exists fr. split_and!; [done| |done]. apply vm_ok_frames; [done|done|set_solver].
  - right. exists f, fr. split_and!; [done|done|done|done| |].
    + apply elem_of_free_pages in Hf as [Hf _]. destruct (vo_pmm _ Ho) as [_ Hmax].
      unfold is_u32, PAGE_SIZE, MAX_PAGES in *. lia.
    + intros H0. assert (f = 0) as -> by (unfold PAGE_SIZE in *; lia). by apply (vo_zero _ Ho).
Qed.

(** ** Mapping *)

(** Everything but memory and the frame allocator. *)
Definition same_regs v v' : Prop := v' = with_frames (frames v') (with_phys (phys v') v).

Lemma same_regs_trans v1 v2 v3 : same_regs v1 v2 -> same_regs v2 v3 -> same_regs v1 v3.
Proof. unfold same_regs. intros E1 E2. rewrite E2 at 1. rewrite E1. reflexivity. Qed.
Lemma same_regs_phys v v' : v' = with_phys (phys v') v -> same_regs v v'.
Proof. unfold same_regs. intros E. rewrite E. reflexivity. Qed.
Lemma same_regs_cur v v' : same_regs v v' ->
  current_page_directory v' = current_page_directory v /\ cr0_pg v' = cr0_pg v /\ cr3 v' = cr3 v.
Proof. intros ->. done. Qed.

(** The user bit of a directory entry. *)
Lemma user_bit_ok v d fl :
  vm_ok v -> 0 <= d < 1023 ->
  exists v', (if negb (Z.land fl PAGE_USER =? 0) then vwrite (current_page_directory v + 4 * d) (Z.lor (pde v d) PAGE_USER)
              else ret tt) v = Ok (tt, v') /\ vm_ok v' /\ same_regs v v' /\ frames v' = frames v /\
    (forall e, 0 <= e < 1023 -> present (pde v' e) = present (pde v e)) /\
    (forall va, 0 <= va < 0xFFC00000 -> mmu v' va = mmu v va).
Proof.
  intros Ho Hd. destruct (Z.land fl PAGE_USER =? 0); cbn [negb]; [exists v; split_and!; [done|done|by destruct v|done..]|].
  destruct (lor_user (pde v d)) as (Hu & Hf & Hp); [apply Ho|].
  unfold vwrite. rewrite dir_translate by (done || lia). eexists. split_and!; [reflexivity| |by destruct v|done| |].
  - by apply vm_ok_set_pde_same.
  - intros e He. rewrite pde_set_pde by (done || lia). by destruct (decide (d = e)) as [<-|].
  - intros va Hva. by apply mmu_set_pde_same.
Qed.

(** The last write of map_page. *)
Lemma write_pte_ok v virt p fl :
  vm_ok v -> 0 <= virt < 0xFFC00000 -> virt / 4096 <> current_page_directory v / 4096 -> is_u32 p -> 0 <= fl < 4096 ->
  present (pde v (dir_index virt)) = true ->
  exists v', vwrite (RECURSIVE_PT_BASE + dir_index virt * PAGE_SIZE + 4 * table_index virt) (Z.lor (frame_of p) fl) v = Ok (tt, v') /\
    vm_ok v' /\ same_regs v v' /\ frames v' = frames v /\
    (forall va, 0 <= va < 0xFFC00000 -> mmu v' va =
       if decide (va / 4096 = virt / 4096) then (if Z.odd fl then Some (frame_of p + va mod 4096) else None) else mmu v va).
Proof.
  intros Ho Hv Hne Hp Hfl Hpr. rewrite table_index_spec, dir_index_spec in *. set (d := virt / 4194304) in *. set (t := virt / 4096 mod 1024).
  assert (0 <= d < 1023) as Hd by (subst d; word_lia). assert (0 <= t < 1024) as Ht by (subst t; word_lia).
  assert (virt / 4096 = d * 1024 + t) as Hvp by (subst d t; word_lia).
  destruct (entry_ok p fl Hp Hfl) as (Hu & Hf & Hodd).
  unfold vwrite. rewrite rec_translate by (done || lia). eexists. split_and!; [reflexivity| |by destruct v|done|].
  - apply vm_ok_set_pte; try done. rewrite <-Hvp. congruence.
  - intros va Hva. rewrite mmu_set_pte by done. rewrite Hvp, Hf, Hodd. done.
Qed.

Lemma map_page_ok v virt p fl :
  vm_ok v -> 0 <= virt < 0xFFC00000 -> virt / 4096 <> current_page_directory v / 4096 -> is_u32 p -> 0 <= fl < 4096 ->
  present (pde v (dir_index virt)) = true \/ free_pages (frames v) <> ∅ ->
  exists v', map_page (current_page_directory v) virt p fl v = Ok (tt, v') /\ vm_ok v' /\ same_regs v v' /\
    free_pages (frames v') ⊆ free_pages (frames v) /\
    (present (pde v (dir_index virt)) = true -> frames v' = frames v) /\
    (forall va, 0 <= va < 0xFFC00000 -> mmu v' va =
       if decide (va / 4096 = virt / 4096) then (if Z.odd fl then Some (frame_of p + va mod 4096) else None) else mmu v va).
Proof.
  intros Ho Hv Hne Hp Hfl Hroom. set (d := dir_index virt) in *. assert (0 <= d < 1023) as Hd by (subst d; rewrite dir_index_spec; word_lia).
  unfold map_page. fold d. set (cur := current_page_directory v).
  assert (vread (cur + 4 * d) v = Ok (pde v d, v)) as Er by (unfold vread; by rewrite dir_translate by (done || lia)).
  rewrite (bind_ok _ _ _ _ _ Er). destruct (present (pde v d)) eqn:Hpd; cbn [negb].
  - destruct (user_bit_ok v d fl Ho Hd) as (v1 & E1 & Ho1 & Hr1 & Hfr1 & Hp1 & Hm1).
    destruct (same_regs_cur _ _ Hr1) as (Ec & Epg & _).
    rewrite bind_bind. rewrite (bind_ok _ _ _ _ _ E1). rewrite bind_ret. cbn [negb].
    unfold paging_is_enabled. rewrite bind_gets, Epg, (vo_pg _ Ho). rewrite bind_ret.
    destruct (write_pte_ok v1 virt p fl Ho1 Hv) as (v2 & E2 & Ho2 & Hr2 & Hfr2 & Hm2); [by rewrite Ec|done|done|fold d; by rewrite Hp1|].
    exists v2. split_and!; [exact E2|done| |by rewrite Hfr2, Hfr1|by rewrite Hfr2, Hfr1|].
    + by apply (same_regs_trans v v1).
    + intros va Hva. rewrite Hm2, Hm1 by done. done.
  - destruct (alloc_frame v Ho) as [(Hnone & _)|(f & fr & Ea & Hf & Hwf & Hfr & Hu & Hn0)]; [destruct Hroom; [congruence|done]|].
    rewrite bind_bind. rewrite (bind_ok _ _ _ _ _ Ea). rewrite (proj2 (Z.eqb_neq _ 0)) by done.
    set (x := Z.lor (Z.lor (frame_of (f * PAGE_SIZE)) PAGE_PRESENT) PAGE_RW).
    assert (x = Z.lor (frame_of (f * PAGE_SIZE)) 3) as Hx3 by (subst x; by rewrite <-Z.lor_assoc).
    destruct (entry_ok (f * PAGE_SIZE) 3 Hu ltac:(lia)) as (Hxu & Hxf & Hxp). rewrite <-Hx3 in Hxu, Hxf, Hxp.
    rewrite (frame_of_idem (f * PAGE_SIZE)) in Hxf by (done || (unfold PAGE_SIZE; word_lia)).
    set (v0 := with_frames fr v). set (v1 := set_pword (cr3 v + 4 * d) x v0).
    assert (vm_ok v1) as Ho1 by (by apply (vm_ok_new_table v d x fr f)).
    assert (vwrite (cur + 4 * d) x v0 = Ok (tt, v1)) as Ew.
    { unfold vwrite. change (mmu v0 (cur + 4 * d)) with (mmu v (cur + 4 * d)). by rewrite dir_translate by (done || lia). }
    assert (forall va, 0 <= va < 0xFFC00000 -> va / 4194304 <> d -> mmu v1 va = mmu v va) as Hm1.
    { intros va Hva Hned. change (mmu (set_pword (cr3 v + 4 * d) x v) va = mmu v va). by apply mmu_set_pde. }
    assert (current_page_directory v / 4194304 <> d) as Hcd.
    { intros Heq. pose proof (vo_dir _ Ho) as Hmd. rewrite mmu_walk in Hmd by done. by rewrite Heq, Hpd in Hmd. }
    rewrite bind_bind, (bind_ok _ _ _ _ _ Ew). rewrite !bind_bind.
    assert (vread (cur + 4 * d) v1 = Ok (pde v1 d, v1)) as Er1.
    { unfold vread. change cur with (current_page_directory v1). by rewrite dir_translate by (done || lia). }
    assert (pde v1 d = x) as Hpx by (unfold v1; change (pde (set_pword (cr3 v + 4 * d) x v) d = x);
      rewrite pde_set_pde, decide_True by (done || lia); done).
    destruct (user_bit_ok v1 d fl Ho1 Hd) as (v2 & E2 & Ho2 & Hr2 & Hfr2 & Hp2 & Hm2).
    assert ((if negb (Z.land fl PAGE_USER =? 0) then e <- vread (cur + 4 * d);; vwrite (cur + 4 * d) (Z.lor e PAGE_USER) else ret tt) v1
            = Ok (tt, v2)) as E2'.
    { rewrite <-E2. destruct (negb _); [|done]. by rewrite (bind_ok _ _ _ _ _ Er1). }
    rewrite (bind_ok _ _ _ _ _ E2').
    destruct (same_regs_cur _ _ Hr2) as (Ec & Epg & _). unfold paging_is_enabled. rewrite bind_bind, bind_gets.
    rewrite Epg, (vo_pg _ Ho1). rewrite bind_bind.
    destruct (zero_table_ok d 1024 v2 0) as (v3 & E3 & Ho3 & Hr3 & Hpde3 & Hm3 & Hz3 & _);
      [done|done|rewrite Hp2, Hpx by done; done|by rewrite Ec|lia|lia|].
    rewrite Z.add_0_r in E3. unfold zero_page. rewrite (bind_ok _ _ _ _ _ E3). rewrite bind_ret. cbn [negb].
    assert (cr0_pg v3 = true) as Epg3 by apply Ho3. rewrite bind_gets, Epg3. rewrite bind_ret.
    assert (present (pde v3 d) = true) as Hp3 by (rewrite Hpde3, Hp2, Hpx by lia; done).
    assert (current_page_directory v3 = current_page_directory v) as Ec3 by (rewrite Hr3; simpl; by rewrite Ec).
    destruct (write_pte_ok v3 virt p fl Ho3 Hv) as (v4 & E4 & Ho4 & Hr4 & Hfr4 & Hm4); [by rewrite Ec3|done|done|done|].
    assert (frames v3 = fr) as Hfr3 by (rewrite Hr3; simpl; by rewrite Hfr2).
    exists v4. split_and!; [exact E4|exact Ho4| | |intros Hc; discriminate Hc|].
    + apply (same_regs_trans v v1); [reflexivity|]. apply (same_regs_trans v1 v2); [done|].
      apply (same_regs_trans v2 v3); [by apply same_regs_phys|done].
    + rewrite Hfr4, Hfr3, Hfr. apply subseteq_difference_l. reflexivity.
    + intros va Hva. rewrite Hm4 by done. destruct (decide (va / 4096 = virt / 4096)); [done|].
      destruct (decide (va / 4194304 = d)) as [Hvd|Hvd]; [|by rewrite Hm3, Hm2, Hm1].
      rewrite (mmu_walk v3), (mmu_walk v) by done. rewrite Hvd, Hp3, Hpd, Hz3 by word_lia. done.
Qed.
End Walk.

(** ** The operations of the virtual memory manager *)

Section Vmm.
Implicit Types v : paging.

Lemma self_present v : vm_ok v -> present (pde v 1023) = true.
Proof.
  intros Ho. destruct (vo_cr3 _ Ho) as [_ Hm]. rewrite (vo_self _ Ho), present_odd, Z.odd_add.
  replace (cr3 v) with (2 * (cr3 v / 2)) by word_lia. by rewrite Z.odd_mul.
Qed.

(** The table lookup of vmm_virt_to_phys is the walk of the processor. *)
Lemma virt_to_phys_ok v va : vm_ok v -> is_u32 va -> vmm_virt_to_phys_m va v = Ok (mmu v va, v).
Proof.
  intros Ho Hva. unfold vmm_virt_to_phys_m, paging_is_enabled. rewrite bind_gets, (vo_pg _ Ho). cbn [negb].
  rewrite dir_index_spec, table_index_spec. set (d := va / 4194304). set (t := va / 4096 mod 1024).
  assert (0 <= d < 1024) as Hd by (subst d; word_lia). assert (0 <= t < 1024) as Ht by (subst t; word_lia).
  assert (vread (RECURSIVE_PD_BASE + 4 * d) v = Ok (pde v d, v)) as E1.
  { unfold vread. replace (RECURSIVE_PD_BASE + 4 * d) with (RECURSIVE_PT_BASE + 1023 * PAGE_SIZE + 4 * d) by done.
    rewrite rec_translate; [|done|lia|by apply self_present|done]. rewrite (vo_self _ Ho).
    destruct (vo_cr3 _ Ho) as [Hu Hm]. unfold pde. do 4 f_equal. rewrite frame_of_spec by word_lia. word_lia. }
  rewrite (bind_ok _ _ _ _ _ E1). rewrite (mmu_walk v va Ho). fold d t.
  destruct (present (pde v d)) eqn:Hp; cbn [negb]; [|done].
  assert (vread (RECURSIVE_PT_BASE + d * PAGE_SIZE + 4 * t) v = Ok (pte v d t, v)) as E2
    by (unfold vread; by rewrite rec_translate).
  rewrite (bind_ok _ _ _ _ _ E2). destruct (present (pte v d t)); cbn [negb]; [|done].
  unfold ret. do 3 f_equal. rewrite lor_frame.
  - f_equal. apply (land_ones_mod va 12). lia.
  - by apply frame_aligned, (vo_words _ Ho).
  - change 0xFFF with (2 ^ 12 - 1). rewrite land_ones_mod by lia. apply Z.mod_pos_bound. lia.
Qed.

Lemma vmm_map_page_ok v virt p fl :
  vm_ok v -> 0 <= virt < 0xFFC00000 -> virt / 4096 <> current_page_directory v / 4096 -> is_u32 p -> 0 <= fl < 4096 ->
  present (pde v (dir_index virt)) = true \/ free_pages (frames v) <> ∅ ->
  exists v', vmm_map_page virt p fl v = Ok (0, v') /\ vm_ok v' /\ same_regs v v' /\
    free_pages (frames v') ⊆ free_pages (frames v) /\
    (present (pde v (dir_index virt)) = true -> frames v' = frames v) /\
    (forall va, 0 <= va < 0xFFC00000 -> mmu v' va =
       if decide (va / 4096 = virt / 4096) then (if Z.odd fl then Some (frame_of p + va mod 4096) else None) else mmu v va).
Proof.
  intros Ho Hv Hne Hp Hfl Hroom. destruct (map_page_ok v virt p fl Ho Hv Hne Hp Hfl Hroom) as (v' & E & Ho' & Hr & Hrest).
  exists v'. split; [|exact (conj Ho' (conj Hr Hrest))]. unfold vmm_map_page. rewrite bind_gets. rewrite (bind_ok _ _ _ _ _ E).
  unfold paging_is_enabled. rewrite bind_gets, (vo_pg _ Ho'). done.
Qed.

(** Kernel addresses: their tables exist, so mapping a page there only takes its own frame. *)
Lemma map_page_alloc_kernel v virt fl :
  vm_ok v -> 0xC0000000 <= virt < 0xFFC00000 -> virt / 4096 <> current_page_directory v / 4096 -> 0 <= fl < 4096 ->
  (free_pages (frames v) = ∅ /\ exists v', vmm_map_page_alloc_phys virt fl v = Ok ((-1, 0), v') /\ vm_ok v' /\ same_regs v v' /\
     forall va, mmu v' va = mmu v va) \/
  (exists f v', f ∈ free_pages (frames v) /\ vmm_map_page_alloc_phys virt fl v = Ok ((0, f * PAGE_SIZE), v') /\ vm_ok v' /\
     same_regs v v' /\ free_pages (frames v') = free_pages (frames v) ∖ {[f]} /\
     forall va, 0 <= va < 0xFFC00000 -> mmu v' va =
       if decide (va / 4096 = virt / 4096) then (if Z.odd fl then Some (f * PAGE_SIZE + va mod 4096) else None) else mmu v va).
Proof.
  intros Ho Hv Hne Hfl. unfold vmm_map_page_alloc_phys.
  destruct (alloc_frame v Ho) as [(Hnone & fr & Ea & Ho' & _)|(f & fr & Ea & Hf & Hwf & Hfr & Hu & Hn0)]; rewrite (bind_ok _ _ _ _ _ Ea).
  - left. split; [done|]. exists (with_frames fr v). split_and!; [done|done|by destruct v|done].
  - right. rewrite (proj2 (Z.eqb_neq _ 0)) by done. set (v0 := with_frames fr v).
    assert (vm_ok v0) as Ho0 by (apply vm_ok_frames; [done|done|rewrite Hfr; apply subseteq_difference_l; reflexivity]).
    assert (present (pde v0 (dir_index virt)) = true) as Hk.
    { apply (vo_kernel _ Ho0). rewrite dir_index_spec. word_lia. }
    destruct (vmm_map_page_ok v0 virt (f * PAGE_SIZE) fl Ho0) as (v' & E & Ho' & Hr & _ & Hsame & Hm); [lia|done|done|done|by left|].
    exists f, v'. rewrite (bind_ok _ _ _ _ _ E). split_and!; [done|done|done| | |].
    + by apply (same_regs_trans v v0).
    + rewrite Hsame by done. exact Hfr.
    + intros va Hva. rewrite Hm by done. rewrite (frame_of_idem (f * PAGE_SIZE)); [done|done|unfold PAGE_SIZE; word_lia].
Qed.
End Vmm.

(** ** The interface the heap relies on *)

(** The kernel's own address space: its directory lies below the kernel addresses. *)
Definition kernel_space (v : paging) : Prop := vm_ok v /\ current_page_directory v < 0xC0000000.

#[global] Program Instance paging_mapper_ok : PageMapperOk paging := {|
  pm_ok := kernel_space;
  pm_dom a := 0xC0000000 <= a < 0xFFC00000
|}.
Next Obligation.
  intros v a [Ho Hlow] Ha. simpl.
  assert (a / 4096 <> current_page_directory v / 4096) as Hne by word_lia.
  destruct (map_page_alloc_kernel v a HEAP_FLAGS Ho Ha Hne) as [(_ & v' & E & Ho' & Hr & Hm)|(f & v' & _ & E & Ho' & Hr & _ & Hm)];
    [unfold HEAP_FLAGS; lia|..]; rewrite (bind_ok _ _ _ _ _ E); eexists _, v'; (split; [reflexivity|]);
    destruct (same_regs_cur _ _ Hr) as (Ec & _ & _).
  - split_and!; [split; [done|by rewrite Ec]|by intros b _; rewrite Hm|done].
  - split_and!; [split; [done|by rewrite Ec]| |].
    + intros b Hb. rewrite Hm by lia. case_decide; [done|]. done.
    + intros _ b Hb. unfold HEAP_PAGE in Hb. rewrite Hm by word_lia. by rewrite decide_True.
Qed.

(** ** Ranges *)

(** The number of pages a range touches. *)
Definition range_pages (virt size : Z) : nat := Z.to_nat ((virt + size + 4095) / 4096 - virt / 4096).

Section Ranges.
Implicit Types v : paging.

Lemma size_difference_S (X : gset Z) f n : f ∈ X -> base.size X = S n -> base.size (X ∖ {[f]}) = n.
Proof. intros Hf Hs. rewrite size_difference by set_solver. rewrite size_singleton. lia. Qed.

Lemma range_alloc_loop fl n : forall fuel v addr,
  vm_ok v -> addr mod 4096 = 0 -> 0xC0000000 <= addr -> addr + Z.of_nat n * 4096 <= 0xFFC00000 ->
  current_page_directory v < 0xC0000000 -> 0 <= fl < 4096 -> Z.odd fl = true -> (n < fuel)%nat ->
  exists r v', range_loop fuel (fun a => r <- vmm_map_page_alloc_phys a fl;; ret (fst r)) addr (addr + Z.of_nat n * 4096) v = Ok (r, v') /\
    vm_ok v' /\ same_regs v v' /\
    (r = if (n <=? base.size (free_pages (frames v)))%nat then 0 else -1) /\
    (forall va, 0 <= va < 0xFFC00000 -> va < addr \/ addr + Z.of_nat n * 4096 <= va -> mmu v' va = mmu v va) /\
    (r = 0 -> forall va, addr <= va < addr + Z.of_nat n * 4096 ->
       exists f, f ∈ free_pages (frames v) /\ mmu v' va = Some (f * PAGE_SIZE + va mod 4096)) /\
    (r = 0 -> forall va vb, addr <= va < addr + Z.of_nat n * 4096 -> addr <= vb < addr + Z.of_nat n * 4096 ->
       mmu v' va = mmu v' vb -> va = vb).
Proof.
  induction n as [|n IH]; intros [|fuel] v addr Ho Ha Hlo Hhi Hcur Hfl Hodd Hfuel; try lia; cbn [range_loop].
  - rewrite (proj2 (Z.ltb_ge _ _)) by lia. exists 0, v. split_and!; [done|done|by destruct v|done|done|lia|lia].
  - rewrite (proj2 (Z.ltb_lt _ _)) by lia. rewrite bind_bind.
    destruct (map_page_alloc_kernel v addr fl Ho) as [(Hnone & v1 & E & Ho1 & Hr1 & Hm1)|(f & v1 & Hf & E & Ho1 & Hr1 & Hfr & Hm1)];
      [lia|word_lia|done|..]; rewrite (bind_ok _ _ _ _ _ E), bind_ret; cbn [fst Z.eqb negb].
    + exists (-1), v1. rewrite Hnone, size_empty. split_and!; [done|done|done|done| |done|done]. intros va _ _. apply Hm1.
    + assert (u32 (addr + PAGE_SIZE) = addr + 4096) as -> by (unfold PAGE_SIZE; apply u32_small; unfold is_u32; lia).
      destruct (same_regs_cur _ _ Hr1) as (Ec & _ & _).
      destruct (IH fuel v1 (addr + 4096)) as (r & v2 & E2 & Ho2 & Hr2 & Hres & Hout & Hin & Hinj);
        [done|word_lia|lia|lia|by rewrite Ec|done|done|lia|].
      replace (addr + 4096 + Z.of_nat n * 4096) with (addr + Z.of_nat (S n) * 4096) in * by lia.
      assert (forall va, addr <= va < addr + 4096 -> mmu v2 va = Some (f * PAGE_SIZE + va mod 4096)) as Hpage.
      { intros va Hva. rewrite Hout, Hm1, decide_True, Hodd by (lia || word_lia). done. }
      exists r, v2. split_and!; [done|done|by apply (same_regs_trans v v1)| | | |].
      * rewrite Hres. destruct (base.size (free_pages (frames v))) as [|k] eqn:Hk.
        { apply size_empty_inv in Hk. set_solver. }
        rewrite Hfr, (size_difference_S _ f k) by done. done.
      * intros va Hva Hd. rewrite Hout, Hm1, decide_False by (lia || word_lia). done.
      * intros Hr0 va Hva. destruct (decide (va < addr + 4096)); [exists f; auto with lia|].
        destruct (Hin Hr0 va) as (g & Hg & Eg); [lia|]. exists g. rewrite Hfr in Hg. split; [set_solver|done].
      * intros Hr0 va vb Hva Hvb Heq.
        destruct (decide (va < addr + 4096)) as [Hca|Hca], (decide (vb < addr + 4096)) as [Hcb|Hcb]; [|exfalso|exfalso|auto with lia].
        -- rewrite !Hpage in Heq by lia. injection Heq as Heq. word_lia.
        -- destruct (Hin Hr0 vb) as (g & Hg & Eg); [lia|]. rewrite Hfr in Hg. rewrite (Hpage va), Eg in Heq by lia.
           injection Heq as Heq. assert (f = g) as -> by (unfold PAGE_SIZE in *; word_lia). set_solver.
        -- destruct (Hin Hr0 va) as (g & Hg & Eg); [lia|]. rewrite Hfr in Hg. rewrite (Hpage vb), Eg in Heq by lia.
           injection Heq as Heq. assert (f = g) as -> by (unfold PAGE_SIZE in *; word_lia). set_solver.
Qed.
End Ranges.

(** ** Properties *)

(** Without a page table for the page and without a frame for one, nothing is mapped. *)
Lemma vmm_map_page_no_room v virt p fl :
  vm_ok v -> 0 <= virt < 0xFFC00000 -> present (pde v (dir_index virt)) = false -> free_pages (frames v) = ∅ ->
  exists v', vmm_map_page virt p fl v = Ok (0, v') /\ vm_ok v' /\ same_regs v v' /\ forall va, mmu v' va = mmu v va.
Proof.
  intros Ho Hv Hp Hnone. rewrite dir_index_spec in Hp.
  assert (0 <= virt / 4194304 < 1024) as Hd by word_lia.
  unfold vmm_map_page, map_page. rewrite bind_gets. rewrite dir_index_spec.
  assert (vread (current_page_directory v + 4 * (virt / 4194304)) v = Ok (pde v (virt / 4194304), v)) as Er
    by (unfold vread; by rewrite dir_translate).
  rewrite !bind_bind, (bind_ok _ _ _ _ _ Er), Hp. cbn [negb].
  destruct (alloc_frame v Ho) as [(_ & fr & Ea & Ho' & _)|(f & fr & _ & Hf & _)]; [|rewrite Hnone in Hf; set_solver].
  rewrite !bind_bind, (bind_ok _ _ _ _ _ Ea). cbn [Z.eqb]. rewrite bind_ret. cbn [negb]. rewrite bind_ret.
  unfold paging_is_enabled. rewrite bind_gets, (vo_pg _ Ho'). eexists. split; [reflexivity|]. split_and!; [done|by destruct v|done].
Qed.

(** C8: in a well-formed address space, for a page below 0xFFC00000 that is not that of the page
    directory, vmm_map_page makes the processor translate exactly the given page to the given frame
    (or no longer translate it, without the present flag) when the page has a page table or there is a
    frame for one; else it changes nothing and reports success all the same.  Every other address keeps
    its translation, the address space stays well formed and the directory loaded is the same. *)
Theorem vmm_map_page_translates v virt p fl :
  vm_ok v -> 0 <= virt < 0xFFC00000 -> virt / 4096 <> current_page_directory v / 4096 -> is_u32 p -> 0 <= fl < 4096 ->
  exists v', vmm_map_page virt p fl v = Ok (0, v') /\ vm_ok v' /\ same_regs v v' /\
    forall va, 0 <= va < 0xFFC00000 ->
      mmu v' va = if decide (va / 4096 = virt / 4096 /\ (present (pde v (dir_index virt)) = true \/ free_pages (frames v) <> ∅))
                  then if Z.odd fl then Some (frame_of p + va mod 4096) else None
                  else mmu v va.
Proof.
  intros Ho Hv Hne Hp Hfl. destruct (decide (present (pde v (dir_index virt)) = true \/ free_pages (frames v) <> ∅)) as [Hroom|Hno].
  - destruct (vmm_map_page_ok v virt p fl Ho Hv Hne Hp Hfl Hroom) as (v' & E & Ho' & Hr & _ & _ & Hm).
    exists v'. split_and!; [done|done|done|]. intros va Hva. rewrite Hm by done.
    destruct (decide (va / 4096 = virt / 4096)); [by rewrite decide_True|by rewrite decide_False by (by intros [? _])].
  - destruct (vmm_map_page_no_room v virt p fl Ho Hv) as (v' & E & Ho' & Hr & Hm).
    { destruct (present _); [destruct Hno; by left|done]. }
    { destruct (decide (free_pages (frames v) = ∅)); [done|]. destruct Hno. by right. }
    exists v'. split_and!; [done|done|done|]. intros va Hva. rewrite Hm. by rewrite decide_False by (by intros [_ ?]).
Qed.

(** the software walk of vmm_virt_to_phys through the recursive mapping gives, for every
    32-bit address, the translation the processor makes, and changes nothing. *)
Theorem vmm_virt_to_phys_is_mmu v va :
  vm_ok v -> is_u32 va -> vmm_virt_to_phys_m va v = Ok (mmu v va, v).
Proof. apply virt_to_phys_ok. Qed.

(** vmm_map_range_alloc on kernel addresses succeeds exactly when there are as many free
    frames as pages, and then every byte of the range is backed by a frame that was free before,
    no two bytes by the same memory; addresses outside the pages of the range keep their
    translation. *)
Theorem vmm_map_range_alloc_backs v virt size fl :
  vm_ok v -> current_page_directory v < 0xC0000000 -> 0xC0000000 <= virt -> 0 < size -> virt + size <= 0xFFC00000 ->
  0 <= fl < 4096 -> Z.odd fl = true ->
  exists r v', vmm_map_range_alloc virt size fl v = Ok (r, v') /\ vm_ok v' /\
    (r = if (range_pages virt size <=? base.size (free_pages (frames v)))%nat then 0 else -1) /\
    (forall va, 0 <= va < 0xFFC00000 -> va / 4096 < virt / 4096 \/ (virt + size - 1) / 4096 < va / 4096 -> mmu v' va = mmu v va) /\
    (r = 0 -> forall va, virt <= va < virt + size ->
       exists f, f ∈ free_pages (frames v) /\ mmu v' va = Some (f * PAGE_SIZE + va mod 4096)) /\
    (r = 0 -> forall va vb, virt <= va < virt + size -> virt <= vb < virt + size -> mmu v' va = mmu v' vb -> va = vb).
Proof.
  intros Ho Hcur Hlo Hsz Hhi Hfl Hodd. unfold vmm_map_range_alloc, map_range.
  rewrite (proj2 (Z.eqb_neq size 0)) by lia. cbv zeta.
  change (Z.land virt FRAME_MASK) with (frame_of virt). rewrite u32_small by (unfold is_u32; lia).
  change (Z.land (virt + size + 4095) FRAME_MASK) with (frame_of (virt + size + 4095)).
  rewrite !frame_of_spec by (unfold is_u32; lia).
  set (n := range_pages virt size).
  assert ((virt + size + 4095) / 4096 * 4096 = virt / 4096 * 4096 + Z.of_nat n * 4096) as -> by (subst n; unfold range_pages; word_lia).
  destruct (range_alloc_loop fl n (S (Z.to_nat ((virt / 4096 * 4096 + Z.of_nat n * 4096 - virt / 4096 * 4096) / PAGE_SIZE)))
    v (virt / 4096 * 4096) Ho) as (r & v' & E & Ho' & _ & Hr & Hout & Hin & Hinj);
    [word_lia|word_lia|subst n; unfold range_pages; word_lia|done|done|done|unfold PAGE_SIZE; word_lia|].
  exists r, v'. split_and!; [done|done|done| | |].
  - intros va Hva Hd. apply Hout; [done|]. subst n. unfold range_pages. word_lia.
  - intros Hr0 va Hva. apply (Hin Hr0). subst n. unfold range_pages. word_lia.
  - intros Hr0 va vb Hva Hvb. apply (Hinj Hr0); subst n; unfold range_pages; word_lia.
Qed.

(** when the page has no table and memory is exhausted, vmm_map_page reports success although
    the page stays unmapped. *)
Theorem vmm_map_page_silent_failure v virt p fl :
  vm_ok v -> 0 <= virt < 0xFFC00000 -> present (pde v (dir_index virt)) = false -> free_pages (frames v) = ∅ ->
  exists v', vmm_map_page virt p fl v = Ok (0, v') /\ mmu v' virt = None.
Proof.
  intros Ho Hv Hp Hnone. destruct (vmm_map_page_no_room v virt p fl Ho Hv Hp Hnone) as (v' & E & _ & _ & Hm).
  exists v'. split; [done|]. rewrite dir_index_spec in Hp. by rewrite Hm, mmu_walk, Hp by done.
Qed.

(** C9: the heap on the real page mapper and frame allocator, for requests that do not reach the end
    of the 32-bit address space: a granted kmalloc request lies on pages the processor translates, on a
    page boundary if that was asked for, the physical address it reports when it is asked for one is the
    translation of its payload, and the kernel's address space stays well formed. *)
Theorem kmalloc_on_paging (h : heap paging) bs sz align want :
  heap_inv h bs -> 0 < sz -> heap_end h + sz + 2 * HEAP_PAGE + 128 <= 4294967296 ->
  exists p ph h' bs', kmalloc sz align want h = Ok ((p, ph), h') /\ heap_inv h' bs' /\ kernel_space (vm h') /\
    (p <> 0 -> (align <> 0 -> p mod HEAP_PAGE = 0) /\ ph = (if want then mmu (vm h') p else None) /\ forall x, p <= x < p + sz -> mmu (vm h') x <> None).
Proof.
  intros Hi Hsz Hov. unfold kmalloc. set (al := if negb (align =? 0) then HEAP_PAGE else 0).
  assert (0 <= al <= HEAP_PAGE) as Hal by (subst al; unfold HEAP_PAGE; destruct (negb _); lia).
  destruct (kmalloc_internal_ok h bs sz al Hi Hsz ltac:(lia) ltac:(lia))
    as (p & h' & bs' & A & E & HA & HA0 & HAge & Hi' & Eb & Ee & Hres).
  rewrite (bind_ok _ _ _ _ _ E). destruct Hres as [[-> ->]|(Hp & Halg & _ & n & Hn & Hlive)].
  { exists 0, None, h', bs. split_and!; [done|done|apply (hi_vm _ _ Hi')|done]. }
  rewrite (proj2 (Z.eqb_neq p 0)), bind_get by done.
  pose proof (node_bounds _ _ _ Hi' (proj1 (proj2 (Hlive (Blk (p - HDR) n 0)) ltac:(by right)))) as Hb. unfold b_end in Hb. simpl in Hb.
  pose proof (hi_curr _ _ Hi') as (_ & Hcc & Hce). pose proof (proj1 (hi_base _ _ Hi')) as Hb0. pose proof (hi_end _ _ Hi') as Hend.
  assert (forall x, p <= x < p + sz -> mmu (vm h') x <> None) as Hmap.
  { intros x Hx Hm. pose proof (hi_mapped _ _ Hi' x ltac:(unfold HDR in *; lia)) as Hpm. simpl in Hpm. by rewrite Hm in Hpm. }
  assert (vmm_virt_to_phys p (vm h') = mmu (vm h') p) as Ev.
  { simpl. rewrite virt_to_phys_ok; [done|apply (hi_vm _ _ Hi')|unfold is_u32, HDR, HEAP_PAGE in *; lia]. }
  rewrite Ev. destruct (mmu (vm h') p) as [ph|] eqn:Em; [|by destruct (Hmap p ltac:(lia))].
  exists p, (if want then Some ph else None), h', bs'. split_and!; [by destruct want|done|apply (hi_vm _ _ Hi')|].
  intros _. split_and!; [|by rewrite Em|done]. intros Ha. assert (al = HEAP_PAGE) as Eal by (subst al; by rewrite (proj2 (Z.eqb_neq _ _))). rewrite Eal in HAge.
  destruct HA as [->|(k & Hk & ->)]; [specialize (HAge ltac:(done)); unfold HEAP_PAGE in HAge; lia|].
  specialize (Halg ltac:(apply Z.pow_nonzero; lia)). specialize (HAge ltac:(done)).
  assert (12 <= k) as Hk12 .
  { destruct (Z.le_gt_cases 12 k) as [|Hlt]; [done|]. exfalso.
    pose proof (Z.pow_le_mono_r 2 k 11 ltac:(lia) ltac:(lia)) as Hle. change (2 ^ 11) with 2048 in Hle. unfold HEAP_PAGE in HAge. lia. }
  unfold HEAP_PAGE. change 4096 with (2 ^ 12). apply Z.mod_divide in Halg; [|apply Z.pow_nonzero; lia].
  apply Z.mod_divide; [done|]. eapply Z.divide_trans; [|exact Halg]. exists (2 ^ (k - 12)). rewrite <-Z.pow_add_r by lia. f_equal. lia.
Qed.

(** ** Checking an address space

    The invariant is decidable: a check of the directory entries, the frame allocator and the
    words in memory. *)

Definition in_u32 (x : Z) : bool := (0 <=? x) && (x <? 4294967296).
Definition present_dirs (v : paging) : list Z := filter (fun d => present (pde v d) = true) (seqZ 0 1023).
Definition vm_check (v : paging) : bool :=
  let X := free_pages (frames v) in
  let L := present_dirs v in
  bool_decide (pmm_wf (frames v)) && bool_decide (0 ∉ X) && cr0_pg v && in_u32 (cr3 v) && (cr3 v mod 4096 =? 0) &&
  bool_decide (cr3 v / 4096 ∉ X) && forallb (fun kx => in_u32 (snd kx)) (map_to_list (phys v)) &&
  (pde v 1023 =? cr3 v + 3) && (0 <=? current_page_directory v) && (current_page_directory v <? 0xFFC00000) &&
  (current_page_directory v mod 4096 =? 0) && bool_decide (mmu v (current_page_directory v) = Some (cr3 v)) &&
  forallb (fun d => bool_decide (frame_of (pde v d) / 4096 ∉ X) && negb (frame_of (pde v d) =? cr3 v)) L &&
  (let owner : gmap Z Z := list_to_map ((fun d => (frame_of (pde v d), d)) <$> L) in
   forallb (fun d => bool_decide (owner !! frame_of (pde v d) = Some d)) L) &&
  forallb (fun d => present (pde v d)) (seqZ 768 255).

Lemma elem_of_present_dirs v d : d ∈ present_dirs v <-> present (pde v d) = true /\ 0 <= d < 1023.
Proof. unfold present_dirs. rewrite list_elem_of_filter, elem_of_seqZ. intuition lia. Qed.

Lemma forallb_elem {A} (f : A -> bool) l x : forallb f l = true -> x ∈ l -> f x = true.
Proof. intros H Hx. rewrite forallb_forall in H. by apply H, list_elem_of_In. Qed.

Lemma vm_check_ok v : vm_check v = true -> vm_ok v.
Proof.
  unfold vm_check, in_u32. rewrite !andb_true_iff, !bool_decide_eq_true, !Z.leb_le, !Z.ltb_lt, !Z.eqb_eq.
  intros ((((((((((((((H1 & H2) & H3) & H4) & H5) & H6) & H7) & H8) & H9) & H10) & H11) & H12) & H13) & H14) & H15).
  split; try done.
  - intros a. unfold pword. destruct (phys v !! (a / 4)) as [x|] eqn:Hx; simpl; [|unfold is_u32; lia].
    apply elem_of_map_to_list in Hx. apply (forallb_elem _ _ _ H7) in Hx. simpl in Hx.
    rewrite andb_true_iff, Z.leb_le, Z.ltb_lt in Hx. done.
  - intros d Hd Hp. assert (d ∈ present_dirs v) as Hin by (by apply elem_of_present_dirs).
    apply (forallb_elem _ _ _ H13) in Hin. cbv beta in Hin.
    rewrite andb_true_iff, bool_decide_eq_true, negb_true_iff, Z.eqb_neq in Hin. done.
  - intros d e Hd He Hpd Hpe Heq. assert (d ∈ present_dirs v) as Hdin by (by apply elem_of_present_dirs).
    assert (e ∈ present_dirs v) as Hein by (by apply elem_of_present_dirs).
    apply (forallb_elem _ _ _ H14), bool_decide_eq_true in Hdin. apply (forallb_elem _ _ _ H14), bool_decide_eq_true in Hein.
    rewrite Heq in Hdin. congruence.
  - intros d Hd. apply (forallb_elem _ _ _ H15). apply elem_of_seqZ. lia.
Qed.

(** ** A concrete address space

    Directory at 0x1000, identity-mapped by the table at 0x2000; tables of the kernel entries from
    1 MiB on; the frames 16 to 23 are free. *)
Definition sample_frames : pmm := Pmm (Array (MAX_PAGES / 8) 0xFF {[2 := 0]}) 0x20000 0x8000 32.
Definition sample_words : gmap Z Z :=
  list_to_map ([(0x1000 / 4, 0x2003); (0x2000 / 4 + 1, 0x1003); (0x1000 / 4 + 1023, 0x1003)] ++
               ((fun d => (0x1000 / 4 + d, 0x100003 + (d - 768) * 4096)) <$> seqZ 768 255)).
Definition sample_space : paging :=
  Paging sample_frames sample_words 0x1000 true 0 false 0x1000 0x1000 0x1000 0x1000.

Lemma sample_space_ok : vm_ok sample_space.
Proof. apply vm_check_ok. vm_compute. reflexivity. Qed.

Lemma vmm_map_page_translates_witness :
  exists v', vmm_map_page 0x8048000 0x12345678 7 sample_space = Ok (0, v') /\ vm_ok v' /\ same_regs sample_space v' /\
    forall va, 0 <= va < 0xFFC00000 ->
      mmu v' va = if decide (va / 4096 = 0x8048000 / 4096 /\ (present (pde sample_space (dir_index 0x8048000)) = true \/ free_pages (frames sample_space) <> ∅))
                  then Some (frame_of 0x12345678 + va mod 4096) else mmu sample_space va.
Proof. apply (vmm_map_page_translates sample_space 0x8048000 0x12345678 7 sample_space_ok); done. Defined.

Lemma vmm_virt_to_phys_is_mmu_witness : vmm_virt_to_phys_m 0x1234 sample_space = Ok (mmu sample_space 0x1234, sample_space).
Proof. apply (vmm_virt_to_phys_is_mmu sample_space 0x1234 sample_space_ok). split; lia. Defined.

Lemma vmm_map_range_alloc_backs_witness :
  exists r v', vmm_map_range_alloc 0xC1000800 0x2000 3 sample_space = Ok (r, v') /\ vm_ok v' /\
    (r = if (range_pages 0xC1000800 0x2000 <=? base.size (free_pages (frames sample_space)))%nat then 0 else -1) /\
    (forall va, 0 <= va < 0xFFC00000 -> va / 4096 < 0xC1000800 / 4096 \/ (0xC1000800 + 0x2000 - 1) / 4096 < va / 4096 ->
       mmu v' va = mmu sample_space va) /\
    (r = 0 -> forall va, 0xC1000800 <= va < 0xC1000800 + 0x2000 ->
       exists f, f ∈ free_pages (frames sample_space) /\ mmu v' va = Some (f * PAGE_SIZE + va mod 4096)) /\
    (r = 0 -> forall va vb, 0xC1000800 <= va < 0xC1000800 + 0x2000 -> 0xC1000800 <= vb < 0xC1000800 + 0x2000 ->
       mmu v' va = mmu v' vb -> va = vb).
Proof. apply (vmm_map_range_alloc_backs sample_space 0xC1000800 0x2000 3 sample_space_ok); done. Defined.

(** The same address space with no frame left. *)
Definition full_space : paging := with_frames (Pmm (Array (MAX_PAGES / 8) 0xFF ∅) 0x20000 0 32) sample_space.
Lemma full_space_ok : vm_ok full_space.
Proof. apply vm_check_ok. vm_compute. reflexivity. Qed.

Lemma vmm_map_page_silent_failure_witness :
  exists v', vmm_map_page 0x8048000 0x5000 7 full_space = Ok (0, v') /\ mmu v' 0x8048000 = None.
Proof.
  apply (vmm_map_page_silent_failure full_space 0x8048000 0x5000 7 full_space_ok); [lia|reflexivity|].
  apply (bool_decide_unpack (free_pages (frames full_space) = ∅)). vm_compute. exact I.
Defined.

(** A heap of four pages at the default start in that address space. *)
Definition sample_heap_space : heap paging := Heap ∅ 0xC1000000 0xC1000000 0xC1000000 0xC1004000 0 0 sample_space.
Lemma sample_heap_space_inv : heap_inv sample_heap_space [].
Proof.
  split; [reflexivity|reflexivity|exact I|..]; cbn [sample_heap_space heap_base heap_curr heap_commit_end heap_end vm chain];
    unfold HEAP_PAGE; [lia|by split|split_and!; reflexivity || lia|split_and!; reflexivity || lia|lia|lia| |].
  - split; [exact sample_space_ok|reflexivity].
  - intros a Ha. cbn. lia.
Qed.

Lemma kmalloc_on_paging_witness :
  exists p ph h' bs', kmalloc 100 1 true sample_heap_space = Ok ((p, ph), h') /\ heap_inv h' bs' /\ kernel_space (vm h') /\
    (p <> 0 -> (1 <> 0 -> p mod HEAP_PAGE = 0) /\ ph = mmu (vm h') p /\ forall x, p <= x < p + 100 -> mmu (vm h') x <> None).
Proof.
  apply (kmalloc_on_paging sample_heap_space [] 100 1 true sample_heap_space_inv); [lia|simpl; unfold HEAP_PAGE; lia].
Defined.
