(* ===== verification/WorkQueue.v ===== *)
(** * The deferred work queue (kernel/proc/workqueue.c)

    A ring of 64 work items filled by interrupt handlers and drained by workqueue_run.  One cell
    stays empty to tell a full ring from an empty one, so the queue holds at most 63 items.  The
    interrupt flag is part of the state: the critical sections save and restore it. *)
From S2P Require Import Prelude.

Module WorkQueue.

Definition WORKQUEUE_SIZE : Z := 64.
Definition WORKQUEUE_MASK : Z := WORKQUEUE_SIZE - 1.

(** A function pointer and its argument, both as addresses; NULL is 0. *)
Record work_item := WorkItem { fn : Z; ctx : Z }.
Definition no_item : work_item := WorkItem 0 0.

#[global] Instance work_item_eq_dec : EqDecision work_item.
Proof. solve_decision. Defined.
#[global] Instance work_item_inhabited : Inhabited work_item := populate no_item.

(** [world] is whatever the work functions act on. *)
Record wq (W : Type) := Wq {
  queue : list work_item;
  head : Z;
  tail : Z;
  iflag : bool;
  world : W
}.
Arguments Wq {W}.
Arguments queue {W}.
Arguments head {W}.
Arguments tail {W}.
Arguments iflag {W}.
Arguments world {W}.

Section Operations.
Context {W : Type}.

Definition with_queue (q : list work_item) (s : wq W) := Wq q (head s) (tail s) (iflag s) (world s).
Definition with_head (v : Z) (s : wq W) := Wq (queue s) v (tail s) (iflag s) (world s).
Definition with_tail (v : Z) (s : wq W) := Wq (queue s) (head s) v (iflag s) (world s).
Definition with_iflag (v : bool) (s : wq W) := Wq (queue s) (head s) (tail s) v (world s).
Definition with_world (v : W) (s : wq W) := Wq (queue s) (head s) (tail s) (iflag s) v.

(** pushf; pop flags; cli *)
Definition irq_save : M (wq W) bool :=
  flags <- gets iflag;; modify (with_iflag false);;; ret flags.
Definition irq_restore (flags : bool) : M (wq W) unit :=
  if flags then modify (with_iflag true) else ret tt.

Definition put_item (i : Z) (it : work_item) : M (wq W) unit :=
  s <- get;; q <- lift_opt (lset (queue s) i it);; modify (with_queue q).

Definition workqueue_init : M (wq W) unit :=
  modify (with_queue (replicate 64 no_item));;; modify (with_head 0);;; modify (with_tail 0).

Definition workqueue_enqueue (f c : Z) : M (wq W) bool :=
  if f =? 0 then ret false
  else
    flags <- irq_save;;
    s <- get;;
    let next := Z.land (u32 (head s + 1)) WORKQUEUE_MASK in
    ok <- (if negb (next =? tail s) then
             put_item (head s) (WorkItem f c);;; modify (with_head next);;; ret true
           else ret false);;
    irq_restore flags;;; ret ok.

Definition workqueue_pending : M (wq W) bool :=
  flags <- irq_save;;
  pending <- gets (fun s => negb (head s =? tail s));;
  irq_restore flags;;; ret pending.

(** The critical section of workqueue_run: take the oldest item, if there is one. *)
Definition workqueue_take : M (wq W) work_item :=
  flags <- irq_save;;
  s <- get;;
  it <- (if negb (head s =? tail s) then
           it <- lift_opt (lget (queue s) (tail s));;
           put_item (tail s) no_item;;;
           modify (with_tail (Z.land (u32 (tail s + 1)) WORKQUEUE_MASK));;; ret it
         else ret no_item);;
  irq_restore flags;;; ret it.

(** [call f c] runs the work function f on c; it may enqueue further work. *)
Variable call : Z -> Z -> M (wq W) unit.

Fixpoint workqueue_run (fuel : nat) : M (wq W) unit :=
  match fuel with
  | O => nofuel
  | S fuel' =>
    it <- workqueue_take;;
    if fn it =? 0 then ret tt else call (fn it) (ctx it);;; workqueue_run fuel'
  end.
End Operations.

(** ** The abstract queue: a list of at most 63 items, oldest first *)

Definition CAPACITY : nat := 63.

Definition a_enqueue (it : work_item) (q : list work_item) : bool * list work_item :=
  if (fn it =? 0) || (CAPACITY <=? length q)%nat then (false, q) else (true, q ++ [it]).

(** The cells from tail up to head, in ring order. *)
Definition count {W} (s : wq W) : nat := Z.to_nat ((head s - tail s) mod 64).
Definition ring {W} (s : wq W) (i : nat) : nat := Z.to_nat ((tail s + Z.of_nat i) mod 64).
Definition contents {W} (s : wq W) : list work_item :=
  (fun i => default no_item (queue s !! ring s i)) <$> seq 0 (count s).

Definition wq_inv {W} (s : wq W) : Prop :=
  length (queue s) = 64%nat /\ 0 <= head s < 64 /\ 0 <= tail s < 64 /\
  Forall (fun it => fn it <> 0) (contents s).

Section Lemmas.
Context {W : Type}.
Implicit Types s : wq W.

Lemma mask_mod x : 0 <= x < 64 -> Z.land (u32 (x + 1)) WORKQUEUE_MASK = (x + 1) mod 64.
Proof.
  intros. rewrite u32_small by (unfold is_u32; lia). apply (land_ones_mod (x + 1) 6). lia.
Qed.

Lemma length_contents s : length (contents s) = count s.
Proof. unfold contents. by rewrite length_fmap, length_seq. Qed.

Lemma count_bound s : (count s <= CAPACITY)%nat.
Proof. unfold count, CAPACITY. pose proof (Z.mod_pos_bound (head s - tail s) 64). lia. Qed.

Lemma contents_lookup s i : (i < count s)%nat -> contents s !! i = Some (default no_item (queue s !! ring s i)).
Proof. intros. unfold contents. by rewrite list_lookup_fmap, lookup_seq_lt. Qed.

(** Two states hold the same items when their cells agree along the ring. *)
Lemma contents_eq s (q : list work_item) :
  length q = count s -> (forall i, (i < count s)%nat -> default no_item (queue s !! ring s i) = q !!! i) ->
  contents s = q.
Proof.
  intros Hl Hq. apply list_eq. intros i. destruct (decide (i < count s)%nat).
  - rewrite contents_lookup, Hq by done. symmetry. apply list_lookup_lookup_total_lt. lia.
  - rewrite !lookup_ge_None_2; [done|lia|]. rewrite length_contents. lia.
Qed.

Lemma ring_head s : 0 <= head s < 64 -> 0 <= tail s < 64 -> ring s (count s) = Z.to_nat (head s).
Proof. intros. unfold ring, count. f_equal. Z.div_mod_to_equations. lia. Qed.

Lemma ring_ne_head s i :
  0 <= head s < 64 -> 0 <= tail s < 64 -> (i < count s)%nat -> ring s i <> Z.to_nat (head s).
Proof. intros ?? Hi. unfold ring, count in *. Z.div_mod_to_equations. lia. Qed.

Lemma ring_ne_tail s i : 0 <= tail s < 64 -> (0 < i < 64)%nat -> ring s i <> Z.to_nat (tail s).
Proof. intros ? Hi. unfold ring. Z.div_mod_to_equations. lia. Qed.

(** Putting an item at head and taking one from tail, on the ring. *)
Lemma push_contents s it s' :
  length (queue s) = 64%nat -> 0 <= head s < 64 -> 0 <= tail s < 64 -> (head s + 1) mod 64 <> tail s ->
  queue s' = <[Z.to_nat (head s) := it]> (queue s) -> head s' = (head s + 1) mod 64 -> tail s' = tail s ->
  contents s' = contents s ++ [it].
Proof.
  intros Hl Hh Ht Hfull Eq Eh Et.
  assert (count s' = S (count s)) as Hc by (unfold count; rewrite Eh, Et; Z.div_mod_to_equations; lia).
  assert (forall i, ring s' i = ring s i) as Hr by (intros; unfold ring; by rewrite Et).
  apply contents_eq; [rewrite length_app, length_contents; simpl; lia|].
  intros i Hi. rewrite Hr, Eq. destruct (decide (i = count s)) as [->|Hne].
  - rewrite ring_head, list_lookup_insert_eq by (done || lia).
    rewrite <-length_contents, list_lookup_total_middle; done.
  - rewrite list_lookup_insert_ne by (apply not_eq_sym, ring_ne_head; lia).
    rewrite lookup_total_app_l by (rewrite length_contents; lia).
    symmetry. apply list_lookup_total_correct, contents_lookup. lia.
Qed.

Lemma pop_contents s s' :
  0 <= head s < 64 -> 0 <= tail s < 64 -> head s <> tail s ->
  queue s' = <[Z.to_nat (tail s) := no_item]> (queue s) -> head s' = head s -> tail s' = (tail s + 1) mod 64 ->
  contents s = default no_item (queue s !! Z.to_nat (tail s)) :: contents s'.
Proof.
  intros Hh Ht Hne Eq Eh Et.
  assert (count s = S (count s')) as Hc by (unfold count; rewrite Eh, Et; Z.div_mod_to_equations; lia).
  assert (ring s 0 = Z.to_nat (tail s)) as Hr0 by (unfold ring; f_equal; Z.div_mod_to_equations; lia).
  apply contents_eq; [simpl; by rewrite length_contents|].
  intros [|i] Hi; [by rewrite Hr0|]. cbn [lookup_total list_lookup_total].
  symmetry. apply list_lookup_total_correct. rewrite contents_lookup by lia. f_equal.
  assert (ring s' i = ring s (S i)) as ->.
  { unfold ring. rewrite Et. f_equal. Z.div_mod_to_equations. lia. }
  rewrite Eq, list_lookup_insert_ne; [done|].
  apply not_eq_sym, ring_ne_tail; [done|]. pose proof (count_bound s). unfold CAPACITY in *. lia.
Qed.

(** What the operations leave alone. *)
Definition same_env s s' : Prop := iflag s' = iflag s /\ world s' = world s.

Lemma workqueue_init_ok s :
  exists s', workqueue_init s = Ok (tt, s') /\ wq_inv s' /\ contents s' = [] /\ same_env s s'.
Proof. eexists. split_and!; [reflexivity|..]; by repeat split. Qed.

Lemma workqueue_enqueue_ok s f c :
  wq_inv s ->
  exists s', workqueue_enqueue f c s = Ok (fst (a_enqueue (WorkItem f c) (contents s)), s') /\ wq_inv s' /\
    contents s' = snd (a_enqueue (WorkItem f c) (contents s)) /\ same_env s s'.
Proof.
  intros Hinv. pose proof Hinv as (Hl & Hh & Ht & Hfn). unfold workqueue_enqueue, a_enqueue. cbn [fn].
  destruct (Z.eqb_spec f 0) as [->|Hf]; cbn [orb]; [by exists s|].
  unfold irq_save, irq_restore, bind, gets, modify, ret, get. cbn [head tail queue iflag world with_iflag].
  rewrite mask_mod, length_contents by done.
  assert (bool_decide ((head s + 1) mod 64 = tail s) = (CAPACITY <=? count s)%nat) as Hb.
  { unfold count, CAPACITY. apply Bool.eq_true_iff_eq. rewrite bool_decide_eq_true, Nat.leb_le.
    Z.div_mod_to_equations. lia. }
  rewrite <-Hb. destruct (Z.eqb_spec ((head s + 1) mod 64) (tail s)) as [He|Hne].
  - rewrite bool_decide_eq_true_2 by done. simpl. destruct s as [q h t i w]; simpl in *. destruct i; simpl; eexists; by split_and!.
  - rewrite bool_decide_eq_false_2 by done. unfold put_item, bind, get, lift_opt, modify. simpl.
    rewrite lset_in by lia.
    set (s' := Wq (<[Z.to_nat (head s) := WorkItem f c]> (queue s)) ((head s + 1) mod 64) (tail s) (iflag s) (world s)).
    exists s'. split; [by destruct s as [? ? ? []]|].
    assert (contents s' = contents s ++ [WorkItem f c]) as Hc by (by apply push_contents).
    pose proof (Z.mod_pos_bound (head s + 1) 64). split_and!; [|done|done].
    unfold wq_inv. rewrite Hc. subst s'. simpl. rewrite length_insert. split_and!; try lia.
    apply Forall_app. by repeat constructor.
Qed.

Lemma workqueue_take_ok s :
  wq_inv s ->
  exists s', workqueue_take s = Ok (default no_item (list.head (contents s)), s') /\ wq_inv s' /\
    contents s' = list.tail (contents s) /\ same_env s s'.
Proof.
  intros Hinv. pose proof Hinv as (Hl & Hh & Ht & Hfn). unfold workqueue_take.
  unfold irq_save, irq_restore, bind, gets, modify, ret, get. cbn [head tail queue iflag world with_iflag].
  rewrite mask_mod by done. destruct (Z.eqb_spec (head s) (tail s)) as [He|Hne]; simpl.
  - assert (contents s = []) as Hc by (apply length_zero_iff_nil; rewrite length_contents; unfold count; by rewrite He, Z.sub_diag).
    rewrite Hc. exists s. destruct s as [q h t i w]; simpl in *. destruct i; by split_and!.
  - unfold put_item, bind, get, lift_opt, modify. simpl.
    destruct (lookup_lt_is_Some_2 (queue s) (Z.to_nat (tail s))) as [it Hit]; [lia|].
    rewrite lget_lookup by lia. rewrite Hit. rewrite (lset_in (queue s) (tail s)) by lia.
    set (s' := Wq (<[Z.to_nat (tail s) := no_item]> (queue s)) (head s) ((tail s + 1) mod 64) (iflag s) (world s)).
    exists s'.
    pose proof (pop_contents s s' Hh Ht Hne eq_refl eq_refl eq_refl) as Hc. rewrite Hit in Hc. simpl in Hc. rewrite Hc in *.
    split; [by destruct s as [? ? ? []]|]. pose proof (Z.mod_pos_bound (tail s + 1) 64).
    split_and!; [|done|done].
    subst s'. unfold wq_inv. simpl. rewrite length_insert. split_and!; try lia. by inversion Hfn.
Qed.

Lemma workqueue_pending_ok s :
  wq_inv s -> workqueue_pending s = Ok (negb (bool_decide (contents s = [])), s).
Proof.
  intros (Hl & Hh & Ht & _). unfold workqueue_pending, irq_save, irq_restore, bind, gets, modify, ret. simpl.
  assert ((head s =? tail s) = bool_decide (contents s = [])) as ->; [|destruct s as [? ? ? []]; done].
  apply Bool.eq_true_iff_eq. rewrite bool_decide_eq_true, Z.eqb_eq, <-length_zero_iff_nil, length_contents.
  unfold count. Z.div_mod_to_equations. lia.
Qed.
End Lemmas.

(** ** Interleavings

    The critical sections run with interrupts off, so every execution of the producers (in
    interrupt handlers) and of the consumer is a sequence of these atomic steps. *)

Inductive wq_op := Enq (f c : Z) | Take | Pending.
Inductive wq_out := Accepted (b : bool) | Taken (it : work_item) | IsPending (b : bool).

Definition exec {W} (o : wq_op) : M (wq W) wq_out :=
  match o with
  | Enq f c => b <- workqueue_enqueue f c;; ret (Accepted b)
  | Take => it <- workqueue_take;; ret (Taken it)
  | Pending => b <- workqueue_pending;; ret (IsPending b)
  end.
Fixpoint exec_all {W} (os : list wq_op) : M (wq W) (list wq_out) :=
  match os with
  | [] => ret []
  | o :: os' => r <- exec o;; rs <- exec_all os';; ret (r :: rs)
  end.

Definition a_exec (o : wq_op) (q : list work_item) : wq_out * list work_item :=
  match o with
  | Enq f c => let '(b, q') := a_enqueue (WorkItem f c) q in (Accepted b, q')
  | Take => (Taken (default no_item (list.head q)), list.tail q)
  | Pending => (IsPending (negb (bool_decide (q = []))), q)
  end.
Fixpoint a_exec_all (os : list wq_op) (q : list work_item) : list wq_out * list work_item :=
  match os with
  | [] => ([], q)
  | o :: os' => let '(r, q1) := a_exec o q in let '(rs, q2) := a_exec_all os' q1 in (r :: rs, q2)
  end.

Lemma wq_exec_ok {W} (s : wq W) o :
  wq_inv s -> exists s', exec o s = Ok (fst (a_exec o (contents s)), s') /\ wq_inv s' /\
    contents s' = snd (a_exec o (contents s)) /\ same_env s s'.
Proof.
  intros Hi. destruct o as [f c| |]; simpl; unfold bind, ret.
  - destruct (workqueue_enqueue_ok s f c Hi) as (s' & -> & Hs). exists s'.
    by destruct (a_enqueue _ _).
  - destruct (workqueue_take_ok s Hi) as (s' & -> & Hs). by exists s'.
  - rewrite workqueue_pending_ok by done. by exists s.
Qed.

Lemma wq_exec_all_ok {W} os : forall s : wq W,
  wq_inv s -> exists s', exec_all os s = Ok (fst (a_exec_all os (contents s)), s') /\ wq_inv s' /\
    contents s' = snd (a_exec_all os (contents s)) /\ same_env s s'.
Proof.
  induction os as [|o os IH]; intros s Hi; simpl; [by exists s|].
  destruct (wq_exec_ok s o Hi) as (s1 & E1 & Hi1 & Hc1 & Hw1).
  rewrite (bind_ok _ _ _ _ _ E1). destruct (IH s1 Hi1) as (s2 & E2 & Hi2 & Hc2 & Hw2).
  rewrite (bind_ok _ _ _ _ _ E2). exists s2. rewrite Hc1 in *.
  destruct (a_exec o (contents s)) as [r q1]. simpl in *. destruct (a_exec_all os q1) as [rs q2]. simpl in *.
  split_and!; [done..|]. unfold same_env in *. intuition congruence.
Qed.

(** ** Draining *)

Section Run.
Context {W : Type}.
Variable call : Z -> Z -> M (wq W) unit.
(** What a work function does: it changes the world and enqueues further items. *)
Variable effect : work_item -> W -> W.
Variable spawns : work_item -> W -> list work_item.

Fixpoint enqueue_all (its : list work_item) : M (wq W) unit :=
  match its with
  | [] => ret tt
  | it :: its' => workqueue_enqueue (fn it) (ctx it);;; enqueue_all its'
  end.

(** Work functions reach the queue only through workqueue_enqueue. *)
Hypothesis call_spec : forall f c s,
  call f c s = (enqueue_all (spawns (WorkItem f c) (world s))) (with_world (effect (WorkItem f c) (world s)) s).

Definition a_enqueue_all (its q : list work_item) : list work_item :=
  foldl (fun q it => snd (a_enqueue it q)) q its.

Fixpoint a_run (fuel : nat) (w : W) (q : list work_item) : option W :=
  match fuel, q with
  | O, _ => None
  | S fuel', [] => Some w
  | S fuel', it :: q' => a_run fuel' (effect it w) (a_enqueue_all (spawns it w) q')
  end.

Lemma enqueue_all_ok its : forall s,
  wq_inv s -> exists s', enqueue_all its s = Ok (tt, s') /\ wq_inv s' /\
    contents s' = a_enqueue_all its (contents s) /\ same_env s s'.
Proof.
  induction its as [|[f c] its IH]; intros s Hi; simpl; [by exists s|].
  destruct (workqueue_enqueue_ok s f c Hi) as (s1 & E1 & Hi1 & Hc1 & Hw1).
  rewrite (bind_ok _ _ _ _ _ E1), <-Hc1. destruct (IH s1 Hi1) as (s2 & E2 & Hi2 & Hc2 & Hw2).
  exists s2. split_and!; [done..|]. unfold same_env in *. intuition congruence.
Qed.

Lemma workqueue_run_ok fuel : forall s w',
  wq_inv s -> a_run fuel (world s) (contents s) = Some w' ->
  exists s', workqueue_run call fuel s = Ok (tt, s') /\ wq_inv s' /\ contents s' = [] /\
    world s' = w' /\ iflag s' = iflag s.
Proof using call_spec.
  induction fuel as [|fuel IH]; intros s w' Hi Hr; simpl in Hr; [done|].
  destruct (workqueue_take_ok s Hi) as (s1 & E1 & Hi1 & Hc1 & Hif1 & Hw1).
  cbn [workqueue_run]. rewrite (bind_ok _ _ _ _ _ E1).
  destruct (contents s) as [|[f c] q] eqn:Hc; simpl in *.
  - injection Hr as <-. by exists s1.
  - assert (f <> 0) as Hf by (destruct Hi as (_ & _ & _ & Hfn); rewrite Hc in Hfn; by inversion Hfn).
    rewrite (proj2 (Z.eqb_neq f 0)) by done.
    set (s2 := with_world (effect (WorkItem f c) (world s1)) s1).
    destruct (enqueue_all_ok (spawns (WorkItem f c) (world s1)) s2) as (s3 & E3 & Hi3 & Hc3 & Hif3 & Hw3); [done|].
    rewrite (bind_ok _ _ _ tt s3) by (rewrite call_spec; exact E3).
    destruct (IH s3 w' Hi3) as (s4 & E4 & Hi4 & Hc4 & Hw4 & Hif4).
    { rewrite Hw3, Hc3. subst s2. simpl. change (contents (with_world _ s1)) with (contents s1).
      by rewrite Hc1, Hw1. }
    exists s4. split_and!; [done..|]. rewrite Hif4, Hif3. done.
Qed.

(** Items that enqueue nothing are simply run in order. *)
Lemma a_run_quiet q : forall w,
  (forall it w, spawns it w = []) -> a_run (S (length q)) w q = Some (foldl (fun w it => effect it w) w q).
Proof. induction q as [|it q IH]; intros w Hq; [done|]. cbn [a_run length]. rewrite Hq. by apply IH. Qed.
End Run.

(** ** Properties *)

(** C5: every interleaving of enqueue, pending and take steps, from any state the ring can be
    in, runs without a fault and gives the results of a first-in first-out queue of at most 63
    items: an item is refused exactly when its function is NULL or 63 items wait, items are
    taken in the order they were accepted, and the interrupt flag is left as it was. *)
Theorem workqueue_refines_fifo {W} (s : wq W) os :
  wq_inv s ->
  exists s', exec_all os s = Ok (fst (a_exec_all os (contents s)), s') /\
    contents s' = snd (a_exec_all os (contents s)) /\ wq_inv s' /\ iflag s' = iflag s.
Proof. intros Hi. destruct (wq_exec_all_ok os s Hi) as (s' & ? & ? & ? & ? & _). by exists s'. Qed.

(** workqueue_run terminates and runs what the abstract queue runs, in the same order, the
    items enqueued by the work functions included, whenever that work is finite; it returns
    with the queue empty and the interrupt flag restored. *)
Theorem workqueue_run_refines {W} call effect spawns (s : wq W) fuel w' :
  (forall f c s, call f c s =
     enqueue_all (spawns (WorkItem f c) (world s)) (with_world (effect (WorkItem f c) (world s)) s)) ->
  wq_inv s -> a_run effect spawns fuel (world s) (contents s) = Some w' ->
  exists s', workqueue_run call fuel s = Ok (tt, s') /\ contents s' = [] /\ wq_inv s' /\
    world s' = w' /\ iflag s' = iflag s.
Proof.
  intros Hcall Hi Hr. destruct (workqueue_run_ok call effect spawns Hcall fuel s w' Hi Hr) as (s' & ? & ? & ? & ? & ?).
  by exists s'.
Qed.

(** work functions that enqueue nothing are each run exactly once, in the order of arrival,
    and 64 iterations are always enough. *)
Theorem workqueue_run_drains {W} call effect (s : wq W) :
  (forall f c s, call f c s = Ok (tt, with_world (effect (WorkItem f c) (world s)) s)) ->
  wq_inv s ->
  exists s', workqueue_run call 64 s = Ok (tt, s') /\ contents s' = [] /\
    world s' = foldl (fun w it => effect it w) (world s) (contents s) /\ wq_inv s'.
Proof.
  intros Hcall Hi.
  assert (forall n k w q, a_run effect (fun _ _ => []) n w q = Some k ->
            forall m, (n <= m)%nat -> a_run effect (fun _ _ => []) m w q = Some k) as Hmono.
  { induction n as [|n IH]; intros k w q Hn [|m] Hm; simpl in *; try done; [lia|].
    destruct q; [done|]. apply IH; [done|lia]. }
  destruct (workqueue_run_ok call effect (fun _ _ => []) Hcall 64 s
    (foldl (fun w it => effect it w) (world s) (contents s)) Hi) as (s' & ? & ? & ? & ? & ?).
  - eapply Hmono; [by apply a_run_quiet|]. rewrite length_contents. pose proof (count_bound s). unfold CAPACITY in *. lia.
  - by exists s'.
Qed.

(** ** Concrete runs *)

(** Work functions log their argument; function 7 also enqueues function 8 once. *)
Definition log_effect (it : work_item) (w : list Z) : list Z := w ++ [ctx it].
Definition log_spawns (it : work_item) (w : list Z) : list work_item :=
  if fn it =? 7 then [WorkItem 8 (ctx it + 1)] else [].
Definition log_call (f c : Z) : M (wq (list Z)) unit := fun s =>
  enqueue_all (log_spawns (WorkItem f c) (world s)) (with_world (log_effect (WorkItem f c) (world s)) s).

(** Two items, stored across the end of the ring. *)
Definition sample_wq : wq (list Z) :=
  Wq (<[63%nat := WorkItem 7 10]> (<[0%nat := WorkItem 9 20]> (replicate 64 no_item))) 1 63 true [].

Lemma sample_wq_inv : wq_inv sample_wq.
Proof. repeat split; repeat constructor; simpl; lia. Qed.

Lemma workqueue_refines_fifo_witness :
  exists s', exec_all [Enq 5 1; Take; Take; Pending; Enq 0 3] sample_wq =
      Ok ([Accepted true; Taken (WorkItem 7 10); Taken (WorkItem 9 20); IsPending true; Accepted false], s') /\
    contents s' = [WorkItem 5 1] /\ wq_inv s' /\ iflag s' = true.
Proof.
  apply (workqueue_refines_fifo sample_wq [Enq 5 1; Take; Take; Pending; Enq 0 3] sample_wq_inv).
Defined.

Lemma workqueue_run_refines_witness :
  exists s', workqueue_run log_call 4 sample_wq = Ok (tt, s') /\ contents s' = [] /\ wq_inv s' /\
    world s' = [10; 20; 11] /\ iflag s' = true.
Proof.
  apply (workqueue_run_refines log_call log_effect log_spawns sample_wq 4 [10; 20; 11]).
  - reflexivity.
  - exact sample_wq_inv.
  - reflexivity.
Defined.

Lemma workqueue_run_drains_witness :
  exists s', workqueue_run (fun f c s => Ok (tt, with_world (log_effect (WorkItem f c) (world s)) s)) 64 sample_wq = Ok (tt, s') /\
    contents s' = [] /\ world s' = [10; 20] /\ wq_inv s'.
Proof.
  apply (workqueue_run_drains (fun f c s => Ok (tt, with_world (log_effect (WorkItem f c) (world s)) s)) log_effect sample_wq).
  - reflexivity.
  - exact sample_wq_inv.
Defined.
End WorkQueue.
