(* ===== verification/TimerTask.v ===== *)
(** * One-shot and periodic timer tasks (kernel/proc/timer_task.c)

    A table of 32 tasks, due times as 32-bit tick counts that are compared by their signed
    difference.  The tick counter, the interrupt flag and whatever the task functions act on are
    part of the state. *)
From S2P Require Import Prelude.

Module TimerTask.

Definition MAX_TIMER_TASKS : Z := 32.
Definition TIMER_HZ : Z := 100.
Definition UINT32_MAX : Z := 4294967295.

Record timer_task := Task {
  id : Z; due_tick : Z; interval_ticks : Z; fn : Z; ctx : Z; active : bool
}.
Definition no_task : timer_task := Task 0 0 0 0 0 false.
Definition set_due (v : Z) (t : timer_task) := Task (id t) v (interval_ticks t) (fn t) (ctx t) (active t).

#[global] Instance timer_task_eq_dec : EqDecision timer_task.
Proof. solve_decision. Defined.

Record timers (W : Type) := Timers {
  tasks : list timer_task;
  next_id : Z;
  tick : Z;
  iflag : bool;
  world : W
}.
Arguments Timers {W}.
Arguments tasks {W}.
Arguments next_id {W}.
Arguments tick {W}.
Arguments iflag {W}.
Arguments world {W}.

(** (int32_t)(now - when) >= 0 *)
Definition tick_elapsed (now when : Z) : bool := 0 <=? s32 (u32 (now - when)).

Definition ms_to_ticks (ms : Z) : Z :=
  let q := ms / 1000 in
  let r := ms mod 1000 in
  if TIMER_HZ =? 0 then 1
  else if UINT32_MAX / TIMER_HZ <? q then UINT32_MAX
  else
    let ticks := u32 (q * TIMER_HZ) in
    let ticks :=
      if negb (r =? 0) then
        let rem := u32 (r * TIMER_HZ) in
        let ticks := u32 (ticks + rem / 1000) in
        if negb (rem mod 1000 =? 0) then u32 (ticks + 1) else ticks
      else ticks in
    if ticks =? 0 then 1 else ticks.

Section Operations.
Context {W : Type}.

Definition with_tasks (l : list timer_task) (s : timers W) := Timers l (next_id s) (tick s) (iflag s) (world s).
Definition with_next_id (v : Z) (s : timers W) := Timers (tasks s) v (tick s) (iflag s) (world s).
Definition with_iflag (v : bool) (s : timers W) := Timers (tasks s) (next_id s) (tick s) v (world s).
Definition with_world (v : W) (s : timers W) := Timers (tasks s) (next_id s) (tick s) (iflag s) v.

(** cli and sti (drivers/hal.c). *)
Definition hal_disable_interrupts : M (timers W) unit := modify (with_iflag false).
Definition hal_enable_interrupts : M (timers W) unit := modify (with_iflag true).

Definition get_task (i : Z) : M (timers W) timer_task :=
  s <- get;; lift_opt (lget (tasks s) i).
Definition put_task (i : Z) (t : timer_task) : M (timers W) unit :=
  s <- get;; l <- lift_opt (lset (tasks s) i t);; modify (with_tasks l).

Definition timer_task_init : M (timers W) unit :=
  modify (with_tasks (replicate 32 no_task));;; modify (with_next_id 1).

(** for (i = 0; i < MAX_TIMER_TASKS; i++) if (p(tasks[i])) break;  -1 when none matches.
    [n] is the number of iterations left. *)
Fixpoint scan (p : timer_task -> bool) (n : nat) (i : Z) : M (timers W) Z :=
  match n with
  | O => ret (-1)
  | S n' => t <- get_task i;; if p t then ret i else scan p n' (i + 1)
  end.

Definition timer_task_alloc (delay_ticks interval f c : Z) : M (timers W) Z :=
  if f =? 0 then ret (-1)
  else
    let delay_ticks := if delay_ticks =? 0 then 1 else delay_ticks in
    hal_disable_interrupts;;;
    slot <- scan (fun t => negb (active t)) 32 0;;
    (if 0 <=? slot then
       new_id <- gets next_id;;
       modify (fun s => with_next_id (u32 (next_id s + 1)) s);;;
       modify (fun s => if next_id s =? 0 then with_next_id 1 s else s);;;
       now <- gets tick;;
       put_task slot (Task new_id (u32 (now + delay_ticks)) interval f c true)
     else ret tt);;;
    hal_enable_interrupts;;;
    if slot <? 0 then ret (-1) else t <- get_task slot;; ret (s32 (id t)).

Definition timer_task_schedule_ticks (delay_ticks interval f c : Z) : M (timers W) Z :=
  timer_task_alloc delay_ticks interval f c.

Definition timer_task_schedule_ms (delay_ms interval_ms f c : Z) : M (timers W) Z :=
  let delay_ticks := ms_to_ticks delay_ms in
  let interval := if negb (interval_ms =? 0) then ms_to_ticks interval_ms else 0 in
  timer_task_alloc delay_ticks interval f c.

Definition timer_task_cancel (tid : Z) : M (timers W) bool :=
  if tid =? 0 then ret false
  else
    hal_disable_interrupts;;;
    i <- scan (fun t => active t && (id t =? tid)) 32 0;;
    removed <- (if 0 <=? i then put_task i no_task;;; ret true else ret false);;
    hal_enable_interrupts;;; ret removed.

Definition timer_task_due : M (timers W) bool :=
  hal_disable_interrupts;;;
  now <- gets tick;;
  i <- scan (fun t => active t && tick_elapsed now (due_tick t)) 32 0;;
  hal_enable_interrupts;;; ret (0 <=? i).

(** The critical section of timer_task_run_due: claim the first due task. *)
Definition timer_task_take : M (timers W) (Z * Z) :=
  hal_disable_interrupts;;;
  now <- gets tick;;
  i <- scan (fun t => active t && tick_elapsed now (due_tick t)) 32 0;;
  r <- (if 0 <=? i then
          t <- get_task i;;
          (if interval_ticks t =? 0 then put_task i no_task
           else put_task i (set_due (u32 (now + interval_ticks t)) t));;;
          ret (fn t, ctx t)
        else ret (0, 0));;
  hal_enable_interrupts;;; ret r.

(** [call f c] runs the task function f on c. *)
Variable call : Z -> Z -> M (timers W) unit.

Fixpoint timer_task_run_due (fuel : nat) : M (timers W) unit :=
  match fuel with
  | O => nofuel
  | S fuel' =>
    r <- timer_task_take;;
    if fst r =? 0 then ret tt else call (fst r) (snd r);;; timer_task_run_due fuel'
  end.
End Operations.

(** ** Invariant *)

Record timers_inv {W} (s : timers W) : Prop := {
  ti_len : length (tasks s) = 32%nat;
  ti_next : 0 < next_id s < 4294967296;
  ti_tick : is_u32 (tick s);
  ti_fn : forall t, t ∈ tasks s -> if active t then fn t <> 0 /\ id t <> 0 else t = no_task
}.

(** The index of the first matching task. *)
Definition first_idx (p : timer_task -> bool) (l : list timer_task) : option nat :=
  fst <$> list_find (fun t => p t = true) l.

Section Lemmas.
Context {W : Type}.
Implicit Types s : timers W.

Lemma scan_from p s n : forall k, (k + n)%nat = length (tasks s) ->
  scan p n (Z.of_nat k) s =
  Ok (match first_idx p (drop k (tasks s)) with Some i => Z.of_nat (k + i) | None => -1 end, s).
Proof.
  induction n as [|n IH]; intros k Hk; cbn [scan].
  { by rewrite drop_ge by lia. }
  destruct (lookup_lt_is_Some_2 (tasks s) k) as [t Ht]; [lia|].
  rewrite (drop_S _ _ _ Ht). unfold get_task, bind at 1 2, get, lift_opt.
  rewrite lget_lookup, Nat2Z.id, Ht by lia. unfold first_idx. cbn [list_find].
  case_decide as Hp.
  - rewrite Hp. unfold ret. simpl. by rewrite Nat.add_0_r.
  - rewrite (not_true_is_false _ Hp). replace (Z.of_nat k + 1) with (Z.of_nat (S k)) by lia.
    rewrite IH by lia. unfold first_idx. destruct (list_find _ (drop (S k) (tasks s))) as [[i x]|]; simpl; [|done].
    do 3 f_equal. lia.
Qed.

Lemma scan_ok p s : timers_inv s ->
  scan p 32 0 s = Ok (match first_idx p (tasks s) with Some i => Z.of_nat i | None => -1 end, s).
Proof. intros Hi. exact (scan_from p s 32 0 (eq_sym (ti_len _ Hi))). Qed.

Lemma first_idx_Some p l i :
  first_idx p l = Some i -> exists t, l !! i = Some t /\ p t = true /\
    forall j u, (j < i)%nat -> l !! j = Some u -> p u = false.
Proof.
  unfold first_idx. intros ([j t] & Hf & ->)%fmap_Some. apply list_find_Some in Hf as (Hl & Hp & Hmin).
  exists t. split_and!; [done..|]. intros k u Hk Hu. by apply not_true_is_false, (Hmin k).
Qed.
Lemma first_idx_None p l : first_idx p l = None -> forall t, t ∈ l -> p t = false.
Proof.
  unfold first_idx. intros Hf%fmap_None t Ht. apply list_find_None in Hf.
  rewrite list.Forall_forall in Hf. apply not_true_is_false, (Hf t Ht).
Qed.

(** A scan that finds task i, or none. *)
Lemma scan_cases p s :
  timers_inv s ->
  (exists i t, scan p 32 0 s = Ok (Z.of_nat i, s) /\ first_idx p (tasks s) = Some i /\
     tasks s !! i = Some t /\ p t = true /\ (i < 32)%nat) \/
  (scan p 32 0 s = Ok (-1, s) /\ first_idx p (tasks s) = None /\ forall t, t ∈ tasks s -> p t = false).
Proof.
  intros Hi. rewrite scan_ok by done. destruct (first_idx p (tasks s)) as [i|] eqn:Hf; [left|right].
  - destruct (first_idx_Some _ _ _ Hf) as (t & Ht & Hp & _). exists i, t. split_and!; try done.
    apply lookup_lt_Some in Ht. by rewrite (ti_len _ Hi) in Ht.
  - split_and!; [done|done|by apply first_idx_None].
Qed.

Lemma get_task_ok s i t : tasks s !! i = Some t -> get_task (Z.of_nat i) s = Ok (t, s).
Proof. intros Ht. unfold get_task, bind, get, lift_opt. by rewrite lget_lookup, Nat2Z.id, Ht by lia. Qed.
Lemma put_task_ok s i t : (i < length (tasks s))%nat ->
  put_task (Z.of_nat i) t s = Ok (tt, with_tasks (<[i := t]> (tasks s)) s).
Proof.
  intros Hi. unfold put_task, bind, get, lift_opt, modify. by rewrite lset_in, Nat2Z.id by lia.
Qed.

(** Changing one cell to a task that satisfies the invariant's clause. *)
Lemma inv_put s i t :
  timers_inv s -> (if active t then fn t <> 0 /\ id t <> 0 else t = no_task) ->
  timers_inv (with_tasks (<[i := t]> (tasks s)) s).
Proof.
  intros [Hl Hn Ht Hf] H. split; simpl; [by rewrite length_insert|done|done|].
  intros u [j Hu]%list_elem_of_lookup. apply list_lookup_insert_Some in Hu as [(-> & -> & _)|[_ Hu]]; [done|].
  apply Hf. by eapply list_elem_of_lookup_2.
Qed.
Lemma inv_iflag s b : timers_inv s -> timers_inv (with_iflag b s).
Proof. intros [????]. by split. Qed.
#[local] Hint Resolve inv_put inv_iflag : word.

Definition succ_id (n : Z) : Z := if u32 (n + 1) =? 0 then 1 else u32 (n + 1).
Lemma succ_id_range n : 0 < n < 4294967296 -> 0 < succ_id n < 4294967296.
Proof. intros. unfold succ_id. bdestr; word_lia. Qed.

Definition new_task s (delay interval f c : Z) : timer_task :=
  Task (next_id s) (u32 (tick s + if delay =? 0 then 1 else delay)) interval f c true.

Definition scheduled s (i : nat) (delay interval f c : Z) : timers W :=
  Timers (<[i := new_task s delay interval f c]> (tasks s)) (succ_id (next_id s)) (tick s) true (world s).

Lemma timer_task_alloc_ok s delay interval f c :
  timers_inv s -> f <> 0 ->
  timer_task_alloc delay interval f c s =
  match first_idx (fun t => negb (active t)) (tasks s) with
  | Some i => Ok (s32 (next_id s), scheduled s i delay interval f c)
  | None => Ok (-1, with_iflag true s)
  end.
Proof.
  intros Hi Hf. unfold timer_task_alloc. rewrite (proj2 (Z.eqb_neq f 0)) by done.
  set (d := if delay =? 0 then 1 else delay). unfold hal_disable_interrupts. unfold bind at 1, modify at 1.
  destruct (scan_cases (fun t => negb (active t)) (with_iflag false s)) as [(i & t & E & Hfi & Ht & Hp & Hlt)|(E & Hn & _)];
    [auto with word|..]; rewrite (bind_ok _ _ _ _ _ E).
  - simpl in Hfi. rewrite Hfi. rewrite (proj2 (Z.leb_le 0 _)), (proj2 (Z.ltb_ge _ 0)) by lia.
    unfold bind, gets, modify, hal_enable_interrupts, modify. cbn [next_id tick with_iflag with_next_id].
    set (s1 := (if u32 (next_id s + 1) =? 0 then _ else _)).
    assert (s1 = Timers (tasks s) (succ_id (next_id s)) (tick s) false (world s)) as ->.
    { subst s1. unfold succ_id. by destruct (u32 (next_id s + 1) =? 0). }
    rewrite put_task_ok by (simpl; rewrite (ti_len _ Hi); lia).
    erewrite get_task_ok; [|simpl; apply list_lookup_insert_eq; rewrite (ti_len _ Hi); lia]. done.
  - simpl in Hn. by rewrite Hn.
Qed.

Lemma scheduled_inv s i delay interval f c :
  timers_inv s -> f <> 0 -> timers_inv (scheduled s i delay interval f c).
Proof.
  intros Hi Hf. destruct (inv_put s i (new_task s delay interval f c) Hi) as [Hl Hn Ht Ht'].
  - simpl. pose proof (ti_next _ Hi). lia.
  - split; simpl in *; [done|by apply succ_id_range|done|done].
Qed.

Lemma timer_task_cancel_ok s tid :
  timers_inv s -> tid <> 0 ->
  timer_task_cancel tid s =
  match first_idx (fun t => active t && (id t =? tid)) (tasks s) with
  | Some i => Ok (true, with_tasks (<[i := no_task]> (tasks s)) (with_iflag true s))
  | None => Ok (false, with_iflag true s)
  end.
Proof.
  intros Hi Hf. unfold timer_task_cancel. rewrite (proj2 (Z.eqb_neq tid 0)) by done.
  unfold hal_disable_interrupts. unfold bind at 1, modify at 1.
  destruct (scan_cases (fun t => active t && (id t =? tid)) (with_iflag false s)) as [(i & t & E & Hfi & Ht & Hp & Hlt)|(E & Hn & _)];
    [auto with word|..]; rewrite (bind_ok _ _ _ _ _ E).
  - simpl in Hfi. rewrite Hfi. rewrite (proj2 (Z.leb_le 0 _)) by lia. unfold bind at 1 2.
    rewrite put_task_ok by (simpl; rewrite (ti_len _ Hi); lia). done.
  - simpl in Hn. by rewrite Hn.
Qed.

(** What firing does to a task that is due at tick now. *)
Definition is_due (now : Z) (t : timer_task) : bool := active t && tick_elapsed now (due_tick t).
Definition fired (now : Z) (t : timer_task) : timer_task :=
  if interval_ticks t =? 0 then no_task else set_due (u32 (now + interval_ticks t)) t.

Lemma timer_task_take_ok s :
  timers_inv s ->
  (exists i t, first_idx (is_due (tick s)) (tasks s) = Some i /\ tasks s !! i = Some t /\ is_due (tick s) t = true /\
     timer_task_take s = Ok ((fn t, ctx t), with_tasks (<[i := fired (tick s) t]> (tasks s)) (with_iflag true s))) \/
  ((forall t, t ∈ tasks s -> is_due (tick s) t = false) /\ timer_task_take s = Ok ((0, 0), with_iflag true s)).
Proof.
  intros Hi. unfold timer_task_take, hal_disable_interrupts, hal_enable_interrupts, bind, modify, gets. simpl tick.
  change (scan _ 32 0 _) with (scan (is_due (tick s)) 32 0 (with_iflag false s)).
  destruct (scan_cases (is_due (tick s)) (with_iflag false s)) as [(i & t & E & Hfi & Ht & Hp & Hlt)|(E & Hn & Hall)];
    [auto with word|..]; [left|right]; rewrite E.
  - exists i, t. split_and!; [done..|]. rewrite (proj2 (Z.leb_le 0 _)) by lia.
    rewrite (get_task_ok _ _ _ Ht). unfold fired.
    destruct (interval_ticks t =? 0); rewrite put_task_ok by (simpl; rewrite (ti_len _ Hi); lia); done.
  - done.
Qed.
End Lemmas.

(** ** Due times *)

(** The signed difference orders ticks that are less than 2^31 apart, across the wrap-around. *)
Lemma tick_elapsed_near now when d :
  now = u32 (when + d) -> - 2147483648 <= d < 2147483648 -> tick_elapsed now when = (0 <=? d).
Proof.
  intros -> Hd. unfold tick_elapsed, s32.
  assert (u32 (u32 (u32 (when + d) - when)) = d mod 4294967296) as -> by word_lia.
  apply Bool.eq_true_iff_eq. rewrite !Z.leb_le. bdestr; word_lia.
Qed.

(** A fired periodic task is not due again at once. *)
Lemma fired_not_due now t :
  is_u32 now -> 0 <= interval_ticks t <= 2147483648 -> is_due now (fired now t) = false.
Proof.
  intros Hn Hint. unfold fired, is_due. destruct (Z.eqb_spec (interval_ticks t) 0) as [|Hne]; [done|].
  simpl. rewrite (tick_elapsed_near _ _ (- interval_ticks t)) by (lia || word_lia).
  rewrite (proj2 (Z.leb_gt _ _)) by lia. apply andb_false_r.
Qed.

Section RunDue.
Context {W : Type}.
Implicit Types s : timers W.
Variable call : Z -> Z -> M (timers W) unit.
Variable effect : Z -> Z -> W -> W.
(** Task functions that leave the task table alone. *)
Hypothesis call_spec : forall f c s, call f c s = Ok (tt, with_world (effect f c (world s)) s).

Definition fire (now : Z) (t : timer_task) : timer_task := if is_due now t then fired now t else t.
Definition due_tasks (now : Z) (l : list timer_task) : list timer_task := filter (fun t => is_due now t = true) l.

Lemma due_tasks_nil now l : (forall t, t ∈ l -> is_due now t = false) -> due_tasks now l = [].
Proof.
  unfold due_tasks. induction l as [|t l IH]; intros H; [done|].
  rewrite filter_cons_False by (rewrite H by set_solver; done). apply IH. set_solver.
Qed.

(** Firing the first due task leaves the others to fire. *)
Lemma fire_first now l i t :
  is_u32 now -> first_idx (is_due now) l = Some i -> l !! i = Some t -> 0 <= interval_ticks t <= 2147483648 ->
  due_tasks now l = t :: due_tasks now (<[i := fired now t]> l) /\
  fire now <$> <[i := fired now t]> l = fire now <$> l.
Proof.
  intros Hn Hf Ht Hint. destruct (first_idx_Some _ _ _ Hf) as (t' & Ht' & Hp & Hmin). simplify_eq.
  pose proof (fired_not_due now t Hn Hint) as Hnd. split.
  - rewrite insert_take_drop by (by eapply lookup_lt_Some).
    rewrite <-(take_drop_middle _ _ _ Ht) at 1. unfold due_tasks.
    rewrite !list.filter_app, filter_cons_True, filter_cons_False by congruence.
    change (filter _ (take i l)) with (due_tasks now (take i l)). rewrite due_tasks_nil; [done|].
    intros u [j Hj]%list_elem_of_lookup. apply lookup_take_Some in Hj as [Hj Hlt]. by apply (Hmin j u).
  - rewrite list_fmap_insert. apply list_insert_id. rewrite list_lookup_fmap, Ht. simpl. f_equal.
    unfold fire. by rewrite Hp, Hnd.
Qed.

Lemma run_due_ok n : forall s fuel,
  timers_inv s -> (forall t, t ∈ tasks s -> 0 <= interval_ticks t <= 2147483648) ->
  length (due_tasks (tick s) (tasks s)) = n -> (n < fuel)%nat ->
  timer_task_run_due call fuel s =
  Ok (tt, Timers (fire (tick s) <$> tasks s) (next_id s) (tick s) true
            (foldl (fun w t => effect (fn t) (ctx t) w) (world s) (due_tasks (tick s) (tasks s)))).
Proof using call_spec.
  induction n as [|n IH]; intros s fuel Hi Hint Hn Hfuel; (destruct fuel as [|fuel]; [lia|]); cbn [timer_task_run_due].
  all: destruct (timer_task_take_ok s Hi) as [(i & t & Hf & Ht & Hd & E)|(Hnone & E)]; rewrite (bind_ok _ _ _ _ _ E).
  all: try (assert (due_tasks (tick s) (tasks s) = []) as Hnil
by (by apply due_tasks_nil)).
  - apply length_zero_iff_nil in Hn. destruct (fire_first (tick s) (tasks s) i t) as [Hc _];
      [apply Hi|done|done|by eapply Hint, list_elem_of_lookup_2|]. rewrite Hc in Hn. done.
  - rewrite Hnil. unfold ret. simpl. do 2 f_equal. unfold with_iflag. f_equal.
    rewrite <-(list_fmap_id (tasks s)) at 1. apply list_fmap_ext. intros j u Hu. unfold fire.
    rewrite Hnone; [done|by eapply list_elem_of_lookup_2].
  - assert (t ∈ tasks s) as Hin by (by eapply list_elem_of_lookup_2).
    destruct (fire_first (tick s) (tasks s) i t) as [Hc Hm]; [apply Hi|done|done|by apply Hint|].
    pose proof (ti_fn _ Hi t Hin) as Hok. unfold is_due in Hd. apply andb_true_iff in Hd as [Ha _]. rewrite Ha in Hok.
    cbn [fst snd]. rewrite (proj2 (Z.eqb_neq (fn t) 0)) by tauto. rewrite (bind_ok _ _ _ _ _ (call_spec _ _ _)).
    rewrite Hc in Hn. injection Hn as Hn.
    rewrite IH; [|..|done|lia].
    + simpl. by rewrite Hm, Hc.
    + set (s1 := with_tasks (<[i := fired (tick s) t]> (tasks s)) (with_iflag true s)).
      assert (timers_inv s1) as [????]; [|by split].
      apply (inv_put (with_iflag true s)); [by apply inv_iflag|]. unfold fired. destruct (interval_ticks t =? 0); simpl; [done|]. by rewrite Ha.
    + simpl. intros u [j Hu]%list_elem_of_lookup.
      apply list_lookup_insert_Some in Hu as [(-> & <- & _)|[_ Hu]]; [|by eapply Hint, list_elem_of_lookup_2].
      unfold fired. pose proof (Hint t Hin). destruct (interval_ticks t =? 0); simpl; lia.
  - by rewrite Hnil in Hn.
Qed.
End RunDue.

(** ** Histories of the task table *)

Section Histories.
Context {W : Type}.
Implicit Types s : timers W.

(** The states reachable from timer_task_init, with the number of tasks scheduled so far. *)
Inductive reach : nat -> timers W -> Prop :=
| reach_init s s' : is_u32 (tick s) -> timer_task_init s = Ok (tt, s') -> reach 0 s'
| reach_schedule n s delay interval f c r s' :
    reach n s -> timer_task_schedule_ticks delay interval f c s = Ok (r, s') -> reach (S n) s'
| reach_cancel n s tid r s' : reach n s -> timer_task_cancel tid s = Ok (r, s') -> reach n s'
| reach_take n s r s' : reach n s -> timer_task_take s = Ok (r, s') -> reach n s'
| reach_tick n s : reach n s -> reach n (Timers (tasks s) (next_id s) (u32 (tick s + 1)) (iflag s) (world s)).

Definition ids_unique s : Prop :=
  forall i j t u, tasks s !! i = Some t -> tasks s !! j = Some u ->
    active t = true -> active u = true -> id t = id u -> i = j.
Definition ids_below s : Prop := forall t, t ∈ tasks s -> active t = true -> id t < next_id s.

(** A cell replaced by a task that is inactive or keeps its identity. *)
Lemma ids_put s i t0 t :
  tasks s !! i = Some t0 -> (active t = true -> active t0 = true /\ id t = id t0) ->
  ids_unique s -> ids_below s ->
  ids_unique (with_tasks (<[i := t]> (tasks s)) s) /\ ids_below (with_tasks (<[i := t]> (tasks s)) s).
Proof.
  intros H0 Hid Hu Hb. split; simpl.
  - intros j k v w Hv Hw Av Aw Ei.
    apply list_lookup_insert_Some in Hv as [(? & ? & _)|[? Hv]];
      apply list_lookup_insert_Some in Hw as [(? & ? & _)|[? Hw]]; subst.
    + done.
    + destruct (Hid Av). by eapply Hu; [done|done|..]; congruence.
    + destruct (Hid Aw). by eapply Hu; [done|done|..]; congruence.
    + by eapply Hu.
  - intros v [j Hv]%list_elem_of_lookup Av. apply list_lookup_insert_Some in Hv as [(-> & -> & _)|[? Hv]].
    + destruct (Hid Av) as [? ->]. eapply Hb; [by eapply list_elem_of_lookup_2|done].
    + eapply Hb; [by eapply list_elem_of_lookup_2|done].
Qed.

Lemma fired_id now t : active (fired now t) = true -> active t = true /\ id (fired now t) = id t.
Proof. unfold fired. by destruct (interval_ticks t =? 0). Qed.

Lemma fired_ok now t :
  (if active t then fn t <> 0 /\ id t <> 0 else t = no_task) ->
  active t = true -> if active (fired now t) then fn (fired now t) <> 0 /\ id (fired now t) <> 0 else fired now t = no_task.
Proof. intros H Ha. rewrite Ha in H. unfold fired. destruct (interval_ticks t =? 0); simpl; [done|]. by rewrite Ha. Qed.

(** A scheduled task has a fresh identifier while the counter has not wrapped. *)
Lemma ids_scheduled s i delay interval f c :
  timers_inv s -> (i < 32)%nat -> next_id s < 4294967295 -> ids_unique s -> ids_below s ->
  ids_unique (scheduled s i delay interval f c) /\ ids_below (scheduled s i delay interval f c).
Proof.
  intros Hi Hlt Hw Hu Hb. split; simpl.
  - intros j k v w Hv Hw' Av Aw Ei.
    apply list_lookup_insert_Some in Hv as [(? & ? & _)|[? Hv]];
      apply list_lookup_insert_Some in Hw' as [(? & ? & _)|[? Hw']]; subst; simpl in *.
    + done.
    + apply list_elem_of_lookup_2, Hb in Hw'. specialize (Hw' Aw). lia.
    + apply list_elem_of_lookup_2, Hb in Hv. specialize (Hv Av). lia.
    + by eapply Hu.
  - assert (succ_id (next_id s) = next_id s + 1) as Es.
    { pose proof (ti_next _ Hi). unfold succ_id. bdestr; word_lia. }
    intros v [j Hv]%list_elem_of_lookup Av. simpl. rewrite Es. apply list_lookup_insert_Some in Hv as [(? & <- & _)|[? Hv]].
    + simpl. lia.
    + apply list_elem_of_lookup_2, Hb in Hv. specialize (Hv Av). lia.
Qed.

Lemma reach_inv n s :
  reach n s -> Z.of_nat n < 4294967295 ->
  timers_inv s /\ ids_unique s /\ ids_below s /\ next_id s <= Z.of_nat n + 1.
Proof.
  induction 1 as [s s' Ht E|n s delay interval f c r s' _ IH E|n s tid r s' _ IH E|n s r s' _ IH E|n s _ IH]; intros Hn.
  - injection E as <-.
    assert (forall t, t ∈ replicate 32 no_task -> t = no_task) as Hr by (intros t Hin%elem_of_replicate; tauto).
    split_and!; [split; cbn -[replicate]; [done|lia|done|]| | |simpl; lia].
    + by intros t ->%Hr.
    + intros i j t u Hin%list_elem_of_lookup_2. by rewrite (Hr _ Hin).
    + by intros t ->%Hr.
  - destruct IH as (Hi & Hu & Hb & Hnx); [lia|]. unfold timer_task_schedule_ticks in E.
    destruct (decide (f = 0)) as [->|Hf].
    { injection E as <- <-. split_and!; try done. lia. }
    rewrite timer_task_alloc_ok in E by done. destruct (first_idx _ (tasks s)) as [i|] eqn:Hfi; injection E as <- <-.
    + destruct (first_idx_Some _ _ _ Hfi) as (t & Hti & _ & _). apply lookup_lt_Some in Hti. rewrite (ti_len _ Hi) in Hti.
      destruct (ids_scheduled s i delay interval f c Hi Hti) as [Hu' Hb']; [lia|done|done|].
      split_and!; [by apply scheduled_inv|done|done|]. simpl. pose proof (ti_next _ Hi).
      unfold succ_id. bdestr; word_lia.
    + split_and!; [by apply inv_iflag|done|done|simpl; lia].
  - destruct IH as (Hi & Hu & Hb & Hnx); [lia|]. destruct (decide (tid = 0)) as [->|Hf]; [by injection E as <- <-|].
    rewrite timer_task_cancel_ok in E by done. destruct (first_idx _ (tasks s)) as [i|] eqn:Hfi; injection E as <- <-.
    + destruct (first_idx_Some _ _ _ Hfi) as (t & Hti & _ & _).
      destruct (ids_put (with_iflag true s) i t no_task) as [? ?]; [done..|].
      split_and!; [|done|done|done]. by apply (inv_put (with_iflag true s)); [apply inv_iflag|].
    + split_and!; [by apply inv_iflag|done|done|simpl; lia].
  - destruct IH as (Hi & Hu & Hb & Hnx); [lia|].
    destruct (timer_task_take_ok s Hi) as [(i & t & _ & Ht & Hd & E')|(_ & E')]; rewrite E in E'; injection E' as _ ->.
    + destruct (ids_put (with_iflag true s) i t (fired (tick s) t)) as [? ?]; [done|apply fired_id|done|done|].
      split_and!; [|done|done|done]. apply (inv_put (with_iflag true s)); [by apply inv_iflag|].
      unfold is_due in Hd. apply andb_true_iff in Hd as [Ha _].
      apply fired_ok; [|done]. by eapply (ti_fn _ Hi), list_elem_of_lookup_2.
    + split_and!; [by apply inv_iflag|done|done|done].
  - destruct IH as ([????] & Hu & Hb & Hnx); [lia|]. split_and!; try done. split; simpl; auto with word.
Qed.
End Histories.

(** ** Properties *)

(** C6: timer_task_run_due calls every task that is due at the current tick exactly once, in
    slot order, removes the one-shot tasks among them, sets the periodic ones to the current
    tick plus their interval, leaves all others alone, and returns after at most 33 rounds, provided
    that intervals are at most 2^31 ticks and that the functions of the tasks change neither the table
    of tasks nor the tick, which stands still during the call. *)
Theorem timer_run_due_fires {W} call effect (s : timers W) :
  (forall f c s, call f c s = Ok (tt, with_world (effect f c (world s)) s)) ->
  timers_inv s -> (forall t, t ∈ tasks s -> 0 <= interval_ticks t <= 2147483648) ->
  timer_task_run_due call 33 s =
  Ok (tt, Timers (fire (tick s) <$> tasks s) (next_id s) (tick s) true
            (foldl (fun w t => effect (fn t) (ctx t) w) (world s) (due_tasks (tick s) (tasks s)))).
Proof.
  intros Hcall Hi Hint. eapply run_due_ok; [done|done|done|done|].
  pose proof (length_filter (fun t => is_due (tick s) t = true) (tasks s)) as Hle. rewrite (ti_len _ Hi) in Hle.
  unfold due_tasks. lia.
Qed.

(** a periodic task that is due and whose interval is above 2^31 ticks is due again as soon
    as it has fired, so timer_task_run_due never returns. *)
Theorem timer_run_due_diverges {W} call (s : timers W) t fuel :
  (forall f c s, exists w, call f c s = Ok (tt, with_world w s)) ->
  timers_inv s -> tasks s !! 0%nat = Some t -> is_due (tick s) t = true ->
  2147483648 < interval_ticks t < 4294967296 ->
  timer_task_run_due call fuel s = NoFuel.
Proof.
  intros Hcall. revert s t. induction fuel as [|fuel IH]; intros s t Hi Ht Hd Hint; [done|].
  cbn [timer_task_run_due].
  assert (t ∈ tasks s) as Hin by (by eapply list_elem_of_lookup_2).
  pose proof (ti_fn _ Hi t Hin) as Hok. pose proof Hd as Hd0. unfold is_due in Hd0. apply andb_true_iff in Hd0 as [Ha _].
  destruct (timer_task_take_ok s Hi) as [(i & t' & Hf & Ht' & Hd' & E)|(Hnone & E)]; [|by rewrite Hnone in Hd].
  assert (i = 0%nat) as ->.
  { destruct i as [|i]; [done|]. destruct (first_idx_Some _ _ _ Hf) as (_ & _ & _ & Hmin).
    rewrite (Hmin 0%nat t) in Hd; [done|lia|done]. }
  simplify_eq. rewrite (bind_ok _ _ _ _ _ E). cbn [fst snd]. rewrite Ha in Hok.
  rewrite (proj2 (Z.eqb_neq (fn t) 0)) by tauto.
  destruct (Hcall (fn t) (ctx t) (with_tasks (<[0%nat := fired (tick s) t]> (tasks s)) (with_iflag true s))) as [w Ew].
  rewrite (bind_ok _ _ _ _ _ Ew). apply (IH _ (fired (tick s) t)).
  - assert (timers_inv (with_tasks (<[0%nat := fired (tick s) t]> (tasks s)) (with_iflag true s))) as [????]; [|by split].
    apply (inv_put (with_iflag true s)); [by apply inv_iflag|]. apply fired_ok; [|done]. by rewrite Ha.
  - simpl. apply list_lookup_insert_eq. rewrite (ti_len _ Hi). lia.
  - unfold fired, is_due. rewrite (proj2 (Z.eqb_neq _ 0)) by lia. simpl. rewrite Ha.
    rewrite (tick_elapsed_near _ _ (4294967296 - interval_ticks t)); [|pose proof (ti_tick _ Hi); word_lia|lia].
    rewrite (proj2 (Z.leb_le _ _)) by lia. done.
  - unfold fired. rewrite (proj2 (Z.eqb_neq _ 0)) by lia. done.
Qed.

(** in every history of fewer than 2^32 - 1 scheduled tasks, the tasks that are active at the
    same time have different, non-zero identifiers, and cancelling the identifier of one of them
    reports success and clears exactly its slot. *)
Theorem timer_cancel_exact {W} n (s : timers W) i t :
  reach n s -> Z.of_nat n < 4294967295 -> tasks s !! i = Some t -> active t = true ->
  timer_task_cancel (id t) s = Ok (true, with_tasks (<[i := no_task]> (tasks s)) (with_iflag true s)) /\
  forall j u, tasks s !! j = Some u -> active u = true -> j <> i -> id u <> id t.
Proof.
  intros Hr Hn Ht Ha. destruct (reach_inv n s Hr Hn) as (Hi & Hu & _ & _).
  assert (t ∈ tasks s) as Hin by (by eapply list_elem_of_lookup_2).
  pose proof (ti_fn _ Hi t Hin) as Hok. rewrite Ha in Hok. split.
  - rewrite timer_task_cancel_ok by tauto.
    destruct (first_idx _ (tasks s)) as [k|] eqn:Hf.
    + destruct (first_idx_Some _ _ _ Hf) as (v & Hv & [Hav Hid%Z.eqb_eq]%andb_true_iff & _).
      by rewrite (Hu k i v t Hv Ht Hav Ha Hid).
    + pose proof (first_idx_None _ _ Hf t Hin) as Hc. simpl in Hc. by rewrite Ha, Z.eqb_refl in Hc.
  - intros j u Hj Hau Hne Heq. apply Hne. by eapply Hu.
Qed.

(** a task with a function is put into the first inactive slot, due max(1, delay) ticks from
    now, under the next identifier, which is returned; -1 is returned, and no task changes,
    exactly when all 32 slots are active.  A NULL function is refused without any change. *)
Theorem timer_schedule_spec {W} (s : timers W) delay interval f c :
  timers_inv s ->
  timer_task_schedule_ticks delay interval 0 c s = Ok (-1, s) /\
  (f <> 0 ->
   ((forall t, t ∈ tasks s -> active t = true) /\
    timer_task_schedule_ticks delay interval f c s = Ok (-1, with_iflag true s)) \/
   (exists i t, tasks s !! i = Some t /\ active t = false /\
     (forall j u, (j < i)%nat -> tasks s !! j = Some u -> active u = true) /\
     timer_task_schedule_ticks delay interval f c s =
       Ok (s32 (next_id s), scheduled s i delay interval f c))).
Proof.
  intros Hi. split; [done|]. intros Hf. unfold timer_task_schedule_ticks. rewrite timer_task_alloc_ok by done.
  destruct (first_idx _ (tasks s)) as [i|] eqn:Hfi; [right|left].
  - destruct (first_idx_Some _ _ _ Hfi) as (t & Ht & Hp%negb_true_iff & Hmin). exists i, t. split_and!; [done..| |done].
    intros j u Hj Hu. by apply negb_false_iff, (Hmin j u).
  - split; [|done]. intros t Ht. by apply negb_false_iff, (first_idx_None _ _ Hfi).
Qed.

(** with delays up to 2^31 ticks a due time is passed exactly from the scheduled tick on,
    for the following 2^31 ticks, also when the tick counter wraps in between. *)
Theorem timer_due_on_time {W} (s : timers W) delay interval f c k :
  0 < delay <= 2147483648 -> 0 <= k < delay + 2147483648 ->
  tick_elapsed (u32 (tick s + k)) (due_tick (new_task s delay interval f c)) = (delay <=? k).
Proof.
  intros Hd Hk. simpl. rewrite (proj2 (Z.eqb_neq _ 0)) by lia.
  rewrite (tick_elapsed_near _ _ (k - delay)); [|word_lia|lia].
  apply Bool.eq_true_iff_eq. rewrite !Z.leb_le. lia.
Qed.

(** ms_to_ticks rounds up to whole 10 ms ticks, with at least one tick, for every 32-bit
    argument; its overflow branch is never taken. *)
Theorem ms_to_ticks_ceil ms : is_u32 ms -> ms_to_ticks ms = Z.max 1 ((ms + 9) / 10).
Proof.
  intros Hms. unfold ms_to_ticks, TIMER_HZ, UINT32_MAX. cbn [Z.eqb Pos.eqb].
  change (4294967295 / 100) with 42949672.
  assert (0 <= ms / 1000 <= 4294967) by word_lia.
  rewrite (proj2 (Z.ltb_ge _ _)) by lia.
  assert (0 <= ms mod 1000 < 1000) by (apply Z.mod_pos_bound; lia).
  rewrite !u32_small; unfold is_u32; [|word_lia..].
  unfold is_u32 in Hms.
  destruct (Z.eqb_spec (ms mod 1000) 0); cbn [negb].
  - destruct (Z.eqb_spec (ms / 1000 * 100) 0); Z.div_mod_to_equations; lia.
  - destruct (Z.eqb_spec ((ms mod 1000 * 100) mod 1000) 0); cbn [negb];
    match goal with |- (if ?x =? 0 then _ else _) = _ => destruct (Z.eqb_spec x 0) end; Z.div_mod_to_equations; lia.
Qed.

(** ** Concrete states *)

Definition timers0 : timers (list Z) := Timers (replicate 32 no_task) 1 4294967290 true [].
Definition log_effect (f c : Z) (w : list Z) : list Z := w ++ [c].
Definition log_call (f c : Z) : M (timers (list Z)) unit :=
  fun s => Ok (tt, with_world (log_effect f c (world s)) s).

(** A one-shot task that is due, a periodic one that is due after the counter wrapped, and one
    that is not. *)
Definition sample_timers : timers (list Z) :=
  Timers ([Task 1 4294967290 0 5 10 true; Task 2 3 100 6 20 true; Task 3 9 0 7 30 true]
          ++ replicate 29 no_task) 4 5 true [].
Definition endless_timers : timers (list Z) :=
  Timers (Task 1 5 4294967295 5 10 true :: replicate 31 no_task) 2 5 true [].

Lemma sample_timers_inv : timers_inv sample_timers.
Proof.
  split; [done|simpl; lia|split; simpl; lia|]. apply list.Forall_forall. repeat constructor; simpl; lia.
Qed.
Lemma endless_timers_inv : timers_inv endless_timers.
Proof.
  split; [done|simpl; lia|split; simpl; lia|]. apply list.Forall_forall. repeat constructor; simpl; lia.
Qed.

Lemma timer_run_due_fires_witness :
  timer_task_run_due log_call 33 sample_timers =
  Ok (tt, Timers ([no_task; Task 2 105 100 6 20 true; Task 3 9 0 7 30 true] ++ replicate 29 no_task) 4 5 true [10; 20]).
Proof.
  apply (timer_run_due_fires log_call log_effect sample_timers).
  - reflexivity.
  - exact sample_timers_inv.
  - apply list.Forall_forall. repeat constructor; simpl; lia.
Defined.

Lemma timer_run_due_diverges_witness : timer_task_run_due log_call 1000 endless_timers = NoFuel.
Proof.
  apply (timer_run_due_diverges log_call endless_timers (Task 1 5 4294967295 5 10 true)).
  - intros. by eexists.
  - exact endless_timers_inv.
  - reflexivity.
  - reflexivity.
  - simpl. lia.
Defined.

Definition two_scheduled : timers (list Z) :=
  scheduled (scheduled timers0 0 10 0 5 1) 1 20 7 6 2.

Lemma two_scheduled_reach : reach 2 two_scheduled.
Proof.
  eapply (reach_schedule 1 (scheduled timers0 0 10 0 5 1) 20 7 6 2 2); [|reflexivity].
  eapply (reach_schedule 0 timers0 10 0 5 1 1); [|reflexivity].
  eapply (reach_init timers0); [split; simpl; lia|reflexivity].
Qed.

Lemma timer_cancel_exact_witness :
  timer_task_cancel 2 two_scheduled =
    Ok (true, with_tasks (<[1%nat := no_task]> (tasks two_scheduled)) (with_iflag true two_scheduled)) /\
  forall j u, tasks two_scheduled !! j = Some u -> active u = true -> j <> 1%nat -> id u <> 2.
Proof.
  apply (timer_cancel_exact 2 two_scheduled 1 (Task 2 14 7 6 2 true)).
  - exact two_scheduled_reach.
  - lia.
  - reflexivity.
  - reflexivity.
Defined.

Lemma timer_schedule_spec_witness :
  timer_task_schedule_ticks 0 0 0 1 sample_timers = Ok (-1, sample_timers) /\
  (9 <> 0 ->
   ((forall t, t ∈ tasks sample_timers -> active t = true) /\
    timer_task_schedule_ticks 0 0 9 1 sample_timers = Ok (-1, with_iflag true sample_timers)) \/
   (exists i t, tasks sample_timers !! i = Some t /\ active t = false /\
     (forall j u, (j < i)%nat -> tasks sample_timers !! j = Some u -> active u = true) /\
     timer_task_schedule_ticks 0 0 9 1 sample_timers = Ok (s32 4, scheduled sample_timers i 0 0 9 1))).
Proof. apply (timer_schedule_spec sample_timers 0 0 9 1 sample_timers_inv). Defined.

Lemma timer_due_on_time_witness :
  tick_elapsed (u32 (4294967290 + 9)) (due_tick (new_task timers0 10 0 5 1)) = (10 <=? 9).
Proof. apply (timer_due_on_time timers0 10 0 5 1 9); lia. Defined.

Lemma ms_to_ticks_ceil_witness : ms_to_ticks 4294967295 = Z.max 1 ((4294967295 + 9) / 10).
Proof. apply (ms_to_ticks_ceil 4294967295). split; lia. Defined.
End TimerTask.
