(* ===== verification/Libc.v ===== *)
(** * Strings and memory blocks (libc/string.c, memory_copy of mm/mem.c)

    The freestanding C library of the kernel (olibc/string.c is the copy for user programs), over
    byte memory.  Characters are [signed char], so differences of characters are taken of [s8]
    values; range tests on letters and digits do not depend on the sign.  A loop that walks a
    string up to its terminator stops at the latest when it leaves mapped memory, so the number
    of mapped bytes bounds it and no function needs a fuel argument. *)
From Stdlib Require Import Ascii.
From S2P Require Import Prelude.

Definition ch (a : ascii) : Z := Z.of_N (N_of_ascii a).
Definition NUL : Z := 0.
Definition SPACE : Z := 32.
Definition TAB : Z := 9.
Definition LF : Z := 10.
Definition CR : Z := 13.

(** Runs a walk over memory with the number of mapped bytes as its bound. *)
Definition walk {A} (f : nat -> M mem A) : M mem A := fun m => f (S (base.size m)) m.

Definition truth (b : bool) : Z := if b then 1 else 0.

(** ** Characters *)

Definition in_range (lo hi c : Z) : bool := (lo <=? c) && (c <=? hi).
Definition is_upper (c : Z) : bool := in_range 65 90 c.
Definition is_lower (c : Z) : bool := in_range 97 122 c.
Definition is_digit (c : Z) : bool := in_range 48 57 c.

Definition toupper (c : Z) : Z := if is_lower c then c - 32 else c.
Definition tolower (c : Z) : Z := if is_upper c then c + 32 else c.
Definition isdigit (c : Z) : Z := truth (is_digit c).

(** ** Measuring and comparing *)

Fixpoint strlen_loop (fuel : nat) (s i : Z) : M mem Z :=
  match fuel with
  | O => nofuel
  | S fuel' => c <- load (s + i);; if c =? 0 then ret i else strlen_loop fuel' s (i + 1)
  end.
Definition strlen (s : Z) : M mem Z := walk (fun n => strlen_loop n s 0).

Fixpoint strcmp_loop (fuel : nat) (s1 s2 i : Z) : M mem Z :=
  match fuel with
  | O => nofuel
  | S fuel' =>
    a <- load (s1 + i);; b <- load (s2 + i);;
    if a =? b then (if a =? 0 then ret 0 else strcmp_loop fuel' s1 s2 (i + 1))
    else ret (s8 a - s8 b)
  end.
Definition strcmp (s1 s2 : Z) : M mem Z := walk (fun n => strcmp_loop n s1 s2 0).

(** [k] is the number of iterations left, n - i. *)
Fixpoint strncmp_loop (k : nat) (s1 s2 i : Z) : M mem Z :=
  match k with
  | O => ret 0
  | S k' =>
    a <- load (s1 + i);; b <- load (s2 + i);;
    if negb (a =? b) then ret (a - b)
    else if a =? 0 then ret 0 else strncmp_loop k' s1 s2 (i + 1)
  end.
Definition strncmp (s1 s2 n : Z) : M mem Z := strncmp_loop (Z.to_nat n) s1 s2 0.

Fixpoint memcmp_loop (k : nat) (p1 p2 i : Z) : M mem Z :=
  match k with
  | O => ret 0
  | S k' =>
    a <- load (p1 + i);; b <- load (p2 + i);;
    if negb (a =? b) then ret (a - b) else memcmp_loop k' p1 p2 (i + 1)
  end.
Definition memcmp (p1 p2 n : Z) : M mem Z := memcmp_loop (Z.to_nat n) p1 p2 0.

Fixpoint strcasecmp_loop (fuel : nat) (s1 s2 : Z) : M mem Z :=
  match fuel with
  | O => nofuel
  | S fuel' =>
    a <- load s1;; b <- load s2;;
    if negb (a =? 0) && negb (b =? 0) then
      let c1 := if is_upper a then u8 (a + 32) else a in
      let c2 := if is_upper b then u8 (b + 32) else b in
      if negb (c1 =? c2) then ret (c1 - c2) else strcasecmp_loop fuel' (s1 + 1) (s2 + 1)
    else ret (a - b)
  end.
Definition strcasecmp (s1 s2 : Z) : M mem Z := walk (fun n => strcasecmp_loop n s1 s2).

(** ** Searching *)

Fixpoint strchr_loop (fuel : nat) (str c : Z) : M mem Z :=
  match fuel with
  | O => nofuel
  | S fuel' =>
    a <- load str;;
    if a =? 0 then ret 0 else if a =? u8 c then ret str else strchr_loop fuel' (str + 1) c
  end.
Definition strchr (str c : Z) : M mem Z := walk (fun n => strchr_loop n str c).

Fixpoint strrchr_loop (fuel : nat) (str c last : Z) : M mem Z :=
  match fuel with
  | O => nofuel
  | S fuel' =>
    a <- load str;;
    if a =? 0 then ret last
    else strrchr_loop fuel' (str + 1) c (if a =? u8 c then str else last)
  end.
Definition strrchr (str c : Z) : M mem Z := walk (fun n => strrchr_loop n str c 0).

(** while ( *h && *n && ( *h == *n)) { h++; n++; }  *)
Fixpoint match_loop (fuel : nat) (h n : Z) : M mem Z :=
  match fuel with
  | O => nofuel
  | S fuel' =>
    a <- load h;;
    if a =? 0 then ret n
    else
      b <- load n;;
      if negb (b =? 0) && (a =? b) then match_loop fuel' (h + 1) (n + 1) else ret n
  end.
Fixpoint strstr_loop (fuel inner : nat) (haystack needle : Z) : M mem Z :=
  match fuel with
  | O => nofuel
  | S fuel' =>
    a <- load haystack;;
    if a =? 0 then ret 0
    else
      n <- match_loop inner haystack needle;;
      b <- load n;;
      if b =? 0 then ret haystack else strstr_loop fuel' inner (haystack + 1) needle
  end.
Definition strstr (haystack needle : Z) : M mem Z :=
  a <- load needle;;
  if a =? 0 then ret haystack else walk (fun n => strstr_loop n n haystack needle).

(** ** Copying and changing *)

(** for (i = 0; i < n; i++) d[i] = s[i]; *)
Fixpoint copy_up (k : nat) (d s i : Z) : M mem unit :=
  match k with
  | O => ret tt
  | S k' => c <- load (s + i);; store (d + i) c;;; copy_up k' d s (i + 1)
  end.
(** for (i = n; i > 0; i--) d[i-1] = s[i-1]; *)
Fixpoint copy_down (i : nat) (d s : Z) : M mem unit :=
  match i with
  | O => ret tt
  | S i' => c <- load (s + Z.of_nat i');; store (d + Z.of_nat i') c;;; copy_down i' d s
  end.
Definition memcpy (dest src n : Z) : M mem Z := copy_up (Z.to_nat n) dest src 0;;; ret dest.
Definition memory_copy (src dest nbytes : Z) : M mem unit := copy_up (Z.to_nat nbytes) dest src 0.
Definition memmove (dest src n : Z) : M mem Z :=
  (if dest <? src then copy_up (Z.to_nat n) dest src 0
   else if src <? dest then copy_down (Z.to_nat n) dest src
   else ret tt);;; ret dest.

Fixpoint memset_loop (k : nat) (p v : Z) : M mem unit :=
  match k with
  | O => ret tt
  | S k' => store p v;;; memset_loop k' (p + 1) v
  end.
Definition memset (dest v len : Z) : M mem Z := memset_loop (Z.to_nat len) dest v;;; ret dest.

Fixpoint strcpy_loop (fuel : nat) (d s : Z) : M mem unit :=
  match fuel with
  | O => nofuel
  | S fuel' => c <- load s;; store d c;;; if c =? 0 then ret tt else strcpy_loop fuel' (d + 1) (s + 1)
  end.
Definition strcpy (dest src : Z) : M mem Z := walk (fun n => strcpy_loop n dest src);;; ret dest.

(** The end of the string at d. *)
Fixpoint str_end (fuel : nat) (d : Z) : M mem Z :=
  match fuel with
  | O => nofuel
  | S fuel' => c <- load d;; if c =? 0 then ret d else str_end fuel' (d + 1)
  end.
(** while ( *src) *d++ = *src++;  returns d *)
Fixpoint cat_loop (fuel : nat) (d s : Z) : M mem Z :=
  match fuel with
  | O => nofuel
  | S fuel' => c <- load s;; if c =? 0 then ret d else store d c;;; cat_loop fuel' (d + 1) (s + 1)
  end.
Definition strcat (dest src : Z) : M mem Z :=
  d <- walk (fun n => str_end n dest);;
  d <- walk (fun n => cat_loop n d src);;
  store d 0;;; ret dest.

(** while (n-- && *src) *d++ = *src++; *)
Fixpoint ncat_loop (k : nat) (d s : Z) : M mem Z :=
  match k with
  | O => ret d
  | S k' => c <- load s;; if c =? 0 then ret d else store d c;;; ncat_loop k' (d + 1) (s + 1)
  end.
Definition strncat (dest src n : Z) : M mem Z :=
  d <- walk (fun n => str_end n dest);;
  d <- ncat_loop (Z.to_nat n) d src;;
  store d 0;;; ret dest.

(** The copying loop returns how far it came. *)
Fixpoint ncpy_loop (k : nat) (dest src i : Z) : M mem Z :=
  match k with
  | O => ret i
  | S k' => c <- load (src + i);; if c =? 0 then ret i else store (dest + i) c;;; ncpy_loop k' dest src (i + 1)
  end.
Definition strncpy (dest src n : Z) : M mem unit :=
  i <- ncpy_loop (Z.to_nat n) dest src 0;;
  memset_loop (Z.to_nat (n - i)) (dest + i) 0.

Definition append (s n : Z) : M mem unit :=
  len <- strlen s;; store (s + len) n;;; store (s + len + 1) 0.
Definition backspace (s : Z) : M mem unit :=
  len <- strlen s;; store (s + len - 1) 0.

Fixpoint reverse_loop (fuel : nat) (s i j : Z) : M mem unit :=
  match fuel with
  | O => nofuel
  | S fuel' =>
    if i <? j then
      c <- load (s + i);; d <- load (s + j);;
      store (s + i) d;;; store (s + j) c;;; reverse_loop fuel' s (i + 1) (j - 1)
    else ret tt
  end.
Definition reverse (s : Z) : M mem unit :=
  len <- strlen s;; walk (fun n => reverse_loop n s 0 (len - 1)).

Definition is_blank (c : Z) : bool := (c =? SPACE) || (c =? TAB) || (c =? CR) || (c =? LF).
(** [i] counts down from the length. *)
Fixpoint rtrim_loop (i : nat) (s : Z) : M mem unit :=
  match i with
  | O => ret tt
  | S i' =>
    c <- load (s + Z.of_nat i');;
    if is_blank c then store (s + Z.of_nat i') 0;;; rtrim_loop i' s else ret tt
  end.
Definition rtrim (s : Z) : M mem unit :=
  i <- walk (fun n => strlen_loop n s 0);; rtrim_loop (Z.to_nat i) s.

Fixpoint strlower_loop (fuel : nat) (s : Z) : M mem unit :=
  match fuel with
  | O => nofuel
  | S fuel' =>
    c <- load s;;
    if c =? 0 then ret tt
    else (if is_upper c then store s (c - 65 + 97) else ret tt);;; strlower_loop fuel' (s + 1)
  end.
Definition strlower (s : Z) : M mem unit := walk (fun n => strlower_loop n s).

(** ** Tokens

    strtok keeps its position in a static variable. *)

Record tokenizer := Tok { tk_mem : mem; strtok_next : Z }.

Definition on_mem {A} (c : M mem A) : M tokenizer A := fun t =>
  match c (tk_mem t) with
  | Ok (a, m) => Ok (a, Tok m (strtok_next t))
  | Fault => Fault
  | NoFuel => NoFuel
  end.
Definition set_next (p : Z) : M tokenizer unit := modify (fun t => Tok (tk_mem t) p).

(** while ( *p && !!strchr(delim, *p) == skip) p++; *)
Fixpoint span_loop (fuel : nat) (skip : bool) (p delim : Z) : M mem Z :=
  match fuel with
  | O => nofuel
  | S fuel' =>
    c <- load p;;
    if c =? 0 then ret p
    else
      q <- strchr delim c;;
      if Bool.eqb (negb (q =? 0)) skip then span_loop fuel' skip (p + 1) delim else ret p
  end.

Definition strtok (str delim : Z) : M tokenizer Z :=
  (if negb (str =? 0) then set_next str else ret tt);;;
  p <- gets strtok_next;;
  if p =? 0 then ret 0
  else
    c <- on_mem (load p);;
    if c =? 0 then ret 0
    else
      p <- on_mem (walk (fun n => span_loop n true p delim));;
      set_next p;;;
      c <- on_mem (load p);;
      if c =? 0 then ret 0
      else
        e <- on_mem (walk (fun n => span_loop n false p delim));;
        set_next e;;;
        c <- on_mem (load e);;
        (if negb (c =? 0) then on_mem (store e 0);;; set_next (e + 1) else ret tt);;;
        ret p.

(** ** Regions and strings *)

Lemma bytes_at_size l : forall (m : mem) p, bytes_at m p l -> (length l <= base.size m)%nat.
Proof.
  induction l as [|c l IH]; intros m p Hb; simpl in *; [lia|]. destruct Hb as [Hc Hl].
  assert (bytes_at (base.delete p m) (p + 1) l) as Hd.
  { apply bytes_at_intro. intros i c' Hi. rewrite lookup_delete_ne by lia. by eapply bytes_at_lookup. }
  apply IH in Hd. rewrite map_size_delete_Some in Hd by eauto.
  assert (base.size m <> 0%nat) by (intros H0; apply map_size_empty_inv in H0; subst; by rewrite lookup_empty in Hc).
  lia.
Qed.

Lemma cstr_size m p s : cstr m p s -> (length s < base.size m)%nat.
Proof. intros [Hb _]. apply bytes_at_size in Hb. rewrite length_app in Hb. simpl in Hb. lia. Qed.

(** [mapped m p n]: the n bytes from p on are mapped. *)
Definition mapped (m : mem) (p : Z) (n : nat) : Prop := forall i, (i < n)%nat -> is_Some (m !! (p + Z.of_nat i)).
(** Nothing outside the n bytes from p on changed. *)
Definition only (p : Z) (n : nat) (m m' : mem) : Prop :=
  forall a, a < p \/ p + Z.of_nat n <= a -> m' !! a = m !! a.

Lemma only_refl p n m : only p n m m.
Proof. by intros a _. Qed.
Lemma only_trans p n m1 m2 m3 : only p n m1 m2 -> only p n m2 m3 -> only p n m1 m3.
Proof. intros H1 H2 a Ha. by rewrite H2, H1. Qed.
Lemma only_mono p n q k m m' :
  q <= p -> p + Z.of_nat n <= q + Z.of_nat k -> only p n m m' -> only q k m m'.
Proof. intros ?? H a Ha. apply H. lia. Qed.
Lemma only_join q k p1 n1 p2 n2 m1 m2 m3 :
  only p1 n1 m1 m2 -> only p2 n2 m2 m3 -> q <= p1 -> p1 + Z.of_nat n1 <= q + Z.of_nat k ->
  q <= p2 -> p2 + Z.of_nat n2 <= q + Z.of_nat k -> only q k m1 m3.
Proof. intros H1 H2 ???? a Ha. rewrite H2, H1 by lia. done. Qed.
Lemma only_bytes_at p n m m' q l :
  only p n m m' -> q + Z.of_nat (length l) <= p \/ p + Z.of_nat n <= q -> bytes_at m q l -> bytes_at m' q l.
Proof.
  intros Ho Hd Hb. apply bytes_at_intro. intros i c Hi. rewrite Ho; [by eapply bytes_at_lookup|].
  apply lookup_lt_Some in Hi. lia.
Qed.
Lemma only_cstr p n m m' q s :
  only p n m m' -> q + Z.of_nat (length s) < p \/ p + Z.of_nat n <= q -> cstr m q s -> cstr m' q s.
Proof. intros Ho Hd [Hb Hs]. split; [|done]. eapply only_bytes_at; [done| |done]. rewrite length_app. simpl. lia. Qed.

Lemma mapped_S m p n : mapped m p (S n) <-> is_Some (m !! p) /\ mapped m (p + 1) n.
Proof.
  split.
  - intros Hm. split; [rewrite <-(Z.add_0_r p); by apply (Hm 0%nat ltac:(lia))|].
    intros i Hi. replace (p + 1 + Z.of_nat i) with (p + Z.of_nat (S i)) by lia. apply Hm. lia.
  - intros [H0 Hm] [|i] Hi; [by rewrite Z.add_0_r|].
    replace (p + Z.of_nat (S i)) with (p + 1 + Z.of_nat i) by lia. apply Hm. lia.
Qed.
Lemma mapped_insert m p n a v : is_Some (m !! a) -> mapped m p n -> mapped (<[a := v]> m) p n.
Proof. intros _ Hm i Hi. destruct (Hm i Hi). rewrite lookup_insert. case_decide; eauto. Qed.
Lemma bytes_at_mapped m p l : bytes_at m p l -> mapped m p (length l).
Proof.
  intros Hb i Hi. destruct (lookup_lt_is_Some_2 l i Hi) as [c Hc]. exists c. by eapply bytes_at_lookup.
Qed.
Lemma mapped_only m m' p n q k : only p n m m' -> mapped m' p n -> mapped m q k -> mapped m' q k.
Proof.
  intros Ho Hp Hq i Hi. destruct (decide (q + Z.of_nat i < p \/ p + Z.of_nat n <= q + Z.of_nat i)) as [Hd|Hd].
  - rewrite Ho by done. auto.
  - replace (q + Z.of_nat i) with (p + Z.of_nat (Z.to_nat (q + Z.of_nat i - p))) by lia. apply Hp. lia.
Qed.

Lemma load_ok m p c : m !! p = Some c -> load p m = Ok (c, m).
Proof. intros Hc. unfold load. by rewrite Hc. Qed.
Lemma store_ok m p v : is_Some (m !! p) -> store p v m = Ok (tt, <[p := u8 v]> m).
Proof. intros [c Hc]. unfold store. by rewrite Hc. Qed.

(** Steps of symbolic execution over memory. *)
Ltac mload H := rewrite (bind_ok _ _ _ _ _ (load_ok _ _ _ H)).
Ltac mstore H := rewrite (bind_ok _ _ _ _ _ (store_ok _ _ _ H)).

Lemma char_u8 c : is_char c -> u8 c = c.
Proof. intros. apply u8_small. unfold is_char, is_u8 in *. lia. Qed.
Lemma chars_u8 s : Forall is_char s -> Forall is_u8 s.
Proof. intros Hs. apply (list.Forall_impl is_char); [done|]. unfold is_char, is_u8. lia. Qed.

(** ** Measuring and comparing *)

Lemma strlen_loop_ok s : forall fuel m p i,
  cstr m (p + i) s -> (length s < fuel)%nat -> strlen_loop fuel p i m = Ok (i + Z.of_nat (length s), m).
Proof.
  induction s as [|c s IH]; intros [|fuel] m p i Hs Hf; simpl in Hf; try lia; cbn [strlen_loop].
  - apply cstr_nil in Hs. mload Hs. unfold ret. simpl. do 2 f_equal. lia.
  - apply cstr_cons in Hs as (Hc & Hch & Hs). mload Hc. rewrite (proj2 (Z.eqb_neq c 0)) by (unfold is_char in *; lia).
    rewrite IH; [do 2 f_equal; simpl; lia| |lia]. by rewrite Z.add_assoc.
Qed.
Lemma strlen_ok m p s : cstr m p s -> strlen p m = Ok (Z.of_nat (length s), m).
Proof.
  intros Hs. unfold strlen, walk. rewrite (strlen_loop_ok s); [done|by rewrite Z.add_0_r|].
  apply cstr_size in Hs. lia.
Qed.

(** The first difference of two strings, the terminators included. *)
Fixpoint first_diff (s1 s2 : list Z) : Z :=
  match s1, s2 with
  | [], [] => 0
  | [], b :: _ => - s8 b
  | a :: _, [] => s8 a
  | a :: s1', b :: s2' => if a =? b then first_diff s1' s2' else s8 a - s8 b
  end.

Lemma s8_char_nz c : is_char c -> s8 c <> 0.
Proof. unfold is_char, s8. intros. rewrite u8_small by (unfold is_u8; lia). bdestr; lia. Qed.
Lemma s8_inj a b : is_u8 a -> is_u8 b -> s8 a = s8 b -> a = b.
Proof. intros Ha Hb. unfold s8. rewrite !u8_small by done. unfold is_u8 in *. bdestr; lia. Qed.

Lemma strcmp_loop_ok s1 : forall s2 fuel m p q i,
  cstr m (p + i) s1 -> cstr m (q + i) s2 -> (length s1 < fuel)%nat ->
  strcmp_loop fuel p q i m = Ok (first_diff s1 s2, m).
Proof.
  induction s1 as [|a s1 IH]; intros [|b s2] [|fuel] m p q i H1 H2 Hf; simpl in Hf; try lia; cbn [strcmp_loop first_diff].
  - apply cstr_nil in H1, H2. mload H1. by mload H2.
  - apply cstr_nil in H1. apply cstr_cons in H2 as (Hb & Hbc & _). mload H1. mload Hb.
    rewrite (proj2 (Z.eqb_neq 0 b)) by (unfold is_char in *; lia). done.
  - apply cstr_nil in H2. apply cstr_cons in H1 as (Ha & Hac & _). mload Ha. mload H2.
    rewrite (proj2 (Z.eqb_neq a 0)) by (unfold is_char in *; lia). change (s8 0) with 0. by rewrite Z.sub_0_r.
  - apply cstr_cons in H1 as (Ha & Hac & H1). apply cstr_cons in H2 as (Hb & Hbc & H2). mload Ha. mload Hb.
    destruct (Z.eqb_spec a b) as [->|]; [|done]. rewrite (proj2 (Z.eqb_neq b 0)) by (unfold is_char in *; lia).
    apply IH; [by rewrite Z.add_assoc..|lia].
Qed.
Lemma strcmp_ok m p q s1 s2 : cstr m p s1 -> cstr m q s2 -> strcmp p q m = Ok (first_diff s1 s2, m).
Proof.
  intros H1 H2. apply strcmp_loop_ok; [by rewrite Z.add_0_r..|]. apply cstr_size in H1. lia.
Qed.

Lemma first_diff_0 s1 : forall s2, Forall is_char s1 -> Forall is_char s2 -> first_diff s1 s2 = 0 <-> s1 = s2.
Proof.
  induction s1 as [|a s1 IH]; intros [|b s2] H1 H2; simpl; try done.
  - apply list.Forall_cons in H2 as [Hb _]. pose proof (s8_char_nz b Hb). split; [lia|done].
  - apply list.Forall_cons in H1 as [Ha _]. pose proof (s8_char_nz a Ha). split; [lia|done].
  - apply list.Forall_cons in H1 as [Ha H1]. apply list.Forall_cons in H2 as [Hb H2].
    destruct (Z.eqb_spec a b) as [->|Hne]; [rewrite IH by done; split; [by intros ->|by intros [=]]|].
    split; [|by intros [=]]. intros Hd. exfalso. apply Hne, s8_inj; [by unfold is_char, is_u8 in *; lia..|lia].
Qed.

(** ** Searching *)

Lemma match_loop_ok hs : forall ns fuel m h n,
  cstr m h hs -> cstr m n ns -> (length hs < fuel)%nat ->
  exists k c, match_loop fuel h n m = Ok (n + k, m) /\ m !! (n + k) = Some c /\ (c = 0 <-> ns `prefix_of` hs).
Proof.
  induction hs as [|a hs IH]; intros ns [|fuel] m h n Hh Hn Hf; simpl in Hf; try lia; cbn [match_loop].
  - apply cstr_nil in Hh. mload Hh. simpl. exists 0. rewrite Z.add_0_r. destruct ns as [|b ns].
    + apply cstr_nil in Hn. exists 0. by split_and!.
    + apply cstr_cons in Hn as (Hb & Hbc & _). exists b. split_and!; [done|done|].
      split; [unfold is_char in *; lia|by intros ?%prefix_nil_not].
  - apply cstr_cons in Hh as (Ha & Hac & Hh). mload Ha. rewrite (proj2 (Z.eqb_neq a 0)) by (unfold is_char in *; lia).
    destruct ns as [|b ns].
    + apply cstr_nil in Hn. mload Hn. exists 0, 0. rewrite Z.add_0_r. split_and!; [done|done|].
      split; [intros _; by apply prefix_nil|done].
    + apply cstr_cons in Hn as (Hb & Hbc & Hn). mload Hb. rewrite (proj2 (Z.eqb_neq b 0)) by (unfold is_char in *; lia).
      destruct (Z.eqb_spec a b) as [->|Hne]; cbn [andb negb].
      * destruct (IH ns fuel m (h + 1) (n + 1)) as (k & c & E & Hc & Hk); [done|done|lia|].
        exists (k + 1), c. replace (n + (k + 1)) with (n + 1 + k) by lia. split_and!; [done|done|].
        rewrite Hk. split; [apply prefix_cons|apply prefix_cons_inv_2].
      * exists 0, b. rewrite Z.add_0_r. split_and!; [done|done|].
        split; [unfold is_char in *; lia|]. intros ?%prefix_cons_inv_1. congruence.
Qed.

(** The least position at which ns occurs in hs. *)
Definition first_occ (ns hs : list Z) (i : nat) : Prop :=
  ns `prefix_of` drop i hs /\ forall j, (j < i)%nat -> ~ ns `prefix_of` drop j hs.
Definition no_occ (ns hs : list Z) : Prop := forall i, ~ ns `prefix_of` drop i hs.

Lemma strstr_loop_ok hs : forall ns fuel inner m h n,
  cstr m h hs -> cstr m n ns -> ns <> [] -> (length hs < fuel)%nat -> (length hs < inner)%nat ->
  (exists i, strstr_loop fuel inner h n m = Ok (h + Z.of_nat i, m) /\ first_occ ns hs i) \/
  (strstr_loop fuel inner h n m = Ok (0, m) /\ no_occ ns hs).
Proof.
  induction hs as [|a hs IH]; intros ns [|fuel] inner m h n Hh Hn Hne Hf Hi; simpl in Hf; try lia; cbn [strstr_loop].
  - apply cstr_nil in Hh. mload Hh. right. split; [done|]. intros i. rewrite drop_nil. by intros ?%prefix_nil_inv.
  - destruct (match_loop_ok (a :: hs) ns inner m h n Hh Hn Hi) as (k & c & E & Hc & Hk).
    apply cstr_cons in Hh as (Ha & Hac & Hh). mload Ha. rewrite (proj2 (Z.eqb_neq a 0)) by (unfold is_char in *; lia).
    rewrite (bind_ok _ _ _ _ _ E). mload Hc. destruct (Z.eqb_spec c 0) as [->|Hc0].
    + left. exists 0%nat. rewrite Z.add_0_r. split; [done|]. split; [by apply Hk|lia].
    + assert (~ ns `prefix_of` a :: hs) as Hnp by (rewrite <-Hk; done).
      destruct (IH ns fuel inner m (h + 1) n) as [(i & Ei & Hp & Hm)|[E0 Hno]]; [done|done|done|lia|simpl in Hi; lia|..].
      * left. exists (S i). split; [rewrite Ei; do 2 f_equal; lia|]. split; [done|].
        intros [|j] Hj; [done|]. apply Hm. lia.
      * right. split; [done|]. intros [|i]; [done|apply Hno].
Qed.

Lemma strchr_loop_ok s : forall fuel m p c,
  cstr m p s -> (length s < fuel)%nat -> is_char c ->
  exists q, strchr_loop fuel p c m = Ok (q, m) /\
    ((c ∈ s /\ p <= q) \/ (c ∉ s /\ q = 0)).
Proof.
  induction s as [|a s IH]; intros [|fuel] m p c Hs Hf Hc; simpl in Hf; try lia; cbn [strchr_loop].
  - apply cstr_nil in Hs. mload Hs. exists 0. split; [done|]. right. split; [apply not_elem_of_nil|done].
  - apply cstr_cons in Hs as (Ha & Hac & Hs). mload Ha. rewrite (proj2 (Z.eqb_neq a 0)) by (unfold is_char in *; lia).
    rewrite char_u8 by done. destruct (Z.eqb_spec a c) as [->|Hne].
    + exists p. split; [done|]. left. split; [by left|lia].
    + destruct (IH fuel m (p + 1) c) as (q & E & Hq); [done|lia|done|]. exists q. split; [done|].
      rewrite elem_of_cons. destruct Hq as [[??]|[? ->]]; [left; split; [by right|lia]|right; split; [|done]].
      intros [|]; congruence.
Qed.
Lemma strchr_ok m p s c :
  cstr m p s -> 0 < p -> is_char c -> exists q, strchr p c m = Ok (q, m) /\ (negb (q =? 0) = bool_decide (c ∈ s)).
Proof.
  intros Hs Hp Hc. destruct (strchr_loop_ok s (S (base.size m)) m p c Hs) as (q & E & Hq);
    [apply cstr_size in Hs; lia|done|].
  exists q. split; [done|]. destruct Hq as [[Hin Hle]|[Hnin ->]].
  - rewrite (proj2 (Z.eqb_neq q 0)), bool_decide_eq_true_2 by (done || lia). done.
  - by rewrite bool_decide_eq_false_2.
Qed.

(** ** Copying *)

(** An ascending copy is right when no source byte is overwritten before it is read. *)
Lemma copy_up_ok l : forall m d s i,
  d < s \/ s + i + Z.of_nat (length l) <= d + i ->
  bytes_at m (s + i) l -> Forall is_u8 l -> mapped m (d + i) (length l) ->
  exists m', copy_up (length l) d s i m = Ok (tt, m') /\ bytes_at m' (d + i) l /\ only (d + i) (length l) m m'.
Proof.
  induction l as [|c l IH]; intros m d s i Hd Hs Hu Hm; cbn [copy_up length] in *.
  - exists m. split_and!; [done|done|apply only_refl].
  - destruct Hs as [Hc Hs]. apply list.Forall_cons in Hu as [Huc Hu]. apply mapped_S in Hm as [H0 Hm].
    mload Hc. mstore H0. rewrite u8_small by done.
    destruct (IH (<[d + i := c]> m) d s (i + 1)) as (m' & E & Hb & Ho).
    + lia.
    + rewrite Z.add_assoc. apply bytes_at_frame; [lia|done].
    + done.
    + rewrite Z.add_assoc. by apply mapped_insert.
    + exists m'. rewrite Z.add_assoc in Hb, Ho. split_and!; [done| |].
      * split; [|done]. rewrite Ho by lia. apply lookup_insert_eq.
      * intros a Ha. rewrite Ho by lia. apply lookup_insert_ne. lia.
Qed.

Lemma copy_down_ok l : forall m d s,
  s < d -> bytes_at m s l -> Forall is_u8 l -> mapped m d (length l) ->
  exists m', copy_down (length l) d s m = Ok (tt, m') /\ bytes_at m' d l /\ only d (length l) m m'.
Proof.
  induction l as [|c l IH] using rev_ind; intros m d s Hd Hs Hu Hm.
  - exists m. split_and!; [done|done|apply only_refl].
  - rewrite length_app in *. simpl in *. rewrite Nat.add_1_r in *. cbn [copy_down].
    apply bytes_at_app in Hs as [Hs [Hc _]]. apply Forall_app in Hu as [Hu Huc]. apply list.Forall_cons in Huc as [Huc _].
    assert (is_Some (m !! (d + Z.of_nat (length l)))) as H0 by (apply Hm; lia).
    mload Hc. mstore H0. rewrite u8_small by done.
    destruct (IH (<[d + Z.of_nat (length l) := c]> m) d s) as (m' & E & Hb & Ho).
    + done.
    + apply bytes_at_frame; [lia|done].
    + done.
    + apply mapped_insert; [done|]. intros i Hi. apply Hm. lia.
    + exists m'. split_and!; [done| |].
      * apply bytes_at_app. split; [done|]. split; [|done]. rewrite Ho by lia. apply lookup_insert_eq.
      * intros a Ha. rewrite Ho by lia. apply lookup_insert_ne. lia.
Qed.

Lemma memset_loop_ok n : forall m p v,
  mapped m p n -> exists m', memset_loop n p v m = Ok (tt, m') /\ bytes_at m' p (replicate n (u8 v)) /\ only p n m m'.
Proof.
  induction n as [|n IH]; intros m p v Hm; cbn [memset_loop].
  - exists m. split_and!; [done|done|apply only_refl].
  - apply mapped_S in Hm as [H0 Hm]. mstore H0.
    destruct (IH (<[p := u8 v]> m) (p + 1) v) as (m' & E & Hb & Ho); [by apply mapped_insert|].
    exists m'. split_and!; [done| |].
    + split; [|done]. rewrite Ho by lia. apply lookup_insert_eq.
    + intros a Ha. rewrite Ho by lia. apply lookup_insert_ne. lia.
Qed.

Lemma str_end_ok s : forall fuel m d,
  cstr m d s -> (length s < fuel)%nat -> str_end fuel d m = Ok (d + Z.of_nat (length s), m).
Proof.
  induction s as [|c s IH]; intros [|fuel] m d Hs Hf; simpl in Hf; try lia; cbn [str_end].
  - apply cstr_nil in Hs. mload Hs. simpl. by rewrite Z.add_0_r.
  - apply cstr_cons in Hs as (Hc & Hch & Hs). mload Hc. rewrite (proj2 (Z.eqb_neq c 0)) by (unfold is_char in *; lia).
    rewrite IH by (done || lia). do 2 f_equal. simpl. lia.
Qed.

Lemma cat_loop_ok s : forall fuel m d p,
  cstr m p s -> (length s < fuel)%nat -> mapped m d (length s) ->
  p + Z.of_nat (length s) < d \/ d + Z.of_nat (length s) <= p ->
  exists m', cat_loop fuel d p m = Ok (d + Z.of_nat (length s), m') /\ bytes_at m' d s /\ only d (length s) m m'.
Proof.
  induction s as [|c s IH]; intros [|fuel] m d p Hs Hf Hm Hd; simpl in Hf, Hm, Hd; try lia; cbn [cat_loop].
  - apply cstr_nil in Hs. mload Hs. exists m. simpl. rewrite Z.add_0_r. split_and!; [done|done|apply only_refl].
  - apply cstr_cons in Hs as (Hc & Hch & Hs). apply mapped_S in Hm as [H0 Hm].
    mload Hc. rewrite (proj2 (Z.eqb_neq c 0)) by (unfold is_char in *; lia). mstore H0. rewrite char_u8 by done.
    destruct (IH fuel (<[d := c]> m) (d + 1) (p + 1)) as (m' & E & Hb & Ho).
    + apply (only_cstr d 1 m); [|lia|done]. intros a Ha. apply lookup_insert_ne. lia.
    + lia.
    + by apply mapped_insert.
    + lia.
    + exists m'. rewrite E. split_and!; [do 2 f_equal; simpl; lia| |].
      * split; [|done]. rewrite Ho by lia. apply lookup_insert_eq.
      * intros a Ha. simpl in Ha. rewrite Ho by lia. apply lookup_insert_ne. lia.
Qed.

(** strcpy copies the string with its terminator. *)
Lemma strcpy_loop_ok s : forall fuel m d p,
  cstr m p s -> (length s < fuel)%nat -> mapped m d (S (length s)) ->
  p + Z.of_nat (length s) < d \/ d + Z.of_nat (length s) < p ->
  exists m', strcpy_loop fuel d p m = Ok (tt, m') /\ cstr m' d s /\ only d (S (length s)) m m'.
Proof.
  induction s as [|c s IH]; intros [|fuel] m d p Hs Hf Hm Hd; simpl in Hf, Hd; try lia; cbn [strcpy_loop].
  - apply cstr_nil in Hs. apply mapped_S in Hm as [H0 _]. mload Hs. mstore H0. simpl. eexists.
    split_and!; [done|apply cstr_nil, lookup_insert_eq|]. intros a Ha. apply lookup_insert_ne. lia.
  - apply cstr_cons in Hs as (Hc & Hch & Hs). apply mapped_S in Hm as [H0 Hm].
    mload Hc. mstore H0. rewrite char_u8 by done. rewrite (proj2 (Z.eqb_neq c 0)) by (unfold is_char in *; lia).
    destruct (IH fuel (<[d := c]> m) (d + 1) (p + 1)) as (m' & E & Hb & Ho).
    + apply (only_cstr d 1 m); [|lia|done]. intros a Ha. apply lookup_insert_ne. lia.
    + lia.
    + by apply mapped_insert.
    + lia.
    + exists m'. split_and!; [done| |].
      * apply cstr_cons. split_and!; [|done|done]. rewrite Ho by lia. apply lookup_insert_eq.
      * intros a Ha. simpl in Ha. rewrite Ho by lia. apply lookup_insert_ne. lia.
Qed.

(** ** Reversing *)

Lemma reverse_loop_ok fuel : forall l m s i j,
  bytes_at m (s + i) l -> Forall is_u8 l -> j - i + 1 = Z.of_nat (length l) -> (length l <= 2 * fuel)%nat ->
  exists m', reverse_loop (S fuel) s i j m = Ok (tt, m') /\ bytes_at m' (s + i) (rev l) /\ only (s + i) (length l) m m'.
Proof.
  induction fuel as [|fuel IH]; intros l m s i j Hb Hu Hj Hf.
  - destruct l; [|simpl in Hf; lia]. cbn [reverse_loop]. simpl in Hj. rewrite (proj2 (Z.ltb_ge i j)) by lia.
    exists m. split_and!; [done|done|apply only_refl].
  - remember (S fuel) as fuel' eqn:Ef. cbn [reverse_loop]. destruct (Z.ltb_spec i j) as [Hlt|Hge].
    2:{ exists m. split_and!; [done| |apply only_refl]. destruct l as [|c [|? ?]]; [done|done|simpl in Hj; lia]. }
    destruct l as [|c l]; [simpl in Hj; lia|]. destruct l as [|d l _] using rev_ind; [simpl in Hj; lia|].
    simpl in Hj, Hf. rewrite length_app in Hj, Hf. simpl in Hj, Hf.
    destruct Hb as [Hc Hb]. apply bytes_at_app in Hb as [Hb [Hd _]].
    apply list.Forall_cons in Hu as [Huc Hu]. apply Forall_app in Hu as [Hu Hud]. apply list.Forall_cons in Hud as [Hud _].
    replace (s + i + 1 + Z.of_nat (length l)) with (s + j) in Hd by lia.
    mload Hc. mload Hd. mstore (mk_is_Some _ _ Hc).
    assert (is_Some (<[s + i := u8 d]> m !! (s + j))) as H0 by (rewrite lookup_insert_ne by lia; eauto).
    mstore H0. rewrite !u8_small by done.
    destruct (IH l (<[s + j := c]> (<[s + i := d]> m)) s (i + 1) (j - 1)) as (m' & E & Hb' & Ho).
    + rewrite Z.add_assoc. apply bytes_at_frame; [lia|]. apply bytes_at_frame; [lia|done].
    + done.
    + lia.
    + lia.
    + exists m'. rewrite E. rewrite Z.add_assoc in Hb', Ho. split_and!; [done| |].
      * simpl. rewrite rev_unit. simpl. split.
        -- rewrite Ho, lookup_insert_ne by lia. apply lookup_insert_eq.
        -- apply bytes_at_app. split; [done|]. split; [|done]. rewrite length_rev.
           replace (s + i + 1 + Z.of_nat (length l)) with (s + j) by lia. rewrite Ho by lia. apply lookup_insert_eq.
      * intros a Ha. simpl in Ha. rewrite length_app in Ha. simpl in Ha. rewrite Ho, !lookup_insert_ne by lia. done.
Qed.

Lemma reverse_ok m p s :
  cstr m p s -> exists m', reverse p m = Ok (tt, m') /\ cstr m' p (rev s) /\ only p (length s) m m'.
Proof.
  intros Hs. unfold reverse. rewrite (bind_ok _ _ _ _ _ (strlen_ok _ _ _ Hs)). unfold walk.
  pose proof (cstr_size _ _ _ Hs) as Hsz. destruct Hs as [Hb Hch]. apply bytes_at_app in Hb as [Hb H0].
  destruct (reverse_loop_ok (base.size m) s m p 0 (Z.of_nat (length s) - 1)) as (m' & E & Hb' & Ho);
    [by rewrite Z.add_0_r|by apply chars_u8|lia|lia|].
  rewrite Z.add_0_r in Hb', Ho. exists m'. split_and!; [done| |done]. split.
  - apply bytes_at_app. split; [done|]. rewrite length_rev. eapply only_bytes_at; [done| |done]. lia.
  - rewrite list.Forall_forall in *. intros c Hc. apply Hch. by apply list_elem_of_In, in_rev, list_elem_of_In.
Qed.

(** ** Tokens *)

(** The delimiter-free segments of a string, the empty ones left out; [cur] is the segment
    being read. *)
Fixpoint tokens_from (D cur s : list Z) : list (list Z) :=
  match s with
  | [] => if cur is [] then [] else [cur]
  | c :: s' =>
    if bool_decide (c ∈ D) then
      (if cur is [] then tokens_from D [] s' else cur :: tokens_from D [] s')
    else tokens_from D (cur ++ [c]) s'
  end.
Definition tokens (D s : list Z) : list (list Z) := tokens_from D [] s.

Lemma tokens_skip D pre s : Forall (.∈ D) pre -> tokens D (pre ++ s) = tokens D s.
Proof.
  induction pre as [|c pre IH]; [done|]. intros [Hc Hp]%list.Forall_cons. unfold tokens. simpl.
  rewrite bool_decide_eq_true_2 by done. by apply IH.
Qed.
Lemma tokens_from_tok D tok : forall cur s,
  Forall (.∉ D) tok -> tokens_from D cur (tok ++ s) = tokens_from D (cur ++ tok) s.
Proof.
  induction tok as [|c tok IH]; intros cur s Ht; simpl; [by rewrite app_nil_r|].
  apply list.Forall_cons in Ht as [Hc Ht]. rewrite bool_decide_eq_false_2 by done.
  rewrite IH by done. by rewrite <-app_assoc.
Qed.
Lemma tokens_tok D tok d s :
  tok <> [] -> Forall (.∉ D) tok -> d ∈ D -> tokens D (tok ++ d :: s) = tok :: tokens D s.
Proof.
  intros Hne Ht Hd. unfold tokens. rewrite tokens_from_tok by done. simpl.
  rewrite bool_decide_eq_true_2 by done. by destruct tok.
Qed.
Lemma tokens_last D tok : tok <> [] -> Forall (.∉ D) tok -> tokens D tok = [tok].
Proof.
  intros Hne Ht. unfold tokens. rewrite <-(app_nil_r tok) at 1. rewrite tokens_from_tok by done.
  simpl. by destruct tok.
Qed.

(** The walk over delimiters (skip) or over the characters of a token. *)
Lemma span_loop_ok D dp skip s : forall fuel m p,
  cstr m dp D -> 0 < dp -> cstr m p s -> (length s < fuel)%nat ->
  exists a b, s = a ++ b /\ Forall (fun c => bool_decide (c ∈ D) = skip) a /\
    (forall c b', b = c :: b' -> bool_decide (c ∈ D) = negb skip) /\
    span_loop fuel skip p dp m = Ok (p + Z.of_nat (length a), m).
Proof.
  induction s as [|c s IH]; intros [|fuel] m p HD Hdp Hs Hf; simpl in Hf; try lia; cbn [span_loop].
  - apply cstr_nil in Hs. mload Hs. exists [], []. simpl. rewrite Z.add_0_r. by split_and!.
  - apply cstr_cons in Hs as (Hc & Hch & Hs). mload Hc. rewrite (proj2 (Z.eqb_neq c 0)) by (unfold is_char in *; lia).
    destruct (strchr_ok m dp D c HD Hdp Hch) as (q & E & Hq). rewrite (bind_ok _ _ _ _ _ E), Hq.
    destruct (Bool.eqb (bool_decide (c ∈ D)) skip) eqn:Hb.
    + apply eqb_prop in Hb. destruct (IH fuel m (p + 1) HD Hdp Hs) as (a & b & -> & Ha & Hbn & E'); [lia|].
      exists (c :: a), b. split_and!; [done|by constructor|done|]. rewrite E'. do 2 f_equal. simpl. lia.
    + apply eqb_false_iff in Hb. exists [], (c :: s). simpl. rewrite Z.add_0_r. split_and!; [done|done| |done].
      intros ? ? [= <- <-]. by destruct (bool_decide _), skip.
Qed.

Lemma bind_on_mem {A B} (c : M mem A) (k : A -> M tokenizer B) m n a m' :
  c m = Ok (a, m') -> bind (on_mem c) k (Tok m n) = k a (Tok m' n).
Proof. intros E. unfold bind, on_mem. simpl. by rewrite E. Qed.

Lemma bind_set_next {B} (k : unit -> M tokenizer B) m n p : bind (set_next p) k (Tok m n) = k tt (Tok m p).
Proof. done. Qed.

(** One call that continues at position p of a string with the characters s. *)
Lemma strtok_step D dp s m p :
  cstr m dp D -> 0 < dp -> cstr m p s -> 0 < p ->
  dp + Z.of_nat (length D) < p \/ p + Z.of_nat (length s) < dp ->
  (tokens D s = [] /\ exists p', strtok 0 dp (Tok m p) = Ok (0, Tok m p') /\ cstr m p' [] /\ 0 < p') \/
  (exists tok ts q m' n s', tokens D s = tok :: ts /\ ts = tokens D s' /\
     strtok 0 dp (Tok m p) = Ok (q, Tok m' n) /\ cstr m' q tok /\ cstr m' n s' /\ cstr m' dp D /\
     0 < q /\ p <= n /\ n + Z.of_nat (length s') = p + Z.of_nat (length s) /\ only p (length s) m m' /\
     (q + Z.of_nat (length tok) < n \/ s' = [])).
Proof.
  intros HD Hdp Hs Hp Hdis. unfold strtok. cbn [Z.eqb negb]. rewrite bind_ret, bind_gets. cbn [strtok_next].
  rewrite (proj2 (Z.eqb_neq p 0)) by lia.
  destruct s as [|c0 s0].
  { apply cstr_nil in Hs. rewrite (bind_on_mem _ _ _ _ _ _ (load_ok _ _ _ Hs)). left. split; [done|].
    exists p. split_and!; [done|by apply cstr_nil|done]. }
  pose proof Hs as (Hc0 & Hch0 & _)%cstr_cons. rewrite (bind_on_mem _ _ _ _ _ _ (load_ok _ _ _ Hc0)).
  rewrite (proj2 (Z.eqb_neq c0 0)) by (unfold is_char in *; lia).
  destruct (span_loop_ok D dp true (c0 :: s0) (S (base.size m)) m p) as (pre & r & Es & Hpre & Hr & E1);
    [done|done|done|apply cstr_size in Hs; lia|].
  rewrite (bind_on_mem (walk (fun n => span_loop n true p dp)) _ _ _ _ _ E1). rewrite bind_set_next.
  rewrite Es in *. assert (cstr m (p + Z.of_nat (length pre)) r) as Hr'.
  { destruct Hs as [Hb Hc]. rewrite <-app_assoc in Hb. apply bytes_at_app in Hb as [_ Hb]. apply Forall_app in Hc as [_ Hc]. by split. }
  assert (Forall (.∈ D) pre) as HpreD.
  { eapply list.Forall_impl; [exact Hpre|]. by intros x ?%bool_decide_eq_true. }
  rewrite tokens_skip by done. rewrite length_app in *. set (q := p + Z.of_nat (length pre)) in *.
  destruct r as [|c1 r1].
  { apply cstr_nil in Hr'. rewrite (bind_on_mem _ _ _ _ _ _ (load_ok _ _ _ Hr')). left. split; [done|].
    exists q. split_and!; [done|by apply cstr_nil|lia]. }
  pose proof Hr' as (Hc1 & Hch1 & _)%cstr_cons. rewrite (bind_on_mem _ _ _ _ _ _ (load_ok _ _ _ Hc1)).
  rewrite (proj2 (Z.eqb_neq c1 0)) by (unfold is_char in *; lia).
  destruct (span_loop_ok D dp false (c1 :: r1) (S (base.size m)) m q) as (tok & b & Er & Htok & Hb & E2);
    [done|done|done|apply cstr_size in Hr'; lia|].
  rewrite (bind_on_mem (walk (fun n => span_loop n false q dp)) _ _ _ _ _ E2). rewrite bind_set_next.
  assert (Forall (.∉ D) tok) as HtokD.
  { eapply list.Forall_impl; [exact Htok|]. by intros x ?%bool_decide_eq_false. }
  assert (tok <> []) as Hne.
  { intros ->. simpl in Er. pose proof (Hb c1 r1 (eq_sym Er)) as Hx. pose proof (Hr c1 r1 eq_refl) as Hy. cbn [negb] in Hx, Hy. congruence. }
  rewrite Er in *. destruct Hr' as [Hrb Hrc]. rewrite <-app_assoc in Hrb. apply bytes_at_app in Hrb as [Htb Hbb].
  apply Forall_app in Hrc as [Htc Hbc]. rewrite length_app in *. set (e := q + Z.of_nat (length tok)) in *. right.
  destruct b as [|d b].
  - destruct Hbb as [H0 _]. rewrite (bind_on_mem _ _ _ _ _ _ (load_ok _ _ _ H0)).
    exists tok, [], q, m, e, []. rewrite app_nil_r. split_and!; try done; try (simpl in *; lia).
    + by apply tokens_last.
    + split; [|done]. apply bytes_at_app. by split.
    + by right.
  - destruct Hbb as [Hd Hbb]. apply list.Forall_cons in Hbc as [Hdc Hbc]. rewrite (bind_on_mem _ _ _ _ _ _ (load_ok _ _ _ Hd)).
    rewrite (proj2 (Z.eqb_neq d 0)) by (unfold is_char in *; lia). cbn [negb].
    assert (d ∈ D) as HdD by (apply (bool_decide_eq_true (d ∈ D)), (Hb d b eq_refl)).
    exists tok, (tokens D b), q, (<[e := 0]> m), (e + 1), b. simpl in *. split_and!; try done; try lia.
    + by apply tokens_tok.
    + rewrite bind_bind, (bind_on_mem _ _ _ _ _ _ (store_ok m e 0 (mk_is_Some _ _ Hd))). done.
    + split; [|done]. apply bytes_at_app. split; [apply bytes_at_frame; [lia|done]|].
      split; [apply lookup_insert_eq|done].
    + split; [|done]. apply bytes_at_frame; [lia|done].
    + destruct HD as [HDb HDc]. split; [|done]. apply bytes_at_frame; [rewrite length_app; simpl; lia|done].
    + intros a Ha. apply lookup_insert_ne. lia.
Qed.

(** k + 1 calls: the first with the string, the others with NULL. *)
Fixpoint strtok_calls (k : nat) (str delim : Z) : M tokenizer (list Z) :=
  q <- strtok str delim;;
  match k with
  | O => ret [q]
  | S k' => qs <- strtok_calls k' 0 delim;; ret (q :: qs)
  end.

Lemma strtok_calls_ok D dp ts : forall s m p,
  tokens D s = ts -> cstr m dp D -> 0 < dp -> cstr m p s -> 0 < p ->
  dp + Z.of_nat (length D) < p \/ p + Z.of_nat (length s) < dp ->
  exists qs m' n, strtok_calls (length ts) 0 dp (Tok m p) = Ok (qs ++ [0], Tok m' n) /\
    Forall2 (fun q tok => 0 < q /\ cstr m' q tok) qs ts /\ only p (length s) m m'.
Proof.
  induction ts as [|tok ts IH]; intros s m p Ets HD Hdp Hs Hp Hdis; cbn [strtok_calls length];
    destruct (strtok_step D dp s m p HD Hdp Hs Hp Hdis)
      as [(En & p' & E & _)|(tok' & ts' & q & m' & n & s' & Et & Ets' & E & Hq & Hn & HD' & Hq0 & Hpn & Hlen & Ho & Hdq)];
    try congruence; rewrite (bind_ok _ _ _ _ _ E).
  - exists [], m, p'. split_and!; [done|constructor|apply only_refl].
  - rewrite Ets in Et. injection Et as -> ->.
    destruct (IH s' m' n) as (qs & m2 & n2 & E2 & Hqs & Ho2); [done|done|done|done|lia|lia|].
    rewrite (bind_ok _ _ _ _ _ E2). exists (q :: qs), m2, n2. split_and!; [done| |].
    + constructor; [|done]. split; [done|]. destruct Hdq as [Hlt| ->].
      * eapply only_cstr; [exact Ho2|lia|done].
      * by replace m2 with m' by (apply map_eq; intros a; symmetry; apply Ho2; simpl; lia).
    + eapply only_trans; [done|]. eapply only_mono; [| |done]; lia.
Qed.

(** ** Properties *)

(** memmove copies n bytes correctly for every position of the two regions, overlapping in
    either direction or equal: the destination then holds what the source held before the call,
    and no byte outside the destination changes. *)
Theorem memmove_overlap m d s l :
  bytes_at m s l -> Forall is_u8 l -> mapped m d (length l) ->
  exists m', memmove d s (Z.of_nat (length l)) m = Ok (d, m') /\ bytes_at m' d l /\ only d (length l) m m'.
Proof.
  intros Hs Hu Hm. unfold memmove. rewrite Nat2Z.id.
  destruct (Z.ltb_spec d s) as [Hlt|Hge]; [|destruct (Z.ltb_spec s d) as [Hgt|Heq]].
  - destruct (copy_up_ok l m d s 0) as (m' & E & Hb & Ho); [by left|by rewrite Z.add_0_r|done|by rewrite Z.add_0_r|].
    rewrite Z.add_0_r in Hb, Ho. exists m'. by rewrite (bind_ok _ _ _ _ _ E).
  - destruct (copy_down_ok l m d s Hgt Hs Hu Hm) as (m' & E & Hb & Ho). exists m'. by rewrite (bind_ok _ _ _ _ _ E).
  - assert (d = s) as -> by lia. exists m. split_and!; [done|done|apply only_refl].
Qed.

(** strstr returns the address of the first occurrence of the second string in the first,
    and NULL exactly when there is none; memory is unchanged. *)
Theorem strstr_first m h n hs ns :
  cstr m h hs -> cstr m n ns ->
  (exists i, strstr h n m = Ok (h + Z.of_nat i, m) /\ first_occ ns hs i) \/
  (strstr h n m = Ok (0, m) /\ no_occ ns hs).
Proof.
  intros Hh Hn. unfold strstr. destruct ns as [|b ns].
  - left. exists 0%nat. apply cstr_nil in Hn. mload Hn. rewrite Z.add_0_r. split; [done|].
    split; [apply prefix_nil|lia].
  - pose proof Hn as (Hb & Hbc & _)%cstr_cons. mload Hb. rewrite (proj2 (Z.eqb_neq b 0)) by (unfold is_char in *; lia).
    pose proof (cstr_size _ _ _ Hh). apply (strstr_loop_ok hs (b :: ns)); done || lia.
Qed.

(** strcmp returns the signed difference of the first pair of characters that differ, and 0
    exactly for equal strings. *)
Theorem strcmp_equal m p q s1 s2 :
  cstr m p s1 -> cstr m q s2 ->
  strcmp p q m = Ok (first_diff s1 s2, m) /\ (first_diff s1 s2 = 0 <-> s1 = s2).
Proof. intros H1 H2. split; [by apply strcmp_ok|]. apply first_diff_0; [apply H1|apply H2]. Qed.

(** strcat leaves the concatenation of the two strings at the destination when the
    destination has room for it, and changes nothing else. *)
Theorem strcat_appends m d p s1 s2 :
  cstr m d s1 -> cstr m p s2 -> mapped m d (S (length s1 + length s2)) ->
  p + Z.of_nat (length s2) < d \/ d + Z.of_nat (length s1 + length s2) < p ->
  exists m', strcat d p m = Ok (d, m') /\ cstr m' d (s1 ++ s2) /\ only d (S (length s1 + length s2)) m m'.
Proof.
  intros H1 H2 Hm Hd. unfold strcat.
  rewrite (bind_ok (walk (fun n => str_end n d)) _ _ _ _ (str_end_ok s1 (S (base.size m)) m d H1 ltac:(pose proof (cstr_size _ _ _ H1); lia))).
  set (e := d + Z.of_nat (length s1)).
  destruct (cat_loop_ok s2 (S (base.size m)) m e p H2) as (m1 & E1 & Hb & Ho).
  { pose proof (cstr_size _ _ _ H2). lia. }
  { intros i Hi. subst e. rewrite <-Z.add_assoc, <-Nat2Z.inj_add. apply Hm. lia. }
  { lia. }
  rewrite (bind_ok (walk (fun n => cat_loop n e p)) _ _ _ _ E1).
  assert (is_Some (m1 !! (e + Z.of_nat (length s2)))) as H0.
  { rewrite Ho by lia. subst e. rewrite <-Z.add_assoc, <-Nat2Z.inj_add. apply Hm. lia. }
  mstore H0. eexists. split_and!; [reflexivity| |].
  - destruct H1 as [Hb1 Hc1]. apply bytes_at_app in Hb1 as [Hb1 _]. split; [|apply Forall_app; split; [done|apply H2]].
    rewrite <-app_assoc. apply bytes_at_app. split.
    + apply bytes_at_frame; [lia|]. eapply only_bytes_at; [exact Ho|lia|done].
    + apply bytes_at_app. split; [apply bytes_at_frame; [lia|done]|]. split; [apply lookup_insert_eq|done].
  - intros a Ha. rewrite lookup_insert_ne by lia. apply Ho. lia.
Qed.

(** a first call of strtok with a string and further calls with NULL return, one after the
    other, pointers to the maximal delimiter-free segments of the string, each terminated in
    place, and then NULL; nothing outside the string is written. *)
Theorem strtok_tokens D dp s m p n0 :
  cstr m dp D -> 0 < dp -> cstr m p s -> 0 < p ->
  dp + Z.of_nat (length D) < p \/ p + Z.of_nat (length s) < dp ->
  exists qs m' n, strtok_calls (length (tokens D s)) p dp (Tok m n0) = Ok (qs ++ [0], Tok m' n) /\
    Forall2 (fun q tok => 0 < q /\ cstr m' q tok) qs (tokens D s) /\ only p (length s) m m'.
Proof.
  intros HD Hdp Hs Hp Hdis.
  destruct (strtok_calls_ok D dp (tokens D s) s m p eq_refl HD Hdp Hs Hp Hdis) as (qs & m' & n & E & Hq & Ho).
  exists qs, m', n. split_and!; [|done|done]. rewrite <-E.
  assert (strtok p dp (Tok m n0) = strtok 0 dp (Tok m p)) as Ep.
  { unfold strtok. rewrite (proj2 (Z.eqb_neq p 0)) by lia. done. }
  destruct (tokens D s); cbn [strtok_calls length]; unfold bind; by rewrite Ep.
Qed.

(** ** Concrete strings *)

(** "ab/cd//e" at 100 with its separator "/" at 200, and 8 bytes of space at 300. *)
Definition sample_mem : mem :=
  mem_of 100 [97; 98; 47; 99; 100; 47; 47; 101; 0] ∪ mem_of 200 [47; 0] ∪ mem_of 300 [120; 0; 0; 0; 0; 0; 0; 0; 0; 0].

Lemma sample_path : cstr sample_mem 100 [97; 98; 47; 99; 100; 47; 47; 101].
Proof. by repeat constructor. Qed.
Lemma sample_delim : cstr sample_mem 200 [47].
Proof. by repeat constructor. Qed.
Lemma sample_word : cstr sample_mem 300 [120].
Proof. by repeat constructor. Qed.
Lemma sample_room n : (n <= 10)%nat -> mapped sample_mem 300 n.
Proof.
  intros Hn i Hi. assert (i < 10)%nat as Hi' by lia. clear -Hi'.
  do 10 (destruct i as [|i]; [by eexists|]). lia.
Qed.

Lemma memmove_overlap_witness :
  exists m', memmove 103 100 5 sample_mem = Ok (103, m') /\ bytes_at m' 103 [97; 98; 47; 99; 100] /\
    only 103 5 sample_mem m'.
Proof.
  apply (memmove_overlap sample_mem 103 100 [97; 98; 47; 99; 100]).
  - by repeat constructor.
  - repeat constructor; lia.
  - intros i Hi. simpl in Hi. do 5 (destruct i as [|i]; [by eexists|]). lia.
Defined.

Lemma strstr_first_witness :
  (exists i, strstr 100 200 sample_mem = Ok (100 + Z.of_nat i, sample_mem) /\
     first_occ [47] [97; 98; 47; 99; 100; 47; 47; 101] i) \/
  (strstr 100 200 sample_mem = Ok (0, sample_mem) /\ no_occ [47] [97; 98; 47; 99; 100; 47; 47; 101]).
Proof. apply (strstr_first sample_mem 100 200 _ _ sample_path sample_delim). Defined.

Lemma strcmp_equal_witness :
  strcmp 100 200 sample_mem = Ok (50, sample_mem) /\
  (50 = 0 <-> [97; 98; 47; 99; 100; 47; 47; 101] = [47]).
Proof. apply (strcmp_equal sample_mem 100 200 _ _ sample_path sample_delim). Defined.

Lemma strcat_appends_witness :
  exists m', strcat 300 100 sample_mem = Ok (300, m') /\
    cstr m' 300 [120; 97; 98; 47; 99; 100; 47; 47; 101] /\ only 300 10 sample_mem m'.
Proof.
  apply (strcat_appends sample_mem 300 100 _ _ sample_word sample_path).
  - apply sample_room. simpl. lia.
  - simpl. lia.
Defined.

Lemma strtok_tokens_witness :
  exists qs m' n, strtok_calls 3 100 200 (Tok sample_mem 0) = Ok (qs ++ [0], Tok m' n) /\
    Forall2 (fun q tok => 0 < q /\ cstr m' q tok) qs [[97; 98]; [99; 100]; [101]] /\ only 100 8 sample_mem m'.
Proof.
  apply (strtok_tokens [47] 200 [97; 98; 47; 99; 100; 47; 47; 101] sample_mem 100 0 sample_delim);
    [lia|exact sample_path|lia|simpl; lia].
Defined.
