(* ===== verification/LibcNum.v ===== *)
(** * Numbers and formatted output (libc/string.c, hex_to_ascii of olibc/string.c)

    Conversions between integers and their text, snprintf and the pseudo-random generator.
    [int] and [long] are 32 bits wide; where the code can overflow them the model wraps to 32
    bits, as the compiled code does. *)
From Stdlib Require Import Znumtheory.
From S2P Require Import Prelude Libc.

Definition PERCENT : Z := 37.
Definition PLUS : Z := 43.
Definition MINUS : Z := 45.

(** A 32-bit store, lowest byte first. *)
Definition store32 (p v : Z) : M mem unit :=
  store p (u8 v);;; store (p + 1) (u8 (Z.shiftr v 8));;;
  store (p + 2) (u8 (Z.shiftr v 16));;; store (p + 3) (u8 (Z.shiftr v 24)).

(** ** Printing *)

(** do { str[i++] = n % 10 + '0'; } while ((n /= 10) > 0);  at most ten digits *)
Fixpoint int_loop (fuel : nat) (str i n : Z) : M mem Z :=
  match fuel with
  | O => nofuel
  | S fuel' =>
    store (str + i) (Z.rem n 10 + 48);;;
    let n' := Z.quot n 10 in
    if 0 <? n' then int_loop fuel' str (i + 1) n' else ret (i + 1)
  end.
Definition int_to_ascii (n str : Z) : M mem unit :=
  let sign := n in
  let n := if n <? 0 then s32 (- n) else n in
  i <- int_loop 10 str 0 n;;
  i <- (if sign <? 0 then store (str + i) MINUS;;; ret (i + 1) else ret i);;
  store (str + i) 0;;;
  reverse str.

Definition hex_char (nibble : Z) : Z := if 10 <=? nibble then nibble - 10 + 97 else nibble + 48.

(** [k] iterations are left; the shift is 4 (k - 1). *)
Fixpoint hex_loop (k : nat) (started : bool) (n str : Z) : M mem bool :=
  match k with
  | O => ret started
  | S k' =>
    let shift := 4 * Z.of_nat k' in
    let nibble := Z.land (Z.shiftr n shift) 15 in
    if negb started && (nibble =? 0) && negb (shift =? 0) then hex_loop k' started n str
    else append str (hex_char nibble);;; hex_loop k' true n str
  end.
Definition hex_to_ascii (n str : Z) : M mem unit :=
  append str 48;;; append str 120;;;
  started <- hex_loop 8 false n str;;
  if negb started then append str 48 else ret tt.

(** The version of the user library: a signed argument, the last digit outside the loop. *)
Fixpoint olibc_hex_loop (k : nat) (zeros : bool) (n str : Z) : M mem unit :=
  match k with
  | O => ret tt
  | S k' =>
    let tmp := Z.land (Z.shiftr n (4 * Z.of_nat k)) 15 in
    if (tmp =? 0) && negb zeros then olibc_hex_loop k' zeros n str
    else append str (hex_char tmp);;; olibc_hex_loop k' true n str
  end.
Definition olibc_hex_to_ascii (n str : Z) : M mem unit :=
  append str 48;;; append str 120;;;
  olibc_hex_loop 7 false n str;;;
  append str (hex_char (Z.land n 15)).

(** "0123456789abcdefghijklmnopqrstuvwxyz" *)
Definition DIGITS : list Z :=
  ((fun i => 48 + Z.of_nat i) <$> seq 0 10) ++ ((fun i => 97 + Z.of_nat i) <$> seq 0 26).

(** do { *ptr++ = DIGITS[value % base]; value /= base; } while (value);  returns ptr *)
Fixpoint itoa_loop (fuel : nat) (ptr value base : Z) : M mem Z :=
  match fuel with
  | O => nofuel
  | S fuel' =>
    c <- lift_opt (lget DIGITS (Z.rem value base));;
    store ptr c;;;
    let value := Z.quot value base in
    if negb (value =? 0) then itoa_loop fuel' (ptr + 1) value base else ret (ptr + 1)
  end.
(** for (low = str, --ptr; low < ptr; ++low, --ptr) swap *)
Definition itoa (value str base : Z) : M mem Z :=
  if (base <? 2) || (36 <? base) then store str 0;;; ret str
  else
    let sign := value in
    let value := if (value <? 0) && (base =? 10) then s32 (- value) else value in
    ptr <- itoa_loop 33 str value base;;
    ptr <- (if (sign <? 0) && (base =? 10) then store ptr MINUS;;; ret (ptr + 1) else ret ptr);;
    store ptr 0;;;
    walk (fun n => reverse_loop n 0 str (ptr - 1));;;
    ret str.

(** ** Parsing *)

(** while (p( *s)) s++; *)
Fixpoint skip_loop (fuel : nat) (p : Z -> bool) (s : Z) : M mem Z :=
  match fuel with
  | O => nofuel
  | S fuel' => c <- load s;; if p c then skip_loop fuel' p (s + 1) else ret s
  end.

Definition is_space (c : Z) : bool := (c =? SPACE) || (c =? TAB) || (c =? LF).
Definition is_space_all (c : Z) : bool := is_space c || (c =? CR) || (c =? 11) || (c =? 12).

(** while ( *str >= '0' && *str <= '9') result = result * 10 + ( *str++ - '0'); *)
Fixpoint dec_loop (fuel : nat) (str result : Z) : M mem (Z * Z) :=
  match fuel with
  | O => nofuel
  | S fuel' =>
    c <- load str;;
    if is_digit c then dec_loop fuel' (str + 1) (s32 (result * 10 + (c - 48))) else ret (result, str)
  end.

Definition atoi (str : Z) : M mem Z :=
  if str =? 0 then ret 0
  else
    str <- walk (fun n => skip_loop n is_space_all str);;
    c <- load str;;
    let sign := if c =? MINUS then -1 else 1 in
    let str := if (c =? MINUS) || (c =? PLUS) then str + 1 else str in
    r <- walk (fun n => dec_loop n str 0);;
    ret (s32 (sign * fst r)).

(** The value of a digit character whose letters go up to [hi] and [HI]. *)
Definition digit_val (hi HI c : Z) : option Z :=
  if is_digit c then Some (c - 48)
  else if in_range 97 hi c then Some (c - 97 + 10)
  else if in_range 65 HI c then Some (c - 65 + 10)
  else None.

(** The digits of a number in the given base; [wrap] is the conversion to the type of acc. *)
Fixpoint num_loop (fuel : nat) (wrap : Z -> Z) (hi HI base s acc : Z) : M mem (Z * Z) :=
  match fuel with
  | O => nofuel
  | S fuel' =>
    c <- load s;;
    if c =? 0 then ret (acc, s)
    else
      match digit_val hi HI c with
      | None => ret (acc, s)
      | Some digit =>
        if base <=? digit then ret (acc, s)
        else num_loop fuel' wrap hi HI base (s + 1) (wrap (acc * base + digit))
      end
  end.

(** base == 0: detected from the prefix; base == 16: an optional 0x is skipped. *)
Definition base_prefix (s base : Z) : M mem (Z * Z) :=
  if base =? 0 then
    c <- load s;;
    if c =? 48 then
      d <- load (s + 1);;
      if (d =? 120) || (d =? 88) then ret (s + 2, 16) else ret (s + 1, 8)
    else ret (s, 10)
  else if base =? 16 then
    c <- load s;;
    if c =? 48 then
      d <- load (s + 1);;
      if (d =? 120) || (d =? 88) then ret (s + 2, base) else ret (s, base)
    else ret (s, base)
  else ret (s, base).

Definition strtol (nptr endptr base : Z) : M mem Z :=
  s <- walk (fun n => skip_loop n is_space nptr);;
  c <- load s;;
  let neg := c =? MINUS in
  let s := if (c =? MINUS) || (c =? PLUS) then s + 1 else s in
  sb <- base_prefix s base;;
  r <- walk (fun n => num_loop n s32 102 70 (snd sb) (fst sb) 0);;
  (if negb (endptr =? 0) then store32 endptr (snd r) else ret tt);;;
  ret (if neg then s32 (- fst r) else fst r).

Definition strtoul (nptr endptr base : Z) : M mem Z :=
  s <- walk (fun n => skip_loop n is_space_all nptr);;
  c <- load s;;
  let neg := c =? MINUS in
  let s := if (c =? PLUS) || (c =? MINUS) then s + 1 else s in
  sb <- base_prefix s base;;
  r <- walk (fun n => num_loop n u32 122 90 (snd sb) (fst sb) 0);;
  (if negb (endptr =? 0) then store32 endptr (snd r) else ret tt);;;
  ret (if neg then u32 (- fst r) else fst r).

(** One number of parse_color_args, accumulated in the int at out; false without a digit. *)
Fixpoint color_digits (fuel : nat) (str i out : Z) : M mem Z :=
  match fuel with
  | O => nofuel
  | S fuel' =>
    c <- load (str + i);;
    if is_digit c then
      v <- load32 out;;
      store32 out (u32 (v * 10 + (c - 48)));;;
      color_digits fuel' str (i + 1) out
    else ret i
  end.
Fixpoint color_spaces (fuel : nat) (str i : Z) : M mem Z :=
  match fuel with
  | O => nofuel
  | S fuel' => c <- load (str + i);; if c =? SPACE then color_spaces fuel' str (i + 1) else ret i
  end.
Definition parse_color_args (str fg bg : Z) : M mem bool :=
  store32 fg 0;;; store32 bg 0;;;
  i <- walk (fun n => color_spaces n str 0);;
  c <- load (str + i);;
  if negb (is_digit c) then ret false
  else
    i <- walk (fun n => color_digits n str i fg);;
    i <- walk (fun n => color_spaces n str i);;
    c <- load (str + i);;
    if negb (is_digit c) then ret false
    else
      walk (fun n => color_digits n str i bg);;; ret true.

(** ** snprintf *)

(** while ( *s && len < size - 1) out[len++] = *s++; *)
Fixpoint put_str (fuel : nat) (out size len s : Z) : M mem Z :=
  match fuel with
  | O => nofuel
  | S fuel' =>
    c <- load s;;
    if negb (c =? 0) && (len <? size - 1) then
      store (out + len) c;;; put_str fuel' out size (len + 1) (s + 1)
    else ret len
  end.
(** Writes the characters of l while there is room. *)
Fixpoint put_list (out size len : Z) (l : list Z) : M mem Z :=
  match l with
  | [] => ret len
  | c :: l' => if len <? size - 1 then store (out + len) c;;; put_list out size (len + 1) l' else ret len
  end.
(** while (v > 0 && i < 32) { buf[i++] = '0' + v % 10; v /= 10; }  the digits written *)
Fixpoint dec_digits (room : nat) (v : Z) : list Z :=
  match room with
  | O => []
  | S room' => if 0 <? v then (48 + Z.rem v 10) :: dec_digits room' (Z.quot v 10) else []
  end.
(** The contents of buf for the argument v. *)
Definition dec_buf (v : Z) : list Z :=
  if v =? 0 then [48]
  else dec_digits 32 (if v <? 0 then s32 (- v) else v) ++ (if v <? 0 then [MINUS] else []).

(** while ( *p >= '0' && *p <= '9') { width = width * 10 + ( *p - '0'); p++; } *)
Definition width_loop (fuel : nat) (p : Z) : M mem (Z * Z) := dec_loop fuel p 0.

(** The conversion selected by c: new length and remaining arguments. *)
Definition directive (out size len c pad width : Z) (args : list Z) : M mem (Z * list Z) :=
  if c =? 115 then
    match args with
    | [] => fault
    | s :: args' => len <- walk (fun n => put_str n out size len s);; ret (len, args')
    end
  else if c =? 100 then
    match args with
    | [] => fault
    | a :: args' =>
      let buf := dec_buf (s32 a) in
      len <- put_list out size len (replicate (Z.to_nat (width - Z.of_nat (length buf))) pad);;
      len <- put_list out size len (rev buf);;
      ret (len, args')
    end
  else if c =? 99 then
    match args with
    | [] => fault
    | a :: args' => store (out + len) a;;; ret (len + 1, args')
    end
  else
    store (out + len) PERCENT;;;
    let len := len + 1 in
    if negb (c =? 0) && (len <? size - 1) then store (out + len) c;;; ret (len + 1, args)
    else ret (len, args).

Fixpoint fmt_loop (fuel : nat) (out size p len : Z) (args : list Z) : M mem Z :=
  match fuel with
  | O => nofuel
  | S fuel' =>
    c <- load p;;
    if negb (negb (c =? 0) && (len <? size - 1)) then ret len
    else if negb (c =? PERCENT) then
      store (out + len) c;;; fmt_loop fuel' out size (p + 1) (len + 1) args
    else
      let p := p + 1 in
      c <- load p;;
      let pad := if c =? 48 then 48 else SPACE in
      let p := if c =? 48 then p + 1 else p in
      wp <- walk (fun n => width_loop n p);;
      let width := fst wp in
      let p := snd wp in
      c <- load p;;
      r <- directive out size len c pad width args;;
      fmt_loop fuel' out size (p + 1) (fst r) (snd r)
  end.
(** [args] are the variable arguments as 32-bit words. *)
Definition snprintf (out size fmt : Z) (args : list Z) : M mem Z :=
  len <- walk (fun n => fmt_loop n out size fmt 0 args);;
  store (out + len) 0;;; ret len.

(** sprintf hands its va_list on as the first variable argument of snprintf. *)
Definition sprintf (out fmt va_list : Z) : M mem Z := snprintf out 32767 fmt [va_list].

(** ** rand: a 32-bit xorshift generator *)

Definition rand_step (seed : Z) : Z :=
  let s := Z.lxor seed (u32 (Z.shiftl seed 13)) in
  let s := Z.lxor s (Z.shiftr s 17) in
  Z.lxor s (u32 (Z.shiftl s 5)).
Definition rand : M Z Z := modify rand_step;;; get.

(** ** Positional notation *)

(** The digits of n in base b, least significant first; one digit for 0. *)
Fixpoint ldigits (fuel : nat) (b n : Z) : list Z :=
  match fuel with
  | O => []
  | S fuel' => n mod b :: (if n / b =? 0 then [] else ldigits fuel' b (n / b))
  end.
(** The value read from digits, most significant first, after acc. *)
Definition horner (b acc : Z) (ds : list Z) : Z := foldl (fun a d => a * b + d) acc ds.
Definition dchar (d : Z) : Z := if d <? 10 then 48 + d else 87 + d.

Lemma horner_snoc b acc ds d : horner b acc (ds ++ [d]) = horner b acc ds * b + d.
Proof. unfold horner. by rewrite foldl_snoc. Qed.

Lemma ldigits_value fuel : forall b n, 2 <= b -> 0 <= n < b ^ Z.of_nat fuel -> horner b 0 (rev (ldigits fuel b n)) = n.
Proof.
  induction fuel as [|fuel IH]; intros b n Hb Hn; cbn [ldigits]; [simpl in *; lia|].
  rewrite Nat2Z.inj_succ, Z.pow_succ_r in Hn by lia. simpl rev. rewrite horner_snoc.
  assert (n = b * (n / b) + n mod b) as Hdm by (apply Z.div_mod; lia).
  destruct (Z.eqb_spec (n / b) 0) as [H0|H0].
  - cbn. rewrite H0 in Hdm. lia.
  - rewrite IH; [lia|lia|]. split; [apply Z.div_pos; lia|]. apply Z.div_lt_upper_bound; lia.
Qed.

Lemma ldigits_range fuel : forall b n, 2 <= b -> Forall (fun d => 0 <= d < b) (ldigits fuel b n).
Proof.
  induction fuel as [|fuel IH]; intros b n Hb; cbn [ldigits]; [constructor|]. constructor; [apply Z.mod_pos_bound; lia|].
  destruct (n / b =? 0); [constructor|by apply IH].
Qed.
Lemma ldigits_length fuel : forall b n, (length (ldigits fuel b n) <= fuel)%nat.
Proof.
  induction fuel as [|fuel IH]; intros b n; cbn [ldigits length]; [lia|].
  destruct (n / b =? 0); simpl; [lia|]. specialize (IH b (n / b)). lia.
Qed.

(** The most significant digit is 0 only for the number 0. *)
Lemma ldigits_lead fuel : forall b n,
  2 <= b -> 0 <= n < b ^ Z.of_nat fuel -> (0 < fuel)%nat ->
  exists d ds, rev (ldigits fuel b n) = d :: ds /\ (d = 0 -> n = 0 /\ ds = []).
Proof.
  induction fuel as [|fuel IH]; intros b n Hb Hn Hf; [lia|]. cbn [ldigits].
  rewrite Nat2Z.inj_succ, Z.pow_succ_r in Hn by lia.
  assert (n = b * (n / b) + n mod b) as Hdm by (apply Z.div_mod; lia).
  destruct (Z.eqb_spec (n / b) 0) as [H0|H0].
  - exists (n mod b), []. split; [done|]. intros Hz. rewrite H0, Hz in Hdm. split; [lia|done].
  - destruct (IH b (n / b)) as (d & ds & E & Hd); [done| | |].
    + split; [apply Z.div_pos; lia|]. apply Z.div_lt_upper_bound; lia.
    + destruct fuel; [|lia]. simpl in Hn. assert (n / b < 1) by (apply Z.div_lt_upper_bound; lia).
      assert (0 <= n / b) by (apply Z.div_pos; lia). lia.
    + simpl rev. rewrite E. exists d, (ds ++ [n mod b]). split; [done|]. intros Hz. by destruct (Hd Hz).
Qed.

Lemma horner_ge b ds : forall acc, 1 <= b -> 0 <= acc -> Forall (fun d => 0 <= d) ds -> acc <= horner b acc ds.
Proof.
  induction ds as [|d ds IH]; intros acc Hb Ha Hd; unfold horner in *; simpl; [lia|].
  apply list.Forall_cons in Hd as [H0 Hd]. etransitivity; [|apply IH; [lia|nia|done]]. nia.
Qed.

Lemma dchar_char d : 0 <= d < 36 -> is_char (dchar d).
Proof. unfold dchar, is_char. intros. bdestr; lia. Qed.
Lemma digits_table d : 0 <= d < 36 -> lget DIGITS d = Some (dchar d).
Proof.
  intros Hd. assert (forallb (fun i => bool_decide (lget DIGITS (Z.of_nat i) = Some (dchar (Z.of_nat i)))) (seq 0 36) = true) as H
    by (vm_compute; reflexivity).
  rewrite forallb_forall in H. specialize (H (Z.to_nat d)). rewrite Z2Nat.id in H by lia.
  eapply bool_decide_eq_true, H, in_seq. lia.
Qed.
Lemma dchar_val d : 0 <= d < 36 -> digit_val 122 90 (dchar d) = Some d.
Proof.
  intros Hd. unfold digit_val, dchar, is_digit, in_range. destruct (Z.ltb_spec d 10).
  - rewrite (proj2 (Z.leb_le 48 _)), (proj2 (Z.leb_le _ 57)) by lia. simpl. f_equal. lia.
  - rewrite (proj2 (Z.leb_gt _ 57)) by lia. rewrite andb_false_r.
    rewrite (proj2 (Z.leb_le 97 _)), (proj2 (Z.leb_le _ 122)) by lia. simpl. f_equal. lia.
Qed.
Lemma dchar_dec d : 0 <= d < 10 -> dchar d = 48 + d /\ is_digit (dchar d) = true.
Proof.
  intros Hd. unfold dchar, is_digit, in_range. rewrite (proj2 (Z.ltb_lt d 10)) by lia.
  by rewrite (proj2 (Z.leb_le 48 _)), (proj2 (Z.leb_le _ 57)) by lia.
Qed.

(** ** The printing loops *)

Lemma int_loop_ok fuel : forall m str i n,
  0 <= n < 10 ^ Z.of_nat fuel -> (0 < fuel)%nat -> mapped m (str + i) (length (ldigits fuel 10 n)) ->
  exists m', int_loop fuel str i n m = Ok (i + Z.of_nat (length (ldigits fuel 10 n)), m') /\
    bytes_at m' (str + i) (dchar <$> ldigits fuel 10 n) /\ only (str + i) (length (ldigits fuel 10 n)) m m'.
Proof.
  induction fuel as [|fuel IH]; intros m str i n Hn Hf Hm; [lia|]. cbn [int_loop ldigits] in *.
  rewrite Nat2Z.inj_succ, Z.pow_succ_r in Hn by lia.
  rewrite Z.rem_mod_nonneg, Z.quot_div_nonneg by lia. cbn [length] in Hm. apply mapped_S in Hm as [H0 Hm].
  assert (0 <= n mod 10 < 10) as Hmod by (apply Z.mod_pos_bound; lia).
  destruct (dchar_dec (n mod 10) Hmod) as [Hd _].
  mstore H0. rewrite (Z.add_comm (n mod 10)), <-Hd, char_u8 by (apply dchar_char; lia).
  assert (0 <= n / 10) by (apply Z.div_pos; lia).
  destruct (Z.eqb_spec (n / 10) 0) as [Hz|Hnz].
  - rewrite Hz. simpl. eexists. split_and!; [reflexivity|apply lookup_insert_eq|done|].
    intros a Ha. apply lookup_insert_ne. lia.
  - rewrite (proj2 (Z.ltb_lt 0 (n / 10))) by lia.
    destruct (IH (<[str + i := dchar (n mod 10)]> m) str (i + 1) (n / 10)) as (m' & E & Hb & Ho).
    + split; [lia|]. apply Z.div_lt_upper_bound; lia.
    + destruct fuel; [|lia]. simpl in Hn. assert (n / 10 < 1) by (apply Z.div_lt_upper_bound; lia). lia.
    + rewrite Z.add_assoc. by apply mapped_insert.
    + rewrite Z.add_assoc in Hb, Ho. exists m'. rewrite E. split_and!.
      * do 2 f_equal. simpl. lia.
      * simpl. split; [|done]. rewrite Ho by lia. apply lookup_insert_eq.
      * intros a Ha. simpl in Ha. rewrite Ho by lia. apply lookup_insert_ne. lia.
Qed.

Lemma itoa_loop_ok fuel : forall m ptr n b,
  2 <= b <= 36 -> 0 <= n < b ^ Z.of_nat fuel -> (0 < fuel)%nat -> mapped m ptr (length (ldigits fuel b n)) ->
  exists m', itoa_loop fuel ptr n b m = Ok (ptr + Z.of_nat (length (ldigits fuel b n)), m') /\
    bytes_at m' ptr (dchar <$> ldigits fuel b n) /\ only ptr (length (ldigits fuel b n)) m m'.
Proof.
  induction fuel as [|fuel IH]; intros m ptr n b Hb Hn Hf Hm; [lia|]. cbn [itoa_loop ldigits] in *.
  rewrite Nat2Z.inj_succ, Z.pow_succ_r in Hn by lia.
  rewrite Z.rem_mod_nonneg, Z.quot_div_nonneg by lia. cbn [length] in Hm. apply mapped_S in Hm as [H0 Hm].
  assert (0 <= n mod b < b) as Hmod by (apply Z.mod_pos_bound; lia).
  rewrite digits_table by lia. rewrite bind_lift_some.
  mstore H0. rewrite char_u8 by (apply dchar_char; lia).
  assert (0 <= n / b) by (apply Z.div_pos; lia).
  destruct (Z.eqb_spec (n / b) 0) as [Hz|Hnz].
  - simpl. eexists. split_and!; [reflexivity|apply lookup_insert_eq|done|].
    intros a Ha. apply lookup_insert_ne. lia.
  - cbn [negb]. destruct (IH (<[ptr := dchar (n mod b)]> m) (ptr + 1) (n / b) b) as (m' & E & Hb' & Ho).
    + done.
    + split; [lia|]. apply Z.div_lt_upper_bound; lia.
    + destruct fuel; [|lia]. simpl in Hn. assert (n / b < 1) by (apply Z.div_lt_upper_bound; lia). lia.
    + by apply mapped_insert.
    + exists m'. rewrite E. split_and!.
      * do 2 f_equal. simpl. lia.
      * simpl. split; [|done]. rewrite Ho by lia. apply lookup_insert_eq.
      * intros a Ha. simpl in Ha. rewrite Ho by lia. apply lookup_insert_ne. lia.
Qed.

(** One more byte behind l. *)
Lemma snoc_byte m p l c :
  bytes_at m p l -> is_u8 c -> is_Some (m !! (p + Z.of_nat (length l))) ->
  exists m', store (p + Z.of_nat (length l)) c m = Ok (tt, m') /\ bytes_at m' p (l ++ [c]) /\
    only p (S (length l)) m m'.
Proof.
  intros Hb Hc H0. eexists. rewrite store_ok, u8_small by done. split_and!; [reflexivity| |].
  - apply bytes_at_app. split; [apply bytes_at_frame; [lia|done]|]. split; [apply lookup_insert_eq|done].
  - intros a Ha. apply lookup_insert_ne. lia.
Qed.

Lemma dchars_ok fuel b n : 2 <= b <= 36 -> Forall is_char (dchar <$> ldigits fuel b n).
Proof.
  intros Hb. apply Forall_fmap. eapply list.Forall_impl; [apply ldigits_range; lia|].
  intros d Hd. apply dchar_char. cbv beta in Hd. lia.
Qed.

(** The text of n in base b: an optional sign, then the digits from the highest. *)
Definition num_text (neg : bool) (fuel : nat) (b n : Z) : list Z :=
  (if neg then [MINUS] else []) ++ (dchar <$> rev (ldigits fuel b n)).

Lemma fmap_rev {A B} (f : A -> B) l : f <$> rev l = rev (f <$> l).
Proof. induction l as [|x l IH]; [done|]. simpl. by rewrite fmap_app, IH. Qed.
Lemma rev_text (neg : bool) fuel b n :
  rev ((dchar <$> ldigits fuel b n) ++ (if neg then [MINUS] else [])) = num_text neg fuel b n.
Proof. unfold num_text. rewrite rev_app_distr, fmap_rev. by destruct neg. Qed.

(** The optional sign and the terminator behind the digits l at p. *)
Lemma sign_and_end m p l (neg : bool) :
  bytes_at m p l -> Forall is_char l -> mapped m p (length l + 2) ->
  exists m1 m2, let e := p + Z.of_nat (length l) in
    (if neg then store e MINUS else ret tt) m = Ok (tt, m1) /\
    store (if neg then e + 1 else e) 0 m1 = Ok (tt, m2) /\
    cstr m2 p (l ++ if neg then [MINUS] else []) /\ only p (length l + 2) m m2.
Proof.
  intros Hb Hc Hm. assert (is_Some (m !! (p + Z.of_nat (length l)))) as H0 by (apply Hm; lia).
  assert (is_Some (m !! (p + Z.of_nat (length l) + 1))) as H1.
  { replace (p + Z.of_nat (length l) + 1) with (p + Z.of_nat (S (length l))) by lia. apply Hm. lia. }
  destruct neg.
  - destruct (snoc_byte m p l MINUS Hb) as (m1 & E1 & Hb1 & Ho1); [unfold is_u8, MINUS; lia|done|].
    destruct (snoc_byte m1 p (l ++ [MINUS]) 0 Hb1) as (m2 & E2 & Hb2 & Ho2); [unfold is_u8; lia| |].
    { rewrite length_app. simpl. rewrite Ho1 by lia. replace (p + Z.of_nat (length l + 1)) with (p + Z.of_nat (length l) + 1) by lia. done. }
    exists m1, m2. rewrite length_app in E2, Ho2. simpl in *.
    replace (p + Z.of_nat (length l) + 1) with (p + Z.of_nat (length l + 1)) by lia. split_and!; [done|done| |].
    + split; [done|]. apply Forall_app. split; [done|]. by repeat constructor.
    + eapply only_join; [exact Ho1|exact Ho2|lia..].
  - destruct (snoc_byte m p l 0 Hb) as (m2 & E2 & Hb2 & Ho2); [unfold is_u8; lia|done|].
    exists m, m2. rewrite app_nil_r. split_and!; [done|done|by split|]. eapply only_mono; [| |done]; lia.
Qed.

Lemma int_to_ascii_ok m str n :
  -2147483648 < n < 2147483648 -> mapped m str 12 ->
  exists m', int_to_ascii n str m = Ok (tt, m') /\ cstr m' str (num_text (n <? 0) 10 10 (Z.abs n)) /\ only str 12 m m'.
Proof.
  intros Hn Hm. unfold int_to_ascii.
  assert ((if n <? 0 then s32 (- n) else n) = Z.abs n) as ->.
  { destruct (Z.ltb_spec n 0); [rewrite s32_small by lia|]; lia. }
  pose proof (ldigits_length 10 10 (Z.abs n)) as Hlen.
  destruct (int_loop_ok 10 m str 0 (Z.abs n)) as (m1 & E1 & Hb1 & Ho1).
  { split; [lia|]. change (10 ^ Z.of_nat 10) with 10000000000. lia. }
  { lia. }
  { rewrite Z.add_0_r. intros i Hi. apply Hm. lia. }
  rewrite Z.add_0_r in Hb1, Ho1. rewrite (bind_ok _ _ _ _ _ E1). rewrite Z.add_0_l.
  set (l := dchar <$> ldigits 10 10 (Z.abs n)) in *.
  assert (length l = length (ldigits 10 10 (Z.abs n))) as Hl by apply length_fmap. rewrite <-Hl in *.
  destruct (sign_and_end m1 str l (n <? 0) Hb1) as (m2 & m3 & E2 & E3 & Hs & Ho3).
  { by apply dchars_ok. }
  { eapply mapped_only; [exact Ho1| |].
    - by apply bytes_at_mapped.
    - intros i Hi. apply Hm. lia. }
  destruct (reverse_ok m3 str _ Hs) as (m4 & E4 & Hs4 & Ho4). unfold l in Hs4. rewrite rev_text in Hs4.
  exists m4. split_and!; [|done|].
  - rewrite <-E4. destruct (n <? 0).
    + cbn iota in E2. rewrite bind_bind. rewrite (bind_ok (store _ MINUS) _ _ _ _ E2). rewrite bind_ret. rewrite Z.add_assoc. by rewrite (bind_ok _ _ _ _ _ E3).
    + simpl in E2. injection E2 as <-. rewrite bind_ret. by rewrite (bind_ok _ _ _ _ _ E3).
  - eapply only_join; [exact Ho1|eapply (only_join str (length l + 2)); [exact Ho3|exact Ho4|lia|lia|lia|]|lia..]. rewrite length_app. destruct (n <? 0); simpl; lia.
Qed.

Lemma itoa_ok m str v b :
  2 <= b <= 36 -> (0 <= v < 2147483648 \/ (b = 10 /\ -2147483648 < v < 0)) -> mapped m str 35 ->
  exists m', itoa v str b m = Ok (str, m') /\ cstr m' str (num_text ((v <? 0) && (b =? 10)) 33 b (Z.abs v)) /\ only str 35 m m'.
Proof.
  intros Hb Hv Hm. unfold itoa. rewrite (proj2 (Z.ltb_ge b 2)), (proj2 (Z.ltb_ge 36 b)) by lia. cbn [orb].
  set (neg := (v <? 0) && (b =? 10)).
  assert ((if neg then s32 (- v) else v) = Z.abs v) as ->.
  { subst neg. destruct (Z.ltb_spec v 0), (Z.eqb_spec b 10); simpl; [rewrite s32_small by lia|..]; lia. }
  pose proof (ldigits_length 33 b (Z.abs v)) as Hlen.
  destruct (itoa_loop_ok 33 m str (Z.abs v) b Hb) as (m1 & E1 & Hb1 & Ho1).
  { split; [lia|]. apply Z.lt_le_trans with (2 ^ Z.of_nat 33); [change (2 ^ Z.of_nat 33) with 8589934592; lia|].
    apply Z.pow_le_mono_l. lia. }
  { lia. }
  { intros i Hi. apply Hm. lia. }
  rewrite (bind_ok _ _ _ _ _ E1).
  set (l := dchar <$> ldigits 33 b (Z.abs v)) in *.
  assert (length l = length (ldigits 33 b (Z.abs v))) as Hl by apply length_fmap. rewrite <-Hl in *.
  assert (Forall is_char l) as Hlc by (by apply dchars_ok).
  pose proof (rev_text neg 33 b (Z.abs v)) as Hrev. fold l in Hrev. rewrite <-Hrev. clear Hrev. clearbody l neg.
  destruct (sign_and_end m1 str l neg Hb1) as (m2 & m3 & E2 & E3 & Hs & Ho3).
  { done. }
  { eapply mapped_only; [exact Ho1| |].
    - by apply bytes_at_mapped.
    - intros i Hi. apply Hm. lia. }
  pose proof (cstr_size _ _ _ Hs) as Hsz. pose proof Hs as [Hsb Hsc]. apply bytes_at_app in Hsb as [Hsb Hs0].
  set (e := if neg then str + Z.of_nat (length l) + 1 else str + Z.of_nat (length l)) in *.
  assert (e = str + Z.of_nat (length (l ++ (if neg then [MINUS] else [])))) as He.
  { subst e. rewrite length_app. destruct neg; simpl; lia. }
  destruct (reverse_loop_ok (base.size m3) (l ++ (if neg then [MINUS] else [])) m3 0 str (e - 1)) as (m4 & E4 & Hb4 & Ho4);
    [by rewrite Z.add_0_l|by apply chars_u8|lia|lia|].
  rewrite Z.add_0_l in Hb4, Ho4.
  exists m4. split_and!.
  - assert (bind (walk (fun n => reverse_loop n 0 str (e - 1))) (fun _ => ret str) m3 = Ok (str, m4)) as Er.
    { unfold bind, walk. by rewrite E4. }
    rewrite <-Er. subst e. destruct neg.
    + cbn iota in E2. rewrite bind_bind. rewrite (bind_ok (store _ MINUS) _ _ _ _ E2). rewrite bind_ret. by rewrite (bind_ok _ _ _ _ _ E3).
    + simpl in E2. injection E2 as <-. rewrite bind_ret. by rewrite (bind_ok _ _ _ _ _ E3).
  - split.
    + apply bytes_at_app. split; [done|]. eapply only_bytes_at; [exact Ho4| |].
      * right. rewrite length_rev. lia.
      * by rewrite length_rev.
    + rewrite list.Forall_forall in *. intros c Hc. apply Hsc. by apply list_elem_of_In, in_rev, list_elem_of_In.
  - eapply only_join; [exact Ho1|eapply (only_join str (length l + 2)); [exact Ho3|exact Ho4|lia|lia|lia|]|lia..]. rewrite length_app. destruct neg; simpl; lia.
Qed.

(** ** The parsing loops *)

Lemma dec_loop_ok ds : forall fuel m p acc c,
  bytes_at m p ((dchar <$> ds) ++ [c]) -> is_digit c = false -> Forall (fun d => 0 <= d < 10) ds ->
  0 <= acc -> horner 10 acc ds < 2147483648 ->
  (length ds < fuel)%nat -> dec_loop fuel p acc m = Ok ((horner 10 acc ds, p + Z.of_nat (length ds)), m).
Proof.
  induction ds as [|d ds IH]; intros [|fuel] m p acc c Hs Hc0 Hd Ha Hv Hf; simpl in Hf; try lia; cbn [dec_loop].
  - destruct Hs as [Hs _]. mload Hs. rewrite Hc0. simpl. by rewrite Z.add_0_r.
  - destruct Hs as [Hc Hs]. apply list.Forall_cons in Hd as [H0 Hd]. mload Hc.
    destruct (dchar_dec d H0) as [Ed ->]. rewrite Ed.
    replace (acc * 10 + (48 + d - 48)) with (acc * 10 + d) by lia.
    assert (0 <= acc * 10 + d <= horner 10 (acc * 10 + d) ds) as Hge.
    { split; [lia|]. apply horner_ge; [lia|lia|]. eapply list.Forall_impl; [exact Hd|]. intros; cbv beta in *; lia. }
    change (horner 10 acc (d :: ds)) with (horner 10 (acc * 10 + d) ds) in *.
    rewrite s32_small by lia. rewrite (IH fuel m (p + 1) _ c) by (done || lia). do 3 f_equal. simpl. lia.
Qed.

Lemma num_loop_ok wrap b V ds : forall fuel m p acc,
  cstr m p (dchar <$> ds) -> Forall (fun d => 0 <= d < b) ds -> 2 <= b <= 36 -> 0 <= acc ->
  horner b acc ds <= V -> (forall x, 0 <= x <= V -> wrap x = x) ->
  (length ds < fuel)%nat ->
  num_loop fuel wrap 122 90 b p acc m = Ok ((horner b acc ds, p + Z.of_nat (length ds)), m).
Proof.
  induction ds as [|d ds IH]; intros [|fuel] m p acc Hs Hd Hb Ha Hv Hw Hf; simpl in Hf; try lia; cbn [num_loop].
  - apply cstr_nil in Hs. mload Hs. simpl. by rewrite Z.add_0_r.
  - apply cstr_cons in Hs as (Hc & Hch & Hs). apply list.Forall_cons in Hd as [H0 Hd]. mload Hc.
    rewrite (proj2 (Z.eqb_neq (dchar d) 0)) by (unfold is_char in *; lia).
    rewrite dchar_val by lia. rewrite (proj2 (Z.leb_gt b d)) by lia.
    assert (0 <= acc * b + d <= horner b (acc * b + d) ds) as Hge.
    { split; [nia|]. apply horner_ge; [lia|nia|]. eapply list.Forall_impl; [exact Hd|]. intros; cbv beta in *; lia. }
    change (horner b acc (d :: ds)) with (horner b (acc * b + d) ds) in *.
    rewrite Hw by lia. rewrite IH by (done || lia). do 3 f_equal. simpl. lia.
Qed.

Lemma skip_none m p c f : m !! p = Some c -> f c = false -> walk (fun n => skip_loop n f p) m = Ok (p, m).
Proof. intros Hc Hf. unfold walk. cbn [skip_loop]. mload Hc. by rewrite Hf. Qed.

Lemma Forall_rev_digits fuel b n : 2 <= b -> Forall (fun d => 0 <= d < b) (rev (ldigits fuel b n)).
Proof.
  intros Hb. apply list.Forall_forall. intros d Hd. apply list_elem_of_In, in_rev, list_elem_of_In in Hd.
  pose proof (ldigits_range fuel b n Hb) as Hr. rewrite list.Forall_forall in Hr. by apply Hr.
Qed.

(** A digit is neither a blank nor a sign. *)
Lemma dchar_plain d : 0 <= d < 36 ->
  is_space (dchar d) = false /\ is_space_all (dchar d) = false /\ dchar d <> MINUS /\ dchar d <> PLUS.
Proof.
  intros Hd. unfold dchar, is_space_all, is_space, MINUS, PLUS, SPACE, TAB, LF, CR.
  destruct (Z.ltb_spec d 10); split_and!; try lia; bdestr; simpl; lia || done.
Qed.

Lemma atoi_text m p n :
  -2147483648 < n < 2147483648 -> p <> 0 -> cstr m p (num_text (n <? 0) 10 10 (Z.abs n)) -> atoi p m = Ok (n, m).
Proof.
  intros Hn Hp Hs. unfold atoi. rewrite (proj2 (Z.eqb_neq p 0)) by done.
  assert (0 <= Z.abs n < 10 ^ Z.of_nat 10) as Hb by (change (10 ^ Z.of_nat 10) with 10000000000; lia).
  pose proof (ldigits_value 10 10 (Z.abs n) ltac:(lia) Hb) as Hval.
  pose proof (Forall_rev_digits 10 10 (Z.abs n) ltac:(lia)) as Hds.
  assert (forall q, cstr m q (dchar <$> rev (ldigits 10 10 (Z.abs n))) ->
            walk (fun k => dec_loop k q 0) m = Ok ((Z.abs n, q + Z.of_nat (length (rev (ldigits 10 10 (Z.abs n))))), m)) as Hdec.
  { intros q Hq. unfold walk. rewrite (dec_loop_ok (rev (ldigits 10 10 (Z.abs n))) _ _ _ _ 0); [by rewrite Hval|apply Hq|done|done|lia|rewrite Hval; lia|].
    apply cstr_size in Hq. rewrite length_fmap in Hq. lia. }
  unfold num_text in Hs. destruct (Z.ltb_spec n 0) as [Hneg|Hpos].
  - change (cstr m p (MINUS :: (dchar <$> rev (ldigits 10 10 (Z.abs n))))) in Hs.
    apply cstr_cons in Hs as (Hc & _ & Hs). rewrite (bind_ok _ _ _ _ _ (skip_none m p MINUS _ Hc eq_refl)).
    mload Hc. cbn [Z.eqb MINUS Pos.eqb orb]. rewrite (bind_ok _ _ _ _ _ (Hdec (p + 1) Hs)). unfold ret. do 2 f_equal. cbn [fst].
    rewrite s32_small by lia. lia.
  - change (cstr m p (dchar <$> rev (ldigits 10 10 (Z.abs n)))) in Hs. destruct (ldigits_lead 10 10 (Z.abs n) ltac:(lia) Hb ltac:(lia)) as (d & ds & El & _).
    pose proof Hs as Hs'. rewrite El in Hs', Hds. apply list.Forall_cons in Hds as [H0 _].
    apply cstr_cons in Hs' as (Hc & _ & _). destruct (dchar_plain d) as (_ & Hsp & Hm & Hpl); [lia|].
    rewrite (bind_ok _ _ _ _ _ (skip_none m p _ _ Hc Hsp)). mload Hc.
    rewrite (proj2 (Z.eqb_neq _ _) Hm), (proj2 (Z.eqb_neq _ _) Hpl). cbn [orb].
    rewrite (bind_ok _ _ _ _ _ (Hdec p Hs)). unfold ret. do 2 f_equal. cbn [fst]. rewrite s32_small by lia. lia.
Qed.

Lemma strtoul_text m p n b :
  0 <= n < 4294967296 -> 2 <= b <= 36 -> cstr m p (num_text false 33 b n) -> strtoul p 0 b m = Ok (n, m).
Proof.
  intros Hn Hb Hs. unfold strtoul. change (cstr m p (dchar <$> rev (ldigits 33 b n))) in Hs.
  assert (0 <= n < b ^ Z.of_nat 33) as Hbn.
  { split; [lia|]. apply Z.lt_le_trans with (2 ^ Z.of_nat 33); [change (2 ^ Z.of_nat 33) with 8589934592; lia|].
    apply Z.pow_le_mono_l. lia. }
  pose proof (ldigits_value 33 b n ltac:(lia) Hbn) as Hval.
  pose proof (Forall_rev_digits 33 b n ltac:(lia)) as Hds.
  destruct (ldigits_lead 33 b n ltac:(lia) Hbn ltac:(lia)) as (d & ds & El & Hlead).
  pose proof Hs as Hs'. rewrite El in Hs'. pose proof Hds as Hds'. rewrite El in Hds'. apply list.Forall_cons in Hds' as [H0 _].
  apply cstr_cons in Hs' as (Hc & _ & Hrest). destruct (dchar_plain d) as (_ & Hsp & Hm & Hpl); [lia|].
  rewrite (bind_ok _ _ _ _ _ (skip_none m p _ _ Hc Hsp)). mload Hc.
  rewrite (proj2 (Z.eqb_neq _ _) Hm), (proj2 (Z.eqb_neq _ _) Hpl). cbn [orb].
  assert (base_prefix p b m = Ok ((p, b), m)) as Ep.
  { unfold base_prefix. rewrite (proj2 (Z.eqb_neq b 0)) by lia. destruct (Z.eqb_spec b 16) as [->|]; [|done].
    mload Hc. destruct (Z.eqb_spec (dchar d) 48) as [Hd48|]; [|done].
    assert (d = 0) as Hd0 by (unfold dchar in Hd48; destruct (Z.ltb_spec d 10); lia).
    destruct (Hlead Hd0) as [_ ->]. apply cstr_nil in Hrest. mload Hrest. done. }
  rewrite (bind_ok _ _ _ _ _ Ep). cbn [fst snd].
  assert (walk (fun k => num_loop k u32 122 90 b p 0) m = Ok ((n, p + Z.of_nat (length (rev (ldigits 33 b n)))), m)) as Ew.
  { unfold walk. rewrite (num_loop_ok u32 b 4294967295 (rev (ldigits 33 b n))); [by rewrite Hval|done|done|done|lia|lia| |].
    - intros x Hx. apply u32_small. unfold is_u32. lia.
    - apply cstr_size in Hs. rewrite length_fmap in Hs. lia. }
  by rewrite (bind_ok _ _ _ _ _ Ew).
Qed.

(** ** The two versions of hex_to_ascii *)

Lemma nibble_u32 n s : 0 <= s <= 28 -> Z.land (Z.shiftr (u32 n) s) 15 = Z.land (Z.shiftr n s) 15.
Proof.
  intros Hs. change 15 with (Z.ones 4). apply Z.bits_inj_iff'. intros k Hk. rewrite !Z.land_spec, !Z.shiftr_spec by lia.
  destruct (Z.ltb_spec k 4).
  - by rewrite u32_bit by lia.
  - by rewrite Z.ones_spec_high, !andb_false_r by lia.
Qed.

Lemma hex_loops_agree n str k : forall started m, (k <= 7)%nat ->
  bind (hex_loop (S k) started (u32 n) str) (fun st => if negb st then append str 48 else ret tt) m =
  bind (olibc_hex_loop k started n str) (fun _ => append str (hex_char (Z.land n 15))) m.
Proof.
  induction k as [|k IH]; intros started m Hk.
  - cbn [hex_loop olibc_hex_loop]. rewrite andb_false_r. rewrite nibble_u32 by lia. rewrite Z.shiftr_0_r.
    rewrite bind_bind, bind_ret. unfold bind, ret. by destruct (append str _ m) as [[[] ?]| |].
  - remember (S k) as k1 eqn:Ek. cbn [hex_loop]. subst k1. cbn [olibc_hex_loop]. rewrite nibble_u32 by lia.
    set (nib := Z.land (Z.shiftr n (4 * Z.of_nat (S k))) 15).
    rewrite (proj2 (Z.eqb_neq (4 * Z.of_nat (S k)) 0)) by lia. cbn [negb]. rewrite andb_true_r, andb_comm.
    destruct (_ && _).
    + apply IH. lia.
    + rewrite !bind_bind. apply bind_ext. intros _ m'. apply IH. lia.
Qed.

(** ** snprintf against a list of pieces *)

(** The directives of a format with their arguments; Dec has the zero flag and the digits of the
    width. *)
Inductive piece :=
| Lit (c : Z)
| Str (p : Z) (s : list Z)
| Dec (zero : bool) (wd : list Z) (v : Z)
| Chr (v : Z).

Definition enc (x : piece) : list Z :=
  match x with
  | Lit c => [c]
  | Str _ _ => [PERCENT; 115]
  | Dec zero wd _ => PERCENT :: (if zero then [48] else []) ++ (dchar <$> wd) ++ [100]
  | Chr _ => [PERCENT; 99]
  end.
Definition arg_of (x : piece) : list Z :=
  match x with Lit _ => [] | Str p _ => [p] | Dec _ _ v => [v] | Chr v => [v] end.
Definition txt (x : piece) : list Z :=
  match x with
  | Lit c => [c]
  | Str _ s => s
  | Dec zero wd v =>
    let buf := dec_buf (s32 v) in
    replicate (Z.to_nat (horner 10 0 wd - Z.of_nat (length buf))) (if zero then 48 else SPACE) ++ rev buf
  | Chr v => [u8 v]
  end.

(** The text l was written at out + len as far as there was room. *)
Definition room (size len : Z) : nat := Z.to_nat (size - 1 - len).
Definition emitted (out size len : Z) (l : list Z) (m m' : mem) (len' : Z) : Prop :=
  len' = len + Z.of_nat (length (take (room size len) l)) /\
  bytes_at m' (out + len) (take (room size len) l) /\
  only (out + len) (length (take (room size len) l)) m m'.

Section Snprintf.
Variables out size : Z.
Hypothesis size_pos : 1 <= size.

(** A string that does not touch the output buffer. *)
Definition apart (q : Z) (s : list Z) : Prop := q + Z.of_nat (length s) < out \/ out + size <= q.
Definition piece_ok (m : mem) (x : piece) : Prop :=
  match x with
  | Lit c => is_char c /\ c <> PERCENT
  | Str p s => cstr m p s /\ apart p s
  | Dec zero wd v =>
    Forall (fun d => 0 <= d < 10) wd /\ horner 10 0 wd < 2147483648 /\
    (zero = false -> forall d ds, wd = d :: ds -> d <> 0)
  | Chr _ => True
  end.

Lemma emitted_bounds len l m m' len' :
  emitted out size len l m m' len' -> 0 <= len <= size - 1 -> len <= len' <= size - 1.
Proof. intros (-> & _) Hl. rewrite length_take. unfold room. lia. Qed.

Lemma emitted_none len l m : size - 1 <= len -> emitted out size len l m m len.
Proof.
  intros Hl. unfold emitted. replace (room size len) with 0%nat by (unfold room; lia). simpl.
  rewrite Z.add_0_r. split_and!; [done|done|apply only_refl].
Qed.
Lemma emitted_nil len m : emitted out size len [] m m len.
Proof. unfold emitted. rewrite take_nil. simpl. rewrite Z.add_0_r. split_and!; [done|done|apply only_refl]. Qed.

Lemma emitted_only len l m m' len' :
  emitted out size len l m m' len' -> 0 <= len <= size - 1 -> only out (Z.to_nat size) m m'.
Proof.
  intros (_ & _ & Ho) Hl. eapply only_mono; [| |exact Ho]; [lia|]. rewrite length_take. unfold room. lia.
Qed.

Lemma emitted_app len l1 l2 m m1 m2 len1 len2 :
  0 <= len <= size - 1 -> emitted out size len l1 m m1 len1 -> emitted out size len1 l2 m1 m2 len2 ->
  emitted out size len (l1 ++ l2) m m2 len2.
Proof using size_pos.
  intros Hl (E1 & Hb1 & Ho1) (E2 & Hb2 & Ho2).
  assert (take (room size len) (l1 ++ l2) = take (room size len) l1 ++ take (room size len1) l2) as Et.
  { rewrite take_app. do 2 f_equal. rewrite E1, length_take. unfold room. lia. }
  unfold emitted. rewrite Et, length_app. split_and!.
  - lia.
  - apply bytes_at_app. replace (out + len + Z.of_nat (length (take (room size len) l1))) with (out + len1) by lia.
    split; [|done].
    eapply only_bytes_at; [exact Ho2| |exact Hb1]. lia.
  - eapply only_join; [exact Ho1|exact Ho2|lia..].
Qed.

(** One character while there is room. *)
Lemma emit_one len c m :
  0 <= len < size - 1 -> mapped m out (Z.to_nat size) ->
  exists m', store (out + len) c m = Ok (tt, m') /\ emitted out size len [u8 c] m m' (len + 1).
Proof.
  intros Hl Hm. assert (is_Some (m !! (out + len))) as H0.
  { replace (out + len) with (out + Z.of_nat (Z.to_nat len)) by lia. apply Hm. lia. }
  eexists. rewrite store_ok by done. split; [reflexivity|]. unfold emitted.
  rewrite take_ge by (simpl; unfold room; lia). split_and!.
  - done.
  - split; [apply lookup_insert_eq|done].
  - intros a Ha. simpl in Ha. apply lookup_insert_ne. lia.
Qed.

Lemma emitted_mapped len l m m' len' :
  0 <= len <= size - 1 -> emitted out size len l m m' len' -> mapped m out (Z.to_nat size) -> mapped m' out (Z.to_nat size).
Proof. intros Hl (_ & Hb & Ho) Hm. eapply mapped_only; [exact Ho|by apply bytes_at_mapped|done]. Qed.

Lemma put_list_ok l : forall m len,
  0 <= len <= size - 1 -> mapped m out (Z.to_nat size) -> Forall is_u8 l ->
  exists m' len', put_list out size len l m = Ok (len', m') /\ emitted out size len l m m' len'.
Proof using size_pos.
  induction l as [|c l IH]; intros m len Hl Hm Hu; cbn [put_list].
  - exists m, len. split; [done|apply emitted_nil].
  - apply list.Forall_cons in Hu as [Hc Hu]. destruct (Z.ltb_spec len (size - 1)) as [Hlt|Hge].
    + destruct (emit_one len c m) as (m1 & E1 & Hem1); [lia|done|]. rewrite (bind_ok _ _ _ _ _ E1).
      rewrite u8_small in Hem1 by done.
      destruct (IH m1 (len + 1)) as (m2 & len2 & E2 & Hem2); [lia|by eapply emitted_mapped|done|].
      exists m2, len2. split; [done|]. by eapply (emitted_app len [c]).
    + exists m, len. split; [done|]. apply emitted_none. lia.
Qed.

Lemma put_str_ok l : forall fuel m len s,
  0 <= len <= size - 1 -> mapped m out (Z.to_nat size) -> cstr m s l -> apart s l -> (length l < fuel)%nat ->
  exists m' len', put_str fuel out size len s m = Ok (len', m') /\ emitted out size len l m m' len'.
Proof using size_pos.
  induction l as [|c l IH]; intros [|fuel] m len s Hl Hm Hs Ha Hf; simpl in Hf; try lia; cbn [put_str].
  - apply cstr_nil in Hs. mload Hs. exists m, len. split; [done|apply emitted_nil].
  - apply cstr_cons in Hs as (Hc & Hch & Hs). mload Hc. rewrite (proj2 (Z.eqb_neq c 0)) by (unfold is_char in *; lia).
    cbn [negb andb]. destruct (Z.ltb_spec len (size - 1)) as [Hlt|Hge].
    + destruct (emit_one len c m) as (m1 & E1 & Hem1); [lia|done|]. rewrite (bind_ok _ _ _ _ _ E1).
      rewrite char_u8 in Hem1 by done. unfold apart in *. simpl in Ha.
      destruct (IH fuel m1 (len + 1) (s + 1)) as (m2 & len2 & E2 & Hem2); [lia|by eapply emitted_mapped| |lia|lia|].
      { eapply (only_cstr out (Z.to_nat size) m); [eapply emitted_only; [exact Hem1|lia]|lia|done]. }
      exists m2, len2. split; [done|]. by eapply (emitted_app len [c]); [lia|..].
    + exists m, len. split; [done|]. apply emitted_none. lia.
Qed.

Lemma dec_buf_u8 v : Forall is_u8 (dec_buf v).
Proof.
  assert (forall k x, Forall is_u8 (dec_digits k x)) as Hd.
  { induction k as [|k IH]; intros x; simpl; [constructor|]. destruct (Z.ltb_spec 0 x); [|constructor].
    constructor; [|apply IH]. rewrite Z.rem_mod_nonneg by lia.
    pose proof (Z.mod_pos_bound x 10). unfold is_u8. lia. }
  unfold dec_buf. destruct (v =? 0); [by repeat constructor|]. apply Forall_app. split; [apply Hd|].
  destruct (v <? 0); by repeat constructor.
Qed.

(** The flag and the width of a directive that ends in c. *)
Lemma prefix_ok m p (zero : bool) wd c :
  bytes_at m p ((if zero then [48] else []) ++ (dchar <$> wd) ++ [c]) -> is_digit c = false ->
  Forall (fun d => 0 <= d < 10) wd -> horner 10 0 wd < 2147483648 ->
  (zero = false -> forall d ds, wd = d :: ds -> d <> 0) ->
  exists c0 e, m !! p = Some c0 /\ (c0 =? 48) = zero /\
    walk (fun n => width_loop n (if zero then p + 1 else p)) m = Ok ((horner 10 0 wd, e), m) /\ m !! e = Some c /\
    e + 1 = p + Z.of_nat (length ((if zero then [48] else []) ++ (dchar <$> wd) ++ [c])).
Proof.
  intros Hb Hc Hd Hv Hz. unfold width_loop, walk.
  set (q := if zero then p + 1 else p).
  assert (bytes_at m q ((dchar <$> wd) ++ [c])) as Hq by (subst q; destruct zero; apply Hb).
  pose proof (bytes_at_size _ _ _ Hq) as Hsz. rewrite length_app, length_fmap in Hsz. simpl in Hsz.
  rewrite (dec_loop_ok wd _ m q 0 c) by (done || lia).
  apply bytes_at_app in Hq as [Hq [He _]]. rewrite length_fmap in He.
  assert (exists c0, m !! p = Some c0 /\ (c0 =? 48) = zero) as (c0 & H0 & Hz0).
  { destruct zero; [exists 48; split; [apply Hb|done]|]. destruct wd as [|d wd].
    - exists c. split; [apply Hb|]. unfold is_digit, in_range in Hc. bdestr; simpl in *; done || lia.
    - exists (dchar d). split; [apply Hb|]. apply list.Forall_cons in Hd as [Hd0 _].
      destruct (dchar_dec d Hd0) as [-> _]. apply Z.eqb_neq. specialize (Hz eq_refl d wd eq_refl). lia. }
  exists c0, (q + Z.of_nat (length wd)). split_and!; try done.
  subst q. rewrite !length_app, length_fmap. destruct zero; simpl; lia.
Qed.

(** A directive emits its text. *)
Lemma directive_ok x m len args zero wd c :
  0 <= len < size - 1 -> mapped m out (Z.to_nat size) -> piece_ok m x ->
  match x with Lit _ => False | Str _ _ => c = 115 | Dec z w _ => c = 100 /\ z = zero /\ w = wd | Chr _ => c = 99 end ->
  exists m' len', directive out size len c (if zero then 48 else SPACE) (horner 10 0 wd) (arg_of x ++ args) m =
    Ok ((len', args), m') /\ emitted out size len (txt x) m m' len'.
Proof using size_pos.
  intros Hl Hm Hok Hc. unfold directive. destruct x as [c'|p s|z w v|v]; [done|..]; simpl in Hok.
  - subst c. cbn [Z.eqb Pos.eqb arg_of app]. destruct Hok as [Hs Ha].
    destruct (put_str_ok s (S (base.size m)) m len p) as (m' & len' & E & Hem); [lia|done|done|done|apply cstr_size in Hs; lia|].
    exists m', len'. split; [|done]. unfold bind, walk. by rewrite E.
  - destruct Hc as (-> & -> & ->). cbn [Z.eqb Pos.eqb arg_of app].
    destruct (put_list_ok (replicate (Z.to_nat (horner 10 0 wd - Z.of_nat (length (dec_buf (s32 v))))) (if zero then 48 else SPACE)) m len)
      as (m1 & len1 & E1 & Hem1); [lia|done|apply Forall_replicate; destruct zero; unfold is_u8, SPACE; lia|].
    rewrite (bind_ok _ _ _ _ _ E1). pose proof (emitted_bounds _ _ _ _ _ Hem1 ltac:(lia)).
    destruct (put_list_ok (rev (dec_buf (s32 v))) m1 len1) as (m2 & len2 & E2 & Hem2); [lia|by eapply emitted_mapped; [|exact Hem1|]; [lia|]| |].
    { pose proof (dec_buf_u8 (s32 v)) as Hu. rewrite list.Forall_forall in *. intros y Hy.
      apply Hu. by apply list_elem_of_In, in_rev, list_elem_of_In. }
    rewrite (bind_ok _ _ _ _ _ E2). exists m2, len2. split; [done|]. cbn [txt]. eapply emitted_app; [lia|done|done].
  - subst c. cbn [Z.eqb Pos.eqb arg_of app].
    destruct (emit_one len v m) as (m1 & E1 & Hem1); [lia|done|]. rewrite (bind_ok _ _ _ _ _ E1). by exists m1, (len + 1).
Qed.

Lemma piece_ok_frame m m' x : only out (Z.to_nat size) m m' -> piece_ok m x -> piece_ok m' x.
Proof using size_pos.
  intros Ho. destruct x as [| p s| |]; simpl; [done| |done|done]. intros [Hs Ha]. split; [|done].
  eapply only_cstr; [exact Ho| |done]. unfold apart in Ha. lia.
Qed.

(** The part of the loop behind a percent sign. *)
Lemma fmt_directive x fuel m p len args (zero : bool) (wd : list Z) c :
  enc x = PERCENT :: (if zero then [48] else []) ++ (dchar <$> wd) ++ [c] ->
  match x with Lit _ => False | Str _ _ => c = 115 | Dec z w _ => c = 100 /\ z = zero /\ w = wd | Chr _ => c = 99 end ->
  bytes_at m p (enc x) -> 0 <= len < size - 1 -> mapped m out (Z.to_nat size) -> piece_ok m x ->
  Forall (fun d => 0 <= d < 10) wd -> horner 10 0 wd < 2147483648 ->
  (zero = false -> forall d ds, wd = d :: ds -> d <> 0) ->
  exists m1 len1, fmt_loop (S fuel) out size p len (arg_of x ++ args) m =
      fmt_loop fuel out size (p + Z.of_nat (length (enc x))) len1 args m1 /\
    emitted out size len (txt x) m m1 len1.
Proof using size_pos.
  intros Eenc Hkind Hb Hl Hm Hok Hd Hv Hz. rewrite Eenc in Hb. destruct Hb as [Hp Hb].
  assert (is_digit c = false) as Hcd by (destruct x; [done|by subst..|by destruct Hkind as [-> _]|by subst]).
  destruct (prefix_ok m (p + 1) zero wd c Hb Hcd Hd Hv Hz) as (c0 & e & H0 & Hz0 & Ew & He & Elen).
  destruct (directive_ok x m len args zero wd c Hl Hm Hok Hkind) as (m1 & len1 & E1 & Hem1).
  exists m1, len1. split; [|done]. cbn [fmt_loop]. mload Hp. cbn [PERCENT Z.eqb Pos.eqb negb andb].
  rewrite (proj2 (Z.ltb_lt len (size - 1))) by lia. cbn [negb]. mload H0. rewrite Hz0.
  rewrite (bind_ok _ _ _ _ _ Ew). cbn [fst snd]. mload He. rewrite (bind_ok _ _ _ _ _ E1). cbn [fst snd].
  f_equal. rewrite Eenc. simpl length. lia.
Qed.

Lemma fmt_loop_ok ps : forall fuel m p len,
  cstr m p (mjoin (enc <$> ps)) -> apart p (mjoin (enc <$> ps)) -> (length ps < fuel)%nat ->
  0 <= len <= size - 1 -> mapped m out (Z.to_nat size) -> Forall (piece_ok m) ps ->
  exists m' len', fmt_loop fuel out size p len (mjoin (arg_of <$> ps)) m = Ok (len', m') /\
    emitted out size len (mjoin (txt <$> ps)) m m' len'.
Proof using size_pos.
  induction ps as [|x ps IH]; intros [|fuel] m p len Hs Ha Hf Hl Hm Hok; simpl in Hf; try lia.
  { apply cstr_nil in Hs. cbn [fmt_loop]. mload Hs. exists m, len. split; [done|apply emitted_nil]. }
  apply list.Forall_cons in Hok as [Hx Hok].
  assert (exists c0 rest, enc x = c0 :: rest /\ is_char c0) as (c0 & rest & Eenc & Hc0).
  { destruct x; simpl in *; eexists _, _; (split; [reflexivity|]); [tauto|done..]. }
  change (mjoin (enc <$> x :: ps)) with (enc x ++ mjoin (enc <$> ps)) in *.
  change (mjoin (txt <$> x :: ps)) with (txt x ++ mjoin (txt <$> ps)) in *.
  change (mjoin (arg_of <$> x :: ps)) with (arg_of x ++ mjoin (arg_of <$> ps)) in *.
  assert (forall m1 len1 p1, p1 = p + Z.of_nat (length (enc x)) -> emitted out size len (txt x) m m1 len1 ->
    exists m' len', fmt_loop fuel out size p1 len1 (mjoin (arg_of <$> ps)) m1 = Ok (len', m') /\
      emitted out size len (txt x ++ mjoin (txt <$> ps)) m m' len') as Hcont.
  { intros m1 len1 p1 -> Hem. pose proof (emitted_only _ _ _ _ _ Hem Hl) as Ho.
    destruct Hs as [Hsb Hsc]. rewrite <-app_assoc in Hsb. apply bytes_at_app in Hsb as [_ Hsb]. apply Forall_app in Hsc as [_ Hsc].
    unfold apart in *. rewrite length_app in Ha.
    destruct (IH fuel m1 (p + Z.of_nat (length (enc x))) len1) as (m' & len' & E & Hem').
    - eapply only_cstr; [exact Ho|lia|by split].
    - lia.
    - lia.
    - pose proof (emitted_bounds _ _ _ _ _ Hem Hl). lia.
    - by eapply emitted_mapped.
    - eapply list.Forall_impl; [exact Hok|]. intros y. by apply piece_ok_frame.
    - exists m', len'. split; [done|]. by eapply emitted_app. }
  destruct (Z.ltb_spec len (size - 1)) as [Hlt|Hge].
  2:{ pose proof Hs as Hs'. rewrite Eenc in Hs'. apply cstr_cons in Hs' as (Hc & _ & _). cbn [fmt_loop]. mload Hc.
      rewrite (proj2 (Z.ltb_ge len (size - 1))) by lia. rewrite andb_false_r. cbn [negb].
      exists m, len. split; [done|]. apply emitted_none. lia. }
  assert (bytes_at m p (enc x)) as Hpx.
  { destruct Hs as [Hsb _]. rewrite <-app_assoc in Hsb. by apply bytes_at_app in Hsb as [? _]. }
  destruct x as [c|q s|zero wd v|v].
  - injection Eenc as <- <-. destruct Hx as [Hcc Hcp]. destruct Hpx as [Hc _]. cbn [fmt_loop]. mload Hc.
    rewrite (proj2 (Z.eqb_neq c 0)) by (unfold is_char in *; lia). rewrite (proj2 (Z.ltb_lt len (size - 1))) by lia. cbn [negb andb].
    rewrite (proj2 (Z.eqb_neq c PERCENT)) by done. cbn [negb].
    destruct (emit_one len c m) as (m1 & E1 & Hem1); [lia|done|]. rewrite (bind_ok _ _ _ _ _ E1).
    rewrite char_u8 in Hem1 by done. cbn [arg_of app]. apply Hcont; [simpl; lia|done].
  - destruct (fmt_directive (Str q s) fuel m p len (mjoin (arg_of <$> ps)) false [] 115) as (m1 & len1 & -> & Hem1); try (done || lia).
    by apply Hcont.
  - pose proof Hx as (Hd & Hv & Hz).
    destruct (fmt_directive (Dec zero wd v) fuel m p len (mjoin (arg_of <$> ps)) zero wd 100) as (m1 & len1 & -> & Hem1); try (done || lia).
    by apply Hcont.
  - destruct (fmt_directive (Chr v) fuel m p len (mjoin (arg_of <$> ps)) false [] 99) as (m1 & len1 & -> & Hem1); try (done || lia).
    by apply Hcont.
Qed.
End Snprintf.

(** ** The text of a directive

    [renders x t]: t is what the piece x of a format stands for.  The text of a number is described
    by its value and its form, apart from the way it is computed: decimal digits that have the
    absolute value as their value, no leading zero, a minus sign in front of a negative number. *)
Definition decimal (n : Z) (l : list Z) : Prop :=
  exists ds, l = (if n <? 0 then [MINUS] else []) ++ ((fun d => 48 + d) <$> ds) /\ Forall (fun d => 0 <= d <= 9) ds /\
    (ds = [0] \/ exists d ds', ds = d :: ds' /\ d <> 0) /\ foldl (fun a d => 10 * a + d) 0 ds = Z.abs n.
Definition renders (x : piece) (t : list Z) : Prop :=
  match x with
  | Lit c => t = [c]
  | Str _ s => t = s
  | Dec zero wd v => exists l, (if decide (s32 v = -2147483648) then l = [MINUS] else decimal (s32 v) l) /\
      t = replicate (Z.to_nat (foldl (fun a d => 10 * a + d) 0 wd - Z.of_nat (length l))) (if zero then 48 else 32) ++ l
  | Chr v => t = [u8 v]
  end.
Lemma horner_10 ds : forall acc, horner 10 acc ds = foldl (fun a d => 10 * a + d) acc ds.
Proof. unfold horner. induction ds as [|d ds IH]; intros acc; [done|]. cbn [foldl]. rewrite IH. f_equal. lia. Qed.
Lemma dec_digits_ldigits k : forall v, 0 < v < 10 ^ Z.of_nat k -> dec_digits k v = (fun d => 48 + d) <$> ldigits k 10 v.
Proof.
  induction k as [|k IH]; intros v Hv; [simpl in Hv; lia|]. cbn [dec_digits ldigits]. rewrite (proj2 (Z.ltb_lt 0 v)), Z.rem_mod_nonneg, Z.quot_div_nonneg by lia.
  rewrite fmap_cons. f_equal. rewrite Nat2Z.inj_succ, Z.pow_succ_r in Hv by lia. assert (0 <= v / 10) by (apply Z.div_pos; lia).
  destruct (Z.eqb_spec (v / 10) 0) as [->|Hne]; [by destruct k|]. apply IH. split; [lia|]. apply Z.div_lt_upper_bound; lia.
Qed.
Lemma dec_buf_decimal v : -2147483648 < v < 2147483648 -> decimal v (rev (dec_buf v)).
Proof.
  intros Hv. unfold decimal, dec_buf. destruct (Z.eqb_spec v 0) as [->|Hne].
  { exists [0]. split_and!; [done|by repeat constructor|by left|done]. }
  assert (Ha : (if v <? 0 then s32 (- v) else v) = Z.abs v) by (destruct (Z.ltb_spec v 0); rewrite ?s32_small; lia). rewrite Ha, rev_app_distr.
  assert (Hb : 0 < Z.abs v < 10 ^ Z.of_nat 32) by (change (10 ^ Z.of_nat 32) with 100000000000000000000000000000000; lia).
  exists (rev (ldigits 32 10 (Z.abs v))). rewrite dec_digits_ldigits by done. split_and!.
  - f_equal; [by destruct (v <? 0)|]. by rewrite <-map_rev.
  - apply Forall_rev. eapply list.Forall_impl; [by apply ldigits_range|]. cbn. lia.
  - right. destruct (ldigits_lead 32 10 (Z.abs v)) as (d & ds & -> & Hd); [lia|lia|lia|]. exists d, ds. split; [done|]. intros H0. destruct (Hd H0). lia.
  - rewrite <-horner_10. apply ldigits_value; lia.
Qed.
Lemma txt_renders x : renders x (txt x).
Proof.
  destruct x as [c|p s|zero wd v|v]; cbn [renders txt]; [done|done| |done]. exists (rev (dec_buf (s32 v))). assert (Hr : -2147483648 <= s32 v < 2147483648) by (unfold s32; pose proof (u32_range v) as Hu; unfold is_u32 in Hu; bdestr; lia). split.
  - destruct (decide _) as [->|Hne]; [done|]. apply dec_buf_decimal. lia.
  - by rewrite length_rev, horner_10.
Qed.

(** ** The generator *)

(** A left shift that is undone by no bit: 2^32 would divide x (2^k - 1). *)
Lemma xor_left_zero x k :
  is_u32 x -> 0 < k -> Z.gcd 4294967296 (2 ^ k - 1) = 1 ->
  Z.lxor x (u32 (Z.shiftl x k)) = 0 -> x = 0.
Proof.
  intros Hx Hk Hg E%Z.lxor_eq. rewrite Z.shiftl_mul_pow2 in E by lia. unfold u32 in E.
  assert ((4294967296 | (2 ^ k - 1) * x)) as Hd.
  { exists (x * 2 ^ k / 4294967296). pose proof (Z.div_mod (x * 2 ^ k) 4294967296). lia. }
  apply Gauss in Hd; [|by apply Zgcd_1_rel_prime]. destruct Hd as [q Hq]. unfold is_u32 in Hx. nia.
Qed.
Lemma xor_right_zero x k : 0 <= x -> 0 < k -> Z.lxor x (Z.shiftr x k) = 0 -> x = 0.
Proof.
  intros Hx Hk E%Z.lxor_eq. rewrite Z.shiftr_div_pow2 in E by lia.
  destruct (Z.eq_dec x 0) as [|Hne]; [done|]. pose proof (Z.div_lt x (2 ^ k) ltac:(lia) ltac:(apply Z.pow_gt_1; lia)). lia.
Qed.
Lemma lxor_u32 x y : is_u32 x -> is_u32 y -> is_u32 (Z.lxor x y).
Proof.
  intros Hx Hy. assert (Z.lxor x y = u32 (Z.lxor x y)) as ->; [|apply u32_range].
  apply Z.bits_inj_iff'. intros i Hi. destruct (Z.ltb_spec i 32).
  - by rewrite u32_bit by lia.
  - rewrite u32_bit_high, Z.lxor_spec by lia. rewrite <-(u32_small x), <-(u32_small y), !u32_bit_high by (done || lia). done.
Qed.
Lemma shiftr_u32 x k : is_u32 x -> 0 <= k -> is_u32 (Z.shiftr x k).
Proof.
  unfold is_u32. intros Hx Hk. rewrite Z.shiftr_div_pow2 by lia.
  assert (0 < 2 ^ k) by lia. split; [apply Z.div_pos; lia|].
  eapply Z.le_lt_trans; [apply Z.div_le_upper_bound with (q := x); [lia|nia]|lia].
Qed.

Lemma rand_step_ok s : is_u32 s -> is_u32 (rand_step s) /\ (s <> 0 -> rand_step s <> 0).
Proof.
  intros Hs. unfold rand_step.
  set (s1 := Z.lxor s (u32 (Z.shiftl s 13))). assert (is_u32 s1) as H1 by (apply lxor_u32; auto with word).
  set (s2 := Z.lxor s1 (Z.shiftr s1 17)). assert (is_u32 s2) as H2 by (apply lxor_u32; [done|by apply shiftr_u32]).
  split; [apply lxor_u32; auto with word|]. intros Hne Hz. apply Hne.
  apply (xor_left_zero s 13); [done|lia|reflexivity|]. apply (xor_right_zero s1 17); [apply H1|lia|].
  apply (xor_left_zero s2 5); [done|lia|reflexivity|done].
Qed.

(** ** Properties *)

(** what int_to_ascii prints, atoi reads back, for every int but INT_MIN. *)
Theorem int_to_ascii_atoi m str n :
  -2147483648 < n < 2147483648 -> 0 < str -> mapped m str 12 ->
  exists m', int_to_ascii n str m = Ok (tt, m') /\ only str 12 m m' /\ atoi str m' = Ok (n, m').
Proof.
  intros Hn Hp Hm. destruct (int_to_ascii_ok m str n Hn Hm) as (m' & E & Hs & Ho).
  exists m'. split_and!; [done|done|]. apply atoi_text; [done|lia|done].
Qed.

(** what itoa prints in any base from 2 to 36, strtoul reads back in the same base, for every
    non-negative int. *)
Theorem itoa_strtoul m str v b :
  2 <= b <= 36 -> 0 <= v < 2147483648 -> mapped m str 35 ->
  exists m', itoa v str b m = Ok (str, m') /\ only str 35 m m' /\ strtoul str 0 b m' = Ok (v, m').
Proof.
  intros Hb Hv Hm. destruct (itoa_ok m str v b Hb ltac:(lia) Hm) as (m' & E & Hs & Ho).
  rewrite (proj2 (Z.ltb_ge v 0)), Z.abs_eq in Hs by lia.
  exists m'. split_and!; [done|done|]. apply strtoul_text; [lia|done|done].
Qed.

(** strtol does not read back the digits above f that itoa prints in bases above 16. *)
Theorem strtol_stops_at_g :
  exists m m', itoa 35 100 36 m = Ok (100, m') /\ strtol 100 0 36 m' = Ok (0, m') /\ strtoul 100 0 36 m' = Ok (35, m').
Proof.
  set (m := mem_of 100 (replicate 35 1)). set (m' := match itoa 35 100 36 m with Ok (_, x) => x | _ => m end).
  exists m, m'. split_and!; vm_compute; reflexivity.
Qed.

(** the kernel's and the user library's hex_to_ascii write the same text for every 32-bit
    value, taken as unsigned by the one and as int by the other. *)
Theorem hex_to_ascii_agree n str m : hex_to_ascii (u32 n) str m = olibc_hex_to_ascii n str m.
Proof.
  unfold hex_to_ascii, olibc_hex_to_ascii. apply bind_ext. intros _ m1. apply bind_ext. intros _ m2.
  apply hex_loops_agree. lia.
Qed.

(** C7: snprintf with a format of literal characters, %s, %c and %d with an optional zero flag and
    width writes the text that the format stands for, cut to size - 1 characters, and the
    terminator, returns the number of characters written, and touches nothing outside the size bytes
    of the buffer.  A number is written by its decimal digits without leading zeros, behind a minus
    sign when it is negative, and padded on the left to the width; INT_MIN, which cannot be negated,
    as the minus sign alone.  The format, its strings and the buffer do not overlap. *)
Theorem snprintf_renders m out size fmt ps :
  1 <= size -> mapped m out (Z.to_nat size) ->
  cstr m fmt (mjoin (enc <$> ps)) -> apart out size fmt (mjoin (enc <$> ps)) -> Forall (piece_ok out size m) ps ->
  exists m' ts, Forall2 renders ps ts /\ let t := take (Z.to_nat (size - 1)) (mjoin ts) in
    snprintf out size fmt (mjoin (arg_of <$> ps)) m = Ok (Z.of_nat (length t), m') /\
    bytes_at m' out (t ++ [0]) /\ only out (Z.to_nat size) m m'.
Proof.
  intros Hsz Hm Hf Ha Hok. unfold snprintf.
  destruct (fmt_loop_ok out size Hsz ps (S (base.size m)) m fmt 0 Hf Ha) as (m1 & len & E & Hem); [|lia|done|done|].
  { assert (length ps <= length (mjoin (enc <$> ps)))%nat.
    { clear. induction ps as [|x ps IH]; [done|]. change (mjoin (enc <$> x :: ps)) with (enc x ++ mjoin (enc <$> ps)).
      rewrite length_app. destruct x; simpl in *; lia. }
    apply cstr_size in Hf. lia. }
  rewrite (bind_ok (walk (fun n => fmt_loop n out size fmt 0 (mjoin (arg_of <$> ps)))) _ _ _ _ E).
  pose proof (emitted_mapped out size 0 _ _ _ _ ltac:(lia) Hem Hm) as Hm1.
  pose proof (emitted_only out size Hsz 0 _ _ _ _ Hem ltac:(lia)) as Ho1. destruct Hem as (El & Hb & _).
  assert (room size 0 = Z.to_nat (size - 1)) as Er by (unfold room; f_equal; lia).
  rewrite Er, Z.add_0_r in Hb. rewrite Er, Z.add_0_l in El.
  set (t := take (Z.to_nat (size - 1)) (mjoin (txt <$> ps))) in *.
  assert (length t <= Z.to_nat (size - 1))%nat as Hlt by (subst t; rewrite length_take; lia).
  destruct (snoc_byte m1 out t 0 Hb) as (m2 & E2 & Hb2 & Ho2); [unfold is_u8; lia|apply Hm1; lia|].
  rewrite <-El in E2. rewrite (bind_ok _ _ _ _ _ E2). exists m2, (txt <$> ps). split; [apply Forall2_fmap_r, Forall_Forall2_diag, list.Forall_forall; intros; apply txt_renders|].
  cbv zeta. fold t. rewrite <-El. split_and!; [done|done|].
  eapply only_join; [exact Ho1|exact Ho2|lia..].
Qed.

(** the generator of rand never reaches the state 0, in which it would stay, from a non-zero
    32-bit seed. *)
Theorem rand_never_zero n seed : is_u32 seed -> seed <> 0 -> Nat.iter n rand_step seed <> 0.
Proof.
  intros Hs Hne. assert (is_u32 (Nat.iter n rand_step seed) /\ Nat.iter n rand_step seed <> 0) as [_ H]; [|done].
  induction n as [|n [IH1 IH2]]; [done|]. simpl. destruct (rand_step_ok _ IH1). auto.
Qed.

(** ** Concrete calls *)

(** A format at 100, a string argument at 200 and a buffer of 40 bytes at 300. *)
Definition fmt_mem : mem :=
  mem_of 100 [118; 61; 37; 48; 51; 100; 44; 37; 115; 37; 99; 0] ∪ mem_of 200 [104; 105; 0] ∪ mem_of 300 (replicate 40 1).

Lemma fmt_room n : (n <= 40)%nat -> mapped fmt_mem 300 n.
Proof.
  intros Hn i Hi. assert (i < 40)%nat as Hi' by lia. clear -Hi'.
  do 40 (destruct i as [|i]; [by eexists|]). lia.
Qed.

Lemma int_to_ascii_atoi_witness :
  exists m', int_to_ascii (-1234) 300 fmt_mem = Ok (tt, m') /\ only 300 12 fmt_mem m' /\ atoi 300 m' = Ok (-1234, m').
Proof. apply (int_to_ascii_atoi fmt_mem 300 (-1234)); [lia|lia|apply fmt_room; lia]. Defined.

Lemma itoa_strtoul_witness :
  exists m', itoa 3735928 300 36 fmt_mem = Ok (300, m') /\ only 300 35 fmt_mem m' /\ strtoul 300 0 36 m' = Ok (3735928, m').
Proof. apply (itoa_strtoul fmt_mem 300 3735928 36); [lia|lia|apply fmt_room; lia]. Defined.

Lemma snprintf_renders_witness :
  exists m' ts, Forall2 renders [Lit 118; Lit 61; Dec true [3] 4294967291; Lit 44; Str 200 [104; 105]; Chr 33] ts /\ let t := take 7 (mjoin ts) in
    snprintf 300 8 100 [4294967291; 200; 33] fmt_mem = Ok (Z.of_nat (length t), m') /\
    bytes_at m' 300 (t ++ [0]) /\ only 300 8 fmt_mem m'.
Proof.
  apply (snprintf_renders fmt_mem 300 8 100 [Lit 118; Lit 61; Dec true [3] 4294967291; Lit 44; Str 200 [104; 105]; Chr 33]).
  - lia.
  - apply fmt_room. simpl. lia.
  - by repeat constructor.
  - left. simpl. lia.
  - repeat constructor; done.
Defined.

Lemma rand_never_zero_witness : Nat.iter 5 rand_step 0xA5A5A5A5 <> 0.
Proof. apply (rand_never_zero 5 0xA5A5A5A5); [split; lia|lia]. Defined.
