(* ===== verification/Proc.v ===== *)
(** * Processes and scheduling (kernel/proc/proc.c)

    The table of 16 processes with the scheduler's variables.  A [process_t*] is the index of its
    table entry, [NULLP] for NULL.  The services of the other components that the file uses, the
    heap, the address spaces, kernel memory, the descriptors of syscall.c, the task state segment
    and the interrupt flag, are the interface [ProcEnv] over a state E of their own.  Names and
    argument strings are given by their characters. *)
From S2P Require Import Prelude.

Module Proc.

Definition MAX_PROCS : Z := 16.
Definition PROC_NAME_MAX : Z := 32.
Definition PROC_STACK_SIZE : Z := 16384.
Definition PROC_KSTACK_SIZE : Z := 65536.
Definition USER_STACK_TOP : Z := 0xBFF00000.
Definition KERNEL_CS : Z := 0x08.
Definition KERNEL_DS : Z := 0x10.
Definition USER_CS : Z := 0x1B.
Definition USER_DS : Z := 0x23.
Definition PAGE_SIZE : Z := 4096.
(** PAGE_PRESENT | PAGE_RW | PAGE_USER *)
Definition USER_FLAGS : Z := 7.
Definition NULLP : Z := -1.
(** sizeof(registers_t) and the offsets of its fields; ds is followed by two bytes of padding. *)
Definition SIZEOF_REGS : Z := 64.
Definition OFF_DS : Z := 0.
Definition OFF_EBP : Z := 12.
Definition OFF_EAX : Z := 32.
Definition OFF_EIP : Z := 44.
Definition OFF_CS : Z := 48.
Definition OFF_EFLAGS : Z := 52.
Definition OFF_ESP : Z := 56.
Definition OFF_SS : Z := 60.

Inductive proc_state := PROC_UNUSED | PROC_READY | PROC_RUNNING | PROC_BLOCKED | PROC_EXITED.
#[global] Instance proc_state_eq_dec : EqDecision proc_state.
Proof. solve_decision. Defined.

Inductive kill_result :=
| PROC_KILL_OK | PROC_KILL_INVALID | PROC_KILL_NO_SUCH | PROC_KILL_KERNEL | PROC_KILL_ALREADY_EXITED.

Record process := Process {
  pid : Z; name : list Z; entry : Z;
  image_base : Z; image_size : Z; image_load_base : Z;
  stack_base : Z; stack_size : Z; stack_kern_base : Z;
  kstack_base : Z; kstack_size : Z;
  context_esp : Z; exit_code : Z; vfork_parent_pid : Z;
  page_dir : Z; page_dir_phys : Z;
  state : proc_state; is_kernel : bool
}.
(** memset(p, 0, sizeof( *p)) *)
Definition zero_process : process := Process 0 [] 0 0 0 0 0 0 0 0 0 0 0 0 0 0 PROC_UNUSED false.

Definition set_pid v p := Process v (name p) (entry p) (image_base p) (image_size p) (image_load_base p) (stack_base p) (stack_size p) (stack_kern_base p) (kstack_base p) (kstack_size p) (context_esp p) (exit_code p) (vfork_parent_pid p) (page_dir p) (page_dir_phys p) (state p) (is_kernel p).
Definition set_name v p := Process (pid p) v (entry p) (image_base p) (image_size p) (image_load_base p) (stack_base p) (stack_size p) (stack_kern_base p) (kstack_base p) (kstack_size p) (context_esp p) (exit_code p) (vfork_parent_pid p) (page_dir p) (page_dir_phys p) (state p) (is_kernel p).
Definition set_entry v p := Process (pid p) (name p) v (image_base p) (image_size p) (image_load_base p) (stack_base p) (stack_size p) (stack_kern_base p) (kstack_base p) (kstack_size p) (context_esp p) (exit_code p) (vfork_parent_pid p) (page_dir p) (page_dir_phys p) (state p) (is_kernel p).
Definition set_image b sz ld p := Process (pid p) (name p) (entry p) b sz ld (stack_base p) (stack_size p) (stack_kern_base p) (kstack_base p) (kstack_size p) (context_esp p) (exit_code p) (vfork_parent_pid p) (page_dir p) (page_dir_phys p) (state p) (is_kernel p).
Definition set_stack b sz k p := Process (pid p) (name p) (entry p) (image_base p) (image_size p) (image_load_base p) b sz k (kstack_base p) (kstack_size p) (context_esp p) (exit_code p) (vfork_parent_pid p) (page_dir p) (page_dir_phys p) (state p) (is_kernel p).
Definition set_kstack b sz p := Process (pid p) (name p) (entry p) (image_base p) (image_size p) (image_load_base p) (stack_base p) (stack_size p) (stack_kern_base p) b sz (context_esp p) (exit_code p) (vfork_parent_pid p) (page_dir p) (page_dir_phys p) (state p) (is_kernel p).
Definition set_context_esp v p := Process (pid p) (name p) (entry p) (image_base p) (image_size p) (image_load_base p) (stack_base p) (stack_size p) (stack_kern_base p) (kstack_base p) (kstack_size p) v (exit_code p) (vfork_parent_pid p) (page_dir p) (page_dir_phys p) (state p) (is_kernel p).
Definition set_exit_code v p := Process (pid p) (name p) (entry p) (image_base p) (image_size p) (image_load_base p) (stack_base p) (stack_size p) (stack_kern_base p) (kstack_base p) (kstack_size p) (context_esp p) v (vfork_parent_pid p) (page_dir p) (page_dir_phys p) (state p) (is_kernel p).
Definition set_vfork_parent v p := Process (pid p) (name p) (entry p) (image_base p) (image_size p) (image_load_base p) (stack_base p) (stack_size p) (stack_kern_base p) (kstack_base p) (kstack_size p) (context_esp p) (exit_code p) v (page_dir p) (page_dir_phys p) (state p) (is_kernel p).
Definition set_page_dir d f p := Process (pid p) (name p) (entry p) (image_base p) (image_size p) (image_load_base p) (stack_base p) (stack_size p) (stack_kern_base p) (kstack_base p) (kstack_size p) (context_esp p) (exit_code p) (vfork_parent_pid p) d f (state p) (is_kernel p).
Definition set_state v p := Process (pid p) (name p) (entry p) (image_base p) (image_size p) (image_load_base p) (stack_base p) (stack_size p) (stack_kern_base p) (kstack_base p) (kstack_size p) (context_esp p) (exit_code p) (vfork_parent_pid p) (page_dir p) (page_dir_phys p) v (is_kernel p).
Definition set_is_kernel v p := Process (pid p) (name p) (entry p) (image_base p) (image_size p) (image_load_base p) (stack_base p) (stack_size p) (stack_kern_base p) (kstack_base p) (kstack_size p) (context_esp p) (exit_code p) (vfork_parent_pid p) (page_dir p) (page_dir_phys p) (state p) v.

(** What proc.c uses of the rest of the kernel. *)
Class ProcEnv (E : Type) := {
  env_kmalloc : Z -> Z -> M E Z;                       (* kmalloc(size, align, NULL) *)
  env_kfree : Z -> M E unit;
  env_create_user_dir : M E (Z * Z);                   (* directory and frame, (0, _) for NULL *)
  env_kernel_dir : E -> Z * Z;                         (* paging_kernel_dir(), ..._phys() *)
  env_current_dir : E -> Z * Z;                        (* paging_current_dir(), ..._phys() *)
  env_set_current_dir : Z -> Z -> E -> E;
  env_virt_to_phys : Z -> E -> option Z;               (* None: -1 *)
  env_map_page : Z -> Z -> Z -> M E Z;
  env_read8 : Z -> M E Z;                              (* memory, through the current directory *)
  env_read32 : Z -> M E Z;
  env_write32 : Z -> Z -> M E unit;
  env_write8 : Z -> Z -> M E unit;
  env_close_fds : Z -> E -> E;                         (* sys_close_fds_for_pid *)
  env_set_kernel_stack : Z -> E -> E;                  (* tss_set_kernel_stack *)
  env_return_to_shell : E -> E;                        (* bin_return_to_shell *)
  env_iflag : E -> bool;
  env_set_iflag : bool -> E -> E
}.

Record procs (E : Type) := Procs {
  proc_table : list process;
  current_proc : Z;
  next_pid : Z;
  current_index : Z;
  proc_reaper_enabled : bool;
  proc_reap_pending : bool;
  proc_reaper_pid : Z;
  proc_watchdog_pid : Z;
  sched_next_esp : Z;
  kill_requested_pid : Z;
  last_irq_regs : Z;
  foreground_pid : Z;
  env : E
}.
Arguments Procs {E}.
Arguments proc_table {E}.
Arguments current_proc {E}.
Arguments next_pid {E}.
Arguments current_index {E}.
Arguments proc_reaper_enabled {E}.
Arguments proc_reap_pending {E}.
Arguments proc_reaper_pid {E}.
Arguments proc_watchdog_pid {E}.
Arguments sched_next_esp {E}.
Arguments kill_requested_pid {E}.
Arguments last_irq_regs {E}.
Arguments foreground_pid {E}.
Arguments env {E}.

Section Operations.
Context {E : Type} `{ProcEnv E}.
Notation S := (procs E).

Definition with_table v (s : S) := Procs v (current_proc s) (next_pid s) (current_index s) (proc_reaper_enabled s) (proc_reap_pending s) (proc_reaper_pid s) (proc_watchdog_pid s) (sched_next_esp s) (kill_requested_pid s) (last_irq_regs s) (foreground_pid s) (env s).
Definition with_current c i (s : S) := Procs (proc_table s) c (next_pid s) i (proc_reaper_enabled s) (proc_reap_pending s) (proc_reaper_pid s) (proc_watchdog_pid s) (sched_next_esp s) (kill_requested_pid s) (last_irq_regs s) (foreground_pid s) (env s).
Definition with_next_pid v (s : S) := Procs (proc_table s) (current_proc s) v (current_index s) (proc_reaper_enabled s) (proc_reap_pending s) (proc_reaper_pid s) (proc_watchdog_pid s) (sched_next_esp s) (kill_requested_pid s) (last_irq_regs s) (foreground_pid s) (env s).
Definition with_reaper e p (s : S) := Procs (proc_table s) (current_proc s) (next_pid s) (current_index s) e (proc_reap_pending s) p (proc_watchdog_pid s) (sched_next_esp s) (kill_requested_pid s) (last_irq_regs s) (foreground_pid s) (env s).
Definition with_reap_pending v (s : S) := Procs (proc_table s) (current_proc s) (next_pid s) (current_index s) (proc_reaper_enabled s) v (proc_reaper_pid s) (proc_watchdog_pid s) (sched_next_esp s) (kill_requested_pid s) (last_irq_regs s) (foreground_pid s) (env s).
Definition with_watchdog v (s : S) := Procs (proc_table s) (current_proc s) (next_pid s) (current_index s) (proc_reaper_enabled s) (proc_reap_pending s) (proc_reaper_pid s) v (sched_next_esp s) (kill_requested_pid s) (last_irq_regs s) (foreground_pid s) (env s).
Definition with_sched_next_esp v (s : S) := Procs (proc_table s) (current_proc s) (next_pid s) (current_index s) (proc_reaper_enabled s) (proc_reap_pending s) (proc_reaper_pid s) (proc_watchdog_pid s) v (kill_requested_pid s) (last_irq_regs s) (foreground_pid s) (env s).
Definition with_kill_requested v (s : S) := Procs (proc_table s) (current_proc s) (next_pid s) (current_index s) (proc_reaper_enabled s) (proc_reap_pending s) (proc_reaper_pid s) (proc_watchdog_pid s) (sched_next_esp s) v (last_irq_regs s) (foreground_pid s) (env s).
Definition with_last_regs v (s : S) := Procs (proc_table s) (current_proc s) (next_pid s) (current_index s) (proc_reaper_enabled s) (proc_reap_pending s) (proc_reaper_pid s) (proc_watchdog_pid s) (sched_next_esp s) (kill_requested_pid s) v (foreground_pid s) (env s).
Definition with_foreground v (s : S) := Procs (proc_table s) (current_proc s) (next_pid s) (current_index s) (proc_reaper_enabled s) (proc_reap_pending s) (proc_reaper_pid s) (proc_watchdog_pid s) (sched_next_esp s) (kill_requested_pid s) (last_irq_regs s) v (env s).
Definition with_env (v : E) (s : S) := Procs (proc_table s) (current_proc s) (next_pid s) (current_index s) (proc_reaper_enabled s) (proc_reap_pending s) (proc_reaper_pid s) (proc_watchdog_pid s) (sched_next_esp s) (kill_requested_pid s) (last_irq_regs s) (foreground_pid s) v.

(** Calls of the other components. *)
Definition call {A} (c : M E A) : M S A := fun s =>
  match c (env s) with
  | Ok (a, e) => Ok (a, with_env e s)
  | Fault => Fault
  | NoFuel => NoFuel
  end.
Definition effect (f : E -> E) : M S unit := modify (fun s => with_env (f (env s)) s).
Definition ask {A} (f : E -> A) : M S A := gets (fun s => f (env s)).

(** proc_table[i] *)
Definition getp (i : Z) : M S process := s <- get;; lift_opt (lget (proc_table s) i).
Definition updp (i : Z) (f : process -> process) : M S unit :=
  p <- getp i;; s <- get;; t <- lift_opt (lset (proc_table s) i (f p));; modify (with_table t).

(** for (i = 0; i < MAX_PROCS; i++) if (q(proc_table[i])) break;  NULLP when none matches *)
Fixpoint scan (q : process -> bool) (n : nat) (i : Z) : M S Z :=
  match n with
  | O => ret NULLP
  | Datatypes.S n' => p <- getp i;; if q p then ret i else scan q n' (i + 1)
  end.
Definition find_proc (q : process -> bool) : M S Z := scan q 16 0.

Definition free_slot (p : process) : bool :=
  bool_decide (state p = PROC_UNUSED) || bool_decide (state p = PROC_EXITED).

(** pushf; pop flags; cli  and the conditional sti *)
Definition irq_save : M S bool := f <- ask env_iflag;; effect (env_set_iflag false);;; ret f.
Definition irq_restore (flags : bool) : M S unit := if flags then effect (env_set_iflag true) else ret tt.

Definition set_dir (d : Z * Z) : M S unit := effect (env_set_current_dir (fst d) (snd d)).

Definition proc_stack_in_use (p : process) (esp : Z) : bool :=
  if (kstack_base p =? 0) || (kstack_size p =? 0) then false
  else
    let start := kstack_base p in
    let end_ := u32 (start + kstack_size p) in
    if end_ <? start then false else (start <=? esp) && (esp <? end_).

Definition proc_cleanup (i : Z) : M S unit :=
  if i =? NULLP then ret tt
  else
    p <- getp i;;
    (if negb (pid p =? 0) then effect (env_close_fds (pid p)) else ret tt);;;
    (if negb (stack_kern_base p =? 0) then call (env_kfree (stack_kern_base p)) else ret tt);;;
    (if negb (kstack_base p =? 0) then call (env_kfree (kstack_base p)) else ret tt);;;
    (if negb (image_base p =? 0) then call (env_kfree (image_base p)) else ret tt);;;
    (if negb (is_kernel p) && negb (page_dir p =? 0) then call (env_kfree (page_dir p)) else ret tt);;;
    updp i (fun _ => zero_process).

Definition proc_cleanup_process (i : Z) : M S unit := proc_cleanup i.

Definition proc_init : M S unit :=
  modify (fun s => Procs (replicate 16 zero_process) NULLP 1 (-1) false false 0 0 0 0 0 0 (env s)).

(** ** The first frame of a process *)

Definition user_exit_stub : list Z := [0xB8; 8; 0; 0; 0; 0x31; 0xDB; 0xCD; 0xA5; 0xEB; 0xFE].

(** The kernel address of an address of the user stack; 0 for NULL. *)
Definition proc_stack_ptr (p : process) (user_addr : Z) : Z :=
  if user_addr <? stack_base p then 0 else u32 (stack_kern_base p + u32 (user_addr - stack_base p)).

Fixpoint write_bytes (a : Z) (l : list Z) : M S unit :=
  match l with
  | [] => ret tt
  | c :: l' => call (env_write8 a c);;; write_bytes (a + 1) l'
  end.
Fixpoint write_words (a : Z) (l : list Z) : M S unit :=
  match l with
  | [] => ret tt
  | w :: l' => call (env_write32 a w);;; write_words (a + 4) l'
  end.

(** The argument strings, from the last to the first: the final sp and the user addresses of the
    strings in the order of argv; None when the stack is too small. *)
Fixpoint push_args (p : process) (rev_argv : list (list Z)) (sp : Z) (addrs : list Z) : M S (option (Z * list Z)) :=
  match rev_argv with
  | [] => ret (Some (sp, addrs))
  | s :: rest =>
    let len := u32 (Z.of_nat (length s) + 1) in
    if sp <? u32 (stack_base p + len) then ret None
    else
      let sp := u32 (sp - len) in
      let dst := proc_stack_ptr p sp in
      if dst =? 0 then ret None
      else write_bytes dst (s ++ [0]);;; push_args p rest sp (sp :: addrs)
  end.

(** The strings, the vector, argc and the argv pointer below stub_addr; 0 when they do not fit.
    The scratch array arg_addrs is freed on every way out, its contents are [addrs]. *)
Definition push_user_args (p : process) (args : list (list Z)) (stub_addr arg_addrs : Z) : M S Z :=
  let argc := Z.of_nat (length args) in
  let done (r : Z) : M S Z := (if negb (arg_addrs =? 0) then call (env_kfree arg_addrs) else ret tt);;; ret r in
  r <- push_args p (rev args) stub_addr [];;
  match r with
  | None => done 0
  | Some (sp, addrs) =>
    let sp := Z.land sp (not32 3) in
    let argv_bytes := u32 ((argc + 1) * 4) in
    if sp <? u32 (stack_base p + argv_bytes) then done 0
    else
      let sp := u32 (sp - argv_bytes) in
      let argv_out := proc_stack_ptr p sp in
      if argv_out =? 0 then done 0
      else
        write_words argv_out (addrs ++ [0]);;;
        if sp <? u32 (stack_base p + 8) then done 0
        else
          let sp := u32 (sp - 8) in
          let header := proc_stack_ptr p sp in
          if header =? 0 then done 0
          else
            write_words header [argc; argv_out];;;
            done sp
  end.

(** [argv] is None for NULL; its entries are the strings ("" for a NULL entry). *)
Definition setup_user_stack (i : Z) (argv : option (list (list Z))) : M S Z :=
  p <- getp i;;
  let stack_top := u32 (stack_base p + stack_size p) in
  let stub_addr := Z.land (u32 (stack_top - 16)) (not32 0xF) in
  let stub_ptr := proc_stack_ptr p stub_addr in
  if stub_ptr =? 0 then ret 0
  else
    write_bytes stub_ptr user_exit_stub;;;
    let args := default [] argv in
    let argc := Z.of_nat (length args) in
    arg_addrs <- (if 0 <? argc then call (env_kmalloc (u32 (4 * argc)) 0) else ret 0);;
    if (0 <? argc) && (arg_addrs =? 0) then ret 0
    else push_user_args p args stub_addr arg_addrs.

(** frame = (registers_t* )(kstack_top - sizeof(registers_t)); memset(frame, 0, sizeof( *frame)); *)
Definition frame_of (p : process) : Z := u32 (u32 (kstack_base p + kstack_size p) - SIZEOF_REGS).
Definition zero_frame (a : Z) : M S unit := write_words a (replicate 16 0).

(** frame->ds, eip, cs, eflags, esp and ss, in this order.  ds has 16 bits; the frame was zeroed
    before, so its word is ds with the padding 0. *)
Definition fill_frame (frame ds ent cs esp : Z) : M S unit :=
  call (env_write32 (frame + OFF_DS) ds);;;
  call (env_write32 (frame + OFF_EIP) ent);;;
  call (env_write32 (frame + OFF_CS) cs);;;
  call (env_write32 (frame + OFF_EFLAGS) 0x202);;;
  call (env_write32 (frame + OFF_ESP) esp);;;
  call (env_write32 (frame + OFF_SS) ds).

Definition build_initial_frame (i ent : Z) (argv : option (list (list Z))) : M S bool :=
  p <- getp i;;
  let frame := frame_of p in
  zero_frame frame;;;
  user_esp <- setup_user_stack i argv;;
  if user_esp =? 0 then ret false
  else
    fill_frame frame USER_DS ent USER_CS user_esp;;;
    updp i (set_context_esp frame);;;
    ret true.

Definition build_kernel_frame (i ent : Z) : M S bool :=
  p <- getp i;;
  let frame := frame_of p in
  zero_frame frame;;;
  fill_frame frame KERNEL_DS ent KERNEL_CS (u32 (kstack_base p + kstack_size p));;;
  updp i (set_context_esp frame);;;
  ret true.

(** Maps [n] pages of kernel memory at kern + offset to user + offset. *)
Fixpoint map_user_pages (n : nat) (kern user offset : Z) : M S bool :=
  match n with
  | O => ret true
  | Datatypes.S n' =>
    ph <- ask (env_virt_to_phys (u32 (kern + offset)));;
    match ph with
    | None => ret false
    | Some ph =>
      call (env_map_page (u32 (user + offset)) ph USER_FLAGS);;;
      map_user_pages n' kern user (offset + PAGE_SIZE)
    end
  end.
(** The iterations of for (offset = 0; offset < size; offset += PAGE_SIZE), for a size of at most
    2^32 - PAGE_SIZE, where the offset does not wrap. *)
Definition pages_of (size : Z) : nat := Z.to_nat ((size + PAGE_SIZE - 1) / PAGE_SIZE).

Definition proc_map_user_stack (i : Z) : M S bool :=
  if i =? NULLP then ret false
  else
    p <- getp i;;
    if (stack_base p =? 0) || (stack_kern_base p =? 0) || (stack_size p =? 0) then ret false
    else map_user_pages (pages_of (stack_size p)) (stack_kern_base p) (stack_base p) 0.

Definition proc_init_user_stack (i : Z) : M S bool :=
  if i =? NULLP then ret false
  else
    p <- getp i;;
    k <- call (env_kmalloc (stack_size p) PAGE_SIZE);;
    updp i (set_stack (u32 (USER_STACK_TOP - stack_size p)) (stack_size p) k);;;
    if k =? 0 then ret false
    else
      write_words k (replicate (Z.to_nat (stack_size p / 4)) 0);;;
      ok <- proc_map_user_stack i;;
      if negb ok then
        call (env_kfree k);;;
        updp i (fun p => set_stack (stack_base p) (stack_size p) 0 p);;;
        ret false
      else ret true.

(** strncpy(p->name, name, PROC_NAME_MAX - 1); p->name[PROC_NAME_MAX - 1] = 0; *)
Definition copy_name (i : Z) (nm : list Z) : M S unit := updp i (set_name (take 31 nm)).

(** p->pid = next_pid++ *)
Definition take_pid (i : Z) : M S unit :=
  n <- gets next_pid;; modify (with_next_pid (u32 (n + 1)));;; updp i (set_pid n).

(** state = READY, and RUNNING for the first current process. *)
Definition make_ready (i : Z) (make_current : bool) : M S unit :=
  updp i (set_state PROC_READY);;;
  c <- gets current_proc;;
  if make_current && (c =? NULLP) then
    updp i (set_state PROC_RUNNING);;; modify (with_current i i)
  else ret tt.

(** ** Creating processes *)

Definition proc_create_common (nm : option (list Z)) (ent : Z) (argv : option (list (list Z)))
    (make_current build_frame : bool) : M S Z :=
  i <- find_proc free_slot;;
  if i =? NULLP then ret NULLP
  else
    proc_cleanup i;;;
    updp i (set_is_kernel false);;;
    take_pid i;;;
    updp i (set_entry ent);;;
    updp i (fun p => set_image (image_base p) (image_size p) 0 p);;;
    d <- call env_create_user_dir;;
    updp i (set_page_dir (fst d) (snd d));;;
    if fst d =? 0 then updp i (set_state PROC_UNUSED);;; ret NULLP
    else
      k <- call (env_kmalloc PROC_KSTACK_SIZE 1);;
      updp i (set_kstack k PROC_KSTACK_SIZE);;;
      if k =? 0 then
        call (env_kfree (fst d));;;
        updp i (set_page_dir 0 0);;;
        updp i (set_state PROC_UNUSED);;;
        ret NULLP
      else
        updp i (set_stack 0 PROC_STACK_SIZE 0);;;
        irq_flags <- irq_save;;
        prev <- ask env_current_dir;;
        set_dir d;;;
        ok <- proc_init_user_stack i;;
        if negb ok then
          set_dir prev;;; irq_restore irq_flags;;;
          call (env_kfree k);;; call (env_kfree (fst d));;;
          updp i (fun p => set_kstack 0 (kstack_size p) p);;;
          updp i (set_page_dir 0 0);;;
          updp i (set_state PROC_UNUSED);;;
          ret NULLP
        else
          ok <- (if build_frame then build_initial_frame i ent argv
                 else updp i (set_context_esp 0);;; ret true);;
          if negb ok then
            set_dir prev;;; irq_restore irq_flags;;;
            p <- getp i;;
            call (env_kfree (stack_kern_base p));;; call (env_kfree (kstack_base p));;; call (env_kfree (page_dir p));;;
            updp i (fun p => set_stack 0 (stack_size p) 0 p);;;
            updp i (fun p => set_kstack 0 (kstack_size p) p);;;
            updp i (set_page_dir 0 0);;;
            updp i (set_state PROC_UNUSED);;;
            ret NULLP
          else
            set_dir prev;;; irq_restore irq_flags;;;
            make_ready i make_current;;;
            (match nm with Some nm => copy_name i nm | None => ret tt end);;;
            ret i.

Definition proc_create_kernel_common (nm : option (list Z)) (ent : Z) (make_current : bool) : M S Z :=
  i <- find_proc free_slot;;
  if i =? NULLP then ret NULLP
  else
    proc_cleanup i;;;
    updp i (set_is_kernel true);;;
    take_pid i;;;
    updp i (set_entry ent);;;
    updp i (fun p => set_image (image_base p) (image_size p) 0 p);;;
    d <- ask env_kernel_dir;;
    updp i (set_page_dir (fst d) (snd d));;;
    k <- call (env_kmalloc PROC_KSTACK_SIZE 1);;
    updp i (set_kstack k PROC_KSTACK_SIZE);;;
    if k =? 0 then updp i (set_state PROC_UNUSED);;; ret NULLP
    else
      updp i (set_stack 0 0 0);;;
      ok <- build_kernel_frame i ent;;
      if negb ok then
        call (env_kfree k);;;
        updp i (fun p => set_kstack 0 (kstack_size p) p);;;
        updp i (set_state PROC_UNUSED);;;
        ret NULLP
      else
        make_ready i make_current;;;
        (match nm with Some nm => copy_name i nm | None => ret tt end);;;
        ret i.

Definition proc_create nm ent : M S Z := proc_create_common nm ent None true true.
Definition proc_create_with_args nm ent argv : M S Z := proc_create_common nm ent argv true true.
Definition proc_spawn nm ent : M S Z := proc_create_common nm ent None false true.
Definition proc_spawn_with_args nm ent argv : M S Z := proc_create_common nm ent argv false true.
Definition proc_spawn_kernel nm ent : M S Z := proc_create_kernel_common nm ent false.
Definition proc_create_pending nm make_current : M S Z := proc_create_common nm 0 None make_current false.

Definition proc_build_user_frame (i ent : Z) (argv : option (list (list Z))) : M S bool :=
  if i =? NULLP then ret false
  else
    p <- getp i;;
    if is_kernel p then ret false
    else updp i (set_entry ent);;; build_initial_frame i ent argv.

(** ** fork and exec *)

(** memcpy(dst, src, n) *)
Fixpoint copy_bytes (n : nat) (dst src : Z) : M S unit :=
  match n with
  | O => ret tt
  | Datatypes.S n' =>
    c <- call (env_read8 src);; call (env_write8 dst c);;; copy_bytes n' (u32 (dst + 1)) (u32 (src + 1))
  end.

(** The chain of saved frame pointers on the child's stack; [n] frames are left. *)
Fixpoint fixup_loop (n : nat) (child_base parent_base child_end parent_end ebp : Z) : M S unit :=
  match n with
  | O => ret tt
  | Datatypes.S n' =>
    if (ebp <? child_base) || (child_end <? u32 (ebp + 4)) then ret tt
    else
      saved <- call (env_read32 ebp);;
      if (saved <? parent_base) || (parent_end <=? saved) then ret tt
      else
        let new_saved := u32 (saved + (child_base - parent_base)) in
        if (new_saved <? child_base) || (child_end <=? new_saved) then ret tt
        else
          call (env_write32 ebp new_saved);;;
          if new_saved <=? ebp then ret tt
          else fixup_loop n' child_base parent_base child_end parent_end new_saved
  end.
Definition fixup_forked_stack_frames (child_base parent_base size child_ebp : Z) : M S unit :=
  if (size =? 0) || (child_ebp =? 0) then ret tt
  else
    let child_end := u32 (child_base + size) in
    let parent_end := u32 (parent_base + size) in
    if (child_end <? child_base) || (parent_end <? parent_base) then ret tt
    else if (child_ebp <? child_base) || (child_end <=? child_ebp) then ret tt
    else fixup_loop (Z.to_nat (size / 4)) child_base parent_base child_end parent_end child_ebp.

(** The clean-up of the failure paths after the image was allocated. *)
Definition fork_undo (i : Z) (prev : Z * Z) (irq_flags : bool) : M S Z :=
  set_dir prev;;; irq_restore irq_flags;;;
  p <- getp i;;
  call (env_kfree (image_base p));;; call (env_kfree (kstack_base p));;; call (env_kfree (page_dir p));;;
  updp i (fun p => set_image 0 (image_size p) (image_load_base p) p);;;
  updp i (fun p => set_kstack 0 (kstack_size p) p);;;
  updp i (set_page_dir 0 0);;;
  updp i (set_state PROC_UNUSED);;;
  ret NULLP.

(** frame->esp and frame->ebp moved from the parent's stack to the child's. *)
Definition fork_relocate (i c frame regs : Z) : M S unit :=
  p <- getp i;;
  par <- getp c;;
  let parent_stack_base := stack_base par in
  let parent_stack_end := u32 (parent_stack_base + stack_size par) in
  esp <- call (env_read32 (regs + OFF_ESP));;
  (if (parent_stack_base <=? parent_stack_end) && (parent_stack_base <=? esp) && (esp <=? parent_stack_end)
   then call (env_write32 (frame + OFF_ESP) (u32 (stack_base p + u32 (esp - parent_stack_base))))
   else ret tt);;;
  ebp <- call (env_read32 (regs + OFF_EBP));;
  if (parent_stack_base <=? parent_stack_end) && (parent_stack_base <=? ebp) && (ebp <? parent_stack_end) then
    let new_ebp := u32 (stack_base p + u32 (ebp - parent_stack_base)) in
    call (env_write32 (frame + OFF_EBP) new_ebp);;;
    fixup_forked_stack_frames (stack_base p) parent_stack_base (stack_size p) new_ebp
  else ret tt.

(** The end of proc_fork. *)
Definition fork_publish (i c frame : Z) : M S Z :=
  updp i (set_context_esp frame);;;
  par <- getp c;;
  (match name par with [] => ret tt | nm => copy_name i nm end);;;
  updp i (set_state PROC_READY);;;
  ret i.

(** The user stack of the child, copied from the parent's; the child's directory is current. *)
Definition fork_stack (i c frame regs : Z) (prev : Z * Z) (irq_flags : bool) : M S Z :=
  ok <- proc_init_user_stack i;;
  if negb ok then fork_undo i prev irq_flags
  else
    set_dir prev;;; irq_restore irq_flags;;;
    p <- getp i;;
    par <- getp c;;
    copy_bytes (Z.to_nat (stack_size p)) (stack_kern_base p) (stack_kern_base par);;;
    fork_relocate i c frame regs;;;
    fork_publish i c frame.

(** Mapping the image and the stack in the child's directory. *)
Definition fork_map (i c frame regs : Z) : M S Z :=
  irq_flags <- irq_save;;
  prev <- ask env_current_dir;;
  p <- getp i;;
  set_dir (page_dir p, page_dir_phys p);;;
  ok <- (if negb (image_base p =? 0) && negb (image_size p =? 0) && negb (image_load_base p =? 0)
         then map_user_pages (pages_of (image_size p)) (image_base p) (image_load_base p) 0
         else ret true);;
  if negb ok then fork_undo i prev irq_flags else fork_stack i c frame regs prev irq_flags.

(** The image and the stack of the child, once its kernel stack and frame exist. *)
Definition fork_copy (i c frame regs : Z) : M S Z :=
  par <- getp c;;
  updp i (set_stack 0 (stack_size par) 0);;;
  p <- getp i;;
  if negb (image_size p =? 0) && negb (image_load_base p =? 0) && negb (image_base par =? 0) then
    im <- call (env_kmalloc (image_size p) 1);;
    updp i (fun p => set_image im (image_size p) (image_load_base p) p);;;
    if im =? 0 then
      call (env_kfree (kstack_base p));;;
      updp i (fun p => set_kstack 0 (kstack_size p) p);;;
      call (env_kfree (page_dir p));;;
      updp i (set_page_dir 0 0);;;
      updp i (set_state PROC_UNUSED);;;
      ret NULLP
    else
      copy_bytes (Z.to_nat (image_size p)) im (image_base par);;;
      fork_map i c frame regs
  else fork_map i c frame regs.

(** [regs] is 0 for NULL.  The pages of the image and of the stack are mapped before the parent's
    stack is copied, and the directory of the caller is current again when it is. *)
Definition proc_fork (regs : Z) : M S Z :=
  c <- gets current_proc;;
  if (c =? NULLP) || (regs =? 0) then ret NULLP
  else
    par <- getp c;;
    if is_kernel par then ret NULLP
    else
      i <- find_proc free_slot;;
      if i =? NULLP then ret NULLP
      else
        proc_cleanup i;;;
        updp i (set_is_kernel false);;;
        take_pid i;;;
        par <- getp c;;
        updp i (set_entry (entry par));;;
        updp i (set_image 0 (image_size par) (image_load_base par));;;
        d <- call env_create_user_dir;;
        updp i (set_page_dir (fst d) (snd d));;;
        if fst d =? 0 then updp i (set_state PROC_UNUSED);;; ret NULLP
        else
          updp i (set_vfork_parent (pid par));;;
          k <- call (env_kmalloc PROC_KSTACK_SIZE 1);;
          updp i (set_kstack k PROC_KSTACK_SIZE);;;
          if k =? 0 then updp i (set_state PROC_UNUSED);;; ret NULLP
          else
            p <- getp i;;
            let frame := frame_of p in
            copy_bytes 64 frame regs;;;
            call (env_write32 (frame + OFF_EAX) 0);;;
            updp i (fun p => set_stack 0 0 (stack_kern_base p) p);;;
            if negb (stack_base par =? 0) && negb (stack_size par =? 0) then fork_copy i c frame regs
            else fork_publish i c frame.

Definition proc_exec (i ent new_base new_size new_load : Z) (argv : option (list (list Z))) : M S bool :=
  if i =? NULLP then ret false
  else
    old <- getp i;;
    if is_kernel old then ret false
    else
      updp i (set_stack 0 PROC_STACK_SIZE 0);;;
      irq_flags <- irq_save;;
      prev <- ask env_current_dir;;
      set_dir (page_dir old, page_dir_phys old);;;
      ok <- proc_init_user_stack i;;
      if negb ok then
        set_dir prev;;; irq_restore irq_flags;;;
        updp i (set_stack (stack_base old) (stack_size old) (stack_kern_base old));;;
        ret false
      else
        updp i (set_entry ent);;;
        updp i (set_image new_base new_size new_load);;;
        ok <- build_initial_frame i ent argv;;
        if negb ok then
          set_dir prev;;; irq_restore irq_flags;;;
          p <- getp i;;
          call (env_kfree (stack_kern_base p));;;
          updp i (set_stack (stack_base old) (stack_size old) (stack_kern_base old));;;
          updp i (set_image (image_base old) (image_size old) (image_load_base old));;;
          updp i (set_entry (entry old));;;
          ret false
        else
          set_dir prev;;; irq_restore irq_flags;;;
          (if negb (stack_kern_base old =? 0) then call (env_kfree (stack_kern_base old)) else ret tt);;;
          (if negb (image_base old =? 0) then call (env_kfree (image_base old)) else ret tt);;;
          ret true.

(** ** Ending processes *)

(** The first entry with the pid decides, whatever its state. *)
Definition proc_wake_vfork_parent (child : Z) : M S unit :=
  if child =? NULLP then ret tt
  else
    c <- getp child;;
    if vfork_parent_pid c =? 0 then ret tt
    else
      let parent_pid := vfork_parent_pid c in
      updp child (set_vfork_parent 0);;;
      i <- find_proc (fun p => pid p =? parent_pid);;
      if i =? NULLP then ret tt
      else
        p <- getp i;;
        if bool_decide (state p = PROC_BLOCKED) then updp i (set_state PROC_READY) else ret tt.

Definition proc_exit (code : Z) : M S unit :=
  c <- gets current_proc;;
  if c =? NULLP then ret tt
  else
    p <- getp c;;
    modify (fun s => if foreground_pid s =? pid p then with_foreground 0 s else s);;;
    updp c (set_exit_code code);;;
    updp c (set_state PROC_EXITED);;;
    proc_wake_vfork_parent c;;;
    modify (fun s => if proc_reaper_enabled s then with_reap_pending true s else s);;;
    modify (with_current NULLP (-1)).

Definition proc_is_foreground_pid (p : Z) : M S bool :=
  gets (fun s => negb (p =? 0) && (foreground_pid s =? p)).

Definition proc_kill (target : Z) (force : bool) : M S kill_result :=
  if target =? 0 then ret PROC_KILL_INVALID
  else
    c <- gets current_proc;;
    mine <- (if c =? NULLP then ret None
             else p <- getp c;; ret (if pid p =? target then Some p else None));;
    match mine with
    | Some p =>
      if is_kernel p && negb force then ret PROC_KILL_KERNEL
      else modify (with_kill_requested target);;; ret PROC_KILL_OK
    | None =>
      i <- find_proc (fun p => negb (bool_decide (state p = PROC_UNUSED)) && (pid p =? target));;
      if i =? NULLP then ret PROC_KILL_NO_SUCH
      else
        p <- getp i;;
        if bool_decide (state p = PROC_EXITED) then ret PROC_KILL_ALREADY_EXITED
        else if is_kernel p && negb force then ret PROC_KILL_KERNEL
        else
          was_foreground <- proc_is_foreground_pid target;;
          updp i (set_exit_code 0);;;
          updp i (set_state PROC_EXITED);;;
          proc_wake_vfork_parent i;;;
          (if was_foreground : bool then modify (with_foreground 0);;; effect env_return_to_shell else ret tt);;;
          modify (fun s => if proc_reaper_enabled s then with_reap_pending true s else s);;;
          ret PROC_KILL_OK
    end.

(** One entry of proc_reap; [esp] is the stack pointer of the caller. *)
Definition reap_entry (esp i : Z) : M S unit :=
  p <- getp i;;
  c <- gets current_proc;;
  if negb (bool_decide (state p = PROC_EXITED)) then ret tt
  else if i =? c then ret tt
  else if proc_stack_in_use p esp then ret tt
  else
    (if negb (pid p =? 0) then
       modify (fun s => if pid p =? proc_reaper_pid s then with_reaper (proc_reaper_enabled s) 0 s else s);;;
       modify (fun s => if pid p =? proc_watchdog_pid s then with_watchdog 0 s else s)
     else ret tt);;;
    proc_cleanup i.
Fixpoint reap_loop (esp : Z) (n : nat) (i : Z) : M S unit :=
  match n with
  | O => ret tt
  | Datatypes.S n' => reap_entry esp i;;; reap_loop esp n' (i + 1)
  end.
Definition proc_reap (esp : Z) : M S unit := reap_loop esp 16 0.

Definition proc_reap_background (esp : Z) : M S unit :=
  s <- get;;
  if proc_reaper_enabled s && negb (proc_reap_pending s) then ret tt
  else proc_reap esp;;; modify (with_reap_pending false).
Definition proc_reap_is_pending : M S bool := gets proc_reap_pending.

(** ** Looking processes up *)

Definition proc_current : M S Z := gets current_proc.
Definition proc_current_pid : M S Z :=
  c <- gets current_proc;; if c =? NULLP then ret 0 else p <- getp c;; ret (pid p).
Definition proc_current_is_user : M S bool :=
  c <- gets current_proc;; if c =? NULLP then ret false else p <- getp c;; ret (negb (is_kernel p)).
Definition proc_set_last_regs (r : Z) : M S unit := modify (with_last_regs r).
Definition proc_get_last_regs : M S Z := gets last_irq_regs.
Definition proc_set_foreground_pid (p : Z) : M S unit := modify (with_foreground p).
Definition proc_get_foreground_pid : M S Z := gets foreground_pid.

Definition proc_pid_alive (target : Z) : M S bool :=
  if target =? 0 then ret false
  else
    i <- find_proc (fun p => pid p =? target);;
    if i =? NULLP then ret false else p <- getp i;; ret (negb (free_slot p)).
Definition proc_pid_active (target : Z) : M S bool := proc_pid_alive target.
Definition proc_lookup (target : Z) : M S Z :=
  if target =? 0 then ret NULLP
  else
    i <- find_proc (fun p => pid p =? target);;
    if i =? NULLP then ret NULLP else p <- getp i;; ret (if free_slot p then NULLP else i).
(** The exit code for true. *)
Definition proc_pid_exited (target : Z) : M S (option Z) :=
  if target =? 0 then ret None
  else
    i <- find_proc (fun p => pid p =? target);;
    if i =? NULLP then ret None
    else p <- getp i;; ret (if bool_decide (state p = PROC_EXITED) then Some (exit_code p) else None).

(** (pid, state, name) of at most max live processes; "unnamed" for an empty name. *)
Definition unnamed : list Z := [117; 110; 110; 97; 109; 101; 100].
Fixpoint list_loop (n : nat) (i room : Z) : M S (list (Z * proc_state * list Z)) :=
  match n with
  | O => ret []
  | Datatypes.S n' =>
    if room <=? 0 then ret []
    else
      p <- getp i;;
      if free_slot p then list_loop n' (i + 1) room
      else
        l <- list_loop n' (i + 1) (room - 1);;
        ret ((pid p, state p, match name p with [] => unnamed | nm => take 31 nm end) :: l)
  end.
Definition proc_list (max : Z) : M S (list (Z * proc_state * list Z)) :=
  if max <=? 0 then ret [] else list_loop 16 0 max.

(** ** Scheduling *)

Definition proc_is_runnable (p : process) : bool :=
  bool_decide (state p = PROC_READY) || bool_decide (state p = PROC_RUNNING).
Definition schedulable (p : process) : bool := proc_is_runnable p && negb (context_esp p =? 0).

Definition proc_has_runnable : M S bool :=
  i <- find_proc (fun p => proc_is_runnable p && negb (context_esp p =? 0) && negb (is_kernel p));;
  ret (negb (i =? NULLP)).

(** [n] tests are left; idx is the entry tested last. *)
Fixpoint find_next_loop (n : nat) (idx : Z) : M S Z :=
  match n with
  | O => ret (-1)
  | Datatypes.S n' =>
    let idx := idx + 1 in
    let idx := if MAX_PROCS <=? idx then 0 else idx in
    p <- getp idx;;
    if schedulable p then ret idx else find_next_loop n' idx
  end.
Definition proc_find_next (start : Z) : M S Z := find_next_loop 16 start.

(** if (current_proc && current_proc->state == PROC_RUNNING) current_proc->state = PROC_READY; *)
Definition demote_current : M S unit :=
  c <- gets current_proc;;
  if c =? NULLP then ret tt
  else p <- getp c;; if bool_decide (state p = PROC_RUNNING) then updp c (set_state PROC_READY) else ret tt.

(** tss_set_kernel_stack(...) and the switch of the address space of process i. *)
Definition load_process (i : Z) : M S unit :=
  p <- getp i;;
  effect (env_set_kernel_stack (u32 (kstack_base p + kstack_size p)));;;
  if negb (page_dir p =? 0) then set_dir (page_dir p, page_dir_phys p) else ret tt.

Definition proc_make_current (i regs : Z) : M S bool :=
  if i =? NULLP then ret false
  else
    c <- gets current_proc;;
    if c =? i then
      p <- getp c;;
      (if negb (bool_decide (state p = PROC_RUNNING)) then updp c (set_state PROC_RUNNING) else ret tt);;;
      modify (with_current c i);;;
      load_process c;;;
      ret true
    else
      go <- (if c =? NULLP then ret true
             else if regs =? 0 then
               p <- getp c;;
               if context_esp p =? 0 then ret false else demote_current;;; ret true
             else updp c (set_context_esp regs);;; demote_current;;; ret true);;
      if negb go then ret false
      else
        modify (with_current i i);;;
        updp i (set_state PROC_RUNNING);;;
        load_process i;;;
        ret true.

Definition proc_take_next : M S Z :=
  s <- get;;
  next <- proc_find_next (current_index s);;
  if next <? 0 then ret NULLP
  else
    demote_current;;;
    modify (with_current next next);;;
    updp next (set_state PROC_RUNNING);;;
    ret next.

(** proc_schedule from proc_find_next on. *)
Definition schedule_next (regs : Z) (save_current : bool) : M S bool :=
  s <- get;;
  next <- proc_find_next (current_index s);;
  if next <? 0 then ret false
  else if (next =? current_index s) && negb (current_proc s =? NULLP) then ret false
  else
    (if save_current && negb (current_proc s =? NULLP) then updp (current_proc s) (set_context_esp regs) else ret tt);;;
    demote_current;;;
    modify (with_current next next);;;
    updp next (set_state PROC_RUNNING);;;
    load_process next;;;
    p <- getp next;;
    modify (with_sched_next_esp (context_esp p));;;
    ret true.
(** [esp] is the stack pointer of the caller, which proc_reap looks at. *)
Definition proc_schedule (esp regs : Z) (save_current : bool) : M S bool :=
  s <- get;;
  (if negb (proc_reaper_enabled s) then proc_reap esp else ret tt);;;
  schedule_next regs save_current.

Definition proc_request_kill : M S unit :=
  c <- gets current_proc;;
  if c =? NULLP then ret tt else p <- getp c;; modify (with_kill_requested (pid p)).

(** Sends the interrupted context to bin_exit_trampoline, whose address is a parameter. *)
Definition redirect (regs bin_exit_trampoline : Z) : M S unit :=
  call (env_write32 (regs + OFF_EIP) bin_exit_trampoline);;;
  call (env_write32 (regs + OFF_CS) KERNEL_CS);;;
  call (env_write8 (regs + OFF_DS) KERNEL_DS);;;
  call (env_write8 (regs + OFF_DS + 1) 0).

Definition proc_handle_kill (esp regs bin_exit_trampoline : Z) : M S bool :=
  s <- get;;
  if kill_requested_pid s =? 0 then ret false
  else if current_proc s =? NULLP then ret false
  else
    p <- getp (current_proc s);;
    if negb (pid p =? kill_requested_pid s) then ret false
    else
      foreground <- proc_is_foreground_pid (pid p);;
      modify (with_kill_requested 0);;;
      proc_exit 0;;;
      if foreground : bool then redirect regs bin_exit_trampoline;;; ret true
      else
        ok <- proc_schedule esp regs false;;
        (if negb ok then redirect regs bin_exit_trampoline else ret tt);;;
        ret true.

(** "orion-sysmon" and "orion-sysmgr"; the entry points of the two threads are parameters. *)
Definition sysmon_name : list Z := [111; 114; 105; 111; 110; 45; 115; 121; 115; 109; 111; 110].
Definition sysmgr_name : list Z := [111; 114; 105; 111; 110; 45; 115; 121; 115; 109; 103; 114].
Definition proc_start_sysmgr_watchdog (watchdog_thread : Z) : M S bool :=
  w <- gets proc_watchdog_pid;;
  a <- proc_pid_active w;;
  if a : bool then ret true
  else
    i <- proc_spawn_kernel (Some sysmon_name) watchdog_thread;;
    if i =? NULLP then ret false
    else p <- getp i;; modify (with_watchdog (pid p));;; ret true.
Definition proc_start_reaper (sysmgr_thread watchdog_thread : Z) : M S bool :=
  s <- get;;
  a <- (if proc_reaper_enabled s then proc_pid_active (proc_reaper_pid s) else ret false);;
  if a : bool then proc_start_sysmgr_watchdog watchdog_thread;;; ret true
  else
    i <- proc_spawn_kernel (Some sysmgr_name) sysmgr_thread;;
    if i =? NULLP then ret false
    else
      p <- getp i;;
      modify (with_reaper true (pid p));;;
      proc_start_sysmgr_watchdog watchdog_thread;;;
      ret true.
End Operations.
End Proc.
