(* ===== verification/ProcEnv.v ===== *)
(** * What the process code relies on

    The contract [ProcEnvOk] of the services proc.c calls: an allocator with disjoint live blocks,
    memory that can be read and written inside them, and calls that leave both alone.  [Sim] is
    a small kernel environment that fulfils it: a bump allocator with a limit over byte memory and
    per-directory page maps. *)
From S2P Require Import Prelude Proc.

Module ProcEnv.
Import Proc.

Definition word_byte (w k : Z) : Z := u8 (Z.shiftr w (8 * k)).

Class ProcEnvOk (E : Type) {PE : ProcEnv E} := {
  env_ok : E -> Prop;
  (** the blocks of kmalloc that were not freed, with their sizes *)
  env_live : E -> gmap Z Z;
  (** the bytes of the live blocks *)
  env_mem : E -> Z -> Z;
  live_range : forall e b n, env_ok e -> env_live e !! b = Some n -> 0 < b /\ 0 <= n /\ b + n <= 4294967296;
  live_disjoint : forall e a n b m, env_ok e -> env_live e !! a = Some n -> env_live e !! b = Some m ->
    a <> b -> a + n <= b \/ b + m <= a;
  kmalloc_law : forall e sz al, env_ok e -> exists a e', env_kmalloc sz al e = Ok (a, e') /\ env_ok e' /\
    (forall b n x, env_live e !! b = Some n -> b <= x < b + n -> env_mem e' x = env_mem e x) /\
    ((a = 0 /\ env_live e' = env_live e) \/
     (env_live e !! a = None /\ exists n, sz <= n /\ env_live e' = <[a := n]> (env_live e)));
  kfree_law : forall e a, env_ok e -> (a = 0 \/ is_Some (env_live e !! a)) ->
    exists e', env_kfree a e = Ok (tt, e') /\ env_ok e' /\ env_live e' = base.delete a (env_live e) /\
    (forall b n x, env_live e !! b = Some n -> b <> a -> b <= x < b + n -> env_mem e' x = env_mem e x);
  user_dir_law : forall e, env_ok e -> exists d e', env_create_user_dir e = Ok (d, e') /\ env_ok e' /\
    env_live e ⊆ env_live e' /\
    (fst d <> 0 -> env_live e !! fst d = None /\ exists n, PAGE_SIZE <= n /\ env_live e' !! fst d = Some n);
  map_page_law : forall e va pa fl, env_ok e ->
    exists r e', env_map_page va pa fl e = Ok (r, e') /\ env_ok e' /\ env_live e' = env_live e;
  read8_law : forall e b n a, env_ok e -> env_live e !! b = Some n -> b <= a < b + n ->
    env_read8 a e = Ok (env_mem e a, e);
  write8_law : forall e b n a v, env_ok e -> env_live e !! b = Some n -> b <= a < b + n ->
    exists e', env_write8 a v e = Ok (tt, e') /\ env_ok e' /\ env_live e' = env_live e /\
    (forall x, env_mem e' x = if decide (x = a) then u8 v else env_mem e x);
  write32_law : forall e b n a v, env_ok e -> env_live e !! b = Some n -> b <= a -> a + 4 <= b + n ->
    exists e', env_write32 a v e = Ok (tt, e') /\ env_ok e' /\ env_live e' = env_live e /\
    (forall x, env_mem e' x = if decide (a <= x < a + 4) then word_byte v (x - a) else env_mem e x);
  (** reads change nothing, and a write to the window of the user stacks only memory *)
  read8_quiet : forall e a, env_read8 a e = Fault \/ exists v, env_read8 a e = Ok (v, e);
  read32_quiet : forall e a, env_read32 a e = Fault \/ exists v, env_read32 a e = Ok (v, e);
  user_write_law : forall e a v, env_ok e -> USER_STACK_TOP - PROC_STACK_SIZE <= a < USER_STACK_TOP ->
    env_write32 a v e = Fault \/
    exists e', env_write32 a v e = Ok (tt, e') /\ env_ok e' /\ env_live e' = env_live e;
  (** the calls that concern neither memory nor the allocator *)
  set_dir_law : forall e d p, env_ok e -> env_ok (env_set_current_dir d p e) /\
    env_live (env_set_current_dir d p e) = env_live e /\ forall x, env_mem (env_set_current_dir d p e) x = env_mem e x;
  close_fds_law : forall e p, env_ok e -> env_ok (env_close_fds p e) /\ env_live (env_close_fds p e) = env_live e;
  kernel_stack_law : forall e a, env_ok e ->
    env_ok (env_set_kernel_stack a e) /\ env_live (env_set_kernel_stack a e) = env_live e;
  to_shell_law : forall e, env_ok e -> env_ok (env_return_to_shell e) /\ env_live (env_return_to_shell e) = env_live e;
  iflag_law : forall e b, env_ok e -> env_ok (env_set_iflag b e) /\
    env_live (env_set_iflag b e) = env_live e /\ forall x, env_mem (env_set_iflag b e) x = env_mem e x
}.

(** ** A concrete environment *)

Record sim := Sim {
  sim_brk : Z;                          (* the next free address, page aligned *)
  sim_limit : Z;
  sim_live : gmap Z Z;
  sim_mem : gmap Z Z;                   (* bytes written; 0 elsewhere *)
  sim_maps : gmap (Z * Z) Z;            (* (directory, page) to frame *)
  sim_dir : Z * Z;
  sim_closed : list Z;
  sim_kstack : Z;
  sim_shell : bool;
  sim_if : bool
}.
Definition with_heap b l (e : sim) := Sim b (sim_limit e) l (sim_mem e) (sim_maps e) (sim_dir e) (sim_closed e) (sim_kstack e) (sim_shell e) (sim_if e).
Definition with_mem m (e : sim) := Sim (sim_brk e) (sim_limit e) (sim_live e) m (sim_maps e) (sim_dir e) (sim_closed e) (sim_kstack e) (sim_shell e) (sim_if e).
Definition with_maps m (e : sim) := Sim (sim_brk e) (sim_limit e) (sim_live e) (sim_mem e) m (sim_dir e) (sim_closed e) (sim_kstack e) (sim_shell e) (sim_if e).
Definition with_dir d (e : sim) := Sim (sim_brk e) (sim_limit e) (sim_live e) (sim_mem e) (sim_maps e) d (sim_closed e) (sim_kstack e) (sim_shell e) (sim_if e).
Definition with_closed l (e : sim) := Sim (sim_brk e) (sim_limit e) (sim_live e) (sim_mem e) (sim_maps e) (sim_dir e) l (sim_kstack e) (sim_shell e) (sim_if e).
Definition with_kst k (e : sim) := Sim (sim_brk e) (sim_limit e) (sim_live e) (sim_mem e) (sim_maps e) (sim_dir e) (sim_closed e) k (sim_shell e) (sim_if e).
Definition with_shell b (e : sim) := Sim (sim_brk e) (sim_limit e) (sim_live e) (sim_mem e) (sim_maps e) (sim_dir e) (sim_closed e) (sim_kstack e) b (sim_if e).
Definition with_if b (e : sim) := Sim (sim_brk e) (sim_limit e) (sim_live e) (sim_mem e) (sim_maps e) (sim_dir e) (sim_closed e) (sim_kstack e) (sim_shell e) b.

Definition round_page (n : Z) : Z := (n + 4095) / 4096 * 4096.
Definition sim_alloc (sz : Z) (e : sim) : Z * sim :=
  let n := round_page (Z.max sz 1) in
  if sim_brk e + n <=? sim_limit e then (sim_brk e, with_heap (sim_brk e + n) (<[sim_brk e := n]> (sim_live e)) e)
  else (0, e).
(** Some live block holds [len] bytes from a. *)
Definition sim_inside (e : sim) (a len : Z) : bool :=
  existsb (fun '(b, n) => (b <=? a) && (a + len <=? b + n)) (map_to_list (sim_live e)).
Definition sim_byte (e : sim) (a : Z) : Z := default 0 (sim_mem e !! a).
(** The address an access of the current directory goes to. *)
Definition sim_tr (e : sim) (a : Z) : Z :=
  if sim_inside e a 1 then a
  else match sim_maps e !! (fst (sim_dir e), a / 4096) with Some f => f * 4096 + a mod 4096 | None => a end.
Definition sim_put (e : sim) (a v : Z) : sim := with_mem (<[a := u8 v]> (sim_mem e)) e.

Definition sim_read8 (a : Z) : M sim Z := fun e =>
  let a := sim_tr e a in if sim_inside e a 1 then Ok (sim_byte e a, e) else Fault.
Definition sim_write8 (a v : Z) : M sim unit := fun e =>
  let a := sim_tr e a in if sim_inside e a 1 then Ok (tt, sim_put e a v) else Fault.
Definition sim_read32 (a : Z) : M sim Z := fun e =>
  let a := sim_tr e a in
  if sim_inside e a 4 then Ok (le32 (sim_byte e a) (sim_byte e (a + 1)) (sim_byte e (a + 2)) (sim_byte e (a + 3)), e)
  else Fault.
Definition sim_write32 (a v : Z) : M sim unit := fun e =>
  let a := sim_tr e a in
  if sim_inside e a 4 then
    Ok (tt, sim_put (sim_put (sim_put (sim_put e a v) (a + 1) (Z.shiftr v 8)) (a + 2) (Z.shiftr v 16)) (a + 3) (Z.shiftr v 24))
  else Fault.

#[global] Instance sim_env : ProcEnv sim := {
  env_kmalloc sz _ := fun e => Ok (sim_alloc sz e);
  env_kfree a := fun e =>
    if a =? 0 then Ok (tt, e)
    else match sim_live e !! a with
         | Some _ => Ok (tt, with_heap (sim_brk e) (base.delete a (sim_live e)) e)
         | None => Fault
         end;
  env_create_user_dir := fun e => let '(d, e') := sim_alloc PAGE_SIZE e in Ok ((d, d), e');
  env_kernel_dir _ := (4096, 4096);
  env_current_dir := sim_dir;
  env_set_current_dir d p := with_dir (d, p);
  env_virt_to_phys a _ := Some a;
  env_map_page va pa _ := fun e => Ok (0, with_maps (<[(fst (sim_dir e), va / 4096) := pa / 4096]> (sim_maps e)) e);
  env_read8 := sim_read8;
  env_read32 := sim_read32;
  env_write32 := sim_write32;
  env_write8 := sim_write8;
  env_close_fds p e := with_closed (p :: sim_closed e) e;
  env_set_kernel_stack := with_kst;
  env_return_to_shell := with_shell true;
  env_iflag := sim_if;
  env_set_iflag := with_if
}.

Record sim_ok (e : sim) : Prop := {
  sk_brk : 4096 <= sim_brk e;
  sk_limit : sim_limit e <= 4294967296;
  sk_block : forall b n, sim_live e !! b = Some n -> 4096 <= b /\ 0 < n /\ b + n <= sim_brk e /\ b + n <= sim_limit e;
  sk_disj : forall a n b m, sim_live e !! a = Some n -> sim_live e !! b = Some m -> a <> b -> a + n <= b \/ b + m <= a
}.

Lemma sim_inside_live e b n a len :
  sim_live e !! b = Some n -> b <= a -> a + len <= b + n -> sim_inside e a len = true.
Proof.
  intros Hb Ha Hn. unfold sim_inside. apply existsb_exists. exists (b, n). split.
  - apply list_elem_of_In, elem_of_map_to_list. done.
  - by rewrite !(proj2 (Z.leb_le _ _)) by done.
Qed.
Lemma sim_tr_live e b n a : sim_live e !! b = Some n -> b <= a < b + n -> sim_tr e a = a.
Proof. intros Hb Ha. unfold sim_tr. by rewrite (sim_inside_live e b n a 1) by (done || lia). Qed.
Lemma sim_byte_put e a v x : sim_byte (sim_put e a v) x = if decide (x = a) then u8 v else sim_byte e x.
Proof. unfold sim_byte, sim_put. simpl. rewrite lookup_insert. repeat case_decide; simpl; congruence. Qed.

Lemma sim_alloc_spec e sz :
  sim_ok e ->
  exists a e', sim_alloc sz e = (a, e') /\ sim_ok e' /\ sim_mem e' = sim_mem e /\
    ((a = 0 /\ sim_live e' = sim_live e) \/
     (4096 <= a /\ sim_live e !! a = None /\ exists n, sz <= n /\ sim_live e' = <[a := n]> (sim_live e))).
Proof.
  intros He. unfold sim_alloc. set (n := round_page (Z.max sz 1)).
  assert (sz <= n /\ 0 < n) as [Hn1 Hn2] by (unfold n, round_page; Z.div_mod_to_equations; lia).
  destruct (Z.leb_spec (sim_brk e + n) (sim_limit e)) as [Hle|]; [|eexists _, _; naive_solver].
  pose proof (sk_brk _ He).
  assert (sim_live e !! sim_brk e = None) as Hnone.
  { destruct (sim_live e !! sim_brk e) as [m|] eqn:Hm; [|done]. exfalso. pose proof (sk_block _ He _ _ Hm). lia. }
  eexists _, _. split; [done|]. split; [|split; [done|right; split_and!; [done|done|by exists n]]].
  destruct He as [Hb Hl Hk Hd]. split; simpl; [lia|done| |].
  - intros b m. rewrite lookup_insert. case_decide; [intros [= <-]; lia|]. intros Hm%Hk. lia.
  - intros a k b m. rewrite !lookup_insert. repeat case_decide; [congruence| | |by apply Hd].
    + intros [= <-] Hm%Hk ?. lia.
    + intros Hm%Hk [= <-] ?. lia.
Qed.

Lemma word_byte_cases v a x (m : Z) :
  (if decide (x = a + 3) then u8 (Z.shiftr v 24) else if decide (x = a + 2) then u8 (Z.shiftr v 16)
   else if decide (x = a + 1) then u8 (Z.shiftr v 8) else if decide (x = a) then u8 v else m) =
  if decide (a <= x < a + 4) then word_byte v (x - a) else m.
Proof.
  unfold word_byte. destruct (decide (a <= x < a + 4)).
  - assert (x = a \/ x = a + 1 \/ x = a + 2 \/ x = a + 3) as [->|[->|[->| ->]]] by lia;
      repeat (case_decide; try lia); unfold u8.
    + by rewrite Z.sub_diag.
    + by replace (8 * (a + 1 - a)) with 8 by lia.
    + by replace (8 * (a + 2 - a)) with 16 by lia.
    + by replace (8 * (a + 3 - a)) with 24 by lia.
  - repeat (case_decide; try lia).
Qed.

#[global] Instance sim_env_ok : ProcEnvOk sim.
Proof.
  refine {| env_ok := sim_ok; env_live := sim_live; env_mem := sim_byte |}; simpl.
  - intros e b n He Hb%(sk_block _ He). pose proof (sk_limit _ He). lia.
  - intros e a n b m He. apply He.
  - intros e sz _ He. destruct (sim_alloc_spec e sz He) as (a & e' & -> & He' & Hm & Hc).
    exists a, e'. split_and!; [done|done| |naive_solver].
    intros b n x _ _. unfold sim_byte. by rewrite Hm.
  - intros e a He Ha. destruct (Z.eqb_spec a 0) as [->|Hz].
    + exists e. split_and!; [done|done| |done]. rewrite delete_id; [done|].
      destruct (sim_live e !! 0) as [n|] eqn:Hn; [|done]. pose proof (sk_block _ He _ _ Hn). lia.
    + destruct Ha as [?|[n Hn]]; [done|]. rewrite Hn. eexists. split_and!; [done| |done|done].
      destruct He as [Hb Hl Hk Hd]. split; simpl; [done|done| |].
      * intros b m (_ & Hm)%lookup_delete_Some. by apply Hk.
      * intros ???? (_ & H1)%lookup_delete_Some (_ & H2)%lookup_delete_Some. by apply Hd.
  - intros e He. destruct (sim_alloc_spec e PAGE_SIZE He) as (a & e' & -> & He' & Hm & Hc).
    exists (a, a), e'. split_and!; [done|done| |]; simpl.
    + destruct Hc as [[_ ->]|(_ & Hn & n & _ & ->)]; [done|]. by apply insert_subseteq.
    + intros Hz. destruct Hc as [[? _]|(_ & Hn & n & Hsz & ->)]; [done|]. split; [done|]. exists n.
      split; [done|]. apply lookup_insert_eq.
  - intros e va pa _ He. eexists _, _. split; [done|]. split; [|done]. destruct He. by split.
  - intros e b n a He Hb Ha. unfold sim_read8. rewrite (sim_tr_live _ _ _ _ Hb Ha).
    by rewrite (sim_inside_live e b n a 1 Hb) by lia.
  - intros e b n a v He Hb Ha. unfold sim_write8. rewrite (sim_tr_live _ _ _ _ Hb Ha).
    rewrite (sim_inside_live e b n a 1 Hb) by lia. eexists. split_and!; [done| |done|].
    + destruct He. by split.
    + intros x. apply sim_byte_put.
  - intros e b n a v He Hb Ha Hn. unfold sim_write32. rewrite (sim_tr_live _ b n a Hb) by lia.
    rewrite (sim_inside_live e b n a 4 Hb) by lia. eexists. split_and!; [done| |done|].
    + destruct He. by split.
    + intros x. rewrite !sim_byte_put. apply word_byte_cases.
  - intros e a. unfold sim_read8. destruct (sim_inside e _ 1); eauto.
  - intros e a. unfold sim_read32. destruct (sim_inside e _ 4); eauto.
  - intros e a v He _. unfold sim_write32. destruct (sim_inside e _ 4); [right|by left]. eexists. split_and!; [done| |done].
    destruct He. by split.
  - intros e d p He. split_and!; [|done|done]. destruct He. by split.
  - intros e p He. split; [|done]. destruct He. by split.
  - intros e a He. split; [|done]. destruct He. by split.
  - intros e He. split; [|done]. destruct He. by split.
  - intros e b He. split_and!; [|done|done]. destruct He. by split.
Defined.

(** 16 MiB of memory, nothing allocated. *)
Definition sim0 : sim := Sim 0x100000 0x1100000 ∅ ∅ ∅ (4096, 4096) [] 0 false true.
Lemma sim0_ok : sim_ok sim0.
Proof. split; simpl; [lia|lia|intros ?? Hl|intros ???? Hl]; by rewrite lookup_empty in Hl. Qed.
End ProcEnv.
