(* ===== verification/ProcSched.v ===== *)
(** * The scheduler (kernel/proc/proc.c)

    What proc_find_next, proc_schedule, proc_take_next, proc_make_current and proc_exit do with the
    process table: the round robin order, the states of the processes involved and the progress of
    every process that can run. *)
From S2P Require Import Prelude Proc ProcEnv.

Module ProcSched.
Import Proc ProcEnv.

Section Scheduler.
Context {E : Type} `{ProcEnv E}.
Notation S := (procs E).

(** proc_table[i] of a state *)
Definition at_ (s : S) (i : Z) : option process := lget (proc_table s) i.

(** The table has its 16 entries, the current process and its index agree, and only the current
    process is in the state RUNNING. *)
Record sched_ok (s : S) : Prop := {
  so_len : length (proc_table s) = 16%nat;
  so_index : current_index s = current_proc s;
  so_range : -1 <= current_proc s < 16;
  so_run : forall i p, at_ s i = Some p -> state p = PROC_RUNNING -> i = current_proc s
}.

Definition can_run (s : S) (i : Z) : Prop := exists p, at_ s i = Some p /\ schedulable p = true.

(** ** Accesses to the table *)

Lemma at_in s i : length (proc_table s) = 16%nat -> 0 <= i < 16 -> exists p, at_ s i = Some p.
Proof. intros Hl Hi. apply lget_in. lia. Qed.
Lemma at_range s i p : length (proc_table s) = 16%nat -> at_ s i = Some p -> 0 <= i < 16.
Proof. intros Hl Hp%lget_some. lia. Qed.
Lemma getp_ok s i p : at_ s i = Some p -> getp i s = Ok (p, s).
Proof. intros Hp. unfold getp. rewrite bind_get. unfold at_ in Hp. by rewrite Hp. Qed.
Lemma updp_ok s i p f :
  at_ s i = Some p -> updp i f s = Ok (tt, with_table (<[Z.to_nat i := f p]> (proc_table s)) s).
Proof.
  intros Hp. unfold updp. rewrite (bind_ok _ _ _ _ _ (getp_ok _ _ _ Hp)), bind_get.
  unfold at_ in Hp. by rewrite (lset_in _ _ _ (lget_some _ _ _ Hp)), bind_lift_some.
Qed.

(** The state after an update of one entry. *)
Definition put (s : S) (i : Z) (f : process -> process) : S :=
  match at_ s i with
  | Some p => with_table (<[Z.to_nat i := f p]> (proc_table s)) s
  | None => s
  end.
Lemma updp_put s i p f : at_ s i = Some p -> updp i f s = Ok (tt, put s i f).
Proof. intros Hp. unfold put. rewrite Hp. by apply updp_ok. Qed.
Lemma at_put s i f j : at_ (put s i f) j = if decide (i = j) then f <$> at_ s j else at_ s j.
Proof.
  unfold put. destruct (at_ s i) as [p|] eqn:Hp.
  - unfold at_ in *. simpl. rewrite lget_insert by (by eapply lget_some). case_decide; [|done].
    subst. by rewrite Hp.
  - case_decide; [|done]. subst. by rewrite Hp.
Qed.
Lemma put_len s i f : length (proc_table (put s i f)) = length (proc_table s).
Proof. unfold put. destruct (at_ s i); [|done]. simpl. apply length_insert. Qed.
Lemma put_current s i f : current_proc (put s i f) = current_proc s.
Proof. unfold put. by destruct (at_ s i). Qed.
Lemma put_index s i f : current_index (put s i f) = current_index s.
Proof. unfold put. by destruct (at_ s i). Qed.
Lemma put_reaper s i f : proc_reaper_enabled (put s i f) = proc_reaper_enabled s.
Proof. unfold put. by destruct (at_ s i). Qed.
Lemma put_env s i f : env (put s i f) = env s.
Proof. unfold put. by destruct (at_ s i). Qed.
Lemma put_id s i f : (forall p, at_ s i = Some p -> f p = p) -> put s i f = s.
Proof.
  intros Hf. unfold put. destruct (at_ s i) as [p|] eqn:Hp; [|done]. rewrite Hf by done.
  unfold at_ in Hp. pose proof (lget_some _ _ _ Hp). rewrite lget_lookup in Hp by lia.
  rewrite list_insert_id by done. by destruct s.
Qed.
Lemma put_null s f : put s NULLP f = s.
Proof. done. Qed.

(** ** proc_find_next *)

(** The entry tested in the d-th test after [start]. *)
Definition after (start d : Z) : Z := (start + 1 + d) mod 16.

Lemma after_step start : -1 <= start < 16 ->
  (if MAX_PROCS <=? start + 1 then 0 else start + 1) = after start 0.
Proof. intros. unfold after, MAX_PROCS. bdestr; Z.div_mod_to_equations; lia. Qed.
Lemma after_shift start d : after (after start 0) d = after start (d + 1).
Proof. unfold after. Z.div_mod_to_equations. lia. Qed.
Lemma after_range start d : 0 <= after start d < 16.
Proof. unfold after. apply Z.mod_pos_bound. lia. Qed.
Lemma after_reach start k : -1 <= start < 16 -> 0 <= k < 16 -> exists d, 0 <= d < 16 /\ after start d = k.
Proof. intros. exists ((k - start - 1) mod 16). unfold after. Z.div_mod_to_equations. lia. Qed.

Lemma find_next_loop_ok s n start :
  length (proc_table s) = 16%nat -> -1 <= start < 16 ->
  (find_next_loop n start s = Ok (-1, s) /\ forall d, 0 <= d < Z.of_nat n -> ~ can_run s (after start d)) \/
  (exists d, 0 <= d < Z.of_nat n /\ find_next_loop n start s = Ok (after start d, s) /\
     can_run s (after start d) /\ forall e, 0 <= e < d -> ~ can_run s (after start e)).
Proof.
  intros Hl. revert start. induction n as [|n IH]; intros start Hs; simpl.
  { left. split; [done|]. lia. }
  rewrite after_step by done.
  destruct (at_in s (after start 0) Hl (after_range _ _)) as [p Hp].
  rewrite (bind_ok _ _ _ _ _ (getp_ok _ _ _ Hp)).
  destruct (schedulable p) eqn:Hsch.
  - right. exists 0. split_and!; [lia|lia|done|exists p; exact (conj Hp Hsch)|lia].
  - assert (~ can_run s (after start 0)) as Hno.
    { intros (q & Hq & ?). rewrite Hp in Hq. congruence. }
    assert (forall d, 0 <= d -> (forall e, 0 <= e < d -> ~ can_run s (after (after start 0) e)) ->
      forall e, 0 <= e < d + 1 -> ~ can_run s (after start e)) as Hall.
    { intros d Hd He e Hr. destruct (decide (e = 0)) as [->|]; [done|].
      specialize (He (e - 1)). rewrite after_shift in He. replace (e - 1 + 1) with e in He by lia. apply He. lia. }
    pose proof (after_range start 0) as Hr0.
    destruct (IH (after start 0) ltac:(lia)) as [[-> Hn]|(d & Hd & -> & Hc & Hb)].
    + left. split; [done|]. intros d Hd. apply (Hall (Z.of_nat n)); [lia|done|lia].
    + right. exists (d + 1). rewrite after_shift in Hc |- *. split_and!; [lia|lia|done|done|].
      apply (Hall d); [lia|done].
Qed.

(** ** The pieces of a switch *)

Definition rested (p : process) : process :=
  if bool_decide (state p = PROC_RUNNING) then set_state PROC_READY p else p.
Lemma demote_ok s : sched_ok s -> demote_current s = Ok (tt, put s (current_proc s) rested).
Proof.
  intros Hs. unfold demote_current. rewrite bind_gets. destruct (Z.eqb_spec (current_proc s) NULLP) as [Hn|Hn].
  { by rewrite Hn, put_null. }
  destruct (at_in s (current_proc s) (so_len _ Hs)) as [p Hp].
  { pose proof (so_range _ Hs). unfold NULLP in Hn. lia. }
  rewrite (bind_ok _ _ _ _ _ (getp_ok _ _ _ Hp)). unfold rested. destruct (bool_decide _) eqn:Hb.
  - rewrite (updp_put _ _ _ _ Hp). unfold put. by rewrite Hp, Hb.
  - rewrite put_id; [done|]. intros q Hq. rewrite Hp in Hq. simplify_eq. by rewrite Hb.
Qed.

(** The environment after the kernel stack and the address space of p were installed. *)
Definition loaded (p : process) (e : E) : E :=
  let e' := env_set_kernel_stack (u32 (kstack_base p + kstack_size p)) e in
  if page_dir p =? 0 then e' else env_set_current_dir (page_dir p) (page_dir_phys p) e'.
Lemma load_process_ok s i p : at_ s i = Some p -> load_process i s = Ok (tt, with_env (loaded p (env s)) s).
Proof.
  intros Hp. unfold load_process. rewrite (bind_ok _ _ _ _ _ (getp_ok _ _ _ Hp)).
  unfold effect. rewrite bind_modify. unfold loaded. by destruct (page_dir p =? 0).
Qed.

(** The entry of the process the processor leaves. *)
Definition left (save : bool) (regs : Z) (p : process) : process :=
  rested (if save then set_context_esp regs p else p).
(** The state after the switch from the current process to n. *)
Definition switched (s : S) (n : Z) (save : bool) (regs : Z) : S :=
  put (with_current n n (put s (current_proc s) (left save regs))) n (set_state PROC_RUNNING).

Lemma at_switched s n save regs j :
  at_ (switched s n save regs) j =
    if decide (j = n) then set_state PROC_RUNNING <$> (if decide (j = current_proc s) then left save regs <$> at_ s j else at_ s j)
    else if decide (j = current_proc s) then left save regs <$> at_ s j else at_ s j.
Proof.
  unfold switched. rewrite at_put. unfold at_ at 1 2, with_current. simpl. fold (at_ (put s (current_proc s) (left save regs)) j).
  rewrite at_put. repeat case_decide; congruence.
Qed.
Lemma left_not_running save regs p : state (left save regs p) <> PROC_RUNNING.
Proof. unfold left, rested. destruct save; simpl; case_bool_decide; simpl in *; congruence. Qed.
Lemma switched_ok s n save regs : sched_ok s -> 0 <= n < 16 -> sched_ok (switched s n save regs).
Proof.
  intros Hs Hn. split.
  - unfold switched. rewrite put_len. simpl. rewrite put_len. apply Hs.
  - unfold switched. by rewrite put_index, put_current.
  - unfold switched. rewrite put_current. simpl. lia.
  - intros i p. rewrite at_switched. unfold switched. rewrite put_current. simpl.
    case_decide as Hin; [done|]. case_decide as Hic.
    + destruct (at_ s i) as [q|]; [|done]. simpl. intros [= <-] Hrun. by apply left_not_running in Hrun.
    + intros Hp Hrun. by destruct Hic; eapply so_run.
Qed.

(** proc_find_next is the round robin order: from the index of the current process (-1 when
    there is none) it returns the first process in cyclic order that can be scheduled, the current
    one last, and -1 exactly when no process of the table can be scheduled. *)
Theorem proc_find_next_round_robin (s : S) start :
  length (proc_table s) = 16%nat -> -1 <= start < 16 ->
  (proc_find_next start s = Ok (-1, s) /\ forall k, ~ can_run s k) \/
  (exists d, 0 <= d < 16 /\ proc_find_next start s = Ok (after start d, s) /\
     can_run s (after start d) /\ forall e, 0 <= e < d -> ~ can_run s (after start e)).
Proof.
  intros Hl Hs. destruct (find_next_loop_ok s 16 start Hl Hs) as [[He Hn]|?]; [left|by right].
  split; [done|]. intros k (p & Hp & Hk). destruct (after_reach start k Hs (at_range _ _ _ Hl Hp)) as (d & Hd & <-).
  apply (Hn d); [lia|]. by exists p.
Qed.

(** The save of the stack pointer and the demotion of the current process together. *)
Lemma leave_ok s save regs :
  sched_ok s ->
  bind (if save && negb (current_proc s =? NULLP) then updp (current_proc s) (set_context_esp regs) else ret tt)
       (fun _ => demote_current) s = Ok (tt, put s (current_proc s) (left save regs)).
Proof.
  intros Hs. unfold left. destruct (Z.eqb_spec (current_proc s) NULLP) as [Hn|Hn].
  { rewrite andb_false_r, bind_ret, Hn, put_null, demote_ok, Hn, put_null by done. done. }
  rewrite andb_true_r. destruct (at_in s (current_proc s) (so_len _ Hs)) as [p Hp].
  { pose proof (so_range _ Hs). unfold NULLP in Hn. lia. }
  destruct save; [|rewrite bind_ret; by apply demote_ok].
  rewrite (bind_ok _ _ _ _ _ (updp_put _ _ _ _ Hp)), demote_ok.
  - rewrite put_current. unfold put. rewrite Hp.
    unfold at_ in *; simpl. pose proof (lget_some _ _ _ Hp). rewrite lget_insert, decide_True by done.
    simpl. by rewrite list_insert_insert_eq.
  - destruct Hs as [Hl Hi Hr Hrun]. split; rewrite ?put_len, ?put_index, ?put_current; try done.
    intros i q. rewrite at_put. case_decide; [|by apply Hrun]. by subst.
Qed.

(** Making n current, from the state in which the old current process was left. *)
Lemma enter_ok s n p save regs :
  sched_ok s -> at_ s n = Some p -> n <> current_proc s ->
  (modify (with_current n n);;; updp n (set_state PROC_RUNNING)) (put s (current_proc s) (left save regs)) =
    Ok (tt, switched s n save regs) /\
  at_ (switched s n save regs) n = Some (set_state PROC_RUNNING p).
Proof.
  intros Hs Hp Hne. rewrite bind_modify. set (s1 := with_current n n _).
  assert (at_ s1 n = Some p) as Hp1.
  { change (at_ s1 n) with (at_ (put s (current_proc s) (left save regs)) n). rewrite at_put, decide_False by congruence. done. }
  split; [by rewrite (updp_put _ _ _ _ Hp1)|]. rewrite at_switched, decide_True, decide_False, Hp by congruence. done.
Qed.
Lemma switched_env s n save regs : env (switched s n save regs) = env s.
Proof. unfold switched. rewrite put_env. simpl. apply put_env. Qed.

(** proc_take_next: the choice of proc_schedule without the installation of the process. *)
Lemma take_next_steps s :
  length (proc_table s) = 16%nat -> sched_ok s ->
  (proc_take_next s = Ok (NULLP, s)) \/
  (exists n p, at_ s n = Some p /\ schedulable p = true /\
     proc_take_next s = Ok (n, put (with_current n n (put s (current_proc s) rested)) n (set_state PROC_RUNNING))).
Proof.
  intros Hl Hs. unfold proc_take_next. rewrite bind_get.
  assert (-1 <= current_index s < 16) as Hi by (rewrite (so_index _ Hs); apply Hs).
  destruct (find_next_loop_ok s 16 (current_index s) Hl Hi) as [[He _]|(d & Hd & He & (p & Hp & Hk) & _)].
  - left. by rewrite (bind_ok (proc_find_next _) _ _ _ _ He).
  - right. exists (after (current_index s) d), p. split_and!; [done|done|].
    rewrite (bind_ok (proc_find_next _) _ _ _ _ He). pose proof (after_range (current_index s) d).
    rewrite (proj2 (Z.ltb_ge _ _)) by lia. rewrite (bind_ok _ _ _ _ _ (demote_ok s Hs)), bind_modify.
    set (n := after _ d) in *. set (s1 := with_current n n _).
    assert (exists q, at_ s1 n = Some q) as [q Hq].
    { change (at_ s1 n) with (at_ (put s (current_proc s) rested) n). rewrite at_put, Hp. case_decide; eauto. }
    by rewrite (bind_ok _ _ _ _ _ (updp_put _ _ _ _ Hq)).
Qed.

(** proc_make_current of an entry i. *)
Lemma make_current_steps s i p regs :
  sched_ok s -> at_ s i = Some p ->
  (current_proc s = i /\
     proc_make_current i regs s = Ok (true, with_env (loaded p (env s)) (with_current i i (put s i (set_state PROC_RUNNING))))) \/
  (current_proc s <> i /\
     (proc_make_current i regs s = Ok (false, s) \/
      proc_make_current i regs s =
        Ok (true, with_env (loaded p (env s)) (switched s i (negb (regs =? 0)) regs)))).
Proof.
  intros Hs Hp. pose proof (at_range _ _ _ (so_len _ Hs) Hp) as Hr. unfold proc_make_current.
  rewrite (proj2 (Z.eqb_neq i NULLP)) by (unfold NULLP; lia). rewrite bind_gets.
  destruct (Z.eqb_spec (current_proc s) i) as [Hc|Hc].
  - left. split; [done|]. rewrite Hc, (bind_ok _ _ _ _ _ (getp_ok _ _ _ Hp)).
    match goal with |- bind ?m _ _ = _ => assert (m s = Ok (tt, put s i (set_state PROC_RUNNING))) as Hm end.
    { case_bool_decide as Hst; simpl; [|by apply (updp_put _ _ _ _ Hp)]. rewrite put_id; [done|].
      intros q Hq. rewrite Hp in Hq. injection Hq as <-. destruct p; simpl in *; by subst. }
    rewrite (bind_ok _ _ _ _ _ Hm), bind_modify. set (s1 := with_current i i _).
    assert (at_ s1 i = Some (set_state PROC_RUNNING p)) as Hp1.
    { change (at_ s1 i) with (at_ (put s i (set_state PROC_RUNNING)) i). by rewrite at_put, decide_True, Hp. }
    rewrite (bind_ok _ _ _ _ _ (load_process_ok _ _ _ Hp1)). unfold s1. simpl. by rewrite put_env.
  - right. split; [done|].
    assert (forall (b : bool), b = true -> bind (ret b) (fun go => if negb go then ret false else
        modify (with_current i i);;; updp i (set_state PROC_RUNNING);;; load_process i;;; ret true)
        (put s (current_proc s) (left (negb (regs =? 0)) regs)) =
        Ok (true, with_env (loaded p (env s)) (switched s i (negb (regs =? 0)) regs))) as Hgo.
    { intros b ->. rewrite bind_ret. simpl.
      destruct (enter_ok s i p (negb (regs =? 0)) regs Hs Hp) as [He Hp2]; [congruence|].
      rewrite <-bind_bind, (bind_ok _ _ _ _ _ He), (bind_ok _ _ _ _ _ (load_process_ok _ _ _ Hp2)), switched_env. done. }
    destruct (Z.eqb_spec (current_proc s) NULLP) as [Hn|Hn].
    { right. specialize (Hgo true eq_refl). rewrite Hn, put_null in Hgo. exact Hgo. }
    destruct (at_in s (current_proc s) (so_len _ Hs)) as [c Hcp]; [pose proof (so_range _ Hs); unfold NULLP in Hn; lia|].
    destruct (Z.eqb_spec regs 0) as [Hz|Hz].
    + rewrite bind_bind, (bind_ok _ _ _ _ _ (getp_ok _ _ _ Hcp)).
      destruct (context_esp c =? 0); [by left|right]. rewrite bind_bind, (bind_ok _ _ _ _ _ (demote_ok s Hs)).
      exact (Hgo true eq_refl).
    + right. pose proof (leave_ok s true regs Hs) as Hlv. rewrite (proj2 (Z.eqb_neq _ _) Hn) in Hlv. simpl in Hlv.
      assert ((updp (current_proc s) (set_context_esp regs);;; demote_current;;; ret true) s =
        Ok (true, put s (current_proc s) (left true regs))) as Hl2 by (rewrite <-bind_bind; by rewrite (bind_ok _ _ _ _ _ Hlv)).
      rewrite (bind_ok _ _ _ _ _ Hl2). exact (Hgo true eq_refl).
Qed.

Lemma find_next_split s :
  sched_ok s ->
  (proc_find_next (current_index s) s = Ok (-1, s) /\ forall k, ~ can_run s k) \/
  (proc_find_next (current_index s) s = Ok (current_proc s, s) /\ 0 <= current_proc s /\
     forall k, can_run s k -> k = current_proc s) \/
  (exists d, 0 <= d < 16 /\ let n := after (current_index s) d in
     proc_find_next (current_index s) s = Ok (n, s) /\ n <> current_proc s /\ can_run s n /\
     forall e, 0 <= e < d -> ~ can_run s (after (current_index s) e)).
Proof.
  intros [Hl Hi Hr _]. rewrite Hi.
  destruct (find_next_loop_ok s 16 (current_proc s) Hl Hr) as [[He Hn]|(d & Hd & He & Hc & Hb)].
  - left. split; [done|]. intros k (p & Hp & Hk).
    destruct (after_reach (current_proc s) k Hr (at_range _ _ _ Hl Hp)) as (d & Hd & <-).
    apply (Hn d); [lia|]. by exists p.
  - right. destruct (decide (after (current_proc s) d = current_proc s)) as [Heq|Hne].
    + left. rewrite Heq in He. pose proof (after_range (current_proc s) d). split_and!; [done|lia|].
      intros k (p & Hp & Hk). destruct (after_reach (current_proc s) k Hr (at_range _ _ _ Hl Hp)) as (e & He' & <-).
      assert (d = 15) as -> by (unfold after in Heq; Z.div_mod_to_equations; lia).
      destruct (decide (e = 15)) as [->|]; [done|]. exfalso. apply (Hb e); [lia|]. by exists p.
    + right. exists d. split; [lia|]. done.
Qed.

Lemma schedule_next_steps (s : S) regs save :
  sched_ok s ->
  (schedule_next regs save s = Ok (false, s) /\ forall k, can_run s k -> k = current_proc s) \/
  (exists d p, 0 <= d < 16 /\ let n := after (current_index s) d in
     n <> current_proc s /\ can_run s n /\ (forall e, 0 <= e < d -> ~ can_run s (after (current_index s) e)) /\
     at_ s n = Some p /\
     schedule_next regs save s =
       Ok (true, with_sched_next_esp (context_esp p) (with_env (loaded p (env s)) (switched s n save regs)))).
Proof.
  intros Hs. unfold schedule_next. rewrite bind_get.
  destruct (find_next_split s Hs) as [[He Hn]|[(He & Hc & Hn)|(d & Hd & He & Hne & Hc & Hb)]].
  - left. rewrite (bind_ok _ _ _ _ _ He). split; [done|]. intros k Hk. by apply Hn in Hk.
  - left. rewrite (bind_ok _ _ _ _ _ He), (so_index _ Hs), Z.eqb_refl.
    rewrite (proj2 (Z.ltb_ge _ _)) by lia. rewrite (proj2 (Z.eqb_neq (current_proc s) NULLP)) by (unfold NULLP; lia).
    done.
  - right. destruct Hc as (p & Hp & Hk). pose proof (after_range (current_index s) d) as Hr.
    exists d, p. split; [done|]. split_and!; [done|by exists p|done|done|].
    set (n := after (current_index s) d) in *. rewrite (bind_ok _ _ _ _ _ He).
    rewrite (proj2 (Z.ltb_ge _ _)) by lia. rewrite (so_index _ Hs), (proj2 (Z.eqb_neq _ _) Hne). simpl.
    pose proof (leave_ok s save regs Hs) as Hlv. rewrite <-bind_bind.
    match goal with |- bind ?m _ _ = _ => rewrite (bind_ok m _ _ _ _ Hlv) end.
    rewrite bind_modify.
    set (s1 := with_current n n (put s (current_proc s) (left save regs))).
    assert (at_ s1 n = Some p) as Hp1.
    { change (at_ s1 n) with (at_ (put s (current_proc s) (left save regs)) n). rewrite at_put, decide_False by congruence. done. }
    rewrite (bind_ok _ _ _ _ _ (updp_put _ _ _ _ Hp1)). change (put s1 n _) with (switched s n save regs).
    assert (at_ (switched s n save regs) n = Some (set_state PROC_RUNNING p)) as Hp2.
    { rewrite at_switched, decide_True, decide_False, Hp by congruence. done. }
    rewrite (bind_ok _ _ _ _ _ (load_process_ok _ _ _ Hp2)).
    set (s2 := with_env _ (switched s n save regs)).
    assert (at_ s2 n = Some (set_state PROC_RUNNING p)) as Hp3 by done.
    rewrite (bind_ok _ _ _ _ _ (getp_ok _ _ _ Hp3)). rewrite bind_modify. subst s2.
    assert (env (switched s n save regs) = env s) as -> by (unfold switched; rewrite put_env; simpl; apply put_env).
    done.
Qed.

Lemma schedule_reaper (s : S) esp regs save :
  proc_reaper_enabled s = true -> proc_schedule esp regs save s = schedule_next regs save s.
Proof. intros Hre. unfold proc_schedule. by rewrite bind_get, Hre. Qed.
Lemma proc_schedule_steps (s : S) esp regs save :
  sched_ok s -> proc_reaper_enabled s = true ->
  (proc_schedule esp regs save s = Ok (false, s) /\ forall k, can_run s k -> k = current_proc s) \/
  (exists d p, 0 <= d < 16 /\ let n := after (current_index s) d in
     n <> current_proc s /\ can_run s n /\ (forall e, 0 <= e < d -> ~ can_run s (after (current_index s) e)) /\
     at_ s n = Some p /\
     proc_schedule esp regs save s =
       Ok (true, with_sched_next_esp (context_esp p) (with_env (loaded p (env s)) (switched s n save regs)))).
Proof. intros Hs Hre. rewrite schedule_reaper by done. by apply schedule_next_steps. Qed.

(** ** Progress *)

(** The variables of cpu/timer.c beside the process table *)
Record ticker := Ticker { tick : Z; slice_ticks : Z; slice_pid : Z; table : S }.
Definition with_slice (n p : Z) (t : ticker) : ticker := Ticker (tick t) n p (table t).
Definition on_table {A} (m : M S A) : M ticker A := fun t =>
  match m (table t) with
  | Ok (a, s) => Ok (a, Ticker (tick t) (slice_ticks t) (slice_pid t) s)
  | Fault => Fault
  | NoFuel => NoFuel
  end.
Definition PROC_TIME_SLICE_TICKS : Z := 5.
(** What timer_callback does for the processes, before and after which the cursor blinks and USB is
    polled: every fifth interrupt of one process calls proc_schedule, with the stack pointer of the
    handler and the address of the saved registers. *)
Definition timer_callback (esp regs : Z) : M ticker unit :=
  modify (fun t => Ticker (u32 (tick t + 1)) (slice_ticks t) (slice_pid t) (table t));;;
  p <- on_table proc_current_pid;;
  if p =? 0 then modify (with_slice 0 0)
  else
    t <- get;;
    (if negb (p =? slice_pid t) then modify (with_slice 0 p) else ret tt);;;
    t <- get;;
    modify (with_slice (u32 (slice_ticks t + 1)) (slice_pid t));;;
    t <- get;;
    if PROC_TIME_SLICE_TICKS <=? slice_ticks t then
      modify (with_slice 0 (slice_pid t));;; on_table (proc_schedule esp regs true);;; ret tt
    else ret tt.
(** A run of timer interrupts *)
Fixpoint interrupts (l : list (Z * Z)) : M ticker unit :=
  match l with
  | [] => ret tt
  | (esp, regs) :: l' => timer_callback esp regs;;; interrupts l'
  end.

(** The tests proc_find_next makes before it reaches k. *)
Definition distance (s : S) (k : Z) : Z := (k - current_index s - 1) mod 16.
Lemma distance_after s k : 0 <= k < 16 -> -1 <= current_index s < 16 -> after (current_index s) (distance s k) = k.
Proof. intros. unfold after, distance. Z.div_mod_to_equations. lia. Qed.
Lemma distance_range s k : 0 <= distance s k < 16.
Proof. apply Z.mod_pos_bound. lia. Qed.

(** The current process and those that can run have a process number. *)
Definition named (s : S) : Prop :=
  0 <= current_proc s /\ forall j q, at_ s j = Some q -> j = current_proc s \/ schedulable q = true -> pid q <> 0.
Lemma left_pid save regs p : pid (left save regs p) = pid p.
Proof. unfold left, rested. destruct save; by repeat case_match. Qed.
Lemma named_switched s n save regs : named s -> 0 <= n -> can_run s n -> named (switched s n save regs).
Proof.
  intros [Hc Hn] H0 (q0 & Hq0 & Hs0). assert (Hcur : current_proc (switched s n save regs) = n) by apply put_current. split; [by rewrite Hcur|]. rewrite Hcur.
  intros j q Hq Hj. rewrite at_switched in Hq. destruct (decide (j = n)) as [->|Hjn].
  - destruct (decide (n = current_proc s)); rewrite Hq0 in Hq; injection Hq as <-; cbn [pid set_state]; rewrite ?left_pid; eapply Hn; eauto.
  - destruct (decide (j = current_proc s)) as [->|Hjc]; [|destruct Hj; [done|]; eapply Hn; eauto].
    destruct (at_ s (current_proc s)) as [q1|] eqn:Eq; [|done]. injection Hq as <-. rewrite left_pid. eapply Hn; eauto.
Qed.

(** A switch that does not reach k brings k closer and leaves it as it is. *)
Lemma schedule_closer (s : S) esp regs k p :
  sched_ok s -> proc_reaper_enabled s = true -> at_ s k = Some p -> schedulable p = true -> k <> current_proc s ->
  exists s', proc_schedule esp regs true s = Ok (true, s') /\ sched_ok s' /\ proc_reaper_enabled s' = true /\
    (named s -> named s') /\
    (current_proc s' = k \/ (at_ s' k = Some p /\ k <> current_proc s' /\ distance s' k < distance s k)).
Proof.
  intros Hs Hre Hp Hk Hne. pose proof (at_range _ _ _ (so_len _ Hs) Hp) as Hr.
  assert (-1 <= current_index s < 16) as Hi by (rewrite (so_index _ Hs); apply Hs).
  destruct (proc_schedule_steps s esp regs true Hs Hre) as [[_ Hn]|(d & q & Hd & Hnc & Hc & Hb & Hq & ->)].
  { destruct Hne. apply Hn. by exists p. }
  set (n := after (current_index s) d) in *. set (s' := with_sched_next_esp _ _).
  assert (0 <= n < 16) as Hn by apply after_range.
  assert (current_proc s' = n) as Hcur by (unfold s', switched; simpl; apply put_current).
  assert (current_index s' = n) as Hidx by (unfold s', switched; simpl; apply put_index).
  exists s'. split; [done|]. pose proof (switched_ok s n true regs Hs Hn) as Hs'. split_and!.
  - destruct Hs' as [? ? ? ?]. by split.
  - unfold s', switched. simpl. rewrite put_reaper. simpl. by rewrite put_reaper.
  - intros Hna. apply (named_switched s n true regs Hna); [lia|done].
  - destruct (decide (n = k)) as [->|Hnk]; [by left|right]. split_and!; [|rewrite Hcur; by intros ->|].
    + change (at_ s' k) with (at_ (switched s n true regs) k). by rewrite at_switched, !decide_False by congruence.
    + pose proof (distance_after s k Hr Hi) as Ha. pose proof (distance_range s k) as Hdr.
      assert (d < distance s k) as Hlt.
      { destruct (Z.lt_trichotomy d (distance s k)) as [?|[Heq|Hgt]]; [done|destruct Hnk; unfold n; by rewrite Heq|].
        destruct (Hb (distance s k)); [lia|]. rewrite Ha. by exists p. }
      unfold distance in *. rewrite Hidx. unfold n, after in *. clear - Hlt Hd Hdr Ha Hi Hr.
      Z.div_mod_to_equations. lia.
Qed.

(** One interrupt of a process with the number c *)
Lemma callback_ok t esp regs c : proc_current_pid (table t) = Ok (c, table t) -> c <> 0 -> 0 <= slice_ticks t < 5 ->
  let n := (if slice_pid t =? c then slice_ticks t else 0) + 1 in
  timer_callback esp regs t =
    if 5 <=? n then (on_table (proc_schedule esp regs true);;; ret tt) (Ticker (u32 (tick t + 1)) 0 c (table t))
    else Ok (tt, Ticker (u32 (tick t + 1)) n c (table t)).
Proof.
  intros Hc H0 Hs n. unfold timer_callback. rewrite bind_modify. unfold bind at 1, on_table at 1. cbn [table tick slice_ticks slice_pid]. rewrite Hc, (proj2 (Z.eqb_neq c 0)), bind_get by done. cbn [slice_pid].
  subst n. rewrite (Z.eqb_sym c). destruct (Z.eqb_spec (slice_pid t) c) as [<-|Hne]; cbn [negb]; rewrite ?bind_ret, ?bind_modify, !bind_get, bind_modify, bind_get; cbn [slice_ticks slice_pid with_slice tick table];
    rewrite u32_small by (unfold is_u32; lia); unfold PROC_TIME_SLICE_TICKS; destruct (_ <=? _); [by rewrite bind_modify|done..].
Qed.
(** The fifth interrupt of the slice, after r more, calls proc_schedule. *)
Lemma slice_ends c r : forall t l, proc_current_pid (table t) = Ok (c, table t) -> c <> 0 -> 0 <= slice_ticks t < 5 ->
  Z.of_nat r = 5 - (if slice_pid t =? c then slice_ticks t else 0) -> (r <= length l)%nat ->
  exists t' esp regs, table t' = table t /\ slice_ticks t' = 0 /\
    interrupts (take r l) t = (on_table (proc_schedule esp regs true);;; ret tt) t'.
Proof.
  induction r as [|r IH]; intros t l Hc H0 Hs Hr Hl; [destruct (slice_pid t =? c); lia|]. destruct l as [|[esp regs] l]; [cbn in Hl; lia|]. cbn [take interrupts].
  pose proof (callback_ok t esp regs c Hc H0 Hs) as Ec. cbv zeta in Ec. destruct (Z.leb_spec 5 ((if slice_pid t =? c then slice_ticks t else 0) + 1)) as [H5|H5].
  - assert (r = 0%nat) as -> by lia. cbn [take interrupts]. exists (Ticker (u32 (tick t + 1)) 0 c (table t)), esp, regs. split_and!; [done|done|]. unfold bind at 1. rewrite Ec. unfold bind, ret.
    by destruct (on_table _ _) as [[[] ?]| |].
  - rewrite (bind_ok _ _ _ _ _ Ec). set (t1 := Ticker _ _ _ _). destruct (IH t1 l) as (t' & e & g & Ht & Hz & Ei); [done|done|destruct (slice_pid t =? c); cbn in *; lia|cbn [t1 slice_pid slice_ticks]; rewrite Z.eqb_refl; lia|cbn in Hl; lia|].
    by exists t', e, g.
Qed.
Lemma interrupts_app l l' t t1 : interrupts l t = Ok (tt, t1) -> interrupts (l ++ l') t = interrupts l' t1.
Proof.
  revert t. induction l as [|[esp regs] l IH]; intros t Er; [by injection Er as ->|]. cbn [app interrupts] in *. unfold bind in *. destruct (timer_callback esp regs t) as [[[] t2]| |]; [by apply IH|done..].
Qed.

Lemma current_pid_named s : sched_ok s -> named s -> exists c, proc_current_pid s = Ok (c, s) /\ c <> 0.
Proof.
  intros Hs [H0 Hn]. destruct (at_in s (current_proc s) (so_len _ Hs)) as (q & Hq); [pose proof (so_range _ Hs); lia|]. exists (pid q). split; [|eapply Hn; eauto].
  unfold proc_current_pid. rewrite bind_gets. rewrite (proj2 (Z.eqb_neq _ _)) by (unfold NULLP; lia). by rewrite (bind_ok _ _ _ _ _ (getp_ok _ _ _ Hq)).
Qed.
Lemma interrupts_reach m : forall t k p l,
  let s := table t in sched_ok s -> proc_reaper_enabled s = true -> named s -> 0 <= slice_ticks t < 5 -> at_ s k = Some p -> schedulable p = true -> k <> current_proc s ->
  distance s k < Z.of_nat m -> (5 * m <= length l)%nat ->
  exists n t', (n <= 5 * m)%nat /\ interrupts (take n l) t = Ok (tt, t') /\ current_proc (table t') = k.
Proof.
  induction m as [|m IH]; intros t k p l s Hs Hre Hna Ht Hp Hk Hne Hd Hl; [pose proof (distance_range s k); lia|].
  destruct (current_pid_named s Hs Hna) as (c & Hc & Hc0). set (r := Z.to_nat (5 - (if slice_pid t =? c then slice_ticks t else 0))).
  assert (Hr : Z.of_nat r = 5 - (if slice_pid t =? c then slice_ticks t else 0) /\ (r <= 5)%nat) by (subst r; destruct (slice_pid t =? c); lia).
  destruct (slice_ends c r t l Hc Hc0 Ht ltac:(lia) ltac:(lia)) as (t1 & esp & regs & Et & Hz & Ei).
  destruct (schedule_closer s esp regs k p Hs Hre Hp Hk Hne) as (s1 & E1 & Hs1 & Hre1 & Hna1 & Hcase). specialize (Hna1 Hna).
  assert (E2 : interrupts (take r l) t = Ok (tt, Ticker (tick t1) (slice_ticks t1) (slice_pid t1) s1)).
  { rewrite Ei. unfold bind, on_table. subst s. by rewrite Et, E1. }
  set (t2 := Ticker _ _ _ _) in E2. destruct Hcase as [Hck|(Hp1 & Hne1 & Hlt)]; [exists r, t2; split; [lia|done]|].
  destruct (IH t2 k p (drop r l)) as (n & t' & Hn & En & Hk'); [done|done|done|cbn; lia|done|done|done|cbn [t2 table]; lia|rewrite length_drop; lia|].
  exists (r + n)%nat, t'. split; [lia|]. split; [|done]. rewrite <-(take_drop r l) at 1. rewrite take_app_add', (interrupts_app _ _ _ _ E2); [done|rewrite length_take; lia].
Qed.

(** A call of proc_schedule while the reaper thread does the reaping either changes nothing,
    when no process other than the current one can run, or switches to the first process in round
    robin order: the process left is READY (when it was RUNNING) with its stack pointer saved if
    asked, the chosen one is current and RUNNING, its kernel stack and address space are
    installed, its saved stack pointer is handed to the interrupt return and no other entry
    changes. *)
Theorem proc_schedule_switches (s : S) esp regs save :
  sched_ok s -> proc_reaper_enabled s = true ->
  (proc_schedule esp regs save s = Ok (false, s) /\ forall k, can_run s k -> k = current_proc s) \/
  (exists d p s', 0 <= d < 16 /\ let n := after (current_index s) d in
     n <> current_proc s /\ (forall e, 0 <= e < d -> ~ can_run s (after (current_index s) e)) /\
     at_ s n = Some p /\ schedulable p = true /\ proc_schedule esp regs save s = Ok (true, s') /\
     sched_ok s' /\ current_proc s' = n /\ at_ s' n = Some (set_state PROC_RUNNING p) /\
     at_ s' (current_proc s) = left save regs <$> at_ s (current_proc s) /\
     (forall j, j <> n -> j <> current_proc s -> at_ s' j = at_ s j) /\
     sched_next_esp s' = context_esp p /\ env s' = loaded p (env s)).
Proof.
  intros Hs Hre. destruct (proc_schedule_steps s esp regs save Hs Hre) as [?|(d & p & Hd & Hn & Hc & Hb & Hp & ->)];
    [by left|right].
  set (n := after (current_index s) d) in *. eexists d, p, _. split; [done|]. fold n.
  pose proof (switched_ok s n save regs Hs (after_range _ _)) as [? ? ? ?].
  split_and!; [done|done|done| |done|by split| | | | |done|done].
  - destruct Hc as (q & Hq & ?). congruence.
  - simpl. unfold switched. apply put_current.
  - change (at_ (switched s n save regs) n = Some (set_state PROC_RUNNING p)).
    by rewrite at_switched, decide_True, decide_False, Hp by congruence.
  - change (at_ (switched s n save regs) (current_proc s) = left save regs <$> at_ s (current_proc s)).
    by rewrite at_switched, decide_False, decide_True by congruence.
  - intros j Hj1 Hj2. change (at_ (switched s n save regs) j = at_ s j). by rewrite at_switched, !decide_False by congruence.
Qed.

(** C11: Every process that can run gets the processor: when the reaper thread does the reaping and
    the current process and those that can run have a number (timer_callback never switches away from
    number 0), each process that is READY with a saved context is the current process after at most 80
    timer interrupts, 16 slices of 5, whatever stack pointers they save, if nothing else changes the
    table meanwhile. *)
Theorem proc_schedule_fair t k p l :
  let s := table t in sched_ok s -> proc_reaper_enabled s = true -> named s -> 0 <= slice_ticks t < 5 -> at_ s k = Some p -> schedulable p = true -> (80 <= length l)%nat ->
  exists n t', (n <= 80)%nat /\ interrupts (take n l) t = Ok (tt, t') /\ current_proc (table t') = k.
Proof.
  intros s Hs Hre Hna Ht Hp Hk Hl. destruct (decide (k = current_proc s)) as [->|Hne].
  - exists 0%nat, t. split; [lia|]. done.
  - apply (interrupts_reach 16 t k p l); try done. all: pose proof (distance_range (table t) k); lia.
Qed.
End Scheduler.

(** ** A table with three processes *)

Definition user_process (id esp : Z) (st : proc_state) : process :=
  Process id [] 0 0 0 0 0 0 0 0 0 esp 0 0 0 0 st false.
Definition three : procs sim :=
  Procs ([user_process 1 0x1000 PROC_RUNNING; zero_process; user_process 2 0x2000 PROC_READY;
          user_process 3 0 PROC_READY; user_process 4 0x4000 PROC_READY] ++ replicate 11 zero_process)
        0 5 0 true false 0 0 0 0 0 0 sim0.
Lemma three_ok : sched_ok three.
Proof.
  split; [done|done|done|]. intros i p Hp Hr. pose proof (at_range three i p eq_refl Hp) as Hi.
  unfold at_, lget in Hp. rewrite (proj2 (Z.ltb_ge _ _)) in Hp by lia.
  destruct (Z.to_nat i) as [|n] eqn:Hn; [simpl; lia|].
  do 16 (destruct n as [|n]; [simpl in Hp; by simplify_eq/=|]). done.
Qed.

Lemma proc_find_next_round_robin_witness :
  proc_find_next 0 three = Ok (2, three) /\
  ((proc_find_next 0 three = Ok (-1, three) /\ forall k, ~ can_run three k) \/
   (exists d, 0 <= d < 16 /\ proc_find_next 0 three = Ok (after 0 d, three) /\
     can_run three (after 0 d) /\ forall e, 0 <= e < d -> ~ can_run three (after 0 e))).
Proof. split; [reflexivity|]. apply (proc_find_next_round_robin three 0); [reflexivity|lia]. Defined.
Lemma proc_schedule_switches_witness :
  sched_ok three /\ exists d p s', proc_schedule 0 0x7777 true three = Ok (true, s') /\
    after 0 d = 2 /\ at_ s' 2 = Some (set_state PROC_RUNNING p) /\ context_esp p = 0x2000.
Proof.
  split; [exact three_ok|].
  destruct (proc_schedule_switches three 0 0x7777 true three_ok eq_refl)
    as [[Hc _]|(d & p & s' & Hd & Hne & Hb & Hp & Hk & He & Hs & Hc & Hq & _)]; [discriminate Hc|].
  exists d, p, s'. split; [exact He|]. change (current_index three) with 0 in *.
  assert (after 0 d = 2) as Ha.
  { destruct (Z.lt_trichotomy d 1) as [Hlt|[->|Hgt]]; [|reflexivity|].
    - assert (d = 0) as -> by lia. injection Hp as <-. discriminate Hk.
    - destruct (Hb 1); [lia|]. exists (user_process 2 0x2000 PROC_READY). split; reflexivity. }
  rewrite Ha in *. split; [reflexivity|]. split; [exact Hq|]. injection Hp as <-. reflexivity.
Defined.
Lemma three_named : named three.
Proof.
  split; [done|]. intros j q Hq Hj Hz. pose proof (at_range three j q eq_refl Hq) as Hi. unfold at_, lget in Hq. rewrite (proj2 (Z.ltb_ge _ _)) in Hq by lia.
  destruct Hj as [->|Hj]; [by vm_compute in Hq; simplify_eq|]. destruct (Z.to_nat j) as [|n]; [by cbn in Hq; simplify_eq|].
  do 16 (destruct n as [|n]; [by cbn in Hq; simplify_eq|]). done.
Qed.
Lemma proc_schedule_fair_witness :
  exists n t', (n <= 80)%nat /\ interrupts (take n (replicate 80 (0, 0x9000))) (Ticker 0 3 1 three) = Ok (tt, t') /\ current_proc (table t') = 4.
Proof.
  apply (proc_schedule_fair (Ticker 0 3 1 three) 4 (user_process 4 0x4000 PROC_READY) (replicate 80 (0, 0x9000))).
  - exact three_ok.
  - reflexivity.
  - exact three_named.
  - simpl. lia.
  - reflexivity.
  - reflexivity.
  - simpl. lia.
Defined.
End ProcSched.
