(* ===== verification/ProcKill.v ===== *)
(** * Ending processes (kernel/proc/proc.c)

    proc_exit, proc_kill and proc_wake_vfork_parent on every branch: the result code, the entry
    that ends, the parent that wakes up and the entries that stay as they are. *)
From S2P Require Import Prelude Proc ProcEnv ProcSched.

Module ProcKill.
Import Proc ProcEnv ProcSched.

Section Ending.
Context {E : Type} `{ProcEnv E}.
Notation S := (procs E).

(** Two entries never share a pid (0 is the pid of an entry that was never used). *)
Definition pids_unique (s : S) : Prop :=
  forall i j p q, at_ s i = Some p -> at_ s j = Some q -> pid p = pid q -> pid p <> 0 -> i = j.

(** ** Searching the table *)

Lemma scan_table_ok (s : S) q n i :
  length (proc_table s) = 16%nat -> 0 <= i -> i + Z.of_nat n = 16 ->
  exists r, scan q n i s = Ok (r, s) /\
    ((r = NULLP /\ forall j p, i <= j -> at_ s j = Some p -> q p = false) \/
     (exists p, i <= r /\ at_ s r = Some p /\ q p = true /\ forall j p', i <= j < r -> at_ s j = Some p' -> q p' = false)).
Proof.
  intros Hl. revert i. induction n as [|n IH]; intros i Hi Hn; simpl.
  { exists NULLP. split; [done|]. left. split; [done|]. intros j p Hj Hp%at_range; [lia|done]. }
  destruct (at_in s i Hl ltac:(lia)) as [p Hp]. rewrite (bind_ok _ _ _ _ _ (getp_ok _ _ _ Hp)).
  destruct (q p) eqn:Hq.
  { exists i. split; [done|]. right. exists p. split_and!; [lia|done|done|]. lia. }
  destruct (IH (i + 1) ltac:(lia) ltac:(lia)) as (r & Hr & [[-> Hno]|(p' & Hr1 & Hr2 & Hr3 & Hr4)]); exists r || exists NULLP.
  - split; [done|]. left. split; [done|]. intros j p' Hj Hp'. destruct (decide (j = i)) as [->|]; [congruence|].
    apply (Hno j p'); [lia|done].
  - split; [done|]. right. exists p'. split_and!; [lia|done|done|]. intros j p2 Hj Hp2.
    destruct (decide (j = i)) as [->|]; [congruence|]. apply (Hr4 j p2); [lia|done].
Qed.
Lemma find_ok (s : S) q :
  length (proc_table s) = 16%nat ->
  exists r, find_proc q s = Ok (r, s) /\
    ((r = NULLP /\ forall j p, at_ s j = Some p -> q p = false) \/
     (exists p, at_ s r = Some p /\ r <> NULLP /\ q p = true /\ forall j p', j < r -> at_ s j = Some p' -> q p' = false)).
Proof.
  intros Hl. destruct (scan_table_ok s q 16 0 Hl ltac:(lia) ltac:(lia)) as (r & Hr & Hc). exists r. split; [done|].
  destruct Hc as [[-> Hn]|(p & H0 & Hp & Hq & Hb)]; [left|right].
  - split; [done|]. intros j p Hp. apply (Hn j p); [|done]. apply at_range in Hp; [lia|done].
  - exists p. split_and!; [done|unfold NULLP; lia|done|]. intros j p' Hj Hp'. apply (Hb j p'); [|done].
    apply at_range in Hp'; [lia|done].
Qed.

(** ** Waking the parent of a vfork *)

Definition wake (vp : Z) (q : process) : process :=
  if negb (vp =? 0) && (pid q =? vp) && bool_decide (state q = PROC_BLOCKED) then set_state PROC_READY q else q.
Lemma wake_pid vp q : pid (wake vp q) = pid q.
Proof. unfold wake. by destruct (_ && _). Qed.
Lemma wake_noop vp q : (vp <> 0 -> pid q <> vp) -> wake vp q = q.
Proof. intros Hq. unfold wake. bdestr; simpl; try done. tauto. Qed.

(** An operation that only changed the table. *)
Definition table_only (s s' : S) : Prop :=
  length (proc_table s') = length (proc_table s) /\ s' = with_table (proc_table s') s.
Lemma table_only_fields s s' : table_only s s' ->
  current_proc s' = current_proc s /\ current_index s' = current_index s /\ env s' = env s /\ next_pid s' = next_pid s /\
  proc_reaper_enabled s' = proc_reaper_enabled s /\ proc_reap_pending s' = proc_reap_pending s /\
  foreground_pid s' = foreground_pid s /\ kill_requested_pid s' = kill_requested_pid s.
Proof. intros [_ E1]. by rewrite E1. Qed.
Lemma table_only_refl s : table_only s s.
Proof. split; [done|]. by destruct s. Qed.
Lemma table_only_put s i f : table_only s (put s i f).
Proof. split; [apply put_len|]. unfold put. destruct (at_ s i); [done|by destruct s]. Qed.
Lemma table_only_trans s1 s2 s3 : table_only s1 s2 -> table_only s2 s3 -> table_only s1 s3.
Proof. intros [H1 E1] [H2 E2]. split; [congruence|]. rewrite E2, E1. done. Qed.

Lemma wake_ok (s : S) i p :
  length (proc_table s) = 16%nat -> pids_unique s -> at_ s i = Some p ->
  exists s', proc_wake_vfork_parent i s = Ok (tt, s') /\ table_only s s' /\
    forall j, at_ s' j = wake (vfork_parent_pid p) <$> at_ (put s i (set_vfork_parent 0)) j.
Proof.
  intros Hl Hu Hp. unfold proc_wake_vfork_parent. pose proof (at_range _ _ _ Hl Hp).
  rewrite (proj2 (Z.eqb_neq _ _)) by (unfold NULLP; lia). rewrite (bind_ok _ _ _ _ _ (getp_ok _ _ _ Hp)).
  assert (forall vp q, vp = 0 -> wake vp q = q) as Hw0 by (intros; apply wake_noop; lia).
  destruct (Z.eqb_spec (vfork_parent_pid p) 0) as [Hz|Hz].
  { exists s. split; [done|]. split; [apply table_only_refl|]. intros j. rewrite at_put.
    case_decide; [subst|]; (destruct (at_ s j) as [q|] eqn:Hq; [|done]); simpl; f_equal; rewrite Hw0 by done; [|done].
    simplify_eq. by destruct p; simpl in *; subst. }
  set (s1 := put s i (set_vfork_parent 0)). rewrite (bind_ok _ _ _ _ _ (updp_put _ _ _ _ Hp)). fold s1.
  assert (length (proc_table s1) = 16%nat) as Hl1 by (unfold s1; by rewrite put_len).
  assert (forall j q, at_ s1 j = Some q -> exists q0, at_ s j = Some q0 /\ pid q = pid q0) as Hback.
  { intros j q. unfold s1. rewrite at_put. case_decide; [|by exists q].
    destruct (at_ s j) as [q0|]; [|done]. simpl. intros [= <-]. by exists q0. }
  destruct (find_ok s1 (fun q => pid q =? vfork_parent_pid p) Hl1) as (r & Hr & Hc).
  rewrite (bind_ok _ _ _ _ _ Hr). destruct Hc as [[-> Hn]|(q & Hq & Hrn & Hqp & _)].
  { exists s1. split; [done|]. split; [apply table_only_put|]. intros j. destruct (at_ s1 j) as [q|] eqn:Hq; [|done].
    simpl. f_equal. symmetry. apply wake_noop. intros _. apply Z.eqb_neq. by eapply Hn. }
  rewrite (proj2 (Z.eqb_neq _ _) Hrn), (bind_ok _ _ _ _ _ (getp_ok _ _ _ Hq)). apply Z.eqb_eq in Hqp.
  assert (forall j q', j <> r -> at_ s1 j = Some q' -> wake (vfork_parent_pid p) q' = q') as Hoth.
  { intros j q' Hj Hq'. apply wake_noop. intros _ Hpid. destruct Hj.
    destruct (Hback _ _ Hq) as (a & Ha & Hpa). destruct (Hback _ _ Hq') as (b & Hb & Hpb).
    apply (Hu j r b a); congruence. }
  destruct (bool_decide (state q = PROC_BLOCKED)) eqn:Hbl.
  - exists (put s1 r (set_state PROC_READY)). rewrite (updp_put _ _ _ _ Hq). split; [done|].
    split; [eapply table_only_trans; apply table_only_put|]. intros j. rewrite at_put. destruct (decide (r = j)) as [Hj|Hj].
    + subst. rewrite Hq. simpl. f_equal. unfold wake. rewrite (proj2 (Z.eqb_neq _ _) Hz), Hqp, Z.eqb_refl, Hbl. done.
    + destruct (at_ s1 j) as [q'|] eqn:Hq'; [|done]. simpl. by rewrite (Hoth j).
  - exists s1. split; [done|]. split; [apply table_only_put|]. intros j. destruct (at_ s1 j) as [q'|] eqn:Hq'; [|done].
    simpl. f_equal. destruct (decide (j = r)) as [->|Hj]; [|by rewrite (Hoth j)].
    rewrite Hq in Hq'. simplify_eq. unfold wake. by rewrite Hbl, andb_false_r.
Qed.

(** ** The entry that ends *)

Definition ended (code : Z) (p : process) : process :=
  set_vfork_parent 0 (set_state PROC_EXITED (set_exit_code code p)).

Lemma pids_unique_map (s s' : S) f :
  (forall i q, at_ s i = Some q -> pid (f i q) = pid q) -> (forall i, at_ s' i = f i <$> at_ s i) -> pids_unique s -> pids_unique s'.
Proof.
  intros Hf Hat Hu i j p q. rewrite !Hat.
  destruct (at_ s i) as [p0|] eqn:Hp; [|done]. destruct (at_ s j) as [q0|] eqn:Hq; [|done].
  simpl. intros [= <-] [= <-]. rewrite !Hf by done. by apply (Hu i j p0 q0).
Qed.

Lemma bind3_ok {A} (a b c : M S unit) (k : M S A) s s' :
  (a;;; b;;; c) s = Ok (tt, s') -> (a;;; b;;; c;;; k) s = k s'.
Proof.
  unfold bind. destruct (a s) as [[[] s1]| |]; [|done|done]. destruct (b s1) as [[[] s2]| |]; [|done|done]. by intros ->.
Qed.

(** Marking entry i as EXITED and waking its vfork parent. *)
Lemma end_entry_ok (s : S) i p code :
  length (proc_table s) = 16%nat -> pids_unique s -> at_ s i = Some p ->
  exists s', (updp i (set_exit_code code);;; updp i (set_state PROC_EXITED);;; proc_wake_vfork_parent i) s = Ok (tt, s') /\
    table_only s s' /\ at_ s' i = Some (ended code p) /\
    (forall j, j <> i -> at_ s' j = wake (vfork_parent_pid p) <$> at_ s j) /\ pids_unique s'.
Proof.
  intros Hl Hu Hp. rewrite (bind_ok _ _ _ _ _ (updp_put _ _ _ _ Hp)).
  assert (at_ (put s i (set_exit_code code)) i = Some (set_exit_code code p)) as Hp1
    by (by rewrite at_put, decide_True, Hp).
  rewrite (bind_ok _ _ _ _ _ (updp_put _ _ _ _ Hp1)). set (s2 := put _ i (set_state PROC_EXITED)).
  assert (forall j, at_ s2 j = if decide (i = j) then (fun q => set_state PROC_EXITED (set_exit_code code q)) <$> at_ s j else at_ s j) as Hat2.
  { intros j. unfold s2. rewrite !at_put. case_decide; [|done]. by destruct (at_ s j). }
  assert (pids_unique s2) as Hu2.
  { apply (pids_unique_map s s2 (fun j q => if decide (i = j) then set_state PROC_EXITED (set_exit_code code q) else q)).
    - intros j q _. by case_decide.
    - intros j. rewrite Hat2. case_decide; [done|]. by destruct (at_ s j).
    - done. }
  assert (at_ s2 i = Some (set_state PROC_EXITED (set_exit_code code p))) as Hp2 by (by rewrite Hat2, decide_True, Hp).
  destruct (wake_ok s2 i _ ltac:(unfold s2; by rewrite !put_len) Hu2 Hp2) as (s' & -> & Hto & Hat).
  exists s'. split; [done|]. split; [eapply table_only_trans; [|exact Hto]; eapply table_only_trans; apply table_only_put|].
  assert (at_ s' i = Some (ended code p)) as Hi'.
  { rewrite Hat, at_put, decide_True, Hp2 by done. simpl. f_equal. unfold wake. simpl. by rewrite andb_false_r. }
  assert (forall j, j <> i -> at_ s' j = wake (vfork_parent_pid p) <$> at_ s j) as Hj'.
  { intros j Hj. rewrite Hat, at_put, decide_False, Hat2, decide_False by congruence. done. }
  split_and!; [done|done|].
  apply (pids_unique_map s s' (fun j q => if decide (j = i) then ended code p else wake (vfork_parent_pid p) q)) ; [| |done].
  - intros j q Hq. case_decide; [|apply wake_pid]. subst. rewrite Hp in Hq. by simplify_eq.
  - intros j. case_decide; [subst; by rewrite Hi', Hp|by apply Hj'].
Qed.

Lemma ended_sched_ok (s s' : S) i p code :
  sched_ok s -> at_ s' i = Some (ended code p) ->
  (forall j, j <> i -> at_ s' j = wake (vfork_parent_pid p) <$> at_ s j) -> length (proc_table s') = 16%nat ->
  current_index s' = current_proc s' -> -1 <= current_proc s' < 16 ->
  (current_proc s' = current_proc s \/ i = current_proc s) -> sched_ok s'.
Proof.
  intros Hs Hi Hj Hl Hx Hr Hc. split; [done|done|done|]. intros j q Hq Hrun.
  destruct (decide (j = i)) as [->|Hne]; [rewrite Hi in Hq; by simplify_eq|].
  rewrite Hj in Hq by done. destruct (at_ s j) as [q0|] eqn:Hq0; [|done]. simpl in Hq. simplify_eq.
  assert (state q0 = PROC_RUNNING) as Hrun0.
  { unfold wake in Hrun. destruct (_ && _); [done|exact Hrun]. }
  pose proof (so_run _ Hs _ _ Hq0 Hrun0). destruct Hc; congruence.
Qed.

Lemma exit_ok (s : S) code p :
  sched_ok s -> pids_unique s -> at_ s (current_proc s) = Some p ->
  exists s', proc_exit code s = Ok (tt, s') /\ sched_ok s' /\ pids_unique s' /\ current_proc s' = NULLP /\
    at_ s' (current_proc s) = Some (ended code p) /\
    (forall j, j <> current_proc s -> at_ s' j = wake (vfork_parent_pid p) <$> at_ s j) /\
    foreground_pid s' = (if foreground_pid s =? pid p then 0 else foreground_pid s) /\
    proc_reap_pending s' = proc_reaper_enabled s || proc_reap_pending s /\ env s' = env s /\ next_pid s' = next_pid s.
Proof.
  intros Hs Hu Hp. unfold proc_exit. rewrite bind_gets. pose proof (at_range _ _ _ (so_len _ Hs) Hp) as Hr.
  rewrite (proj2 (Z.eqb_neq _ _)) by (unfold NULLP; lia). rewrite (bind_ok _ _ _ _ _ (getp_ok _ _ _ Hp)), bind_modify.
  set (s1 := if foreground_pid s =? pid p then with_foreground 0 s else s).
  assert (proc_table s1 = proc_table s /\ proc_reaper_enabled s1 = proc_reaper_enabled s /\ env s1 = env s /\
    proc_reap_pending s1 = proc_reap_pending s /\
    foreground_pid s1 = if foreground_pid s =? pid p then 0 else foreground_pid s) as (Ht & Hre & He & Hrp & Hf)
    by (unfold s1; by destruct (_ =? _)).
  assert (forall j, at_ s1 j = at_ s j) as Hat by (intros; unfold at_; by rewrite Ht).
  destruct (end_entry_ok s1 (current_proc s) p code) as (s2 & E2 & [Hl2 Hs2] & Hi & Hj & Hu2);
    [rewrite Ht; apply Hs|unfold pids_unique; setoid_rewrite Hat; exact Hu|by rewrite Hat|].
  rewrite (bind3_ok _ _ _ _ _ _ E2), bind_modify.
  assert (table_only s1 s2) as (C1 & C2 & C3 & C7 & C4 & C5 & C6 & _)%table_only_fields by done.
  set (s3 := if proc_reaper_enabled s2 then with_reap_pending true s2 else s2).
  assert (proc_table s3 = proc_table s2 /\ env s3 = env s2 /\ foreground_pid s3 = foreground_pid s2 /\
    proc_reap_pending s3 = proc_reaper_enabled s2 || proc_reap_pending s2) as (Ht3 & He3 & Hf3 & Hr3)
    by (unfold s3; by destruct (proc_reaper_enabled s2)).
  exists (with_current NULLP (-1) s3). split; [done|].
  assert (forall j, at_ (with_current NULLP (-1) s3) j = at_ s2 j) as Hat3 by (intros; unfold at_; simpl; by rewrite Ht3).
  assert (forall j, j <> current_proc s -> at_ s2 j = wake (vfork_parent_pid p) <$> at_ s j) as Hj' by (intros; by rewrite Hj, Hat).
  split_and!.
  - apply (ended_sched_ok s _ (current_proc s) p code).
    + done.
    + by rewrite Hat3.
    + intros j Hne. rewrite Hat3. by apply Hj'.
    + simpl. by rewrite Ht3, Hl2, Ht, (so_len _ Hs).
    + done.
    + simpl. unfold NULLP. lia.
    + by right.
  - unfold pids_unique. setoid_rewrite Hat3. exact Hu2.
  - done.
  - by rewrite Hat3.
  - intros j Hne. rewrite Hat3. by apply Hj'.
  - simpl. by rewrite Hf3, C6.
  - simpl. by rewrite Hr3, C4, C5, Hre, Hrp.
  - simpl. by rewrite He3, C3.
  - simpl. assert (next_pid s3 = next_pid s2) as -> by (unfold s3; by destruct (proc_reaper_enabled s2)).
    rewrite C7. unfold s1. by destruct (_ =? _).
Qed.

Lemma kill_ok (s : S) i p target force :
  sched_ok s -> pids_unique s -> at_ s i = Some p -> pid p = target -> target <> 0 -> state p <> PROC_UNUSED ->
  exists r s', proc_kill target force s = Ok (r, s') /\
    if is_kernel p && negb force && negb (bool_decide (state p = PROC_EXITED) && negb (i =? current_proc s))
    then r = PROC_KILL_KERNEL /\ s' = s
    else if i =? current_proc s then r = PROC_KILL_OK /\ s' = with_kill_requested target s
    else if bool_decide (state p = PROC_EXITED) then r = PROC_KILL_ALREADY_EXITED /\ s' = s
    else r = PROC_KILL_OK /\ sched_ok s' /\ pids_unique s' /\ current_proc s' = current_proc s /\
      at_ s' i = Some (ended 0 p) /\
      (forall j, j <> i -> at_ s' j = wake (vfork_parent_pid p) <$> at_ s j) /\
      foreground_pid s' = (if foreground_pid s =? target then 0 else foreground_pid s) /\
      env s' = (if foreground_pid s =? target then env_return_to_shell (env s) else env s) /\
      proc_reap_pending s' = proc_reaper_enabled s || proc_reap_pending s /\ next_pid s' = next_pid s.
Proof.
  intros Hs Hu Hp Hpid Hz Hun. pose proof (at_range _ _ _ (so_len _ Hs) Hp) as Hr.
  unfold proc_kill. rewrite (proj2 (Z.eqb_neq _ _) Hz), bind_gets.
  assert (forall c, at_ s (current_proc s) = Some c -> (pid c =? target) = (i =? current_proc s)) as Hcur.
  { intros c Hc. destruct (Z.eqb_spec i (current_proc s)) as [->|Hne].
    - rewrite Hp in Hc. simplify_eq. apply Z.eqb_refl.
    - apply Z.eqb_neq. intros Heq. destruct Hne. apply (Hu i (current_proc s) p c); congruence. }
  match goal with |- context [bind ?m _ s] =>
    assert (m s = Ok (if i =? current_proc s then Some p else None, s)) as Em end.
  { destruct (Z.eqb_spec (current_proc s) NULLP) as [Hn|Hn].
    - rewrite Hn, (proj2 (Z.eqb_neq i NULLP)) by (unfold NULLP; lia). done.
    - destruct (at_in s (current_proc s) (so_len _ Hs)) as [c Hc]; [pose proof (so_range _ Hs); unfold NULLP in Hn; lia|].
      rewrite (bind_ok _ _ _ _ _ (getp_ok _ _ _ Hc)), (Hcur c Hc).
      destruct (Z.eqb_spec i (current_proc s)); [|done]. unfold ret. congruence. }
  rewrite (bind_ok _ _ _ _ _ Em). destruct (i =? current_proc s) eqn:Hic.
  { rewrite andb_false_r, andb_true_r. destruct (is_kernel p && negb force); eauto. }
  rewrite andb_true_r.
  destruct (find_ok s (fun q => negb (bool_decide (state q = PROC_UNUSED)) && (pid q =? target)) (so_len _ Hs)) as (r & Er & Hc).
  rewrite (bind_ok _ _ _ _ _ Er). assert (r = i) as ->.
  { destruct Hc as [[_ Hn]|(q & Hq & _ & [_ Hqp%Z.eqb_eq]%andb_true_iff & _)].
    - specialize (Hn i p Hp). rewrite bool_decide_false, Hpid, Z.eqb_refl in Hn by done. done.
    - apply (Hu r i q p); congruence. }
  rewrite (proj2 (Z.eqb_neq _ _)) by (unfold NULLP; lia). rewrite (bind_ok _ _ _ _ _ (getp_ok _ _ _ Hp)).
  destruct (bool_decide (state p = PROC_EXITED)) eqn:Hex; [rewrite andb_false_r; eauto|]. rewrite andb_true_r.
  destruct (is_kernel p && negb force); [eauto|].
  unfold proc_is_foreground_pid. rewrite bind_gets, (proj2 (Z.eqb_neq _ _) Hz).
  change (negb false && (foreground_pid s =? target)) with (foreground_pid s =? target).
  destruct (end_entry_ok s i p 0 (so_len _ Hs) Hu Hp) as (s2 & E2 & Hto & Hi & Hj & Hu2).
  rewrite (bind3_ok _ _ _ _ _ _ E2). pose proof (table_only_fields _ _ Hto) as (C1 & C2 & C3 & C7 & C4 & C5 & C6 & _).
  set (s3 := if foreground_pid s =? target then with_env (env_return_to_shell (env s)) (with_foreground 0 s2) else s2).
  match goal with |- context [bind ?m _ s2] => assert (m s2 = Ok (tt, s3)) as E3 end.
  { unfold s3. destruct (foreground_pid s =? target); [|done]. rewrite bind_modify. unfold effect, modify. simpl. by rewrite C3. }
  rewrite (bind_ok _ _ _ _ _ E3), bind_modify.
  set (s4 := if proc_reaper_enabled s3 then with_reap_pending true s3 else s3).
  eexists _, s4. split; [done|]. split; [done|].
  assert (proc_table s4 = proc_table s2 /\ current_proc s4 = current_proc s /\ current_index s4 = current_index s /\
    proc_reap_pending s4 = proc_reaper_enabled s || proc_reap_pending s /\
    foreground_pid s4 = (if foreground_pid s =? target then 0 else foreground_pid s) /\
    env s4 = (if foreground_pid s =? target then env_return_to_shell (env s) else env s)) as (Ht4 & D1 & D2 & D3 & D4 & D5).
  { unfold s4, s3. destruct (foreground_pid s =? target), (proc_reaper_enabled s) eqn:Hre; simpl; rewrite ?C4, ?Hre; simpl;
      rewrite ?C1, ?C2, ?C3, ?C5, ?C6; done. }
  assert (forall j, at_ s4 j = at_ s2 j) as Hat by (intros; unfold at_; by rewrite Ht4).
  split_and!; try done.
  - apply (ended_sched_ok s _ i p 0); rewrite ?Hat, ?Ht4, ?D1, ?D2; try done.
    + intros j Hne. rewrite Hat. by apply Hj.
    + destruct Hto as [-> _]. apply Hs.
    + apply Hs.
    + apply Hs.
    + by left.
  - unfold pids_unique. setoid_rewrite Hat. exact Hu2.
  - by rewrite Hat.
  - intros j Hne. rewrite Hat. by apply Hj.
  - rewrite <-C7. unfold s4, s3. destruct (foreground_pid s =? target); simpl; by destruct (proc_reaper_enabled s2).
Qed.

(** proc_exit ends the current process completely: its entry is EXITED with the exit code and
    no vfork parent, the parent it had is READY again if it was blocked, every other entry stays as
    it is, there is no current process any more, the foreground is released when it was this
    process and the reaper, when there is one, is told. *)
Theorem proc_exit_ends_current (s : S) code p :
  sched_ok s -> pids_unique s -> at_ s (current_proc s) = Some p ->
  exists s', proc_exit code s = Ok (tt, s') /\ sched_ok s' /\ pids_unique s' /\ current_proc s' = NULLP /\
    at_ s' (current_proc s) = Some (ended code p) /\
    (forall j, j <> current_proc s -> at_ s' j = wake (vfork_parent_pid p) <$> at_ s j) /\
    foreground_pid s' = (if foreground_pid s =? pid p then 0 else foreground_pid s) /\
    proc_reap_pending s' = proc_reaper_enabled s || proc_reap_pending s /\ env s' = env s.
Proof.
  intros Hs Hu Hp. destruct (exit_ok s code p Hs Hu Hp) as (s' & ? & ? & ? & ? & ? & ? & ? & ? & ? & _). exists s'. by split_and!.
Qed.

(** The complete outcome of proc_kill for a live pid that belongs to entry i: a kernel process
    is refused without force, the current process only has the request recorded, an entry that has
    exited is reported, and every other process ends at once with exit code 0: its vfork parent
    wakes up, the foreground and with it the shell come back when the process held it, the reaper
    is told, and no other entry changes. *)
Theorem proc_kill_outcome (s : S) i p target force :
  sched_ok s -> pids_unique s -> at_ s i = Some p -> pid p = target -> target <> 0 -> state p <> PROC_UNUSED ->
  exists r s', proc_kill target force s = Ok (r, s') /\
    if is_kernel p && negb force && negb (bool_decide (state p = PROC_EXITED) && negb (i =? current_proc s))
    then r = PROC_KILL_KERNEL /\ s' = s
    else if i =? current_proc s then r = PROC_KILL_OK /\ s' = with_kill_requested target s
    else if bool_decide (state p = PROC_EXITED) then r = PROC_KILL_ALREADY_EXITED /\ s' = s
    else r = PROC_KILL_OK /\ sched_ok s' /\ pids_unique s' /\ current_proc s' = current_proc s /\
      at_ s' i = Some (ended 0 p) /\
      (forall j, j <> i -> at_ s' j = wake (vfork_parent_pid p) <$> at_ s j) /\
      foreground_pid s' = (if foreground_pid s =? target then 0 else foreground_pid s) /\
      env s' = (if foreground_pid s =? target then env_return_to_shell (env s) else env s) /\
      proc_reap_pending s' = proc_reaper_enabled s || proc_reap_pending s.
Proof.
  intros Hs Hu Hp Hpid Hz Hun. destruct (kill_ok s i p target force Hs Hu Hp Hpid Hz Hun) as (r & s' & He & Hc).
  exists r, s'. split; [done|]. destruct (_ && _ && _); [done|]. destruct (i =? current_proc s); [done|].
  destruct (bool_decide _); [done|]. naive_solver.
Qed.

(** proc_kill of a pid that no entry in use has fails without any change. *)
Lemma kill_unknown (s : S) target force :
  sched_ok s -> (forall c, at_ s (current_proc s) = Some c -> state c <> PROC_UNUSED) ->
  (target = 0 \/ forall i p, at_ s i = Some p -> state p <> PROC_UNUSED -> pid p <> target) ->
  proc_kill target force s = Ok (if target =? 0 then PROC_KILL_INVALID else PROC_KILL_NO_SUCH, s).
Proof.
  intros Hs Hcu Hno. unfold proc_kill. destruct (Z.eqb_spec target 0) as [|Hz]; [done|]. destruct Hno as [|Hno]; [done|].
  rewrite bind_gets.
  match goal with |- context [bind ?m _ s] => assert (m s = Ok (None, s)) as Em end.
  { destruct (Z.eqb_spec (current_proc s) NULLP) as [Hn|Hn]; [done|].
    destruct (at_in s (current_proc s) (so_len _ Hs)) as [c Hc]; [pose proof (so_range _ Hs); unfold NULLP in Hn; lia|].
    rewrite (bind_ok _ _ _ _ _ (getp_ok _ _ _ Hc)). by rewrite (proj2 (Z.eqb_neq _ _) (Hno _ _ Hc (Hcu _ Hc))). }
  rewrite (bind_ok _ _ _ _ _ Em).
  destruct (find_ok s (fun q => negb (bool_decide (state q = PROC_UNUSED)) && (pid q =? target)) (so_len _ Hs))
    as (r & Er & [[-> _]|(q & Hq & _ & [Hun Hqp%Z.eqb_eq]%andb_true_iff & _)]); [by rewrite (bind_ok _ _ _ _ _ Er)|].
  destruct (Hno r q Hq); [|done]. apply negb_true_iff, bool_decide_eq_false in Hun. done.
Qed.

End Ending.

(** ** A vfork parent and its child *)

Definition family : procs sim :=
  Procs ([set_state PROC_BLOCKED (user_process 1 0x1000 PROC_READY);
          set_vfork_parent 1 (user_process 2 0x2000 PROC_RUNNING);
          set_vfork_parent 1 (user_process 3 0x3000 PROC_READY)] ++ replicate 13 zero_process)
        1 4 1 true false 0 0 0 0 0 3 sim0.
Lemma family_at i p : at_ family i = Some p ->
  (i = 0 /\ p = set_state PROC_BLOCKED (user_process 1 0x1000 PROC_READY)) \/
  (i = 1 /\ p = set_vfork_parent 1 (user_process 2 0x2000 PROC_RUNNING)) \/
  (i = 2 /\ p = set_vfork_parent 1 (user_process 3 0x3000 PROC_READY)) \/ p = zero_process.
Proof.
  intros Hp. pose proof (at_range family i p eq_refl Hp) as Hi.
  unfold at_, lget in Hp. rewrite (proj2 (Z.ltb_ge _ _)) in Hp by lia.
  destruct (Z.to_nat i) as [|n] eqn:Hn; [left; simpl in Hp; simplify_eq; split; [lia|done]|].
  destruct n as [|n]; [right; left; simpl in Hp; simplify_eq; split; [lia|done]|].
  destruct n as [|n]; [right; right; left; simpl in Hp; simplify_eq; split; [lia|done]|].
  right; right; right. do 14 (destruct n as [|n]; [simpl in Hp; by simplify_eq|]). done.
Qed.
Lemma family_ok : sched_ok family.
Proof.
  split; [done|done|done|]. intros i p [[-> ->]|[[-> ->]|[[-> ->]| ->]]]%family_at Hr; done.
Qed.
Lemma family_unique : pids_unique family.
Proof.
  intros i j p q [[-> ->]|[[-> ->]|[[-> ->]| ->]]]%family_at [[-> ->]|[[-> ->]|[[-> ->]| ->]]]%family_at Hpid Hz;
    simpl in *; done.
Qed.

Lemma proc_exit_ends_current_witness :
  exists s', proc_exit 7 family = Ok (tt, s') /\ state <$> at_ s' 0 = Some PROC_READY /\ exit_code <$> at_ s' 1 = Some 7.
Proof.
  destruct (proc_exit_ends_current family 7 (set_vfork_parent 1 (user_process 2 0x2000 PROC_RUNNING))
    family_ok family_unique eq_refl) as (s' & He & _ & _ & _ & Hc & Hj & _).
  exists s'. split; [exact He|]. rewrite (Hj 0) by (intros Heq; discriminate Heq).
  change (current_proc family) with 1 in Hc. rewrite Hc. split; reflexivity.
Defined.
Lemma proc_kill_outcome_witness :
  exists s', proc_kill 3 false family = Ok (PROC_KILL_OK, s') /\ foreground_pid s' = 0 /\
    state <$> at_ s' 0 = Some PROC_READY /\ state <$> at_ s' 2 = Some PROC_EXITED.
Proof.
  destruct (proc_kill_outcome family 2 (set_vfork_parent 1 (user_process 3 0x3000 PROC_READY)) 3 false
    family_ok family_unique eq_refl eq_refl ltac:(lia) ltac:(intros Hc; discriminate Hc))
    as (r & s' & He & -> & _ & _ & _ & Hi & Hj & Hf & _).
  exists s'. split; [exact He|]. split; [exact Hf|]. rewrite (Hj 0) by lia. rewrite Hi. split; reflexivity.
Defined.
End ProcKill.
