(* ===== verification/ProcOwn.v ===== *)
(** * Ownership of kernel memory by processes (kernel/proc/proc.c)

    Every process owns its kernel stack, the kernel alias of its user stack, its image and, unless
    it is a kernel process, its page directory.  The operations that create, change and reap
    processes keep these blocks live and pairwise disjoint: nothing is freed twice, nothing that is
    in use is freed, and no write leaves the block it is meant for. *)
From S2P Require Import Prelude Proc ProcEnv ProcSched ProcKill.

Module ProcOwn.
Import Proc ProcEnv ProcSched ProcKill.

Definition blk (b n : Z) : list (Z * Z) := if b =? 0 then [] else [(b, n)].
(** The blocks an entry owns, with the sizes the code relies on. *)
Definition blocks (p : process) : list (Z * Z) :=
  blk (stack_kern_base p) (stack_size p) ++ blk (kstack_base p) (kstack_size p) ++
  blk (image_base p) (image_size p) ++ (if is_kernel p then [] else blk (page_dir p) PAGE_SIZE).

Lemma blk_nz b n : b <> 0 -> blk b n = [(b, n)].
Proof. intros. unfold blk. by rewrite (proj2 (Z.eqb_neq _ _)). Qed.

Section Ownership.
Context {E : Type} {PE : ProcEnv E} {PO : ProcEnvOk E}.
Notation S := (procs E).

(** a belongs to an entry other than i. *)
Definition others (i : Z) (s : S) (a : Z) : Prop :=
  exists j q n, j <> i /\ at_ s j = Some q /\ (a, n) ∈ blocks q.

(** The blocks of all entries are live, large enough and different. *)
Record own_ok (s : S) : Prop := {
  oo_live : forall i p a n, at_ s i = Some p -> (a, n) ∈ blocks p -> exists m, env_live (env s) !! a = Some m /\ n <= m;
  oo_nodup : forall i p, at_ s i = Some p -> NoDup (blocks p).*1;
  oo_disj : forall i p a n, at_ s i = Some p -> (a, n) ∈ blocks p -> ~ others i s a
}.

(** While an operation works on entry i, L are the blocks it is responsible for, in the
    environment e; the blocks of the other entries are as they were in s. *)
Record held (i : Z) (s : S) (L : list (Z * Z)) (e : E) : Prop := {
  he_ok : env_ok e;
  he_frame : forall a, others i s a -> env_live e !! a = env_live (env s) !! a;
  he_live : forall a n, (a, n) ∈ L -> exists m, env_live e !! a = Some m /\ n <= m;
  he_nodup : NoDup L.*1;
  he_disj : forall a n, (a, n) ∈ L -> ~ others i s a
}.

(** The state in which entry i is p and the environment e, and the rest as in s. *)
Definition upto (i : Z) (p : process) (e : E) (s : S) : S :=
  with_env e (with_table (<[Z.to_nat i := p]> (proc_table s)) s).

Lemma at_upto i p e s j p0 :
  at_ s i = Some p0 -> at_ (upto i p e s) j = if decide (i = j) then Some p else at_ s j.
Proof. intros Hp%lget_some. by apply lget_insert. Qed.
Lemma upto_self i p s : at_ s i = Some p -> upto i p (env s) s = s.
Proof.
  intros Hp. unfold upto. unfold at_ in Hp. pose proof (lget_some _ _ _ Hp). rewrite lget_lookup in Hp by lia.
  rewrite list_insert_id by done. by destruct s.
Qed.

Lemma held_start i p s : own_ok s -> env_ok (env s) -> at_ s i = Some p -> held i s (blocks p) (env s).
Proof. intros [Hl Hn Hd] He Hp. split; eauto. Qed.
Lemma held_finish i p0 p s e : own_ok s -> at_ s i = Some p0 -> held i s (blocks p) e -> own_ok (upto i p e s).
Proof.
  intros Ho Hp0 [He Hf Hl Hn Hd].
  assert (forall j q, at_ (upto i p e s) j = Some q -> (j = i /\ q = p) \/ (j <> i /\ at_ s j = Some q)) as Hat.
  { intros j q. rewrite (at_upto _ _ _ _ _ _ Hp0). case_decide; [left|right]; by naive_solver. }
  assert (at_ (upto i p e s) i = Some p) as Hpi by (by rewrite (at_upto _ _ _ _ _ _ Hp0), decide_True).
  split.
  - intros j q a n [[-> ->]|[Hj Hq]]%Hat Ha; [by apply Hl|]. simpl. rewrite Hf by (by exists j, q, n).
    by apply (oo_live _ Ho j q).
  - intros j q [[-> ->]|[Hj Hq]]%Hat; [done|]. by apply (oo_nodup _ Ho j).
  - intros j q a n Hq Ha (k & r & m & Hkj & Hr & Hra). destruct (Hat _ _ Hq) as [[-> ->]|[Hj Hq']].
    + destruct (Hat _ _ Hr) as [[-> _]|[_ Hr']]; [done|]. destruct (Hd _ _ Ha). by exists k, r, m.
    + destruct (Hat _ _ Hr) as [[-> ->]|[_ Hr']].
      * destruct (Hd _ _ Hra). by exists j, q, n.
      * apply (oo_disj _ Ho j q a n Hq' Ha). by exists k, r, m.
Qed.

Lemma held_perm i s L L' e : L ≡ₚ L' -> held i s L e -> held i s L' e.
Proof.
  intros Hp [He Hf Hl Hn Hd]. split; [done|done| | |].
  - intros a n Ha. apply Hl. by rewrite Hp.
  - by rewrite <-Hp.
  - intros a n Ha. apply (Hd a n). by rewrite Hp.
Qed.
(** The environment may change as long as it keeps the live blocks. *)
Lemma held_quiet i s L e e' : held i s L e -> env_ok e' -> env_live e' = env_live e -> held i s L e'.
Proof. intros [He Hf Hl Hn Hd] He' Hlv. split; [done| | |done|done]; rewrite Hlv; done. Qed.

Lemma others_live i s L e a : own_ok s -> held i s L e -> others i s a -> is_Some (env_live e !! a).
Proof.
  intros Ho Hh Ha. rewrite (he_frame _ _ _ _ Hh a Ha). destruct Ha as (j & q & n & _ & Hq & Hb).
  destruct (oo_live _ Ho _ _ _ _ Hq Hb) as (m & Hm & _). eauto.
Qed.
Lemma held_add i s L e e' a n sz :
  own_ok s -> held i s L e -> env_ok e' -> env_live e !! a = None -> sz <= n ->
  env_live e ⊆ env_live e' -> env_live e' !! a = Some n -> held i s ((a, sz) :: L) e'.
Proof.
  intros Ho Hh He' Ha Hsz Hsub Hlv.
  assert (forall b m, env_live e !! b = Some m -> env_live e' !! b = Some m) as Hkeep
    by (intros; by eapply lookup_weaken).
  pose proof Hh as [He Hf Hl Hn Hd]. split; [done| | | |].
  - intros b Hb. rewrite <-(Hf b Hb). destruct (others_live _ _ _ _ _ Ho Hh Hb) as [m Hm].
    rewrite Hm. by apply Hkeep.
  - intros b m [[= -> ->]|Hb]%elem_of_cons; [by exists n|]. destruct (Hl b m Hb) as (k & Hk & ?). eauto.
  - simpl. apply list.NoDup_cons. split; [|done]. intros ([b m] & -> & Hb)%list_elem_of_fmap.
    destruct (Hl b m Hb) as (k & Hk & _). simpl in Ha. congruence.
  - intros b m [[= -> ->]|Hb]%elem_of_cons; [|by eapply Hd]. intros [m Hm]%(others_live _ _ _ _ _ Ho Hh). congruence.
Qed.
Lemma held_drop i s L e e' a n :
  held i s ((a, n) :: L) e -> env_ok e' -> env_live e' = base.delete a (env_live e) -> held i s L e'.
Proof.
  intros [He Hf Hl Hn Hd] He' Hlv. simpl in Hn. apply list.NoDup_cons in Hn as [Hna Hn]. split; [done| | |done|].
  - intros b Hb. rewrite Hlv, lookup_delete_ne; [by apply Hf|]. intros ->. apply (Hd b n); [by left|done].
  - intros b m Hb. rewrite Hlv, lookup_delete_ne; [apply Hl; by right|]. intros ->. destruct Hna.
    apply list_elem_of_fmap. by exists (b, m).
  - intros b m Hb. apply (Hd b m). by right.
Qed.

(** ** Rules for the statements of an operation on one entry *)

Section Entry.
Context (i : Z) (s : S) (p0 : process) (Hat : at_ s i = Some p0) (Ho : own_ok s).
Notation st p e := (upto i p e s).
Notation held := (held i s).
Context (F : Prop).

Lemma entry_at p e : at_ (st p e) i = Some p.
Proof. by rewrite (at_upto _ _ _ _ _ _ Hat), decide_True. Qed.
Lemma wp_getp p e Q : Q p (st p e) -> wp F (getp i) Q (st p e).
Proof. intros HQ. eapply wp_ok; [apply getp_ok, entry_at|done]. Qed.
Lemma wp_updp p e f Q : Q tt (st (f p) e) -> wp F (updp i f) Q (st p e).
Proof.
  intros HQ. eapply wp_ok; [apply (updp_ok _ _ _ _ (entry_at p e))|].
  unfold upto in *. simpl. rewrite list_insert_insert_eq. exact HQ.
Qed.
Lemma wp_ask {A} p e (f : E -> A) Q : Q (f e) (st p e) -> wp F (ask f) Q (st p e).
Proof. done. Qed.
Lemma wp_effect p e (f : E -> E) Q : Q tt (st p (f e)) -> wp F (effect f) Q (st p e).
Proof. done. Qed.
Lemma wp_call {A} p e (c : M E A) a e' (Q : A -> S -> Prop) : c e = Ok (a, e') -> Q a (st p e') -> wp F (call c) Q (st p e).
Proof. intros Hc HQ. unfold wp, call. simpl. rewrite Hc. exact HQ. Qed.

(** e' has the bytes of e in the blocks L. *)
Definition keeps (L : list (Z * Z)) (e e' : E) : Prop :=
  forall b n x, (b, n) ∈ L -> b <= x < b + n -> env_mem e' x = env_mem e x.

Lemma wp_kmalloc_keep L p e sz al Q :
  held L e -> (forall e', held L e' -> Q 0 (st p e')) ->
  (forall a e', a <> 0 -> held ((a, sz) :: L) e' -> keeps L e e' -> Q a (st p e')) -> wp F (call (env_kmalloc sz al)) Q (st p e).
Proof.
  intros Hh H0 H1. destruct (kmalloc_law e sz al (he_ok _ _ _ _ Hh)) as (a & e' & Hc & He' & Hk & Ha).
  apply (wp_call _ _ _ _ _ _ Hc).
  assert (keeps L e e') as Hkeep.
  { intros b n x Hb Hx. destruct (he_live _ _ _ _ Hh b n Hb) as (m & Hm & ?). apply (Hk b m); [done|lia]. }
  destruct Ha as [[-> Hl]|(Hn & n & Hsz & Hl)].
  - apply H0. by eapply held_quiet.
  - assert (held ((a, sz) :: L) e') as Hh'.
    { eapply (held_add _ _ _ e); [done|done|done|done|done| |]; rewrite Hl;
        [by apply insert_subseteq|apply lookup_insert_eq]. }
    apply H1; [|done|done]. destruct (he_live _ _ _ _ Hh' a sz ltac:(by left)) as (m & Hm & _).
    pose proof (live_range _ _ _ He' Hm). lia.
Qed.
Lemma wp_kmalloc L p e sz al Q :
  held L e -> (forall e', held L e' -> Q 0 (st p e')) ->
  (forall a e', a <> 0 -> held ((a, sz) :: L) e' -> Q a (st p e')) -> wp F (call (env_kmalloc sz al)) Q (st p e).
Proof. intros Hh H0 H1. apply (wp_kmalloc_keep L); auto. Qed.
Lemma wp_kfree_live L p e a n Q :
  held ((a, n) :: L) e ->
  (forall e', held L e' -> keeps L e e' -> env_live e' = base.delete a (env_live e) -> Q tt (st p e')) ->
  wp F (call (env_kfree a)) Q (st p e).
Proof.
  intros Hh HQ. destruct (he_live _ _ _ _ Hh a n ltac:(by left)) as (m & Hm & _).
  destruct (kfree_law e a (he_ok _ _ _ _ Hh)) as (e' & Hc & He' & Hl & Hk); [eauto|].
  apply (wp_call _ _ _ _ _ _ Hc), HQ; [by eapply held_drop| |done]. intros b k x Hb Hx.
  destruct (he_live _ _ _ _ Hh b k ltac:(by right)) as (m' & Hm' & ?). apply (Hk b m'); [done| |lia].
  intros ->. pose proof (he_nodup _ _ _ _ Hh) as Hnd. simpl in Hnd. apply list.NoDup_cons in Hnd as [Hnd _].
  apply Hnd, list_elem_of_fmap. by exists (a, k).
Qed.
Lemma wp_kfree_keep L p e a n Q :
  held ((a, n) :: L) e -> (forall e', held L e' -> keeps L e e' -> Q tt (st p e')) -> wp F (call (env_kfree a)) Q (st p e).
Proof. intros Hh HQ. apply (wp_kfree_live L p e a n); auto. Qed.
Lemma wp_kfree L p e a n Q :
  held ((a, n) :: L) e -> (forall e', held L e' -> Q tt (st p e')) -> wp F (call (env_kfree a)) Q (st p e).
Proof. intros Hh HQ. apply (wp_kfree_keep L p e a n); auto. Qed.
(** The blocks of L are gone from the live blocks of e', everything else is as in e. *)
Definition freed (L : list (Z * Z)) (e e' : E) : Prop :=
  env_live e' = foldr (fun b m => base.delete (fst b) m) (env_live e) L.
Lemma wp_kfree_null L p e Q :
  held L e -> (forall e', held L e' -> Q tt (st p e')) -> wp F (call (env_kfree 0)) Q (st p e).
Proof.
  intros Hh HQ. destruct (kfree_law e 0 (he_ok _ _ _ _ Hh)) as (e' & Hc & He' & Hl & _); [by left|].
  apply (wp_call _ _ _ _ _ _ Hc), HQ. apply (held_quiet _ _ _ e); [done|done|]. rewrite Hl, delete_id; [done|].
  destruct (env_live e !! 0) as [n|] eqn:Hn; [|done]. pose proof (live_range _ _ _ (he_ok _ _ _ _ Hh) Hn). lia.
Qed.
(** if (base) kfree(base), and kfree(base) itself, on a field whose block is held. *)
Lemma wp_kfree_blk L p e a n Q :
  held (blk a n ++ L) e -> (forall e', held L e' -> Q tt (st p e')) -> wp F (call (env_kfree a)) Q (st p e).
Proof.
  unfold blk. destruct (Z.eqb_spec a 0) as [->|]; [by apply wp_kfree_null|by apply wp_kfree].
Qed.
Lemma wp_kfree_if_keep L p e a n Q :
  held (blk a n ++ L) e -> (forall e', held L e' -> keeps L e e' -> Q tt (st p e')) ->
  wp F (if negb (a =? 0) then call (env_kfree a) else ret tt) Q (st p e).
Proof.
  unfold blk. destruct (Z.eqb_spec a 0) as [->|]; simpl; [intros Hh HQ; apply wp_ret; by apply HQ|by apply wp_kfree_keep].
Qed.
Lemma wp_kfree_if_live L p e a n Q :
  held (blk a n ++ L) e -> (forall e', held L e' -> freed (blk a n) e e' -> Q tt (st p e')) ->
  wp F (if negb (a =? 0) then call (env_kfree a) else ret tt) Q (st p e).
Proof.
  unfold blk, freed. destruct (Z.eqb_spec a 0) as [->|]; simpl; [intros Hh HQ; apply wp_ret; by apply HQ|].
  intros Hh HQ. apply (wp_kfree_live L p e a n); auto.
Qed.
Lemma wp_user_dir L p e Q :
  held L e -> (forall d e', fst d = 0 -> held L e' -> Q d (st p e')) ->
  (forall d e', fst d <> 0 -> held ((fst d, PAGE_SIZE) :: L) e' -> Q d (st p e')) -> wp F (call env_create_user_dir) Q (st p e).
Proof.
  intros Hh H0 H1. destruct (user_dir_law e (he_ok _ _ _ _ Hh)) as (d & e' & Hc & He' & Hsub & Hd).
  apply (wp_call _ _ _ _ _ _ Hc). destruct (decide (fst d = 0)) as [Hz|Hz].
  - apply H0; [done|]. destruct Hh as [He Hf Hl Hn Hdd] eqn:EH. split; [done| | |done|done].
    + intros a Ha. rewrite <-(Hf a Ha). destruct (others_live _ _ _ _ _ Ho Hh Ha) as [m Hm].
      rewrite Hm. by eapply lookup_weaken.
    + intros a n Ha. destruct (Hl a n Ha) as (m & Hm & ?). exists m. split; [by eapply lookup_weaken|done].
  - destruct (Hd Hz) as (Hn & n & Hsz & Hl). apply H1; [done|]. by eapply held_add.
Qed.
Lemma wp_map_page L p e va pa fl Q :
  held L e -> (forall r e', held L e' -> Q r (st p e')) -> wp F (call (env_map_page va pa fl)) Q (st p e).
Proof.
  intros Hh HQ. destruct (map_page_law e va pa fl (he_ok _ _ _ _ Hh)) as (r & e' & Hc & He' & Hl).
  apply (wp_call _ _ _ _ _ _ Hc), HQ. by eapply held_quiet.
Qed.
Lemma wp_write32 L p e b n a v Q :
  held L e -> (b, n) ∈ L -> b <= a -> a + 4 <= b + n ->
  (forall e', held L e' -> (forall x, env_mem e' x = if decide (a <= x < a + 4) then word_byte v (x - a) else env_mem e x) ->
     Q tt (st p e')) -> wp F (call (env_write32 a v)) Q (st p e).
Proof.
  intros Hh Hb H1 H2 HQ. destruct (he_live _ _ _ _ Hh b n Hb) as (m & Hm & ?).
  destruct (write32_law e b m a v (he_ok _ _ _ _ Hh) Hm H1 ltac:(lia)) as (e' & Hc & He' & Hl & Hx).
  apply (wp_call _ _ _ _ _ _ Hc), HQ; [|done]. by eapply held_quiet.
Qed.
Lemma wp_write8 L p e b n a v Q :
  held L e -> (b, n) ∈ L -> b <= a < b + n ->
  (forall e', held L e' -> (forall x, env_mem e' x = if decide (x = a) then u8 v else env_mem e x) -> Q tt (st p e')) ->
  wp F (call (env_write8 a v)) Q (st p e).
Proof.
  intros Hh Hb H1 HQ. destruct (he_live _ _ _ _ Hh b n Hb) as (m & Hm & ?).
  destruct (write8_law e b m a v (he_ok _ _ _ _ Hh) Hm ltac:(lia)) as (e' & Hc & He' & Hl & Hx).
  apply (wp_call _ _ _ _ _ _ Hc), HQ; [|done]. by eapply held_quiet.
Qed.
Lemma wp_set_dir L p e d Q :
  held L e -> (forall e', held L e' -> Q tt (st p e')) -> wp F (set_dir d) Q (st p e).
Proof.
  intros Hh HQ. apply wp_effect, HQ. destruct (set_dir_law e (fst d) (snd d) (he_ok _ _ _ _ Hh)) as (? & ? & _).
  by eapply held_quiet.
Qed.
Lemma wp_irq_save L p e Q :
  held L e -> (forall f e', held L e' -> Q f (st p e')) -> wp F irq_save Q (st p e).
Proof.
  intros Hh HQ. unfold irq_save. apply wp_bind, wp_ask, wp_bind, wp_effect, wp_ret, HQ.
  destruct (iflag_law e false (he_ok _ _ _ _ Hh)) as (? & ? & _). by eapply held_quiet.
Qed.
Lemma wp_irq_restore L p e f Q :
  held L e -> (forall e', held L e' -> Q tt (st p e')) -> wp F (irq_restore f) Q (st p e).
Proof.
  intros Hh HQ. unfold irq_restore. destruct f; [|by apply wp_ret, HQ]. apply wp_effect, HQ.
  destruct (iflag_law e true (he_ok _ _ _ _ Hh)) as (? & ? & _). by eapply held_quiet.
Qed.

(** ** The helpers of proc.c on entry i *)

Lemma entry_not_null : (i =? NULLP) = false.
Proof. apply Z.eqb_neq. pose proof (lget_some _ _ _ Hat). unfold NULLP. lia. Qed.

Lemma freed_app L1 L2 e1 e2 e3 : freed L1 e1 e2 -> freed L2 e2 e3 -> freed (L2 ++ L1) e1 e3.
Proof. unfold freed. intros H1 H2. by rewrite H2, H1, foldr_app. Qed.
Lemma freed_lookup L e e' a : freed L e e' -> env_live e' !! a = if decide (a ∈ L.*1) then None else env_live e !! a.
Proof.
  unfold freed. intros ->. induction L as [|[b n] L IH]; [case_decide; [set_solver|done]|].
  change (base.delete b (foldr (fun b m => base.delete (fst b) m) (env_live e) L) !! a =
    if decide (a ∈ b :: L.*1) then None else env_live e !! a).
  rewrite lookup_delete, IH. repeat case_decide; set_solver.
Qed.

(** proc_cleanup gives every block of the entry back and zeroes the entry. *)
Lemma wp_cleanup_live p e Q :
  held (blocks p) e ->
  (forall e', held [] e' -> (forall a, env_live e' !! a = if decide (a ∈ (blocks p).*1) then None else env_live e !! a) ->
     Q tt (st zero_process e')) ->
  wp F (proc_cleanup i) Q (st p e).
Proof.
  intros Hh HQ. unfold proc_cleanup. rewrite entry_not_null. apply wp_bind, wp_getp.
  assert (exists e1, held (blocks p) e1 /\ env_live e1 = env_live e /\
    (if negb (pid p =? 0) then effect (env_close_fds (pid p)) else ret tt) (st p e) = Ok (tt, st p e1)) as (e1 & H1 & Hl & E1).
  { destruct (pid p =? 0); [by exists e|]. exists (env_close_fds (pid p) e).
    destruct (close_fds_law e (pid p) (he_ok _ _ _ _ Hh)). split_and!; [by eapply held_quiet|done|done]. }
  apply wp_bind. eapply wp_ok; [exact E1|]. pose proof H1 as H1'. unfold blocks in H1'.
  apply wp_bind, (wp_kfree_if_live _ _ _ _ _ _ H1'). intros e2 H2 F2.
  apply wp_bind, (wp_kfree_if_live _ _ _ _ _ _ H2). intros e3 H3 F3.
  apply wp_bind, (wp_kfree_if_live _ _ _ _ _ _ H3). intros e4 H4 F4.
  assert (exists e5, held [] e5 /\ freed (if is_kernel p then [] else blk (page_dir p) PAGE_SIZE) e4 e5 /\
    (if negb (is_kernel p) && negb (page_dir p =? 0) then call (env_kfree (page_dir p)) else ret tt) (st p e4) = Ok (tt, st p e5))
    as (e5 & H5 & F5 & E5).
  { destruct (is_kernel p); simpl; [by exists e4|]. rewrite <-(app_nil_r (blk _ _)) in H4.
    unfold blk, freed in *. destruct (Z.eqb_spec (page_dir p) 0); simpl in *; [by exists e4|].
    destruct (he_live _ _ _ _ H4 (page_dir p) PAGE_SIZE ltac:(by left)) as (m & Hm & _).
    destruct (kfree_law e4 (page_dir p) (he_ok _ _ _ _ H4)) as (e5 & Hc & He5 & Hl5 & _); [eauto|].
    exists e5. split_and!; [by eapply held_drop|done|]. unfold call. simpl. by rewrite Hc. }
  apply wp_bind. eapply wp_ok; [exact E5|]. apply wp_updp. apply HQ; [done|]. intros a.
  pose proof (freed_app _ _ _ _ _ (freed_app _ _ _ _ _ (freed_app _ _ _ _ _ F2 F3) F4) F5) as Hf.
  rewrite (freed_lookup _ _ _ a Hf), Hl. unfold blocks. rewrite !fmap_app. repeat case_decide; set_solver.
Qed.
Lemma wp_cleanup p e Q :
  held (blocks p) e -> (forall e', held [] e' -> Q tt (st zero_process e')) -> wp F (proc_cleanup i) Q (st p e).
Proof. intros Hh HQ. apply wp_cleanup_live; auto. Qed.

(** Bytes and words written one after the other inside a block that is held. *)
Lemma wp_write_bytes L p b n l : forall a e Q,
  held L e -> (b, n) ∈ L -> b <= a -> a + Z.of_nat (length l) <= b + n ->
  (forall e', held L e' ->
     (forall x, env_mem e' x = if decide (a <= x < a + Z.of_nat (length l)) then u8 (nth (Z.to_nat (x - a)) l 0) else env_mem e x) ->
     Q tt (st p e')) -> wp F (write_bytes a l) Q (st p e).
Proof.
  induction l as [|c l IH]; intros a e Q Hh Hb H1 H2 HQ; simpl in *.
  { apply wp_ret, HQ; [done|]. intros x. case_decide; [lia|done]. }
  apply wp_bind, (wp_write8 L p e b n a c); [done|done|lia|]. intros e1 Hh1 Hm1.
  apply (IH (a + 1) e1); [done|done|lia|lia|]. intros e2 Hh2 Hm2. apply HQ; [done|]. intros x. rewrite Hm2, Hm1.
  destruct (decide (x = a)) as [->|Hne].
  - rewrite decide_False, decide_True by lia. by rewrite Z.sub_diag.
  - repeat case_decide; try lia. f_equal. replace (Z.to_nat (x - a)) with (Datatypes.S (Z.to_nat (x - (a + 1)))) by lia. done.
Qed.
Lemma wp_write_words L p b n l : forall a e Q,
  held L e -> (b, n) ∈ L -> b <= a -> a + 4 * Z.of_nat (length l) <= b + n ->
  (forall e', held L e' ->
     (forall x, env_mem e' x = if decide (a <= x < a + 4 * Z.of_nat (length l))
                              then word_byte (nth (Z.to_nat ((x - a) / 4)) l 0) ((x - a) mod 4) else env_mem e x) ->
     Q tt (st p e')) -> wp F (write_words a l) Q (st p e).
Proof.
  induction l as [|c l IH]; intros a e Q Hh Hb H1 H2 HQ; simpl in *.
  { apply wp_ret, HQ; [done|]. intros x. case_decide; [lia|done]. }
  apply wp_bind, (wp_write32 L p e b n a c); [done|done|lia|lia|]. intros e1 Hh1 Hm1.
  apply (IH (a + 4) e1); [done|done|lia|lia|]. intros e2 Hh2 Hm2. apply HQ; [done|]. intros x. rewrite Hm2, Hm1.
  destruct (decide (a <= x < a + 4)) as [Hx|Hx].
  - rewrite decide_False, decide_True by lia. rewrite Z.div_small, Z.mod_small by lia. done.
  - repeat case_decide; try lia.
    replace ((x - a) mod 4) with ((x - (a + 4)) mod 4) by (Z.div_mod_to_equations; lia).
    replace (Z.to_nat ((x - a) / 4)) with (Datatypes.S (Z.to_nat ((x - (a + 4)) / 4))) by (Z.div_mod_to_equations; lia).
    done.
Qed.

Lemma wp_map_user_pages L p n kern user : forall off e Q,
  held L e -> (forall r e', held L e' -> Q r (st p e')) -> wp F (map_user_pages n kern user off) Q (st p e).
Proof.
  induction n as [|n IH]; intros off e Q Hh HQ; simpl; [by apply wp_ret, HQ|].
  apply wp_bind, wp_ask. destruct (env_virt_to_phys _ e); [|by apply wp_ret, HQ].
  apply wp_bind, (wp_map_page L); [done|]. intros _ e' Hh'. by apply IH.
Qed.

(** proc_init_user_stack: a zeroed stack that is mapped, or nothing. *)
Lemma wp_init_user_stack L p e Q :
  held L e -> 0 <= stack_size p -> stack_size p mod 4 = 0 ->
  (forall e', held L e' -> Q false (st (set_stack (u32 (USER_STACK_TOP - stack_size p)) (stack_size p) 0 p) e')) ->
  (forall k e', k <> 0 -> held ((k, stack_size p) :: L) e' ->
     Q true (st (set_stack (u32 (USER_STACK_TOP - stack_size p)) (stack_size p) k p) e')) ->
  wp F (proc_init_user_stack i) Q (st p e).
Proof.
  intros Hh H0 H4 Hno Hyes. unfold proc_init_user_stack. rewrite entry_not_null. apply wp_bind, wp_getp.
  apply wp_bind, (wp_kmalloc L); [done| |].
  { intros e1 Hh1. apply wp_bind, wp_updp, wp_ret. by apply Hno. }
  intros k e1 Hk Hh1. apply wp_bind, wp_updp. rewrite (proj2 (Z.eqb_neq _ _) Hk). apply wp_bind.
  assert (stack_size p = 4 * Z.of_nat (Z.to_nat (stack_size p / 4))) as Hsz by (Z.div_mod_to_equations; lia).
  apply (wp_write_words ((k, stack_size p) :: L) _ k (stack_size p)); [done|by left|lia|rewrite length_replicate; lia|].
  intros e2 Hh2 _. unfold proc_map_user_stack. rewrite entry_not_null. apply wp_bind, wp_bind, wp_getp. simpl.
  assert (forall (r : bool) e3, held ((k, stack_size p) :: L) e3 ->
    wp F (if negb r then call (env_kfree k);;; updp i (fun q => set_stack (stack_base q) (stack_size q) 0 q);;; ret false else ret true) Q
      (st (set_stack (u32 (USER_STACK_TOP - stack_size p)) (stack_size p) k p) e3)) as Hend.
  { intros [] e3 Hh3; simpl; [apply wp_ret; by apply Hyes|].
    apply wp_bind, (wp_kfree L _ _ _ _ _ Hh3). intros e4 Hh4. apply wp_bind, wp_updp, wp_ret. by apply Hno. }
  apply wp_if; intros _; [apply wp_ret; by apply Hend|]. apply (wp_map_user_pages ((k, stack_size p) :: L)); [done|]. by apply Hend.
Qed.

(** ** The user stack *)

Definition word_at (e : E) (a : Z) : Z :=
  le32 (env_mem e a) (env_mem e (a + 1)) (env_mem e (a + 2)) (env_mem e (a + 3)).
Lemma word_at_bytes e a w :
  is_u32 w -> (forall k, 0 <= k < 4 -> env_mem e (a + k) = word_byte w k) -> word_at e a = w.
Proof.
  intros Hw Hk. unfold word_at. rewrite <-(Z.add_0_r a) at 1. rewrite !Hk by lia. unfold word_byte. simpl.
  by apply le32_bytes32.
Qed.

(** The words of a vector just written at the alias of a. *)
Lemma words_written e e' a (l : list Z) k w :
  (forall x, env_mem e' x = if decide (a <= x < a + 4 * Z.of_nat (length l))
     then word_byte (nth (Z.to_nat ((x - a) / 4)) l 0) ((x - a) mod 4) else env_mem e x) ->
  l !! k = Some w -> is_u32 w -> word_at e' (a + 4 * Z.of_nat k) = w.
Proof.
  intros Hm Hk Hw. apply word_at_bytes; [done|]. intros j Hj. pose proof (lookup_lt_Some _ _ _ Hk).
  rewrite Hm, decide_True by lia.
  replace ((a + 4 * Z.of_nat k + j - a) / 4) with (Z.of_nat k) by (Z.div_mod_to_equations; lia).
  replace ((a + 4 * Z.of_nat k + j - a) mod 4) with j by (Z.div_mod_to_equations; lia).
  rewrite Nat2Z.id. f_equal. by apply nth_lookup_Some.
Qed.
Lemma word_at_same e e' a : (forall x, a <= x < a + 4 -> env_mem e' x = env_mem e x) -> word_at e' a = word_at e a.
Proof. intros Hm. unfold word_at. by rewrite !Hm by lia. Qed.

Section UserStack.
Context (p : process) (L : list (Z * Z)).
Notation sb := (stack_base p).
Notation sz := (stack_size p).
Notation skb := (stack_kern_base p).
Context (Hblk : (skb, sz) ∈ L) (Hsb : 0 < sb) (Hsz : 32 <= sz) (Htop : sb + sz <= 0xC0000000)
        (Hsb16 : sb mod 16 = 0) (Hsz16 : sz mod 16 = 0).

(** The kernel address of a user stack address. *)
Definition alias (a : Z) : Z := skb + (a - sb).
Lemma stack_ptr_alias e a : held L e -> sb <= a < sb + sz -> proc_stack_ptr p a = alias a /\ 0 < alias a.
Proof.
  intros Hh Ha. destruct (he_live _ _ _ _ Hh _ _ Hblk) as (m & Hm & ?).
  pose proof (live_range _ _ _ (he_ok _ _ _ _ Hh) Hm). unfold proc_stack_ptr, alias.
  rewrite (proj2 (Z.ltb_ge _ _)) by lia. rewrite (u32_small (a - sb)) by (unfold is_u32; lia).
  rewrite u32_small by (unfold is_u32; lia). lia.
Qed.

(** The string t with its terminator lies at the user address a, below the address lim. *)
Definition string_at (e : E) (lo lim a : Z) (t : list Z) : Prop :=
  lo <= a /\ a + Z.of_nat (length t) + 1 <= lim /\
  forall k, 0 <= k <= Z.of_nat (length t) -> env_mem e (alias (a + k)) = u8 (nth (Z.to_nat k) (t ++ [0]) 0).
Lemma string_at_frame e e' lo lo' lim a t :
  string_at e lo lim a t -> lo' <= lo -> (forall x, alias lo <= x < alias lim -> env_mem e' x = env_mem e x) ->
  string_at e' lo' lim a t.
Proof.
  intros (H1 & H2 & H3) Hlo Hm. split_and!; [lia|done|]. intros k Hk. rewrite Hm; [by apply H3|].
  unfold alias. lia.
Qed.

Definition total_len (l : list (list Z)) : Z := foldr (fun t n => Z.of_nat (length t) + 1 + n) 0 l.
Lemma total_len_nonneg l : 0 <= total_len l.
Proof. induction l; simpl; lia. Qed.
Definition short_args (l : list (list Z)) : Prop := Forall (fun t => Z.of_nat (length t) < 1048576) l.

Lemma wp_push_args lim : lim <= sb + sz ->
  forall l sp addrs dn e Q,
  short_args l -> held L e -> sb <= sp <= lim ->
  Forall2 (string_at e sp lim) addrs dn ->
  (sp - total_len l < sb -> forall e', held L e' -> Q None (st p e')) ->
  (forall e' addrs', held L e' -> sb <= sp - total_len l ->
     Forall2 (string_at e' (sp - total_len l) lim) addrs' (rev l ++ dn) ->
     (forall x, x < alias (sp - total_len l) \/ alias sp <= x -> env_mem e' x = env_mem e x) ->
     Q (Some (sp - total_len l, addrs')) (st p e')) ->
  wp F (push_args p l sp addrs) Q (st p e).
Proof.
  intros Hlim. induction l as [|t l IH]; intros sp addrs dn e Q Hsh Hh Hsp Hst Hno Hyes; simpl in *.
  { apply wp_ret. rewrite Z.sub_0_r in *. apply Hyes; [done|lia|done|done]. }
  apply list.Forall_cons in Hsh as [Ht Hsh]. pose proof (total_len_nonneg l) as Hnn.
  rewrite (u32_small (Z.of_nat (length t) + 1)) by (unfold is_u32; lia).
  rewrite (u32_small (sb + _)) by (unfold is_u32; lia).
  destruct (Z.ltb_spec sp (sb + (Z.of_nat (length t) + 1))) as [Hlt|Hge].
  { apply wp_ret. apply Hno; [lia|done]. }
  set (sp1 := sp - (Z.of_nat (length t) + 1)). rewrite (u32_small sp1) by (unfold is_u32, sp1; lia).
  destruct (stack_ptr_alias e sp1 Hh ltac:(unfold sp1; lia)) as [-> Hpos].
  rewrite (proj2 (Z.eqb_neq _ _)) by lia. apply wp_bind.
  apply (wp_write_bytes L p skb sz); [done|done|unfold alias, sp1; lia|rewrite length_app; simpl; unfold alias, sp1; lia|].
  rewrite length_app. simpl. intros e1 Hh1 Hm1.
  assert (alias sp1 + Z.of_nat (length t + 1) = alias sp) as Hal by (unfold alias, sp1; lia). rewrite Hal in Hm1.
  assert (forall x, x < alias sp1 \/ alias sp <= x -> env_mem e1 x = env_mem e x) as Hf1.
  { intros x Hx. rewrite Hm1. case_decide; [lia|done]. }
  assert (sp - (Z.of_nat (length t) + 1 + total_len l) = sp1 - total_len l) as Hsp1 by (unfold sp1; lia).
  rewrite Hsp1 in Hno, Hyes.
  apply (IH sp1 (sp1 :: addrs) (t :: dn) e1); [done|done|unfold sp1; lia| |by apply Hno|].
  - constructor.
    + split_and!; [lia|unfold sp1; lia|]. intros k Hk. rewrite Hm1, decide_True by (unfold alias, sp1; lia).
      do 2 f_equal. unfold alias. lia.
    + eapply (list.Forall2_impl); [exact Hst|]. intros a u Hu. eapply string_at_frame; [exact Hu|unfold sp1; lia|].
      intros x Hx. apply Hf1. lia.
  - intros e' addrs' Hh' Hle Hst' Hm'. apply Hyes; [done|done|by rewrite <-app_assoc|].
    intros x Hx. rewrite Hm', Hf1; [done| |]; unfold alias, sp1 in *; lia.
Qed.

Definition stub_addr : Z := sb + sz - 16.
(** What the program finds on its stack: argc, the argv pointer, the vector of string addresses
    ended by 0, the strings and the stub that exits when main returns. *)
Record user_layout (e : E) (args : list (list Z)) (sp : Z) : Prop := {
  ul_sp : sb <= sp /\ sp mod 4 = 0 /\ sp + 8 + 4 * (Z.of_nat (length args) + 1) <= stub_addr;
  ul_argc : word_at e (alias sp) = Z.of_nat (length args);
  ul_argv : word_at e (alias (sp + 4)) = alias (sp + 8);
  ul_strings : exists addrs,
    Forall2 (string_at e (sp + 8 + 4 * (Z.of_nat (length args) + 1)) stub_addr) addrs args /\
    (forall k a, addrs !! k = Some a -> word_at e (alias (sp + 8 + 4 * Z.of_nat k)) = a) /\
    word_at e (alias (sp + 8 + 4 * Z.of_nat (length args))) = 0;
  ul_stub : forall k, 0 <= k < 11 -> env_mem e (alias (stub_addr + k)) = nth (Z.to_nat k) user_exit_stub 0
}.

(** The words argc and argv and the vector are on the stack below the strings. *)
Lemma layout_finish e0 e1 e2 args addrs sp0 sp :
  held L e0 ->
  Forall2 (string_at e0 sp0 stub_addr) addrs args ->
  (forall k, 0 <= k < 11 -> env_mem e0 (alias (stub_addr + k)) = nth (Z.to_nat k) user_exit_stub 0) ->
  sb <= sp -> sp mod 4 = 0 -> sp + 8 + 4 * (Z.of_nat (length args) + 1) <= sp0 -> sp0 <= stub_addr ->
  (forall x, env_mem e1 x = if decide (alias (sp + 8) <= x < alias (sp + 8) + 4 * Z.of_nat (length (addrs ++ [0])))
     then word_byte (nth (Z.to_nat ((x - alias (sp + 8)) / 4)) (addrs ++ [0]) 0) ((x - alias (sp + 8)) mod 4) else env_mem e0 x) ->
  (forall x, env_mem e2 x = if decide (alias sp <= x < alias sp + 4 * Z.of_nat 2)
     then word_byte (nth (Z.to_nat ((x - alias sp) / 4)) [Z.of_nat (length args); alias (sp + 8)] 0) ((x - alias sp) mod 4)
     else env_mem e1 x) ->
  user_layout e2 args sp.
Proof.
  intros Hh Hst Hstub Hsp Hsp4 Hlt Hsp0 Hm1 Hm2. pose proof (list.Forall2_length _ _ _ Hst) as Hlen.
  assert (Z.of_nat (length (addrs ++ [0])) = Z.of_nat (length args) + 1) as Hln by (rewrite length_app; simpl; lia).
  assert (stub_addr + 16 = sb + sz) as Hstb by (unfold stub_addr; lia).
  assert (forall x, alias sp0 <= x -> env_mem e2 x = env_mem e0 x) as Hhigh.
  { intros x Hx. rewrite Hm2, decide_False, Hm1, decide_False; [done| |]; unfold alias in *; lia. }
  assert (forall x, alias (sp + 8) <= x -> env_mem e2 x = env_mem e1 x) as Hmid.
  { intros x Hx. rewrite Hm2, decide_False; [done|]. unfold alias in *; lia. }
  split.
  - split_and!; [done|done|lia].
  - rewrite <-(words_written e1 e2 (alias sp) [Z.of_nat (length args); alias (sp + 8)] 0%nat _ Hm2 eq_refl)
      by (unfold is_u32; lia). f_equal. lia.
  - replace (alias (sp + 4)) with (alias sp + 4 * Z.of_nat 1) by (unfold alias; lia).
    apply (words_written e1 e2 (alias sp) [Z.of_nat (length args); alias (sp + 8)] 1%nat); [exact Hm2|done|].
    destruct (he_live _ _ _ _ Hh _ _ Hblk) as (m & Hm & ?). pose proof (live_range _ _ _ (he_ok _ _ _ _ Hh) Hm).
    unfold is_u32, alias. lia.
  - exists addrs. split_and!.
    + apply (list.Forall2_impl _ _ _ _ Hst). intros a t Ht. eapply string_at_frame; [exact Ht|lia|].
      intros x Hx. apply Hhigh. lia.
    + intros k a Ha. replace (alias (sp + 8 + 4 * Z.of_nat k)) with (alias (sp + 8) + 4 * Z.of_nat k) by (unfold alias; lia).
      rewrite (word_at_same e1 e2) by (intros; apply Hmid; lia).
      apply (words_written e0 e1 _ (addrs ++ [0])); [exact Hm1|by apply lookup_app_l_Some|].
      destruct (Forall2_lookup_l _ _ _ _ _ Hst Ha) as (t & _ & H1 & H2 & _). unfold is_u32. lia.
    + replace (alias (sp + 8 + 4 * Z.of_nat (length args))) with (alias (sp + 8) + 4 * Z.of_nat (length addrs))
        by (unfold alias; lia).
      rewrite (word_at_same e1 e2) by (intros; apply Hmid; lia).
      apply (words_written e0 e1 _ (addrs ++ [0])); [exact Hm1|by apply list_lookup_middle|]. unfold is_u32. lia.
  - intros k Hk. rewrite Hhigh by (unfold alias; lia). by apply Hstub.
Qed.

(** A layout does not depend on anything outside the stack's block. *)
Lemma user_layout_keeps e e' args sp : user_layout e args sp -> keeps L e e' -> user_layout e' args sp.
Proof.
  intros [(Hs1 & Hs2 & Hs3) H1 H2 (addrs & H3 & H4 & H5) H6] Hk.
  assert (stub_addr + 16 = sb + sz) as Hstb by (unfold stub_addr; lia).
  assert (forall x, skb <= x < skb + sz -> env_mem e' x = env_mem e x) as Hm by (intros; by apply (Hk skb sz)).
  assert (forall a, sb <= a -> a + 4 <= sb + sz -> word_at e' (alias a) = word_at e (alias a)) as Hw.
  { intros a Ha Ha4. apply word_at_same. intros x Hx. apply Hm. unfold alias in Hx. lia. }
  pose proof (list.Forall2_length _ _ _ H3) as Hlen. split.
  - done.
  - by rewrite Hw by lia.
  - by rewrite Hw by lia.
  - exists addrs. split_and!.
    + apply (list.Forall2_impl _ _ _ _ H3). intros a t Ht. eapply string_at_frame; [exact Ht|lia|].
      intros x Hx. apply Hm. unfold alias in Hx. lia.
    + intros k a Ha. pose proof (lookup_lt_Some _ _ _ Ha). rewrite Hw by lia. by apply H4.
    + by rewrite Hw by lia.
  - intros k Hk'. rewrite Hm by (unfold alias; lia). by apply H6.
Qed.
End UserStack.

(** The bytes of the blocks L outside of the block (b, n) are unchanged. *)
Definition keeps_off (b n : Z) (L : list (Z * Z)) (e e' : E) : Prop :=
  forall b' n' x, (b', n') ∈ L -> b' <= x < b' + n' -> x < b \/ b + n <= x -> env_mem e' x = env_mem e x.

(** push_user_args with a scratch array (or none) that is held. *)
Lemma wp_push_user_args p L e args arg n Q :
  (stack_kern_base p, stack_size p) ∈ L -> 0 < stack_base p -> 32 <= stack_size p ->
  stack_base p + stack_size p <= 0xC0000000 -> stack_base p mod 16 = 0 -> stack_size p mod 16 = 0 ->
  short_args args -> Z.of_nat (length args) < 1048576 -> held (blk arg n ++ L) e ->
  (forall k, 0 <= k < 11 -> env_mem e (alias p (stub_addr p + k)) = nth (Z.to_nat k) user_exit_stub 0) ->
  (forall e', held L e' -> args <> [] -> Q 0 (st p e')) ->
  (forall e' sp, held L e' -> user_layout p e' args sp ->
     keeps_off (stack_kern_base p) (stack_size p) L e e' -> Q sp (st p e')) ->
  wp F (push_user_args p args (stub_addr p) arg) Q (st p e).
Proof.
  intros Hblk Hsb Hsz Htop Hsb16 Hsz16 Hsh Hargc Hh Hstub Hno Hyes. unfold push_user_args.
  set (argc := Z.of_nat (length args)) in *. set (LL := blk arg n ++ L) in *.
  assert ((stack_kern_base p, stack_size p) ∈ LL) as Hblk' by (apply elem_of_app; by right).
  assert (forall r e', held LL e' -> (forall e2, held L e2 -> keeps L e' e2 -> Q r (st p e2)) ->
    wp F ((if negb (arg =? 0) then call (env_kfree arg) else ret tt);;; ret r) Q (st p e')) as Hdone.
  { intros r e' Hh' HQ. apply wp_bind, (wp_kfree_if_keep L p e' arg n); [done|]. intros e2 H2 Hk. apply wp_ret. by apply HQ. }
  assert (stub_addr p + 16 = stack_base p + stack_size p) as Hstb by (unfold stub_addr; lia).
  assert (forall r e', held LL e' -> r = 0 -> args <> [] ->
    wp F ((if negb (arg =? 0) then call (env_kfree arg) else ret tt);;; ret r) Q (st p e')) as Hfail.
  { intros r e' Hh' -> Hne. apply Hdone; [done|]. auto. }
  apply wp_bind, (wp_push_args p LL Hblk' Hsb Hsz Htop (stub_addr p) ltac:(lia) (rev args) (stub_addr p) [] [] e);
    [by apply Forall_rev|done|lia|constructor| |].
  { intros Hlt e' Hh'. apply Hfail; [done|done|]. intros ->. simpl in Hlt. lia. }
  rewrite rev_involutive, app_nil_r. intros e1 addrs Hh1 Hle Hst Hm.
  set (sp0 := stub_addr p - total_len (rev args)) in *.
  assert (0 <= total_len (rev args)) by apply total_len_nonneg.
  assert (args = [] -> sp0 = stub_addr p) as Hnil by (intros ->; unfold sp0; simpl; lia).
  change 3 with (2 ^ 2 - 1). rewrite align_mask by (unfold is_u32; lia). change (2 ^ 2) with 4.
  set (sp1 := sp0 / 4 * 4). assert (sp0 - 3 <= sp1 <= sp0 /\ sp1 mod 4 = 0) as [Hsp1 Hsp1m] by (unfold sp1; Z.div_mod_to_equations; lia).
  rewrite !(u32_small ((argc + 1) * 4)) by (unfold is_u32; lia). rewrite (u32_small (stack_base p + _)) by (unfold is_u32; lia).
  assert (args = [] -> argc = 0) as Hnil' by (intros ->; done).
  assert (stack_base p mod 4 = 0 /\ stub_addr p mod 4 = 0) as [Hs4 Hs4'] by (unfold stub_addr; Z.div_mod_to_equations; lia).
  assert (args = [] -> sp1 = stub_addr p) as Hnil1.
  { intros Hn. unfold sp1. rewrite (Hnil Hn). Z.div_mod_to_equations. lia. }
  destruct (Z.ltb_spec sp1 (stack_base p + (argc + 1) * 4)) as [Hlt|Hge].
  { apply Hfail; [done|done|]. intros Hn. rewrite (Hnil1 Hn), (Hnil' Hn) in Hlt. lia. }
  set (sp2 := sp1 - (argc + 1) * 4) in *. rewrite (u32_small sp2) by (unfold is_u32, sp2; lia).
  destruct (stack_ptr_alias p LL Hblk' Hsb Htop e1 sp2 Hh1 ltac:(unfold sp2; lia)) as [-> Hpos2].
  rewrite (proj2 (Z.eqb_neq _ _)) by lia. apply wp_bind.
  pose proof (list.Forall2_length _ _ _ Hst) as Hlen.
  apply (wp_write_words LL p (stack_kern_base p) (stack_size p)); [done|done|unfold alias, sp2; lia| |].
  { rewrite length_app. simpl. unfold alias, sp2, argc in *. lia. }
  intros e2 Hh2 Hm2. rewrite (u32_small (stack_base p + 8)) by (unfold is_u32; lia).
  destruct (Z.ltb_spec sp2 (stack_base p + 8)) as [Hlt|Hge2].
  { apply Hfail; [done|done|]. intros Hn. unfold sp2 in Hlt. rewrite (Hnil1 Hn), (Hnil' Hn) in Hlt. lia. }
  set (sp3 := sp2 - 8) in *. rewrite (u32_small sp3) by (unfold is_u32, sp3, sp2; lia).
  destruct (stack_ptr_alias p LL Hblk' Hsb Htop e2 sp3 Hh2 ltac:(unfold sp3, sp2; lia)) as [-> Hpos3].
  rewrite (proj2 (Z.eqb_neq _ _)) by lia. apply wp_bind.
  apply (wp_write_words LL p (stack_kern_base p) (stack_size p)); [done|done|unfold alias, sp3, sp2; lia|simpl; unfold alias, sp3, sp2; lia|].
  intros e3 Hh3 Hm3. apply Hdone; [done|]. intros e4 Hh4 Hk4.
  assert (keeps_off (stack_kern_base p) (stack_size p) L e e4) as Hoff.
  { intros b' n' x Hb' Hx Hout. rewrite (Hk4 b' n' x Hb' Hx), Hm3, decide_False, Hm2, decide_False.
    - apply Hm. unfold alias. lia.
    - rewrite length_app. simpl. unfold alias, sp2, argc in *. lia.
    - simpl. unfold alias, sp3, sp2 in *. lia. }
  apply Hyes; [done| |done]. eapply (user_layout_keeps p L) with (e := e3); try done.
  replace sp2 with (sp3 + 8) in Hm2, Hm3 by (unfold sp3; lia).
  eapply (layout_finish p LL) with (e0 := e1) (e1 := e2) (addrs := addrs) (sp0 := sp0); try done.
  - intros k Hk. rewrite Hm by (unfold alias; lia). by apply Hstub.
  - unfold sp3, sp2. lia.
  - unfold sp3, sp2. Z.div_mod_to_equations. lia.
  - unfold sp3, sp2, argc. lia.
  - lia.
Qed.

(** setup_user_stack builds the layout for the given arguments, or returns 0; without arguments it
    does not fail. *)
Lemma wp_setup_user_stack p L e argv Q :
  (stack_kern_base p, stack_size p) ∈ L -> 0 < stack_base p -> 32 <= stack_size p ->
  stack_base p + stack_size p <= 0xC0000000 -> stack_base p mod 16 = 0 -> stack_size p mod 16 = 0 ->
  short_args (default [] argv) -> Z.of_nat (length (default [] argv)) < 1048576 -> held L e ->
  (forall e', held L e' -> default [] argv <> [] -> Q 0 (st p e')) ->
  (forall e' sp, held L e' -> user_layout p e' (default [] argv) sp ->
     keeps_off (stack_kern_base p) (stack_size p) L e e' -> Q sp (st p e')) ->
  wp F (setup_user_stack i argv) Q (st p e).
Proof.
  intros Hblk Hsb Hsz Htop Hsb16 Hsz16 Hsh Hargc Hh Hno Hyes. unfold setup_user_stack. apply wp_bind, wp_getp.
  rewrite (u32_small (stack_base p + stack_size p)) by (unfold is_u32; lia).
  rewrite (u32_small (stack_base p + stack_size p - 16)) by (unfold is_u32; lia).
  change 0xF with (2 ^ 4 - 1). rewrite align_mask by (unfold is_u32; lia). change (2 ^ 4) with 16.
  replace ((stack_base p + stack_size p - 16) / 16 * 16) with (stub_addr p) by (unfold stub_addr; Z.div_mod_to_equations; lia).
  destruct (stack_ptr_alias p L Hblk Hsb Htop e (stub_addr p) Hh ltac:(unfold stub_addr; lia)) as [-> Hpos].
  rewrite (proj2 (Z.eqb_neq _ _)) by lia. apply wp_bind.
  apply (wp_write_bytes L p (stack_kern_base p) (stack_size p)); [done|done|unfold alias, stub_addr; lia|simpl; unfold alias, stub_addr; lia|].
  intros e1 Hh1 Hm1. set (args := default [] argv) in *. set (argc := Z.of_nat (length args)) in *.
  assert (forall k, 0 <= k < 11 -> env_mem e1 (alias p (stub_addr p + k)) = nth (Z.to_nat k) user_exit_stub 0) as Hstub1.
  { intros k Hk. rewrite Hm1, decide_True by (simpl; unfold alias; lia).
    replace (alias p (stub_addr p + k) - alias p (stub_addr p)) with k by (unfold alias; lia).
    assert (forall n, (n < 11)%nat -> u8 (nth n user_exit_stub 0) = nth n user_exit_stub 0) as Hu8
      by (intros n Hn; do 11 (destruct n as [|n]; [done|]); lia).
    apply Hu8. lia. }
  assert (forall x, x < stack_kern_base p \/ stack_kern_base p + stack_size p <= x -> env_mem e1 x = env_mem e x) as Hoff1.
  { intros x Hx. rewrite Hm1, decide_False; [done|]. simpl. unfold alias, stub_addr. lia. }
  apply wp_bind. destruct (Z.ltb_spec 0 argc) as [Hpos'|Hz].
  - apply (wp_kmalloc_keep L); [done| |].
    + intros e2 Hh2. simpl. apply wp_ret. apply Hno; [done|]. intros Hn. unfold argc in Hpos'. rewrite Hn in Hpos'. done.
    + intros a e2 Ha Hh2 Hk2. rewrite (proj2 (Z.eqb_neq _ _) Ha). simpl.
      apply (wp_push_user_args p L e2 args a (u32 (4 * argc))); try done; [by rewrite blk_nz| |].
      * intros k Hk. rewrite (Hk2 (stack_kern_base p) (stack_size p)); [by apply Hstub1|done|].
        unfold alias, stub_addr. lia.
      * intros e3 sp Hh3 Hul Hoff. apply Hyes; [done|done|]. intros b' n' x Hb' Hx Hout.
        rewrite (Hoff b' n' x), (Hk2 b' n' x) by done. by apply Hoff1.
  - apply wp_ret. simpl. apply (wp_push_user_args p L e1 args 0 0); try done.
    intros e3 sp Hh3 Hul Hoff. apply Hyes; [done|done|]. intros b' n' x Hb' Hx Hout.
    rewrite (Hoff b' n' x) by done. by apply Hoff1.
Qed.

(** ** The frames *)

Lemma frame_in p L e : (kstack_base p, kstack_size p) ∈ L -> 64 <= kstack_size p -> held L e ->
  frame_of p = kstack_base p + kstack_size p - 64.
Proof.
  intros Hk Hn Hh. destruct (he_live _ _ _ _ Hh _ _ Hk) as (m & Hm & ?).
  pose proof (live_range _ _ _ (he_ok _ _ _ _ Hh) Hm). unfold frame_of, SIZEOF_REGS. word_lia.
Qed.
(** The frame from which a process starts: all registers 0 but the segments, the entry point, the
    flags and the stack pointer. *)
Definition frame_words (cs ds ent esp : Z) : list Z :=
  [ds; 0; 0; 0; 0; 0; 0; 0; 0; 0; 0; ent; cs; 0x202; esp; ds].
Definition frame_at (e : E) (a : Z) (l : list Z) : Prop :=
  forall k w, l !! k = Some w -> word_at e (a + 4 * Z.of_nat k) = w.

(** Writing one word of a frame. *)
Lemma frame_at_write e e' a l i' v :
  frame_at e a l -> is_u32 v ->
  (forall x, env_mem e' x = if decide (a + 4 * Z.of_nat i' <= x < a + 4 * Z.of_nat i' + 4)
     then word_byte v (x - (a + 4 * Z.of_nat i')) else env_mem e x) ->
  frame_at e' a (<[i' := v]> l).
Proof.
  intros Hf Hv Hm k w. rewrite list_lookup_insert. case_decide as Hk.
  - destruct Hk as [<- Hk]. intros [= <-]. apply word_at_bytes; [done|]. intros j Hj.
    rewrite Hm, decide_True by lia. f_equal. lia.
  - intros Hw. pose proof (lookup_lt_Some _ _ _ Hw). rewrite (word_at_same e e'); [by apply Hf|]. intros x Hx.
    rewrite Hm, decide_False; [done|]. destruct (decide (i' = k)); [destruct Hk; split; [done|by subst]|lia].
Qed.
Lemma frame_at_zero e e' a :
  (forall x, env_mem e' x = if decide (a <= x < a + 4 * Z.of_nat (length (replicate 16 0)))
     then word_byte (nth (Z.to_nat ((x - a) / 4)) (replicate 16 0) 0) ((x - a) mod 4) else env_mem e x) ->
  frame_at e' a (replicate 16 0).
Proof.
  intros Hm k w Hw. apply (words_written e e' a (replicate 16 0)); [done|done|].
  apply lookup_replicate in Hw as [-> _]. unfold is_u32. lia.
Qed.
Lemma frame_at_same e e' a l : frame_at e a l ->
  (forall x, a <= x < a + 4 * Z.of_nat (length l) -> env_mem e' x = env_mem e x) -> frame_at e' a l.
Proof.
  intros Hf Hk k w Hw. rewrite (word_at_same e e'); [by apply Hf|]. intros x Hx.
  apply lookup_lt_Some in Hw. apply Hk. lia.
Qed.
(** Two blocks that are held do not overlap. *)
Lemma held_disjoint L e b n b' n' : held L e -> (b, n) ∈ L -> (b', n') ∈ L -> b <> b' -> b + n <= b' \/ b' + n' <= b.
Proof.
  intros Hh Hb Hb' Hne. destruct (he_live _ _ _ _ Hh _ _ Hb) as (m & Hm & ?). destruct (he_live _ _ _ _ Hh _ _ Hb') as (m' & Hm' & ?).
  destruct (live_disjoint _ _ _ _ _ (he_ok _ _ _ _ Hh) Hm Hm' Hne); lia.
Qed.

(** The assignments to the fields of a zeroed frame. *)
Lemma wp_fill_frame p L e b n a cs ds ent esp Q :
  held L e -> (b, n) ∈ L -> b <= a -> a + 64 <= b + n -> frame_at e a (replicate 16 0) ->
  is_u32 cs -> is_u32 ds -> is_u32 ent -> is_u32 esp ->
  (forall e', held L e' -> frame_at e' a (frame_words cs ds ent esp) ->
     (forall x, x < a \/ a + 64 <= x -> env_mem e' x = env_mem e x) -> Q tt (st p e')) ->
  wp F (fill_frame a ds ent cs esp) Q (st p e).
Proof.
  intros Hh Hb H1 H2 Hf0 Hcs Hds Hent Hesp HQ.
  unfold fill_frame, OFF_DS, OFF_EIP, OFF_CS, OFF_EFLAGS, OFF_ESP, OFF_SS.
  apply wp_bind, (wp_write32 L p e b n); [done|done|lia|lia|]. intros e1 Hh1 Hm1.
  apply wp_bind, (wp_write32 L p e1 b n); [done|done|lia|lia|]. intros e2 Hh2 Hm2.
  apply wp_bind, (wp_write32 L p e2 b n); [done|done|lia|lia|]. intros e3 Hh3 Hm3.
  apply wp_bind, (wp_write32 L p e3 b n); [done|done|lia|lia|]. intros e4 Hh4 Hm4.
  apply wp_bind, (wp_write32 L p e4 b n); [done|done|lia|lia|]. intros e5 Hh5 Hm5.
  apply (wp_write32 L p e5 b n); [done|done|lia|lia|]. intros e6 Hh6 Hm6.
  apply HQ; [done| |].
  - assert (is_u32 0x202) by (unfold is_u32; lia).
    apply (frame_at_write e _ a _ 0 ds Hf0 Hds) in Hm1. apply (frame_at_write e1 _ a _ 11 ent Hm1 Hent) in Hm2.
    apply (frame_at_write e2 _ a _ 12 cs Hm2 Hcs) in Hm3. apply (frame_at_write e3 _ a _ 13 0x202 Hm3 ltac:(done)) in Hm4.
    apply (frame_at_write e4 _ a _ 14 esp Hm4 Hesp) in Hm5. apply (frame_at_write e5 _ a _ 15 ds Hm5 Hds) in Hm6.
    exact Hm6.
  - intros x Hx. rewrite Hm6, Hm5, Hm4, Hm3, Hm2, Hm1. by rewrite !decide_False by lia.
Qed.

(** The initial frame of a user process: where it starts, with which arguments. *)
Record user_start (p : process) (e : E) (ent : Z) (args : list (list Z)) : Prop := {
  us_esp : exists sp, user_layout p e args sp /\ frame_at e (frame_of p) (frame_words USER_CS USER_DS ent sp)
}.

(** The blocks and the geometry build_initial_frame relies on. *)
Record frame_ready (p : process) (L : list (Z * Z)) : Prop := {
  fr_stack : (stack_kern_base p, stack_size p) ∈ L;
  fr_kstack : (kstack_base p, kstack_size p) ∈ L;
  fr_ne : kstack_base p <> stack_kern_base p;
  fr_ksize : 64 <= kstack_size p;
  fr_base : stack_base p = USER_STACK_TOP - PROC_STACK_SIZE;
  fr_size : stack_size p = PROC_STACK_SIZE
}.

Lemma wp_build_initial_frame p L e ent argv Q :
  frame_ready p L -> is_u32 ent -> short_args (default [] argv) -> Z.of_nat (length (default [] argv)) < 1048576 -> held L e ->
  (forall e', held L e' -> default [] argv <> [] -> Q false (st p e')) ->
  (forall e', held L e' -> user_start p e' ent (default [] argv) -> Q true (st (set_context_esp (frame_of p) p) e')) ->
  wp F (build_initial_frame i ent argv) Q (st p e).
Proof.
  intros [Hs Hk Hne Hks Hb Hz] Hent Hsh Hargc Hh Hno Hyes. unfold build_initial_frame. apply wp_bind, wp_getp.
  pose proof (frame_in p L e Hk Hks Hh) as Hfr. set (a := frame_of p) in *.
  apply wp_bind. unfold zero_frame.
  apply (wp_write_words L p (kstack_base p) (kstack_size p)); [done|done|lia|simpl; lia|]. intros e1 Hh1 Hm1.
  apply frame_at_zero in Hm1. unfold USER_STACK_TOP, PROC_STACK_SIZE in *.
  assert (stack_base p mod 16 = 0 /\ stack_size p mod 16 = 0) as [Hm16 Hm16'] by (by rewrite Hb, Hz).
  apply wp_bind, (wp_setup_user_stack p L e1 argv); [done|lia|lia|lia|done|done|done|done|done| |].
  { intros e2 Hh2 Hn. rewrite Z.eqb_refl. apply wp_ret. by apply Hno. }
  intros e2 sp Hh2 Hul Hoff. pose proof (ul_sp _ _ _ _ Hul) as (Hsp1 & Hsp2 & Hsp3). unfold stub_addr in Hsp3.
  rewrite (proj2 (Z.eqb_neq _ _)) by lia.
  assert (frame_at e2 a (replicate 16 0)) as Hf2.
  { apply (frame_at_same e1 e2); [done|]. simpl. intros x Hx. apply (Hoff (kstack_base p) (kstack_size p)); [done|lia|].
    destruct (held_disjoint L e2 _ _ _ _ Hh2 Hk Hs Hne); lia. }
  apply wp_bind, (wp_fill_frame p L e2 (kstack_base p) (kstack_size p)); [done|done|lia|lia|done| | |done| |];
    [unfold is_u32, USER_CS; lia|unfold is_u32, USER_DS; lia|unfold is_u32; lia|].
  intros e3 Hh3 Hf3 Hm3. apply wp_bind, wp_updp, wp_ret. apply Hyes; [done|]. split. exists sp. split; [|done].
  apply (user_layout_keeps p [(stack_kern_base p, stack_size p)]) with (e := e2); try done; try lia; [by left|].
  intros b n x [= -> ->]%list_elem_of_singleton Hx. apply Hm3.
  destruct (held_disjoint L e3 _ _ _ _ Hh3 Hk Hs Hne); lia.
Qed.

Lemma wp_build_kernel_frame p L e ent Q :
  (kstack_base p, kstack_size p) ∈ L -> 64 <= kstack_size p -> is_u32 ent -> held L e ->
  (forall e', held L e' -> frame_at e' (frame_of p) (frame_words KERNEL_CS KERNEL_DS ent (u32 (kstack_base p + kstack_size p))) ->
     Q true (st (set_context_esp (frame_of p) p) e')) ->
  wp F (build_kernel_frame i ent) Q (st p e).
Proof.
  intros Hk Hks Hent Hh HQ. unfold build_kernel_frame. apply wp_bind, wp_getp.
  pose proof (frame_in p L e Hk Hks Hh) as Hfr. set (a := frame_of p) in *. apply wp_bind. unfold zero_frame.
  apply (wp_write_words L p (kstack_base p) (kstack_size p)); [done|done|lia|simpl; lia|]. intros e1 Hh1 Hm1.
  apply frame_at_zero in Hm1.
  apply wp_bind, (wp_fill_frame p L e1 (kstack_base p) (kstack_size p)); [done|done|lia|lia|done| | |done| |];
    [unfold is_u32, KERNEL_CS; lia|unfold is_u32, KERNEL_DS; lia|apply u32_range|].
  intros e3 Hh3 Hf3 _. apply wp_bind, wp_updp, wp_ret. by apply HQ.
Qed.

(** ** Calls that keep memory *)

Lemma wp_set_dir_keep L p e d Q :
  held L e -> (forall e', held L e' -> (forall x, env_mem e' x = env_mem e x) -> Q tt (st p e')) -> wp F (set_dir d) Q (st p e).
Proof.
  intros Hh HQ. apply wp_effect, HQ; destruct (set_dir_law e (fst d) (snd d) (he_ok _ _ _ _ Hh)) as (? & ? & ?); [|done].
  by eapply held_quiet.
Qed.
Lemma wp_irq_restore_keep L p e f Q :
  held L e -> (forall e', held L e' -> (forall x, env_mem e' x = env_mem e x) -> Q tt (st p e')) -> wp F (irq_restore f) Q (st p e).
Proof.
  intros Hh HQ. unfold irq_restore. destruct f; [|by apply wp_ret, HQ].
  apply wp_effect, HQ; destruct (iflag_law e true (he_ok _ _ _ _ Hh)) as (? & ? & ?); [|done]. by eapply held_quiet.
Qed.

Definition same_memory_fields (p q : process) : Prop :=
  stack_base p = stack_base q /\ stack_size p = stack_size q /\ stack_kern_base p = stack_kern_base q /\
  kstack_base p = kstack_base q /\ kstack_size p = kstack_size q.
Lemma user_start_ext p q e e' ent args :
  user_start p e ent args -> same_memory_fields p q -> (forall x, env_mem e' x = env_mem e x) -> user_start q e' ent args.
Proof.
  intros [(sp & [H1 H2 H3 (addrs & H4 & H5 & H6) H7] & Hf)] (E1 & E2 & E3 & E4 & E5) Hm.
  assert (forall a, word_at e' a = word_at e a) as Hw by (intros a; by apply word_at_same).
  split. exists sp. split.
  - unfold stub_addr, alias in *. split; unfold stub_addr, alias, string_at, alias; rewrite <-?E1, <-?E2, <-?E3, ?Hw; try done.
    + exists addrs. split_and!.
      * apply (list.Forall2_impl _ _ _ _ H4). intros a t (? & ? & Hs). split_and!; [done|done|].
        intros k Hk. rewrite Hm. by apply Hs.
      * intros k a Ha. rewrite Hw. by apply H5.
      * done.
    + intros k Hk. rewrite Hm. by apply H7.
  - intros k w Hk. rewrite Hw. unfold frame_of in *. rewrite <-E4, <-E5. by apply Hf.
Qed.
End Entry.
End Ownership.
End ProcOwn.
