(* ===== verification/ProcInv.v ===== *)
(** * The invariant of the process table (kernel/proc/proc.c)

    The invariant that ties the table, the pids, the scheduler's variables and the kernel memory of
    the processes together, and that every operation of proc.c keeps it and returns. *)
From S2P Require Import Prelude Proc ProcEnv ProcSched ProcKill ProcOwn.

Module ProcInv.
Import Proc ProcEnv ProcSched ProcKill ProcOwn.

Section Invariant.
Context {E : Type} {PE : ProcEnv E} {PO : ProcEnvOk E}.
Notation S := (procs E).

(** What holds of one entry besides ownership. *)
Record entry_ok (np : Z) (p : process) : Prop := {
  eo_pid : 0 <= pid p < np;
  eo_used : state p <> PROC_UNUSED -> pid p <> 0;
  eo_ksize : kstack_base p <> 0 -> kstack_size p = PROC_KSTACK_SIZE;
  eo_kstack : free_slot p = false -> kstack_base p <> 0;
  eo_ssize : stack_size p = 0 \/ stack_size p = PROC_STACK_SIZE
}.

Record inv (s : S) : Prop := {
  iv_sched : sched_ok s;
  iv_uniq : pids_unique s;
  iv_next : 1 <= next_pid s;
  iv_entry : forall i p, at_ s i = Some p -> entry_ok (next_pid s) p;
  iv_own : own_ok s;
  iv_env : env_ok (env s)
}.

(** ** Putting an entry back *)

Lemma entry_ok_mono n m p : entry_ok n p -> n <= m -> entry_ok m p.
Proof. intros [H1 H2 H3 H4 H5] Hnm. split; [lia|done..]. Qed.

(** After an operation on entry i that left it as p in the environment e. *)
Lemma inv_entry s i p0 p e :
  inv s -> at_ s i = Some p0 -> held i s (blocks p) e -> entry_ok (next_pid s) p ->
  (forall j q, j <> i -> at_ s j = Some q -> pid q = pid p -> pid p = 0) ->
  (state p = PROC_RUNNING -> i = current_proc s) -> inv (upto i p e s).
Proof.
  intros [[Hl Hx Hr Hrun] Hu Hn He Ho Hev] Hp0 Hh Hok Hpid Hst.
  assert (forall j q, at_ (upto i p e s) j = Some q -> (j = i /\ q = p) \/ (j <> i /\ at_ s j = Some q)) as Hat.
  { intros j q. rewrite (at_upto _ _ _ _ _ _ Hp0). case_decide; [left|right]; by naive_solver. }
  split.
  - split; [simpl; by rewrite length_insert|done|done|].
    intros j q [[-> ->]|[Hj Hq]]%Hat Hrn; [by apply Hst|]. by eapply Hrun.
  - intros j k q r [[-> ->]|[Hj Hq]]%Hat [[-> ->]|[Hk Hr']]%Hat Heq Hz; try done.
    + destruct Hz. by eapply Hpid.
    + rewrite Heq in Hz. destruct Hz. by eapply Hpid.
    + by eapply Hu.
  - done.
  - intros j q [[-> ->]|[Hj Hq]]%Hat; [done|]. by eapply He.
  - by eapply held_finish.
  - apply Hh.
Qed.

(** Only the table and the environment matter for ownership. *)
Lemma own_ok_ext (s s' : S) : proc_table s' = proc_table s -> env s' = env s -> own_ok s -> own_ok s'.
Proof. intros Ht Hev [H1 H2 H3]. unfold others, at_ in *. split; unfold others, at_; rewrite ?Ht, ?Hev; done. Qed.
Lemma held_ext i (s s' : S) L e : proc_table s' = proc_table s -> env s' = env s -> held i s L e -> held i s' L e.
Proof.
  intros Ht Hev [H1 H2 H3 H4 H5]. unfold others, at_ in *. split; unfold others, at_; rewrite ?Ht, ?Hev; done.
Qed.
Lemma sched_ok_ext (s s' : S) : proc_table s' = proc_table s -> current_proc s' = current_proc s ->
  current_index s' = current_index s -> sched_ok s -> sched_ok s'.
Proof. intros Ht Hc Hx [H1 H2 H3 H4]. unfold at_ in *. split; unfold at_; rewrite ?Ht, ?Hc, ?Hx; done. Qed.

(** Changes of the scheduler's variables that keep the table. *)
Lemma inv_current s c : inv s -> -1 <= c < 16 ->
  (forall i p, at_ s i = Some p -> state p = PROC_RUNNING -> i = c) -> inv (with_current c c s).
Proof.
  intros [[Hl Hx Hr Hrun] Hu Hn He Ho Hev] Hc Hc'.
  split; [by split|exact Hu|exact Hn|exact He|by apply (own_ok_ext s)|exact Hev].
Qed.
Lemma inv_next_pid s n : inv s -> next_pid s <= n -> inv (with_next_pid n s).
Proof.
  intros [[Hl Hx Hr Hrun] Hu Hn He Ho Hev] Hle. split; [by split|exact Hu|simpl; lia| |by apply (own_ok_ext s)|exact Hev].
  intros i p Hp. eapply entry_ok_mono; [by eapply He|done].
Qed.

Lemma wp_take_pid F (s : S) i p0 p e Q :
  at_ s i = Some p0 -> 0 <= next_pid s < 4294967295 ->
  Q tt (upto i (set_pid (next_pid s) p) e (with_next_pid (next_pid s + 1) s)) -> wp F (take_pid i) Q (upto i p e s).
Proof.
  intros Hp Hn HQ. unfold take_pid. apply wp_bind, wp_gets, wp_bind, wp_modify. simpl.
  rewrite (u32_small (next_pid s + 1)) by (unfold is_u32; lia).
  change (with_next_pid (next_pid s + 1) (upto i p e s)) with (upto i p e (with_next_pid (next_pid s + 1) s)).
  by eapply wp_updp.
Qed.

(** The entries in use of s are as they were in s'. *)
Definition live_kept (s s' : S) : Prop :=
  forall j q, at_ s j = Some q -> free_slot q = false -> at_ s' j = Some q.

Lemma live_kept_upto (s : S) i p0 p e n : at_ s i = Some p0 -> free_slot p0 = true -> live_kept s (upto i p e (with_next_pid n s)).
Proof.
  intros Hp Hf j q Hq Hlive. rewrite (at_upto i p e (with_next_pid n s) j p0) by done.
  case_decide; [|done]. subst. congruence.
Qed.

(** A fresh entry that never became a process. *)
Definition stale (np : Z) (p : process) : Prop :=
  state p = PROC_UNUSED /\ pid p = np /\ (kstack_base p = 0 \/ kstack_size p = PROC_KSTACK_SIZE).

Lemma fresh_pid s i np : inv s -> next_pid s = np ->
  forall j q, j <> i -> at_ s j = Some q -> pid q = np -> np = 0.
Proof. intros Hi <- j q _ Hq Hpid. pose proof (eo_pid _ _ (iv_entry _ Hi _ _ Hq)). lia. Qed.

Lemma inv_fresh s i p0 p e :
  inv s -> at_ s i = Some p0 -> held i s (blocks p) e -> pid p = next_pid s ->
  (kstack_base p <> 0 -> kstack_size p = PROC_KSTACK_SIZE) -> (free_slot p = false -> kstack_base p <> 0) ->
  state p <> PROC_RUNNING -> (stack_size p = 0 \/ stack_size p = PROC_STACK_SIZE) ->
  inv (upto i p e (with_next_pid (next_pid s + 1) s)).
Proof.
  intros Hi Hp0 Hh Hpid Hks Hk Hst Hss.
  apply (inv_entry (with_next_pid (next_pid s + 1) s) i p0); [by apply inv_next_pid; [|lia]|done|by apply (held_ext i s)| | |done].
  - pose proof (iv_next _ Hi). split; simpl; [lia|lia|done|done|done].
  - intros j q Hj Hq Heq. rewrite Hpid. eapply (fresh_pid s i); [done|done|done|exact Hq|congruence].
Qed.

(** ** Creating processes *)

Definition new_state (s : S) (make_current : bool) : proc_state :=
  if make_current && (current_proc s =? NULLP) then PROC_RUNNING else PROC_READY.
(** s with the pid taken and, when it becomes the first current process, entry i current. *)
Definition published (s : S) (i : Z) (make_current : bool) : S :=
  let s1 := with_next_pid (next_pid s + 1) s in
  if make_current && (current_proc s =? NULLP) then with_current i i s1 else s1.
Definition named (nm : option (list Z)) (p : process) : process :=
  match nm with Some nm => set_name (take 31 nm) p | None => p end.

Lemma published_at s i mc j : at_ (published s i mc) j = at_ s j.
Proof. unfold published. by destruct (_ && _). Qed.

Lemma inv_published s i p0 p e mc :
  inv s -> at_ s i = Some p0 -> held i s (blocks p) e -> pid p = next_pid s ->
  kstack_base p <> 0 -> kstack_size p = PROC_KSTACK_SIZE -> state p = new_state s mc -> (stack_size p = 0 \/ stack_size p = PROC_STACK_SIZE) ->
  inv (upto i p e (published s i mc)).
Proof.
  intros Hi Hp0 Hh Hpid Hk Hks Hst Hss. pose proof (at_range _ _ _ (so_len _ (iv_sched _ Hi)) Hp0) as Hr.
  assert (inv (published s i mc) /\ next_pid (published s i mc) = next_pid s + 1 /\
    (state p = PROC_RUNNING -> i = current_proc (published s i mc))) as (Hi2 & Hn2 & Hrun).
  { assert (inv (with_next_pid (next_pid s + 1) s)) as H1 by (apply inv_next_pid; [done|lia]).
    unfold published, new_state in *. destruct (mc && (current_proc s =? NULLP)) eqn:Hc.
    - split_and!; [|done|done]. apply inv_current; [done|lia|].
      intros j q Hq Hrn. apply andb_true_iff in Hc as [_ Hc%Z.eqb_eq].
      pose proof (so_run _ (iv_sched _ Hi) j q Hq Hrn). apply at_range in Hq; [|apply Hi]. unfold NULLP in Hc. lia.
    - split_and!; [done|done|]. rewrite Hst. done. }
  pose proof (iv_next _ Hi). apply (inv_entry (published s i mc) i p0); [done|by rewrite published_at| | | |done].
  - apply (held_ext i s); [|by unfold published; destruct (_ && _)|done]. unfold published. by destruct (_ && _).
  - rewrite Hn2. split; [lia|lia|done|done|done].
  - intros j q Hj. rewrite published_at. intros Hq Heq. rewrite Hpid. eapply (fresh_pid s i); [done|done|done|exact Hq|congruence].
Qed.

Lemma wp_publish F s i p0 p e nm mc Q :
  inv s -> at_ s i = Some p0 -> held i s (blocks p) e -> pid p = next_pid s ->
  kstack_base p <> 0 -> kstack_size p = PROC_KSTACK_SIZE -> (stack_size p = 0 \/ stack_size p = PROC_STACK_SIZE) ->
  (let p' := named nm (set_state (new_state s mc) p) in
   inv (upto i p' e (published s i mc)) -> Q i (upto i p' e (published s i mc))) ->
  wp F (make_ready i mc;;; (match nm with Some nm => copy_name i nm | None => ret tt end);;; ret i) Q
     (upto i p e (with_next_pid (next_pid s + 1) s)).
Proof.
  intros Hi Hp0 Hh Hpid Hk Hks Hss HQ.
  set (s1 := with_next_pid (next_pid s + 1) s). assert (at_ s1 i = Some p0) as Hp1 by done.
  set (p1 := set_state (new_state s mc) p).
  assert (make_ready i mc (upto i p e s1) = Ok (tt, upto i p1 e (published s i mc))) as Hmr.
  { unfold make_ready. erewrite bind_ok; [|apply (updp_ok _ _ _ _ (entry_at i s1 p0 Hp1 p e))].
    rewrite bind_gets. simpl. unfold p1, new_state, published. destruct (mc && (current_proc s =? NULLP)) eqn:Hc.
    - set (s2 := with_table _ _). assert (at_ s2 i = Some (set_state PROC_READY p)) as Hq.
      { unfold s2, at_. simpl. unfold at_ in Hp1. pose proof (lget_some _ _ _ Hp1).
        rewrite lget_insert by (by rewrite length_insert). by rewrite decide_True. }
      rewrite (bind_ok _ _ _ _ _ (updp_ok _ _ _ _ Hq)). unfold modify, upto. simpl. by rewrite !list_insert_insert_eq.
    - unfold ret, upto. simpl. by rewrite list_insert_insert_eq. }
  apply wp_bind. eapply wp_ok; [exact Hmr|]. apply wp_bind.
  assert (at_ (published s i mc) i = Some p0) as Hp2 by (by rewrite published_at).
  destruct nm as [nm|]; [eapply wp_updp; [exact Hp2|]|apply wp_ret]; apply wp_ret, HQ;
    eapply inv_published; try done.
Qed.

(** What a creation gives: NULL, or entry i with a pid that was never used, ready to run. *)
Definition creation (s : S) (mc : bool) (good : process -> E -> Prop) (i : Z) (s' : S) : Prop :=
  inv s' /\ live_kept s s' /\
  (i = NULLP \/ exists p p0, at_ s i = Some p0 /\ free_slot p0 = true /\ at_ s' i = Some p /\ pid p = next_pid s /\
     state p = new_state s mc /\ kstack_base p <> 0 /\ good p (env s')).

(** The start of a creation: a slot is found, emptied and given a pid. *)
Lemma wp_new_slot F s (Q : Z -> S -> Prop) (k : Z -> M S Z) isk :
  inv s -> 0 <= next_pid s < 4294967295 -> Q NULLP s ->
  (forall i p0 e, at_ s i = Some p0 -> free_slot p0 = true -> held i s [] e ->
     wp F (k i) Q (upto i (set_pid (next_pid s) (set_is_kernel isk zero_process)) e (with_next_pid (next_pid s + 1) s))) ->
  wp F (i <- find_proc free_slot;; if i =? NULLP then ret NULLP
        else proc_cleanup i;;; updp i (set_is_kernel isk);;; take_pid i;;; k i) Q s.
Proof.
  intros Hi Hn Hnull Hk. destruct (find_ok s free_slot (so_len _ (iv_sched _ Hi))) as (i & Hf & Hc).
  apply wp_bind. eapply wp_ok; [exact Hf|]. destruct Hc as [[-> _]|(p0 & Hp0 & Hne & Hfree & _)]; [by apply wp_ret|].
  rewrite (proj2 (Z.eqb_neq _ _) Hne). rewrite <-(upto_self i p0 s Hp0).
  apply wp_bind, (wp_cleanup i s p0 Hp0 (iv_own _ Hi)); [apply held_start; try done; apply Hi|]. intros e He.
  apply wp_bind, (wp_updp i s p0 Hp0). apply wp_bind, (wp_take_pid _ _ _ p0); [done|done|]. by eapply Hk.
Qed.

(** A failed creation leaves an UNUSED entry with no memory. *)
Lemma create_failed F s i p0 p e mc good :
  inv s -> at_ s i = Some p0 -> free_slot p0 = true -> held i s (blocks p) e -> pid p = next_pid s ->
  (kstack_base p <> 0 -> kstack_size p = PROC_KSTACK_SIZE) -> (stack_size p = 0 \/ stack_size p = PROC_STACK_SIZE) ->
  wp F (updp i (set_state PROC_UNUSED);;; ret NULLP) (creation s mc good) (upto i p e (with_next_pid (next_pid s + 1) s)).
Proof.
  intros Hi Hp0 Hfree Hh Hpid Hks Hss. apply wp_bind.
  eapply (wp_updp i (with_next_pid (next_pid s + 1) s)); [exact Hp0|]. apply wp_ret. split_and!.
  - eapply inv_fresh; try done.
  - by eapply live_kept_upto.
  - by left.
Qed.

Lemma create_succeeded F s i p0 p e nm mc (good : process -> E -> Prop) :
  inv s -> at_ s i = Some p0 -> free_slot p0 = true -> held i s (blocks p) e -> pid p = next_pid s ->
  kstack_base p <> 0 -> kstack_size p = PROC_KSTACK_SIZE -> (stack_size p = 0 \/ stack_size p = PROC_STACK_SIZE) ->
  good (named nm (set_state (new_state s mc) p)) e ->
  wp F (make_ready i mc;;; (match nm with Some nm => copy_name i nm | None => ret tt end);;; ret i) (creation s mc good)
     (upto i p e (with_next_pid (next_pid s + 1) s)).
Proof.
  intros Hi Hp0 Hfree Hh Hpid Hk Hks Hss Hg. apply (wp_publish F s i p0); try done. simpl. intros Hinv. split_and!; [done| |].
  - intros j q Hq Hlive. rewrite (at_upto i _ e _ j p0), published_at by (by rewrite published_at).
    case_decide; [|done]. subst. congruence.
  - right. exists (named nm (set_state (new_state s mc) p)), p0. split_and!; [done|done| |by destruct nm|by destruct nm|by destruct nm|done].
    rewrite (at_upto i _ e _ i p0), decide_True by (done || by rewrite published_at). done.
Qed.

(** ** User processes *)

Definition args_ok (argv : option (list (list Z))) : Prop :=
  short_args (default [] argv) /\ Z.of_nat (length (default [] argv)) < 1048576.

(** A user process built for [ent] and [argv]; without a frame it waits for proc_build_user_frame. *)
Definition good_user nm ent (argv : option (list (list Z))) (build_frame : bool) (p : process) (e : E) : Prop :=
  is_kernel p = false /\ entry p = ent /\ name p = take 31 (default [] nm) /\
  if build_frame then context_esp p = frame_of p /\ user_start p e ent (default [] argv) else context_esp p = 0.

Lemma wp_create_common F s nm ent argv mc bf :
  inv s -> 0 <= next_pid s < 4294967295 -> is_u32 ent -> args_ok argv ->
  wp F (proc_create_common nm ent argv mc bf) (creation s mc (good_user nm ent argv bf)) s.
Proof.
  intros Hi Hn Hent [Hsh Hargc]. unfold proc_create_common.
  apply (wp_new_slot F s _ (fun i => _) false); [done|done|split_and!; [done|by intros ?|by left]|].
  intros i p0 e Hp0 Hfree Hh. set (s1 := with_next_pid (next_pid s + 1) s).
  assert (at_ s1 i = Some p0) as Hp1 by done. assert (own_ok s1) as Ho1 by (apply (own_ok_ext s); try done; apply Hi).
  assert (forall L e, held i s1 L e -> held i s L e) as Hback by (intros ?? Hx; by apply (held_ext i s1)).
  apply (held_ext i s s1) in Hh; [|done|done].
  apply wp_bind, (wp_updp i s1 p0 Hp1). apply wp_bind, (wp_updp i s1 p0 Hp1). simpl.
  apply wp_bind, (wp_user_dir i s1 Ho1 F []); [done| |].
  { intros d e1 Hd Hh1. apply wp_bind, (wp_updp i s1 p0 Hp1). rewrite Hd, Z.eqb_refl. simpl.
    apply (create_failed F s i p0); try done; try (by left); try (by right). apply Hback. unfold blocks. simpl. done. }
  intros d e1 Hd Hh1. apply wp_bind, (wp_updp i s1 p0 Hp1). rewrite (proj2 (Z.eqb_neq _ _) Hd).
  apply wp_bind, (wp_kmalloc i s1 Ho1 F [(fst d, PAGE_SIZE)]); [done| |].
  { intros e2 Hh2. apply wp_bind, (wp_updp i s1 p0 Hp1). simpl. apply wp_bind, (wp_kfree i s1 F [] _ _ _ _ _ Hh2). intros e3 Hh3.
    apply wp_bind, (wp_updp i s1 p0 Hp1). simpl. apply (create_failed F s i p0); try done; try (by left); try (by right). by apply Hback. }
  intros k e2 Hk Hh2. apply wp_bind, (wp_updp i s1 p0 Hp1). rewrite (proj2 (Z.eqb_neq _ _) Hk).
  apply wp_bind, (wp_updp i s1 p0 Hp1). simpl.
  apply wp_bind, (wp_irq_save i s1 F _ _ _ _ Hh2). intros fl e3 Hh3. apply wp_bind, (wp_ask i s1).
  apply wp_bind, (wp_set_dir i s1 F _ _ _ _ _ Hh3). intros e4 Hh4.
  apply wp_bind, (wp_init_user_stack i s1 p0 Hp1 Ho1 F _ _ _ _ Hh4); [done|done| |].
  { intros e5 Hh5. simpl. apply wp_bind, (wp_set_dir i s1 F _ _ _ _ _ Hh5). intros e6 Hh6.
    apply wp_bind, (wp_irq_restore i s1 F _ _ _ _ _ Hh6). intros e7 Hh7.
    apply wp_bind, (wp_kfree i s1 F _ _ _ _ _ _ Hh7). intros e8 Hh8.
    apply wp_bind, (wp_kfree i s1 F _ _ _ _ _ _ Hh8). intros e9 Hh9.
    apply wp_bind, (wp_updp i s1 p0 Hp1). apply wp_bind, (wp_updp i s1 p0 Hp1). simpl.
    apply (create_failed F s i p0); try done; try (by left); try (by right). by apply Hback. }
  intros sk e5 Hsk Hh5. simpl.
  set (p1 := set_stack _ _ sk _) in *.
  set (L := [(sk, PROC_STACK_SIZE); (k, PROC_KSTACK_SIZE); (fst d, PAGE_SIZE)]) in *.
  assert (L = blocks p1) as HL.
  { unfold blocks, p1. simpl. unfold blk. rewrite (proj2 (Z.eqb_neq _ _) Hsk), (proj2 (Z.eqb_neq _ _) Hk), (proj2 (Z.eqb_neq _ _) Hd). done. }
  assert (frame_ready p1 L) as Hfr.
  { split; simpl; try done; [by left|by right; left|]. intros Heq. pose proof (he_nodup _ _ _ _ Hh5) as Hnd.
    simpl in Hnd. apply list.NoDup_cons in Hnd as [Hnd _]. apply Hnd. rewrite Heq. by left. }
  assert (forall p' e', blocks p' = L -> pid p' = next_pid s -> kstack_base p' = k -> kstack_size p' = PROC_KSTACK_SIZE ->
    stack_size p' = PROC_STACK_SIZE -> held i s1 L e' -> (forall e2, (forall x, env_mem e2 x = env_mem e' x) ->
      good_user nm ent argv bf (named nm (set_state (new_state s mc) p')) e2) ->
    wp F (set_dir (env_current_dir e3);;; irq_restore fl;;; make_ready i mc;;;
      (match nm with Some nm => copy_name i nm | None => ret tt end);;; ret i) (creation s mc (good_user nm ent argv bf)) (upto i p' e' s1)) as Hfin.
  { intros p' e' Hb Hpid Hkb Hks Hss Hh' Hg. apply wp_bind, (wp_set_dir_keep i s1 F L); [done|]. intros e6 Hh6 Hm6.
    apply wp_bind, (wp_irq_restore_keep i s1 F L); [done|]. intros e7 Hh7 Hm7.
    apply (create_succeeded F s i p0); try done; [rewrite Hb; by apply Hback|congruence|by right|].
    apply Hg. intros x. by rewrite Hm7, Hm6. }
  apply wp_bind. destruct bf.
  - apply (wp_build_initial_frame i s1 p0 Hp1 Ho1 F p1 L e5 ent argv); try done.
    + intros e6 Hh6 Hne. simpl. apply wp_bind, (wp_set_dir i s1 F _ _ _ _ _ Hh6). intros e7 Hh7.
      apply wp_bind, (wp_irq_restore i s1 F _ _ _ _ _ Hh7). intros e8 Hh8. apply wp_bind, (wp_getp i s1 p0 Hp1). simpl.
      apply wp_bind, (wp_kfree i s1 F _ _ _ _ _ _ Hh8). intros e9 Hh9.
      apply wp_bind, (wp_kfree i s1 F _ _ _ _ _ _ Hh9). intros e10 Hh10.
      apply wp_bind, (wp_kfree i s1 F _ _ _ _ _ _ Hh10). intros e11 Hh11.
      apply wp_bind, (wp_updp i s1 p0 Hp1). apply wp_bind, (wp_updp i s1 p0 Hp1). apply wp_bind, (wp_updp i s1 p0 Hp1). simpl.
      apply (create_failed F s i p0); try done; try (by left); try (by right). by apply Hback.
    + intros e6 Hh6 Hus. simpl. apply Hfin; try done. intros e7 Hm. split_and!; [by destruct nm..|by destruct nm|].
      eapply user_start_ext; [exact Hus| |done]. by destruct nm.
  - apply wp_bind, (wp_updp i s1 p0 Hp1), wp_ret. simpl. apply Hfin; try done. intros e7 Hm. split_and!; by destruct nm.
Qed.

Definition good_kernel nm ent (p : process) (e : E) : Prop :=
  is_kernel p = true /\ entry p = ent /\ name p = take 31 (default [] nm) /\ context_esp p = frame_of p /\
  frame_at e (frame_of p) (frame_words KERNEL_CS KERNEL_DS ent (u32 (kstack_base p + kstack_size p))).

Lemma wp_create_kernel F s nm ent mc :
  inv s -> 0 <= next_pid s < 4294967295 -> is_u32 ent ->
  wp F (proc_create_kernel_common nm ent mc) (creation s mc (good_kernel nm ent)) s.
Proof.
  intros Hi Hn Hent. unfold proc_create_kernel_common.
  apply (wp_new_slot F s _ (fun i => _) true); [done|done|split_and!; [done|by intros ?|by left]|].
  intros i p0 e Hp0 Hfree Hh. set (s1 := with_next_pid (next_pid s + 1) s).
  assert (at_ s1 i = Some p0) as Hp1 by done. assert (own_ok s1) as Ho1 by (apply (own_ok_ext s); try done; apply Hi).
  assert (forall L e, held i s1 L e -> held i s L e) as Hback by (intros ?? Hx; by apply (held_ext i s1)).
  apply (held_ext i s s1) in Hh; [|done|done].
  apply wp_bind, (wp_updp i s1 p0 Hp1). apply wp_bind, (wp_updp i s1 p0 Hp1). apply wp_bind, (wp_ask i s1).
  apply wp_bind, (wp_updp i s1 p0 Hp1). simpl.
  apply wp_bind, (wp_kmalloc i s1 Ho1 F []); [done| |].
  { intros e1 Hh1. apply wp_bind, (wp_updp i s1 p0 Hp1). simpl. apply (create_failed F s i p0); try done; try (by left); try (by right). by apply Hback. }
  intros k e1 Hk Hh1. apply wp_bind, (wp_updp i s1 p0 Hp1). rewrite (proj2 (Z.eqb_neq _ _) Hk).
  apply wp_bind, (wp_updp i s1 p0 Hp1). simpl. set (p1 := set_stack 0 0 0 _).
  apply wp_bind, (wp_build_kernel_frame i s1 p0 Hp1 F p1 [(k, PROC_KSTACK_SIZE)] e1); try done; [by left|].
  intros e2 Hh2 Hf. simpl. apply (create_succeeded F s i p0); try done; try (by left); try (by right).
  - apply Hback. unfold blocks, p1. simpl. by rewrite blk_nz.
  - by split_and!; destruct nm.
Qed.

(** ** Ending and reaping *)

(** A table that differs by pid-preserving changes of the fields that own nothing. *)
Definition keeps_blocks (s s' : S) : Prop :=
  forall j, exists f : process -> process, at_ s' j = f <$> at_ s j /\
    forall q, at_ s j = Some q -> blocks (f q) = blocks q /\ pid (f q) = pid q /\
      kstack_base (f q) = kstack_base q /\ kstack_size (f q) = kstack_size q /\ stack_size (f q) = stack_size q /\
      (state (f q) <> PROC_UNUSED -> state q <> PROC_UNUSED) /\ (free_slot (f q) = false -> free_slot q = false).

Lemma inv_keeps_blocks s s' :
  inv s -> keeps_blocks s s' -> sched_ok s' -> next_pid s' = next_pid s -> env_ok (env s') ->
  env_live (env s') = env_live (env s) -> inv s'.
Proof.
  intros [_ Hu Hn He [Ho1 Ho2 Ho3] _] Hk Hs Hnp Hev Hlv.
  assert (forall j q', at_ s' j = Some q' -> exists q, at_ s j = Some q /\ blocks q' = blocks q /\ pid q' = pid q /\
    (entry_ok (next_pid s) q -> entry_ok (next_pid s) q')) as Hinv.
  { intros j q' Hq'. destruct (Hk j) as (f & Hf & Hprop). rewrite Hf in Hq'. destruct (at_ s j) as [q|] eqn:Hq; [|done].
    simpl in Hq'. injection Hq' as <-. destruct (Hprop q eq_refl) as (Hb & Hp & Hkb & Hks & Hss & Hst & Hfr).
    exists q. split_and!; [done|done|done|]. intros [E1 E2 E3 E4 E5]. split; rewrite ?Hp, ?Hkb, ?Hks, ?Hss; auto. }
  assert (forall i a, others i s' a -> others i s a) as Hoth.
  { intros i a (j & q' & n & Hj & Hq' & Ha). destruct (Hinv _ _ Hq') as (q & Hq & Hb & _). exists j, q, n. by rewrite <-Hb. }
  split; [done| |lia| | |done].
  - intros i j p q Hp Hq. destruct (Hinv _ _ Hp) as (p1 & Hp1 & _ & Hpp & _). destruct (Hinv _ _ Hq) as (q1 & Hq1 & _ & Hqq & _).
    rewrite Hpp, Hqq. by apply (Hu i j p1 q1).
  - intros i p Hp. rewrite Hnp. destruct (Hinv _ _ Hp) as (p1 & Hp1 & _ & _ & Hok). eapply Hok, He, Hp1.
  - split.
    + intros i p a n Hp Ha. destruct (Hinv _ _ Hp) as (p1 & Hp1 & Hb & _). rewrite Hlv. rewrite Hb in Ha. by eapply Ho1.
    + intros i p Hp. destruct (Hinv _ _ Hp) as (p1 & Hp1 & Hb & _). rewrite Hb. by eapply Ho2.
    + intros i p a n Hp Ha Hot. destruct (Hinv _ _ Hp) as (p1 & Hp1 & Hb & _). rewrite Hb in Ha. by eapply Ho3, Hoth.
Qed.

Lemma ended_keeps (s s' : S) i p code :
  at_ s i = Some p -> free_slot p = false \/ state p <> PROC_UNUSED -> at_ s' i = Some (ended code p) ->
  (forall j, j <> i -> at_ s' j = wake (vfork_parent_pid p) <$> at_ s j) -> keeps_blocks s s'.
Proof.
  intros Hp Hun Hi Hj j. destruct (decide (j = i)) as [->|Hne].
  - exists (fun _ => ended code p). rewrite Hi, Hp. split; [done|]. intros q [= <-]. split_and!; try done.
    intros _ Hc. destruct Hun as [Hf|Hun]; [|done]. unfold free_slot in Hf. by rewrite bool_decide_true in Hf.
  - exists (wake (vfork_parent_pid p)). split; [by apply Hj|]. intros q Hq. unfold wake.
    destruct (negb _ && _ && _) eqn:Hb; [|by split_and!]. apply andb_true_iff in Hb as [_ Hb%bool_decide_eq_true].
    split_and!; try done; intros _; [by rewrite Hb|]. unfold free_slot. by rewrite Hb.
Qed.

Lemma inv_exit F s code :
  inv s -> (forall p, at_ s (current_proc s) = Some p -> state p <> PROC_UNUSED) ->
  wp F (proc_exit code) (fun _ s' => inv s' /\ current_proc s' = NULLP /\ next_pid s' = next_pid s) s.
Proof.
  intros Hi Hcu. destruct (decide (current_proc s = NULLP)) as [Hn|Hn].
  { unfold proc_exit. apply wp_bind, wp_gets. rewrite Hn. simpl. by apply wp_ret. }
  destruct (at_in s (current_proc s) (so_len _ (iv_sched _ Hi))) as [p Hp].
  { pose proof (so_range _ (iv_sched _ Hi)). unfold NULLP in Hn. lia. }
  destruct (exit_ok s code p (iv_sched _ Hi) (iv_uniq _ Hi) Hp) as (s' & He & Hs & Hu & Hc & Hi' & Hj & _ & _ & Hev & Hnp).
  eapply wp_ok; [exact He|]. split_and!; [|done|done].
  apply (inv_keeps_blocks s); [done| |done|done|rewrite Hev; apply Hi|by rewrite Hev].
  eapply ended_keeps; [exact Hp|right; by apply Hcu|done|done].
Qed.

Lemma inv_kill F s target force :
  inv s -> (forall p, at_ s (current_proc s) = Some p -> state p <> PROC_UNUSED) ->
  wp F (proc_kill target force) (fun _ s' => inv s' /\ current_proc s' = current_proc s /\ next_pid s' = next_pid s) s.
Proof.
  intros Hi Hcu. destruct (decide (target = 0)) as [->|Hz]; [by apply wp_ret|].
  destruct (find_ok s (fun q => negb (bool_decide (state q = PROC_UNUSED)) && (pid q =? target)) (so_len _ (iv_sched _ Hi)))
    as (i & _ & [[_ Hno]|(p & Hp & _ & [Hun%negb_true_iff%bool_decide_eq_false Hpid%Z.eqb_eq]%andb_true_iff & _)]).
  - eapply wp_ok; [apply (kill_unknown s target force)|done]; [apply Hi|done|].
    right. intros i' p Hp Hun Hpid. specialize (Hno _ _ Hp). rewrite bool_decide_false, Hpid, Z.eqb_refl in Hno by done. done.
  - destruct (kill_ok s i p target force (iv_sched _ Hi) (iv_uniq _ Hi) Hp Hpid Hz Hun) as (r & s' & He & Hc).
    eapply wp_ok; [exact He|]. destruct (_ && _ && _); [by destruct Hc as [_ ->]|]. destruct (i =? current_proc s).
    { destruct Hc as [_ ->]. split_and!; [|done|done]. destruct Hi as [Hs Hu Hn Hen Ho Hev].
      split; [by apply (sched_ok_ext s)|exact Hu|exact Hn|exact Hen|by apply (own_ok_ext s)|exact Hev]. }
    destruct (bool_decide _); [by destruct Hc as [_ ->]|]. destruct Hc as (_ & Hs & Hu & Hcp & Hi' & Hj & _ & Hev & _ & Hnp).
    destruct (to_shell_law (env s) (iv_env _ Hi)) as [Hsh1 Hsh2].
    split_and!; [|done|done]. apply (inv_keeps_blocks s); [done| |done|done| |].
    + eapply ended_keeps; [exact Hp|by right|done|done].
    + rewrite Hev. destruct (_ =? _); [done|apply Hi].
    + rewrite Hev. by destruct (_ =? _).
Qed.

(** ** Reaping *)

(** The entries proc_reap may take: EXITED, not current, and not the stack it runs on. *)
Definition reapable (s : S) (esp i : Z) (p : process) : bool :=
  bool_decide (state p = PROC_EXITED) && negb (i =? current_proc s) && negb (proc_stack_in_use p esp).

Lemma zero_entry_ok n : 1 <= n -> entry_ok n zero_process.
Proof. intros Hn. split; simpl; [lia|done|done|done|by left]. Qed.

(** The variables proc_reap resets when it meets the service threads. *)
Definition forget (s : S) (p : process) : S :=
  if pid p =? 0 then s
  else
    let s1 := if pid p =? proc_reaper_pid s then with_reaper (proc_reaper_enabled s) 0 s else s in
    if pid p =? proc_watchdog_pid s1 then with_watchdog 0 s1 else s1.
Lemma forget_fields s p : proc_table (forget s p) = proc_table s /\ env (forget s p) = env s /\
  current_proc (forget s p) = current_proc s /\ current_index (forget s p) = current_index s /\
  next_pid (forget s p) = next_pid s /\ proc_reaper_enabled (forget s p) = proc_reaper_enabled s.
Proof.
  unfold forget. destruct (pid p =? 0); [by split_and!|]. destruct (pid p =? proc_reaper_pid s); simpl;
    destruct (pid p =? proc_watchdog_pid _); by split_and!.
Qed.
Lemma inv_forget s p : inv s -> inv (forget s p).
Proof.
  intros [Hs Hu Hn He Ho Hev]. destruct (forget_fields s p) as (Ht & E1 & E2 & E3 & E4 & _).
  split; [by apply (sched_ok_ext s)| |by rewrite E4| |by apply (own_ok_ext s)|by rewrite E1].
  - unfold pids_unique, at_ in *. by rewrite Ht.
  - unfold at_ in *. by rewrite Ht, E4.
Qed.

Definition reaped (s : S) (esp lo : Z) (s' : S) : Prop :=
  inv s' /\ current_proc s' = current_proc s /\ next_pid s' = next_pid s /\ proc_reaper_enabled s' = proc_reaper_enabled s /\
  (forall a, env_live (env s) !! a = None -> env_live (env s') !! a = None) /\
  (forall j p, at_ s j = Some p ->
     if (lo <=? j) && reapable s esp j p
     then at_ s' j = Some zero_process /\ forall a n, (a, n) ∈ blocks p -> env_live (env s') !! a = None
     else at_ s' j = Some p).

Lemma wp_reap_entry F s esp i p :
  inv s -> at_ s i = Some p ->
  wp F (reap_entry esp i) (fun _ s' =>
    inv s' /\ current_proc s' = current_proc s /\ next_pid s' = next_pid s /\ proc_reaper_enabled s' = proc_reaper_enabled s /\
    (forall a, env_live (env s) !! a = None -> env_live (env s') !! a = None) /\
    (forall j, at_ s' j = if decide (j = i) then Some (if reapable s esp i p then zero_process else p) else at_ s j) /\
    (reapable s esp i p = true -> forall a n, (a, n) ∈ blocks p -> env_live (env s') !! a = None)) s.
Proof.
  intros Hi Hp. unfold reap_entry, reapable. apply wp_bind. eapply wp_ok; [by apply getp_ok|]. apply wp_bind, wp_gets.
  assert (forall j, at_ s j = if decide (j = i) then Some p else at_ s j) as Hsame by (intros j; case_decide; by subst).
  destruct (bool_decide (state p = PROC_EXITED)); simpl; [|apply wp_ret; by split_and!].
  destruct (i =? current_proc s); simpl; [apply wp_ret; by split_and!|].
  destruct (proc_stack_in_use p esp); simpl; [apply wp_ret; by split_and!|].
  apply wp_bind. eapply (wp_ok _ _ _ _ tt (forget s p)).
  { unfold forget. destruct (pid p =? 0); [done|]. simpl. by rewrite bind_modify. }
  destruct (forget_fields s p) as (Ht & E1 & E2 & E3 & E4 & E5). pose proof (inv_forget s p Hi) as Hif.
  set (s1 := forget s p) in *. assert (at_ s1 i = Some p) as Hp1 by (unfold at_; by rewrite Ht).
  rewrite <-(upto_self i p s1 Hp1). apply (wp_cleanup_live i s1 p Hp1 (iv_own _ Hif)).
  { apply held_start; [apply Hif|apply Hif|done]. }
  intros e' Hh Hlive. pose proof (iv_next _ Hif). split_and!; [|by simpl|by simpl|by simpl| | |].
  - apply (inv_entry s1 i p); try done. by apply zero_entry_ok.
  - intros a Ha. simpl. rewrite Hlive. case_decide; [done|]. by rewrite E1.
  - intros j. rewrite (at_upto i _ _ s1 j p) by done. unfold at_. rewrite Ht. repeat case_decide; congruence.
  - intros _ a n Ha. simpl. rewrite Hlive, decide_True; [done|]. apply list_elem_of_fmap. by exists (a, n).
Qed.

Lemma wp_reap_loop F esp n : forall s i, inv s -> 0 <= i -> i + Z.of_nat n = 16 ->
  wp F (reap_loop esp n i) (fun _ => reaped s esp i) s.
Proof.
  induction n as [|n IH]; intros s i Hi H0 Hn; simpl.
  { apply wp_ret. split_and!; try done. intros j p Hp. pose proof (at_range _ _ _ (so_len _ (iv_sched _ Hi)) Hp).
    rewrite (proj2 (Z.leb_gt _ _)) by lia. done. }
  destruct (at_in s i (so_len _ (iv_sched _ Hi)) ltac:(lia)) as [p Hp].
  apply wp_bind. eapply wp_mono; [by apply (wp_reap_entry F s esp i p)|].
  intros _ s1 (Hi1 & C1 & C2 & C3 & Hl1 & Hat1 & Hfr1). eapply wp_mono; [apply (IH s1 (i + 1) Hi1); lia|].
  intros _ s2 (Hi2 & D1 & D2 & D3 & Hl2 & Hall). split_and!; [done|congruence|congruence|congruence|auto|].
  intros j q Hq. assert (reapable s1 esp j q = reapable s esp j q) as Hre by (unfold reapable; by rewrite C1).
  specialize (Hat1 j) as Hj. destruct (decide (j = i)) as [->|Hne].
  - rewrite Hp in Hq. injection Hq as <-. rewrite Z.leb_refl. simpl. destruct (reapable s esp i p) eqn:Hr.
    + specialize (Hall i zero_process Hj). rewrite (proj2 (Z.leb_gt _ _)) in Hall by lia. simpl in Hall.
      split; [done|]. intros a m Ha. apply Hl2. by eapply Hfr1.
    + specialize (Hall i p Hj). rewrite (proj2 (Z.leb_gt _ _)) in Hall by lia. done.
  - rewrite Hq in Hj. specialize (Hall j q Hj). rewrite Hre in Hall.
    destruct (Z.leb_spec i j), (Z.leb_spec (i + 1) j); try lia; done.
Qed.
Lemma wp_reap F s esp : inv s -> wp F (proc_reap esp) (fun _ => reaped s esp 0) s.
Proof. intros Hi. by apply wp_reap_loop. Qed.

(** ** Scheduling *)

Lemma left_fields save regs q : blocks (left save regs q) = blocks q /\ pid (left save regs q) = pid q /\
  kstack_base (left save regs q) = kstack_base q /\ kstack_size (left save regs q) = kstack_size q /\
  stack_size (left save regs q) = stack_size q /\ (state (left save regs q) <> PROC_UNUSED -> state q <> PROC_UNUSED) /\
  (free_slot (left save regs q) = false -> free_slot q = false).
Proof.
  unfold left, rested, free_slot. destruct save; simpl; case_bool_decide as Hs; simpl in *; rewrite ?Hs; by split_and!.
Qed.
Lemma switched_keeps (s : S) n p save regs :
  at_ s n = Some p -> free_slot p = false -> keeps_blocks s (switched s n save regs).
Proof.
  intros Hp Hf j. rewrite at_switched.
  assert (state p <> PROC_UNUSED) as Hun.
  { intros Hc. unfold free_slot in Hf. by rewrite bool_decide_true in Hf. }
  destruct (decide (j = n)) as [->|Hn]; destruct (decide _) as [Hc|Hc].
  - exists (fun q => set_state PROC_RUNNING (left save regs q)). rewrite Hp. split; [done|]. intros q [= <-].
    destruct (left_fields save regs p) as (H1 & H2 & H3 & H4 & H5 & _). by split_and!.
  - exists (set_state PROC_RUNNING). split; [done|]. intros q Hq. rewrite Hp in Hq. injection Hq as <-. by split_and!.
  - exists (left save regs). split; [done|]. intros q _. apply left_fields.
  - exists id. split; [by destruct (at_ s j)|]. intros q _. by split_and!.
Qed.
Lemma loaded_quiet p e : env_ok e -> env_ok (loaded p e) /\ env_live (loaded p e) = env_live e.
Proof.
  intros He. unfold loaded. destruct (kernel_stack_law e (u32 (kstack_base p + kstack_size p)) He) as [H1 H2].
  destruct (page_dir p =? 0); [done|].
  destruct (set_dir_law _ (page_dir p) (page_dir_phys p) H1) as (H3 & H4 & _). split; [done|congruence].
Qed.
Lemma schedulable_live p : schedulable p = true -> free_slot p = false.
Proof.
  unfold schedulable, proc_is_runnable, free_slot. intros [[H1|H1]%orb_true_iff _]%andb_true_iff;
    apply bool_decide_eq_true in H1; by rewrite H1.
Qed.

(** A switch to n, with the environment loaded and any stack pointer handed over. *)
Lemma inv_switched (s s' : S) n p save regs :
  inv s -> at_ s n = Some p -> free_slot p = false ->
  proc_table s' = proc_table (switched s n save regs) -> current_proc s' = n -> current_index s' = n ->
  next_pid s' = next_pid s -> (env s' = env s \/ env s' = loaded p (env s)) -> inv s'.
Proof.
  intros Hi Hp Hf Ht Hc Hx Hn He. pose proof (at_range _ _ _ (so_len _ (iv_sched _ Hi)) Hp) as Hr.
  pose proof (loaded_quiet p (env s) (iv_env _ Hi)) as [Hl1 Hl2].
  apply (inv_keeps_blocks s); [done| | |done| |].
  - intros j. destruct (switched_keeps s n p save regs Hp Hf j) as (f & Hf1 & Hf2). exists f. unfold at_ in *. by rewrite Ht.
  - apply (sched_ok_ext (switched s n save regs)); [done| | |by apply switched_ok; [apply Hi|]].
    + unfold switched. by rewrite put_current.
    + unfold switched. by rewrite put_index.
  - destruct He as [-> | ->]; [apply Hi|done].
  - by destruct He as [-> | ->].
Qed.
Lemma switched_next s n save regs : next_pid (switched s n save regs) = next_pid (E:=E) s.
Proof. unfold switched, put. destruct (at_ _ n); simpl; by destruct (at_ s _). Qed.
Lemma switched_current s n save regs : current_proc (switched s n save regs) = n /\ current_index (E:=E) (switched s n save regs) = n.
Proof. unfold switched. by rewrite put_current, put_index. Qed.

Definition stable (s s' : S) : Prop := inv s' /\ next_pid s' = next_pid s.

Lemma inv_schedule_next F s regs save : inv s -> wp F (schedule_next regs save) (fun _ => stable s) s.
Proof.
  intros Hi. destruct (schedule_next_steps s regs save (iv_sched _ Hi)) as [[He _]|(d & p & Hd & Hne & (q & Hq & Hk) & _ & Hp & He)];
    eapply wp_ok; try exact He; [by split|].
  rewrite Hp in Hq. injection Hq as <-. set (n := after (current_index s) d) in *.
  destruct (switched_current s n save regs) as [Hc Hx]. split; [|apply switched_next].
  eapply (inv_switched s _ n p save regs); try done; [by apply schedulable_live|apply switched_next|by right].
Qed.
Lemma inv_schedule F s esp regs save : inv s -> wp F (proc_schedule esp regs save) (fun _ => stable s) s.
Proof.
  intros Hi. unfold proc_schedule. apply wp_bind. eapply wp_ok; [done|]. apply wp_bind.
  destruct (proc_reaper_enabled s); simpl; [apply wp_ret; by apply inv_schedule_next|].
  eapply wp_mono; [by apply wp_reap|]. intros _ s1 (Hi1 & _ & Hn1 & _). eapply wp_mono; [by apply inv_schedule_next|].
  intros _ s2 [Hi2 Hn2]. split; [done|congruence].
Qed.
Lemma inv_take_next F s : inv s -> wp F proc_take_next (fun _ => stable s) s.
Proof.
  intros Hi. destruct (take_next_steps s (so_len _ (iv_sched _ Hi)) (iv_sched _ Hi)) as [He|(n & p & Hp & Hk & He)];
    eapply wp_ok; try exact He; [by split|].
  change (put (with_current n n (put s (current_proc s) rested)) n (set_state PROC_RUNNING)) with (switched s n false 0).
  destruct (switched_current s n false 0) as [Hc Hx]. split; [|apply switched_next].
  eapply (inv_switched s _ n p false 0); try done; [by apply schedulable_live|apply switched_next|left; apply switched_env].
Qed.
Lemma inv_make_current F s i p regs :
  inv s -> at_ s i = Some p -> free_slot p = false -> wp F (proc_make_current i regs) (fun _ => stable s) s.
Proof.
  intros Hi Hp Hf. pose proof (at_range _ _ _ (so_len _ (iv_sched _ Hi)) Hp) as Hr.
  destruct (make_current_steps s i p regs (iv_sched _ Hi) Hp) as [[Hc He]|[Hc [He|He]]]; eapply wp_ok; try exact He; [|by split|].
  - split; [|unfold put; by destruct (at_ s i)]. set (s' := with_env _ _).
    assert (forall j, at_ s' j = at_ (put s i (set_state PROC_RUNNING)) j) as Hat by done.
    eapply (inv_keeps_blocks s); [done| | | | |].
    + intros j. rewrite Hat, at_put. case_decide as Hj.
      * exists (set_state PROC_RUNNING). split; [done|]. intros q Hq. subst j. rewrite Hp in Hq. injection Hq as <-.
        split_and!; try done. intros _ Hun. unfold free_slot in Hf. by rewrite bool_decide_true in Hf.
      * exists id. split; [by destruct (at_ s j)|]. intros q _. by split_and!.
    + destruct (iv_sched _ Hi) as [Hl Hx Hrg Hrun]. split; [simpl; by rewrite put_len|done|simpl; lia|].
      intros j q. rewrite Hat, at_put. simpl.
      case_decide; [done|]. intros Hq Hst. by rewrite (Hrun j q Hq Hst).
    + unfold s', put. by destruct (at_ s i).
    + simpl. apply loaded_quiet, Hi.
    + simpl. apply loaded_quiet, Hi.
  - destruct (switched_current s i (negb (regs =? 0)) regs) as [Hc' Hx']. split; [|apply switched_next].
    eapply (inv_switched s _ i p (negb (regs =? 0)) regs); try done; [apply switched_next|by right].
Qed.

(** ** Replacing the program of a process *)

Lemma held_weaken i (s : S) A L e : held i s (A ++ L) e -> held i s L e.
Proof.
  intros [H1 H2 H3 H4 H5]. split; [done|done| | |].
  - intros a n Ha. apply H3. apply elem_of_app. by right.
  - rewrite fmap_app in H4. by apply list.NoDup_app in H4 as (_ & _ & ?).
  - intros a n Ha. apply (H5 a n). apply elem_of_app. by right.
Qed.

(** An image the caller allocated and no process owns yet. *)
Definition spare (s : S) (b n : Z) : Prop :=
  b = 0 \/ ((exists m, env_live (env s) !! b = Some m /\ n <= m) /\ forall j q k, at_ s j = Some q -> (b, k) ∉ blocks q).
Lemma held_spare i p (s : S) b n : own_ok s -> env_ok (env s) -> at_ s i = Some p -> spare s b n ->
  held i s (blk b n ++ blocks p) (env s).
Proof.
  intros Ho He Hp Hs. pose proof (held_start i p s Ho He Hp) as Hh. unfold blk. destruct (Z.eqb_spec b 0) as [|Hb]; [done|].
  destruct Hs as [?|[(m & Hm & Hn) Hno]]; [done|]. destruct Hh as [H1 H2 H3 H4 H5]. split; [done|done| | |]; simpl.
  - intros a k [[= -> ->]|Ha]%elem_of_cons; eauto.
  - apply list.NoDup_cons. split; [|done]. intros ([a k] & -> & Ha)%list_elem_of_fmap. by apply (Hno i p k).
  - intros a k [[= -> ->]|Ha]%elem_of_cons; [|by eapply H5]. intros (j & q & k' & _ & Hq & Hk). by apply (Hno j q k').
Qed.

(** The outcome of proc_exec on entry i. *)
Definition execed (s : S) (i : Z) (old : process) ent ib isz il argv (r : bool) (s' : S) : Prop :=
  stable s s' /\ current_proc s' = current_proc s /\ (forall j, j <> i -> at_ s' j = at_ s j) /\
  if r then exists p, at_ s' i = Some p /\ entry p = ent /\ image_base p = ib /\ image_size p = isz /\ image_load_base p = il /\
              context_esp p = frame_of p /\ pid p = pid old /\ state p = state old /\
              user_start p (env s') ent (default [] argv)
  else at_ s' i = Some old.

Lemma exec_finish s i old p e :
  inv s -> at_ s i = Some old -> held i s (blocks p) e -> pid p = pid old -> state p = state old ->
  kstack_base p = kstack_base old -> kstack_size p = kstack_size old -> (stack_size p = 0 \/ stack_size p = PROC_STACK_SIZE) ->
  stable s (upto i p e s) /\ current_proc (upto i p e s) = current_proc s /\ (forall j, j <> i -> at_ (upto i p e s) j = at_ s j) /\
  at_ (upto i p e s) i = Some p.
Proof.
  intros Hi Hold Hh Hpid Hst Hkb Hks Hss. pose proof (iv_entry _ Hi _ _ Hold) as [E1 E2 E3 E4 _]. split_and!.
  - split; [|done]. apply (inv_entry s i old); try done.
    + split; rewrite ?Hpid, ?Hst, ?Hkb, ?Hks; try done. unfold free_slot in *. by rewrite Hst.
    + intros j q Hj Hq Heq. destruct (decide (pid p = 0)); [done|]. destruct Hj.
      apply (iv_uniq _ Hi j i q old Hq Hold); congruence.
    + rewrite Hst. intros Hr. by apply (so_run _ (iv_sched _ Hi) i old).
  - done.
  - intros j Hj. by rewrite (at_upto _ _ _ _ _ _ Hold), decide_False.
  - by rewrite (at_upto _ _ _ _ _ _ Hold), decide_True.
Qed.

Lemma user_start_keeps i (s : S) p L e e' ent args :
  frame_ready p L -> held i s L e -> user_start p e ent args -> keeps L e e' -> user_start p e' ent args.
Proof.
  intros [Hs Hk Hne Hks Hb Hz] Hh [(sp & Hul & Hf)] Hkeep. split. exists sp.
  pose proof (frame_in i s p L e Hk Hks Hh) as Hfr. split.
  - eapply (user_layout_keeps p L) with (e := e); try done; rewrite ?Hb, ?Hz; done.
  - apply (frame_at_same e e'); [done|]. intros x Hx. simpl in Hx. apply (Hkeep (kstack_base p) (kstack_size p)); [done|lia].
Qed.

Lemma wp_exec F s i old ent ib isz il argv :
  inv s -> at_ s i = Some old -> is_kernel old = false -> free_slot old = false -> is_u32 ent -> args_ok argv -> spare s ib isz ->
  wp F (proc_exec i ent ib isz il argv) (execed s i old ent ib isz il argv) s.
Proof.
  intros Hi Hold Hker Hlive Hent [Hsh Hargc] Hsp. pose proof (iv_own _ Hi) as Ho.
  pose proof (iv_entry _ Hi _ _ Hold) as [_ _ Hks Hkb Hss]. specialize (Hkb Hlive). specialize (Hks Hkb).
  pose proof (held_spare i old s ib isz Ho (iv_env _ Hi) Hold Hsp) as Hh.
  assert (forall p e, held i s (blk ib isz ++ blocks old) e -> p = old ->
    execed s i old ent ib isz il argv false (upto i p e s)) as Hfail.
  { intros p e Hp ->. apply held_weaken in Hp. destruct (exec_finish s i old old e) as (? & ? & ? & ?); try done. }
  enough (wp F (proc_exec i ent ib isz il argv) (execed s i old ent ib isz il argv) (upto i old (env s) s)) as Hw
    by (by rewrite (upto_self i old s Hold) in Hw).
  unfold proc_exec. rewrite (entry_not_null i s old Hold). apply wp_bind, (wp_getp i s old Hold). rewrite Hker.
  apply wp_bind, (wp_updp i s old Hold). apply wp_bind, (wp_irq_save i s F _ _ _ _ Hh). intros fl e1 H1.
  apply wp_bind, (wp_ask i s). apply wp_bind, (wp_set_dir i s F _ _ _ _ _ H1). intros e2 H2.
  apply wp_bind, (wp_init_user_stack i s old Hold Ho F _ _ _ _ H2); [done|done| |]; simpl.
  { intros e3 H3. apply wp_bind, (wp_set_dir i s F _ _ _ _ _ H3). intros e4 H4.
    apply wp_bind, (wp_irq_restore i s F _ _ _ _ _ H4). intros e5 H5. apply wp_bind, (wp_updp i s old Hold), wp_ret.
    apply Hfail; [done|]. by destruct old. }
  intros k e3 Hk H3. apply wp_bind, (wp_updp i s old Hold). apply wp_bind, (wp_updp i s old Hold). simpl.
  set (p1 := set_image _ _ _ _).
  assert (frame_ready p1 ((k, PROC_STACK_SIZE) :: blk ib isz ++ blocks old)) as Hfr.
  { assert ((kstack_base old, kstack_size old) ∈ blk ib isz ++ blocks old) as Hin.
    { apply elem_of_app. right. unfold blocks. rewrite (blk_nz (kstack_base old)) by done. set_solver. }
    split; simpl; try done; [by left|by right| |by rewrite Hks]. intros Heq. pose proof (he_nodup _ _ _ _ H3) as Hnd.
    simpl in Hnd. apply list.NoDup_cons in Hnd as [Hnd _]. apply Hnd. rewrite <-Heq.
    apply list_elem_of_fmap. by exists (kstack_base old, kstack_size old). }
  apply wp_bind, (wp_build_initial_frame i s old Hold Ho F p1 _ e3 ent argv _ Hfr); try done.
  { intros e4 H4 _. simpl. apply wp_bind, (wp_set_dir i s F _ _ _ _ _ H4). intros e5 H5.
    apply wp_bind, (wp_irq_restore i s F _ _ _ _ _ H5). intros e6 H6. apply wp_bind, (wp_getp i s old Hold). simpl.
    apply wp_bind, (wp_kfree i s F _ _ _ _ _ _ H6). intros e7 H7.
    apply wp_bind, (wp_updp i s old Hold). apply wp_bind, (wp_updp i s old Hold). apply wp_bind, (wp_updp i s old Hold), wp_ret.
    apply Hfail; [done|]. by destruct old. }
  intros e4 H4 Hus. simpl. apply wp_bind, (wp_set_dir_keep i s F _ _ _ _ _ H4). intros e5 H5 M5.
  apply wp_bind, (wp_irq_restore_keep i s F _ _ _ _ _ H5). intros e6 H6 M6.
  set (p2 := set_context_esp _ _).
  assert (blk (stack_kern_base old) (stack_size old) ++ blk (image_base old) (image_size old) ++ blocks p2 ≡ₚ
    (k, PROC_STACK_SIZE) :: blk ib isz ++ blocks old) as Hperm.
  { unfold blocks. simpl. rewrite Hker, (blk_nz k) by done. simpl. solve_Permutation. }
  apply (held_perm _ _ _ _ _ (symmetry Hperm)) in H6.
  apply wp_bind, (wp_kfree_if_keep i s F _ _ _ _ _ _ H6). intros e7 H7 K7.
  apply wp_bind, (wp_kfree_if_keep i s F _ _ _ _ _ _ H7). intros e8 H8 K8. apply wp_ret.
  destruct (exec_finish s i old p2 e8) as (X1 & X2 & X3 & X4); try done; try (by right).
  split_and!; [exact X1|done|done|]. exists p2. split_and!; try done.
  assert (user_start p2 e6 ent (default [] argv)) as Hus6.
  { eapply user_start_ext; [exact Hus|done|]. intros x. by rewrite M6, M5. }
  assert (frame_ready p2 (blocks p2)) as Hfr2.
  { unfold blocks. simpl. rewrite (blk_nz k), (blk_nz (kstack_base old)) by done. destruct Hfr as [_ _ Q3 Q4 Q5 Q6].
    split; simpl; try done; set_solver. }
  apply (user_start_keeps i s p2 (blocks p2) e6); [done|by do 2 apply held_weaken in H6|done|].
  intros b n x Hb Hx. change (env (upto i p2 e8 s)) with e8. rewrite (K8 b n x Hb Hx). apply (K7 b n x); [|done]. apply elem_of_app. by right.
Qed.
End Invariant.
End ProcInv.
