(* ===== verification/ProcReach.v ===== *)
(** * proc_fork and the reachable states of the process table (kernel/proc/proc.c)

    proc_fork keeps the invariant, and with it every operation of proc.c: whatever sequence of
    operations the kernel makes from proc_init on, the table stays well formed. *)
From S2P Require Import Prelude Proc ProcEnv ProcSched ProcKill ProcOwn ProcInv.

Module ProcReach.
Import Proc ProcEnv ProcSched ProcKill ProcOwn ProcInv.

Section Fork.
Context {E : Type} {PE : ProcEnv E} {PO : ProcEnvOk E}.
Notation S := (procs E).

Section Entry.
Context (i : Z) (s : S) (p0 : process) (Hat : at_ s i = Some p0) (Ho : own_ok s).
Notation st p e := (upto i p e s).
Notation held := (held i s).

Lemma wp_getp_other F c q p e Q : at_ s c = Some q -> c <> i -> Q q (st p e) -> wp F (getp c) Q (st p e).
Proof.
  intros Hc Hne HQ. eapply wp_ok; [apply getp_ok|exact HQ]. by rewrite (at_upto _ _ _ _ _ _ Hat), decide_False by congruence.
Qed.
Lemma wp_read32 p e a Q : (forall v, Q v (st p e)) -> wp True (call (env_read32 a)) Q (st p e).
Proof.
  intros HQ. unfold wp, call. simpl. destruct (read32_quiet e a) as [-> | [v ->]]; [done|]. apply HQ.
Qed.
Lemma wp_read8 p e a Q : (forall v, Q v (st p e)) -> wp True (call (env_read8 a)) Q (st p e).
Proof.
  intros HQ. unfold wp, call. simpl. destruct (read8_quiet e a) as [-> | [v ->]]; [done|]. apply HQ.
Qed.

(** memcpy into a block that is held. *)
Lemma wp_copy_bytes L p b n cnt : forall dst src e Q,
  held L e -> (b, n) ∈ L -> b <= dst -> dst + Z.of_nat cnt <= b + n ->
  (forall e', held L e' -> Q tt (st p e')) -> wp True (copy_bytes cnt dst src) Q (st p e).
Proof.
  induction cnt as [|cnt IH]; intros dst src e Q Hh Hb H1 H2 HQ; simpl; [by apply wp_ret, HQ|].
  apply wp_bind, wp_read8. intros v. apply wp_bind, (wp_write8 i s True L p e b n dst v); [done|done|lia|].
  intros e1 Hh1 _. destruct (he_live _ _ _ _ Hh1 _ _ Hb) as (m & Hm & ?). pose proof (live_range _ _ _ (he_ok _ _ _ _ Hh1) Hm).
  destruct cnt as [|cnt']; [by apply wp_ret, HQ|].
  rewrite (u32_small (dst + 1)) by (unfold is_u32; lia). apply IH; [done|done|lia|lia|done].
Qed.

(** The walk along the saved frame pointers stays inside the child's stack. *)
Lemma wp_fixup_loop L p n parent_base parent_end : forall ebp e Q,
  held L e -> USER_STACK_TOP - PROC_STACK_SIZE <= ebp < USER_STACK_TOP ->
  (forall e', held L e' -> Q tt (st p e')) ->
  wp True (fixup_loop n (USER_STACK_TOP - PROC_STACK_SIZE) parent_base USER_STACK_TOP parent_end ebp) Q (st p e).
Proof.
  induction n as [|n IH]; intros ebp e Q Hh Hr HQ; simpl; [by apply wp_ret, HQ|].
  apply wp_if; intros _; [by apply wp_ret, HQ|]. apply wp_bind, wp_read32. intros saved.
  apply wp_if; intros _; [by apply wp_ret, HQ|]. set (ns := u32 _).
  apply wp_if; intros Hns; [by apply wp_ret, HQ|]. apply orb_false_iff in Hns as [Hn1%Z.ltb_ge Hn2%Z.leb_gt].
  apply wp_bind. unfold wp at 1, call. simpl.
  destruct (user_write_law e ebp ns (he_ok _ _ _ _ Hh) Hr) as [-> | (e' & -> & He' & Hl')]; [done|].
  assert (held L e') as Hh' by (by eapply held_quiet). change (with_env e' (upto i p e s)) with (st p e').
  apply wp_if; intros _; [by apply wp_ret, HQ|]. by apply IH.
Qed.
Lemma wp_fixup L p parent_base ebp e Q :
  held L e -> (forall e', held L e' -> Q tt (st p e')) ->
  wp True (fixup_forked_stack_frames (USER_STACK_TOP - PROC_STACK_SIZE) parent_base PROC_STACK_SIZE ebp) Q (st p e).
Proof.
  intros Hh HQ. unfold fixup_forked_stack_frames. apply wp_if; intros _; [by apply wp_ret, HQ|].
  change (u32 (USER_STACK_TOP - PROC_STACK_SIZE + PROC_STACK_SIZE)) with USER_STACK_TOP.
  apply wp_if; intros _; [by apply wp_ret, HQ|]. apply wp_if; intros Hr; [by apply wp_ret, HQ|].
  apply orb_false_iff in Hr as [H1%Z.ltb_ge H2%Z.leb_gt]. apply (wp_fixup_loop L); [done|lia|done].
Qed.

Lemma wp_fork_relocate L p c par regs e Q :
  held L e -> at_ s c = Some par -> c <> i -> (kstack_base p, kstack_size p) ∈ L -> 64 <= kstack_size p ->
  stack_base p = USER_STACK_TOP - PROC_STACK_SIZE -> stack_size p = PROC_STACK_SIZE ->
  (forall e', held L e' -> Q tt (st p e')) -> wp True (fork_relocate i c (frame_of p) regs) Q (st p e).
Proof.
  intros Hh Hc Hne Hk Hks Hsb Hsz HQ. pose proof (frame_in i s p L e Hk Hks Hh) as Hfr. unfold fork_relocate.
  apply wp_bind, (wp_getp i s p0 Hat). apply wp_bind, (wp_getp_other _ c par); [done|done|].
  apply wp_bind, wp_read32. intros esp. apply wp_bind.
  assert (forall e1, held L e1 -> wp True (ebp <- call (env_read32 (regs + OFF_EBP));;
    if (stack_base par <=? u32 (stack_base par + stack_size par)) && (stack_base par <=? ebp) && (ebp <? u32 (stack_base par + stack_size par)) then
      call (env_write32 (frame_of p + OFF_EBP) (u32 (stack_base p + u32 (ebp - stack_base par))));;;
      fixup_forked_stack_frames (stack_base p) (stack_base par) (stack_size p) (u32 (stack_base p + u32 (ebp - stack_base par)))
    else ret tt) Q (st p e1)) as Htail.
  { intros e1 H1. apply wp_bind, wp_read32. intros ebp. apply wp_if; intros _; [|by apply wp_ret, HQ].
    apply wp_bind, (wp_write32 i s True L p e1 (kstack_base p) (kstack_size p)); [done|done|unfold OFF_EBP; lia|unfold OFF_EBP; lia|].
    intros e2 H2 _. rewrite Hsb, Hsz. by apply (wp_fixup L). }
  apply wp_if; intros _; [|apply wp_ret; by apply Htail].
  apply (wp_write32 i s True L p e (kstack_base p) (kstack_size p)); [done|done|unfold OFF_ESP; lia|unfold OFF_ESP; lia|].
  intros e1 H1 _. by apply Htail.
Qed.
End Entry.

(** What proc_fork gives: NULL, or a READY child with a pid of its own that knows its parent. *)
Definition forked (s : S) (par : process) (i : Z) (s' : S) : Prop :=
  inv s' /\ live_kept s s' /\
  (i = NULLP \/ exists p p0, at_ s i = Some p0 /\ free_slot p0 = true /\ at_ s' i = Some p /\ pid p = next_pid s /\
     state p = PROC_READY /\ is_kernel p = false /\ vfork_parent_pid p = pid par /\ entry p = entry par /\
     context_esp p = frame_of p /\ kstack_base p <> 0).

Lemma fork_failed s par i p0 p e :
  inv s -> at_ s i = Some p0 -> free_slot p0 = true -> held i s (blocks p) e -> pid p = next_pid s -> state p = PROC_UNUSED ->
  (kstack_base p <> 0 -> kstack_size p = PROC_KSTACK_SIZE) -> (stack_size p = 0 \/ stack_size p = PROC_STACK_SIZE) ->
  forked s par NULLP (upto i p e (with_next_pid (next_pid s + 1) s)).
Proof.
  intros Hi Hp0 Hf Hh Hpid Hst Hks Hss. split_and!.
  - eapply inv_fresh; try done; rewrite ?Hst; [|done]. unfold free_slot. by rewrite Hst.
  - by eapply live_kept_upto.
  - by left.
Qed.

Lemma wp_fork_publish s i p0 c par p e :
  inv s -> at_ s i = Some p0 -> free_slot p0 = true -> at_ s c = Some par -> c <> i ->
  held i s (blocks p) e -> pid p = next_pid s -> kstack_base p <> 0 -> kstack_size p = PROC_KSTACK_SIZE ->
  (stack_size p = 0 \/ stack_size p = PROC_STACK_SIZE) -> is_kernel p = false -> vfork_parent_pid p = pid par -> entry p = entry par ->
  wp True (fork_publish i c (frame_of p)) (forked s par) (upto i p e (with_next_pid (next_pid s + 1) s)).
Proof.
  intros Hi Hp0 Hf Hc Hne Hh Hpid Hk Hks Hss Hker Hvp Hent. set (s1 := with_next_pid _ s).
  assert (at_ s1 i = Some p0) as Hp1 by done. unfold fork_publish.
  apply wp_bind, (wp_updp i s1 p0 Hp1). apply wp_bind, (wp_getp_other i s1 p0 Hp1 _ c par); [done|done|].
  assert (forall nm, forked s par i (upto i (set_state PROC_READY (named nm (set_context_esp (frame_of p) p))) e s1)) as Hend.
  { intros nm. split_and!.
    - eapply inv_fresh; try done; destruct nm; done.
    - by eapply live_kept_upto.
    - right. eexists _, p0. split_and!; [done|done|by apply entry_at with (p0 := p0)|..]; by destruct nm. }
  apply wp_bind. destruct (name par) as [|x nm].
  - apply wp_ret, wp_bind, (wp_updp i s1 p0 Hp1), wp_ret. apply (Hend None).
  - apply (wp_updp i s1 p0 Hp1), wp_bind, (wp_updp i s1 p0 Hp1), wp_ret. apply (Hend (Some (x :: nm))).
Qed.

Lemma wp_fork_undo s par i p0 p e prev fl :
  inv s -> at_ s i = Some p0 -> free_slot p0 = true -> pid p = next_pid s -> stack_kern_base p = 0 -> is_kernel p = false ->
  (stack_size p = 0 \/ stack_size p = PROC_STACK_SIZE) ->
  held i s (blk (image_base p) (image_size p) ++ blk (kstack_base p) (kstack_size p) ++ blk (page_dir p) PAGE_SIZE) e ->
  wp True (fork_undo i prev fl) (forked s par) (upto i p e (with_next_pid (next_pid s + 1) s)).
Proof.
  intros Hi Hp0 Hf Hpid Hsk Hker Hss Hh. set (s1 := with_next_pid _ s). assert (at_ s1 i = Some p0) as Hp1 by done.
  apply (held_ext i s s1) in Hh; [|done|done]. unfold fork_undo.
  apply wp_bind, (wp_set_dir i s1 True _ _ _ _ _ Hh). intros e1 H1. apply wp_bind, (wp_irq_restore i s1 True _ _ _ _ _ H1). intros e2 H2.
  apply wp_bind, (wp_getp i s1 p0 Hp1). apply wp_bind, (wp_kfree_blk i s1 True _ _ _ _ _ _ H2). intros e3 H3.
  apply wp_bind, (wp_kfree_blk i s1 True _ _ _ _ _ _ H3). intros e4 H4. rewrite <-(app_nil_r (blk (page_dir p) _)) in H4.
  apply wp_bind, (wp_kfree_blk i s1 True _ _ _ _ _ _ H4). intros e5 H5.
  do 4 apply wp_bind, (wp_updp i s1 p0 Hp1). apply wp_ret. apply (fork_failed s par i p0); try done.
  unfold blocks. simpl. rewrite Hsk, Hker. apply (held_ext i s1); done.
Qed.

(** The child under construction: what is known of its entry p when its image is im. *)
Record embryo (s : S) (par : process) (p : process) (im : Z) : Prop := {
  em_pid : pid p = next_pid s;
  em_kernel : is_kernel p = false;
  em_parent : vfork_parent_pid p = pid par;
  em_entry : entry p = entry par;
  em_kstack : kstack_base p <> 0 /\ kstack_size p = PROC_KSTACK_SIZE;
  em_dir : page_dir p <> 0;
  em_image : image_base p = im;
  em_stack : stack_kern_base p = 0 /\ stack_size p = PROC_STACK_SIZE
}.
Definition embryo_blocks (p : process) (im : Z) : list (Z * Z) :=
  blk im (image_size p) ++ [(kstack_base p, PROC_KSTACK_SIZE); (page_dir p, PAGE_SIZE)].

Section Embryo.
Context (s : S) (i : Z) (p0 : process) (c : Z) (par : process) (regs : Z).
Context (Hi : inv s) (Hp0 : at_ s i = Some p0) (Hf : free_slot p0 = true) (Hc : at_ s c = Some par) (Hne : c <> i).
Notation s1 := (with_next_pid (next_pid s + 1) s).

Lemma own1 : own_ok s1.
Proof. apply (own_ok_ext s); try done. apply Hi. Qed.
Lemma held_back L e : held i s1 L e -> held i s L e.
Proof. by apply held_ext. Qed.

Lemma embryo_undo p im e prev fl : embryo s par p im -> held i s1 (embryo_blocks p im) e ->
  wp True (fork_undo i prev fl) (forked s par) (upto i p e s1).
Proof.
  intros [E1 E2 E3 E4 [E5 E6] E7 E8 [E9 E10]] Hh. apply (wp_fork_undo s par i p0); try done; [by right|].
  apply held_back. rewrite E8, E6, (blk_nz (kstack_base p)), (blk_nz (page_dir p)) by done. done.
Qed.

Lemma wp_fork_stack p im e prev fl : embryo s par p im -> held i s1 (embryo_blocks p im) e ->
  wp True (fork_stack i c (frame_of p) regs prev fl) (forked s par) (upto i p e s1).
Proof.
  intros Hem Hh. pose proof Hem as [E1 E2 E3 E4 [E5 E6] E7 E8 [E9 E10]]. unfold fork_stack. apply wp_bind.
  apply (wp_init_user_stack i s1 p0 Hp0 own1 True _ _ _ _ Hh); [by rewrite E10|by rewrite E10| |].
  { intros e1 H1. apply (embryo_undo _ im); [by split|done]. }
  intros k e1 Hk H1. simpl. apply wp_bind, (wp_set_dir i s1 True _ _ _ _ _ H1). intros e2 H2.
  apply wp_bind, (wp_irq_restore i s1 True _ _ _ _ _ H2). intros e3 H3.
  apply wp_bind, (wp_getp i s1 p0 Hp0). apply wp_bind, (wp_getp_other i s1 p0 Hp0 _ c par); [done|done|]. simpl.
  set (L := embryo_blocks p im) in *. rewrite E10 in *. set (q := set_stack _ _ k p).
  apply wp_bind, (wp_copy_bytes i s1 ((k, PROC_STACK_SIZE) :: L) q k PROC_STACK_SIZE); [done|by left|lia|unfold PROC_STACK_SIZE; lia|].
  intros e4 H4. change (frame_of p) with (frame_of q).
  apply wp_bind, (wp_fork_relocate i s1 p0 Hp0 ((k, PROC_STACK_SIZE) :: L) q c par); try done.
  { simpl. rewrite E6. unfold L, embryo_blocks. set_solver. }
  { simpl. rewrite E6. unfold PROC_KSTACK_SIZE. lia. }
  intros e5 H5. apply (wp_fork_publish s i p0 c par); try done; [|by right].
  apply held_back. unfold blocks. simpl. rewrite E2, E6, E8, (blk_nz k), (blk_nz (kstack_base p)), (blk_nz (page_dir p)) by done.
  eapply held_perm; [|exact H5]. unfold L, embryo_blocks. simpl. solve_Permutation.
Qed.

Lemma wp_fork_map p im e : embryo s par p im -> held i s1 (embryo_blocks p im) e ->
  wp True (fork_map i c (frame_of p) regs) (forked s par) (upto i p e s1).
Proof.
  intros Hem Hh. unfold fork_map. apply wp_bind, (wp_irq_save i s1 True _ _ _ _ Hh). intros fl e1 H1.
  apply wp_bind, (wp_ask i s1). apply wp_bind, (wp_getp i s1 p0 Hp0). apply wp_bind, (wp_set_dir i s1 True _ _ _ _ _ H1). intros e2 H2.
  assert (forall (ok : bool) e3, held i s1 (embryo_blocks p im) e3 -> wp True
    (if negb ok then fork_undo i (env_current_dir e1) fl else fork_stack i c (frame_of p) regs (env_current_dir e1) fl)
    (forked s par) (upto i p e3 s1)) as Hrest.
  { intros [] e3 H3; simpl; [by apply (wp_fork_stack p im)|by apply (embryo_undo p im)]. }
  apply wp_bind, wp_if; intros _; [|apply wp_ret; by apply Hrest].
  apply (wp_map_user_pages i s1 True (embryo_blocks p im)); [done|]. intros ok e3 H3. by apply Hrest.
Qed.

Lemma wp_fork_copy p e :
  pid p = next_pid s -> kstack_base p <> 0 -> kstack_size p = PROC_KSTACK_SIZE -> page_dir p <> 0 ->
  stack_size par <> 0 -> is_kernel p = false -> vfork_parent_pid p = pid par -> entry p = entry par -> image_base p = 0 ->
  0 <= image_size p -> held i s1 [(kstack_base p, PROC_KSTACK_SIZE); (page_dir p, PAGE_SIZE)] e ->
  wp True (fork_copy i c (frame_of p) regs) (forked s par) (upto i p e s1).
Proof.
  intros Hpid Hk Hks Hpd Hps Hker Hvp Hent Him Hisz Hh.
  assert (stack_size par = PROC_STACK_SIZE) as Hpss by (destruct (eo_ssize _ _ (iv_entry _ Hi _ _ Hc)); done).
  unfold fork_copy. apply wp_bind, (wp_getp_other i s1 p0 Hp0 _ c par); [done|done|].
  apply wp_bind, (wp_updp i s1 p0 Hp0). apply wp_bind, (wp_getp i s1 p0 Hp0). rewrite Hpss. simpl.
  set (q := set_stack 0 PROC_STACK_SIZE 0 p). change (frame_of p) with (frame_of q).
  apply wp_if; intros _; [|apply (wp_fork_map q 0); [by split|done]].
  apply wp_bind, (wp_kmalloc i s1 own1 True _ _ _ _ _ _ Hh).
  - intros e1 H1. apply wp_bind, (wp_updp i s1 p0 Hp0). simpl. apply wp_bind, (wp_kfree i s1 True _ _ _ _ _ _ H1). intros e2 H2.
    apply wp_bind, (wp_updp i s1 p0 Hp0). apply wp_bind, (wp_kfree i s1 True _ _ _ _ _ _ H2). intros e3 H3.
    do 2 apply wp_bind, (wp_updp i s1 p0 Hp0). apply wp_ret. apply (fork_failed s par i p0); try done; [|by right].
    apply held_back. unfold blocks. simpl. by rewrite Hker.
  - intros im e1 Hi0 H1. apply wp_bind, (wp_updp i s1 p0 Hp0). rewrite (proj2 (Z.eqb_neq _ _) Hi0). simpl.
    set (r := set_image im _ _ _). change (frame_of q) with (frame_of r).
    assert (embryo_blocks r im = (im, image_size p) :: [(kstack_base p, PROC_KSTACK_SIZE); (page_dir p, PAGE_SIZE)]) as HL
      by (unfold embryo_blocks; by rewrite (blk_nz im)).
    rewrite <-HL in H1. apply wp_bind, (wp_copy_bytes i s1 (embryo_blocks r im) r im (image_size p)); [done|rewrite HL; by left|lia|lia|].
    intros e2 H2. apply (wp_fork_map r im); [by split|done].
Qed.
End Embryo.

(** proc_fork from a process in use: the invariant survives, no other process is touched, and a
    child is READY with a fresh pid. *)
Lemma wp_fork s c par regs :
  inv s -> 0 <= next_pid s < 4294967295 -> current_proc s = c -> at_ s c = Some par -> free_slot par = false ->
  0 <= image_size par -> wp True (proc_fork regs) (forked s par) s.
Proof.
  intros Hi Hn Hcur Hc Hlive Hisz. unfold proc_fork. apply wp_bind, wp_gets. rewrite Hcur.
  assert (forked s par NULLP s) as Hnull by (split_and!; [done|by intros ?|by left]).
  destruct ((c =? NULLP) || (regs =? 0)); [by apply wp_ret|]. apply wp_bind. eapply wp_ok; [by apply getp_ok|].
  destruct (is_kernel par); [by apply wp_ret|].
  apply (wp_new_slot True s _ (fun i => _) false); [done|done|done|]. intros i p0 e Hp0 Hf Hh.
  assert (c <> i) as Hne by (intros ->; congruence). set (s1 := with_next_pid _ s).
  assert (own_ok s1) as Ho1 by by apply own1. apply (held_ext i s s1) in Hh; [|done|done].
  apply wp_bind, (wp_getp_other i s1 p0 Hp0 _ c par); [done|done|].
  do 2 apply wp_bind, (wp_updp i s1 p0 Hp0).
  apply wp_bind, (wp_user_dir i s1 Ho1 True []); [done| |].
  { intros d e1 Hd H1. apply wp_bind, (wp_updp i s1 p0 Hp0). rewrite Hd, Z.eqb_refl. apply wp_bind, (wp_updp i s1 p0 Hp0), wp_ret.
    apply (fork_failed s par i p0); try done; [|by left]. by apply (held_back s i). }
  intros d e1 Hd H1. apply wp_bind, (wp_updp i s1 p0 Hp0). rewrite (proj2 (Z.eqb_neq _ _) Hd).
  apply wp_bind, (wp_updp i s1 p0 Hp0). apply wp_bind, (wp_kmalloc i s1 Ho1 True _ _ _ _ _ _ H1).
  { intros e2 H2. do 2 apply wp_bind, (wp_updp i s1 p0 Hp0). apply wp_ret.
    apply (fork_failed s par i p0); try done; [|by left]. apply (held_back s i). unfold blocks. simpl. by rewrite (blk_nz (fst d)). }
  intros k e2 Hk H2. apply wp_bind, (wp_updp i s1 p0 Hp0). rewrite (proj2 (Z.eqb_neq _ _) Hk).
  apply wp_bind, (wp_getp i s1 p0 Hp0). set (p := set_kstack k _ _).
  assert (frame_of p = k + PROC_KSTACK_SIZE - 64) as Hfr by (eapply (frame_in i s1 p); [by left|done|exact H2]).
  apply wp_bind, (wp_copy_bytes i s1 _ p k PROC_KSTACK_SIZE _ _ _ _ _ H2); [by left|rewrite Hfr; unfold PROC_KSTACK_SIZE; lia|lia|].
  intros e3 H3. apply wp_bind, (wp_write32 i s1 True _ p e3 k PROC_KSTACK_SIZE _ _ _ H3);
    [by left|rewrite Hfr; unfold PROC_KSTACK_SIZE, OFF_EAX; lia|rewrite Hfr; unfold OFF_EAX; lia|].
  intros e4 H4 _. apply wp_bind, (wp_updp i s1 p0 Hp0). change (frame_of p) with (frame_of (set_stack 0 0 0 p)).
  destruct (negb (stack_base par =? 0) && negb (stack_size par =? 0)) eqn:Hst.
  - apply andb_true_iff in Hst as [_ Hss%negb_true_iff%Z.eqb_neq]. by apply (wp_fork_copy s i p0 c par).
  - apply (wp_fork_publish s i p0 c par); try done; [|by left]. apply (held_back s i). unfold blocks. simpl.
    by rewrite (blk_nz k), (blk_nz (fst d)).
Qed.

(** ** The remaining operations *)

(** Any change of entry i that keeps its pid and its kernel stack, with the blocks it then has held. *)
Lemma inv_update s i p0 p e :
  inv s -> at_ s i = Some p0 -> held i s (blocks p) e -> pid p = pid p0 -> kstack_base p = kstack_base p0 ->
  kstack_size p = kstack_size p0 -> stack_size p = stack_size p0 -> (state p <> PROC_UNUSED -> state p0 <> PROC_UNUSED) ->
  (free_slot p = false -> free_slot p0 = false) -> (state p = PROC_RUNNING -> i = current_proc s) -> inv (upto i p e s).
Proof.
  intros Hi Hp0 Hh Hpid Hkb Hks Hss Hst Hfr Hrun. pose proof (iv_entry _ Hi _ _ Hp0) as [E1 E2 E3 E4 E5].
  apply (inv_entry s i p0); try done.
  - split; rewrite ?Hpid, ?Hkb, ?Hks, ?Hss; auto.
  - intros j q Hj Hq Heq. destruct (decide (pid p = 0)); [done|]. destruct Hj. apply (iv_uniq _ Hi j i q p0 Hq Hp0); congruence.
Qed.
Lemma put_upto (s : S) i p f : at_ s i = Some p -> put s i f = upto i (f p) (env s) s.
Proof. intros Hp. unfold put, upto. rewrite Hp. by destruct s. Qed.

Lemma inv_cleanup s i p : inv s -> at_ s i = Some p -> wp False (proc_cleanup_process i) (fun _ => stable s) s.
Proof.
  intros Hi Hp. pose proof (iv_next _ Hi).
  enough (wp False (proc_cleanup_process i) (fun _ => stable s) (upto i p (env s) s)) as Hw by (by rewrite (upto_self i p s Hp) in Hw).
  apply (wp_cleanup i s p Hp (iv_own _ Hi)); [apply held_start; [apply Hi|apply Hi|done]|]. intros e Hh. split; [|done].
  apply (inv_entry s i p); try done. by apply zero_entry_ok.
Qed.

(** proc_build_user_frame of a process that proc_create_pending made. *)
Lemma inv_build_frame s i p ent argv :
  inv s -> at_ s i = Some p -> is_kernel p = false -> frame_ready p (blocks p) -> is_u32 ent -> args_ok argv ->
  wp False (proc_build_user_frame i ent argv) (fun r s' => stable s s' /\
    (r = true -> exists q, at_ s' i = Some q /\ entry q = ent /\ context_esp q = frame_of q /\ user_start q (env s') ent (default [] argv))) s.
Proof.
  intros Hi Hp Hker Hfr Hent [Hsh Hargc]. set (Q := fun (r : bool) s' => _).
  enough (wp False (proc_build_user_frame i ent argv) Q (upto i p (env s) s)) as Hw by (by rewrite (upto_self i p s Hp) in Hw).
  unfold proc_build_user_frame. rewrite (entry_not_null i s p Hp). apply wp_bind, (wp_getp i s p Hp). rewrite Hker.
  apply wp_bind, (wp_updp i s p Hp). set (q := set_entry ent p).
  assert (held i s (blocks p) (env s)) as Hh by (apply held_start; [apply Hi|apply Hi|done]).
  assert (forall v e, held i s (blocks p) e -> stable s (upto i (if v : bool then set_context_esp (frame_of q) q else q) e s)) as Hst.
  { intros v e He. split; [|done]. pose proof (so_run _ (iv_sched _ Hi) i p Hp). apply (inv_update s i p); try done; by destruct v. }
  apply (wp_build_initial_frame i s p Hp (iv_own _ Hi) False q (blocks p)); try done; [by destruct Hfr| |].
  - intros e He _. split; [by apply (Hst false)|done].
  - intros e He Hus. split; [by apply (Hst true)|]. intros _. exists (set_context_esp (frame_of q) q).
    split_and!; [by apply entry_at with (p0 := p)|done|done|]. by eapply user_start_ext.
Qed.

(** ** The kernel as a transition system *)

Inductive pstep : S -> S -> Prop :=
| step_create s nm ent argv mc bf r s' :
    next_pid s < 4294967295 -> is_u32 ent -> args_ok argv ->
    proc_create_common nm ent argv mc bf s = Ok (r, s') -> pstep s s'
| step_create_kernel s nm ent mc r s' :
    next_pid s < 4294967295 -> is_u32 ent -> proc_create_kernel_common nm ent mc s = Ok (r, s') -> pstep s s'
| step_build s i p ent argv r s' :
    at_ s i = Some p -> is_kernel p = false -> frame_ready p (blocks p) -> is_u32 ent -> args_ok argv ->
    proc_build_user_frame i ent argv s = Ok (r, s') -> pstep s s'
| step_fork s par regs r s' :
    next_pid s < 4294967295 -> at_ s (current_proc s) = Some par -> free_slot par = false -> 0 <= image_size par ->
    proc_fork regs s = Ok (r, s') -> pstep s s'
| step_exec s i p ent ib isz il argv r s' :
    at_ s i = Some p -> is_kernel p = false -> free_slot p = false -> is_u32 ent -> args_ok argv -> spare s ib isz ->
    proc_exec i ent ib isz il argv s = Ok (r, s') -> pstep s s'
| step_exit s code s' :
    (forall p, at_ s (current_proc s) = Some p -> state p <> PROC_UNUSED) -> proc_exit code s = Ok (tt, s') -> pstep s s'
| step_kill s target force r s' :
    (forall p, at_ s (current_proc s) = Some p -> state p <> PROC_UNUSED) -> proc_kill target force s = Ok (r, s') -> pstep s s'
| step_cleanup s i p s' : at_ s i = Some p -> proc_cleanup_process i s = Ok (tt, s') -> pstep s s'
| step_reap s esp s' : proc_reap_background esp s = Ok (tt, s') -> pstep s s'
| step_schedule s esp regs save r s' : proc_schedule esp regs save s = Ok (r, s') -> pstep s s'
| step_take_next s r s' : proc_take_next s = Ok (r, s') -> pstep s s'
| step_make_current s i p regs r s' :
    at_ s i = Some p -> free_slot p = false -> proc_make_current i regs s = Ok (r, s') -> pstep s s'
| step_wake s i p s' : at_ s i = Some p -> proc_wake_vfork_parent i s = Ok (tt, s') -> pstep s s'
(** the fork system call blocks the parent once the child is current (kernel/syscall.c) *)
| step_block s i p : at_ s i = Some p -> free_slot p = false -> pstep s (put s i (set_state PROC_BLOCKED))
(** the loader hands an image over to a process that has none (kernel/bin.c) *)
| step_attach s i p b n l :
    at_ s i = Some p -> image_base p = 0 -> spare s b n -> pstep s (put s i (set_image b n l)).

Inductive reachable : S -> Prop :=
| reach_init s s' : env_ok (env s) -> proc_init s = Ok (tt, s') -> reachable s'
| reach_step s s' : reachable s -> pstep s s' -> reachable s'.

Lemma inv_init (s : S) : env_ok (env s) -> wp False proc_init (fun _ => inv) s.
Proof.
  intros He. unfold proc_init. apply wp_modify.
  assert (forall i p, at_ (Procs (replicate 16 zero_process) NULLP 1 (-1) false false 0 0 0 0 0 0 (env s)) i = Some p -> p = zero_process) as Hz.
  { intros i p. unfold at_, lget. destruct (i <? 0); [done|]. intros Hp.
    by apply (lookup_replicate 16 zero_process p (Z.to_nat i)) in Hp as [-> _]. }
  split; [split; [done|done|done|]| |done| | |done].
  - intros i p ->%Hz. done.
  - intros i j p q ->%Hz ->%Hz _ Hn. by destruct Hn.
  - intros i p ->%Hz. by apply zero_entry_ok.
  - split; [intros i p a n ->%Hz Ha|intros i p ->%Hz; constructor|intros i p a n ->%Hz Ha]; unfold blocks in Ha; simpl in Ha;
      by apply not_elem_of_nil in Ha.
Qed.

Lemma wake_fields vp q : blocks (wake vp q) = blocks q /\ pid (wake vp q) = pid q /\ kstack_base (wake vp q) = kstack_base q /\
  kstack_size (wake vp q) = kstack_size q /\ stack_size (wake vp q) = stack_size q /\
  (state (wake vp q) <> PROC_UNUSED -> state q <> PROC_UNUSED) /\ (free_slot (wake vp q) = false -> free_slot q = false) /\
  (state (wake vp q) = PROC_RUNNING -> state q = PROC_RUNNING).
Proof.
  unfold wake. destruct (negb _ && _ && _) eqn:Hb; [|by split_and!]. apply andb_true_iff in Hb as [_ Hb%bool_decide_eq_true].
  unfold free_slot. rewrite Hb. by split_and!.
Qed.
Lemma inv_wake s i p : inv s -> at_ s i = Some p -> wp False (proc_wake_vfork_parent i) (fun _ => stable s) s.
Proof.
  intros Hi Hp. destruct (wake_ok s i p (so_len _ (iv_sched _ Hi)) (iv_uniq _ Hi) Hp) as (s' & He & Hto & Hat).
  destruct (table_only_fields _ _ Hto) as (C1 & C2 & C3 & C4 & _). eapply wp_ok; [exact He|]. split; [|done].
  set (vp := vfork_parent_pid p) in *.
  assert (forall j, at_ s' j = (fun q => wake vp (if decide (i = j) then set_vfork_parent 0 q else q)) <$> at_ s j) as Hat2.
  { intros j. rewrite Hat, at_put. case_decide; by destruct (at_ s j). }
  apply (inv_keeps_blocks s); [done| | |done|rewrite C3; apply Hi|by rewrite C3].
  - intros j. exists (fun q => wake vp (if decide (i = j) then set_vfork_parent 0 q else q)). split; [apply Hat2|].
    intros q _. set (q1 := if decide _ then _ else _). destruct (wake_fields vp q1) as (W1 & W2 & W3 & W4 & W5 & W6 & W7 & _).
    rewrite W1, W2, W3, W4, W5. unfold q1 in *. case_decide; by split_and!.
  - destruct (iv_sched _ Hi) as [Hl Hx Hr Hrun]. split; [by rewrite (proj1 Hto)|by rewrite C1, C2|by rewrite C1|].
    intros j q. rewrite Hat2, C1. destruct (at_ s j) as [q0|] eqn:Hq0; [|done]. simpl. intros [= <-] Hst.
    apply wake_fields in Hst. eapply Hrun; [exact Hq0|]. by case_decide.
Qed.

Lemma inv_reap_background s esp : inv s -> wp False (proc_reap_background esp) (fun _ => stable s) s.
Proof.
  intros Hi. unfold proc_reap_background. apply wp_bind. eapply wp_ok; [done|]. apply wp_if; intros _; [by apply wp_ret|].
  apply wp_bind. eapply wp_mono; [by apply wp_reap|]. intros _ s1 (Hi1 & _ & Hn & _). apply wp_modify. split; [|done].
  destruct Hi1 as [Hs Hu Hn1 He Ho Hev]. split; [by apply (sched_ok_ext s1)|exact Hu|exact Hn1|exact He|by apply (own_ok_ext s1)|exact Hev].
Qed.

Lemma inv_block s i p : inv s -> at_ s i = Some p -> free_slot p = false -> inv (put s i (set_state PROC_BLOCKED)).
Proof.
  intros Hi Hp Hf. rewrite (put_upto s i p _ Hp). apply (inv_update s i p); try done.
  - apply (held_start i p); [apply Hi|apply Hi|done].
  - intros _ Hc. unfold free_slot in Hf. by rewrite bool_decide_true in Hf.
Qed.
Lemma inv_attach s i p b n l : inv s -> at_ s i = Some p -> image_base p = 0 -> spare s b n -> inv (put s i (set_image b n l)).
Proof.
  intros Hi Hp Him Hsp. rewrite (put_upto s i p _ Hp). apply (inv_update s i p); try done.
  - pose proof (held_spare i p s b n (iv_own _ Hi) (iv_env _ Hi) Hp Hsp) as Hh. eapply held_perm; [|exact Hh].
    unfold blocks. simpl. rewrite Him. simpl. solve_Permutation.
  - intros Hr. by apply (so_run _ (iv_sched _ Hi) i p).
Qed.

Lemma inv_step s s' : inv s -> pstep s s' -> inv s'.
Proof.
  intros Hi Hst. pose proof (iv_next _ Hi) as Hn.
  destruct Hst as [s nm ent argv mc bf r s' H1 H2 H3 He|s nm ent mc r s' H1 H2 He|s i p ent argv r s' H1 H2 H3 H4 H5 He
    |s par regs r s' H1 H2 H3 H4 He|s i p ent ib isz il argv r s' H1 H2 H3 H4 H5 H6 He|s code s' H1 He|s target force r s' H1 He
    |s i p s' H1 He|s esp s' He|s esp regs save r s' He|s r s' He|s i p regs r s' H1 H2 He|s i p s' H1 He|s i p H1 H2|s i p b n l H1 H2 H3].
  - by apply (wp_inv _ _ _ _ _ _ (wp_create_common False s nm ent argv mc bf Hi ltac:(lia) H2 H3) He).
  - by apply (wp_inv _ _ _ _ _ _ (wp_create_kernel False s nm ent mc Hi ltac:(lia) H2) He).
  - by apply (wp_inv _ _ _ _ _ _ (inv_build_frame s i p ent argv Hi H1 H2 H3 H4 H5) He).
  - by apply (wp_inv _ _ _ _ _ _ (wp_fork s _ par regs Hi ltac:(lia) eq_refl H2 H3 H4) He).
  - by apply (wp_inv _ _ _ _ _ _ (wp_exec False s i p ent ib isz il argv Hi H1 H2 H3 H4 H5 H6) He).
  - by apply (wp_inv _ _ _ _ _ _ (inv_exit False s code Hi H1) He).
  - by apply (wp_inv _ _ _ _ _ _ (inv_kill False s target force Hi H1) He).
  - by apply (wp_inv _ _ _ _ _ _ (inv_cleanup s i p Hi H1) He).
  - by apply (wp_inv _ _ _ _ _ _ (inv_reap_background s esp Hi) He).
  - by apply (wp_inv _ _ _ _ _ _ (inv_schedule False s esp regs save Hi) He).
  - by apply (wp_inv _ _ _ _ _ _ (inv_take_next False s Hi) He).
  - by apply (wp_inv _ _ _ _ _ _ (inv_make_current False s i p regs Hi H1 H2) He).
  - by apply (wp_inv _ _ _ _ _ _ (inv_wake s i p Hi H1) He).
  - by apply (inv_block s i p).
  - by apply (inv_attach s i p).
Qed.
Lemma reachable_inv s : reachable s -> inv s.
Proof.
  induction 1 as [s s' He Hs|s s' _ IH Hs]; [|by eapply inv_step].
  by apply (wp_inv _ _ _ _ _ _ (inv_init s He) Hs).
Qed.

(** ** The properties *)

(** C10: Whatever the kernel does with processes from proc_init on, creating, forking, executing,
    blocking, waking, scheduling, killing and reaping in any order, the table stays well formed:
    at most the current process is RUNNING, no two entries share a pid, every kernel block a process
    refers to (kernel stack, user stack, image, page directory) is allocated and large enough, and no
    two processes, nor two fields of one, share a block; so nothing is ever freed twice. *)
Theorem proc_reachable_wellformed (s : S) :
  reachable s ->
  length (proc_table s) = 16%nat /\
  (forall i p, at_ s i = Some p -> state p = PROC_RUNNING -> i = current_proc s) /\
  (forall i j p q, at_ s i = Some p -> at_ s j = Some q -> pid p = pid q -> pid p <> 0 -> i = j) /\
  (forall i p a n, at_ s i = Some p -> (a, n) ∈ blocks p -> exists m, env_live (env s) !! a = Some m /\ n <= m) /\
  (forall i p, at_ s i = Some p -> NoDup (blocks p).*1) /\
  (forall i j p q a n m, at_ s i = Some p -> at_ s j = Some q -> (a, n) ∈ blocks p -> (a, m) ∈ blocks q -> i = j).
Proof.
  intros [[Hl Hx Hr Hrun] Hu Hn He [H1 H2 H3] Hev]%reachable_inv. split_and!; try done.
  intros i j p q a n m Hp Hq Ha Hb. destruct (decide (i = j)) as [|Hne]; [done|]. destruct (H3 i p a n Hp Ha).
  exists j, q, m. split_and!; [congruence|done|done].
Qed.

(** Creating a user process always returns: either NULL, or an entry that was free, with a pid
    that no process ever had, READY (RUNNING when it becomes the first current process), whose
    initial frame enters the program at its entry point in user mode with the argument layout on
    its stack.  No process in use is touched and the invariant of the table is kept. *)
Theorem proc_create_outcome (s : S) nm ent argv mc bf :
  inv s -> 0 <= next_pid s < 4294967295 -> is_u32 ent -> args_ok argv ->
  exists i s', proc_create_common nm ent argv mc bf s = Ok (i, s') /\ inv s' /\
    (forall j q, at_ s j = Some q -> free_slot q = false -> at_ s' j = Some q) /\
    (i = NULLP \/ exists p, at_ s' i = Some p /\ pid p = next_pid s /\ state p = new_state s mc /\ is_kernel p = false /\
       entry p = ent /\ name p = take 31 (default [] nm) /\
       (bf = true -> context_esp p = frame_of p /\ user_start p (env s') ent (default [] argv))).
Proof.
  intros Hi Hn Hent Hargs. destruct (wp_run _ _ _ (wp_create_common False s nm ent argv mc bf Hi Hn Hent Hargs))
    as (i & s' & He & Hi' & Hlk & Hc). exists i, s'. split_and!; [done|done|done|].
  destruct Hc as [->|(p & p0 & _ & _ & Hp & Hpid & Hst & _ & G1 & G2 & G3 & G4)]; [by left|right].
  exists p. split_and!; try done. by intros ->.
Qed.

(** C12: proc_exec always returns.  On success the process runs the new program: new image, new user
    stack with the arguments, frame at the new entry point, same pid and state, and the old stack
    and image are released; when memory or the stack does not suffice it returns false and the
    entry is exactly as before.  No other process changes. *)
Theorem proc_exec_outcome (s : S) i old ent ib isz il argv :
  inv s -> at_ s i = Some old -> is_kernel old = false -> free_slot old = false -> is_u32 ent -> args_ok argv -> spare s ib isz ->
  exists r s', proc_exec i ent ib isz il argv s = Ok (r, s') /\ inv s' /\ (forall j, j <> i -> at_ s' j = at_ s j) /\
    if r then exists p, at_ s' i = Some p /\ entry p = ent /\ image_base p = ib /\ image_load_base p = il /\
                context_esp p = frame_of p /\ pid p = pid old /\ state p = state old /\ user_start p (env s') ent (default [] argv)
    else at_ s' i = Some old.
Proof.
  intros Hi Hold Hk Hf Hent Hargs Hsp. destruct (wp_run _ _ _ (wp_exec False s i old ent ib isz il argv Hi Hold Hk Hf Hent Hargs Hsp))
    as (r & s' & He & [Hi' _] & _ & Hj & Hc). exists r, s'. split_and!; [done|done|done|].
  destruct r; [|done]. destruct Hc as (p & ? & ? & ? & ? & ? & ? & ? & ? & ?). exists p. by split_and!.
Qed.

(** The kernel stack of the entry is the one that runs: esp lies in it.  (One that ends at the last
    address would not be recognised.) *)
Definition runs_on (p : process) (esp : Z) : Prop :=
  kstack_base p <> 0 /\ kstack_base p <= esp < kstack_base p + kstack_size p /\ kstack_base p + kstack_size p < 4294967296.
Lemma stack_in_use_spec (s : S) j p esp : inv s -> at_ s j = Some p -> proc_stack_in_use p esp = true <-> runs_on p esp.
Proof.
  intros Hi Hp. unfold proc_stack_in_use, runs_on. destruct (Z.eqb_spec (kstack_base p) 0) as [H0|H0]; cbn [orb]; [by split; [|intros [? _]]|].
  pose proof (eo_ksize _ _ (iv_entry _ Hi _ _ Hp) H0) as Hk. rewrite Hk. change (PROC_KSTACK_SIZE =? 0) with false. cbv iota zeta.
  destruct (oo_live _ (iv_own _ Hi) j p (kstack_base p) (kstack_size p) Hp) as (m & Hm & Hle).
  { unfold blocks. rewrite (blk_nz (kstack_base p)) by done. set_solver. }
  pose proof (live_range _ _ _ (iv_env _ Hi) Hm) as (Hb & _ & Hend). rewrite Hk in Hle. unfold PROC_KSTACK_SIZE in *.
  destruct (Z.eq_dec (kstack_base p + 65536) 4294967296) as [Ht|Ht].
  - rewrite Ht. change (u32 4294967296) with 0. rewrite (proj2 (Z.ltb_lt _ _)) by lia. split; [done|lia].
  - rewrite u32_small, (proj2 (Z.ltb_ge _ _)), andb_true_iff, Z.leb_le, Z.ltb_lt by (unfold is_u32; lia). lia.
Qed.
(** C13: proc_reap always returns and takes exactly the EXITED entries that are neither current nor
    own the kernel stack it runs on: those are zeroed and the blocks that they list, the two stacks,
    the image and the page directory, are free again; all other entries are unchanged and the
    invariant of the table is kept.  (The page tables of the address space are not among the blocks
    that an entry lists.) *)
Theorem proc_reap_releases (s : S) esp :
  inv s ->
  exists s', proc_reap esp s = Ok (tt, s') /\ inv s' /\ current_proc s' = current_proc s /\
    forall j p, at_ s j = Some p ->
      (state p = PROC_EXITED -> j <> current_proc s -> ~ runs_on p esp ->
         at_ s' j = Some zero_process /\ forall a n, (a, n) ∈ blocks p -> env_live (env s') !! a = None) /\
      (state p <> PROC_EXITED \/ j = current_proc s \/ runs_on p esp -> at_ s' j = Some p).
Proof.
  intros Hi. destruct (wp_run _ _ _ (wp_reap False s esp Hi)) as ([] & s' & He & Hi' & Hc & _ & _ & _ & Hall).
  exists s'. split_and!; [done|done|done|]. intros j p Hp. specialize (Hall j p Hp).
  pose proof (at_range _ _ _ (so_len _ (iv_sched _ Hi)) Hp). rewrite (proj2 (Z.leb_le _ _)) in Hall by lia. cbn [andb] in Hall.
  pose proof (stack_in_use_spec s j p esp Hi Hp) as Hst. unfold reapable in Hall. split.
  - intros Hex Hne Hrun. rewrite bool_decide_eq_true_2, (proj2 (Z.eqb_neq _ _)) in Hall by done. destruct (proc_stack_in_use p esp); [by destruct Hrun; apply Hst|done].
  - intros Hno. destruct (bool_decide_reflect (state p = PROC_EXITED)); [|done]. destruct (Z.eqb_spec j (current_proc s)); [done|].
    destruct (proc_stack_in_use p esp) eqn:Eu; [done|]. destruct Hno as [?|[?|?%Hst]]; congruence.
Qed.

(** The stack setup_user_stack builds for a process with a 16 KiB stack: it returns 0, only
    when there are arguments, or the stack pointer of the layout main expects: argc, the argv
    word, the vector of user addresses closed by 0, each argument string with its terminator and,
    on top, the code that exits.  No write leaves the stack's block, and the argv word is the
    kernel's address of the vector (the alias of sp + 8), not an address of the user stack. *)
Theorem setup_user_stack_layout (s : S) i p argv :
  inv s -> at_ s i = Some p -> frame_ready p (blocks p) -> args_ok argv ->
  exists sp s', setup_user_stack i argv s = Ok (sp, s') /\ inv s' /\ at_ s' i = Some p /\
    ((sp = 0 /\ default [] argv <> []) \/
     (user_layout p (env s') (default [] argv) sp /\ word_at (env s') (alias p (sp + 4)) = alias p (sp + 8))).
Proof.
  intros Hi Hp Hfr [Hsh Hargc]. set (Q := fun sp s' => inv s' /\ at_ s' i = Some p /\ ((sp = 0 /\ default [] argv <> []) \/
    (user_layout p (env s') (default [] argv) sp /\ word_at (env s') (alias p (sp + 4)) = alias p (sp + 8)))).
  enough (wp False (setup_user_stack i argv) Q s) as Hw.
  { destruct (wp_run _ _ _ Hw) as (sp & s' & He & H1 & H2 & H3). by exists sp, s'. }
  enough (wp False (setup_user_stack i argv) Q (upto i p (env s) s)) as Hw by (by rewrite (upto_self i p s Hp) in Hw).
  assert (forall e, held i s (blocks p) e -> inv (upto i p e s) /\ at_ (upto i p e s) i = Some p) as Hkeep.
  { intros e He. split; [|by apply entry_at with (p0 := p)]. apply (inv_update s i p); try done.
    intros Hr. by apply (so_run _ (iv_sched _ Hi) i p). }
  destruct Hfr as [F1 F2 F3 F4 F5 F6]. unfold USER_STACK_TOP, PROC_STACK_SIZE in *.
  apply (wp_setup_user_stack i s p Hp (iv_own _ Hi) False p (blocks p)); try done; rewrite ?F5, ?F6; try done; try lia.
  - apply held_start; [apply Hi|apply Hi|done].
  - intros e He Hne. destruct (Hkeep e He). split_and!; [done|done|by left].
  - intros e sp He Hul _. destruct (Hkeep e He). split_and!; [done|done|right]. split; [done|]. apply Hul.
Qed.
End Fork.

(** ** A process on the simulated kernel *)

Definition single (st : proc_state) (cur : Z) : procs sim :=
  Procs (Process 1 [] 0x1000 0 0 0 (USER_STACK_TOP - PROC_STACK_SIZE) PROC_STACK_SIZE 0x200000 0x210000 PROC_KSTACK_SIZE 0x21FFC0
           0 0 0x230000 0x230000 st false :: replicate 15 zero_process)
        cur 2 cur false false 0 0 0 0 0 0
        (Sim 0x300000 0x1100000 {[0x200000 := PROC_STACK_SIZE; 0x210000 := PROC_KSTACK_SIZE; 0x230000 := PAGE_SIZE]} ∅ ∅
             (0x230000, 0x230000) [] 0 false true).
Definition the_process (st : proc_state) : process :=
  Process 1 [] 0x1000 0 0 0 (USER_STACK_TOP - PROC_STACK_SIZE) PROC_STACK_SIZE 0x200000 0x210000 PROC_KSTACK_SIZE 0x21FFC0
    0 0 0x230000 0x230000 st false.
Lemma single_at st cur i p : at_ (single st cur) i = Some p -> (i = 0 /\ p = the_process st) \/ (i <> 0 /\ p = zero_process).
Proof.
  unfold at_, lget. destruct (Z.ltb_spec i 0); [done|]. unfold single. simpl proc_table.
  destruct (Z.to_nat i) as [|n] eqn:Hn; intros Hp; [left|right]; (split; [lia|]).
  - by injection Hp as <-.
  - by apply (lookup_replicate 15 zero_process p n) in Hp as [-> _].
Qed.
Lemma single_live st cur a m : sim_live (env (single st cur)) !! a = Some m ->
  (a = 0x200000 /\ m = PROC_STACK_SIZE) \/ (a = 0x210000 /\ m = PROC_KSTACK_SIZE) \/ (a = 0x230000 /\ m = PAGE_SIZE).
Proof.
  change (sim_live (env (single st cur))) with
    ({[0x200000 := PROC_STACK_SIZE; 0x210000 := PROC_KSTACK_SIZE; 0x230000 := PAGE_SIZE]} : gmap Z Z).
  rewrite !lookup_insert_Some, lookup_singleton_Some. naive_solver.
Qed.
Lemma single_inv st cur : st <> PROC_UNUSED -> (st = PROC_RUNNING -> cur = 0) -> -1 <= cur < 16 -> inv (single st cur).
Proof.
  intros Hst Hrun Hc. split.
  - split; [done|done|done|]. intros i p [[-> ->]|[_ ->]]%single_at Hr; [|done]. symmetry. by apply Hrun.
  - intros i j p q [[-> ->]|[Hi ->]]%single_at [[-> ->]|[Hj ->]]%single_at Hpid Hz; done.
  - done.
  - intros i p [[-> ->]|[_ ->]]%single_at; [|by apply zero_entry_ok]. split; simpl; [lia|done|done|done|by right].
  - assert (forall i p a n, at_ (single st cur) i = Some p -> (a, n) ∈ blocks p ->
      i = 0 /\ exists m, sim_live (env (single st cur)) !! a = Some m /\ n <= m) as Hb.
    { intros i p a n [[-> ->]|[_ ->]]%single_at Ha; [|by apply not_elem_of_nil in Ha]. split; [done|]. exists n. split; [|lia].
      change ((a, n) ∈ [(0x200000, PROC_STACK_SIZE); (0x210000, PROC_KSTACK_SIZE); (0x230000, PAGE_SIZE)]) in Ha.
      rewrite !elem_of_cons in Ha. destruct Ha as [[= -> ->]|[[= -> ->]|[[= -> ->]|Ha]]]; [done|done|done|by apply not_elem_of_nil in Ha]. }
    split.
    + intros i p a n Hp Ha. by apply (Hb i p a n).
    + intros i p [[-> ->]|[_ ->]]%single_at; [|constructor].
      change (NoDup [0x200000; 0x210000; 0x230000]). by apply (bool_decide_unpack _).
    + intros i p a n Hp Ha (j & q & m & Hne & Hq & Hm). destruct (Hb i p a n Hp Ha) as [-> _].
      by destruct (Hb j q a m Hq Hm) as [-> _].
  - split; [done|done| |].
    + intros b n [[-> ->]|[[-> ->]|[-> ->]]]%single_live; by vm_compute.
    + intros a n b m [[-> ->]|[[-> ->]|[-> ->]]]%single_live [[-> ->]|[[-> ->]|[-> ->]]]%single_live Hne; try done;
        unfold PROC_STACK_SIZE, PROC_KSTACK_SIZE, PAGE_SIZE; lia.
Qed.
Lemma single_ready st : frame_ready (the_process st) (blocks (the_process st)).
Proof.
  change (blocks (the_process st)) with [(0x200000, PROC_STACK_SIZE); (0x210000, PROC_KSTACK_SIZE); (0x230000, PAGE_SIZE)].
  split; try done; [by left|by right; left].
Qed.
Lemma sample_args_ok : args_ok (Some [[108; 115]; [45; 97]]).
Proof. split; [|done]. by repeat constructor. Qed.

(** The state proc_init makes, and a process created in it. *)
Definition blank : procs sim := Procs [] 0 0 0 false false 0 0 0 0 0 0 sim0.
Definition initial : procs sim := final (proc_init blank) blank.
Lemma initial_reachable : reachable initial.
Proof. apply (reach_init blank); [exact sim0_ok|reflexivity]. Qed.

Lemma proc_reachable_wellformed_witness :
  exists r s', proc_create_common None 0x1000 (Some [[108; 115]; [45; 97]]) true true initial = Ok (r, s') /\
    length (proc_table s') = 16%nat /\ pids_unique s'.
Proof.
  destruct (wp_run _ _ _ (wp_create_common False initial None 0x1000 (Some [[108; 115]; [45; 97]]) true true
    (reachable_inv _ initial_reachable) ltac:(simpl; lia) ltac:(unfold is_u32; lia) sample_args_ok)) as (r & s' & He & _).
  exists r, s'. split; [exact He|].
  destruct (proc_reachable_wellformed s') as (H1 & _ & H3 & _); [|split; [exact H1|exact H3]].
  apply (reach_step initial s' initial_reachable). eapply step_create; [|..|exact He].
  - reflexivity.
  - unfold is_u32. lia.
  - exact sample_args_ok.
Defined.
Lemma proc_create_outcome_witness :
  inv (single PROC_RUNNING 0) /\
  exists i s', proc_create_common (Some [108; 115]) 0x1000 (Some [[108; 115]; [45; 97]]) false true (single PROC_RUNNING 0) = Ok (i, s') /\
    at_ s' 0 = Some (the_process PROC_RUNNING).
Proof.
  assert (inv (single PROC_RUNNING 0)) as Hi by (apply single_inv; [discriminate|reflexivity|lia]). split; [exact Hi|].
  destruct (proc_create_outcome (single PROC_RUNNING 0) (Some [108; 115]) 0x1000 (Some [[108; 115]; [45; 97]]) false true
    Hi ltac:(simpl; lia) ltac:(unfold is_u32; lia) sample_args_ok) as (i & s' & He & _ & Hl & _).
  exists i, s'. split; [exact He|]. apply Hl; reflexivity.
Defined.
Lemma proc_exec_outcome_witness :
  exists r s', proc_exec 0 0x5000 0 0 0 (Some [[108; 115]; [45; 97]]) (single PROC_RUNNING 0) = Ok (r, s') /\ inv s'.
Proof.
  destruct (proc_exec_outcome (single PROC_RUNNING 0) 0 (the_process PROC_RUNNING) 0x5000 0 0 0 (Some [[108; 115]; [45; 97]]))
    as (r & s' & He & Hi & _).
  - apply single_inv; [discriminate|reflexivity|lia].
  - reflexivity.
  - reflexivity.
  - reflexivity.
  - unfold is_u32. lia.
  - exact sample_args_ok.
  - left. reflexivity.
  - exists r, s'. split; [exact He|exact Hi].
Defined.
Lemma proc_reap_releases_witness :
  exists s', proc_reap 0x100 (single PROC_EXITED (-1)) = Ok (tt, s') /\ at_ s' 0 = Some zero_process /\
    env_live (env s') !! 0x210000 = None.
Proof.
  destruct (proc_reap_releases (single PROC_EXITED (-1)) 0x100) as (s' & He & _ & _ & Hall).
  - apply single_inv; [discriminate|discriminate|lia].
  - destruct (Hall 0 (the_process PROC_EXITED) eq_refl) as [[Hz Hf] _]; [reflexivity|discriminate|intros (_ & Hc & _); apply (proj1 Hc); reflexivity|].
    exists s'. split; [exact He|]. split; [exact Hz|]. apply (Hf 0x210000 PROC_KSTACK_SIZE). right. left.
Defined.
Lemma setup_user_stack_layout_witness :
  exists sp s', setup_user_stack 0 None (single PROC_READY (-1)) = Ok (sp, s') /\
    user_layout (the_process PROC_READY) (env s') [] sp.
Proof.
  destruct (setup_user_stack_layout (single PROC_READY (-1)) 0 (the_process PROC_READY) None)
    as (sp & s' & He & _ & _ & [[_ Hc]|[Hul _]]).
  - apply single_inv; [discriminate|discriminate|lia].
  - reflexivity.
  - apply single_ready.
  - split; [constructor|reflexivity].
  - destruct Hc. reflexivity.
  - exists sp, s'. split; [exact He|exact Hul].
Defined.
End ProcReach.
