(* ===== verification/BlockDev.v ===== *)
(** * Block devices

    The contract between the file systems and the disk drivers.  The file systems call
    ata_read, ata_write and ata_get_sector_count of drivers/ata.c; [BlockDev] is that
    interface, with the failure of a read as [None] (the buffer is then not filled) and of a
    write as [false].  [BlockDevOk] states what a driver promises: a drive is a set of
    512-byte sectors, a read returns what the last write left there, and an access to a sector
    the drive does not have fails and changes nothing. *)
From S2P Require Import Prelude.

Definition SECTOR : Z := 512.

(** A sector: 512 bytes. *)
Definition is_sector (b : list Z) : Prop := length b = 512%nat /\ Forall is_u8 b.

Class BlockDev (D : Type) := {
  ata_read : Z -> Z -> Z -> M D (option (list Z));
  ata_write : Z -> Z -> Z -> list Z -> M D bool;
  ata_get_sector_count : Z -> M D Z;
}.

Definition ata_read_sector `{BlockDev D} (drive lba : Z) : M D (option (list Z)) := ata_read (u8 drive) lba 1.
Definition ata_write_sector `{BlockDev D} (drive lba : Z) (b : list Z) : M D bool := ata_write (u8 drive) lba 1 b.

(** The content of the drives: the sectors of each. *)
Abbreviation sectors := (gmap Z (list Z)).

(** k sectors that follow each other, from lba on. *)
Definition has_run (m : sectors) (lba : Z) (k : nat) : Prop := forall i, (i < k)%nat -> is_Some (m !! (lba + Z.of_nat i)).
Fixpoint get_run (m : sectors) (lba : Z) (k : nat) : list Z :=
  match k with
  | O => []
  | S k' => default [] (m !! lba) ++ get_run m (lba + 1) k'
  end.
Fixpoint put_run (m : sectors) (lba : Z) (k : nat) (b : list Z) : sectors :=
  match k with
  | O => m
  | S k' => put_run (<[lba := take 512 b]> m) (lba + 1) k' (drop 512 b)
  end.

Class BlockDevOk (D : Type) `{BlockDev D} := {
  dev_ok : D -> Prop;
  dev_sectors : D -> Z -> sectors;
  (* the drives whose sectors are exactly those that dev_sectors lists *)
  dev_covers : D -> Z -> Prop;
  dev_sector_ok d drive lba b :
    dev_ok d -> dev_sectors d drive !! lba = Some b -> is_sector b /\ is_u32 lba;
  dev_read d drive lba count :
    dev_ok d -> 1 <= count <= 256 -> has_run (dev_sectors d drive) lba (Z.to_nat count) ->
    exists d', ata_read drive lba count d = Ok (Some (get_run (dev_sectors d drive) lba (Z.to_nat count)), d') /\
      dev_ok d' /\ dev_sectors d' = dev_sectors d;
  dev_read_none d drive lba :
    dev_ok d -> dev_covers d drive -> is_u32 lba -> dev_sectors d drive !! lba = None ->
    exists d', ata_read drive lba 1 d = Ok (None, d') /\ dev_ok d' /\ dev_sectors d' = dev_sectors d;
  dev_write d drive lba count b :
    dev_ok d -> 1 <= count <= 256 -> has_run (dev_sectors d drive) lba (Z.to_nat count) ->
    length b = (Z.to_nat count * 512)%nat -> Forall is_u8 b ->
    exists d', ata_write drive lba count b d = Ok (true, d') /\ dev_ok d' /\
      dev_sectors d' drive = put_run (dev_sectors d drive) lba (Z.to_nat count) b /\
      (forall drive', drive' <> drive -> dev_sectors d' drive' = dev_sectors d drive');
  dev_write_none d drive lba b :
    dev_ok d -> dev_covers d drive -> is_u32 lba -> dev_sectors d drive !! lba = None -> is_sector b ->
    exists d', ata_write drive lba 1 b d = Ok (false, d') /\ dev_ok d' /\ dev_sectors d' = dev_sectors d;
}.

(** ** Runs of sectors *)

Lemma put_run_out m : forall k a b x, (x < a \/ a + Z.of_nat k <= x) -> put_run m a k b !! x = m !! x.
Proof.
  intros k. revert m. induction k as [|k IH]; intros m a b x Hx; simpl; [done|].
  rewrite IH by lia. apply lookup_insert_ne. lia.
Qed.

Lemma put_run_in k : forall m a b i, (i < k)%nat ->
  put_run m a k b !! (a + Z.of_nat i) = Some (take 512 (drop (512 * i) b)).
Proof.
  induction k as [|k IH]; intros m a b i Hi; [lia|]. cbn [put_run]. destruct i as [|i].
  - rewrite put_run_out by lia. rewrite Z.add_0_r, lookup_insert_eq. by rewrite Nat.mul_0_r, drop_0.
  - replace (a + Z.of_nat (S i)) with (a + 1 + Z.of_nat i) by lia. rewrite IH by lia.
    rewrite drop_drop. do 3 f_equal. lia.
Qed.

Lemma put_run_has m k a b j c : has_run m c j -> has_run (put_run m a k b) c j.
Proof.
  intros Hr i Hi. specialize (Hr i Hi). destruct (decide (c + Z.of_nat i < a \/ a + Z.of_nat k <= c + Z.of_nat i)) as [?|Hin].
  - by rewrite put_run_out.
  - replace (c + Z.of_nat i) with (a + Z.of_nat (Z.to_nat (c + Z.of_nat i - a))) by lia.
    rewrite put_run_in by lia. eauto.
Qed.

Lemma put_run_app k1 : forall k2 m a b,
  put_run m a (k1 + k2) b = put_run (put_run m a k1 (take (512 * k1) b)) (a + Z.of_nat k1) k2 (drop (512 * k1) b).
Proof.
  induction k1 as [|k1 IH]; intros k2 m a b; cbn [put_run Nat.add].
  - by rewrite Z.add_0_r, drop_0.
  - rewrite IH. rewrite take_take, drop_drop. replace (512 `min` (512 * S k1))%nat with 512%nat by lia.
    rewrite skipn_firstn_comm. replace (512 * S k1 - 512)%nat with (512 * k1)%nat by lia.
    f_equal; [lia|]. f_equal. lia.
Qed.

Lemma get_run_ext m m' k : forall a, (forall i, (i < k)%nat -> m' !! (a + Z.of_nat i) = m !! (a + Z.of_nat i)) ->
  get_run m' a k = get_run m a k.
Proof.
  induction k as [|k IH]; intros a He; cbn [get_run]; [done|]. f_equal.
  - f_equal. specialize (He 0%nat). rewrite Z.add_0_r in He. apply He. lia.
  - apply IH. intros i Hi. replace (a + 1 + Z.of_nat i) with (a + Z.of_nat (S i)) by lia. apply He. lia.
Qed.

Lemma get_put_run k : forall m a b, length b = (512 * k)%nat -> get_run (put_run m a k b) a k = b.
Proof.
  induction k as [|k IH]; intros m a b Hl; cbn [get_run put_run].
  - by destruct b.
  - rewrite put_run_out by lia. rewrite lookup_insert_eq. cbn [from_option]. unfold id.
    rewrite IH by (rewrite length_drop; lia). apply take_drop.
Qed.

Lemma get_run_length m k : forall a,
  has_run m a k -> (forall x b, m !! x = Some b -> is_sector b) -> length (get_run m a k) = (512 * k)%nat.
Proof.
  induction k as [|k IH]; intros a Hr Hs; cbn [get_run]; [done|].
  destruct (Hr 0%nat) as [b Hb]; [lia|]. rewrite Z.add_0_r in Hb. rewrite Hb. cbn [from_option]. unfold id.
  destruct (Hs _ _ Hb) as [Hl _]. rewrite length_app, IH, Hl; [lia| |done].
  intros i Hi. replace (a + 1 + Z.of_nat i) with (a + Z.of_nat (S i)) by lia. apply Hr. lia.
Qed.
