(* ===== verification/Path.v ===== *)
(** * Path normalisation (normalize_path of kernel/cmd.c)

    Turns a path, relative to the current directory when it does not start with a slash, into
    an absolute one without ".", ".." and repeated slashes.  Paths are lists of characters; a
    write outside the 64 x 64 component stack or the 256-byte output is [None]. *)
From S2P Require Import Prelude Libc.

Module Path.

Definition SLASH : Z := 47.
Definition DOT : Z := 46.
Definition MAX_DEPTH : nat := 64.
Definition MAX_PART : nat := 63.
Definition OUT_SIZE : nat := 256.

(** while ( *p == '/') p++; *)
Fixpoint skip_slashes (p : list Z) : list Z :=
  match p with
  | c :: p' => if c =? SLASH then skip_slashes p' else p
  | [] => []
  end.

(** while ( *p && *p != '/' && len < 63) part[len++] = *p++;   [room] is 63 - len *)
Fixpoint read_part (room : nat) (p : list Z) : list Z * list Z :=
  match room, p with
  | S room', c :: p' => if c =? SLASH then ([], p) else let '(s, r) := read_part room' p' in (c :: s, r)
  | _, _ => ([], p)
  end.

(** The loop that pushes the components of cwd; [fuel] bounds its rounds. *)
Fixpoint push_cwd (fuel : nat) (p : list Z) (stack : list (list Z)) : res (list (list Z)) :=
  match fuel with
  | O => NoFuel
  | S fuel' =>
    match p with
    | [] => Ok stack
    | _ =>
      match skip_slashes p with
      | [] => Ok stack
      | q => if (MAX_DEPTH <=? length stack)%nat then Fault
             else let '(s, r) := read_part MAX_PART q in push_cwd fuel' r (stack ++ [s])
      end
    end
  end.

(** One component of the path: ".", ".." or a name. *)
Definition apply_part (stack : list (list Z)) (part : list Z) : list (list Z) :=
  if bool_decide (part = [DOT]) then stack
  else if bool_decide (part = [DOT; DOT]) then removelast stack
  else if (length stack <? MAX_DEPTH)%nat then stack ++ [part] else stack.

Fixpoint push_path (fuel : nat) (p : list Z) (stack : list (list Z)) : res (list (list Z)) :=
  match fuel with
  | O => NoFuel
  | S fuel' =>
    match p with
    | [] => Ok stack
    | _ =>
      match skip_slashes p with
      | [] => Ok stack
      | q => let '(s, r) := read_part MAX_PART q in push_path fuel' r (apply_part stack s)
      end
    end
  end.

(** The components, each behind a slash; the copy of a component stops at 255 characters. *)
Fixpoint assemble (stack : list (list Z)) (out : list Z) : res (list Z) :=
  match stack with
  | [] => if (length out <? OUT_SIZE)%nat then Ok out else Fault
  | s :: stack' =>
    if (length out <? OUT_SIZE)%nat then assemble stack' (out ++ SLASH :: take (255 - S (length out)) s) else Fault
  end.

Definition normalize_path (cwd path : list Z) : res (list Z) :=
  match (if hd 0 path =? SLASH then Ok [] else push_cwd (S (length cwd)) cwd []) with
  | Ok st0 =>
    match push_path (S (length path)) path st0 with
    | Ok [] => Ok [SLASH]
    | Ok st => assemble st []
    | Fault => Fault
    | NoFuel => NoFuel
    end
  | Fault => Fault
  | NoFuel => NoFuel
  end.

(** ** The reference definition

    Components are the slash-free segments; "." is dropped and ".." removes the component
    before it. *)
Definition components (p : list Z) : list (list Z) := Libc.tokens [SLASH] p.
Definition step_part (stack : list (list Z)) (part : list Z) : list (list Z) :=
  if bool_decide (part = [DOT]) then stack
  else if bool_decide (part = [DOT; DOT]) then removelast stack
  else stack ++ [part].
Definition canonical (cwd path : list Z) : list (list Z) :=
  fold_left step_part (components path) (if hd 0 path =? SLASH then [] else components cwd).
Definition render (parts : list (list Z)) : list Z :=
  if parts is [] then [SLASH] else concat (map (cons SLASH) parts).

(** ** Components *)

Definition short (p : list Z) : Prop := Forall (fun s => (length s <= MAX_PART)%nat) (components p).

Lemma skip_slashes_spec p : exists pre, p = pre ++ skip_slashes p /\ Forall (.∈ [SLASH]) pre /\ hd 0 (skip_slashes p) <> SLASH.
Proof.
  induction p as [|c p (pre & E & Hp & Hh)]; simpl; [by exists []|].
  destruct (Z.eqb_spec c SLASH) as [->|Hne].
  - exists (SLASH :: pre). split_and!; [by simpl; f_equal|constructor; [set_solver|done]|done].
  - by exists [].
Qed.

Lemma components_skip p : components p = components (skip_slashes p).
Proof.
  destruct (skip_slashes_spec p) as (pre & E & Hp & _). rewrite E at 1. unfold components. by rewrite Libc.tokens_skip.
Qed.

(** A non-empty text that does not start with a slash starts with its first component. *)
Lemma components_cons q : q <> [] -> hd 0 q <> SLASH ->
  exists tok r, q = tok ++ r /\ tok <> [] /\ Forall (.∉ [SLASH]) tok /\ (r = [] \/ hd 0 r = SLASH) /\
    components q = tok :: components r.
Proof.
  intros Hne Hh.
  assert (forall q, exists tok r, q = tok ++ r /\ Forall (.∉ [SLASH]) tok /\ (r = [] \/ hd 0 r = SLASH)) as Hs.
  { clear. induction q as [|c q (tok & r & -> & Ht & Hr)]; [by exists [], []; auto|].
    destruct (decide (c = SLASH)) as [->|Hc]; [exists [], (SLASH :: tok ++ r); simpl; auto|].
    exists (c :: tok), r. split_and!; [done|constructor; [set_solver|done]|done]. }
  destruct (Hs q) as (tok & r & -> & Ht & Hr). exists tok, r. assert (tok <> []).
  { intros ->. simpl in *. destruct Hr as [->|]; done. }
  split_and!; [done..|]. unfold components. destruct r as [|d r].
  - rewrite app_nil_r, Libc.tokens_last by done. done.
  - destruct Hr as [Hr|Hr]; [done|]. simpl in Hr. subst d. rewrite Libc.tokens_tok by (done || set_solver).
    done.
Qed.

Lemma read_part_spec tok r : forall n,
  (length tok <= n)%nat -> Forall (.∉ [SLASH]) tok -> r = [] \/ hd 0 r = SLASH -> read_part n (tok ++ r) = (tok, r).
Proof.
  induction tok as [|c tok IH]; intros [|n] Hl Ht Hr; simpl in *; try lia.
  - done.
  - destruct Hr as [->|Hr]; [done|]. destruct r as [|d r]; [done|]. simpl in Hr. by rewrite Hr.
  - apply list.Forall_cons in Ht as [Hc Ht]. destruct (Z.eqb_spec c SLASH); [set_solver|].
    by rewrite (IH n) by (done || lia).
Qed.

(** One round of either loop: it ends, or takes the next component off the text. *)
Lemma next_part p : short p ->
  (components p = [] /\ skip_slashes p = []) \/
  (exists c q tok r, skip_slashes p = c :: q /\ read_part MAX_PART (c :: q) = (tok, r) /\
     components p = tok :: components r /\ (length r < length p)%nat /\ (0 < length p)%nat).
Proof.
  intros Hs. pose proof (components_skip p) as Ec. destruct (skip_slashes_spec p) as (pre & Ep & _ & Hh).
  destruct (skip_slashes p) as [|c q] eqn:Eq; [by left|]. right.
  destruct (components_cons (c :: q)) as (tok & r & E & Hne & Ht & Hr & Et); [done|done|].
  exists c, q, tok, r. rewrite Et in Ec. unfold short in Hs. rewrite Ec in Hs. apply list.Forall_cons in Hs as [Hl _].
  split_and!; [done| |done| |].
  - rewrite E. by apply read_part_spec.
  - rewrite Ep, E, !length_app. destruct tok; [done|]. simpl. lia.
  - rewrite Ep, E, !length_app. destruct tok; [done|]. simpl. lia.
Qed.

Lemma short_next p tok r : short p -> components p = tok :: components r -> short r.
Proof. unfold short. intros Hs E. rewrite E in Hs. by apply list.Forall_cons in Hs as [_ ?]. Qed.

Lemma push_cwd_spec n : forall p fuel st,
  (length p <= n)%nat -> (length p < fuel)%nat -> short p -> (length st + length (components p) <= MAX_DEPTH)%nat ->
  push_cwd fuel p st = Ok (st ++ components p).
Proof.
  induction n as [|n IH]; intros p [|fuel] st Hn Hf Hs Hd; try lia; cbn [push_cwd push_path].
  - destruct p; [|simpl in Hn; lia]. by rewrite app_nil_r.
  - destruct (next_part p Hs) as [[E1 E2]|(c & q & tok & r & E1 & E2 & E3 & Hlt & Hpos)].
    + rewrite E1, app_nil_r, E2. by destruct p.
    + destruct p as [|x p]; [simpl in Hpos; lia|]. rewrite E1, E2, E3 in *. cbn [length] in Hd.
      rewrite (proj2 (Nat.leb_gt _ _)) by lia.
      rewrite IH; [by rewrite <-app_assoc|lia|lia|by eapply short_next|]. rewrite length_app. simpl. lia.
Qed.

Lemma apply_step st part : (length st < MAX_DEPTH)%nat -> apply_part st part = step_part st part.
Proof. intros Hl. unfold apply_part, step_part. by rewrite (proj2 (Nat.ltb_lt _ _)) by lia. Qed.
Lemma length_step st part : (length (step_part st part) <= S (length st))%nat.
Proof.
  unfold step_part. repeat case_bool_decide; [lia| |rewrite length_app; simpl; lia].
  induction st as [|x [|y st] IH]; simpl in *; lia.
Qed.

Lemma push_path_spec n : forall p fuel st,
  (length p <= n)%nat -> (length p < fuel)%nat -> short p -> (length st + length (components p) <= MAX_DEPTH)%nat ->
  push_path fuel p st = Ok (fold_left step_part (components p) st).
Proof.
  induction n as [|n IH]; intros p [|fuel] st Hn Hf Hs Hd; try lia; cbn [push_cwd push_path].
  - destruct p; [done|simpl in Hn; lia].
  - destruct (next_part p Hs) as [[E1 E2]|(c & q & tok & r & E1 & E2 & E3 & Hlt & Hpos)].
    + rewrite E1, E2. by destruct p.
    + destruct p as [|x p]; [simpl in Hpos; lia|]. rewrite E1, E2, E3 in *. cbn [length fold_left] in Hd |- *.
      rewrite apply_step by lia. pose proof (length_step st tok).
      apply IH; [lia|lia|by eapply short_next|lia].
Qed.

Lemma assemble_spec st : forall out,
  (length out + length (concat (map (cons SLASH) st)) < OUT_SIZE)%nat ->
  assemble st out = Ok (out ++ concat (map (cons SLASH) st)).
Proof.
  unfold OUT_SIZE. induction st as [|s st IH]; intros out Hl; cbn [assemble map concat app] in *.
  - rewrite app_nil_r. rewrite (proj2 (Nat.ltb_lt _ _)) by (unfold OUT_SIZE; lia). done.
  - rewrite length_cons, length_app in Hl. rewrite (proj2 (Nat.ltb_lt _ _)) by (unfold OUT_SIZE; lia).
    rewrite take_ge by lia. rewrite IH.
    + by rewrite <-app_assoc.
    + rewrite length_app. cbn [length]. lia.
Qed.

Lemma tokens_render st :
  Forall (fun s => s <> [] /\ Forall (.∉ [SLASH]) s) st -> components (concat (map (cons SLASH) st)) = st.
Proof.
  induction st as [|s st IH]; [done|]. intros [[Hne Hs] Hst]%list.Forall_cons. cbn [map concat app].
  transitivity (components (s ++ concat (map (cons SLASH) st))).
  { apply (Libc.tokens_skip [SLASH] [SLASH]). repeat constructor. }
  destruct (concat (map (cons SLASH) st)) as [|c t] eqn:E.
  - rewrite app_nil_r. unfold components. rewrite Libc.tokens_last by done.
    destruct st as [|s' st]; [done|]. by apply (f_equal length) in E.
  - assert (c = SLASH) as -> by (destruct st; simpl in E; congruence).
    unfold components in *. rewrite Libc.tokens_tok by (done || set_solver). f_equal. rewrite <-IH by done.
    symmetry. apply (Libc.tokens_skip [SLASH] [SLASH]). repeat constructor.
Qed.

(** ** Properties *)

Definition plain (s : list Z) : Prop := s <> [] /\ Forall (.∉ [SLASH]) s /\ s <> [DOT] /\ s <> [DOT; DOT].

Lemma components_ok p : Forall (fun s => s <> [] /\ Forall (.∉ [SLASH]) s) (components p).
Proof.
  remember (length p) as n eqn:Hn. revert p Hn. induction (lt_wf n) as [n _ IH]. intros p Hn.
  rewrite components_skip. destruct (skip_slashes_spec p) as (pre & Ep & _ & Hh).
  destruct (skip_slashes p) as [|c q] eqn:Eq; [constructor|].
  destruct (components_cons (c :: q)) as (tok & r & E & Hne & Ht & Hr & Et); [done|done|].
  rewrite Et. constructor; [done|]. eapply (IH (length r)); [|done].
  subst n. rewrite Ep, E, !length_app. destruct tok; [done|]. simpl. lia.
Qed.

Lemma removelast_Forall {A} (P : A -> Prop) l : Forall P l -> Forall P (removelast l).
Proof. induction 1 as [|x l Hx Hl IH]; [done|]. destruct l; [constructor|]. constructor; done. Qed.

Lemma canonical_plain_from parts : forall st,
  Forall (fun s => s <> [] /\ Forall (.∉ [SLASH]) s) parts -> Forall plain st -> Forall plain (fold_left step_part parts st).
Proof.
  induction parts as [|s parts IH]; intros st Hp Hst; [done|]. apply list.Forall_cons in Hp as [[Hne Hs] Hp].
  simpl. apply IH; [done|]. unfold step_part. repeat case_bool_decide; [done|by apply removelast_Forall|].
  apply Forall_app. split; [done|]. by repeat constructor.
Qed.

Lemma canonical_plain cwd path : Forall plain (components cwd) -> Forall plain (canonical cwd path).
Proof.
  intros Hc. apply canonical_plain_from; [apply components_ok|]. by destruct (_ =? _).
Qed.

Lemma render_components parts : Forall plain parts -> components (render parts) = parts.
Proof.
  intros Hp. unfold render. destruct parts as [|s parts]; [done|]. apply tokens_render.
  eapply list.Forall_impl; [exact Hp|]. unfold plain. tauto.
Qed.

(** C17: for a current directory and a path whose components have at most 63 characters, at most
    64 components together and a result that fits 255 characters, normalize_path returns the
    canonical path: the components of the path applied to those of the current directory (or to
    the root, for an absolute path), "." dropped and ".." removing the component before it; its
    components are exactly those, and none of them is empty, "." or "..". *)
Theorem normalize_path_canonical cwd path :
  short cwd -> short path -> Forall plain (components cwd) ->
  (length (components cwd) + length (components path) <= MAX_DEPTH)%nat ->
  (length (render (canonical cwd path)) < OUT_SIZE)%nat ->
  normalize_path cwd path = Ok (render (canonical cwd path)) /\
  components (render (canonical cwd path)) = canonical cwd path /\ Forall plain (canonical cwd path).
Proof.
  intros Hc Hp Hpl Hd Hl. pose proof (canonical_plain cwd path Hpl) as Hcan.
  split_and!; [|by apply render_components|done].
  assert ((if hd 0 path =? SLASH then Ok [] else push_cwd (S (length cwd)) cwd []) =
          Ok (if hd 0 path =? SLASH then [] else components cwd)) as E0.
  { destruct (_ =? _); [done|]. by rewrite (push_cwd_spec (length cwd)) by (simpl; done || lia). }
  unfold normalize_path. rewrite E0. rewrite (push_path_spec (length path)); [|lia|lia|done|destruct (_ =? _); simpl; lia].
  fold (canonical cwd path). unfold render in *. destruct (canonical cwd path) as [|s st]; [done|].
  by rewrite assemble_spec.
Qed.

Definition ex_cwd : list Z := [47; 117; 115; 114].
Definition ex_path : list Z := [46; 46; 47; 47; 98; 105; 110; 47; 46].

Lemma normalize_path_canonical_witness :
  normalize_path ex_cwd ex_path = Ok [47; 98; 105; 110] /\ components (render (canonical ex_cwd ex_path)) = [[98; 105; 110]].
Proof.
  destruct (normalize_path_canonical ex_cwd ex_path) as (E1 & E2 & _).
  - unfold short. vm_compute. repeat constructor.
  - unfold short. vm_compute. repeat constructor; lia.
  - vm_compute. repeat constructor; first [discriminate|intros ?%list_elem_of_In; simpl in *; lia].
  - vm_compute. lia.
  - vm_compute. lia.
  - split; [exact E1|exact E2].
Defined.

(** A component of more than 63 characters becomes two components. *)
Lemma normalize_path_splits_long :
  normalize_path [] (SLASH :: replicate 64 97) = Ok (SLASH :: replicate 63 97 ++ [SLASH; 97]).
Proof. reflexivity. Qed.

(** A current directory of more than 64 components overruns the component stack. *)
Lemma normalize_path_deep_cwd_faults : normalize_path (concat (replicate 65 [SLASH; 97])) [98] = Fault.
Proof. reflexivity. Qed.

End Path.
