(* ===== verification/Ata.v ===== *)
(** * Disk drivers: the RAM disk and the ATA layer (drivers/ramdisk.c, drivers/ata.c)

    The ATA layer maps drive numbers to devices: the RAM disk first, numbers from 4 on to USB
    storage, and the numbers below to the SATA ports of an AHCI controller followed by the
    parallel ATA drives, which it drives itself through I/O ports.  The machine is a parameter
    [HW] with its port accesses and with the AHCI and USB storage drivers; everything else of
    the two files is modelled. *)
From S2P Require Import Prelude BlockDev.

Module Ata.

(** ** The machine *)

Class Machine (HW : Type) := {
  hal_in8 : Z -> HW -> Z * HW;
  hal_in16 : Z -> HW -> Z * HW;
  hal_out8 : Z -> Z -> HW -> HW;
  hal_out16 : Z -> Z -> HW -> HW;
  ahci_sata_port_count : HW -> Z;
  ahci_read_port : Z -> Z -> Z -> HW -> option (list Z) * HW;
  ahci_write_port : Z -> Z -> Z -> list Z -> HW -> bool * HW;
  ahci_identify_port : Z -> HW -> option (list Z) * HW;
  usb_storage_read_sectors : Z -> Z -> Z -> HW -> option (list Z) * HW;
  usb_storage_write_sectors : Z -> Z -> Z -> list Z -> HW -> bool * HW;
  usb_storage_get_sector_count : Z -> HW -> Z * HW;
  usb_storage_sync : Z -> HW -> bool * HW;
}.

Definition USB_DRIVE_BASE : Z := 4.
Definition MAX_DISKS : nat := 8.
Definition RAMDISK_SECTOR_SIZE : Z := 512.
Definition RAMDISK_DRIVE_AUTO : Z := 255.
Definition ATA_CMD_READ : Z := 0x20.
Definition ATA_CMD_WRITE : Z := 0x30.
Definition ATA_CMD_IDENTIFY : Z := 0xEC.
Definition ATA_CMD_CACHE_FLUSH : Z := 0xE7.
Definition ATA_SR_BSY : Z := 0x80.
Definition ATA_SR_DF : Z := 0x20.
Definition ATA_SR_DRQ : Z := 0x08.
Definition ATA_SR_ERR : Z := 0x01.

(** rd_data is the image that the pointer data designates. *)
Record ramdisk_t := Ramdisk { rd_present : bool; rd_drive : Z; rd_data : list Z; rd_size_bytes : Z; rd_sector_count : Z }.

(** The fields of DiskInfo that the detection of disks uses; fs_type is the string. *)
Record DiskInfo := Disk { dk_present : bool; dk_id : Z; dk_fs_type : list Z; dk_base_lba : Z }.

Inductive ata_backend := ATA_BACKEND_NONE | ATA_BACKEND_AHCI | ATA_BACKEND_PATA | ATA_BACKEND_USB | ATA_BACKEND_RAMDISK.

Record ata_chan_t := Chan { io : Z; ctrl : Z }.

Section ata.
Context {HW : Type} `{Machine HW}.

Record ata := Mk {
  hw : HW; g_ramdisk : ramdisk_t; CH : list ata_chan_t; ata_available : list bool;
  drive_to_ahci : list Z; drive_to_pata : list Z; disks : list DiskInfo; disk_count : Z;
}.
Abbreviation A X := (M ata X).

Definition set_hw (h : HW) (a : ata) : ata :=
  Mk h (g_ramdisk a) (CH a) (ata_available a) (drive_to_ahci a) (drive_to_pata a) (disks a) (disk_count a).
Definition set_ramdisk (r : ramdisk_t) : A unit :=
  modify (fun a => Mk (hw a) r (CH a) (ata_available a) (drive_to_ahci a) (drive_to_pata a) (disks a) (disk_count a)).
Definition set_map (m1 m2 : list Z) : A unit :=
  modify (fun a => Mk (hw a) (g_ramdisk a) (CH a) (ata_available a) m1 m2 (disks a) (disk_count a)).
Definition set_available (l : list bool) : A unit :=
  modify (fun a => Mk (hw a) (g_ramdisk a) (CH a) l (drive_to_ahci a) (drive_to_pata a) (disks a) (disk_count a)).
Definition set_disks (l : list DiskInfo) : A unit :=
  modify (fun a => Mk (hw a) (g_ramdisk a) (CH a) (ata_available a) (drive_to_ahci a) (drive_to_pata a) l (disk_count a)).
Definition set_disk_count (n : Z) : A unit :=
  modify (fun a => Mk (hw a) (g_ramdisk a) (CH a) (ata_available a) (drive_to_ahci a) (drive_to_pata a) (disks a) n).

(** An operation of the machine *)
Definition on_hw {X} (f : HW -> X * HW) : A X := fun a => let '(x, h) := f (hw a) in Ok (x, set_hw h a).
Definition in8 (p : Z) : A Z := on_hw (hal_in8 p).
Definition in16 (p : Z) : A Z := on_hw (hal_in16 p).
Definition out8 (p v : Z) : A unit := on_hw (fun h => (tt, hal_out8 p v h)).
Definition out16 (p v : Z) : A unit := on_hw (fun h => (tt, hal_out16 p v h)).

(** ** The RAM disk *)

Definition ramdisk_present (r : ramdisk_t) (drive : Z) : bool := rd_present r && (rd_drive r =? drive).
Definition ramdisk_drive_id (r : ramdisk_t) : Z := if rd_present r then rd_drive r else -1.
Definition ramdisk_get_sector_count (r : ramdisk_t) (drive : Z) : Z := if ramdisk_present r drive then rd_sector_count r else 0.
Definition ramdisk_get_size_bytes (r : ramdisk_t) (drive : Z) : Z := if ramdisk_present r drive then rd_size_bytes r else 0.
Definition ramdisk_data (r : ramdisk_t) (drive : Z) : option (list Z) := if ramdisk_present r drive then Some (rd_data r) else None.

(** memcpy out of and into the image; bytes outside the image are a fault. *)
Definition image_get (img : list Z) (offset bytes : Z) : option (list Z) :=
  if (offset + bytes <=? Z.of_nat (length img)) then Some (take (Z.to_nat bytes) (drop (Z.to_nat offset) img)) else None.
Definition image_set (img : list Z) (offset : Z) (b : list Z) : option (list Z) :=
  if (offset + Z.of_nat (length b) <=? Z.of_nat (length img)) then
    Some (take (Z.to_nat offset) img ++ b ++ drop (Z.to_nat offset + length b) img)
  else None.

(** buffer tells whether the pointer is not NULL. *)
Definition ramdisk_read (drive lba count : Z) (buffer : bool) : A (option (list Z)) :=
  r <- gets g_ramdisk;;
  if negb buffer || negb (ramdisk_present r drive) then ret None
  else
    let count := if count =? 0 then 256 else count in
    let offset := u64 (lba * RAMDISK_SECTOR_SIZE) in
    let bytes := u64 (count * RAMDISK_SECTOR_SIZE) in
    if rd_size_bytes r <? u64 (offset + bytes) then ret None
    else b <- lift_opt (image_get (rd_data r) offset bytes);; ret (Some b).

Definition ramdisk_write (drive lba count : Z) (buffer : option (list Z)) : A bool :=
  r <- gets g_ramdisk;;
  match buffer with
  | None => ret false
  | Some b =>
    if negb (ramdisk_present r drive) then ret false
    else
      let count := if count =? 0 then 256 else count in
      let offset := u64 (lba * RAMDISK_SECTOR_SIZE) in
      let bytes := u64 (count * RAMDISK_SECTOR_SIZE) in
      if rd_size_bytes r <? u64 (offset + bytes) then ret false
      else
        src <- lift_opt (image_get b 0 bytes);;
        img <- lift_opt (image_set (rd_data r) offset src);;
        set_ramdisk (Ramdisk (rd_present r) (rd_drive r) img (rd_size_bytes r) (rd_sector_count r));;;
        ret true
  end.

(** ** Drive numbers *)

Definition ata_clear_drive_map : A unit := set_map (replicate 4 (-1)) (replicate 4 (-1)).

(** The slots of the map are filled in order: the AHCI ports, then the available PATA drives. *)
Fixpoint map_ahci (k : nat) (p drive : Z) (m : list Z) : Z * list Z :=
  match k with
  | O => (drive, m)
  | S k' => if drive <? USB_DRIVE_BASE then map_ahci k' (p + 1) (drive + 1) (<[Z.to_nat drive := s8 p]> m) else (drive, m)
  end.
Fixpoint map_pata (avail : list bool) (p drive : Z) (m : list Z) : list Z :=
  match avail with
  | [] => m
  | b :: avail' =>
    if drive <? USB_DRIVE_BASE then
      if b then map_pata avail' (p + 1) (drive + 1) (<[Z.to_nat drive := s8 p]> m) else map_pata avail' (p + 1) drive m
    else m
  end.
Definition ata_build_drive_map : A unit :=
  ata_clear_drive_map;;;
  a <- get;;
  let '(drive, m1) := map_ahci (Z.to_nat (ahci_sata_port_count (hw a))) 0 0 (drive_to_ahci a) in
  let m2 := map_pata (take 4 (ata_available a)) 0 drive (drive_to_pata a) in
  set_map m1 m2.
Definition ata_refresh_drive_map : A unit := ata_build_drive_map.

Definition ata_drive_backend (a : ata) (drive : Z) : option (ata_backend * Z) :=
  if ramdisk_present (g_ramdisk a) drive then Some (ATA_BACKEND_RAMDISK, 0)
  else if USB_DRIVE_BASE <=? drive then Some (ATA_BACKEND_USB, drive - USB_DRIVE_BASE)
  else
    match lget (drive_to_ahci a) drive, lget (drive_to_pata a) drive with
    | Some p, Some q => if 0 <=? p then Some (ATA_BACKEND_AHCI, p) else if 0 <=? q then Some (ATA_BACKEND_PATA, q) else None
    | _, _ => None
    end.

(** ** Parallel ATA through I/O ports *)

Definition chan (ch : Z) : A ata_chan_t := a <- get;; lift_opt (lget (CH a) ch).

Definition ata_400ns (ch : Z) : A unit :=
  c <- chan ch;; in8 (ctrl c);;; in8 (ctrl c);;; in8 (ctrl c);;; in8 (ctrl c);;; ret tt.
Definition ata_disable_irq (ch : Z) : A unit := c <- chan ch;; out8 (ctrl c) 2.

Definition has (s bit : Z) : bool := negb (Z.land s bit =? 0).

(** Polls the status at most [limit] times: 0 when ready, -1 at the time-out, -2 and -3 on errors. *)
Fixpoint wait_not_bsy (limit : nat) (ch : Z) : A Z :=
  match limit with
  | O => ret (-1)
  | S limit' =>
    c <- chan ch;; s <- in8 (io c + 7);;
    if negb (has s ATA_SR_BSY) then
      ret (if has s ATA_SR_ERR then -2 else if has s ATA_SR_DF then -3 else 0)
    else wait_not_bsy limit' ch
  end.
Fixpoint wait_drq (limit : nat) (ch : Z) : A Z :=
  match limit with
  | O => ret (-1)
  | S limit' =>
    c <- chan ch;; s <- in8 (io c + 7);;
    if has s ATA_SR_ERR then ret (-2)
    else if has s ATA_SR_DF then ret (-3)
    else if negb (has s ATA_SR_BSY) && has s ATA_SR_DRQ then ret 0
    else wait_drq limit' ch
  end.

Definition select_dev_only (drive : Z) : A unit :=
  let ch := Z.shiftr drive 1 in let sl := Z.land drive 1 in
  c <- chan ch;; out8 (io c + 6) (u8 (Z.lor 0xA0 (Z.shiftl sl 4)));;; ata_400ns ch.
Definition set_dev_lba28 (drive lba : Z) : A unit :=
  let ch := Z.shiftr drive 1 in let sl := Z.land drive 1 in
  c <- chan ch;; out8 (io c + 6) (u8 (Z.lor (Z.lor 0xE0 (Z.shiftl sl 4)) (Z.land (Z.shiftr lba 24) 0x0F)));;;
  ata_400ns ch;;; ata_400ns ch.

(** 256 words of the data port, as 512 bytes, and back *)
Fixpoint in_words (k : nat) (port : Z) : A (list Z) :=
  match k with
  | O => ret []
  | S k' => w <- in16 port;; l <- in_words k' port;; ret (u8 w :: u8 (Z.shiftr w 8) :: l)
  end.
Fixpoint out_words (k : nat) (port : Z) (b : list Z) : A unit :=
  match k with
  | O => ret tt
  | S k' =>
    match b with
    | lo :: hi :: b' => out16 port (lo + 256 * hi);;; out_words k' port b'
    | _ => fault
    end
  end.

Fixpoint read_sectors (count : nat) (ch : Z) (acc : list Z) : A (option (list Z)) :=
  match count with
  | O => ret (Some acc)
  | S count' =>
    w <- wait_drq (Z.to_nat 200000) ch;;
    if negb (w =? 0) then ret None
    else c <- chan ch;; b <- in_words 256 (io c + 0);; ata_400ns ch;;; read_sectors count' ch (acc ++ b)
  end.
Fixpoint write_sectors (count : nat) (ch : Z) (b : list Z) : A bool :=
  match count with
  | O => ret true
  | S count' =>
    w <- wait_drq (Z.to_nat 200000) ch;;
    if negb (w =? 0) then ret false
    else c <- chan ch;; out_words 256 (io c + 0) b;;; ata_400ns ch;;; write_sectors count' ch (drop 512 b)
  end.

(** Selecting the drive and giving it the command, the part that reading and writing share;
    [false] when the drive stays busy. *)
Definition pata_command (drive lba count cmd : Z) : A bool :=
  let ch := Z.shiftr drive 1 in
  ata_disable_irq ch;;; select_dev_only drive;;;
  w <- wait_not_bsy (Z.to_nat 100000) ch;;
  if negb (w =? 0) then ret false
  else
    c <- chan ch;;
    out8 (io c + 2) (if count =? 256 then 0 else u8 count);;;
    out8 (io c + 3) (u8 (Z.land lba 0xFF));;;
    out8 (io c + 4) (u8 (Z.land (Z.shiftr lba 8) 0xFF));;;
    out8 (io c + 5) (u8 (Z.land (Z.shiftr lba 16) 0xFF));;;
    set_dev_lba28 drive lba;;;
    out8 (io c + 7) cmd;;; ret true.

Definition pata_read (drive lba count : Z) : A (option (list Z)) :=
  ok <- pata_command drive lba count ATA_CMD_READ;;
  if negb ok then ret None else read_sectors (Z.to_nat count) (Z.shiftr drive 1) [].
Definition pata_write (drive lba count : Z) (b : list Z) : A bool :=
  ok <- pata_command drive lba count ATA_CMD_WRITE;;
  if negb ok then ret false else write_sectors (Z.to_nat count) (Z.shiftr drive 1) b.

(** ** Reading and writing *)

(** The device behind a drive number that is not the RAM disk. *)
Inductive device := DevUsb | DevAhci (port : Z) | DevPata (drive : Z) | DevNone.
Definition device_of (a : ata) (drive : Z) : option device :=
  if USB_DRIVE_BASE <=? drive then Some DevUsb
  else
    match lget (drive_to_ahci a) drive, lget (drive_to_pata a) drive with
    | Some p, Some q => Some (if 0 <=? p then DevAhci p else if q <? 0 then DevNone else DevPata (u8 q))
    | _, _ => None
    end.

Definition pata_available (drive : Z) : A bool := a <- get;; lift_opt (lget (ata_available a) drive).

Definition ata_read (drive lba count : Z) : A (option (list Z)) :=
  let count := if count =? 0 then 256 else count in
  a <- get;;
  if ramdisk_present (g_ramdisk a) drive then ramdisk_read drive lba count true
  else
    d <- lift_opt (device_of a drive);;
    match d with
    | DevUsb => on_hw (usb_storage_read_sectors drive lba count)
    | DevAhci p => on_hw (ahci_read_port p lba count)
    | DevNone => ret None
    | DevPata q => av <- pata_available q;; if negb av then ret None else pata_read q lba count
    end.

Definition ata_write (drive lba count : Z) (b : list Z) : A bool :=
  let count := if count =? 0 then 256 else count in
  a <- get;;
  if ramdisk_present (g_ramdisk a) drive then ramdisk_write drive lba count (Some b)
  else
    d <- lift_opt (device_of a drive);;
    match d with
    | DevUsb => on_hw (usb_storage_write_sectors drive lba count b)
    | DevAhci p => on_hw (ahci_write_port p lba count b)
    | DevNone => ret false
    | DevPata q => av <- pata_available q;; if negb av then ret false else pata_write q lba count b
    end.

Definition ata_flush_cache (drive : Z) : A bool :=
  a <- get;;
  if ramdisk_present (g_ramdisk a) drive then ret true
  else
    d <- lift_opt (device_of a drive);;
    match d with
    | DevUsb => on_hw (usb_storage_sync drive)
    | DevAhci _ => ret true
    | DevNone => ret false
    | DevPata q =>
      if 3 <? q then ret false
      else
        av <- pata_available q;;
        if negb av then ret false
        else
          let ch := Z.shiftr q 1 in
          ata_disable_irq ch;;; select_dev_only q;;;
          w <- wait_not_bsy (Z.to_nat 100000) ch;;
          if negb (w =? 0) then ret false
          else
            c <- chan ch;; out8 (io c + 7) ATA_CMD_CACHE_FLUSH;;;
            w <- wait_not_bsy (Z.to_nat 1000000) ch;; ret (w =? 0)
    end.

(** ** Identification *)

Definition identify_command (drive cmd : Z) (zero : bool) : A unit :=
  let ch := Z.shiftr drive 1 in let sl := Z.land drive 1 in
  c <- chan ch;;
  out8 (io c + 6) (u8 (Z.lor 0xA0 (Z.shiftl sl 4)));;; ata_400ns ch;;;
  (if zero then out8 (io c + 2) 0;;; out8 (io c + 3) 0;;; out8 (io c + 4) 0;;; out8 (io c + 5) 0 else ret tt);;;
  out8 (io c + 7) cmd.

(** The 256 words that a drive sends: two bytes each *)
Definition word_at (id : list Z) (i : nat) : Z := nth (2 * i) id 0 + 256 * nth (2 * i + 1) id 0.

Definition ata_pata_identify (drive : Z) : A (option (list Z)) :=
  if 3 <? drive then ret None
  else
    av <- pata_available drive;;
    if negb av then ret None
    else
      let ch := Z.shiftr drive 1 in
      ata_disable_irq ch;;; identify_command drive ATA_CMD_IDENTIFY true;;;
      w <- wait_not_bsy (Z.to_nat 100000) ch;;
      if negb (w =? 0) then ret None
      else
        w <- wait_drq (Z.to_nat 100000) ch;;
        if negb (w =? 0) then ret None
        else c <- chan ch;; id <- in_words 256 (io c + 0);; ata_400ns ch;;; ret (Some id).

(** The number of sectors of an identification: 48-bit addressing or not, cut to 32 bits *)
Definition sectors28 (id : list Z) : Z := Z.lor (Z.shiftl (word_at id 61) 16) (word_at id 60).
Definition sectors48 (id : list Z) : Z :=
  u32 (Z.lor (Z.lor (Z.lor (word_at id 100) (Z.shiftl (word_at id 101) 16)) (Z.shiftl (word_at id 102) 32))
             (Z.shiftl (word_at id 103) 48)).
Definition ahci_sectors (id : list Z) : Z := if has (word_at id 83) 0x400 then sectors48 id else sectors28 id.

Definition pata_sector_count (drive : Z) : A Z :=
  if 3 <? drive then ret 0
  else
    av <- pata_available drive;;
    if negb av then ret 0
    else
      let ch := Z.shiftr drive 1 in
      identify_command drive ATA_CMD_IDENTIFY false;;;
      w <- wait_not_bsy (Z.to_nat 100000) ch;;
      if negb (w =? 0) then ret 0
      else
        w <- wait_drq (Z.to_nat 100000) ch;;
        if negb (w =? 0) then ret 0
        else c <- chan ch;; id <- in_words 256 (io c + 0);; ret (sectors28 id).

(** A SATA drive that does not identify itself is tried as the PATA drive of the same number. *)
Definition ata_get_sector_count (drive : Z) : A Z :=
  a <- get;;
  if ramdisk_present (g_ramdisk a) drive then ret (ramdisk_get_sector_count (g_ramdisk a) drive)
  else if USB_DRIVE_BASE <=? drive then on_hw (usb_storage_get_sector_count drive)
  else
    p <- lift_opt (lget (drive_to_ahci a) drive);;
    q <- lift_opt (lget (drive_to_pata a) drive);;
    r <- (if 0 <=? p then on_hw (ahci_identify_port p) else ret None);;
    match r with
    | Some id => ret (ahci_sectors id)
    | None => if q <? 0 then ret 0 else pata_sector_count (u8 q)
    end.

(** The characters of an identification string: two per word, the high byte first; trailing
    blanks and NULs cut off; at most out_len - 1 characters *)
Definition id_chars (id : list Z) (start words : nat) : list Z :=
  concat (map (fun i => [nth (2 * (start + i) + 1) id 0; nth (2 * (start + i)) id 0]) (seq 0 words)).
Fixpoint trim_blank (k : nat) (s : list Z) : list Z :=
  match k with
  | O => s
  | S k' => if (List.last s 0 =? 32) || (List.last s 0 =? 0) then trim_blank k' (removelast s) else s
  end.
Definition ata_id_string (out_len : nat) (id : list Z) (start words : nat) : list Z :=
  let s := take (out_len - 1) (id_chars id start words) in trim_blank (length s) s.

Definition RAMDISK_MODEL : list Z := [82; 65; 77; 68; 73; 83; 75].
Definition USB_MODEL : list Z := [85; 83; 66; 32; 83; 116; 111; 114; 97; 103; 101].
Definition ata_drive_model (drive : Z) (out : bool) (out_len : nat) : A (option (list Z)) :=
  if negb out || (out_len =? 0)%nat then ret None
  else
    a <- get;;
    match ata_drive_backend a drive with
    | None => ret None
    | Some (ATA_BACKEND_RAMDISK, _) => ret (Some (take (out_len - 1) RAMDISK_MODEL))
    | Some (ATA_BACKEND_USB, _) => ret (Some (take (out_len - 1) USB_MODEL))
    | Some (ATA_BACKEND_AHCI, p) =>
      r <- on_hw (ahci_identify_port p);;
      ret (match r with
           | None => None
           | Some id => let l := ata_id_string out_len id 27 20 in if hd 0 l =? 0 then None else Some l
           end)
    | Some (ATA_BACKEND_PATA, q) =>
      r <- ata_pata_identify (u8 q);;
      ret (match r with
           | None => None
           | Some id => let l := ata_id_string out_len id 27 20 in if hd 0 l =? 0 then None else Some l
           end)
    | Some (ATA_BACKEND_NONE, _) => ret None
    end.

(** ** Detection of parallel ATA drives *)

Inductive ata_type := ATA_NONE | ATA_ATA | ATA_ATAPI.

(** while (!(status & (DRQ | ERR | DF)) && to-- > 0) status = hal_in8(io + 7); *)
Fixpoint poll_status (k : nat) (port status : Z) : A Z :=
  if negb (has status 0x29) then
    match k with
    | O => ret status
    | S k' => s <- in8 port;; poll_status k' port s
    end
  else ret status.

Definition ata_identify_try (drive cmd : Z) : A ata_type :=
  let ch := Z.shiftr drive 1 in
  identify_command drive cmd true;;;
  w <- wait_not_bsy (Z.to_nat 100000) ch;;
  if negb (w =? 0) then ret ATA_NONE
  else
    c <- chan ch;;
    status <- in8 (io c + 7);;
    in8 (io c + 2);;; in8 (io c + 3);;; in8 (io c + 4);;; in8 (io c + 5);;;
    if has status 0x21 then ret ATA_NONE
    else
      status <- poll_status (Z.to_nat 200000) (io c + 7) status;;
      if has status 0x21 then ret ATA_NONE
      else if negb (has status ATA_SR_DRQ) then ret ATA_NONE
      else in_words 256 (io c + 0);;; ata_400ns ch;;; ret (if cmd =? ATA_CMD_IDENTIFY then ATA_ATA else ATA_ATAPI).

Definition ata_soft_reset (ch : Z) : A unit :=
  c <- chan ch;; out8 (ctrl c) 6;;; ata_400ns ch;;; ata_400ns ch;;; ata_400ns ch;;; out8 (ctrl c) 2;;;
  wait_not_bsy (Z.to_nat 1000000) ch;;; ret tt.

Definition ata_present (drive : Z) : A bool :=
  if 3 <? drive then ret false
  else
    let ch := Z.shiftr drive 1 in let sl := Z.land drive 1 in
    c <- chan ch;;
    in8 (io c + 7);;; ata_disable_irq ch;;; ata_soft_reset ch;;;
    out8 (io c + 6) (u8 (Z.lor 0xA0 (Z.shiftl sl 4)));;; ata_400ns ch;;;
    status <- in8 (io c + 7);;
    if (status =? 0xFF) || (status =? 0) then ret false
    else
      t <- ata_identify_try drive 0xEC;;
      match t with
      | ATA_ATA => ret true
      | _ =>
        out8 (io c + 6) (u8 (Z.lor 0xA0 (Z.shiftl sl 4)));;; ata_400ns ch;;;
        lba_mid <- in8 (io c + 4);; lba_high <- in8 (io c + 5);;
        if (lba_mid =? 0x14) && (lba_high =? 0xEB) then
          t <- ata_identify_try drive 0xA1;; ret (match t with ATA_ATAPI => true | _ => false end)
        else ret false
      end.

(** The strings of fs_type *)
Definition s_Unknown : list Z := [85; 110; 107; 110; 111; 119; 110].
Definition s_None : list Z := [78; 111; 110; 101].

Fixpoint init_loop (k : nat) (d : Z) : A unit :=
  match k with
  | O => ret tt
  | S k' =>
    p <- ata_present d;;
    a <- get;;
    av <- lift_opt (lset (ata_available a) d p);;
    old <- lift_opt (lget (disks a) d);;
    dk <- lift_opt (lset (disks a) d
      (if p then Disk true d s_Unknown 0 else Disk false (dk_id old) s_None (dk_base_lba old)));;
    set_available av;;; set_disks dk;;; init_loop k' (d + 1)
  end.
Definition ata_init_all : A unit := init_loop 4 0;;; ata_build_drive_map.

#[global] Instance ata_blockdev : BlockDev ata := {|
  BlockDev.ata_read := ata_read;
  BlockDev.ata_write := ata_write;
  BlockDev.ata_get_sector_count := ata_get_sector_count;
|}.
End ata.

(** ** The RAM disk as a block device *)

Definition sectors_of (img : list Z) (n : nat) : sectors :=
  list_to_map (map (fun i => (Z.of_nat i, take 512 (drop (512 * i) img))) (seq 0 n)).

Lemma sectors_of_lookup img n lba :
  sectors_of img n !! lba =
    if (0 <=? lba) && (lba <? Z.of_nat n) then Some (take 512 (drop (512 * Z.to_nat lba) img)) else None.
Proof.
  unfold sectors_of. destruct ((0 <=? lba) && (lba <? Z.of_nat n)) eqn:E.
  - apply andb_true_iff in E as [H1%Z.leb_le H2%Z.ltb_lt]. apply elem_of_list_to_map_1.
    + rewrite <-list_fmap_compose. change (compose fst _) with Z.of_nat. apply NoDup_fmap_2; [intros ? ?; lia|apply NoDup_seq].
    + apply list_elem_of_fmap. exists (Z.to_nat lba). split; [by rewrite Z2Nat.id|]. apply elem_of_seq. lia.
  - apply not_elem_of_list_to_map_1. intros ((x & y) & E1 & (i & Hi & Hs)%list_elem_of_fmap)%list_elem_of_fmap.
    simpl in *. simplify_eq. apply elem_of_seq in Hs. apply andb_false_iff in E as [?%Z.leb_gt|?%Z.ltb_ge]; lia.
Qed.

Lemma sectors_of_in img n lba : 0 <= lba < Z.of_nat n ->
  sectors_of img n !! lba = Some (take 512 (drop (512 * Z.to_nat lba) img)).
Proof. intros Hl. rewrite sectors_of_lookup. by rewrite (proj2 (Z.leb_le _ _)), (proj2 (Z.ltb_lt _ _)) by lia. Qed.

Lemma sectors_of_run img n k : forall lba, 0 <= lba -> lba + Z.of_nat k <= Z.of_nat n ->
  get_run (sectors_of img n) lba k = take (512 * k) (drop (512 * Z.to_nat lba) img).
Proof.
  induction k as [|k IH]; intros lba Hl Hk; cbn [get_run]; [by rewrite Nat.mul_0_r, take_0|].
  rewrite sectors_of_in by lia. cbn [from_option]. unfold id. rewrite IH by lia.
  replace (512 * S k)%nat with (512 + 512 * k)%nat by lia. rewrite <-(take_take_drop _ 512 (512 * k)), drop_drop. do 3 f_equal. lia.
Qed.

Lemma image_set_sector (img b : list Z) (off i : nat) :
  (off + length b <= length img)%nat ->
  take 512 (drop (512 * i) (take off img ++ b ++ drop (off + length b) img)) =
    if decide (off <= 512 * i /\ 512 * i + 512 <= off + length b)%nat then take 512 (drop (512 * i - off) b)
    else if decide (512 * i + 512 <= off \/ off + length b <= 512 * i)%nat then take 512 (drop (512 * i) img)
    else take 512 (drop (512 * i) (take off img ++ b ++ drop (off + length b) img)).
Proof.
  intros Hl. repeat case_decide; [|match goal with H : _ \/ _ |- _ => destruct H end|done].
  - rewrite drop_app_ge by (rewrite length_take; lia). rewrite length_take.
    replace (512 * i - off `min` length img)%nat with (512 * i - off)%nat by lia.
    rewrite drop_app_le by lia. rewrite take_app_le by (rewrite length_drop; lia). done.
  - rewrite drop_app_le by (rewrite length_take; lia). rewrite take_app_le by (rewrite length_drop, length_take; lia).
    rewrite skipn_firstn_comm, take_take. f_equal. lia.
  - rewrite app_assoc, drop_app_ge by (rewrite length_app, length_take; lia).
    rewrite length_app, length_take, drop_drop. do 2 f_equal. lia.
Qed.

Section ramdisk.
Context {HW : Type} `{Machine HW}.
Implicit Types a : @ata HW.

(** A RAM disk whose image holds the sectors it announces. *)
Record image_ok (r : ramdisk_t) : Prop := {
  io_count : 0 <= rd_sector_count r;
  io_size : rd_size_bytes r = 512 * rd_sector_count r;
  io_u32 : rd_size_bytes r < 4294967296;
  io_len : rd_size_bytes r <= Z.of_nat (length (rd_data r));
  io_bytes : Forall is_u8 (rd_data r);
}.
Definition ram_ok a : Prop := rd_present (g_ramdisk a) = true -> image_ok (g_ramdisk a).
Definition ram_sectors a (drive : Z) : sectors :=
  if ramdisk_present (g_ramdisk a) drive then sectors_of (rd_data (g_ramdisk a)) (Z.to_nat (rd_sector_count (g_ramdisk a)))
  else ∅.
Definition ram_covers a (drive : Z) : Prop := ramdisk_present (g_ramdisk a) drive = true.

Lemma present_ok a drive : ram_ok a -> ramdisk_present (g_ramdisk a) drive = true -> image_ok (g_ramdisk a).
Proof. intros Ho Hp. apply Ho. unfold ramdisk_present in Hp. by apply andb_true_iff in Hp as [? _]. Qed.

Lemma ram_sector_ok a drive lba b : ram_ok a -> ram_sectors a drive !! lba = Some b -> is_sector b /\ is_u32 lba.
Proof.
  intros Ho. unfold ram_sectors. destruct (ramdisk_present _ _) eqn:Hp; [|by rewrite lookup_empty].
  destruct (present_ok a drive Ho Hp) as [Hc Hs Hu Hl Hb]. rewrite sectors_of_lookup.
  destruct (_ && _) eqn:E; [|done]. intros [= <-]. apply andb_true_iff in E as [?%Z.leb_le ?%Z.ltb_lt].
  split; [|unfold is_u32; lia]. split; [rewrite length_take, length_drop; lia|by apply Forall_take, Forall_drop].
Qed.

(** A run of sectors lies on the RAM disk when the drive number is its own and it ends within it. *)
Lemma has_run_present a drive lba k : ram_ok a -> (1 <= k)%nat -> has_run (ram_sectors a drive) lba k ->
  ramdisk_present (g_ramdisk a) drive = true /\ 0 <= lba /\ lba + Z.of_nat k <= rd_sector_count (g_ramdisk a).
Proof.
  intros Ho Hk Hr. unfold ram_sectors in Hr. destruct (ramdisk_present _ _) eqn:Hp.
  - destruct (present_ok a drive Ho Hp) as [Hc _ _ _ _].
    destruct (Hr 0%nat ltac:(lia)) as [b Hb]. destruct (Hr (k - 1)%nat ltac:(lia)) as [b' Hb'].
    rewrite sectors_of_lookup in Hb, Hb'.
    destruct (_ && _) eqn:E in Hb; [|done]. destruct (_ && _) eqn:E' in Hb'; [|done].
    apply andb_true_iff in E as [?%Z.leb_le ?%Z.ltb_lt]. apply andb_true_iff in E' as [?%Z.leb_le ?%Z.ltb_lt]. lia.
  - destruct (Hr 0%nat ltac:(lia)) as [b Hb]. by rewrite lookup_empty in Hb.
Qed.

(** The offsets that ramdisk_read and ramdisk_write compute do not wrap. *)
Lemma ram_offsets r lba count : image_ok r -> is_u32 lba -> 1 <= count <= 256 ->
  u64 (lba * RAMDISK_SECTOR_SIZE) = 512 * lba /\ u64 (count * RAMDISK_SECTOR_SIZE) = 512 * count /\
  u64 (512 * lba + 512 * count) = 512 * lba + 512 * count.
Proof. intros [] Hl Hc. unfold RAMDISK_SECTOR_SIZE, is_u32 in *. rewrite !u64_small by (unfold is_u64; lia). lia. Qed.

Lemma ram_read a drive lba count :
  ram_ok a -> 1 <= count <= 256 -> has_run (ram_sectors a drive) lba (Z.to_nat count) ->
  ata_read drive lba count a = Ok (Some (get_run (ram_sectors a drive) lba (Z.to_nat count)), a).
Proof.
  intros Ho Hc Hr. destruct (has_run_present a drive lba (Z.to_nat count) Ho ltac:(lia) Hr) as (Hp & Hl & Hle).
  pose proof (present_ok a drive Ho Hp) as Hi. pose proof Hi as [Hcn Hs Hu Hlen Hb].
  destruct (ram_offsets _ lba count Hi ltac:(unfold is_u32; lia) Hc) as (E1 & E2 & E3).
  unfold ata_read, ramdisk_read. rewrite (proj2 (Z.eqb_neq count 0)) by lia. rewrite bind_get, Hp, bind_gets. cbn [negb orb].
  rewrite Hp. cbn [negb]. rewrite (proj2 (Z.eqb_neq count 0)) by lia. rewrite E1, E2, E3.
  rewrite (proj2 (Z.ltb_ge _ _)) by lia. unfold image_get. rewrite (proj2 (Z.leb_le _ _)) by lia. rewrite bind_lift_some.
  unfold ram_sectors. rewrite Hp, sectors_of_run by lia. unfold ret. do 4 f_equal; [lia|]. f_equal. lia.
Qed.

Lemma ram_out a drive lba : ram_ok a -> ram_covers a drive -> is_u32 lba -> ram_sectors a drive !! lba = None ->
  rd_size_bytes (g_ramdisk a) < 512 * lba + 512 * 1.
Proof.
  intros Ho Hp Hu. unfold ram_sectors. rewrite Hp. destruct (present_ok a drive Ho Hp) as [Hcn Hs _ Hlen Hb].
  rewrite sectors_of_lookup. unfold is_u32 in Hu. bdestr; simpl; try done; lia.
Qed.

Lemma ram_read_none a drive lba : ram_ok a -> ram_covers a drive -> is_u32 lba -> ram_sectors a drive !! lba = None ->
  ata_read drive lba 1 a = Ok (None, a).
Proof.
  intros Ho Hp Hu Hn. pose proof (ram_out a drive lba Ho Hp Hu Hn) as Hout. unfold ram_covers in Hp.
  destruct (ram_offsets _ lba 1 (present_ok a drive Ho Hp) Hu ltac:(lia)) as (E1 & E2 & E3).
  unfold ata_read, ramdisk_read. cbn [Z.eqb]. rewrite bind_get, Hp, bind_gets. cbn [negb orb]. rewrite Hp. cbn [negb].
  rewrite E1, E2, E3. rewrite (proj2 (Z.ltb_lt _ _)) by lia. done.
Qed.

Definition with_image a (img : list Z) : ata :=
  let r := g_ramdisk a in
  Mk (hw a) (Ramdisk (rd_present r) (rd_drive r) img (rd_size_bytes r) (rd_sector_count r)) (CH a) (ata_available a)
     (drive_to_ahci a) (drive_to_pata a) (disks a) (disk_count a).

Lemma ram_write a drive lba count b :
  ram_ok a -> 1 <= count <= 256 -> has_run (ram_sectors a drive) lba (Z.to_nat count) ->
  length b = (Z.to_nat count * 512)%nat -> Forall is_u8 b ->
  exists a', ata_write drive lba count b a = Ok (true, a') /\ ram_ok a' /\
    ram_sectors a' drive = put_run (ram_sectors a drive) lba (Z.to_nat count) b /\
    (forall drive', drive' <> drive -> ram_sectors a' drive' = ram_sectors a drive').
Proof.
  intros Ho Hc Hr Hlb Hub. destruct (has_run_present a drive lba (Z.to_nat count) Ho ltac:(lia) Hr) as (Hp & Hl & Hle).
  pose proof (present_ok a drive Ho Hp) as Hi. pose proof Hi as [Hcn Hs Hu Hlen Hb].
  destruct (ram_offsets _ lba count Hi ltac:(unfold is_u32; lia) Hc) as (E1 & E2 & E3).
  set (off := (512 * Z.to_nat lba)%nat).
  set (img := take off (rd_data (g_ramdisk a)) ++ b ++ drop (off + length b) (rd_data (g_ramdisk a))).
  exists (with_image a img). split_and!.
  - unfold ata_write, ramdisk_write. rewrite (proj2 (Z.eqb_neq count 0)) by lia. rewrite bind_get, Hp, bind_gets, Hp. cbn [negb].
    rewrite (proj2 (Z.eqb_neq count 0)) by lia. rewrite E1, E2, E3. rewrite (proj2 (Z.ltb_ge _ _)) by lia.
    unfold image_get, image_set. rewrite (proj2 (Z.leb_le _ _)) by lia. rewrite bind_lift_some, drop_0, take_ge by lia.
    rewrite (proj2 (Z.leb_le _ _)) by lia. rewrite bind_lift_some.
    replace (Z.to_nat (512 * lba)) with off by (subst off; lia). done.
  - intros _. split; try done.
    + cbn. subst img off. rewrite !length_app, length_take, length_drop. lia.
    + subst img. cbn. rewrite !Forall_app. split_and!; [by apply Forall_take|done|by apply Forall_drop].
  - unfold ram_sectors. change (ramdisk_present (g_ramdisk (with_image a img)) drive) with (ramdisk_present (g_ramdisk a) drive).
    rewrite Hp. cbn [with_image g_ramdisk rd_data rd_sector_count]. apply map_eq. intros x.
    destruct (decide (lba <= x < lba + count)) as [Hin|Hout].
    + pose proof (put_run_in (Z.to_nat count) (sectors_of (rd_data (g_ramdisk a)) (Z.to_nat (rd_sector_count (g_ramdisk a)))) lba b (Z.to_nat (x - lba)) ltac:(lia)) as E.
      replace (lba + Z.of_nat (Z.to_nat (x - lba))) with x in E by lia. rewrite E, sectors_of_in by lia. f_equal.
      subst img. rewrite image_set_sector by (subst off; lia). rewrite decide_True by (subst off; lia). subst off. do 2 f_equal. lia.
    + rewrite put_run_out by lia. rewrite !sectors_of_lookup. destruct (_ && _) eqn:E; [|done].
      apply andb_true_iff in E as [?%Z.leb_le ?%Z.ltb_lt]. f_equal. subst img. rewrite image_set_sector by (subst off; lia).
      rewrite decide_False by (subst off; lia). rewrite decide_True by (subst off; lia). done.
  - intros drive' Hne. unfold ram_sectors, with_image, ramdisk_present in *. cbn [g_ramdisk rd_present rd_drive].
    apply andb_true_iff in Hp as [_ Hd%Z.eqb_eq]. rewrite Hd, (proj2 (Z.eqb_neq _ _)) by done. by rewrite andb_false_r.
Qed.

Lemma ram_write_none a drive lba b : ram_ok a -> ram_covers a drive -> is_u32 lba -> ram_sectors a drive !! lba = None ->
  ata_write drive lba 1 b a = Ok (false, a).
Proof.
  intros Ho Hp Hu Hn. pose proof (ram_out a drive lba Ho Hp Hu Hn) as Hout. unfold ram_covers in Hp.
  destruct (ram_offsets _ lba 1 (present_ok a drive Ho Hp) Hu ltac:(lia)) as (E1 & E2 & E3).
  unfold ata_write, ramdisk_write. cbn [Z.eqb]. rewrite bind_get, Hp, bind_gets, Hp. cbn [negb].
  rewrite E1, E2, E3. rewrite (proj2 (Z.ltb_lt _ _)) by lia. done.
Qed.

#[global] Program Instance ram_blockdev_ok : BlockDevOk ata := {|
  dev_ok := ram_ok; dev_sectors := ram_sectors; dev_covers := ram_covers;
  dev_sector_ok := ram_sector_ok;
|}.
Next Obligation. intros a drive lba count Ho Hc Hr. exists a. split_and!; [by apply ram_read|done|done]. Qed.
Next Obligation. intros a drive lba Ho Hp Hu Hn. exists a. split_and!; [by apply (ram_read_none a)|done|done]. Qed.
Next Obligation. intros a drive lba count b Ho Hc Hr Hl Hu. by apply ram_write. Qed.
Next Obligation. intros a drive lba b Ho Hp Hu Hn _. exists a. split_and!; [by apply (ram_write_none a)|done|done]. Qed.
End ramdisk.

(** ** A machine with nothing but a RAM disk of sixteen sectors *)

#[global] Instance no_machine : Machine unit := {|
  hal_in8 _ h := (255, h); hal_in16 _ h := (65535, h); hal_out8 _ _ h := h; hal_out16 _ _ h := h;
  ahci_sata_port_count _ := 0;
  ahci_read_port _ _ _ h := (None, h); ahci_write_port _ _ _ _ h := (false, h); ahci_identify_port _ h := (None, h);
  usb_storage_read_sectors _ _ _ h := (None, h); usb_storage_write_sectors _ _ _ _ h := (false, h);
  usb_storage_get_sector_count _ h := (0, h); usb_storage_sync _ h := (false, h);
|}.
Definition ram16 : @ata unit := Mk tt (Ramdisk true 7 (replicate (512 * 16) 0) 8192 16) [] [] [] [] [] 1.

Lemma zeros_bytes k : Forall is_u8 (replicate k 0).
Proof. apply Forall_replicate. unfold is_u8. lia. Qed.
Lemma ram16_image : ram_ok ram16.
Proof.
  intros _. split; cbn [ram16 g_ramdisk rd_sector_count rd_size_bytes rd_data]; try lia; try apply zeros_bytes.
  rewrite length_replicate. lia.
Qed.

(** ** Properties *)

Section claims.
Context {HW : Type} `{Machine HW}.
Implicit Types a : @ata HW.

(** A run of sectors that ends within the RAM disk. *)
Lemma ram_run a drive lba k : ram_ok a -> ramdisk_present (g_ramdisk a) drive = true -> 0 <= lba ->
  lba + Z.of_nat k <= rd_sector_count (g_ramdisk a) -> has_run (ram_sectors a drive) lba k.
Proof.
  intros Ho Hp Hl Hk i Hi. unfold ram_sectors. rewrite Hp, sectors_of_in by lia. eauto.
Qed.

(** on the drive number of the RAM disk ata_write followed by ata_read returns the bytes that
    were written, for every run of 1 to 256 sectors inside the disk; no other sector changes, the
    image stays well formed, and neither call touches memory outside the image.  A run that ends
    beyond the disk is refused by both and changes nothing. *)
Theorem ata_ramdisk_roundtrip a drive lba count b :
  ram_ok a -> ramdisk_present (g_ramdisk a) drive = true -> is_u32 lba -> 1 <= count <= 256 ->
  length b = (512 * Z.to_nat count)%nat -> Forall is_u8 b ->
  if lba + count <=? rd_sector_count (g_ramdisk a) then
    exists a', ata_write drive lba count b a = Ok (true, a') /\ ram_ok a' /\ ata_read drive lba count a' = Ok (Some b, a') /\
      forall x, x < lba \/ lba + count <= x -> ram_sectors a' drive !! x = ram_sectors a drive !! x
  else ata_write drive lba count b a = Ok (false, a) /\ ata_read drive lba count a = Ok (None, a).
Proof.
  intros Ho Hp Hlu Hc Hl Hu. destruct (Z.leb_spec (lba + count) (rd_sector_count (g_ramdisk a))) as [Hle|Hgt].
  - assert (has_run (ram_sectors a drive) lba (Z.to_nat count)) as Hr by (unfold is_u32 in Hlu; apply ram_run; done || lia).
    destruct (ram_write a drive lba count b Ho Hc Hr ltac:(lia) Hu) as (a' & E & Ho' & Hs & _). exists a'. split_and!; [done|done|..].
    + rewrite ram_read by (done || (rewrite Hs; by apply put_run_has)). rewrite Hs, get_put_run by lia. done.
    + intros x Hx. rewrite Hs. apply put_run_out. lia.
  - pose proof (present_ok a drive Ho Hp) as Hi. pose proof Hi as [_ Hsz _ _ _].
    destruct (ram_offsets _ lba count Hi Hlu Hc) as (E1 & E2 & E3).
    unfold ata_read, ata_write, ramdisk_read, ramdisk_write. rewrite (proj2 (Z.eqb_neq count 0)) by lia.
    rewrite !bind_get, Hp, !bind_gets, Hp. cbn [negb orb]. rewrite (proj2 (Z.eqb_neq count 0)) by lia.
    rewrite E1, E2, E3. rewrite (proj2 (Z.ltb_lt _ _)) by lia. done.
Qed.

Lemma low_bits lba k m : 0 <= k -> k + m <= 28 -> 0 <= m ->
  Z.land (Z.shiftr (lba mod 2 ^ 28) k) (2 ^ m - 1) = Z.land (Z.shiftr lba k) (2 ^ m - 1).
Proof.
  intros Hk Hm H0. apply Z.bits_inj_iff'. intros i Hi. rewrite !Z.land_spec, !Z.shiftr_spec by lia.
  replace (2 ^ m - 1) with (Z.ones m) by (rewrite Z.ones_equiv; lia).
  destruct (Z.ltb_spec i m).
  - rewrite Z.mod_pow2_bits_low by lia. done.
  - by rewrite Z.ones_spec_high, !andb_false_r by lia.
Qed.

(** the parallel ATA path sends 28 bits of the sector number: reading or writing sector lba
    does exactly what reading or writing sector lba modulo 2^28 does, so on a drive of more than
    128 GiB the sectors from 2^28 on alias the first ones. *)
Theorem pata_lba28_alias drive lba count b a :
  pata_read drive lba count a = pata_read drive (lba mod 268435456) count a /\
  pata_write drive lba count b a = pata_write drive (lba mod 268435456) count b a.
Proof.
  assert (forall cmd, pata_command drive lba count cmd = pata_command drive (lba mod 268435456) count cmd) as E.
  { intros cmd. unfold pata_command, set_dev_lba28. change 268435456 with (2 ^ 28).
    change 0xFF with (2 ^ 8 - 1). change 0x0F with (2 ^ 4 - 1).
    rewrite (low_bits lba 8 8), (low_bits lba 16 8), (low_bits lba 24 4) by lia.
    pose proof (low_bits lba 0 8 ltac:(lia) ltac:(lia) ltac:(lia)) as E0. rewrite !Z.shiftr_0_r in E0. by rewrite E0. }
  unfold pata_read, pata_write. by rewrite !E.
Qed.
End claims.

Lemma ata_ramdisk_roundtrip_witness :
  exists a', ata_write 7 3 1 (replicate 512 65) ram16 = Ok (true, a') /\ ata_read 7 3 1 a' = Ok (Some (replicate 512 65), a').
Proof.
  destruct (ata_ramdisk_roundtrip ram16 7 3 1 (replicate 512 65) ram16_image eq_refl) as (a' & E1 & _ & E2 & _).
  - unfold is_u32. lia.
  - lia.
  - reflexivity.
  - apply Forall_replicate. unfold is_u8. lia.
  - exists a'. split; [exact E1|exact E2].
Defined.
End Ata.
