(* ===== verification/Disk.v ===== *)
(** * Disk detection (fs/disk.c, ramdisk_attach of drivers/ramdisk.c)

    Which file system a drive holds, the table of disks, attaching the RAM disk, and the
    deferred rescan that interrupt handlers request. *)
From S2P Require Import Prelude BlockDev Ata.
Import Ata.

Module Disk.

Inductive fs_kind := FSQ_NONE | FSQ_UNKNOWN | FSQ_MBR | FSQ_FAT16 | FSQ_FAT32 | FSQ_XVFS.

Definition has_55aa (sec : list Z) : bool := (nth 510 sec 0 =? 0x55) && (nth 511 sec 0 =? 0xAA).
(** memcmp(sec + off, sig, length) == 0 *)
Definition sig_at (sec : list Z) (off : nat) (sig : list Z) : bool := bool_decide (take (length sig) (drop off sec) = sig).

(** "FAT16   ", "FAT32   ", "XVFS2", "NTFS" *)
Definition sig_FAT16 : list Z := [70; 65; 84; 49; 54; 32; 32; 32].
Definition sig_FAT32 : list Z := [70; 65; 84; 51; 50; 32; 32; 32].
Definition sig_XVFS2 : list Z := [88; 86; 70; 83; 50].
Definition sig_NTFS : list Z := [78; 84; 70; 83].
Definition XVFS_MAGIC : Z := 0x58564653.

Definition is_fat_sig (sec sig8 : list Z) : bool := sig_at sec 0x36 sig8 || sig_at sec 0x52 sig8.

(** The partition table: type and first sector of entry i *)
Definition part_type (sec : list Z) (i : nat) : Z := nth (0x1BE + 16 * i + 4) sec 0.
Definition part_lba (sec : list Z) (i : nat) : Z := get32 sec (0x1BE + 16 * i + 8).

Section disk.
Context {HW : Type} `{Machine HW}.
Abbreviation A X := (M (@ata HW) X).

Definition is_xvfs_sig_at (drive base_lba : Z) : A bool :=
  r0 <- ata_read drive (u32 (base_lba + 0)) 1;;
  match r0 with
  | None => ret false
  | Some sec0 =>
    if negb (sig_at sec0 0 sig_XVFS2) then ret false
    else
      r1 <- ata_read drive (u32 (base_lba + 1)) 1;;
      ret (match r1 with None => false | Some sec1 => get32 sec1 0 =? XVFS_MAGIC end)
  end.
Definition is_xvfs_sig (drive : Z) : A bool := is_xvfs_sig_at drive 0.

(** The first partition in use decides. *)
Definition first_part (sec : list Z) : option nat := List.find (fun i => negb (part_type sec i =? 0)) (seq 0 4).

Definition fs_quick_probe (drive : Z) : A (fs_kind * Z) :=
  r <- ata_read drive 0 1;;
  match r with
  | None => ret (FSQ_NONE, 0)
  | Some sec =>
    if negb (has_55aa sec) then ret (FSQ_UNKNOWN, 0)
    else
      x <- is_xvfs_sig drive;;
      if x then ret (FSQ_XVFS, 0)
      else if is_fat_sig sec sig_FAT16 then ret (FSQ_FAT16, 0)
      else if is_fat_sig sec sig_FAT32 then ret (FSQ_FAT32, 0)
      else
        match first_part sec with
        | None => ret (FSQ_UNKNOWN, 0)
        | Some i =>
          let base := part_lba sec i in
          r1 <- ata_read drive base 1;;
          match r1 with
          | None => ret (FSQ_MBR, base)
          | Some sec1 =>
            if negb (has_55aa sec1) then ret (FSQ_MBR, base)
            else if is_fat_sig sec1 sig_FAT16 then ret (FSQ_FAT16, base)
            else if is_fat_sig sec1 sig_FAT32 then ret (FSQ_FAT32, base)
            else
              x <- is_xvfs_sig_at drive base;;
              if x then ret (FSQ_XVFS, base) else ret (FSQ_MBR, base)
          end
        end
  end.

(** The strings "FAT16", "FAT32", "XVFS", "MBR", "Unknown" *)
Definition kind_name (k : fs_kind) : list Z :=
  match k with
  | FSQ_FAT16 => [70; 65; 84; 49; 54]
  | FSQ_FAT32 => [70; 65; 84; 51; 50]
  | FSQ_XVFS => [88; 86; 70; 83]
  | FSQ_MBR => [77; 66; 82]
  | _ => s_Unknown
  end.

Definition put_disk (d : Z) (i : DiskInfo) : A unit :=
  l <- gets disks;; l' <- lift_opt (lset l d i);; set_disks l'.

(** One round of the loop of detect_disks_quick *)
Definition detect_one (d : Z) : A unit :=
  r <- fs_quick_probe d;;
  let '(kind, base) := r in
  match kind with
  | FSQ_NONE => put_disk d (Disk false d s_None 0)
  | _ =>
    r1 <- ata_read d base 1;;
    let ntfs := match r1 with Some sec => sig_at sec 0x03 sig_NTFS || sig_at sec 0x52 sig_NTFS | None => false end in
    put_disk d (Disk true d (kind_name (if ntfs then FSQ_UNKNOWN else kind)) base);;;
    c <- gets disk_count;; set_disk_count (c + 1)
  end.
Fixpoint detect_loop (k : nat) (d : Z) : A unit :=
  match k with
  | O => ret tt
  | S k' => detect_one d;;; detect_loop k' (d + 1)
  end.
Definition detect_disks_quick : A unit := set_disk_count 0;;; ata_refresh_drive_map;;; detect_loop MAX_DISKS 0.

(** ** Attaching the RAM disk *)

Definition ramdisk_recount_disks : A unit :=
  l <- gets disks;; set_disk_count (Z.of_nat (length (List.filter dk_present (take MAX_DISKS l)))).

(** The highest slot of the table that is not in use *)
Fixpoint free_drive_loop (k : nat) (l : list DiskInfo) : option Z :=
  match k with
  | O => None
  | S k' => match l !! k' with
            | Some d => if dk_present d then free_drive_loop k' l else Some (Z.of_nat k')
            | None => None
            end
  end.
Definition ramdisk_find_free_drive (l : list DiskInfo) : Z := default (-1) (free_drive_loop MAX_DISKS l).

(** data is the image, None for the NULL pointer; the result is the drive number. *)
Definition ramdisk_attach (drive : Z) (data : option (list Z)) (size_bytes : Z) : A (option Z) :=
  a <- get;;
  if rd_present (g_ramdisk a) then ret None
  else
    match data with
    | None => ret None
    | Some img =>
      if size_bytes <? RAMDISK_SECTOR_SIZE then ret None
      else
        let size_bytes := Z.land size_bytes (not32 (RAMDISK_SECTOR_SIZE - 1)) in
        if size_bytes <? RAMDISK_SECTOR_SIZE then ret None
        else
          let free_id := ramdisk_find_free_drive (disks a) in
          if (drive =? RAMDISK_DRIVE_AUTO) && (free_id <? 0) then ret None
          else
            let drive := if drive =? RAMDISK_DRIVE_AUTO then u8 free_id else drive in
            if Z.of_nat MAX_DISKS <=? drive then ret None
            else
              info <- lift_opt (lget (disks a) drive);;
              if dk_present info then ret None
              else
                set_ramdisk (Ramdisk true drive img size_bytes (size_bytes / RAMDISK_SECTOR_SIZE));;;
                r <- fs_quick_probe drive;;
                let '(kind, base) := r in
                put_disk drive (Disk true drive (kind_name kind) base);;;
                ramdisk_recount_disks;;;
                ret (Some drive)
    end.
End disk.

(** ** Probing a RAM disk *)

Section probe.
Context {HW : Type} `{Machine HW}.
Implicit Types a : @ata HW.

(** Reading one sector of the RAM disk: what the image holds there, or nothing. *)
Lemma ram_read_one a drive lba : ram_ok a -> ram_covers a drive -> is_u32 lba ->
  ata_read drive lba 1 a = Ok (ram_sectors a drive !! lba, a).
Proof.
  intros Ho Hp Hu. destruct (ram_sectors a drive !! lba) as [b|] eqn:E; [|by apply ram_read_none].
  rewrite ram_read; [|done|lia|].
  - change (Z.to_nat 1) with 1%nat. cbn [get_run]. rewrite E. cbn [from_option]. unfold id. by rewrite app_nil_r.
  - intros i Hi. replace (lba + Z.of_nat i) with lba by lia. eauto.
Qed.

Lemma xvfs_sig_total a drive base : ram_ok a -> ram_covers a drive -> is_u32 base ->
  exists x, is_xvfs_sig_at drive base a = Ok (x, a).
Proof.
  intros Ho Hp Hb. unfold is_xvfs_sig_at. rewrite (bind_ok _ _ _ _ _ (ram_read_one a drive _ Ho Hp (u32_range _))).
  destruct (_ !! u32 (base + 0)) as [sec0|]; [|by exists false]. destruct (negb _); [by exists false|].
  rewrite (bind_ok _ _ _ _ _ (ram_read_one a drive _ Ho Hp (u32_range _))). by eexists.
Qed.

(** The probe of a RAM disk ends and only reads. *)
Lemma probe_total a drive : ram_ok a -> ram_covers a drive ->
  exists kind base, fs_quick_probe drive a = Ok ((kind, base), a).
Proof.
  intros Ho Hp. unfold fs_quick_probe.
  rewrite (bind_ok _ _ _ _ _ (ram_read_one a drive 0 Ho Hp ltac:(unfold is_u32; lia))).
  destruct (ram_sectors a drive !! 0) as [sec|] eqn:Es; [|by do 2 eexists].
  destruct (ram_sector_ok a drive 0 sec Ho Es) as [[_ Hu] _].
  destruct (negb _); [by do 2 eexists|].
  destruct (xvfs_sig_total a drive 0 Ho Hp ltac:(unfold is_u32; lia)) as (x & Ex).
  unfold is_xvfs_sig. rewrite (bind_ok _ _ _ _ _ Ex). destruct x; [by do 2 eexists|].
  destruct (is_fat_sig sec sig_FAT16); [by do 2 eexists|]. destruct (is_fat_sig sec sig_FAT32); [by do 2 eexists|].
  destruct (first_part sec) as [i|]; [|by do 2 eexists].
  pose proof (get32_u32 sec (0x1BE + 16 * i + 8) Hu) as Hb. fold (part_lba sec i) in Hb.
  rewrite (bind_ok _ _ _ _ _ (ram_read_one a drive _ Ho Hp Hb)).
  destruct (ram_sectors a drive !! part_lba sec i) as [sec1|]; [|by do 2 eexists].
  destruct (negb _); [by do 2 eexists|]. destruct (is_fat_sig sec1 sig_FAT16); [by do 2 eexists|].
  destruct (is_fat_sig sec1 sig_FAT32); [by do 2 eexists|].
  destruct (xvfs_sig_total a drive (part_lba sec i) Ho Hp Hb) as (y & Ey). rewrite (bind_ok _ _ _ _ _ Ey).
  destruct y; by do 2 eexists.
Qed.

(** ** Attaching *)

(** The drive number that an attachment gets *)
Definition attach_slot (drive : Z) (l : list DiskInfo) : Z :=
  if drive =? RAMDISK_DRIVE_AUTO then ramdisk_find_free_drive l else drive.

Lemma sector_trim size : is_u32 size -> Z.land size (not32 (RAMDISK_SECTOR_SIZE - 1)) = 512 * (size / 512).
Proof. intros Hu. change (RAMDISK_SECTOR_SIZE - 1) with (2 ^ 9 - 1). rewrite align_mask by done. change (2 ^ 9) with 512. lia. Qed.

Lemma attach_ok a drive img size i :
  rd_present (g_ramdisk a) = false -> length (disks a) = 8%nat ->
  is_u32 size -> 512 <= size -> size <= Z.of_nat (length img) -> Forall is_u8 img ->
  let d := attach_slot drive (disks a) in
  0 <= d < 8 -> lget (disks a) d = Some i -> dk_present i = false ->
  exists a' kind base, ramdisk_attach drive (Some img) size a = Ok (Some d, a') /\ ram_ok a' /\
    g_ramdisk a' = Ramdisk true d img (512 * (size / 512)) (size / 512) /\
    disks a' = <[Z.to_nat d := Disk true d (kind_name kind) base]> (disks a) /\
    disk_count a' = Z.of_nat (length (List.filter dk_present (disks a'))).
Proof.
  intros Hnp Hl8 Hu Hmin Hlen Hb d Hd Hi Hpi. unfold ramdisk_attach. rewrite bind_get, Hnp.
  rewrite (proj2 (Z.ltb_ge size RAMDISK_SECTOR_SIZE)) by (unfold RAMDISK_SECTOR_SIZE; lia). rewrite sector_trim by done.
  assert (512 <= 512 * (size / 512) <= size) as Hq by (Z.div_mod_to_equations; lia).
  rewrite (proj2 (Z.ltb_ge _ RAMDISK_SECTOR_SIZE)) by (unfold RAMDISK_SECTOR_SIZE; lia).
  assert ((drive =? RAMDISK_DRIVE_AUTO) && (ramdisk_find_free_drive (disks a) <? 0) = false) as ->.
  { unfold d, attach_slot in Hd. destruct (drive =? RAMDISK_DRIVE_AUTO); [|done]. apply Z.ltb_ge. lia. }
  assert ((if drive =? RAMDISK_DRIVE_AUTO then u8 (ramdisk_find_free_drive (disks a)) else drive) = d) as ->.
  { unfold d, attach_slot in *. destruct (drive =? RAMDISK_DRIVE_AUTO); [|done]. apply u8_small. unfold is_u8. lia. }
  rewrite (proj2 (Z.leb_gt _ d)) by (unfold MAX_DISKS; lia). rewrite Hi, bind_lift_some, Hpi.
  assert (512 * (size / 512) / RAMDISK_SECTOR_SIZE = size / 512) as ->
    by (unfold RAMDISK_SECTOR_SIZE; rewrite (Z.mul_comm 512); apply Z.div_mul; lia).
  unfold set_ramdisk at 1. rewrite bind_modify. set (r := Ramdisk _ _ _ _ _). set (a1 := Mk _ r _ _ _ _ _ _).
  assert (ram_ok a1) as Ho.
  { intros _. split; cbn [a1 r g_ramdisk rd_sector_count rd_size_bytes rd_data]; unfold is_u32 in Hu; lia || done. }
  assert (ram_covers a1 d) as Hp by (unfold ram_covers; cbn; by rewrite Z.eqb_refl).
  destruct (probe_total a1 d Ho Hp) as (kind & base & Ek). rewrite (bind_ok _ _ _ _ _ Ek). cbn beta iota.
  unfold put_disk. rewrite bind_bind, bind_gets. change (disks a1) with (disks a). rewrite lset_in by lia.
  rewrite bind_bind, bind_lift_some. unfold set_disks. rewrite bind_modify. unfold ramdisk_recount_disks.
  rewrite bind_bind, bind_gets. unfold set_disk_count. rewrite bind_modify. eexists _, kind, base. split_and!.
  - reflexivity.
  - exact Ho.
  - reflexivity.
  - reflexivity.
  - cbn [disks disk_count]. rewrite take_ge by (rewrite length_insert; unfold MAX_DISKS; lia). done.
Qed.

(** attaching an image of at least one sector to a free slot of the table, the slot asked for
    or the highest free one, succeeds: the RAM disk has the whole sectors of the image, its
    content satisfies what the block device promises, the slot and only the slot is entered in
    the table with what the probe found, the count of disks is the number of entries in use, and
    from then on every further attachment is refused without effect. *)
Theorem ramdisk_attach_installs a drive img size i :
  rd_present (g_ramdisk a) = false -> length (disks a) = 8%nat ->
  is_u32 size -> 512 <= size -> size <= Z.of_nat (length img) -> Forall is_u8 img ->
  let d := attach_slot drive (disks a) in
  0 <= d < 8 -> lget (disks a) d = Some i -> dk_present i = false ->
  exists a' kind base, ramdisk_attach drive (Some img) size a = Ok (Some d, a') /\ ram_ok a' /\
    g_ramdisk a' = Ramdisk true d img (512 * (size / 512)) (size / 512) /\
    disks a' = <[Z.to_nat d := Disk true d (kind_name kind) base]> (disks a) /\
    disk_count a' = Z.of_nat (length (List.filter dk_present (disks a'))) /\
    forall drive' img' size', ramdisk_attach drive' img' size' a' = Ok (None, a').
Proof.
  intros Hnp Hl8 Hu Hmin Hlen Hb d Hd Hi Hpi.
  destruct (attach_ok a drive img size i Hnp Hl8 Hu Hmin Hlen Hb Hd Hi Hpi) as (a' & kind & base & E & Ho & Hr & Hdk & Hc).
  exists a', kind, base. split_and!; try done. intros drive' img' size'. unfold ramdisk_attach. rewrite bind_get, Hr. done.
Qed.
End probe.

Definition no_disk : DiskInfo := Disk false 0 [] 0.
Definition bare : @ata unit := Mk tt (Ramdisk false 0 [] 0 0) [] [] [] [] (replicate 8 no_disk) 0.

Lemma ramdisk_attach_installs_witness :
  exists a', ramdisk_attach RAMDISK_DRIVE_AUTO (Some (replicate 1000 0)) 1000 bare = Ok (Some 7, a') /\
    rd_sector_count (g_ramdisk a') = 1.
Proof.
  destruct (ramdisk_attach_installs bare RAMDISK_DRIVE_AUTO (replicate 1000 0) 1000 no_disk) as (a' & kind & base & E & _ & Hr & _).
  - reflexivity.
  - reflexivity.
  - unfold is_u32. lia.
  - lia.
  - rewrite length_replicate. lia.
  - apply zeros_bytes.
  - vm_compute. split; [discriminate|reflexivity].
  - reflexivity.
  - reflexivity.
  - exists a'. split; [exact E|]. rewrite Hr. reflexivity.
Defined.
End Disk.
