(* ===== verification/Rescan.v ===== *)
(** * The deferred disk rescan (disk_request_rescan and disk_rescan_work of fs/disk.c)

    Interrupt handlers ask for a rescan; one work item at a time does it, and requests that come
    while it runs make it run again.  The sections with interrupts disabled are the atomic steps;
    between them other requests and the work item interleave. *)
From S2P Require Import Prelude.

Module Rescan.

(** Where the work item is: not running, about to scan, or between the scan and the check *)
Inductive worker := Idle | Scan | CheckAgain.

(** The two flags, whether a requester has set pending and not yet enqueued the work item,
    whether the item is in the work queue, and the worker; [owed] is a ghost: a request was made
    and no scan has started since. *)
Record rescan := Mk {
  disk_rescan_pending : bool; disk_rescan_again : bool;
  enqueuing : bool; queued : bool; work : worker; owed : bool;
}.

Definition start : rescan := Mk false false false false Idle false.

(** The first critical section of disk_request_rescan; the result tells whether to enqueue. *)
Definition request (s : rescan) : bool * rescan :=
  if negb (disk_rescan_pending s) then (true, Mk true (disk_rescan_again s) true (queued s) (work s) true)
  else (false, Mk (disk_rescan_pending s) true (enqueuing s) (queued s) (work s) true).
(** workqueue_enqueue and, where it fails, the second critical section *)
Definition enqueue (ok : bool) (s : rescan) : rescan :=
  if ok then Mk (disk_rescan_pending s) (disk_rescan_again s) false true (work s) (owed s)
  else Mk false (disk_rescan_again s) false (queued s) (work s) (owed s).
(** The work queue calls disk_rescan_work. *)
Definition begin_work (s : rescan) : rescan :=
  Mk (disk_rescan_pending s) (disk_rescan_again s) (enqueuing s) false Scan (owed s).
(** detect_disks_quick *)
Definition scan (s : rescan) : rescan :=
  Mk (disk_rescan_pending s) (disk_rescan_again s) (enqueuing s) (queued s) CheckAgain false.
(** The critical section of disk_rescan_work: around again, or done *)
Definition check_again (s : rescan) : rescan :=
  if disk_rescan_again s then Mk (disk_rescan_pending s) false (enqueuing s) (queued s) Scan (owed s)
  else Mk false (disk_rescan_again s) (enqueuing s) (queued s) Idle (owed s).

(** The steps of requesters and worker; [full] says whether the work queue may be full. *)
Inductive step (full : bool) : rescan -> rescan -> Prop :=
| step_request s b s' : request s = (b, s') -> step full s s'
| step_enqueue s : enqueuing s = true -> step full s (enqueue true s)
| step_enqueue_full s : enqueuing s = true -> full = true -> step full s (enqueue false s)
| step_begin s : queued s = true -> work s = Idle -> step full s (begin_work s)
| step_scan s : work s = Scan -> step full s (scan s)
| step_check s : work s = CheckAgain -> step full s (check_again s).

Definition reachable (full : bool) : rescan -> Prop := rtc (step full) start.

(** How many of the three places hold the rescan *)
Definition holders (s : rescan) : nat :=
  (if enqueuing s then 1 else 0) + (if queued s then 1 else 0) + (match work s with Idle => 0 | _ => 1 end).

(** pending is set exactly while one requester, the queue or the worker holds the rescan, and a
    request that no scan has answered yet has one ahead of it. *)
Record inv (s : rescan) : Prop := {
  inv_pending : holders s = if disk_rescan_pending s then 1%nat else 0%nat;
  inv_owed : owed s = true -> enqueuing s = true \/ queued s = true \/ work s = Scan \/ disk_rescan_again s = true;
  inv_again : disk_rescan_again s = true -> disk_rescan_pending s = true;
}.

Lemma rescan_start : inv start.
Proof. by split. Qed.

Lemma rescan_step s s' : inv s -> step false s s' -> inv s'.
Proof.
  intros [Hp Ho Ha] Hs. destruct s as [[] [] [] [] [] o]; cbn in Hp, Ho, Ha; try discriminate Hp; try (discriminate (Ha eq_refl)).
  all: inversion Hs as [? b ? Hreq|? He|? He|? Hq Hw|? Hw|? Hw]; subst; cbn in *; try discriminate; simplify_eq.
  all: split; cbn; intuition congruence.
Qed.

Lemma rescan_rtc s0 s : rtc (step false) s0 s -> inv s0 -> inv s.
Proof. induction 1 as [|? ? ? Hs _ IH]; [auto|]. intros Hi. by eapply IH, rescan_step. Qed.
Lemma rescan_reachable s : reachable false s -> inv s.
Proof. intros Hr. eapply rescan_rtc; [exact Hr|apply rescan_start]. Qed.

(** ** Properties *)

(** C16: while the work queue takes the work item, no rescan request is lost and no two rescans
    overlap: in every reachable state at most one of requester, queue and worker holds the
    rescan, a request that no scan has answered is still going to be answered, and when all is
    quiet every request has been followed by a scan. *)
Theorem rescan_no_lost_request s :
  reachable false s ->
  (holders s <= 1)%nat /\
  (owed s = true -> enqueuing s = true \/ queued s = true \/ work s = Scan \/ (work s = CheckAgain /\ disk_rescan_again s = true)) /\
  (enqueuing s = false -> queued s = false -> work s = Idle -> owed s = false).
Proof.
  intros [Hp Ho Ha]%rescan_reachable. destruct s as [p g e q w o]. unfold holders in *. cbn in *. split_and!.
  - rewrite Hp. by destruct p; lia.
  - intros Howed. destruct (Ho Howed) as [?|[?|[?|Hg]]]; auto. rewrite (Ha Hg) in Hp.
    destruct e, q, w; cbn in *; try lia; auto.
  - intros -> -> ->. destruct o; [|done]. destruct (Ho eq_refl) as [?|[?|[?|Hg]]]; try done.
    rewrite (Ha Hg) in Hp. cbn in Hp. lia.
Qed.

Definition after_request : rescan := Mk true false true false Idle true.
Lemma rescan_no_lost_request_witness :
  owed (scan (begin_work (enqueue true after_request))) = false /\ (holders (begin_work (enqueue true after_request)) <= 1)%nat.
Proof.
  split; [reflexivity|]. apply (rescan_no_lost_request (begin_work (enqueue true after_request))).
  eapply rtc_l; [by apply (step_request false start true after_request)|].
  eapply rtc_l; [by apply step_enqueue|]. eapply rtc_l; [by apply step_begin|]. apply rtc_refl.
Defined.

(** With a full work queue a request made while another requester is between its two critical
    sections is lost: nothing is queued or running, and no flag remembers it. *)
Lemma rescan_full_queue_loses :
  exists s, reachable true s /\ owed s = true /\ holders s = 0%nat /\ disk_rescan_pending s = false.
Proof.
  exists (Mk false true false false Idle true). split_and!; [|done..].
  eapply rtc_l; [by apply (step_request true start true after_request)|].
  eapply rtc_l; [by apply (step_request true _ false (Mk true true true false Idle true))|].
  eapply rtc_l; [by apply (step_enqueue_full true (Mk true true true false Idle true))|]. apply rtc_refl.
Qed.

End Rescan.
