(* ===== verification/Xvfs.v ===== *)
(** * XVFS: the native file system (fs/xvfs.c)

    The volume: sector 0 holds the signature "XVFS2", sector 1 the superblock, sectors from
    bitmap_start on a bitmap of the blocks, and from data_start on the blocks, the first of
    which is the root directory.  A directory is one block of twenty 25-byte entries; a file is
    a run of consecutive blocks.

    A C string is the list of its characters (without the NUL), a pointer that the code
    compares with NULL an option, a 512-byte buffer the list of its bytes.  Where the code
    uses a buffer without looking at the result of the read that fills it, a failed read is a
    fault: the bytes are indeterminate.  The terminal output is left out, except for the bytes
    that xvfs_cat prints; the calls of fscmd_write_progress_update are logged. *)
From S2P Require Import Prelude BlockDev.
From S2P Require Libc Path.

Module Xvfs.

Definition XVFS_MAGIC : Z := 0x58564653.
Definition XVFS_BLOCK_SIZE : Z := 512.
Definition XVFS_MAX_NAME : nat := 16.
Definition CAT_BUF_SIZE : Z := 4096.
(** sizeof(XVFS_FileEntry), and the number of entries of a directory block *)
Definition ENTRY : nat := 25.
Definition XVFS_MAX_FILES : nat := 20.
Definition DELETED : Z := 229.
Definition SLASH : Z := 47.
Definition DOT : Z := 46.
Definition BITS_PER_BLOCK : Z := 4096.

Record XVFS_Superblock := {
  magic : Z; block_size : Z; total_blocks : Z; bitmap_start : Z;
  data_start : Z; free_blocks : Z; root_dir_block : Z;
}.

Record XVFS_FileEntry := { fe_name : list Z; fe_start : Z; fe_size : Z; fe_attr : Z }.

(** ** Structures in a buffer *)

Definition zeros (n : nat) : list Z := replicate n 0.

(** The bytes of a superblock and back: memcpy between the structure and a sector. *)
Definition sb_bytes (s : XVFS_Superblock) : list Z :=
  bytes32 (magic s) ++ bytes32 (block_size s) ++ bytes32 (total_blocks s) ++ bytes32 (bitmap_start s) ++
  bytes32 (data_start s) ++ bytes32 (free_blocks s) ++ bytes32 (root_dir_block s).
Definition sb_of (b : list Z) : XVFS_Superblock :=
  {| magic := get32 b 0; block_size := get32 b 4; total_blocks := get32 b 8; bitmap_start := get32 b 12;
     data_start := get32 b 16; free_blocks := get32 b 20; root_dir_block := get32 b 24 |}.

Definition entry_bytes (e : XVFS_FileEntry) : list Z :=
  fe_name e ++ bytes32 (fe_start e) ++ bytes32 (fe_size e) ++ [fe_attr e].
Definition entry_of (b : list Z) : XVFS_FileEntry :=
  {| fe_name := take 16 b; fe_start := get32 b 16; fe_size := get32 b 20; fe_attr := nth 24 b 0 |}.

(** ((XVFS_FileEntry * )buf)[i], read and assigned *)
Definition entry_at (buf : list Z) (i : nat) : XVFS_FileEntry := entry_of (take ENTRY (drop (ENTRY * i) buf)).
Definition set_entry (buf : list Z) (i : nat) (e : XVFS_FileEntry) : list Z :=
  take (ENTRY * i) buf ++ entry_bytes e ++ drop (ENTRY * i + ENTRY) buf.

(** ** C strings as lists *)

(** strncmp on two character arrays, a NUL after the last character of each *)
Fixpoint strncmp (n : nat) (a b : list Z) : Z :=
  match n with
  | O => 0
  | S n' =>
    let x := hd 0 a in let y := hd 0 b in
    if negb (x =? y) then x - y else if x =? 0 then 0 else strncmp n' (tl a) (tl b)
  end.
(** strcmp with a literal b stops at the NUL of b at the latest. *)
Definition strcmp (a b : list Z) : Z := strncmp (S (length b)) a b.
(** strncpy into an array that holds n characters: the characters, then NULs *)
Definition strncpy (n : nat) (s : list Z) : list Z := take n s ++ zeros (n - length s).

(** entry[i].name[0] is 0x00 or 0xE5: the slot holds no file. *)
Definition unused (e : XVFS_FileEntry) : bool := let c := hd 0 (fe_name e) in (c =? 0) || (c =? DELETED).
Definition named (n : list Z) (e : XVFS_FileEntry) : bool := negb (unused e) && (strncmp XVFS_MAX_NAME (fe_name e) n =? 0).
Definition is_dir_entry (e : XVFS_FileEntry) : bool := Z.testbit (fe_attr e) 0.

(** for (i = 0; i < 20; i++) if (p(entry[i])) break; *)
Fixpoint scan_entries (k : nat) (p : XVFS_FileEntry -> bool) (buf : list Z) (i : nat) : option nat :=
  match k with
  | O => None
  | S k' => if p (entry_at buf i) then Some i else scan_entries k' p buf (S i)
  end.
Definition find_entry (p : XVFS_FileEntry -> bool) (buf : list Z) : option nat := scan_entries XVFS_MAX_FILES p buf 0.

Section ops.
Context {D : Type} `{BlockDev D}.
(** The bytes that lie behind the 500-byte array of twenty entries on the stack, of which
    writing the array as a sector takes twelve. *)
Context (beyond : list Z).

Record xvfs := Mk {
  dev : D; sb : XVFS_Superblock; xvfs_base_lba : Z; xvfs_drive : Z;
  current_dir_block : Z; current_path : list Z; progress : list Z;
}.

Abbreviation X A := (M xvfs A).

Definition on_dev {A} (c : M D A) : X A := fun s =>
  match c (dev s) with
  | Ok (a, d) => Ok (a, Mk d (sb s) (xvfs_base_lba s) (xvfs_drive s) (current_dir_block s) (current_path s) (progress s))
  | Fault => Fault
  | NoFuel => NoFuel
  end.
Definition set_sb (b : XVFS_Superblock) : X unit :=
  modify (fun s => Mk (dev s) b (xvfs_base_lba s) (xvfs_drive s) (current_dir_block s) (current_path s) (progress s)).
Definition set_cwd (b : Z) (p : list Z) : X unit :=
  modify (fun s => Mk (dev s) (sb s) (xvfs_base_lba s) (xvfs_drive s) b p (progress s)).
Definition mount (drive base : Z) (b : XVFS_Superblock) (cur : Z) : X unit :=
  modify (fun s => Mk (dev s) b base drive cur (current_path s) (progress s)).
Definition fscmd_write_progress_update (w : Z) : X unit :=
  modify (fun s => Mk (dev s) (sb s) (xvfs_base_lba s) (xvfs_drive s) (current_dir_block s) (current_path s) (progress s ++ [w])).
Definition set_free (n : Z) (b : XVFS_Superblock) : XVFS_Superblock :=
  {| magic := magic b; block_size := block_size b; total_blocks := total_blocks b; bitmap_start := bitmap_start b;
     data_start := data_start b; free_blocks := n; root_dir_block := root_dir_block b |}.

Definition read_block (lba : Z) : X (option (list Z)) :=
  base <- gets xvfs_base_lba;; drive <- gets xvfs_drive;; on_dev (ata_read_sector drive (u32 (base + lba))).
Definition write_block (lba : Z) (b : list Z) : X bool :=
  base <- gets xvfs_base_lba;; drive <- gets xvfs_drive;; on_dev (ata_write_sector drive (u32 (base + lba)) b).
(** A read whose result the code ignores before it uses the buffer. *)
Definition read_unchecked (lba : Z) : X (list Z) := r <- read_block lba;; lift_opt r.

(** ** Mounting *)

(** "XVFS2" *)
Definition SIGNATURE : list Z := [88; 86; 70; 83; 50].

Definition probe_xvfs (drive base_lba : Z) : X (option XVFS_Superblock) :=
  r0 <- on_dev (ata_read drive (u32 (base_lba + 0)) 1);;
  match r0 with
  | None => ret None
  | Some sec0 =>
    if negb (bool_decide (take 5 sec0 = SIGNATURE)) then ret None
    else
      r1 <- on_dev (ata_read drive (u32 (base_lba + 1)) 1);;
      match r1 with
      | None => ret None
      | Some sec1 =>
        let tmp := sb_of sec1 in
        if negb (magic tmp =? XVFS_MAGIC) || negb (block_size tmp =? 512) then ret None else ret (Some tmp)
      end
  end.

Definition xvfs_init (drive base_lba : Z) : X bool :=
  r <- probe_xvfs drive base_lba;;
  match r with
  | None => ret false
  | Some sb_local => mount drive base_lba sb_local (data_start sb_local);;; ret true
  end.

(** ** The block bitmap *)

Definition xvfs_mark_block (block : Z) (used : bool) : X unit :=
  s <- gets sb;;
  let blk := block / BITS_PER_BLOCK in
  let bit_index := block mod BITS_PER_BLOCK in
  let byte_index := bit_index / 8 in
  let bit := u8 (Z.shiftl 1 (bit_index mod 8)) in
  bitbuf <- read_unchecked (u32 (bitmap_start s + blk));;
  old <- lift_opt (lget bitbuf byte_index);;
  bitbuf' <-
    (if used then
       if Z.land old bit =? 0 then
         b <- lift_opt (lset bitbuf byte_index (Z.lor old bit));;
         (if 0 <? free_blocks s then set_sb (set_free (free_blocks s - 1) s) else ret tt);;; ret b
       else ret bitbuf
     else
       if Z.land old bit =? 0 then ret bitbuf
       else
         b <- lift_opt (lset bitbuf byte_index (u8 (Z.land old (Z.lnot bit))));;
         set_sb (set_free (u32 (free_blocks s + 1)) s);;; ret b);;
  write_block (u32 (bitmap_start s + blk)) bitbuf';;; ret tt.

Definition xvfs_is_reserved (s : XVFS_Superblock) (block : Z) : bool := block <? data_start s.

(** The loops over the bits of a byte and over the bytes of a bitmap sector. *)
Fixpoint scan_bits (k : nat) (s : XVFS_Superblock) (b first bit : Z) : option Z :=
  match k with
  | O => None
  | S k' =>
    if Z.land b (Z.shiftl 1 bit) =? 0 then
      if xvfs_is_reserved s (u32 (first + bit)) then scan_bits k' s b first (bit + 1) else Some (u32 (first + bit))
    else scan_bits k' s b first (bit + 1)
  end.
Fixpoint scan_bytes (s : XVFS_Superblock) (buf : list Z) (first : Z) : option Z :=
  match buf with
  | [] => None
  | b :: buf' =>
    if b =? 255 then scan_bytes s buf' (first + 8)
    else match scan_bits 8 s b first 0 with
         | Some f => Some f
         | None => scan_bytes s buf' (first + 8)
         end
  end.

Definition bitmap_blocks (s : XVFS_Superblock) : Z := u32 (total_blocks s + BITS_PER_BLOCK - 1) / BITS_PER_BLOCK.

Fixpoint find_free_loop (k : nat) (blk : Z) : X Z :=
  match k with
  | O => ret 0
  | S k' =>
    s <- gets sb;;
    r <- read_block (u32 (bitmap_start s + blk));;
    match r with
    | None => ret 0
    | Some buf =>
      match scan_bytes s buf (u32 (blk * BITS_PER_BLOCK)) with
      | Some free_block => xvfs_mark_block free_block true;;; ret free_block
      | None => find_free_loop k' (blk + 1)
      end
    end
  end.
Definition xvfs_find_free_block : X Z := s <- gets sb;; find_free_loop (Z.to_nat (bitmap_blocks s)) 0.

(** ** Paths *)

(** The loop over the tokens of the path; [last] is last_token, [out] what out_name holds.
    last_token has 16 characters: a longer token overruns it. *)
Fixpoint resolve_loop (want_dir : bool) (dir_block : Z) (toks : list (list Z)) (last out : list Z) : X (Z * list Z) :=
  match toks with
  | [] => ret (dir_block, take 16 last)
  | token :: rest =>
    if (16 <=? length token)%nat then fault
    else
      buf <- read_unchecked dir_block;;
      match find_entry (named token) buf with
      | Some i =>
        let e := entry_at buf i in
        match rest with
        | _ :: _ => if is_dir_entry e then resolve_loop want_dir (fe_start e) rest token out else ret (0, out)
        | [] =>
          if want_dir then
            if is_dir_entry e then resolve_loop want_dir (fe_start e) rest token out else ret (0, out)
          else ret (dir_block, take 16 token)
        end
      | None => if bool_decide (rest = []) && negb want_dir then ret (dir_block, take 16 token) else ret (0, out)
      end
  end.

Definition xvfs_resolve_path (path : list Z) (want_dir : bool) (out : list Z) : X (Z * list Z) :=
  s <- get;;
  let dir_block := if hd 0 path =? SLASH then data_start (sb s) else current_dir_block s in
  resolve_loop want_dir dir_block (Libc.tokens [SLASH] (take 127 path)) [] out.

(** ** Looking up *)

Definition xvfs_find_entry (path : option (list Z)) : X (option XVFS_FileEntry) :=
  match path with
  | None | Some [] => ret None
  | Some path =>
    r <- xvfs_resolve_path path false [];;
    let '(dir_block, name) := r in
    if (dir_block =? 0) || bool_decide (name = []) then ret None
    else
      b <- read_block dir_block;;
      match b with
      | None => ret None
      | Some buf => ret (entry_at buf <$> find_entry (named name) buf)
      end
  end.

Definition xvfs_exists (filename : option (list Z)) : X bool :=
  r <- xvfs_find_entry filename;; ret (if r is Some _ then true else false).

Definition xvfs_is_dir (path : option (list Z)) : X bool :=
  match path with
  | None | Some [] => ret true
  | Some path => r <- xvfs_resolve_path path true [];; ret (negb (r.1 =? 0))
  end.

(** The entries in use, in order; at most max_entries of them. *)
Definition used_entries (buf : list Z) : list XVFS_FileEntry :=
  List.filter (fun e => negb (unused e)) (map (entry_at buf) (seq 0 XVFS_MAX_FILES)).

Definition xvfs_read_dir_entries (path : option (list Z)) (has_out : bool) (max_entries : Z) : X (Z * list XVFS_FileEntry) :=
  if negb has_out || (max_entries =? 0) then ret (-1, [])
  else
    dir_block <-
      (match path with
       | None | Some [] => gets current_dir_block
       | Some path => r <- xvfs_resolve_path path true [];; ret r.1
       end);;
    if dir_block =? 0 then ret (-1, [])
    else
      b <- read_block dir_block;;
      match b with
      | None => ret (-1, [])
      | Some buf =>
        let es := take (Z.to_nat max_entries) (used_entries buf) in
        ret (Z.of_nat (length es), es)
      end.

Definition xvfs_find_file (path : list Z) : X (option XVFS_FileEntry) :=
  r <- xvfs_resolve_path path false [];;
  let '(dir_block, name) := r in
  if dir_block =? 0 then ret None
  else
    b <- read_block dir_block;;
    match b with
    | None => ret None
    | Some buf => ret (entry_at buf <$> find_entry (fun e => named name e && negb (is_dir_entry e)) buf)
    end.

Definition xvfs_get_file_size (path : list Z) : X Z :=
  r <- xvfs_find_file path;; ret (match r with None => 0 | Some e => fe_size e end).

(** ** Reading *)

(** The copying loop of xvfs_read_file_range and xvfs_read_file: [acc] are the bytes copied so
    far, [None] in the result a read error. *)
Fixpoint read_loop (fuel : nat) (block byte_offset remaining : Z) (acc : list Z) : X (bool * list Z) :=
  match fuel with
  | O => nofuel
  | S fuel' =>
    if remaining <=? 0 then ret (true, acc)
    else
      bs <- gets (fun s => block_size (sb s));;
      r <- read_block block;;
      match r with
      | None => ret (false, acc)
      | Some tmp =>
        let avail := u32 (bs - byte_offset) in
        let to_copy := if remaining <? avail then remaining else avail in
        c <- lift_opt (slice tmp byte_offset to_copy);;
        read_loop fuel' (u32 (block + 1)) 0 (remaining - to_copy) (acc ++ c)
      end
  end.

(** size clipped to the end of the file; offset + size wraps at 32 bits *)
Definition clip (e : XVFS_FileEntry) (offset size : Z) : Z :=
  if fe_size e <? u32 (offset + size) then u32 (fe_size e - offset) else size.

Definition xvfs_read_file_range (entry : option XVFS_FileEntry) (has_out : bool) (offset size : Z) : X (bool * list Z) :=
  match entry with
  | None => ret (false, [])
  | Some e =>
    if negb has_out then ret (false, [])
    else if fe_size e <=? offset then ret (false, [])
    else
      let size := clip e offset size in
      bs <- gets (fun s => block_size (sb s));;
      if bs =? 0 then fault
      else read_loop (S (Z.to_nat size)) (u32 (fe_start e + offset / bs)) (offset mod bs) size []
  end.

Definition xvfs_read_file (entry : option XVFS_FileEntry) (has_out : bool) (offset size : Z) : X (Z * list Z) :=
  match entry with
  | None => ret (-1, [])
  | Some e =>
    if negb has_out then ret (-1, [])
    else if fe_size e <=? offset then ret (0, [])
    else
      let size := clip e offset size in
      bs <- gets (fun s => block_size (sb s));;
      if bs =? 0 then fault
      else
        r <- read_loop (S (Z.to_nat size)) (u32 (fe_start e + offset / bs)) (offset mod bs) size [];;
        let '(ok, out) := r in
        let n := Z.of_nat (length out) in
        ret (if ok then s32 n else if 0 <? n then s32 n else -1, out)
  end.

Definition xvfs_read_file_partial (path : list Z) (offset : Z) (has_out : bool) (size : Z) : X (bool * list Z) :=
  r <- xvfs_find_file path;;
  match r with
  | None => ret (false, [])
  | Some e =>
    if fe_size e <=? offset then ret (false, [])
    else xvfs_read_file_range (Some e) has_out offset (clip e offset size)
  end.

(** The loops of xvfs_read_file_by_name, xvfs_cp and xvfs_cat that read whole blocks and do not
    look at the result: [room] is the size of the destination. *)
Fixpoint read_blocks (fuel : nat) (room start remaining : Z) (acc : list Z) : X (list Z) :=
  match fuel with
  | O => nofuel
  | S fuel' =>
    if remaining <=? 0 then ret acc
    else
      tmp <- read_unchecked start;;
      let chunk := if 512 <? remaining then 512 else remaining in
      c <- lift_opt (slice tmp 0 chunk);;
      if room <? Z.of_nat (length acc) + chunk then fault
      else read_blocks fuel' room (u32 (start + 1)) (remaining - chunk) (acc ++ c)
  end.

Definition xvfs_read_file_by_name (filename : option (list Z)) (maxsize : Z) : X (Z * list Z) :=
  r <- xvfs_find_entry filename;;
  match r with
  | None => ret (0, [])
  | Some target =>
    if is_dir_entry target then ret (0, [])
    else
      let size := if maxsize <? fe_size target then maxsize else fe_size target in
      out <- read_blocks (S (Z.to_nat size)) maxsize (fe_start target) size [];;
      ret (size, out)
  end.

(** The characters of a block up to its first NUL *)
Fixpoint until_nul (l : list Z) : list Z :=
  match l with
  | c :: l' => if c =? 0 then [] else c :: until_nul l'
  | [] => []
  end.
Fixpoint cat_loop (fuel : nat) (start remaining : Z) (printed : list Z) : X (list Z) :=
  match fuel with
  | O => nofuel
  | S fuel' =>
    if remaining <=? 0 then ret printed
    else
      tmp <- read_unchecked start;;
      let chunk := if 512 <? remaining then 512 else remaining in
      c <- lift_opt (slice tmp 0 chunk);;
      cat_loop fuel' (u32 (start + 1)) (remaining - chunk) (printed ++ until_nul c)
  end.
Definition xvfs_cat (path : list Z) : X (option (list Z)) :=
  r <- xvfs_resolve_path path false [];;
  let '(dir_block, name) := r in
  if dir_block =? 0 then ret None
  else
    buf <- read_unchecked dir_block;;
    match find_entry (fun e => named name e && negb (is_dir_entry e)) buf with
    | None => ret None
    | Some i =>
      let e := entry_at buf i in
      out <- cat_loop (S (Z.to_nat (fe_size e))) (fe_start e) (fe_size e) [];; ret (Some out)
    end.

(** ** Writing *)

(** while (full_sectors > 0): up to 256 whole sectors per call of ata_write *)
Fixpoint write_full (fuel : nat) (data : list Z) (full_sectors current_block written : Z) : X (Z * Z) :=
  match fuel with
  | O => nofuel
  | S fuel' =>
    if full_sectors <=? 0 then ret (current_block, written)
    else
      let count := if 256 <? full_sectors then 256 else u16 full_sectors in
      chunk <- lift_opt (slice data written (count * 512));;
      base <- gets xvfs_base_lba;; drive <- gets xvfs_drive;;
      on_dev (ata_write drive (u32 (base + current_block)) count chunk);;;
      let written := u32 (written + u32 (count * 512)) in
      fscmd_write_progress_update written;;;
      write_full fuel' data (full_sectors - count) (u32 (current_block + count)) written
  end.

(** The bytes of a file, the last block padded with zeros (the same statements in
    xvfs_create_file and xvfs_write_file) *)
Definition write_data (data : list Z) (size start_block : Z) : X unit :=
  r <- write_full (S (Z.to_nat (size / 512))) data (size / 512) start_block 0;;
  let '(current_block, written) := r in
  if written <? size then
    let tail := size - written in
    t <- lift_opt (slice data written tail);;
    write_block current_block (t ++ zeros (512 - length t));;;
    fscmd_write_progress_update (u32 (written + tail))
  else ret tt.

(** entry[i].name[0] == 0 || entry[i].name[0] == (char)0xFF *)
Definition free_file_slot (e : XVFS_FileEntry) : bool := let c := hd 0 (fe_name e) in (c =? 0) || (c =? 255).

Definition new_entry (name : list Z) (start size attr : Z) : XVFS_FileEntry :=
  {| fe_name := strncpy 15 name ++ [0]; fe_start := start; fe_size := size; fe_attr := attr |}.

Definition xvfs_create_file (fullpath data : list Z) (size : Z) : X bool :=
  r <- xvfs_resolve_path fullpath false [];;
  let '(dir_block, name) := r in
  if dir_block =? 0 then ret false
  else
    buf <- read_unchecked dir_block;;
    match find_entry free_file_slot buf with
    | None => ret false
    | Some slot =>
      start_block <- xvfs_find_free_block;;
      if start_block =? 0 then ret false
      else
        let buf := set_entry buf slot (new_entry name start_block size 0) in
        write_data data size start_block;;;
        write_block dir_block buf;;;
        ret true
    end.

Definition with_size (n : Z) (e : XVFS_FileEntry) : XVFS_FileEntry :=
  {| fe_name := fe_name e; fe_start := fe_start e; fe_size := n; fe_attr := fe_attr e |}.

Definition xvfs_write_file (fullpath data : list Z) (size : Z) : X bool :=
  r <- xvfs_resolve_path fullpath false [];;
  let '(dir_block, name) := r in
  if dir_block =? 0 then ret false
  else
    buf <- read_unchecked dir_block;;
    match find_entry (named name) buf with
    | None => xvfs_create_file fullpath data size
    | Some i =>
      let target := entry_at buf i in
      write_data data size (fe_start target);;;
      write_block dir_block (set_entry buf i (with_size size target));;;
      ret true
    end.

(** memset(&entry[i], 0, sizeof); entry[i].name[0] = 0xE5; *)
Definition deleted_entry : XVFS_FileEntry :=
  {| fe_name := DELETED :: zeros 15; fe_start := 0; fe_size := 0; fe_attr := 0 |}.

Fixpoint free_loop (k : nat) (start_block b : Z) : X unit :=
  match k with
  | O => ret tt
  | S k' =>
    s <- gets sb;;
    let blk := u32 (start_block + b) in
    (if xvfs_is_reserved s blk then ret tt
     else write_block blk (zeros 512);;; xvfs_mark_block blk false);;;
    free_loop k' start_block (b + 1)
  end.

Definition xvfs_rm (path : list Z) : X bool :=
  r <- xvfs_resolve_path path false [];;
  let '(dir_block, name) := r in
  if dir_block =? 0 then ret false
  else
    buf <- read_unchecked dir_block;;
    match find_entry (fun e => named name e && negb (is_dir_entry e)) buf with
    | None => ret false
    | Some found =>
      let e := entry_at buf found in
      let file_blocks := u32 (fe_size e + 511) / 512 in
      free_loop (Z.to_nat file_blocks) (fe_start e) 0;;;
      write_block dir_block (set_entry buf found deleted_entry);;;
      ret true
    end.

(** The contents go through a buffer of 4096 bytes: a longer file overruns it. *)
Definition xvfs_cp (src_path dst_path : list Z) : X bool :=
  r <- xvfs_resolve_path src_path false [];;
  let '(src_dir_block, src_name) := r in
  if src_dir_block =? 0 then ret false
  else
    src_buf <- read_unchecked src_dir_block;;
    match find_entry (fun e => named src_name e && negb (is_dir_entry e)) src_buf with
    | None => ret false
    | Some i =>
      let src_target := entry_at src_buf i in
      let size := fe_size src_target in
      buffer <- read_blocks (S (Z.to_nat size)) CAT_BUF_SIZE (fe_start src_target) size [];;
      r1 <- xvfs_resolve_path dst_path true [];;
      r2 <- (if r1.1 =? 0 then xvfs_resolve_path dst_path false r1.2 else ret r1);;
      let '(dst_dir_block, dst_name) := r2 in
      if dst_dir_block =? 0 then ret false
      else
        dst_buf <- read_unchecked dst_dir_block;;
        (match find_entry (named dst_name) dst_buf with
         | Some _ => xvfs_rm dst_path;;; ret tt
         | None => ret tt
         end);;;
        xvfs_write_file dst_path buffer size
    end.

Definition xvfs_mv (src_path dst_path : list Z) : X bool :=
  r <- xvfs_resolve_path src_path false [];;
  if r.1 =? 0 then ret false
  else
    r <- xvfs_resolve_path dst_path false [];;
    if r.1 =? 0 then ret false
    else
      ok <- xvfs_cp src_path dst_path;;
      if negb ok then ret false else xvfs_rm src_path.

(** ** Directories *)

Definition free_dir_slot (e : XVFS_FileEntry) : bool := unused e.

(** An array of twenty zeroed entries, written as a sector: the twelve bytes behind it go along. *)
Definition dir_sector (es : list XVFS_FileEntry) : list Z :=
  let body := concat (map entry_bytes es) in
  body ++ zeros (500 - length body) ++ take 12 beyond.

Definition xvfs_create_dir_at (parent_block : Z) (name : option (list Z)) : X bool :=
  match name with
  | None | Some [] => ret false
  | Some name =>
    r <- read_block parent_block;;
    match r with
    | None => ret false
    | Some buf =>
      match find_entry (named name) buf with
      | Some _ => ret false
      | None =>
        match find_entry free_dir_slot buf with
        | None => ret false
        | Some slot =>
          dir_block <- xvfs_find_free_block;;
          if dir_block =? 0 then ret false
          else
            let newdir := dir_sector [new_entry [DOT] dir_block 0 1; new_entry [DOT; DOT] parent_block 0 1] in
            ok <- write_block dir_block newdir;;
            if negb ok then ret false
            else write_block parent_block (set_entry buf slot (new_entry name dir_block 0 1))
        end
      end
    end
  end.

Definition xvfs_mkdir (name : option (list Z)) : X bool :=
  cur <- gets current_dir_block;; xvfs_create_dir_at cur name.

(** while (len > 0 && trimmed[len - 1] == '/') trimmed[--len] = 0; *)
Fixpoint trim_slashes (k : nat) (s : list Z) : list Z :=
  match k with
  | O => s
  | S k' => if List.last s 0 =? SLASH then trim_slashes k' (removelast s) else s
  end.

Definition xvfs_mkdir_path (path : option (list Z)) : X bool :=
  match path with
  | None | Some [] => ret false
  | Some path =>
    let t := take 255 path in
    let trimmed := trim_slashes (length t) t in
    if bool_decide (trimmed = []) then ret false
    else
      r <- xvfs_resolve_path trimmed false [];;
      let '(parent_block, name) := r in
      if (parent_block =? 0) || bool_decide (name = []) then ret false
      else xvfs_create_dir_at parent_block (Some name)
  end.

Definition xvfs_cd (path : option (list Z)) : X bool :=
  match path with
  | None | Some [] => ret false
  | Some path =>
    cwd <- gets current_path;;
    match Path.Path.normalize_path cwd path with
    | Fault => fault
    | NoFuel => nofuel
    | Ok normalized =>
      r <- xvfs_resolve_path normalized true [];;
      if r.1 =? 0 then ret false
      else set_cwd r.1 (take 255 normalized);;; ret true
    end
  end.

(** An entry other than "." and "..": the directory is not empty. *)
Definition keeps_dir (e : XVFS_FileEntry) : bool :=
  negb (unused e) && negb (strcmp (fe_name e) [DOT] =? 0) && negb (strcmp (fe_name e) [DOT; DOT] =? 0).

Definition xvfs_rmdir (path : list Z) : X bool :=
  r <- xvfs_resolve_path path false [];;
  let '(parent_block, name) := r in
  if parent_block =? 0 then ret false
  else
    buf <- read_unchecked parent_block;;
    match find_entry (fun e => named name e && is_dir_entry e) buf with
    | None => ret false
    | Some found =>
      let dir_block := fe_start (entry_at buf found) in
      dirbuf <- read_unchecked dir_block;;
      match find_entry keeps_dir dirbuf with
      | Some _ => ret false
      | None =>
        xvfs_mark_block dir_block false;;;
        write_block parent_block (set_entry buf found deleted_entry);;;
        ret true
      end
    end.

(** ** Statistics and formatting *)

Definition xvfs_total_clusters : X Z :=
  s <- gets sb;; ret (if (total_blocks s =? 0) || (block_size s =? 0) then 0 else total_blocks s).

(** The clear bits of a bitmap sector *)
Definition clear_bits (b : Z) : Z :=
  if b =? 255 then 0
  else Z.of_nat (length (List.filter (fun bit => Z.land b (Z.shiftl 1 (Z.of_nat bit)) =? 0) (seq 0 8))).
Fixpoint count_loop (k : nat) (blk free_count : Z) : X Z :=
  match k with
  | O => ret free_count
  | S k' =>
    s <- gets sb;;
    r <- read_block (u32 (bitmap_start s + blk));;
    match r with
    | None => count_loop k' (blk + 1) free_count
    | Some buf => count_loop k' (blk + 1) (u32 (free_count + foldr Z.add 0 (map clear_bits buf)))
    end
  end.
Definition xvfs_free_clusters : X Z :=
  s <- gets sb;;
  if total_blocks s =? 0 then ret 0
  else if negb (free_blocks s =? 0) then ret (free_blocks s)
  else count_loop (Z.to_nat (bitmap_blocks s)) 0 0.

Definition format_sb (total_sectors : Z) : XVFS_Superblock :=
  {| magic := XVFS_MAGIC; block_size := 512; total_blocks := total_sectors; bitmap_start := 2;
     data_start := 10; free_blocks := u32 (total_sectors - 10 - 1); root_dir_block := 10 |}.

Definition signature_sector : list Z := SIGNATURE ++ zeros 505 ++ [85; 170].

Fixpoint format_bitmap (k : nat) (drive base i : Z) : X unit :=
  match k with
  | O => ret tt
  | S k' => on_dev (ata_write_sector drive (u32 (base + 2 + i)) (zeros 512));;; format_bitmap k' drive base (i + 1)
  end.
Fixpoint format_mark (k : nat) (drive base b : Z) : X unit :=
  match k with
  | O => ret tt
  | S k' =>
    let bit := b mod BITS_PER_BLOCK in
    let lba := u32 (base + 2 + b / BITS_PER_BLOCK) in
    r <- on_dev (ata_read_sector drive lba);;
    sector <- lift_opt r;;
    old <- lift_opt (lget sector (bit / 8));;
    sector' <- lift_opt (lset sector (bit / 8) (Z.lor old (u8 (Z.shiftl 1 (bit mod 8)))));;
    on_dev (ata_write_sector drive lba sector');;;
    format_mark k' drive base (b + 1)
  end.

Definition xvfs_format_at (drive base_lba total_sectors : Z) : X bool :=
  if total_sectors =? 0 then ret false
  else
    on_dev (ata_write_sector drive (u32 (base_lba + 0)) signature_sector);;;
    let s := format_sb total_sectors in
    on_dev (ata_write_sector drive (u32 (base_lba + 1)) (sb_bytes s ++ zeros (512 - length (sb_bytes s))));;;
    format_bitmap 8 drive base_lba 0;;;
    format_mark 11 drive base_lba 0;;;
    on_dev (ata_write_sector drive (u32 (base_lba + root_dir_block s)) (dir_sector []));;;
    ret true.

Definition xvfs_format (drive : Z) : X bool :=
  total_sectors <- on_dev (ata_get_sector_count drive);; xvfs_format_at drive 0 total_sectors.

End ops.
End Xvfs.
