(* ===== verification/XvfsVol.v ===== *)
(** * XVFS: the volume behind the block device

    The view of a mounted volume (its sectors, the superblock in memory and the current
    directory), the effect of reading and writing blocks on it, proved against the interface of
    the block devices, and runs of consecutive blocks; then the block bitmap: the bit of every block,
    what marking a block does to the volume, and the first-fit allocation. *)
From S2P Require Import Prelude BlockDev Xvfs.
Import Xvfs.

(** ** Buffers of zeros *)

Lemma zeros_u8 n : Forall is_u8 (zeros n).
Proof. apply Forall_replicate. unfold is_u8. lia. Qed.
Lemma zeros_sector : is_sector (zeros 512).
Proof. split; [done|apply zeros_u8]. Qed.
#[export] Hint Resolve zeros_u8 zeros_sector : word.

Section volume.
Context {D : Type} `{BlockDevOk D}.
Implicit Types s : @xvfs D.

(** ** The view of a volume *)

Record vol := Vol { v_sec : sectors; v_sb : XVFS_Superblock; v_base : Z; v_drive : Z; v_cwd : Z; v_path : list Z }.

Definition view s : vol :=
  Vol (dev_sectors (dev s) (xvfs_drive s)) (sb s) (xvfs_base_lba s) (xvfs_drive s) (current_dir_block s) (current_path s).

Lemma view_sb s s' : view s' = view s -> sb s' = sb s.
Proof. intros E. change (v_sb (view s') = v_sb (view s)). by rewrite E. Qed.

(** The block b of the volume; assigned. *)
Definition blk (v : vol) (b : Z) : option (list Z) := v_sec v !! (v_base v + b).
Definition with_sec (m : sectors) (v : vol) : vol := Vol m (v_sb v) (v_base v) (v_drive v) (v_cwd v) (v_path v).
Definition with_sb (x : XVFS_Superblock) (v : vol) : vol := Vol (v_sec v) x (v_base v) (v_drive v) (v_cwd v) (v_path v).
Definition put (v : vol) (b : Z) (d : list Z) : vol := with_sec (<[v_base v + b := d]> (v_sec v)) v.
Definition put_blocks (v : vol) (b : Z) (k : nat) (d : list Z) : vol := with_sec (put_run (v_sec v) (v_base v + b) k d) v.
Definition get_blocks (v : vol) (b : Z) (k : nat) : list Z := get_run (v_sec v) (v_base v + b) k.

(** The first n blocks of the volume lie on the drive. *)
Record on_drive (n : Z) (v : vol) : Prop := {
  od_drive : is_u8 (v_drive v);
  od_base : 0 <= v_base v;
  od_fit : v_base v + n < 4294967296;
  od_run : forall b, 0 <= b < n -> is_Some (blk v b);
  od_sec : forall x b, v_sec v !! x = Some b -> is_sector b;
}.
Definition mounted (n : Z) s : Prop := dev_ok (dev s) /\ on_drive n (view s).

Lemma blk_put v b d x : blk (put v b d) x = if decide (b = x) then Some d else blk v x.
Proof.
  unfold blk, put. simpl. rewrite lookup_insert. destruct (decide (b = x)) as [->|Hne].
  - by rewrite decide_True.
  - by rewrite decide_False by lia.
Qed.
Lemma on_drive_put n v b d : on_drive n v -> is_sector d -> on_drive n (put v b d).
Proof.
  intros [? ? ? Hr Hs] Hd. split; try done.
  - intros x Hx. rewrite blk_put. case_decide; eauto.
  - intros x b' Hx. simpl in Hx. rewrite lookup_insert in Hx. case_decide; simplify_eq; eauto.
Qed.
Lemma on_drive_sb n v x : on_drive n v -> on_drive n (with_sb x v).
Proof. by intros []. Qed.
Lemma on_drive_sector n v b d : on_drive n v -> blk v b = Some d -> is_sector d.
Proof. intros Hv. apply (od_sec n v Hv). Qed.
Lemma blk_blocks_out v b k d x : (x < b \/ b + Z.of_nat k <= x) -> blk (put_blocks v b k d) x = blk v x.
Proof. intros. unfold blk, put_blocks. simpl. apply put_run_out. lia. Qed.

(** ** Reading and writing blocks *)

Lemma wp_on_dev {A} F (c : M D A) (Q : A -> xvfs -> Prop) s :
  wp F c (fun a d => Q a (Mk d (sb s) (xvfs_base_lba s) (xvfs_drive s) (current_dir_block s) (current_path s) (progress s))) (dev s) ->
  wp F (on_dev c) Q s.
Proof. unfold wp, on_dev. by destruct (c (dev s)) as [[a d]| |]. Qed.

(** Blocks of the volume as the code addresses them. *)
Lemma lba_small n v b : on_drive n v -> 0 <= b < n -> u32 (v_base v + b) = v_base v + b.
Proof. intros [] Hb. apply u32_small. unfold is_u32. lia. Qed.

Lemma read_sector_rule n F s lba b (Q : option (list Z) -> xvfs -> Prop) :
  mounted n s -> v_sec (view s) !! lba = Some b ->
  (forall s', mounted n s' -> view s' = view s -> Q (Some b) s') ->
  wp F (on_dev (ata_read (xvfs_drive s) lba 1)) Q s.
Proof.
  intros [Hd Hv] Hb HQ. apply wp_on_dev.
  destruct (dev_read (dev s) (xvfs_drive s) lba 1 Hd ltac:(lia)) as (d' & E & Hd' & Hs').
  { intros i Hi. replace (lba + Z.of_nat i) with lba by lia. eauto. }
  eapply wp_ok; [exact E|]. simpl. cbn in Hb. rewrite Hb. simpl. rewrite app_nil_r. apply HQ.
  - split; [done|]. unfold view in *. simpl. by rewrite Hs'.
  - unfold view. simpl. by rewrite Hs'.
Qed.

Lemma wp_read_block n F s b (Q : option (list Z) -> xvfs -> Prop) :
  mounted n s -> 0 <= b < n ->
  (forall d s', blk (view s) b = Some d -> is_sector d -> mounted n s' -> view s' = view s -> Q (Some d) s') ->
  wp F (read_block b) Q s.
Proof.
  intros Hm Hb HQ. pose proof Hm as [Hd Hv]. destruct (od_run n _ Hv b Hb) as [d Hbd].
  unfold read_block. apply wp_bind, wp_gets, wp_bind, wp_gets. unfold ata_read_sector.
  change (xvfs_base_lba s) with (v_base (view s)). rewrite (lba_small n) by done.
  rewrite (u8_small (xvfs_drive s) (od_drive n _ Hv)). eapply read_sector_rule; [done|done|]. intros s' Hm' Hs'.
  apply HQ; [done|by eapply on_drive_sector|done|done].
Qed.

Lemma wp_read_unchecked n F s b (Q : list Z -> xvfs -> Prop) :
  mounted n s -> 0 <= b < n ->
  (forall d s', blk (view s) b = Some d -> is_sector d -> mounted n s' -> view s' = view s -> Q d s') ->
  wp F (read_unchecked b) Q s.
Proof. intros Hm Hb HQ. apply wp_bind. eapply wp_read_block; [done|done|]. intros. by apply HQ. Qed.

Lemma write_sectors_rule n F s a k d (Q : bool -> xvfs -> Prop) :
  mounted n s -> (1 <= k <= 256)%nat -> has_run (v_sec (view s)) a k -> length d = (512 * k)%nat -> Forall is_u8 d ->
  (forall s', mounted n s' -> view s' = with_sec (put_run (v_sec (view s)) a k d) (view s) -> Q true s') ->
  wp F (on_dev (ata_write (xvfs_drive s) a (Z.of_nat k) d)) Q s.
Proof.
  intros [Hd Hv] Hk Hr Hl Hu HQ. apply wp_on_dev.
  destruct (dev_write (dev s) (xvfs_drive s) a (Z.of_nat k) d Hd) as (d' & E & Hd' & Hs' & _);
    [lia|by rewrite Nat2Z.id|rewrite Nat2Z.id; lia|done|].
  rewrite Nat2Z.id in Hs'. eapply wp_ok; [exact E|]. apply HQ.
  - split; [done|]. destruct Hv as [? ? ? Hrun Hsec]. split; try done.
    + intros b Hb. unfold blk, view in *. simpl in *. rewrite Hs'. destruct (Hrun b Hb) as [x Hx].
      pose proof (put_run_has (dev_sectors (dev s) (xvfs_drive s)) k a d 1 (xvfs_base_lba s + b)) as Hp.
      rewrite <-(Z.add_0_r (xvfs_base_lba s + b)). apply (Hp ltac:(intros i Hi; replace (_ + Z.of_nat i) with (xvfs_base_lba s + b) by lia; eauto) 0%nat). lia.
    + intros x b Hx. by apply (dev_sector_ok d' (xvfs_drive s) x b).
  - unfold view, with_sec. simpl. by rewrite Hs'.
Qed.

Lemma wp_write_block n F s b d (Q : bool -> xvfs -> Prop) :
  mounted n s -> 0 <= b < n -> is_sector d ->
  (forall s', mounted n s' -> view s' = put (view s) b d -> Q true s') ->
  wp F (write_block b d) Q s.
Proof.
  intros Hm Hb [Hl Hu] HQ. pose proof Hm as [Hd Hv]. unfold write_block.
  apply wp_bind, wp_gets, wp_bind, wp_gets. unfold ata_write_sector.
  change (xvfs_base_lba s) with (v_base (view s)). rewrite (lba_small n) by done.
  rewrite (u8_small (xvfs_drive s) (od_drive n _ Hv)). apply (write_sectors_rule n F s _ 1 d); [done|lia| |lia|done|].
  - intros i Hi. replace (_ + Z.of_nat i) with (v_base (view s) + b) by lia. by apply (od_run n _ Hv).
  - intros s' Hm' Hs'. apply HQ; [done|]. rewrite Hs'. unfold put. cbn [put_run]. by rewrite take_ge by lia.
Qed.

Lemma wp_set_sb n F s x (Q : unit -> xvfs -> Prop) :
  mounted n s -> (forall s', mounted n s' -> view s' = with_sb x (view s) -> Q tt s') -> wp F (set_sb x) Q s.
Proof. intros [Hd Hv] HQ. apply wp_modify, HQ; [split; [done|]; by destruct Hv|done]. Qed.

Lemma wp_progress n F s w (Q : unit -> xvfs -> Prop) :
  mounted n s -> (forall s', mounted n s' -> view s' = view s -> Q tt s') -> wp F (fscmd_write_progress_update w) Q s.
Proof. intros [Hd Hv] HQ. apply wp_modify, HQ; [by split|done]. Qed.

End volume.

(** ** The bitmap *)

(** ** Bits of a bitmap sector *)

Definition bufbit (buf : list Z) (i : Z) : bool := Z.testbit (nth (Z.to_nat (i / 8)) buf 0) (i mod 8).
Definition setbit (buf : list Z) (i : Z) (u : bool) : list Z :=
  let old := nth (Z.to_nat (i / 8)) buf 0 in
  <[Z.to_nat (i / 8) := if u then Z.lor old (Z.shiftl 1 (i mod 8)) else Z.land old (Z.lnot (Z.shiftl 1 (i mod 8)))]> buf.

Lemma pow_bit_u8 k : 0 <= k < 8 -> u8 (Z.shiftl 1 k) = Z.shiftl 1 k.
Proof.
  intros Hk. apply u8_small. unfold is_u8. rewrite Z.shiftl_1_l. split; [lia|].
  change 256 with (2 ^ 8). apply Z.pow_lt_mono_r; lia.
Qed.

(** A number is a byte exactly when it is not negative and has no bit from 8 on. *)
Lemma u8_of_bits x : 0 <= x -> (forall m, 8 <= m -> Z.testbit x m = false) -> is_u8 x.
Proof.
  intros Hx Hb. unfold is_u8. split; [done|]. destruct (decide (x = 0)) as [->|Hne]; [lia|].
  change 256 with (2 ^ 8). apply Z.log2_lt_pow2; [lia|]. destruct (Z.ltb_spec (Z.log2 x) 8) as [|Hge]; [done|].
  specialize (Hb _ Hge). rewrite Z.bit_log2 in Hb by lia. done.
Qed.
Lemma u8_bit_high x m : is_u8 x -> 8 <= m -> Z.testbit x m = false.
Proof. intros Hx Hm. rewrite <-(u8_small x Hx). unfold u8. change 256 with (2 ^ 8). apply Z.mod_pow2_bits_high. lia. Qed.

Lemma lor_u8 x k : is_u8 x -> 0 <= k < 8 -> is_u8 (Z.lor x (Z.shiftl 1 k)).
Proof.
  intros Hx Hk. apply u8_of_bits.
  - apply Z.lor_nonneg. split; [apply Hx|]. rewrite Z.shiftl_1_l. lia.
  - intros m Hm. rewrite lor_pow2_bit, (u8_bit_high x) by (done || lia). apply Z.eqb_neq. lia.
Qed.
Lemma ldiff_u8 x k : is_u8 x -> 0 <= k -> is_u8 (Z.land x (Z.lnot (Z.shiftl 1 k))).
Proof.
  intros Hx Hk. apply u8_of_bits.
  - apply Z.land_nonneg. left. apply Hx.
  - intros m Hm. rewrite ldiff_pow2_bit, (u8_bit_high x) by (done || lia). done.
Qed.

Lemma setbit_sector buf i u : is_sector buf -> is_sector (setbit buf i u).
Proof.
  intros [Hl Hu]. unfold setbit. split; [by rewrite length_insert|]. apply Forall_insert; [done|].
  pose proof (nth_u8 buf (Z.to_nat (i / 8)) Hu) as Ho. pose proof (Z.mod_pos_bound i 8 ltac:(lia)).
  destruct u; [by apply lor_u8|apply ldiff_u8; [done|lia]].
Qed.

Lemma bufbit_setbit buf i j u : is_sector buf -> 0 <= i < 4096 -> 0 <= j < 4096 ->
  bufbit (setbit buf i u) j = if decide (i = j) then u else bufbit buf j.
Proof.
  intros [Hl Hu] Hi Hj. unfold bufbit, setbit.
  assert (0 <= i / 8 < 512) as Hi8 by (Z.div_mod_to_equations; lia).
  assert (0 <= j / 8 < 512) as Hj8 by (Z.div_mod_to_equations; lia).
  pose proof (Z.mod_pos_bound i 8 ltac:(lia)) as Hm.
  destruct (decide (i / 8 = j / 8)) as [Heq|Hne].
  - rewrite <-Heq. rewrite (nth_lookup_Some _ _ 0 _ (list_lookup_insert_eq buf (Z.to_nat (i / 8)) _ ltac:(lia))).
    destruct (decide (i = j)) as [<-|Hd].
    + destruct u; [rewrite lor_pow2_bit by lia|rewrite ldiff_pow2_bit by lia]; rewrite Z.eqb_refl; [by rewrite orb_true_r|by rewrite andb_false_r].
    + assert (i mod 8 <> j mod 8) as Hx by (Z.div_mod_to_equations; lia). apply Z.eqb_neq in Hx.
      destruct u; [rewrite lor_pow2_bit by lia|rewrite ldiff_pow2_bit by lia]; rewrite Hx; [by rewrite orb_false_r|by rewrite andb_true_r].
  - rewrite decide_False by (intros ->; done). f_equal. rewrite !nth_lookup.
    rewrite list_lookup_insert_ne; [done|]. lia.
Qed.

(** ** The bitmap of a volume *)

(** The bit of block x. *)
Definition bmp (v : vol) (x : Z) : bool :=
  match blk v (bitmap_start (v_sb v) + x / 4096) with Some buf => bufbit buf (x mod 4096) | None => true end.

(** The volume after the bit of x is made u. *)
Definition marked (v : vol) (x : Z) (u : bool) : vol :=
  match blk v (bitmap_start (v_sb v) + x / 4096) with
  | None => v
  | Some buf =>
    if Bool.eqb (bufbit buf (x mod 4096)) u then v
    else put (with_sb (set_free (if u then Z.max 0 (free_blocks (v_sb v) - 1) else u32 (free_blocks (v_sb v) + 1)) (v_sb v)) v)
             (bitmap_start (v_sb v) + x / 4096) (setbit buf (x mod 4096) u)
  end.

Lemma marked_bmp n v x u y :
  on_drive n v -> 0 <= x -> 0 <= y -> 0 <= bitmap_start (v_sb v) -> bitmap_start (v_sb v) + x / 4096 < n ->
  bmp (marked v x u) y = if decide (x = y) then u else bmp v y.
Proof.
  intros Hv Hx Hy Hb Hn. unfold marked. destruct (od_run n v Hv (bitmap_start (v_sb v) + x / 4096)) as [buf Hbuf].
  { Z.div_mod_to_equations; lia. }
  rewrite Hbuf. pose proof (on_drive_sector n v _ _ Hv Hbuf) as Hs.
  assert (bmp v x = bufbit buf (x mod 4096)) as Hbx by (unfold bmp; by rewrite Hbuf).
  destruct (Bool.eqb _ u) eqn:He.
  { apply eqb_prop in He. case_decide; [|done]. subst y. by rewrite Hbx. }
  unfold bmp. cbn [put with_sec with_sb v_sb set_free bitmap_start]. rewrite blk_put.
  change (blk (with_sb ?a v)) with (blk v).
  pose proof (Z.mod_pos_bound x 4096 ltac:(lia)). pose proof (Z.mod_pos_bound y 4096 ltac:(lia)).
  destruct (decide (bitmap_start (v_sb v) + x / 4096 = bitmap_start (v_sb v) + y / 4096)) as [Heq|Hne].
  - rewrite bufbit_setbit by done. rewrite <-Heq, Hbuf. destruct (decide (x = y)) as [->|Hd].
    + by rewrite decide_True.
    + rewrite decide_False; [done|]. Z.div_mod_to_equations. lia.
  - rewrite decide_False by (intros ->; done). done.
Qed.

Lemma marked_blk v x u b : b <> bitmap_start (v_sb v) + x / 4096 -> blk (marked v x u) b = blk v b.
Proof.
  intros Hne. unfold marked. destruct (blk v _) as [buf|]; [|done]. destruct (Bool.eqb _ u); [done|].
  rewrite blk_put. rewrite decide_False by done. done.
Qed.
Lemma marked_sb v x u : exists f, v_sb (marked v x u) = set_free f (v_sb v).
Proof.
  unfold marked. assert (v_sb v = set_free (free_blocks (v_sb v)) (v_sb v)) by (by destruct (v_sb v)).
  destruct (blk v _); [|eauto]. destruct (Bool.eqb _ u); simpl; eauto.
Qed.
Lemma marked_free v x u :
  is_Some (blk v (bitmap_start (v_sb v) + x / 4096)) ->
  free_blocks (v_sb (marked v x u)) =
    if Bool.eqb (bmp v x) u then free_blocks (v_sb v)
    else if u then Z.max 0 (free_blocks (v_sb v) - 1) else u32 (free_blocks (v_sb v) + 1).
Proof. intros [buf E]. unfold marked, bmp. rewrite E. by destruct (Bool.eqb _ u). Qed.

(** ** The search *)

(** r is the first number of [lo, hi) with the property P, if there is one. *)
Definition first_in (P : Z -> Prop) (lo hi : Z) (r : option Z) : Prop :=
  match r with
  | Some f => lo <= f < hi /\ P f /\ forall x, lo <= x < f -> ~ P x
  | None => forall x, lo <= x < hi -> ~ P x
  end.

Lemma first_in_skip P lo mid hi r :
  first_in P lo mid None -> lo <= mid -> first_in P mid hi r -> first_in P lo hi r.
Proof.
  simpl. intros H1 Hle H2. destruct r as [f|]; simpl in *.
  - destruct H2 as (Hf & HP & Hb). split_and!; [lia|lia|done|]. intros x Hx.
    destruct (decide (x < mid)); [apply H1; lia|apply Hb; lia].
  - intros x Hx. destruct (decide (x < mid)); [apply H1; lia|apply H2; lia].
Qed.
Lemma first_in_widen P lo mid hi f : first_in P lo mid (Some f) -> mid <= hi -> first_in P lo hi (Some f).
Proof. simpl. intros (Hf & HP & Hb) Hle. split_and!; [lia|lia|done|done]. Qed.
Lemma first_in_ext P P' lo hi r : (forall x, lo <= x < hi -> P x <-> P' x) -> first_in P lo hi r -> first_in P' lo hi r.
Proof.
  intros He. destruct r as [f|]; simpl.
  - intros (Hf & HP & Hb). split_and!; [lia|lia|by apply He|]. intros x Hx. rewrite <-He by lia. by apply Hb.
  - intros Hn x Hx. rewrite <-He by lia. by apply Hn.
Qed.

Lemma first_in_unique P lo hi f g : first_in P lo hi (Some f) -> first_in P lo hi (Some g) -> f = g.
Proof.
  intros (Hf & HPf & Hf') (Hg & HPg & Hg'). destruct (decide (f < g)); [destruct (Hg' f); [lia|done]|].
  destruct (decide (g < f)); [destruct (Hf' g); [lia|done]|]. lia.
Qed.

(** A block the allocator may hand out, given its bit. *)
Definition usable (sb : XVFS_Superblock) (bit : Z -> bool) (x : Z) : Prop := bit x = false /\ data_start sb <= x.

Lemma scan_bits_first sb b first : 0 <= first -> first + 8 <= 4294967296 -> forall k bit,
  0 <= bit -> bit + Z.of_nat k = 8 ->
  first_in (usable sb (fun x => Z.testbit b (x - first))) (first + bit) (first + 8) (scan_bits k sb b first bit).
Proof.
  intros Hf Hb. induction k as [|k IH]; intros bit H0 Hk; cbn [scan_bits]; [simpl; lia|].
  rewrite land_pow2, u32_small by (unfold is_u32; lia). unfold xvfs_is_reserved.
  assert (forall r, first_in (usable sb (fun x => Z.testbit b (x - first))) (first + (bit + 1)) (first + 8) r ->
    ~ usable sb (fun x => Z.testbit b (x - first)) (first + bit) ->
    first_in (usable sb (fun x => Z.testbit b (x - first))) (first + bit) (first + 8) r) as Hnext.
  { intros r Hr Hn. eapply (first_in_skip _ _ (first + (bit + 1))); [|lia|done]. intros x Hx.
    by replace x with (first + bit) by lia. }
  specialize (IH (bit + 1) ltac:(lia) ltac:(lia)). unfold usable in *.
  replace (first + bit - first) with bit in * by lia.
  destruct (Z.testbit b bit) eqn:Et; simpl.
  - apply Hnext; [done|]. replace (first + bit - first) with bit by lia. naive_solver.
  - destruct (Z.ltb_spec (first + bit) (data_start sb)).
    + apply Hnext; [done|]. lia.
    + simpl. split_and!; [lia|lia| |lia|lia]. by replace (first + bit - first) with bit by lia.
Qed.

(** In a byte of ones nothing is usable. *)
Lemma ones_bit j : 0 <= j < 8 -> Z.testbit 255 j = true.
Proof. intros Hj. change 255 with (Z.ones 8). rewrite Z.ones_spec_low by lia. done. Qed.

Lemma bufbit_cons b buf x first :
  0 <= first -> (bufbit (b :: buf) (x - first)) = if decide (first <= x < first + 8) then Z.testbit b (x - first) else bufbit (b :: buf) (x - first).
Proof.
  intros Hf. case_decide; [|done]. unfold bufbit. replace ((x - first) / 8) with 0 by (Z.div_mod_to_equations; lia).
  simpl. f_equal. Z.div_mod_to_equations; lia.
Qed.
Lemma bufbit_tail b buf i : 8 <= i -> bufbit (b :: buf) i = bufbit buf (i - 8).
Proof.
  intros Hi. unfold bufbit. replace ((i - 8) / 8) with (i / 8 - 1) by (Z.div_mod_to_equations; lia).
  replace ((i - 8) mod 8) with (i mod 8) by (Z.div_mod_to_equations; lia).
  replace (Z.to_nat (i / 8)) with (S (Z.to_nat (i / 8 - 1))) by (Z.div_mod_to_equations; lia). done.
Qed.

Lemma scan_bytes_first sb : forall buf first,
  0 <= first -> first + 8 * Z.of_nat (length buf) <= 4294967296 ->
  first_in (usable sb (fun x => bufbit buf (x - first))) first (first + 8 * Z.of_nat (length buf)) (scan_bytes sb buf first).
Proof.
  induction buf as [|b buf IH]; intros first Hf Hl; cbn [scan_bytes length] in *; [simpl; lia|].
  set (P := usable sb (fun x => bufbit (b :: buf) (x - first))).
  assert (forall r, first_in (usable sb (fun x => Z.testbit b (x - first))) first (first + 8) r -> first_in P first (first + 8) r) as Hhead.
  { intros r. apply first_in_ext. intros x Hx. unfold P, usable. rewrite (bufbit_cons b buf x first) by done.
    rewrite decide_True by done. done. }
  assert (first_in P first (first + 8) None ->
    first_in P first (first + 8 * Z.of_nat (S (length buf))) (scan_bytes sb buf (first + 8))) as Hrest.
  { intros Hn. eapply first_in_skip; [exact Hn|lia|].
    replace (first + 8 * Z.of_nat (S (length buf))) with (first + 8 + 8 * Z.of_nat (length buf)) by lia.
    eapply first_in_ext; [|apply IH; lia]. intros x Hx. unfold P, usable. rewrite bufbit_tail by lia.
    by replace (x - first - 8) with (x - (first + 8)) by lia. }
  destruct (Z.eqb_spec b 255) as [->|Hne].
  - apply Hrest, Hhead. intros x Hx [Hb _]. by rewrite ones_bit in Hb by lia.
  - pose proof (scan_bits_first sb b first Hf ltac:(lia) 8 0 ltac:(lia) ltac:(lia)) as Hs. rewrite Z.add_0_r in Hs.
    destruct (scan_bits 8 sb b first 0) as [f|] eqn:Es.
    + eapply first_in_widen; [by apply Hhead|lia].
    + by apply Hrest, Hhead.
Qed.

Section bitmap.
Context {D : Type} `{BlockDevOk D}.
Implicit Types s : @xvfs D.

Lemma wp_mark_block n F s x u (Q : unit -> xvfs -> Prop) :
  mounted n s -> 0 <= x -> 0 <= bitmap_start (sb s) -> bitmap_start (sb s) + x / 4096 < n -> 0 <= free_blocks (sb s) ->
  (forall s', mounted n s' -> view s' = marked (view s) x u -> Q tt s') ->
  wp F (xvfs_mark_block x u) Q s.
Proof.
  intros Hm Hx Hb Hn Hf HQ. pose proof Hm as [_ Hv]. unfold xvfs_mark_block. apply wp_bind, wp_gets.
  assert (0 <= bitmap_start (sb s) + x / 4096 < n) as Hr by (Z.div_mod_to_equations; lia).
  assert (u32 (bitmap_start (sb s) + x / BITS_PER_BLOCK) = bitmap_start (sb s) + x / 4096) as Eu.
  { unfold BITS_PER_BLOCK. apply u32_small. destruct Hv. unfold is_u32. simpl in *. lia. }
  rewrite Eu. unfold BITS_PER_BLOCK. apply wp_bind. eapply wp_read_unchecked; [done|done|].
  intros buf s1 Hbuf Hs Hm1 Hv1. pose proof Hs as [Hl Hu].
  pose proof (Z.mod_pos_bound x 4096 ltac:(lia)) as Hi. set (i := x mod 4096) in *.
  pose proof (Z.mod_pos_bound i 8 ltac:(lia)) as Hk. rewrite pow_bit_u8 by done.
  assert (0 <= i / 8 < 512) as Hi8 by (Z.div_mod_to_equations; lia).
  assert (lget buf (i / 8) = Some (nth (Z.to_nat (i / 8)) buf 0)) as Eg.
  { rewrite lget_lookup by lia. apply lookup_nth. lia. }
  rewrite Eg. apply wp_bind, wp_lift_some. rewrite !land_pow2 by lia. fold (bufbit buf i).
  apply wp_bind. unfold marked in HQ. change (v_sb (view s)) with (sb s) in HQ. rewrite Hbuf in HQ. fold i in HQ.
  assert (forall b s2, is_sector b -> mounted n s2 -> (forall s3, mounted n s3 ->
    view s3 = put (view s2) (bitmap_start (sb s) + x / 4096) b -> Q tt s3) ->
    wp F (write_block (bitmap_start (sb s) + x / 4096) b;;; ret tt) Q s2) as Hw.
  { intros b s2 Hbs Hm2 HQ2. apply wp_bind. eapply wp_write_block; [done|lia|done|]. intros s3 Hm3 Hv3. apply wp_ret. by apply HQ2. }
  assert (put (view s1) (bitmap_start (sb s) + x / 4096) buf = view s) as Esame.
  { rewrite Hv1. unfold put, with_sec. rewrite insert_id by done. by destruct (view s). }
  pose proof (setbit_sector buf i true Hs) as Hst. pose proof (setbit_sector buf i false Hs) as Hsf.
  destruct u, (bufbit buf i); cbn [negb Bool.eqb] in HQ |- *.
  - apply wp_ret, Hw; [done|done|]. rewrite Esame. auto.
  - rewrite lset_in by lia. apply wp_bind, wp_lift_some. destruct (Z.ltb_spec 0 (free_blocks (sb s))) as [Hlt|Hge].
    + apply wp_bind. eapply wp_set_sb; [done|]. intros s2 Hm2 Hv2. apply wp_ret, Hw; [done|done|]. intros s3 Hm3 Hv3.
      apply HQ; [done|]. rewrite Hv3, Hv2, Hv1. rewrite Z.max_r by lia. done.
    + apply wp_bind, wp_ret, wp_ret, Hw; [done|done|]. intros s3 Hm3 Hv3. apply HQ; [done|]. rewrite Hv3, Hv1. rewrite Z.max_l by lia.
      unfold with_sb. replace (set_free 0 (sb s)) with (sb s); [done|].
      unfold set_free. destruct (sb s); simpl in *. f_equal; lia.
  - rewrite lset_in by lia. apply wp_bind, wp_lift_some. apply wp_bind. eapply wp_set_sb; [done|]. intros s2 Hm2 Hv2.
    apply wp_ret. rewrite u8_small by (apply ldiff_u8; [by apply nth_u8|lia]). apply Hw; [done|done|].
    intros s3 Hm3 Hv3. apply HQ; [done|]. by rewrite Hv3, Hv2, Hv1.
  - apply wp_ret, Hw; [done|done|]. rewrite Esame. auto.
Qed.

(** The geometry the search relies on: the bitmap lies on the drive. *)
Record bitmap_ok (n : Z) (x : XVFS_Superblock) : Prop := {
  bo_start : 0 <= bitmap_start x;
  bo_total : 0 <= total_blocks x < 4294963201;
  bo_room : bitmap_start x + bitmap_blocks x <= n;
  bo_free : 0 <= free_blocks x;
  bo_data : 0 < data_start x;
}.

Definition alloc_hi (x : XVFS_Superblock) : Z := 4096 * bitmap_blocks x.

Lemma bitmap_blocks_range x : 0 <= total_blocks x < 4294963201 ->
  0 <= bitmap_blocks x < 1048576 /\ total_blocks x <= alloc_hi x < total_blocks x + 4096.
Proof.
  intros Ht. unfold alloc_hi, bitmap_blocks, BITS_PER_BLOCK. rewrite u32_small by (unfold is_u32; lia).
  Z.div_mod_to_equations; lia.
Qed.

Lemma wp_find_free_loop n F s (Q : Z -> xvfs -> Prop) :
  mounted n s -> bitmap_ok n (sb s) ->
  (forall f s', first_in (usable (sb s) (bmp (view s))) 0 (alloc_hi (sb s)) (Some f) ->
     mounted n s' -> view s' = marked (view s) f true -> Q f s') ->
  (forall s', first_in (usable (sb s) (bmp (view s))) 0 (alloc_hi (sb s)) None ->
     mounted n s' -> view s' = view s -> Q 0 s') ->
  forall k i s1, mounted n s1 -> view s1 = view s -> 0 <= i -> i + Z.of_nat k = bitmap_blocks (sb s) ->
  first_in (usable (sb s) (bmp (view s))) 0 (4096 * i) None ->
  wp F (find_free_loop k i) Q s1.
Proof.
  intros Hm Hb Hsome Hnone. pose proof (bitmap_blocks_range _ (bo_total _ _ Hb)) as [Hbb _].
  destruct Hb as [Hstart Htot Hroom Hfree Hdata].
  induction k as [|k IH]; intros i s1 Hm1 Hv1 Hi Hk Hpre; cbn [find_free_loop].
  { apply wp_ret, Hnone; [|done|done]. unfold alloc_hi. by replace (bitmap_blocks (sb s)) with i by lia. }
  assert (sb s1 = sb s) as Esb by (by apply view_sb).
  apply wp_bind, wp_gets. rewrite Esb. apply wp_bind.
  assert (u32 (bitmap_start (sb s) + i) = bitmap_start (sb s) + i) as ->.
  { apply u32_small. destruct Hm as [_ [? ? Hfit _ _]]. unfold is_u32. simpl in *. lia. }
  assert (u32 (i * BITS_PER_BLOCK) = 4096 * i) as -> by (unfold BITS_PER_BLOCK; rewrite u32_small by (unfold is_u32; lia); lia).
  eapply wp_read_block; [done|lia|]. intros buf s2 Hbuf [Hl Hu] Hm2 Hv2. rewrite Hv1 in Hbuf, Hv2.
  pose proof (scan_bytes_first (sb s) buf (4096 * i) ltac:(lia) ltac:(lia)) as Hs. rewrite Hl in Hs.
  assert (first_in (usable (sb s) (bmp (view s))) 0 (4096 * (i + 1)) (scan_bytes (sb s) buf (4096 * i))) as Hfirst.
  { eapply first_in_skip; [exact Hpre|lia|]. replace (4096 * (i + 1)) with (4096 * i + 8 * Z.of_nat 512) by lia.
    eapply first_in_ext; [|exact Hs]. intros x Hx. unfold usable, bmp. change (v_sb (view s)) with (sb s).
    replace (x / 4096) with i by (Z.div_mod_to_equations; lia). rewrite Hbuf.
    by replace (x mod 4096) with (x - 4096 * i) by (Z.div_mod_to_equations; lia). }
  destruct (scan_bytes (sb s) buf (4096 * i)) as [f|]; [|by apply IH; [done|done|lia|lia|]].
  assert (sb s2 = sb s) as Esb2 by (by apply view_sb).
  pose proof Hfirst as [Hf _]. apply wp_bind. eapply wp_mark_block; [done|lia|by rewrite Esb2| |by rewrite Esb2|].
  - rewrite Esb2. Z.div_mod_to_equations; lia.
  - intros s3 Hm3 Hv3. apply wp_ret, Hsome; [|done|by rewrite Hv3, Hv2]. eapply first_in_widen; [done|]. unfold alloc_hi. lia.
Qed.

Lemma wp_find_free_block n F s (Q : Z -> xvfs -> Prop) :
  mounted n s -> bitmap_ok n (sb s) ->
  (forall f s', first_in (usable (sb s) (bmp (view s))) 0 (alloc_hi (sb s)) (Some f) ->
     mounted n s' -> view s' = marked (view s) f true -> Q f s') ->
  (forall s', first_in (usable (sb s) (bmp (view s))) 0 (alloc_hi (sb s)) None ->
     mounted n s' -> view s' = view s -> Q 0 s') ->
  wp F xvfs_find_free_block Q s.
Proof.
  intros Hm Hb Hs Hn. apply wp_bind, wp_gets. pose proof (bitmap_blocks_range _ (bo_total _ _ Hb)) as [Hbb _].
  eapply wp_find_free_loop; [done..|lia|lia|]. simpl. lia.
Qed.
End bitmap.
