(* ===== verification/XvfsDir.v ===== *)
(** * XVFS: directory blocks and path resolution

    Entries in a directory block (they are read back as they were written, and writing one
    leaves the others alone), names, the search of a directory, and the resolution of a path
    against its definition on the tree of directories. *)
From S2P Require Import Prelude BlockDev Xvfs XvfsVol.
From S2P Require Libc.
Import Xvfs.

(** ** Structures in a buffer *)

Record entry_wf (e : XVFS_FileEntry) : Prop := {
  ew_name : length (fe_name e) = 16%nat;
  ew_bytes : Forall is_u8 (fe_name e);
  ew_start : is_u32 (fe_start e);
  ew_size : is_u32 (fe_size e);
  ew_attr : is_u8 (fe_attr e);
}.

Lemma entry_bytes_length e : length (fe_name e) = 16%nat -> length (entry_bytes e) = 25%nat.
Proof. intros Hn. unfold entry_bytes. rewrite !length_app, Hn. done. Qed.
Lemma entry_bytes_u8 e : entry_wf e -> Forall is_u8 (entry_bytes e).
Proof.
  intros []. unfold entry_bytes. rewrite !Forall_app. split_and!; try apply bytes32_u8; [done|by apply list.Forall_singleton].
Qed.

Lemma entry_of_bytes e : entry_wf e -> entry_of (entry_bytes e) = e.
Proof.
  intros [Hn Hb Hs Hz Ha]. unfold entry_of, entry_bytes.
  assert (take 16 (fe_name e ++ bytes32 (fe_start e) ++ bytes32 (fe_size e) ++ [fe_attr e]) = fe_name e) as ->.
  { rewrite <-Hn. apply take_app_length. }
  rewrite (get32_at (fe_name e)) by done.
  assert (length (fe_name e ++ bytes32 (fe_start e)) = 20%nat) as Hl by (by rewrite length_app, Hn).
  rewrite (app_assoc (fe_name e)), (get32_at _ _ _ _ Hl Hz). rewrite app_assoc, app_nth2 by (rewrite length_app, Hl, bytes32_length; lia).
  rewrite length_app, Hl. by destruct e.
Qed.

Lemma set_entry_length buf i e : length buf = 512%nat -> (i < 20)%nat -> length (fe_name e) = 16%nat -> length (set_entry buf i e) = 512%nat.
Proof.
  intros Hl Hi Hn. unfold set_entry, ENTRY. rewrite !length_app, length_take, length_drop, entry_bytes_length by done. lia.
Qed.
Lemma set_entry_sector buf i e : is_sector buf -> (i < 20)%nat -> entry_wf e -> is_sector (set_entry buf i e).
Proof.
  intros [Hl Hu] Hi He. split; [apply set_entry_length; [done|done|apply He]|].
  unfold set_entry. rewrite !Forall_app. split_and!; [by apply Forall_take|by apply entry_bytes_u8|by apply Forall_drop].
Qed.

(** Twenty-five bytes of a buffer somewhere before, at or behind the entry that is assigned. *)
Lemma entry_at_set buf i j e :
  length buf = 512%nat -> (i < 20)%nat -> (j < 20)%nat -> entry_wf e ->
  entry_at (set_entry buf i e) j = if decide (i = j) then e else entry_at buf j.
Proof.
  intros Hl Hi Hj He. pose proof (entry_bytes_length e (ew_name e He)) as Hb. unfold entry_at, set_entry, ENTRY.
  destruct (decide (i = j)) as [<-|Hne].
  - rewrite drop_app_ge by (rewrite length_take; lia). rewrite length_take.
    replace (25 * i - (25 * i) `min` length buf)%nat with 0%nat by lia. rewrite drop_0.
    rewrite take_app_le by lia. rewrite take_ge by lia. by apply entry_of_bytes.
  - f_equal. destruct (decide (j < i)%nat) as [Hlt|Hge].
    + rewrite drop_app_le by (rewrite length_take; lia). rewrite take_app_le by (rewrite length_drop, length_take; lia).
      rewrite skipn_firstn_comm, take_take. f_equal. lia.
    + rewrite app_assoc, drop_app_ge by (rewrite length_app, length_take; lia).
      rewrite length_app, length_take, Hb, drop_drop. do 2 f_equal. lia.
Qed.

(** ** Names *)

(** A file name: at most 15 characters, not starting with 0xE5, which marks deleted entries. *)
Record name_ok (n : list Z) : Prop := {
  no_chars : Forall is_char n;
  no_len : (1 <= length n <= 15)%nat;
  no_first : hd 0 n <> DELETED;
}.

Lemma strncmp_zeros n k b : Forall is_char b -> strncmp (S n) (zeros k) b = 0 -> b = [].
Proof.
  intros Hb. destruct b as [|c b]; [done|]. apply list.Forall_cons in Hb as [Hc _]. simpl.
  assert (hd 0 (zeros k) = 0) as -> by (by destruct k).
  destruct (Z.eqb_spec 0 c) as [<-|Hne]; unfold is_char in Hc; simpl; lia.
Qed.

Lemma strncmp_pad n : forall a k b, Forall is_char a -> Forall is_char b -> (length a < n)%nat -> (length b < n)%nat ->
  strncmp n (a ++ zeros k) b = 0 <-> a = b.
Proof.
  induction n as [|n IH]; intros a k b Ha Hb Hla Hlb; [lia|]. destruct a as [|c a]; cbn [app].
  - split; [intros E; by rewrite (strncmp_zeros n k b)|]. intros <-. cbn [strncmp hd].
    assert (hd 0 (zeros k) = 0) as -> by (by destruct k). done.
  - apply list.Forall_cons in Ha as [Hc Ha]. cbn [strncmp hd tl]. destruct b as [|d b].
    { cbn [hd]. rewrite (proj2 (Z.eqb_neq c 0)) by (unfold is_char in Hc; lia). cbn [negb]. unfold is_char in Hc.
      split; [lia|done]. }
    apply list.Forall_cons in Hb as [Hd Hb]. cbn [hd tl]. destruct (Z.eqb_spec c d) as [<-|Hne]; cbn [negb].
    + rewrite (proj2 (Z.eqb_neq c 0)) by (unfold is_char in Hc; lia). rewrite IH by (done || (cbn [length] in *; lia)).
      split; [by intros ->|by intros [= ->]].
    + split; [lia|by intros [= ? ?]].
Qed.

Lemma strncpy_pad n m : (length m <= n)%nat -> strncpy n m = m ++ zeros (n - length m).
Proof. intros Hl. unfold strncpy. by rewrite take_ge by lia. Qed.
Lemma zeros_app a b : zeros a ++ zeros b = zeros (a + b).
Proof. unfold zeros. symmetry. apply replicate_add. Qed.

Lemma new_entry_name m a b c : name_ok m -> fe_name (new_entry m a b c) = m ++ zeros (16 - length m).
Proof.
  intros [_ Hl _]. simpl. rewrite strncpy_pad by lia. rewrite <-app_assoc. f_equal. change [0] with (zeros 1).
  rewrite zeros_app. f_equal. lia.
Qed.
Lemma is_char_u8 l : Forall is_char l -> Forall is_u8 l.
Proof. intros Hf. eapply list.Forall_impl; [exact Hf|]. unfold is_char, is_u8. lia. Qed.
Lemma new_entry_wf m a b c : name_ok m -> is_u32 a -> is_u32 b -> is_u8 c -> entry_wf (new_entry m a b c).
Proof.
  intros Hm Ha Hb Hc. pose proof Hm as [Hch Hl _]. split; try done; rewrite new_entry_name by done.
  - rewrite length_app. unfold zeros. rewrite length_replicate. lia.
  - apply Forall_app. split; [by apply is_char_u8|apply zeros_u8].
Qed.

Lemma named_new_entry m m' a b c : name_ok m -> name_ok m' -> named m' (new_entry m a b c) = bool_decide (m = m').
Proof.
  intros Hm Hm'. unfold named, unused. rewrite new_entry_name by done.
  pose proof Hm as [Hch Hl Hf]. destruct m as [|x m]; [simpl in Hl; lia|]. cbn [app hd] in *.
  apply list.Forall_cons in Hch as [Hx Hch].
  rewrite (proj2 (Z.eqb_neq x 0)), (proj2 (Z.eqb_neq x DELETED)) by (done || (unfold is_char in Hx; lia)). cbn [orb negb andb].
  change (x :: m ++ zeros (16 - length (x :: m))) with ((x :: m) ++ zeros (16 - length (x :: m))).
  pose proof Hm' as [Hch' Hl' _]. unfold XVFS_MAX_NAME.
  pose proof (strncmp_pad 16 (x :: m) (16 - length (x :: m)) m' ltac:(by constructor) Hch' ltac:(lia) ltac:(lia)) as Hp.
  case_bool_decide as Hd.
  - by rewrite (proj2 Hp Hd).
  - apply Z.eqb_neq. intros E. by apply Hd, Hp.
Qed.

(** ** Searching a directory *)

Lemma scan_entries_spec p buf k : forall i,
  match scan_entries k p buf i with
  | Some j => (i <= j < i + k)%nat /\ p (entry_at buf j) = true /\ forall x, (i <= x < j)%nat -> p (entry_at buf x) = false
  | None => forall x, (i <= x < i + k)%nat -> p (entry_at buf x) = false
  end.
Proof.
  induction k as [|k IH]; intros i; cbn [scan_entries]; [lia|]. destruct (p (entry_at buf i)) eqn:E.
  - split_and!; [lia|lia|done|lia].
  - specialize (IH (S i)). destruct (scan_entries k p buf (S i)) as [j|].
    + destruct IH as (Hj & Hp & Hx). split_and!; [lia|lia|done|]. intros x Hxr.
      destruct (decide (x = i)) as [->|]; [done|]. apply Hx. lia.
    + intros x Hxr. destruct (decide (x = i)) as [->|]; [done|]. apply IH. lia.
Qed.

Lemma find_entry_some p buf j : find_entry p buf = Some j ->
  (j < 20)%nat /\ p (entry_at buf j) = true /\ forall x, (x < j)%nat -> p (entry_at buf x) = false.
Proof.
  intros E. pose proof (scan_entries_spec p buf 20 0) as Hs. unfold find_entry, XVFS_MAX_FILES in E. rewrite E in Hs.
  destruct Hs as (Hj & Hp & Hx). split_and!; [lia|done|]. intros x Hxj. apply Hx. lia.
Qed.
Lemma find_entry_none p buf : find_entry p buf = None <-> forall x, (x < 20)%nat -> p (entry_at buf x) = false.
Proof.
  pose proof (scan_entries_spec p buf 20 0) as Hs. unfold find_entry, XVFS_MAX_FILES.
  destruct (scan_entries 20 p buf 0) as [j|].
  - split; [done|]. intros Hx. destruct Hs as (Hj & Hp & _). rewrite Hx in Hp by lia. done.
  - split; [|done]. intros _ x Hx. apply Hs. lia.
Qed.
Lemma find_entry_eq p buf j : (j < 20)%nat -> p (entry_at buf j) = true ->
  (forall x, (x < j)%nat -> p (entry_at buf x) = false) -> find_entry p buf = Some j.
Proof.
  intros Hj Hp Hx. destruct (find_entry p buf) as [i|] eqn:E.
  - apply find_entry_some in E as (Hi & Hpi & Hxi). f_equal.
    destruct (decide (i < j)%nat); [rewrite Hx in Hpi by done; done|].
    destruct (decide (j < i)%nat); [rewrite Hxi in Hp by done; done|]. lia.
  - rewrite (proj1 (find_entry_none p buf) E j Hj) in Hp. done.
Qed.

(** ** Path resolution *)

(** The entry of a directory block with a given name. *)
Definition dir_lookup (v : vol) (d : Z) (tok : list Z) : option XVFS_FileEntry :=
  match blk v d with Some buf => entry_at buf <$> find_entry (named tok) buf | None => None end.

(** The directory that a list of directory names leads to. *)
Fixpoint descend (v : vol) (d : Z) (toks : list (list Z)) : option Z :=
  match toks with
  | [] => Some d
  | t :: ts =>
    match dir_lookup v d t with
    | Some e => if is_dir_entry e then descend v (fe_start e) ts else None
    | None => None
    end
  end.

(** What a path stands for: the directory it names, or the directory its last component is in
    and that component; block 0 for none. *)
Definition resolved (v : vol) (want_dir : bool) (d : Z) (toks : list (list Z)) (out : list Z) : Z * list Z :=
  if want_dir then
    match descend v d toks with Some d' => (d', List.last toks []) | None => (0, out) end
  else
    match descend v d (removelast toks) with Some d' => (d', List.last toks []) | None => (0, out) end.

(** A set of directory blocks that lie on the volume and is closed under subdirectories. *)
Record tree_ok (n : Z) (v : vol) (R : Z -> Prop) : Prop := {
  to_range : forall d, R d -> 0 <= d < n;
  to_sub : forall d buf i, R d -> blk v d = Some buf -> (i < 20)%nat -> unused (entry_at buf i) = false ->
    is_dir_entry (entry_at buf i) = true -> R (fe_start (entry_at buf i));
}.

(** Where the resolution of a path starts. *)
Definition path_root (v : vol) (path : list Z) : Z := if hd 0 path =? SLASH then data_start (v_sb v) else v_cwd v.
Definition path_tokens (path : list Z) : list (list Z) := Libc.tokens [SLASH] (take 127 path).

Section resolve.
Context {D : Type} `{BlockDevOk D}.
Implicit Types s : @xvfs D.

Lemma wp_resolve_loop n F s R want out (Q : Z * list Z -> xvfs -> Prop) :
  mounted n s -> tree_ok n (view s) R ->
  forall toks d last s1,
  R d -> mounted n s1 -> view s1 = view s -> Forall (fun t => (length t < 16)%nat) toks -> (length last < 16)%nat ->
  (forall s', mounted n s' -> view s' = view s ->
     Q (if toks is [] then (d, last) else resolved (view s) want d toks out) s') ->
  wp F (resolve_loop want d toks last out) Q s1.
Proof.
  intros Hm HR. induction toks as [|t ts IH]; intros d last s1 Hd Hm1 Hv1 Ht Hlast HQ; cbn [resolve_loop].
  { apply wp_ret. rewrite take_ge by lia. by apply HQ. }
  apply list.Forall_cons in Ht as [Hlt Ht]. rewrite (proj2 (Nat.leb_gt _ _)) by lia. apply wp_bind.
  eapply wp_read_unchecked; [done|by apply (to_range _ _ _ HR)|]. intros buf s2 Hbuf Hsec Hm2 Hv2. rewrite Hv1 in Hbuf, Hv2.
  specialize (HQ s2 Hm2 Hv2) as HQ2. unfold resolved in HQ, HQ2.
  assert (dir_lookup (view s) d t = entry_at buf <$> find_entry (named t) buf) as Elook by (unfold dir_lookup; by rewrite Hbuf).
  destruct (find_entry (named t) buf) as [i|] eqn:Ef; cbn [fmap option_fmap option_map] in Elook.
  2: { destruct ts as [|t' ts]; destruct want; cbn [descend removelast List.last bool_decide] in HQ2 |- *.
    all: rewrite ?Elook in HQ2; rewrite ?bool_decide_eq_true_2, ?bool_decide_eq_false_2 by done; cbn [andb negb];
      apply wp_ret; rewrite ?take_ge by lia; exact HQ2. }
  apply find_entry_some in Ef as (Hi & Hp & _). unfold named in Hp. apply andb_true_iff in Hp as [Hun _]. apply negb_true_iff in Hun.
  destruct ts as [|t' ts].
  - destruct want; cbn [descend removelast List.last] in HQ, HQ2 |- *.
    + rewrite Elook in HQ, HQ2. destruct (is_dir_entry (entry_at buf i)) eqn:Edir; [|by apply wp_ret].
      apply wp_ret. rewrite take_ge by lia. exact HQ2.
    + apply wp_ret. rewrite take_ge by lia. exact HQ2.
  - assert (descend (view s) d (removelast (t :: t' :: ts)) =
            if is_dir_entry (entry_at buf i) then descend (view s) (fe_start (entry_at buf i)) (removelast (t' :: ts)) else None) as E1.
    { cbn [removelast descend]. by rewrite Elook. }
    assert (descend (view s) d (t :: t' :: ts) =
            if is_dir_entry (entry_at buf i) then descend (view s) (fe_start (entry_at buf i)) (t' :: ts) else None) as E2.
    { cbn [descend]. by rewrite Elook. }
    rewrite E1, E2 in HQ, HQ2. change (List.last (t :: t' :: ts) []) with (List.last (t' :: ts) []) in HQ, HQ2.
    destruct (is_dir_entry (entry_at buf i)) eqn:Edir; [|apply wp_ret; by destruct want].
    apply IH; [by eapply to_sub|done|done|done|lia|done].
Qed.

Lemma wp_resolve_path n F s R path want out (Q : Z * list Z -> xvfs -> Prop) :
  mounted n s -> tree_ok n (view s) R -> R (path_root (view s) path) ->
  Forall (fun t => (length t < 16)%nat) (path_tokens path) ->
  (forall s', mounted n s' -> view s' = view s -> Q (resolved (view s) want (path_root (view s) path) (path_tokens path) out) s') ->
  wp F (xvfs_resolve_path path want out) Q s.
Proof.
  intros Hm HR Hr Ht HQ. unfold xvfs_resolve_path. apply wp_bind. eapply (wp_ok _ get); [done|]. fold (path_tokens path).
  change (if hd 0 path =? SLASH then _ else _) with (path_root (view s) path).
  eapply wp_resolve_loop; [done|done|done|done|done|done|simpl; lia|]. intros s' Hm' Hv'. specialize (HQ s' Hm' Hv').
  destruct (path_tokens path); [|done]. unfold resolved in HQ. by destruct want.
Qed.

End resolve.
