(* ===== verification/XvfsFile.v ===== *)
(** * XVFS: the contents of files

    Reading a range of a file and writing all of it, against the bytes that its run of blocks
    holds. *)
From S2P Require Import Prelude BlockDev Xvfs XvfsVol XvfsDir.
Import Xvfs.

(** The bytes of a file in whole blocks, the last one filled up with zeros. *)
Definition nblocks (size : Z) : nat := Z.to_nat ((size + 511) / 512).
Definition padded (data : list Z) : list Z :=
  data ++ zeros (512 * nblocks (Z.of_nat (length data)) - length data).

Lemma nblocks_bound size : 0 <= size -> size <= 512 * Z.of_nat (nblocks size) < size + 512.
Proof. intros. unfold nblocks. rewrite Z2Nat.id by (Z.div_mod_to_equations; lia). Z.div_mod_to_equations; lia. Qed.
Lemma padded_length data : length (padded data) = (512 * nblocks (Z.of_nat (length data)))%nat.
Proof.
  pose proof (nblocks_bound (Z.of_nat (length data)) ltac:(lia)). unfold padded, zeros. rewrite length_app, length_replicate. lia.
Qed.

(** The bytes [off, off + len) of a file's blocks. *)
Definition file_bytes (v : vol) (start off len : Z) : list Z :=
  take (Z.to_nat len) (drop (Z.to_nat off) (get_blocks v start (nblocks (off + len)))).

Lemma get_blocks_cons v b k : get_blocks v b (S k) = default [] (blk v b) ++ get_blocks v (b + 1) k.
Proof. unfold get_blocks, blk. cbn [get_run]. by rewrite Z.add_assoc. Qed.

Section files.
Context {D : Type} `{BlockDevOk D}.
Implicit Types s : @xvfs D.

Lemma blocks_length n v b k : on_drive n v -> 0 <= b -> b + Z.of_nat k <= n -> length (get_blocks v b k) = (512 * k)%nat.
Proof.
  intros Hv Hb Hk. apply get_run_length; [|apply (od_sec n v Hv)]. intros i Hi.
  rewrite <-Z.add_assoc. apply (od_run n v Hv). lia.
Qed.

Lemma wp_read_loop n F s (Q : bool * list Z -> xvfs -> Prop) :
  mounted n s -> block_size (sb s) = 512 ->
  forall k fuel b off rem acc s1,
  mounted n s1 -> view s1 = view s -> 0 <= b -> b + Z.of_nat k <= n -> 0 <= off < 512 -> 0 <= rem ->
  off + rem <= 512 * Z.of_nat k -> (Z.to_nat rem < fuel)%nat ->
  (forall s', mounted n s' -> view s' = view s ->
     Q (true, acc ++ take (Z.to_nat rem) (drop (Z.to_nat off) (get_blocks (view s) b k))) s') ->
  wp F (read_loop fuel b off rem acc) Q s1.
Proof.
  intros Hm Hbs. induction k as [|k IH]; intros [|fuel] b off rem acc s1 Hm1 Hv1 Hb Hbn Hoff Hrem Hk Hf HQ; try lia;
    cbn [read_loop]; destruct (Z.leb_spec rem 0) as [Hle|Hgt]; try lia.
  - apply wp_ret. specialize (HQ s1 Hm1 Hv1). replace rem with 0 in HQ by lia. by rewrite take_0, app_nil_r in HQ.
  - apply wp_ret. specialize (HQ s1 Hm1 Hv1). replace rem with 0 in HQ by lia. by rewrite take_0, app_nil_r in HQ.
  - assert (sb s1 = sb s) as Esb by (by apply view_sb).
    apply wp_bind, wp_gets, wp_bind. eapply wp_read_block; [done|lia|]. intros tmp s2 Htmp [Hl Hu] Hm2 Hv2.
    rewrite Hv1 in Htmp, Hv2. rewrite Esb, Hbs. rewrite u32_small by (unfold is_u32; lia).
    rewrite get_blocks_cons, Htmp in HQ. cbn [from_option] in HQ. unfold id in HQ.
    assert (u32 (b + 1) = b + 1) as ->.
    { apply u32_small. destruct Hm as [_ [_ ? ? _ _]]. unfold is_u32. simpl in *. lia. }
    destruct (Z.ltb_spec rem (512 - off)) as [Hlt|Hge].
    + rewrite slice_in by lia. apply wp_bind, wp_lift_some. rewrite Z.sub_diag.
      apply IH; [done|done|lia|lia|lia|lia|lia|lia|]. intros s3 Hm3 Hv3. specialize (HQ s3 Hm3 Hv3).
      rewrite drop_app_le in HQ by lia. rewrite take_app_le in HQ by (rewrite length_drop; lia).
      by rewrite take_0, app_nil_r.
    + rewrite slice_in by lia. apply wp_bind, wp_lift_some.
      apply IH; [done|done|lia|lia|lia|lia|lia|lia|]. intros s3 Hm3 Hv3. specialize (HQ s3 Hm3 Hv3).
      rewrite drop_app_le in HQ by lia. rewrite take_app_ge in HQ by (rewrite length_drop; lia).
      rewrite length_drop in HQ. rewrite drop_0, <-app_assoc.
      rewrite take_ge by (rewrite length_drop; lia).
      replace (Z.to_nat (rem - (512 - off))) with (Z.to_nat rem - (length tmp - Z.to_nat off))%nat by lia. done.
Qed.

Lemma wp_read_blocks n F s room (Q : list Z -> xvfs -> Prop) :
  mounted n s ->
  forall k fuel b rem acc s1,
  mounted n s1 -> view s1 = view s -> 0 <= b -> b + Z.of_nat k <= n -> 0 <= rem ->
  rem <= 512 * Z.of_nat k -> (Z.to_nat rem < fuel)%nat -> Z.of_nat (length acc) + rem <= room ->
  (forall s', mounted n s' -> view s' = view s -> Q (acc ++ take (Z.to_nat rem) (get_blocks (view s) b k)) s') ->
  wp F (read_blocks fuel room b rem acc) Q s1.
Proof.
  intros Hm. induction k as [|k IH]; intros [|fuel] b rem acc s1 Hm1 Hv1 Hb Hbn Hrem Hk Hf Hroom HQ; try lia;
    cbn [read_blocks]; destruct (Z.leb_spec rem 0) as [Hle|Hgt]; try lia.
  - apply wp_ret. specialize (HQ s1 Hm1 Hv1). replace rem with 0 in HQ by lia. by rewrite take_0, app_nil_r in HQ.
  - apply wp_ret. specialize (HQ s1 Hm1 Hv1). replace rem with 0 in HQ by lia. by rewrite take_0, app_nil_r in HQ.
  - apply wp_bind. eapply wp_read_unchecked; [done|lia|]. intros tmp s2 Htmp [Hl Hu] Hm2 Hv2. rewrite Hv1 in Htmp, Hv2.
    rewrite get_blocks_cons, Htmp in HQ. cbn [from_option] in HQ. unfold id in HQ.
    assert (u32 (b + 1) = b + 1) as ->.
    { apply u32_small. destruct Hm as [_ [_ ? ? _ _]]. unfold is_u32. simpl in *. lia. }
    destruct (Z.ltb_spec 512 rem) as [Hlt|Hge]; rewrite slice_in by lia; apply wp_bind, wp_lift_some; rewrite drop_0;
      rewrite (proj2 (Z.ltb_ge _ _)) by lia.
    + apply IH; [done|done|lia|lia|lia|lia|lia|rewrite length_app, length_take; lia|].
      intros s3 Hm3 Hv3. specialize (HQ s3 Hm3 Hv3). rewrite take_app_ge in HQ by lia. rewrite Hl in HQ.
      rewrite (take_ge tmp) by lia. rewrite <-app_assoc. by replace (Z.to_nat (rem - 512)) with (Z.to_nat rem - 512)%nat by lia.
    + rewrite Z.sub_diag. apply IH; [done|done|lia|lia|lia|lia|lia|rewrite length_app, length_take; lia|].
      intros s3 Hm3 Hv3. specialize (HQ s3 Hm3 Hv3). rewrite take_app_le in HQ by lia. by rewrite take_0, app_nil_r.
Qed.

(** The whole blocks of a file. *)
Lemma wp_write_full n F data (Q : Z * Z -> xvfs -> Prop) : Forall is_u8 data -> Z.of_nat (length data) < 4294967296 ->
  forall fuel f c w s, mounted n s -> (f < fuel)%nat -> 0 <= c -> c + Z.of_nat f <= n -> 0 <= w ->
  w + 512 * Z.of_nat f <= Z.of_nat (length data) ->
  (forall s', mounted n s' -> view s' = put_blocks (view s) c f (take (512 * f) (drop (Z.to_nat w) data)) ->
     Q (c + Z.of_nat f, w + 512 * Z.of_nat f) s') ->
  wp F (write_full fuel data (Z.of_nat f) c w) Q s.
Proof.
  intros Hu Hlen. induction fuel as [|fuel IH]; intros f c w s Hm Hf Hc Hcn Hw Hwl HQ; [lia|]. cbn [write_full].
  destruct (Z.leb_spec (Z.of_nat f) 0) as [Hle|Hgt].
  { apply wp_ret. replace f with 0%nat in * by lia. rewrite !Z.add_0_r in HQ. apply HQ; [done|].
    reflexivity. }
  set (g := Nat.min 256 f).
  assert ((if 256 <? Z.of_nat f then 256 else u16 (Z.of_nat f)) = Z.of_nat g) as ->.
  { destruct (Z.ltb_spec 256 (Z.of_nat f)); [lia|]. unfold u16. rewrite Z.mod_small by lia. lia. }
  rewrite slice_in by lia. apply wp_bind, wp_lift_some, wp_bind, wp_gets, wp_bind, wp_gets, wp_bind.
  pose proof Hm as [_ Hv]. change (xvfs_base_lba s) with (v_base (view s)). rewrite (lba_small n) by (done || lia).
  eapply (write_sectors_rule n); [done|lia| | |by apply Forall_take, Forall_drop|].
  { intros i Hi. rewrite <-Z.add_assoc. apply (od_run n _ Hv). lia. }
  { rewrite length_take, length_drop. lia. }
  intros s1 Hm1 Hv1. rewrite !(u32_small (_ + u32 _)), !(u32_small (_ * _)) by (rewrite ?u32_small; unfold is_u32; lia).
  assert (u32 (c + Z.of_nat g) = c + Z.of_nat g) as ->.
  { apply u32_small. destruct Hv as [_ ? ? _ _]. unfold is_u32. lia. }
  apply wp_bind. eapply wp_progress; [done|]. intros s2 Hm2 Hv2.
  replace (Z.of_nat f - Z.of_nat g) with (Z.of_nat (f - g)) by lia. apply IH; [done|lia|lia|lia|lia|lia|].
  intros s3 Hm3 Hv3.
  replace (c + Z.of_nat g + Z.of_nat (f - g)) with (c + Z.of_nat f) by lia.
  replace (w + Z.of_nat g * 512 + 512 * Z.of_nat (f - g)) with (w + 512 * Z.of_nat f) by lia.
  apply HQ; [done|]. rewrite Hv3, Hv2, Hv1. unfold put_blocks, with_sec. cbn [v_sec v_sb v_base v_drive v_cwd v_path]. f_equal.
  replace f with (g + (f - g))%nat at 3 by lia. rewrite put_run_app. rewrite Z.add_assoc. f_equal.
  - f_equal. rewrite take_take. f_equal. lia.
  - rewrite skipn_firstn_comm, drop_drop. f_equal; [lia|]. f_equal. lia.
Qed.

Lemma wp_write_data n F s data b (Q : unit -> xvfs -> Prop) :
  mounted n s -> Forall is_u8 data -> Z.of_nat (length data) < 4294967296 ->
  0 <= b -> b + Z.of_nat (nblocks (Z.of_nat (length data))) <= n ->
  (forall s', mounted n s' -> view s' = put_blocks (view s) b (nblocks (Z.of_nat (length data))) (padded data) -> Q tt s') ->
  wp F (write_data data (Z.of_nat (length data)) b) Q s.
Proof.
  intros Hm Hu Hlen Hb Hbn HQ. unfold write_data. apply wp_bind.
  set (size := Z.of_nat (length data)) in *. set (f := Z.to_nat (size / 512)).
  pose proof (nblocks_bound size ltac:(lia)) as Hk.
  assert (size / 512 = Z.of_nat f) as Ef by (subst f; rewrite Z2Nat.id; [done|Z.div_mod_to_equations; lia]).
  assert (512 * Z.of_nat f <= size < 512 * Z.of_nat f + 512) as Hfs by (Z.div_mod_to_equations; lia).
  rewrite Ef. eapply (wp_write_full n); [done|done|done|lia|lia|lia|lia|lia|]. intros s1 Hm1 Hv1. rewrite drop_0 in Hv1.
  rewrite Z.add_0_l. destruct (Z.ltb_spec (512 * Z.of_nat f) size) as [Hlt|Hge].
  - assert (nblocks size = f + 1)%nat as Ek by lia. rewrite Ek in *.
    rewrite slice_in by lia. apply wp_bind, wp_lift_some. set (t := take _ _).
    assert (length t = Z.to_nat (size - 512 * Z.of_nat f)) as Ht by (subst t; rewrite length_take, length_drop; lia).
    apply wp_bind. eapply wp_write_block; [done|lia| |].
    { split; [rewrite length_app; unfold zeros; rewrite length_replicate; lia|]. apply Forall_app.
      split; [by apply Forall_take, Forall_drop|apply zeros_u8]. }
    intros s2 Hm2 Hv2. eapply wp_progress; [done|]. intros s3 Hm3 Hv3. apply HQ; [done|]. rewrite Hv3, Hv2, Hv1.
    unfold put, put_blocks, with_sec. cbn [v_sec v_sb v_base v_drive v_cwd v_path]. f_equal. rewrite put_run_app. cbn [put_run].
    unfold padded. fold size. rewrite Ek. rewrite take_app_le by lia. rewrite drop_app_le by lia. rewrite Z.add_assoc. f_equal.
    rewrite take_ge by (rewrite length_app, length_drop; unfold zeros; rewrite length_replicate; lia).
    subst t. rewrite take_ge by (rewrite length_drop; lia). replace (Z.to_nat (512 * Z.of_nat f)) with (512 * f)%nat by lia.
    f_equal. f_equal. rewrite length_drop. lia.
  - assert (nblocks size = f)%nat as Ek by lia. rewrite Ek in *. apply wp_ret, HQ; [done|]. rewrite Hv1. f_equal.
    unfold padded. fold size. rewrite Ek, take_ge by lia. replace (512 * f - length data)%nat with 0%nat by lia. by rewrite app_nil_r.
Qed.


(** The size that is read, and the bytes it covers *)
Lemma clip_min e offset size : 0 <= offset < fe_size e -> fe_size e < 4294967296 -> 0 <= size -> offset + size < 4294967296 ->
  clip e offset size = Z.min size (fe_size e - offset).
Proof.
  intros. unfold clip. rewrite !u32_small by (unfold is_u32; lia). destruct (Z.ltb_spec (fe_size e) (offset + size)); lia.
Qed.

(** With a size for which offset + size wraps, nothing is cut off. *)
Lemma clip_wraps e offset size : u32 (offset + size) <= fe_size e -> clip e offset size = size.
Proof. intros Hle. unfold clip. by rewrite (proj2 (Z.ltb_ge _ _)) by lia. Qed.

Lemma get_blocks_app v k1 : forall b k2, get_blocks v b (k1 + k2) = get_blocks v b k1 ++ get_blocks v (b + Z.of_nat k1) k2.
Proof.
  induction k1 as [|k1 IH]; intros b k2; [by rewrite Z.add_0_r|]. cbn [Nat.add]. rewrite !get_blocks_cons, IH, <-app_assoc.
  do 2 f_equal. f_equal. lia.
Qed.

(** The bytes of the range, read from the block the offset falls in. *)
Lemma range_bytes n s e offset size :
  mounted n s -> 0 <= fe_start e -> 0 <= fe_size e < 4294967296 -> fe_start e + Z.of_nat (nblocks (fe_size e)) <= n ->
  0 <= offset < fe_size e -> 0 <= size ->
  let contents := take (Z.to_nat (fe_size e)) (get_blocks (view s) (fe_start e) (nblocks (fe_size e))) in
  let bytes := take (Z.to_nat size) (drop (Z.to_nat offset) contents) in
  let len := Z.min size (fe_size e - offset) in
  Z.of_nat (length bytes) = len /\
  take (Z.to_nat len) (drop (Z.to_nat (offset mod 512))
    (get_blocks (view s) (fe_start e + offset / 512) (nblocks (fe_size e) - Z.to_nat (offset / 512)))) = bytes.
Proof.
  intros [_ Hv] Hst Hfs Hroom Hoff Hsz contents bytes len. pose proof (nblocks_bound (fe_size e) ltac:(lia)) as Hk.
  set (k := nblocks (fe_size e)) in *. set (q := Z.to_nat (offset / 512)).
  assert (0 <= offset / 512 /\ 512 * (offset / 512) <= offset) as Hq by (Z.div_mod_to_equations; lia).
  pose proof (blocks_length n (view s) (fe_start e) k Hv Hst Hroom) as Hl.
  assert (length contents = Z.to_nat (fe_size e)) as Hlc by (subst contents; rewrite length_take; lia).
  split; [subst bytes; rewrite length_take, length_drop; lia|]. subst bytes contents.
  assert (get_blocks (view s) (fe_start e + offset / 512) (k - q) = drop (512 * q) (get_blocks (view s) (fe_start e) k)) as ->.
  { replace k with (q + (k - q))%nat at 2 by lia. rewrite get_blocks_app.
    rewrite drop_app_ge by (rewrite (blocks_length n) by (done || lia); lia).
    rewrite (blocks_length n) by (done || lia). rewrite Nat.sub_diag, drop_0. f_equal. lia. }
  rewrite drop_drop. replace (512 * q + Z.to_nat (offset mod 512))%nat with (Z.to_nat offset) by (Z.div_mod_to_equations; lia).
  rewrite skipn_firstn_comm, take_take. f_equal. lia.
Qed.

Lemma wp_range_loop n F s e offset size (Q : bool * list Z -> xvfs -> Prop) :
  mounted n s -> block_size (sb s) = 512 -> 0 <= fe_start e -> 0 <= fe_size e < 4294967296 ->
  fe_start e + Z.of_nat (nblocks (fe_size e)) <= n -> 0 <= offset < fe_size e -> 0 <= size -> offset + size < 4294967296 ->
  (forall s', mounted n s' -> view s' = view s ->
     Q (true, take (Z.to_nat (Z.min size (fe_size e - offset))) (drop (Z.to_nat (offset mod 512))
       (get_blocks (view s) (fe_start e + offset / 512) (nblocks (fe_size e) - Z.to_nat (offset / 512))))) s') ->
  wp F (read_loop (S (Z.to_nat (clip e offset size))) (u32 (fe_start e + offset / 512)) (offset mod 512) (clip e offset size) []) Q s.
Proof.
  intros Hm Hbs Hst Hfs Hroom Hoff Hsz Hwrap HQ. rewrite clip_min by lia.
  pose proof (nblocks_bound (fe_size e) ltac:(lia)) as Hk. set (k := nblocks (fe_size e)) in *.
  assert (0 <= offset / 512 /\ 512 * (offset / 512) + offset mod 512 = offset /\ 0 <= offset mod 512 < 512) as Hq
    by (Z.div_mod_to_equations; lia).
  rewrite u32_small by (destruct Hm as [_ [_ ? ? _ _]]; unfold is_u32; simpl in *; lia).
  eapply (wp_read_loop n F s _ Hm Hbs (k - Z.to_nat (offset / 512))); [done|done|lia|lia|lia|lia|lia|lia|].
  intros s' Hm' Hv'. by apply HQ.
Qed.

Lemma wp_read_range n F s e offset size (Q : bool * list Z -> xvfs -> Prop) :
  mounted n s -> block_size (sb s) = 512 -> 0 <= fe_start e -> 0 <= fe_size e < 4294967296 ->
  fe_start e + Z.of_nat (nblocks (fe_size e)) <= n -> 0 <= offset < fe_size e -> 0 <= size -> offset + size < 4294967296 ->
  (forall s', mounted n s' -> view s' = view s ->
     Q (true, take (Z.to_nat (Z.min size (fe_size e - offset))) (drop (Z.to_nat (offset mod 512))
       (get_blocks (view s) (fe_start e + offset / 512) (nblocks (fe_size e) - Z.to_nat (offset / 512))))) s') ->
  wp F (xvfs_read_file_range (Some e) true offset size) Q s.
Proof.
  intros Hm Hbs Hst Hfs Hroom Hoff Hsz Hwrap HQ. unfold xvfs_read_file_range. cbn [negb].
  rewrite (proj2 (Z.leb_gt _ _)) by lia. apply wp_bind, wp_gets. rewrite Hbs. change (512 =? 0) with false. cbn iota.
  by eapply wp_range_loop.
Qed.

Lemma wp_read_file n F s e offset size (Q : Z * list Z -> xvfs -> Prop) :
  mounted n s -> block_size (sb s) = 512 -> 0 <= fe_start e -> 0 <= fe_size e < 4294967296 ->
  fe_start e + Z.of_nat (nblocks (fe_size e)) <= n -> 0 <= offset < fe_size e -> 0 <= size -> offset + size < 4294967296 ->
  (forall s', mounted n s' -> view s' = view s ->
     let out := take (Z.to_nat (Z.min size (fe_size e - offset))) (drop (Z.to_nat (offset mod 512))
       (get_blocks (view s) (fe_start e + offset / 512) (nblocks (fe_size e) - Z.to_nat (offset / 512)))) in
     Q (s32 (Z.of_nat (length out)), out) s') ->
  wp F (xvfs_read_file (Some e) true offset size) Q s.
Proof.
  intros Hm Hbs Hst Hfs Hroom Hoff Hsz Hwrap HQ. unfold xvfs_read_file. cbn [negb].
  rewrite (proj2 (Z.leb_gt _ _)) by lia. apply wp_bind, wp_gets. rewrite Hbs. change (512 =? 0) with false. cbn iota.
  apply wp_bind. eapply wp_range_loop; [done..|]. intros s' Hm' Hv'. apply wp_ret. by apply HQ.
Qed.
End files.
