(* ===== verification/XvfsCreate.v ===== *)
(** * XVFS: creating files

    xvfs_create_file puts the data, the directory entry and the bitmap where
    xvfs_read_file_by_name finds them again. *)
From S2P Require Import Prelude BlockDev Xvfs XvfsVol XvfsDir XvfsFile.
Import Xvfs.

(** ** A new entry in a directory *)

Lemma named_first tok e : named tok e = true -> hd 0 (fe_name e) = hd 0 tok.
Proof.
  unfold named, XVFS_MAX_NAME. intros [_ E]%andb_true_iff. apply Z.eqb_eq in E. cbn [strncmp] in E.
  destruct (Z.eqb_spec (hd 0 (fe_name e)) (hd 0 tok)) as [|Hne]; [done|]. cbn [negb] in E. lia.
Qed.

(** The names a path may use: file names that do not start with 0xFF either, the byte that
    xvfs_create_file takes for a free slot. *)
Definition tok_ok (t : list Z) : Prop := name_ok t /\ hd 0 t <> 255.

Lemma free_slot_not_named tok e : tok_ok tok -> free_file_slot e = true -> named tok e = false.
Proof.
  intros [[Hch Hl _] Hff] Hfree. destruct (named tok e) eqn:E; [|done]. apply named_first in E.
  unfold free_file_slot in Hfree. destruct tok as [|c tok]; [simpl in Hl; lia|]. simpl in *.
  apply list.Forall_cons in Hch as [Hc _]. unfold is_char in Hc. bdestr; simpl in *; (lia || done).
Qed.

Section new_entry.
Context (buf : list Z) (slot : nat) (name : list Z) (start size : Z).
Hypothesis Hbuf : is_sector buf.
Hypothesis Hslot : find_entry free_file_slot buf = Some slot.
Hypothesis Hname : tok_ok name.
Hypothesis Hstart : is_u32 start.
Hypothesis Hsize : is_u32 size.
Let e := new_entry name start size 0.
Let buf' := set_entry buf slot e.

Lemma new_file_wf : entry_wf e.
Proof. apply new_entry_wf; [apply Hname|done|done|unfold is_u8; lia]. Qed.
Lemma new_file_at j : (j < 20)%nat -> entry_at buf' j = if decide (slot = j) then e else entry_at buf j.
Proof.
  intros Hj. apply find_entry_some in Hslot as (Hs & _ & _). apply entry_at_set; [apply Hbuf|done|done|apply new_file_wf].
Qed.
Lemma new_file_sector : is_sector buf'.
Proof. apply find_entry_some in Hslot as (Hs & _ & _). apply set_entry_sector; [done|done|apply new_file_wf]. Qed.

(** The new name is found, *)
Lemma new_file_found : find_entry (named name) buf = None -> find_entry (named name) buf' = Some slot.
Proof.
  intros Hnone. pose proof Hslot as (Hs & _ & _)%find_entry_some. apply find_entry_eq; [done| |].
  - rewrite new_file_at by done. rewrite decide_True by done. subst e.
    rewrite named_new_entry by apply Hname. by apply bool_decide_eq_true_2.
  - intros x Hx. rewrite new_file_at by lia. rewrite decide_False by lia. apply (proj1 (find_entry_none _ _) Hnone). lia.
Qed.
(** and every name that was found before leads to the same entry. *)
Lemma new_file_others tok j : tok_ok tok -> find_entry (named name) buf = None -> find_entry (named tok) buf = Some j ->
  find_entry (named tok) buf' = Some j /\ entry_at buf' j = entry_at buf j.
Proof.
  intros Htok Hnone Hj. pose proof Hslot as (Hs & Hfree & _)%find_entry_some.
  pose proof Hj as (Hj20 & Hp & Hbefore)%find_entry_some.
  assert (tok <> name) as Hne by (intros ->; by rewrite Hj in Hnone).
  assert (slot <> j) as Hsj by (intros <-; by rewrite free_slot_not_named in Hp).
  assert (entry_at buf' j = entry_at buf j) as Ej by (rewrite new_file_at by done; by rewrite decide_False).
  split; [|done]. apply find_entry_eq; [done|by rewrite Ej|]. intros x Hx. rewrite new_file_at by lia.
  case_decide; [|by apply Hbefore]. subst x e. rewrite named_new_entry by (apply Hname || apply Htok).
  apply bool_decide_eq_false_2. congruence.
Qed.
End new_entry.

(** ** Resolution in a volume with more entries *)

(** Every name found in a directory of R before is found, with the same entry, after. *)
Definition grows (R : Z -> Prop) (v v' : vol) : Prop :=
  forall d tok e, R d -> tok_ok tok -> dir_lookup v d tok = Some e -> dir_lookup v' d tok = Some e.

Lemma lookup_sub n R v d t e : tree_ok n v R -> R d -> dir_lookup v d t = Some e -> is_dir_entry e = true -> R (fe_start e).
Proof.
  intros HR Hd El Ed. unfold dir_lookup in El. destruct (blk v d) as [buf|] eqn:Eb; [|done].
  destruct (find_entry (named t) buf) as [i|] eqn:Ef; [|done]. cbn in El. simplify_eq.
  apply find_entry_some in Ef as (Hi & Hp & _). eapply to_sub; [done|done|done|done| |done].
  unfold named in Hp. apply andb_true_iff in Hp as [Hun _]. by apply negb_true_iff in Hun.
Qed.
Lemma descend_in n R v : tree_ok n v R -> forall toks d x, R d -> descend v d toks = Some x -> R x.
Proof.
  intros HR. induction toks as [|t ts IH]; intros d x Hd E; cbn [descend] in *; [by simplify_eq|].
  destruct (dir_lookup v d t) as [e|] eqn:El; [|done]. destruct (is_dir_entry e) eqn:Ed; [|done].
  eapply IH; [|done]. by eapply lookup_sub.
Qed.
Lemma descend_grows n R v v' : tree_ok n v R -> grows R v v' -> forall toks d x,
  R d -> Forall tok_ok toks -> descend v d toks = Some x -> descend v' d toks = Some x.
Proof.
  intros HR Hg. induction toks as [|t ts IH]; intros d x Hd Ht E; cbn [descend] in *; [done|].
  apply list.Forall_cons in Ht as [Ht Hts]. destruct (dir_lookup v d t) as [e|] eqn:El; [|done].
  rewrite (Hg d t e Hd Ht El). destruct (is_dir_entry e) eqn:Ed; [|done]. apply IH; [|done|done]. by eapply lookup_sub.
Qed.

Lemma removelast_tok_ok ts : Forall tok_ok ts -> Forall tok_ok (removelast ts).
Proof. induction 1 as [|t ts Ht Hts IH]; [done|]. destruct ts; [constructor|]. by constructor. Qed.
Lemma tok_ok_short ts : Forall tok_ok ts -> Forall (fun t => (length t < 16)%nat) ts.
Proof. intros Hf. eapply list.Forall_impl; [exact Hf|]. intros t [[_ Hl _] _]. lia. Qed.

(** ** The volume after a file is created *)

(** A volume whose bitmap, as the allocator reads it, is on the drive and whose directories R lie in the
    data area. *)
Record layout (n : Z) (v : vol) (R : Z -> Prop) : Prop := {
  lo_bitmap : bitmap_ok n (v_sb v);
  lo_tree : tree_ok n v R;
  lo_dirs : forall d, R d -> data_start (v_sb v) <= d;
}.

(** The block r that is allocated, the k blocks from r on that the data takes, the directory d. *)
Definition created (v : vol) (r d : Z) (data buf' : list Z) : vol :=
  put (put_blocks (marked v r true) r (nblocks (Z.of_nat (length data))) (padded data)) d buf'.

Section created.
Context (n : Z) (v : vol) (R : Z -> Prop) (r d : Z) (data buf buf' : list Z).
Let k := nblocks (Z.of_nat (length data)).
Hypothesis Hlay : layout n v R.
Hypothesis Hfirst : first_in (usable (v_sb v) (bmp v)) 0 (alloc_hi (v_sb v)) (Some r).
Hypothesis Hsec : bitmap_start (v_sb v) + r / 4096 < data_start (v_sb v).
Hypothesis HRk : forall x, R x -> ~ (r <= x < r + Z.of_nat k).
Hypothesis HRd : R d.

Lemma created_bitmap_sector : 0 <= r /\ data_start (v_sb v) <= r /\ bitmap_start (v_sb v) + r / 4096 < data_start (v_sb v) /\
  bitmap_start (v_sb v) + r / 4096 < n.
Proof.
  destruct Hlay as [[_ _ Hroom _ _] _ _], Hfirst as [Hr [[_ Hds] _]]. unfold alloc_hi in Hr.
  split_and!; [lia|done|done|]. Z.div_mod_to_equations; lia.
Qed.

Lemma created_blk x : R x -> blk (created v r d data buf') x = if decide (d = x) then Some buf' else blk v x.
Proof.
  intros Hx. unfold created. rewrite blk_put. case_decide; [done|]. pose proof (HRk x Hx).
  rewrite blk_blocks_out by (subst k; lia). pose proof created_bitmap_sector. pose proof (lo_dirs _ _ _ Hlay x Hx).
  apply marked_blk. lia.
Qed.

Lemma created_data : length (padded data) = (512 * k)%nat -> get_blocks (created v r d data buf') r k = padded data.
Proof.
  intros Hl. assert (v_base (marked v r true) = v_base v) as Eb.
  { unfold marked. destruct (blk v _); [|done]. by destruct (Bool.eqb _ _). }
  transitivity (get_run (put_run (v_sec (marked v r true)) (v_base v + r) k (padded data)) (v_base v + r) k); [|by apply get_put_run].
  unfold created, get_blocks, put, put_blocks. cbn [v_sec v_base with_sec]. rewrite !Eb.
  apply get_run_ext. intros i Hi. apply lookup_insert_ne. pose proof (HRk d HRd). lia.
Qed.

End created.

(** ** Creating and reading back *)

Section create.
Context {D : Type} `{BlockDevOk D}.
Implicit Types s : @xvfs D.

(** The path leads to a directory of R, and to a name that may be created in it. *)
Record target (v : vol) (R : Z -> Prop) (path : list Z) (d : Z) (name : list Z) : Prop := {
  ta_root : R (path_root v path);
  ta_toks : Forall tok_ok (path_tokens path);
  ta_some : path_tokens path <> [];
  ta_dir : descend v (path_root v path) (removelast (path_tokens path)) = Some d;
  ta_name : name = List.last (path_tokens path) [];
}.

Lemma target_name v R path d name : target v R path d name -> tok_ok name.
Proof.
  intros [_ Ht Hne _ ->]. clear -Ht Hne. induction Ht as [|t ts Ht Hts IH]; [done|].
  destruct ts as [|t' ts]; [done|]. by apply IH.
Qed.
Lemma target_resolved v R path d name out :
  target v R path d name -> resolved v false (path_root v path) (path_tokens path) out = (d, name).
Proof. intros [_ _ _ E ->]. unfold resolved. by rewrite E. Qed.

Lemma wp_resolve_target n F s R path d name (Q : Z * list Z -> xvfs -> Prop) :
  mounted n s -> tree_ok n (view s) R -> target (view s) R path d name ->
  (forall s', mounted n s' -> view s' = view s -> Q (d, name) s') ->
  wp F (xvfs_resolve_path path false []) Q s.
Proof.
  intros Hm HR Ht HQ. pose proof Ht as [Hr Htk _ _ _].
  eapply wp_resolve_path; [done|done|done|by apply tok_ok_short|]. intros s' Hm' Hv'.
  rewrite (target_resolved _ _ _ _ _ _ Ht). by apply HQ.
Qed.

Lemma wp_create_file n F s R path d name data buf slot r (Q : bool -> xvfs -> Prop) :
  mounted n s -> layout n (view s) R -> target (view s) R path d name ->
  blk (view s) d = Some buf -> find_entry free_file_slot buf = Some slot ->
  first_in (usable (sb s) (bmp (view s))) 0 (alloc_hi (sb s)) (Some r) ->
  Forall is_u8 data -> Z.of_nat (length data) < 4294967296 ->
  r + Z.of_nat (nblocks (Z.of_nat (length data))) <= n -> r < n ->
  (forall s', mounted n s' ->
     view s' = created (view s) r d data (set_entry buf slot (new_entry name r (Z.of_nat (length data)) 0)) -> Q true s') ->
  wp F (xvfs_create_file path data (Z.of_nat (length data))) Q s.
Proof.
  intros Hm Hlay Ht Hbuf Hslot Hfirst Hu Hlen Hrn Hrn' HQ. pose proof Hlay as [Hb HR Hds].
  pose proof (target_name _ _ _ _ _ Ht) as Hname.
  assert (R d) as HRd by (eapply descend_in; [done|apply Ht|apply Ht]).
  pose proof (to_range _ _ _ HR d HRd) as Hdn. pose proof (Hds d HRd) as Hdd. pose proof (bo_data _ _ Hb) as Hd0.
  pose proof Hfirst as (Hr & [_ Hrd] & _). change (v_sb (view s)) with (sb s) in *.
  unfold xvfs_create_file. apply wp_bind. eapply wp_resolve_target; [done|done|done|]. intros s1 Hm1 Hv1.
  cbn beta iota. rewrite (proj2 (Z.eqb_neq d 0)) by lia. apply wp_bind. eapply wp_read_unchecked; [done|done|].
  intros buf0 s2 Hbuf0 Hsec Hm2 Hv2. rewrite Hv1 in Hbuf0, Hv2. rewrite Hbuf in Hbuf0. injection Hbuf0 as <-. rewrite Hslot.
  assert (sb s2 = sb s) as Esb by (by apply view_sb).
  apply wp_bind. eapply wp_find_free_block; [done|by rewrite Esb| |].
  2: { intros s3 Hnone. exfalso. rewrite Esb, Hv2 in Hnone. eapply (Hnone r Hr). apply Hfirst. }
  intros f s3 Hf Hm3 Hv3. rewrite Esb, Hv2 in Hf. assert (f = r) as -> by (by eapply first_in_unique).
  rewrite (proj2 (Z.eqb_neq r 0)) by lia. apply wp_bind. eapply wp_write_data; [done|done|done|lia|done|].
  intros s4 Hm4 Hv4. apply wp_bind. eapply wp_write_block; [done|done| |].
  { apply new_file_sector; [done|done|done|unfold is_u32; destruct Hm as [_ [_ ? ? _ _]]; simpl in *; lia|unfold is_u32; lia]. }
  intros s5 Hm5 Hv5. apply wp_ret, HQ; [done|]. by rewrite Hv5, Hv4, Hv3, Hv2.
Qed.


Lemma wp_find_entry n F s R path d name buf (Q : option XVFS_FileEntry -> xvfs -> Prop) :
  mounted n s -> tree_ok n (view s) R -> target (view s) R path d name -> path <> [] -> d <> 0 -> 0 <= d < n ->
  blk (view s) d = Some buf ->
  (forall s', mounted n s' -> view s' = view s -> Q (entry_at buf <$> find_entry (named name) buf) s') ->
  wp F (xvfs_find_entry (Some path)) Q s.
Proof.
  intros Hm HR Ht Hp Hd Hdn Hb HQ. pose proof (target_name _ _ _ _ _ Ht) as [[_ Hl _] _].
  assert (name <> []) as Hne by (intros ->; simpl in Hl; lia).
  unfold xvfs_find_entry. destruct path as [|c p]; [done|]. apply wp_bind.
  eapply wp_resolve_target; [done|done|done|]. intros s2 Hm2 Hv2. cbn beta iota.
  rewrite (proj2 (Z.eqb_neq d 0)), bool_decide_eq_false_2 by done. cbn [orb].
  apply wp_bind. eapply wp_read_block; [done|done|]. intros b s3 Hb3 _ Hm3 Hv3. rewrite Hv2, Hb in Hb3. injection Hb3 as <-.
  apply wp_ret, HQ; [done|]. by rewrite Hv3.
Qed.

(** Everything xvfs_create_file needs to store [data] under [path]: a slot of the directory block
    buf, the first free block r with room for the data and with its bit before the data area, no entry of
    that name, and no directory in the blocks that the data takes. *)
Record can_create (n : Z) s (R : Z -> Prop) (path : list Z) (d : Z) (name data buf : list Z) (slot : nat) (r : Z) : Prop := {
  cc_mounted : mounted n s;
  cc_layout : layout n (view s) R;
  cc_target : target (view s) R path d name;
  cc_buf : blk (view s) d = Some buf;
  cc_new : find_entry (named name) buf = None;
  cc_slot : find_entry free_file_slot buf = Some slot;
  cc_block : first_in (usable (sb s) (bmp (view s))) 0 (alloc_hi (sb s)) (Some r);
  cc_bit : bitmap_start (sb s) + r / 4096 < data_start (sb s);
  cc_data : Forall is_u8 data;
  cc_size : Z.of_nat (length data) < 4294967296;
  cc_room : r + Z.of_nat (nblocks (Z.of_nat (length data))) <= n;
  cc_r : r < n;
  cc_apart : forall x, R x -> ~ (r <= x < r + Z.of_nat (nblocks (Z.of_nat (length data))));
}.

Section after.
Context (n : Z) (s s1 : @xvfs D) (R : Z -> Prop) (path : list Z) (d : Z) (name data buf : list Z) (slot : nat) (r : Z).
Hypothesis Hcc : can_create n s R path d name data buf slot r.
Let e := new_entry name r (Z.of_nat (length data)) 0.
Hypothesis Hv1 : view s1 = created (view s) r d data (set_entry buf slot e).
Hypothesis Hm1 : mounted n s1.

Lemma cc_dir : R d.
Proof. pose proof Hcc as [_ [_ HR _] Ht _ _ _ _ _ _ _ _ _ _]. eapply descend_in; [done|apply Ht|apply Ht]. Qed.
Lemma cc_blk x : R x -> blk (view s1) x = if decide (d = x) then Some (set_entry buf slot e) else blk (view s) x.
Proof. intros Hx. rewrite Hv1. destruct Hcc. by apply (created_blk n _ R). Qed.
Lemma cc_u32 : is_u32 r /\ is_u32 (Z.of_nat (length data)).
Proof.
  pose proof Hcc as [[_ [_ ? ? _ _]] _ _ _ _ _ [Hr _] _ _ Hs _ Hrn _]. unfold is_u32. simpl in *. lia.
Qed.
Lemma cc_sector : is_sector buf.
Proof. pose proof Hcc as [[_ Hv] _ _ Hb _ _ _ _ _ _ _ _ _]. by eapply on_drive_sector. Qed.
Lemma cc_at j : (j < 20)%nat -> entry_at (set_entry buf slot e) j = if decide (slot = j) then e else entry_at buf j.
Proof.
  pose proof cc_u32 as [? ?]. pose proof Hcc as [_ _ Ht _ _ Hsl _ _ _ _ _ _ _].
  apply new_file_at; [apply cc_sector|done|by eapply target_name|done|done].
Qed.

Lemma cc_grows : grows R (view s) (view s1).
Proof.
  intros x tok e0 Hx Htok El. unfold dir_lookup in *. rewrite cc_blk by done. case_decide as Hd; [|done]. subst x.
  pose proof cc_u32 as [? ?]. pose proof Hcc as [_ _ Ht Hb Hnew Hsl _ _ _ _ _ _ _]. rewrite Hb in El.
  destruct (find_entry (named tok) buf) as [j|] eqn:Ef; [|done]. cbn [fmap option_fmap option_map] in El. injection El as <-.
  destruct (new_file_others buf slot name r (Z.of_nat (length data)) cc_sector Hsl (target_name _ _ _ _ _ Ht)
    ltac:(done) ltac:(done) tok j Htok Hnew Ef) as [E1 E2]. fold e in E1, E2. rewrite E1. cbn [fmap option_fmap option_map]. by rewrite E2.
Qed.

Lemma cc_tree : tree_ok n (view s1) R.
Proof.
  pose proof Hcc as [_ [_ HR _] Ht Hb _ Hsl _ _ _ _ _ _ _]. split; [apply HR|]. intros x b i Hx Hbx Hi Hun Hdir.
  rewrite cc_blk in Hbx by done. case_decide as Hd; [|by eapply (to_sub n _ R HR)]. subst x. injection Hbx as <-.
  rewrite cc_at in * by done. case_decide; [done|]. by eapply (to_sub n _ R HR).
Qed.

Lemma cc_resolved : target (view s1) R path d name.
Proof.
  pose proof Hcc as [_ [_ HR _] Ht _ _ _ _ _ _ _ _ _ _].
  assert (path_root (view s1) path = path_root (view s) path) as Er.
  { rewrite Hv1. unfold path_root, created. cbn [v_sb v_cwd put put_blocks with_sec].
    destruct (marked_sb (view s) r true) as [f ->]. cbn [set_free data_start].
    unfold marked. destruct (blk (view s) _); [|done]. by destruct (Bool.eqb _ _). }
  destruct Ht as [Hr Htk Hne Hd Hn]. split; rewrite ?Er; try done.
  eapply descend_grows; [done|apply cc_grows|done|by apply removelast_tok_ok|done].
Qed.

Lemma cc_found : find_entry (named name) (set_entry buf slot e) = Some slot /\ entry_at (set_entry buf slot e) slot = e.
Proof.
  pose proof cc_u32 as [Hu1 Hu2]. pose proof Hcc as [_ _ Ht _ Hnew Hsl _ _ _ _ _ _ _]. split.
  - apply new_file_found; [apply cc_sector|done|by eapply target_name|done|done|done].
  - pose proof Hsl as (Hs20 & _ & _)%find_entry_some. rewrite cc_at by done. by rewrite decide_True.
Qed.

(** Reading the file that was created. *)
Lemma wp_read_created F maxsize (Q : Z * list Z -> xvfs -> Prop) : path <> [] -> 0 <= maxsize ->
  (forall s', mounted n s' -> view s' = view s1 ->
     Q (Z.min maxsize (Z.of_nat (length data)), take (Z.to_nat maxsize) data) s') ->
  wp F (xvfs_read_file_by_name (Some path) maxsize) Q s1.
Proof.
  intros Hp Hmax HQ.
  pose proof cc_dir as HRd. pose proof (to_range _ _ _ cc_tree d HRd) as Hdn.
  pose proof cc_found as [Ef Ee]. pose proof cc_resolved as Ht1. pose proof (target_name _ _ _ _ _ Ht1) as Hname.
  pose proof (lo_dirs _ _ _ (cc_layout _ _ _ _ _ _ _ _ _ _ Hcc) d HRd) as Hds.
  pose proof (bo_data _ _ (lo_bitmap _ _ _ (cc_layout _ _ _ _ _ _ _ _ _ _ Hcc))) as Hd0.
  unfold xvfs_read_file_by_name. apply wp_bind.
  eapply (wp_find_entry n F s1 R); [done|apply cc_tree|done|done|lia|done|by rewrite cc_blk, decide_True|].
  intros s3 Hm3 Hv3. rewrite Ef. cbn [fmap option_fmap option_map]. rewrite Ee.
  cbn [is_dir_entry fe_attr e new_entry Z.testbit fe_size fe_start].
  apply wp_bind. set (k := nblocks (Z.of_nat (length data))).
  pose proof (nblocks_bound (Z.of_nat (length data)) ltac:(lia)) as Hk. fold k in Hk.
  assert ((if maxsize <? Z.of_nat (length data) then maxsize else Z.of_nat (length data)) = Z.min maxsize (Z.of_nat (length data))) as ->
    by (destruct (Z.ltb_spec maxsize (Z.of_nat (length data))); lia).
  pose proof Hcc as [_ Hlay _ _ _ _ Hfirst Hbit _ _ Hroom _ Hapart]. fold k in Hroom, Hapart. pose proof Hfirst as [[Hr0 _] _].
  eapply (wp_read_blocks n F s3 maxsize _ Hm3 k); [done|done|done|done|lia|lia|lia|simpl; lia|].
  intros s4 Hm4 Hv4. apply wp_ret. rewrite Hv3, Hv1. unfold k.
  rewrite (created_data (view s) R) by (done || apply padded_length).
  cbn [app]. unfold padded. rewrite take_app_le by lia.
  replace (take (Z.to_nat (Z.min maxsize (Z.of_nat (length data)))) data) with (take (Z.to_nat maxsize) data).
  - apply HQ; [done|]. by rewrite Hv4, Hv3.
  - destruct (decide (maxsize <= Z.of_nat (length data))); [f_equal; lia|]. rewrite !take_ge by lia. done.
Qed.
End after.


Lemma create_read_ok n s R path d name data buf slot r maxsize :
  can_create n s R path d name data buf slot r -> path <> [] -> 0 <= maxsize ->
  exists s1 s2, xvfs_create_file path data (Z.of_nat (length data)) s = Ok (true, s1) /\
    xvfs_read_file_by_name (Some path) maxsize s1 =
      Ok ((Z.min maxsize (Z.of_nat (length data)), take (Z.to_nat maxsize) data), s2).
Proof.
  intros Hcc Hp Hmax. pose proof Hcc as [Hm Hlay Ht Hb _ Hsl Hf _ Hu Hs Hroom Hr _].
  destruct (wp_run (xvfs_create_file path data (Z.of_nat (length data))) (fun ok s1 => ok = true /\ mounted n s1 /\
    view s1 = created (view s) r d data (set_entry buf slot (new_entry name r (Z.of_nat (length data)) 0))) s)
    as (? & s1 & E1 & -> & Hm1 & Hv1); [eapply wp_create_file; eauto|].
  destruct (wp_run (xvfs_read_file_by_name (Some path) maxsize)
    (fun x _ => x = (Z.min maxsize (Z.of_nat (length data)), take (Z.to_nat maxsize) data)) s1)
    as (? & s2 & E2 & ->); [eapply (wp_read_created n s s1); eauto|]. by exists s1, s2.
Qed.

(** ** Removing a directory *)

Lemma deleted_wf : entry_wf deleted_entry.
Proof.
  split; cbn [deleted_entry fe_name fe_start fe_size fe_attr]; try (unfold is_u32, is_u8; lia); [done|].
  constructor; [unfold DELETED, is_u8; lia|apply zeros_u8].
Qed.

Lemma wp_rmdir n F s R path d name buf (Q : bool -> xvfs -> Prop) :
  mounted n s -> layout n (view s) R -> (forall x, R x -> x < alloc_hi (sb s)) ->
  target (view s) R path d name -> blk (view s) d = Some buf ->
  (forall ok s', mounted n s' ->
    match find_entry (fun e => named name e && is_dir_entry e) buf with
    | None => ok = false /\ view s' = view s
    | Some i =>
      let b := fe_start (entry_at buf i) in
      exists contents, blk (view s) b = Some contents /\
      if find_entry keeps_dir contents is Some _ then ok = false /\ view s' = view s
      else ok = true /\ view s' = put (marked (view s) b false) d (set_entry buf i deleted_entry)
    end -> Q ok s') ->
  wp F (xvfs_rmdir path) Q s.
Proof.
  intros Hm Hlay Hhi Ht Hb HQ. pose proof Hlay as [Hbo HR Hds].
  assert (R d) as HRd by (eapply descend_in; [done|apply Ht|apply Ht]).
  pose proof (to_range _ _ _ HR d HRd) as Hdn. pose proof (Hds d HRd) as Hdd. pose proof (bo_data _ _ Hbo) as Hd0.
  unfold xvfs_rmdir. apply wp_bind. eapply wp_resolve_target; [done|done|done|]. intros s1 Hm1 Hv1. cbn beta iota.
  rewrite (proj2 (Z.eqb_neq d 0)) by lia. apply wp_bind. eapply wp_read_unchecked; [done|done|].
  intros buf0 s2 Hb0 Hsec Hm2 Hv2. rewrite Hv1, Hb in Hb0. rewrite Hv1 in Hv2. injection Hb0 as <-.
  destruct (find_entry _ buf) as [i|] eqn:Ef; [|by apply wp_ret, HQ].
  pose proof Ef as (Hi & Hp & _)%find_entry_some. apply andb_true_iff in Hp as [Hnm Hdir].
  assert (R (fe_start (entry_at buf i))) as HRb.
  { eapply to_sub; [done|exact HRd|done|done| |done]. unfold named in Hnm. apply andb_true_iff in Hnm as [Hun _]. by apply negb_true_iff in Hun. }
  set (b := fe_start (entry_at buf i)) in *. pose proof (to_range _ _ _ HR b HRb) as Hbn.
  apply wp_bind. eapply wp_read_unchecked; [done|done|]. intros cb s3 Hcb _ Hm3 Hv3. rewrite Hv2 in Hcb, Hv3.
  destruct (find_entry keeps_dir cb) as [j|] eqn:Ek.
  { apply wp_ret, HQ; [done|]. cbn zeta. fold b. exists cb. by rewrite Ek. }
  assert (sb s3 = sb s) as Esb by (by apply view_sb). pose proof (Hhi b HRb) as Hbh. pose proof Hbo as [Hs0 _ Hroom Hfr _].
  change (v_sb (view s)) with (sb s) in *.
  apply wp_bind. eapply wp_mark_block; [done|lia|by rewrite Esb| |by rewrite Esb|].
  { rewrite Esb. unfold alloc_hi in Hbh. Z.div_mod_to_equations; lia. }
  intros s4 Hm4 Hv4. apply wp_bind. eapply wp_write_block; [done|done|apply set_entry_sector; [done|done|apply deleted_wf]|].
  intros s5 Hm5 Hv5. apply wp_ret, HQ; [done|]. cbn zeta. fold b. exists cb. rewrite Ek.
  split_and!; [done|done|]. by rewrite Hv5, Hv4, Hv3.
Qed.
End create.
