(* ===== verification/XvfsFormat.v ===== *)
(** * XVFS: formatting and mounting

    What xvfs_format_at writes is what xvfs_init accepts: an empty root directory and a bitmap in
    which exactly the blocks before the data and the root directory are taken. *)
From S2P Require Import Prelude BlockDev Xvfs XvfsVol XvfsDir XvfsFile XvfsCreate.
From S2P Require Libc.
Import Xvfs.

Lemma sb_of_bytes x suf :
  is_u32 (magic x) -> is_u32 (block_size x) -> is_u32 (total_blocks x) -> is_u32 (bitmap_start x) ->
  is_u32 (data_start x) -> is_u32 (free_blocks x) -> is_u32 (root_dir_block x) ->
  sb_of (sb_bytes x ++ suf) = x.
Proof.
  intros. unfold sb_of, sb_bytes. rewrite <-!app_assoc.
  assert (forall pre w t o, length pre = o -> is_u32 w -> get32 (pre ++ bytes32 w ++ t) o = w) as G by apply get32_at.
  set (b1 := bytes32 (magic x)). set (b2 := bytes32 (block_size x)). set (b3 := bytes32 (total_blocks x)).
  set (b4 := bytes32 (bitmap_start x)). set (b5 := bytes32 (data_start x)). set (b6 := bytes32 (free_blocks x)).
  pose proof (G [] (magic x) (b2 ++ b3 ++ b4 ++ b5 ++ b6 ++ bytes32 (root_dir_block x) ++ suf) 0%nat eq_refl ltac:(done)) as E1.
  pose proof (G b1 (block_size x) (b3 ++ b4 ++ b5 ++ b6 ++ bytes32 (root_dir_block x) ++ suf) 4%nat eq_refl ltac:(done)) as E2.
  rewrite app_nil_l in E1. fold b1 in E1. fold b2 in E2.
  pose proof (G (b1 ++ b2) (total_blocks x) (b4 ++ b5 ++ b6 ++ bytes32 (root_dir_block x) ++ suf) 8%nat eq_refl ltac:(done)) as E3.
  pose proof (G (b1 ++ b2 ++ b3) (bitmap_start x) (b5 ++ b6 ++ bytes32 (root_dir_block x) ++ suf) 12%nat eq_refl ltac:(done)) as E4.
  pose proof (G (b1 ++ b2 ++ b3 ++ b4) (data_start x) (b6 ++ bytes32 (root_dir_block x) ++ suf) 16%nat eq_refl ltac:(done)) as E5.
  pose proof (G (b1 ++ b2 ++ b3 ++ b4 ++ b5) (free_blocks x) (bytes32 (root_dir_block x) ++ suf) 20%nat eq_refl ltac:(done)) as E6.
  pose proof (G (b1 ++ b2 ++ b3 ++ b4 ++ b5 ++ b6) (root_dir_block x) suf 24%nat eq_refl ltac:(done)) as E7.
  repeat rewrite <-app_assoc in E3. repeat rewrite <-app_assoc in E4. repeat rewrite <-app_assoc in E5.
  repeat rewrite <-app_assoc in E6. repeat rewrite <-app_assoc in E7. fold b3 in E3. fold b4 in E4. fold b5 in E5. fold b6 in E6.
  rewrite E1, E2, E3, E4, E5, E6, E7. by destruct x.
Qed.

(** k bits from b on, set one after the other *)
Fixpoint setbits (k : nat) (b : Z) (buf : list Z) : list Z :=
  match k with O => buf | S k' => setbits k' (b + 1) (setbit buf b true) end.

Lemma setbits_bit k : forall b buf i, is_sector buf -> 0 <= b -> b + Z.of_nat k <= 4096 -> 0 <= i < 4096 ->
  bufbit (setbits k b buf) i = if decide (b <= i < b + Z.of_nat k) then true else bufbit buf i.
Proof.
  induction k as [|k IH]; intros b buf i Hs Hb Hk Hi; cbn [setbits].
  - by rewrite decide_False by lia.
  - rewrite IH by (lia || by apply setbit_sector). rewrite bufbit_setbit by (done || lia).
    repeat case_decide; try lia; done.
Qed.

Lemma zeros_bit i : bufbit (zeros 512) i = false.
Proof.
  unfold bufbit. assert (forall k j, nth j (zeros k) 0 = 0) as Hz.
  { clear. induction k as [|k IH]; intros [|j]; [done..|apply IH]. }
  rewrite Hz. apply Z.bits_0.
Qed.

Section format.
Context {D : Type} `{BlockDevOk D} (beyond : list Z).
Hypothesis Hbeyond : (12 <= length beyond)%nat /\ Forall is_u8 beyond.
Implicit Types s : @xvfs D.

(** The volume at base on a drive, mounted or not *)
Definition view_at (drive base : Z) s : vol :=
  Vol (dev_sectors (dev s) drive) (sb s) base drive (current_dir_block s) (current_path s).
Definition on_at (n drive base : Z) s : Prop := dev_ok (dev s) /\ on_drive n (view_at drive base s).

Lemma wp_write_at n F drive base s b d (Q : bool -> xvfs -> Prop) :
  on_at n drive base s -> 0 <= b < n -> is_sector d ->
  (forall s', on_at n drive base s' -> view_at drive base s' = put (view_at drive base s) b d -> Q true s') ->
  wp F (on_dev (ata_write_sector drive (u32 (base + b)) d)) Q s.
Proof.
  intros [Hd Hv] Hb [Hl Hu] HQ. pose proof (lba_small n (view_at drive base s) b Hv Hb) as El. cbn [view_at v_base] in El. rewrite El. unfold ata_write_sector.
  rewrite (u8_small drive (od_drive n _ Hv)). apply wp_on_dev.
  destruct (dev_write (dev s) drive (base + b) 1 d Hd) as (d' & E & Hd' & Hs' & _); [lia| |simpl; lia|done|].
  { intros i Hi. replace (_ + Z.of_nat i) with (base + b) by lia. apply (od_run n _ Hv b Hb). }
  assert (dev_sectors d' drive = <[base + b := d]> (dev_sectors (dev s) drive)) as Es.
  { rewrite Hs'. change (Z.to_nat 1) with 1%nat. cbn [put_run]. by rewrite take_ge by lia. }
  eapply wp_ok; [exact E|]. apply HQ.
  - split; [done|]. unfold view_at. cbn [dev sb current_dir_block current_path]. rewrite Es.
    exact (on_drive_put n (view_at drive base s) b d Hv (conj Hl Hu)).
  - unfold view_at. cbn [dev sb current_dir_block current_path]. by rewrite Es.
Qed.

Lemma wp_read_at n F drive base s b (Q : option (list Z) -> xvfs -> Prop) :
  on_at n drive base s -> 0 <= b < n ->
  (forall d s', blk (view_at drive base s) b = Some d -> is_sector d -> on_at n drive base s' ->
     view_at drive base s' = view_at drive base s -> Q (Some d) s') ->
  wp F (on_dev (ata_read_sector drive (u32 (base + b)))) Q s.
Proof.
  intros [Hd Hv] Hb HQ. pose proof (lba_small n (view_at drive base s) b Hv Hb) as El. cbn [view_at v_base] in El. rewrite El. unfold ata_read_sector.
  rewrite (u8_small drive (od_drive n _ Hv)). apply wp_on_dev. destruct (od_run n _ Hv b Hb) as [x Hx].
  destruct (dev_read (dev s) drive (base + b) 1 Hd) as (d' & E & Hd' & Hs'); [lia| |].
  { intros i Hi. replace (_ + Z.of_nat i) with (base + b) by lia. eauto. }
  unfold blk in Hx. cbn [view_at v_sec v_base] in Hx. change (Z.to_nat 1) with 1%nat in E. cbn [get_run] in E. rewrite Hx in E. cbn [from_option] in E. unfold id in E. rewrite app_nil_r in E.
  eapply wp_ok; [exact E|]. apply HQ; [done|by eapply (on_drive_sector n _ b)|..].
  - split; [done|]. unfold view_at in *. cbn [dev sb current_dir_block current_path]. by rewrite Hs'.
  - unfold view_at. cbn [dev sb current_dir_block current_path]. by rewrite Hs'.
Qed.

Lemma wp_format_bitmap n F drive base (Q : unit -> xvfs -> Prop) : forall k i s,
  on_at n drive base s -> 0 <= i -> 2 + i + Z.of_nat k <= n ->
  (forall s', on_at n drive base s' ->
     view_at drive base s' = put_blocks (view_at drive base s) (2 + i) k (zeros (512 * k)) -> Q tt s') ->
  wp F (format_bitmap k drive base i) Q s.
Proof.
  induction k as [|k IH]; intros i s Hm Hi Hn HQ; cbn [format_bitmap]; [by apply wp_ret, HQ|].
  apply wp_bind. rewrite <-Z.add_assoc. eapply (wp_write_at n); [done|lia|apply zeros_sector|]. intros s1 Hm1 Hv1.
  apply IH; [done|lia|lia|]. intros s2 Hm2 Hv2. apply HQ; [done|]. rewrite Hv2, Hv1.
  unfold put, put_blocks, with_sec. cbn [v_sec v_sb v_base v_drive v_cwd v_path put_run]. f_equal.
  replace (512 * S k)%nat with (512 + 512 * k)%nat by lia. unfold zeros. rewrite replicate_add.
  rewrite take_app_length', drop_app_length' by (by rewrite length_replicate). f_equal. lia.
Qed.

Lemma wp_format_mark n F drive base (Q : unit -> xvfs -> Prop) : 2 < n -> forall k b s buf,
  on_at n drive base s -> 0 <= b -> b + Z.of_nat k <= 4096 -> blk (view_at drive base s) 2 = Some buf ->
  (forall s', on_at n drive base s' ->
     view_at drive base s' = put (view_at drive base s) 2 (setbits k b buf) -> Q tt s') ->
  wp F (format_mark k drive base b) Q s.
Proof.
  intros Hn. induction k as [|k IH]; intros b s buf Hm Hb Hk Hbuf HQ; cbn [format_mark].
  { apply wp_ret, HQ; [done|]. unfold put. rewrite insert_id by done. by destruct (view_at drive base s). }
  unfold BITS_PER_BLOCK. replace (base + 2 + b / 4096) with (base + 2) by (Z.div_mod_to_equations; lia).
  apply wp_bind. eapply (wp_read_at n); [done|lia|]. intros d s1 Hd Hs Hm1 Hv1. rewrite Hbuf in Hd. injection Hd as <-.
  apply wp_bind, wp_lift_some. pose proof Hs as [Hl Hu]. replace (b mod 4096) with b by (Z.div_mod_to_equations; lia).
  assert (0 <= b / 8 < 512) as Hb8 by (Z.div_mod_to_equations; lia).
  rewrite lget_lookup, (lookup_nth _ _ 0) by lia. apply wp_bind, wp_lift_some. rewrite lset_in by lia.
  apply wp_bind, wp_lift_some. rewrite pow_bit_u8 by (Z.div_mod_to_equations; lia). fold (setbit buf b true).
  apply wp_bind. eapply (wp_write_at n); [done|lia|by apply setbit_sector|]. intros s2 Hm2 Hv2.
  eapply (IH _ _ (setbit buf b true)); [done|lia|lia| |].
  - rewrite Hv2, blk_put. by rewrite decide_True.
  - intros s3 Hm3 Hv3. apply HQ; [done|]. rewrite Hv3, Hv2, Hv1. cbn [setbits]. unfold put, with_sec.
    cbn [v_sec v_sb v_base v_drive v_cwd v_path]. f_equal. apply insert_insert_eq.
Qed.

(** The five pieces of a fresh volume *)
Definition sb_sector (total : Z) : list Z := sb_bytes (format_sb total) ++ zeros (512 - length (sb_bytes (format_sb total))).
Definition formatted (v : vol) (total : Z) : vol :=
  put (put (put_blocks (put (put v 0 signature_sector) 1 (sb_sector total)) 2 8 (zeros 4096)) 2 (setbits 11 0 (zeros 512)))
      10 (dir_sector beyond []).

Lemma signature_ok : is_sector signature_sector.
Proof.
  split; [done|]. unfold signature_sector. rewrite !Forall_app. split_and!; [by apply u8_list|apply zeros_u8|by apply u8_list].
Qed.
Lemma sb_sector_ok total : is_sector (sb_sector total).
Proof.
  split; [done|]. unfold sb_sector. apply Forall_app. split; [|apply zeros_u8].
  unfold sb_bytes. rewrite !Forall_app. split_and!; apply bytes32_u8.
Qed.
Lemma dir_sector_ok : is_sector (dir_sector beyond []).
Proof.
  destruct Hbeyond as [Hl Hu]. unfold dir_sector. cbn [map concat app length]. change (500 - 0)%nat with 500%nat. split.
  - rewrite length_app, length_take. unfold zeros. rewrite length_replicate. lia.
  - apply Forall_app. split; [apply zeros_u8|by apply Forall_take].
Qed.

Lemma wp_format n F drive base total s (Q : bool -> xvfs -> Prop) :
  on_at n drive base s -> 11 <= n -> total <> 0 ->
  (forall s', on_at n drive base s' -> view_at drive base s' = formatted (view_at drive base s) total -> Q true s') ->
  wp F (xvfs_format_at beyond drive base total) Q s.
Proof.
  intros Hm Hn Ht HQ. unfold xvfs_format_at. rewrite (proj2 (Z.eqb_neq total 0)) by done.
  apply wp_bind. eapply (wp_write_at n); [done|lia|apply signature_ok|]. intros s1 Hm1 Hv1.
  apply wp_bind. eapply (wp_write_at n); [done|lia|apply sb_sector_ok|]. intros s2 Hm2 Hv2.
  apply wp_bind. eapply (wp_format_bitmap n); [done|lia|lia|]. intros s3 Hm3 Hv3.
  apply wp_bind. eapply (wp_format_mark n); [lia|done|lia|lia| |].
  { rewrite Hv3. change (2 + 0) with 2. unfold blk, put_blocks, with_sec. cbn [v_sec v_base].
    pose proof (put_run_in 8 (v_sec (view_at drive base s2)) (v_base (view_at drive base s2) + 2) (zeros (512 * 8)) 0 ltac:(lia)) as E.
    rewrite Z.add_0_r in E. exact E. }
  intros s4 Hm4 Hv4. apply wp_bind. eapply (wp_write_at n); [done|cbn [format_sb root_dir_block]; lia|apply dir_sector_ok|].
  intros s5 Hm5 Hv5. apply wp_ret, HQ; [done|]. by rewrite Hv5, Hv4, Hv3, Hv2, Hv1.
Qed.

(** ** Mounting a fresh volume *)

Lemma formatted_blk v total b :
  blk (formatted v total) b =
    if decide (b = 10) then Some (dir_sector beyond [])
    else if decide (b = 2) then Some (setbits 11 0 (zeros 512))
    else if decide (3 <= b < 10) then Some (zeros 512)
    else if decide (b = 1) then Some (sb_sector total)
    else if decide (b = 0) then Some signature_sector else blk v b.
Proof.
  unfold formatted. rewrite blk_put. destruct (decide (b = 10)) as [->|]; [by rewrite decide_True|]. rewrite decide_False by lia.
  rewrite blk_put. destruct (decide (b = 2)) as [->|]; [by rewrite decide_True|]. rewrite decide_False by lia.
  destruct (decide (3 <= b < 10)) as [Hb|].
  - unfold blk, put_blocks, with_sec. cbn [v_sec v_base].
    replace (v_base _ + b) with (v_base (put (put v 0 signature_sector) 1 (sb_sector total)) + 2 + Z.of_nat (Z.to_nat (b - 2))) by (simpl; lia).
    rewrite put_run_in by lia. f_equal. unfold zeros. rewrite drop_replicate, take_replicate. f_equal. lia.
  - rewrite blk_blocks_out by lia. rewrite !blk_put. repeat case_decide; try lia; done.
Qed.

Lemma format_sb_of total : is_u32 total -> sb_of (sb_sector total) = format_sb total.
Proof.
  intros Ht. apply sb_of_bytes; cbn; try done; try apply u32_range; unfold is_u32; try lia.
Qed.

Definition fresh (v : vol) (total : Z) : vol :=
  Vol (v_sec (formatted v total)) (format_sb total) (v_base v) (v_drive v) 10 (v_path v).

Lemma wp_init n F drive base total v s (Q : bool -> xvfs -> Prop) :
  on_at n drive base s -> 11 <= n -> is_u32 total -> view_at drive base s = formatted v total ->
  (forall s', mounted n s' -> view s' = fresh v total -> Q true s') ->
  wp F (xvfs_init drive base) Q s.
Proof.
  intros Hm Hn Ht Hv HQ. pose proof Hm as [_ Hod]. pose proof (u8_small drive (od_drive n _ Hod)) as Eu.
  unfold xvfs_init, probe_xvfs. apply wp_bind, wp_bind.
  pose proof (wp_read_at n F drive base s 0) as R0. unfold ata_read_sector in R0. rewrite Eu in R0.
  eapply R0; [done|lia|]. intros d0 s1 Hd0 _ Hm1 Hv1. rewrite Hv, formatted_blk in Hd0. injection Hd0 as <-.
  rewrite bool_decide_eq_true_2 by done. cbn [negb].
  pose proof (wp_read_at n F drive base s1 1) as R1. unfold ata_read_sector in R1. rewrite Eu in R1.
  apply wp_bind. eapply R1; [done|lia|]. intros d1 s2 Hd1 _ Hm2 Hv2. rewrite Hv1, Hv, formatted_blk in Hd1.
  cbn [decide] in Hd1. injection Hd1 as <-. rewrite format_sb_of by done. cbn [format_sb magic block_size Z.eqb negb orb].
  change (XVFS_MAGIC =? XVFS_MAGIC) with true. change (512 =? 512) with true. cbn [negb orb]. apply wp_ret.
  apply wp_bind, wp_modify, wp_ret, HQ.
  - destruct Hm2 as [Hd Hv']. split; [done|]. destruct Hv'. split; done.
  - assert (view_at drive base s2 = formatted v total) as Ev by (by rewrite Hv2, Hv1). clear -Ev.
    assert (v_sec (formatted v total) = dev_sectors (dev s2) drive) as E1 by (by rewrite <-Ev).
    assert (v_base v = base) as E2 by (change (v_base v) with (v_base (formatted v total)); by rewrite <-Ev).
    assert (v_drive v = drive) as E3 by (change (v_drive v) with (v_drive (formatted v total)); by rewrite <-Ev).
    assert (v_path v = current_path s2) as E4 by (change (v_path v) with (v_path (formatted v total)); by rewrite <-Ev).
    unfold fresh, view. rewrite E1, E2, E3, E4. done.
Qed.

(** ** What a fresh volume holds *)

Lemma fresh_blk v total b : blk (fresh v total) b = blk (formatted v total) b.
Proof. done. Qed.

Lemma fresh_bmp v total x : 0 <= x < 32768 -> bmp (fresh v total) x = (x <? 11).
Proof.
  intros Hx. unfold bmp. rewrite fresh_blk, formatted_blk. cbn [fresh v_sb format_sb bitmap_start].
  assert (0 <= x / 4096 < 8) as Hq by (Z.div_mod_to_equations; lia).
  pose proof (Z.mod_pos_bound x 4096 ltac:(lia)) as Hm.
  rewrite decide_False by lia. destruct (decide (2 + x / 4096 = 2)) as [E|E].
  - rewrite setbits_bit, zeros_bit by (lia || apply zeros_sector).
    assert (x mod 4096 = x) as -> by (apply Z.mod_small; Z.div_mod_to_equations; lia).
    case_decide; bdestr; lia || done.
  - rewrite decide_True by lia. rewrite zeros_bit. symmetry. apply Z.ltb_ge. Z.div_mod_to_equations; lia.
Qed.

(** The bitmap as the allocator reads it, one sector for 4096 blocks, is on the drive. *)
Definition bitmap_fits (n total : Z) : Prop := 1 <= total <= 4294963200 /\ 2 + (total + 4095) / 4096 <= n.
Lemma small_bitmap_fits n total : 11 <= n -> 1 <= total <= 32768 -> bitmap_fits n total.
Proof. clear. intros. split; [lia|]. Z.div_mod_to_equations; lia. Qed.
Lemma fresh_bitmap_ok n v total : bitmap_fits n total -> bitmap_ok n (v_sb (fresh v total)).
Proof.
  intros [Ht Hn]. split; cbn [fresh v_sb format_sb bitmap_start total_blocks free_blocks data_start]; try lia.
  - unfold bitmap_blocks, BITS_PER_BLOCK. cbn. rewrite u32_small by (unfold is_u32; lia). by replace (total + 4096 - 1) with (total + 4095) by lia.
  - apply u32_range.
Qed.

Lemma fresh_root v total i : (i < 20)%nat ->
  blk (fresh v total) 10 = Some (dir_sector beyond []) /\ entry_at (dir_sector beyond []) i = entry_of (zeros 25).
Proof.
  intros Hi. split; [by rewrite fresh_blk, formatted_blk|]. unfold entry_at, dir_sector, ENTRY. f_equal.
  cbn [map concat app length]. change (500 - 0)%nat with 500%nat. unfold zeros.
  rewrite drop_app_le by (rewrite length_replicate; lia). rewrite take_app_le by (rewrite length_drop, length_replicate; lia).
  rewrite drop_replicate, take_replicate. f_equal. lia.
Qed.

Lemma fresh_first v total : 1 <= total <= 4294963200 ->
  first_in (usable (v_sb (fresh v total)) (bmp (fresh v total))) 0 (alloc_hi (v_sb (fresh v total))) (Some 11).
Proof.
  intros Ht. pose proof (bitmap_blocks_range (format_sb total) ltac:(cbn; lia)) as [_ Hh].
  assert (4096 <= alloc_hi (format_sb total)) as Hhi.
  { unfold alloc_hi, bitmap_blocks, BITS_PER_BLOCK. cbn. rewrite u32_small by (unfold is_u32; lia). Z.div_mod_to_equations; lia. }
  cbn [total_blocks format_sb] in Hh. cbn [fresh v_sb]. split_and!; [lia|lia| |].
  - split; [by rewrite fresh_bmp by lia|cbn; lia].
  - intros x Hx [Hb _]. rewrite fresh_bmp in Hb by lia. apply Z.ltb_ge in Hb. lia.
Qed.

(** The directories of a fresh volume: the root *)
Definition root_only (d : Z) : Prop := d = 10.

Lemma fresh_layout n v total : 11 <= n -> bitmap_fits n total -> layout n (fresh v total) root_only.
Proof.
  intros Hn Ht. split.
  - by apply fresh_bitmap_ok.
  - split; [intros d ->; lia|]. intros d buf i -> Hb Hi Hun. destruct (fresh_root v total i Hi) as [E1 E2].
    rewrite E1 in Hb. injection Hb as <-. rewrite E2 in Hun. done.
  - intros d ->. done.
Qed.

Lemma plain_tokens name : name <> [] -> (length name <= 127)%nat -> Forall (.∉ [SLASH]) name -> path_tokens name = [name].
Proof. intros Hne Hl Hs. unfold path_tokens. rewrite take_ge by lia. by apply Libc.tokens_last. Qed.

Lemma fresh_can_create n s v total name data :
  mounted n s -> view s = fresh v total -> 12 <= n -> bitmap_fits n total -> tok_ok name -> Forall (.∉ [SLASH]) name ->
  Forall is_u8 data -> Z.of_nat (length data) < 4294967296 -> 11 + Z.of_nat (nblocks (Z.of_nat (length data))) <= n ->
  can_create n s root_only name 10 name data (dir_sector beyond []) 0 11.
Proof.
  intros Hm Hv Hn Ht Hname Hs Hu Hsize Hroom. pose proof Hname as [[Hch Hl Hf] _].
  assert (name <> []) as Hne by (intros ->; simpl in Hl; lia).
  pose proof (plain_tokens name Hne ltac:(lia) Hs) as Etok.
  assert (path_root (view s) name = 10) as Er.
  { rewrite Hv. unfold path_root. destruct name as [|c name]; [done|]. apply list.Forall_cons in Hs as [Hc _].
    cbn [hd]. rewrite (proj2 (Z.eqb_neq c SLASH)) by set_solver. done. }
  split; rewrite ?Hv.
  - done.
  - apply fresh_layout; [lia|done].
  - rewrite Hv in Er. split; rewrite ?Er, ?Etok; try done. by constructor.
  - by apply (fresh_root v total 0); lia.
  - apply find_entry_none. intros x Hx. destruct (fresh_root v total x Hx) as [_ ->]. done.
  - apply find_entry_eq; [lia| |lia]. destruct (fresh_root v total 0 ltac:(lia)) as [_ ->]. done.
  - change (sb s) with (v_sb (view s)). rewrite Hv. apply fresh_first, Ht.
  - change (sb s) with (v_sb (view s)). rewrite Hv. vm_compute. reflexivity.
  - done.
  - done.
  - done.
  - lia.
  - intros x ->. lia.
Qed.

Lemma format_init n drive base total s :
  on_at n drive base s -> 11 <= n -> 1 <= total < 4294967296 ->
  exists s1 s2, xvfs_format_at beyond drive base total s = Ok (true, s1) /\ xvfs_init drive base s1 = Ok (true, s2) /\
    mounted n s2 /\ view s2 = fresh (view_at drive base s) total.
Proof.
  intros Hon Hn Ht.
  destruct (wp_run (xvfs_format_at beyond drive base total)
    (fun r s1 => r = true /\ on_at n drive base s1 /\ view_at drive base s1 = formatted (view_at drive base s) total) s)
    as (? & s1 & E1 & -> & Hon1 & Hv1); [eapply (wp_format n); [done|lia|lia|auto]|].
  destruct (wp_run (xvfs_init drive base) (fun r s2 => r = true /\ mounted n s2 /\ view s2 = fresh (view_at drive base s) total) s1)
    as (? & s2 & E2 & -> & Hm & Hv); [eapply (wp_init n False drive base total (view_at drive base s)); [done|lia|unfold is_u32; lia|done|auto]|].
  by exists s1, s2.
Qed.
End format.
