(* ===== verification/XvfsClaims.v ===== *)
(** * XVFS: properties

    The properties of the file system, each with an instance on a volume of a RAM disk. *)
From S2P Require Import Prelude BlockDev Ata Disk Xvfs XvfsVol XvfsDir XvfsFile XvfsCreate XvfsFormat.
Import Xvfs.

(** ** The RAM disk of sixteen sectors *)

Definition boot16 : @xvfs (@Ata.ata unit) :=
  Mk Ata.ram16 {| magic := 0; block_size := 0; total_blocks := 0; bitmap_start := 0; data_start := 0; free_blocks := 0; root_dir_block := 0 |}
     0 0 0 [47] [].
Definition stack_bytes : list Z := zeros 12.

Lemma ram16_ok : on_at 16 7 0 boot16.
Proof.
  pose proof Ata.ram16_image as Hok.
  split; [exact Hok|]. split; cbn [view_at v_drive v_base v_sec boot16 dev].
  - unfold is_u8. lia.
  - lia.
  - lia.
  - intros b Hb. unfold blk. cbn [view_at v_base v_sec boot16 dev]. rewrite Z.add_0_l. cbn [dev_sectors Ata.ram_blockdev_ok].
    unfold Ata.ram_sectors. cbn [Ata.ramdisk_present Ata.ram16 Ata.g_ramdisk Ata.rd_present Ata.rd_drive Z.eqb Pos.eqb andb Ata.rd_sector_count].
    rewrite Ata.sectors_of_in by lia. eauto.
  - intros x b Hx. by eapply (Ata.ram_sector_ok Ata.ram16 7 x).
Qed.
Lemma stack_ok : (12 <= length stack_bytes)%nat /\ Forall is_u8 stack_bytes.
Proof. split; [unfold stack_bytes, zeros; rewrite length_replicate; lia|apply zeros_u8]. Qed.

Section claims.
Context {D : Type} `{BlockDevOk D}.
Implicit Types s : @xvfs D.

(** xvfs_find_free_block returns the first block from data_start on whose bit is clear and
    sets that bit, no other bit and no other sector changes, and the count of free blocks goes
    down by one unless it is 0; it returns 0 and changes nothing exactly when every bit that the
    bitmap has from data_start on is set. *)
Theorem xvfs_alloc_first_fit n s :
  mounted n s -> bitmap_ok n (sb s) ->
  exists r s', xvfs_find_free_block s = Ok (r, s') /\ mounted n s' /\
    ((r = 0 /\ view s' = view s /\ forall x, data_start (sb s) <= x < alloc_hi (sb s) -> bmp (view s) x = true) \/
     (data_start (sb s) <= r < alloc_hi (sb s) /\ bmp (view s) r = false /\
      (forall x, data_start (sb s) <= x < r -> bmp (view s) x = true) /\
      (forall x, 0 <= x -> bmp (view s') x = if decide (r = x) then true else bmp (view s) x) /\
      (forall b, b <> bitmap_start (sb s) + r / 4096 -> blk (view s') b = blk (view s) b) /\
      free_blocks (sb s') = Z.max 0 (free_blocks (sb s) - 1))).
Proof.
  intros Hm Hb. pose proof Hm as [_ Hv]. pose proof Hb as [Hs0 _ Hroom _ Hd].
  assert (forall P x, ~ (P = false /\ data_start (sb s) <= x) -> data_start (sb s) <= x -> P = true) as Hnot.
  { intros [] x Hn Hx; [done|]. by destruct Hn. }
  apply wp_run. eapply wp_find_free_block; [done|done| |].
  - intros r s' (Hr & [Hbit Hge] & Hbefore) Hm' Hv'. split; [done|]. right.
    assert (bitmap_start (sb s) + r / 4096 < n) as Hin by (unfold alloc_hi in Hr; Z.div_mod_to_equations; lia).
    split_and!; [lia|lia|done|..].
    + intros x Hx. eapply Hnot; [apply Hbefore|]; lia.
    + intros x Hx. rewrite Hv'. by apply (marked_bmp n); [done|lia|..].
    + intros b Hne. rewrite Hv'. by apply marked_blk.
    + change (sb s') with (v_sb (view s')). rewrite Hv', marked_free, Hbit; [done|]. apply (od_run n _ Hv).
      change (v_sb (view s)) with (sb s). Z.div_mod_to_equations; lia.
  - intros s' Hnone Hm' Hv'. split; [done|]. left. split_and!; [done|done|]. intros x Hx. eapply Hnot; [apply Hnone|]; lia.
Qed.



(** formatting a drive of at least 11 sectors and mounting it succeed; the mounted superblock
    is the one that was formatted, the current directory is the root, which has no entry in use,
    and of the blocks that the bitmap describes exactly the first 11 are taken: the signature,
    the superblock, the bitmap and the root directory. *)
Theorem xvfs_format_mounts n drive base total s beyond :
  on_at n drive base s -> 11 <= n -> 1 <= total < 4294967296 -> (12 <= length beyond)%nat /\ Forall is_u8 beyond ->
  exists s1 s2 root, xvfs_format_at beyond drive base total s = Ok (true, s1) /\ xvfs_init drive base s1 = Ok (true, s2) /\
    mounted n s2 /\ sb s2 = format_sb total /\ current_dir_block s2 = 10 /\
    (forall x, 0 <= x < 32768 -> bmp (view s2) x = (x <? 11)) /\
    blk (view s2) 10 = Some root /\ forall i, (i < 20)%nat -> unused (entry_at root i) = true.
Proof.
  intros Hon Hn Ht Hbe. destruct (format_init beyond Hbe n drive base total s Hon Hn Ht) as (s1 & s2 & E1 & E2 & Hm & Hv).
  exists s1, s2, (dir_sector beyond []). split_and!; [done|done|done|..].
  - change (sb s2) with (v_sb (view s2)). by rewrite Hv.
  - change (current_dir_block s2) with (v_cwd (view s2)). by rewrite Hv.
  - intros x Hx. rewrite Hv. by apply fresh_bmp.
  - rewrite Hv. by apply (fresh_root beyond Hbe _ total 0); lia.
  - intros i Hi. destruct (fresh_root beyond Hbe (view_at drive base s) total i Hi) as [_ ->]. done.
Qed.

(** C14: format, mount, create, read: on a drive with room for it, the bytes stored under a name
    in the root directory are the bytes that xvfs_read_file_by_name returns, cut at the size of
    the caller's buffer, whatever the drive held before.  The volume may have any number of sectors up
    to 4294963200 for which the sectors that the allocator takes for the bitmap, one for 4096 blocks,
    are on the drive: the first file goes to the first free block, whose bit is in the first of them. *)
Theorem xvfs_create_read n drive base total name data maxsize s beyond :
  on_at n drive base s -> 12 <= n -> bitmap_fits n total -> (12 <= length beyond)%nat /\ Forall is_u8 beyond ->
  tok_ok name -> Forall (.∉ [SLASH]) name -> Forall is_u8 data -> Z.of_nat (length data) < 4294967296 ->
  11 + Z.of_nat (nblocks (Z.of_nat (length data))) <= n -> 0 <= maxsize ->
  exists s1 s2 s3 s4, xvfs_format_at beyond drive base total s = Ok (true, s1) /\ xvfs_init drive base s1 = Ok (true, s2) /\
    xvfs_create_file name data (Z.of_nat (length data)) s2 = Ok (true, s3) /\
    xvfs_read_file_by_name (Some name) maxsize s3 =
      Ok ((Z.min maxsize (Z.of_nat (length data)), take (Z.to_nat maxsize) data), s4).
Proof.
  intros Hon Hn Ht Hbe Hname Hs Hu Hsize Hroom Hmax.
  destruct (format_init beyond Hbe n drive base total s Hon ltac:(lia) ltac:(destruct Ht; lia)) as (s1 & s2 & E1 & E2 & Hm & Hv).
  pose proof (fresh_can_create beyond Hbe n s2 _ total name data Hm Hv Hn Ht Hname Hs Hu Hsize Hroom) as Hcc.
  destruct (create_read_ok n s2 root_only name 10 name data _ 0 11 maxsize Hcc) as (s3 & s4 & E3 & E4);
    [intros ->; by destruct Hname as [[_ ? _] _]; simpl in *; lia|done|].
  by exists s1, s2, s3, s4.
Qed.

(** xvfs_read_file_range and xvfs_read_file return the requested bytes of the file, cut at
    its end, for every offset inside it, wherever block boundaries fall in the range; they
    change nothing. *)
Theorem xvfs_read_range_exact n s e offset size :
  mounted n s -> block_size (sb s) = 512 -> 0 <= fe_start e -> 0 <= fe_size e < 2147483648 ->
  fe_start e + Z.of_nat (nblocks (fe_size e)) <= n -> 0 <= offset < fe_size e -> 0 <= size -> offset + size < 4294967296 ->
  let contents := take (Z.to_nat (fe_size e)) (get_blocks (view s) (fe_start e) (nblocks (fe_size e))) in
  let bytes := take (Z.to_nat size) (drop (Z.to_nat offset) contents) in
  Z.of_nat (length bytes) = Z.min size (fe_size e - offset) /\
  (exists s', xvfs_read_file_range (Some e) true offset size s = Ok ((true, bytes), s') /\ view s' = view s) /\
  (exists s', xvfs_read_file (Some e) true offset size s = Ok ((Z.of_nat (length bytes), bytes), s') /\ view s' = view s).
Proof.
  intros Hm Hbs Hst Hfs Hroom Hoff Hsz Hwrap contents bytes.
  pose proof (range_bytes n s e offset size Hm Hst ltac:(lia) Hroom Hoff Hsz) as [Hlen Hbytes].
  fold contents in Hlen, Hbytes. fold bytes in Hlen, Hbytes. split; [done|]. split.
  - destruct (wp_run (xvfs_read_file_range (Some e) true offset size) (fun r s' => r = (true, bytes) /\ view s' = view s) s)
      as (r & s' & E & -> & Hv); [|eauto].
    eapply wp_read_range; [done|done|done|lia|done|done|done|done|]. intros s' Hm' Hv'. by rewrite <-Hbytes.
  - destruct (wp_run (xvfs_read_file (Some e) true offset size) (fun r s' => r = (Z.of_nat (length bytes), bytes) /\ view s' = view s) s)
      as (r & s' & E & -> & Hv); [|eauto].
    eapply wp_read_file; [done|done|done|lia|done|done|done|done|]. intros s' Hm' Hv'. cbn zeta. rewrite Hbytes. split; [|done].
    f_equal. apply s32_small. lia.
Qed.

(** xvfs_rmdir removes the directory a path names exactly when it has no entry besides "."
    and "..": its bit is then cleared and its entry in the parent marked deleted, and nothing
    else changes; a missing or non-empty directory is refused and the volume does not change. *)
Theorem xvfs_rmdir_empty_only n s R path d name buf :
  mounted n s -> layout n (view s) R -> (forall x, R x -> x < alloc_hi (sb s)) ->
  target (view s) R path d name -> blk (view s) d = Some buf ->
  exists ok s', xvfs_rmdir path s = Ok (ok, s') /\
  match find_entry (fun e => named name e && is_dir_entry e) buf with
  | None => ok = false /\ view s' = view s
  | Some i =>
    let b := fe_start (entry_at buf i) in
    exists contents, blk (view s) b = Some contents /\
    if find_entry keeps_dir contents is Some _ then ok = false /\ view s' = view s
    else ok = true /\ view s' = put (marked (view s) b false) d (set_entry buf i deleted_entry)
  end.
Proof.
  intros Hm Hlay Hhi Ht Hb. apply wp_run. eapply wp_rmdir; eauto.
Qed.

(** the allocator does not know where the volume ends: on a full volume whose size is not a
    multiple of 4096 blocks it hands out the block behind the last one. *)
Theorem xvfs_alloc_past_end n s :
  mounted n s -> bitmap_ok n (sb s) -> data_start (sb s) <= total_blocks (sb s) < alloc_hi (sb s) ->
  (forall x, data_start (sb s) <= x < total_blocks (sb s) -> bmp (view s) x = true) ->
  bmp (view s) (total_blocks (sb s)) = false ->
  exists s', xvfs_find_free_block s = Ok (total_blocks (sb s), s').
Proof.
  intros Hm Hb Ht Hfull Hfree. pose proof (bo_data _ _ Hb) as Hd.
  assert (first_in (usable (sb s) (bmp (view s))) 0 (alloc_hi (sb s)) (Some (total_blocks (sb s)))) as Hfirst.
  { split_and!; [lia|lia| |]; [by split; [|lia]|]. intros x Hx [Hx1 Hx2]. rewrite Hfull in Hx1 by lia. done. }
  destruct (wp_run xvfs_find_free_block (fun r _ => r = total_blocks (sb s)) s) as (r & s' & E & ->); [|eauto].
  eapply wp_find_free_block; [done|done| |].
  - intros f s' Hf _ _. by eapply first_in_unique.
  - intros s' Hnone. exfalso. apply (Hnone (total_blocks (sb s))); [lia|]. apply Hfirst.
Qed.
End claims.

(** ** Recognising a formatted drive *)

Section probe.
Context {HW : Type} `{Ata.Machine HW}.

(** the probe that detects disks recognises what xvfs_format_at writes: after formatting the
    RAM disk, fs_quick_probe reports XVFS at sector 0. *)
Theorem xvfs_format_is_detected n drive total (s : @xvfs (@Ata.ata HW)) beyond :
  on_at n drive 0 s -> 11 <= n -> 1 <= total < 4294967296 -> (12 <= length beyond)%nat /\ Forall is_u8 beyond ->
  exists s1, xvfs_format_at beyond drive 0 total s = Ok (true, s1) /\
    Disk.Disk.fs_quick_probe drive (dev s1) = Ok ((Disk.Disk.FSQ_XVFS, 0), dev s1).
Proof.
  intros Hon Hn Ht Hbe.
  destruct (wp_run (xvfs_format_at beyond drive 0 total)
    (fun r s1 => r = true /\ on_at n drive 0 s1 /\ view_at drive 0 s1 = formatted beyond (view_at drive 0 s) total) s)
    as (? & s1 & E1 & -> & [Hok Hod] & Hv1); [eapply (wp_format beyond Hbe n); [done|lia|lia|auto]|].
  exists s1. split; [done|].
  assert (Ata.ram_sectors (dev s1) drive !! 0 = Some signature_sector) as E0.
  { change (blk (view_at drive 0 s1) 0 = Some signature_sector). by rewrite Hv1, formatted_blk. }
  assert (Ata.ram_sectors (dev s1) drive !! 1 = Some (sb_sector total)) as Es.
  { change (blk (view_at drive 0 s1) 1 = Some (sb_sector total)). by rewrite Hv1, formatted_blk. }
  assert (Ata.ram_covers (dev s1) drive) as Hp.
  { apply (Ata.has_run_present (dev s1) drive 0 1 Hok ltac:(lia)). intros i Hi. replace (0 + Z.of_nat i) with 0 by lia. eauto. }
  pose proof (Disk.Disk.ram_read_one (dev s1) drive 0 Hok Hp ltac:(unfold is_u32; lia)) as R0. rewrite E0 in R0.
  pose proof (Disk.Disk.ram_read_one (dev s1) drive 1 Hok Hp ltac:(unfold is_u32; lia)) as R1. rewrite Es in R1.
  unfold Disk.Disk.fs_quick_probe. rewrite (bind_ok _ _ _ _ _ R0).
  change (Disk.Disk.has_55aa signature_sector) with true. cbn [negb].
  assert (Disk.Disk.is_xvfs_sig drive (dev s1) = Ok (true, dev s1)) as Ex; [|by rewrite (bind_ok _ _ _ _ _ Ex)].
  unfold Disk.Disk.is_xvfs_sig, Disk.Disk.is_xvfs_sig_at. change (u32 (0 + 0)) with 0. change (u32 (0 + 1)) with 1.
  rewrite (bind_ok _ _ _ _ _ R0). change (Disk.Disk.sig_at signature_sector 0 Disk.Disk.sig_XVFS2) with true. cbn [negb].
  rewrite (bind_ok _ _ _ _ _ R1). done.
Qed.
End probe.

(** ** Instances *)

Lemma xvfs_format_is_detected_witness :
  exists s1 : @xvfs (@Ata.ata unit), xvfs_format_at stack_bytes 7 0 16 boot16 = Ok (true, s1) /\
    Disk.Disk.fs_quick_probe 7 (dev s1) = Ok ((Disk.Disk.FSQ_XVFS, 0), dev s1).
Proof. apply (xvfs_format_is_detected 16 7 16 boot16 stack_bytes ram16_ok); [lia|lia|apply stack_ok]. Defined.

(** A freshly formatted and mounted volume of [total] blocks on the RAM disk. *)
Lemma fresh16 total : 1 <= total < 4294967296 ->
  exists s : @xvfs (@Ata.ata unit), mounted 16 s /\ view s = fresh stack_bytes (view_at 7 0 boot16) total.
Proof.
  intros Ht. destruct (format_init stack_bytes stack_ok 16 7 0 total boot16 ram16_ok ltac:(lia) Ht) as (s1 & s2 & _ & _ & Hm & Hv).
  by exists s2.
Qed.
Lemma fresh_sb {D} `{BlockDevOk D} (s : @xvfs D) v total : view s = fresh stack_bytes v total -> sb s = format_sb total.
Proof. intros Hv. change (sb s) with (v_sb (view s)). by rewrite Hv. Qed.

Lemma tok_a : tok_ok [97].
Proof. split; [split; [|cbn; lia|done]|done]. constructor; [unfold is_char; lia|constructor]. Qed.
Lemma no_slash_a : Forall (.∉ [SLASH]) [97].
Proof. constructor; [|constructor]. intros ?%list_elem_of_In. unfold SLASH in *. cbn in *. lia. Qed.

Lemma xvfs_alloc_first_fit_witness :
  exists s s' : @xvfs (@Ata.ata unit), xvfs_find_free_block s = Ok (11, s') /\ bmp (view s') 11 = true.
Proof.
  destruct (fresh16 16 ltac:(lia)) as (s & Hm & Hv). pose proof (fresh_sb s _ _ Hv) as Esb.
  pose proof (fresh_first stack_bytes stack_ok (view_at 7 0 boot16) 16 ltac:(lia)) as (Hr & [Hbit _] & Hbefore). rewrite <-Hv in *.
  destruct (xvfs_alloc_first_fit 16 s Hm) as (r & s' & E & _ & [(_ & _ & Hfull)|(Hrr & Hfree & Hfirst & Hbits & _)]).
  - rewrite Esb. apply (fresh_bitmap_ok stack_bytes stack_ok 16 (view_at 7 0 boot16) 16), small_bitmap_fits; lia.
  - rewrite Hfull in Hbit; [done|]. rewrite Esb. cbn [data_start format_sb]. rewrite <-Esb. change (sb s) with (v_sb (view s)). lia.
  - exists s, s'. assert (r = 11) as ->; [|split; [exact E|by rewrite Hbits by lia]].
    rewrite Esb in Hrr, Hfirst. cbn [data_start format_sb] in *.
    assert (bmp (view s) 10 = true) by (rewrite Hv; by apply (fresh_bmp stack_bytes stack_ok)).
    destruct (decide (11 < r)); [rewrite Hfirst in Hbit by lia; done|].
    destruct (decide (r = 10)) as [->|]; [congruence|]. lia.
Defined.


Lemma xvfs_format_mounts_witness :
  exists s1 s2 : @xvfs (@Ata.ata unit), xvfs_format_at stack_bytes 7 0 16 boot16 = Ok (true, s1) /\
    xvfs_init 7 0 s1 = Ok (true, s2) /\ free_blocks (sb s2) = 5.
Proof.
  destruct (xvfs_format_mounts 16 7 0 16 boot16 stack_bytes ram16_ok ltac:(lia) ltac:(lia) stack_ok)
    as (s1 & s2 & root & E1 & E2 & _ & Esb & _).
  exists s1, s2. rewrite Esb. split_and!; [exact E1|exact E2|reflexivity].
Defined.

Definition hello : list Z := [104; 101; 108; 108; 111].

Lemma xvfs_create_read_witness :
  exists s1 s2 s3 s4 : @xvfs (@Ata.ata unit), xvfs_format_at stack_bytes 7 0 16 boot16 = Ok (true, s1) /\
    xvfs_init 7 0 s1 = Ok (true, s2) /\ xvfs_create_file [97] hello 5 s2 = Ok (true, s3) /\
    xvfs_read_file_by_name (Some [97]) 4096 s3 = Ok ((5, hello), s4).
Proof.
  apply (xvfs_create_read 16 7 0 16 [97] hello 4096 boot16 stack_bytes ram16_ok); try lia; try (cbn; lia).
  - apply small_bitmap_fits; lia.
  - apply stack_ok.
  - apply tok_a.
  - apply no_slash_a.
  - apply u8_list. reflexivity.
  - vm_compute. discriminate.
Defined.

Lemma xvfs_read_range_exact_witness :
  exists s s' : @xvfs (@Ata.ata unit),
    xvfs_read_file_range (Some {| fe_name := []; fe_start := 10; fe_size := 600; fe_attr := 0 |}) true 508 8 s =
    Ok ((true, take 8 (drop 508 (take 600 (get_blocks (view s) 10 2)))), s').
Proof.
  destruct (fresh16 16 ltac:(lia)) as (s & Hm & Hv). pose proof (fresh_sb s _ _ Hv) as Esb.
  destruct (xvfs_read_range_exact 16 s {| fe_name := []; fe_start := 10; fe_size := 600; fe_attr := 0 |} 508 8 Hm)
    as (_ & (s' & E & _) & _); try (cbn; lia); [by rewrite Esb|vm_compute; discriminate|].
  exists s, s'. exact E.
Defined.

Lemma xvfs_rmdir_empty_only_witness :
  exists s s' : @xvfs (@Ata.ata unit), xvfs_rmdir [97] s = Ok (false, s') /\ view s' = view s.
Proof.
  destruct (fresh16 16 ltac:(lia)) as (s & Hm & Hv). pose proof (fresh_sb s _ _ Hv) as Esb.
  destruct (fresh_can_create stack_bytes stack_ok 16 s _ 16 [97] [] Hm Hv ltac:(lia) ltac:(apply small_bitmap_fits; lia) tok_a no_slash_a) as [_ Hlay Ht Hb _ _ _ _ _ _ _ _ _];
    [by apply u8_list|cbn; lia|vm_compute; discriminate|].
  assert (forall x, root_only x -> x < alloc_hi (sb s)) as Hhi by (intros x ->; rewrite Esb; reflexivity).
  destruct (xvfs_rmdir_empty_only 16 s root_only [97] 10 [97] _ Hm Hlay Hhi Ht Hb) as (ok & s' & E & Hres).
  rewrite (proj2 (find_entry_none _ _)) in Hres.
  - exists s, s'. destruct Hres as [-> Hv']. split; [exact E|exact Hv'].
  - intros i Hi. destruct (fresh_root stack_bytes stack_ok (view_at 7 0 boot16) 16 i Hi) as [_ ->]. done.
Defined.

Lemma xvfs_alloc_past_end_witness :
  exists s s' : @xvfs (@Ata.ata unit), sb s = format_sb 11 /\ xvfs_find_free_block s = Ok (11, s').
Proof.
  destruct (fresh16 11 ltac:(lia)) as (s & Hm & Hv). pose proof (fresh_sb s _ _ Hv) as Esb.
  assert (forall x, 0 <= x < 32768 -> bmp (view s) x = (x <? 11)) as Hb by (rewrite Hv; by apply (fresh_bmp stack_bytes stack_ok)).
  destruct (xvfs_alloc_past_end 16 s Hm) as (s' & E).
  - rewrite Esb. apply (fresh_bitmap_ok stack_bytes stack_ok 16 (view_at 7 0 boot16) 11), small_bitmap_fits; lia.
  - rewrite Esb. done.
  - rewrite Esb. cbn [data_start total_blocks format_sb]. intros x Hx. rewrite Hb by lia. apply Z.ltb_lt. lia.
  - rewrite Esb. cbn [total_blocks format_sb]. by rewrite Hb by lia.
  - exists s, s'. rewrite Esb in E. split; [exact Esb|exact E].
Defined.
