(* ===== verification/Elf.v ===== *)
(** * The ELF loader (kernel/elf.c)

    Reads a program file into a kernel buffer, checks its headers, builds the image of its
    loadable segments in a second buffer, relocates it and maps the pages of that buffer at the
    user addresses.  The two buffers are lists of bytes: an access outside them is a fault.  The
    file system, the heap and paging are the interface [ElfEnv]. *)
From S2P Require Import Prelude.

Module Elf.

Definition ET_EXEC : Z := 2.
Definition ET_DYN : Z := 3.
Definition EM_386 : Z := 3.
Definition EV_CURRENT : Z := 1.
Definition PT_LOAD : Z := 1.
Definition PT_DYNAMIC : Z := 2.
Definition DT_NULL : Z := 0.
Definition DT_SYMTAB : Z := 6.
Definition DT_RELA : Z := 7.
Definition DT_RELASZ : Z := 8.
Definition DT_RELAENT : Z := 9.
Definition DT_SYMENT : Z := 11.
Definition DT_REL : Z := 17.
Definition DT_RELSZ : Z := 18.
Definition DT_RELENT : Z := 19.
Definition R_386_NONE : Z := 0.
Definition R_386_32 : Z := 1.
Definition R_386_PC32 : Z := 2.
Definition R_386_GLOB_DAT : Z := 6.
Definition R_386_JMP_SLOT : Z := 7.
Definition R_386_RELATIVE : Z := 8.
Definition ELF_USER_VADDR_MIN : Z := 0x08000000.
Definition ELF_USER_VADDR_MAX : Z := 0xBFFFFFFF.
Definition PAGE_SIZE : Z := 4096.
(** PAGE_PRESENT | PAGE_RW | PAGE_USER *)
Definition USER_PAGE : Z := 7.
(** sizeof of the packed structures *)
Definition EHDR : Z := 52.
Definition PHDR : Z := 32.
Definition DYN : Z := 8.
Definition REL : Z := 8.
Definition SYM : Z := 16.

(** The fields the loader uses *)
Record Elf32_Ehdr := {
  e_ident : list Z; e_type : Z; e_machine : Z; e_version : Z; e_entry : Z; e_phoff : Z; e_phentsize : Z; e_phnum : Z;
}.
Record Elf32_Phdr := { p_type : Z; p_offset : Z; p_vaddr : Z; p_filesz : Z; p_memsz : Z }.

Definition ehdr_of (b : list Z) : Elf32_Ehdr :=
  {| e_ident := take 16 b; e_type := get16 b 16; e_machine := get16 b 18; e_version := get32 b 20; e_entry := get32 b 24;
     e_phoff := get32 b 28; e_phentsize := get16 b 42; e_phnum := get16 b 44 |}.
Definition phdr_of (b : list Z) : Elf32_Phdr :=
  {| p_type := get32 b 0; p_offset := get32 b 4; p_vaddr := get32 b 8; p_filesz := get32 b 16; p_memsz := get32 b 20 |}.

Definition align_up (val align : Z) : Z := Z.land (u32 (val + align - 1)) (not32 (align - 1)).
Definition align_down (val align : Z) : Z := Z.land val (not32 (align - 1)).

Definition elf_ident_ok (ident : list Z) : bool :=
  bool_decide (take 4 ident = [0x7F; 69; 76; 70]) && bool_decide (take 3 (drop 4 ident) = [1; 1; 1]).

(** The offset of vaddr in the image, where [size] bytes from there on lie inside it *)
Definition elf_image_ptr (base_vaddr image_size vaddr size : Z) : option Z :=
  if vaddr <? base_vaddr then None
  else
    let off := u32 (vaddr - base_vaddr) in
    if image_size <? off then None
    else if u32 (image_size - off) <? size then None
    else Some off.

(** ** Relocation, on the image *)

Abbreviation I X := (M (list Z) X).
Definition img_get (off len : Z) : I (list Z) := b <- get;; lift_opt (slice b off len).
Definition img_get32 (off : Z) : I Z := b <- img_get off 4;; ret (get32 b 0).
Definition img_set32 (off v : Z) : I unit := b <- get;; b' <- lift_opt (splice b off (bytes32 v));; modify (fun _ => b').

Section reloc.
Context (base_vaddr image_size load_bias : Z).

Definition resolve_symbol (symtab_vaddr sym_ent sym_index : Z) : I (option Z) :=
  if (symtab_vaddr =? 0) || (sym_ent <? SYM) then ret None
  else
    let sym_vaddr := u32 (symtab_vaddr + u32 (sym_index * sym_ent)) in
    match elf_image_ptr base_vaddr image_size sym_vaddr sym_ent with
    | None => ret None
    | Some p =>
      sym <- img_get p SYM;;
      if get16 sym 14 =? 0 then ret None else ret (Some (u32 (load_bias + get32 sym 4)))
    end.

Record dyn_info := { rel_vaddr : Z; rel_sz : Z; rel_ent : Z; symtab : Z; sym_ent : Z; rela : bool }.
Definition no_dyn : dyn_info := {| rel_vaddr := 0; rel_sz := 0; rel_ent := REL; symtab := 0; sym_ent := SYM; rela := false |}.

Definition dyn_entry (tag v : Z) (d : dyn_info) : dyn_info :=
  if tag =? DT_REL then {| rel_vaddr := v; rel_sz := rel_sz d; rel_ent := rel_ent d; symtab := symtab d; sym_ent := sym_ent d; rela := rela d |}
  else if tag =? DT_RELSZ then {| rel_vaddr := rel_vaddr d; rel_sz := v; rel_ent := rel_ent d; symtab := symtab d; sym_ent := sym_ent d; rela := rela d |}
  else if tag =? DT_RELENT then {| rel_vaddr := rel_vaddr d; rel_sz := rel_sz d; rel_ent := v; symtab := symtab d; sym_ent := sym_ent d; rela := rela d |}
  else if tag =? DT_SYMTAB then {| rel_vaddr := rel_vaddr d; rel_sz := rel_sz d; rel_ent := rel_ent d; symtab := v; sym_ent := sym_ent d; rela := rela d |}
  else if tag =? DT_SYMENT then {| rel_vaddr := rel_vaddr d; rel_sz := rel_sz d; rel_ent := rel_ent d; symtab := symtab d; sym_ent := v; rela := rela d |}
  else if (tag =? DT_RELA) || (tag =? DT_RELASZ) || (tag =? DT_RELAENT) then
    {| rel_vaddr := rel_vaddr d; rel_sz := rel_sz d; rel_ent := rel_ent d; symtab := symtab d; sym_ent := sym_ent d; rela := true |}
  else d.
Fixpoint dyn_loop (k : nat) (dyn : Z) (d : dyn_info) : I dyn_info :=
  match k with
  | O => ret d
  | S k' =>
    e <- img_get dyn DYN;;
    if get32 e 0 =? DT_NULL then ret d else dyn_loop k' (dyn + DYN) (dyn_entry (get32 e 0) (get32 e 4) d)
  end.

(** One relocation: [false] when it is refused *)
Definition relocate (d : dyn_info) (r_offset r_info : Z) : I bool :=
  let type := u8 r_info in
  let sym_index := Z.shiftr r_info 8 in
  match elf_image_ptr base_vaddr image_size r_offset 4 with
  | None => ret false
  | Some reloc =>
    if type =? R_386_NONE then ret true
    else if type =? R_386_RELATIVE then
      v <- img_get32 reloc;; img_set32 reloc (u32 (v + load_bias));;; ret true
    else if type =? R_386_32 then
      s <- resolve_symbol (symtab d) (sym_ent d) sym_index;;
      match s with
      | None => ret false
      | Some sym_val => v <- img_get32 reloc;; img_set32 reloc (u32 (sym_val + v));;; ret true
      end
    else if type =? R_386_PC32 then
      s <- resolve_symbol (symtab d) (sym_ent d) sym_index;;
      match s with
      | None => ret false
      | Some sym_val => v <- img_get32 reloc;; img_set32 reloc (u32 (sym_val + v - u32 (load_bias + r_offset)));;; ret true
      end
    else if (type =? R_386_GLOB_DAT) || (type =? R_386_JMP_SLOT) then
      s <- resolve_symbol (symtab d) (sym_ent d) sym_index;;
      match s with
      | None => ret false
      | Some sym_val => img_set32 reloc sym_val;;; ret true
      end
    else ret false
  end.
Fixpoint rel_loop (k : nat) (rel : Z) (d : dyn_info) : I bool :=
  match k with
  | O => ret true
  | S k' =>
    e <- img_get rel REL;;
    ok <- relocate d (get32 e 0) (get32 e 4);;
    if negb ok then ret false else rel_loop k' (rel + REL) d
  end.

(** The relocations that the dynamic section ph names *)
Definition relocate_dynamic (ph : Elf32_Phdr) : I bool :=
  match elf_image_ptr base_vaddr image_size (p_vaddr ph) (p_memsz ph) with
  | None => ret false
  | Some dyn =>
    d <- dyn_loop (Z.to_nat (p_memsz ph / DYN)) dyn no_dyn;;
    if rela d then ret false
    else if rel_sz d =? 0 then ret true
    else if negb (rel_ent d =? REL) || negb (rel_sz d mod rel_ent d =? 0) then ret false
    else
      match elf_image_ptr base_vaddr image_size (rel_vaddr d) (rel_sz d) with
      | None => ret false
      | Some rel => rel_loop (Z.to_nat (rel_sz d / rel_ent d)) rel d
      end
  end.
Definition apply_relocations (phdrs : list Elf32_Phdr) : I bool :=
  match List.find (fun ph => p_type ph =? PT_DYNAMIC) phdrs with
  | None => ret true
  | Some ph => relocate_dynamic ph
  end.
End reloc.

(** ** Loading *)

Class ElfEnv (E : Type) := {
  fscmd_get_file_size : list Z -> M E Z;
  fscmd_read_file_partial : list Z -> Z -> Z -> M E (option (list Z));
  kmalloc : Z -> Z -> M E Z;
  kfree : Z -> M E unit;
  vmm_virt_to_phys : Z -> M E (option Z);
  vmm_map_page : Z -> Z -> Z -> M E unit;
  irq_save : M E Z;
  irq_restore : Z -> M E unit;
}.

(** What elf_load_image returns, with the bytes of the image *)
Record loaded := Loaded { out_entry : Z; out_image_base : Z; out_image_size : Z; out_load_base : Z; image_bytes : list Z }.

Section load.
Context {E : Type} `{ElfEnv E}.

Record elf := Mk { env : E; g_next_pie_base : Z }.
Abbreviation L X := (M elf X).
Definition on_env {X} (c : M E X) : L X := fun s =>
  match c (env s) with
  | Ok (x, e) => Ok (x, Mk e (g_next_pie_base s))
  | Fault => Fault
  | NoFuel => NoFuel
  end.

Definition choose_pie_base (image_size min_base : Z) : L Z :=
  next <- gets g_next_pie_base;;
  let base := if next <? min_base then min_base else next in
  let base := align_up base PAGE_SIZE in
  let end_ := u64 (base + image_size) in
  if (ELF_USER_VADDR_MAX + 1 <? end_) || (end_ <? base) then ret 0
  else modify (fun s => Mk (env s) (align_up (u32 (u32 end_ + PAGE_SIZE)) PAGE_SIZE));;; ret base.

(** The file in chunks of at most 1024 bytes *)
Fixpoint read_file_loop (fuel : nat) (path : list Z) (offset size : Z) (acc : list Z) : L (option (list Z)) :=
  match fuel with
  | O => nofuel
  | S fuel' =>
    if negb (offset <? size) then ret (Some acc)
    else
      let to_read := if 1024 <? size - offset then 1024 else size - offset in
      r <- on_env (fscmd_read_file_partial path offset to_read);;
      match r with
      | None => ret None
      | Some b => read_file_loop fuel' path (offset + to_read) size (acc ++ b)
      end
  end.
Definition read_file_exact (path : list Z) (size : Z) : L (option (list Z)) :=
  read_file_loop (S (Z.to_nat size)) path 0 size [].

(** The program headers, read from the file *)
Fixpoint read_phdrs (k : nat) (file : list Z) (off : Z) : option (list Elf32_Phdr) :=
  match k with
  | O => Some []
  | S k' =>
    match slice file off PHDR, read_phdrs k' file (off + PHDR) with
    | Some b, Some l => Some (phdr_of b :: l)
    | _, _ => None
    end
  end.

Definition loadable (ph : Elf32_Phdr) : bool := (p_type ph =? PT_LOAD) && negb (p_memsz ph =? 0).
(** The address range of the loadable segments; None when one of them is refused *)
Fixpoint segment_range (phs : list Elf32_Phdr) (size min_vaddr max_vaddr : Z) : option (Z * Z) :=
  match phs with
  | [] => Some (min_vaddr, max_vaddr)
  | ph :: phs' =>
    if negb (loadable ph) then segment_range phs' size min_vaddr max_vaddr
    else if p_memsz ph <? p_filesz ph then None
    else if (size <? p_offset ph) || (size <? u32 (p_offset ph + p_filesz ph)) then None
    else
      let seg_end := u32 (p_vaddr ph + p_memsz ph) in
      if seg_end <? p_vaddr ph then None
      else segment_range phs' size (if p_vaddr ph <? min_vaddr then p_vaddr ph else min_vaddr)
                         (if max_vaddr <? seg_end then seg_end else max_vaddr)
  end.

(** The segments copied into the image; [Some false] when one does not fit, None is a fault *)
Fixpoint copy_segments (phs : list Elf32_Phdr) (file : list Z) (base_vaddr image_size : Z) (image : list Z) : option (bool * list Z) :=
  match phs with
  | [] => Some (true, image)
  | ph :: phs' =>
    if negb (loadable ph) then copy_segments phs' file base_vaddr image_size image
    else
      let seg_offset := u32 (p_vaddr ph - base_vaddr) in
      if image_size <? u32 (seg_offset + p_memsz ph) then Some (false, image)
      else if 0 <? p_filesz ph then
        match slice file (p_offset ph) (p_filesz ph) with
        | None => None
        | Some b => match splice image seg_offset b with
                    | None => None
                    | Some image' => copy_segments phs' file base_vaddr image_size image'
                    end
        end
      else copy_segments phs' file base_vaddr image_size image
  end.

(** Every page of the buffer is mapped at its user address. *)
Fixpoint map_loop (k : nat) (image load_base off : Z) : L bool :=
  match k with
  | O => ret true
  | S k' =>
    r <- on_env (vmm_virt_to_phys (u32 (image + off)));;
    match r with
    | None => ret false
    | Some phys => on_env (vmm_map_page (u32 (load_base + off)) phys USER_PAGE);;; map_loop k' image load_base (off + PAGE_SIZE)
    end
  end.

(** Where the image goes: 0 when there is no place for it *)
Definition load_address (is_pie : bool) (base_vaddr image_size min_vaddr max_vaddr : Z) : L (option Z) :=
  if is_pie then
    let min_base := if base_vaddr <? ELF_USER_VADDR_MIN then ELF_USER_VADDR_MIN else base_vaddr in
    b <- choose_pie_base image_size min_base;;
    ret (if b =? 0 then None else Some b)
  else ret (if (min_vaddr <? ELF_USER_VADDR_MIN) || (ELF_USER_VADDR_MAX <? max_vaddr) then None else Some base_vaddr).

(** From the allocation of the image on: building, relocating and mapping it *)
Definition load_image (file_ptr : Z) (file : list Z) (phs : list Elf32_Phdr) (is_pie : bool)
  (entry base_vaddr image_size load_base : Z) : L (option loaded) :=
  let load_bias := u32 (load_base - base_vaddr) in
  image <- on_env (kmalloc image_size 1);;
  if image =? 0 then on_env (kfree file_ptr);;; ret None
  else
    let zero := replicate (Z.to_nat image_size) 0 in
    c <- lift_opt (copy_segments phs file base_vaddr image_size zero);;
    let '(fits, img) := c in
    if negb fits then on_env (kfree image);;; on_env (kfree file_ptr);;; ret None
    else
      r <- (if is_pie then
              fun s => match apply_relocations base_vaddr image_size load_bias phs img with
                       | Ok (ok, img') => Ok ((ok, img'), s)
                       | Fault => Fault
                       | NoFuel => NoFuel
                       end
            else ret (true, img));;
      let '(ok, img) := r in
      if negb (ok : bool) then on_env (kfree image);;; on_env (kfree file_ptr);;; ret None
      else
        flags <- on_env irq_save;;
        mapped <- map_loop (Z.to_nat (image_size / PAGE_SIZE)) image load_base 0;;
        on_env (irq_restore flags);;;
        if negb mapped then on_env (kfree image);;; on_env (kfree file_ptr);;; ret None
        else
          on_env (kfree file_ptr);;;
          ret (Some (Loaded (u32 (entry + load_bias)) image image_size load_base img)).

(** The result, and out_is_elf *)
Definition elf_load_image (path : option (list Z)) : L (option loaded * bool) :=
  match path with
  | None => ret (None, false)
  | Some path =>
    size <- on_env (fscmd_get_file_size path);;
    if size <? EHDR then ret (None, false)
    else
      file_ptr <- on_env (kmalloc size 0);;
      if file_ptr =? 0 then ret (None, false)
      else
        r <- read_file_exact path size;;
        match r with
        | None => on_env (kfree file_ptr);;; ret (None, false)
        | Some file =>
          hdr <- lift_opt (slice file 0 EHDR);;
          let eh := ehdr_of hdr in
          let fail := (on_env (kfree file_ptr);;; ret (None, true)) in
          if negb (elf_ident_ok (e_ident eh)) then on_env (kfree file_ptr);;; ret (None, false)
          else if (negb (e_type eh =? ET_EXEC) && negb (e_type eh =? ET_DYN)) || negb (e_machine eh =? EM_386)
                  || negb (e_version eh =? EV_CURRENT) then fail
          else if negb (e_phentsize eh =? PHDR) || (e_phnum eh =? 0) then fail
          else if (size <? e_phoff eh) || (size <? u32 (e_phoff eh + u32 (e_phnum eh * PHDR))) then fail
          else
            phs <- lift_opt (read_phdrs (Z.to_nat (e_phnum eh)) file (e_phoff eh));;
            match segment_range phs size 0xFFFFFFFF 0 with
            | None => fail
            | Some (min_vaddr, max_vaddr) =>
              if min_vaddr =? 0xFFFFFFFF then fail
              else if (e_entry eh <? min_vaddr) || (max_vaddr <=? e_entry eh) then fail
              else
                let base_vaddr := align_down min_vaddr PAGE_SIZE in
                let image_size := align_up (u32 (max_vaddr - base_vaddr)) PAGE_SIZE in
                if image_size =? 0 then fail
                else
                  let is_pie := e_type eh =? ET_DYN in
                  a <- load_address is_pie base_vaddr image_size min_vaddr max_vaddr;;
                  match a with
                  | None => fail
                  | Some load_base =>
                    r <- load_image file_ptr file phs is_pie (e_entry eh) base_vaddr image_size load_base;; ret (r, true)
                  end
            end
        end
  end.
End load.
End Elf.
