(* ===== verification/ElfSafe.v ===== *)
(** * Correctness of the ELF loader

    The checks of elf.c keep every access inside the two buffers ([wp_apply_relocations],
    [copy_segments_ok]), and [wp_elf_load_image] describes the outcome of a load: nothing is
    allocated when it fails, and when it succeeds exactly the image, which holds the bytes of the
    segments and is mapped at the user addresses.  The contract [ElfEnvOk] of
    the file system, the heap and paging as the loader uses them, and a small environment that
    fulfils it, come first.  What relocation does to an image is described after the i386
    ABI ([relocation]), apart from the code. *)
From S2P Require Import Prelude Elf.

(** ** What the loader is given *)

Module ElfEnv.
Import Elf.

(** The largest request for which the bound check of the kernel heap cannot wrap around: the heap
    ends at 0xC5000000. *)
Definition KMALLOC_MAX : Z := 0x38000000.
Definition KERNEL_BASE : Z := 0xC0000000.

Class ElfEnvOk (E : Type) {EE : ElfEnv E} := {
  env_ok : E -> Prop;
  (** the allocated blocks *)
  live : E -> gset Z;
  file_bytes : E -> list Z -> list Z;
  (** the frame and flags of a page, whether the page directory has a table for it, and the number of
      frames that are free *)
  pages : E -> Z -> option (Z * Z);
  has_table : E -> Z -> bool;
  frames : E -> Z;
  frames_pos : forall e, env_ok e -> 0 <= frames e;
  file_u8 : forall e p, env_ok e -> Forall is_u8 (file_bytes e p) /\ Z.of_nat (length (file_bytes e p)) < 4294967296;
  (** page tables stay, and no frame is given back *)
  spends e e' := (forall x, has_table e x = true -> has_table e' x = true) /\ frames e' <= frames e;
  size_law : forall e p, env_ok e -> wp False (fscmd_get_file_size p)
    (fun n e' => n = Z.of_nat (length (file_bytes e p)) /\ env_ok e' /\ live e' = live e /\
       (forall q, file_bytes e' q = file_bytes e q) /\ (forall x, pages e' x = pages e x) /\ spends e e') e;
  (** a read inside the file fails or gives the bytes of the file *)
  read_law : forall e p off n, env_ok e -> 0 <= off -> 0 <= n -> off + n <= Z.of_nat (length (file_bytes e p)) ->
    wp False (fscmd_read_file_partial p off n)
      (fun r e' => (r = None \/ r = slice (file_bytes e p) off n) /\ env_ok e' /\ live e' = live e /\
         (forall q, file_bytes e' q = file_bytes e q) /\ (forall x, pages e' x = pages e x) /\ spends e e') e;
  (** NULL or a fresh block of the kernel's address range *)
  kmalloc_law : forall e n al, env_ok e -> 0 < n <= KMALLOC_MAX ->
    wp False (kmalloc n al)
      (fun p e' => ((p = 0 /\ live e' = live e) \/
                    (KERNEL_BASE <= p /\ p + n <= 4294967296 /\ p ∉ live e /\ live e' = {[p]} ∪ live e /\
                     (al <> 0 -> p mod PAGE_SIZE = 0))) /\
         env_ok e' /\ (forall q, file_bytes e' q = file_bytes e q) /\
         (forall x, x < KERNEL_BASE -> pages e' x = pages e x) /\ spends e e') e;
  kfree_law : forall e p, env_ok e -> p ∈ live e ->
    wp False (kfree p)
      (fun _ e' => env_ok e' /\ live e' = live e ∖ {[p]} /\
         (forall q, file_bytes e' q = file_bytes e q) /\ (forall x, pages e' x = pages e x) /\ spends e e') e;
  virt_law : forall e v, env_ok e -> v mod PAGE_SIZE = 0 -> vmm_virt_to_phys v e = Ok (fst <$> pages e v, e);
  (** a user page is mapped to the frame of another page; or left as it is when it has no table and there
      is no frame for one *)
  map_law : forall e v w pa fl, env_ok e -> v mod PAGE_SIZE = 0 -> 0 <= v < KERNEL_BASE -> pages e w = Some (pa, fl) ->
    wp False (vmm_map_page v pa USER_PAGE)
      (fun _ e' => env_ok e' /\ live e' = live e /\ (forall q, file_bytes e' q = file_bytes e q) /\
         (forall x, x <> v -> pages e' x = pages e x) /\ spends e e' /\
         (pages e' v = Some (pa, USER_PAGE) \/ (has_table e v = false /\ frames e = 0 /\ pages e' v = pages e v))) e;
  irq_save_law : forall e, env_ok e ->
    wp False irq_save (fun _ e' => env_ok e' /\ live e' = live e /\ (forall q, file_bytes e' q = file_bytes e q) /\
                                   (forall x, pages e' x = pages e x) /\ spends e e') e;
  irq_restore_law : forall e fl, env_ok e ->
    wp False (irq_restore fl) (fun _ e' => env_ok e' /\ live e' = live e /\ (forall q, file_bytes e' q = file_bytes e q) /\
                                   (forall x, pages e' x = pages e x) /\ spends e e') e;
}.

(** ** A concrete environment *)

Record sim := Sim {
  sim_files : gmap (list Z) (list Z);
  sim_brk : Z;                 (* the next free address *)
  sim_live : gset Z;
  sim_pages : gmap Z (Z * Z);
  sim_if : bool
}.
Definition SIM_END : Z := 0xC5000000.
Definition round_page (n : Z) : Z := (n + 4095) / 4096 * 4096.
Definition sim_file (e : sim) (p : list Z) : list Z := default [] (sim_files e !! p).
(** The pages of a new block are mapped to the frames 1 GB below them. *)
Fixpoint sim_back (k : nat) (v : Z) (m : gmap Z (Z * Z)) : gmap Z (Z * Z) :=
  match k with
  | O => m
  | S k' => <[v := (v - 0x40000000, 3)]> (sim_back k' (v + 4096) m)
  end.
Definition sim_kmalloc (n : Z) (e : sim) : Z * sim :=
  let r := round_page n in
  if sim_brk e + r <=? SIM_END then
    (sim_brk e, Sim (sim_files e) (sim_brk e + r) ({[sim_brk e]} ∪ sim_live e)
                    (sim_back (Z.to_nat (r / 4096)) (sim_brk e) (sim_pages e)) (sim_if e))
  else (0, e).
#[global] Instance sim_env : ElfEnv sim := {
  fscmd_get_file_size p := fun e => Ok (Z.of_nat (length (sim_file e p)), e);
  fscmd_read_file_partial p off n := fun e => Ok (slice (sim_file e p) off n, e);
  kmalloc n _ := fun e => Ok (sim_kmalloc n e);
  kfree p := fun e => if decide (p ∈ sim_live e)
                      then Ok (tt, Sim (sim_files e) (sim_brk e) (sim_live e ∖ {[p]}) (sim_pages e) (sim_if e)) else Fault;
  vmm_virt_to_phys v := fun e => Ok (fst <$> sim_pages e !! v, e);
  vmm_map_page v pa fl := fun e => Ok (tt, Sim (sim_files e) (sim_brk e) (sim_live e) (<[v := (pa, fl)]> (sim_pages e)) (sim_if e));
  irq_save := fun e => Ok (if sim_if e then 0x200 else 0, Sim (sim_files e) (sim_brk e) (sim_live e) (sim_pages e) false);
  irq_restore fl := fun e => Ok (tt, Sim (sim_files e) (sim_brk e) (sim_live e) (sim_pages e)
                                         (if Z.land fl 0x200 =? 0 then sim_if e else true))
}.
Record sim_ok (e : sim) : Prop := {
  so_files : forall p l, sim_files e !! p = Some l -> Forall is_u8 l /\ Z.of_nat (length l) < 4294967296;
  so_brk : 0xC1000000 <= sim_brk e <= SIM_END;
  so_page : sim_brk e mod 4096 = 0;
  so_live : forall p, p ∈ sim_live e -> p < sim_brk e;
}.

Lemma sim_back_frame k v m x : x < v -> sim_back k v m !! x = m !! x.
Proof. revert v. induction k as [|k IH]; intros v Hx; simpl; [done|]. rewrite lookup_insert_ne by lia. apply IH. lia. Qed.

#[global] Program Instance sim_env_ok : ElfEnvOk sim := {
  env_ok := sim_ok;
  live := sim_live;
  file_bytes := sim_file;
  pages e v := sim_pages e !! v;
  has_table _ _ := false;
  frames _ := 1;
}.
Next Obligation. done. Qed.
Next Obligation.
  intros e p Hok. unfold sim_file. destruct (sim_files e !! p) eqn:E; simpl; [by eapply so_files|].
  split; [constructor|lia].
Qed.
Next Obligation. intros e p Hok. done. Qed.
Next Obligation. intros e p off n Hok Ho Hn Hl. unfold wp. simpl. split_and!; [by right|done..]. Qed.
Next Obligation.
  intros e n al Hok Hn. unfold wp. cbn [kmalloc sim_env]. unfold sim_kmalloc. destruct Hok as [Hf Hb Hp Hl].
  assert (round_page n mod 4096 = 0 /\ n <= round_page n) as [Hr1 Hr2] by (unfold round_page; word_lia).
  destruct (Z.leb_spec (sim_brk e + round_page n) SIM_END) as [Hle|Hle].
  - cbn [sim_live sim_files sim_pages]. split_and!; cycle 1.
    + constructor; cbn [sim_files sim_brk sim_live]; [done|lia|word_lia|].
      intros p [->%elem_of_singleton|Hp']%elem_of_union; [lia|]. apply Hl in Hp'. lia.
    + done.
    + intros x Hx. apply sim_back_frame. unfold KERNEL_BASE in *. lia.
    + done.
    + done.
    + right. unfold KERNEL_BASE, SIM_END in *. split_and!; [lia|lia| |done|done]. intros ?%Hl. lia.
  - split_and!; [by left|done..].
Qed.
Next Obligation.
  intros e p [Hf Hb Hp Hl] Hin. unfold wp. cbn [kfree sim_env]. rewrite decide_True by done. split_and!; try done.
  constructor; cbn; try done. set_solver.
Qed.
Next Obligation. done. Qed.
Next Obligation.
  intros e v w pa fl [Hf Hb Hp Hl] Hv _ _. unfold wp. cbn. split_and!; try done.
  - intros x Hx. by rewrite lookup_insert_ne by done.
  - left. apply lookup_insert_eq.
Qed.
Next Obligation. intros e [Hf Hb Hp Hl]. by unfold wp. Qed.
Next Obligation. intros e fl [Hf Hb Hp Hl]. by unfold wp. Qed.
End ElfEnv.

Module ElfSafe.
Import Elf ElfEnv.

(** ** Header fields and alignment *)

Record phdr_ok (ph : Elf32_Phdr) : Prop := {
  po_type : is_u32 (p_type ph);
  po_offset : is_u32 (p_offset ph);
  po_vaddr : is_u32 (p_vaddr ph);
  po_filesz : is_u32 (p_filesz ph);
  po_memsz : is_u32 (p_memsz ph);
}.
Lemma phdr_of_ok b : Forall is_u8 b -> phdr_ok (phdr_of b).
Proof. intros. constructor; by apply get32_u32. Qed.
Lemma read_phdrs_ok k file off : Forall is_u8 file -> 0 <= off -> off + PHDR * Z.of_nat k <= Z.of_nat (length file) ->
  exists phs, read_phdrs k file off = Some phs /\ Forall phdr_ok phs.
Proof.
  intros Hu. revert off. induction k as [|k IH]; intros off Ho Hl; cbn [read_phdrs]; [by exists []|].
  unfold PHDR in *. destruct (IH (off + 32)) as (phs & -> & Hp); [lia|lia|].
  rewrite slice_in by lia. eexists. split; [reflexivity|]. constructor; [|done].
  by apply phdr_of_ok, Forall_take, Forall_drop.
Qed.

Lemma align_down_page x : is_u32 x -> align_down x PAGE_SIZE = x / 4096 * 4096.
Proof. apply (align_mask x 12). lia. Qed.
Lemma align_up_page x : is_u32 x -> x <= 4294963200 -> align_up x PAGE_SIZE = (x + 4095) / 4096 * 4096.
Proof.
  intros Hx Hm. unfold align_up. rewrite (align_mask _ 12) by (lia || apply u32_range).
  rewrite u32_small by (unfold is_u32, PAGE_SIZE in *; lia). unfold PAGE_SIZE. by rewrite <-Z.add_sub_assoc.
Qed.
(** Near the end of the address space it wraps to 0. *)
Lemma align_up_wrap x : is_u32 x -> 4294963200 < x -> align_up x PAGE_SIZE = 0.
Proof.
  intros Hx Hm. unfold align_up. rewrite (align_mask _ 12) by (lia || apply u32_range).
  unfold PAGE_SIZE. change (2 ^ 12) with 4096. word_lia.
Qed.

Lemma elf_image_ptr_in base size vaddr n off :
  is_u32 base -> is_u32 size -> is_u32 vaddr -> 0 <= n -> elf_image_ptr base size vaddr n = Some off ->
  off = vaddr - base /\ 0 <= off /\ off + n <= size.
Proof.
  intros Hb Hs Hv Hn. unfold elf_image_ptr. bdestr; try done. intros [= <-].
  unfold is_u32 in *. rewrite (u32_small (vaddr - base)) in * by (unfold is_u32; lia).
  rewrite u32_small in * by (unfold is_u32; lia). lia.
Qed.

(** ** What relocation does

    After the i386 ABI: A is the word that is relocated, P its address, S the value of the symbol, and
    the load bias the distance of the image from its own addresses. *)

Section abi.
Context (base bias : Z).

(** The word at an address of the image, and the image with that word changed *)
Definition word (img : list Z) (a : Z) : Z := get32 img (Z.to_nat (a - base)).
Definition word_set (img : list Z) (a v : Z) (img' : list Z) : Prop :=
  length img' = length img /\ word img' a = v /\ forall x, Z.of_nat x < a - base \/ a - base + 4 <= Z.of_nat x -> img' !! x = img !! x.
(** Symbol i of the table tab has a section, and its value moves with the image. *)
Definition symbol (img : list Z) (tab ent i v : Z) : Prop :=
  let a := (tab + i * ent) mod 4294967296 in
  base <= a /\ get16 img (Z.to_nat (a - base) + 14) <> 0 /\ v = (bias + word img (a + 4)) mod 4294967296.
Inductive reloc_value (img : list Z) (tab ent P info : Z) : Z -> Prop :=
  | rv_relative : info mod 256 = 8 -> reloc_value img tab ent P info (word img P + bias)
  | rv_32 v : info mod 256 = 1 -> symbol img tab ent (info / 256) v -> reloc_value img tab ent P info (v + word img P)
  | rv_pc32 v : info mod 256 = 2 -> symbol img tab ent (info / 256) v -> reloc_value img tab ent P info (v + word img P - (P + bias))
  | rv_copy v : info mod 256 = 6 \/ info mod 256 = 7 -> symbol img tab ent (info / 256) v -> reloc_value img tab ent P info v.
Inductive reloc_one (img : list Z) (tab ent P info : Z) : list Z -> Prop :=
  | ro_none : info mod 256 = 0 -> reloc_one img tab ent P info img
  | ro_word v img' : reloc_value img tab ent P info v -> word_set img P (v mod 4294967296) img' -> reloc_one img tab ent P info img'.
(** The k entries from the address a on, one after the other *)
Inductive reloc_table (tab ent : Z) : nat -> Z -> list Z -> list Z -> Prop :=
  | rt_nil a img : reloc_table tab ent 0 a img img
  | rt_cons k a img img1 img2 : base <= word img a -> word img a - base + 4 <= Z.of_nat (length img) ->
      reloc_one img tab ent (word img a) (word img (a + 4)) img1 -> reloc_table tab ent k (a + 8) img1 img2 -> reloc_table tab ent (S k) a img img2.
(** The dynamic section: the entries before the one with tag 0, and the value that was given last to a tag *)
Definition dyn_entries (img : list Z) (a : Z) (n : nat) : list (Z * Z) := map (fun i => (word img (a + 8 * Z.of_nat i), word img (a + 8 * Z.of_nat i + 4))) (seq 0 n).
Fixpoint until_null (es : list (Z * Z)) : list (Z * Z) :=
  match es with [] => [] | e :: es' => if fst e =? 0 then [] else e :: until_null es' end.
Definition tag_value (tag v0 : Z) (es : list (Z * Z)) : Z := fold_left (fun v e => if fst e =? tag then snd e else v) es v0.
(** The tags of DT_REL, DT_RELSZ, DT_RELENT, DT_SYMTAB and DT_SYMENT are 17, 18, 19, 6 and 11; those of
    tables with addends, 7, 8 and 9, are refused. *)
Definition relocation (phs : list Elf32_Phdr) (img0 img : list Z) : Prop :=
  match List.find (fun ph => p_type ph =? 2) phs with
  | None => img = img0
  | Some ph =>
    let es := until_null (dyn_entries img0 (p_vaddr ph) (Z.to_nat (p_memsz ph / 8))) in
    let sz := tag_value 18 0 es in
    Forall (fun e => fst e <> 7 /\ fst e <> 8 /\ fst e <> 9) es /\
    if sz =? 0 then img = img0
    else tag_value 19 8 es = 8 /\ sz mod 8 = 0 /\ reloc_table (tag_value 6 0 es) (tag_value 11 16 es) (Z.to_nat (sz / 8)) (tag_value 17 0 es) img0 img
  end.
End abi.

(** What the loop over the dynamic section collects *)
Definition dyn_of (es : list (Z * Z)) (d : dyn_info) : dyn_info := fold_left (fun d e => dyn_entry (fst e) (snd e) d) es d.
Lemma dyn_of_tags es : forall d, let d' := dyn_of es d in
  rel_vaddr d' = tag_value 17 (rel_vaddr d) es /\ rel_sz d' = tag_value 18 (rel_sz d) es /\ rel_ent d' = tag_value 19 (rel_ent d) es /\
  symtab d' = tag_value 6 (symtab d) es /\ sym_ent d' = tag_value 11 (sym_ent d) es /\
  (rela d' = false -> rela d = false /\ Forall (fun e => fst e <> 7 /\ fst e <> 8 /\ fst e <> 9) es).
Proof.
  induction es as [|[t v] es IH]; intros d; cbn zeta in *; [by split_and!|]. unfold dyn_of, tag_value in *. cbn [fold_left fst snd].
  destruct (IH (dyn_entry t v d)) as (-> & -> & -> & -> & -> & Hr). unfold dyn_entry in *. unfold DT_REL, DT_RELSZ, DT_RELENT, DT_SYMTAB, DT_SYMENT, DT_RELA, DT_RELASZ, DT_RELAENT in *.
  bdestr; cbn [rel_vaddr rel_sz rel_ent symtab sym_ent rela orb] in *; try lia; split_and!; try done; intros Hf; apply Hr in Hf as [Hf1 Hf2]; (split; [done|]); constructor; cbn; (lia || done).
Qed.
Lemma dyn_entries_S base img a n : dyn_entries base img a (S n) = (word base img a, word base img (a + 4)) :: dyn_entries base img (a + 8) n.
Proof.
  unfold dyn_entries. cbn [seq map]. rewrite Z.mul_0_r, Z.add_0_r. f_equal. rewrite <-seq_shift, map_map. apply map_ext. intros i. f_equal; f_equal; lia.
Qed.

(** ** Relocation stays inside the image *)

Lemma half_take_drop b o n j : (j + 2 <= n)%nat -> get16 (take n (drop o b)) j = get16 b (o + j).
Proof. intros Hn. unfold get16. rewrite !nth_lookup, !lookup_take_lt, !lookup_drop by lia. by rewrite Nat.add_assoc. Qed.

Section reloc.
Context (base_vaddr image_size load_bias : Z) (Hbase : is_u32 base_vaddr) (Hsize : is_u32 image_size).

Definition img_ok (img : list Z) : Prop := Forall is_u8 img /\ Z.of_nat (length img) = image_size.

Lemma wp_img_get off len (Q : list Z -> list Z -> Prop) img : img_ok img -> 0 <= off -> 0 <= len -> off + len <= image_size ->
  Q (take (Z.to_nat len) (drop (Z.to_nat off) img)) img -> wp False (img_get off len) Q img.
Proof.
  intros [Hu Hl] Ho Hn Hi HQ. unfold wp, img_get, bind, get, lift_opt. by rewrite slice_in by lia.
Qed.
Lemma wp_img_get32 off (Q : Z -> list Z -> Prop) img : img_ok img -> 0 <= off -> off + 4 <= image_size ->
  Q (get32 img (Z.to_nat off)) img -> wp False (img_get32 off) Q img.
Proof.
  intros Hi Ho Hn HQ. unfold img_get32. apply wp_bind, wp_img_get; [done|lia|lia|lia|]. apply wp_ret. by rewrite get32_take_drop, Nat.add_0_r by lia.
Qed.
Lemma wp_img_set32 a v (Q : unit -> list Z -> Prop) img : img_ok img -> base_vaddr <= a -> a - base_vaddr + 4 <= image_size -> is_u32 v ->
  (forall img', img_ok img' -> word_set base_vaddr img a v img' -> Q tt img') -> wp False (img_set32 (a - base_vaddr) v) Q img.
Proof.
  intros [Hu Hl] Ho Hn Hv HQ.
  destruct (splice_in img (a - base_vaddr) (bytes32 v)) as (img' & E & Hl' & Hat); [lia|rewrite bytes32_length; lia|].
  unfold wp, img_set32, bind, get, lift_opt. rewrite E. apply HQ; [split; [|lia]; by eapply splice_u8; [| |exact E]; [|apply bytes32_u8]|]. split_and!; [done|by eapply get32_splice|].
  intros x Hx. rewrite Hat, decide_False by (rewrite bytes32_length; lia). done.
Qed.

Lemma wp_resolve_symbol tab ent i (Q : option Z -> list Z -> Prop) img : img_ok img -> is_u32 ent ->
  (forall v, (forall x, v = Some x -> is_u32 x /\ symbol base_vaddr load_bias img tab ent i x) -> Q v img) -> wp False (resolve_symbol base_vaddr image_size load_bias tab ent i) Q img.
Proof.
  intros Hi He HQ. unfold resolve_symbol. destruct (_ || _) eqn:Hc; [by apply HQ|].
  apply orb_false_iff in Hc as [_ Hs%Z.ltb_ge].
  destruct (elf_image_ptr _ _ _ _) as [p|] eqn:Ep; [|by apply HQ].
  apply elf_image_ptr_in in Ep as (Hpe & Hp & Hin); [|done..|apply u32_range|unfold is_u32 in *; lia].
  apply wp_bind, wp_img_get; [done|lia|unfold SYM; lia|lia|]. unfold SYM in *. apply wp_if; intros H0; apply HQ; [done|]. intros x [= <-]. split; [apply u32_range|].
  assert (u32 (tab + u32 (i * ent)) = (tab + i * ent) mod 4294967296) as Ea by (unfold u32; by rewrite Z.add_mod_idemp_r by lia).
  rewrite Ea in *. unfold symbol. cbn zeta. split_and!; [lia| |].
  - apply Z.eqb_neq in H0. intros Hz. apply H0. rewrite <-Hz. rewrite <-Hpe. by rewrite half_take_drop by lia.
  - unfold u32, word. rewrite get32_take_drop by lia. do 3 f_equal. lia.
Qed.

Definition dyn_ok (d : dyn_info) : Prop :=
  is_u32 (rel_vaddr d) /\ is_u32 (rel_sz d) /\ is_u32 (rel_ent d) /\ is_u32 (symtab d) /\ is_u32 (sym_ent d).
Lemma dyn_entry_ok tag v d : dyn_ok d -> is_u32 v -> dyn_ok (dyn_entry tag v d).
Proof. intros (? & ? & ? & ? & ?) Hv. unfold dyn_entry. repeat case_match; split_and!; done. Qed.
Lemma wp_dyn_loop k a d (Q : dyn_info -> list Z -> Prop) img : img_ok img -> dyn_ok d -> base_vaddr <= a -> a - base_vaddr + DYN * Z.of_nat k <= image_size ->
  (let d' := dyn_of (until_null (dyn_entries base_vaddr img a k)) d in dyn_ok d' -> Q d' img) -> wp False (dyn_loop k (a - base_vaddr) d) Q img.
Proof.
  intros Hi. revert a d. induction k as [|k IH]; intros a d Hd Hn Hl HQ; cbn [dyn_loop]; [by apply HQ|].
  unfold DYN in *. apply wp_bind, wp_img_get; [done|lia|lia|lia|]. rewrite !get32_take_drop, Nat.add_0_r by lia. rewrite dyn_entries_S in HQ. cbn [until_null fst] in HQ. unfold DT_NULL.
  change (get32 img (Z.to_nat (a - base_vaddr))) with (word base_vaddr img a). replace (get32 img (Z.to_nat (a - base_vaddr) + 4)) with (word base_vaddr img (a + 4)) by (unfold word; f_equal; lia).
  destruct (_ =? 0); [by apply HQ|]. replace (a - base_vaddr + 8) with (a + 8 - base_vaddr) by lia. apply IH; [|lia|lia|done].
  apply dyn_entry_ok; [done|apply get32_u32, Hi].
Qed.

Lemma wp_relocate d r_offset r_info (Q : bool -> list Z -> Prop) img : img_ok img -> dyn_ok d -> is_u32 r_offset -> is_u32 r_info ->
  (forall b img', img_ok img' -> (b = true -> base_vaddr <= r_offset /\ r_offset - base_vaddr + 4 <= image_size /\ reloc_one base_vaddr load_bias img (symtab d) (sym_ent d) r_offset r_info img') -> Q b img') ->
  wp False (relocate base_vaddr image_size load_bias d r_offset r_info) Q img.
Proof.
  intros Hi (_ & _ & _ & _ & Hse) Hr Hri HQ. unfold relocate.
  destruct (elf_image_ptr _ _ _ _) as [p|] eqn:Ep; [|by apply HQ].
  apply elf_image_ptr_in in Ep as (-> & Hp & Hin); [|done..|lia]. assert (base_vaddr <= r_offset) as Hge by lia.
  assert (u8 r_info = r_info mod 256) as -> by done. assert (Z.shiftr r_info 8 = r_info / 256) as -> by (by rewrite Z.shiftr_div_pow2 by lia).
  unfold R_386_NONE, R_386_RELATIVE, R_386_32, R_386_PC32, R_386_GLOB_DAT, R_386_JMP_SLOT.
  assert (forall v img', img_ok img' -> reloc_value base_vaddr load_bias img (symtab d) (sym_ent d) r_offset r_info v -> word_set base_vaddr img r_offset (u32 v) img' -> Q true img') as Hone.
  { intros v img' Hi' Hv Hw. apply HQ; [done|]. intros _. split_and!; [done|done|]. by eapply ro_word. }
  apply wp_if; intros H0; [apply Z.eqb_eq in H0; apply HQ; [done|]; intros _; split_and!; [done|done|by apply ro_none]|].
  apply wp_if; intros H8; [apply Z.eqb_eq in H8; apply wp_bind, wp_img_get32; [done..|]; apply wp_bind, wp_img_set32; [done..|apply u32_range|]; intros img' Hi' Hw; eapply Hone; [done|by apply rv_relative|done]|].
  apply wp_if; intros H1; [apply Z.eqb_eq in H1|apply wp_if; intros H2; [apply Z.eqb_eq in H2|apply wp_if; intros H6; [apply orb_true_iff in H6|by apply HQ]]].
  all: apply wp_bind, wp_resolve_symbol; [done..|]; intros [v|] Hv; [|by apply HQ]; destruct (Hv v eq_refl) as [Hvu Hsy].
  - apply wp_bind, wp_img_get32; [done..|]. apply wp_bind, wp_img_set32; [done..|apply u32_range|]. intros img' Hi' Hw. eapply Hone; [done|by apply rv_32|done].
  - apply wp_bind, wp_img_get32; [done..|]. apply wp_bind, wp_img_set32; [done..|apply u32_range|]. intros img' Hi' Hw. eapply Hone; [done|by apply rv_pc32|].
    replace (u32 (v + word base_vaddr img r_offset - (r_offset + load_bias))) with (u32 (v + get32 img (Z.to_nat (r_offset - base_vaddr)) - u32 (load_bias + r_offset))); [done|].
    unfold u32, word. rewrite Zminus_mod_idemp_r. f_equal. lia.
  - apply wp_bind, wp_img_set32; [done..|]. intros img' Hi' Hw. eapply Hone; [done|apply rv_copy; [|exact Hsy]|by rewrite u32_small]. destruct H6 as [?%Z.eqb_eq|?%Z.eqb_eq]; lia.
Qed.
Lemma wp_rel_loop k a d (Q : bool -> list Z -> Prop) img : img_ok img -> dyn_ok d -> base_vaddr <= a -> a - base_vaddr + REL * Z.of_nat k <= image_size ->
  (forall b img', img_ok img' -> (b = true -> reloc_table base_vaddr load_bias (symtab d) (sym_ent d) k a img img') -> Q b img') -> wp False (rel_loop base_vaddr image_size load_bias k (a - base_vaddr) d) Q img.
Proof.
  intros Hi Hd. revert a img Hi Q. induction k as [|k IH]; intros a img Hi Q Hn Hl HQ; cbn [rel_loop]; [apply HQ; [done|]; intros _; apply rt_nil|].
  unfold REL in *. apply wp_bind, wp_img_get; [done|lia|lia|lia|]. rewrite !get32_take_drop, Nat.add_0_r by lia.
  change (get32 img (Z.to_nat (a - base_vaddr))) with (word base_vaddr img a). replace (get32 img (Z.to_nat (a - base_vaddr) + 4)) with (word base_vaddr img (a + 4)) by (unfold word; f_equal; lia).
  apply wp_bind, wp_relocate; [done|done|apply get32_u32, Hi|apply get32_u32, Hi|]. intros ok img' Hi' Hok.
  destruct ok; cbn [negb]; [|by apply HQ]. destruct (Hok eq_refl) as (H1 & H2 & H3). replace (a - base_vaddr + 8) with (a + 8 - base_vaddr) by lia. apply IH; [done|lia|lia|].
  intros b img2 Hi2 Hb. apply HQ; [done|]. intros ->. eapply rt_cons; [done|by rewrite (proj2 Hi)|done|by apply Hb].
Qed.
Lemma wp_apply_relocations phs img : img_ok img -> Forall phdr_ok phs ->
  wp False (apply_relocations base_vaddr image_size load_bias phs) (fun ok img' => img_ok img' /\ (ok = true -> relocation base_vaddr load_bias phs img img')) img.
Proof.
  intros Hi Hp. unfold apply_relocations, relocation. change PT_DYNAMIC with 2. destruct (List.find _ phs) as [ph|] eqn:Ef; [|by apply wp_ret].
  apply find_some in Ef as [Hin%list_elem_of_In _]. rewrite list.Forall_forall in Hp. destruct (Hp _ Hin) as [_ _ Hv _ Hm].
  unfold relocate_dynamic. destruct (elf_image_ptr _ _ (p_vaddr ph) _) as [dyn|] eqn:Ep; [|by apply wp_ret].
  apply elf_image_ptr_in in Ep as (-> & Hd & Hin'); [|done..|unfold is_u32 in *; lia].
  assert (dyn_ok no_dyn) as Hno by (split_and!; unfold is_u32, no_dyn, REL, SYM; simpl; lia).
  apply wp_bind, wp_dyn_loop; [done|done|lia|unfold DYN, is_u32 in *; word_lia|]. change DYN with 8. set (es := until_null _). cbn zeta. intros Hdok.
  destruct (dyn_of_tags es no_dyn) as (T1 & T2 & T3 & T4 & T5 & T6). cbn [rel_vaddr rel_sz rel_ent symtab sym_ent rela no_dyn] in *. unfold REL, SYM in *. pose proof Hdok as (Hrv & Hrs & _).
  rewrite T1, T2 in *. rewrite T3. destruct (rela _) eqn:Er; [by apply wp_ret|]. destruct (T6 eq_refl) as [_ Hra].
  destruct (tag_value 18 0 es =? 0) eqn:Ez; [by apply wp_ret|]. apply wp_if; intros Hc; [by apply wp_ret|].
  apply orb_false_iff in Hc as [He Hm8]. apply negb_false_iff, Z.eqb_eq in He. apply negb_false_iff, Z.eqb_eq in Hm8. rewrite He in *.
  destruct (elf_image_ptr _ _ (tag_value 17 0 es) _) as [rel|] eqn:Erp; [|by apply wp_ret].
  apply elf_image_ptr_in in Erp as (-> & Hr & Hinr); [|done..|unfold is_u32 in *; lia].
  apply wp_rel_loop; [done|done|lia|unfold REL, is_u32 in *; word_lia|]. rewrite T4, T5. intros b img' Hi' Hb. split; [done|]. intros ->. split_and!; [done|done|done|by apply Hb].
Qed.
End reloc.

(** ** The segments *)

(** A loadable segment that the checks let pass, in a file of the given size and an address range *)
Record seg_ok (size lo hi : Z) (ph : Elf32_Phdr) : Prop := {
  sg_filesz : p_filesz ph <= p_memsz ph;
  sg_offset : p_offset ph <= size;
  sg_bytes : u32 (p_offset ph + p_filesz ph) <= size;
  sg_lo : lo <= p_vaddr ph;
  sg_hi : p_vaddr ph + p_memsz ph <= hi;
}.
Lemma segment_range_ok phs size lo hi lo' hi' :
  Forall phdr_ok phs -> is_u32 lo -> is_u32 hi -> segment_range phs size lo hi = Some (lo', hi') ->
  is_u32 lo' /\ is_u32 hi' /\ lo' <= lo /\ hi <= hi' /\ (forall ph, ph ∈ phs -> loadable ph = true -> seg_ok size lo' hi' ph).
Proof.
  intros Hp. revert lo hi. induction Hp as [|ph phs [_ Hof Hva Hfs Hms] Hp IH]; intros lo hi Hlo Hhi; cbn [segment_range].
  { intros [= <- <-]. split_and!; [done..|lia|lia|]. intros ph Hin. by apply elem_of_nil in Hin. }
  destruct (loadable ph) eqn:El; cbn [negb].
  - destruct (Z.ltb_spec (p_memsz ph) (p_filesz ph)) as [|Hf]; [done|]. destruct (_ || _) eqn:Ho; [done|].
    apply orb_false_iff in Ho as [Ho1%Z.ltb_ge Ho2%Z.ltb_ge].
    destruct (Z.ltb_spec (u32 (p_vaddr ph + p_memsz ph)) (p_vaddr ph)) as [|Hw]; [done|].
    assert (u32 (p_vaddr ph + p_memsz ph) = p_vaddr ph + p_memsz ph) as Ew by (clear -Hw Hva Hms; word_lia).
    pose proof (u32_range (p_vaddr ph + p_memsz ph)) as Hr. rewrite Ew in *.
    intros (Hl' & Hh' & Hle & Hge & Hall)%IH; [|bdestr; done..].
    split_and!; [done..|bdestr; lia|bdestr; lia|]. intros ph' [->|Hin]%elem_of_cons Hl; [|by apply Hall].
    constructor; [done..|bdestr; lia|bdestr; lia].
  - intros (Hl' & Hh' & Hle & Hge & Hall)%IH; [|done..]. split_and!; [done..|].
    intros ph' [->|Hin]%elem_of_cons Hl; [congruence|by apply Hall].
Qed.

(** The byte at an address: that of the last loadable segment whose file part covers it *)
Definition segment_byte (file : list Z) (addr : Z) (b : Z) (ph : Elf32_Phdr) : Z :=
  if loadable ph && (p_vaddr ph <=? addr) && (addr <? p_vaddr ph + p_filesz ph)
  then nth (Z.to_nat (p_offset ph + (addr - p_vaddr ph))) file 0 else b.
Definition image_byte (phs : list Elf32_Phdr) (file : list Z) (addr : Z) : Z := fold_left (segment_byte file addr) phs 0.

Lemma copy_segments_ok phs file base size image :
  Forall phdr_ok phs -> Forall is_u8 file -> is_u32 base -> is_u32 size -> img_ok size image ->
  (forall ph, ph ∈ phs -> loadable ph = true -> seg_ok (Z.of_nat (length file)) base (base + size) ph /\
     p_offset ph + p_filesz ph <= Z.of_nat (length file)) ->
  exists img, copy_segments phs file base size image = Some (true, img) /\ img_ok size img /\
    forall i b, image !! i = Some b -> img !! i = Some (fold_left (segment_byte file (base + Z.of_nat i)) phs b).
Proof.
  intros Hp Hf Hb Hs. revert image. induction Hp as [|ph phs [_ Hof Hva Hfs Hms] Hp IH]; intros image Hi Hseg; cbn [copy_segments].
  { by exists image. }
  destruct (IH image Hi) as (img0 & E0 & Hi0 & Hb0); [intros; apply Hseg; [by right|done]|].
  destruct (loadable ph) eqn:El; cbn [negb]; last first.
  { exists img0. split_and!; [done..|]. intros i b Hib. cbn [fold_left]. unfold segment_byte at 2. rewrite El. by apply Hb0. }
  destruct (Hseg ph) as [[Hfm _ _ Hlo Hhi] Hend]; [by left|done|]. unfold is_u32 in *.
  rewrite (u32_small (p_vaddr ph - base)), (u32_small (p_vaddr ph - base + p_memsz ph)) by (unfold is_u32; lia).
  rewrite (proj2 (Z.ltb_ge _ _)) by lia. destruct (Z.ltb_spec 0 (p_filesz ph)) as [Hpos|Hz]; last first.
  { exists img0. split_and!; [done..|]. intros i b Hib. cbn [fold_left]. unfold segment_byte at 2.
    destruct (_ && _ && _) eqn:Hc; [|by apply Hb0]. exfalso. bdestr; [lia|rewrite ?andb_false_r in Hc; done..]. }
  rewrite slice_in by lia. destruct Hi as [Hu Hl].
  set (c := take (Z.to_nat (p_filesz ph)) (drop (Z.to_nat (p_offset ph)) file)).
  assert (length c = Z.to_nat (p_filesz ph)) as Hc by (unfold c; rewrite length_take, length_drop; lia).
  destruct (splice_in image (p_vaddr ph - base) c) as (image' & E & Hl' & Hat); [lia|lia|]. rewrite E.
  assert (Forall is_u8 image') as Hu' by (eapply splice_u8; [exact Hu| |exact E]; by apply Forall_take, Forall_drop).
  destruct (IH image') as (img & E1 & Hi1 & Hb1); [by split; [|lia]|intros; apply Hseg; [by right|done]|].
  exists img. split_and!; [done..|]. intros i b Hib. cbn [fold_left]. apply Hb1. rewrite Hat.
  unfold segment_byte. rewrite El. cbn [andb]. case_decide as Hd.
  - rewrite (proj2 (Z.leb_le _ _)), (proj2 (Z.ltb_lt _ _)) by lia. cbn [andb]. unfold c.
    rewrite lookup_take_lt, lookup_drop by lia. rewrite (lookup_nth _ _ 0) by lia. f_equal. f_equal. lia.
  - destruct (_ && _) eqn:Hx; [|done]. apply andb_true_iff in Hx as [?%Z.leb_le ?%Z.ltb_lt]. exfalso. lia.
Qed.

(** ** The loader and its environment *)

Section load.
Context {E : Type} {EE : ElfEnv E} {EO : ElfEnvOk E}.

Lemma wp_on_env {X} F (c : M E X) (Q : X -> elf -> Prop) s :
  wp F c (fun x e => Q x (Mk e (g_next_pie_base s))) (env s) -> wp F (on_env c) Q s.
Proof. unfold wp, on_env. by destruct (c (env s)) as [[x e]| |]. Qed.

(** The state s of a load that began in e0 with the base g, when the blocks L are allocated *)
Record st (e0 : E) (g : Z) (L : gset Z) (s : elf) : Prop := {
  st_ok : env_ok (env s);
  st_live : live (env s) = L;
  st_files : forall q, file_bytes (env s) q = file_bytes e0 q;
  st_pages : forall x, x < KERNEL_BASE -> pages (env s) x = pages e0 x;
  st_next : g_next_pie_base s = g;
  st_spends : spends e0 (env s);
}.
Lemma spends_trans e1 e2 e3 : spends e1 e2 -> spends e2 e3 -> spends e1 e3.
Proof. intros [Ht Hn] [Ht' Hn']. split; [auto|lia]. Qed.

Lemma wp_size e0 g L p (Q : Z -> elf -> Prop) s : st e0 g L s ->
  (forall s', st e0 g L s' -> Q (Z.of_nat (length (file_bytes e0 p))) s') -> wp False (on_env (fscmd_get_file_size p)) Q s.
Proof.
  intros [Hok Hl Hf Hp Hg Hsp] HQ. apply wp_on_env. eapply wp_mono; [by apply size_law|].
  intros n e' (-> & Hok' & Hl' & Hf' & Hp' & Hsp'). rewrite Hf. apply HQ.
  constructor; cbn; [done|congruence|intros; by rewrite Hf'|intros; rewrite Hp'; auto|done|by eapply spends_trans].
Qed.
Lemma wp_elf_kmalloc e0 g L n al (Q : Z -> elf -> Prop) s : st e0 g L s -> 0 < n <= KMALLOC_MAX ->
  (forall s', st e0 g L s' -> Q 0 s') ->
  (forall p s', st e0 g ({[p]} ∪ L) s' -> p ∉ L -> KERNEL_BASE <= p -> p + n <= 4294967296 -> (al <> 0 -> p mod PAGE_SIZE = 0) -> Q p s') ->
  wp False (on_env (kmalloc n al)) Q s.
Proof.
  intros [Hok Hl Hf Hp Hg Hsp] Hn H0 H1. apply wp_on_env. eapply wp_mono; [by apply kmalloc_law|].
  intros p e' (Hr & Hok' & Hf' & Hp' & Hsp').
  destruct Hr as [[-> Hl']|(Hk & Hend & Hfr & Hl' & Hal)]; [apply H0|apply H1; [|congruence|done..]];
    (constructor; cbn; [done|congruence|intros; by rewrite Hf'|intros; rewrite Hp' by done; auto|done|by eapply spends_trans]).
Qed.
Lemma wp_elf_kfree e0 g L p (Q : unit -> elf -> Prop) s : st e0 g L s -> p ∈ L ->
  (forall s', st e0 g (L ∖ {[p]}) s' -> (forall x, pages (env s') x = pages (env s) x) -> Q tt s') -> wp False (on_env (kfree p)) Q s.
Proof.
  intros [Hok Hl Hf Hp Hg Hsp] Hin HQ. apply wp_on_env. eapply wp_mono; [apply kfree_law; [done|by rewrite Hl]|].
  intros [] e' (Hok' & Hl' & Hf' & Hp' & Hsp'). apply HQ; [|done].
  constructor; cbn; [done|congruence|intros; by rewrite Hf'|intros; rewrite Hp'; auto|done|by eapply spends_trans].
Qed.
Lemma wp_read e0 g L p off n (Q : option (list Z) -> elf -> Prop) s :
  st e0 g L s -> 0 <= off -> 0 <= n -> off + n <= Z.of_nat (length (file_bytes e0 p)) ->
  (forall r s', st e0 g L s' -> r = None \/ r = slice (file_bytes e0 p) off n -> Q r s') ->
  wp False (on_env (fscmd_read_file_partial p off n)) Q s.
Proof.
  intros [Hok Hl Hf Hp Hg Hsp] Ho Hn Hle HQ. apply wp_on_env.
  eapply wp_mono; [apply read_law; [done..|by rewrite Hf]|]. intros r e' (Hr & Hok' & Hl' & Hf' & Hp' & Hsp'). rewrite Hf in Hr.
  apply HQ; [|done]. constructor; cbn; [done|congruence|intros; by rewrite Hf'|intros; rewrite Hp'; auto|done|by eapply spends_trans].
Qed.

Lemma wp_read_file_loop fuel e0 g L p off acc (Q : option (list Z) -> elf -> Prop) s :
  let file := file_bytes e0 p in let size := Z.of_nat (length file) in
  st e0 g L s -> 0 <= off <= size -> acc = take (Z.to_nat off) file -> size - off < Z.of_nat fuel ->
  (forall r s', st e0 g L s' -> r = None \/ r = Some file -> Q r s') ->
  wp False (read_file_loop fuel p off size acc) Q s.
Proof.
  intros file size. revert off acc s. induction fuel as [|fuel IH]; intros off acc s Hs Ho Hacc Hfu HQ; [lia|]. cbn [read_file_loop].
  destruct (Z.ltb_spec off size) as [Hlt|Hge]; cbn [negb].
  - set (n := if 1024 <? size - off then 1024 else size - off).
    assert (0 < n /\ off + n <= size) as [Hn Hon] by (unfold n; bdestr; lia).
    apply wp_bind. apply (wp_read e0 g L); [done|lia|lia|done|]. intros r s' Hs' [-> | ->]; [apply HQ; [done|by left]|].
    rewrite slice_in by (fold file; lia). apply IH; [done|lia| |lia|done].
    rewrite Hacc, take_take_drop. f_equal. lia.
  - apply HQ; [done|right]. rewrite Hacc, firstn_all2 by lia. done.
Qed.
Lemma wp_read_file_exact e0 g L p (Q : option (list Z) -> elf -> Prop) s : st e0 g L s ->
  (forall r s', st e0 g L s' -> r = None \/ r = Some (file_bytes e0 p) -> Q r s') ->
  wp False (read_file_exact p (Z.of_nat (length (file_bytes e0 p)))) Q s.
Proof. intros Hs HQ. apply (wp_read_file_loop _ e0 g L); [done|lia|done|lia|done]. Qed.

(** User page u is mapped to the frame of the kernel page v; or it is as it was in e, because it had no
    page table and the frames have run out. *)
Definition mapped_page (e e' : E) (v u : Z) : Prop :=
  exists fr fl, pages e' v = Some (fr, fl) /\
    (pages e' u = Some (fr, USER_PAGE) \/ (has_table e u = false /\ frames e' = 0 /\ pages e' u = pages e u)).
Lemma spends_none e e' : env_ok e' -> spends e e' -> frames e = 0 -> frames e' = 0.
Proof. intros Hok [_ Hn] H0. pose proof (frames_pos e' Hok). lia. Qed.
Lemma spends_table e e' u : spends e e' -> has_table e' u = false -> has_table e u = false.
Proof. intros [Ht _] Hu. destruct (has_table e u) eqn:Eu; [|done]. apply Ht in Eu. congruence. Qed.
Lemma wp_map_loop k image base off (Q : bool -> elf -> Prop) s :
  env_ok (env s) -> image mod 4096 = 0 -> base mod 4096 = 0 -> off mod 4096 = 0 -> KERNEL_BASE <= image -> 0 <= off -> 0 <= base ->
  image + off + 4096 * Z.of_nat k <= 4294967296 -> base + off + 4096 * Z.of_nat k <= KERNEL_BASE ->
  (forall b s', env_ok (env s') -> live (env s') = live (env s) -> (forall q, file_bytes (env s') q = file_bytes (env s) q) ->
     g_next_pie_base s' = g_next_pie_base s -> spends (env s) (env s') ->
     (forall x, x < base + off \/ base + off + 4096 * Z.of_nat k <= x -> pages (env s') x = pages (env s) x) ->
     (b = true -> forall i, 0 <= i < Z.of_nat k -> mapped_page (env s) (env s') (image + off + 4096 * i) (base + off + 4096 * i)) ->
     Q b s') ->
  wp False (map_loop k image base off) Q s.
Proof.
  intros Hok Hi Hb. revert off Q s Hok. induction k as [|k IH]; intros off Q s Hok Ho Hk H0 H1 Hil Hbl HQ; cbn [map_loop].
  { apply HQ; try done. intros _ i Hi'. lia. }
  unfold KERNEL_BASE, PAGE_SIZE in *. rewrite (u32_small (image + off)), (u32_small (base + off)) by (unfold is_u32; lia).
  apply wp_bind, wp_on_env. eapply wp_ok; [apply virt_law; [done|unfold PAGE_SIZE; word_lia]|].
  destruct (pages (env s) (image + off)) as [[fr fl]|] eqn:Ep; cbn; [|by apply HQ].
  apply wp_bind, wp_on_env. eapply wp_mono; [eapply map_law; [done|unfold PAGE_SIZE; word_lia|unfold KERNEL_BASE; lia|exact Ep]|].
  intros [] e1 (Hok1 & Hl1 & Hf1 & Hp1 & Hsp1 & Hm1). apply IH; cbn [env]; [done|word_lia|lia|lia|lia|lia|lia|].
  intros b s' Hok' Hl' Hf' Hg' Hsp' Hp' Hm'. cbn [env g_next_pie_base] in *. apply HQ; [done|congruence|intros; by rewrite Hf'|done|by eapply spends_trans| |].
  - intros x Hx. rewrite Hp' by lia. apply Hp1. lia.
  - intros Hbt i Hik. destruct (decide (i = 0)) as [->|Hi0].
    + rewrite Z.mul_0_r, !Z.add_0_r. exists fr, fl. rewrite !Hp' by lia. rewrite (Hp1 (image + off)) by lia. split; [done|].
      destruct Hm1 as [Hm1|(Ht & H0' & Hm1)]; [by left|right]. split_and!; [done|by eapply (spends_none (env s)), H0'; [|eapply spends_trans]|done].
    + specialize (Hm' Hbt (i - 1)). replace (image + (off + 4096) + 4096 * (i - 1)) with (image + off + 4096 * i) in Hm' by lia.
      replace (base + (off + 4096) + 4096 * (i - 1)) with (base + off + 4096 * i) in Hm' by lia.
      destruct Hm' as (fr' & fl' & Hv & Hu); [lia|]. exists fr', fl'. split; [done|]. rewrite <-(Hp1 (base + off + 4096 * i)) by lia.
      destruct Hu as [Hu|(Ht & H0' & Hu)]; [by left|right]. split_and!; [by eapply spends_table|done|done].
Qed.

(** *** Where the image goes *)

Definition next_ok (g : Z) : Prop := g mod 4096 = 0 /\ ELF_USER_VADDR_MIN <= g <= 0xC0001000.
Lemma wp_choose_pie_base e0 g L size mb (Q : Z -> elf -> Prop) s :
  st e0 g L s -> next_ok g -> is_u32 mb -> mb mod 4096 = 0 -> is_u32 size -> size mod 4096 = 0 ->
  (forall s', st e0 g L s' -> Q 0 s') ->
  (forall b s', b = Z.max g mb -> b + size <= KERNEL_BASE -> st e0 (b + size + 4096) L s' -> Q b s') ->
  wp False (choose_pie_base size mb) Q s.
Proof.
  intros Hs [Hga Hg] Hm Hma Hz Hza H0 H1. pose proof Hs as [Hok Hl Hf Hp Hn Hsp]. unfold choose_pie_base.
  apply wp_bind, wp_gets. rewrite Hn. replace (if g <? mb then mb else g) with (Z.max g mb) by (bdestr; lia).
  unfold ELF_USER_VADDR_MIN, ELF_USER_VADDR_MAX, KERNEL_BASE, is_u32 in *. rewrite align_up_page by (unfold is_u32; word_lia).
  replace ((Z.max g mb + 4095) / 4096 * 4096) with (Z.max g mb) by word_lia. rewrite (u64_small (Z.max g mb + size)) by (unfold is_u64; lia).
  apply wp_if; [intros _; by apply H0|intros [Hc _]%orb_false_iff]. apply Z.ltb_ge in Hc.
  apply wp_bind, wp_modify, wp_ret. apply H1; [done|lia|]. rewrite (u32_small (Z.max g mb + size)) by (unfold is_u32; lia).
  rewrite (u32_small (_ + PAGE_SIZE)) by (unfold is_u32, PAGE_SIZE; lia). rewrite align_up_page by (unfold is_u32, PAGE_SIZE; lia).
  constructor; cbn [env g_next_pie_base]; try done. unfold PAGE_SIZE. word_lia.
Qed.
Lemma wp_load_address e0 g L pie lo hi size (Q : option Z -> elf -> Prop) s :
  let base := lo / 4096 * 4096 in
  st e0 g L s -> next_ok g -> is_u32 lo -> lo < hi -> size = (hi - base + 4095) / 4096 * 4096 -> is_u32 size ->
  (forall s', st e0 g L s' -> Q None s') ->
  (forall b g' s', st e0 g' L s' -> next_ok g' -> b mod 4096 = 0 -> ELF_USER_VADDR_MIN <= b -> b + size <= KERNEL_BASE ->
     (if pie : bool then g <= b /\ g' = b + size + 4096 else b = base /\ g' = g) -> Q (Some b) s') ->
  wp False (load_address pie base size lo hi) Q s.
Proof.
  intros base Hs Hg Hlo Hlt Hsz Hu H0 H1. pose proof Hg as [Hga Hgr].
  assert (base mod 4096 = 0 /\ is_u32 base /\ base <= lo < base + 4096) as (Hb1 & Hb2 & Hb3) by (unfold base, is_u32 in *; word_lia).
  unfold load_address, ELF_USER_VADDR_MIN, ELF_USER_VADDR_MAX, KERNEL_BASE, is_u32 in *. destruct pie.
  - apply wp_bind. apply (wp_choose_pie_base e0 g L); [done|done|unfold is_u32; bdestr; lia|bdestr; word_lia|done|word_lia| |].
    + intros s' Hs'. by apply H0.
    + unfold KERNEL_BASE. intros b s' Hb Hbs Hs'. rewrite (proj2 (Z.eqb_neq _ _)) by (bdestr; lia). apply wp_ret.
      assert (b mod 4096 = 0) by (bdestr; word_lia).
      eapply H1; [exact Hs'| |done|bdestr; lia|done|]; [|bdestr; lia]. split; [word_lia|]. unfold ELF_USER_VADDR_MIN. bdestr; lia.
  - destruct (_ || _) eqn:Hc; [by apply H0|]. apply orb_false_iff in Hc as [?%Z.ltb_ge ?%Z.ltb_ge].
    eapply H1; [exact Hs|done|done| | |done]; [unfold base; word_lia|]. subst size. clearbody base. word_lia.
Qed.

(** *** Building and mapping the image *)

(** The segments laid out in memory, and what they become in an image loaded at load_base *)
Definition segments_image (phs : list Elf32_Phdr) (file : list Z) (base size : Z) (img : list Z) : Prop :=
  img_ok size img /\ forall i, 0 <= i < size -> img !! Z.to_nat i = Some (image_byte phs file (base + i)).
Definition final_image (phs : list Elf32_Phdr) (file : list Z) (pie : bool) (base size load_base : Z) (img : list Z) : Prop :=
  if pie then exists img0, segments_image phs file base size img0 /\
                 relocation base (u32 (load_base - base)) phs img0 img
  else segments_image phs file base size img.

(** A load failed: what was allocated before is allocated now. *)
Record failed (e0 : E) (g : Z) (L : gset Z) (s : elf) : Prop := {
  fl_ok : env_ok (env s);
  fl_live : live (env s) = L;
  fl_files : forall q, file_bytes (env s) q = file_bytes e0 q;
  fl_next : g_next_pie_base s = g;
}.
(** It succeeded with the image ld. *)
Record image_mapped (e0 : E) (g : Z) (L : gset Z) (ld : loaded) (s : elf) : Prop := {
  im_ok : env_ok (env s);
  im_live : live (env s) = {[out_image_base ld]} ∪ L;
  im_fresh : out_image_base ld ∉ L;
  im_files : forall q, file_bytes (env s) q = file_bytes e0 q;
  im_next : g_next_pie_base s = g;
  im_pages : forall i, 0 <= i < out_image_size ld / 4096 ->
    mapped_page e0 (env s) (out_image_base ld + 4096 * i) (out_load_base ld + 4096 * i);
  im_other : forall x, x < out_load_base ld \/ out_load_base ld + out_image_size ld <= x < KERNEL_BASE ->
    pages (env s) x = pages e0 x;
}.

Lemma st_failed e0 g L s : st e0 g L s -> failed e0 g L s.
Proof. by intros []. Qed.
Lemma free_one (L : gset Z) p : p ∉ L -> ({[p]} ∪ L) ∖ {[p]} = L.
Proof. set_solver. Qed.
Lemma free_second (L : gset Z) a p : p ∉ L -> a ∉ {[p]} ∪ L -> ({[a]} ∪ ({[p]} ∪ L)) ∖ {[p]} = {[a]} ∪ L.
Proof. set_solver. Qed.
Lemma fresh_sub (L : gset Z) a p : a ∉ {[p]} ∪ L -> a ∉ L.
Proof. set_solver. Qed.
(** Both buffers are released on the failures after the second allocation. *)
Lemma wp_free_both {X} e1 e0 g L a b (x : X) (Q : X -> elf -> Prop) s :
  st e1 g ({[a]} ∪ ({[b]} ∪ L)) s -> (forall q, file_bytes e1 q = file_bytes e0 q) -> a ∉ {[b]} ∪ L -> b ∉ L ->
  (forall s', failed e0 g L s' -> Q x s') -> wp False (on_env (kfree a);;; (on_env (kfree b);;; ret x)) Q s.
Proof.
  intros Hs Hf Ha Hb HQ. apply wp_bind, (wp_elf_kfree e1 g _ a _ s Hs); [set_solver|]. rewrite free_one by done. intros s1 Hs1 _.
  apply wp_bind, (wp_elf_kfree e1 g _ b _ s1 Hs1); [set_solver|]. rewrite free_one by done. intros s2 [] _.
  apply wp_ret, HQ. constructor; try done. intros q. by rewrite <-Hf.
Qed.

Lemma zero_image size : 0 <= size -> img_ok size (replicate (Z.to_nat size) 0).
Proof. intros. split; [apply Forall_replicate; unfold is_u8; lia|]. rewrite length_replicate. lia. Qed.

Lemma wp_relocate_image phs file (pie : bool) base size load_base img (Q : bool * list Z -> elf -> Prop) s :
  Forall phdr_ok phs -> is_u32 base -> is_u32 size -> segments_image phs file base size img ->
  (forall ok img', (ok = true -> final_image phs file pie base size load_base img') -> Q (ok, img') s) ->
  wp (S := @elf E) False (if pie then
              fun s => match apply_relocations base size (u32 (load_base - base)) phs img with
                       | Ok (ok, img') => Ok ((ok, img'), s)
                       | Fault => Fault
                       | NoFuel => NoFuel
                       end
            else ret (true, img)) Q s.
Proof.
  intros Hp Hb Hs Hi HQ. destruct pie; [|by apply HQ].
  destruct (wp_run _ _ _ (wp_apply_relocations base size (u32 (load_base - base)) Hb Hs phs img (proj1 Hi) Hp)) as (ok & img' & Er & _ & Hrel).
  unfold wp. rewrite Er. apply HQ. intros ->. exists img. split; [done|by apply Hrel].
Qed.

(** Every loadable segment lies inside the file and inside the image. *)
Definition segs_ok (phs : list Elf32_Phdr) (file : list Z) (base size : Z) : Prop :=
  forall ph, ph ∈ phs -> loadable ph = true -> seg_ok (Z.of_nat (length file)) base (base + size) ph /\
     p_offset ph + p_filesz ph <= Z.of_nat (length file).

Lemma wp_load_image e0 g L file_ptr file phs pie entry base size load_base (Q : option loaded -> elf -> Prop) s :
  st e0 g ({[file_ptr]} ∪ L) s -> file_ptr ∉ L -> Forall is_u8 file -> Forall phdr_ok phs -> is_u32 base ->
  0 < size <= KMALLOC_MAX -> size mod 4096 = 0 -> load_base mod 4096 = 0 -> 0 <= load_base -> load_base + size <= KERNEL_BASE ->
  segs_ok phs file base size ->
  (forall s', failed e0 g L s' -> Q None s') ->
  (forall image img s', let ld := Loaded (u32 (entry + u32 (load_base - base))) image size load_base img in
     image_mapped e0 g L ld s' -> final_image phs file pie base size load_base img -> Q (Some ld) s') ->
  wp False (load_image file_ptr file phs pie entry base size load_base) Q s.
Proof.
  intros Hs Hfp Hf Hp Hb Hz Hza Hla Hl0 Hlk Hseg H0 H1.
  assert (is_u32 size) as Hzu by (unfold is_u32, KMALLOC_MAX in *; lia).
  unfold load_image. apply wp_bind, (wp_elf_kmalloc e0 g ({[file_ptr]} ∪ L)); [done|done| |].
  { intros s1 Hs1. cbn [Z.eqb]. apply wp_bind, (wp_elf_kfree e0 g ({[file_ptr]} ∪ L)); [done|set_solver|].
    intros s2 Hs2 _. rewrite free_one in Hs2 by done. by apply wp_ret, H0, st_failed. }
  intros image s1 Hs1 Hfr Hk Hend Hal. rewrite (proj2 (Z.eqb_neq _ _)) by (unfold KERNEL_BASE in Hk; lia).
  destruct (copy_segments_ok phs file base size (replicate (Z.to_nat size) 0) Hp Hf Hb Hzu) as (img & Ec & Hok & Hat);
    [apply zero_image; lia|exact Hseg|].
  rewrite Ec. apply wp_bind, wp_lift_some. cbn [negb].
  apply wp_bind, (wp_relocate_image phs file pie base size load_base img); [done..| |].
  { split; [done|]. intros i Hi. unfold image_byte. rewrite (Hat (Z.to_nat i) 0) by (apply lookup_replicate_2; lia).
    by rewrite Z2Nat.id by lia. }
  intros ok img' Hfin. destruct ok; cbn [negb]; [|apply (wp_free_both e0 e0 g L); done].
  apply wp_bind, wp_on_env. eapply wp_mono; [apply irq_save_law, Hs1|]. intros fl e2 (Hok2 & Hl2 & Hf2 & Hp2 & Hsp2).
  destruct Hs1 as [Hok1 Hl1 Hf1 Hp1 Hg1 Hsp1].
  apply wp_bind, wp_map_loop; cbn [env g_next_pie_base]; [done|apply Hal; lia|done|done|done|lia|done| | |].
  1-2: rewrite Z2Nat.id by (unfold PAGE_SIZE; apply Z.div_pos; lia); unfold PAGE_SIZE; word_lia.
  intros b s3 Hok3 Hl3 Hf3 Hg3 Hsp3 Hp3 Hm3. apply wp_bind, wp_on_env. eapply wp_mono; [by apply irq_restore_law|].
  intros [] e4 (Hok4 & Hl4 & Hf4 & Hp4 & Hsp4). rewrite Z2Nat.id in * by (unfold PAGE_SIZE; apply Z.div_pos; lia). rewrite !Z.add_0_r in *.
  set (s4 := Mk e4 (g_next_pie_base s3)).
  assert (st e4 g ({[image]} ∪ ({[file_ptr]} ∪ L)) s4) as Hs4 by (constructor; cbn; try done; congruence).
  assert (forall q, file_bytes e4 q = file_bytes e0 q) as Hf4' by (intros q; rewrite Hf4, Hf3, Hf2; apply Hf1).
  destruct b; cbn [negb]; [|by apply (wp_free_both e4 e0 g L)].
  apply wp_bind, (wp_elf_kfree e4 g ({[image]} ∪ ({[file_ptr]} ∪ L))); [done|set_solver|].
  intros s5 [Hok5 Hl5 Hf5 Hp5' Hg5 Hsp5] Hp5. apply wp_ret, H1; [|by apply Hfin].
  cbn [env s4] in Hp5. unfold PAGE_SIZE in *. assert (4096 * (size / 4096) = size) as Hdiv by word_lia. rewrite Hdiv in *.
  constructor; cbn [out_image_base out_image_size out_load_base]; [done|by rewrite Hl5, free_second|by eapply fresh_sub|intros; by rewrite Hf5|done| |].
  - intros i Hi. destruct (Hm3 eq_refl i Hi) as (fr & fl' & Hv & Hu). exists fr, fl'. rewrite !Hp5, !Hp4. split; [done|].
    rewrite <-Hp1 by (unfold KERNEL_BASE in *; word_lia). rewrite <-Hp2. destruct Hu as [Hu|(Ht & Hn & Hu)]; [by left|right]. split_and!; [|by eapply (spends_none e4), (spends_none (env s3))|done].
    eapply (spends_table e0 e2), Ht. by eapply spends_trans.
  - intros x Hx. rewrite Hp5, Hp4, Hp3 by lia. rewrite Hp2. apply Hp1. unfold KERNEL_BASE in *. lia.
Qed.

(** *** A whole load *)

Definition header (file : list Z) : Elf32_Ehdr := ehdr_of (take 52 file).
Definition is_pie (file : list Z) : bool := e_type (header file) =? ET_DYN.
(** The program headers of a file and the address range of its loadable segments *)
Definition segments (file : list Z) (phs : list Elf32_Phdr) (lo hi : Z) : Prop :=
  read_phdrs (Z.to_nat (e_phnum (header file))) file (e_phoff (header file)) = Some phs /\
  segment_range phs (Z.of_nat (length file)) 0xFFFFFFFF 0 = Some (lo, hi).
(** Neither the file nor its image is larger than what the heap can refuse properly. *)
Definition small_program (file : list Z) : Prop :=
  Z.of_nat (length file) <= KMALLOC_MAX /\ forall phs lo hi, segments file phs lo hi -> hi - lo <= KMALLOC_MAX - 8192.

(** Where the image of a file ends up, with which entry point and which bytes *)
Record image_laid_out (file : list Z) (phs : list Elf32_Phdr) (lo hi : Z) (ld : loaded) : Prop := {
  lo_segments : segments file phs lo hi;
  lo_cover : segs_ok phs file (lo / 4096 * 4096) (out_image_size ld);
  lo_aligned : out_image_size ld mod 4096 = 0 /\ out_load_base ld mod 4096 = 0;
  lo_user : ELF_USER_VADDR_MIN <= out_load_base ld /\ out_load_base ld + out_image_size ld <= KERNEL_BASE;
  lo_base : is_pie file = false -> out_load_base ld = lo / 4096 * 4096;
  lo_entry : out_entry ld = e_entry (header file) - lo / 4096 * 4096 + out_load_base ld;
  lo_entry_in : out_load_base ld <= out_entry ld < out_load_base ld + out_image_size ld;
  lo_bytes : final_image phs file (is_pie file) (lo / 4096 * 4096) (out_image_size ld) (out_load_base ld) (image_bytes ld);
}.
(** The next base of position independent programs after a load at the base of ld *)
Definition next_base (file : list Z) (g : Z) (ld : loaded) (g' : Z) : Prop :=
  if is_pie file then g <= out_load_base ld /\ g' = out_load_base ld + out_image_size ld + 4096 else g' = g.

Lemma header_in file : EHDR <= Z.of_nat (length file) -> slice file 0 EHDR = Some (take 52 file).
Proof. intros. rewrite slice_in by lia. done. Qed.
Lemma header_u32 file : Forall is_u8 file ->
  is_u32 (e_entry (header file)) /\ is_u32 (e_phoff (header file)) /\ 0 <= e_phnum (header file) < 65536.
Proof. intros Hu%(Forall_take _ 52). split_and!; by (apply get32_u32 || apply get16_range). Qed.
Lemma image_extent file phs lo hi : small_program file -> Forall is_u8 file -> Forall phdr_ok phs -> segments file phs lo hi -> lo < hi ->
  let base := lo / 4096 * 4096 in let size := align_up (u32 (hi - base)) PAGE_SIZE in
  is_u32 lo /\ is_u32 base /\ align_down lo PAGE_SIZE = base /\ size = (hi - base + 4095) / 4096 * 4096 /\
  0 < size <= KMALLOC_MAX /\ size mod 4096 = 0 /\ hi <= base + size /\ segs_ok phs file base size.
Proof.
  intros [Hfl Hsp] Hu Hp Hseg Hlt base size. pose proof (Hsp _ _ _ Hseg) as Hspan. destruct Hseg as [Hrd Hsr].
  destruct (segment_range_ok phs _ 4294967295 0 lo hi Hp ltac:(unfold is_u32; lia) ltac:(unfold is_u32; lia) Hsr) as (Hlo & Hhi & _ & _ & Hall).
  unfold KMALLOC_MAX, is_u32 in *. assert (base mod 4096 = 0 /\ 0 <= base /\ base <= lo < base + 4096) as (Hb1 & Hb2 & Hb3) by (unfold base; word_lia).
  assert (size = (hi - base + 4095) / 4096 * 4096) as Hsz.
  { unfold size. rewrite u32_small by (unfold is_u32; lia). apply align_up_page; unfold is_u32; lia. }
  assert (align_down lo PAGE_SIZE = base) as -> by (apply align_down_page; unfold is_u32; lia).
  assert (0 < size <= 0x38000000 /\ size mod 4096 = 0 /\ hi <= base + size) as (Hz1 & Hz2 & Hz3) by (clearbody base size; word_lia).
  split_and!; try (done || lia). intros ph Hin Hl. destruct (Hall ph Hin Hl) as [H1 H2 H3 H4 H5].
  rewrite list.Forall_forall in Hp. destruct (Hp _ Hin) as [_ Ho Hv Hf Hm]. unfold is_u32 in *.
  rewrite u32_small in H3 by (unfold is_u32; lia). split; [|done]. constructor; [done|done| |lia|lia]. rewrite u32_small by (unfold is_u32; lia). done.
Qed.

Lemma wp_elf_load_image e0 g L p (Q : option loaded * bool -> elf -> Prop) s :
  let file := file_bytes e0 p in
  st e0 g L s -> env_ok e0 -> next_ok g -> small_program file ->
  (forall is_elf g' s', failed e0 g' L s' -> next_ok g' -> g <= g' -> Q (None, is_elf) s') ->
  (forall phs lo hi ld g' s', image_laid_out file phs lo hi ld -> image_mapped e0 g' L ld s' -> next_base file g ld g' -> next_ok g' ->
     Q (Some ld, true) s') ->
  wp False (elf_load_image (Some p)) Q s.
Proof.
  intros file Hs Hok0 Hg Hsmall H0 H1. destruct (file_u8 e0 p Hok0) as [Hu Hlen]. fold file in Hu, Hlen.
  cbn [elf_load_image]. apply wp_bind, (wp_size e0 g L); [done|]. intros s1 Hs1. fold file.
  apply wp_if; [intros _; eapply H0; [by apply st_failed|done|lia]|intros Hsz%Z.ltb_ge]. pose proof Hsmall as [Hfl _].
  apply wp_bind, (wp_elf_kmalloc e0 g L); [done|unfold EHDR in *; lia| |].
  { intros s2 Hs2. eapply H0; [by apply st_failed|done|lia]. }
  intros fp s2 Hs2 Hfr Hk _ _. rewrite (proj2 (Z.eqb_neq _ _)) by (unfold KERNEL_BASE in Hk; lia).
  assert (forall b s', st e0 g ({[fp]} ∪ L) s' -> wp False (on_env (kfree fp);;; ret (None, b)) Q s') as Hfail.
  { intros b s' Hs'. apply wp_bind, (wp_elf_kfree e0 g ({[fp]} ∪ L)); [done|set_solver|]. intros s3 Hs3 _.
    rewrite free_one in Hs3 by done. apply wp_ret. eapply H0; [by apply st_failed|done|lia]. }
  apply wp_bind, (wp_read_file_exact e0 g ({[fp]} ∪ L)); [done|]. fold file. intros r s3 Hs3 [-> | ->]; [by apply Hfail|].
  rewrite header_in by done. apply wp_bind, wp_lift_some. change (ehdr_of (take 52 file)) with (header file).
  destruct (header_u32 file Hu) as (Hen & Hpo & Hpn). clear s s1 s2 Hs Hs1 Hs2.
  do 3 (apply wp_if; intros ?; [by apply Hfail|]). apply wp_if; [intros _; by apply Hfail|].
  intros [Hp1%Z.ltb_ge Hp2%Z.ltb_ge]%orb_false_iff. unfold PHDR, KMALLOC_MAX, is_u32 in *.
  rewrite (u32_small (_ * 32)) in Hp2 by (unfold is_u32; lia). rewrite u32_small in Hp2 by (unfold is_u32; lia).
  destruct (read_phdrs_ok (Z.to_nat (e_phnum (header file))) file (e_phoff (header file)) Hu) as (phs & Er & Hphs); [lia|unfold PHDR; lia|].
  rewrite Er. apply wp_bind, wp_lift_some. destruct (segment_range _ _ _ _) as [[lo hi]|] eqn:Esr; [|by apply Hfail].
  apply wp_if; [intros _; by apply Hfail|intros _]. apply wp_if; [intros _; by apply Hfail|].
  intros [He1%Z.ltb_ge He2%Z.leb_gt]%orb_false_iff.
  destruct (image_extent file phs lo hi Hsmall Hu Hphs (conj Er Esr)) as (Hlo & Hb & Ead & Esz & Hz & Hza & Hhi & Hsegs); [lia|].
  rewrite Ead. set (base := lo / 4096 * 4096) in *. set (size := align_up _ _) in *. clearbody size.
  rewrite (proj2 (Z.eqb_neq _ _)) by lia.
  apply wp_bind, (wp_load_address e0 g ({[fp]} ∪ L) _ lo hi size); [done|done|done|lia|done|unfold KMALLOC_MAX, is_u32 in *; lia| |].
  { intros s4 Hs4. by apply Hfail. }
  fold base. intros lb g' s4 Hs4 Hg' Hla Hlu Hlk Hnext. apply wp_bind.
  apply (wp_load_image e0 g' L); [done|done|done|done|done|done|done|done|unfold ELF_USER_VADDR_MIN in *; lia|done|done| |].
  { intros s5 Hs5. apply wp_ret. eapply H0; [done|done|]. destruct (_ =? ET_DYN) in Hnext; lia. }
  intros image img s5 ld Hm Hfin. subst ld. apply wp_ret. eapply H1; [|exact Hm| |done].
  - assert (base <= lo) as Hbl by (unfold base; word_lia). assert (u32 (e_entry (header file) + u32 (lb - base)) = e_entry (header file) - base + lb) as Ee.
    { unfold KERNEL_BASE, ELF_USER_VADDR_MIN in *. clearbody base. clear -Hlu Hlk Hhi He1 He2 Hen Hbl Hb. unfold is_u32 in *. word_lia. }
    constructor; cbn [out_entry out_image_size out_load_base image_bytes]; [done|done|done|done| |done| |done].
    + unfold is_pie. destruct (_ =? ET_DYN); [done|]. by destruct Hnext.
    + rewrite Ee. lia.
  - unfold next_base, is_pie. cbn [out_load_base out_image_size]. destruct (_ =? ET_DYN); [done|]. by destruct Hnext.
Qed.
End load.
End ElfSafe.
