(* ===== verification/ElfClaims.v ===== *)
(** * The claims about the ELF loader

    What a load leaves behind, where it puts the image, that position independent images never
    overlap, and that relative relocations add the load bias to the words they name and to
    nothing else. *)
From S2P Require Import Prelude Elf ElfSafe.

Module ElfClaims.
Import Elf ElfEnv ElfSafe.

(** ** Relative relocations *)

Section relative.
Context (base_vaddr image_size load_bias : Z) (Hbase : is_u32 base_vaddr) (Hsize : is_u32 image_size).

Lemma relocate_relative d r_offset r_info t img :
  img_ok image_size img -> is_u32 r_offset -> u8 r_info = R_386_RELATIVE ->
  elf_image_ptr base_vaddr image_size r_offset 4 = Some t ->
  exists img', relocate base_vaddr image_size load_bias d r_offset r_info img = Ok (true, img') /\ img_ok image_size img' /\
    get32 img' (Z.to_nat t) = u32 (get32 img (Z.to_nat t) + load_bias) /\
    forall x, (x < Z.to_nat t \/ Z.to_nat t + 4 <= x)%nat -> img' !! x = img !! x.
Proof.
  intros [Hu Hl] Hr Hty Ht. pose proof Ht as (_ & Ht0 & Ht4)%elf_image_ptr_in; [|done..|lia].
  unfold relocate. rewrite Ht, Hty. change (R_386_RELATIVE =? R_386_NONE) with false. change (R_386_RELATIVE =? R_386_RELATIVE) with true.
  cbn match. unfold img_get32, img_get, img_set32, bind, get, lift_opt, modify, ret. rewrite slice_in by lia.
  change (Z.to_nat 4) with 4%nat. rewrite (get32_take_drop _ _ 4 0), Nat.add_0_r by lia.
  set (v := u32 (get32 img (Z.to_nat t) + load_bias)).
  destruct (splice_in img t (bytes32 v)) as (img' & Es & Hl' & Hat); [done|rewrite bytes32_length; lia|].
  exists img'. rewrite Es. split_and!; [done| | |].
  - split; [by eapply splice_u8, Es; [|apply bytes32_u8]|lia].
  - by eapply get32_splice, Es; apply u32_range.
  - intros x Hx. rewrite Hat, decide_False by (rewrite bytes32_length; lia). done.
Qed.

(** The k entries of the table at offset rel are relative relocations of the words at the offsets
    [t i], which overlap neither each other nor the table. *)
Record rel_table (k : nat) (rel : Z) (t : nat -> Z) (img : list Z) : Prop := {
  rt_in : 0 <= rel /\ rel + REL * Z.of_nat k <= image_size;
  rt_type : forall i, (i < k)%nat -> u8 (get32 img (Z.to_nat rel + 8 * i + 4)) = R_386_RELATIVE;
  rt_target : forall i, (i < k)%nat -> elf_image_ptr base_vaddr image_size (get32 img (Z.to_nat rel + 8 * i)) 4 = Some (t i);
  rt_outside : forall i, (i < k)%nat -> t i + 4 <= rel \/ rel + REL * Z.of_nat k <= t i;
  rt_disjoint : forall i j, (i < j < k)%nat -> t i + 4 <= t j \/ t j + 4 <= t i;
}.
Lemma rel_table_target k rel t img i : img_ok image_size img -> rel_table k rel t img -> (i < k)%nat -> 0 <= t i /\ t i + 4 <= image_size.
Proof.
  intros [Hu _] [_ _ Ht _ _] Hi. apply Ht in Hi as (_ & ? & ?)%elf_image_ptr_in; [done..|by apply get32_u32|lia].
Qed.
(** Relocating the first word leaves the rest of the table as it was. *)
Lemma rel_table_tail k rel t img img' : img_ok image_size img -> rel_table (S k) rel t img ->
  (forall x, (x < Z.to_nat (t O) \/ Z.to_nat (t O) + 4 <= x)%nat -> img' !! x = img !! x) ->
  rel_table k (rel + REL) (fun i => t (S i)) img'.
Proof.
  intros Hok Ht Hx. pose proof (rel_table_target _ _ _ _ 0 Hok Ht ltac:(lia)) as [H0 _]. destruct Ht as [Hin Hty Htg Hout Hdj].
  unfold REL in *. pose proof (Hout O ltac:(lia)) as Hout0. constructor.
  - unfold REL. lia.
  - intros i Hi. rewrite <-(Hty (S i)) by lia. f_equal.
    rewrite (get32_ext img' img) by (intros; apply Hx; lia). f_equal. lia.
  - intros i Hi. rewrite <-(Htg (S i)) by lia. f_equal.
    rewrite (get32_ext img' img) by (intros; apply Hx; lia). f_equal. lia.
  - intros i Hi. specialize (Hout (S i)). unfold REL. lia.
  - intros i j Hij. specialize (Hdj (S i) (S j)). lia.
Qed.

Lemma rel_loop_relative k rel d t img : img_ok image_size img -> rel_table k rel t img ->
  exists img', rel_loop base_vaddr image_size load_bias k rel d img = Ok (true, img') /\ length img' = length img /\
    (forall i, (i < k)%nat -> get32 img' (Z.to_nat (t i)) = u32 (get32 img (Z.to_nat (t i)) + load_bias)) /\
    (forall x, (forall i, (i < k)%nat -> Z.of_nat x < t i \/ t i + 4 <= Z.of_nat x) -> img' !! x = img !! x).
Proof.
  revert rel t img. induction k as [|k IH]; intros rel t img Hok Ht; cbn [rel_loop].
  { exists img. split_and!; [done..|intros; lia|done]. }
  pose proof (rt_in _ _ _ _ Ht) as [Hr0 Hr1]. pose proof (rt_type _ _ _ _ Ht 0 ltac:(lia)) as Hty.
  pose proof (rt_target _ _ _ _ Ht 0 ltac:(lia)) as Htg. rewrite Nat.mul_0_r, Nat.add_0_r in Hty, Htg.
  destruct (relocate_relative d _ _ _ _ Hok (get32_u32 _ _ (proj1 Hok)) Hty Htg) as (img1 & E1 & Hok1 & Hw1 & Hx1).
  destruct (IH _ _ _ Hok1 (rel_table_tail _ _ _ _ _ Hok Ht Hx1)) as (img' & E' & Hl' & Hw' & Hx').
  exists img'. pose proof Hok as [Hu Hl]. unfold REL in *.
  unfold img_get, bind, get, lift_opt. rewrite slice_in by lia. change (Z.to_nat 8) with 8%nat.
  rewrite !get32_take_drop, Nat.add_0_r by lia. rewrite E1. cbn [negb]. split_and!; [done| | |].
  - destruct Hok1. lia.
  - pose proof (rel_table_target _ _ _ _ 0 Hok Ht ltac:(lia)) as Ht0.
    intros [|i] Hi; (pose proof (rel_table_target _ _ _ _ _ Hok Ht Hi) as Hti).
    + rewrite <-Hw1. apply get32_ext. intros x Hx. apply Hx'. intros j Hj. pose proof (rt_disjoint _ _ _ _ Ht 0 (S j)). lia.
    + rewrite Hw' by lia. f_equal. f_equal. apply get32_ext. intros x Hx. apply Hx1.
      pose proof (rt_disjoint _ _ _ _ Ht 0 (S i)). lia.
  - intros x Hx. rewrite Hx' by (intros i Hi; apply (Hx (S i)); lia). apply Hx1.
    pose proof (rel_table_target _ _ _ _ 0 Hok Ht ltac:(lia)). specialize (Hx O). lia.
Qed.
End relative.

(** relative relocations: when the dynamic section names a table of R_386_RELATIVE entries
    whose words overlap neither each other nor the table, apply_relocations succeeds, adds the
    load bias to each of those words and changes no other byte of the image. *)
Theorem apply_relocations_relative base size bias phs ph dyn d rel k t img :
  is_u32 base -> is_u32 size -> img_ok size img ->
  List.find (fun ph => p_type ph =? PT_DYNAMIC) phs = Some ph ->
  elf_image_ptr base size (p_vaddr ph) (p_memsz ph) = Some dyn ->
  dyn_loop (Z.to_nat (p_memsz ph / DYN)) dyn no_dyn img = Ok (d, img) ->
  rela d = false -> rel_ent d = REL -> rel_sz d = REL * Z.of_nat k ->
  elf_image_ptr base size (rel_vaddr d) (rel_sz d) = Some rel ->
  rel_table base size k rel t img ->
  exists img', apply_relocations base size bias phs img = Ok (true, img') /\ length img' = length img /\
    (forall i, (i < k)%nat -> get32 img' (Z.to_nat (t i)) = u32 (get32 img (Z.to_nat (t i)) + bias)) /\
    (forall x, (forall i, (i < k)%nat -> Z.of_nat x < t i \/ t i + 4 <= Z.of_nat x) -> img' !! x = img !! x).
Proof.
  intros Hb Hs Hok Hph Hdyn Hd Hra Hre Hrs Hrel Ht.
  destruct (rel_loop_relative base size bias Hb Hs k rel d t img Hok Ht) as (img' & E & Hl & Hw & Hx).
  unfold apply_relocations, relocate_dynamic. rewrite Hph, Hdyn. unfold bind. rewrite Hd, Hra, Hre.
  destruct (Z.eqb_spec (rel_sz d) 0) as [H0|H0].
  - assert (k = O) as -> by (unfold REL in *; lia). exists img. split_and!; [done..|intros; lia|done].
  - replace (rel_sz d mod REL =? 0) with true by (rewrite Hrs, Z.mul_comm, Z.mod_mul; done). cbn [negb orb Z.eqb REL Pos.eqb].
    rewrite Hrel, Hrs, Z.mul_comm, Z.div_mul, Nat2Z.id by done. by exists img'.
Qed.

(** ** Loading *)

Section load.
Context {E : Type} {EE : ElfEnv E} {EO : ElfEnvOk E}.

(** The states in which programs are loaded, and one more load *)
Definition loader_ok (s : elf) : Prop := env_ok (env s) /\ next_ok (g_next_pie_base s).
Definition load_step (s s' : elf) : Prop :=
  exists p r, small_program (file_bytes (env s) p) /\ elf_load_image (Some p) s = Ok (r, s').

Lemma st_start s : loader_ok s -> st (env s) (g_next_pie_base s) (live (env s)) s.
Proof. intros [Hok _]. by constructor. Qed.
(** One load, as a step of the loader *)
Lemma load_step_ok s s' : loader_ok s -> load_step s s' -> loader_ok s' /\ g_next_pie_base s <= g_next_pie_base s'.
Proof.
  intros Hok (p & r & Hsm & Hr).
  refine (wp_inv False _ (fun _ s' => loader_ok s' /\ g_next_pie_base s <= g_next_pie_base s') s r s' _ Hr).
  apply (wp_elf_load_image _ _ _ p _ s (st_start s Hok)); [apply Hok|apply Hok|done| |].
  - intros b g' s1 [Hok1 _ _ Hg1] Hg' Hle. rewrite <-Hg1 in *. done.
  - intros phs lo hi ld g' s1 Hlay [Hok1 _ _ _ Hg1 _ _] Hnb Hg'. unfold next_base in Hnb. subst g'. split; [done|].
    destruct Hlay as [_ _ _ _ _ _ H5 _]. destruct (is_pie _); lia.
Qed.
Lemma load_steps_ok s s' : loader_ok s -> rtc load_step s s' -> loader_ok s' /\ g_next_pie_base s <= g_next_pie_base s'.
Proof.
  intros Hok Hr. revert Hok. induction Hr as [s|s s1 s' H1 _ IH]; intros Hok; [done|].
  destruct (load_step_ok s s1 Hok H1) as [Hok1 Hle]. destruct (IH Hok1) as [? ?]. split; [done|lia].
Qed.
(** What a load that succeeds says about the program, the state and the base *)
Definition load_outcome (s : elf) (p : list Z) (ld : loaded) (s' : elf) : Prop :=
  exists phs lo hi, image_laid_out (file_bytes (env s) p) phs lo hi ld /\
    image_mapped (env s) (g_next_pie_base s') (live (env s)) ld s' /\
    next_base (file_bytes (env s) p) (g_next_pie_base s) ld (g_next_pie_base s').
Lemma elf_loaded s p ld b s' : loader_ok s -> small_program (file_bytes (env s) p) ->
  elf_load_image (Some p) s = Ok ((Some ld, b), s') -> load_outcome s p ld s'.
Proof.
  intros Hok Hsm Hr.
  refine (wp_inv False _ (fun r s' => forall ld, fst r = Some ld -> load_outcome s p ld s') s _ s' _ Hr ld eq_refl).
  apply (wp_elf_load_image _ _ _ p _ s (st_start s Hok)); [apply Hok|apply Hok|done|by intros|].
  intros phs lo hi ld1 g' s1 Hlay Hm Hnb _ ld2 [= <-]. pose proof (im_next _ _ _ _ _ Hm) as <-. by exists phs, lo, hi.
Qed.

(** C18: loading a program is safe for every content of the file whose size, and the extent of
    whose segments, the heap can serve or refuse: the loader returns, reads and writes only
    inside its two buffers, leaves the files alone, and gives back everything it allocated when
    it fails; when it succeeds exactly the image is left allocated. *)
Theorem elf_load_image_safe (s : elf) p :
  loader_ok s -> small_program (file_bytes (env s) p) ->
  exists r is_elf s', elf_load_image (Some p) s = Ok ((r, is_elf), s') /\ loader_ok s' /\
    (forall q, file_bytes (env s') q = file_bytes (env s) q) /\
    match r with
    | None => live (env s') = live (env s)
    | Some ld => out_image_base ld ∉ live (env s) /\ live (env s') = {[out_image_base ld]} ∪ live (env s)
    end.
Proof.
  intros Hok Hsm.
  assert (wp False (elf_load_image (Some p)) (fun r s' => loader_ok s' /\ (forall q, file_bytes (env s') q = file_bytes (env s) q) /\
    match fst r with None => live (env s') = live (env s)
    | Some ld => out_image_base ld ∉ live (env s) /\ live (env s') = {[out_image_base ld]} ∪ live (env s) end) s) as Hw.
  { apply (wp_elf_load_image _ _ _ p _ s (st_start s Hok)); [apply Hok|apply Hok|done| |].
    - intros b g' s1 [Hok1 Hl Hf <-] Hg' _. done.
    - intros phs lo hi ld g' s1 _ [Hok1 Hl Hfr Hf <- _ _] _ Hg'. done. }
  destruct (wp_run _ _ _ Hw) as ([r b] & s' & Hr & Ho & Hf & Hm). by exists r, b, s'.
Qed.

(** C19: a program that was loaded lies page aligned in the user half of the address space, every
    loadable segment inside its image, its entry point inside it too; a program of fixed address
    is at its own addresses and consists of the bytes of its segments, zero elsewhere, and a
    position independent one is such an image after the relocations of its dynamic section, as the
    i386 ABI defines them; each page of the image is mapped for the user at the frame of the buffer,
    unless it had no page table before and no frame is left for one, in which case it is unchanged;
    and no other user page changes. *)
Theorem elf_load_image_lays_out (s : elf) p ld is_elf s' :
  loader_ok s -> small_program (file_bytes (env s) p) -> elf_load_image (Some p) s = Ok ((Some ld, is_elf), s') ->
  exists phs lo hi, image_laid_out (file_bytes (env s) p) phs lo hi ld /\
    (forall i, 0 <= i < out_image_size ld / 4096 ->
       mapped_page (env s) (env s') (out_image_base ld + 4096 * i) (out_load_base ld + 4096 * i)) /\
    (forall x, x < out_load_base ld \/ out_load_base ld + out_image_size ld <= x < KERNEL_BASE -> pages (env s') x = pages (env s) x).
Proof.
  intros Hok Hsm Hr. destruct (elf_loaded s p ld is_elf s' Hok Hsm Hr) as (phs & lo & hi & Hlay & [_ _ _ _ _ Hp Ho] & _).
  by exists phs, lo, hi.
Qed.

(** C20: position independent programs never share an address: whatever is loaded between them,
    the image of a later one begins more than a page above the end of an earlier one. *)
Theorem elf_pie_images_disjoint (s1 s2 s3 s4 : elf) p q ld1 ld2 b1 b2 :
  loader_ok s1 -> small_program (file_bytes (env s1) p) -> small_program (file_bytes (env s3) q) ->
  is_pie (file_bytes (env s1) p) = true -> is_pie (file_bytes (env s3) q) = true ->
  elf_load_image (Some p) s1 = Ok ((Some ld1, b1), s2) -> rtc load_step s2 s3 ->
  elf_load_image (Some q) s3 = Ok ((Some ld2, b2), s4) ->
  out_load_base ld1 + out_image_size ld1 + 4096 <= out_load_base ld2.
Proof.
  intros Hok Hp Hq Hpie Hqie Hr1 Hsteps Hr2.
  destruct (load_step_ok s1 s2 Hok) as [Hok2 _]; [by exists p, (Some ld1, b1)|].
  destruct (load_steps_ok s2 s3 Hok2 Hsteps) as [Hok3 Hle].
  destruct (elf_loaded s1 p ld1 b1 s2 Hok Hp Hr1) as (_ & _ & _ & _ & _ & Hn1).
  destruct (elf_loaded s3 q ld2 b2 s4 Hok3 Hq Hr2) as (_ & _ & _ & _ & _ & Hn2).
  unfold next_base in Hn1, Hn2. rewrite Hpie in Hn1. rewrite Hqie in Hn2. lia.
Qed.
End load.

(** ** Concrete programs *)

Definition half (w : Z) : list Z := [u8 w; u8 (Z.shiftr w 8)].
Definition elf_header (type entry phnum : Z) : list Z :=
  [0x7F; 69; 76; 70; 1; 1; 1; 0; 0; 0; 0; 0; 0; 0; 0; 0] ++ half type ++ half 3 ++ bytes32 1 ++ bytes32 entry ++ bytes32 52 ++
  bytes32 0 ++ bytes32 0 ++ half 52 ++ half 32 ++ half phnum ++ half 0 ++ half 0 ++ half 0.
Definition program_header (type off vaddr filesz memsz : Z) : list Z :=
  bytes32 type ++ bytes32 off ++ bytes32 vaddr ++ bytes32 vaddr ++ bytes32 filesz ++ bytes32 memsz ++ bytes32 7 ++ bytes32 4096.
(** A program of fixed address: 16 bytes of code and 5000 bytes of memory at 0x08048000 *)
Definition exe : list Z := elf_header 2 0x08048004 1 ++ program_header 1 84 0x08048000 16 5000 ++ replicate 16 0x90.
(** A position independent one: a dynamic section, two relative relocations and their words *)
Definition pie : list Z :=
  elf_header 3 48 2 ++ program_header 1 116 0 56 56 ++ program_header 2 116 0 32 32 ++
  (bytes32 17 ++ bytes32 32 ++ bytes32 18 ++ bytes32 16 ++ bytes32 19 ++ bytes32 8 ++ bytes32 0 ++ bytes32 0) ++
  (bytes32 48 ++ bytes32 8 ++ bytes32 52 ++ bytes32 8) ++ bytes32 0x10 ++ bytes32 0x20.
Definition loader0 : @elf sim := Mk (Sim {[ [97] := exe; [98] := pie ]} 0xC1000000 ∅ ∅ true) 0x08000000.
Lemma loader0_ok : loader_ok loader0.
Proof.
  split; [|by vm_compute]. constructor; [|by vm_compute|done|by intros p ?%elem_of_empty].
  intros p l. cbn [loader0 env sim_files]. intros [[_ <-]|[_ [_ <-]%lookup_singleton_Some]]%lookup_insert_Some.
  all: split; [apply u8_list; vm_compute; reflexivity|by vm_compute].
Qed.
Ltac small := split; [by vm_compute|]; intros phs lo hi [Hr Hs]; vm_compute in Hr; injection Hr as <-;
  vm_compute in Hs; injection Hs as <- <-; by vm_compute.
Lemma exe_small : small_program exe.
Proof. small. Qed.
Lemma pie_small : small_program pie.
Proof. small. Qed.

Definition no_image : loaded := Loaded 0 0 0 0 [].
Definition image_of {S} (r : res (option loaded * bool * S)) : loaded :=
  match r with Ok (Some ld, _, _) => ld | _ => no_image end.
Definition load (p : list Z) (s : @elf sim) := elf_load_image (Some p) s.
Definition loader1 : @elf sim := final (load [97] loader0) loader0.
Definition loader2 : @elf sim := final (load [98] loader1) loader1.
Definition loader3 : @elf sim := final (load [98] loader2) loader2.
Lemma load_exe : load [97] loader0 = Ok ((Some (image_of (load [97] loader0)), true), loader1).
Proof. vm_compute. reflexivity. Qed.
Lemma load_pie1 : load [98] loader1 = Ok ((Some (image_of (load [98] loader1)), true), loader2).
Proof. vm_compute. reflexivity. Qed.
Lemma load_pie2 : load [98] loader2 = Ok ((Some (image_of (load [98] loader2)), true), loader3).
Proof. vm_compute. reflexivity. Qed.

(** The program is at its address, its code at the beginning of the image. *)
Example exe_loaded : (out_entry (image_of (load [97] loader0)), out_load_base (image_of (load [97] loader0)),
  out_image_size (image_of (load [97] loader0)), take 17 (image_bytes (image_of (load [97] loader0)))) =
  (0x08048004, 0x08048000, 8192, replicate 16 0x90 ++ [0]).
Proof. vm_compute. reflexivity. Qed.
(** The second copy of the position independent program is two pages above the first. *)
Example pie_loaded : (out_load_base (image_of (load [98] loader1)), out_load_base (image_of (load [98] loader2)),
  get32 (image_bytes (image_of (load [98] loader2))) 52) = (0x08000000, 0x08002000, 0x08002020).
Proof. vm_compute. reflexivity. Qed.

(** When the frame of a later page is not found, the pages before it stay mapped for the user. *)
Example failed_map_leaves_pages :
  exists s', map_loop 2 0xC1000000 0x08000000 0 (Mk (Sim ∅ 0xC1000000 ∅ {[ 0xC1000000 := (0x5000, 3) ]} true) 0x08000000) = Ok (false, s') /\
    sim_pages (env s') !! 0x08000000 = Some (0x5000, 7).
Proof. eexists. split; vm_compute; reflexivity. Qed.

Lemma elf_load_image_safe_witness :
  exists r is_elf s', elf_load_image (Some [97]) loader0 = Ok ((r, is_elf), s') /\ loader_ok s'.
Proof.
  destruct (elf_load_image_safe loader0 [97] loader0_ok exe_small) as (r & b & s' & H1 & H2 & _).
  exists r, b, s'. exact (conj H1 H2).
Defined.
Lemma elf_load_image_lays_out_witness :
  (exists phs lo hi, image_laid_out exe phs lo hi (image_of (load [97] loader0))) /\
  exists fr fl, pages (env loader1) 0xC1001000 = Some (fr, fl) /\ pages (env loader1) 0x08048000 = Some (fr, USER_PAGE).
Proof.
  destruct (elf_load_image_lays_out loader0 [97] _ _ _ loader0_ok exe_small load_exe) as (phs & lo & hi & H1 & H2 & _).
  split; [exists phs, lo, hi; exact H1|]. destruct (H2 0) as (fr & fl & H3 & [H4|(_ & H4 & _)]); [vm_compute; split; congruence| |discriminate H4].
  exists fr, fl. split; [exact H3|exact H4].
Defined.
Lemma elf_pie_images_disjoint_witness :
  out_load_base (image_of (load [98] loader1)) + out_image_size (image_of (load [98] loader1)) + 4096 <=
  out_load_base (image_of (load [98] loader2)).
Proof.
  apply (elf_pie_images_disjoint loader1 loader2 loader2 loader3 [98] [98] _ _ true true).
  - apply (load_step_ok loader0 loader1 loader0_ok). exists [97], (Some (image_of (load [97] loader0)), true).
    split; [exact exe_small|exact load_exe].
  - exact pie_small.
  - exact pie_small.
  - vm_compute. reflexivity.
  - vm_compute. reflexivity.
  - exact load_pie1.
  - apply rtc_refl.
  - exact load_pie2.
Defined.

(** The image of the position independent program before it is relocated *)
Definition pie_image : list Z := drop 116 pie.
Definition pie_targets (i : nat) : Z := 48 + 4 * Z.of_nat i.
Definition pie_dyn : dyn_info := {| rel_vaddr := 32; rel_sz := 16; rel_ent := 8; symtab := 0; sym_ent := 16; rela := false |}.
Lemma pie_rel_table : rel_table 0 56 2 32 pie_targets pie_image.
Proof.
  constructor; unfold pie_targets, REL.
  - lia.
  - intros [|[|i]] Hi; [vm_compute; reflexivity..|lia].
  - intros [|[|i]] Hi; [vm_compute; reflexivity..|lia].
  - lia.
  - lia.
Qed.
Lemma apply_relocations_relative_witness :
  exists img', apply_relocations 0 56 0x08000000 [phdr_of (program_header 2 116 0 32 32)] pie_image = Ok (true, img') /\
    get32 img' 48 = 0x08000010 /\ get32 img' 52 = 0x08000020.
Proof.
  destruct (apply_relocations_relative 0 56 0x08000000 [phdr_of (program_header 2 116 0 32 32)] (phdr_of (program_header 2 116 0 32 32))
    0 pie_dyn 32 2 pie_targets pie_image) as (img' & H1 & _ & H2 & _).
  - by vm_compute.
  - by vm_compute.
  - split; [apply u8_list; vm_compute; reflexivity|by vm_compute].
  - vm_compute. reflexivity.
  - vm_compute. reflexivity.
  - vm_compute. reflexivity.
  - reflexivity.
  - reflexivity.
  - reflexivity.
  - vm_compute. reflexivity.
  - exact pie_rel_table.
  - exists img'. split; [exact H1|]. split; [exact (H2 0%nat ltac:(lia))|exact (H2 1%nat ltac:(lia))].
Defined.
End ElfClaims.
