(* ===== verification/Fat16Name.v ===== *)
(** * FAT16: structures and names (fs/fat16.h, fs/fat16.c)

    The boot parameter block, directory entries and long-name entries as they lie in a sector,
    the 8.3 form of a name and the long-name entries that carry a name in pieces of thirteen
    characters.  A C string is the list of its characters without the NUL; [cstr] is the string
    that an array holds. *)
From S2P Require Import Prelude.
From S2P Require Libc.

Module Fat16Name.
Import Libc.

Definition SECTOR_SIZE : Z := 512.
Definition FAT_ENTRY_SIZE : Z := 2.
Definition CLUSTER_EOF : Z := 0xFFF8.
Definition FAT16_LFN_ATTR : Z := 0x0F.
Definition FAT16_LFN_MAX : nat := 255.
Definition FAT16_LFN_CHARS_PER_ENTRY : nat := 13.
Definition FAT16_LFN_MAX_ENTRIES : nat := 20.
Definition SLASH : Z := 47.
Definition DOT : Z := 46.
Definition SPACE : Z := 32.
Definition DELETED : Z := 0xE5.

Definition bytes16 (w : Z) : list Z := [u8 w; u8 (Z.shiftr w 8)].
Definition zeros (n : nat) : list Z := replicate n 0.

(** ** Structures *)

Record FAT16_BPB_t := {
  jmpBoot : list Z; OEMName : list Z; BytsPerSec : Z; SecPerClus : Z; RsvdSecCnt : Z; NumFATs : Z; RootEntCnt : Z;
  TotSec16 : Z; Media : Z; FATSz16 : Z; SecPerTrk : Z; NumHeads : Z; HiddSec : Z; TotSec32 : Z;
  DrvNum : Z; Reserved1 : Z; BootSig : Z; VolID : Z; VolLab : list Z; FilSysType : list Z;
}.
Definition bpb_of (b : list Z) : FAT16_BPB_t :=
  {| jmpBoot := take 3 b; OEMName := take 8 (drop 3 b); BytsPerSec := get16 b 11; SecPerClus := nth 13 b 0;
     RsvdSecCnt := get16 b 14; NumFATs := nth 16 b 0; RootEntCnt := get16 b 17; TotSec16 := get16 b 19; Media := nth 21 b 0;
     FATSz16 := get16 b 22; SecPerTrk := get16 b 24; NumHeads := get16 b 26; HiddSec := get32 b 28; TotSec32 := get32 b 32;
     DrvNum := nth 36 b 0; Reserved1 := nth 37 b 0; BootSig := nth 38 b 0; VolID := get32 b 39;
     VolLab := take 11 (drop 43 b); FilSysType := take 8 (drop 54 b) |}.
Definition bpb_bytes (p : FAT16_BPB_t) : list Z :=
  jmpBoot p ++ OEMName p ++ bytes16 (BytsPerSec p) ++ [SecPerClus p] ++ bytes16 (RsvdSecCnt p) ++ [NumFATs p] ++
  bytes16 (RootEntCnt p) ++ bytes16 (TotSec16 p) ++ [Media p] ++ bytes16 (FATSz16 p) ++ bytes16 (SecPerTrk p) ++
  bytes16 (NumHeads p) ++ bytes32 (HiddSec p) ++ bytes32 (TotSec32 p) ++ [DrvNum p; Reserved1 p; BootSig p] ++
  bytes32 (VolID p) ++ VolLab p ++ FilSysType p.

(** A directory entry; de_mid are the fourteen bytes from NTRes to WrtDate, which the code only
    copies. *)
Record FAT16_DirEntry := { Name : list Z; Ext : list Z; Attr : Z; de_mid : list Z; FirstCluster : Z; FileSize : Z }.
Definition entry_of (b : list Z) : FAT16_DirEntry :=
  {| Name := take 8 b; Ext := take 3 (drop 8 b); Attr := nth 11 b 0; de_mid := take 14 (drop 12 b);
     FirstCluster := get16 b 26; FileSize := get32 b 28 |}.
Definition entry_bytes (e : FAT16_DirEntry) : list Z :=
  Name e ++ Ext e ++ [Attr e] ++ de_mid e ++ bytes16 (FirstCluster e) ++ bytes32 (FileSize e).
Definition DIRENT : nat := 32.
(** The i-th 32 bytes of a sector *)
Definition raw_at (buf : list Z) (i : nat) : list Z := take DIRENT (drop (DIRENT * i) buf).
Definition entry_at (buf : list Z) (i : nat) : FAT16_DirEntry := entry_of (raw_at buf i).
Definition ENTRIES_PER_SECTOR : nat := 16.

Definition fat16_is_dir (e : FAT16_DirEntry) : bool := negb (Z.land (Attr e) 0x10 =? 0).

Record FAT16_DirSlot := Slot { sl_cluster : Z; sl_sector : Z; sl_index : nat }.

(** ** Strings *)

Fixpoint cstr (l : list Z) : list Z :=
  match l with
  | c :: l' => if c =? 0 then [] else c :: cstr l'
  | [] => []
  end.
Fixpoint drop_while (p : Z -> bool) (l : list Z) : list Z :=
  match l with
  | c :: l' => if p c then drop_while p l' else l
  | [] => []
  end.
(** Without the last characters that satisfy p *)
Definition trim_right (p : Z -> bool) (l : list Z) : list Z := rev (drop_while p (rev l)).
(** Up to the first c, and what follows it *)
Fixpoint split_first (c : Z) (l : list Z) : list Z * option (list Z) :=
  match l with
  | [] => ([], None)
  | x :: l' => if x =? c then ([], Some l') else let '(a, r) := split_first c l' in (x :: a, r)
  end.
(** strrchr: up to the last c, and what follows it *)
Fixpoint split_last (c : Z) (l : list Z) : option (list Z * list Z) :=
  match l with
  | [] => None
  | x :: l' =>
    match split_last c l' with
    | Some (a, b) => Some (x :: a, b)
    | None => if x =? c then Some ([], l') else None
    end
  end.
Definition pad (n : nat) (l : list Z) : list Z := take n l ++ replicate (n - length l) SPACE.

Definition fold_case (c : Z) : Z := if (97 <=? c) && (c <=? 122) then c - 32 else c.
(** 0 when the names are equal up to case *)
Fixpoint fat16_strcasecmp (a b : list Z) : Z :=
  match a, b with
  | x :: a', y :: b' => if negb (fold_case x =? fold_case y) then 1 else fat16_strcasecmp a' b'
  | [], [] => 0
  | _, _ => 1
  end.

(** dir gets 256 bytes and fname 256; longer parts overrun them. *)
Definition split_path (path : list Z) : option (list Z * list Z) :=
  let r := match split_last SLASH path with
           | Some ([], f) => ([SLASH], f)
           | Some (d, f) => (d, f)
           | None => ([], path)
           end in
  if (256 <=? length r.1)%nat || (256 <=? length r.2)%nat then None else Some r.
Definition _basename (path : list Z) : list Z := match split_last SLASH path with Some (_, b) => b | None => path end.

(** ** The 8.3 form *)

Fixpoint format_83_loop (name : list Z) (ext : bool) (n e : list Z) : list Z * list Z :=
  match name with
  | [] => (n, e)
  | c :: name' =>
    if negb ((length n <? 8)%nat || (length e <? 3)%nat) then (n, e)
    else if c =? DOT then format_83_loop name' true n e
    else if negb ext && (length n <? 8)%nat then format_83_loop name' ext (n ++ [toupper c]) e
    else if ext && (length e <? 3)%nat then format_83_loop name' ext n (e ++ [toupper c])
    else format_83_loop name' ext n e
  end.
Definition _format_83 (name : list Z) : list Z * list Z :=
  let '(n, e) := format_83_loop name false [] [] in (pad 8 n, pad 3 e).
Definition format_filename (input : list Z) : list Z * list Z :=
  match split_first DOT input with
  | (n, Some e) => (pad 8 (map toupper (take 8 n)), pad 3 (map toupper (take 3 e)))
  | (n, None) => (pad 8 (map toupper (take 8 n)), pad 3 [])
  end.

Fixpoint until_space (l : list Z) : list Z :=
  match l with
  | c :: l' => if c =? SPACE then [] else c :: until_space l'
  | [] => []
  end.
Definition _get_fullname (e : FAT16_DirEntry) : list Z :=
  map tolower (until_space (Name e)) ++ (if hd 0 (Ext e) =? SPACE then [] else DOT :: map tolower (until_space (Ext e))).
Definition compare_filename (name entry_name entry_ext : list Z) : bool :=
  fat16_strcasecmp (cstr (until_space entry_name ++ (if hd 0 entry_ext =? SPACE then [] else DOT :: until_space entry_ext))) name =? 0.
Definition fat16_build_short_name_str (e : FAT16_DirEntry) : list Z :=
  let name := cstr (trim_right (fun c => c =? SPACE) (Name e)) in
  let ext := cstr (trim_right (fun c => c =? SPACE) (Ext e)) in
  match ext with [] => name | _ => name ++ DOT :: ext end.

Definition is_one_of (c : Z) (l : list Z) : bool := existsb (Z.eqb c) l.
(** + , ; = [ ] : and the blank *)
Definition SHORT_REFUSED : list Z := [32; 43; 44; 59; 61; 91; 93; 58].
(** The character is allowed, and whether it is a small letter *)
Definition is_small (c : Z) : bool := (97 <=? c) && (c <=? 122).
Definition fat16_short_valid_char (c : Z) : bool :=
  let c := fold_case c in
  negb ((c <? 0x20) || (0x7E <? c)) && negb (is_one_of c SHORT_REFUSED) && negb (c =? DOT).
(** None when the name has no 8.3 form, otherwise whether it has small letters *)
Definition fat16_is_valid_short_name (name : list Z) : option bool :=
  match name with
  | [] => None
  | _ =>
    if bool_decide (name = [DOT]) || bool_decide (name = [DOT; DOT]) then Some false
    else
      let '(base, ext) := match split_last DOT name with Some (b, e) => (b, Some e) | None => (name, None) end in
      match ext with
      | Some [] => None
      | _ =>
        let ext := default [] ext in
        if existsb (Z.eqb DOT) base then None
        else if (length base <? 1)%nat || (8 <? length base)%nat || (3 <? length ext)%nat then None
        else if forallb fat16_short_valid_char base && forallb fat16_short_valid_char ext
             then Some (existsb is_small base || existsb is_small ext) else None
      end
  end.
Definition fat16_name_needs_lfn (name : list Z) : bool :=
  match fat16_is_valid_short_name name with None => true | Some has_lower => has_lower end.

Definition fat16_sanitize_component (inp : list Z) (out_size : nat) : list Z :=
  take (out_size - 1) (List.filter (fun c => negb ((c <? 0x20) || (0x7E <? c) || is_one_of c SHORT_REFUSED)) (map fold_case inp)).
Definition fat16_extract_base_ext (name : list Z) (base_size ext_size : nat) : list Z * list Z :=
  let '(b, e) := match split_last DOT name with Some r => r | None => (name, []) end in
  (fat16_sanitize_component (take 255 b) base_size, fat16_sanitize_component (take 255 e) ext_size).
Definition fat16_make_short_name_from_base_ext (base ext : list Z) : list Z := pad 8 base ++ pad 3 ext.

(** ** Long names *)

Definition fat16_lfn_checksum (short_name : list Z) : Z :=
  fold_left (fun sum c => u8 ((if Z.land sum 1 =? 0 then 0 else 0x80) + Z.shiftr sum 1 + c)) (take 11 short_name) 0.
(** Control characters are refused, and the quote, the star, slash, colon, less, greater, question
    mark, backslash and bar. *)
Definition fat16_lfn_is_valid_char (c : Z) : bool :=
  negb ((c <? 0x20) || (c =? 0x7F)) && negb (is_one_of c [34; 42; 47; 58; 60; 62; 63; 92; 124]).
(** The name without blanks around it and dots behind it *)
Definition fat16_lfn_prepare_name (inp : list Z) : option (list Z) :=
  let out := drop_while (fun c => c =? SPACE) (trim_right (fun c => (c =? SPACE) || (c =? DOT)) inp) in
  if bool_decide (out = []) then None
  else if (FAT16_LFN_MAX <? length out)%nat then None
  else if negb (forallb fat16_lfn_is_valid_char out) then None
  else if bool_decide (out = [DOT]) || bool_decide (out = [DOT; DOT]) then None
  else Some out.
Definition lfn_entry_count (long_name : list Z) : nat :=
  ((length long_name + FAT16_LFN_CHARS_PER_ENTRY - 1) / FAT16_LFN_CHARS_PER_ENTRY)%nat.

(** The thirteen character codes of the part that starts at [start] *)
Fixpoint lfn_part (k : nat) (rest : list Z) (end_seen : bool) : list Z :=
  match k with
  | O => []
  | S k' =>
    match rest with
    | c :: rest' => u8 c :: lfn_part k' rest' end_seen
    | [] => (if end_seen then 0xFFFF else 0) :: lfn_part k' [] true
    end
  end.
Definition lfn_bytes (ord checksum : Z) (chs : list Z) : list Z :=
  [ord] ++ (take 5 chs ≫= bytes16) ++ [FAT16_LFN_ATTR; 0; checksum] ++ (take 6 (drop 5 chs) ≫= bytes16) ++ [0; 0] ++
  (take 2 (drop 11 chs) ≫= bytes16).
(** The i-th of count entries of a long name *)
Definition lfn_entry (count i : nat) (long_name : list Z) (checksum : Z) : list Z :=
  let ord := Z.of_nat (count - i) in
  let ord := if (i =? 0)%nat then Z.lor ord 0x40 else ord in
  let start := ((Z.to_nat (Z.land ord 0x1F) - 1) * FAT16_LFN_CHARS_PER_ENTRY)%nat in
  lfn_bytes ord checksum (lfn_part 13 (drop start long_name) false).

(** Reading them: the fields of an entry *)
Definition lfn_ord (b : list Z) : Z := nth 0 b 0.
Definition lfn_chksum (b : list Z) : Z := nth 13 b 0.
Definition lfn_chars (b : list Z) : list Z :=
  [get16 b 1; get16 b 3; get16 b 5; get16 b 7; get16 b 9; get16 b 14; get16 b 16; get16 b 18; get16 b 20; get16 b 22; get16 b 24;
   get16 b 28; get16 b 30].
(** end_seen is shared by the three calls for one entry. *)
Fixpoint fat16_lfn_copy_chars (src : list Z) (end_seen : bool) : list Z :=
  match src with
  | [] => []
  | ch :: src' =>
    if ch =? 0 then 0 :: fat16_lfn_copy_chars src' true
    else if (ch =? 0xFFFF) || end_seen then 0 :: fat16_lfn_copy_chars src' end_seen
    else (if ch <=? 0x7F then ch else 63) :: fat16_lfn_copy_chars src' end_seen
  end.

Record FAT16_LFNState := Lfn {
  active : bool; checksum : Z; expected : Z; lfn_name : list Z; lfn_slots : list FAT16_DirSlot;
}.
Definition lfn_clear : list Z := zeros 256.
Definition fat16_lfn_reset (st : FAT16_LFNState) : FAT16_LFNState := Lfn false 0 0 (<[0%nat := 0]> (lfn_name st)) [].
(** The name is not looked at before a first entry has cleared it. *)
Definition lfn_start : FAT16_LFNState := Lfn false 0 0 lfn_clear [].
Definition fat16_lfn_push (st : FAT16_LFNState) (b : list Z) (slot : FAT16_DirSlot) : FAT16_LFNState :=
  let ord := lfn_ord b in
  let seq := Z.land ord 0x1F in
  let st := if Z.land ord 0x40 =? 0 then st else Lfn true (lfn_chksum b) seq lfn_clear [] in
  if negb (active st) then st
  else if (seq =? 0) || (Z.of_nat FAT16_LFN_MAX_ENTRIES <? seq) then fat16_lfn_reset st
  else if negb (seq =? expected st) then fat16_lfn_reset st
  else
    let slots := if (length (lfn_slots st) <? FAT16_LFN_MAX_ENTRIES)%nat then lfn_slots st ++ [slot] else lfn_slots st in
    let base := (Z.to_nat (seq - 1) * FAT16_LFN_CHARS_PER_ENTRY)%nat in
    if (256 <? base + FAT16_LFN_CHARS_PER_ENTRY)%nat then fat16_lfn_reset st
    else
      let name := take base (lfn_name st) ++ fat16_lfn_copy_chars (lfn_chars b) false ++ drop (base + FAT16_LFN_CHARS_PER_ENTRY) (lfn_name st) in
      Lfn true (checksum st) (expected st - 1) name slots.

(** ** Items of a directory *)

Record FAT16_DirItem := Item { it_entry : FAT16_DirEntry; it_slot : FAT16_DirSlot; it_long : option (list Z); it_lfn_slots : list FAT16_DirSlot }.
Definition dir_item (st : FAT16_LFNState) (e : FAT16_DirEntry) (slot : FAT16_DirSlot) : FAT16_DirItem :=
  if active st && (expected st =? 0) && (fat16_lfn_checksum (Name e ++ Ext e) =? checksum st)
  then Item e slot (Some (cstr (take 255 (lfn_name st)))) (lfn_slots st)
  else Item e slot None [].
Definition fat16_dir_item_matches (it : FAT16_DirItem) (name : list Z) : bool :=
  match name with
  | [] => false
  | _ =>
    match it_long it with Some l => fat16_strcasecmp l name =? 0 | None => false end
    || (fat16_strcasecmp (fat16_build_short_name_str (it_entry it)) name =? 0)
  end.

(** The digits of a number below 10000, most significant first *)
Fixpoint dec_loop (fuel : nat) (n : Z) (acc : list Z) : list Z :=
  match fuel with
  | O => acc
  | S f => if n <? 10 then (48 + n) :: acc else dec_loop f (n / 10) ((48 + n mod 10) :: acc)
  end.
Definition dec (n : Z) : list Z := dec_loop 10 n [].
Fixpoint count_digits_loop (fuel : nat) (n : Z) (digits : nat) : nat :=
  match fuel with
  | O => digits
  | S f => if n <? 10 then digits else count_digits_loop f (n / 10) (S digits)
  end.
Definition fat16_count_digits (n : Z) : nat := count_digits_loop 10 n 1.
(** The n-th alias of a base: as much of it as leaves room for a tilde and the number; None when
    it does not fit eight characters *)
Definition alias_base (base : list Z) (n : Z) : option (list Z) :=
  let prefix_len := Nat.max 1 (8 - (fat16_count_digits n + 1)) in
  let tmp := take prefix_len base ++ 126 :: dec n in
  if (9 <=? length tmp)%nat then None else Some tmp.
End Fat16Name.

(** ** Long names survive the directory

    The entries that fat16_write_lfn_entries makes of a long name, read back one after the other by
    fat16_lfn_push, give the name again; and where they do not. *)

Module Fat16Lfn.
Import Fat16Name.

Lemma get16_bytes16 w : 0 <= w < 65536 -> u8 w + 256 * u8 (Z.shiftr w 8) = w.
Proof. intros Hw. rewrite Z.shiftr_div_pow2 by lia. change (2 ^ 8) with 256. word_lia. Qed.

(** The codes of an entry are those that were stored. *)
Lemma lfn_chars_bytes ord chk chs : length chs = 13%nat -> Forall (fun c => 0 <= c < 65536) chs -> lfn_chars (lfn_bytes ord chk chs) = chs.
Proof.
  intros Hl Hc. do 13 (destruct chs as [|? chs]; [done|]). destruct chs; [|done].
  repeat match goal with H : Forall _ (_ :: _) |- _ => apply list.Forall_cons in H as [? H] end.
  unfold lfn_chars, lfn_bytes. cbn -[Z.mul Z.add u8 Z.shiftr]. unfold get16. cbn -[Z.mul Z.add u8 Z.shiftr].
  by rewrite !get16_bytes16.
Qed.

Definition plain (c : Z) : Prop := 0 < c <= 127.
Lemma lfn_part_range k : forall rest e, Forall is_u8 rest -> Forall (fun c => 0 <= c < 65536) (lfn_part k rest e).
Proof.
  induction k as [|k IH]; intros rest e Hr; cbn [lfn_part]; [constructor|].
  destruct rest as [|c rest]; constructor; try (by apply IH); [destruct e; lia| |].
  - pose proof (u8_range c). unfold is_u8 in *. lia.
  - apply IH. by inversion Hr.
Qed.
Lemma lfn_part_length k : forall rest e, length (lfn_part k rest e) = k.
Proof. induction k as [|k IH]; intros [|c rest] e; cbn [lfn_part length]; [done..| |]; by rewrite IH. Qed.
Lemma copy_end_part k : forall e e', fat16_lfn_copy_chars (lfn_part k [] e) (e || e') = zeros k.
Proof.
  induction k as [|k IH]; intros e e'; cbn [lfn_part fat16_lfn_copy_chars]; [done|]. destruct e.
  - change (0xFFFF =? 0) with false. cbn [orb Z.eqb Pos.eqb]. unfold zeros. cbn [replicate]. f_equal. apply (IH true true).
  - cbn [Z.eqb]. unfold zeros. cbn [replicate]. f_equal. apply (IH true true).
Qed.
(** What is read back of a part: its characters, then zeros. *)
Lemma copy_part k : forall rest, Forall plain rest ->
  fat16_lfn_copy_chars (lfn_part k rest false) false = take k rest ++ zeros (k - length rest).
Proof.
  induction k as [|k IH]; intros [|c rest] Hp; [done..| |].
  - cbn [take app]. rewrite Nat.sub_0_r. apply (copy_end_part (S k) false false).
  - apply list.Forall_cons in Hp as [Hc Hp]. unfold plain in Hc. cbn [lfn_part fat16_lfn_copy_chars take length Nat.sub app].
    rewrite u8_small by (unfold is_u8; lia). rewrite (proj2 (Z.eqb_neq c 0)), (proj2 (Z.eqb_neq c 0xFFFF)) by lia. cbn [orb].
    rewrite (proj2 (Z.leb_le _ _)) by lia. f_equal. by apply IH.
Qed.

Lemma plain_u8 l : Forall plain l -> Forall is_u8 l.
Proof. apply Forall_impl. unfold plain, is_u8. lia. Qed.

(** Sequence numbers: the first entry carries the flag 0x40. *)
Definition ordinal (count i : nat) : Z := let o := Z.of_nat (count - i) in if (i =? 0)%nat then Z.lor o 0x40 else o.
Lemma ordinal_fields count i : (i < count <= 20)%nat ->
  Z.land (ordinal count i) 0x1F = Z.of_nat (count - i) /\ (Z.land (ordinal count i) 0x40 =? 0) = negb (i =? 0)%nat.
Proof.
  intros Hi. unfold ordinal. assert (count - i <= 20)%nat as Hb by lia. assert (1 <= count - i)%nat as H1 by lia.
  revert Hb H1. generalize (count - i)%nat as k. intros k Hb H1. destruct (i =? 0)%nat;
  do 21 (destruct k as [|k]; [first [lia|by vm_compute]|]); lia.
Qed.

Section roundtrip.
Context (long : list Z) (chk : Z) (Hplain : Forall plain long).

(** The name while the parts below e are still missing *)
Definition partial (e : nat) : list Z := zeros (13 * e) ++ drop (13 * e) long ++ zeros (256 - length long).

Lemma push_entry count i e st slot : (i < count <= 19)%nat -> e = (count - S i)%nat -> (13 * e < length long <= 13 * count)%nat ->
  (if (i =? 0)%nat then True
   else active st = true /\ checksum st = chk /\ expected st = Z.of_nat (S e) /\ lfn_name st = partial (S e) /\
        (13 * S e <= length long)%nat /\ length (lfn_slots st) = i) ->
  fat16_lfn_push st (lfn_entry count i long chk) slot =
    Lfn true chk (Z.of_nat e) (partial e) ((if (i =? 0)%nat then [] else lfn_slots st) ++ [slot]).
Proof.
  intros Hi He Hlen Hst. destruct (ordinal_fields count i) as [Hseq Hflag]; [lia|].
  assert (lfn_entry count i long chk = lfn_bytes (ordinal count i) chk (lfn_part 13 (drop (13 * e) long) false)) as Een.
  { unfold lfn_entry. fold (ordinal count i). rewrite Hseq. unfold FAT16_LFN_CHARS_PER_ENTRY. do 3 f_equal. lia. }
  assert (lfn_chars (lfn_entry count i long chk) = lfn_part 13 (drop (13 * e) long) false) as Ech.
  { rewrite Een. apply lfn_chars_bytes; [apply lfn_part_length|]. apply lfn_part_range, Forall_drop. by apply plain_u8. }
  assert (lfn_ord (lfn_entry count i long chk) = ordinal count i) as Eo by (by rewrite Een).
  assert (lfn_chksum (lfn_entry count i long chk) = chk) as Ek.
  { rewrite Een. unfold lfn_chksum, lfn_bytes. pose proof (lfn_part_length 13 (drop (13 * e) long) false) as Hpl.
    destruct (lfn_part 13 (drop (13 * e) long) false) as [|a0 [|a1 [|a2 [|a3 [|a4 l]]]]]; [done..|]. done. }
  unfold fat16_lfn_push. rewrite Eo, Hseq, Hflag, Ek, Ech, copy_part by (by apply Forall_drop). clear Eo Ek Ech Een.
  replace (Z.of_nat (count - i)) with (Z.of_nat (S e)) by lia. rewrite (proj2 (Z.eqb_neq (Z.of_nat (S e)) 0)) by lia.
  unfold FAT16_LFN_MAX_ENTRIES, FAT16_LFN_CHARS_PER_ENTRY. rewrite (proj2 (Z.ltb_ge _ (Z.of_nat (S e)))) by lia.
  replace (Z.to_nat (Z.of_nat (S e) - 1)) with e by lia. rewrite length_drop.
  replace (256 <? e * 13 + 13)%nat with false by (symmetry; apply Nat.ltb_ge; lia).
  destruct (Nat.eqb_spec i 0) as [->|Hi0]; cbn [negb active expected lfn_name lfn_slots checksum orb].
  - rewrite Z.eqb_refl. cbn [negb length app]. f_equal; [lia|]. unfold lfn_clear, partial, zeros.
    rewrite take_replicate, drop_replicate, <-app_assoc, <-replicate_add. f_equal; [f_equal; lia|].
    rewrite (firstn_all2 (n := 13)) by (rewrite length_drop; lia). rewrite (Nat.mul_comm e 13). f_equal. f_equal. lia.
  - destruct Hst as (Ha & Hk & Hx & Hn & Hfull & Hsl). rewrite Ha, Hk, Hx, Z.eqb_refl, Hn, Hsl. cbn [negb].
    rewrite (proj2 (Nat.ltb_lt _ _)) by lia. f_equal; [lia|]. unfold partial, zeros.
    replace (13 - (length long - 13 * e))%nat with 0%nat by lia. cbn [replicate]. rewrite app_nil_r.
    rewrite take_app_le by (rewrite length_replicate; lia). rewrite take_replicate.
    rewrite drop_app_ge by (rewrite length_replicate; lia). rewrite length_replicate.
    replace (e * 13 + 13 - 13 * S e)%nat with 0%nat by lia. rewrite drop_0. f_equal; [f_equal; lia|].
    rewrite (app_assoc (take 13 _)). f_equal. rewrite (Nat.mul_comm 13 e). replace (13 * S e)%nat with (e * 13 + 13)%nat by lia.
    rewrite <-drop_drop. apply take_drop.
Qed.

(** All entries pushed, the first i of them into st *)
Fixpoint push_all (k i count : nat) (st : FAT16_LFNState) (slots : list FAT16_DirSlot) : FAT16_LFNState :=
  match k, slots with
  | S k', sl :: slots' => push_all k' (S i) count (fat16_lfn_push st (lfn_entry count i long chk) sl) slots'
  | _, _ => st
  end.
Lemma push_all_ok count : (1 <= count <= 19)%nat -> (13 * (count - 1) < length long <= 13 * count)%nat ->
  forall k i st slots, (i + k = count)%nat -> (1 <= i)%nat -> length slots = k -> length (lfn_slots st) = i ->
  st = Lfn true chk (Z.of_nat k) (partial k) (lfn_slots st) ->
  push_all k i count st slots = Lfn true chk 0 (partial 0) (lfn_slots st ++ slots).
Proof.
  intros Hc Hlen. induction k as [|k IH]; intros i st slots Hik Hi Hsl Hst Est.
  - destruct slots; [|done]. rewrite app_nil_r. done.
  - destruct slots as [|sl slots]; [done|]. cbn [push_all].
    rewrite (push_entry count i k st sl); [|lia|lia|lia|].
    + rewrite (IH (S i)); cbn [lfn_slots]; [|lia|lia|simpl in Hsl; lia| |]; rewrite (proj2 (Nat.eqb_neq _ _)) by lia.
      * by rewrite <-app_assoc.
      * rewrite length_app, Hst. simpl. lia.
      * done.
    + rewrite (proj2 (Nat.eqb_neq _ _)) by lia. rewrite Est. split_and!; [done..|lia|done].
Qed.
Lemma cstr_partial n : (length long <= 255)%nat -> cstr (take 255 (long ++ zeros n)) = long.
Proof.
  intros Hl. rewrite take_app_ge by lia. clear Hl. revert Hplain. generalize (255 - length long)%nat as k.
  induction long as [|c l IH]; intros k Hp; cbn [app].
  - unfold zeros. rewrite take_replicate. by destruct (Nat.min k n).
  - apply list.Forall_cons in Hp as [Hc Hp]. unfold plain in Hc. cbn [cstr]. rewrite (proj2 (Z.eqb_neq _ _)) by lia. f_equal. by apply IH.
Qed.
End roundtrip.

(** C23: a long name of up to 247 ASCII characters survives its directory entries: the entries that
    fat16_write_lfn_entries stores for it, read in order from any state, leave the reader complete,
    with the checksum, the slots in order and the name itself. *)
Theorem lfn_roundtrip long chk st slots :
  Forall plain long -> (1 <= length long <= 247)%nat -> length slots = lfn_entry_count long ->
  exists st', push_all long chk (lfn_entry_count long) 0 (lfn_entry_count long) st slots = st' /\
    active st' = true /\ expected st' = 0 /\ checksum st' = chk /\ lfn_slots st' = slots /\ cstr (take 255 (lfn_name st')) = long.
Proof.
  intros Hp Hl Hs. eexists. split; [reflexivity|].
  assert (1 <= lfn_entry_count long <= 19 /\ 13 * (lfn_entry_count long - 1) < length long <= 13 * lfn_entry_count long)%nat as [Hc Hlc].
  { unfold lfn_entry_count, FAT16_LFN_CHARS_PER_ENTRY. pose proof (Nat.div_mod_eq (length long + 13 - 1) 13).
    pose proof (Nat.mod_upper_bound (length long + 13 - 1) 13). lia. }
  destruct (lfn_entry_count long) as [|n] eqn:En; [lia|]. destruct slots as [|sl slots]; [done|]. cbn [push_all].
  rewrite (push_entry long chk Hp (S n) 0 n st sl) by (done || lia). cbn [Nat.eqb app].
  rewrite (push_all_ok long chk Hp (S n)); cbn [lfn_slots]; [|lia|lia|lia|lia|simpl in Hs; lia|done|done].
  cbn [active expected checksum lfn_slots lfn_name]. split_and!; [done..|]. unfold partial. cbn [Nat.mul zeros replicate app]. rewrite drop_0.
  apply cstr_partial; [done|lia].
Qed.
Definition name26 : list Z := map Z.of_nat (seq 97 26).
Lemma lfn_roundtrip_witness :
  exists st', push_all name26 7 2 0 2 lfn_start [Slot 0 0 3; Slot 0 0 4] = st' /\ cstr (take 255 (lfn_name st')) = name26.
Proof.
  destruct (lfn_roundtrip name26 7 lfn_start [Slot 0 0 3; Slot 0 0 4]) as (st' & H1 & _ & _ & _ & _ & H2).
  - apply list.Forall_forall. intros x Hx%list_elem_of_In%in_map_iff. destruct Hx as (i & <- & Hi%in_seq). unfold plain. lia.
  - simpl. lia.
  - reflexivity.
  - exists st'. exact (conj H1 H2).
Defined.

(** Names of 248 to 255 characters take a twentieth entry, which the reader refuses: they are
    stored but never read. *)
Definition name250 : list Z := replicate 250 97.
Example lfn_too_long : active (push_all name250 7 20 0 20 lfn_start (replicate 20 (Slot 0 0 0))) = false.
Proof. vm_compute. reflexivity. Qed.
(** Characters above 127 are accepted in a new name but read back as question marks. *)
Example lfn_not_ascii : forallb fat16_lfn_is_valid_char [0xED; 0x95; 0x9C] = true /\
  cstr (take 255 (lfn_name (push_all [0xED; 0x95; 0x9C] 7 1 0 1 lfn_start [Slot 0 0 0]))) = [63; 63; 63].
Proof. split; vm_compute; reflexivity. Qed.
End Fat16Lfn.
