(* ===== verification/Fat16.v ===== *)
(** * FAT16: the file system operations (fs/fat16.c)

    The mounted volume (boot parameter block, the sectors where the table, the root directory and
    the data begin, the allocation hint, the current directory) over a block device and an
    allocator for buffers.  Conventions are those of [Xvfs]: where the code uses a buffer without
    looking at the result of the read that fills it, a failed read is a fault; the terminal output
    is left out, except for the bytes that fat16_cat prints.  A chain of clusters is followed with
    [CHAIN] steps of fuel: a chain without a cycle is shorter, and a loop over a cyclic chain that
    runs out of it is one that does not end. *)
From S2P Require Import Prelude BlockDev Fat16Name.
From S2P Require Libc Path.

Module Fat16.
Import Fat16Name.

Definition CHAIN : nat := Z.to_nat 65537.

(** kmalloc and kfree for the buffers, on the state of the devices *)
Class Buffers (D : Type) := {
  kmalloc : Z -> M D Z;
  kfree : Z -> M D unit;
}.

Section ops.
Context {D : Type} `{BlockDev D} `{Buffers D}.

Record fat16 := Mk {
  dev : D; fat16_bpb : FAT16_BPB_t; fat_start_lba : Z; root_dir_lba : Z; data_region_lba : Z; root_dir_sectors : Z;
  fat16_first_data_sector : Z; current_dir_cluster16 : Z; fat16_alloc_hint : Z; fat16_drive : Z; current_path : list Z;
  progress : list Z;
}.
Abbreviation F A := (M fat16 A).

Definition with_dev (d : D) (s : fat16) : fat16 :=
  Mk d (fat16_bpb s) (fat_start_lba s) (root_dir_lba s) (data_region_lba s) (root_dir_sectors s) (fat16_first_data_sector s)
     (current_dir_cluster16 s) (fat16_alloc_hint s) (fat16_drive s) (current_path s) (progress s).
Definition with_hint (h : Z) (s : fat16) : fat16 :=
  Mk (dev s) (fat16_bpb s) (fat_start_lba s) (root_dir_lba s) (data_region_lba s) (root_dir_sectors s) (fat16_first_data_sector s)
     (current_dir_cluster16 s) h (fat16_drive s) (current_path s) (progress s).
Definition with_cwd (c : Z) (p : list Z) (s : fat16) : fat16 :=
  Mk (dev s) (fat16_bpb s) (fat_start_lba s) (root_dir_lba s) (data_region_lba s) (root_dir_sectors s) (fat16_first_data_sector s)
     c (fat16_alloc_hint s) (fat16_drive s) p (progress s).
Definition fscmd_write_progress_update (w : Z) : F unit :=
  modify (fun s => Mk (dev s) (fat16_bpb s) (fat_start_lba s) (root_dir_lba s) (data_region_lba s) (root_dir_sectors s)
    (fat16_first_data_sector s) (current_dir_cluster16 s) (fat16_alloc_hint s) (fat16_drive s) (current_path s) (progress s ++ [w])).

Definition on_dev {A} (c : M D A) : F A := fun s =>
  match c (dev s) with
  | Ok (a, d) => Ok (a, with_dev d s)
  | Fault => Fault
  | NoFuel => NoFuel
  end.
Definition udiv (a b : Z) : F Z := if b =? 0 then fault else ret (a / b).
Definition umod (a b : Z) : F Z := if b =? 0 then fault else ret (a mod b).

(** ** Mounting *)

Definition is_fat16_ptype (t : Z) : bool := (t =? 0x04) || (t =? 0x06) || (t =? 0x0E).
Definition is_valid_bootjmp (sec : list Z) : bool :=
  ((nth 0 sec 0 =? 0xEB) && (nth 2 sec 0 =? 0x90)) || (nth 0 sec 0 =? 0xE9).
Definition has_sig55AA (sec : list Z) : bool := (nth 510 sec 0 =? 0x55) && (nth 511 sec 0 =? 0xAA).

Definition root_sectors (bpb : FAT16_BPB_t) : Z := (RootEntCnt bpb * 32 + (BytsPerSec bpb - 1)) / BytsPerSec bpb.
Definition total_sectors (bpb : FAT16_BPB_t) : Z := if TotSec16 bpb =? 0 then TotSec32 bpb else TotSec16 bpb.
Definition data_sectors (bpb : FAT16_BPB_t) : Z :=
  u32 (total_sectors bpb - (RsvdSecCnt bpb + NumFATs bpb * FATSz16 bpb + root_sectors bpb)).
Definition probe_fat16_pbr (drive base_lba : Z) : F (option FAT16_BPB_t) :=
  r <- on_dev (ata_read drive base_lba 1);;
  match r with
  | None => ret None
  | Some sec =>
    if negb (has_sig55AA sec) || negb (is_valid_bootjmp sec) then ret None
    else
      let bpb := bpb_of sec in
      if negb (BytsPerSec bpb =? 512) then ret None
      else if (SecPerClus bpb =? 0) || negb (Z.land (SecPerClus bpb) (SecPerClus bpb - 1) =? 0) || (128 <? SecPerClus bpb) then ret None
      else if NumFATs bpb =? 0 then ret None
      else if FATSz16 bpb =? 0 then ret None
      else if data_sectors bpb =? 0 then ret None
      else
        let count := data_sectors bpb / SecPerClus bpb in
        ret (if (4085 <=? count) && (count <? 65525) then Some bpb else None)
  end.

Fixpoint mbr_loop (k : nat) (drive : Z) (sec : list Z) (i : nat) : F (option (Z * FAT16_BPB_t)) :=
  match k with
  | O => ret None
  | S k' =>
    let pe := take 16 (drop (446 + 16 * i) sec) in
    let lba_first := get32 pe 8 in
    if is_fat16_ptype (nth 4 pe 0) && negb (lba_first =? 0) then
      r <- probe_fat16_pbr drive lba_first;;
      match r with
      | Some bpb => ret (Some (lba_first, bpb))
      | None => mbr_loop k' drive sec (S i)
      end
    else mbr_loop k' drive sec (S i)
  end.
Definition find_fat16_in_mbr (drive : Z) : F (option (Z * FAT16_BPB_t)) :=
  r <- on_dev (ata_read drive 0 1);;
  match r with
  | None => ret None
  | Some sec => if negb (has_sig55AA sec) then ret None else mbr_loop 4 drive sec 0
  end.

Definition mount (drive base_lba : Z) (bpb : FAT16_BPB_t) : F unit :=
  let root := u32 (u32 (base_lba + RsvdSecCnt bpb) + NumFATs bpb * FATSz16 bpb) in
  let data := u32 (root + root_sectors bpb) in
  modify (fun s => Mk (dev s) bpb (u32 (base_lba + RsvdSecCnt bpb)) root data (root_sectors bpb) data
                      (current_dir_cluster16 s) 2 drive (current_path s) (progress s)).
Definition fat16_init (drive base_lba : Z) : F bool :=
  r <- probe_fat16_pbr drive base_lba;;
  match r with
  | Some bpb => mount drive base_lba bpb;;; ret true
  | None =>
    m <- find_fat16_in_mbr drive;;
    match m with
    | Some (lba, bpb) => mount drive lba bpb;;; ret true
    | None =>
      z <- probe_fat16_pbr drive 0;;
      match z with
      | Some bpb => mount drive 0 bpb;;; ret true
      | None => ret false
      end
    end
  end.

(** ** Sectors, clusters and the table *)

Definition read_drive (lba count : Z) : F (option (list Z)) := drive <- gets fat16_drive;; on_dev (ata_read (u8 drive) lba count).
Definition write_drive (lba count : Z) (b : list Z) : F bool := drive <- gets fat16_drive;; on_dev (ata_write (u8 drive) lba count b).
(** A read whose result the code ignores before it uses the buffer *)
Definition read_sector (lba : Z) : F (list Z) := r <- read_drive lba 1;; lift_opt r.
Definition write_sector (lba : Z) (b : list Z) : F unit := write_drive lba 1 b;;; ret tt.

Definition sec_per_clus : F Z := bpb <- gets fat16_bpb;; ret (SecPerClus bpb).
Definition bytes_per_cluster : F Z := bpb <- gets fat16_bpb;; ret (u32 (BytsPerSec bpb * SecPerClus bpb)).
Definition cluster_to_lba (cluster : Z) : F Z :=
  data <- gets data_region_lba;; spc <- sec_per_clus;; ret (u32 (data + (cluster - 2) * spc)).
Definition lba_of_cluster (cl : Z) : F Z :=
  data <- gets data_region_lba;;
  if (cl <? 2) || (CLUSTER_EOF <=? cl) then ret data
  else spc <- sec_per_clus;; ret (u32 (data + (cl - 2) * spc)).

Definition fat16_get_fat_entry (cluster : Z) : F Z :=
  bpb <- gets fat16_bpb;; fat <- gets fat_start_lba;;
  let fat_offset := cluster * FAT_ENTRY_SIZE in
  q <- udiv fat_offset (BytsPerSec bpb);;
  r <- umod fat_offset (BytsPerSec bpb);;
  sector <- read_sector (u32 (fat + q));;
  b <- lift_opt (slice sector r 2);; ret (get16 b 0).
Definition fat16_next_cluster (cluster : Z) : F Z :=
  fat <- gets fat_start_lba;;
  sector <- read_sector (u32 (fat + cluster * 2 / 512));;
  b <- lift_opt (slice sector (cluster * 2 mod 512) 2);; ret (get16 b 0).
Fixpoint set_fat_loop (k : nat) (f cluster value : Z) : F unit :=
  match k with
  | O => ret tt
  | S k' =>
    bpb <- gets fat16_bpb;; fat <- gets fat_start_lba;;
    let fat_sector := u32 (fat + f * FATSz16 bpb + cluster * 2 / 512) in
    sector <- read_sector fat_sector;;
    sector' <- lift_opt (splice sector (cluster * 2 mod 512) (bytes16 value));;
    write_sector fat_sector sector';;;
    set_fat_loop k' (f + 1) cluster value
  end.
Definition fat16_set_fat_entry (cluster value : Z) : F unit :=
  bpb <- gets fat16_bpb;; set_fat_loop (Z.to_nat (NumFATs bpb)) 0 cluster value.

(** The first free entry from i on, at most k of them; it is marked as the end of a chain *)
Fixpoint alloc_loop (k : nat) (i : Z) : F (option Z) :=
  match k with
  | O => ret None
  | S k' =>
    e <- fat16_get_fat_entry (u16 i);;
    if e =? 0 then
      fat16_set_fat_entry (u16 i) 0xFFFF;;; modify (with_hint (u16 (i + 1)));;; ret (Some (u16 i))
    else alloc_loop k' (i + 1)
  end.
Definition _alloc_cluster : F Z :=
  bpb <- gets fat16_bpb;; hint <- gets fat16_alloc_hint;;
  let total := u32 (FATSz16 bpb * BytsPerSec bpb / 2) in
  let start := if (hint <? 2) || (total <=? hint) then 2 else hint in
  r <- alloc_loop (Z.to_nat (total - start)) start;;
  match r with
  | Some c => ret c
  | None => r' <- alloc_loop (Z.to_nat (start - 2)) 2;; ret (default 0 r')
  end.

Definition in_chain (cl : Z) : bool := (2 <=? cl) && (cl <? CLUSTER_EOF).
Fixpoint free_chain_loop (fuel : nat) (cl : Z) : F unit :=
  match fuel with
  | O => nofuel
  | S fuel' =>
    if negb (in_chain cl) then ret tt
    else next <- fat16_get_fat_entry cl;; fat16_set_fat_entry cl 0;;; free_chain_loop fuel' next
  end.
Definition free_cluster_chain (start : Z) : F unit := free_chain_loop CHAIN start.

Fixpoint read_cluster_loop (k : nat) (lba : Z) : F (list Z) :=
  match k with
  | O => ret []
  | S k' => b <- read_sector (u32 lba);; rest <- read_cluster_loop k' (lba + 1);; ret (b ++ rest)
  end.
Definition fat16_read_cluster (cluster : Z) : F (list Z) :=
  lba <- cluster_to_lba cluster;; spc <- sec_per_clus;; read_cluster_loop (Z.to_nat spc) lba.
Definition fat16_write_cluster (cluster : Z) (buf : list Z) : F bool :=
  if cluster <? 2 then ret false
  else
    first <- gets fat16_first_data_sector;; spc <- sec_per_clus;;
    write_drive (u32 (first + (cluster - 2) * spc)) spc buf.
(** The sectors of a cluster filled with zeros, one by one *)
Fixpoint zero_sectors (k : nat) (lba : Z) : F unit :=
  match k with
  | O => ret tt
  | S k' => write_sector (u32 lba) (zeros 512);;; zero_sectors k' (lba + 1)
  end.

(** ** Directories *)

(** The sectors of a directory, until f stops: those of the root, or of the chain of clusters.  f
    gets the position of the sector, its bytes and what has been accumulated. *)
Section walk.
Context {A : Type} (f : Z -> Z -> list Z -> A -> bool * A).
Fixpoint walk_run (k : nat) (cluster lba s : Z) (a : A) : F (bool * A) :=
  match k with
  | O => ret (true, a)
  | S k' =>
    buf <- read_sector (u32 (lba + s));;
    let '(go, a') := f cluster s buf a in
    if go : bool then walk_run k' cluster lba (s + 1) a' else ret (false, a')
  end.
(** The last cluster of the chain comes with the result. *)
Fixpoint walk_chain (fuel : nat) (cluster last : Z) (a : A) : F (bool * A * Z) :=
  match fuel with
  | O => nofuel
  | S fuel' =>
    if negb (in_chain cluster) then ret (true, a, last)
    else
      lba <- cluster_to_lba cluster;; spc <- sec_per_clus;;
      r <- walk_run (Z.to_nat spc) cluster lba 0 a;;
      let '(go, a') := r in
      if go : bool then next <- fat16_next_cluster cluster;; walk_chain fuel' next cluster a' else ret (false, a', cluster)
  end.
Definition walk_dir (dir_cluster : Z) (a : A) : F (bool * A * Z) :=
  if dir_cluster =? 0 then
    root <- gets root_dir_lba;; n <- gets root_dir_sectors;;
    r <- walk_run (Z.to_nat n) 0 root 0 a;; ret (r, 0)
  else walk_chain CHAIN dir_cluster 0 a.
End walk.

(** The entries of a sector, from the i-th on; cb gets the items and says whether to go on. *)
Fixpoint iterate_entries {C} (cb : FAT16_DirItem -> C -> bool * C) (k i : nat) (cluster s : Z) (buf : list Z)
  (a : FAT16_LFNState * C) : bool * (FAT16_LFNState * C) :=
  match k with
  | O => (true, a)
  | S k' =>
    let '(lfn, ctx) := a in
    let raw := raw_at buf i in
    let e := entry_of raw in
    let first := hd 0 raw in
    let slot := Slot cluster s i in
    if first =? 0 then (false, a)
    else if first =? DELETED then iterate_entries cb k' (S i) cluster s buf (fat16_lfn_reset lfn, ctx)
    else if Attr e =? FAT16_LFN_ATTR then iterate_entries cb k' (S i) cluster s buf (fat16_lfn_push lfn raw slot, ctx)
    else
      let '(go, ctx') := cb (dir_item lfn e slot) ctx in
      let a' := (fat16_lfn_reset lfn, ctx') in
      if go : bool then iterate_entries cb k' (S i) cluster s buf a' else (false, a')
  end.
Definition fat16_iterate_dir {C} (dir_cluster : Z) (cb : FAT16_DirItem -> C -> bool * C) (ctx : C) : F C :=
  r <- walk_dir (iterate_entries cb ENTRIES_PER_SECTOR 0) dir_cluster (lfn_start, ctx);;
  ret (snd (snd (fst r))).

Definition fat16_find_entry_cb (name : list Z) (it : FAT16_DirItem) (found : option FAT16_DirItem) : bool * option FAT16_DirItem :=
  if hd 0 (Name (it_entry it)) =? DELETED then (true, found)
  else if fat16_dir_item_matches it name then (false, Some it) else (true, found).
Definition fat16_find_entry_slot (dir_cluster : Z) (name : list Z) : F (option FAT16_DirItem) :=
  fat16_iterate_dir dir_cluster (fat16_find_entry_cb name) None.
Definition fat16_find_entry (name : list Z) (dir_cluster : Z) : F (option FAT16_DirEntry) :=
  r <- fat16_find_entry_slot dir_cluster name;; ret (it_entry <$> r).

Definition fat16_dir_slot_lba (slot : FAT16_DirSlot) : F Z :=
  if sl_cluster slot =? 0 then root <- gets root_dir_lba;; ret (u32 (root + sl_sector slot))
  else lba <- cluster_to_lba (sl_cluster slot);; ret (u32 (lba + sl_sector slot)).
Definition fat16_dir_write_raw (slot : FAT16_DirSlot) (raw : list Z) : F unit :=
  lba <- fat16_dir_slot_lba slot;;
  buf <- read_sector lba;;
  buf' <- lift_opt (splice buf (Z.of_nat (DIRENT * sl_index slot)) (take DIRENT raw));;
  write_sector lba buf'.
Definition fat16_dir_mark_deleted (slot : FAT16_DirSlot) : F unit :=
  lba <- fat16_dir_slot_lba slot;;
  buf <- read_sector lba;;
  buf' <- lift_opt (splice buf (Z.of_nat (DIRENT * sl_index slot)) [DELETED]);;
  write_sector lba buf'.
Definition _find_entry_pos_in_dir (name : list Z) (cluster : Z) : F (option (Z * nat * FAT16_DirEntry)) :=
  r <- fat16_find_entry_slot cluster name;;
  match r with
  | None => ret None
  | Some it => lba <- fat16_dir_slot_lba (it_slot it);; ret (Some (lba, (sl_index (it_slot it) * DIRENT)%nat, it_entry it))
  end.
Definition _find_entry_in_dir (filename : list Z) (cluster : Z) : F (option FAT16_DirEntry) :=
  r <- _find_entry_pos_in_dir filename cluster;; ret (snd <$> r).

(** Paths: each component is looked up in the directory before it *)
Fixpoint resolve_dir_loop (cluster : Z) (toks : list (list Z)) : F Z :=
  match toks with
  | [] => ret cluster
  | t :: toks' =>
    r <- fat16_find_entry t cluster;;
    match r with
    | None => ret 0xFFFF
    | Some e => if negb (fat16_is_dir e) then ret (match toks' with [] => cluster | _ => 0xFFFF end)
                else resolve_dir_loop (FirstCluster e) toks'
    end
  end.
Definition fat16_resolve_dir (path : list Z) : F Z :=
  if bool_decide (path = [SLASH]) then ret 0
  else
    cur <- gets current_dir_cluster16;;
    let cluster := if hd 0 path =? SLASH then 0 else cur in
    if (256 <=? length path)%nat then fault
    else resolve_dir_loop cluster (Libc.tokens [SLASH] path).
Fixpoint resolve_path_loop (cluster : Z) (toks : list (list Z)) : F Z :=
  match toks with
  | [] => ret cluster
  | t :: toks' =>
    r <- fat16_find_entry t cluster;;
    match r with
    | None => ret 0xFFFF
    | Some e => if negb (fat16_is_dir e) then ret 0xFFFF else resolve_path_loop (FirstCluster e) toks'
    end
  end.
Definition fat16_resolve_path (path : list Z) : F Z :=
  cur <- gets current_dir_cluster16;;
  let temp := take 255 path in
  resolve_path_loop (if hd 0 temp =? SLASH then 2 else cur) (Libc.tokens [SLASH] temp).
Fixpoint find_path_loop (cluster : Z) (toks : list (list Z)) : F (option FAT16_DirEntry) :=
  match toks with
  | [] => ret None
  | t :: toks' =>
    r <- fat16_find_entry t cluster;;
    match r, toks' with
    | None, _ => ret None
    | Some e, [] => ret (Some e)
    | Some e, _ => if negb (fat16_is_dir e) then ret None else find_path_loop (FirstCluster e) toks'
    end
  end.
Definition fat16_find_file_path (path : list Z) : F (option FAT16_DirEntry) :=
  if (256 <=? length path)%nat then fault
  else
    cur <- gets current_dir_cluster16;;
    find_path_loop (if hd 0 path =? SLASH then 0 else cur) (Libc.tokens [SLASH] path).
Definition fat16_find_file (filename : list Z) : F (option FAT16_DirEntry) := fat16_find_file_path filename.
Definition fat16_exists (filename : list Z) : F bool := r <- fat16_find_file filename;; ret (bool_decide (is_Some r)).
Definition fat16_is_directory_by_path (path : list Z) : F bool :=
  r <- fat16_find_file_path path;; ret (match r with Some e => fat16_is_dir e | None => false end).
Definition fat16_get_file_size (filename : list Z) : F Z :=
  r <- fat16_find_file_path filename;; ret (match r with Some e => FileSize e | None => 0 end).
Definition fat16_cd (path : option (list Z)) : F bool :=
  match path with
  | None | Some [] => ret false
  | Some path =>
    cwd <- gets current_path;;
    match Path.Path.normalize_path cwd path with
    | Fault => fault
    | NoFuel => nofuel
    | Ok normalized =>
      cluster <- fat16_resolve_dir normalized;;
      if cluster =? 0xFFFF then ret false else modify (with_cwd cluster (take 255 normalized));;; ret true
    end
  end.

(** *** The root directory by 8.3 names *)

Fixpoint root_free_in (k i : nat) (buf : list Z) : option nat :=
  match k with
  | O => None
  | S k' => let first := hd 0 (raw_at buf i) in if (first =? 0) || (first =? DELETED) then Some i else root_free_in k' (S i) buf
  end.
Definition _root_find_free_pos : F (option (Z * nat)) :=
  bpb <- gets fat16_bpb;; root <- gets root_dir_lba;; n <- gets root_dir_sectors;;
  r <- walk_run (fun _ s buf _ => match root_free_in (Z.to_nat (BytsPerSec bpb / 32)) 0 buf with
                                  | Some i => (false, Some (u32 (root + s), (i * DIRENT)%nat))
                                  | None => (true, None)
                                  end) (Z.to_nat n) 0 root 0 None;;
  ret (snd r).
(** The answer when the sector gives one, None to go on in the next *)
Fixpoint root_entry_in (k i : nat) (n x buf : list Z) : option (option nat) :=
  match k with
  | O => None
  | S k' =>
    let e := entry_at buf i in
    let first := hd 0 (raw_at buf i) in
    if first =? 0 then Some None
    else if (first =? DELETED) || (Attr e =? 0x0F) then root_entry_in k' (S i) n x buf
    else if bool_decide (Name e = n) && bool_decide (Ext e = x) then Some (Some i)
    else root_entry_in k' (S i) n x buf
  end.
Definition _root_find_entry_pos (filename : list Z) : F (option (Z * nat * FAT16_DirEntry)) :=
  bpb <- gets fat16_bpb;; root <- gets root_dir_lba;; n <- gets root_dir_sectors;;
  let '(wn, we) := _format_83 filename in
  r <- walk_run (fun _ s buf _ => match root_entry_in (Z.to_nat (BytsPerSec bpb / 32)) 0 wn we buf with
                                  | Some (Some i) => (false, Some (u32 (root + s), (i * DIRENT)%nat, entry_at buf i))
                                  | Some None => (false, None)
                                  | None => (true, None)
                                  end) (Z.to_nat n) 0 root 0 None;;
  ret (snd r).
(** An entry in a sector: a free one ends the sector, not the search. *)
Fixpoint raw_entry_in (k i : nat) (n x buf : list Z) : option nat :=
  match k with
  | O => None
  | S k' =>
    let e := entry_at buf i in
    let first := hd 0 (raw_at buf i) in
    if first =? 0 then None
    else if first =? DELETED then raw_entry_in k' (S i) n x buf
    else if (Z.land (Attr e) 0x08 =? 0) && bool_decide (Name e = n) && bool_decide (Ext e = x) then Some i
    else raw_entry_in k' (S i) n x buf
  end.
Definition fat16_find_file_raw (filename : list Z) : F (option (Z * nat)) :=
  bpb <- gets fat16_bpb;; root <- gets root_dir_lba;;
  let '(n, x) := format_filename filename in
  r <- walk_run (fun _ s buf _ => match raw_entry_in 16 0 n x buf with
                                  | Some i => (false, Some (u32 (root + s), (i * DIRENT)%nat))
                                  | None => (true, None)
                                  end) (Z.to_nat (RootEntCnt bpb * 32 / 512)) 0 root 0 None;;
  ret (snd r).

(** ** Names and slots of new entries *)

(** Does an entry of the sector have the short name? *)
Fixpoint short_name_in (k i : nat) (short_name buf : list Z) (a : bool) : bool * bool :=
  match k with
  | O => (true, a)
  | S k' =>
    let e := entry_at buf i in
    let first := hd 0 (raw_at buf i) in
    if first =? 0 then (false, false)
    else if (first =? DELETED) || (Attr e =? FAT16_LFN_ATTR) then short_name_in k' (S i) short_name buf a
    else if bool_decide (Name e = take 8 short_name) && bool_decide (Ext e = take 3 (drop 8 short_name)) then (false, true)
    else short_name_in k' (S i) short_name buf a
  end.
Definition fat16_short_name_exists (dir_cluster : Z) (short_name : list Z) : F bool :=
  r <- walk_dir (fun _ _ buf a => short_name_in ENTRIES_PER_SECTOR 0 short_name buf a) dir_cluster false;; ret (snd (fst r)).
Fixpoint alias_loop (k : nat) (n dir_cluster : Z) (base ext : list Z) : F (option (list Z)) :=
  match k with
  | O => ret None
  | S k' =>
    match alias_base base n with
    | None => alias_loop k' (n + 1) dir_cluster base ext
    | Some tmp =>
      let candidate := fat16_make_short_name_from_base_ext tmp ext in
      ex <- fat16_short_name_exists dir_cluster candidate;;
      if negb ex then ret (Some candidate) else alias_loop k' (n + 1) dir_cluster base ext
    end
  end.
Definition fat16_generate_short_name (dir_cluster : Z) (long_name : list Z) : F (option (list Z)) :=
  let '(b, ext) := fat16_extract_base_ext long_name 32 8 in
  let base := match b with [] => [70; 73; 76; 69] | _ => b end in
  let candidate := fat16_make_short_name_from_base_ext base ext in
  ex <- fat16_short_name_exists dir_cluster candidate;;
  if negb ex then ret (Some candidate) else alias_loop (Z.to_nat 9999) 1 dir_cluster base ext.

(** The free entries that follow each other at the end of what was seen; enough of them stop the
    search. *)
Fixpoint free_run (needed : nat) (k i : nat) (cluster s : Z) (buf : list Z) (run : list FAT16_DirSlot) : bool * list FAT16_DirSlot :=
  match k with
  | O => (true, run)
  | S k' =>
    let first := hd 0 (raw_at buf i) in
    if (first =? 0) || (first =? DELETED) then
      let run' := run ++ [Slot cluster s i] in
      if (length run' =? needed)%nat then (false, run') else free_run needed k' (S i) cluster s buf run'
    else free_run needed k' (S i) cluster s buf []
  end.
(** New clusters at the end of the directory, linked behind prev *)
Fixpoint grow_dir (k : nat) (first_new prev : Z) : F (option Z) :=
  match k with
  | O => ret (Some first_new)
  | S k' =>
    new_cl <- _alloc_cluster;;
    if negb (in_chain new_cl) then ret None
    else
      fat16_set_fat_entry new_cl 0xFFFF;;;
      (if 2 <=? prev then fat16_set_fat_entry prev new_cl else ret tt);;;
      lba <- cluster_to_lba new_cl;; spc <- sec_per_clus;;
      zero_sectors (Z.to_nat spc) lba;;;
      grow_dir k' (if first_new =? 0 then new_cl else first_new) new_cl
  end.
(** The slots of a cluster in order *)
Definition cluster_slots (cl spc : Z) : list FAT16_DirSlot :=
  flat_map (fun s => map (Slot cl (Z.of_nat s)) (seq 0 ENTRIES_PER_SECTOR)) (seq 0 (Z.to_nat spc)).
Fixpoint chain_slots (fuel : nat) (remaining : nat) (cl : Z) (slots : list FAT16_DirSlot) : F (option (list FAT16_DirSlot)) :=
  match fuel with
  | O => nofuel
  | S fuel' =>
    match remaining with
    | O => ret (Some slots)
    | _ =>
      if negb (in_chain cl) then ret None
      else
        spc <- sec_per_clus;;
        let new := take remaining (cluster_slots cl spc) in
        if (length new =? remaining)%nat then ret (Some (slots ++ new))
        else next <- fat16_next_cluster cl;; chain_slots fuel' (remaining - length new) next (slots ++ new)
    end
  end.
Definition fat16_find_free_slots (dir_cluster : Z) (needed : nat) : F (option (list FAT16_DirSlot)) :=
  r <- walk_dir (free_run needed ENTRIES_PER_SECTOR 0) dir_cluster [];;
  let '(go, run, last) := r in
  if negb go then ret (Some run)
  else if dir_cluster =? 0 then ret None
  else if (needed =? 0)%nat then ret (Some [])
  else
    spc <- sec_per_clus;;
    let epc := u32 (spc * 16) in
    if epc =? 0 then ret None
    else
      let n := (Z.of_nat needed + epc - 1) / epc in
      g <- grow_dir (Z.to_nat (if n =? 0 then 1 else n)) 0 last;;
      match g with
      | None => ret None
      | Some first_new => chain_slots CHAIN needed first_new []
      end.

(** The long name (empty when the short one suffices), the short name and the number of long-name
    entries for a new name in a directory *)
Definition new_names (dir_cluster : Z) (name : list Z) : F (option (list Z * list Z * nat)) :=
  if fat16_name_needs_lfn name then
    match fat16_lfn_prepare_name name with
    | None => ret None
    | Some long_name =>
      g <- fat16_generate_short_name dir_cluster long_name;;
      match g with
      | None => ret None
      | Some short_name =>
        let n := lfn_entry_count long_name in
        if (FAT16_LFN_MAX_ENTRIES <? n)%nat then ret None else ret (Some (long_name, short_name, n))
      end
    end
  else
    let '(n, e) := _format_83 name in
    ex <- fat16_short_name_exists dir_cluster (n ++ e);;
    if ex : bool then ret None else ret (Some (take 255 name, n ++ e, 0%nat)).

Fixpoint write_lfn_loop (k i count : nat) (slots : list FAT16_DirSlot) (long_name : list Z) (checksum : Z) : F unit :=
  match k with
  | O => ret tt
  | S k' =>
    slot <- lift_opt (slots !! i);;
    fat16_dir_write_raw slot (lfn_entry count i long_name checksum);;;
    write_lfn_loop k' (S i) count slots long_name checksum
  end.
Definition fat16_write_lfn_entries (slots : list FAT16_DirSlot) (count : nat) (long_name : list Z) (checksum : Z) : F unit :=
  write_lfn_loop count 0 count slots long_name checksum.
Definition write_new_entry (slots : list FAT16_DirSlot) (lfn_count : nat) (long_name short_name : list Z) (e : FAT16_DirEntry) : F unit :=
  (if (0 <? lfn_count)%nat then fat16_write_lfn_entries slots lfn_count long_name (fat16_lfn_checksum short_name) else ret tt);;;
  slot <- lift_opt (slots !! lfn_count);; fat16_dir_write_raw slot (entry_bytes e).
Definition new_entry (short_name : list Z) (attr cluster size : Z) : FAT16_DirEntry :=
  {| Name := take 8 short_name; Ext := take 3 (drop 8 short_name); Attr := attr; de_mid := zeros 14;
     FirstCluster := cluster; FileSize := size |}.

(** ** Files *)

(** Further clusters for the initial size of a file, filled with zeros as far as a buffer can be had *)
Fixpoint extend_file (k : nat) (prev cluster_size : Z) : F unit :=
  match k with
  | O => ret tt
  | S k' =>
    cl <- _alloc_cluster;;
    if negb (in_chain cl) then ret tt
    else
      fat16_set_fat_entry prev cl;;;
      fat16_set_fat_entry cl 0xFFFF;;;
      zero <- on_dev (kmalloc cluster_size);;
      (if zero =? 0 then ret tt
       else fat16_write_cluster cl (zeros (Z.to_nat cluster_size));;; on_dev (kfree zero));;;
      extend_file k' cl cluster_size
  end.
Definition fat16_create_file (filename : list Z) (initial_size : Z) : F Z :=
  sp <- lift_opt (split_path filename);;
  let '(dir, name) := sp in
  match name with
  | [] => ret 0
  | _ =>
    if bool_decide (name = [DOT]) || bool_decide (name = [DOT; DOT]) then ret 0
    else
      dir_cluster <- fat16_resolve_dir dir;;
      if dir_cluster =? 0xFFFF then ret 0
      else
        ex <- fat16_find_entry_slot dir_cluster name;;
        match ex with
        | Some _ => ret 0
        | None =>
          nm <- new_names dir_cluster name;;
          match nm with
          | None => ret 0
          | Some (long_name, short_name, lfn_count) =>
            sl <- fat16_find_free_slots dir_cluster (lfn_count + 1);;
            match sl with
            | None => ret 0
            | Some slots =>
              first <- _alloc_cluster;;
              if negb (in_chain first) then ret 0
              else
                fat16_set_fat_entry first 0xFFFF;;;
                spc <- sec_per_clus;;
                let cluster_size := spc * 512 in
                n <- udiv (u32 (u32 initial_size + cluster_size - 1)) cluster_size;;
                extend_file (Z.to_nat (s32 n - 1)) first cluster_size;;;
                write_new_entry slots lfn_count long_name short_name (new_entry short_name 0x20 first (u32 initial_size));;;
                ret 1
            end
          end
        end
  end.

(** The clusters of a file freed and overwritten with zeros, one after the other *)
Fixpoint wipe_loop (fuel : nat) (cl : Z) : F unit :=
  match fuel with
  | O => nofuel
  | S fuel' =>
    if negb (in_chain cl) then ret tt
    else
      next <- fat16_next_cluster cl;;
      fat16_set_fat_entry cl 0;;;
      lba <- cluster_to_lba cl;; spc <- sec_per_clus;;
      zero_sectors (Z.to_nat spc) lba;;;
      wipe_loop fuel' next
  end.
Definition write_cluster_data (lba : Z) (chunk : list Z) (tocpy : Z) : F unit :=
  let full_sectors := tocpy / SECTOR_SIZE in
  let tail_bytes := tocpy mod SECTOR_SIZE in
  (if 0 <? full_sectors then
     b <- lift_opt (slice chunk 0 (full_sectors * SECTOR_SIZE));; write_drive lba (u16 full_sectors) b;;; ret tt
   else ret tt);;;
  (if 0 <? tail_bytes then
     b <- lift_opt (slice chunk (full_sectors * SECTOR_SIZE) tail_bytes);;
     write_drive (u32 (lba + full_sectors)) 1 (b ++ zeros (Z.to_nat (SECTOR_SIZE - tail_bytes)));;; ret tt
   else ret tt).
(** The data in a new chain of clusters; None when there is no cluster left *)
Fixpoint write_chain (fuel : nat) (data : list Z) (size remaining first prev : Z) : F (option Z) :=
  match fuel with
  | O => nofuel
  | S fuel' =>
    if remaining <=? 0 then ret (Some first)
    else
      cl <- _alloc_cluster;;
      if negb (in_chain cl) then ret None
      else
        (if first =? 0 then ret tt else fat16_set_fat_entry prev cl);;;
        fat16_set_fat_entry cl 0xFFFF;;;
        lba <- cluster_to_lba cl;; spc <- sec_per_clus;;
        let tocpy := if spc * SECTOR_SIZE <? remaining then spc * SECTOR_SIZE else remaining in
        write_cluster_data lba (drop (Z.to_nat (size - remaining)) data) tocpy;;;
        fscmd_write_progress_update (u32 (size - (remaining - tocpy)));;;
        write_chain fuel' data size (remaining - tocpy) (if first =? 0 then cl else first) cl
  end.
(** The file exists: its clusters are replaced. *)
Definition overwrite_file (it : FAT16_DirItem) (data : list Z) (size : Z) : F Z :=
  let entry := it_entry it in
  if fat16_is_dir entry then ret (-1)
  else
    wipe_loop CHAIN (FirstCluster entry);;;
    r <- write_chain (S (Z.to_nat (u32 size))) data (u32 size) (u32 size) 0 0;;
    match r with
    | None => ret (-1)
    | Some first_cluster =>
      fat16_dir_write_raw (it_slot it) (entry_bytes (new_entry (Name entry ++ Ext entry) 0x20 first_cluster (u32 size)));;;
      ret size
    end.
Fixpoint write_file_loop (fuel : nat) (filename data : list Z) (size : Z) : F Z :=
  match fuel with
  | O => nofuel
  | S fuel' =>
    sp <- lift_opt (split_path filename);;
    let '(dir, fname) := sp in
    dir_cluster <- fat16_resolve_dir dir;;
    if dir_cluster =? 0xFFFF then ret (-1)
    else
      ex <- fat16_find_entry_slot dir_cluster fname;;
      match ex with
      | Some it => overwrite_file it data size
      | None =>
        c <- fat16_create_file filename 0;;
        if c =? 0 then ret (-1) else write_file_loop fuel' filename data size
      end
  end.
Definition fat16_write_file (filename : option (list Z)) (data : option (list Z)) (size : Z) : F Z :=
  match filename, data with
  | None, _ => ret (-1)
  | Some f, None => if 0 <? size then ret (-1) else write_file_loop CHAIN f [] size
  | Some f, Some d => write_file_loop CHAIN f d size
  end.

Fixpoint delete_slots (slots : list FAT16_DirSlot) : F unit :=
  match slots with
  | [] => ret tt
  | sl :: slots' => fat16_dir_mark_deleted sl;;; delete_slots slots'
  end.
Fixpoint rm_loop (fuel : nat) (cl : Z) : F unit :=
  match fuel with
  | O => nofuel
  | S fuel' =>
    if negb (in_chain cl) then ret tt
    else
      next <- fat16_get_fat_entry cl;;
      lba <- lba_of_cluster cl;; spc <- sec_per_clus;;
      zero_sectors (Z.to_nat spc) lba;;;
      fat16_set_fat_entry cl 0;;;
      rm_loop fuel' next
  end.
Definition fat16_rm (path : list Z) : F bool :=
  sp <- lift_opt (split_path path);;
  let '(dir, fname) := sp in
  match fname with
  | [] => ret false
  | _ =>
    cluster <- fat16_resolve_dir dir;;
    if cluster =? 0xFFFF then ret false
    else
      r <- fat16_find_entry_slot cluster fname;;
      match r with
      | None => ret false
      | Some it =>
        rm_loop CHAIN (FirstCluster (it_entry it));;;
        delete_slots (it_lfn_slots it);;; fat16_dir_mark_deleted (it_slot it);;;
        ret true
      end
  end.

(** ** Reading *)

Fixpoint skip_clusters (k : nat) (cluster : Z) : F (option Z) :=
  match k with
  | O => ret (Some cluster)
  | S k' => c <- fat16_get_fat_entry cluster;; if CLUSTER_EOF <=? c then ret None else skip_clusters k' c
  end.
(** The static buffer of fat16_read_file has 32768 bytes. *)
Definition READ_BUF : Z := 32768.
Fixpoint read_file_loop (fuel : nat) (cluster cluster_size intra to_read : Z) (out : list Z) : F (list Z) :=
  match fuel with
  | O => nofuel
  | S fuel' =>
    if negb (cluster <? CLUSTER_EOF) || negb (0 <? to_read) then ret out
    else if READ_BUF <? cluster_size then fault
    else
      buf <- fat16_read_cluster cluster;;
      let avail := cluster_size - intra in
      let copy := if to_read <? avail then to_read else avail in
      b <- lift_opt (slice buf intra copy);;
      next <- fat16_get_fat_entry cluster;;
      read_file_loop fuel' next cluster_size 0 (to_read - copy) (out ++ b)
  end.
(** The result, and the bytes in out_buf *)
Definition fat16_read_file (entry : FAT16_DirEntry) (offset size : Z) : F (Z * list Z) :=
  if FirstCluster entry =? 0 then ret (-1, [])
  else if FileSize entry <=? offset then ret (0, [])
  else
    let readable := FileSize entry - offset in
    let size := if readable <? size then readable else size in
    spc <- sec_per_clus;;
    let cluster_size := spc * 512 in
    q <- udiv offset cluster_size;;
    r <- umod offset cluster_size;;
    c <- skip_clusters (Z.to_nat q) (FirstCluster entry);;
    match c with
    | None => ret (0, [])
    | Some cluster => out <- read_file_loop (S (Z.to_nat size)) cluster cluster_size r size [];; ret (Z.of_nat (length out), out)
    end.
Definition fat16_read_file_by_name (fname : list Z) (max_size : Z) : F (Z * list Z) :=
  r <- fat16_find_file_path fname;;
  match r with
  | None => ret (-1, [])
  | Some e => if (FirstCluster e <? 2) || (CLUSTER_EOF <=? FirstCluster e) then ret (-1, []) else fat16_read_file e 0 max_size
  end.

Fixpoint skip_bytes_loop (fuel : nat) (cluster cluster_size skip : Z) : F (option (Z * Z)) :=
  match fuel with
  | O => nofuel
  | S fuel' =>
    if negb (cluster_size <=? skip) then ret (Some (cluster, skip))
    else
      c <- fat16_next_cluster cluster;;
      if CLUSTER_EOF <=? c then ret None else skip_bytes_loop fuel' c cluster_size (skip - cluster_size)
  end.
Fixpoint range_loop (fuel : nat) (cluster cluster_size skip size : Z) (out : list Z) : F (list Z) :=
  match fuel with
  | O => nofuel
  | S fuel' =>
    let bytes_read := Z.of_nat (length out) in
    if negb (bytes_read <? size) || negb (cluster <? CLUSTER_EOF) then ret out
    else
      temp <- fat16_read_cluster cluster;;
      let to_copy := cluster_size - skip in
      let to_copy := if size - bytes_read <? to_copy then size - bytes_read else to_copy in
      b <- lift_opt (slice temp skip to_copy);;
      next <- fat16_next_cluster cluster;;
      range_loop fuel' next cluster_size 0 size (out ++ b)
  end.
(** None when the read is refused, else the bytes in out_buf *)
Definition fat16_read_file_range (entry : FAT16_DirEntry) (offset size : Z) : F (option (list Z)) :=
  if FileSize entry <=? offset then ret None
  else
    let size := if FileSize entry <? u32 (offset + size) then FileSize entry - offset else size in
    bpb <- gets fat16_bpb;;
    let cluster_size := SecPerClus bpb * BytsPerSec bpb in
    temp <- on_dev (kmalloc cluster_size);;
    if temp =? 0 then ret None
    else
      sk <- skip_bytes_loop (S (Z.to_nat offset)) (FirstCluster entry) cluster_size offset;;
      match sk with
      | None => on_dev (kfree temp);;; ret None
      | Some (cluster, skip) =>
        out <- range_loop (S (Z.to_nat size)) cluster cluster_size skip size [];;
        on_dev (kfree temp);;; ret (Some out)
      end.
Definition fat16_read_file_partial (filename : list Z) (offset size : Z) : F (option (list Z)) :=
  r <- fat16_find_file filename;;
  match r with
  | None => ret None
  | Some e => fat16_read_file_range e offset size
  end.

Fixpoint cat_loop (fuel : nat) (cl remaining cluster_size : Z) (printed : list Z) : F (list Z) :=
  match fuel with
  | O => nofuel
  | S fuel' =>
    if negb (in_chain cl) then ret printed
    else
      buf <- fat16_read_cluster cl;;
      let to_read := if cluster_size <? remaining then cluster_size else remaining in
      b <- lift_opt (slice buf 0 to_read);;
      if remaining - to_read =? 0 then ret (printed ++ b)
      else next <- fat16_get_fat_entry cl;; cat_loop fuel' next (remaining - to_read) cluster_size (printed ++ b)
  end.
(** What is printed of a file; None when it is not found or a directory *)
Definition fat16_cat (path : list Z) : F (option (list Z)) :=
  r <- fat16_find_file_path path;;
  match r with
  | None => ret None
  | Some e =>
    if fat16_is_dir e then ret None
    else
      bpb <- gets fat16_bpb;;
      out <- cat_loop (S (Z.to_nat (FileSize e)) + CHAIN) (FirstCluster e) (FileSize e) (SecPerClus bpb * BytsPerSec bpb) [];;
      ret (Some out)
  end.

(** The entries of a sector that are in use, up to max of them *)
Fixpoint read_dir_entries (k i : nat) (max : Z) (buf : list Z) (acc : list FAT16_DirEntry) : bool * list FAT16_DirEntry :=
  match k with
  | O => (true, acc)
  | S k' =>
    if negb (Z.of_nat (length acc) <? max) then (true, acc)
    else
      let e := entry_at buf i in
      if hd 0 (raw_at buf i) =? 0 then (false, acc)
      else if (Z.land (Attr e) 0x0F =? 0x0F) || (hd 0 (raw_at buf i) =? DELETED) then read_dir_entries k' (S i) max buf acc
      else read_dir_entries k' (S i) max buf (acc ++ [e])
  end.
Fixpoint read_root (k : nat) (lba max : Z) (acc : list FAT16_DirEntry) : F (list FAT16_DirEntry) :=
  match k with
  | O => ret acc
  | S k' =>
    if negb (Z.of_nat (length acc) <? max) then ret acc
    else
      buf <- read_sector (u32 lba);;
      let '(go, acc') := read_dir_entries ENTRIES_PER_SECTOR 0 max buf acc in
      if go : bool then read_root k' (lba + 1) max acc' else ret acc'
  end.
Fixpoint read_dir_chain (fuel : nat) (current max : Z) (acc : list FAT16_DirEntry) : F (list FAT16_DirEntry) :=
  match fuel with
  | O => nofuel
  | S fuel' =>
    if negb (current <? CLUSTER_EOF) || negb (Z.of_nat (length acc) <? max) then ret acc
    else
      lba <- cluster_to_lba current;; spc <- sec_per_clus;;
      r <- walk_run (fun _ _ buf acc => read_dir_entries ENTRIES_PER_SECTOR 0 max buf acc) (Z.to_nat spc) current lba 0 acc;;
      if fst r : bool then next <- fat16_next_cluster current;; read_dir_chain fuel' next max (snd r) else ret (snd r)
  end.
Definition fat16_read_dir (cluster max_entries : Z) : F (list FAT16_DirEntry) :=
  if cluster =? 0 then
    root <- gets root_dir_lba;; n <- gets root_dir_sectors;; read_root (Z.to_nat n) root max_entries []
  else read_dir_chain CHAIN cluster max_entries [].

(** The names that fat16_list_dir_lfn collects, cut to name_len - 1 characters, and whether each is a directory *)
Definition item_name (it : FAT16_DirItem) : list Z :=
  match it_long it with Some (c :: l) => c :: l | _ => fat16_build_short_name_str (it_entry it) end.
Definition fat16_list_dir_cb (max : Z) (name_len : nat) (it : FAT16_DirItem) (acc : list (list Z * bool)) : bool * list (list Z * bool) :=
  if negb (Z.land (Attr (it_entry it)) 0x08 =? 0) then (true, acc)
  else
    let name := item_name it in
    if bool_decide (name = []) || bool_decide (name = [DOT]) || bool_decide (name = [DOT; DOT]) then (true, acc)
    else if max <=? Z.of_nat (length acc) then (false, acc)
    else (true, acc ++ [(take (name_len - 1) name, fat16_is_dir (it_entry it))]).
Definition fat16_list_dir_lfn (cluster max_entries : Z) (name_len : nat) : F (option (list (list Z * bool))) :=
  if (max_entries <=? 0) || (name_len =? 0)%nat then ret None
  else r <- fat16_iterate_dir cluster (fat16_list_dir_cb max_entries name_len) [];; ret (Some r).

(** ** Directories: creating and removing *)

Definition dot_entry (name : list Z) (cluster : Z) : FAT16_DirEntry := new_entry (pad 8 name ++ pad 3 []) 0x10 cluster 0.
Definition fat16_mkdir (dirname : option (list Z)) : F bool :=
  match dirname with
  | None | Some [] => ret false
  | Some path =>
    sp <- lift_opt (split_path path);;
    let '(dir, name) := sp in
    if bool_decide (name = []) || bool_decide (name = [DOT]) || bool_decide (name = [DOT; DOT]) then ret false
    else
      parent <- fat16_resolve_dir dir;;
      if parent =? 0xFFFF then ret false
      else
        ex <- fat16_find_entry_slot parent name;;
        match ex with
        | Some _ => ret false
        | None =>
          nm <- new_names parent name;;
          match nm with
          | None => ret false
          | Some (long_name, short_name, lfn_count) =>
            sl <- fat16_find_free_slots parent (lfn_count + 1);;
            match sl with
            | None => ret false
            | Some slots =>
              new_cl <- _alloc_cluster;;
              if negb (in_chain new_cl) then ret false
              else
                fat16_set_fat_entry new_cl 0xFFFF;;;
                write_new_entry slots lfn_count long_name short_name (new_entry short_name 0x10 new_cl 0);;;
                lba <- cluster_to_lba new_cl;; spc <- sec_per_clus;;
                write_sector lba (entry_bytes (dot_entry [DOT] new_cl) ++ entry_bytes (dot_entry [DOT; DOT] parent) ++ zeros 448);;;
                zero_sectors (Z.to_nat (spc - 1)) (lba + 1);;;
                ret true
            end
          end
        end
  end.

(** [Some b] when the sector settles the question *)
Fixpoint dir_empty_entries (k i : nat) (buf : list Z) : option bool :=
  match k with
  | O => None
  | S k' =>
    let e := entry_at buf i in
    let raw := raw_at buf i in
    if hd 0 raw =? 0 then Some true
    else if (hd 0 raw =? DELETED) || (Z.land (Attr e) 0x0F =? 0x0F) then dir_empty_entries k' (S i) buf
    else if (hd 0 raw =? DOT) && ((nth 1 raw 0 =? SPACE) || (nth 1 raw 0 =? DOT)) then dir_empty_entries k' (S i) buf
    else Some false
  end.
Fixpoint dir_empty_loop (k : nat) (lba : Z) : F bool :=
  match k with
  | O => ret true
  | S k' =>
    buf <- read_sector (u32 lba);;
    match dir_empty_entries ENTRIES_PER_SECTOR 0 buf with
    | Some b => ret b
    | None => dir_empty_loop k' (lba + 1)
    end
  end.
Definition is_dir_empty (clus : Z) : F bool :=
  lba <- lba_of_cluster clus;; spc <- sec_per_clus;; dir_empty_loop (Z.to_nat spc) lba.
Definition fat16_rmdir (path : list Z) : F bool :=
  sp <- lift_opt (split_path path);;
  let '(dir, name) := sp in
  match name with
  | [] => ret false
  | _ =>
    parent <- fat16_resolve_dir dir;;
    if parent =? 0xFFFF then ret false
    else
      r <- fat16_find_entry_slot parent name;;
      match r with
      | None => ret false
      | Some it =>
        if negb (fat16_is_dir (it_entry it)) then ret false
        else
          em <- is_dir_empty (FirstCluster (it_entry it));;
          if negb em then ret false
          else
            free_cluster_chain (FirstCluster (it_entry it));;;
            delete_slots (it_lfn_slots it);;; fat16_dir_mark_deleted (it_slot it);;;
            ret true
      end
  end.

(** ** Renaming, copying, moving *)

(** _write_entry_at, and _root_write_entry_at, which does the same *)
Definition _write_entry_at (lba : Z) (byte_offset : nat) (e : FAT16_DirEntry) : F unit :=
  buf <- read_sector lba;;
  buf' <- lift_opt (splice buf (Z.of_nat byte_offset) (entry_bytes e));;
  write_sector lba buf'.
Definition fat16_rename (oldname newname : list Z) : F bool :=
  sp <- lift_opt (split_path oldname);;
  let '(old_dir, old_base) := sp in
  parent <- fat16_resolve_dir old_dir;;
  if parent =? 0xFFFF then ret false
  else
    r <- _find_entry_pos_in_dir old_base parent;;
    match r with
    | None => ret false
    | Some (lba, off, e) =>
      let '(n, x) := _format_83 newname in
      _write_entry_at lba off {| Name := n; Ext := x; Attr := Attr e; de_mid := de_mid e; FirstCluster := FirstCluster e; FileSize := FileSize e |};;;
      ret true
    end.
(** Where a copy goes: into the directory that dst names, under the name of src *)
Definition cp_target (src dst : list Z) : F (option (list Z)) :=
  if bool_decide (dst = [SLASH]) then ret (Some (take 255 (SLASH :: _basename src)))
  else
    r <- fat16_find_file_path dst;;
    match r with
    | Some e => ret (Some (if fat16_is_dir e then take 255 (dst ++ SLASH :: _basename src) else dst))
    | None => d <- fat16_is_directory_by_path dst;; ret (if d : bool then None else Some dst)
    end.
Definition fat16_cp (src dst : list Z) : F bool :=
  ex <- fat16_exists src;;
  if negb ex then ret false
  else
    target <- cp_target src dst;;
    match target with
    | None => ret false
    | Some dst =>
      size <- fat16_get_file_size src;;
      if size =? 0 then ret false
      else
        buf <- on_dev (kmalloc size);;
        if buf =? 0 then ret false
        else
          r <- fat16_read_file_by_name src size;;
          if fst r =? 0 then on_dev (kfree buf);;; ret false
          else
            written <- fat16_write_file (Some dst) (Some (snd r)) (s32 size);;
            on_dev (kfree buf);;; ret (0 <? written)
    end.
Definition fat16_mv (src dst : list Z) : F bool :=
  ex <- fat16_find_file_path src;;
  match ex with
  | None => ret false
  | Some _ =>
    target <- (if bool_decide (dst = [SLASH]) then ret (take 255 (SLASH :: _basename src))
               else
                 r <- fat16_find_file_path dst;;
                 match r with
                 | Some e =>
                   if fat16_is_dir e then
                     let p := dst ++ (if List.last dst 0 =? SLASH then [] else [SLASH]) ++ _basename src in
                     if (256 <=? length p)%nat then fault else ret p
                   else ret dst
                 | None => ret dst
                 end);;
    c <- fat16_cp src target;;
    if negb c then ret false else fat16_rm src
  end.

(** ** The size of the volume *)

Definition fat16_total_clusters : F Z :=
  bpb <- gets fat16_bpb;;
  ret (if (SecPerClus bpb =? 0) || (BytsPerSec bpb =? 0) then 0
       else if total_sectors bpb =? 0 then 0
       else data_sectors bpb / SecPerClus bpb).
Fixpoint count_free (k i : nat) (sector : list Z) : Z :=
  match k with
  | O => 0
  | S k' => (if get16 sector (2 * i) =? 0 then 1 else 0) + count_free k' (S i) sector
  end.
Fixpoint free_clusters_loop (k : nat) (lba : Z) (per_sector : nat) (count : Z) : F Z :=
  match k with
  | O => ret count
  | S k' =>
    r <- read_drive (u32 lba) 1;;
    free_clusters_loop k' (lba + 1) per_sector (match r with Some sec => count + count_free per_sector 0 sec | None => count end)
  end.
Definition fat16_free_clusters : F Z :=
  bpb <- gets fat16_bpb;; fat <- gets fat_start_lba;;
  if (SecPerClus bpb =? 0) || (BytsPerSec bpb =? 0) then ret 0
  else if (FATSz16 bpb =? 0) || (NumFATs bpb =? 0) then ret 0
  else free_clusters_loop (Z.to_nat (FATSz16 bpb)) (fat + RsvdSecCnt bpb) (Z.to_nat (BytsPerSec bpb / 2)) 0.

(** ** Formatting *)

(** FA 31 C0 8E D0 BC 00 7C FB E9 00 00 *)
Definition BOOTCODE : list Z := [0xFA; 0x31; 0xC0; 0x8E; 0xD0; 0xBC; 0; 0x7C; 0xFB; 0xE9; 0; 0].
Definition format_fatsz (total : Z) : Z :=
  let data := u32 (total - (1 + 32 + 2 * 250)) in
  let fatsz := u16 (u32 (data / 4 * 2 + 511) / 512) in
  if fatsz <? 1 then 1 else fatsz.
Definition format_bpb (base_lba total : Z) (label : list Z) : FAT16_BPB_t :=
  {| jmpBoot := [0xEB; 0x3C; 0x90]; OEMName := [79; 82; 73; 79; 78; 79; 83; 32]; BytsPerSec := 512; SecPerClus := 4; RsvdSecCnt := 1;
     NumFATs := 2; RootEntCnt := 512; TotSec16 := if total <? 65536 then total else 0; Media := 0xF8; FATSz16 := format_fatsz total;
     SecPerTrk := 32; NumHeads := 64; HiddSec := base_lba; TotSec32 := if total <? 65536 then 0 else total;
     DrvNum := 0x80; Reserved1 := 0; BootSig := 0x29; VolID := 0x12345678; VolLab := pad 11 label;
     FilSysType := [70; 65; 84; 49; 54; 32; 32; 32] |}.
Definition boot_sector (bpb : FAT16_BPB_t) : list Z := bpb_bytes bpb ++ BOOTCODE ++ zeros (510 - 62 - 12) ++ [0x55; 0xAA].
(** The sectors from lba on, the first as given, the others zero *)
Fixpoint format_fat (k : nat) (drive lba : Z) (sector : list Z) : F unit :=
  match k with
  | O => ret tt
  | S k' => on_dev (ata_write_sector drive (u32 lba) sector);;; format_fat k' drive (lba + 1) (zeros 512)
  end.
Definition fat16_format_at (drive base_lba total : Z) (label : option (list Z)) : F bool :=
  if total =? 0 then ret false
  else
    let bpb := format_bpb base_lba total (default [] label) in
    on_dev (ata_write_sector drive base_lba (boot_sector bpb));;;
    let fat_start := u32 (base_lba + RsvdSecCnt bpb) in
    format_fat (Z.to_nat (NumFATs bpb * FATSz16 bpb)) drive fat_start ([0xF8; 0xFF; 0xFF; 0xFF] ++ zeros 508);;;
    format_fat (Z.to_nat (root_sectors bpb)) drive (fat_start + NumFATs bpb * FATSz16 bpb) (zeros 512);;;
    ret true.
Definition fat16_format (drive : Z) (label : option (list Z)) : F bool :=
  total <- on_dev (ata_get_sector_count drive);; fat16_format_at drive 0 total label.
End ops.
End Fat16.
