(* ===== verification/SparseDev.v ===== *)
(** * A sparse drive

    A drive of a given size that holds only the sectors that were written; the others are zero.  It
    fulfils the contract of [BlockDev] and runs the file systems on volumes of realistic size.  It
    also hands out buffers, as many as its counter allows. *)
From S2P Require Import Prelude BlockDev Fat16.

Record sparse := Sparse { sd_size : Z; sd_map : sectors; sd_buffers : Z }.
Definition zero_sector : list Z := replicate 512 0.
Definition sd_get (d : sparse) (x : Z) : list Z := default zero_sector (sd_map d !! x).
Fixpoint sd_run (k : nat) (d : sparse) (x : Z) : list Z :=
  match k with
  | O => []
  | S k' => sd_get d x ++ sd_run k' d (x + 1)
  end.
(** Drive 0 has the count sectors from lba on. *)
Definition sd_in (d : sparse) (drive lba count : Z) : bool :=
  (drive =? 0) && (0 <=? lba) && (1 <=? count) && (lba + count <=? sd_size d).

#[global] Instance sparse_dev : BlockDev sparse := {
  ata_read drive lba count := fun d => Ok (if sd_in d drive lba count then Some (sd_run (Z.to_nat count) d lba) else None, d);
  ata_write drive lba count b := fun d =>
    if sd_in d drive lba count then Ok (true, Sparse (sd_size d) (put_run (sd_map d) lba (Z.to_nat count) b) (sd_buffers d)) else Ok (false, d);
  ata_get_sector_count drive := fun d => Ok (if drive =? 0 then sd_size d else 0, d);
}.
#[global] Instance sparse_buffers : Fat16.Buffers sparse := {
  Fat16.kmalloc n := fun d => Ok (if 0 <? sd_buffers d then (4096, Sparse (sd_size d) (sd_map d) (sd_buffers d - 1)) else (0, d));
  Fat16.kfree p := fun d => Ok (tt, Sparse (sd_size d) (sd_map d) (sd_buffers d + 1));
}.

(** All sectors of the drive *)
Definition all_zero (n : Z) : sectors := gset_to_gmap zero_sector (list_to_set (map Z.of_nat (seq 0 (Z.to_nat n)))).
Definition sd_sectors (d : sparse) (drive : Z) : sectors := if drive =? 0 then sd_map d ∪ all_zero (sd_size d) else ∅.

Record sparse_ok (d : sparse) : Prop := {
  sp_size : 0 <= sd_size d <= 4294967296;
  sp_map : forall x b, sd_map d !! x = Some b -> 0 <= x < sd_size d /\ is_sector b;
}.

Lemma zero_sector_ok : is_sector zero_sector.
Proof. split; [done|]. apply Forall_replicate. unfold is_u8. lia. Qed.
Lemma all_zero_lookup n x : all_zero n !! x = if decide (0 <= x < n) then Some zero_sector else None.
Proof.
  unfold all_zero. rewrite lookup_gset_to_gmap. case_decide as Hx.
  - rewrite option_guard_True; [done|]. apply elem_of_list_to_set, list_elem_of_In, in_map_iff. exists (Z.to_nat x).
    rewrite in_seq. split; lia.
  - rewrite option_guard_False; [done|]. intros (i & <- & Hi%in_seq)%elem_of_list_to_set%list_elem_of_In%in_map_iff. lia.
Qed.
Lemma sd_sectors_lookup d x : sparse_ok d ->
  sd_sectors d 0 !! x = if decide (0 <= x < sd_size d) then Some (sd_get d x) else None.
Proof.
  intros [_ Hm]. unfold sd_sectors, sd_get. cbn [Z.eqb]. rewrite lookup_union, all_zero_lookup.
  destruct (sd_map d !! x) as [b|] eqn:E; case_decide as Hx; try done.
  by destruct (Hm _ _ E).
Qed.
Lemma sd_get_ok d x : sparse_ok d -> is_sector (sd_get d x).
Proof. intros [_ Hm]. unfold sd_get. destruct (sd_map d !! x) eqn:E; [by eapply Hm|apply zero_sector_ok]. Qed.
Lemma sd_run_get k : forall d x, sparse_ok d -> 0 <= x -> x + Z.of_nat k <= sd_size d -> sd_run k d x = get_run (sd_sectors d 0) x k.
Proof.
  induction k as [|k IH]; intros d x Hok Hx Hl; cbn [sd_run get_run]; [done|].
  rewrite sd_sectors_lookup, decide_True by (done || lia). f_equal. apply IH; [done|lia|lia].
Qed.
Lemma sd_in_run d drive lba count : sparse_ok d -> 1 <= count -> has_run (sd_sectors d drive) lba (Z.to_nat count) ->
  drive = 0 /\ 0 <= lba /\ lba + count <= sd_size d /\ sd_in d drive lba count = true.
Proof.
  intros Hok Hc Hr. unfold sd_in, sd_sectors in *. destruct (Z.eqb_spec drive 0) as [->|].
  - change (sd_map d ∪ all_zero (sd_size d)) with (sd_sectors d 0) in Hr.
    pose proof (Hr 0%nat ltac:(lia)) as [a Ha]. pose proof (Hr (Z.to_nat (count - 1)) ltac:(lia)) as [b Hb].
    rewrite sd_sectors_lookup in Ha, Hb by done. case_decide as H1; [|done]. case_decide as H2; [|done].
    rewrite !(proj2 (Z.leb_le _ _)) by lia. split_and!; [done|lia|lia|done].
  - pose proof (Hr 0%nat ltac:(lia)) as [a Ha]. by rewrite lookup_empty in Ha.
Qed.
Lemma put_run_union k : forall (m z : sectors) a b, put_run (m ∪ z) a k b = put_run m a k b ∪ z.
Proof. induction k as [|k IH]; intros m z a b; cbn [put_run]; [done|]. by rewrite insert_union_l, IH. Qed.
Lemma put_run_ok k : forall (m : sectors) a b n, (forall x c, m !! x = Some c -> 0 <= x < n /\ is_sector c) -> 0 <= a -> a + Z.of_nat k <= n ->
  length b = (k * 512)%nat -> Forall is_u8 b -> forall x c, put_run m a k b !! x = Some c -> 0 <= x < n /\ is_sector c.
Proof.
  induction k as [|k IH]; intros m a b n Hm Ha Hn Hl Hu; cbn [put_run]; [done|].
  apply IH; [|lia|lia|rewrite length_drop; lia|by apply Forall_drop].
  intros x c. rewrite lookup_insert. case_decide; [|apply Hm]. intros [= <-]. split; [lia|].
  split; [rewrite length_take; lia|by apply Forall_take].
Qed.

#[global] Program Instance sparse_dev_ok : BlockDevOk sparse := {
  dev_ok := sparse_ok;
  dev_sectors := sd_sectors;
  dev_covers d drive := drive = 0;
}.
Next Obligation.
  intros d drive lba b Hok. unfold sd_sectors. destruct (Z.eqb_spec drive 0); [|by rewrite lookup_empty].
  change (sd_map d ∪ all_zero (sd_size d)) with (sd_sectors d 0). rewrite sd_sectors_lookup by done.
  case_decide; [|done]. intros [= <-]. split; [by apply sd_get_ok|]. destruct (sp_size d Hok). unfold is_u32. lia.
Qed.
Next Obligation.
  intros d drive lba count Hok Hc Hr. destruct (sd_in_run d drive lba count Hok ltac:(lia) Hr) as (-> & Hl & Hs & Hin).
  exists d. cbn. rewrite Hin, sd_run_get by (done || lia). done.
Qed.
Next Obligation.
  intros d drive lba Hok -> Hu Hn. exists d. cbn. replace (sd_in d 0 lba 1) with false; [done|]. symmetry. unfold sd_in. cbn [Z.eqb andb].
  rewrite sd_sectors_lookup in Hn by done. case_decide; [done|]. bdestr; simpl; try done. unfold is_u32 in Hu. lia.
Qed.
Next Obligation.
  intros d drive lba count b Hok Hc Hr Hl Hu. destruct (sd_in_run d drive lba count Hok ltac:(lia) Hr) as (-> & H0 & Hs & Hin).
  exists (Sparse (sd_size d) (put_run (sd_map d) lba (Z.to_nat count) b) (sd_buffers d)). cbn. rewrite Hin. split_and!; [done| | |].
  - split; [apply Hok|]. cbn [sd_map sd_size]. apply (put_run_ok _ _ _ _ (sd_size d)); [apply Hok|done|lia|done|done].
  - unfold sd_sectors. cbn. by rewrite put_run_union.
  - intros drive' Hd. unfold sd_sectors. by rewrite (proj2 (Z.eqb_neq _ _)).
Qed.
Next Obligation.
  intros d drive lba b Hok -> Hu Hn _. exists d. cbn. replace (sd_in d 0 lba 1) with false; [done|]. symmetry. unfold sd_in. cbn [Z.eqb andb].
  rewrite sd_sectors_lookup in Hn by done. case_decide; [done|]. bdestr; simpl; try done. unfold is_u32 in Hu. lia.
Qed.
