(* ===== verification/Fat16Vol.v ===== *)
(** * FAT16: the volume behind the block device

    [vol g s F m]: the state s has a volume of geometry g mounted whose allocation table is the
    function F and whose sectors behind the tables are m.  The rules for reading and writing table
    entries and sectors are stated on F and m, so that a change of the table leaves directories and
    data alone and the other way round. *)
From S2P Require Import Prelude BlockDev Fat16Name Fat16.
Import Fat16Name Fat16.

Record geo := Geo {
  g_fat : Z; g_fatsz : Z; g_nfats : Z; g_root : Z; g_rootn : Z; g_data : Z; g_spc : Z; g_drive : Z;
}.
(** The number of table entries, and the end of the last cluster *)
Definition g_entries (g : geo) : Z := 256 * g_fatsz g.
Definition g_end (g : geo) : Z := g_data g + (g_entries g - 2) * g_spc g.
(** The tables, the root directory and the clusters follow each other; every entry of the table has
    its cluster on the drive, and no cluster number is one of the end marks. *)
Record geo_ok (g : geo) : Prop := {
  go_fat : 0 <= g_fat g;
  go_nfats : 1 <= g_nfats g <= 255;
  go_fatsz : 1 <= g_fatsz g;
  go_entries : g_entries g <= 0xFFF8;
  go_root : g_fat g + g_nfats g * g_fatsz g <= g_root g;
  go_rootn : 0 <= g_rootn g;
  go_data : g_root g + g_rootn g <= g_data g;
  go_spc : 1 <= g_spc g <= 128;
  go_end : g_end g < 4294967296;
  go_drive : is_u8 (g_drive g);
}.

(** The sector and the offset of an entry in the first table *)
Definition fat_sector (g : geo) (c : Z) : Z := g_fat g + c / 256.
Definition fat_index (c : Z) : nat := Z.to_nat (2 * (c mod 256)).

(** Functions changed in one place *)
Definition upd {A} (f : Z -> A) (i : Z) (v : A) (x : Z) : A := if decide (x = i) then v else f x.
Lemma upd_eq {A} (f : Z -> A) i v : upd f i v i = v.
Proof. unfold upd. by rewrite decide_True. Qed.
Lemma upd_ne {A} (f : Z -> A) i v x : x <> i -> upd f i v x = f x.
Proof. intros. unfold upd. by rewrite decide_False. Qed.

(** ** Sixteen-bit fields of a sector *)

Lemma get16_take_drop b o n : (2 <= n)%nat -> get16 (take n (drop o b)) 0 = get16 b o.
Proof. intros Hn. unfold get16. rewrite !nth_lookup, !lookup_take_lt, !lookup_drop by lia. f_equal; f_equal; f_equal; f_equal; lia. Qed.
Lemma get16_ext b c o : (forall i, (o <= i < o + 2)%nat -> b !! i = c !! i) -> get16 b o = get16 c o.
Proof. intros He. unfold get16. rewrite !nth_lookup, !He by lia. done. Qed.
Lemma get16_splice b off w b' : 0 <= w < 65536 -> splice b off (bytes16 w) = Some b' -> get16 b' (Z.to_nat off) = w.
Proof.
  intros Hw Hs. unfold splice in Hs. destruct (_ && _) eqn:Hc; [|done]. apply andb_true_iff in Hc as [?%Z.leb_le Hl%Z.leb_le].
  cbn [length bytes16] in Hl. injection Hs as <-. unfold get16. rewrite !nth_lookup, !lookup_app_r by (rewrite length_take; lia).
  rewrite length_take, Nat.min_l by lia. rewrite Nat.sub_diag. replace (Z.to_nat off + 1 - Z.to_nat off)%nat with 1%nat by lia.
  cbn. rewrite Z.shiftr_div_pow2 by lia. change (2 ^ 8) with 256. word_lia.
Qed.
Lemma bytes16_u8 w : Forall is_u8 (bytes16 w).
Proof. unfold bytes16. repeat constructor; apply u8_range. Qed.

Section vol.
Context {D : Type} `{BlockDevOk D} `{Buffers D}.
Implicit Types s : @fat16 D.

Definition geo_of s : geo :=
  Geo (fat_start_lba s) (FATSz16 (fat16_bpb s)) (NumFATs (fat16_bpb s)) (root_dir_lba s) (root_dir_sectors s) (data_region_lba s)
      (SecPerClus (fat16_bpb s)) (u8 (fat16_drive s)).
Definition vsec s : sectors := dev_sectors (dev s) (u8 (fat16_drive s)).

Record vol (g : geo) s (F : Z -> Z) (m : Z -> list Z) : Prop := {
  v_ok : dev_ok (dev s);
  v_geo : geo_of s = g;
  v_geo_ok : geo_ok g;
  v_bps : BytsPerSec (fat16_bpb s) = 512;
  v_first : fat16_first_data_sector s = g_data g;
  v_hint : 0 <= fat16_alloc_hint s < 65536;
  v_has : forall x, g_fat g <= x < g_end g -> is_Some (vsec s !! x);
  v_fat : forall c, 0 <= c < g_entries g ->
    exists b, vsec s !! fat_sector g c = Some b /\ get16 b (fat_index c) = F c;
  v_sec : forall x, g_root g <= x < g_end g -> vsec s !! x = Some (m x);
}.

(** Two functions that agree where it matters describe the same volume. *)
Lemma vol_ext g s F m F' m' : vol g s F m -> (forall c, 0 <= c < g_entries g -> F' c = F c) ->
  (forall x, g_root g <= x < g_end g -> m' x = m x) -> vol g s F' m'.
Proof.
  intros [] HF Hm. constructor; try done.
  - intros c Hc. destruct (v_fat0 c Hc) as (b & ? & ?). exists b. by rewrite HF.
  - intros x Hx. rewrite Hm by done. by apply v_sec0.
Qed.
Lemma vol_sector g s F m x : vol g s F m -> g_root g <= x < g_end g -> is_sector (m x).
Proof. intros Hv Hx. destruct (dev_sector_ok _ _ _ _ (v_ok _ _ _ _ Hv) (v_sec _ _ _ _ Hv x Hx)) as [Hs _]. done. Qed.

Lemma geo_order g : geo_ok g -> 0 <= g_fat g /\ g_fat g + g_fatsz g <= g_root g /\ g_root g <= g_data g <= g_end g /\ g_end g < 4294967296 /\ 2 <= g_entries g /\ 1 <= g_fatsz g.
Proof. intros [? ? ? ? ? ? ? ? ? ?]. unfold g_end, g_entries in *. nia. Qed.

(** ** The device *)

Lemma wp_fat_dev {A} P (c : M D A) (Q : A -> fat16 -> Prop) s : wp P c (fun a d => Q a (with_dev d s)) (dev s) -> wp P (on_dev c) Q s.
Proof. unfold wp, on_dev. by destruct (c (dev s)) as [[a d]| |]. Qed.

(** The part of a state that reading and writing the volume leaves alone *)
Definition same_env s s' : Prop :=
  current_dir_cluster16 s' = current_dir_cluster16 s /\ current_path s' = current_path s /\
  fat16_bpb s' = fat16_bpb s /\ fat16_drive s' = fat16_drive s.
Lemma same_env_trans s1 s2 s3 : same_env s1 s2 -> same_env s2 s3 -> same_env s1 s3.
Proof. unfold same_env. intuition congruence. Qed.

Lemma wp_read_sector P g s F m x b (Q : list Z -> fat16 -> Prop) : vol g s F m -> g_fat g <= x < g_end g -> vsec s !! x = Some b ->
  (forall s', vol g s' F m -> same_env s s' -> fat16_alloc_hint s' = fat16_alloc_hint s -> vsec s' = vsec s -> Q b s') ->
  wp P (read_sector x) Q s.
Proof.
  intros Hv Hx Hb HQ. unfold read_sector, read_drive. apply wp_bind, wp_bind, wp_gets, wp_fat_dev.
  destruct (dev_read (dev s) (u8 (fat16_drive s)) x 1 (v_ok _ _ _ _ Hv)) as (d' & E & Hd & Hs); [lia| |].
  { intros i Hi. replace (x + Z.of_nat i) with x by lia. unfold vsec in Hb. eauto. }
  unfold vsec in Hb. change (Z.to_nat 1) with 1%nat in E. cbn [get_run] in E. rewrite Hb in E. cbn [default] in E. rewrite app_nil_r in E.
  eapply wp_ok; [exact E|].
  apply wp_lift_some, HQ; [|done|done|unfold vsec; cbn; by rewrite Hs].
  destruct Hv as [? ? ? ? ? ? Hh Hf Hm]. unfold vsec in *. constructor; try done; unfold vsec, with_dev; cbn [dev fat16_drive]; rewrite Hs; done.
Qed.
(** A sector of the root directory or of a cluster *)
Lemma wp_read_data P g s F m x (Q : list Z -> fat16 -> Prop) : vol g s F m -> g_root g <= x < g_end g ->
  (forall s', vol g s' F m -> same_env s s' -> fat16_alloc_hint s' = fat16_alloc_hint s -> Q (m x) s') -> wp P (read_sector x) Q s.
Proof.
  intros Hv Hx HQ. eapply wp_read_sector; [exact Hv| |by apply (v_sec _ _ _ _ Hv)|by intros; apply HQ].
  pose proof (geo_order g (v_geo_ok _ _ _ _ Hv)). pose proof (go_fatsz g (v_geo_ok _ _ _ _ Hv)). lia.
Qed.

(** Sectors behind the tables overwritten by the sectors of b *)
Definition put_data (m : Z -> list Z) (x : Z) (k : nat) (b : list Z) (y : Z) : list Z :=
  if decide (x <= y < x + Z.of_nat k) then take 512 (drop (512 * Z.to_nat (y - x)) b) else m y.
Lemma wp_write_sectors P g s F m x k b (Q : bool -> fat16 -> Prop) : vol g s F m -> (1 <= k <= 256)%nat ->
  g_root g <= x -> x + Z.of_nat k <= g_end g -> length b = (k * 512)%nat -> Forall is_u8 b ->
  (forall s', vol g s' F (put_data m x k b) -> same_env s s' -> fat16_alloc_hint s' = fat16_alloc_hint s -> Q true s') ->
  wp P (write_drive x (Z.of_nat k) b) Q s.
Proof.
  intros Hv Hk Hx Hn Hl Hu HQ. pose proof (geo_order g (v_geo_ok _ _ _ _ Hv)) as (Hg0 & Hg1 & Hg2 & Hg3 & Hg4).
  unfold write_drive. apply wp_bind, wp_gets, wp_fat_dev.
  destruct (dev_write (dev s) (u8 (fat16_drive s)) x (Z.of_nat k) b (v_ok _ _ _ _ Hv)) as (d' & E & Hd & Hs & _);
    [lia|rewrite Nat2Z.id; intros i Hi; apply (v_has _ _ _ _ Hv); pose proof (go_fatsz g (v_geo_ok _ _ _ _ Hv)); lia|by rewrite Nat2Z.id|done|].
  rewrite Nat2Z.id in Hs. eapply wp_ok; [exact E|]. apply HQ; [|done|done].
  destruct Hv as [? Hgeo Hgok ? ? ? Hh Hf Hm]. constructor; try done; unfold vsec, with_dev in *; cbn [dev fat16_drive]; rewrite Hs.
  - intros y Hy. specialize (Hh y Hy). destruct (decide (y < x \/ x + Z.of_nat k <= y)) as [Ho|Hi]; [by rewrite put_run_out|].
    replace y with (x + Z.of_nat (Z.to_nat (y - x))) by lia. rewrite put_run_in by lia. eauto.
  - intros c Hc. destruct (Hf c Hc) as (b' & Hb' & Hg'). exists b'. split; [|done]. rewrite put_run_out; [done|]. left.
    unfold fat_sector, g_entries in *. pose proof (go_fatsz g Hgok). word_lia.
  - intros y Hy. unfold put_data. case_decide as Hi; [|rewrite put_run_out by lia; by apply Hm].
    replace y with (x + Z.of_nat (Z.to_nat (y - x))) at 1 by lia. by rewrite put_run_in by lia.
Qed.

(** ** Entries of the table *)

Lemma fat_offset c : 0 <= c -> c * 2 / 512 = c / 256 /\ c * 2 mod 512 = 2 * (c mod 256).
Proof. intros. word_lia. Qed.
Lemma fat_sector_in g c : geo_ok g -> 0 <= c < g_entries g -> g_fat g <= fat_sector g c < g_fat g + g_fatsz g.
Proof. intros [] Hc. unfold fat_sector, g_entries in *. word_lia. Qed.
Lemma vol_fat_field g s F m c : vol g s F m -> 0 <= c < g_entries g ->
  exists b, vsec s !! fat_sector g c = Some b /\ is_sector b /\ slice b (2 * (c mod 256)) 2 = Some (take 2 (drop (fat_index c) b)) /\
    get16 (take 2 (drop (fat_index c) b)) 0 = F c.
Proof.
  intros Hv Hc. destruct (v_fat _ _ _ _ Hv c Hc) as (b & Hb & Hg).
  destruct (dev_sector_ok _ _ _ _ (v_ok _ _ _ _ Hv) Hb) as [Hs _]. exists b. split_and!; [done|done| |].
  - destruct Hs as [Hl _]. rewrite slice_in by word_lia. done.
  - by rewrite get16_take_drop.
Qed.

Lemma wp_get_fat P g s F m c (Q : Z -> fat16 -> Prop) : vol g s F m -> 0 <= c < g_entries g ->
  (forall s', vol g s' F m -> same_env s s' -> fat16_alloc_hint s' = fat16_alloc_hint s -> Q (F c) s') -> wp P (fat16_get_fat_entry c) Q s.
Proof.
  intros Hv Hc HQ. pose proof (v_geo_ok _ _ _ _ Hv) as Hg. pose proof (geo_order g Hg). pose proof (fat_sector_in g c Hg Hc).
  destruct (vol_fat_field _ _ _ _ c Hv Hc) as (b & Hb & _ & Hsl & HF). destruct (fat_offset c) as [E1 E2]; [lia|].
  unfold fat16_get_fat_entry. apply wp_bind, wp_gets, wp_bind, wp_gets. unfold FAT_ENTRY_SIZE, udiv, umod. rewrite (v_bps _ _ _ _ Hv).
  cbn [Z.eqb]. apply wp_bind, wp_ret, wp_bind, wp_ret. rewrite E1, E2.
  pose proof (v_geo _ _ _ _ Hv) as Hgeo. replace (fat_start_lba s) with (g_fat g) by (by rewrite <-Hgeo).
  change (g_fat g + c / 256) with (fat_sector g c). rewrite u32_small by (unfold is_u32; lia).
  apply wp_bind. eapply wp_read_sector; [exact Hv|lia|exact Hb|]. intros s' Hv' He Hh _.
  rewrite Hsl. apply wp_bind, wp_lift_some, wp_ret. rewrite HF. by apply HQ.
Qed.
Lemma wp_next_cluster P g s F m c (Q : Z -> fat16 -> Prop) : vol g s F m -> 0 <= c < g_entries g ->
  (forall s', vol g s' F m -> same_env s s' -> fat16_alloc_hint s' = fat16_alloc_hint s -> Q (F c) s') -> wp P (fat16_next_cluster c) Q s.
Proof.
  intros Hv Hc HQ. pose proof (v_geo_ok _ _ _ _ Hv) as Hg. pose proof (geo_order g Hg). pose proof (fat_sector_in g c Hg Hc).
  destruct (vol_fat_field _ _ _ _ c Hv Hc) as (b & Hb & _ & Hsl & HF). destruct (fat_offset c) as [E1 E2]; [lia|].
  unfold fat16_next_cluster. apply wp_bind, wp_gets. rewrite E1, E2.
  pose proof (v_geo _ _ _ _ Hv) as Hgeo. replace (fat_start_lba s) with (g_fat g) by (by rewrite <-Hgeo).
  change (g_fat g + c / 256) with (fat_sector g c). rewrite u32_small by (unfold is_u32; lia).
  apply wp_bind. eapply wp_read_sector; [exact Hv|lia|exact Hb|]. intros s' Hv' He Hh _.
  rewrite Hsl. apply wp_bind, wp_lift_some, wp_ret. rewrite HF. by apply HQ.
Qed.

(** One of the tables written; only the first counts. *)
Lemma vol_write_table g s F m d' f c v b b' : vol g s F m -> 0 <= f < g_nfats g -> 0 <= c < g_entries g -> 0 <= v < 65536 ->
  vsec s !! (g_fat g + f * g_fatsz g + c / 256) = Some b -> splice b (2 * (c mod 256)) (bytes16 v) = Some b' ->
  dev_ok d' -> dev_sectors d' (u8 (fat16_drive s)) = put_run (vsec s) (g_fat g + f * g_fatsz g + c / 256) 1 b' -> length b' = 512%nat ->
  vol g (with_dev d' s) (if f =? 0 then upd F c v else F) m.
Proof.
  intros [Hok Hgeo Hgok Hbps Hfst Hh Hhas Hfat Hsec] Hf Hc Hv Hb Hsp Hd Hs Hl.
  pose proof (go_fatsz g Hgok) as Hfz. pose proof (go_root g Hgok) as Hroot.
  assert (c / 256 < g_fatsz g) as Hcs by (unfold g_entries in *; word_lia).
  set (x := g_fat g + f * g_fatsz g + c / 256) in *. assert (x < g_root g) as Hx by (unfold x; nia).
  assert (forall y, y <> x -> dev_sectors d' (u8 (fat16_drive s)) !! y = vsec s !! y) as Hout by (intros y Hy; rewrite Hs; apply put_run_out; lia).
  assert (dev_sectors d' (u8 (fat16_drive s)) !! x = Some b') as Hin.
  { rewrite Hs. cbn [put_run]. rewrite lookup_insert_eq. by rewrite take_ge by lia. }
  constructor; try done; unfold vsec, with_dev in *; cbn [dev fat16_drive].
  - intros y Hy. destruct (decide (y = x)) as [->|Hne]; [rewrite Hin; eauto|]. rewrite Hout by done. by apply Hhas.
  - intros c' Hc'. destruct (Hfat c' Hc') as (b0 & Hb0 & HF0). destruct (decide (fat_sector g c' = x)) as [Ex|Hne].
    + rewrite Ex in *. rewrite Hin. exists b'. split; [done|]. assert (b0 = b) as -> by congruence.
      unfold fat_sector, x, g_entries in Ex. assert (c' / 256 < g_fatsz g) as Hcs' by (unfold g_entries in *; word_lia).
      assert (f = 0) as -> by (clear -Ex Hcs' Hfz Hf Hc; assert (0 <= c / 256) by (apply Z.div_pos; lia);
        destruct (decide (f = 0)); [done|]; assert (g_fatsz g <= f * g_fatsz g) by nia; lia).
      cbn [Z.eqb]. unfold upd. case_decide as Hcc.
      * subst c'. apply (get16_splice _ _ _ _ Hv Hsp).
      * rewrite <-HF0. apply get16_ext. intros i Hi.
        destruct (splice_in b (2 * (c mod 256)) (bytes16 v)) as (b2 & E2 & _ & Hat).
        { word_lia. }
        { cbn [length bytes16]. destruct (dev_sector_ok _ _ _ _ Hok Hb) as [[Hbl _] _]. rewrite Hbl. word_lia. }
        rewrite Hsp in E2. injection E2 as <-. rewrite Hat, decide_False; [done|]. cbn [length bytes16]. unfold fat_index in Hi.
        assert (c mod 256 <> c' mod 256) by (clear -Ex Hcc; word_lia). assert (0 <= c mod 256 /\ 0 <= c' mod 256) by (split; apply Z.mod_pos_bound; lia). lia.
    + rewrite Hout by done. exists b0. split; [done|]. destruct (Z.eqb_spec f 0) as [->|]; [|done].
      rewrite upd_ne; [done|]. intros ->. apply Hne. unfold fat_sector, x. lia.
  - intros y Hy. rewrite Hout by lia. by apply Hsec.
Qed.

Lemma wp_set_fat_loop P g k : forall s F m f c v (Q : unit -> fat16 -> Prop), vol g s F m -> 0 <= c < g_entries g -> 0 <= v < 65536 ->
  0 <= f -> f + Z.of_nat k = g_nfats g ->
  (forall s', vol g s' (if (f =? 0) && (0 <? k)%nat then upd F c v else F) m -> same_env s s' -> fat16_alloc_hint s' = fat16_alloc_hint s -> Q tt s') ->
  wp P (set_fat_loop k f c v) Q s.
Proof.
  induction k as [|k IH]; intros s F m f c v Q Hv Hc Hvv Hf Hk HQ; cbn [set_fat_loop].
  { apply wp_ret, HQ; [|done|done]. by rewrite andb_false_r. }
  pose proof (v_geo_ok _ _ _ _ Hv) as Hg. pose proof (geo_order g Hg) as Hord. pose proof (go_root g Hg) as Hroot. pose proof (go_fatsz g Hg).
  destruct (fat_offset c) as [E1 E2]; [lia|]. apply wp_bind, wp_gets, wp_bind, wp_gets. rewrite E1, E2.
  pose proof (v_geo _ _ _ _ Hv) as Hgeo. replace (fat_start_lba s) with (g_fat g) by (by rewrite <-Hgeo).
  replace (FATSz16 (fat16_bpb s)) with (g_fatsz g) by (by rewrite <-Hgeo).
  assert (c / 256 < g_fatsz g) as Hcs by (unfold g_entries in *; word_lia). assert (0 <= c / 256) as Hc0 by (apply Z.div_pos; lia).
  assert (f * g_fatsz g + g_fatsz g <= g_nfats g * g_fatsz g) as Hff by nia.
  set (x := g_fat g + f * g_fatsz g + c / 256). assert (g_fat g <= x < g_root g) as Hx by (unfold x; nia).
  rewrite u32_small by (unfold is_u32; lia). destruct (v_has _ _ _ _ Hv x) as [b Hb]; [lia|].
  destruct (dev_sector_ok _ _ _ _ (v_ok _ _ _ _ Hv) Hb) as [[Hbl Hbu] _].
  apply wp_bind. eapply wp_read_sector; [exact Hv|lia|exact Hb|]. intros s1 Hv1 He1 Hh1 Hs1.
  destruct (splice_in b (2 * (c mod 256)) (bytes16 v)) as (b' & Esp & Hbl' & _); [word_lia|cbn [length bytes16]; rewrite Hbl; word_lia|].
  assert (Forall is_u8 b') as Hbu' by (eapply splice_u8; [exact Hbu|apply bytes16_u8|exact Esp]).
  rewrite Esp. apply wp_bind, wp_lift_some, wp_bind. unfold write_sector, write_drive. apply wp_bind, wp_bind, wp_gets, wp_fat_dev.
  destruct (dev_write (dev s1) (u8 (fat16_drive s1)) x 1 b' (v_ok _ _ _ _ Hv1)) as (d' & E & Hd & Hs & _); [lia| |simpl; lia|done|].
  { intros i Hi. apply (v_has _ _ _ _ Hv1). lia. }
  eapply wp_ok; [exact E|]. apply wp_ret. rewrite <-Hs1 in Hb.
  pose proof (vol_write_table g s1 F m d' f c v b b' Hv1 ltac:(lia) Hc Hvv Hb Esp Hd Hs ltac:(lia)) as Hv2.
  eapply IH; [exact Hv2|done|done|lia|lia|]. intros s' Hv' He' Hh'. apply HQ.
  - rewrite (proj2 (Z.eqb_neq (f + 1) 0)) in Hv' by lia. cbn [andb] in Hv'. change (0 <? S k)%nat with true. rewrite andb_true_r.
    by destruct (f =? 0).
  - eapply same_env_trans; [exact He1|]. exact He'.
  - rewrite Hh'. exact Hh1.
Qed.
Lemma wp_set_fat P g s F m c v (Q : unit -> fat16 -> Prop) : vol g s F m -> 0 <= c < g_entries g -> 0 <= v < 65536 ->
  (forall s', vol g s' (upd F c v) m -> same_env s s' -> fat16_alloc_hint s' = fat16_alloc_hint s -> Q tt s') -> wp P (fat16_set_fat_entry c v) Q s.
Proof.
  intros Hv Hc Hvv HQ. unfold fat16_set_fat_entry. apply wp_bind, wp_gets. pose proof (go_nfats g (v_geo_ok _ _ _ _ Hv)) as Hn.
  pose proof (v_geo _ _ _ _ Hv) as Hgeo. replace (NumFATs (fat16_bpb s)) with (g_nfats g) by (by rewrite <-Hgeo).
  eapply wp_set_fat_loop; [exact Hv|done|done|lia|lia|]. intros s' Hv' He Hh. apply HQ; [|done|done].
  replace (0 <? Z.to_nat (g_nfats g))%nat with true in Hv' by (symmetry; apply Nat.ltb_lt; lia). done.
Qed.
End vol.
