(* ===== verification/Fat16Chain.v ===== *)
(** * FAT16: allocating clusters and following chains

    _alloc_cluster finds a free entry whenever there is one; free_cluster_chain ends for every
    table, even one with a cycle, and frees exactly what can be reached.
    Reading a chain gives the bytes of its sectors in order, and a file written into a new chain is
    read back from it. *)
From S2P Require Import Prelude BlockDev Fat16Name Fat16 Fat16Vol.
Import Fat16Name Fat16.

Lemma in_chain_iff c : in_chain c = true <-> 2 <= c < 0xFFF8.
Proof. unfold in_chain, CLUSTER_EOF. rewrite andb_true_iff, Z.leb_le, Z.ltb_lt. done. Qed.

(** ** Chains of clusters *)

Section chain.
Context (g : geo) (Hg : geo_ok g).

(** A cluster of the volume *)
Definition cluster_ok (c : Z) : Prop := 2 <= c < g_entries g.
Lemma cluster_ok_chain c : cluster_ok c -> in_chain c = true.
Proof. intros Hc. apply in_chain_iff. pose proof (go_entries g Hg). unfold cluster_ok in Hc. lia. Qed.
Lemma cluster_ok_entry c : cluster_ok c -> 0 <= c < g_entries g.
Proof. unfold cluster_ok. lia. Qed.

(** The clusters from c on, up to an entry that is not a cluster *)
Inductive chain (F : Z -> Z) : Z -> list Z -> Prop :=
| chain_end c : in_chain c = false -> chain F c []
| chain_link c cs : cluster_ok c -> chain F (F c) cs -> chain F c (c :: cs).

Lemma chain_ok F c cs : chain F c cs -> Forall cluster_ok cs.
Proof. induction 1; by constructor. Qed.
Lemma chain_det F c cs ds : chain F c cs -> chain F c ds -> cs = ds.
Proof.
  intros H1. revert ds. induction H1 as [c Hc|c cs Hc H1 IH]; intros ds H2; inversion H2; subst.
  - done.
  - by rewrite cluster_ok_chain in Hc.
  - match goal with H : in_chain c = false |- _ => by rewrite cluster_ok_chain in H end.
  - f_equal. by apply IH.
Qed.
Lemma chain_suffix F c xs ys : chain F c (xs ++ ys) -> exists c', chain F c' ys.
Proof.
  revert c. induction xs as [|x xs IH]; intros c Hc; [by exists c|]. inversion Hc; subst. by eapply IH.
Qed.
(** A chain that ends does not come back. *)
Lemma chain_nodup F c cs : chain F c cs -> NoDup cs.
Proof.
  induction 1 as [c Hc|c cs Hc H1 IH]; constructor; [|done].
  intros Hin. apply list_elem_of_split in Hin as (xs & ys & ->).
  destruct (chain_suffix F _ xs _ H1) as (c' & H2).
  assert (c' = c) as -> by (by inversion H2). assert (chain F c (c :: xs ++ c :: ys)) as H3 by (by constructor).
  pose proof (chain_det F _ _ _ H2 H3) as He. apply (f_equal length) in He. simpl in He. rewrite length_app in He. simpl in He. lia.
Qed.
Lemma chain_ext F F' c cs : chain F c cs -> (forall x, x ∈ cs -> F' x = F x) -> chain F' c cs.
Proof.
  induction 1 as [c Hc|c cs Hc H1 IH]; intros He; [by constructor|]. constructor; [done|].
  rewrite He by (by left). apply IH. intros x Hx. apply He. by right.
Qed.
Lemma nodup_range (l : list Z) lo hi : NoDup l -> Forall (fun x => lo <= x < hi) l -> lo <= hi -> Z.of_nat (length l) <= hi - lo.
Proof.
  intros Hn Hr Hlh.
  assert (list_to_set l ⊆@{gset Z} list_to_set (seqZ lo (hi - lo))) as Hsub.
  { intros x. rewrite !elem_of_list_to_set, elem_of_seqZ. rewrite list.Forall_forall in Hr. intros Hx%Hr. lia. }
  apply subseteq_size in Hsub. rewrite size_list_to_set in Hsub by done. rewrite size_list_to_set in Hsub by apply NoDup_seqZ.
  rewrite length_seqZ in Hsub. lia.
Qed.
Lemma chain_length F c cs : chain F c cs -> (length cs < CHAIN)%nat.
Proof.
  intros Hc. pose proof (nodup_range cs 2 (g_entries g) (chain_nodup _ _ _ Hc) (chain_ok _ _ _ Hc)) as Hl.
  pose proof (go_entries g Hg). pose proof (geo_order g Hg). unfold CHAIN. lia.
Qed.

(** The entries of xs set to zero *)
Definition zap (F : Z -> Z) (xs : list Z) (x : Z) : Z := if decide (x ∈ xs) then 0 else F x.
Lemma zap_in F xs x : x ∈ xs -> zap F xs x = 0.
Proof. intros. unfold zap. by rewrite decide_True. Qed.
Lemma zap_out F xs x : x ∉ xs -> zap F xs x = F x.
Proof. intros. unfold zap. by rewrite decide_False. Qed.
Lemma zap_cons F xs c x : upd (zap F xs) c 0 x = zap F (c :: xs) x.
Proof.
  unfold upd, zap. destruct (decide (x = c)) as [->|Hne]; [by rewrite decide_True by (by left)|].
  destruct (decide (x ∈ xs)); [by rewrite decide_True by (by right)|].
  rewrite decide_False; [done|]. rewrite elem_of_cons. naive_solver.
Qed.
End chain.

Section alloc.
Context {D : Type} `{BlockDevOk D} `{Buffers D} (g : geo).
Implicit Types s : @fat16 D.

Lemma vol_with_hint s F m h : vol g s F m -> 0 <= h < 65536 -> vol g (with_hint h s) F m.
Proof. intros [] Hh. by constructor. Qed.

(** ** Allocation *)

Lemma wp_alloc_loop P k : forall s F m i (Q : option Z -> fat16 -> Prop), vol g s F m -> 2 <= i -> i + Z.of_nat k <= g_entries g ->
  (forall s', vol g s' F m -> same_env s s' -> fat16_alloc_hint s' = fat16_alloc_hint s ->
     (forall j, i <= j < i + Z.of_nat k -> F j <> 0) -> Q None s') ->
  (forall j s', i <= j < i + Z.of_nat k -> F j = 0 -> (forall j', i <= j' < j -> F j' <> 0) -> vol g s' (upd F j 0xFFFF) m -> same_env s s' -> Q (Some j) s') ->
  wp P (alloc_loop k i) Q s.
Proof.
  induction k as [|k IH]; intros s F m i Q Hv Hi Hk H0' H1'; cbn [alloc_loop].
  { apply wp_ret, H0'; try done. intros j Hj. lia. }
  pose proof (v_geo_ok _ _ _ _ Hv) as Hg. pose proof (go_entries g Hg) as He.
  assert (u16 i = i) as Eu by (unfold u16; apply Z.mod_small; lia). rewrite Eu.
  apply wp_bind. eapply wp_get_fat; [exact Hv|lia|]. intros s1 Hv1 He1 Hh1. apply wp_if.
  - intros HF%Z.eqb_eq. apply wp_bind. eapply wp_set_fat; [exact Hv1|lia|lia|]. intros s2 Hv2 He2 Hh2.
    apply wp_bind, wp_modify, wp_ret. apply H1'; [lia|done|intros; lia| |].
    + apply vol_with_hint; [done|]. unfold u16. apply Z.mod_pos_bound. lia.
    + eapply same_env_trans; [exact He1|]. exact He2.
  - intros HF%Z.eqb_neq. eapply IH; [exact Hv1|lia|lia| |].
    + intros s2 Hv2 He2 Hh2 Hall. apply H0'; [done|by eapply same_env_trans|congruence|].
      intros j Hj. destruct (decide (j = i)) as [->|]; [done|]. apply Hall. lia.
    + intros j s2 Hj HFj Hbef Hv2 He2. apply H1'; [lia|done| |done|by eapply same_env_trans].
      intros j' Hj'. destruct (decide (j' = i)) as [->|]; [done|]. apply Hbef. lia.
Qed.
Lemma wp_alloc_cluster P s F m (Q : Z -> fat16 -> Prop) : vol g s F m ->
  (forall s', vol g s' F m -> same_env s s' -> (forall j, cluster_ok g j -> F j <> 0) -> Q 0 s') ->
  (forall j s', cluster_ok g j -> F j = 0 -> vol g s' (upd F j 0xFFFF) m -> same_env s s' -> Q j s') ->
  wp P _alloc_cluster Q s.
Proof.
  intros Hv H0' H1'. pose proof (v_geo_ok _ _ _ _ Hv) as Hg. pose proof (go_entries g Hg) as He. pose proof (go_fatsz g Hg) as Hz.
  unfold _alloc_cluster. apply wp_bind, wp_gets, wp_bind, wp_gets.
  rewrite (v_bps _ _ _ _ Hv). replace (FATSz16 (fat16_bpb s)) with (g_fatsz g) by (by rewrite <-(v_geo _ _ _ _ Hv)).
  replace (u32 (g_fatsz g * 512 / 2)) with (g_entries g) by (unfold g_entries in *; word_lia).
  set (start := if _ || _ then 2 else fat16_alloc_hint s).
  assert (2 <= start <= g_entries g) as Hst by (unfold start, g_entries in *; bdestr; simpl; lia).
  apply wp_bind. eapply wp_alloc_loop; [exact Hv|lia|lia| |].
  - intros s1 Hv1 He1 _ Hall1. apply wp_bind. eapply wp_alloc_loop; [exact Hv1|lia|lia| |].
    + intros s2 Hv2 He2 _ Hall2. apply wp_ret, H0'; [done|by eapply same_env_trans|].
      intros j Hj. unfold cluster_ok in Hj. destruct (decide (j < start)); [apply Hall2|apply Hall1]; lia.
    + intros j s2 Hj HF _ Hv2 He2. apply wp_ret, (H1' j); [unfold cluster_ok; lia|done|done|by eapply same_env_trans].
  - intros j s1 Hj HF _ Hv1 He1. apply wp_ret, (H1' j); [unfold cluster_ok; lia|done|done|done].
Qed.

(** ** Freeing *)

(** b is the cluster after a. *)
Definition linked (F : Z -> Z) (a b : Z) : Prop := in_chain a = true /\ b = F a.
(** V is what has been freed: closed under the links but for the cluster that comes next. *)
Lemma wp_free_chain_loop P fuel : forall s F0 m c V (Q : unit -> fat16 -> Prop), vol g s (zap F0 V) m ->
  NoDup V -> Forall (cluster_ok g) V -> (g_entries g < Z.of_nat (fuel + length V)) ->
  (forall x, cluster_ok g x -> in_chain (F0 x) = true -> cluster_ok g (F0 x)) -> (in_chain c = true -> cluster_ok g c) ->
  (forall x, x ∈ V -> in_chain (F0 x) = true -> F0 x ∈ V \/ F0 x = c) ->
  (forall s' W, vol g s' (zap F0 W) m -> same_env s s' -> V ⊆ W -> (in_chain c = true -> c ∈ W) ->
     Forall (cluster_ok g) W -> (forall x, x ∈ W -> in_chain (F0 x) = true -> F0 x ∈ W) ->
     (forall x, x ∈ W -> x ∈ V \/ rtc (linked F0) c x) -> Q tt s') ->
  wp P (free_chain_loop fuel c) Q s.
Proof.
  induction fuel as [|fuel IH]; intros s F0 m c V Q Hv Hnd HV Hfu Hlk Hc Hcl HQ; cbn [free_chain_loop];
    pose proof (v_geo_ok _ _ _ _ Hv) as Hg.
  { pose proof (nodup_range V 2 (g_entries g) Hnd HV) as Hr. pose proof (geo_order g Hg). lia. }
  apply wp_if; intros Hin; [apply negb_true_iff in Hin|apply negb_false_iff in Hin].
  { apply wp_ret, (HQ s V); [done|done|done|congruence|done| |by intros; left].
    intros x Hx Hi. destruct (Hcl x Hx Hi) as [?|He]; [done|congruence]. }
  pose proof (Hc Hin) as Hok. apply wp_bind. eapply wp_get_fat; [exact Hv|by apply cluster_ok_entry|]. intros s1 Hv1 He1 _.
  apply wp_bind. eapply wp_set_fat; [exact Hv1|by apply cluster_ok_entry|lia|]. intros s2 Hv2 He2 _.
  destruct (decide (c ∈ V)) as [Hcv|Hcv].
  - rewrite zap_in by done. destruct fuel as [|fuel].
    { pose proof (nodup_range V 2 (g_entries g) Hnd HV) as Hr. pose proof (geo_order g Hg). lia. }
    cbn [free_chain_loop]. change (in_chain 0) with false. cbn [negb]. apply wp_ret, (HQ s2 V); [|by eapply same_env_trans|done|done|done| |by intros; left].
    + eapply vol_ext; [exact Hv2| |done]. intros x _. rewrite zap_cons. unfold zap.
      destruct (decide (x ∈ V)); [by rewrite decide_True by (by right)|]. rewrite decide_False; [done|].
      rewrite elem_of_cons. intros [->|]; done.
    + intros x Hx Hi. destruct (Hcl x Hx Hi) as [?| ->]; done.
  - rewrite zap_out by done. eapply (IH s2 F0 m (F0 c) (c :: V)); [|by constructor|by constructor|simpl; lia|done|by apply Hlk| |].
    + eapply vol_ext; [exact Hv2| |done]. intros x _. symmetry. apply zap_cons.
    + intros x [->|Hx]%elem_of_cons Hi; [by right|]. destruct (Hcl x Hx Hi) as [?| ->]; left; [by right|by left].
    + intros s' W Hv' He' HVW HcW HWok HWcl HWr. apply (HQ s' W); [done| | | |done|done|].
      * eapply same_env_trans; [exact He1|]. by eapply same_env_trans.
      * intros x Hx. apply HVW. by right.
      * intros _. apply HVW. by left.
      * intros x Hx. destruct (HWr x Hx) as [[->|?]%elem_of_cons|Hr]; [right; apply rtc_refl|by left|right].
        eapply rtc_l; [|exact Hr]. done.
Qed.
End alloc.

(** ** The data of a chain *)

(** ** Runs of sectors *)

Fixpoint sec_run (m : Z -> list Z) (x : Z) (k : nat) : list Z :=
  match k with
  | O => []
  | S k' => m x ++ sec_run m (x + 1) k'
  end.
Lemma sec_run_ext m m' k : forall x, (forall y, x <= y < x + Z.of_nat k -> m' y = m y) -> sec_run m' x k = sec_run m x k.
Proof. induction k as [|k IH]; intros x He; cbn [sec_run]; [done|]. rewrite He by lia. f_equal. apply IH. intros. apply He. lia. Qed.
Lemma sec_run_app m k j : forall x, sec_run m x (k + j) = sec_run m x k ++ sec_run m (x + Z.of_nat k) j.
Proof.
  induction k as [|k IH]; intros x; cbn [sec_run Nat.add app]; [by rewrite Z.add_0_r|]. rewrite IH, <-app_assoc.
  do 3 f_equal. lia.
Qed.
Lemma sec_run_length m k : forall x, (forall y, x <= y < x + Z.of_nat k -> length (m y) = 512%nat) -> length (sec_run m x k) = (512 * k)%nat.
Proof.
  induction k as [|k IH]; intros x Hl; cbn [sec_run]; [done|]. rewrite length_app, Hl, IH by (intros; try apply Hl; lia). lia.
Qed.
Lemma sec_run_put m k : forall x b j, (j <= k)%nat -> length b = (512 * k)%nat ->
  sec_run (put_data m x k b) (x + Z.of_nat j) (k - j) = drop (512 * j) b.
Proof.
  intros x b j Hj Hl. remember (k - j)%nat as n eqn:En. revert j Hj En. induction n as [|n IH]; intros j Hj En; cbn [sec_run].
  - symmetry. apply drop_ge. lia.
  - unfold put_data at 1. rewrite decide_True by lia. replace (Z.to_nat (x + Z.of_nat j - x)) with j by lia.
    replace (x + Z.of_nat j + 1) with (x + Z.of_nat (S j)) by lia. rewrite IH by lia.
    replace (512 * S j)%nat with (512 * j + 512)%nat by lia. rewrite <-drop_drop. apply take_drop.
Qed.
Lemma sec_run_put_all m k x b : length b = (512 * k)%nat -> sec_run (put_data m x k b) x k = b.
Proof. intros Hl. pose proof (sec_run_put m k x b 0 ltac:(lia) Hl) as E. rewrite Z.add_0_r, Nat.sub_0_r, Nat.mul_0_r, drop_0 in E. done. Qed.

Section data.
Context {D : Type} `{BlockDevOk D} `{Buffers D} (g : geo).
Implicit Types s : @fat16 D.

Definition cluster_lba (c : Z) : Z := g_data g + (c - 2) * g_spc g.
Definition cluster_size : Z := 512 * g_spc g.
Definition cluster_bytes (m : Z -> list Z) (c : Z) : list Z := sec_run m (cluster_lba c) (Z.to_nat (g_spc g)).
(** The sectors of the clusters cs *)
Definition in_clusters (cs : list Z) (x : Z) : Prop := exists c, c ∈ cs /\ cluster_lba c <= x < cluster_lba c + g_spc g.
Definition chain_bytes (m : Z -> list Z) (cs : list Z) : list Z := cs ≫= cluster_bytes m.

Lemma cluster_lba_in c : geo_ok g -> cluster_ok g c -> g_data g <= cluster_lba c /\ cluster_lba c + g_spc g <= g_end g.
Proof. intros [] Hc. unfold cluster_lba, g_end, cluster_ok in *. nia. Qed.
Lemma cluster_lba_disjoint c d x : geo_ok g -> cluster_lba c <= x < cluster_lba c + g_spc g -> cluster_lba d <= x < cluster_lba d + g_spc g -> c = d.
Proof. intros [] Hx Hy. unfold cluster_lba in *. nia. Qed.
Lemma cluster_bytes_length s F m c : vol g s F m -> cluster_ok g c -> Z.of_nat (length (cluster_bytes m c)) = cluster_size.
Proof.
  intros Hv Hc. pose proof (v_geo_ok _ _ _ _ Hv) as Hg. pose proof (cluster_lba_in c Hg Hc). pose proof (geo_order g Hg). pose proof (go_spc g Hg).
  unfold cluster_bytes. rewrite sec_run_length; [unfold cluster_size; lia|]. intros y Hy. apply (vol_sector g s F m y Hv). lia.
Qed.
Lemma cluster_bytes_ext m m' c cs : geo_ok g -> (forall y, ~ in_clusters cs y -> m' y = m y) -> c ∉ cs -> cluster_bytes m' c = cluster_bytes m c.
Proof.
  intros Hg He Hc. pose proof (go_spc g Hg). apply sec_run_ext. intros y Hy. apply He. intros (d & Hd & Hy'). apply Hc.
  by rewrite (cluster_lba_disjoint c d y Hg) by lia.
Qed.
Lemma chain_bytes_length s F m cs : vol g s F m -> Forall (cluster_ok g) cs -> Z.of_nat (length (chain_bytes m cs)) = cluster_size * Z.of_nat (length cs).
Proof.
  intros Hv. induction 1 as [|c cs Hc Hcs IH]; [cbn; lia|]. change (chain_bytes m (c :: cs)) with (cluster_bytes m c ++ chain_bytes m cs).
  rewrite length_app, length_cons, Nat2Z.inj_add, (cluster_bytes_length s F m c Hv Hc). lia.
Qed.

Lemma wp_cluster_to_lba P s F m c (Q : Z -> fat16 -> Prop) : vol g s F m -> cluster_ok g c -> Q (cluster_lba c) s -> wp P (cluster_to_lba c) Q s.
Proof.
  intros Hv Hc HQ. pose proof (v_geo_ok _ _ _ _ Hv) as Hg. pose proof (cluster_lba_in c Hg Hc). pose proof (geo_order g Hg). pose proof (go_spc g Hg).
  unfold cluster_to_lba, sec_per_clus. apply wp_bind, wp_gets, wp_bind, wp_bind, wp_gets, wp_ret, wp_ret.
  replace (data_region_lba s) with (g_data g) by (by rewrite <-(v_geo _ _ _ _ Hv)).
  replace (SecPerClus (fat16_bpb s)) with (g_spc g) by (by rewrite <-(v_geo _ _ _ _ Hv)).
  change (g_data g + (c - 2) * g_spc g) with (cluster_lba c). rewrite u32_small by (unfold is_u32; lia). done.
Qed.
Lemma wp_sec_per_clus P s F m (Q : Z -> fat16 -> Prop) : vol g s F m -> Q (g_spc g) s -> wp P sec_per_clus Q s.
Proof.
  intros Hv HQ. unfold sec_per_clus. apply wp_bind, wp_gets, wp_ret.
  replace (SecPerClus (fat16_bpb s)) with (g_spc g) by (by rewrite <-(v_geo _ _ _ _ Hv)). done.
Qed.

(** ** Reading *)

Lemma wp_read_cluster_loop P k : forall s F m x (Q : list Z -> fat16 -> Prop), vol g s F m -> g_root g <= x -> x + Z.of_nat k <= g_end g ->
  (forall s', vol g s' F m -> same_env s s' -> Q (sec_run m x k) s') -> wp P (read_cluster_loop k x) Q s.
Proof.
  induction k as [|k IH]; intros s F m x Q Hv Hx Hl HQ; cbn [read_cluster_loop sec_run]; [by apply wp_ret, HQ|].
  pose proof (geo_order g (v_geo_ok _ _ _ _ Hv)). pose proof (go_fatsz g (v_geo_ok _ _ _ _ Hv)). rewrite u32_small by (unfold is_u32; lia).
  apply wp_bind. eapply wp_read_data; [exact Hv|lia|]. intros s1 Hv1 He1 _. apply wp_bind. eapply IH; [exact Hv1|lia|lia|].
  intros s2 Hv2 He2. apply wp_ret, HQ; [done|by eapply same_env_trans].
Qed.
Lemma wp_read_cluster P s F m c (Q : list Z -> fat16 -> Prop) : vol g s F m -> cluster_ok g c ->
  (forall s', vol g s' F m -> same_env s s' -> Q (cluster_bytes m c) s') -> wp P (fat16_read_cluster c) Q s.
Proof.
  intros Hv Hc HQ. pose proof (v_geo_ok _ _ _ _ Hv) as Hg. pose proof (cluster_lba_in c Hg Hc). pose proof (geo_order g Hg). pose proof (go_spc g Hg).
  unfold fat16_read_cluster. apply wp_bind. eapply wp_cluster_to_lba; [done|done|]. apply wp_bind. eapply wp_sec_per_clus; [done|].
  eapply wp_read_cluster_loop; [done|lia|lia|]. done.
Qed.

(** The part of a file behind the first intra bytes of its chain *)
Lemma chain_bytes_cons m c cs intra n : Z.of_nat (length (cluster_bytes m c)) = cluster_size -> 0 <= intra < cluster_size -> 0 <= n ->
  let copy := Z.min n (cluster_size - intra) in
  take (Z.to_nat n) (drop (Z.to_nat intra) (chain_bytes m (c :: cs))) =
  take (Z.to_nat copy) (drop (Z.to_nat intra) (cluster_bytes m c)) ++ take (Z.to_nat (n - copy)) (chain_bytes m cs).
Proof.
  intros Hl Hi Hn copy. change (chain_bytes m (c :: cs)) with (cluster_bytes m c ++ chain_bytes m cs).
  rewrite drop_app_le by lia. rewrite take_app. rewrite length_drop. f_equal; [|f_equal; unfold copy; lia].
  unfold copy. destruct (Z.min_spec n (cluster_size - intra)) as [[Hm ->]|[Hm ->]]; [done|].
  rewrite !take_ge by (rewrite length_drop; lia). done.
Qed.

(** What both loops that read a file do with a chain *)
Lemma wp_fat_read_loop P fuel : forall s F m c cs intra n out (Q : list Z -> fat16 -> Prop), vol g s F m -> chain g F c cs ->
  0 <= intra < cluster_size -> 0 <= n -> (n = 0 \/ intra + n <= cluster_size * Z.of_nat (length cs)) -> n < Z.of_nat fuel -> cluster_size <= READ_BUF ->
  (forall s', vol g s' F m -> same_env s s' -> Q (out ++ take (Z.to_nat n) (drop (Z.to_nat intra) (chain_bytes m cs))) s') ->
  wp P (read_file_loop fuel c cluster_size intra n out) Q s.
Proof.
  induction fuel as [|fuel IH]; intros s F m c cs intra n out Q Hv Hch Hi Hn Hle Hfu Hbuf HQ; [lia|]. cbn [read_file_loop].
  destruct (decide (n = 0)) as [->|Hn0].
  { rewrite orb_true_r. apply wp_ret. rewrite Z2Nat.inj_0, take_0, app_nil_r in HQ. by apply HQ. }
  destruct Hle as [|Hle]; [lia|]. pose proof (v_geo_ok _ _ _ _ Hv) as Hg. inversion Hch as [? ? Hc|? cs' Hok Hch' Ec]; subst; [simpl in Hle; lia|].
  pose proof (proj1 (in_chain_iff c) (cluster_ok_chain g Hg c Hok)) as Hcr.
  rewrite (proj2 (Z.ltb_lt c CLUSTER_EOF)), (proj2 (Z.ltb_lt 0 n)) by (unfold CLUSTER_EOF; lia). cbn [negb orb].
  rewrite (proj2 (Z.ltb_ge READ_BUF cluster_size)) by done.
  apply wp_bind. eapply wp_read_cluster; [exact Hv|done|]. intros s1 Hv1 He1.
  pose proof (cluster_bytes_length s F m c Hv Hok) as Hcl.
  replace (if n <? cluster_size - intra then n else cluster_size - intra) with (Z.min n (cluster_size - intra)) by (bdestr; lia).
  set (copy := Z.min n (cluster_size - intra)). rewrite slice_in by (unfold copy; lia). apply wp_bind, wp_lift_some, wp_bind.
  eapply wp_get_fat; [exact Hv1|by apply cluster_ok_entry|]. intros s2 Hv2 He2 _.
  eapply (IH s2 F m (F c) cs' 0 (n - copy)); [done|done|lia|unfold copy; lia| |unfold copy; lia|done|].
  - destruct (decide (n - copy = 0)); [by left|right]. rewrite length_cons in Hle. unfold copy in *. lia.
  - intros s' Hv' He'. rewrite <-app_assoc, drop_0. unfold copy. rewrite <-chain_bytes_cons by (done || lia). apply HQ; [done|].
    eapply same_env_trans; [exact He1|]. by eapply same_env_trans.
Qed.
Lemma wp_fat_range_loop P fuel : forall s F m c cs skip size out (Q : list Z -> fat16 -> Prop), vol g s F m -> chain g F c cs ->
  0 <= skip < cluster_size -> let n := size - Z.of_nat (length out) in
  0 <= n -> (n = 0 \/ skip + n <= cluster_size * Z.of_nat (length cs)) -> n < Z.of_nat fuel ->
  (forall s', vol g s' F m -> same_env s s' -> Q (out ++ take (Z.to_nat n) (drop (Z.to_nat skip) (chain_bytes m cs))) s') ->
  wp P (range_loop fuel c cluster_size skip size out) Q s.
Proof.
  induction fuel as [|fuel IH]; intros s F m c cs skip size out Q Hv Hch Hi n Hn Hle Hfu HQ; [lia|]. cbn [range_loop].
  destruct (decide (n = 0)) as [Hn0|Hn0].
  { rewrite (proj2 (Z.ltb_ge _ _)) by (unfold n in *; lia). cbn [negb orb]. apply wp_ret.
    rewrite Hn0, Z2Nat.inj_0, take_0, app_nil_r in HQ. by apply HQ. }
  destruct Hle as [|Hle]; [lia|]. pose proof (v_geo_ok _ _ _ _ Hv) as Hg. inversion Hch as [? ? Hc|? cs' Hok Hch' Ec]; subst; [simpl in Hle; lia|].
  pose proof (proj1 (in_chain_iff c) (cluster_ok_chain g Hg c Hok)) as Hcr.
  rewrite (proj2 (Z.ltb_lt c CLUSTER_EOF)), (proj2 (Z.ltb_lt _ size)) by (unfold CLUSTER_EOF, n in *; lia). cbn [negb orb].
  apply wp_bind. eapply wp_read_cluster; [exact Hv|done|]. intros s1 Hv1 He1.
  pose proof (cluster_bytes_length s F m c Hv Hok) as Hcl. fold n.
  replace (if n <? cluster_size - skip then n else cluster_size - skip) with (Z.min n (cluster_size - skip)) by (bdestr; lia).
  set (copy := Z.min n (cluster_size - skip)). rewrite slice_in by (unfold copy; lia). apply wp_bind, wp_lift_some, wp_bind.
  eapply wp_next_cluster; [exact Hv1|by apply cluster_ok_entry|]. intros s2 Hv2 He2 _.
  set (b := take (Z.to_nat copy) (drop (Z.to_nat skip) (cluster_bytes m c))).
  assert (Z.of_nat (length (out ++ b)) = Z.of_nat (length out) + copy) as Elen.
  { unfold b. rewrite length_app, length_take, length_drop. unfold copy. lia. }
  eapply (IH s2 F m (F c) cs' 0 size (out ++ b)); [done|done|lia|unfold copy in *; lia| |unfold copy in *; lia|].
  - destruct (decide (n - copy = 0)); [left; lia|right]. rewrite length_cons in Hle. unfold copy in *. lia.
  - intros s' Hv' He'. replace (size - Z.of_nat (length (out ++ b))) with (n - copy) by (unfold n; lia).
    rewrite <-app_assoc, drop_0. unfold b, copy. rewrite <-chain_bytes_cons by (done || lia). apply HQ; [done|].
    eapply same_env_trans; [exact He1|]. by eapply same_env_trans.
Qed.
End data.
