(* ===== verification/Fat16Write.v ===== *)
(** * FAT16: replacing the contents of a file

    The old clusters are freed and wiped, the data goes into a new chain of free clusters; every
    other cluster keeps its link and its bytes. *)
From S2P Require Import Prelude BlockDev Fat16Name Fat16 Fat16Vol Fat16Chain.
Import Fat16Name Fat16.

Section write.
Context {D : Type} `{BlockDevOk D} `{Buffers D} (g : geo).
Implicit Types s : @fat16 D.

Lemma fat_zeros_u8 n : Forall is_u8 (zeros n).
Proof. apply Forall_replicate. unfold is_u8. lia. Qed.

(** ** Wiping *)

Lemma wp_write_sector P s F m x b (Q : unit -> fat16 -> Prop) : vol g s F m -> g_root g <= x < g_end g -> is_sector b ->
  (forall s', vol g s' F (upd m x b) -> same_env s s' -> Q tt s') -> wp P (write_sector x b) Q s.
Proof.
  intros Hv Hx [Hl Hu] HQ. unfold write_sector. apply wp_bind. apply (wp_write_sectors P g s F m x 1 b); [done|lia|lia|lia|lia|done|].
  intros s' Hv' He _. apply wp_ret, HQ; [|done]. eapply vol_ext; [exact Hv'|done|]. intros y _. unfold put_data, upd.
  destruct (decide (y = x)) as [->|]; [|by rewrite decide_False by lia]. rewrite decide_True by lia.
  rewrite Z.sub_diag, Z2Nat.inj_0, Nat.mul_0_r, drop_0. by rewrite take_ge by lia.
Qed.
Lemma wp_zero_sectors P k : forall s F m x (Q : unit -> fat16 -> Prop), vol g s F m -> g_root g <= x -> x + Z.of_nat k <= g_end g ->
  (forall s' m', vol g s' F m' -> (forall y, y < x \/ x + Z.of_nat k <= y -> m' y = m y) -> same_env s s' -> Q tt s') ->
  wp P (zero_sectors k x) Q s.
Proof.
  induction k as [|k IH]; intros s F m x Q Hv Hx Hl HQ; cbn [zero_sectors]; [by eapply wp_ret, HQ|].
  pose proof (geo_order g (v_geo_ok _ _ _ _ Hv)). rewrite u32_small by (unfold is_u32; lia).
  apply wp_bind. eapply wp_write_sector; [exact Hv|lia|split; [done|apply fat_zeros_u8]|]. intros s1 Hv1 He1.
  eapply IH; [exact Hv1|lia|lia|]. intros s2 m2 Hv2 Hm2 He2. eapply HQ; [exact Hv2| |by eapply same_env_trans].
  intros y Hy. rewrite Hm2 by lia. apply upd_ne. lia.
Qed.

Lemma not_in_clusters_cons c cs x : ~ in_clusters g (c :: cs) x -> ~ in_clusters g cs x /\ (x < cluster_lba g c \/ cluster_lba g c + g_spc g <= x).
Proof.
  intros Hn. split.
  - intros (d & Hd & Hx). apply Hn. exists d. split; [by right|done].
  - destruct (decide (cluster_lba g c <= x < cluster_lba g c + g_spc g)) as [Hi|]; [|lia]. exfalso. apply Hn. exists c. split; [by left|done].
Qed.

Lemma wp_wipe_loop P fuel : forall s F m c cs (Q : unit -> fat16 -> Prop), vol g s F m -> chain g F c cs -> (length cs < fuel)%nat ->
  (forall s' F' m', vol g s' F' m' -> (forall x, x ∈ cs -> F' x = 0) -> (forall x, x ∉ cs -> F' x = F x) ->
     (forall x, ~ in_clusters g cs x -> m' x = m x) -> same_env s s' -> Q tt s') ->
  wp P (wipe_loop fuel c) Q s.
Proof.
  induction fuel as [|fuel IH]; intros s F m c cs Q Hv Hch Hfu HQ; [lia|]. cbn [wipe_loop].
  pose proof (v_geo_ok _ _ _ _ Hv) as Hg. inversion Hch as [? Hc|? cs' Hok Hch']; subst.
  { rewrite Hc. cbn [negb]. eapply wp_ret, HQ; try done. set_solver. }
  rewrite (cluster_ok_chain g Hg c Hok). cbn [negb]. pose proof (cluster_lba_in g c Hg Hok). pose proof (geo_order g Hg). pose proof (go_spc g Hg).
  apply wp_bind. eapply wp_next_cluster; [exact Hv|by apply cluster_ok_entry|]. intros s1 Hv1 He1 _.
  apply wp_bind. eapply wp_set_fat; [exact Hv1|by apply cluster_ok_entry|lia|]. intros s2 Hv2 He2 _.
  apply wp_bind. eapply wp_cluster_to_lba; [exact Hv2|done|]. apply wp_bind. eapply wp_sec_per_clus; [exact Hv2|].
  apply wp_bind. eapply wp_zero_sectors; [exact Hv2|lia|lia|]. intros s3 m3 Hv3 Hm3 He3.
  pose proof (chain_nodup g Hg _ _ _ Hch) as Hnd. apply list.NoDup_cons in Hnd as [Hnin _].
  eapply (IH s3 _ m3 (F c) cs'); [exact Hv3| |simpl in Hfu; lia|].
  { eapply chain_ext; [exact Hch'|]. intros x Hx. apply upd_ne. intros ->. done. }
  intros s' F' m' Hv' HF0 HF1 Hm' He'. eapply HQ; [exact Hv'| | | |].
  - intros x [->|Hx]%elem_of_cons; [|by apply HF0]. by rewrite HF1, upd_eq by done.
  - intros x [Hx1 Hx2]%not_elem_of_cons. by rewrite HF1, upd_ne by done.
  - intros x [Hx1 Hx2]%not_in_clusters_cons. rewrite Hm' by done. apply Hm3. lia.
  - do 2 (eapply same_env_trans; [eassumption|]). by eapply same_env_trans.
Qed.

(** ** Writing one cluster *)

Lemma wp_write_cluster_data P s F m x chunk n (Q : unit -> fat16 -> Prop) : vol g s F m -> g_root g <= x -> x + g_spc g <= g_end g ->
  Forall is_u8 chunk -> 0 < n <= cluster_size g -> n <= Z.of_nat (length chunk) ->
  (forall s' m', vol g s' F m' -> (forall y, y < x \/ x + g_spc g <= y -> m' y = m y) ->
     take (Z.to_nat n) (sec_run m' x (Z.to_nat (g_spc g))) = take (Z.to_nat n) chunk -> same_env s s' -> Q tt s') ->
  wp P (write_cluster_data x chunk n) Q s.
Proof.
  intros Hv Hx Hl Hu Hn Hlen HQ. pose proof (v_geo_ok _ _ _ _ Hv) as Hg. pose proof (geo_order g Hg) as Hord. pose proof (go_spc g Hg) as Hspc.
  unfold write_cluster_data, SECTOR_SIZE, cluster_size in *. set (full := n / 512). set (tail := n mod 512).
  assert (n = 512 * full + tail /\ 0 <= tail < 512 /\ 0 <= full) as (En & Ht & Hf) by (unfold full, tail; word_lia). clearbody full tail.
  set (fb := take (Z.to_nat (full * 512)) chunk). assert (length fb = (Z.to_nat full * 512)%nat) as Hfb by (unfold fb; rewrite length_take; lia).
  set (m1 := put_data m x (Z.to_nat full) fb).
  assert (forall (Q1 : unit -> fat16 -> Prop), (forall s', vol g s' F m1 -> same_env s s' -> Q1 tt s') ->
    wp P (if 0 <? full then b <- lift_opt (slice chunk 0 (full * 512));; write_drive x (u16 full) b;;; ret tt else ret tt) Q1 s) as Hfull.
  { intros Q1 HQ1. destruct (Z.ltb_spec 0 full) as [Hp|Hz].
    - rewrite slice_in by lia. change (drop (Z.to_nat 0) chunk) with chunk. fold fb. apply wp_bind, wp_lift_some, wp_bind.
      replace (u16 full) with (Z.of_nat (Z.to_nat full)) by (unfold u16; rewrite Z.mod_small; lia).
      eapply wp_write_sectors; [exact Hv|lia|lia|lia|lia|by apply Forall_take|]. intros s' Hv' He _. by apply wp_ret, HQ1.
    - apply wp_ret, HQ1; [|done]. eapply vol_ext; [exact Hv|done|]. intros y _. unfold m1, put_data. by rewrite decide_False by lia. }
  apply wp_bind, Hfull. intros s1 Hv1 He1. destruct (Z.ltb_spec 0 tail) as [Hp|Hz].
  - rewrite slice_in by lia. apply wp_bind, wp_lift_some. set (tb := take (Z.to_nat tail) (drop (Z.to_nat (full * 512)) chunk)).
    assert (length tb = Z.to_nat tail) as Htb by (unfold tb; rewrite length_take, length_drop; lia).
    rewrite u32_small by (unfold is_u32; lia). apply wp_bind. apply (wp_write_sectors P g s1 F m1 (x + full) 1); [done|lia|lia|lia| | |].
    { rewrite length_app. unfold zeros. rewrite length_replicate. lia. }
    { apply Forall_app. split; [by apply Forall_take, Forall_drop|apply fat_zeros_u8]. }
    intros s2 Hv2 He2 _. eapply wp_ret, HQ; [exact Hv2| | |by eapply same_env_trans].
    + intros y Hy. unfold put_data at 1. rewrite decide_False by lia. unfold m1, put_data. by rewrite decide_False by lia.
    + replace (Z.to_nat (g_spc g)) with (Z.to_nat full + (1 + (Z.to_nat (g_spc g) - Z.to_nat full - 1)))%nat by lia.
      rewrite !sec_run_app. rewrite (sec_run_ext m1) by (intros y Hy; unfold put_data at 1; by rewrite decide_False by lia).
      unfold m1 at 1. rewrite sec_run_put_all by lia. rewrite Z2Nat.id by lia. rewrite sec_run_put_all.
      2:{ rewrite length_app. unfold zeros. rewrite length_replicate. lia. }
      rewrite app_assoc, take_app_le by (rewrite length_app, length_app; lia). rewrite app_assoc, take_app_le by (rewrite length_app; lia).
      rewrite take_ge by (rewrite length_app; lia). unfold fb, tb. rewrite take_take_drop. f_equal. lia.
  - eapply wp_ret, HQ; [exact Hv1| | |done].
    + intros y Hy. unfold m1, put_data. by rewrite decide_False by lia.
    + replace (Z.to_nat (g_spc g)) with (Z.to_nat full + (Z.to_nat (g_spc g) - Z.to_nat full))%nat by lia.
      rewrite sec_run_app. unfold m1 at 1. rewrite sec_run_put_all by lia. rewrite take_app_le by lia. unfold fb.
      rewrite take_ge by (rewrite length_take; lia). f_equal. lia.
Qed.

(** ** A new chain *)

Definition clusters_for (n : Z) : Z := (n + cluster_size g - 1) / cluster_size g.
Lemma clusters_for_step n : geo_ok g -> 0 < n -> clusters_for (n - Z.min n (cluster_size g)) = clusters_for n - 1 /\ 1 <= clusters_for n.
Proof.
  intros Hg Hn. pose proof (go_spc g Hg). unfold clusters_for. assert (0 < cluster_size g) as Hc by (unfold cluster_size; lia).
  destruct (Z.min_spec n (cluster_size g)) as [[Hm ->]|[Hm ->]].
  - rewrite Z.sub_diag, Z.div_small by lia. replace (n + cluster_size g - 1) with (n - 1 + 1 * cluster_size g) by lia.
    rewrite Z.div_add, Z.div_small by lia. lia.
  - replace (n + cluster_size g - 1) with (n - cluster_size g + cluster_size g - 1 + 1 * cluster_size g) by lia.
    rewrite Z.div_add by lia. assert (0 <= (n - cluster_size g + cluster_size g - 1) / cluster_size g) by (apply Z.div_pos; lia). lia.
Qed.

(** A chain that ends in prev, continued by j *)
Lemma chain_snoc F F' c done prev j : geo_ok g -> chain g F c done -> list.last done = Some prev -> F' prev = j -> F' j = 0xFFFF -> cluster_ok g j ->
  (forall x, x ∈ done -> x <> prev -> F' x = F x) -> chain g F' c (done ++ [j]).
Proof.
  intros Hg Hch. induction Hch as [c Hc|c cs Hok Hch IH]; intros Hl Hp Hj Hjok He; [done|].
  pose proof (chain_nodup g Hg F c (c :: cs) ltac:(by constructor)) as [Hnin _]%list.NoDup_cons. cbn [app]. constructor; [done|].
  destruct cs as [|c2 cs].
  - injection Hl as ->. rewrite Hp. cbn [app]. constructor; [done|]. rewrite Hj. by constructor.
  - rewrite list.last_cons_cons in Hl. assert (c <> prev) as Hne by (intros ->; apply Hnin; by eapply list.last_Some_elem_of).
    rewrite He by (done || by left). apply IH; [done|done|done|done|]. intros x Hx Hxp. apply He; [by right|done].
Qed.

(** A free cluster is not part of a chain that ends in an end mark. *)
Lemma free_not_in_chain F c cs x : geo_ok g -> chain g F c cs -> F x = 0 ->
  forall prev, (cs <> [] -> list.last cs = Some prev /\ F prev = 0xFFFF) -> x ∉ cs.
Proof.
  intros Hg Hch HFx prev Hl Hin. destruct (Hl ltac:(by intros ->; apply elem_of_nil in Hin)) as [Hla Hp].
  apply list_elem_of_split in Hin as (xs & ys & ->). destruct (chain_suffix g F _ xs _ Hch) as (c' & Hc').
  inversion Hc' as [|? ? _ Hc'']; subst. rewrite HFx in Hc''. inversion Hc'' as [|? ? [? _]]; [|subst; lia]. subst ys.
  rewrite list.last_snoc in Hla. congruence.
Qed.
Lemma filter_ne_length (l : list Z) j : NoDup l -> Z.of_nat (length l) - 1 <= Z.of_nat (length (filter (fun c => c <> j) l)).
Proof.
  induction 1 as [|x l Hx Hn IH]; [simpl; lia|]. rewrite filter_cons. case_decide as Hd; [rewrite !length_cons; lia|].
  assert (x = j) as -> by (destruct (decide (x = j)); [done|tauto]). rewrite length_cons.
  assert (filter (fun c => c <> j) l = l) as ->; [|lia]. clear -Hx. induction l as [|y l IH]; [done|].
  apply not_elem_of_cons in Hx as [Hy Hx]. rewrite filter_cons, decide_True by congruence. by rewrite IH.
Qed.

Lemma wp_fat_progress P s F m w (Q : unit -> fat16 -> Prop) : vol g s F m ->
  (forall s', vol g s' F m -> same_env s s' -> Q tt s') -> wp P (fscmd_write_progress_update w) Q s.
Proof. intros [] HQ. by apply wp_modify, HQ. Qed.

(** The link of a new cluster and its end mark, as the loop writes them *)
Lemma wp_link_cluster {X} P s F m done prev j (k : M fat16 X) (Q : X -> fat16 -> Prop) : vol g s (upd F j 0xFFFF) m -> cluster_ok g j -> F j = 0 ->
  chain g F (hd 0 done) done -> (done <> [] -> list.last done = Some prev /\ F prev = 0xFFFF) ->
  (forall s' F', vol g s' F' m -> chain g F' (hd 0 (done ++ [j])) (done ++ [j]) -> F' j = 0xFFFF ->
     (forall x, x ∉ done ++ [j] -> F' x = F x) -> same_env s s' -> wp P k Q s') ->
  wp P ((if hd 0 done =? 0 then ret tt else fat16_set_fat_entry prev j);;; (fat16_set_fat_entry j 0xFFFF;;; k)) Q s.
Proof.
  intros Hv Hj HFj Hch Hprev HQ. pose proof (v_geo_ok _ _ _ _ Hv) as Hg. pose proof (go_entries g Hg). destruct done as [|d done].
  - cbn [hd Z.eqb]. apply wp_bind, wp_ret, wp_bind. eapply wp_set_fat; [exact Hv|by apply cluster_ok_entry|lia|]. intros s1 Hv1 He1 _.
    eapply HQ; [exact Hv1| |apply upd_eq| |done].
    + cbn [app hd]. constructor; [done|]. rewrite upd_eq. by constructor.
    + intros x Hx. assert (x <> j) by set_solver. by rewrite !upd_ne.
  - cbn [hd app] in *. destruct (Hprev ltac:(done)) as [Hl Hp]. pose proof (chain_ok g _ _ _ Hch) as Hoks. rewrite list.Forall_forall in Hoks.
    assert (prev ∈ d :: done) as Hin by (by eapply list.last_Some_elem_of). pose proof (Hoks _ Hin) as Hpok.
    assert (2 <= d) by (destruct (Hoks d ltac:(by left)); lia). rewrite (proj2 (Z.eqb_neq _ _)) by lia.
    assert (prev <> j) as Hpj by (intros ->; congruence).
    assert (j ∉ d :: done) as Hnj.
    { by eapply (free_not_in_chain F _ _ j Hg Hch HFj prev). }
    apply wp_bind. eapply wp_set_fat; [exact Hv|by apply cluster_ok_entry|destruct Hj; lia|]. intros s1 Hv1 He1 _.
    apply wp_bind. eapply wp_set_fat; [exact Hv1|by apply cluster_ok_entry|lia|]. intros s2 Hv2 He2 _.
    change (d :: done ++ [j]) with ((d :: done) ++ [j]) in *. eapply HQ; [exact Hv2| |apply upd_eq| |by eapply same_env_trans].
    + eapply chain_snoc; [done|exact Hch|exact Hl|by rewrite upd_ne, upd_eq by done|apply upd_eq|done|].
      intros x Hx Hxp. assert (x <> j) by (intros ->; done). by rewrite !upd_ne.
    + intros x Hx. rewrite elem_of_app, list_elem_of_singleton in Hx.
      assert (x <> j /\ x <> prev) as [Hxj Hxp] by (split; intros ->; apply Hx; [by right|by left]). by rewrite !upd_ne.
Qed.

Section chain_data.
Context (data : list Z) (size : Z) (Hdata : Forall is_u8 data) (Hsize : 0 <= size < 4294967296) (Hlen : size <= Z.of_nat (length data)).

Lemma wp_write_chain P fuel : forall s F m done fr remaining prev (Q : option Z -> fat16 -> Prop), vol g s F m ->
  0 <= remaining <= size -> remaining < Z.of_nat fuel -> chain g F (hd 0 done) done -> (done <> [] -> list.last done = Some prev /\ F prev = 0xFFFF) ->
  NoDup fr -> Forall (fun c => cluster_ok g c /\ F c = 0) fr -> clusters_for remaining <= Z.of_nat (length fr) ->
  (forall s' F' m' ns, vol g s' F' m' -> chain g F' (hd 0 (done ++ ns)) (done ++ ns) -> Forall (fun c => cluster_ok g c /\ F c = 0) ns ->
     (forall x, x ∉ done ++ ns -> F' x = F x) -> (forall x, ~ in_clusters g ns x -> m' x = m x) -> Z.of_nat (length ns) = clusters_for remaining ->
     take (Z.to_nat remaining) (chain_bytes g m' ns) = take (Z.to_nat remaining) (drop (Z.to_nat (size - remaining)) data) ->
     same_env s s' -> Q (Some (hd 0 (done ++ ns))) s') ->
  wp P (write_chain fuel data size remaining (hd 0 done) prev) Q s.
Proof.
  induction fuel as [|fuel IH]; intros s F m done fr remaining prev Q Hv Hr Hfu Hch Hprev Hnd Hfr Hcnt HQ; [lia|]. cbn [write_chain].
  pose proof (v_geo_ok _ _ _ _ Hv) as Hg. pose proof (go_spc g Hg) as Hspc.
  destruct (Z.leb_spec remaining 0) as [Hz|Hpos].
  { assert (remaining = 0) as -> by lia. assert (clusters_for 0 = 0) as E0 by (unfold clusters_for; apply Z.div_small; unfold cluster_size; lia).
    rewrite <-(app_nil_r done) at 1. eapply wp_ret, (HQ s F m []); rewrite ?app_nil_r; try done. }
  destruct (clusters_for_step remaining Hg Hpos) as [Hstep Hone].
  apply wp_bind. eapply wp_alloc_cluster; [exact Hv| |].
  { intros s1 _ _ Hnone. exfalso. destruct fr as [|c fr]; [simpl in Hcnt; lia|]. apply list.Forall_cons in Hfr as [[Hc HF] _]. by apply (Hnone c). }
  intros j s1 Hj HFj Hv1 He1. rewrite (cluster_ok_chain g Hg j Hj). cbn [negb].
  pose proof (cluster_lba_in g j Hg Hj) as [Hjd Hje]. pose proof (geo_order g Hg).
  eapply wp_link_cluster; [exact Hv1|done|done|done|done|]. intros s2 F2 Hv2 Hch2 HF2j HF2 He2.
  apply wp_bind. eapply wp_cluster_to_lba; [exact Hv2|done|]. apply wp_bind. eapply wp_sec_per_clus; [exact Hv2|].
  replace (if g_spc g * SECTOR_SIZE <? remaining then g_spc g * SECTOR_SIZE else remaining) with (Z.min remaining (cluster_size g))
    by (unfold cluster_size, SECTOR_SIZE; bdestr; lia).
  set (n := Z.min remaining (cluster_size g)) in *. assert (0 < n <= cluster_size g) as Hn by (unfold n, cluster_size; lia).
  apply wp_bind. eapply wp_write_cluster_data; [exact Hv2|lia|done|by apply Forall_drop|done|rewrite length_drop; unfold n; lia|].
  intros s3 m3 Hv3 Hm3 Hb3 He3. apply wp_bind. eapply wp_fat_progress; [exact Hv3|]. intros s4 Hv4 He4.
  assert (j ∉ done) as Hjd'.
  { pose proof (chain_nodup g Hg _ _ _ Hch2) as Hnd2. apply list.NoDup_app in Hnd2 as (_ & Hdj & _). intros Hin. apply (Hdj j Hin). by left. }
  replace (if hd 0 done =? 0 then j else hd 0 done) with (hd 0 (done ++ [j])).
  2:{ destruct done as [|d done']; [done|]. cbn [hd app]. pose proof (chain_ok g _ _ _ Hch) as [[? _] _]%list.Forall_cons.
      by rewrite (proj2 (Z.eqb_neq _ _)) by lia. }
  set (fr' := filter (fun c => c <> j) fr).
  eapply (IH s4 F2 m3 (done ++ [j]) fr'); [exact Hv4|unfold n; lia|unfold n; lia|done| | | | |].
  - intros _. by rewrite list.last_snoc.
  - by apply list.NoDup_filter.
  - apply list.Forall_forall. intros x [Hxj Hx]%list_elem_of_filter. rewrite list.Forall_forall in Hfr. destruct (Hfr x Hx) as [Hxok HFx].
    split; [done|]. rewrite HF2; [done|]. rewrite elem_of_app, list_elem_of_singleton. intros [Hxd|]; [|done].
    exact (free_not_in_chain F (hd 0 done) done x Hg Hch HFx prev Hprev Hxd).
  - rewrite Hstep. pose proof (filter_ne_length fr j Hnd). fold fr' in H3. lia.
  - intros s' F' m' ns Hv' Hch' Hns HF' Hm' Hlen' Hby He'. rewrite <-app_assoc in *. cbn [app] in *.
    apply (HQ s' F' m' (j :: ns)); [done|done| | | | | |].
    + constructor; [done|]. eapply list.Forall_impl; [exact Hns|]. intros x [Hxok HFx]. split; [done|]. rewrite <-HF2; [done|].
      rewrite elem_of_app, list_elem_of_singleton. intros [Hxd| ->]; [|congruence].
      apply (free_not_in_chain F2 (hd 0 (done ++ [j])) (done ++ [j]) x Hg Hch2 HFx j); [|by apply elem_of_app; left].
      intros _. by rewrite list.last_snoc.
    + intros x Hx. rewrite HF'; [apply HF2|done]. rewrite elem_of_app in *. rewrite elem_of_cons in Hx. rewrite list_elem_of_singleton. naive_solver.
    + intros x [Hx1 Hx2]%not_in_clusters_cons. rewrite Hm' by done. apply Hm3. lia.
    + rewrite length_cons. lia.
    + rewrite <-(drop_0 (chain_bytes g m' (j :: ns))). change 0%nat with (Z.to_nat 0).
      rewrite chain_bytes_cons; [|by eapply cluster_bytes_length|unfold cluster_size; lia|lia]. rewrite Z.sub_0_r. fold n.
      replace (size - (remaining - n)) with (size - remaining + n) in Hby by lia.
      assert (j ∉ ns) as Hjns.
      { intros Hin. rewrite list.Forall_forall in Hns. destruct (Hns j Hin) as [_ Hz]. congruence. }
      rewrite Hby, (cluster_bytes_ext g m3 m' j ns Hg Hm' Hjns). unfold cluster_bytes. rewrite drop_0, Hb3.
      rewrite Z2Nat.inj_add, <-drop_drop by lia. rewrite take_take_drop. f_equal. unfold n. lia.
    + do 3 (eapply same_env_trans; [eassumption|]). by eapply same_env_trans.
Qed.
End chain_data.
End write.
