(* ===== verification/Fat16Dir.v ===== *)
(** * FAT16: looking up names in a directory

    A directory is the list of its sectors, that of the root or those of a chain of clusters, and
    so a list of 32-byte entries; the iteration of the code over it is [scan] over that list.
    Replacing an entry by one of the same name leaves the lookup of that name in place. *)
From S2P Require Import Prelude BlockDev Fat16Name Fat16 Fat16Vol Fat16Chain Fat16Write.
Import Fat16Name Fat16.

#[global] Instance slot_eq_dec : EqDecision FAT16_DirSlot.
Proof. solve_decision. Defined.

(** ** Entries *)

Record entry_wf (e : FAT16_DirEntry) : Prop := {
  ew_name : length (Name e) = 8%nat /\ Forall is_u8 (Name e);
  ew_ext : length (Ext e) = 3%nat /\ Forall is_u8 (Ext e);
  ew_attr : is_u8 (Attr e);
  ew_mid : length (de_mid e) = 14%nat /\ Forall is_u8 (de_mid e);
  ew_cluster : 0 <= FirstCluster e < 65536;
  ew_size : is_u32 (FileSize e);
}.
Lemma fat_entry_length e : entry_wf e -> length (entry_bytes e) = 32%nat.
Proof. intros [[H1 _] [H2 _] _ [H3 _] _ _]. unfold entry_bytes. rewrite !length_app, H1, H2, H3. done. Qed.
Lemma fat_entry_u8 e : entry_wf e -> Forall is_u8 (entry_bytes e).
Proof.
  intros [[_ H1] [_ H2] H3 [_ H4] _ _]. unfold entry_bytes. rewrite !Forall_app. split_and!; try done.
  - by apply list.Forall_singleton.
  - apply bytes16_u8.
  - apply bytes32_u8.
Qed.
Lemma fat_entry_of_bytes e : entry_wf e -> entry_of (entry_bytes e) = e.
Proof.
  intros [[H1 _] [H2 _] _ [H3 _] H4 H5]. destruct e as [n x a md c sz]. cbn [Name Ext Attr de_mid FirstCluster FileSize] in *.
  unfold entry_of, entry_bytes. cbn [Name Ext Attr de_mid FirstCluster FileSize].
  do 8 (destruct n as [|? n]; [done|]). destruct n; [|done]. do 3 (destruct x as [|? x]; [done|]). destruct x; [|done].
  do 14 (destruct md as [|? md]; [done|]). destruct md; [|done].
  unfold get16, get32. cbn -[u8 Z.shiftr Z.add Z.mul]. f_equal.
  - rewrite Z.shiftr_div_pow2 by lia. change (2 ^ 8) with 256. word_lia.
  - apply le32_bytes32. done.
Qed.

(** ** Scanning a list of entries *)

Section scan.
Context {C : Type} (cb : FAT16_DirItem -> C -> bool * C).

Fixpoint scan (rs : list (FAT16_DirSlot * list Z)) (a : FAT16_LFNState * C) : bool * (FAT16_LFNState * C) :=
  match rs with
  | [] => (true, a)
  | (slot, raw) :: rs' =>
    let '(lfn, ctx) := a in
    let e := entry_of raw in
    let first := hd 0 raw in
    if first =? 0 then (false, a)
    else if first =? DELETED then scan rs' (fat16_lfn_reset lfn, ctx)
    else if Attr e =? FAT16_LFN_ATTR then scan rs' (fat16_lfn_push lfn raw slot, ctx)
    else
      let '(go, ctx') := cb (dir_item lfn e slot) ctx in
      if go : bool then scan rs' (fat16_lfn_reset lfn, ctx') else (false, (fat16_lfn_reset lfn, ctx'))
  end.
Definition sector_entries (c x : Z) (buf : list Z) (i k : nat) : list (FAT16_DirSlot * list Z) :=
  map (fun j => (Slot c x j, raw_at buf j)) (seq i k).
Lemma iterate_scan k : forall i c x buf a, iterate_entries cb k i c x buf a = scan (sector_entries c x buf i k) a.
Proof.
  induction k as [|k IH]; intros i c x buf [lfn ctx]; cbn [iterate_entries]; [done|].
  cbn [sector_entries seq map scan]. destruct (_ =? 0); [done|]. destruct (_ =? DELETED); [apply IH|].
  destruct (_ =? FAT16_LFN_ATTR); [apply IH|]. destruct (cb _ _) as [[] ctx']; [apply IH|done].
Qed.
Lemma scan_app xs : forall ys a, scan (xs ++ ys) a = let '(go, a') := scan xs a in if go then scan ys a' else (false, a').
Proof.
  induction xs as [|[slot raw] xs IH]; intros ys [lfn ctx]; cbn [app scan]; [done|].
  destruct (_ =? 0); [done|]. destruct (_ =? DELETED); [apply IH|]. destruct (_ =? FAT16_LFN_ATTR); [apply IH|].
  destruct (cb _ _) as [[] ctx']; [apply IH|done].
Qed.
End scan.

(** *** Looking for a name *)

Definition find_in (rs : list (FAT16_DirSlot * list Z)) (name : list Z) : option FAT16_DirItem :=
  snd (snd (scan (fat16_find_entry_cb name) rs (lfn_start, None))).
(** The entry of one slot replaced *)
Definition replace_at (sl : FAT16_DirSlot) (raw : list Z) (rs : list (FAT16_DirSlot * list Z)) : list (FAT16_DirSlot * list Z) :=
  map (fun p => if decide (fst p = sl) then (sl, raw) else p) rs.
(** The same item with another entry *)
Definition with_entry (e : FAT16_DirEntry) (it : FAT16_DirItem) : FAT16_DirItem := Item e (it_slot it) (it_long it) (it_lfn_slots it).

Lemma dir_item_entry lfn e slot : it_entry (dir_item lfn e slot) = e /\ it_slot (dir_item lfn e slot) = slot.
Proof. unfold dir_item. by destruct (_ && _ && _). Qed.
Lemma dir_item_same lfn e e' slot : Name e' = Name e -> Ext e' = Ext e -> dir_item lfn e' slot = with_entry e' (dir_item lfn e slot).
Proof. intros E1 E2. unfold dir_item. rewrite E1, E2. by destruct (_ && _ && _). Qed.
Lemma matches_same it e' name : Name e' = Name (it_entry it) -> Ext e' = Ext (it_entry it) ->
  fat16_dir_item_matches (with_entry e' it) name = fat16_dir_item_matches it name.
Proof. intros E1 E2. unfold fat16_dir_item_matches, fat16_build_short_name_str. cbn [with_entry it_long it_entry]. by rewrite E1, E2. Qed.

Lemma find_scan_slot name rs : forall lfn ctx it, snd (snd (scan (fat16_find_entry_cb name) rs (lfn, ctx))) = Some it ->
  ctx = Some it \/ exists raw, (it_slot it, raw) ∈ rs /\ it_entry it = entry_of raw /\ Attr (it_entry it) <> FAT16_LFN_ATTR /\
    hd 0 raw <> 0 /\ hd 0 raw <> DELETED.
Proof.
  induction rs as [|[slot raw] rs IH]; intros lfn ctx it; cbn [scan]; [by left|].
  destruct (Z.eqb_spec (hd 0 raw) 0) as [|H0]; [by left|].
  destruct (Z.eqb_spec (hd 0 raw) DELETED) as [|Hd].
  { intros [->|(r & Hr & ?)]%IH; [by left|right]. exists r. split; [by right|done]. }
  destruct (Z.eqb_spec (Attr (entry_of raw)) FAT16_LFN_ATTR) as [|Ha].
  { intros [->|(r & Hr & ?)]%IH; [by left|right]. exists r. split; [by right|done]. }
  destruct (dir_item_entry lfn (entry_of raw) slot) as [Ee Es].
  unfold fat16_find_entry_cb at 1. destruct (hd 0 (Name _) =? DELETED) eqn:Hn.
  { intros [->|(r & Hr & ?)]%IH; [by left|right]. exists r. split; [by right|done]. }
  destruct (fat16_dir_item_matches _ _).
  - intros [= <-]. right. exists raw. rewrite Ee, Es. split; [by left|done].
  - intros [->|(r & Hr & ?)]%IH; [by left|right]. exists r. split; [by right|done].
Qed.

(** The lookup finds the new entry in the place of the old one. *)
Lemma find_replaced name e' sl rs : forall lfn it, NoDup (map fst rs) ->
  snd (snd (scan (fat16_find_entry_cb name) rs (lfn, None))) = Some it -> it_slot it = sl ->
  entry_wf e' -> Name e' = Name (it_entry it) -> Ext e' = Ext (it_entry it) -> Attr e' <> FAT16_LFN_ATTR ->
  snd (snd (scan (fat16_find_entry_cb name) (replace_at sl (entry_bytes e') rs) (lfn, None))) = Some (with_entry e' it).
Proof.
  intros lfn it Hnd Hf Hsl Hwf En Ex Ha. revert lfn Hnd Hf. induction rs as [|[slot raw] rs IH]; intros lfn Hnd Hf; [done|].
  cbn [map fst] in Hnd. apply list.NoDup_cons in Hnd as [Hnin Hnd].
  cbn [replace_at map fst]. fold (replace_at sl (entry_bytes e') rs). destruct (decide (slot = sl)) as [->|Hne].
  - cbn [scan] in Hf |- *.
    assert (hd 0 (entry_bytes e') = hd 0 (Name e')) as Eh.
    { unfold entry_bytes. destruct (ew_name e' Hwf) as [Hl _]. by destruct (Name e'). }
    assert (forall l (c : option FAT16_DirItem), snd (snd (scan (fat16_find_entry_cb name) rs (l, None))) = Some it -> False) as Hno.
    { intros l c [?|(r & Hr & _)]%find_scan_slot; [done|]. apply Hnin. apply list_elem_of_fmap. exists (it_slot it, r). split; [by rewrite <-Hsl|done]. }
    destruct (Z.eqb_spec (hd 0 raw) 0) as [|H0]; [done|]. destruct (Z.eqb_spec (hd 0 raw) DELETED) as [|Hd]; [destruct (Hno _ None Hf)|].
    destruct (Z.eqb_spec (Attr (entry_of raw)) FAT16_LFN_ATTR) as [|Hra]; [destruct (Hno _ None Hf)|].
    destruct (dir_item_entry lfn (entry_of raw) sl) as [Ee Es].
    unfold fat16_find_entry_cb in Hf at 1. destruct (hd 0 (Name _) =? DELETED) eqn:Hn; [destruct (Hno _ None Hf)|].
    destruct (fat16_dir_item_matches _ _) eqn:Hm; [|destruct (Hno _ None Hf)]. injection Hf as <-. rewrite Ee in *.
    assert (hd 0 (entry_bytes e') = hd 0 raw) as Eh'.
    { rewrite Eh, En. unfold entry_of. cbn [Name]. by destruct raw. }
    rewrite Eh', (proj2 (Z.eqb_neq _ _) H0), (proj2 (Z.eqb_neq _ _) Hd), (fat_entry_of_bytes e' Hwf), (proj2 (Z.eqb_neq _ _) Ha).
    unfold fat16_find_entry_cb at 1. rewrite (dir_item_same lfn (entry_of raw) e' sl En Ex).
    rewrite (matches_same _ e' name) by (by rewrite Ee). rewrite Hm. cbn [with_entry it_entry]. rewrite En, Hn. done.
  - cbn [scan] in Hf |- *. destruct (_ =? 0); [done|]. destruct (_ =? DELETED); [by apply IH|]. destruct (_ =? FAT16_LFN_ATTR); [by apply IH|].
    unfold fat16_find_entry_cb in Hf at 1 |- * at 1. destruct (_ =? DELETED); [by apply IH|].
    destruct (fat16_dir_item_matches _ _); [|by apply IH]. exfalso. injection Hf as <-. apply Hne. rewrite <-Hsl. by destruct (dir_item_entry lfn (entry_of raw) slot).
Qed.

(** ** Directories on the volume *)

Section dir.
Context {D : Type} `{BlockDevOk D} `{Buffers D} (g : geo).
Implicit Types s : @fat16 D.

(** The sector x of cluster c, the root directory being cluster 0 *)
Definition pos_lba (p : Z * Z) : Z := if fst p =? 0 then g_root g + snd p else cluster_lba g (fst p) + snd p.
Definition run_pos (c : Z) (k : nat) : list (Z * Z) := map (fun i => (c, Z.of_nat i)) (seq 0 k).
(** The directory dc consists of the sectors L and the clusters ds. *)
Inductive dir_at (F : Z -> Z) : Z -> list (Z * Z) -> list Z -> Prop :=
| dir_root : dir_at F 0 (run_pos 0 (Z.to_nat (g_rootn g))) []
| dir_chain dc ds : chain g F dc ds -> cluster_ok g dc -> dir_at F dc (ds ≫= fun c => run_pos c (Z.to_nat (g_spc g))) ds.

Lemma dir_at_ext F F' dc L ds : dir_at F dc L ds -> (forall x, x ∈ ds -> F' x = F x) -> dir_at F' dc L ds.
Proof. intros [|? ? Hc Hok] He; [constructor|]. constructor; [|done]. by eapply chain_ext. Qed.

Lemma run_pos_elem c k p : p ∈ run_pos c k <-> fst p = c /\ 0 <= snd p < Z.of_nat k.
Proof.
  unfold run_pos. rewrite list_elem_of_fmap. split.
  - intros (i & -> & Hi%elem_of_seq). cbn. lia.
  - destruct p as [c' x]. cbn. intros [-> Hx]. exists (Z.to_nat x). rewrite elem_of_seq. split; [f_equal; lia|lia].
Qed.
(** Where the sectors of a directory are, and that they are distinct *)
Lemma dir_pos_in F dc L ds p : geo_ok g -> dir_at F dc L ds -> p ∈ L ->
  g_root g <= pos_lba p < g_end g /\ (pos_lba p < g_data g \/ in_clusters g ds (pos_lba p)).
Proof.
  intros Hg Hd Hp. pose proof (geo_order g Hg). pose proof (go_data g Hg). pose proof (go_rootn g Hg). pose proof (go_spc g Hg).
  destruct Hd as [|dc ds Hc _].
  - apply run_pos_elem in Hp as [Ep Hx]. unfold pos_lba. rewrite Ep. cbn [Z.eqb]. split; [lia|left; lia].
  - apply list_elem_of_bind in Hp as (c & [Ep Hx]%run_pos_elem & Hc'). pose proof (chain_ok g _ _ _ Hc) as Hoks.
    rewrite list.Forall_forall in Hoks. pose proof (Hoks c Hc') as Hok. pose proof (cluster_lba_in g c Hg Hok).
    unfold pos_lba. rewrite Ep. rewrite (proj2 (Z.eqb_neq _ _)) by (destruct Hok; lia). split; [lia|right]. exists c. split; [done|lia].
Qed.
Lemma dir_pos_inj F dc L ds p q : geo_ok g -> dir_at F dc L ds -> p ∈ L -> q ∈ L -> pos_lba p = pos_lba q -> p = q.
Proof.
  intros Hg Hd Hp Hq E. pose proof (go_spc g Hg). destruct p as [c x], q as [d y]. unfold pos_lba in E. cbn [fst snd] in E. destruct Hd as [|dc ds Hc _].
  - apply run_pos_elem in Hp as [Ep Hx], Hq as [Eq Hy]. cbn in *. subst. cbn in E. f_equal. lia.
  - apply list_elem_of_bind in Hp as (c' & [Ep Hx]%run_pos_elem & Hc1), Hq as (d' & [Eq Hy]%run_pos_elem & Hd1). cbn in Ep, Eq, Hx, Hy. subst c' d'.
    pose proof (chain_ok g _ _ _ Hc) as Hoks. rewrite list.Forall_forall in Hoks. destruct (Hoks c Hc1), (Hoks d Hd1).
    rewrite !(proj2 (Z.eqb_neq _ _)) in E by lia. assert (c = d) as ->; [|f_equal; lia].
    apply (cluster_lba_disjoint g c d (cluster_lba g c + x) Hg); lia.
Qed.
Lemma run_pos_nodup c k : NoDup (run_pos c k).
Proof. apply NoDup_fmap_2; [|apply NoDup_seq]. intros i j [= E]. lia. Qed.
Lemma dir_pos_nodup F dc L ds : geo_ok g -> dir_at F dc L ds -> NoDup L.
Proof.
  intros Hg [|dc' ds' Hc _]; [apply run_pos_nodup|]. pose proof (chain_nodup g Hg _ _ _ Hc) as Hnd. clear Hc.
  induction Hnd as [|c cs Hc Hnd IH]; [constructor|]. rewrite bind_cons. apply list.NoDup_app. split_and!; [apply run_pos_nodup| |done].
  intros p [Ep _]%run_pos_elem (d & [Ed _]%run_pos_elem & Hd)%list_elem_of_bind. congruence.
Qed.

(** The entries of a directory in order *)
Definition dir_raws (m : Z -> list Z) (L : list (Z * Z)) : list (FAT16_DirSlot * list Z) :=
  L ≫= fun p => sector_entries (fst p) (snd p) (m (pos_lba p)) 0 ENTRIES_PER_SECTOR.
Lemma dir_raws_slot m L sl raw : (sl, raw) ∈ dir_raws m L ->
  (sl_cluster sl, sl_sector sl) ∈ L /\ (sl_index sl < 16)%nat /\ raw = raw_at (m (pos_lba (sl_cluster sl, sl_sector sl))) (sl_index sl).
Proof.
  intros ([c x] & (i & E & Hi%elem_of_seq)%list_elem_of_fmap & Hp)%list_elem_of_bind. unfold ENTRIES_PER_SECTOR in Hi. cbn in E. injection E as -> ->. cbn. split_and!; [done|lia|done].
Qed.
Lemma dir_raws_nodup m L : NoDup L -> NoDup (map fst (dir_raws m L)).
Proof.
  induction 1 as [|[c x] L Hp Hnd IH]; [constructor|]. unfold dir_raws in *. rewrite bind_cons, map_app. apply list.NoDup_app. split_and!; [| |done].
  - unfold sector_entries. rewrite map_map. cbn [fst]. apply NoDup_fmap_2; [|apply NoDup_seq]. by intros i j [= ->].
  - intros sl Hs (r & -> & Hr)%list_elem_of_fmap. destruct r as [sl raw]. apply dir_raws_slot in Hr as (Hin & _ & _).
    unfold sector_entries in Hs. rewrite map_map in Hs. apply list_elem_of_fmap in Hs as (i & E & _). cbn in *. subst sl. done.
Qed.

(** ** Walking *)

Section walk.
Context {A : Type} (f : Z -> Z -> list Z -> A -> bool * A).
Fixpoint fold_walk (m : Z -> list Z) (L : list (Z * Z)) (a : A) : bool * A :=
  match L with
  | [] => (true, a)
  | p :: L' => let '(go, a') := f (fst p) (snd p) (m (pos_lba p)) a in if go : bool then fold_walk m L' a' else (false, a')
  end.
Lemma fold_walk_app m L1 : forall L2 a, fold_walk m (L1 ++ L2) a = let '(go, a') := fold_walk m L1 a in if go then fold_walk m L2 a' else (false, a').
Proof.
  induction L1 as [|p L1 IH]; intros L2 a; cbn [app fold_walk]; [done|]. destruct (f _ _ _ _) as [[] a']; [apply IH|done].
Qed.
Lemma wp_walk_run P k : forall s F m c x i a (Q : bool * A -> fat16 -> Prop), vol g s F m -> g_root g <= x -> 0 <= i -> x + i + Z.of_nat k <= g_end g ->
  (forall j, i <= j < i + Z.of_nat k -> pos_lba (c, j) = x + j) ->
  (forall s', vol g s' F m -> same_env s s' -> Q (fold_walk m (map (fun j => (c, i + Z.of_nat j)) (seq 0 k)) a) s') ->
  wp P (walk_run f k c x i a) Q s.
Proof.
  induction k as [|k IH]; intros s F m c x i a Q Hv Hx Hi Hl Hpos HQ; cbn [walk_run]; [by apply wp_ret, HQ|].
  pose proof (geo_order g (v_geo_ok _ _ _ _ Hv)). rewrite u32_small by (unfold is_u32; lia).
  apply wp_bind. eapply wp_read_data; [exact Hv|lia|]. intros s1 Hv1 He1 _. cbn [seq map fold_walk fst snd] in HQ.
  rewrite Z.add_0_r, Hpos in HQ by lia. destruct (f c i (m (x + i)) a) as [[] a']; [|by apply wp_ret, HQ].
  eapply IH; [exact Hv1|done|lia|lia|intros; apply Hpos; lia|]. intros s2 Hv2 He2.
  rewrite <-seq_shift, map_map in HQ. erewrite map_ext in HQ; [apply HQ; [done|by eapply same_env_trans]|].
  intros j. cbn. f_equal. lia.
Qed.
Lemma wp_walk_chain P fuel : forall s F m c cs last a (Q : bool * A * Z -> fat16 -> Prop), vol g s F m -> chain g F c cs -> (length cs < fuel)%nat ->
  (forall s' l, vol g s' F m -> same_env s s' -> Q (fold_walk m (cs ≫= fun c => run_pos c (Z.to_nat (g_spc g))) a, l) s') ->
  wp P (walk_chain f fuel c last a) Q s.
Proof.
  induction fuel as [|fuel IH]; intros s F m c cs last a Q Hv Hch Hfu HQ; [lia|]. cbn [walk_chain].
  pose proof (v_geo_ok _ _ _ _ Hv) as Hg. inversion Hch as [? Hc|? cs' Hok Hch']; subst.
  { rewrite Hc. cbn [negb]. by apply wp_ret, HQ. }
  pose proof (cluster_lba_in g c Hg Hok). pose proof (geo_order g Hg). pose proof (go_spc g Hg).
  rewrite (cluster_ok_chain g Hg c Hok). cbn [negb]. apply wp_bind. eapply wp_cluster_to_lba; [exact Hv|done|].
  apply wp_bind. eapply wp_sec_per_clus; [exact Hv|]. apply wp_bind. eapply wp_walk_run; [exact Hv|lia|lia|lia| |].
  { intros j Hj. unfold pos_lba. cbn [fst snd]. by rewrite (proj2 (Z.eqb_neq _ _)) by (destruct Hok; lia). }
  intros s1 Hv1 He1. change (map (fun j => (c, 0 + Z.of_nat j)) (seq 0 (Z.to_nat (g_spc g)))) with (run_pos c (Z.to_nat (g_spc g))).
  rewrite bind_cons, fold_walk_app in HQ.
  destruct (fold_walk m (run_pos c (Z.to_nat (g_spc g))) a) as [[] a']; [|by apply wp_ret, HQ].
  apply wp_bind. eapply wp_next_cluster; [exact Hv1|by apply cluster_ok_entry|]. intros s2 Hv2 He2 _.
  eapply IH; [exact Hv2|exact Hch'|simpl in Hfu; lia|]. intros s' l Hv' He'. apply HQ; [done|].
  eapply same_env_trans; [exact He1|]. by eapply same_env_trans.
Qed.
Lemma wp_walk_dir P s F m dc L ds a (Q : bool * A * Z -> fat16 -> Prop) : vol g s F m -> dir_at F dc L ds ->
  (forall s' l, vol g s' F m -> same_env s s' -> Q (fold_walk m L a, l) s') -> wp P (walk_dir f dc a) Q s.
Proof.
  intros Hv Hd HQ. pose proof (v_geo_ok _ _ _ _ Hv) as Hg. pose proof (geo_order g Hg). pose proof (go_data g Hg). pose proof (go_rootn g Hg).
  unfold walk_dir. destruct Hd as [|dc ds Hc Hok].
  - cbn [Z.eqb]. apply wp_bind, wp_gets, wp_bind, wp_gets.
    replace (root_dir_lba s) with (g_root g) by (by rewrite <-(v_geo _ _ _ _ Hv)).
    replace (root_dir_sectors s) with (g_rootn g) by (by rewrite <-(v_geo _ _ _ _ Hv)).
    apply wp_bind. eapply wp_walk_run; [exact Hv|lia|lia|lia|done|]. intros s1 Hv1 He1. apply wp_ret. by apply HQ.
  - rewrite (proj2 (Z.eqb_neq _ _)) by (destruct Hok; lia). eapply wp_walk_chain; [exact Hv|exact Hc|by eapply chain_length|done].
Qed.
End walk.

Lemma fold_iterate {C} (cb : FAT16_DirItem -> C -> bool * C) m L : forall a,
  fold_walk (iterate_entries cb ENTRIES_PER_SECTOR 0) m L a = scan cb (dir_raws m L) a.
Proof.
  induction L as [|p L IH]; intros a; cbn [fold_walk]; [done|]. unfold dir_raws. rewrite bind_cons, scan_app, iterate_scan.
  destruct (scan cb _ a) as [[] a']; [apply IH|done].
Qed.
Lemma wp_find_entry_slot P s F m dc L ds name (Q : option FAT16_DirItem -> fat16 -> Prop) : vol g s F m -> dir_at F dc L ds ->
  (forall s', vol g s' F m -> same_env s s' -> Q (find_in (dir_raws m L) name) s') -> wp P (fat16_find_entry_slot dc name) Q s.
Proof.
  intros Hv Hd HQ. unfold fat16_find_entry_slot, fat16_iterate_dir. apply wp_bind. eapply wp_walk_dir; [exact Hv|exact Hd|].
  intros s' l Hv' He'. apply wp_ret. cbn [fst]. rewrite fold_iterate. by apply HQ.
Qed.

(** ** Writing an entry *)

Lemma raw_at_splice buf i raw buf' j : is_sector buf -> length raw = 32%nat -> (i < 16)%nat -> (j < 16)%nat ->
  splice buf (Z.of_nat (DIRENT * i)) raw = Some buf' -> raw_at buf' j = if decide (j = i) then raw else raw_at buf j.
Proof.
  intros [Hl _] Hr Hi Hj Hs. unfold DIRENT in *.
  destruct (splice_in buf (Z.of_nat (32 * i)) raw) as (b2 & E2 & Hl2 & Hat); [lia|lia|]. rewrite Hs in E2. injection E2 as <-.
  apply list_eq. intros n. unfold raw_at, DIRENT. destruct (decide (n < 32)%nat) as [Hn|Hn].
  - rewrite lookup_take_lt, lookup_drop, Hat by lia. rewrite Nat2Z.id. case_decide as Hd.
    + rewrite decide_True by lia. f_equal. lia.
    + rewrite decide_False by lia. by rewrite lookup_take_lt, lookup_drop by lia.
  - rewrite lookup_take_ge by lia. case_decide; [rewrite lookup_ge_None_2 by lia; done|]. by rewrite lookup_take_ge by lia.
Qed.
Lemma dir_raws_write F dc L ds m sl raw buf' : geo_ok g -> dir_at F dc L ds -> (sl_cluster sl, sl_sector sl) ∈ L -> (sl_index sl < 16)%nat ->
  is_sector (m (pos_lba (sl_cluster sl, sl_sector sl))) -> length raw = 32%nat ->
  splice (m (pos_lba (sl_cluster sl, sl_sector sl))) (Z.of_nat (DIRENT * sl_index sl)) raw = Some buf' ->
  dir_raws (upd m (pos_lba (sl_cluster sl, sl_sector sl)) buf') L = replace_at sl raw (dir_raws m L).
Proof.
  intros Hg Hd Hin Hi Hsec Hr Hsp. destruct sl as [c0 x0 i0]. cbn [sl_cluster sl_sector sl_index] in *.
  assert (forall L', L' ⊆ L -> dir_raws (upd m (pos_lba (c0, x0)) buf') L' = replace_at (Slot c0 x0 i0) raw (dir_raws m L')) as Hgen; [|by apply Hgen].
  induction L' as [|[c x] L' IH]; intros Hsub; [done|]. unfold dir_raws in *. rewrite !bind_cons. unfold replace_at. rewrite map_app.
  f_equal; [|apply IH; intros p Hp; apply Hsub; by right]. cbn [fst snd]. unfold sector_entries. rewrite map_map. apply map_ext_in.
  intros j Hj%in_seq. cbn [fst]. unfold upd. destruct (decide (pos_lba (c, x) = pos_lba (c0, x0))) as [E|Hne].
  - assert ((c, x) = (c0, x0)) as [= -> ->] by (eapply dir_pos_inj; [done|exact Hd|apply Hsub; by left|done|done]).
    unfold ENTRIES_PER_SECTOR in Hj. rewrite (raw_at_splice _ i0 raw buf' j) by (done || lia).
    destruct (decide (j = i0)) as [->|Hji]; [by rewrite decide_True|]. rewrite decide_False by congruence. done.
  - rewrite decide_False; [done|]. intros [= -> -> ->]. done.
Qed.
Lemma wp_dir_write_raw P s F m dc L ds sl raw (Q : unit -> fat16 -> Prop) : vol g s F m -> dir_at F dc L ds ->
  (sl_cluster sl, sl_sector sl) ∈ L -> (sl_index sl < 16)%nat -> length raw = 32%nat -> Forall is_u8 raw ->
  (forall s' m', vol g s' F m' -> dir_raws m' L = replace_at sl raw (dir_raws m L) ->
     (forall x, x <> pos_lba (sl_cluster sl, sl_sector sl) -> m' x = m x) -> same_env s s' -> Q tt s') ->
  wp P (fat16_dir_write_raw sl raw) Q s.
Proof.
  intros Hv Hd Hin Hi Hr Hu HQ. pose proof (v_geo_ok _ _ _ _ Hv) as Hg. pose proof (geo_order g Hg) as Hord.
  destruct (dir_pos_in F dc L ds _ Hg Hd Hin) as [Hpos _]. pose proof (vol_sector g s F m _ Hv Hpos) as Hsec.
  set (x := pos_lba (sl_cluster sl, sl_sector sl)) in *. unfold fat16_dir_write_raw. apply wp_bind.
  assert (forall (Q1 : Z -> fat16 -> Prop), Q1 x s -> wp P (fat16_dir_slot_lba sl) Q1 s) as Hlba.
  { intros Q1 HQ1. unfold fat16_dir_slot_lba, x, pos_lba in *. cbn [fst snd] in *. destruct (Z.eqb_spec (sl_cluster sl) 0).
    - apply wp_bind, wp_gets, wp_ret. replace (root_dir_lba s) with (g_root g) by (by rewrite <-(v_geo _ _ _ _ Hv)).
      by rewrite u32_small by (unfold is_u32; lia).
    - assert (cluster_ok g (sl_cluster sl)) as Hok.
      { destruct Hd as [|dc ds Hc _]; [by apply run_pos_elem in Hin as [? _]|].
        apply list_elem_of_bind in Hin as (c & [Ec _]%run_pos_elem & Hc'). cbn in Ec. subst c. pose proof (chain_ok g _ _ _ Hc) as Hoks.
        rewrite list.Forall_forall in Hoks. by apply Hoks. }
      apply wp_bind. eapply wp_cluster_to_lba; [exact Hv|done|]. apply wp_ret. by rewrite u32_small by (unfold is_u32; lia). }
  apply Hlba. apply wp_bind. eapply wp_read_data; [exact Hv|done|]. intros s1 Hv1 He1 _.
  rewrite take_ge by (unfold DIRENT; lia). pose proof Hsec as [Hsl Hsu].
  destruct (splice_in (m x) (Z.of_nat (DIRENT * sl_index sl)) raw) as (buf' & Esp & Hl' & _); [lia|unfold DIRENT; lia|].
  rewrite Esp. apply wp_bind, wp_lift_some. eapply wp_write_sector; [exact Hv1|done| |].
  { split; [lia|]. by eapply splice_u8; [| |exact Esp]. }
  intros s2 Hv2 He2. eapply HQ; [exact Hv2|by eapply dir_raws_write| |by eapply same_env_trans]. intros y Hy. by apply upd_ne.
Qed.
End dir.
