(* ===== verification/Fat16File.v ===== *)
(** * FAT16: files of the current directory

    Overwriting a file and reading it: the file system operations composed from the rules for the
    table, the chains and the directories. *)
From S2P Require Import Prelude BlockDev Fat16Name Fat16 SparseDev Fat16Vol Fat16Chain Fat16Write Fat16Dir.
From S2P Require Libc.
Import Fat16Name Fat16.

(** What the buffers promise: they leave the drives alone. *)
Class BuffersOk (D : Type) `{BlockDevOk D} `{Buffers D} := {
  kmalloc_keeps d n : dev_ok d -> exists p d', kmalloc n d = Ok (p, d') /\ dev_ok d' /\ dev_sectors d' = dev_sectors d;
  kfree_keeps d p : dev_ok d -> exists d', kfree p d = Ok (tt, d') /\ dev_ok d' /\ dev_sectors d' = dev_sectors d;
}.
#[global] Program Instance sparse_buffers_ok : BuffersOk sparse.
Next Obligation.
  intros d n Hok. cbn. destruct (0 <? sd_buffers d); eexists _, _; (split; [reflexivity|]); [|done].
  split; [|done]. by destruct Hok.
Qed.
Next Obligation. intros d p Hok. cbn. eexists. split; [reflexivity|]. split; [|done]. by destruct Hok. Qed.

Lemma CHAIN_size : Z.of_nat CHAIN = 65537.
Proof. unfold CHAIN. lia. Qed.
Lemma CHAIN_S : CHAIN = S (Z.to_nat 65536).
Proof. unfold CHAIN. lia. Qed.

Lemma entry_of_wf raw : length raw = 32%nat -> Forall is_u8 raw -> entry_wf (entry_of raw).
Proof.
  intros Hl Hu. constructor; unfold entry_of; cbn [Name Ext Attr de_mid FirstCluster FileSize].
  - split; [rewrite length_take; lia|by apply Forall_take].
  - split; [rewrite length_take, length_drop; lia|by apply Forall_take, Forall_drop].
  - by apply nth_u8.
  - split; [rewrite length_take, length_drop; lia|by apply Forall_take, Forall_drop].
  - by apply get16_range.
  - by apply get32_u32.
Qed.

Section claims.
Context {D : Type} `{BlockDevOk D} `{Buffers D} (g : geo).
Implicit Types s : @fat16 D.

(** ** Directories and clusters do not meet *)

Lemma dir_raws_ext m m' L : (forall p, p ∈ L -> m' (pos_lba g p) = m (pos_lba g p)) -> dir_raws g m' L = dir_raws g m L.
Proof.
  intros He. induction L as [|p L IH]; [done|]. unfold dir_raws in *. rewrite !bind_cons, He by (by left).
  f_equal. apply IH. intros q Hq. apply He. by right.
Qed.
Lemma dir_outside F dc L ds cs p : geo_ok g -> dir_at g F dc L ds -> Forall (cluster_ok g) cs -> (forall x, x ∈ cs -> x ∉ ds) -> p ∈ L ->
  ~ in_clusters g cs (pos_lba g p).
Proof.
  intros Hg Hd Hcs Hdis Hp (c & Hc & Hx). destruct (dir_pos_in g F dc L ds p Hg Hd Hp) as [_ [Hlow|(d & Hdd & Hx')]].
  - rewrite list.Forall_forall in Hcs. pose proof (cluster_lba_in g c Hg (Hcs c Hc)). lia.
  - assert (c = d) as -> by (by eapply cluster_lba_disjoint). by apply (Hdis d).
Qed.
(** The sector of a directory is not one of a chain that does not belong to it. *)
Lemma chain_bytes_frame F dc L ds m m' cs p : geo_ok g -> dir_at g F dc L ds -> Forall (cluster_ok g) cs -> (forall x, x ∈ cs -> x ∉ ds) -> p ∈ L ->
  (forall x, x <> pos_lba g p -> m' x = m x) -> chain_bytes g m' cs = chain_bytes g m cs.
Proof.
  intros Hg Hd Hcs Hdis Hp He. pose proof (go_spc g Hg). unfold chain_bytes. induction cs as [|c cs IH]; [done|].
  rewrite !bind_cons, IH; [f_equal|by inversion Hcs|intros x Hx; apply Hdis; by right]. apply sec_run_ext. intros y Hy.
  apply He. intros ->. eapply (dir_outside F dc L ds (c :: cs) p); [done|done|done|done|done|]. exists c. split; [by left|lia].
Qed.

(** ** Overwriting a file *)

(** The file e of the volume holds the bytes data in the clusters cs. *)
Record holds (F : Z -> Z) (m : Z -> list Z) (e : FAT16_DirEntry) (cs data : list Z) : Prop := {
  ho_chain : chain g F (FirstCluster e) cs;
  ho_size : FileSize e = Z.of_nat (length data);
  ho_room : Z.of_nat (length data) <= cluster_size g * Z.of_nat (length cs);
  ho_bytes : take (length data) (chain_bytes g m cs) = data;
}.
(** The part of the volume outside the clusters xs and the sector x is as before. *)
Definition others_kept (F : Z -> Z) (m : Z -> list Z) (F' : Z -> Z) (m' : Z -> list Z) (xs : list Z) (x : Z) : Prop :=
  (forall c, c ∉ xs -> F' c = F c) /\ (forall y, ~ in_clusters g xs y -> y <> x -> m' y = m y).

Lemma in_clusters_app xs ys x : in_clusters g (xs ++ ys) x <-> in_clusters g xs x \/ in_clusters g ys x.
Proof. unfold in_clusters. setoid_rewrite elem_of_app. naive_solver. Qed.
Lemma clusters_for_room n : geo_ok g -> 0 <= n -> n <= cluster_size g * clusters_for g n.
Proof. intros Hg Hn. pose proof (go_spc g Hg). unfold clusters_for, cluster_size. pose proof (Z.div_mod (n + 512 * g_spc g - 1) (512 * g_spc g)).
  pose proof (Z.mod_pos_bound (n + 512 * g_spc g - 1) (512 * g_spc g)). nia. Qed.

Lemma wp_overwrite_file P s F m dc L ds name it cs av data (Q : Z -> fat16 -> Prop) :
  vol g s F m -> dir_at g F dc L ds -> Forall (fun x => F x <> 0) ds -> find_in (dir_raws g m L) name = Some it ->
  fat16_is_dir (it_entry it) = false -> chain g F (FirstCluster (it_entry it)) cs -> (forall x, x ∈ cs -> x ∉ ds) ->
  NoDup av -> Forall (fun x => cluster_ok g x /\ (F x = 0 \/ x ∈ cs)) av -> clusters_for g (Z.of_nat (length data)) <= Z.of_nat (length av) ->
  Forall is_u8 data -> Z.of_nat (length data) < 2147483648 ->
  (forall s' F' m' ns e', vol g s' F' m' -> dir_at g F' dc L ds -> find_in (dir_raws g m' L) name = Some (with_entry e' it) ->
     holds F' m' e' ns data -> Forall (fun x => cluster_ok g x /\ (F x = 0 \/ x ∈ cs)) ns ->
     others_kept F m F' m' (cs ++ ns) (pos_lba g (sl_cluster (it_slot it), sl_sector (it_slot it))) ->
     same_env s s' -> Q (Z.of_nat (length data)) s') ->
  wp P (overwrite_file it data (Z.of_nat (length data))) Q s.
Proof.
  intros Hv Hd Hds Hfind Hnd Hch Hdis Hav Havf Hcnt Hu Hlen HQ. pose proof (v_geo_ok _ _ _ _ Hv) as Hg. pose proof (geo_order g Hg).
  set (size := Z.of_nat (length data)) in *. assert (u32 size = size) as Eu by (apply u32_small; unfold is_u32, size; lia).
  pose proof (chain_ok g _ _ _ Hch) as Hcsok.
  unfold overwrite_file. rewrite Hnd, Eu. apply wp_bind. eapply wp_wipe_loop; [exact Hv|exact Hch|by eapply chain_length|].
  intros s1 F1 m1 Hv1 HF0 HF1 Hm1 He1.
  apply wp_bind. eapply (wp_write_chain g data size Hu ltac:(lia) ltac:(lia) P _ s1 F1 m1 [] av size 0); [exact Hv1|lia|lia|by constructor|done|done| |lia|].
  { eapply list.Forall_impl; [exact Havf|]. intros x [Hok Hx]. split; [done|]. destruct (decide (x ∈ cs)) as [Hin|Hin]; [by apply HF0|].
    rewrite HF1 by done. by destruct Hx. }
  intros s2 F2 m2 ns Hv2 Hch2 Hns HF2 Hm2 Hnl Hby He2. cbn [app] in *.
  assert (Forall (fun x => cluster_ok g x /\ (F x = 0 \/ x ∈ cs)) ns) as Hns'.
  { eapply list.Forall_impl; [exact Hns|]. intros x [Hok Hx]. split; [done|]. destruct (decide (x ∈ cs)) as [|Hin]; [by right|left]. by rewrite <-HF1. }
  assert (Forall (cluster_ok g) (cs ++ ns)) as Hallok.
  { apply Forall_app. split; [done|]. eapply list.Forall_impl; [exact Hns'|]. by intros x [? _]. }
  assert (forall x, x ∈ cs ++ ns -> x ∉ ds) as Hdis2.
  { intros x [Hx|Hx]%elem_of_app; [by apply Hdis|]. rewrite list.Forall_forall in Hns', Hds. intros Hxd. destruct (Hns' x Hx) as [_ [Hz|Hin]];
      [by apply (Hds x Hxd)|by apply (Hdis x)]. }
  assert (dir_at g F2 dc L ds) as Hd2.
  { eapply dir_at_ext; [exact Hd|]. intros x Hx. rewrite HF2, HF1; [done| |]; intros Hin; apply (Hdis2 x); [by apply elem_of_app; left|done|by apply elem_of_app; right|done]. }
  assert (forall x, ~ in_clusters g (cs ++ ns) x -> m2 x = m x) as Hm12.
  { intros x Hx. rewrite in_clusters_app in Hx. rewrite Hm2 by tauto. apply Hm1. tauto. }
  assert (dir_raws g m2 L = dir_raws g m L) as Hraws.
  { apply dir_raws_ext. intros p Hp. apply Hm12. by eapply dir_outside. }
  pose proof Hfind as Hslot. unfold find_in in Hslot. apply find_scan_slot in Hslot as [?|(raw & Hin & Ee & Ha & _ & _)]; [done|].
  apply dir_raws_slot in Hin as (HinL & Hidx & Eraw). set (p := (sl_cluster (it_slot it), sl_sector (it_slot it))) in *.
  destruct (dir_pos_in g F dc L ds p Hg Hd HinL) as [Hpos _]. destruct (vol_sector g s F m _ Hv Hpos) as [Hsl Hsu].
  assert (entry_wf (it_entry it)) as Hwf.
  { rewrite Ee, Eraw. apply entry_of_wf; [unfold raw_at, DIRENT; rewrite length_take, length_drop; lia|by apply Forall_take, Forall_drop]. }
  pose proof Hwf as [[Hnl8 Hnu] [Hel3 Heu] _ _ _ _].
  set (e' := new_entry (Name (it_entry it) ++ Ext (it_entry it)) 0x20 (hd 0 ns) size).
  assert (Name e' = Name (it_entry it)) as En by (unfold e', new_entry; cbn [Name]; rewrite take_app_le, take_ge by lia; done).
  assert (Ext e' = Ext (it_entry it)) as Ex.
  { unfold e', new_entry. cbn [Ext]. rewrite drop_app_ge, Hnl8, Nat.sub_diag, drop_0, take_ge by lia. done. }
  assert (0 <= hd 0 ns < 65536) as Hhd.
  { destruct ns as [|n0 ns]; [simpl; lia|]. apply list.Forall_cons in Hns as [[Hn0 _] _]. pose proof (go_entries g Hg). unfold cluster_ok in Hn0. simpl. lia. }
  assert (entry_wf e') as Hwf'.
  { constructor; [by rewrite En|by rewrite Ex|..]; unfold e', new_entry; cbn [Attr de_mid FirstCluster FileSize]; [unfold is_u8; lia| |done|unfold is_u32, size; lia].
    split; [done|apply fat_zeros_u8]. }
  apply wp_bind. eapply wp_dir_write_raw; [exact Hv2|exact Hd2|exact HinL|done|by apply fat_entry_length|by apply fat_entry_u8|].
  intros s3 m3 Hv3 Hraws3 Hm3 He3. apply wp_ret. eapply (HQ s3 F2 m3 ns e'); [exact Hv3|exact Hd2| | |exact Hns'| |].
  - rewrite Hraws3, Hraws. unfold find_in. apply find_replaced; try done. apply dir_raws_nodup. by eapply dir_pos_nodup.
  - assert (chain_bytes g m3 ns = chain_bytes g m2 ns) as Ecb.
    { eapply chain_bytes_frame; [exact Hg|exact Hd2| | |exact HinL|exact Hm3].
      - apply Forall_app in Hallok as [_ Hok]. exact Hok.
      - intros x Hx. apply Hdis2. apply elem_of_app. by right. }
    constructor; unfold e', new_entry; cbn [FirstCluster FileSize]; [done|done| |].
    + rewrite Hnl. apply clusters_for_room; [done|lia].
    + rewrite Ecb. unfold size in Hby. rewrite Nat2Z.id, Z.sub_diag in Hby. rewrite Hby. change (drop (Z.to_nat 0) data) with data. by apply take_ge.
  - split.
    + intros c Hc. rewrite not_elem_of_app in Hc. destruct Hc. by rewrite HF2, HF1.
    + intros y Hy Hyp. rewrite Hm3 by done. by apply Hm12.
  - eapply same_env_trans; [exact He1|]. by eapply same_env_trans.
Qed.

(** ** Names in the current directory *)

Definition simple_name (name : list Z) : Prop := name <> [] /\ Forall (.∉ [SLASH]) name /\ (length name < 256)%nat.
(** name is a file of the directory dc: the item is it, its clusters are cs, and they are not
    clusters of the directory, which are in use. *)
Record file_at (F : Z -> Z) (m : Z -> list Z) (dc : Z) (L : list (Z * Z)) (ds name : list Z) (it : FAT16_DirItem) (cs : list Z) : Prop := {
  fa_dir : dir_at g F dc L ds;
  fa_used : Forall (fun x => F x <> 0) ds;
  fa_find : find_in (dir_raws g m L) name = Some it;
  fa_file : fat16_is_dir (it_entry it) = false;
  fa_chain : chain g F (FirstCluster (it_entry it)) cs;
  fa_apart : forall x, x ∈ cs -> x ∉ ds;
}.

Lemma split_last_none c l : c ∉ l -> split_last c l = None.
Proof.
  induction l as [|x l IH]; intros Hn; [done|]. apply not_elem_of_cons in Hn as [Hx Hl]. cbn [split_last]. rewrite IH by done.
  bdestr; [congruence|done].
Qed.
Lemma simple_split name : simple_name name -> split_path name = Some ([], name).
Proof.
  intros (Hne & Hs & Hl). unfold split_path. rewrite split_last_none.
  - cbn [fst snd length]. rewrite (proj2 (Nat.leb_gt _ (length name))) by lia. done.
  - intros Hin. rewrite list.Forall_forall in Hs. by apply (Hs _ Hin), list_elem_of_singleton.
Qed.
Lemma simple_head name : simple_name name -> (hd 0 name =? SLASH) = false.
Proof.
  intros (Hne & Hs & _). destruct name as [|c name]; [done|]. apply list.Forall_cons in Hs as [Hc _]. apply Z.eqb_neq. intros E. apply Hc.
  simpl in E. rewrite E. apply list_elem_of_singleton. done.
Qed.
Lemma dir_at_number F dc L ds : geo_ok g -> dir_at g F dc L ds -> dc <> 0xFFFF.
Proof. intros Hg [|dc' ds' Hc Hok]; [done|]. pose proof (go_entries g Hg). unfold cluster_ok in Hok. lia. Qed.

Lemma wp_resolve_here P s (Q : Z -> fat16 -> Prop) : Q (current_dir_cluster16 s) s -> wp P (fat16_resolve_dir []) Q s.
Proof. intros HQ. unfold fat16_resolve_dir. cbn. by apply wp_bind, wp_gets, wp_ret. Qed.

Lemma wp_write_existing P s F m L ds name it cs av data (Q : Z -> fat16 -> Prop) :
  vol g s F m -> file_at F m (current_dir_cluster16 s) L ds name it cs -> simple_name name ->
  NoDup av -> Forall (fun x => cluster_ok g x /\ (F x = 0 \/ x ∈ cs)) av -> clusters_for g (Z.of_nat (length data)) <= Z.of_nat (length av) ->
  Forall is_u8 data -> Z.of_nat (length data) < 2147483648 ->
  (forall s' F' m' ns e', vol g s' F' m' -> dir_at g F' (current_dir_cluster16 s) L ds -> find_in (dir_raws g m' L) name = Some (with_entry e' it) ->
     holds F' m' e' ns data -> Forall (fun x => cluster_ok g x /\ (F x = 0 \/ x ∈ cs)) ns ->
     others_kept F m F' m' (cs ++ ns) (pos_lba g (sl_cluster (it_slot it), sl_sector (it_slot it))) ->
     same_env s s' -> Q (Z.of_nat (length data)) s') ->
  wp P (fat16_write_file (Some name) (Some data) (Z.of_nat (length data))) Q s.
Proof.
  intros Hv [Hd Hused Hfind Hnd Hch Hap] Hname Hav Havf Hcnt Hu Hlen HQ. pose proof (v_geo_ok _ _ _ _ Hv) as Hg.
  unfold fat16_write_file. rewrite CHAIN_S. generalize (Z.to_nat 65536) as fuel. intros fuel. cbn [write_file_loop].
  rewrite (simple_split _ Hname). apply wp_bind, wp_lift_some. apply wp_bind, wp_resolve_here.
  rewrite (proj2 (Z.eqb_neq _ _)) by (by eapply dir_at_number). apply wp_bind. eapply wp_find_entry_slot; [exact Hv|exact Hd|].
  intros s1 Hv1 He1. rewrite Hfind. eapply wp_overwrite_file; [exact Hv1|exact Hd|done|done|done|exact Hch|done|exact Hav|done|done|done|done|].
  intros s' F' m' ns e' Hv' Hd' Hf' Hh Hns Ho He'. eapply HQ; try done. by eapply same_env_trans.
Qed.

(** ** Reading *)

Lemma wp_find_here P s F m L ds name (Q : option FAT16_DirEntry -> fat16 -> Prop) :
  vol g s F m -> dir_at g F (current_dir_cluster16 s) L ds -> simple_name name ->
  (forall s', vol g s' F m -> same_env s s' -> Q (it_entry <$> find_in (dir_raws g m L) name) s') -> wp P (fat16_find_file_path name) Q s.
Proof.
  intros Hv Hd Hname HQ. pose proof Hname as (Hne & Hs & Hl). unfold fat16_find_file_path. rewrite (proj2 (Nat.leb_gt _ _)) by lia.
  apply wp_bind, wp_gets. rewrite simple_head by done. rewrite Libc.tokens_last by done. cbn [find_path_loop].
  apply wp_bind. unfold fat16_find_entry. apply wp_bind. eapply wp_find_entry_slot; [exact Hv|exact Hd|]. intros s' Hv' He'.
  apply wp_ret. specialize (HQ s' Hv' He'). by destruct (find_in _ name); apply wp_ret.
Qed.

(** A whole number of clusters skipped by their links *)
Lemma chain_below F c cs : chain g F c cs -> cs <> [] -> geo_ok g -> (CLUSTER_EOF <=? c) = false.
Proof.
  intros Hch Hne Hg. inversion Hch as [|? cs' Hok]; subst; [done|]. apply Z.leb_gt. pose proof (go_entries g Hg). unfold cluster_ok, CLUSTER_EOF in *. lia.
Qed.
Lemma wp_skip_clusters P q : forall s F m c cs (Q : option Z -> fat16 -> Prop), vol g s F m -> chain g F c cs -> (q < length cs)%nat ->
  (forall s' c', vol g s' F m -> same_env s s' -> chain g F c' (drop q cs) -> Q (Some c') s') -> wp P (skip_clusters q c) Q s.
Proof.
  induction q as [|q IH]; intros s F m c cs Q Hv Hch Hq HQ; cbn [skip_clusters]; [by apply wp_ret, HQ|].
  inversion Hch as [? Hc|? cs' Hok Hch']; subst; [simpl in Hq; lia|]. simpl in Hq. pose proof (v_geo_ok _ _ _ _ Hv) as Hg.
  apply wp_bind. eapply wp_get_fat; [exact Hv|by apply cluster_ok_entry|]. intros s1 Hv1 He1 _.
  rewrite (chain_below F _ cs') by (done || by destruct cs'; simpl in Hq; [lia|]). eapply IH; [exact Hv1|exact Hch'|lia|].
  intros s' c' Hv' He' Hc'. apply HQ; [done|by eapply same_env_trans|done].
Qed.
Lemma wp_skip_bytes P fuel : forall s F m c cs skip (Q : option (Z * Z) -> fat16 -> Prop), vol g s F m -> chain g F c cs ->
  0 <= skip < cluster_size g * Z.of_nat (length cs) -> skip < Z.of_nat fuel ->
  (forall s' c', vol g s' F m -> same_env s s' -> chain g F c' (drop (Z.to_nat (skip / cluster_size g)) cs) -> Q (Some (c', skip mod cluster_size g)) s') ->
  wp P (skip_bytes_loop fuel c (cluster_size g) skip) Q s.
Proof.
  induction fuel as [|fuel IH]; intros s F m c cs skip Q Hv Hch Hs Hfu HQ; [lia|]. cbn [skip_bytes_loop].
  pose proof (v_geo_ok _ _ _ _ Hv) as Hg. assert (1 <= cluster_size g) as Hcs by (pose proof (go_spc g Hg); unfold cluster_size; lia).
  apply wp_if; intros Hb; [apply negb_true_iff, Z.leb_gt in Hb|apply negb_false_iff, Z.leb_le in Hb].
  { apply wp_ret. rewrite Z.div_small, Z.mod_small in HQ by lia. by apply HQ. }
  inversion Hch as [? Hc|? cs' Hok Hch']; subst; [simpl in Hs; lia|]. cbn [length] in Hs.
  assert (skip - cluster_size g < cluster_size g * Z.of_nat (length cs')) as Hs' by lia.
  apply wp_bind. eapply wp_next_cluster; [exact Hv|by apply cluster_ok_entry|]. intros s1 Hv1 He1 _.
  assert (cs' <> []) as Hne by (intros ->; simpl in Hs'; lia).
  rewrite (chain_below F _ cs') by done. eapply IH; [exact Hv1|exact Hch'|lia|lia|].
  assert (skip = (skip - cluster_size g) + 1 * cluster_size g) as Es by lia. rewrite Es, Z.div_add, Z.mod_add in HQ by lia.
  intros s' c' Hv' He' Hc'. apply HQ; [done|by eapply same_env_trans|].
  rewrite Z2Nat.inj_add by (try apply Z.div_pos; lia). change (Z.to_nat 1) with 1%nat. rewrite Nat.add_comm. exact Hc'.
Qed.

(** The bytes of a chain from an offset on, by the cluster and the rest *)
Lemma chain_bytes_drop s F m cs q r : vol g s F m -> Forall (cluster_ok g) cs -> 0 <= q <= Z.of_nat (length cs) -> 0 <= r ->
  drop (Z.to_nat r) (chain_bytes g m (drop (Z.to_nat q) cs)) = drop (Z.to_nat (q * cluster_size g + r)) (chain_bytes g m cs).
Proof.
  intros Hv Hok Hq Hr. pose proof (v_geo_ok _ _ _ _ Hv) as Hg. assert (1 <= cluster_size g) as Hcs by (pose proof (go_spc g Hg); unfold cluster_size; lia).
  rewrite <-(take_drop (Z.to_nat q) cs) at 2. unfold chain_bytes. rewrite bind_app. fold (chain_bytes g m (take (Z.to_nat q) cs)).
  fold (chain_bytes g m (drop (Z.to_nat q) cs)).
  assert (Z.of_nat (length (chain_bytes g m (take (Z.to_nat q) cs))) = q * cluster_size g) as El.
  { rewrite (chain_bytes_length g s F m) by (done || by apply Forall_take). rewrite length_take, Nat.min_l, Z2Nat.id by lia. lia. }
  rewrite drop_app_ge by lia. f_equal. lia.
Qed.
Lemma holds_slice s F m e cs data off n : vol g s F m -> holds F m e cs data -> 0 <= off -> 0 <= n -> off + n <= Z.of_nat (length data) ->
  take (Z.to_nat n) (drop (Z.to_nat (off mod cluster_size g)) (chain_bytes g m (drop (Z.to_nat (off / cluster_size g)) cs))) = take (Z.to_nat n) (drop (Z.to_nat off) data).
Proof.
  intros Hv [Hch Hsz Hroom Hb] Ho Hn Hle. pose proof (v_geo_ok _ _ _ _ Hv) as Hg.
  assert (1 <= cluster_size g) as Hcs by (pose proof (go_spc g Hg); unfold cluster_size; lia).
  pose proof (Z.div_mod off (cluster_size g) ltac:(lia)) as Hdm. pose proof (Z.mod_pos_bound off (cluster_size g) ltac:(lia)).
  assert (0 <= off / cluster_size g) by (apply Z.div_pos; lia).
  rewrite (chain_bytes_drop s F m); [|done|by eapply chain_ok|split; [done|apply Z.div_le_upper_bound; [lia|nia]]|lia].
  replace (off / cluster_size g * cluster_size g + off mod cluster_size g) with off by lia.
  rewrite <-Hb at 1. rewrite skipn_firstn_comm, take_take. f_equal. lia.
Qed.
Lemma holds_clusters s F m e cs data : vol g s F m -> holds F m e cs data -> data <> [] -> cs <> [] /\ cluster_ok g (FirstCluster e).
Proof.
  intros Hv [Hch Hsz Hroom Hb] Hne. inversion Hch as [? Hc|? cs' Hok Hch']; subst; [|done]. destruct data; [done|]. simpl in Hroom. lia.
Qed.

Lemma wp_read_holds P s F m e cs data off n (Q : Z * list Z -> fat16 -> Prop) : vol g s F m -> holds F m e cs data -> cluster_size g <= READ_BUF ->
  0 <= off < Z.of_nat (length data) -> 0 <= n ->
  (forall s', vol g s' F m -> same_env s s' -> Q (Z.min n (Z.of_nat (length data) - off), take (Z.to_nat n) (drop (Z.to_nat off) data)) s') ->
  wp P (fat16_read_file e off n) Q s.
Proof.
  intros Hv Hh Hbuf Ho Hn HQ. pose proof (v_geo_ok _ _ _ _ Hv) as Hg. assert (1 <= cluster_size g) as Hcs by (pose proof (go_spc g Hg); unfold cluster_size; lia).
  destruct (holds_clusters s F m e cs data Hv Hh) as [Hne Hok]; [intros ->; simpl in Ho; lia|]. pose proof Hh as [Hch Hsz Hroom Hb].
  unfold fat16_read_file. unfold cluster_ok in Hok. rewrite (proj2 (Z.eqb_neq _ _)), Hsz, (proj2 (Z.leb_gt _ _)) by lia.
  set (k := if _ <? n then _ else n). assert (k = Z.min n (Z.of_nat (length data) - off)) as Ek by (unfold k; bdestr; lia).
  apply wp_bind. eapply wp_sec_per_clus; [exact Hv|]. replace (g_spc g * 512) with (cluster_size g) by (unfold cluster_size; lia).
  unfold udiv, umod. rewrite (proj2 (Z.eqb_neq _ _)) by lia. apply wp_bind, wp_ret, wp_bind, wp_ret, wp_bind.
  pose proof (Z.mod_pos_bound off (cluster_size g) ltac:(lia)) as Hr. assert (0 <= off / cluster_size g) as Hq by (apply Z.div_pos; lia).
  assert (off / cluster_size g < Z.of_nat (length cs)) as Hql by (apply Z.div_lt_upper_bound; lia).
  eapply wp_skip_clusters; [exact Hv|exact Hch|lia|]. intros s1 c' Hv1 He1 Hc'. apply wp_bind.
  eapply wp_fat_read_loop; [exact Hv1|exact Hc'|done|lia| |lia|done|].
  { right. rewrite length_drop. pose proof (Z.div_mod off (cluster_size g) ltac:(lia)). nia. }
  intros s2 Hv2 He2. apply wp_ret. cbn [app]. rewrite (holds_slice s F m e cs data) by (done || lia).
  rewrite length_take, length_drop. replace (take (Z.to_nat k) _) with (take (Z.to_nat n) (drop (Z.to_nat off) data)).
  - replace (Z.of_nat _) with (Z.min n (Z.of_nat (length data) - off)) by lia. apply HQ; [done|by eapply same_env_trans].
  - rewrite <-(take_ge (drop (Z.to_nat off) data) (Z.to_nat (Z.of_nat (length data) - off))) at 1 by (rewrite length_drop; lia).
    rewrite take_take. f_equal. lia.
Qed.
Lemma wp_read_here P s F m L ds name it cs data n (Q : Z * list Z -> fat16 -> Prop) : vol g s F m -> dir_at g F (current_dir_cluster16 s) L ds ->
  simple_name name -> find_in (dir_raws g m L) name = Some it -> holds F m (it_entry it) cs data -> data <> [] -> cluster_size g <= READ_BUF -> 0 <= n ->
  (forall s', vol g s' F m -> same_env s s' -> Q (Z.min n (Z.of_nat (length data)), take (Z.to_nat n) data) s') ->
  wp P (fat16_read_file_by_name name n) Q s.
Proof.
  intros Hv Hd Hname Hf Hh Hne Hbuf Hn HQ. pose proof (v_geo_ok _ _ _ _ Hv) as Hg. pose proof (go_entries g Hg).
  destruct (holds_clusters s F m _ cs data Hv Hh Hne) as [_ Hok]. unfold cluster_ok in Hok.
  unfold fat16_read_file_by_name. apply wp_bind. eapply wp_find_here; [exact Hv|exact Hd|done|]. intros s1 Hv1 He1. rewrite Hf. cbn [fmap option_fmap option_map].
  rewrite (proj2 (Z.ltb_ge _ _)), (proj2 (Z.leb_gt _ _)) by (unfold CLUSTER_EOF; lia). cbn [orb].
  assert (0 < Z.of_nat (length data)) by (destruct data; [done|simpl; lia]).
  eapply wp_read_holds; [exact Hv1|exact Hh|done|lia|done|]. intros s2 Hv2 He2. rewrite Z.sub_0_r. apply HQ; [done|by eapply same_env_trans].
Qed.

Lemma found_slot m L name it : find_in (dir_raws g m L) name = Some it -> (sl_cluster (it_slot it), sl_sector (it_slot it)) ∈ L.
Proof.
  intros Hf. unfold find_in in Hf. apply find_scan_slot in Hf as [?|(raw & Hin & _)]; [done|]. by apply dir_raws_slot in Hin as (? & _ & _).
Qed.
(** Files that share no cluster with what was written keep their bytes. *)
Lemma holds_kept F m F' m' L dc ds cs ns p e2 cs2 data2 : geo_ok g -> dir_at g F dc L ds -> p ∈ L ->
  others_kept F m F' m' (cs ++ ns) (pos_lba g p) -> Forall (fun x => cluster_ok g x /\ (F x = 0 \/ x ∈ cs)) ns ->
  holds F m e2 cs2 data2 -> Forall (fun x => F x <> 0) cs2 -> (forall x, x ∈ cs2 -> x ∉ cs /\ x ∉ ds) -> holds F' m' e2 cs2 data2.
Proof.
  intros Hg Hd Hp [HF Hm] Hns [Hch Hsz Hroom Hb] Hu Hap. pose proof (chain_ok g _ _ _ Hch) as Hok.
  assert (forall x, x ∈ cs2 -> x ∉ cs ++ ns) as Hout.
  { intros x Hx. destruct (Hap x Hx) as [Hnc _]. rewrite list.Forall_forall in Hu, Hns. apply not_elem_of_app. split; [done|].
    intros Hin. destruct (Hns x Hin) as [_ [Hz|?]]; [by apply (Hu x Hx)|done]. }
  constructor; [|done|done|].
  - eapply chain_ext; [exact Hch|]. intros x Hx. by apply HF, Hout.
  - rewrite <-Hb at 2. f_equal. pose proof (go_spc g Hg). clear Hch Hroom Hb Hu. unfold chain_bytes. induction cs2 as [|c cs2 IH]; [done|].
    rewrite !bind_cons, IH; [f_equal|intros x Hx; apply Hap; by right|by inversion Hok|intros x Hx; apply Hout; by right].
    apply sec_run_ext. intros y Hy. apply Hm.
    + intros (d & Hdin & Hdy). apply (Hout c); [by left|]. assert (c = d) as -> by (eapply cluster_lba_disjoint; [done| |exact Hdy]; lia). done.
    + intros ->. eapply (dir_outside F dc L ds (c :: cs2) p); [done|done|done| |done|].
      * intros x Hx. by apply Hap.
      * exists c. split; [by left|lia].
Qed.

(** ** Ranges, with a buffer *)

Context `{!BuffersOk D}.
Lemma vol_dev s F m d' : vol g s F m -> dev_ok d' -> dev_sectors d' = dev_sectors (dev s) -> vol g (with_dev d' s) F m.
Proof.
  intros [? ? ? ? ? ? Hhas Hfat Hsec] Hok Hd. constructor; try done; unfold vsec in *; cbn [dev with_dev fat16_drive]; rewrite Hd; done.
Qed.
Lemma wp_range_holds P s F m e cs data off n p d (Q : option (list Z) -> fat16 -> Prop) : vol g s F m -> holds F m e cs data ->
  0 <= off < Z.of_nat (length data) -> 0 <= n -> off + n < 4294967296 -> kmalloc (cluster_size g) (dev s) = Ok (p, d) ->
  (forall s', vol g s' F m -> Q (if p =? 0 then None else Some (take (Z.to_nat n) (drop (Z.to_nat off) data))) s') ->
  wp P (fat16_read_file_range e off n) Q s.
Proof.
  intros Hv Hh Ho Hn Hw Hk HQ. pose proof (v_geo_ok _ _ _ _ Hv) as Hg. assert (1 <= cluster_size g) as Hcs by (pose proof (go_spc g Hg); unfold cluster_size; lia).
  pose proof Hh as [Hch Hsz Hroom Hb]. unfold fat16_read_file_range. rewrite Hsz, (proj2 (Z.leb_gt _ _)) by lia. rewrite u32_small by (unfold is_u32; lia).
  set (k := if _ <? off + n then _ else n). assert (k = Z.min n (Z.of_nat (length data) - off)) as Ek by (unfold k; bdestr; lia).
  apply wp_bind, wp_gets. rewrite (v_bps _ _ _ _ Hv). replace (SecPerClus (fat16_bpb s)) with (g_spc g) by (by rewrite <-(v_geo _ _ _ _ Hv)).
  replace (g_spc g * 512) with (cluster_size g) by (unfold cluster_size; lia).
  destruct (kmalloc_keeps (dev s) (cluster_size g) (v_ok _ _ _ _ Hv)) as (p' & d' & E & Hd & Hds). rewrite Hk in E. injection E as <- <-.
  apply wp_bind, wp_fat_dev. eapply wp_ok; [exact Hk|]. pose proof (vol_dev s F m d Hv Hd Hds) as Hv0.
  apply wp_if; intros Hp; rewrite Hp in HQ; [by apply wp_ret, HQ|]. apply wp_bind.
  pose proof (Z.mod_pos_bound off (cluster_size g) ltac:(lia)) as Hr. pose proof (Z.div_mod off (cluster_size g) ltac:(lia)) as Hdm.
  assert (0 <= off / cluster_size g) as Hq by (apply Z.div_pos; lia).
  assert (off / cluster_size g < Z.of_nat (length cs)) as Hql by (apply Z.div_lt_upper_bound; lia).
  eapply wp_skip_bytes; [exact Hv0|exact Hch|lia|lia|]. intros s1 c' Hv1 He1 Hc'. apply wp_bind.
  eapply wp_fat_range_loop; [exact Hv1|exact Hc'|done|simpl; lia| |simpl; lia|].
  { right. rewrite length_drop. simpl. nia. }
  intros s2 Hv2 He2. cbn [app length]. rewrite Z.sub_0_r. rewrite (holds_slice s F m e cs data) by (done || lia).
  destruct (kfree_keeps (dev s2) p (v_ok _ _ _ _ Hv2)) as (d2 & Ef & Hd2 & Hds2).
  apply wp_bind, wp_fat_dev. eapply wp_ok; [exact Ef|]. apply wp_ret.
  replace (take (Z.to_nat k) _) with (take (Z.to_nat n) (drop (Z.to_nat off) data)); [by apply HQ, vol_dev|].
  rewrite <-(take_ge (drop (Z.to_nat off) data) (Z.to_nat (Z.of_nat (length data) - off))) at 1 by (rewrite length_drop; lia).
  rewrite take_take. f_equal. lia.
Qed.
End claims.
