(* ===== verification/Fat16Format.v ===== *)
(** * FAT16: formatting and mounting

    What fat16_format_at writes is what fat16_init accepts: empty tables and an empty root
    directory. *)
From S2P Require Import Prelude BlockDev Fat16Name Fat16 Fat16Vol Fat16Chain.
Import Fat16Name Fat16.

Definition format_geo (drive base total : Z) : geo :=
  let fatsz := format_fatsz total in
  Geo (base + 1) fatsz 2 (base + 1 + 2 * fatsz) 32 (base + 1 + 2 * fatsz + 32) 4 drive.
(** The clusters of a volume of total sectors *)
Definition format_clusters (total : Z) : Z := (total - (33 + 2 * format_fatsz total)) / 4.
(** The table after formatting: the mark of the medium, and every cluster free *)
Definition empty_table (c : Z) : Z := if c =? 0 then 0xFFF8 else if c =? 1 then 0xFFFF else 0.

Lemma format_fatsz_range total : 1 <= format_fatsz total < 65536.
Proof. unfold format_fatsz. assert (forall x, 0 <= u16 x < 65536) as Hu by (intros; unfold u16; apply Z.mod_pos_bound; lia). specialize (Hu (u32 (u32 (total - (1 + 32 + 2 * 250)) / 4 * 2 + 511) / 512)). bdestr; lia. Qed.

Lemma get16_of_bytes16 w suf : 0 <= w < 65536 -> get16 (bytes16 w ++ suf) 0 = w.
Proof. intros Hw. unfold get16, bytes16. cbn. rewrite Z.shiftr_div_pow2 by lia. change (2 ^ 8) with 256. word_lia. Qed.
Lemma pad_length n l : length (pad n l) = n.
Proof. unfold pad. rewrite length_app, length_take, length_replicate. lia. Qed.
Lemma pad_u8 n l : Forall is_u8 l -> Forall is_u8 (pad n l).
Proof. intros Hl. unfold pad. apply Forall_app. split; [by apply Forall_take|]. apply Forall_replicate. unfold is_u8, SPACE. lia. Qed.

(** The boot sector holds the parameter block that was put there. *)
Lemma bpb_of_boot base total label : 0 <= base < 4294967296 -> 0 <= total < 4294967296 ->
  bpb_of (boot_sector (format_bpb base total label)) = format_bpb base total label.
Proof.
  intros Hb Ht. pose proof (format_fatsz_range total) as Hf. pose proof (pad_length 11 label) as Hl. unfold boot_sector, bpb_bytes, format_bpb.
  set (fz := format_fatsz total) in *. set (t16 := if total <? 65536 then total else 0). set (t32 := if total <? 65536 then 0 else total).
  assert (0 <= t16 < 65536) as Ht16 by (unfold t16; bdestr; lia). assert (is_u32 t32) as Ht32 by (unfold t32, is_u32; bdestr; lia). assert (is_u32 base) as Hbu by done.
  cbn [jmpBoot OEMName BytsPerSec SecPerClus RsvdSecCnt NumFATs RootEntCnt TotSec16 Media FATSz16 SecPerTrk NumHeads HiddSec TotSec32 DrvNum Reserved1 BootSig VolID VolLab FilSysType].
  set (lab := pad 11 label) in *. clearbody lab fz t16 t32. do 11 (destruct lab as [|? lab]; [done|]). destruct lab; [|done].
  pose proof (get16_of_bytes16 t16 [] Ht16) as E1. pose proof (get16_of_bytes16 fz [] ltac:(lia)) as E2.
  pose proof (get32_at [] base [] 0 eq_refl Hbu) as E3. pose proof (get32_at [] t32 [] 0 eq_refl Ht32) as E4.
  unfold bpb_of. cbn in *. f_equal; done.
Qed.
Lemma boot_sector_ok base total label : Forall is_u8 label -> is_sector (boot_sector (format_bpb base total label)).
Proof.
  intros Hl. pose proof (pad_length 11 label) as Hn. pose proof (pad_u8 11 label Hl) as Hu. unfold boot_sector, bpb_bytes, format_bpb.
  cbn [jmpBoot OEMName BytsPerSec SecPerClus RsvdSecCnt NumFATs RootEntCnt TotSec16 Media FATSz16 SecPerTrk NumHeads HiddSec TotSec32 DrvNum Reserved1 BootSig VolID VolLab FilSysType].
  split.
  - rewrite !length_app, Hn. reflexivity.
  - rewrite !Forall_app. split_and!; try apply bytes16_u8; try apply bytes32_u8; try done; try (apply Forall_replicate; unfold is_u8; lia); repeat constructor; unfold is_u8; lia.
Qed.

Lemma boot_marks base total label : has_sig55AA (boot_sector (format_bpb base total label)) = true /\
  is_valid_bootjmp (boot_sector (format_bpb base total label)) = true.
Proof.
  pose proof (pad_length 11 label) as Hl. unfold boot_sector, bpb_bytes, format_bpb.
  cbn [jmpBoot OEMName BytsPerSec SecPerClus RsvdSecCnt NumFATs RootEntCnt TotSec16 Media FATSz16 SecPerTrk NumHeads HiddSec TotSec32 DrvNum Reserved1 BootSig VolID VolLab FilSysType].
  set (lab := pad 11 label) in *. clearbody lab. do 11 (destruct lab as [|? lab]; [done|]). by destruct lab.
Qed.

Section format.
Context {D : Type} `{BlockDevOk D} `{Buffers D}.
Implicit Types s : @fat16 D.

(** The sectors from lo to hi of a drive are M. *)
Definition drive_has (drive lo hi : Z) s (M : Z -> list Z) : Prop :=
  dev_ok (dev s) /\ is_u8 drive /\ 0 <= lo /\ hi <= 4294967296 /\ forall x, lo <= x < hi -> dev_sectors (dev s) drive !! x = Some (M x).

Lemma wp_format_write P drive lo hi s M x b (Q : bool -> fat16 -> Prop) : drive_has drive lo hi s M -> lo <= x < hi -> is_sector b ->
  (forall d', drive_has drive lo hi (with_dev d' s) (upd M x b) -> Q true (with_dev d' s)) -> wp P (on_dev (ata_write_sector drive (u32 x) b)) Q s.
Proof.
  intros (Hok & Hd & Hlo & Hhi & Hm) Hx [Hl Hu] HQ. rewrite u32_small by (unfold is_u32; lia). unfold ata_write_sector. rewrite u8_small by done.
  apply wp_fat_dev. destruct (dev_write (dev s) drive x 1 b Hok) as (d' & E & Hok' & Hs & _); [lia| |simpl; lia|done|].
  { intros i Hi. replace (x + Z.of_nat i) with x by lia. rewrite Hm by done. eauto. }
  eapply wp_ok; [exact E|]. apply HQ. split_and!; [done|apply Hd..|done|done|]. intros y Hy. cbn [dev with_dev]. rewrite Hs.
  change (Z.to_nat 1) with 1%nat. cbn [put_run]. rewrite take_ge by lia. unfold upd. case_decide as Hc; [subst y; apply lookup_insert_eq|].
  rewrite lookup_insert_ne by done. by apply Hm.
Qed.
Definition fill (M : Z -> list Z) (x : Z) (k : nat) (b : list Z) (y : Z) : list Z :=
  if decide (y = x /\ (0 < k)%nat) then b else if decide (x <= y < x + Z.of_nat k) then zeros 512 else M y.
Lemma drive_has_ext drive lo hi s M M' : drive_has drive lo hi s M -> (forall x, M' x = M x) -> drive_has drive lo hi s M'.
Proof. intros (Hok & Hd & Hlo & Hhi & Hm) He. split_and!; try done; [apply Hd..|]. intros x Hx. rewrite He. by apply Hm. Qed.
Lemma zeros_is_sector : is_sector (zeros 512).
Proof. split; [done|]. apply Forall_replicate. unfold is_u8. lia. Qed.
Lemma wp_format_fat P drive lo hi k : forall s M x b (Q : unit -> fat16 -> Prop), drive_has drive lo hi s M -> lo <= x -> x + Z.of_nat k <= hi -> is_sector b ->
  (forall d', drive_has drive lo hi (with_dev d' s) (fill M x k b) -> Q tt (with_dev d' s)) -> wp P (format_fat k drive x b) Q s.
Proof.
  induction k as [|k IH]; intros s M x b Q Hs Hx Hk Hb HQ; cbn [format_fat].
  - apply wp_ret. assert (s = with_dev (dev s) s) as Es by (by destruct s). rewrite Es. apply HQ. rewrite <-Es. eapply drive_has_ext; [exact Hs|].
    intros y. unfold fill. rewrite !decide_False by lia. done.
  - apply wp_bind. eapply wp_format_write; [exact Hs|lia|done|]. intros d' Hs1. eapply IH; [exact Hs1|lia|lia|apply zeros_is_sector|].
    intros d2 Hs2. apply (HQ d2). eapply drive_has_ext; [exact Hs2|]. intros y. unfold fill, upd. cbn [dev with_dev]. repeat case_decide; try lia; try done.
Qed.
Lemma wp_probe P drive lo hi s M x bpb (Q : option FAT16_BPB_t -> fat16 -> Prop) : drive_has drive lo hi s M -> lo <= x < hi ->
  has_sig55AA (M x) = true -> is_valid_bootjmp (M x) = true -> bpb_of (M x) = bpb -> BytsPerSec bpb = 512 -> SecPerClus bpb = 4 -> NumFATs bpb = 2 -> FATSz16 bpb <> 0 ->
  4085 <= data_sectors bpb / 4 < 65525 ->
  (forall d', drive_has drive lo hi (with_dev d' s) M -> Q (Some bpb) (with_dev d' s)) -> wp P (probe_fat16_pbr drive x) Q s.
Proof.
  intros (Hok & Hd & Hlo & Hhi & Hm) Hx Hsig Hjmp Hbpb E1 E2 E3 E4 E5 HQ. unfold probe_fat16_pbr. apply wp_bind, wp_fat_dev.
  destruct (dev_read (dev s) drive x 1 Hok) as (d' & E & Hok' & Hs); [lia| |].
  { intros i Hi. replace (x + Z.of_nat i) with x by lia. rewrite Hm by done. eauto. }
  change (Z.to_nat 1) with 1%nat in E. cbn [get_run] in E. rewrite Hm in E by done. cbn [from_option] in E. unfold id in E. rewrite app_nil_r in E.
  eapply wp_ok; [exact E|]. cbv beta iota. rewrite Hsig, Hjmp, Hbpb, E1, E2, E3, (proj2 (Z.eqb_neq _ _) E4). cbn [negb orb Z.eqb Z.land Pos.pred_double Z.sub]. 
  assert (data_sectors bpb <> 0) as Hnz by (intros Ez; rewrite Ez in E5; change (0 / 4) with 0 in E5; lia). rewrite (proj2 (Z.eqb_neq _ _) Hnz).
  rewrite (proj2 (Z.leb_le _ _)), (proj2 (Z.ltb_lt (_ / 4) _)) by lia. cbn. apply wp_ret, HQ.
  split_and!; [done|apply Hd..|done|done|]. cbn [dev with_dev]. rewrite Hs. done.
Qed.

(** The sectors after formatting *)
Definition formatted (M : Z -> list Z) (base total : Z) (label : list Z) : Z -> list Z :=
  let fatsz := format_fatsz total in
  fill (fill (upd M base (boot_sector (format_bpb base total label))) (base + 1) (Z.to_nat (2 * fatsz)) ([0xF8; 0xFF; 0xFF; 0xFF] ++ zeros 508))
       (base + 1 + 2 * fatsz) 32 (zeros 512).
Definition format_room (base total : Z) : Prop := 0 <= base /\ base + total < 4294967296 /\ 33 + 2 * format_fatsz total <= total.

Lemma wp_format_at P drive s M base total label (Q : bool -> fat16 -> Prop) : drive_has drive base (base + total) s M ->
  format_room base total -> Forall is_u8 label ->
  (forall d', drive_has drive base (base + total) (with_dev d' s) (formatted M base total label) -> Q true (with_dev d' s)) ->
  wp P (fat16_format_at drive base total (Some label)) Q s.
Proof.
  intros Hs (Hb & Hhi & Hroom) Hl HQ. pose proof (format_fatsz_range total) as Hf. unfold fat16_format_at. rewrite (proj2 (Z.eqb_neq _ _)) by lia. cbn [default].
  apply wp_bind. rewrite <-(u32_small base) at 1 by (unfold is_u32; lia). eapply wp_format_write; [exact Hs|lia|by apply boot_sector_ok|]. intros d1 Hs1.
  change (RsvdSecCnt _) with 1. change (NumFATs _) with 2. change (FATSz16 _) with (format_fatsz total). rewrite u32_small by (unfold is_u32; lia).
  apply wp_bind. eapply wp_format_fat; [exact Hs1|lia|lia| |].
  { split; [done|]. apply Forall_app. split; [repeat constructor; unfold is_u8; lia|apply Forall_replicate; unfold is_u8; lia]. }
  intros d2 Hs2. apply wp_bind. change (Z.to_nat (root_sectors _)) with 32%nat. eapply wp_format_fat; [exact Hs2|lia|lia|apply zeros_is_sector|].
  intros d3 Hs3. apply wp_ret. exact (HQ d3 Hs3).
Qed.

(** What fat16_init makes of a state *)
Definition mounted_state (d : D) drive base total (label : list Z) s : fat16 :=
  let g := format_geo drive base total in
  Mk d (format_bpb base total label) (g_fat g) (g_root g) (g_data g) 32 (g_data g) (current_dir_cluster16 s) 2 drive (current_path s) (progress s).
Lemma wp_init_formatted P drive s M base total label (Q : bool -> fat16 -> Prop) : drive_has drive base (base + total) s (formatted M base total label) ->
  format_room base total -> 4085 <= format_clusters total < 65525 ->
  (forall d', drive_has drive base (base + total) (with_dev d' s) (formatted M base total label) -> Q true (mounted_state d' drive base total label s)) ->
  wp P (fat16_init drive base) Q s.
Proof.
  intros Hs (Hb & Hhi & Hroom) Hcnt HQ. pose proof (format_fatsz_range total) as Hf.
  assert (formatted M base total label base = boot_sector (format_bpb base total label)) as EM.
  { unfold formatted, fill. rewrite !decide_False by lia. apply upd_eq. }
  assert (root_sectors (format_bpb base total label) = 32) as Er by done.
  destruct (boot_marks base total label) as [Esig Ejmp].
  assert (data_sectors (format_bpb base total label) / 4 = format_clusters total) as Ec.
  { unfold data_sectors, format_clusters. rewrite Er. cbn [RsvdSecCnt NumFATs FATSz16 format_bpb]. f_equal.
    replace (total_sectors _) with total by (unfold total_sectors, format_bpb; cbn [TotSec16 TotSec32]; bdestr; lia).
    rewrite u32_small by (unfold is_u32; lia). lia. }
  unfold fat16_init. apply wp_bind. eapply (wp_probe P drive base (base + total) s _ base (format_bpb base total label));
    [exact Hs|lia|by rewrite EM|by rewrite EM|rewrite EM; apply bpb_of_boot; lia|done|done|done|cbn [FATSz16 format_bpb]; lia|by rewrite Ec|].
  intros d' Hs'. apply wp_bind, wp_modify, wp_ret. rewrite Er. change (RsvdSecCnt _) with 1. change (NumFATs _) with 2. change (FATSz16 _) with (format_fatsz total).
  cbn [dev with_dev current_dir_cluster16 current_path progress]. rewrite !u32_small by (rewrite ?u32_small; unfold is_u32; lia). exact (HQ d' Hs').
Qed.

Lemma get16_zeros n i : get16 (zeros n) i = 0.
Proof.
  assert (forall k j, nth j (zeros k) 0 = 0) as Hz by (clear; induction k as [|k IH]; intros [|j]; [done..|apply IH]).
  unfold get16. by rewrite !Hz.
Qed.
Lemma get16_media c : 0 <= c < 256 -> get16 ([0xF8; 0xFF; 0xFF; 0xFF] ++ zeros 508) (Z.to_nat (2 * c)) = empty_table c.
Proof.
  intros Hc. unfold empty_table. destruct (Z.eqb_spec c 0) as [->|]; [done|]. destruct (Z.eqb_spec c 1) as [->|]; [done|].
  rewrite <-(get16_zeros 508 (Z.to_nat (2 * c) - 4)). unfold get16. rewrite !nth_lookup, !lookup_app_r by (simpl; lia). 
  replace (Z.to_nat (2 * c) + 1 - _)%nat with (Z.to_nat (2 * c) - 4 + 1)%nat by (simpl; lia). done.
Qed.

Lemma mounted_vol d drive base total label s M : let g := format_geo drive base total in
  drive_has drive base (base + total) (with_dev d s) (formatted M base total label) -> format_room base total ->
  g_entries g <= 0xFFF8 -> g_end g <= base + total ->
  vol g (mounted_state d drive base total label s) empty_table (formatted M base total label).
Proof.
  intros g (Hok & Hd & Hlo & Hhi & Hm) (Hb & Ht & Hroom) He Hend. pose proof (format_fatsz_range total) as Hf.
  cbn [dev with_dev] in *. unfold g_end, g_entries, format_geo in *. cbn [g g_fat g_fatsz g_nfats g_root g_rootn g_data g_spc g_drive] in *.
  constructor; unfold vsec, geo_of, fat_sector, g_end, g_entries, format_geo, mounted_state;
    cbn [g format_geo g_fat g_fatsz g_nfats g_root g_rootn g_data g_spc g_drive dev fat16_bpb fat_start_lba root_dir_lba data_region_lba root_dir_sectors
         fat16_first_data_sector fat16_drive fat16_alloc_hint]; rewrite ?u8_small by done; try done; try lia.
  - constructor; unfold g, format_geo, g_end, g_entries; cbn [g_fat g_fatsz g_nfats g_root g_rootn g_data g_spc g_drive]; lia || done.
  - intros x Hx. rewrite Hm by lia. eauto.
  - intros c Hc. exists (formatted M base total label (base + 1 + c / 256)). split; [apply Hm; word_lia|]. unfold formatted, fill.
    rewrite (decide_False (P := _ = base + 1 + 2 * format_fatsz total /\ _)) by word_lia. rewrite (decide_False (P := _ <= _ < _ + Z.of_nat 32)) by word_lia.
    unfold fat_index. case_decide as Hc1.
    + assert (0 <= c < 256) as Hcs by word_lia. rewrite Z.mod_small by lia. by apply get16_media.
    + rewrite decide_True by word_lia. rewrite get16_zeros. unfold empty_table. assert (256 <= c) by word_lia. bdestr; lia.
  - intros x Hx. apply Hm. lia.
Qed.
Lemma formatted_root drive M base total label x : let g := format_geo drive base total in
  g_root g <= x < g_data g -> formatted M base total label x = zeros 512.
Proof.
  intros g Hx. pose proof (format_fatsz_range total). unfold g, format_geo in Hx. cbn [g_root g_data] in Hx. unfold formatted, fill at 1.
  case_decide; [done|]. by rewrite decide_True by lia.
Qed.
End format.
