(* ===== verification/Fat16Claims.v ===== *)
(** * FAT16: the properties

    Writing a file and reading it back, reading ranges, allocating and freeing clusters. *)
From S2P Require Import Prelude BlockDev Fat16Name Fat16 SparseDev Fat16Vol Fat16Chain Fat16Write Fat16Dir Fat16File Fat16Format.
Import Fat16Name Fat16.

(** ** A small volume

    One sector for each of two tables and for the root directory, clusters of one sector; the root
    directory has the files A, in the clusters 2 and 3, and B, in cluster 4. *)
Definition ex_geo : geo := Geo 1 1 2 3 1 4 1 0.
Definition ex_table : list Z := [0xF8; 0xFF; 0xFF; 0xFF; 3; 0; 0xFF; 0xFF; 0xFF; 0xFF] ++ zeros 502.
Definition ex_entry (name cluster size : Z) : FAT16_DirEntry := new_entry (pad 8 [name] ++ pad 3 []) 0x20 cluster size.
Definition ex_root : list Z := entry_bytes (ex_entry 65 2 600) ++ entry_bytes (ex_entry 66 4 5) ++ zeros 448.
Definition ex_map : sectors := list_to_map [(1, ex_table); (2, ex_table); (3, ex_root); (4, replicate 512 7); (5, replicate 512 8); (6, replicate 512 9)].
Definition ex_vol : @fat16 sparse :=
  Mk (Sparse 300 ex_map 5) {| jmpBoot := []; OEMName := []; BytsPerSec := 512; SecPerClus := 1; RsvdSecCnt := 1; NumFATs := 2; RootEntCnt := 16;
    TotSec16 := 300; Media := 0xF8; FATSz16 := 1; SecPerTrk := 0; NumHeads := 0; HiddSec := 0; TotSec32 := 0; DrvNum := 0; Reserved1 := 0; BootSig := 0;
    VolID := 0; VolLab := []; FilSysType := [] |} 1 3 4 1 4 0 2 0 [] [].
Definition ex_F (c : Z) : Z := get16 (sd_get (dev ex_vol) (fat_sector ex_geo c)) (fat_index c).
Definition ex_m : Z -> list Z := sd_get (dev ex_vol).
Definition ex_item : FAT16_DirItem := Item (ex_entry 65 2 600) (Slot 0 0 0) None [].

Definition sectorb (p : Z * list Z) : bool :=
  (0 <=? fst p) && (fst p <? 300) && (length (snd p) =? 512)%nat && forallb (fun c => (0 <=? c) && (c <? 256)) (snd p).
Lemma sectorb_ok p : sectorb p = true -> 0 <= fst p < 300 /\ is_sector (snd p).
Proof.
  unfold sectorb. rewrite !andb_true_iff, Z.leb_le, Z.ltb_lt, Nat.eqb_eq, forallb_forall. intros [[? Hl] Hf]. split; [lia|]. split; [done|].
  apply list.Forall_forall. intros c Hc%list_elem_of_In. apply Hf in Hc. unfold is_u8. lia.
Qed.
Lemma ex_map_ok : forallb sectorb (map_to_list ex_map) = true.
Proof. vm_compute. reflexivity. Qed.
Lemma ex_vol_ok : vol ex_geo ex_vol ex_F ex_m.
Proof.
  assert (sparse_ok (dev ex_vol)) as Hok.
  { constructor; [simpl; lia|]. intros x b Hb. apply (sectorb_ok (x, b)). pose proof ex_map_ok as Hf. rewrite forallb_forall in Hf.
    apply Hf, list_elem_of_In, elem_of_map_to_list. exact Hb. }
  assert (forall x, 0 <= x < 300 -> vsec ex_vol !! x = Some (sd_get (dev ex_vol) x)) as Hs.
  { intros x Hx. unfold vsec. change (u8 (fat16_drive ex_vol)) with 0. cbn [dev_sectors sparse_dev_ok]. rewrite sd_sectors_lookup by done.
    by rewrite decide_True. }
  constructor; [exact Hok|reflexivity| |reflexivity|reflexivity|simpl; lia|..].
  - constructor; unfold g_end, g_entries, is_u8; cbn [g_fat g_fatsz g_nfats g_root g_rootn g_data g_spc g_drive ex_geo]; lia.
  - intros x Hx. rewrite Hs; [eauto|]. unfold g_end, g_entries in Hx. simpl in Hx. lia.
  - intros c Hc. eexists. split; [|reflexivity]. apply Hs. unfold fat_sector. change (g_fat ex_geo) with 1. change (g_entries ex_geo) with 256 in Hc. word_lia.
  - intros x Hx. apply Hs. unfold g_end, g_entries in Hx. simpl in Hx. lia.
Qed.

Section claims.
Context {D : Type} `{BlockDevOk D} `{Buffers D} (g : geo).
Implicit Types s : @fat16 D.


(** _alloc_cluster returns a cluster whose entry is 0 and marks it as the end of a chain,
    changing no other entry and no sector behind the tables; it returns 0 and changes nothing
    exactly when no entry of the table is 0. *)
Theorem fat16_alloc_finds_free s F m : vol g s F m ->
  exists r s', _alloc_cluster s = Ok (r, s') /\
    ((r = 0 /\ vol g s' F m /\ forall j, cluster_ok g j -> F j <> 0) \/
     (cluster_ok g r /\ F r = 0 /\ vol g s' (upd F r 0xFFFF) m)).
Proof.
  intros Hv. destruct (wp_run _alloc_cluster (fun r s' => (r = 0 /\ vol g s' F m /\ forall j, cluster_ok g j -> F j <> 0) \/
     (cluster_ok g r /\ F r = 0 /\ vol g s' (upd F r 0xFFFF) m)) s) as (r & s' & E & Hr); [|eauto].
  eapply (wp_alloc_cluster g); [exact Hv|..]; intros; [left|right]; done.
Qed.

(** C22: free_cluster_chain ends for every table whose links stay inside it, one with a cycle
    included, and clears exactly the entries of the clusters that can be reached from the start. *)
Theorem fat16_free_chain_ends s F m start : vol g s F m ->
  (forall x, cluster_ok g x -> in_chain (F x) = true -> cluster_ok g (F x)) -> (in_chain start = true -> cluster_ok g start) ->
  exists s' W, free_cluster_chain start s = Ok (tt, s') /\ vol g s' (zap F W) m /\
    forall x, x ∈ W <-> in_chain x = true /\ rtc (linked F) start x.
Proof.
  intros Hv Hlk Hst. pose proof (v_geo_ok _ _ _ _ Hv) as Hg. pose proof (go_entries g Hg).
  destruct (wp_run (free_cluster_chain start) (fun _ s' => exists W, vol g s' (zap F W) m /\
    forall x, x ∈ W <-> in_chain x = true /\ rtc (linked F) start x) s) as ([] & s' & E & W & Hw); [|by exists s', W].
  unfold free_cluster_chain. pose proof CHAIN_size as HC. generalize dependent CHAIN. intros fuel HC.
  eapply (wp_free_chain_loop g _ fuel s F m start []); [|by constructor|by constructor|simpl; lia|done|done|by intros x ?%elem_of_nil|].
  { eapply vol_ext; [exact Hv| |done]. intros c _. by rewrite zap_out by apply not_elem_of_nil. }
  intros s' W Hv' He' _ Hin HW Hcl Hr. exists W. split; [done|]. intros x. split.
  - intros Hx. split; [|by destruct (Hr x Hx) as [?%elem_of_nil|]]. rewrite list.Forall_forall in HW. by eapply cluster_ok_chain, HW.
  - intros [Hx Hrt]. revert x Hrt Hx. apply (rtc_ind_r (fun x => in_chain x = true -> x ∈ W)); [done|]. intros a b _ [Ha ->] IH Hx. apply Hcl; [by apply IH|done].
Qed.

(** fat16_read_file_range, once it gets its buffer, and fat16_read_file return the bytes of the
    file from the offset on, cut at its end, wherever the boundaries of clusters fall; without a
    buffer fat16_read_file_range reports failure. *)
Theorem fat16_read_range_exact `{!BuffersOk D} s F m e cs data offset size p d :
  vol g s F m -> holds g F m e cs data -> 0 <= offset < Z.of_nat (length data) -> 0 <= size -> offset + size < 4294967296 ->
  kmalloc (cluster_size g) (dev s) = Ok (p, d) -> cluster_size g <= READ_BUF ->
  (exists s', fat16_read_file_range e offset size s =
    Ok (if p =? 0 then None else Some (take (Z.to_nat size) (drop (Z.to_nat offset) data)), s') /\ vol g s' F m) /\
  (exists s', fat16_read_file e offset size s =
    Ok ((Z.min size (Z.of_nat (length data) - offset), take (Z.to_nat size) (drop (Z.to_nat offset) data)), s') /\ vol g s' F m).
Proof.
  intros Hv Hh Ho Hn Hw Hk Hbuf. split.
  - destruct (wp_run (fat16_read_file_range e offset size) (fun r s' => r = (if p =? 0 then None else Some (take (Z.to_nat size) (drop (Z.to_nat offset) data))) /\ vol g s' F m) s)
      as (r & s' & E & -> & Hv'); [|eauto]. eapply (wp_range_holds g); eauto.
  - destruct (wp_run (fat16_read_file e offset size) (fun r s' => r = (Z.min size (Z.of_nat (length data) - offset), take (Z.to_nat size) (drop (Z.to_nat offset) data)) /\ vol g s' F m) s)
      as (r & s' & E & -> & Hv'); [|eauto]. eapply (wp_read_holds g); eauto.
Qed.
End claims.

(** formatting the sectors base to base + total of a drive and mounting the volume there succeed
    for every number of clusters that a FAT16 volume can have, whatever the drive held; where every
    entry of the table has its cluster on the drive, the mounted volume is one whose clusters are
    all free and whose root directory is empty. *)
Theorem fat16_format_mounts {D} `{BlockDevOk D} `{Buffers D} (s : @fat16 D) M drive base total label : let g := format_geo drive base total in
  drive_has drive base (base + total) s M -> format_room base total -> Forall is_u8 label -> 4085 <= format_clusters total < 65525 ->
  exists s1 s2, fat16_format_at drive base total (Some label) s = Ok (true, s1) /\ fat16_init drive base s1 = Ok (true, s2) /\ geo_of s2 = g /\
    (g_entries g <= 0xFFF8 -> g_end g <= base + total ->
     exists m, vol g s2 empty_table m /\ forall x, g_root g <= x < g_data g -> m x = zeros 512).
Proof.
  intros g Hs Hroom Hl Hcnt. destruct (wp_run (fat16_format_at drive base total (Some label)) (fun r s1 => r = true /\
    drive_has drive base (base + total) s1 (formatted M base total label)) s) as (r & s1 & E1 & -> & Hs1); [by eapply wp_format_at|].
  destruct (wp_run (fat16_init drive base) (fun r s2 => r = true /\ exists d', drive_has drive base (base + total) (with_dev d' s1) (formatted M base total label) /\
    s2 = mounted_state d' drive base total label s1) s1) as (r & s2 & E2 & -> & d' & Hs2 & ->); [eapply wp_init_formatted; eauto|].
  exists s1, (mounted_state d' drive base total label s1). split_and!; [done|done| |].
  - destruct Hs as (_ & Hd & _). unfold geo_of, mounted_state. cbn. by rewrite u8_small.
  - intros He Hend. exists (formatted M base total label). split; [by apply mounted_vol|]. intros x Hx. by eapply formatted_root.
Qed.

(** ** The properties on the small volume *)

Lemma ex_chain_A : chain ex_geo ex_F 2 [2; 3].
Proof. repeat (apply chain_link; [unfold cluster_ok; vm_compute; split; congruence|]). apply chain_end. vm_compute. reflexivity. Qed.
Lemma ex_file_A : file_at ex_geo ex_F ex_m 0 [(0, 0)] [] [65] ex_item [2; 3].
Proof.
  constructor; [apply (dir_root ex_geo ex_F)|constructor|vm_compute; reflexivity|reflexivity|exact ex_chain_A|].
  intros x _. apply not_elem_of_nil.
Qed.
Lemma ex_data_A : take 600 (chain_bytes ex_geo ex_m [2; 3]) = replicate 512 7 ++ replicate 88 8.
Proof. vm_compute. reflexivity. Qed.
Lemma ex_holds_A : holds ex_geo ex_F ex_m (ex_entry 65 2 600) [2; 3] (replicate 512 7 ++ replicate 88 8).
Proof. constructor; [exact ex_chain_A|reflexivity|vm_compute; congruence|exact ex_data_A]. Qed.

Lemma fat16_alloc_finds_free_witness : exists r s', _alloc_cluster ex_vol = Ok (r, s') /\
  ((r = 0 /\ vol ex_geo s' ex_F ex_m /\ forall j, cluster_ok ex_geo j -> ex_F j <> 0) \/
   (cluster_ok ex_geo r /\ ex_F r = 0 /\ vol ex_geo s' (upd ex_F r 0xFFFF) ex_m)).
Proof. exact (fat16_alloc_finds_free ex_geo ex_vol ex_F ex_m ex_vol_ok). Defined.
Lemma ex_links x : cluster_ok ex_geo x -> in_chain (ex_F x) = true -> cluster_ok ex_geo (ex_F x).
Proof.
  assert (forallb (fun i => negb (in_chain (ex_F (Z.of_nat i))) || ((2 <=? ex_F (Z.of_nat i)) && (ex_F (Z.of_nat i) <? 256))) (seq 0 256) = true) as Hall by (vm_compute; reflexivity).
  rewrite forallb_forall in Hall. intros Hx Hin. unfold cluster_ok in *. change (g_entries ex_geo) with 256 in *.
  specialize (Hall (Z.to_nat x) ltac:(apply in_seq; lia)). rewrite Z2Nat.id, Hin in Hall by lia. cbn [negb orb] in Hall. lia.
Qed.
Lemma fat16_free_chain_ends_witness : exists s' W, free_cluster_chain 2 ex_vol = Ok (tt, s') /\ vol ex_geo s' (zap ex_F W) ex_m /\
  forall x, x ∈ W <-> in_chain x = true /\ rtc (linked ex_F) 2 x.
Proof.
  refine (fat16_free_chain_ends ex_geo ex_vol ex_F ex_m 2 ex_vol_ok ex_links _). intros _. unfold cluster_ok. vm_compute. split; congruence.
Defined.
Lemma fat16_read_range_exact_witness :
  (exists s', fat16_read_file_range (ex_entry 65 2 600) 500 50 ex_vol = Ok (Some (replicate 12 7 ++ replicate 38 8), s') /\ vol ex_geo s' ex_F ex_m) /\
  (exists s', fat16_read_file (ex_entry 65 2 600) 500 50 ex_vol = Ok ((50, replicate 12 7 ++ replicate 38 8), s') /\ vol ex_geo s' ex_F ex_m).
Proof.
  refine (fat16_read_range_exact ex_geo ex_vol ex_F ex_m (ex_entry 65 2 600) [2; 3] (replicate 512 7 ++ replicate 88 8) 500 50 4096 (Sparse 300 ex_map 4)
    ex_vol_ok ex_holds_A _ _ _ _ _).
  - rewrite length_app, !length_replicate. lia.
  - lia.
  - lia.
  - reflexivity.
  - vm_compute. congruence.
Defined.
Lemma fat16_format_mounts_witness : exists s1 s2,
  fat16_format_at 0 0 21013 (Some [79; 83]) (with_dev (Sparse 21013 ∅ 5) ex_vol) = Ok (true, s1) /\ fat16_init 0 0 s1 = Ok (true, s2) /\
  geo_of s2 = format_geo 0 0 21013 /\
  (g_entries (format_geo 0 0 21013) <= 0xFFF8 -> g_end (format_geo 0 0 21013) <= 0 + 21013 ->
   exists m, vol (format_geo 0 0 21013) s2 empty_table m /\ forall x, g_root (format_geo 0 0 21013) <= x < g_data (format_geo 0 0 21013) -> m x = zeros 512).
Proof.
  refine (fat16_format_mounts (with_dev (Sparse 21013 ∅ 5) ex_vol) (fun _ => zero_sector) 0 0 21013 [79; 83] _ _ _ _).
  - assert (sparse_ok (Sparse 21013 ∅ 5)) as Hok by (constructor; [simpl; lia|intros x b Hb; change (@eq (option (list Z)) (@lookup Z (list Z) sectors _ x ∅) (Some b)) in Hb; by rewrite lookup_empty in Hb]).
    split; [exact Hok|]. split; [unfold is_u8; lia|]. split; [lia|]. split; [lia|]. intros x Hx. cbn [dev_sectors sparse_dev_ok dev with_dev].
    rewrite sd_sectors_lookup by exact Hok. rewrite decide_True by (simpl; lia). reflexivity.
  - vm_compute. split_and!; congruence.
  - repeat constructor; unfold is_u8; lia.
  - vm_compute. split; congruence.
Defined.
Lemma format_witness_room : g_entries (format_geo 0 0 21013) <= 0xFFF8 /\ g_end (format_geo 0 0 21013) <= 0 + 21013.
Proof. vm_compute. split; congruence. Qed.

(** ** What the driver reports *)

Definition after_format (total : Z) : M (@fat16 sparse) (Z * Z) :=
  fat16_format_at 0 0 total None;;; fat16_init 0 0;;; free <- fat16_free_clusters;; clusters <- fat16_total_clusters;; ret (free, clusters).
(** A new volume of 20000 sectors reports more free clusters than it has: the count looks at the
    whole table, and one reserved sector too far. *)
Example free_more_than_total : exists s', after_format 20000 (with_dev (Sparse 20000 ∅ 5) ex_vol) = Ok ((5120, 4981), s').
Proof. eexists. vm_compute. reflexivity. Qed.
