(* ===== verification/Fat32Name.v ===== *)
(** * FAT32: structures and names (fs/fat32.h, fs/fat32.c)

    The boot parameter block and the directory entries of FAT32, and its names.  fs/fat32.c repeats
    the functions on names of fs/fat16.c word for word with another prefix; they are the functions
    of [Fat16Name] here.  What differs is written out: an entry has the eleven characters of its
    name in one field and its first cluster in two halves. *)
From S2P Require Import Prelude Fat16Name.
From S2P Require Libc.

Module Fat32Name.
Import Fat16Name.

Definition FAT32_EOC : Z := 0x0FFFFFF8.
Definition FAT32_LFN_ATTR : Z := 0x0F.
Definition FAT32_LFN_MAX_ENTRIES : nat := 20.

(** ** Structures *)

Record FAT32_BPB_t := {
  jmpBoot : list Z; OEMName : list Z; BytsPerSec : Z; SecPerClus : Z; RsvdSecCnt : Z; NumFATs : Z; RootEntCnt : Z; TotSec16 : Z;
  Media : Z; FATSz16 : Z; SecPerTrk : Z; NumHeads : Z; HiddSec : Z; TotSec32 : Z; FATSz32 : Z; ExtFlags : Z; FSVer : Z; RootClus : Z;
  FSInfo : Z; BkBootSec : Z; Reserved : list Z; DrvNum : Z; Reserved1 : Z; BootSig : Z; VolID : Z; VolLab : list Z; FilSysType : list Z;
}.
Definition bpb_of (b : list Z) : FAT32_BPB_t :=
  {| jmpBoot := take 3 b; OEMName := take 8 (drop 3 b); BytsPerSec := get16 b 11; SecPerClus := nth 13 b 0;
     RsvdSecCnt := get16 b 14; NumFATs := nth 16 b 0; RootEntCnt := get16 b 17; TotSec16 := get16 b 19; Media := nth 21 b 0;
     FATSz16 := get16 b 22; SecPerTrk := get16 b 24; NumHeads := get16 b 26; HiddSec := get32 b 28; TotSec32 := get32 b 32;
     FATSz32 := get32 b 36; ExtFlags := get16 b 40; FSVer := get16 b 42; RootClus := get32 b 44; FSInfo := get16 b 48; BkBootSec := get16 b 50;
     Reserved := take 12 (drop 52 b); DrvNum := nth 64 b 0; Reserved1 := nth 65 b 0; BootSig := nth 66 b 0; VolID := get32 b 67;
     VolLab := take 11 (drop 71 b); FilSysType := take 8 (drop 82 b) |}.
Definition bpb_bytes (p : FAT32_BPB_t) : list Z :=
  jmpBoot p ++ OEMName p ++ bytes16 (BytsPerSec p) ++ [SecPerClus p] ++ bytes16 (RsvdSecCnt p) ++ [NumFATs p] ++
  bytes16 (RootEntCnt p) ++ bytes16 (TotSec16 p) ++ [Media p] ++ bytes16 (FATSz16 p) ++ bytes16 (SecPerTrk p) ++
  bytes16 (NumHeads p) ++ bytes32 (HiddSec p) ++ bytes32 (TotSec32 p) ++ bytes32 (FATSz32 p) ++ bytes16 (ExtFlags p) ++
  bytes16 (FSVer p) ++ bytes32 (RootClus p) ++ bytes16 (FSInfo p) ++ bytes16 (BkBootSec p) ++ Reserved p ++
  [DrvNum p; Reserved1 p; BootSig p] ++ bytes32 (VolID p) ++ VolLab p ++ FilSysType p.
Definition BPB_SIZE : nat := 90.

(** de_time1 are the bytes from NTRes to LstAccDate and de_time2 those of WrtTime and WrtDate, which
    the code only copies. *)
Record FAT32_DirEntry := {
  Name : list Z; Attr : Z; de_time1 : list Z; FstClusHI : Z; de_time2 : list Z; FstClusLO : Z; FileSize : Z;
}.
Definition entry_of (b : list Z) : FAT32_DirEntry :=
  {| Name := take 11 b; Attr := nth 11 b 0; de_time1 := take 8 (drop 12 b); FstClusHI := get16 b 20;
     de_time2 := take 4 (drop 22 b); FstClusLO := get16 b 26; FileSize := get32 b 28 |}.
Definition entry_bytes (e : FAT32_DirEntry) : list Z :=
  Name e ++ [Attr e] ++ de_time1 e ++ bytes16 (FstClusHI e) ++ de_time2 e ++ bytes16 (FstClusLO e) ++ bytes32 (FileSize e).
Definition entry_at (buf : list Z) (i : nat) : FAT32_DirEntry := entry_of (raw_at buf i).
(** The first cluster of an entry *)
Definition first_cluster (e : FAT32_DirEntry) : Z := Z.lor (u32 (Z.shiftl (FstClusHI e) 16)) (FstClusLO e).
Definition new_entry (short_name : list Z) (attr cluster size : Z) : FAT32_DirEntry :=
  {| Name := take 11 short_name; Attr := attr; de_time1 := zeros 8; FstClusHI := u16 (Z.shiftr cluster 16); de_time2 := zeros 4;
     FstClusLO := u16 (Z.land cluster 0xFFFF); FileSize := size |}.
Definition is_dir (e : FAT32_DirEntry) : bool := negb (Z.land (Attr e) 0x10 =? 0).

(** ** Names *)

Definition fat32_strcasecmp : list Z -> list Z -> Z := fat16_strcasecmp.
Definition fat32_lfn_checksum : list Z -> Z := fat16_lfn_checksum.
Definition fat32_lfn_is_valid_char : Z -> bool := fat16_lfn_is_valid_char.
Definition fat32_lfn_prepare_name : list Z -> option (list Z) := fat16_lfn_prepare_name.
Definition fat32_short_valid_char : Z -> bool := fat16_short_valid_char.
Definition fat32_is_valid_short_name : list Z -> option bool := fat16_is_valid_short_name.
Definition fat32_name_needs_lfn : list Z -> bool := fat16_name_needs_lfn.
Definition fat32_sanitize_component : list Z -> nat -> list Z := fat16_sanitize_component.
Definition fat32_extract_base_ext : list Z -> nat -> nat -> list Z * list Z := fat16_extract_base_ext.
Definition fat32_make_short_name_from_base_ext : list Z -> list Z -> list Z := fat16_make_short_name_from_base_ext.
Definition fat32_count_digits : Z -> nat := fat16_count_digits.
Definition FAT32_DirSlot : Type := FAT16_DirSlot.
Definition FAT32_LFNState : Type := FAT16_LFNState.
Definition fat32_lfn_reset : FAT32_LFNState -> FAT32_LFNState := fat16_lfn_reset.
Definition fat32_lfn_copy_chars : list Z -> bool -> list Z := fat16_lfn_copy_chars.
Definition fat32_lfn_push : FAT32_LFNState -> list Z -> FAT32_DirSlot -> FAT32_LFNState := fat16_lfn_push.

Definition fat32_build_short_name_str (e : FAT32_DirEntry) : list Z :=
  let name := cstr (trim_right (fun c => c =? SPACE) (take 8 (Name e))) in
  let ext := cstr (trim_right (fun c => c =? SPACE) (take 3 (drop 8 (Name e)))) in
  match ext with [] => name | _ => name ++ DOT :: ext end.
(** The name for display: the escape for a first byte 0xE5 undone, capital letters, a question mark
    for what cannot be printed *)
Definition display_char (c : Z) : Z := let c := fold_case c in if (c <? 0x20) || (0x7E <? c) then 63 else c.
Definition _get_fullname32 (e : FAT32_DirEntry) : list Z :=
  let name8 := take 8 (Name e) in
  let name8 := if hd 0 name8 =? 0x05 then 0xE5 :: tl name8 else name8 in
  let name := map display_char (cstr (trim_right (fun c => c =? SPACE) name8)) in
  let ext := map display_char (cstr (trim_right (fun c => c =? SPACE) (take 3 (drop 8 (Name e))))) in
  match ext with [] => name | _ => name ++ DOT :: ext end.
Fixpoint make83_loop (l : list Z) (in_ext : bool) (n e : list Z) : list Z * list Z :=
  match l with
  | [] => (n, e)
  | c :: l' =>
    if c =? DOT then make83_loop l' true n e
    else
      let c := fold_case c in
      if (c <? 0x20) || (0x7E <? c) || is_one_of c SHORT_REFUSED then make83_loop l' in_ext n e
      else if negb in_ext && (length n <? 8)%nat then make83_loop l' in_ext (n ++ [c]) e
      else if in_ext && (length e <? 3)%nat then make83_loop l' in_ext n (e ++ [c])
      else make83_loop l' in_ext n e
  end.
Definition fat32_make83 (filename : list Z) : list Z :=
  let '(n, e) := make83_loop (take 255 filename) false [] [] in pad 8 n ++ pad 3 e.

(** The directory and the name of a path, cut to the sizes of the buffers *)
Definition fat32_split_path (path : list Z) (dir_size name_size : nat) : list Z * list Z :=
  match split_last SLASH path with
  | None => ([], take (name_size - 1) path)
  | Some (d, f) =>
    (match d with
     | [] => if (1 <? dir_size)%nat then [SLASH] else []
     | _ => take (dir_size - 1) d
     end, take (name_size - 1) f)
  end.

(** ** Items of a directory *)

Record FAT32_DirItem := Item { it_entry : FAT32_DirEntry; it_slot : FAT32_DirSlot; it_long : option (list Z); it_lfn_slots : list FAT32_DirSlot }.
Definition dir_item (st : FAT32_LFNState) (e : FAT32_DirEntry) (slot : FAT32_DirSlot) : FAT32_DirItem :=
  if active st && (expected st =? 0) && (fat32_lfn_checksum (Name e) =? checksum st)
  then Item e slot (Some (cstr (take 255 (lfn_name st)))) (lfn_slots st)
  else Item e slot None [].
Definition fat32_dir_item_matches (it : FAT32_DirItem) (name : list Z) : bool :=
  match name with
  | [] => false
  | _ =>
    match it_long it with Some l => fat32_strcasecmp l name =? 0 | None => false end
    || (fat32_strcasecmp (fat32_build_short_name_str (it_entry it)) name =? 0)
  end.
Definition item_name (it : FAT32_DirItem) : list Z :=
  match it_long it with Some (c :: l) => c :: l | _ => fat32_build_short_name_str (it_entry it) end.
End Fat32Name.
