(* ===== verification/Fat32.v ===== *)
(** * FAT32: the file system operations (fs/fat32.c)

    The mounted volume over a block device and an allocator for buffers, with the conventions of
    [Fat16]: a buffer that is used without looking at the result of the read that fills it is a
    fault when the read fails, and terminal output is left out, except for the bytes that fat32_cat
    prints.  Loops over chains are [loop]s. *)
From S2P Require Import Prelude BlockDev Fat16Name Fat32Name.
From S2P Require Libc Fat16.

Module Fat32.
Import Fat16Name Fat32Name.
Abbreviation Buffers := Fat16.Fat16.Buffers.
Abbreviation kmalloc := Fat16.Fat16.kmalloc.
Abbreviation kfree := Fat16.Fat16.kfree.

Section ops.
Context {D : Type} `{BlockDev D} `{Buffers D}.

Record fat32 := Mk {
  dev : D; bpb : FAT32_BPB_t; fat_start_lba : Z; data_start_lba : Z; root_dir_cluster32 : Z; current_dir_cluster32 : Z;
  fat32_alloc_hint : Z; fat32_drive : Z; current_path : list Z; progress : list Z;
}.
Abbreviation F A := (M fat32 A).

Definition with_dev (d : D) (s : fat32) : fat32 :=
  Mk d (bpb s) (fat_start_lba s) (data_start_lba s) (root_dir_cluster32 s) (current_dir_cluster32 s) (fat32_alloc_hint s) (fat32_drive s)
     (current_path s) (progress s).
Definition with_bpb (b : FAT32_BPB_t) (s : fat32) : fat32 :=
  Mk (dev s) b (fat_start_lba s) (data_start_lba s) (root_dir_cluster32 s) (current_dir_cluster32 s) (fat32_alloc_hint s) (fat32_drive s)
     (current_path s) (progress s).
Definition with_hint (h : Z) (s : fat32) : fat32 :=
  Mk (dev s) (bpb s) (fat_start_lba s) (data_start_lba s) (root_dir_cluster32 s) (current_dir_cluster32 s) h (fat32_drive s)
     (current_path s) (progress s).
Definition with_cwd (c : Z) (p : list Z) (s : fat32) : fat32 :=
  Mk (dev s) (bpb s) (fat_start_lba s) (data_start_lba s) (root_dir_cluster32 s) c (fat32_alloc_hint s) (fat32_drive s) p (progress s).
Definition fscmd_write_progress_update (w : Z) : F unit :=
  modify (fun s => Mk (dev s) (bpb s) (fat_start_lba s) (data_start_lba s) (root_dir_cluster32 s) (current_dir_cluster32 s)
                      (fat32_alloc_hint s) (fat32_drive s) (current_path s) (progress s ++ [w])).
Definition on_dev {A} (c : M D A) : F A := fun s =>
  match c (dev s) with
  | Ok (a, d) => Ok (a, with_dev d s)
  | Fault => Fault
  | NoFuel => NoFuel
  end.
Definition udiv (a b : Z) : F Z := if b =? 0 then fault else ret (a / b).
Definition umod (a b : Z) : F Z := if b =? 0 then fault else ret (a mod b).

(** ** Mounting *)

(** "FAT32" *)
Definition FAT32_TYPE : list Z := [70; 65; 84; 51; 50].
(** The parameter block is taken over before it is checked. *)
Definition fat32_init (drive base_lba : Z) : F bool :=
  r <- on_dev (ata_read drive base_lba 1);;
  match r with
  | None => ret false
  | Some buf =>
    if negb (bool_decide (take 5 (drop 82 buf) = FAT32_TYPE)) then ret false
    else
      let b := bpb_of buf in
      modify (with_bpb b);;;
      if negb (BytsPerSec b =? SECTOR_SIZE) then ret false
      else if (SecPerClus b =? 0) || negb (Z.land (SecPerClus b) (SecPerClus b - 1) =? 0) || (128 <? SecPerClus b) then ret false
      else if (NumFATs b =? 0) || (RsvdSecCnt b =? 0) || (FATSz32 b =? 0) then ret false
      else if RootClus b <? 2 then ret false
      else if negb (nth 510 buf 0 =? 0x55) || negb (nth 511 buf 0 =? 0xAA) then ret false
      else
        modify (fun s => Mk (dev s) b (u32 (base_lba + RsvdSecCnt b)) (u32 (base_lba + RsvdSecCnt b + u32 (NumFATs b * FATSz32 b)))
                            (RootClus b) (RootClus b) 3 drive (current_path s) (progress s));;;
        ret true
  end.

(** ** Sectors, clusters and the table *)

Definition read_drive (lba count : Z) : F (option (list Z)) := drive <- gets fat32_drive;; on_dev (ata_read drive lba count).
Definition write_drive (lba count : Z) (b : list Z) : F bool := drive <- gets fat32_drive;; on_dev (ata_write drive lba count b).
(** A read whose result the code ignores before it uses the buffer *)
Definition read_sector (lba : Z) : F (list Z) := r <- read_drive lba 1;; lift_opt r.
Definition write_sector (lba : Z) (b : list Z) : F unit := write_drive lba 1 b;;; ret tt.

Definition sec_per_clus : F Z := b <- gets bpb;; ret (SecPerClus b).
Definition cluster_to_lba (cluster : Z) : F Z :=
  data <- gets data_start_lba;; spc <- sec_per_clus;; ret (u32 (data + (cluster - 2) * spc)).
Definition in_chain (cl : Z) : bool := (2 <=? cl) && (cl <? FAT32_EOC).

Definition fat32_next_cluster (cluster : Z) : F Z :=
  b <- gets bpb;; fat <- gets fat_start_lba;;
  let fat_offset := u32 (cluster * 4) in
  q <- udiv fat_offset (BytsPerSec b);;
  r <- umod fat_offset (BytsPerSec b);;
  buf <- read_sector (u32 (fat + q));;
  w <- lift_opt (slice buf r 4);; ret (Z.land (get32 w 0) 0x0FFFFFFF).
Definition fat32_get_fat_entry (cluster : Z) : F Z :=
  b <- gets bpb;; fat <- gets fat_start_lba;;
  let fat_offset := u32 (cluster * 4) in
  q <- udiv fat_offset (BytsPerSec b);;
  r <- umod fat_offset (BytsPerSec b);;
  buf <- read_sector (u32 (fat + q));;
  w <- lift_opt (slice buf r 4);; ret (Z.land (get32 w 0) 0x0FFFFFFF).
(** An entry of the first table set, as the writers and removers do it *)
Definition put_fat_entry (cluster value : Z) : F unit :=
  fat <- gets fat_start_lba;;
  let off := u32 (cluster * 4) in
  let fat_sector := u32 (fat + off / SECTOR_SIZE) in
  fatbuf <- read_sector fat_sector;;
  fatbuf' <- lift_opt (splice fatbuf (off mod SECTOR_SIZE) (bytes32 value));;
  write_sector fat_sector fatbuf'.

(** The first free entry of a sector of the table, from the i-th on *)
Fixpoint free_entry (k : nat) (i : Z) (buf : list Z) : option Z :=
  match k with
  | O => None
  | S k' => if Z.land (get32 buf (Z.to_nat (4 * i))) 0x0FFFFFFF =? 0 then Some i else free_entry k' (i + 1) buf
  end.
(** The sector written to every copy of the table after the first *)
Fixpoint mirror (k : nat) (f sector : Z) (buf : list Z) : F unit :=
  match k with
  | O => ret tt
  | S k' =>
    b <- gets bpb;; fat <- gets fat_start_lba;;
    write_sector (u32 (fat + f * FATSz32 b + sector)) buf;;; mirror k' (f + 1) sector buf
  end.
(** A cluster filled with zeros, at most sixteen sectors at a time *)
Fixpoint zero_chunks (k : nat) (base_lba sectors_left : Z) : F unit :=
  match k with
  | O => ret tt
  | S k' =>
    if sectors_left <=? 0 then ret tt
    else
      let chunk := if 16 <? sectors_left then 16 else sectors_left in
      write_drive (u32 base_lba) chunk (zeros (Z.to_nat (SECTOR_SIZE * chunk)));;;
      zero_chunks k' (base_lba + chunk) (sectors_left - chunk)
  end.
Definition take_cluster (s i per_sector : Z) (buf : list Z) : F Z :=
  fat <- gets fat_start_lba;; b <- gets bpb;;
  let clus := u32 (s * per_sector + i) in
  buf' <- lift_opt (splice buf (4 * i) (bytes32 0x0FFFFFFF));;
  write_sector (u32 (fat + s)) buf';;;
  mirror (Z.to_nat (NumFATs b - 1)) 1 s buf';;;
  base_lba <- cluster_to_lba clus;;
  zero_chunks (Z.to_nat (SecPerClus b)) base_lba (SecPerClus b);;;
  modify (with_hint (u32 (clus + 1)));;;
  ret clus.
(** One pass over k sectors of the table from s on; first is the first entry to look at in sector
    start_sector. *)
Fixpoint alloc_pass (k : nat) (s per_sector : Z) (first : Z -> Z) : F (option Z) :=
  match k with
  | O => ret None
  | S k' =>
    fat <- gets fat_start_lba;;
    buf <- read_sector (u32 (fat + s));;
    match free_entry (Z.to_nat (per_sector - first s)) (first s) buf with
    | Some i => c <- take_cluster s i per_sector buf;; ret (Some c)
    | None => alloc_pass k' (s + 1) per_sector first
    end
  end.
(** With sectors larger than the buffer, which only a refused mount leaves behind, the search runs
    over its end. *)
Definition fat32_alloc_cluster : F Z :=
  b <- gets bpb;; hint <- gets fat32_alloc_hint;;
  if SECTOR_SIZE <? BytsPerSec b then fault else
  let per_sector := BytsPerSec b / 4 in
  let total_entries := u32 (per_sector * FATSz32 b) in
  let start_cluster := if (hint <? 3) || (total_entries <=? hint) then 3 else hint in
  start_sector <- udiv start_cluster per_sector;;
  start_index <- umod start_cluster per_sector;;
  let start_i s := if s =? 0 then 3 else 0 in
  r <- alloc_pass (Z.to_nat (FATSz32 b - start_sector)) start_sector per_sector
         (fun s => if (s =? start_sector) && (start_i s <? start_index) then start_index else start_i s);;
  match r with
  | Some c => ret c
  | None => r' <- alloc_pass (Z.to_nat start_sector) 0 per_sector start_i;; ret (default 0 r')
  end.

(** ** Directories *)

(** The sectors of a chain, until f stops *)
Section walk.
Context {A : Type} (f : Z -> Z -> list Z -> A -> bool * A).
Fixpoint walk_run (k : nat) (cluster s : Z) (a : A) : F (bool * A) :=
  match k with
  | O => ret (true, a)
  | S k' =>
    lba <- cluster_to_lba cluster;;
    buf <- read_sector (u32 (lba + s));;
    let '(go, a') := f cluster s buf a in
    if go : bool then walk_run k' cluster (s + 1) a' else ret (false, a')
  end.
Definition walk_step (p : Z * A) : F (Z * A + bool * A) :=
  let '(cluster, a) := p in
  if negb (in_chain cluster) then ret (inr (true, a))
  else
    spc <- sec_per_clus;;
    r <- walk_run (Z.to_nat spc) cluster 0 a;;
    let '(go, a') := r in
    if go : bool then next <- fat32_next_cluster cluster;; ret (inl (next, a')) else ret (inr (false, a')).
Definition walk_dir (dir_cluster : Z) (a : A) : F (bool * A) := loop walk_step (dir_cluster, a).
End walk.

Fixpoint iterate_entries {C} (cb : FAT32_DirItem -> C -> bool * C) (k i : nat) (cluster s : Z) (buf : list Z)
  (a : FAT32_LFNState * C) : bool * (FAT32_LFNState * C) :=
  match k with
  | O => (true, a)
  | S k' =>
    let '(lfn, ctx) := a in
    let raw := raw_at buf i in
    let e := entry_of raw in
    let first := hd 0 raw in
    let slot := Slot cluster s i in
    if first =? 0 then (false, a)
    else if first =? DELETED then iterate_entries cb k' (S i) cluster s buf (fat32_lfn_reset lfn, ctx)
    else if Attr e =? FAT32_LFN_ATTR then iterate_entries cb k' (S i) cluster s buf (fat32_lfn_push lfn raw slot, ctx)
    else
      let '(go, ctx') := cb (dir_item lfn e slot) ctx in
      let a' := (fat32_lfn_reset lfn, ctx') in
      if go : bool then iterate_entries cb k' (S i) cluster s buf a' else (false, a')
  end.
Definition fat32_iterate_dir {C} (dir_cluster : Z) (cb : FAT32_DirItem -> C -> bool * C) (ctx : C) : F C :=
  r <- walk_dir (iterate_entries cb ENTRIES_PER_SECTOR 0) dir_cluster (lfn_start, ctx);; ret (snd (snd r)).

Definition fat32_find_entry_cb (name : list Z) (it : FAT32_DirItem) (found : option FAT32_DirItem) : bool * option FAT32_DirItem :=
  if hd 0 (Name (it_entry it)) =? DELETED then (true, found)
  else if fat32_dir_item_matches it name then (false, Some it) else (true, found).
Definition fat32_find_entry_slot (dir_cluster : Z) (name : list Z) : F (option FAT32_DirItem) :=
  fat32_iterate_dir dir_cluster (fat32_find_entry_cb name) None.
Definition fat32_find_entry_in_dir (dir_cluster : Z) (name : list Z) : F (option FAT32_DirEntry) :=
  r <- fat32_find_entry_slot dir_cluster name;; ret (it_entry <$> r).
Definition fat32_find_dir_cb (name : list Z) (it : FAT32_DirItem) (found : Z) : bool * Z :=
  if negb (is_dir (it_entry it)) then (true, found)
  else if fat32_dir_item_matches it name && in_chain (first_cluster (it_entry it)) then (false, first_cluster (it_entry it))
  else (true, found).
(** The parent that the second entry of a directory names *)
Definition dotdot_cluster (cluster : Z) : F Z :=
  lba <- cluster_to_lba cluster;; buf <- read_sector lba;; ret (first_cluster (entry_at buf 1)).
Definition fat32_find_dir_cluster (start_cluster : Z) (dirname : list Z) : F Z :=
  match dirname with
  | [] => ret 0
  | _ =>
    if bool_decide (dirname = [DOT]) then ret start_cluster
    else if bool_decide (dirname = [DOT; DOT]) then
      parent <- dotdot_cluster start_cluster;; root <- gets root_dir_cluster32;; ret (if parent <? 2 then root else parent)
    else fat32_iterate_dir start_cluster (fat32_find_dir_cb dirname) 0
  end.
Fixpoint resolve_loop (cluster : Z) (toks : list (list Z)) : F Z :=
  match toks with
  | [] => ret cluster
  | t :: toks' =>
    next <- fat32_find_dir_cluster cluster t;;
    if negb (in_chain next) then ret 0 else resolve_loop next toks'
  end.
Definition fat32_resolve_dir (dirpath : list Z) : F Z :=
  cur <- gets current_dir_cluster32;; root <- gets root_dir_cluster32;;
  let current := if cur <? 2 then root else cur in
  match dirpath with
  | [] => ret current
  | _ =>
    if bool_decide (dirpath = [SLASH]) then ret root
    else resolve_loop (if hd 0 dirpath =? SLASH then root else current) (Libc.tokens [SLASH] (take 255 dirpath))
  end.
(** The directory and the name of a path; None when the name is empty or the directory is not found *)
Definition locate (path : list Z) : F (option (Z * list Z)) :=
  let '(dir, name) := fat32_split_path path 256 64 in
  match name with
  | [] => ret None
  | _ => dir_cluster <- fat32_resolve_dir dir;; ret (if in_chain dir_cluster then Some (dir_cluster, name) else None)
  end.
Definition fat32_find_file (filename : list Z) : F (option FAT32_DirEntry) :=
  l <- locate filename;;
  match l with
  | None => ret None
  | Some (dir_cluster, name) => fat32_find_entry_in_dir dir_cluster name
  end.
Definition fat32_exists (filename : list Z) : F bool :=
  l <- locate filename;;
  match l with
  | None => ret false
  | Some (dir_cluster, name) => r <- fat32_find_entry_in_dir dir_cluster name;; ret (bool_decide (is_Some r))
  end.
Definition fat32_get_file_size (filename : list Z) : F Z :=
  r <- fat32_find_file filename;; ret (match r with Some e => FileSize e | None => 0 end).

Definition fat32_dir_write_raw (slot : FAT32_DirSlot) (raw : list Z) : F unit :=
  lba <- cluster_to_lba (sl_cluster slot);;
  let lba := u32 (lba + sl_sector slot) in
  buf <- read_sector lba;;
  buf' <- lift_opt (splice buf (Z.of_nat (DIRENT * sl_index slot)) (take DIRENT raw));;
  write_sector lba buf'.
Definition fat32_dir_mark_deleted (slot : FAT32_DirSlot) : F unit :=
  lba <- cluster_to_lba (sl_cluster slot);;
  let lba := u32 (lba + sl_sector slot) in
  buf <- read_sector lba;;
  buf' <- lift_opt (splice buf (Z.of_nat (DIRENT * sl_index slot)) [DELETED]);;
  write_sector lba buf'.
Fixpoint delete_slots (slots : list FAT32_DirSlot) : F unit :=
  match slots with
  | [] => ret tt
  | sl :: slots' => fat32_dir_mark_deleted sl;;; delete_slots slots'
  end.

Definition fat32_list_dir_cb (max : Z) (name_len : nat) (it : FAT32_DirItem) (acc : list (list Z * bool)) : bool * list (list Z * bool) :=
  if negb (Z.land (Attr (it_entry it)) 0x08 =? 0) then (true, acc)
  else
    let name := item_name it in
    if bool_decide (name = []) || bool_decide (name = [DOT]) || bool_decide (name = [DOT; DOT]) then (true, acc)
    else if max <=? Z.of_nat (length acc) then (false, acc)
    else (true, acc ++ [(take (name_len - 1) name, is_dir (it_entry it))]).
Definition fat32_list_dir_lfn (cluster max_entries : Z) (name_len : nat) : F (option (list (list Z * bool))) :=
  if (max_entries <=? 0) || (name_len =? 0)%nat then ret None
  else r <- fat32_iterate_dir cluster (fat32_list_dir_cb max_entries name_len) [];; ret (Some r).
Fixpoint read_dir_entries (k i : nat) (max : Z) (buf : list Z) (acc : list FAT32_DirEntry) : bool * list FAT32_DirEntry :=
  match k with
  | O => (true, acc)
  | S k' =>
    let e := entry_at buf i in
    let first := hd 0 (raw_at buf i) in
    if first =? 0 then (false, acc)
    else if (first =? DELETED) || (Attr e =? 0x0F) then read_dir_entries k' (S i) max buf acc
    else if Z.of_nat (length acc) <? max then read_dir_entries k' (S i) max buf (acc ++ [e])
    else (false, acc)
  end.
Definition fat32_read_dir (cluster max : Z) : F (list FAT32_DirEntry) :=
  r <- walk_dir (fun _ _ buf acc => read_dir_entries ENTRIES_PER_SECTOR 0 max buf acc) cluster [];; ret (snd r).

(** ** Names and slots of new entries *)

Fixpoint short_name_in (k i : nat) (short_name buf : list Z) (a : bool) : bool * bool :=
  match k with
  | O => (true, a)
  | S k' =>
    let e := entry_at buf i in
    let first := hd 0 (raw_at buf i) in
    if first =? 0 then (false, false)
    else if (first =? DELETED) || (Attr e =? FAT32_LFN_ATTR) then short_name_in k' (S i) short_name buf a
    else if bool_decide (Name e = take 11 short_name) then (false, true)
    else short_name_in k' (S i) short_name buf a
  end.
Definition fat32_short_name_exists (dir_cluster : Z) (short_name : list Z) : F bool :=
  r <- walk_dir (fun _ _ buf a => short_name_in ENTRIES_PER_SECTOR 0 short_name buf a) dir_cluster false;; ret (snd r).
Fixpoint alias_loop (k : nat) (n dir_cluster : Z) (base ext : list Z) : F (option (list Z)) :=
  match k with
  | O => ret None
  | S k' =>
    match alias_base base n with
    | None => alias_loop k' (n + 1) dir_cluster base ext
    | Some tmp =>
      let candidate := fat32_make_short_name_from_base_ext tmp ext in
      ex <- fat32_short_name_exists dir_cluster candidate;;
      if negb ex then ret (Some candidate) else alias_loop k' (n + 1) dir_cluster base ext
    end
  end.
Definition fat32_generate_short_name (dir_cluster : Z) (long_name : list Z) : F (option (list Z)) :=
  let '(b, ext) := fat32_extract_base_ext long_name 32 8 in
  let base := match b with [] => [70; 73; 76; 69] | _ => b end in
  let candidate := fat32_make_short_name_from_base_ext base ext in
  ex <- fat32_short_name_exists dir_cluster candidate;;
  if negb ex then ret (Some candidate) else alias_loop (Z.to_nat 9999) 1 dir_cluster base ext.

Fixpoint free_run (needed : nat) (k i : nat) (cluster s : Z) (buf : list Z) (run : list FAT32_DirSlot) : bool * list FAT32_DirSlot :=
  match k with
  | O => (true, run)
  | S k' =>
    let first := hd 0 (raw_at buf i) in
    if (first =? 0) || (first =? DELETED) then
      let run' := run ++ [Slot cluster s i] in
      if (length run' =? needed)%nat then (false, run') else free_run needed k' (S i) cluster s buf run'
    else free_run needed k' (S i) cluster s buf []
  end.
(** The directory is not extended. *)
Definition fat32_find_free_slots (dir_cluster : Z) (needed : nat) : F (option (list FAT32_DirSlot)) :=
  r <- walk_dir (free_run needed ENTRIES_PER_SECTOR 0) dir_cluster [];;
  ret (if fst r : bool then None else Some (snd r)).

Definition new_names (dir_cluster : Z) (name : list Z) : F (option (list Z * list Z * nat)) :=
  if fat32_name_needs_lfn name then
    match fat32_lfn_prepare_name name with
    | None => ret None
    | Some long_name =>
      g <- fat32_generate_short_name dir_cluster long_name;;
      match g with
      | None => ret None
      | Some short_name =>
        let n := lfn_entry_count long_name in
        if (FAT32_LFN_MAX_ENTRIES <? n)%nat then ret None else ret (Some (long_name, short_name, n))
      end
    end
  else
    let short_name := fat32_make83 name in
    ex <- fat32_short_name_exists dir_cluster short_name;;
    if ex : bool then ret None else ret (Some (take 255 name, short_name, 0%nat)).
Fixpoint write_lfn_loop (k i count : nat) (slots : list FAT32_DirSlot) (long_name : list Z) (checksum : Z) : F unit :=
  match k with
  | O => ret tt
  | S k' =>
    slot <- lift_opt (slots !! i);;
    fat32_dir_write_raw slot (lfn_entry count i long_name checksum);;;
    write_lfn_loop k' (S i) count slots long_name checksum
  end.
Definition fat32_write_lfn_entries (slots : list FAT32_DirSlot) (count : nat) (long_name : list Z) (checksum : Z) : F unit :=
  write_lfn_loop count 0 count slots long_name checksum.
(** A name that is new in the directory: its entries, for a fresh cluster; None on failure *)
Definition create_entry (dir_cluster : Z) (name : list Z) (attr : Z) : F (option Z) :=
  ex <- fat32_find_entry_in_dir dir_cluster name;;
  match ex with
  | Some _ => ret None
  | None =>
    nm <- new_names dir_cluster name;;
    match nm with
    | None => ret None
    | Some (long_name, short_name, lfn_count) =>
      sl <- fat32_find_free_slots dir_cluster (lfn_count + 1);;
      match sl with
      | None => ret None
      | Some slots =>
        newclus <- fat32_alloc_cluster;;
        if newclus =? 0 then ret None
        else
          (if (0 <? lfn_count)%nat then fat32_write_lfn_entries slots lfn_count long_name (fat32_lfn_checksum short_name) else ret tt);;;
          slot <- lift_opt (slots !! lfn_count);;
          fat32_dir_write_raw slot (entry_bytes (new_entry short_name attr newclus 0));;;
          ret (Some newclus)
      end
    end
  end.

(** ** Files *)

Definition fat32_create_file (fullpath : list Z) : F bool :=
  let '(dir, name) := fat32_split_path fullpath 256 64 in
  match name with
  | [] => ret false
  | _ =>
    if bool_decide (name = [DOT]) || bool_decide (name = [DOT; DOT]) then ret false
    else
      dir_cluster <- fat32_resolve_dir dir;;
      if negb (in_chain dir_cluster) then ret false
      else r <- create_entry dir_cluster name 0x20;; ret (bool_decide (is_Some r))
  end.

Definition write_cluster_data (lba : Z) (src : list Z) (tocpy : Z) : F unit :=
  let full_sectors := tocpy / SECTOR_SIZE in
  let tail_bytes := tocpy mod SECTOR_SIZE in
  (if 0 <? full_sectors then
     b <- lift_opt (slice src 0 (full_sectors * SECTOR_SIZE));; write_drive lba (u16 full_sectors) b;;; ret tt
   else ret tt);;;
  (if 0 <? tail_bytes then
     b <- lift_opt (slice src (full_sectors * SECTOR_SIZE) tail_bytes);;
     write_drive (u32 (lba + full_sectors)) 1 (b ++ zeros (Z.to_nat (SECTOR_SIZE - tail_bytes)));;; ret tt
   else ret tt).
(** The data from the first cluster of the file on, each further cluster a new one; false when there
    is no cluster left *)
Fixpoint write_chain (fuel : nat) (data : list Z) (size remaining file_cluster : Z) : F bool :=
  match fuel with
  | O => nofuel
  | S fuel' =>
    if negb (0 <? remaining) || negb (file_cluster <? FAT32_EOC) then ret true
    else
      lba <- cluster_to_lba file_cluster;; spc <- sec_per_clus;;
      let cluster_bytes := spc * SECTOR_SIZE in
      let tocpy := if cluster_bytes <? remaining then cluster_bytes else remaining in
      write_cluster_data lba (drop (Z.to_nat (size - remaining)) data) tocpy;;;
      let remaining := remaining - tocpy in
      fscmd_write_progress_update (u32 (size - remaining));;;
      if 0 <? remaining then
        nextclus <- fat32_alloc_cluster;;
        if nextclus =? 0 then ret false
        else put_fat_entry file_cluster nextclus;;; write_chain fuel' data size remaining nextclus
      else write_chain fuel' data size remaining file_cluster
  end.
Definition set_size (size : Z) (e : FAT32_DirEntry) : FAT32_DirEntry :=
  {| Name := Name e; Attr := Attr e; de_time1 := de_time1 e; FstClusHI := FstClusHI e; de_time2 := de_time2 e; FstClusLO := FstClusLO e;
     FileSize := size |}.
Definition overwrite_file (it : FAT32_DirItem) (data : list Z) (size : Z) : F bool :=
  ok <- write_chain (S (S (Z.to_nat size))) data size size (first_cluster (it_entry it));;
  if ok : bool then fat32_dir_write_raw (it_slot it) (entry_bytes (set_size size (it_entry it)));;; ret true else ret false.
(** The file is created when it is not found, and the call repeated. *)
Definition write_file_step (fullpath data : list Z) (size : Z) (_ : unit) : F (unit + bool) :=
  l <- locate fullpath;;
  match l with
  | None => ret (inr false)
  | Some (dir_cluster, name) =>
    r <- fat32_find_entry_slot dir_cluster name;;
    match r with
    | Some it => ok <- overwrite_file it data size;; ret (inr ok)
    | None => c <- fat32_create_file fullpath;; ret (if c : bool then inl tt else inr false)
    end
  end.
Definition fat32_write_file (fullpath data : list Z) (size : Z) : F bool := loop (write_file_step fullpath data size) tt.

Fixpoint zero_sectors (k : nat) (lba : Z) : F unit :=
  match k with
  | O => ret tt
  | S k' => write_sector (u32 lba) (zeros 512);;; zero_sectors k' (lba + 1)
  end.
Definition rm_step (cl : Z) : F (Z + unit) :=
  if negb (in_chain cl) then ret (inr tt)
  else
    next <- fat32_next_cluster cl;;
    put_fat_entry cl 0;;;
    start_lba <- cluster_to_lba cl;; spc <- sec_per_clus;;
    zero_sectors (Z.to_nat spc) start_lba;;;
    ret (inl next).
Definition fat32_rm (fullpath : list Z) : F bool :=
  match fullpath with
  | [] => ret false
  | _ =>
    l <- locate fullpath;;
    match l with
    | None => ret false
    | Some (dir_cluster, name) =>
      r <- fat32_find_entry_slot dir_cluster name;;
      match r with
      | None => ret false
      | Some it =>
        loop rm_step (first_cluster (it_entry it));;;
        delete_slots (it_lfn_slots it);;; fat32_dir_mark_deleted (it_slot it);;; ret true
      end
    end
  end.

(** ** Reading *)

Fixpoint skip_loop (fuel : nat) (cluster cluster_size skip : Z) : F (option (Z * Z)) :=
  match fuel with
  | O => nofuel
  | S fuel' =>
    if negb (cluster_size <=? skip) then ret (Some (cluster, skip))
    else
      c <- fat32_get_fat_entry cluster;;
      if FAT32_EOC <=? c then ret None else skip_loop fuel' c cluster_size (skip - cluster_size)
  end.
Fixpoint read_cluster_loop (k : nat) (lba : Z) : F (list Z) :=
  match k with
  | O => ret []
  | S k' => b <- read_sector (u32 lba);; rest <- read_cluster_loop k' (lba + 1);; ret (b ++ rest)
  end.
Fixpoint range_loop (fuel : nat) (cluster cluster_size skip size : Z) (out : list Z) : F (list Z) :=
  match fuel with
  | O => nofuel
  | S fuel' =>
    let bytes_read := Z.of_nat (length out) in
    if negb (bytes_read <? size) || negb (cluster <? FAT32_EOC) then ret out
    else
      lba <- cluster_to_lba cluster;; spc <- sec_per_clus;;
      temp <- read_cluster_loop (Z.to_nat spc) lba;;
      let to_copy := cluster_size - skip in
      let to_copy := if size - bytes_read <? to_copy then size - bytes_read else to_copy in
      b <- lift_opt (slice temp skip to_copy);;
      next <- fat32_get_fat_entry cluster;;
      range_loop fuel' next cluster_size 0 size (out ++ b)
  end.
(** None when the read is refused, else the bytes in out_buf.  With another sector size, which only
    a refused mount leaves behind, the sectors do not fill the buffer. *)
Definition fat32_read_file_range (entry : FAT32_DirEntry) (offset size : Z) : F (option (list Z)) :=
  if FileSize entry <=? offset then ret None
  else
    let size := if FileSize entry <? u32 (offset + size) then FileSize entry - offset else size in
    b <- gets bpb;;
    let cluster_size := SecPerClus b * BytsPerSec b in
    temp <- on_dev (kmalloc cluster_size);;
    if temp =? 0 then ret None
    else if negb (BytsPerSec b =? SECTOR_SIZE) then fault
    else
      sk <- skip_loop (S (Z.to_nat offset)) (first_cluster entry) cluster_size offset;;
      match sk with
      | None => on_dev (kfree temp);;; ret None
      | Some (cluster, skip) =>
        out <- range_loop (S (Z.to_nat size)) cluster cluster_size skip size [];;
        on_dev (kfree temp);;; ret (Some out)
      end.
(** The result, and the bytes in the buffer *)
Definition fat32_read_file (filename : list Z) (offset size : Z) : F (Z * list Z) :=
  r <- fat32_find_file filename;;
  match r with
  | None => ret (0, [])
  | Some e =>
    if FileSize e <=? offset then ret (0, [])
    else
      let to_read := if FileSize e <? u32 (offset + size) then FileSize e - offset else size in
      if to_read =? 0 then ret (0, [])
      else b <- fat32_read_file_range e offset to_read;; ret (match b with None => (0, []) | Some out => (s32 to_read, out) end)
  end.
Definition fat32_read_file_partial (filename : list Z) (offset size : Z) : F (option (list Z)) :=
  r <- fat32_find_file filename;;
  match r with
  | None => ret None
  | Some e =>
    if FileSize e <=? offset then ret None
    else
      let to_read := if FileSize e <? u32 (offset + size) then FileSize e - offset else size in
      if to_read =? 0 then ret (Some []) else fat32_read_file_range e offset to_read
  end.
Definition fat32_read_file_by_name (filename : list Z) (bufsize : Z) : F (Z * list Z) :=
  l <- locate filename;;
  match l with
  | None => ret (-1, [])
  | Some (dir_cluster, name) =>
    r <- fat32_find_entry_in_dir dir_cluster name;;
    match r with
    | None => ret (-1, [])
    | Some e =>
      let to_read := if bufsize <? FileSize e then bufsize else FileSize e in
      if to_read =? 0 then ret (0, [])
      else b <- fat32_read_file_range e 0 to_read;; ret (match b with None => (-1, []) | Some out => (s32 to_read, out) end)
    end
  end.

(** The sectors of a cluster that are printed *)
Fixpoint cat_sectors (k : nat) (cluster s remaining : Z) (printed : list Z) : F (Z * list Z) :=
  match k with
  | O => ret (remaining, printed)
  | S k' =>
    lba <- cluster_to_lba cluster;;
    sector <- read_sector (u32 (lba + s));;
    let chunk := if SECTOR_SIZE <? remaining then SECTOR_SIZE else remaining in
    b <- lift_opt (slice sector 0 chunk);;
    if remaining - chunk =? 0 then ret (0, printed ++ b) else cat_sectors k' cluster (s + 1) (remaining - chunk) (printed ++ b)
  end.
Definition cat_step (p : Z * Z * list Z) : F (Z * Z * list Z + list Z) :=
  let '(current, remaining, printed) := p in
  if negb (in_chain current) || negb (0 <? remaining) then ret (inr printed)
  else
    spc <- sec_per_clus;;
    r <- cat_sectors (Z.to_nat spc) current 0 remaining printed;;
    next <- fat32_next_cluster current;;
    ret (inl (next, fst r, snd r)).
(** What is printed of a file; None for an error message *)
Definition fat32_cat (fullpath : list Z) : F (option (list Z)) :=
  match fullpath with
  | [] => ret None
  | _ =>
    l <- locate fullpath;;
    match l with
    | None => ret None
    | Some (dir_cluster, name) =>
      r <- fat32_find_entry_in_dir dir_cluster name;;
      match r with
      | None => ret None
      | Some e =>
        if is_dir e then ret None
        else if FileSize e =? 0 then ret (Some [])
        else if first_cluster e <? 2 then ret None
        else out <- loop cat_step (first_cluster e, FileSize e, []);; ret (Some out)
      end
    end
  end.

(** ** Copying and moving *)

(** The path of a copy, from the directory and the name *)
Definition join_path (dir name : list Z) : list Z :=
  match dir with
  | [] => name
  | _ =>
    if bool_decide (dir = [SLASH]) then SLASH :: name
    else if List.last dir 0 =? SLASH then dir ++ name else dir ++ SLASH :: name
  end.
Definition fat32_cp (src dst : list Z) : F bool :=
  match src, dst with
  | [], _ | _, [] => ret false
  | _, _ =>
    let '(_, src_name) := fat32_split_path src 256 64 in
    l <- locate src;;
    match l with
    | None => ret false
    | Some (src_dir, _) =>
      se <- fat32_find_entry_in_dir src_dir src_name;;
      match se with
      | None => ret false
      | Some src_entry =>
        if is_dir src_entry then ret false
        else
          let '(dst_dir_path, dst_name) := fat32_split_path dst 256 64 in
          dst_dir <- fat32_resolve_dir dst_dir_path;;
          if negb (in_chain dst_dir) then ret false
          else
            target <- (match dst_name with
                       | [] => ret (dst_dir_path, src_name)
                       | _ =>
                         r <- fat32_find_entry_in_dir dst_dir dst_name;;
                         match r with
                         | None => ret (dst_dir_path, dst_name)
                         | Some e => if is_dir e then ret (take 255 dst, src_name) else fat32_rm dst;;; ret (dst_dir_path, dst_name)
                         end
                       end);;
            let path := join_path (fst target) (snd target) in
            if (512 <=? length path)%nat then ret false
            else if FileSize src_entry =? 0 then fat32_write_file path [] 0
            else
              data <- on_dev (kmalloc (FileSize src_entry));;
              if data =? 0 then ret false
              else
                b <- fat32_read_file_range src_entry 0 (FileSize src_entry);;
                match b with
                | None => on_dev (kfree data);;; ret false
                | Some bytes => ok <- fat32_write_file path bytes (FileSize src_entry);; on_dev (kfree data);;; ret ok
                end
      end
    end
  end.
Definition fat32_mv (src dst : list Z) : F bool :=
  ex <- fat32_exists src;;
  if negb ex then ret false
  else
    d <- fat32_exists dst;;
    (if d : bool then fat32_rm dst;;; ret tt else ret tt);;;
    c <- fat32_cp src dst;;
    if negb c then ret false
    else r <- fat32_rm src;; if negb r then ret false else fat32_exists dst.

(** ** Directories: creating, removing, changing *)

Definition dot_entry (name : list Z) (cluster : Z) : FAT32_DirEntry := new_entry (pad 11 name) 0x10 cluster 0.
Fixpoint fill_dir (k : nat) (cluster s : Z) (buf : list Z) : F unit :=
  match k with
  | O => ret tt
  | S k' => lba <- cluster_to_lba cluster;; write_sector (u32 (lba + s)) buf;;; fill_dir k' cluster (s + 1) buf
  end.
Definition fat32_mkdir (dirname : list Z) : F bool :=
  match dirname with
  | [] => ret false
  | _ =>
    let '(dir_path, name_only) := fat32_split_path dirname 256 64 in
    match name_only with
    | [] => ret false
    | _ =>
      if bool_decide (name_only = [DOT]) || bool_decide (name_only = [DOT; DOT]) then ret false
      else
        cluster <- fat32_resolve_dir dir_path;;
        if negb (in_chain cluster) then ret false
        else
          r <- create_entry cluster name_only 0x10;;
          match r with
          | None => ret false
          | Some newclus =>
            spc <- sec_per_clus;;
            fill_dir (Z.to_nat spc) newclus 0 (entry_bytes (dot_entry [DOT] newclus) ++ entry_bytes (dot_entry [DOT; DOT] cluster) ++ zeros 448);;;
            ret true
          end
    end
  end.

(** Are the entries of the sector from the i-th on unused or dots? *)
Fixpoint sector_empty (k i : nat) (buf : list Z) : bool :=
  match k with
  | O => true
  | S k' =>
    let e := entry_at buf i in
    let raw := raw_at buf i in
    if hd 0 raw =? 0 then true
    else if (hd 0 raw =? DELETED) || (Attr e =? 0x0F) then sector_empty k' (S i) buf
    else if (hd 0 raw =? DOT) && ((nth 1 raw 0 =? SPACE) || (nth 1 raw 0 =? DOT)) then sector_empty k' (S i) buf
    else false
  end.
Definition rmdir_step (cl : Z) : F (Z + unit) :=
  if negb (in_chain cl) then ret (inr tt) else next <- fat32_next_cluster cl;; put_fat_entry cl 0;;; ret (inl next).
Definition fat32_rmdir (dirname : list Z) : F bool :=
  match dirname with
  | [] => ret false
  | _ =>
    l <- locate dirname;;
    match l with
    | None => ret false
    | Some (cluster, name_only) =>
      r <- fat32_find_entry_slot cluster name_only;;
      match r with
      | None => ret false
      | Some it =>
        if negb (is_dir (it_entry it)) then ret false
        else
          let dirclus := first_cluster (it_entry it) in
          lba <- cluster_to_lba dirclus;;
          inner <- read_sector lba;;
          if negb (sector_empty 14 2 inner) then ret false
          else loop rmdir_step dirclus;;; delete_slots (it_lfn_slots it);;; fat32_dir_mark_deleted (it_slot it);;; ret true
      end
    end
  end.

(** The next at most 63 characters before a slash, and what follows it *)
Fixpoint segment (room : nat) (p : list Z) : list Z * list Z :=
  match p with
  | [] => ([], [])
  | c :: p' =>
    if c =? SLASH then ([], p')
    else match room with
         | O => ([], p)
         | S room' => let '(seg, rest) := segment room' p' in (c :: seg, rest)
         end
  end.
Fixpoint cd_loop (fuel : nat) (p : list Z) (cluster : Z) (new_path : list Z) : F (option (Z * list Z)) :=
  match fuel with
  | O => nofuel
  | S fuel' =>
    match p with
    | [] => ret (Some (cluster, new_path))
    | _ =>
      let '(seg, rest) := segment 63 p in
      root <- gets root_dir_cluster32;;
      if bool_decide (seg = []) || bool_decide (seg = [DOT]) then cd_loop fuel' rest cluster new_path
      else if bool_decide (seg = [DOT; DOT]) then
        if (cluster =? root) || (cluster <? 2) then cd_loop fuel' rest root [SLASH]
        else
          parent <- dotdot_cluster cluster;;
          let parent := if (parent <? 2) || (parent =? cluster) then root else parent in
          let new_path :=
            if bool_decide (new_path = [SLASH]) then new_path
            else match split_last SLASH new_path with Some (c :: d, _) => c :: d | _ => [SLASH] end in
          cd_loop fuel' rest parent new_path
      else
        next <- fat32_find_dir_cluster cluster seg;;
        if negb (in_chain next) then ret None
        else
          let new_path := if bool_decide (new_path = [SLASH]) then new_path else take 255 (new_path ++ [SLASH]) in
          cd_loop fuel' rest next (take 255 (new_path ++ seg))
    end
  end.
(** Trailing slashes removed, but not the first character *)
Definition trim_path (p : list Z) : list Z :=
  match p with [] => [] | c :: p' => c :: trim_right (fun x => x =? SLASH) p' end.
Definition fat32_cd (path : list Z) : F bool :=
  match path with
  | [] => ret false
  | _ =>
    root <- gets root_dir_cluster32;;
    if bool_decide (path = [SLASH]) then modify (with_cwd root [SLASH]);;; ret true
    else
      let clean := trim_right (fun c => (c =? SLASH) || (c =? SPACE)) (take 127 path) in
      cur <- gets current_dir_cluster32;; cwd <- gets current_path;;
      let absolute := hd 0 clean =? SLASH in
      r <- cd_loop (S (length clean)) clean (if absolute then root else cur) (if absolute then [SLASH] else cwd);;
      match r with
      | None => ret false
      | Some (cluster, new_path) => modify (with_cwd cluster (take 255 (trim_path new_path)));;; ret true
      end
  end.

(** ** The size of the volume *)

Definition fat32_total_clusters : F Z :=
  b <- gets bpb;;
  ret (if (SecPerClus b =? 0) || (FATSz32 b =? 0) || (NumFATs b =? 0) || (TotSec32 b =? 0) then 0
       else u32 (TotSec32 b - u32 (RsvdSecCnt b + u32 (NumFATs b * FATSz32 b))) / SecPerClus b).
Fixpoint count_free (k i : nat) (sector : list Z) : Z :=
  match k with
  | O => 0
  | S k' => (if Z.land (get32 sector (4 * i)) 0x0FFFFFFF =? 0 then 1 else 0) + count_free k' (S i) sector
  end.
Fixpoint free_clusters_loop (k : nat) (lba count : Z) : F Z :=
  match k with
  | O => ret count
  | S k' =>
    r <- read_drive (u32 lba) 1;;
    free_clusters_loop k' (lba + 1) (match r with Some sec => count + count_free 128 0 sec | None => count end)
  end.
Definition fat32_free_clusters : F Z :=
  b <- gets bpb;; fat <- gets fat_start_lba;;
  if (SecPerClus b =? 0) || (FATSz32 b =? 0) then ret 0
  else free_clusters_loop (Z.to_nat (FATSz32 b)) (fat + RsvdSecCnt b) 0.

(** ** Formatting *)

(** The first number of sectors per cluster, doubling from spc, with at least 65525 clusters, and
    the size of the table; without one eight sectors and no table *)
Fixpoint format_size (k : nat) (total spc : Z) : Z * Z :=
  match k with
  | O => (8, 0)
  | S k' =>
    let count := u32 (total - (32 + 2 * 1)) / spc in
    if 65525 <=? count then (spc, u32 (u32 (count * 4) + 511) / 512) else format_size k' total (2 * spc)
  end.
Definition format_bpb (base_lba total : Z) (label : list Z) : FAT32_BPB_t :=
  let '(spc, fatsz) := format_size 8 total 1 in
  {| jmpBoot := [0xEB; 0x58; 0x90]; OEMName := [79; 82; 73; 79; 78; 79; 83; 32]; BytsPerSec := 512; SecPerClus := spc; RsvdSecCnt := 32;
     NumFATs := 2; RootEntCnt := 0; TotSec16 := 0; Media := 0xF8; FATSz16 := 0; SecPerTrk := 63; NumHeads := 255; HiddSec := base_lba;
     TotSec32 := total; FATSz32 := fatsz; ExtFlags := 0; FSVer := 0; RootClus := 2; FSInfo := 1; BkBootSec := 6; Reserved := zeros 12;
     DrvNum := 0x80; Reserved1 := 0; BootSig := 0x29; VolID := 0x12345678; VolLab := pad 11 label; FilSysType := [70; 65; 84; 51; 50; 32; 32; 32] |}.
(** FA 31 C0 8E D0 BC 00 7C FB E9 00 00 *)
Definition BOOTCODE : list Z := [0xFA; 0x31; 0xC0; 0x8E; 0xD0; 0xBC; 0; 0x7C; 0xFB; 0xE9; 0; 0].
Definition boot_sector (b : FAT32_BPB_t) : list Z := bpb_bytes b ++ BOOTCODE ++ zeros (510 - 90 - 12) ++ [0x55; 0xAA].
Definition fsinfo_sector : list Z :=
  bytes32 0x41615252 ++ zeros 480 ++ bytes32 0x61417272 ++ bytes32 0xFFFFFFFF ++ bytes32 3 ++ zeros 12 ++ [0; 0; 0x55; 0xAA].
Fixpoint format_fat (k : nat) (drive lba : Z) (sector : list Z) : F unit :=
  match k with
  | O => ret tt
  | S k' => on_dev (ata_write_sector drive (u32 lba) sector);;; format_fat k' drive (lba + 1) (zeros 512)
  end.
(** The copy of the boot sector is written from the ninety bytes of the parameter block and what
    lies behind it. *)
Definition fat32_format_at (beyond : list Z) (drive base_lba total : Z) (label : option (list Z)) : F bool :=
  if total =? 0 then ret false
  else
    let b := format_bpb base_lba total (default [] label) in
    on_dev (ata_write_sector drive base_lba (boot_sector b));;;
    on_dev (ata_write_sector drive (u32 (base_lba + 1)) fsinfo_sector);;;
    backup <- lift_opt (slice (bpb_bytes b ++ beyond) 0 512);;
    on_dev (ata_write_sector drive (u32 (base_lba + 6)) backup);;;
    let fat_start := u32 (base_lba + RsvdSecCnt b) in
    format_fat (Z.to_nat (NumFATs b * FATSz32 b)) drive fat_start ([0xF8; 0xFF; 0xFF; 0x0F; 0xFF; 0xFF; 0xFF; 0x0F] ++ zeros 504);;;
    on_dev (ata_write_sector drive (u32 (base_lba + u32 (RsvdSecCnt b + u32 (NumFATs b * FATSz32 b)) + SecPerClus b * (RootClus b - 2))) (zeros 512));;;
    ret true.
Definition fat32_format (beyond : list Z) (drive : Z) (label : option (list Z)) : F bool :=
  total <- on_dev (ata_get_sector_count drive);; fat32_format_at beyond drive 0 total label.
End ops.
End Fat32.
