(* ===== verification/Fat32Vol.v ===== *)
(** * FAT32: the volume behind the block device

    [raw g s R]: the sectors of the volume, from the first table to the last cluster, are R.
    [vol g s F m]: the first table is the function F of the cluster number, the clusters are m.  The
    other tables are not constrained: only the allocator writes them. *)
From S2P Require Import Prelude BlockDev Fat16Name Fat16Vol Fat32Name Fat32.
Import Fat16Name Fat32Name Fat32.

Definition MASK : Z := 0x0FFFFFFF.

Record geo := Geo { q_fat : Z; q_fatsz : Z; q_nfats : Z; q_data : Z; q_spc : Z; q_drive : Z }.
Definition q_entries (g : geo) : Z := 128 * q_fatsz g.
Definition q_end (g : geo) : Z := q_data g + (q_entries g - 2) * q_spc g.
(** The tables and the clusters follow each other; every entry of the table has its cluster, and no
    cluster number is one of the end marks. *)
Record geo_ok (g : geo) : Prop := {
  qo_fat : 0 <= q_fat g;
  qo_nfats : 1 <= q_nfats g <= 255;
  qo_fatsz : 1 <= q_fatsz g;
  qo_entries : q_entries g <= 0x0FFFFFF8;
  qo_data : q_fat g + q_nfats g * q_fatsz g <= q_data g;
  qo_spc : 1 <= q_spc g <= 128;
  qo_end : q_end g < 4294967296;
}.
Definition cluster_ok (g : geo) (c : Z) : Prop := 2 <= c < q_entries g.
Definition cluster_lba (g : geo) (c : Z) : Z := q_data g + (c - 2) * q_spc g.

Lemma geo32_order g : geo_ok g -> 0 <= q_fat g /\ 1 <= q_fatsz g /\ q_fat g + q_fatsz g <= q_data g <= q_end g /\ q_end g < 4294967296 /\ 128 <= q_entries g <= 0x0FFFFFF8 /\
  q_fat g + q_nfats g * q_fatsz g <= q_data g.
Proof. intros [? ? ? ? ? ? ?]. unfold q_end, q_entries in *. split_and!; nia. Qed.
Lemma cluster32_in g c : geo_ok g -> cluster_ok g c -> q_data g <= cluster_lba g c /\ cluster_lba g c + q_spc g <= q_end g.
Proof. intros Hg Hc. pose proof (qo_spc g Hg). unfold cluster_ok, cluster_lba, q_end in *. nia. Qed.
Lemma cluster32_chain g c : geo_ok g -> cluster_ok g c -> in_chain c = true.
Proof. intros Hg Hc. pose proof (qo_entries g Hg). unfold cluster_ok in Hc. unfold in_chain, FAT32_EOC. rewrite andb_true_iff, Z.leb_le, Z.ltb_lt. lia. Qed.

(** Entry c of the table that the sectors R hold *)
Definition ent (g : geo) (R : Z -> list Z) (c : Z) : Z := Z.land (get32 (R (q_fat g + c / 128)) (Z.to_nat (4 * (c mod 128)))) MASK.

Section vol.
Context {D : Type} `{BlockDevOk D} `{Buffers D}.
Implicit Types s : @fat32 D.

Definition geo_of s : geo := Geo (fat_start_lba s) (FATSz32 (bpb s)) (NumFATs (bpb s)) (data_start_lba s) (SecPerClus (bpb s)) (fat32_drive s).
Definition vsec s : sectors := dev_sectors (dev s) (fat32_drive s).
Record raw (g : geo) s (R : Z -> list Z) : Prop := {
  r_ok : dev_ok (dev s);
  r_geo : geo_of s = g;
  r_geo_ok : geo_ok g;
  r_bps : BytsPerSec (bpb s) = 512;
  r_sec : forall x, q_fat g <= x < q_end g -> vsec s !! x = Some (R x);
}.
Record vol (g : geo) s (F : Z -> Z) (m : Z -> list Z) : Prop := {
  v_raw : exists R, raw g s R /\ (forall c, 0 <= c < q_entries g -> ent g R c = F c) /\ (forall x, q_data g <= x < q_end g -> R x = m x);
}.

(** What reading and writing leave alone *)
Definition same_env s s' : Prop :=
  bpb s' = bpb s /\ root_dir_cluster32 s' = root_dir_cluster32 s /\ current_dir_cluster32 s' = current_dir_cluster32 s /\
  current_path s' = current_path s /\ fat32_drive s' = fat32_drive s.
Lemma same32_trans s1 s2 s3 : same_env s1 s2 -> same_env s2 s3 -> same_env s1 s3.
Proof. unfold same_env. intuition congruence. Qed.
Definition same_hint s s' : Prop := same_env s s' /\ fat32_alloc_hint s' = fat32_alloc_hint s.
Lemma same_hint_trans s1 s2 s3 : same_hint s1 s2 -> same_hint s2 s3 -> same_hint s1 s3.
Proof. unfold same_hint, same_env. intuition congruence. Qed.

Lemma wp_fat32_dev {A} P (c : M D A) (Q : A -> fat32 -> Prop) s : wp P c (fun a d => Q a (with_dev d s)) (dev s) -> wp P (on_dev c) Q s.
Proof. unfold wp, on_dev. by destruct (c (dev s)) as [[a d]| |]. Qed.
Lemma vol32_geo_ok g s F m : vol g s F m -> geo_ok g.
Proof. intros [(R & Hr & _)]. apply Hr. Qed.
Lemma raw_sector g s R x : raw g s R -> q_fat g <= x < q_end g -> is_sector (R x).
Proof. intros Hr Hx. by destruct (dev_sector_ok _ _ _ _ (r_ok _ _ _ Hr) (r_sec _ _ _ Hr x Hx)). Qed.
Lemma raw_with_hint g s R h : raw g s R -> raw g (with_hint h s) R.
Proof. by intros []. Qed.
Lemma raw_dev g s R d' : raw g s R -> dev_ok d' -> dev_sectors d' = dev_sectors (dev s) -> raw g (with_dev d' s) R.
Proof. intros [? ? ? ? Hs] Hok Hd. constructor; try done. unfold vsec in *. cbn [dev with_dev fat32_drive]. by rewrite Hd. Qed.

(** ** Sectors *)

Lemma wp_raw_read P g s R x (Q : list Z -> fat32 -> Prop) : raw g s R -> q_fat g <= x < q_end g ->
  (forall s', raw g s' R -> same_hint s s' -> Q (R x) s') -> wp P (read_sector x) Q s.
Proof.
  intros Hr Hx HQ. unfold read_sector, read_drive. apply wp_bind, wp_bind, wp_gets, wp_fat32_dev. pose proof (r_sec _ _ _ Hr x Hx) as Hb. unfold vsec in Hb.
  destruct (dev_read (dev s) (fat32_drive s) x 1 (r_ok _ _ _ Hr)) as (d' & E & Hd & Hs); [lia| |].
  { intros i Hi. replace (x + Z.of_nat i) with x by lia. eauto. }
  change (Z.to_nat 1) with 1%nat in E. cbn [get_run] in E. rewrite Hb in E. cbn [from_option] in E. unfold id in E. rewrite app_nil_r in E.
  eapply wp_ok; [exact E|]. apply wp_lift_some, HQ; [by apply raw_dev|done].
Qed.
Lemma wp_raw_write P g s R x k b (Q : bool -> fat32 -> Prop) : raw g s R -> (1 <= k <= 256)%nat -> q_fat g <= x -> x + Z.of_nat k <= q_end g ->
  length b = (k * 512)%nat -> Forall is_u8 b ->
  (forall s', raw g s' (put_data R x k b) -> same_hint s s' -> Q true s') -> wp P (write_drive x (Z.of_nat k) b) Q s.
Proof.
  intros Hr Hk Hx Hn Hl Hu HQ. unfold write_drive. apply wp_bind, wp_gets, wp_fat32_dev.
  destruct (dev_write (dev s) (fat32_drive s) x (Z.of_nat k) b (r_ok _ _ _ Hr)) as (d' & E & Hd & Hs & _);
    [lia|rewrite Nat2Z.id; intros i Hi; pose proof (r_sec _ _ _ Hr (x + Z.of_nat i) ltac:(lia)) as Hb; unfold vsec in Hb; eauto|by rewrite Nat2Z.id|done|].
  rewrite Nat2Z.id in Hs. eapply wp_ok; [exact E|]. apply HQ; [|done]. destruct Hr as [? ? ? ? Hm]. constructor; try done.
  intros y Hy. unfold vsec in *. cbn [dev with_dev fat32_drive]. rewrite Hs. unfold put_data. case_decide as Hi; [|rewrite put_run_out by lia; by apply Hm].
  replace y with (x + Z.of_nat (Z.to_nat (y - x))) at 1 by lia. by rewrite put_run_in by lia.
Qed.
Lemma wp_raw_write1 P g s R x b (Q : unit -> fat32 -> Prop) : raw g s R -> q_fat g <= x < q_end g -> is_sector b ->
  (forall s', raw g s' (upd R x b) -> same_hint s s' -> Q tt s') -> wp P (write_sector x b) Q s.
Proof.
  intros Hr Hx [Hl Hu] HQ. unfold write_sector. apply wp_bind. change 1 with (Z.of_nat 1) at 1. eapply wp_raw_write; [exact Hr|lia|lia|lia|lia|done|].
  intros s' Hr' He. apply wp_ret, HQ; [|done]. destruct Hr' as [? ? ? ? Hm]. constructor; try done. intros y Hy. rewrite Hm by done. f_equal.
  unfold put_data, upd. case_decide as H1'; case_decide as H2'; try lia; [|done]. subst. rewrite Z.sub_diag. change (512 * Z.to_nat 0)%nat with 0%nat. by rewrite drop_0, take_ge by lia.
Qed.

(** ** Entries of the table *)

Lemma ent_range g s R c : raw g s R -> 0 <= c < q_entries g -> 0 <= ent g R c < 0x10000000.
Proof.
  intros Hr Hc. unfold ent, MASK. change 0x0FFFFFFF with (Z.ones 28). rewrite Z.land_ones by lia. apply Z.mod_pos_bound. lia.
Qed.
Lemma ent_sector g c : geo_ok g -> 0 <= c < q_entries g -> q_fat g <= q_fat g + c / 128 < q_fat g + q_fatsz g.
Proof. intros Hg Hc. unfold q_entries in Hc. word_lia. Qed.
Lemma ent_offset c : 0 <= c < 0x0FFFFFF8 -> u32 (c * 4) = c * 4 /\ c * 4 / 512 = c / 128 /\ c * 4 mod 512 = 4 * (c mod 128).
Proof. intros. rewrite u32_small by (unfold is_u32; lia). split_and!; [done|word_lia..]. Qed.
Lemma raw_table_sector g s R c : raw g s R -> 0 <= c < q_entries g -> is_sector (R (q_fat g + c / 128)).
Proof.
  intros Hr Hc. pose proof (r_geo_ok _ _ _ Hr) as Hg. pose proof (ent_sector g c Hg Hc). pose proof (geo32_order g Hg). eapply raw_sector; [exact Hr|lia].
Qed.
(** An entry replaced in the first table *)
Lemma ent_put g s R c v b' c' : raw g s R -> 0 <= c < q_entries g -> 0 <= c' < q_entries g -> 0 <= v < 0x10000000 ->
  splice (R (q_fat g + c / 128)) (4 * (c mod 128)) (bytes32 v) = Some b' ->
  ent g (upd R (q_fat g + c / 128) b') c' = upd (ent g R) c v c'.
Proof.
  intros Hr Hc Hc' Hv Hs. unfold ent, upd. destruct (decide (q_fat g + c' / 128 = q_fat g + c / 128)) as [E|Hne].
  - destruct (decide (c' = c)) as [->|Hcc].
    + rewrite (get32_splice _ _ v b') by (done || (unfold is_u32; lia)). unfold MASK. change 0x0FFFFFFF with (Z.ones 28). rewrite Z.land_ones by lia. by apply Z.mod_small.
    + f_equal. assert (c mod 128 <> c' mod 128) as Hm by (clear -E Hcc; word_lia).
      rewrite E. destruct (raw_table_sector g s R c Hr Hc) as [Hl _].
      apply get32_ext. intros i Hi. destruct (splice_in (R (q_fat g + c / 128)) (4 * (c mod 128)) (bytes32 v)) as (b2 & E2 & _ & Hat).
      { word_lia. } { rewrite bytes32_length, Hl. word_lia. }
      rewrite Hs in E2. injection E2 as <-. rewrite Hat, decide_False; [done|]. rewrite bytes32_length.
      assert (0 <= c mod 128 < 128 /\ 0 <= c' mod 128 < 128) by (split; apply Z.mod_pos_bound; lia). lia.
  - rewrite decide_False; [done|]. intros ->. done.
Qed.
Lemma ent_ext g R R' c : geo_ok g -> 0 <= c < q_entries g -> (forall x, q_fat g <= x < q_fat g + q_fatsz g -> R' x = R x) -> ent g R' c = ent g R c.
Proof. intros Hg Hc He. unfold ent. rewrite He; [done|]. by apply ent_sector. Qed.

Lemma wp_raw_entry P g s R c (Q : Z -> fat32 -> Prop) : raw g s R -> 0 <= c < q_entries g ->
  (forall s', raw g s' R -> same_hint s s' -> Q (ent g R c) s') -> wp P (fat32_next_cluster c) Q s.
Proof.
  intros Hr Hc HQ. pose proof (r_geo_ok _ _ _ Hr) as Hg. pose proof (geo32_order g Hg) as Ho. pose proof (ent_sector g c Hg Hc).
  destruct (ent_offset c ltac:(lia)) as (E0 & E1 & E2). unfold fat32_next_cluster. apply wp_bind, wp_gets, wp_bind, wp_gets. unfold udiv, umod. rewrite E0, (r_bps _ _ _ Hr).
  cbn [Z.eqb]. apply wp_bind, wp_ret, wp_bind, wp_ret. rewrite E1, E2. replace (fat_start_lba s) with (q_fat g) by (by rewrite <-(r_geo _ _ _ Hr)).
  rewrite u32_small by (unfold is_u32; lia). apply wp_bind. eapply wp_raw_read; [exact Hr|lia|]. intros s' Hr' He.
  destruct (raw_sector g s R (q_fat g + c / 128) Hr ltac:(lia)) as [Hl _].
  rewrite slice_in by (rewrite ?Hl; word_lia). apply wp_bind, wp_lift_some, wp_ret. rewrite get32_take_drop by (simpl; lia). rewrite Nat.add_0_r. by apply HQ.
Qed.
Lemma next_get c : fat32_get_fat_entry c = fat32_next_cluster c :> M (@fat32 D) Z.
Proof. done. Qed.
Lemma wp_raw_put P g s R c v (Q : unit -> fat32 -> Prop) : raw g s R -> 0 <= c < q_entries g -> 0 <= v < 0x10000000 ->
  (forall s' b', raw g s' (upd R (q_fat g + c / 128) b') -> (forall c', 0 <= c' < q_entries g -> ent g (upd R (q_fat g + c / 128) b') c' = upd (ent g R) c v c') ->
     same_hint s s' -> Q tt s') -> wp P (put_fat_entry c v) Q s.
Proof.
  intros Hr Hc Hv HQ. pose proof (r_geo_ok _ _ _ Hr) as Hg. pose proof (geo32_order g Hg) as Ho. pose proof (ent_sector g c Hg Hc).
  destruct (ent_offset c ltac:(lia)) as (E0 & E1 & E2). unfold put_fat_entry, SECTOR_SIZE. apply wp_bind, wp_gets. rewrite E0, E1, E2.
  replace (fat_start_lba s) with (q_fat g) by (by rewrite <-(r_geo _ _ _ Hr)). rewrite u32_small by (unfold is_u32; lia).
  apply wp_bind. eapply wp_raw_read; [exact Hr|lia|]. intros s1 Hr1 He1. destruct (raw_sector g s R (q_fat g + c / 128) Hr ltac:(lia)) as [Hl Hu].
  destruct (splice_in (R (q_fat g + c / 128)) (4 * (c mod 128)) (bytes32 v)) as (b' & Es & Hl' & _); [word_lia|rewrite bytes32_length, Hl; word_lia|].
  rewrite Es. apply wp_bind, wp_lift_some. eapply wp_raw_write1; [exact Hr1|lia|split; [lia|by eapply splice_u8, Es; [|apply bytes32_u8]]|].
  intros s2 Hr2 He2. eapply (HQ s2 b'); [exact Hr2| |by eapply same_hint_trans]. intros c' Hc'. by eapply ent_put.
Qed.

(** ** The rules on the table and the clusters *)

Lemma wp_next P g s F m c (Q : Z -> fat32 -> Prop) : vol g s F m -> 0 <= c < q_entries g ->
  (forall s', vol g s' F m -> same_hint s s' -> Q (F c) s') -> wp P (fat32_next_cluster c) Q s.
Proof.
  intros [(R & Hr & HF & Hm)] Hc HQ. eapply wp_raw_entry; [exact Hr|done|]. intros s' Hr' He. rewrite HF by done. apply HQ; [|done]. split. by exists R.
Qed.
Lemma wp_put P g s F m c v (Q : unit -> fat32 -> Prop) : vol g s F m -> 0 <= c < q_entries g -> 0 <= v < 0x10000000 ->
  (forall s', vol g s' (upd F c v) m -> same_hint s s' -> Q tt s') -> wp P (put_fat_entry c v) Q s.
Proof.
  intros [(R & Hr & HF & Hm)] Hc Hv HQ. pose proof (r_geo_ok _ _ _ Hr) as Hg. pose proof (geo32_order g Hg). pose proof (ent_sector g c Hg Hc).
  eapply wp_raw_put; [exact Hr|done|done|]. intros s' b' Hr' He Hs. apply HQ; [|done]. split. eexists. split_and!; [exact Hr'| |].
  - intros c' Hc'. rewrite He by done. unfold upd. case_decide; [done|]. by apply HF.
  - intros x Hx. rewrite upd_ne by lia. by apply Hm.
Qed.
Lemma wp_read_data32 P g s F m x (Q : list Z -> fat32 -> Prop) : vol g s F m -> q_data g <= x < q_end g ->
  (forall s', vol g s' F m -> same_hint s s' -> Q (m x) s') -> wp P (read_sector x) Q s.
Proof.
  intros [(R & Hr & HF & Hm)] Hx HQ. pose proof (geo32_order g (r_geo_ok _ _ _ Hr)). pose proof (qo_fatsz g (r_geo_ok _ _ _ Hr)).
  eapply wp_raw_read; [exact Hr|lia|]. intros s' Hr' He. rewrite Hm by done. apply HQ; [|done]. split. by exists R.
Qed.
Lemma wp_write_data32 P g s F m x k b (Q : bool -> fat32 -> Prop) : vol g s F m -> (1 <= k <= 256)%nat -> q_data g <= x -> x + Z.of_nat k <= q_end g ->
  length b = (k * 512)%nat -> Forall is_u8 b ->
  (forall s', vol g s' F (put_data m x k b) -> same_hint s s' -> Q true s') -> wp P (write_drive x (Z.of_nat k) b) Q s.
Proof.
  intros [(R & Hr & HF & Hm)] Hk Hx Hn Hl Hu HQ. pose proof (r_geo_ok _ _ _ Hr) as Hg. pose proof (geo32_order g Hg). pose proof (qo_fatsz g Hg).
  eapply wp_raw_write; [exact Hr|done|lia|done|done|done|]. intros s' Hr' He. apply HQ; [|done]. split. eexists. split_and!; [exact Hr'| |].
  - intros c Hc. rewrite <-HF by done. apply ent_ext; [done|done|]. intros y Hy. unfold put_data. by rewrite decide_False by lia.
  - intros y Hy. unfold put_data. case_decide; [done|by apply Hm].
Qed.
Lemma wp_lba32 P g s F m c (Q : Z -> fat32 -> Prop) : vol g s F m -> cluster_ok g c -> Q (cluster_lba g c) s -> wp P (cluster_to_lba c) Q s.
Proof.
  intros [(R & Hr & _)] Hc HQ. pose proof (r_geo_ok _ _ _ Hr) as Hg. pose proof (geo32_order g Hg). pose proof (cluster32_in g c Hg Hc). pose proof (qo_spc g Hg).
  unfold cluster_to_lba, sec_per_clus. apply wp_bind, wp_gets, wp_bind, wp_bind, wp_gets, wp_ret, wp_ret.
  replace (data_start_lba s) with (q_data g) by (by rewrite <-(r_geo _ _ _ Hr)). replace (SecPerClus (bpb s)) with (q_spc g) by (by rewrite <-(r_geo _ _ _ Hr)).
  change (q_data g + (c - 2) * q_spc g) with (cluster_lba g c). by rewrite u32_small by (unfold is_u32; lia).
Qed.
Lemma wp_spc P g s F m (Q : Z -> fat32 -> Prop) : vol g s F m -> Q (q_spc g) s -> wp P sec_per_clus Q s.
Proof. intros [(R & Hr & _)] HQ. unfold sec_per_clus. apply wp_bind, wp_gets, wp_ret. by rewrite <-(r_geo _ _ _ Hr) in HQ. Qed.
Lemma vol32_sector g s F m x : vol g s F m -> q_data g <= x < q_end g -> is_sector (m x).
Proof.
  intros [(R & Hr & _ & Hm)] Hx. rewrite <-Hm by done. eapply raw_sector; [exact Hr|]. pose proof (geo32_order g (r_geo_ok _ _ _ Hr)). pose proof (qo_fatsz g (r_geo_ok _ _ _ Hr)). lia.
Qed.
Lemma vol32_ext g s F m F' m' : vol g s F m -> (forall c, 0 <= c < q_entries g -> F' c = F c) -> (forall x, q_data g <= x < q_end g -> m' x = m x) -> vol g s F' m'.
Proof. intros [(R & Hr & HF & Hm)] HF' Hm'. split. exists R. split_and!; [done|intros c Hc; rewrite HF' by done; by apply HF|intros x Hx; rewrite Hm' by done; by apply Hm]. Qed.
End vol.
