(* ===== verification/Fat32Alloc.v ===== *)
(** * FAT32: the allocator

    fat32_alloc_cluster looks for a free entry from the hint to the end of the table and then from
    the beginning up to the sector of the hint; what it returns is marked and filled with zeros. *)
From S2P Require Import Prelude BlockDev Fat16Name Fat16Vol Fat32Name Fat32 Fat32Vol.
Import Fat16Name Fat32Name Fat32.

Section alloc.
Context {D : Type} `{BlockDevOk D} `{Buffers D} (g : geo).
Implicit Types s : @fat32 D.

(** ** Free entries of a sector *)

Definition field (buf : list Z) (i : Z) : Z := Z.land (get32 buf (Z.to_nat (4 * i))) MASK.
Lemma free_entry_spec k : forall i buf, 
  match free_entry k i buf with
  | Some j => i <= j < i + Z.of_nat k /\ field buf j = 0 /\ forall j', i <= j' < j -> field buf j' <> 0
  | None => forall j, i <= j < i + Z.of_nat k -> field buf j <> 0
  end.
Proof.
  induction k as [|k IH]; intros i buf; cbn [free_entry]; [intros; lia|]. change (Z.land (get32 buf (Z.to_nat (4 * i))) 0x0FFFFFFF) with (field buf i).
  destruct (Z.eqb_spec (field buf i) 0) as [E|E]; [split_and!; [lia|lia|done|intros; lia]|].
  specialize (IH (i + 1) buf). destruct (free_entry k (i + 1) buf) as [j|].
  - destruct IH as (Hj & Hz & Hn). split_and!; [lia|lia|done|]. intros j' Hj'. destruct (decide (j' = i)) as [->|]; [done|]. apply Hn. lia.
  - intros j Hj. destruct (decide (j = i)) as [->|]; [done|]. apply IH. lia.
Qed.
Lemma ent_field R a i : 0 <= i < 128 -> ent g R (a * 128 + i) = field (R (q_fat g + a)) i.
Proof.
  intros Hi. unfold ent, field. replace ((a * 128 + i) / 128) with a by (rewrite Z.div_add_l by lia; rewrite Z.div_small by lia; lia).
  replace ((a * 128 + i) mod 128) with i; [done|]. rewrite Z.add_comm, Z_mod_plus_full. by rewrite Z.mod_small by lia.
Qed.

(** ** Taking a cluster *)

Lemma raw_ext s R R' : raw g s R -> (forall x, q_fat g <= x < q_end g -> R' x = R x) -> raw g s R'.
Proof. intros [? ? ? ? Hs] He. constructor; try done. intros x Hx. rewrite He by done. by apply Hs. Qed.

Lemma wp_mirror P k : forall s R f a b (Q : unit -> fat32 -> Prop), raw g s R -> 1 <= f -> f + Z.of_nat k = q_nfats g -> 0 <= a < q_fatsz g -> is_sector b ->
  (forall s' R', raw g s' R' -> (forall x, x < q_fat g + q_fatsz g \/ q_data g <= x -> R' x = R x) -> same_hint s s' -> Q tt s') ->
  wp P (mirror k f a b) Q s.
Proof.
  induction k as [|k IH]; intros s R f a b Q Hr Hf Hk Ha Hb HQ; cbn [mirror]; [by apply wp_ret, (HQ s R)|].
  pose proof (r_geo_ok _ _ _ Hr) as Hg. pose proof (geo32_order g Hg) as Ho. pose proof (r_geo _ _ _ Hr) as Hgeo.
  assert (q_fatsz g <= f * q_fatsz g /\ f * q_fatsz g + q_fatsz g <= q_nfats g * q_fatsz g) as Hff by nia.
  apply wp_bind, wp_gets, wp_bind, wp_gets. replace (fat_start_lba s) with (q_fat g) by (by rewrite <-Hgeo). replace (FATSz32 (bpb s)) with (q_fatsz g) by (by rewrite <-Hgeo).
  rewrite u32_small by (unfold is_u32; lia). apply wp_bind. eapply wp_raw_write1; [exact Hr|lia|done|]. intros s1 Hr1 He1.
  eapply IH; [exact Hr1|lia|lia|done|done|]. intros s2 R2 Hr2 HR2 He2. apply (HQ s2 R2); [done| |by eapply same_hint_trans].
  intros x Hx. rewrite HR2 by done. apply upd_ne. lia.
Qed.
Definition zeroed (R : Z -> list Z) (x n : Z) (y : Z) : list Z := if decide (x <= y < x + n) then zeros 512 else R y.
Lemma zeros_chunk n i : (i < n)%nat -> take 512 (drop (512 * i) (zeros (512 * n))) = zeros 512.
Proof.
  intros Hi. unfold zeros. rewrite drop_replicate, take_replicate. f_equal. lia.
Qed.
Lemma wp_zero_chunks P k : forall s R x n (Q : unit -> fat32 -> Prop), raw g s R -> 0 <= n <= Z.of_nat k -> q_fat g <= x -> x + n <= q_end g ->
  (forall s', raw g s' (zeroed R x n) -> same_hint s s' -> Q tt s') -> wp P (zero_chunks k x n) Q s.
Proof.
  induction k as [|k IH]; intros s R x n Q Hr Hn Hx Hl HQ; cbn [zero_chunks].
  { apply wp_ret, HQ; [|done]. eapply raw_ext; [exact Hr|]. intros y _. unfold zeroed. by rewrite decide_False by lia. }
  apply wp_if; intros Hz; [apply Z.leb_le in Hz|apply Z.leb_gt in Hz].
  { apply wp_ret, HQ; [|done]. eapply raw_ext; [exact Hr|]. intros y _. unfold zeroed. by rewrite decide_False by lia. }
  pose proof (geo32_order g (r_geo_ok _ _ _ Hr)). set (chunk := if 16 <? n then 16 else n). assert (1 <= chunk <= 16 /\ chunk <= n) as [Hc Hcn] by (unfold chunk; bdestr; lia).
  rewrite u32_small by (unfold is_u32; lia). unfold SECTOR_SIZE. replace (Z.to_nat (512 * chunk)) with (512 * Z.to_nat chunk)%nat by lia.
  replace chunk with (Z.of_nat (Z.to_nat chunk)) at 1 by lia. apply wp_bind. eapply wp_raw_write; [exact Hr|lia|lia|lia|unfold zeros; rewrite length_replicate; lia| |].
  { apply Forall_replicate. unfold is_u8. lia. }
  intros s1 Hr1 He1. eapply IH; [exact Hr1|lia|lia|lia|]. intros s2 Hr2 He2. apply HQ; [|by eapply same_hint_trans].
  eapply raw_ext; [exact Hr2|]. intros y _. unfold zeroed, put_data. repeat case_decide; try lia; try done. symmetry. apply zeros_chunk. lia.
Qed.

(** The state after cluster c has been taken *)
Definition taken s (R : Z -> list Z) (c : Z) s' : Prop :=
  exists R', raw g s' R' /\ (forall c', 0 <= c' < q_entries g -> ent g R' c' = upd (ent g R) c MASK c') /\
    (forall x, q_data g <= x < q_end g -> R' x = zeroed R (cluster_lba g c) (q_spc g) x) /\
    fat32_alloc_hint s' = c + 1 /\ same_env s s'.
Lemma wp_take_cluster P s R a i (Q : Z -> fat32 -> Prop) : raw g s R -> 0 <= a < q_fatsz g -> 0 <= i < 128 -> 2 <= a * 128 + i ->
  (forall s', taken s R (a * 128 + i) s' -> Q (a * 128 + i) s') -> wp P (take_cluster a i 128 (R (q_fat g + a))) Q s.
Proof.
  intros Hr Ha Hi Hc HQ. pose proof (r_geo_ok _ _ _ Hr) as Hg. pose proof (geo32_order g Hg) as Ho. pose proof (r_geo _ _ _ Hr) as Hgeo. pose proof (qo_spc g Hg). pose proof (qo_nfats g Hg).
  set (c := a * 128 + i) in *. assert (cluster_ok g c) as Hok by (unfold cluster_ok, q_entries, c; lia).
  assert (c / 128 = a /\ c mod 128 = i) as [Eca Eci] by (unfold c; split; word_lia). pose proof (cluster32_in g c Hg Hok) as Hlba.
  unfold take_cluster. apply wp_bind, wp_gets, wp_bind, wp_gets. replace (fat_start_lba s) with (q_fat g) by (by rewrite <-Hgeo).
  replace (NumFATs (bpb s)) with (q_nfats g) by (by rewrite <-Hgeo). replace (SecPerClus (bpb s)) with (q_spc g) by (by rewrite <-Hgeo).
  fold c. rewrite (u32_small c) by (unfold is_u32, cluster_ok in *; lia). rewrite u32_small by (unfold is_u32; lia).
  destruct (raw_sector g s R (q_fat g + a) Hr ltac:(lia)) as [Hl Hu].
  destruct (splice_in (R (q_fat g + a)) (4 * i) (bytes32 0x0FFFFFFF)) as (b' & Es & Hl' & _); [lia|rewrite bytes32_length, Hl; lia|].
  assert (is_sector b') as Hb' by (split; [lia|by eapply splice_u8, Es; [|apply bytes32_u8]]).
  rewrite Es. apply wp_bind, wp_lift_some, wp_bind. eapply wp_raw_write1; [exact Hr|lia|done|]. intros s1 Hr1 He1.
  apply wp_bind. eapply wp_mirror; [exact Hr1|lia|lia|done|done|]. intros s2 R2 Hr2 HR2 He2.
  assert (vol g s2 (ent g R2) R2) as Hv2 by (split; by exists R2).
  apply wp_bind. eapply wp_lba32; [exact Hv2|done|]. apply wp_bind. eapply wp_zero_chunks; [exact Hr2|lia|lia|lia|]. intros s3 Hr3 He3.
  apply wp_bind, wp_modify, wp_ret, HQ. rewrite u32_small by (unfold is_u32, cluster_ok in *; lia).
  exists (zeroed R2 (cluster_lba g c) (q_spc g)). split_and!; [by apply raw_with_hint| | |done|].
  - intros c' Hc'. rewrite (ent_ext g R2); [|done|done|intros x Hx; unfold zeroed; by rewrite decide_False by lia].
    rewrite (ent_ext g (upd R (q_fat g + a) b')); [|done|done|intros x Hx; apply HR2; lia]. rewrite <-Eca. rewrite <-Eca, <-Eci in Es.
    eapply ent_put; [exact Hr|unfold cluster_ok in Hok; lia|done|unfold MASK; lia|exact Es].
  - intros x Hx. unfold zeroed. case_decide; [done|]. rewrite HR2 by lia. apply upd_ne. lia.
  - destruct (same_hint_trans s s1 s2 He1 He2) as [He _]. destruct He3 as [He3 _]. eapply same32_trans; [exact He|]. exact He3.
Qed.

(** ** The search *)

Lemma wp_alloc_pass P (first : Z -> Z) k : forall s R a (Q : option Z -> fat32 -> Prop), raw g s R -> 0 <= a -> a + Z.of_nat k <= q_fatsz g ->
  (forall x, 0 <= first x <= 128) -> 2 <= first 0 ->
  (forall s', raw g s' R -> same_hint s s' -> (forall c, a * 128 <= c < (a + Z.of_nat k) * 128 -> first (c / 128) <= c mod 128 -> ent g R c <> 0) -> Q None s') ->
  (forall c s', a * 128 <= c < (a + Z.of_nat k) * 128 -> first (c / 128) <= c mod 128 -> ent g R c = 0 ->
     (forall c', a * 128 <= c' < c -> first (c' / 128) <= c' mod 128 -> ent g R c' <> 0) -> 2 <= c -> taken s R c s' -> Q (Some c) s') ->
  wp P (alloc_pass k a 128 first) Q s.
Proof.
  induction k as [|k IH]; intros s R a Q Hr Ha Hk Hf Hf0 HN HS; cbn [alloc_pass].
  { apply wp_ret, HN; [done|done|]. intros c Hc. lia. }
  pose proof (r_geo_ok _ _ _ Hr) as Hg. pose proof (geo32_order g Hg) as Ho.
  apply wp_bind, wp_gets. replace (fat_start_lba s) with (q_fat g) by (by rewrite <-(r_geo _ _ _ Hr)). rewrite u32_small by (unfold is_u32; lia).
  apply wp_bind. eapply wp_raw_read; [exact Hr|lia|]. intros s1 Hr1 He1. pose proof (free_entry_spec (Z.to_nat (128 - first a)) (first a) (R (q_fat g + a))) as Hfe.
  specialize (Hf a) as Hfa. destruct (free_entry _ _ _) as [i|].
  - destruct Hfe as (Hi & Hz & Hb). apply wp_bind. assert (a = 0 -> 2 <= i) as Hi0 by (intros ->; lia).
    eapply wp_take_cluster; [exact Hr1|lia|lia|lia|]. intros s2 Ht. apply wp_ret.
    assert ((a * 128 + i) / 128 = a /\ (a * 128 + i) mod 128 = i) as [E1 E2] by (split; word_lia).
    apply HS; [lia|rewrite E1, E2; lia|by rewrite ent_field by lia| |lia|].
    + intros c' Hc' Hfc'. assert (c' / 128 = a) as Ea by word_lia. rewrite Ea in Hfc'. replace c' with (a * 128 + c' mod 128) by word_lia.
      rewrite ent_field by word_lia. apply Hb. word_lia.
    + destruct Ht as (R' & ? & ? & ? & ? & He). exists R'. split_and!; try done. destruct He1 as [He1 _]. eapply same32_trans; [exact He1|exact He].
  - assert (forall c, a * 128 <= c < a * 128 + 128 -> first (c / 128) <= c mod 128 -> ent g R c <> 0) as Hrow.
    { intros c Hc Hfc. assert (c / 128 = a) as Ea by word_lia. rewrite Ea in Hfc. replace c with (a * 128 + c mod 128) by word_lia. rewrite ent_field by word_lia. apply Hfe. word_lia. }
    eapply IH; [exact Hr1|lia|lia|done|done| |].
    + intros s2 Hr2 He2 Hall. apply HN; [done|by eapply same_hint_trans|]. intros c Hc Hfc. destruct (decide (c < a * 128 + 128)); [apply Hrow|apply Hall]; (done || lia).
    + intros c s2 Hc Hfc Hz Hb H2 Ht. apply HS; [lia|done|done| |done|].
      * intros c' Hc' Hfc'. destruct (decide (c' < a * 128 + 128)); [apply Hrow|apply Hb]; (done || lia).
      * destruct Ht as (R' & ? & ? & ? & ? & He). exists R'. split_and!; try done. destruct He1 as [He1 _]. eapply same32_trans; [exact He1|exact He].
Qed.

(** The first cluster the search looks at *)
Definition search_start (hint : Z) : Z := if (hint <? 3) || (q_entries g <=? hint) then 3 else hint.
(** c is the cluster that the search finds in the table F. *)
Record found (F : Z -> Z) (start c : Z) : Prop := {
  fo_ok : 3 <= c < q_entries g;
  fo_free : F c = 0;
  fo_up : start <= c -> forall c', start <= c' < c -> F c' <> 0;
  fo_wrap : c < start -> c < 128 * (start / 128) /\ (forall c', start <= c' < q_entries g -> F c' <> 0) /\ forall c', 3 <= c' < c -> F c' <> 0;
}.
(** Nothing is found. *)
Definition none_found (F : Z -> Z) (start : Z) : Prop :=
  (forall c, start <= c < q_entries g -> F c <> 0) /\ (forall c, 3 <= c < 128 * (start / 128) -> F c <> 0).

Lemma taken_vol s R F m c s' : cluster_ok g c -> geo_ok g -> (forall c, 0 <= c < q_entries g -> ent g R c = F c) -> (forall x, q_data g <= x < q_end g -> R x = m x) -> taken s R c s' ->
  vol g s' (upd F c MASK) (zeroed m (cluster_lba g c) (q_spc g)) /\ fat32_alloc_hint s' = c + 1 /\ same_env s s'.
Proof.
  intros Hc Hg HF Hm (R' & Hr' & He & Hx & Hh & Henv). split_and!; try done. split. exists R'. split_and!; [done| |].
  - intros c' Hc'. rewrite He by done. unfold upd. case_decide; [done|by apply HF].
  - intros x Hxx. rewrite Hx by done. unfold zeroed. case_decide; [done|by apply Hm].
Qed.

Lemma wp_alloc P s F m (Q : Z -> fat32 -> Prop) : vol g s F m -> 0 <= fat32_alloc_hint s ->
  let start := search_start (fat32_alloc_hint s) in
  (forall s', vol g s' F m -> same_hint s s' -> none_found F start -> Q 0 s') ->
  (forall c s', found F start c -> vol g s' (upd F c MASK) (zeroed m (cluster_lba g c) (q_spc g)) -> fat32_alloc_hint s' = c + 1 -> same_env s s' -> Q c s') ->
  wp P fat32_alloc_cluster Q s.
Proof.
  intros [(R & Hr & HF & Hm)] Hh start HN HS. pose proof (r_geo_ok _ _ _ Hr) as Hg. pose proof (geo32_order g Hg) as Ho. pose proof (r_geo _ _ _ Hr) as Hgeo.
  unfold fat32_alloc_cluster. apply wp_bind, wp_gets, wp_bind, wp_gets. rewrite (r_bps _ _ _ Hr). change (SECTOR_SIZE <? 512) with false. cbv iota. change (512 / 4) with 128.
  replace (FATSz32 (bpb s)) with (q_fatsz g) by (by rewrite <-Hgeo). fold (q_entries g). rewrite (u32_small (q_entries g)) by (unfold is_u32; lia). fold (search_start (fat32_alloc_hint s)). fold start.
  assert (3 <= start < q_entries g) as Hst by (unfold start, search_start; bdestr; simpl; lia). unfold udiv, umod. cbn [Z.eqb].
  apply wp_bind, wp_ret, wp_bind, wp_ret. set (a := start / 128). set (i := start mod 128). assert (start = 128 * a + i /\ 0 <= i < 128 /\ 0 <= a) as (Es & Hi & Ha) by (unfold a, i; word_lia).
  assert (a < q_fatsz g) as Haf by (unfold q_entries in Hst; lia). set (start_i := fun x => if x =? 0 then 3 else 0). assert (forall x, 0 <= start_i x <= 3) as Hsi by (intros x; unfold start_i; bdestr; lia).
  set (first := fun x => if (x =? a) && (start_i x <? i) then i else start_i x).
  assert (forall c, start <= c -> first (c / 128) <= c mod 128) as Hfirst.
  { intros c Hc. unfold first, start_i. assert (0 <= c mod 128 < 128) by (apply Z.mod_pos_bound; lia). assert (c / 128 = a -> i <= c mod 128) by word_lia. assert (c / 128 = 0 -> 3 <= c mod 128) by word_lia. bdestr; simpl; try lia. }
  assert (forall c, 128 * a <= c -> first (c / 128) <= c mod 128 -> start <= c) as Hfirst'.
  { intros c Hc Hfc. destruct (decide (c / 128 = a)) as [E|E]; [|word_lia]. unfold first in Hfc. rewrite E, Z.eqb_refl in Hfc. cbn [andb] in Hfc.
    assert (i <= c mod 128) by (bdestr; lia). word_lia. }
  assert (forall c, 3 <= c -> start_i (c / 128) <= c mod 128) as Hsi2 by (intros c Hc; unfold start_i; bdestr; word_lia).
  assert (forall c, start_i (c / 128) <= c mod 128 -> 0 <= c -> 3 <= c) as Hsi3 by (intros c Hc H0'; unfold start_i in Hc; destruct (Z.eqb_spec (c / 128) 0); word_lia).
  assert (128 * a = 128 * (start / 128)) as Eb by done.
  apply wp_bind. eapply (wp_alloc_pass P first); [exact Hr|done|lia| | | |].
  { intros x. unfold first. specialize (Hsi x). bdestr; simpl; lia. } { unfold first, start_i. bdestr; simpl; lia. }
  - intros s1 Hr1 He1 Hall1. apply wp_bind. eapply (wp_alloc_pass P start_i); [exact Hr1|lia|lia| |done| |].
    { intros x. specialize (Hsi x). lia. }
    + intros s2 Hr2 He2 Hall2. apply wp_ret. apply HN; [split; by exists R|by eapply same_hint_trans|]. split.
      * intros c Hc. rewrite <-HF by lia. apply Hall1; [unfold q_entries in *; lia|apply Hfirst; lia].
      * intros c Hc. rewrite <-HF by (unfold q_entries in *; lia). apply Hall2; [lia|apply Hsi2; lia].
    + intros c s2 Hc Hfc Hz Hb H2 Ht. apply wp_ret. cbn [default from_option id]. assert (3 <= c < q_entries g) as Hcr by (split; [apply Hsi3; [done|lia]|unfold q_entries in *; lia]).
      destruct (taken_vol s1 R F m c s2) as (Hv2 & Hh2 & He2); [unfold cluster_ok; lia|done|done|done|done|].
      apply HS; [|done|done|destruct He1 as [He1 _]; by eapply same32_trans]. constructor; [done|by rewrite <-HF by lia|intros; lia|].
      intros _. split_and!; [lia| |]; intros c' Hc'; rewrite <-HF by lia; [apply Hall1; [unfold q_entries in *; lia|apply Hfirst; lia]|apply Hb; [lia|apply Hsi2; lia]].
  - intros c s1 Hc Hfc Hz Hb H2 Ht. apply wp_ret. assert (start <= c) as Hsc by (apply Hfirst'; [lia|done]). assert (c < q_entries g) as Hce by (unfold q_entries in *; lia).
    destruct (taken_vol s R F m c s1) as (Hv2 & Hh2 & He2); [unfold cluster_ok; lia|done|done|done|done|].
    apply HS; [|done|done|done]. constructor; [lia|by rewrite <-HF by lia| |lia]. intros _ c' Hc'. rewrite <-HF by lia. apply Hb; [lia|apply Hfirst; lia].
Qed.
End alloc.
