(* ===== verification/Fat32File.v ===== *)
(** * FAT32: the contents of files

    Reading along the links of the table gives the bytes of the clusters in order; writing a file
    puts its bytes into its first cluster and into new clusters linked behind it. *)
From S2P Require Import Prelude BlockDev Fat16Name Fat16Vol Fat16Chain Fat16Write Fat16File Fat32Name Fat32 Fat32Vol Fat32Alloc.
Import Fat16Name Fat32Name Fat32.

Section file.
Context {D : Type} `{BlockDevOk D} `{Buffers D} (g : geo).
Implicit Types s : @fat32 D.

Definition cluster_size : Z := 512 * q_spc g.
Definition cluster_bytes (m : Z -> list Z) (c : Z) : list Z := sec_run m (cluster_lba g c) (Z.to_nat (q_spc g)).
Definition chain_bytes (m : Z -> list Z) (cs : list Z) : list Z := cs ≫= cluster_bytes m.
(** The clusters cs follow each other from c on; what comes after the last does not matter. *)
Fixpoint links (F : Z -> Z) (c : Z) (cs : list Z) : Prop :=
  match cs with
  | [] => True
  | x :: cs' => x = c /\ cluster_ok g c /\ links F (F c) cs'
  end.

Lemma cluster32_lba_disjoint c d x : geo_ok g -> cluster_lba g c <= x < cluster_lba g c + q_spc g -> cluster_lba g d <= x < cluster_lba g d + q_spc g -> c = d.
Proof. intros Hg Hx Hy. pose proof (qo_spc g Hg). unfold cluster_lba in *. nia. Qed.
Lemma cluster32_size_pos : geo_ok g -> 512 <= cluster_size.
Proof. intros Hg. pose proof (qo_spc g Hg). unfold cluster_size. lia. Qed.
Lemma cluster32_bytes_length s F m c : vol g s F m -> cluster_ok g c -> Z.of_nat (length (cluster_bytes m c)) = cluster_size.
Proof.
  intros Hv Hc. pose proof (vol32_geo_ok _ _ _ _ Hv) as Hg. pose proof (cluster32_in g c Hg Hc). pose proof (geo32_order g Hg). pose proof (qo_spc g Hg).
  unfold cluster_bytes. rewrite sec_run_length; [unfold cluster_size; lia|]. intros y Hy. apply (vol32_sector g s F m y Hv). lia.
Qed.
Lemma links_ok F c cs : links F c cs -> Forall (cluster_ok g) cs.
Proof. revert c. induction cs as [|x cs IH]; intros c Hl; [constructor|]. destruct Hl as (-> & Hok & Hl). constructor; [done|by eapply IH]. Qed.
Lemma links_below F c cs : geo_ok g -> links F c cs -> cs <> [] -> cluster_ok g c /\ c < FAT32_EOC.
Proof.
  intros Hg Hl Hne. destruct cs as [|x cs]; [done|]. destruct Hl as (_ & Hok & _). split; [done|]. pose proof (qo_entries g Hg). unfold cluster_ok, FAT32_EOC in *. lia.
Qed.
Lemma chain32_bytes_length s F m cs : vol g s F m -> Forall (cluster_ok g) cs -> Z.of_nat (length (chain_bytes m cs)) = cluster_size * Z.of_nat (length cs).
Proof.
  intros Hv. induction 1 as [|c cs Hc _ IH]; [simpl; lia|]. change (chain_bytes m (c :: cs)) with (cluster_bytes m c ++ chain_bytes m cs).
  rewrite length_app, Nat2Z.inj_add, IH, (cluster32_bytes_length s F m c Hv Hc). simpl length. lia.
Qed.

(** ** Reading *)

Lemma wp_read_run P k : forall s F m x (Q : list Z -> fat32 -> Prop), vol g s F m -> q_data g <= x -> x + Z.of_nat k <= q_end g ->
  (forall s', vol g s' F m -> same_hint s s' -> Q (sec_run m x k) s') -> wp P (read_cluster_loop k x) Q s.
Proof.
  induction k as [|k IH]; intros s F m x Q Hv Hx Hl HQ; cbn [read_cluster_loop sec_run]; [by apply wp_ret, HQ|].
  pose proof (geo32_order g (vol32_geo_ok _ _ _ _ Hv)). rewrite u32_small by (unfold is_u32; lia).
  apply wp_bind. eapply wp_read_data32; [exact Hv|lia|]. intros s1 Hv1 He1. apply wp_bind. eapply IH; [exact Hv1|lia|lia|].
  intros s2 Hv2 He2. apply wp_ret, HQ; [done|by eapply same_hint_trans].
Qed.
Lemma chain32_bytes_cons m c cs intra n : Z.of_nat (length (cluster_bytes m c)) = cluster_size -> 0 <= intra < cluster_size -> 0 <= n ->
  let copy := Z.min n (cluster_size - intra) in
  take (Z.to_nat n) (drop (Z.to_nat intra) (chain_bytes m (c :: cs))) =
  take (Z.to_nat copy) (drop (Z.to_nat intra) (cluster_bytes m c)) ++ take (Z.to_nat (n - copy)) (chain_bytes m cs).
Proof.
  intros Hl Hi Hn copy. change (chain_bytes m (c :: cs)) with (cluster_bytes m c ++ chain_bytes m cs).
  rewrite drop_app_le by lia. rewrite take_app. rewrite length_drop. f_equal; [|f_equal; unfold copy; lia].
  unfold copy. destruct (Z.min_spec n (cluster_size - intra)) as [[Hm ->]|[Hm ->]]; [done|].
  rewrite !take_ge by (rewrite length_drop; lia). done.
Qed.
Lemma wp_range32 P fuel : forall s F m c cs skip size out (Q : list Z -> fat32 -> Prop), vol g s F m -> links F c cs ->
  0 <= skip < cluster_size -> let n := size - Z.of_nat (length out) in
  0 <= n -> (n = 0 \/ skip + n <= cluster_size * Z.of_nat (length cs)) -> n < Z.of_nat fuel ->
  (forall s', vol g s' F m -> same_hint s s' -> Q (out ++ take (Z.to_nat n) (drop (Z.to_nat skip) (chain_bytes m cs))) s') ->
  wp P (range_loop fuel c cluster_size skip size out) Q s.
Proof.
  induction fuel as [|fuel IH]; intros s F m c cs skip size out Q Hv Hl Hi n Hn Hle Hfu HQ; [lia|]. cbn [range_loop].
  destruct (decide (n = 0)) as [Hn0|Hn0].
  { rewrite (proj2 (Z.ltb_ge _ _)) by (unfold n in *; lia). cbn [negb orb]. apply wp_ret.
    rewrite Hn0, Z2Nat.inj_0, take_0, app_nil_r in HQ. by apply HQ. }
  destruct Hle as [|Hle]; [lia|]. pose proof (vol32_geo_ok _ _ _ _ Hv) as Hg. destruct cs as [|x cs']; [simpl in Hle; lia|].
  destruct (links_below F c (x :: cs') Hg Hl ltac:(done)) as [Hok Hc]. destruct Hl as (-> & _ & Hl').
  rewrite (proj2 (Z.ltb_lt c FAT32_EOC)), (proj2 (Z.ltb_lt _ size)) by (unfold n in *; lia). cbn [negb orb].
  pose proof (cluster32_in g c Hg Hok). pose proof (qo_spc g Hg). pose proof (cluster32_bytes_length s F m c Hv Hok) as Hcl.
  apply wp_bind. eapply wp_lba32; [exact Hv|done|]. apply wp_bind. eapply wp_spc; [exact Hv|]. apply wp_bind. eapply wp_read_run; [exact Hv|lia|lia|]. intros s1 Hv1 He1.
  fold (cluster_bytes m c). fold n.
  replace (if n <? cluster_size - skip then n else cluster_size - skip) with (Z.min n (cluster_size - skip)) by (bdestr; lia).
  set (copy := Z.min n (cluster_size - skip)). rewrite slice_in by (unfold copy; lia). apply wp_bind, wp_lift_some, wp_bind. rewrite next_get.
  eapply wp_next; [exact Hv1|unfold cluster_ok in Hok; lia|]. intros s2 Hv2 He2.
  set (b := take (Z.to_nat copy) (drop (Z.to_nat skip) (cluster_bytes m c))).
  assert (Z.of_nat (length (out ++ b)) = Z.of_nat (length out) + copy) as Elen.
  { unfold b. rewrite length_app, length_take, length_drop. unfold copy. lia. }
  eapply (IH s2 F m (F c) cs' 0 size (out ++ b)); [done|done|lia|unfold copy in *; lia| |unfold copy in *; lia|].
  - destruct (decide (n - copy = 0)); [left; lia|right]. rewrite length_cons in Hle. unfold copy in *. lia.
  - intros s' Hv' He'. replace (size - Z.of_nat (length (out ++ b))) with (n - copy) by (unfold n; lia).
    rewrite <-app_assoc, drop_0. unfold b, copy. rewrite <-chain32_bytes_cons by (done || lia). apply HQ; [done|].
    eapply same_hint_trans; [exact He1|]. by eapply same_hint_trans.
Qed.
Lemma wp_skip32 P fuel : forall s F m c cs skip (Q : option (Z * Z) -> fat32 -> Prop), vol g s F m -> links F c cs ->
  0 <= skip < cluster_size * Z.of_nat (length cs) -> skip < Z.of_nat fuel ->
  (forall s' c', vol g s' F m -> same_hint s s' -> links F c' (drop (Z.to_nat (skip / cluster_size)) cs) -> Q (Some (c', skip mod cluster_size)) s') ->
  wp P (skip_loop fuel c cluster_size skip) Q s.
Proof.
  induction fuel as [|fuel IH]; intros s F m c cs skip Q Hv Hl Hs Hfu HQ; [lia|]. cbn [skip_loop].
  pose proof (vol32_geo_ok _ _ _ _ Hv) as Hg. pose proof (cluster32_size_pos Hg) as Hcs.
  apply wp_if; intros Hb; [apply negb_true_iff, Z.leb_gt in Hb|apply negb_false_iff, Z.leb_le in Hb].
  { apply wp_ret. rewrite Z.div_small, Z.mod_small in HQ by lia. by apply HQ. }
  destruct cs as [|x cs']; [simpl in Hs; lia|]. destruct (links_below F c (x :: cs') Hg Hl ltac:(done)) as [Hok Hc]. destruct Hl as (-> & _ & Hl').
  cbn [length] in Hs. assert (skip - cluster_size < cluster_size * Z.of_nat (length cs')) as Hs' by lia.
  apply wp_bind. rewrite next_get. eapply wp_next; [exact Hv|unfold cluster_ok in Hok; lia|]. intros s1 Hv1 He1.
  assert (cs' <> []) as Hne by (intros ->; simpl in Hs'; lia). destruct (links_below F (F c) cs' Hg Hl' Hne) as [_ Hc'].
  rewrite (proj2 (Z.leb_gt _ _)) by done. eapply IH; [exact Hv1|exact Hl'|lia|lia|].
  assert (skip = (skip - cluster_size) + 1 * cluster_size) as Es by lia. rewrite Es, Z.div_add, Z.mod_add in HQ by lia.
  intros s' c' Hv' He' Hc2. apply HQ; [done|by eapply same_hint_trans|].
  rewrite Z2Nat.inj_add by (try apply Z.div_pos; lia). change (Z.to_nat 1) with 1%nat. rewrite Nat.add_comm. exact Hc2.
Qed.
Lemma chain32_bytes_drop s F m cs q r : vol g s F m -> Forall (cluster_ok g) cs -> 0 <= q <= Z.of_nat (length cs) -> 0 <= r ->
  drop (Z.to_nat r) (chain_bytes m (drop (Z.to_nat q) cs)) = drop (Z.to_nat (q * cluster_size + r)) (chain_bytes m cs).
Proof.
  intros Hv Hok Hq Hr. pose proof (cluster32_size_pos (vol32_geo_ok _ _ _ _ Hv)) as Hcs.
  rewrite <-(take_drop (Z.to_nat q) cs) at 2. unfold chain_bytes. rewrite bind_app. fold (chain_bytes m (take (Z.to_nat q) cs)). fold (chain_bytes m (drop (Z.to_nat q) cs)).
  assert (Z.of_nat (length (chain_bytes m (take (Z.to_nat q) cs))) = q * cluster_size) as El.
  { rewrite (chain32_bytes_length s F m) by (done || by apply Forall_take). rewrite length_take, Nat.min_l, Z2Nat.id by lia. lia. }
  rewrite drop_app_ge by lia. f_equal. lia.
Qed.

(** The file e holds the bytes data in the clusters cs. *)
Record holds (F : Z -> Z) (m : Z -> list Z) (e : FAT32_DirEntry) (cs data : list Z) : Prop := {
  h_links : links F (first_cluster e) cs;
  h_size : FileSize e = Z.of_nat (length data);
  h_room : Z.of_nat (length data) <= cluster_size * Z.of_nat (length cs);
  h_bytes : take (length data) (chain_bytes m cs) = data;
}.
Lemma vol32_dev s F m d' : vol g s F m -> dev_ok d' -> dev_sectors d' = dev_sectors (dev s) -> vol g (with_dev d' s) F m.
Proof. intros [(R & Hr & HF & Hm)] Hok Hd. split. exists R. split_and!; [by apply raw_dev|done|done]. Qed.

Context `{!BuffersOk D}.
Lemma wp_range32_holds P s F m e cs data off n p d (Q : option (list Z) -> fat32 -> Prop) : vol g s F m -> holds F m e cs data ->
  0 <= off < Z.of_nat (length data) -> 0 <= n -> off + n < 4294967296 -> kmalloc cluster_size (dev s) = Ok (p, d) ->
  (forall s', vol g s' F m -> Q (if p =? 0 then None else Some (take (Z.to_nat n) (drop (Z.to_nat off) data))) s') ->
  wp P (fat32_read_file_range e off n) Q s.
Proof.
  intros Hv Hh Ho Hn Hw Hk HQ. pose proof (vol32_geo_ok _ _ _ _ Hv) as Hg. pose proof (cluster32_size_pos Hg) as Hcs.
  pose proof Hh as [Hch Hsz Hroom Hb]. unfold fat32_read_file_range. rewrite Hsz, (proj2 (Z.leb_gt _ _)) by lia. rewrite u32_small by (unfold is_u32; lia).
  set (k := if _ <? off + n then _ else n). assert (k = Z.min n (Z.of_nat (length data) - off)) as Ek by (unfold k; bdestr; lia).
  pose proof Hv as [(R & Hr & _)]. apply wp_bind, wp_gets. rewrite (r_bps _ _ _ Hr). replace (SecPerClus (bpb s)) with (q_spc g) by (by rewrite <-(r_geo _ _ _ Hr)).
  replace (q_spc g * 512) with cluster_size by (unfold cluster_size; lia). change (512 =? SECTOR_SIZE) with true. cbn [negb].
  destruct (kmalloc_keeps (dev s) cluster_size (r_ok _ _ _ Hr)) as (p' & d' & E & Hd & Hds). rewrite Hk in E. injection E as <- <-.
  apply wp_bind, wp_fat32_dev. eapply wp_ok; [exact Hk|]. pose proof (vol32_dev s F m d Hv Hd Hds) as Hv0.
  apply wp_if; intros Hp; rewrite Hp in HQ; [by apply wp_ret, HQ|]. apply wp_bind.
  pose proof (Z.mod_pos_bound off cluster_size ltac:(lia)) as Hr2. pose proof (Z.div_mod off cluster_size ltac:(lia)) as Hdm.
  assert (0 <= off / cluster_size) as Hq by (apply Z.div_pos; lia). assert (off / cluster_size < Z.of_nat (length cs)) as Hql by (apply Z.div_lt_upper_bound; lia).
  eapply wp_skip32; [exact Hv0|exact Hch|lia|lia|]. intros s1 c' Hv1 He1 Hc'. apply wp_bind.
  eapply wp_range32; [exact Hv1|exact Hc'|done|simpl; lia| |simpl; lia|].
  { right. rewrite length_drop. simpl. nia. }
  intros s2 Hv2 He2. cbn [app length]. rewrite Z.sub_0_r. rewrite (chain32_bytes_drop s F m) by (done || (by eapply links_ok) || lia).
  replace (off / cluster_size * cluster_size + off mod cluster_size) with off by lia. pose proof Hv2 as [(R2 & Hr3 & _)].
  destruct (kfree_keeps (dev s2) p (r_ok _ _ _ Hr3)) as (d2 & Ef & Hd2 & Hds2).
  apply wp_bind, wp_fat32_dev. eapply wp_ok; [exact Ef|]. apply wp_ret.
  replace (take (Z.to_nat k) (drop (Z.to_nat off) (chain_bytes m cs))) with (take (Z.to_nat n) (drop (Z.to_nat off) data)); [by apply HQ, vol32_dev|].
  rewrite <-Hb at 1. rewrite skipn_firstn_comm, take_take. f_equal. lia.
Qed.
End file.
