(* ===== verification/Fat32Write.v ===== *)
(** * FAT32: writing files

    Each cluster of data is written into the first cluster of the file and then into clusters that
    the allocator hands out; the links make them a chain.  The loop of fat32_rm
    clears the entries of a chain and the sectors of its clusters; it ends on every table whose links
    stay inside it, one with a cycle included. *)
From S2P Require Import Prelude BlockDev Fat16Name Fat16Vol Fat16Chain Fat16Write Fat16Dir Fat32Name Fat32 Fat32Vol Fat32Alloc Fat32File.
Import Fat16Name Fat32Name Fat32.

Section write.
Context {D : Type} `{BlockDevOk D} `{Buffers D} (g : geo).
Implicit Types s : @fat32 D.

Lemma wp_write32_cluster P s F m x chunk n (Q : unit -> fat32 -> Prop) : vol g s F m -> q_data g <= x -> x + q_spc g <= q_end g ->
  Forall is_u8 chunk -> 0 < n <= cluster_size g -> n <= Z.of_nat (length chunk) ->
  (forall s' m', vol g s' F m' -> (forall y, y < x \/ x + q_spc g <= y -> m' y = m y) ->
     take (Z.to_nat n) (sec_run m' x (Z.to_nat (q_spc g))) = take (Z.to_nat n) chunk -> same_hint s s' -> Q tt s') ->
  wp P (write_cluster_data x chunk n) Q s.
Proof.
  intros Hv Hx Hl Hu Hn Hlen HQ. pose proof (vol32_geo_ok _ _ _ _ Hv) as Hg. pose proof (geo32_order g Hg) as Hord. pose proof (qo_spc g Hg) as Hspc.
  unfold write_cluster_data, SECTOR_SIZE, cluster_size in *. set (full := n / 512). set (tail := n mod 512).
  assert (n = 512 * full + tail /\ 0 <= tail < 512 /\ 0 <= full) as (En & Ht & Hf) by (unfold full, tail; word_lia). clearbody full tail.
  set (fb := take (Z.to_nat (full * 512)) chunk). assert (length fb = (Z.to_nat full * 512)%nat) as Hfb by (unfold fb; rewrite length_take; lia).
  set (m1 := put_data m x (Z.to_nat full) fb).
  assert (forall (Q1 : unit -> fat32 -> Prop), (forall s', vol g s' F m1 -> same_hint s s' -> Q1 tt s') ->
    wp P (if 0 <? full then b <- lift_opt (slice chunk 0 (full * 512));; write_drive x (u16 full) b;;; ret tt else ret tt) Q1 s) as Hfull.
  { intros Q1 HQ1. destruct (Z.ltb_spec 0 full) as [Hp|Hz].
    - rewrite slice_in by lia. change (drop (Z.to_nat 0) chunk) with chunk. fold fb. apply wp_bind, wp_lift_some, wp_bind.
      replace (u16 full) with (Z.of_nat (Z.to_nat full)) by (unfold u16; rewrite Z.mod_small; lia).
      eapply wp_write_data32; [exact Hv|lia|lia|lia|lia|by apply Forall_take|]. intros s' Hv' He. by apply wp_ret, HQ1.
    - apply wp_ret, HQ1; [|done]. eapply vol32_ext; [exact Hv|done|]. intros y _. unfold m1, put_data. by rewrite decide_False by lia. }
  apply wp_bind, Hfull. intros s1 Hv1 He1. destruct (Z.ltb_spec 0 tail) as [Hp|Hz].
  - rewrite slice_in by lia. apply wp_bind, wp_lift_some. set (tb := take (Z.to_nat tail) (drop (Z.to_nat (full * 512)) chunk)).
    assert (length tb = Z.to_nat tail) as Htb by (unfold tb; rewrite length_take, length_drop; lia).
    rewrite u32_small by (unfold is_u32; lia). apply wp_bind. apply (wp_write_data32 P g s1 F m1 (x + full) 1); [done|lia|lia|lia| | |].
    { rewrite length_app. unfold zeros. rewrite length_replicate. lia. }
    { apply Forall_app. split; [by apply Forall_take, Forall_drop|apply fat_zeros_u8]. }
    intros s2 Hv2 He2. eapply wp_ret, HQ; [exact Hv2| | |by eapply same_hint_trans].
    + intros y Hy. unfold put_data at 1. rewrite decide_False by lia. unfold m1, put_data. by rewrite decide_False by lia.
    + replace (Z.to_nat (q_spc g)) with (Z.to_nat full + (1 + (Z.to_nat (q_spc g) - Z.to_nat full - 1)))%nat by lia.
      rewrite !sec_run_app. rewrite (sec_run_ext m1) by (intros y Hy; unfold put_data at 1; by rewrite decide_False by lia).
      unfold m1 at 1. rewrite sec_run_put_all by lia. rewrite Z2Nat.id by lia. rewrite sec_run_put_all.
      2:{ rewrite length_app. unfold zeros. rewrite length_replicate. lia. }
      rewrite app_assoc, take_app_le by (rewrite length_app, length_app; lia). rewrite app_assoc, take_app_le by (rewrite length_app; lia).
      rewrite take_ge by (rewrite length_app; lia). unfold fb, tb. rewrite take_take_drop. f_equal. lia.
  - eapply wp_ret, HQ; [exact Hv1| | |done].
    + intros y Hy. unfold m1, put_data. by rewrite decide_False by lia.
    + replace (Z.to_nat (q_spc g)) with (Z.to_nat full + (Z.to_nat (q_spc g) - Z.to_nat full))%nat by lia.
      rewrite sec_run_app. unfold m1 at 1. rewrite sec_run_put_all by lia. rewrite take_app_le by lia. unfold fb.
      rewrite take_ge by (rewrite length_take; lia). f_equal. lia.
Qed.


(** ** A chain that grows *)

Definition in_clusters (cs : list Z) (x : Z) : Prop := exists c, c ∈ cs /\ cluster_lba g c <= x < cluster_lba g c + q_spc g.
(** The clusters that n bytes take *)
Definition clusters_for (n : Z) : Z := (n + cluster_size g - 1) / cluster_size g.
Lemma clusters32_step n : geo_ok g -> 0 < n ->
  1 <= clusters_for n /\ (cluster_size g < n -> clusters_for (n - cluster_size g) = clusters_for n - 1).
Proof.
  intros Hg Hn. pose proof (cluster32_size_pos g Hg). unfold clusters_for. split.
  - apply Z.div_le_lower_bound; lia.
  - intros Hc. replace (n + cluster_size g - 1) with (n - cluster_size g + cluster_size g - 1 + 1 * cluster_size g) by lia. rewrite Z.div_add by lia. lia.
Qed.
Lemma links_snoc F F' c0 pre c j : links g F c0 (pre ++ [c]) -> (forall x, x ∈ pre -> F' x = F x) -> F' c = j -> cluster_ok g j -> links g F' c0 ((pre ++ [c]) ++ [j]).
Proof.
  revert c0. induction pre as [|x pre IH]; intros c0 Hl He Hj Hok.
  - destruct Hl as (<- & Hc & _). cbn. rewrite Hj. done.
  - destruct Hl as (-> & Hc & Hl). cbn. split; [done|]. split; [done|]. rewrite He by (by left). apply IH; [done| |done|done]. intros y Hy. apply He. by right.
Qed.
Lemma cluster32_bytes_ext m m' c : (forall y, cluster_lba g c <= y < cluster_lba g c + q_spc g -> m' y = m y) -> cluster_bytes g m' c = cluster_bytes g m c.
Proof. intros He. apply sec_run_ext. intros y Hy. apply He. lia. Qed.
Lemma chain32_bytes_ext m m' cs ds : geo_ok g -> (forall x, x ∈ cs -> x ∉ ds) -> (forall y, ~ in_clusters ds y -> m' y = m y) -> chain_bytes g m' cs = chain_bytes g m cs.
Proof.
  intros Hg Hdis He. induction cs as [|c cs IH]; [done|]. unfold chain_bytes in *. rewrite !bind_cons, IH by (intros x Hx; apply Hdis; by right). f_equal.
  apply cluster32_bytes_ext. intros y Hy. apply He. intros (d & Hd & Hyd). apply (Hdis c); [by left|]. by rewrite (cluster32_lba_disjoint g c d y Hg Hy Hyd).
Qed.
Lemma wp_progress32 P s F m w (Q : unit -> fat32 -> Prop) : vol g s F m ->
  (forall s', vol g s' F m -> same_hint s s' -> Q tt s') -> wp P (fscmd_write_progress_update w) Q s.
Proof.
  intros [(R & [? ? ? ? ?] & HF & Hm)] HQ. apply wp_modify, HQ; [|done]. split. exists R. split_and!; [by constructor|done|done].
Qed.

Lemma in_clusters32_cons c cs y : ~ in_clusters (c :: cs) y -> (y < cluster_lba g c \/ cluster_lba g c + q_spc g <= y) /\ ~ in_clusters cs y.
Proof.
  intros Hn. split.
  - destruct (decide (y < cluster_lba g c \/ cluster_lba g c + q_spc g <= y)) as [|Hd]; [done|]. exfalso. apply Hn. exists c. split; [by left|lia].
  - intros (d & Hd & Hy). apply Hn. exists d. split; [by right|done].
Qed.

Section chain.
Variable data : list Z.
Let size := Z.of_nat (length data).
Hypothesis Hdata : Forall is_u8 data.

(** The first part of the data lies in pre, the cluster c comes next. *)
Record progressing (F : Z -> Z) (m : Z -> list Z) (c0 : Z) (pre : list Z) (c remaining : Z) : Prop := {
  p_links : links g F c0 (pre ++ [c]);
  p_nodup : NoDup (pre ++ [c]);
  p_used : Forall (fun x => F x <> 0) (pre ++ [c]);
  p_count : size - remaining = cluster_size g * Z.of_nat (length pre);
  p_bytes : chain_bytes g m pre = take (Z.to_nat (size - remaining)) data;
}.
(** What the write leaves: the data in pre, c and new clusters ns, everything else as before *)
Record chain_written (F : Z -> Z) (m : Z -> list Z) (F' : Z -> Z) (m' : Z -> list Z) (c0 : Z) (pre : list Z) (c : Z) (ns : list Z) : Prop := {
  w_links : links g F' c0 (pre ++ c :: ns);
  w_room : size <= cluster_size g * Z.of_nat (length (pre ++ c :: ns));
  w_bytes : take (length data) (chain_bytes g m' (pre ++ c :: ns)) = data;
  w_new : Forall (fun x => cluster_ok g x /\ F x = 0) ns;
  w_table : forall x, x ∉ c :: ns -> F' x = F x;
  w_data : forall y, ~ in_clusters (c :: ns) y -> m' y = m y;
}.

(** The last cluster *)
Lemma written_last s F m m1 c0 pre c remaining : vol g s F m1 -> progressing F m c0 pre c remaining -> 0 < remaining <= cluster_size g -> remaining <= size ->
  (forall y, y < cluster_lba g c \/ cluster_lba g c + q_spc g <= y -> m1 y = m y) ->
  take (Z.to_nat remaining) (cluster_bytes g m1 c) = take (Z.to_nat remaining) (drop (Z.to_nat (size - remaining)) data) ->
  chain_written F m F m1 c0 pre c [].
Proof.
  intros Hv [Hl Hnd Hu Hc Hb] Hr Hrs Hm1 Ht. pose proof (vol32_geo_ok _ _ _ _ Hv) as Hg. apply list.NoDup_app in Hnd as (_ & Hdis & _).
  assert (chain_bytes g m1 pre = chain_bytes g m pre) as Epre.
  { apply (chain32_bytes_ext _ _ _ [c] Hg Hdis). intros y [Hy _]%in_clusters32_cons. by apply Hm1. }
  constructor; [done|rewrite length_app; simpl; lia| |done|done|intros y [Hy _]%in_clusters32_cons; by apply Hm1].
  unfold chain_bytes. rewrite bind_app. fold (chain_bytes g m1 pre). rewrite Epre, Hb. rewrite bind_cons. cbn [mbind list_bind]. rewrite app_nil_r.
  rewrite take_app. rewrite take_take, Nat.min_r by lia. rewrite length_take.
  replace (length data - Z.to_nat (size - remaining) `min` length data)%nat with (Z.to_nat remaining) by (unfold size in *; lia).
  rewrite Ht. rewrite (take_ge (drop _ _)) by (rewrite length_drop; unfold size in *; lia). apply take_drop.
Qed.

(** One cluster more: c is full, j was free and is linked behind it. *)
Lemma progressing_step s F m m1 c0 pre c remaining j : let F2 := upd (upd F j MASK) c j in let m2 := zeroed m1 (cluster_lba g j) (q_spc g) in
  vol g s F m1 -> progressing F m c0 pre c remaining -> cluster_size g < remaining -> cluster_ok g j -> F j = 0 ->
  (forall y, y < cluster_lba g c \/ cluster_lba g c + q_spc g <= y -> m1 y = m y) ->
  take (Z.to_nat (cluster_size g)) (cluster_bytes g m1 c) = take (Z.to_nat (cluster_size g)) (drop (Z.to_nat (size - remaining)) data) ->
  progressing F2 m2 c0 (pre ++ [c]) j (remaining - cluster_size g).
Proof.
  intros F2 m2 Hv [Hl Hnd Hu Hc Hb] Hr Hj HFj Hm1 Ht. pose proof (vol32_geo_ok _ _ _ _ Hv) as Hg. pose proof (cluster32_size_pos g Hg).
  pose proof (links_ok g _ _ _ Hl) as Hok. apply Forall_app in Hok as [_ [Hcok _]%list.Forall_cons].
  assert (forall x, x ∈ pre ++ [c] -> x <> j) as Hxj by (rewrite list.Forall_forall in Hu; intros x Hx ->; by apply (Hu j Hx)).
  pose proof Hnd as (_ & Hdis & _)%list.NoDup_app. assert (forall x, x ∈ pre -> x <> c) as Hxc by (intros x Hx ->; apply (Hdis c Hx); by left).
  assert (c <> j) as Hcj by (apply Hxj, elem_of_app; right; by left).
  assert (forall x, x ∈ pre -> F2 x = F x) as HF2.
  { intros x Hx. unfold F2. rewrite !upd_ne; [done| |by apply Hxc]. apply Hxj, elem_of_app. by left. }
  assert (cluster_bytes g m2 c = cluster_bytes g m1 c) as Ec2.
  { apply cluster32_bytes_ext. intros y Hy. unfold m2, zeroed. rewrite decide_False; [done|]. intros Hy2. apply Hcj. by eapply cluster32_lba_disjoint. }
  assert (chain_bytes g m2 pre = chain_bytes g m pre) as Epre.
  { apply (chain32_bytes_ext _ _ _ [c; j] Hg).
    - intros x Hx [->|Hin]%elem_of_cons; [by apply (Hxc c Hx)|]. apply list_elem_of_singleton in Hin as ->. apply (Hxj j); [apply elem_of_app; by left|done].
    - intros y [Hy [Hy2 _]%in_clusters32_cons]%in_clusters32_cons. unfold m2, zeroed. rewrite decide_False by lia. by apply Hm1. }
  constructor.
  - eapply links_snoc; [exact Hl|exact HF2|unfold F2; by rewrite upd_eq|done].
  - apply list.NoDup_app. split; [done|]. split; [|apply NoDup_singleton]. intros x Hx ->%list_elem_of_singleton. by apply (Hxj j Hx).
  - rewrite !Forall_app. apply Forall_app in Hu as [Hu _]. split_and!.
    + apply list.Forall_forall. intros x Hx. rewrite HF2 by done. rewrite list.Forall_forall in Hu. by apply Hu.
    + constructor; [|constructor]. unfold F2. rewrite upd_eq. unfold cluster_ok in Hj. lia.
    + constructor; [|constructor]. unfold F2. rewrite upd_ne, upd_eq by done. done.
  - rewrite length_app. simpl. lia.
  - unfold chain_bytes. rewrite bind_app. fold (chain_bytes g m2 pre). rewrite Epre, Hb, bind_cons. cbn [mbind list_bind]. rewrite app_nil_r, Ec2.
    rewrite <-(take_ge (cluster_bytes g m1 c) (Z.to_nat (cluster_size g))) by (pose proof (cluster32_bytes_length g s F m1 c Hv Hcok); lia). rewrite Ht.
    rewrite take_take_drop. f_equal. lia.
Qed.

Lemma chain_written_cons F m m1 m' F' c0 pre c j ns : let F2 := upd (upd F j MASK) c j in let m2 := zeroed m1 (cluster_lba g j) (q_spc g) in
  F j = 0 -> F c <> 0 -> cluster_ok g j -> (forall y, y < cluster_lba g c \/ cluster_lba g c + q_spc g <= y -> m1 y = m y) ->
  chain_written F2 m2 F' m' c0 (pre ++ [c]) j ns -> chain_written F m F' m' c0 pre c (j :: ns).
Proof.
  intros F2 m2 HFj HFc Hj Hm1 [Hl Hr Hb Hn Ht Hd]. rewrite <-app_assoc in Hl, Hr, Hb. assert (c <> j) as Hcj by (intros ->; done). constructor; [done|done|done| | |].
  - constructor; [done|]. eapply list.Forall_impl; [exact Hn|]. intros x [Hx HF2]. split; [done|]. unfold F2, upd in HF2. repeat case_decide; subst; [unfold cluster_ok in Hj; lia|done|done].
  - intros x [Hxc Hx]%not_elem_of_cons. rewrite Ht by done. unfold F2. apply not_elem_of_cons in Hx as [Hxj _]. by rewrite !upd_ne.
  - intros y [Hy Hy2]%in_clusters32_cons. rewrite Hd by done. apply in_clusters32_cons in Hy2 as [Hy2 _]. unfold m2, zeroed. rewrite decide_False by lia. by apply Hm1.
Qed.

Lemma wp_write32_chain P fuel : forall s F m c0 pre c remaining av (Q : bool -> fat32 -> Prop), vol g s F m -> progressing F m c0 pre c remaining ->
  0 < remaining <= size -> remaining + 1 < Z.of_nat fuel -> 3 <= fat32_alloc_hint s ->
  NoDup av -> Forall (fun x => fat32_alloc_hint s <= x < q_entries g /\ F x = 0) av -> clusters_for remaining - 1 <= Z.of_nat (length av) ->
  (forall s' F' m' ns, vol g s' F' m' -> chain_written F m F' m' c0 pre c ns -> same_env s s' -> Q true s') ->
  wp P (write_chain fuel data size remaining c) Q s.
Proof.
  induction fuel as [|fuel IH]; intros s F m c0 pre c remaining av Q Hv Hp Hr Hfu Hh Hnd Hav Hcnt HQ; [lia|]. cbn [write_chain].
  pose proof (vol32_geo_ok _ _ _ _ Hv) as Hg. pose proof (geo32_order g Hg) as Ho. pose proof (cluster32_size_pos g Hg) as Hcs. pose proof (qo_spc g Hg).
  pose proof (links_ok g _ _ _ (p_links _ _ _ _ _ _ Hp)) as Hok. apply Forall_app in Hok as [_ [Hcok _]%list.Forall_cons].
  assert (F c <> 0) as HFc by (pose proof (p_used _ _ _ _ _ _ Hp) as [_ [? _]%list.Forall_cons]%Forall_app; done). pose proof (cluster32_in g c Hg Hcok) as Hin.
  rewrite (proj2 (Z.ltb_lt 0 remaining)), (proj2 (Z.ltb_lt c FAT32_EOC)) by (unfold cluster_ok, FAT32_EOC in *; lia). cbn [negb orb].
  apply wp_bind. eapply wp_lba32; [exact Hv|done|]. apply wp_bind. eapply wp_spc; [exact Hv|]. unfold SECTOR_SIZE. replace (q_spc g * 512) with (cluster_size g) by (unfold cluster_size; lia).
  set (tocpy := if cluster_size g <? remaining then _ else _). assert (tocpy = Z.min (cluster_size g) remaining) as Et by (unfold tocpy; bdestr; lia). clearbody tocpy.
  apply wp_bind. eapply (wp_write32_cluster P s F m); [exact Hv|lia|lia|by apply Forall_drop|lia|rewrite length_drop; unfold size in *; lia|]. intros s1 m1 Hv1 Hm1 Ht He1.
  apply wp_bind. eapply wp_progress32; [exact Hv1|]. intros s2 Hv2 He2. pose proof (same_hint_trans _ _ _ He1 He2) as [He12 Hh12]. fold (cluster_bytes g m1 c) in Ht.
  destruct (Z.ltb_spec 0 (remaining - tocpy)) as [Hmore|Hend].
  - assert (tocpy = cluster_size g) as -> by lia. destruct (clusters32_step remaining Hg ltac:(lia)) as [_ Hstep]. specialize (Hstep ltac:(lia)).
    destruct (clusters32_step (remaining - cluster_size g) Hg ltac:(lia)) as [Hone _].
    destruct av as [|a0 av0] eqn:Eav; [simpl in Hcnt; lia|]. rewrite <-Eav in *. assert (a0 ∈ av) as Ha0 by (rewrite Eav; by left).
    rewrite list.Forall_forall in Hav. pose proof (Hav a0 Ha0) as [Ha0r Ha0z].
    assert (search_start g (fat32_alloc_hint s2) = fat32_alloc_hint s) as Es by (rewrite Hh12; unfold search_start; bdestr; simpl; lia).
    apply wp_bind. eapply (wp_alloc g); [exact Hv2|lia| |]; rewrite Es.
    { intros s' _ _ [Hno _]. exfalso. by apply (Hno a0). }
    intros j s3 Hfo Hv3 Hh3 He3. pose proof Hfo as [Hjr Hjz Hup Hwrap]. assert (fat32_alloc_hint s <= j) as Hjh.
    { destruct (decide (j < fat32_alloc_hint s)) as [Hlt|]; [|lia]. destruct (Hwrap Hlt) as (_ & Hno & _). exfalso. by apply (Hno a0). }
    rewrite (proj2 (Z.eqb_neq j 0)) by lia. apply wp_bind. eapply wp_put; [exact Hv3|unfold cluster_ok in Hcok; lia|lia|]. intros s4 Hv4 He4.
    assert (cluster_ok g j) as Hjok by (unfold cluster_ok; lia). pose proof He4 as [He4' Hh4].
    eapply (IH s4 _ _ c0 (pre ++ [c]) j (remaining - cluster_size g) (filter (fun x => x <> j) av)); [exact Hv4| |lia|lia|lia|by apply list.NoDup_filter| | |].
    + eapply progressing_step; [exact Hv1|exact Hp|lia|done|done|done|exact Ht].
    + apply list.Forall_forall. intros x [Hxj Hx]%list_elem_of_filter. destruct (Hav x Hx) as [Hxr Hxz]. split.
      * rewrite Hh4, Hh3. destruct (decide (x < j)) as [Hlt|]; [|lia]. exfalso. apply (Hup Hjh x); [lia|done].
      * rewrite !upd_ne; [done|done|]. intros ->. done.
    + rewrite Hstep. pose proof (filter_ne_length av j Hnd). lia.
    + intros s' F' m' ns Hv' Hw He'. eapply (HQ s' F' m' (j :: ns)); [done|by eapply chain_written_cons|].
      eapply same32_trans; [exact He12|]. eapply same32_trans; [exact He3|]. by eapply same32_trans.
  - assert (tocpy = remaining) as -> by lia. rewrite Z.sub_diag. destruct fuel as [|fuel]; [lia|]. cbn [write_chain Z.ltb negb orb]. change (0 <? 0) with false. cbn [negb orb].
    apply wp_ret, (HQ s2 F m1 []); [done| |done]. eapply written_last; [exact Hv1|exact Hp|lia|lia|exact Hm1|exact Ht].
Qed.
End chain.

(** ** Entries of directories *)

Definition entry_sized (e : FAT32_DirEntry) : Prop :=
  length (Name e) = 11%nat /\ length (de_time1 e) = 8%nat /\ length (de_time2 e) = 4%nat /\
  Forall is_u8 (Name e) /\ is_u8 (Attr e) /\ Forall is_u8 (de_time1 e) /\ Forall is_u8 (de_time2 e) /\ 0 <= FstClusHI e < 65536 /\ 0 <= FstClusLO e < 65536.
Lemma entry32_bytes e : entry_sized e -> length (entry_bytes e) = 32%nat /\ Forall is_u8 (entry_bytes e).
Proof.
  intros (H1' & H2' & H3' & H4' & H5' & H6' & H7' & _). unfold entry_bytes. split.
  - rewrite !length_app, H1', H2', H3'. done.
  - rewrite !Forall_app. split_and!; try done; [by apply list.Forall_singleton|apply bytes16_u8..|apply bytes32_u8].
Qed.
Lemma entry32_of_bytes e : entry_sized e -> is_u32 (FileSize e) -> entry_of (entry_bytes e) = e.
Proof.
  intros (H1' & H2' & H3' & _ & _ & _ & _ & H8' & H9') Hs. destruct e as [n a t1 hi t2 lo sz]. cbn [Name Attr de_time1 FstClusHI de_time2 FstClusLO FileSize] in *.
  unfold entry_of, entry_bytes. cbn [Name Attr de_time1 FstClusHI de_time2 FstClusLO FileSize].
  do 11 (destruct n as [|? n]; [done|]). destruct n; [|done]. do 8 (destruct t1 as [|? t1]; [done|]). destruct t1; [|done].
  do 4 (destruct t2 as [|? t2]; [done|]). destruct t2; [|done].
  unfold get16, get32. cbn -[u8 Z.shiftr Z.add Z.mul]. f_equal.
  - rewrite Z.shiftr_div_pow2 by lia. change (2 ^ 8) with 256. word_lia.
  - rewrite Z.shiftr_div_pow2 by lia. change (2 ^ 8) with 256. word_lia.
  - by apply le32_bytes32.
Qed.
Definition slot_lba (sl : FAT32_DirSlot) : Z := cluster_lba g (sl_cluster sl) + sl_sector sl.
Definition slot_in (sl : FAT32_DirSlot) : Prop := cluster_ok g (sl_cluster sl) /\ 0 <= sl_sector sl < q_spc g /\ (sl_index sl < 16)%nat.
Lemma wp_dir_write32 P s F m sl e (Q : unit -> fat32 -> Prop) : vol g s F m -> slot_in sl -> entry_sized e -> is_u32 (FileSize e) ->
  (forall s' b, vol g s' F (upd m (slot_lba sl) b) -> same_hint s s' ->
     (forall j, (j < 16)%nat -> entry_at b j = if decide (j = sl_index sl) then e else entry_at (m (slot_lba sl)) j) -> Q tt s') ->
  wp P (fat32_dir_write_raw sl (entry_bytes e)) Q s.
Proof.
  intros Hv (Hc & Hx & Hi) He Hsz HQ. pose proof (vol32_geo_ok _ _ _ _ Hv) as Hg. pose proof (geo32_order g Hg). pose proof (cluster32_in g _ Hg Hc).
  destruct (entry32_bytes e He) as [Hl Hu]. unfold fat32_dir_write_raw. apply wp_bind. eapply wp_lba32; [exact Hv|done|]. fold (slot_lba sl).
  assert (q_data g <= slot_lba sl < q_end g) as Hr by (unfold slot_lba; lia). rewrite u32_small by (unfold is_u32; lia).
  apply wp_bind. eapply wp_read_data32; [exact Hv|done|]. intros s1 Hv1 He1. rewrite take_ge by (unfold DIRENT; lia). pose proof (vol32_sector g s F m _ Hv Hr) as [Hsl Hsu].
  destruct (splice_in (m (slot_lba sl)) (Z.of_nat (DIRENT * sl_index sl)) (entry_bytes e)) as (b & Es & Hl' & _); [lia|unfold DIRENT; lia|].
  rewrite Es. apply wp_bind, wp_lift_some. unfold write_sector. apply wp_bind. change 1 with (Z.of_nat 1) at 1.
  eapply wp_write_data32; [exact Hv1|lia|lia|lia|lia|by eapply splice_u8, Es|]. intros s2 Hv2 He2. apply wp_ret, (HQ s2 b).
  - eapply vol32_ext; [exact Hv2|done|]. intros y Hy. unfold put_data, upd. repeat case_decide; try lia; [|done]. subst. rewrite Z.sub_diag.
    change (512 * Z.to_nat 0)%nat with 0%nat. by rewrite drop_0, take_ge by lia.
  - by eapply same_hint_trans.
  - intros j Hj. unfold entry_at. rewrite (raw_at_splice (m (slot_lba sl)) (sl_index sl) (entry_bytes e) b j) by (done || lia). case_decide; [by apply entry32_of_bytes|done].
Qed.

(** ** Overwriting a file *)

Lemma holds32_kept F m F' m' e2 cs2 data2 ds x : geo_ok g -> holds g F m e2 cs2 data2 -> (forall c, c ∈ cs2 -> c ∉ ds /\ ~ (cluster_lba g c <= x < cluster_lba g c + q_spc g)) ->
  (forall c, c ∉ ds -> F' c = F c) -> (forall y, y <> x -> ~ in_clusters ds y -> m' y = m y) -> holds g F' m' e2 cs2 data2.
Proof.
  intros Hg [Hl Hs Hr Hb] Hap HF Hm. constructor; [|done|done|].
  - clear -Hl Hap HF. revert Hl. generalize (first_cluster e2). induction cs2 as [|c cs2 IH]; intros c1 Hl; [done|]. destruct Hl as (-> & Hok & Hl). cbn.
    split; [done|]. split; [done|]. rewrite HF by (apply Hap; by left). apply IH; [|done]. intros d Hd. apply Hap. by right.
  - rewrite <-Hb at 2. f_equal. clear -Hap Hm Hg. induction cs2 as [|c cs2 IH]; [done|]. unfold chain_bytes in *. rewrite !bind_cons. f_equal; [|apply IH; intros d Hd; apply Hap; by right].
    apply cluster32_bytes_ext. destruct (Hap c ltac:(by left)) as [Hnd Hx]. intros y Hy. apply Hm; [intros ->; done|].
    intros (d & Hd & Hyd). apply Hnd. by rewrite (cluster32_lba_disjoint g c d y Hg Hy Hyd).
Qed.
(** The file that an item names can be overwritten: its entry and its first cluster are in place. *)
Record writable (F : Z -> Z) (it : FAT32_DirItem) : Prop := {
  wr_slot : slot_in (it_slot it);
  wr_entry : entry_sized (it_entry it);
  wr_first : cluster_ok g (first_cluster (it_entry it)) /\ F (first_cluster (it_entry it)) <> 0;
  wr_dir : F (sl_cluster (it_slot it)) <> 0 /\ sl_cluster (it_slot it) <> first_cluster (it_entry it);
}.
Lemma wp_overwrite P s F m it data av (Q : bool -> fat32 -> Prop) : let size := Z.of_nat (length data) in let e' := set_size size (it_entry it) in let sl := it_slot it in
  vol g s F m -> writable F it -> Forall is_u8 data -> 0 < size < 4294967296 -> 3 <= fat32_alloc_hint s ->
  NoDup av -> Forall (fun x => fat32_alloc_hint s <= x < q_entries g /\ F x = 0) av -> clusters_for size - 1 <= Z.of_nat (length av) ->
  (forall s' F' m' ns, vol g s' F' m' -> same_env s s' -> holds g F' m' e' (first_cluster (it_entry it) :: ns) data ->
     (forall j, (j < 16)%nat -> entry_at (m' (slot_lba sl)) j = if decide (j = sl_index sl) then e' else entry_at (m (slot_lba sl)) j) ->
     Forall (fun x => cluster_ok g x /\ F x = 0) ns -> (forall c, c ∉ first_cluster (it_entry it) :: ns -> F' c = F c) ->
     (forall y, y <> slot_lba sl -> ~ in_clusters (first_cluster (it_entry it) :: ns) y -> m' y = m y) -> Q true s') ->
  wp P (overwrite_file it data size) Q s.
Proof.
  intros size e' sl Hv [Hsl He [Hc0 HF0] [Hd Hdc]] Hu Hs Hh Hnd Hav Hcnt HQ. pose proof (vol32_geo_ok _ _ _ _ Hv) as Hg. set (c0 := first_cluster (it_entry it)) in *.
  unfold overwrite_file. apply wp_bind. eapply (wp_write32_chain data Hu P _ s F m c0 [] c0 size av); [exact Hv| |fold size; lia|lia|done|done|done|done|].
  { constructor; cbn [app]; [done|apply NoDup_singleton|by apply list.Forall_singleton|fold size; simpl; lia|fold size; by rewrite Z.sub_diag]. }
  intros s1 F1 m1 ns Hv1 [Hl Hr Hb Hn Ht Hm] He1. cbn [app] in *. apply wp_bind. pose proof Hsl as (Hsc & Hsx & Hsi).
  assert (~ in_clusters (c0 :: ns) (slot_lba sl)) as Hout.
  { intros (d & Hdin & Hdr). assert (d = sl_cluster sl) as ->.
    { apply (cluster32_lba_disjoint g d (sl_cluster sl) (slot_lba sl) Hg Hdr). unfold slot_lba. fold sl in Hsx. lia. }
    apply elem_of_cons in Hdin as [E|Hin]; [by apply Hdc|]. rewrite list.Forall_forall in Hn. by destruct (Hn _ Hin). }
  eapply (wp_dir_write32 P s1 F1 m1 sl e'); [exact Hv1|done|done|cbn; unfold is_u32; lia|]. intros s2 b Hv2 [He2 _] Hat.
  apply wp_ret. eapply (HQ s2 F1 _ ns); [exact Hv2|by eapply same32_trans| |intros j Hj; rewrite upd_eq, Hat by done; by rewrite Hm by done|done|done|].
  - constructor; [done|done|done|]. rewrite <-Hb at 2. f_equal. clear -Hout Hg.
    assert (forall cs, (forall x, x ∈ cs -> x ∈ c0 :: ns) -> chain_bytes g (upd m1 (slot_lba sl) b) cs = chain_bytes g m1 cs) as Hgen; [|by apply Hgen].
    induction cs as [|c cs IH]; intros Hsub; [done|]. unfold chain_bytes in *. rewrite !bind_cons, IH by (intros x Hx; apply Hsub; by right). f_equal.
    apply cluster32_bytes_ext. intros y Hy. apply upd_ne. intros ->. apply Hout. exists c. split; [apply Hsub; by left|done].
  - intros y Hy Hny. rewrite upd_ne by done. by apply Hm.
Qed.
End write.

(** ** Freeing a chain *)

Section free.
Context {D : Type} `{BlockDevOk D} `{Buffers D} (g : geo).
Implicit Types s : @fat32 D.

Lemma wp_zero_sectors32 P k : forall s F m x (Q : unit -> fat32 -> Prop), vol g s F m -> q_data g <= x -> x + Z.of_nat k <= q_end g ->
  (forall s', vol g s' F (zeroed m x (Z.of_nat k)) -> same_hint s s' -> Q tt s') -> wp P (zero_sectors k x) Q s.
Proof.
  induction k as [|k IH]; intros s F m x Q Hv Hx Hl HQ; cbn [zero_sectors].
  { apply wp_ret, HQ; [|done]. eapply vol32_ext; [exact Hv|done|]. intros y _. unfold zeroed. by rewrite decide_False by lia. }
  pose proof (geo32_order g (vol32_geo_ok _ _ _ _ Hv)). rewrite u32_small by (unfold is_u32; lia). apply wp_bind. unfold write_sector. apply wp_bind. change 1 with (Z.of_nat 1) at 1.
  eapply wp_write_data32; [exact Hv|lia|lia|lia|done|apply fat_zeros_u8|]. intros s1 Hv1 He1. apply wp_ret. eapply IH; [exact Hv1|lia|lia|].
  intros s2 Hv2 He2. apply HQ; [|by eapply same_hint_trans]. eapply vol32_ext; [exact Hv2|done|]. intros y _. unfold zeroed, put_data. repeat case_decide; try lia; try done.
  replace (y - x) with 0 by lia. done.
Qed.

(** b is the cluster after a. *)
Definition linked32 (F : Z -> Z) (a b : Z) : Prop := in_chain a = true /\ b = F a.
(** The clusters V of the volume F, m are given back: their entries are 0, their sectors are zero. *)
Definition given_back (F : Z -> Z) (m : Z -> list Z) (V : list Z) s : Prop :=
  exists m', vol g s (zap F V) m' /\ (forall y, in_clusters g V y -> m' y = zeros 512) /\ (forall y, ~ in_clusters g V y -> m' y = m y).
(** V is on its way from start to c: closed under the links but for c, which comes next. *)
Record freeing (F : Z -> Z) (m : Z -> list Z) (start : Z) (V : list Z) (c : Z) s : Prop := {
  fr_vol : given_back F m V s;
  fr_nodup : NoDup V;
  fr_ok : Forall (cluster_ok g) V;
  fr_next : in_chain c = true -> cluster_ok g c /\ rtc (linked32 F) start c;
  fr_closed : forall x, x ∈ V -> in_chain (F x) = true -> F x ∈ V \/ F x = c;
  fr_reach : forall x, x ∈ V -> rtc (linked32 F) start x;
  fr_start : in_chain start = true -> start ∈ V \/ start = c;
}.
Lemma given_back_step F m V m' c s' : geo_ok g -> (forall y, in_clusters g V y -> m' y = zeros 512) -> (forall y, ~ in_clusters g V y -> m' y = m y) ->
  vol g s' (upd (zap F V) c 0) (zeroed m' (cluster_lba g c) (q_spc g)) -> given_back F m (c :: V) s'.
Proof.
  intros Hg Hz Hk Hv. exists (zeroed m' (cluster_lba g c) (q_spc g)). split_and!.
  - eapply vol32_ext; [exact Hv| |done]. intros x _. symmetry. apply zap_cons.
  - intros y (d & [->|Hd]%elem_of_cons & Hy); unfold zeroed; case_decide; try done. apply Hz. by exists d.
  - intros y [Hy Hny]%in_clusters32_cons. unfold zeroed. rewrite decide_False by lia. by apply Hk.
Qed.
Lemma given_back_again F m V c s : c ∈ V -> given_back F m (c :: V) s -> given_back F m V s.
Proof.
  intros Hc (m' & Hv & Hz & Hk). assert (forall y, in_clusters g (c :: V) y <-> in_clusters g V y) as Hi.
  { intros y. split; intros (d & Hd & Hy); exists d; (split; [|done]); [by apply elem_of_cons in Hd as [->|]|by right]. }
  exists m'. split_and!; [|intros y Hy; by apply Hz, Hi|intros y Hy; apply Hk; by rewrite Hi].
  eapply vol32_ext; [exact Hv| |done]. intros x _. unfold zap. destruct (decide (x ∈ V)); [by rewrite decide_True by (by right)|].
  rewrite decide_False; [done|]. rewrite elem_of_cons. intros [->|]; done.
Qed.

Lemma wp_rm_step P F m start V c s (Q : Z + unit -> fat32 -> Prop) : freeing F m start V c s -> in_chain c = true ->
  (forall x, cluster_ok g x -> in_chain (F x) = true -> cluster_ok g (F x)) ->
  (forall s', c ∈ V -> freeing F m start V 0 s' -> Q (inl 0) s') -> (forall s', c ∉ V -> freeing F m start (c :: V) (F c) s' -> Q (inl (F c)) s') ->
  wp P (rm_step c) Q s.
Proof.
  intros [(m' & Hv & Hz & Hk) Hnd Hok Hnx Hcl Hre Hst] Hin Hlk Hseen Hnew. destruct (Hnx Hin) as [Hc Hrc]. pose proof (vol32_geo_ok _ _ _ _ Hv) as Hg.
  pose proof (cluster32_in g c Hg Hc) as Hlba. pose proof (qo_spc g Hg).
  unfold rm_step. rewrite Hin. cbn [negb]. apply wp_bind. eapply wp_next; [exact Hv|unfold cluster_ok in Hc; lia|]. intros s1 Hv1 He1.
  apply wp_bind. eapply wp_put; [exact Hv1|unfold cluster_ok in Hc; lia|lia|]. intros s2 Hv2 He2. apply wp_bind. eapply wp_lba32; [exact Hv2|done|].
  apply wp_bind. eapply wp_spc; [exact Hv2|]. apply wp_bind. eapply wp_zero_sectors32; [exact Hv2|lia|lia|]. intros s3 Hv3 He3. rewrite Z2Nat.id in Hv3 by lia.
  apply wp_ret. pose proof (given_back_step F m V m' c s3 Hg Hz Hk Hv3) as Hgb. destruct (decide (c ∈ V)) as [Hcv|Hcv].
  - rewrite zap_in by done. apply Hseen; [done|]. constructor; try done; [by eapply given_back_again| |].
    + intros x Hx Hi. destruct (Hcl x Hx Hi) as [?| ->]; by left.
    + intros Hs. destruct (Hst Hs) as [?| ->]; by left.
  - rewrite zap_out by done. apply Hnew; [done|]. constructor; [done|by constructor|by constructor| | | |].
    + intros Hi. split; [by apply Hlk|]. eapply rtc_r; [exact Hrc|done].
    + intros x [->|Hx]%elem_of_cons Hi; [by right|]. destruct (Hcl x Hx Hi) as [?| ->]; left; [by right|by left].
    + intros x [->|Hx]%elem_of_cons; [done|by apply Hre].
    + intros Hs. left. destruct (Hst Hs) as [?| ->]; [by right|by left].
Qed.
Lemma wp_rm_loop P F m start s (Q : unit -> fat32 -> Prop) : vol g s F m ->
  (forall x, cluster_ok g x -> in_chain (F x) = true -> cluster_ok g (F x)) -> (in_chain start = true -> cluster_ok g start) ->
  (forall s' W, given_back F m W s' -> (forall x, x ∈ W <-> in_chain x = true /\ rtc (linked32 F) start x) -> Q tt s') ->
  wp P (loop rm_step start) Q s.
Proof.
  intros Hv Hlk Hst HQ. pose proof (vol32_geo_ok _ _ _ _ Hv) as Hg. pose proof (geo32_order g Hg).
  eapply (wp_loop P rm_step (fun k c s => exists V, freeing F m start V c s /\ (in_chain c = true -> q_entries g <= Z.of_nat k + Z.of_nat (length V))) Q (Z.to_nat (q_entries g))); [| |lia].
  - clear s Hv. intros k c s (V & Hf & Hk). destruct (in_chain c) eqn:Hin.
    + pose proof (nodup_range V 2 (q_entries g) (fr_nodup _ _ _ _ _ _ Hf) (fr_ok _ _ _ _ _ _ Hf)) as Hr.
      eapply wp_rm_step; [exact Hf|done|done| |].
      * intros s' _ Hf'. exists (k - 1)%nat. split; [lia|]. exists V. by split.
      * intros s' _ Hf'. exists (k - 1)%nat. split; [lia|]. exists (c :: V). split; [done|]. simpl. lia.
    + unfold rm_step. rewrite Hin. apply wp_ret, (HQ s V); [apply Hf|]. destruct Hf as [_ _ Hok _ Hcl Hre Hs]. intros x. split.
      * intros Hx. split; [|by apply Hre]. rewrite list.Forall_forall in Hok. by eapply cluster32_chain, Hok.
      * intros [Hx Hrt]. revert x Hrt Hx. apply (rtc_ind_r (fun x => in_chain x = true -> x ∈ V)).
        { intros Hx. destruct (Hs Hx) as [?| ->]; [done|congruence]. }
        intros a b _ [Ha ->] IH Hx. destruct (Hcl a (IH Ha) Hx) as [?|E]; [done|congruence].
  - exists []. split; [|lia]. constructor; [|constructor|constructor|intros Hi; split; [by apply Hst|apply rtc_refl]|by intros x ?%elem_of_nil|by intros x ?%elem_of_nil|by right].
    exists m. split_and!; [|intros y (d & Hd & _); by apply elem_of_nil in Hd|done]. eapply vol32_ext; [exact Hv| |done]. intros x _. by rewrite zap_out by apply not_elem_of_nil.
Qed.
End free.
