(* ===== verification/Fat32Claims.v ===== *)
(** * FAT32: the properties

    Allocating clusters, overwriting a file and reading it back, reading ranges, giving a chain
    back. *)
From S2P Require Import Prelude BlockDev Fat16Name Fat16 SparseDev Fat16Vol Fat16Chain Fat16Write Fat16File Fat16Claims Fat32Name Fat32 Fat32Vol Fat32Alloc Fat32File Fat32Write.
Import Fat16Name Fat32Name Fat32.

Section claims.
Context {D : Type} `{BlockDevOk D} `{Buffers D} (g : geo).
Implicit Types s : @fat32 D.

(** fat32_alloc_cluster returns the first free cluster from its hint on, or, when there is none,
    the first one below the sector of the table that holds the entry of the hint; the cluster is
    marked as the end of a chain, filled with zeros, and the hint moves behind it, and nothing else
    changes.  It returns 0 and changes nothing exactly when neither search finds a cluster. *)
Theorem fat32_alloc_exact s F m : vol g s F m -> 0 <= fat32_alloc_hint s -> let start := search_start g (fat32_alloc_hint s) in
  exists r s', fat32_alloc_cluster s = Ok (r, s') /\
    ((r = 0 /\ none_found g F start /\ vol g s' F m) \/
     (found g F start r /\ vol g s' (upd F r MASK) (zeroed m (cluster_lba g r) (q_spc g)) /\ fat32_alloc_hint s' = r + 1)).
Proof.
  intros Hv Hh start. destruct (wp_run fat32_alloc_cluster (fun r s' => (r = 0 /\ none_found g F start /\ vol g s' F m) \/
     (found g F start r /\ vol g s' (upd F r MASK) (zeroed m (cluster_lba g r) (q_spc g)) /\ fat32_alloc_hint s' = r + 1)) s) as (r & s' & E & Hr); [|eauto].
  eapply (wp_alloc g); [exact Hv|done|..]; intros; [left|right]; done.
Qed.

(** C24: overwriting a file that has a first cluster succeeds when there are enough free clusters
    behind the hint; the entry of the file gets the new size, the other entries of its sector stay,
    and every read of a range of the file then returns that range of the new bytes, or reports
    failure when it gets no buffer.  Every other file, away from the sector of the entry, keeps
    its bytes. *)
Theorem fat32_overwrite_read `{!BuffersOk D} s F m it data av : let size := Z.of_nat (length data) in let e' := set_size size (it_entry it) in let sl := it_slot it in
  vol g s F m -> writable g F it -> Forall is_u8 data -> 0 < size < 4294967296 -> 3 <= fat32_alloc_hint s ->
  NoDup av -> Forall (fun x => fat32_alloc_hint s <= x < q_entries g /\ F x = 0) av -> clusters_for g size - 1 <= Z.of_nat (length av) ->
  exists s' F' m', overwrite_file it data size s = Ok (true, s') /\ vol g s' F' m' /\
    (forall j, (j < 16)%nat -> entry_at (m' (slot_lba g sl)) j = if decide (j = sl_index sl) then e' else entry_at (m (slot_lba g sl)) j) /\
    (forall offset n p d, 0 <= offset < size -> 0 <= n -> offset + n < 4294967296 -> kmalloc (cluster_size g) (dev s') = Ok (p, d) ->
       exists s'', fat32_read_file_range e' offset n s' = Ok (if p =? 0 then None else Some (take (Z.to_nat n) (drop (Z.to_nat offset) data)), s'')) /\
    (forall e2 cs2 data2, holds g F m e2 cs2 data2 -> Forall (fun x => F x <> 0) cs2 -> first_cluster (it_entry it) ∉ cs2 -> sl_cluster sl ∉ cs2 ->
       holds g F' m' e2 cs2 data2).
Proof.
  intros size e' sl Hv Hw Hu Hs Hh Hnd Hav Hcnt. pose proof (vol32_geo_ok _ _ _ _ Hv) as Hg. set (c0 := first_cluster (it_entry it)).
  destruct (wp_run (overwrite_file it data size) (fun r s' => r = true /\ exists F' m' ns, vol g s' F' m' /\ holds g F' m' e' (c0 :: ns) data /\
    (forall j, (j < 16)%nat -> entry_at (m' (slot_lba g sl)) j = if decide (j = sl_index sl) then e' else entry_at (m (slot_lba g sl)) j) /\
    Forall (fun x => cluster_ok g x /\ F x = 0) ns /\ (forall c, c ∉ c0 :: ns -> F' c = F c) /\
    (forall y, y <> slot_lba g sl -> ~ in_clusters g (c0 :: ns) y -> m' y = m y)) s) as (r & s' & E & -> & F' & m' & ns & Hv' & Hh' & Hat & Hn & HF & Hm).
  { eapply (wp_overwrite g); [exact Hv|exact Hw|done|done|done|exact Hnd|done|done|]. intros. split; [done|]. by eexists _, _, _. }
  exists s', F', m'. split_and!; [done|done|done| |].
  - intros offset n p d Ho Hn0 Hlt Hk. destruct (wp_run (fat32_read_file_range e' offset n) (fun r _ => r = if p =? 0 then None else Some (take (Z.to_nat n) (drop (Z.to_nat offset) data))) s')
      as (r & s'' & E' & ->); [|eauto]. by eapply (wp_range32_holds g).
  - intros e2 cs2 data2 Hh2 Hu2 Hc Hd. eapply (holds32_kept g F m F' m' e2 cs2 data2 (c0 :: ns) (slot_lba g sl)); [done|done| |done|done].
    intros c Hin. split.
    + intros [->|Hcn]%elem_of_cons; [done|]. rewrite list.Forall_forall in Hn, Hu2. destruct (Hn c Hcn). by apply (Hu2 c).
    + intros Hr. apply Hd. destruct Hw as [(_ & Hx & _) _ _ _]. fold sl in Hx.
      by rewrite (cluster32_lba_disjoint g (sl_cluster sl) c (slot_lba g sl) Hg ltac:(unfold slot_lba; lia) Hr).
Qed.

(** fat32_read_file_range returns the bytes of the file from the offset on, cut at its end,
    wherever the boundaries of clusters fall, and reports failure when it gets no buffer. *)
Theorem fat32_read_range_exact `{!BuffersOk D} s F m e cs data offset size p d :
  vol g s F m -> holds g F m e cs data -> 0 <= offset < Z.of_nat (length data) -> 0 <= size -> offset + size < 4294967296 ->
  kmalloc (cluster_size g) (dev s) = Ok (p, d) ->
  exists s', fat32_read_file_range e offset size s = Ok (if p =? 0 then None else Some (take (Z.to_nat size) (drop (Z.to_nat offset) data)), s') /\ vol g s' F m.
Proof.
  intros Hv Hh Ho Hn Hw Hk. destruct (wp_run (fat32_read_file_range e offset size)
    (fun r s' => r = (if p =? 0 then None else Some (take (Z.to_nat size) (drop (Z.to_nat offset) data))) /\ vol g s' F m) s) as (r & s' & E & -> & Hv'); [|eauto].
  by eapply (wp_range32_holds g); eauto.
Qed.

(** the loop of fat32_rm ends for every table whose links stay inside it, one with a cycle
    included; it clears exactly the entries and the sectors of the clusters that can be reached
    from the start. *)
Theorem fat32_rm_chain_ends s F m start : vol g s F m ->
  (forall x, cluster_ok g x -> in_chain (F x) = true -> cluster_ok g (F x)) -> (in_chain start = true -> cluster_ok g start) ->
  exists s' W, loop rm_step start s = Ok (tt, s') /\ given_back g F m W s' /\ forall x, x ∈ W <-> in_chain x = true /\ rtc (linked32 F) start x.
Proof.
  intros Hv Hlk Hst. destruct (wp_run (loop rm_step start) (fun _ s' => exists W, given_back g F m W s' /\ forall x, x ∈ W <-> in_chain x = true /\ rtc (linked32 F) start x) s)
    as ([] & s' & E & W & Hw); [|by exists s', W]. eapply (wp_rm_loop g); [exact Hv|done|done|]. intros. by eexists.
Qed.
End claims.

(** ** A small volume

    One sector for each of two tables, clusters of one sector; the root directory in cluster 2 has
    the files A, in the clusters 3 and 4, and B, in cluster 5. *)
Definition ex32_geo : geo := Geo 1 1 2 3 1 0.
Definition ex32_table : list Z := concat (map bytes32 [0x0FFFFFF8; MASK; MASK; 4; MASK; MASK]) ++ zeros 488.
Definition ex32_entry (name cluster size : Z) : FAT32_DirEntry := new_entry (pad 11 [name]) 0x20 cluster size.
Definition ex32_root : list Z := entry_bytes (ex32_entry 65 3 600) ++ entry_bytes (ex32_entry 66 5 5) ++ zeros 448.
Definition ex32_map : sectors := list_to_map [(1, ex32_table); (2, ex32_table); (3, ex32_root); (4, replicate 512 7); (5, replicate 512 8); (6, replicate 512 9)].
Definition ex32_vol : @fat32 sparse :=
  Mk (Sparse 300 ex32_map 5) {| jmpBoot := []; OEMName := []; BytsPerSec := 512; SecPerClus := 1; RsvdSecCnt := 1; NumFATs := 2; RootEntCnt := 0;
    TotSec16 := 0; Media := 0xF8; FATSz16 := 0; SecPerTrk := 0; NumHeads := 0; HiddSec := 0; TotSec32 := 129; FATSz32 := 1; ExtFlags := 0; FSVer := 0;
    RootClus := 2; FSInfo := 0; BkBootSec := 0; Reserved := []; DrvNum := 0; Reserved1 := 0; BootSig := 0; VolID := 0; VolLab := []; FilSysType := [] |}
    1 3 2 2 6 0 [SLASH] [].
Definition ex32_m : Z -> list Z := sd_get (dev ex32_vol).
Definition ex32_F : Z -> Z := ent ex32_geo ex32_m.
Definition ex32_item : FAT32_DirItem := Item (ex32_entry 65 3 600) (Slot 2 0 0) None [].

Lemma ex32_map_ok : forallb sectorb (map_to_list ex32_map) = true.
Proof. vm_compute. reflexivity. Qed.
Lemma ex32_vol_ok : vol ex32_geo ex32_vol ex32_F ex32_m.
Proof.
  assert (sparse_ok (dev ex32_vol)) as Hok.
  { constructor; [simpl; lia|]. intros x b Hb. apply (sectorb_ok (x, b)). pose proof ex32_map_ok as Hf. rewrite forallb_forall in Hf.
    apply Hf, list_elem_of_In, elem_of_map_to_list. exact Hb. }
  split. exists ex32_m. split_and!; [|done|done]. constructor; [exact Hok|reflexivity| |reflexivity|].
  - constructor; unfold q_end, q_entries; cbn [q_fat q_fatsz q_nfats q_data q_spc q_drive ex32_geo]; lia.
  - intros x Hx. unfold q_end, q_entries in Hx. simpl in Hx. unfold vsec. change (fat32_drive ex32_vol) with 0. cbn [dev_sectors sparse_dev_ok].
    rewrite sd_sectors_lookup by exact Hok. rewrite decide_True by (simpl; lia). done.
Qed.
Lemma ex32_links_A : links ex32_geo ex32_F 3 [3; 4].
Proof. repeat split; vm_compute; congruence. Qed.
Lemma ex32_data_A : take 600 (chain_bytes ex32_geo ex32_m [3; 4]) = replicate 512 7 ++ replicate 88 8.
Proof. vm_compute. reflexivity. Qed.
Lemma ex32_holds_A : holds ex32_geo ex32_F ex32_m (ex32_entry 65 3 600) [3; 4] (replicate 512 7 ++ replicate 88 8).
Proof. constructor; [exact ex32_links_A|reflexivity|vm_compute; congruence|exact ex32_data_A]. Qed.
Lemma ex32_writable_A : writable ex32_geo ex32_F ex32_item.
Proof.
  constructor.
  - split_and!; [unfold cluster_ok; vm_compute; split; congruence|simpl; lia|simpl; lia|simpl; lia].
  - split_and!; try reflexivity; vm_compute; try (apply list.Forall_forall; intros x Hx%list_elem_of_In; cbn in Hx; intuition (subst; try congruence)); repeat split; congruence.
  - split; [unfold cluster_ok; vm_compute; split; congruence|vm_compute; congruence].
  - split; vm_compute; congruence.
Qed.

Lemma fat32_alloc_exact_witness : exists r s', fat32_alloc_cluster ex32_vol = Ok (r, s') /\
  ((r = 0 /\ none_found ex32_geo ex32_F 6 /\ vol ex32_geo s' ex32_F ex32_m) \/
   (found ex32_geo ex32_F 6 r /\ vol ex32_geo s' (upd ex32_F r MASK) (zeroed ex32_m (cluster_lba ex32_geo r) 1) /\ fat32_alloc_hint s' = r + 1)).
Proof. refine (fat32_alloc_exact ex32_geo ex32_vol ex32_F ex32_m ex32_vol_ok _). simpl. lia. Defined.
Lemma fat32_overwrite_read_witness : exists s' F' m', overwrite_file ex32_item (replicate 1200 88) 1200 ex32_vol = Ok (true, s') /\ vol ex32_geo s' F' m' /\
  (forall j, (j < 16)%nat -> entry_at (m' 3) j = if decide (j = 0)%nat then ex32_entry 65 3 1200 else entry_at (ex32_m 3) j) /\
  (forall offset n p d, 0 <= offset < 1200 -> 0 <= n -> offset + n < 4294967296 -> kmalloc 512 (dev s') = Ok (p, d) ->
     exists s'', fat32_read_file_range (ex32_entry 65 3 1200) offset n s' = Ok (if p =? 0 then None else Some (take (Z.to_nat n) (drop (Z.to_nat offset) (replicate 1200 88))), s'')) /\
  (forall e2 cs2 data2, holds ex32_geo ex32_F ex32_m e2 cs2 data2 -> Forall (fun x => ex32_F x <> 0) cs2 -> 3 ∉ cs2 -> 2 ∉ cs2 -> holds ex32_geo F' m' e2 cs2 data2).
Proof.
  refine (fat32_overwrite_read ex32_geo ex32_vol ex32_F ex32_m ex32_item (replicate 1200 88) [6; 7] ex32_vol_ok ex32_writable_A _ _ _ _ _ _).
  - apply Forall_replicate. unfold is_u8. lia.
  - simpl. lia.
  - simpl. lia.
  - repeat constructor; set_solver.
  - repeat (apply list.Forall_cons; split; [split; [vm_compute; split; congruence|vm_compute; reflexivity]|]). by constructor.
  - vm_compute. congruence.
Defined.
Lemma fat32_read_range_exact_witness : exists s', fat32_read_file_range (ex32_entry 65 3 600) 500 50 ex32_vol = Ok (Some (replicate 12 7 ++ replicate 38 8), s') /\ vol ex32_geo s' ex32_F ex32_m.
Proof.
  refine (fat32_read_range_exact ex32_geo ex32_vol ex32_F ex32_m (ex32_entry 65 3 600) [3; 4] (replicate 512 7 ++ replicate 88 8) 500 50 4096 (Sparse 300 ex32_map 4)
    ex32_vol_ok ex32_holds_A _ _ _ _).
  - rewrite length_app, !length_replicate. lia.
  - lia.
  - lia.
  - reflexivity.
Defined.
Lemma ex32_links_in x : cluster_ok ex32_geo x -> in_chain (ex32_F x) = true -> cluster_ok ex32_geo (ex32_F x).
Proof.
  assert (forallb (fun i => negb (in_chain (ex32_F (Z.of_nat i))) || ((2 <=? ex32_F (Z.of_nat i)) && (ex32_F (Z.of_nat i) <? 128))) (seq 0 128) = true) as Hall by (vm_compute; reflexivity).
  rewrite forallb_forall in Hall. intros Hx Hin. unfold cluster_ok in *. change (q_entries ex32_geo) with 128 in *.
  specialize (Hall (Z.to_nat x) ltac:(apply in_seq; lia)). rewrite Z2Nat.id, Hin in Hall by lia. cbn [negb orb] in Hall. lia.
Qed.
Lemma fat32_rm_chain_ends_witness : exists s' W, loop rm_step 3 ex32_vol = Ok (tt, s') /\ given_back ex32_geo ex32_F ex32_m W s' /\
  forall x, x ∈ W <-> in_chain x = true /\ rtc (linked32 ex32_F) 3 x.
Proof.
  refine (fat32_rm_chain_ends ex32_geo ex32_vol ex32_F ex32_m 3 ex32_vol_ok ex32_links_in _). intros _. unfold cluster_ok. vm_compute. split; congruence.
Defined.

(** ** What the driver does *)

(** With the hint behind the last free cluster of its sector the allocator reports a full volume
    while cluster 6 and more are free. *)
Definition ex32_full_above : @fat32 sparse :=
  with_hint 127 (with_dev (Sparse 300 (<[1 := take 508 ex32_table ++ bytes32 MASK]> ex32_map) 5) ex32_vol).
Example alloc_misses_free : exists s', fat32_alloc_cluster ex32_full_above = Ok (0, s') /\ Z.land (get32 (sd_get (dev s') 1) 24) MASK = 0.
Proof. eexists. split; [vm_compute; reflexivity|vm_compute; reflexivity]. Qed.
(** A drive of 60000 sectors is formatted without a table: the format reports success, mounting the
    volume fails. *)
Example small_drive_not_mounted : exists s1 s2, fat32_format_at (zeros 422) 0 0 60000 None (with_dev (Sparse 60000 ∅ 5) ex32_vol) = Ok (true, s1) /\ fat32_init 0 0 s1 = Ok (false, s2).
Proof. eexists _, _. split; [vm_compute; reflexivity|vm_compute; reflexivity]. Qed.
(** A new volume of 66000 sectors reports more free clusters than it has: the count looks at the
    whole table, as many sectors too far as there are reserved ones. *)
Definition after_format32 (total : Z) : M (@fat32 sparse) (Z * Z) :=
  fat32_format_at (zeros 422) 0 0 total None;;; fat32_init 0 0;;; free <- fat32_free_clusters;; clusters <- fat32_total_clusters;; ret (free, clusters).
Example free32_more_than_total : exists s', after_format32 66000 (with_dev (Sparse 66000 ∅ 5) ex32_vol) = Ok ((66048, 64936), s').
Proof. eexists. vm_compute. reflexivity. Qed.
