(* ===== verification/SysEnv.v ===== *)
(** * What system calls use (kernel/syscall.c)

    The interrupt frame, and the services of the kernel that the system call handler calls: paging
    and the memory of the running process, the heap, files, processes, the program loader, console,
    screen, keyboard and mouse.  [SysEnv] are the operations, [SysEnvOk] what the handler relies on.

    Creating a process and, while there is no reaper thread, choosing the next one recycle entries of
    the process table: proc_cleanup calls sys_close_fds_for_pid of syscall.c for each of them.  These
    operations return the numbers of those processes along with their result. *)
From S2P Require Import Prelude.

(** registers_t of cpu/isr.h *)
Record registers_t := Regs {
  r_ds : Z; r_edi : Z; r_esi : Z; r_ebp : Z; r_useless : Z; r_ebx : Z; r_edx : Z; r_ecx : Z; r_eax : Z;
  r_int_no : Z; r_err_code : Z; r_eip : Z; r_cs : Z; r_eflags : Z; r_esp : Z; r_ss : Z;
}.
(** screen_fb_info_t of drivers/screen.h, the fields that are handed on *)
Record fb_info := FbInfo { fb_width : Z; fb_height : Z; fb_pitch : Z; fb_bpp : Z; fb_bytes_per_pixel : Z; fb_font_w : Z; fb_font_h : Z }.

(** Processes are pointers; 0 is NULL.  A list of numbers in a result are the processes that were
    cleaned up. *)
Class SysEnv (E : Type) := {
  (** paging and the memory of the running process *)
  vmm_virt_to_phys : Z -> M E (option Z);
  load8 : Z -> M E Z;
  store8 : Z -> Z -> M E unit;
  (** heap *)
  kmalloc : Z -> M E Z;
  kfree : Z -> M E unit;
  (** files *)
  fscmd_exists : list Z -> M E bool;
  fscmd_write_file : list Z -> list Z -> M E bool;
  fscmd_get_file_size : list Z -> M E Z;
  fscmd_read_file : list Z -> Z -> Z -> M E (Z * list Z);
  fscmd_read_file_by_name : list Z -> Z -> M E (Z * list Z);
  fscmd_list_dir : option (list Z) -> Z -> Z -> M E (Z * list Z * list Z);
  fscmd_ls : option (list Z) -> M E unit;
  fscmd_cat : list Z -> M E unit;
  fscmd_cd : list Z -> M E bool;
  note : list Z -> M E unit;
  m_disk : list Z -> M E unit;
  cmd_disk_ls : M E unit;
  (** processes *)
  proc_current : M E Z;
  proc_current_pid : M E Z;
  proc_pid : Z -> M E Z;
  proc_is_kernel : Z -> M E bool;
  proc_context_esp : Z -> M E Z;
  proc_block : Z -> M E unit;
  proc_is_foreground_pid : Z -> M E bool;
  proc_pid_alive : Z -> M E bool;
  proc_pid_exited : Z -> M E (option Z);
  proc_exit : Z -> M E unit;
  proc_schedule : registers_t -> bool -> M E (bool * list Z);
  proc_create : Z -> Z -> M E (Z * list Z);
  proc_fork : registers_t -> M E (Z * list Z);
  proc_make_current : Z -> registers_t -> M E bool;
  proc_exec : Z -> Z -> Z -> Z -> Z -> list (list Z) -> M E bool;
  proc_wake_vfork_parent : Z -> M E unit;
  proc_start_reaper : M E (bool * list Z);
  set_sched_next_esp : Z -> M E unit;
  bin_exit_trampoline : Z;
  (** program loader: entry, image_base, image_size, image_load_base *)
  bin_load_image : list Z -> M E (option (Z * Z * Z * Z));
  bin_create_process : list Z -> list (list Z) -> bool -> M E (Z * list Z);
  (** configuration and boot *)
  orion_config_load : M E unit;
  parse_bootcmd : M E unit;
  bootlog_disable : M E unit;
  orion_boot_flags : M E Z;
  reboot : M E unit;
  (** console, screen, sound *)
  pushf_cli : M E Z;
  sti : M E unit;
  kprint : list Z -> M E unit;
  kprint_color : list Z -> Z -> Z -> M E unit;
  kprint_char : Z -> M E unit;
  clear_screen : M E unit;
  beep : Z -> Z -> M E unit;
  get_cursor_offset : M E Z;
  set_cursor_offset : Z -> M E unit;
  screen_get_cols : M E Z;
  screen_get_rows : M E Z;
  screen_get_framebuffer_info : M E (option fb_info);
  screen_fb_fill_rect : Z -> Z -> Z -> Z -> Z -> M E unit;
  screen_fb_draw_text : Z -> Z -> list Z -> Z -> Z -> bool -> M E unit;
  screen_set_cursor_visible : bool -> M E unit;
  (** keyboard and mouse *)
  pause : M E unit;
  getkey : M E Z;
  getkey_nonblock : M E Z;
  keyboard_input_enabled : M E bool;
  keyboard_set_input : bool -> M E unit;
  keyboard_flush : M E unit;
  mouse_state : M E (Z * Z * Z);
  mouse_set_draw : bool -> M E unit;
}.

(** ** What the handler relies on *)

Class SysLaws (E : Type) {SE : SysEnv E} := {
  env_ok : E -> Prop;
  (** the pages of the running process that are mapped, and the bytes in them *)
  page_mapped : E -> Z -> bool;
  umem : E -> Z -> Z;
  (** the heap blocks that no process owns *)
  held : E -> gset Z;
  cur_pid : E -> Z;
  file_of : E -> list Z -> option (list Z);
  (** the processes that have not exited *)
  alive : E -> Z -> bool;
  (** the paths that the file systems keep in their buffers; xvfs.c, for one, gives a component 16
      bytes and does not test its length *)
  path_ok : list Z -> Prop;
  (** no read of a file fails *)
  disk_ok : E -> Prop;
}.
Section laws.
Context {E : Type} `{SysLaws E}.

(** No process ends, and a disk that works goes on working. *)
Record steady (e e' : E) : Prop := {
  st_alive : forall p, alive e p = true -> alive e' p = true;
  st_disk : disk_ok e -> disk_ok e';
}.
(** The running process and its memory stay, and so do the blocks. *)
Record same_user (e e' : E) : Prop := {
  su_ok : env_ok e';
  su_mapped : forall p, page_mapped e' p = page_mapped e p;
  su_mem : forall a, umem e' a = umem e a;
  su_held : held e' = held e;
  su_pid : cur_pid e' = cur_pid e;
  su_steady : steady e e';
}.
(** The call returns; the process, its memory and the blocks stay. *)
Definition serves {A} (c : M E A) : Prop := forall e, env_ok e -> wp False c (fun _ e' => same_user e e') e.
(** In addition the files stay. *)
Definition looks {A} (c : M E A) : Prop :=
  forall e, env_ok e -> wp False c (fun _ e' => same_user e e' /\ forall p, file_of e' p = file_of e p) e.
(** The call returns and may change the process that runs; the blocks stay. *)
Definition switches {A} (c : M E A) : Prop := forall e, env_ok e -> wp False c (fun _ e' => env_ok e' /\ held e' = held e /\ steady e e') e.
(** In addition it may clean up processes that have exited. *)
Definition recycles_in {A} (e : E) (c : M E (A * list Z)) : Prop :=
  wp False c (fun r e' => env_ok e' /\ held e' = held e /\ steady e e' /\ Forall (fun p => alive e p = false) (snd r)) e.
Definition recycles {A} (c : M E (A * list Z)) : Prop := forall e, env_ok e -> recycles_in e c.
(** Up to 31 bytes from a on, until a NUL, can be read: what strncpy makes of a name. *)
Definition readable_name (e : E) (a : Z) : Prop :=
  exists k : nat, (k <= 31)%nat /\ (forall i, (i < k)%nat -> page_mapped e (Z.land (a + Z.of_nat i) 0xFFFFF000) = true) /\
    (k = 31%nat \/ (0 < k)%nat /\ umem e (a + Z.of_nat k - 1) = 0).
End laws.

Class SysEnvOk (E : Type) `{SysLaws E} := {
  (** memory *)
  virt_law : forall e p, env_ok e -> exists x, vmm_virt_to_phys p e = Ok (x, e) /\ (is_Some x <-> page_mapped e p = true);
  load_law : forall e a, env_ok e -> page_mapped e (Z.land a 0xFFFFF000) = true -> load8 a e = Ok (umem e a, e) /\ is_u8 (umem e a);
  store_law : forall e a v, env_ok e -> page_mapped e (Z.land a 0xFFFFF000) = true -> is_u8 v ->
    wp False (store8 a v) (fun _ e' => env_ok e' /\ (forall p, page_mapped e' p = page_mapped e p) /\ held e' = held e /\ cur_pid e' = cur_pid e /\ steady e e' /\
      (forall p, file_of e' p = file_of e p) /\ forall b, umem e' b = if decide (b = a) then v else umem e b) e;
  (** the heap *)
  held_null : forall e, env_ok e -> 0 ∉ held e;
  kmalloc_law : forall e n, env_ok e -> 0 < n -> wp False (kmalloc n) (fun p e' => env_ok e' /\ (forall q, page_mapped e' q = page_mapped e q) /\
    (forall a, umem e' a = umem e a) /\ cur_pid e' = cur_pid e /\ steady e e' /\ ((p = 0 /\ held e' = held e) \/ (p <> 0 /\ p ∉ held e /\ held e' = {[p]} ∪ held e))) e;
  kfree_law : forall e p, env_ok e -> p ∈ held e -> wp False (kfree p) (fun _ e' => env_ok e' /\ (forall q, page_mapped e' q = page_mapped e q) /\
    (forall a, umem e' a = umem e a) /\ cur_pid e' = cur_pid e /\ steady e e' /\ held e' = held e ∖ {[p]}) e;
  (** files *)
  path_nil : path_ok [];
  path_home : path_ok [47; 104; 111; 109; 101];
  path_motd : path_ok [47; 115; 121; 115; 116; 101; 109; 47; 99; 111; 110; 102; 105; 103; 47; 109; 111; 116; 100; 46; 116; 120; 116];
  exists_law : forall e p, env_ok e -> path_ok p -> wp False (fscmd_exists p) (fun b e' => same_user e e' /\ (forall q, file_of e' q = file_of e q) /\ (b = true <-> is_Some (file_of e p))) e;
  write_law : forall e p d, env_ok e -> path_ok p -> wp False (fscmd_write_file p d) (fun b e' => same_user e e' /\ (b = true -> file_of e' p = Some d)) e;
  size_law : forall e p, env_ok e -> path_ok p -> wp False (fscmd_get_file_size p)
    (fun n e' => same_user e e' /\ (forall q, file_of e' q = file_of e q) /\ is_u32 n /\ forall d, file_of e p = Some d -> n = Z.of_nat (length d)) e;
  (** a read fails and stores nothing, or gives the bytes that were asked for; on a disk that works the
      latter *)
  read_law : forall e p off n, env_ok e -> path_ok p -> is_u32 off -> 0 <= n -> wp False (fscmd_read_file p off n)
    (fun r e' => same_user e e' /\ (forall q, file_of e' q = file_of e q) /\ Forall is_u8 (snd r) /\ Z.of_nat (length (snd r)) <= n /\
       forall d, file_of e p = Some d -> off + n <= Z.of_nat (length d) -> (~ disk_ok e /\ fst r <= 0 /\ snd r = []) \/ (fst r = n /\ snd r = take (Z.to_nat n) (drop (Z.to_nat off) d))) e;
  list_law : forall e p mx nl, env_ok e -> (forall q, p = Some q -> path_ok q) -> 0 < mx <= 256 -> 0 < nl <= 64 -> wp False (fscmd_list_dir p mx nl)
    (fun r e' => same_user e e' /\ Forall is_u8 (snd (fst r)) /\ Forall is_u8 (snd r) /\ Z.of_nat (length (snd (fst r))) <= mx * nl /\ Z.of_nat (length (snd r)) <= mx) e;
  name_law : forall p n, path_ok p -> serves (fscmd_read_file_by_name p n);
  ls_law : forall p, (forall q, p = Some q -> path_ok q) -> serves (fscmd_ls p);
  cat_law : forall p, path_ok p -> serves (fscmd_cat p);
  cd_law : forall p, path_ok p -> serves (fscmd_cd p);
  note_law : forall p, path_ok p -> serves (note p);
  disk_law : forall p, path_ok p -> serves (m_disk p);
  disk_ls_law : serves cmd_disk_ls;
  (** processes *)
  pid_law : forall e, env_ok e -> proc_current_pid e = Ok (cur_pid e, e) /\ is_u32 (cur_pid e);
  current_law : looks proc_current;
  proc_pid_law : forall p e, env_ok e -> wp False (proc_pid p) (fun v e' => same_user e e' /\ is_u32 v) e;
  is_kernel_law : forall p, looks (proc_is_kernel p);
  context_law : forall p, looks (proc_context_esp p);
  foreground_law : forall p, looks (proc_is_foreground_pid p);
  alive_law : forall p, looks (proc_pid_alive p);
  exited_law : forall p e, env_ok e -> wp False (proc_pid_exited p) (fun r e' => same_user e e' /\ forall c, r = Some c -> is_u32 c) e;
  reaper_law : recycles proc_start_reaper;
  block_law : forall p, switches (proc_block p);
  (** the running process ends *)
  exit_law : forall e c, env_ok e -> wp False (proc_exit c) (fun _ e' => env_ok e' /\ held e' = held e /\ forall p, p <> cur_pid e -> alive e p = true -> alive e' p = true) e;
  schedule_law : forall r b, recycles (proc_schedule r b);
  (** the name is read where it is *)
  create_law : forall e n en, env_ok e -> n = 0 \/ readable_name e n -> recycles_in e (proc_create n en);
  fork_law : forall r, recycles (proc_fork r);
  make_current_law : forall p r, switches (proc_make_current p r);
  wake_law : forall p, switches (proc_wake_vfork_parent p);
  next_esp_law : forall v, switches (set_sched_next_esp v);
  (** the image is a block of its own until a process takes it over *)
  exec_law : forall e p en ib sz lb av, env_ok e -> wp False (proc_exec p en ib sz lb av) (fun ok e' => env_ok e' /\ steady e e' /\ held e' = if ok : bool then held e ∖ {[ib]} else held e) e;
  load_image_law : forall e p, env_ok e -> path_ok p -> wp False (bin_load_image p) (fun r e' => env_ok e' /\ steady e e' /\
    match r with
    | None => held e' = held e
    | Some (_, b, _, _) => (b = 0 /\ held e' = held e) \/ (b <> 0 /\ b ∉ held e /\ held e' = {[b]} ∪ held e)
    end) e;
  create_process_law : forall p av b, path_ok p -> recycles (bin_create_process p av b);
  (** the rest *)
  config_law : serves orion_config_load;
  bootcmd_law : serves parse_bootcmd;
  bootlog_law : serves bootlog_disable;
  flags_law : forall e, env_ok e -> wp False orion_boot_flags (fun v e' => same_user e e' /\ is_u32 v) e;
  cli_law : looks pushf_cli;
  sti_law : looks sti;
  kprint_law : forall l, looks (kprint l);
  color_law : forall l f b, looks (kprint_color l f b);
  char_law : forall c, looks (kprint_char c);
  clear_law : looks clear_screen;
  beep_law : forall f d, looks (beep f d);
  cursor_law : looks get_cursor_offset;
  set_cursor_law : forall o, looks (set_cursor_offset o);
  cols_law : looks screen_get_cols;
  rows_law : looks screen_get_rows;
  fb_law : looks screen_get_framebuffer_info;
  rect_law : forall x y w h c, looks (screen_fb_fill_rect x y w h c);
  text_law : forall x y t f b tr, looks (screen_fb_draw_text x y t f b tr);
  visible_law : forall b, looks (screen_set_cursor_visible b);
  pause_law : looks pause;
  getkey_law : looks getkey;
  getkey_nb_law : looks getkey_nonblock;
  kbd_law : looks keyboard_input_enabled;
  kbd_set_law : forall b, looks (keyboard_set_input b);
  flush_law : looks keyboard_flush;
  mouse_law : looks mouse_state;
  mouse_draw_law : forall b, looks (mouse_set_draw b);
}.
