(* ===== verification/Syscall.v ===== *)
(** * System calls (kernel/syscall.c)

    The handler of interrupt 0xA5, the table of open files and the message queue of the graphical
    server, over the services [SysEnv].  User strings and structures are read byte by byte from the
    memory of the running process; what the kernel copies from there is a list of bytes. *)
From S2P Require Import Prelude Fat16Name SysEnv.
From S2P Require Libc.

Module Syscall.
Import Fat16Name.
Definition MAX_OPEN_FILES : Z := 16.
Definition MAX_PATH_LEN : Z := 256.
Definition MAX_ARGC : Z := 16.
Definition EFLAGS_IF : Z := 0x200.
Definition WAIT_RUNNING : Z := u32 (-1).
Definition WAIT_NO_SUCH : Z := u32 (-2).
Definition EXEC_ERR_FAULT : Z := u32 (-1).
Definition EXEC_ERR_NOENT : Z := u32 (-2).
Definition EXEC_ERR_NOEXEC : Z := u32 (-3).
Definition EXEC_ERR_NOMEM : Z := u32 (-4).
Definition EXEC_ERR_INVAL : Z := u32 (-5).
Definition EXEC_ERR_PERM : Z := u32 (-6).
Definition SYS_FB_TEXT_TRANSPARENT : Z := 1.
Definition GUI_MSG_TEXT_MAX : Z := 256.
Definition GUI_QUEUE_MAX : Z := 64.
Definition KERNEL_CS : Z := 0x08.
Definition KERNEL_DS : Z := 0x10.
Definition PAGE_SIZE : Z := 4096.
Definition page_of (a : Z) : Z := Z.land a 0xFFFFF000.

Record syscall_fd_t := Fd { used : bool; owner_pid : Z; offset : Z; size : Z; path : list Z }.
Definition no_fd : syscall_fd_t := Fd false 0 0 0 [].
Record sys_gui_msg_t := Msg { sender_pid : Z; type : Z; msg_a : Z; msg_b : Z; msg_c : Z; text : list Z }.
(** A table of copied arguments: the array and the buffers with the strings in them *)
Record kargv := Kargv { ka_array : Z; ka_bufs : list (Z * list Z) }.

(** ** The message of the day *)

Definition is_sp (c : Z) : bool := (c =? 32) || (c =? 9).
Fixpoint skip_sp (l : list Z) : list Z := match l with c :: l' => if is_sp c then skip_sp l' else l | [] => [] end.
(** A number of decimal digits that stays below 16 *)
Fixpoint dec15 (l : list Z) (v : Z) : option Z :=
  match l with
  | [] => Some v
  | c :: l' =>
    if negb (Libc.is_digit c) then None
    else let v := v * 10 + (c - 48) in if 15 <? v then None else dec15 l' v
  end.
(** The text of the line and its two colours, when it ends in fg,bg *)
Definition parse_motd_color_suffix (line : list Z) : option (list Z * Z * Z) :=
  match split_last 44 (trim_right is_sp line) with
  | None => None
  | Some (before, after) =>
    match skip_sp after with
    | [] => None
    | bgt =>
      match dec15 bgt 0 with
      | None => None
      | Some bg =>
        let b := trim_right is_sp before in
        let text0 := trim_right Libc.is_digit b in
        match drop (length text0) b with
        | [] => None
        | fgt => match dec15 fgt 0 with None => None | Some fg => Some (trim_right is_sp text0, fg, bg) end
        end
      end
    end
  end.
(** "/system/config/motd.txt" *)
Definition MOTD_PATH : list Z := [47; 115; 121; 115; 116; 101; 109; 47; 99; 111; 110; 102; 105; 103; 47; 109; 111; 116; 100; 46; 116; 120; 116].
(** "console", "/dev/console", "/home" *)
Definition CONSOLE : list Z := [99; 111; 110; 115; 111; 108; 101].
Definition DEV_CONSOLE : list Z := [47; 100; 101; 118; 47] ++ CONSOLE.
Definition HOME : list Z := [47; 104; 111; 109; 101].
Definition is_console_path (p : list Z) : bool :=
  bool_decide (map Libc.tolower p = CONSOLE) || bool_decide (map Libc.tolower p = DEV_CONSOLE).

Section handler.
Context {E : Type} `{SysEnv E}.

Record sys := Mk {
  env : E; regs : registers_t; fd_table : list syscall_fd_t;
  gui_queue : list sys_gui_msg_t; gui_queue_head : Z; gui_queue_tail : Z; gui_server_pid : Z;
}.
Abbreviation S A := (M sys A).
Definition on_env {A} (c : M E A) : S A := fun s =>
  match c (env s) with
  | Ok (a, e) => Ok (a, Mk e (regs s) (fd_table s) (gui_queue s) (gui_queue_head s) (gui_queue_tail s) (gui_server_pid s))
  | Fault => Fault
  | NoFuel => NoFuel
  end.
Definition set_regs (f : registers_t -> registers_t) : S unit :=
  modify (fun s => Mk (env s) (f (regs s)) (fd_table s) (gui_queue s) (gui_queue_head s) (gui_queue_tail s) (gui_server_pid s)).
Definition with_eax (v : Z) (r : registers_t) : registers_t :=
  Regs (r_ds r) (r_edi r) (r_esi r) (r_ebp r) (r_useless r) (r_ebx r) (r_edx r) (r_ecx r) v (r_int_no r) (r_err_code r) (r_eip r) (r_cs r) (r_eflags r) (r_esp r) (r_ss r).
Definition with_ecx (v : Z) (r : registers_t) : registers_t :=
  Regs (r_ds r) (r_edi r) (r_esi r) (r_ebp r) (r_useless r) (r_ebx r) (r_edx r) v (r_eax r) (r_int_no r) (r_err_code r) (r_eip r) (r_cs r) (r_eflags r) (r_esp r) (r_ss r).
Definition with_return (eip cs ds : Z) (r : registers_t) : registers_t :=
  Regs ds (r_edi r) (r_esi r) (r_ebp r) (r_useless r) (r_ebx r) (r_edx r) (r_ecx r) (r_eax r) (r_int_no r) (r_err_code r) eip cs (r_eflags r) (r_esp r) (r_ss r).
Definition eax (v : Z) : S unit := set_regs (with_eax v).
Definition set_fd (i : Z) (f : syscall_fd_t) : S unit :=
  modify (fun s => Mk (env s) (regs s) (<[Z.to_nat i := f]> (fd_table s)) (gui_queue s) (gui_queue_head s) (gui_queue_tail s) (gui_server_pid s)).
Definition set_queue (q : list sys_gui_msg_t) (h t : Z) : S unit :=
  modify (fun s => Mk (env s) (regs s) (fd_table s) q h t (gui_server_pid s)).
Definition set_server (pid : Z) : S unit :=
  modify (fun s => Mk (env s) (regs s) (fd_table s) (gui_queue s) (gui_queue_head s) (gui_queue_tail s) pid).

(** ** The memory of the process *)

Fixpoint load_bytes (n : nat) (a : Z) : S (list Z) :=
  match n with
  | O => ret []
  | Datatypes.S n' => b <- on_env (load8 (u32 a));; l <- load_bytes n' (a + 1);; ret (b :: l)
  end.
Fixpoint store_bytes (a : Z) (l : list Z) : S unit :=
  match l with
  | [] => ret tt
  | b :: l' => on_env (store8 (u32 a) b);;; store_bytes (a + 1) l'
  end.
Definition load32 (a : Z) : S Z := l <- load_bytes 4 a;; ret (get32 l 0).

Definition validate_step (end_page page : Z) : S (Z + bool) :=
  phys <- on_env (vmm_virt_to_phys page);;
  match phys with
  | None => ret (inr false)
  | Some _ =>
    if page =? end_page then ret (inr true)
    else if u32 (page + PAGE_SIZE) <? page then ret (inr false)
    else ret (inl (u32 (page + PAGE_SIZE)))
  end.
(** true is the result 0 *)
Definition validate_user_buffer (addr size : Z) : S bool :=
  if size =? 0 then ret true
  else if addr =? 0 then ret false
  else
    let end_ := u32 (addr + size - 1) in
    if end_ <? addr then ret false
    else loop (validate_step (page_of end_)) (page_of addr).

Fixpoint copy_string_loop (k : nat) (src page : Z) : S (option (list Z)) :=
  match k with
  | O => ret None
  | Datatypes.S k' =>
    let addr := u32 src in
    let new_page := page_of addr in
    ok <- (if new_page =? page then ret true else p <- on_env (vmm_virt_to_phys new_page);; ret (if p then true else false));;
    if ok : bool then
      c <- on_env (load8 addr);;
      if c =? 0 then ret (Some [])
      else r <- copy_string_loop k' (src + 1) new_page;; ret (match r with Some l => Some (c :: l) | None => None end)
    else ret None
  end.
(** The string at src, when it ends within max_len bytes; None is the result -1 *)
Definition copy_user_string (src max_len : Z) : S (option (list Z)) :=
  if (src =? 0) || (max_len =? 0) then ret None
  else
    p <- on_env (vmm_virt_to_phys (page_of src));;
    match p with
    | None => ret None
    | Some _ => copy_string_loop (Z.to_nat (max_len - 1)) src (page_of src)
    end.

(** ** Arguments of programs *)

Fixpoint free_bufs (l : list (Z * list Z)) : S unit :=
  match l with
  | [] => ret tt
  | (p, _) :: l' => (if p =? 0 then ret tt else on_env (kfree p));;; free_bufs l'
  end.
Definition free_kernel_argv (argv : option kargv) (argc : Z) : S unit :=
  match argv with
  | None => ret tt
  | Some ka => if argc <=? 0 then ret tt else free_bufs (ka_bufs ka);;; on_env (kfree (ka_array ka))
  end.
Fixpoint copy_argv_loop (k : nat) (user_argv argc : Z) (ka : kargv) : S (option kargv) :=
  match k with
  | O => ret (Some ka)
  | Datatypes.S k' =>
    user_str <- load32 user_argv;;
    buf <- on_env (kmalloc MAX_PATH_LEN);;
    if buf =? 0 then free_kernel_argv (Some ka) argc;;; ret None
    else
      r <- copy_user_string user_str MAX_PATH_LEN;;
      match r with
      | None => on_env (kfree buf);;; free_kernel_argv (Some ka) argc;;; ret None
      | Some str => copy_argv_loop k' (user_argv + 4) argc (Kargv (ka_array ka) (ka_bufs ka ++ [(buf, str)]))
      end
  end.
(** None is the result -1; Some None leaves the table NULL *)
Definition copy_user_argv (argv_ptr argc : Z) : S (option (option kargv)) :=
  if argv_ptr =? 0 then ret (if argc <=? 0 then Some None else None)
  else if argc <=? 0 then ret (Some None)
  else if MAX_ARGC <? argc then ret None
  else
    ok <- validate_user_buffer argv_ptr (4 * argc);;
    if negb ok then ret None
    else
      a <- on_env (kmalloc (4 * argc));;
      if a =? 0 then ret None
      else r <- copy_argv_loop (Z.to_nat argc) argv_ptr argc (Kargv a []);; ret (match r with Some ka => Some (Some ka) | None => None end).
Definition argv_strings (argv : option kargv) : list (list Z) := match argv with Some ka => map snd (ka_bufs ka) | None => [] end.

(** ** Open files *)

Fixpoint find_unused (l : list syscall_fd_t) (i : Z) : option Z :=
  match l with
  | [] => None
  | f :: l' => if used f then find_unused l' (i + 1) else Some i
  end.
Definition alloc_fd (owner : Z) : S Z :=
  t <- gets fd_table;;
  match find_unused t 0 with
  | None => ret (-1)
  | Some i => set_fd i (Fd true owner 0 0 []);;; ret i
  end.
Definition get_fd (fd owner : Z) : S (option syscall_fd_t) :=
  if MAX_OPEN_FILES <=? fd then ret None
  else
    t <- gets fd_table;;
    f <- lift_opt (t !! Z.to_nat fd);;
    if negb (used f) then ret None
    else if negb (owner =? 0) && negb (owner_pid f =? owner) then ret None
    else ret (Some f).
Definition close_of (pid : Z) (f : syscall_fd_t) : syscall_fd_t := if used f && (owner_pid f =? pid) then no_fd else f.
Definition sys_close_fds_for_pid (pid : Z) : S unit :=
  if pid =? 0 then ret tt
  else modify (fun s => Mk (env s) (regs s) (map (close_of pid) (fd_table s)) (gui_queue s) (gui_queue_head s) (gui_queue_tail s) (gui_server_pid s)).

(** An operation of proc.c, with the descriptors that it closes on the way *)
Fixpoint close_all (pids : list Z) : S unit :=
  match pids with
  | [] => ret tt
  | pid :: l => sys_close_fds_for_pid pid;;; close_all l
  end.
Definition on_proc {A} (c : M E (A * list Z)) : S A := r <- on_env c;; close_all (snd r);;; ret (fst r).

(** ** The message queue *)

Definition gui_queue_push (msg : sys_gui_msg_t) : S bool :=
  s <- get;;
  let next := u32 (gui_queue_head s + 1) mod GUI_QUEUE_MAX in
  if next =? gui_queue_tail s then ret false
  else set_queue (<[Z.to_nat (gui_queue_head s) := msg]> (gui_queue s)) next (gui_queue_tail s);;; ret true.
Definition gui_queue_pop : S (option sys_gui_msg_t) :=
  s <- get;;
  if gui_queue_head s =? gui_queue_tail s then ret None
  else
    msg <- lift_opt (gui_queue s !! Z.to_nat (gui_queue_tail s));;
    set_queue (gui_queue s) (gui_queue_head s) (u32 (gui_queue_tail s + 1) mod GUI_QUEUE_MAX);;;
    ret (Some msg).

Definition console_write_lock : S Z := on_env pushf_cli.
Definition console_write_unlock (flags : Z) : S unit := if Z.land flags EFLAGS_IF =? 0 then ret tt else on_env sti.

(** ** Printing *)

Definition print_motd_line (line : list Z) : S unit :=
  let line := if List.last line 0 =? 13 then removelast line else line in
  (match parse_motd_color_suffix line with
   | Some (text, fg, bg) => on_env (kprint_color text fg bg)
   | None => match line with [] => ret tt | _ => on_env (kprint line) end
   end);;;
  on_env (kprint [10]).
(** The lines of a text; after the last line feed there is no line more. *)
Fixpoint motd_lines (line l : list Z) : S unit :=
  match l with
  | [] => match line with [] => ret tt | _ => print_motd_line line end
  | c :: l' => if c =? 10 then print_motd_line line;;; motd_lines [] l' else motd_lines (line ++ [c]) l'
  end.
Definition print_motd_file (p : list Z) : S unit :=
  ex <- on_env (fscmd_exists p);;
  if negb ex then ret tt
  else
    r <- on_env (fscmd_read_file_by_name p 511);; let '(n, bytes) := r in
    if n <=? 0 then ret tt
    else motd_lines [] (cstr (take (Z.to_nat n) bytes)).
(** kprint reads until the terminator, wherever that is. *)
Definition kprint_step (a : Z) : S (Z + unit) :=
  c <- on_env (load8 (u32 a));;
  if c =? 0 then ret (inr tt) else on_env (kprint_char c);;; ret (inl (a + 1)).
Fixpoint write_console (l : list Z) : S unit :=
  match l with
  | [] => ret tt
  | c :: l' => on_env (kprint_char c);;; write_console l'
  end.

(** ** The calls *)

Definition ebx : S Z := gets (fun s => r_ebx (regs s)).
Definition ecx : S Z := gets (fun s => r_ecx (regs s)).
Definition edx : S Z := gets (fun s => r_edx (regs s)).
Definition user_path (p : Z) : S (option (list Z)) := copy_user_string p MAX_PATH_LEN.

(** exit_to_shell *)
Definition to_trampoline : S unit := set_regs (with_return bin_exit_trampoline KERNEL_CS KERNEL_DS).
Definition sys_exit : S unit :=
  code <- ebx;; pid <- on_env proc_current_pid;; foreground <- on_env (proc_is_foreground_pid pid);;
  on_env (proc_exit code);;;
  if foreground : bool then to_trampoline
  else
    r <- gets regs;; ok <- on_proc (proc_schedule r false);;
    if ok : bool then ret tt else to_trampoline.
Definition sys_spawn_thread : S unit :=
  entry <- ebx;; name <- ecx;;
  child <- (if entry =? 0 then ret 0 else on_proc (proc_create name entry));;
  if child =? 0 then eax 0 else pid <- on_env (proc_pid child);; eax pid.
Definition sys_print_motd : S unit :=
  b <- ebx;;
  p <- (if b =? 0 then ret (Some MOTD_PATH) else user_path b);;
  match p with
  | None => eax 0
  | Some p => print_motd_file p;;; eax 1
  end.

(** The descriptor of an open file gets its path; size_of is asked for its size. *)
Definition open_fd (owner : Z) (p : list Z) (size_of : S Z) : S unit :=
  fd <- alloc_fd owner;;
  if fd <? 0 then eax (u32 (-1))
  else
    let p := take 255 p in
    set_fd fd (Fd true owner 0 0 p);;;
    sz <- size_of;;
    set_fd fd (Fd true owner 0 sz p);;;
    eax (u32 fd).
Definition sys_open : S unit :=
  b <- ebx;; r <- user_path b;;
  match r with
  | None => eax (u32 (-1))
  | Some p =>
    owner <- on_env proc_current_pid;;
    if is_console_path p then open_fd owner p (ret 0)
    else
      ex <- on_env (fscmd_exists p);;
      ok <- (if ex : bool then ret true else on_env (fscmd_write_file p []));;
      if negb ok then eax (u32 (-1)) else open_fd owner p (on_env (fscmd_get_file_size (take 255 p)))
  end.
Definition sys_read : S unit :=
  fdn <- ebx;; pid <- on_env proc_current_pid;; r <- get_fd fdn pid;; len <- ecx;; buf <- edx;;
  match r with
  | None => eax 0
  | Some fd =>
    if (len =? 0) || (buf =? 0) then eax 0
    else
      ok <- validate_user_buffer buf len;;
      if negb ok then eax (u32 (-1))
      else if size fd <=? offset fd then eax 0
      else
        let remaining := u32 (size fd - offset fd) in
        let to_read := if len <? remaining then len else remaining in
        r <- on_env (fscmd_read_file (path fd) (offset fd) to_read);; let '(n, bytes) := r in
        store_bytes buf bytes;;;
        if n <? 0 then eax (u32 (-1))
        else
          set_fd fdn (Fd (used fd) (owner_pid fd) (u32 (offset fd + n)) (size fd) (path fd));;;
          eax (u32 n)
  end.
Definition sys_write : S unit :=
  fdn <- ebx;; pid <- on_env proc_current_pid;; r <- get_fd fdn pid;; len <- ecx;; buf <- edx;;
  match r with
  | None => eax (u32 (-1))
  | Some fd =>
    if len =? 0 then eax 0
    else
      ok <- (if buf =? 0 then ret false else validate_user_buffer buf len);;
      if negb ok then eax (u32 (-1))
      else
        data <- load_bytes (Z.to_nat len) buf;;
        if is_console_path (path fd) then
          flags <- console_write_lock;; write_console data;;; console_write_unlock flags;;; eax len
        else
          w <- on_env (fscmd_write_file (path fd) data);;
          if negb w then eax (u32 (-1))
          else set_fd fdn (Fd (used fd) (owner_pid fd) 0 len (path fd));;; eax len
  end.
Definition sys_close : S unit :=
  fdn <- ebx;; pid <- on_env proc_current_pid;; r <- get_fd fdn pid;;
  match r with
  | None => eax (u32 (-1))
  | Some _ => set_fd fdn no_fd;;; eax 0
  end.

Definition sys_spawn : S unit :=
  b <- ebx;; c <- ecx;; d <- edx;; r <- user_path b;;
  match r with
  | None => eax 0
  | Some p =>
    let argc := s32 d in
    if argc <? 0 then eax 0
    else
      a <- copy_user_argv c argc;;
      match a with
      | None => eax 0
      | Some argv =>
        child <- on_proc (bin_create_process p (argv_strings argv) false);;
        pid <- (if child =? 0 then ret 0 else on_env (proc_pid child));;
        eax pid;;; free_kernel_argv argv argc
      end
  end.
Definition sys_wait : S unit :=
  pid <- ebx;;
  if pid =? 0 then eax WAIT_NO_SUCH
  else
    r <- on_env (proc_pid_exited pid);;
    match r with
    | Some code => eax code
    | None => alive <- on_env (proc_pid_alive pid);; eax (if alive : bool then WAIT_RUNNING else WAIT_NO_SUCH)
    end.
Definition free_image (image_base : Z) : S unit := if image_base =? 0 then ret tt else on_env (kfree image_base).
Definition sys_exec : S unit :=
  b <- ebx;; c <- ecx;; d <- edx;; r <- user_path b;;
  match r with
  | None => eax EXEC_ERR_FAULT
  | Some p =>
    let argc := s32 d in
    if argc <? 0 then eax EXEC_ERR_INVAL
    else
      a <- copy_user_argv c argc;;
      match a with
      | None => eax EXEC_ERR_FAULT
      | Some argv =>
        ex <- on_env (fscmd_exists p);;
        if negb ex then free_kernel_argv argv argc;;; eax EXEC_ERR_NOENT
        else
          img <- on_env (bin_load_image p);;
          match img with
          | None => free_kernel_argv argv argc;;; eax EXEC_ERR_NOEXEC
          | Some (entry, image_base, image_size, image_load_base) =>
            cur <- on_env proc_current;;
            k <- (if cur =? 0 then ret true else on_env (proc_is_kernel cur));;
            if k : bool then free_kernel_argv argv argc;;; free_image image_base;;; eax EXEC_ERR_PERM
            else
              ok <- on_env (proc_exec cur entry image_base image_size image_load_base (argv_strings argv));;
              if negb ok then free_kernel_argv argv argc;;; free_image image_base;;; eax EXEC_ERR_NOMEM
              else
                free_kernel_argv argv argc;;;
                on_env (proc_wake_vfork_parent cur);;;
                esp <- on_env (proc_context_esp cur);;
                on_env (set_sched_next_esp esp);;;
                eax 0
          end
      end
  end.
Definition sys_fork : S unit :=
  parent <- on_env proc_current;;
  r <- gets regs;; child <- on_proc (proc_fork r);;
  if child =? 0 then eax (u32 (-1))
  else
    pid <- on_env (proc_pid child);; eax pid;;;
    r <- gets regs;; ok <- on_env (proc_make_current child r);;
    if ok : bool then
      (if parent =? 0 then ret tt else on_env (proc_block parent));;;
      esp <- on_env (proc_context_esp child);; on_env (set_sched_next_esp esp)
    else eax (u32 (-1)).

(** The calls that take a path and hand it on: needed says that a NULL path is refused. *)
Definition with_path (needed : bool) (f : option (list Z) -> S unit) : S unit :=
  b <- ebx;;
  if b =? 0 then if needed then eax 0 else f None
  else
    r <- user_path b;;
    match r with
    | None => eax 0
    | Some p => f (Some p)
    end.
Definition nonempty (p : option (list Z)) : option (list Z) := match p with Some [] => None | _ => p end.
Definition sys_ls : S unit := with_path false (fun p => on_env (fscmd_ls (nonempty p));;; eax 1).
Definition sys_cat : S unit := with_path true (fun p => on_env (fscmd_cat (default [] p));;; eax 1).
Definition sys_chdir : S unit := with_path true (fun p => ok <- on_env (fscmd_cd (default [] p));; eax (if ok : bool then 1 else 0)).
Definition sys_note : S unit := with_path true (fun p =>
  prev_kbd <- on_env keyboard_input_enabled;; on_env (note (default [] p));;; on_env (keyboard_set_input prev_kbd);;; on_env keyboard_flush;;; eax 1).
Definition sys_disk : S unit := with_path false (fun p => on_env (m_disk (default [] p));;; eax 1).

(** ** Screen and mouse *)

Definition sys_set_cursor : S unit :=
  b <- ebx;; cols <- on_env screen_get_cols;; rows <- on_env screen_get_rows;;
  let offset := s32 b in
  let max := s32 (cols * rows * 2) in
  let offset := if offset <? 0 then 0 else if max <=? offset then if 1 <? max then max - 2 else 0 else offset in
  on_env (set_cursor_offset offset);;; eax 0.
(** A structure of the caller of n bytes: None when it is not there *)
Definition user_struct (n : Z) : S (option Z) :=
  b <- ebx;;
  if b =? 0 then ret None else ok <- validate_user_buffer b n;; ret (if ok : bool then Some b else None).
Definition sys_fb_info : S unit :=
  r <- user_struct 28;;
  match r with
  | None => eax 0
  | Some b =>
    info <- on_env screen_get_framebuffer_info;;
    match info with
    | None => eax 0
    | Some i =>
      store_bytes b (concat (map bytes32 [fb_width i; fb_height i; fb_pitch i; fb_bpp i; fb_bytes_per_pixel i; fb_font_w i; fb_font_h i]));;; eax 1
    end
  end.
Definition sys_fb_fill_rect : S unit :=
  r <- user_struct 20;;
  match r with
  | None => eax 0
  | Some b =>
    l <- load_bytes 20 b;;
    on_env (screen_fb_fill_rect (s32 (get32 l 0)) (s32 (get32 l 4)) (s32 (get32 l 8)) (s32 (get32 l 12)) (get32 l 16));;; eax 1
  end.
Definition sys_fb_draw_text : S unit :=
  r <- user_struct 24;;
  match r with
  | None => eax 0
  | Some b =>
    l <- load_bytes 24 b;;
    if get32 l 20 =? 0 then eax 0
    else
      t <- copy_user_string (get32 l 20) 256;;
      match t with
      | None => eax 0
      | Some str =>
        let transparent := negb (Z.land (get32 l 16) SYS_FB_TEXT_TRANSPARENT =? 0) in
        on_env (screen_fb_draw_text (s32 (get32 l 0)) (s32 (get32 l 4)) str (get32 l 8) (get32 l 12) transparent);;; eax 1
      end
  end.
Definition sys_mouse_state : S unit :=
  r <- user_struct 12;;
  match r with
  | None => eax 0
  | Some b => r <- on_env mouse_state;; let '(x, y, buttons) := r in store_bytes b (bytes32 (u32 x) ++ bytes32 (u32 y) ++ bytes32 (u32 buttons));;; eax 1
  end.

(** ** The graphical server *)

Definition MSG_SIZE : Z := 20 + GUI_MSG_TEXT_MAX.
Definition msg_of (l : list Z) : sys_gui_msg_t := Msg (get32 l 0) (get32 l 4) (get32 l 8) (get32 l 12) (get32 l 16) (take 256 (drop 20 l)).
Definition msg_bytes (m : sys_gui_msg_t) : list Z :=
  bytes32 (sender_pid m) ++ bytes32 (type m) ++ bytes32 (msg_a m) ++ bytes32 (msg_b m) ++ bytes32 (msg_c m) ++ text m.
Definition sys_gui_bind : S unit :=
  pid <- on_env proc_current_pid;; server <- gets gui_server_pid;;
  taken <- (if (server =? 0) || (server =? pid) then ret false else on_env (proc_pid_alive server));;
  if taken : bool then eax 0
  else set_server pid;;; q <- gets gui_queue;; set_queue q 0 0;;; eax 1.
Definition sys_gui_send : S unit :=
  server <- gets gui_server_pid;;
  if server =? 0 then eax 0
  else
    r <- user_struct MSG_SIZE;;
    match r with
    | None => eax 0
    | Some b =>
      l <- load_bytes (Z.to_nat MSG_SIZE) b;;
      pid <- on_env proc_current_pid;;
      let m := msg_of l in
      flags <- console_write_lock;;
      ok <- gui_queue_push (Msg pid (type m) (msg_a m) (msg_b m) (msg_c m) (text m));;
      console_write_unlock flags;;;
      eax (if ok : bool then 1 else 0)
    end.
Definition sys_gui_recv : S unit :=
  pid <- on_env proc_current_pid;; server <- gets gui_server_pid;;
  if negb (pid =? server) then eax 0
  else
    r <- user_struct MSG_SIZE;;
    match r with
    | None => eax 0
    | Some b =>
      flags <- console_write_lock;;
      m <- gui_queue_pop;;
      console_write_unlock flags;;;
      match m with
      | None => eax 0
      | Some msg => store_bytes b (msg_bytes msg);;; eax 1
      end
    end.

Definition sys_dir_list : S unit :=
  r <- user_struct 20;;
  match r with
  | None => eax (u32 (-1))
  | Some b =>
    l <- load_bytes 20 b;;
    let path_ptr := get32 l 0 in let names_ptr := get32 l 4 in let is_dir_ptr := get32 l 8 in
    if (names_ptr =? 0) || (is_dir_ptr =? 0) || (get32 l 12 =? 0) || (get32 l 16 =? 0) then eax 0
    else
      let max_entries := if 256 <? get32 l 12 then 256 else get32 l 12 in
      let name_len := if 64 <? get32 l 16 then 64 else get32 l 16 in
      ok <- validate_user_buffer names_ptr (max_entries * name_len);;
      ok <- (if ok : bool then validate_user_buffer is_dir_ptr max_entries else ret false);;
      if negb ok then eax (u32 (-1))
      else
        p <- (if path_ptr =? 0 then ret (Some None) else r <- user_path path_ptr;; ret (match r with Some p => Some (nonempty (Some p)) | None => None end));;
        match p with
        | None => eax (u32 (-1))
        | Some p =>
          r <- on_env (fscmd_list_dir p max_entries name_len);; let '(count, names, is_dir) := r in
          store_bytes names_ptr names;;; store_bytes is_dir_ptr is_dir;;;
          eax (if count <? 0 then u32 (-1) else u32 count)
        end
  end.

Definition syscall_handler : S unit :=
  num <- gets (fun s => r_eax (regs s));;
  match num with
  | 1 => on_env orion_config_load;;; on_env parse_bootcmd;;; on_env bootlog_disable;;; on_env (kprint [10])
  | 2 => b <- ebx;; if b =? 0 then ret tt else loop kprint_step b
  | 3 => on_env clear_screen
  | 4 => b <- ebx;; c <- ecx;; on_env (beep b c)
  | 5 => on_env pause
  | 6 => key <- on_env getkey;; set_regs (with_ecx (u32 key))
  | 7 => on_env reboot
  | 8 => sys_exit
  | 9 => r <- gets regs;; on_proc (proc_schedule r true);;; ret tt
  | 10 => sys_spawn_thread
  | 11 => f <- on_env orion_boot_flags;; eax f
  | 12 => sys_open
  | 13 => sys_read
  | 14 => sys_write
  | 15 => sys_close
  | 16 => ok <- on_proc proc_start_reaper;; eax (if ok : bool then 1 else 0)
  | 17 => sys_print_motd
  | 18 => sys_spawn
  | 19 => sys_wait
  | 20 => sys_exec
  | 21 => sys_ls
  | 22 => sys_cat
  | 23 => sys_chdir
  | 24 => sys_note
  | 25 => sys_fork
  | 26 => sys_disk
  | 27 => on_env cmd_disk_ls;;; on_env (fscmd_cd HOME);;; ret tt
  | 28 => o <- on_env get_cursor_offset;; eax (u32 o)
  | 29 => sys_set_cursor
  | 30 => sys_fb_info
  | 31 => sys_fb_fill_rect
  | 32 => sys_fb_draw_text
  | 33 => b <- ebx;; on_env (screen_set_cursor_visible (negb (b =? 0)));;; eax 1
  | 34 => sys_mouse_state
  | 35 => b <- ebx;; on_env (mouse_set_draw (negb (b =? 0)));;; eax 1
  | 36 => k <- on_env getkey_nonblock;; eax (u32 k)
  | 37 => sys_gui_bind
  | 38 => sys_gui_send
  | 39 => sys_gui_recv
  | 40 => sys_dir_list
  | _ => ret tt
  end.
End handler.
End Syscall.
