(* ===== verification/SysSafe.v ===== *)
(** * System calls: every call returns

    Whatever the registers hold, the handler touches only memory of the process that is mapped, and
    gives back every block it takes from the heap. *)
From S2P Require Import Prelude SysEnv Syscall.
Import Syscall.

(** ** Pages *)

Lemma page_of_mul a : is_u32 a -> page_of a = 4096 * (a / 4096).
Proof.
  intros Ha. unfold page_of. change 0xFFFFF000 with (Z.ldiff (Z.ones 32) (Z.ones 12)). rewrite Z.ldiff_land, Z.land_assoc, Z.land_ones by lia.
  rewrite Z.mod_small by (unfold is_u32 in Ha; lia). rewrite <-Z.ldiff_land, Z.ldiff_ones_r by lia. rewrite Z.shiftl_mul_pow2, Z.shiftr_div_pow2 by lia. change (2 ^ 12) with 4096. lia.
Qed.
Lemma page_of_range a : is_u32 a -> is_u32 (page_of a) /\ page_of a <= a < page_of a + 4096 /\ page_of a mod 4096 = 0.
Proof. intros Ha. rewrite page_of_mul by done. unfold is_u32 in *. word_lia. Qed.

Section safe.
Context {E : Type} `{SysEnvOk E}.
Implicit Types s : @sys E.

(** Every byte of the size bytes from addr on is in a mapped page; the range does not wrap around. *)
Definition accessible (e : E) (addr size : Z) : Prop :=
  addr + size <= 4294967296 /\ forall x, addr <= x < addr + size -> page_mapped e (page_of x) = true.

Definition regs_ok (r : registers_t) : Prop := is_u32 (r_eax r) /\ is_u32 (r_ebx r) /\ is_u32 (r_ecx r) /\ is_u32 (r_edx r).
Definition fd_ok (f : syscall_fd_t) : Prop := is_u32 (offset f) /\ is_u32 (size f) /\ path_ok (path f).
Definition msg_ok (m : sys_gui_msg_t) : Prop := length (text m) = 256%nat /\ Forall is_u8 (text m).
Record sys_ok s : Prop := {
  so_env : env_ok (env s);
  so_regs : regs_ok (regs s);
  so_fds : length (fd_table s) = 16%nat;
  so_fd : Forall fd_ok (fd_table s);
  so_queue : length (gui_queue s) = 64%nat;
  so_msgs : Forall msg_ok (gui_queue s);
  so_head : 0 <= gui_queue_head s < 64;
  so_tail : 0 <= gui_queue_tail s < 64;
}.
Definition with_env (e : E) s : sys := Mk e (regs s) (fd_table s) (gui_queue s) (gui_queue_head s) (gui_queue_tail s) (gui_server_pid s).
Lemma wp_sys_env {A} F (c : M E A) (Q : A -> sys -> Prop) s : wp F c (fun a e => Q a (with_env e s)) (env s) -> wp F (on_env c) Q s.
Proof. unfold wp, on_env. by destruct (c (env s)) as [[a e]| |]. Qed.
Lemma sys_ok_env e s : sys_ok s -> env_ok e -> sys_ok (with_env e s).
Proof. intros [] He. by constructor. Qed.
Lemma on_env_eq {A} (c : M E A) s a : c (env s) = Ok (a, env s) -> on_env c s = Ok (a, s).
Proof. unfold on_env. intros ->. by destruct s. Qed.

(** ** The memory of the process *)

Lemma virt_eq s p : env_ok (env s) -> exists x, on_env (vmm_virt_to_phys p) s = Ok (x, s) /\ (is_Some x <-> page_mapped (env s) p = true).
Proof. intros He. destruct (virt_law (env s) p He) as (x & Ex & Hx). exists x. split; [by apply on_env_eq|done]. Qed.
Lemma load8_eq s a : env_ok (env s) -> page_mapped (env s) (page_of a) = true -> on_env (load8 a) s = Ok (umem (env s) a, s).
Proof. intros He Hp. destruct (load_law (env s) a He Hp) as [El _]. by apply on_env_eq. Qed.
Definition ubytes (e : E) (a : Z) (n : nat) : list Z := map (fun i => umem e (a + Z.of_nat i)) (seq 0 n).
Lemma ubytes_S e a n : ubytes e a (S n) = umem e a :: ubytes e (a + 1) n.
Proof.
  unfold ubytes. cbn [seq map]. rewrite Z.add_0_r. f_equal. rewrite <-seq_shift, map_map. apply map_ext. intros i. f_equal. lia.
Qed.
Lemma load_bytes_eq n : forall s a, env_ok (env s) -> 0 <= a -> accessible (env s) a (Z.of_nat n) -> load_bytes n a s = Ok (ubytes (env s) a n, s).
Proof.
  induction n as [|n IH]; intros s a He Ha [Hw Hm]; [done|]. cbn [load_bytes]. rewrite u32_small by (unfold is_u32; lia). unfold bind at 1.
  rewrite load8_eq by (done || apply Hm; lia). unfold bind. rewrite IH; [|done|lia|split; [lia|intros x Hx; apply Hm; lia]]. by rewrite ubytes_S.
Qed.
Lemma ubytes_u8 e a n : env_ok e -> accessible e a (Z.of_nat n) -> Forall is_u8 (ubytes e a n) /\ length (ubytes e a n) = n.
Proof.
  intros He [_ Hm]. unfold ubytes. split; [|by rewrite length_map, length_seq]. apply list.Forall_forall. intros x (i & <- & Hi%in_seq)%list_elem_of_In%in_map_iff.
  apply (load_law e _ He), Hm. lia.
Qed.

(** validate_user_buffer looks at every page of the range. *)
Lemma validate_loop s end_ : env_ok (env s) -> is_u32 end_ -> forall addr, is_u32 addr -> addr <= end_ ->
  exists b, loop (validate_step (page_of end_)) (page_of addr) s = Ok (b, s) /\ (b = true <-> forall x, page_of addr <= x <= end_ -> page_mapped (env s) (page_of x) = true).
Proof.
  intros He Hend addr Haddr Hle. destruct (page_of_range end_ Hend) as (He1 & He2 & He3). destruct (page_of_range addr Haddr) as (Ha1 & Ha2 & Ha3).
  set (I := fun (k : nat) p s' => s' = s /\ is_u32 p /\ p mod 4096 = 0 /\ page_of addr <= p <= page_of end_ /\ Z.of_nat k = (page_of end_ - p) / 4096 /\
    forall x, page_of addr <= x < p -> page_mapped (env s) (page_of x) = true).
  assert (wp False (loop (validate_step (page_of end_)) (page_of addr)) (fun b s' => s' = s /\ (b = true <-> forall x, page_of addr <= x <= end_ -> page_mapped (env s) (page_of x) = true)) s) as Hw.
  2:{ apply wp_run in Hw as (b & s' & Eq & -> & Hb). eauto. }
  assert (page_of addr <= page_of end_) as Hpp by (rewrite !page_of_mul by done; word_lia).
  apply (wp_loop False _ I _ (Z.to_nat ((page_of end_ - page_of addr) / 4096))).
  - intros k p s' (-> & Hp & Hpm & Hpr & Hk & Hbelow). unfold validate_step. apply wp_bind. destruct (virt_eq s p He) as (x & Ex & Hx). eapply wp_ok; [exact Ex|].
    assert (forall y, p <= y < p + 4096 -> is_u32 y -> page_of y = p) as Hpage by (intros y Hy Hyu; rewrite page_of_mul by done; word_lia).
    assert (page_mapped (env s) p = true -> forall y, page_of addr <= y < p + 4096 -> is_u32 y -> page_mapped (env s) (page_of y) = true) as Hcov.
    { intros Hpt y Hy Hyu. destruct (decide (y < p)); [apply Hbelow; lia|]. rewrite Hpage by (done || lia). done. }
    destruct x as [ph|].
    + assert (page_mapped (env s) p = true) as Hpt by (apply Hx; eauto). apply wp_if; intros Hb; [apply Z.eqb_eq in Hb|apply Z.eqb_neq in Hb].
      * apply wp_ret. split; [done|]. split; [|done]. intros _ y Hy. apply Hcov; [done|lia|unfold is_u32 in *; lia].
      * assert (p + 4096 <= page_of end_) as Hnx by word_lia. unfold PAGE_SIZE. rewrite u32_small by (unfold is_u32 in *; lia). rewrite (proj2 (Z.ltb_ge _ _)) by lia. apply wp_ret.
        exists (Z.to_nat ((page_of end_ - (p + 4096)) / 4096)). assert (Z.of_nat k = (page_of end_ - (p + 4096)) / 4096 + 1) as Hk' by (rewrite Hk; word_lia).
        assert (0 <= (page_of end_ - (p + 4096)) / 4096) by word_lia. split; [lia|]. unfold I. split; [done|]. split; [unfold is_u32 in *; lia|]. split; [word_lia|]. split; [lia|]. split; [lia|].
        intros y Hy. apply Hcov; [done|lia|unfold is_u32 in *; lia].
    + apply wp_ret. split; [done|]. split; [done|]. intros Hall. exfalso. assert (page_mapped (env s) p = true) as Hpt.
      { rewrite <-(Hpage p) by (done || lia). apply Hall. lia. }
      apply Hx in Hpt as [? ?]. done.
  - unfold I. split_and!; try done; try lia; try apply Ha1. + assert (0 <= (page_of end_ - page_of addr) / 4096) by word_lia. lia.
  - unfold is_u32 in *. word_lia.
Qed.
Lemma validate_exact s addr n : env_ok (env s) -> is_u32 addr -> is_u32 n ->
  exists b, validate_user_buffer addr n s = Ok (b, s) /\ (b = true <-> n = 0 \/ (addr <> 0 /\ accessible (env s) addr n)).
Proof.
  intros He Ha Hn. unfold validate_user_buffer. destruct (Z.eqb_spec n 0) as [->|Hn0]; [exists true; split; [done|]; split; [by left|done]|].
  destruct (Z.eqb_spec addr 0) as [->|Ha0]; [exists false; split; [done|]; split; [done|]; intros [?|[? _]]; lia|]. unfold is_u32 in *.
  destruct (Z.ltb_spec (u32 (addr + n - 1)) addr) as [Hlt|Hge].
  - exists false. split; [done|]. split; [done|]. intros [?|[_ [Hw _]]]; [lia|]. rewrite u32_small in Hlt by (unfold is_u32; lia). lia.
  - assert (addr + n <= 4294967296) as Hw by (unfold u32 in Hge; word_lia). rewrite u32_small in * by (unfold is_u32; lia).
    destruct (validate_loop s (addr + n - 1) He ltac:(unfold is_u32; lia) addr ltac:(unfold is_u32; lia) Hge) as (b & Eb & Hb). exists b. split; [done|]. rewrite Hb.
    destruct (page_of_range addr ltac:(unfold is_u32; lia)) as (Hp1 & Hp2 & Hp3). unfold is_u32 in *. split.
    + intros Hall. right. split; [done|]. split; [done|]. intros x Hx. apply Hall. lia.
    + intros [?|[_ [_ Hall]]]; [lia|]. intros x Hx. destruct (decide (x < addr)); [|apply Hall; lia].
      replace (page_of x) with (page_of addr); [apply Hall; lia|]. rewrite !page_of_mul by (unfold is_u32; lia). rewrite page_of_mul in Hx, Hp2 by (unfold is_u32; lia). word_lia.
Qed.

(** The string l ends within k bytes from a on, all of them mapped. *)
Definition user_string (e : E) (a : Z) (k : nat) (l : list Z) : Prop :=
  (length l < k)%nat /\ (forall i, (i <= length l)%nat -> page_mapped e (page_of (u32 (a + Z.of_nat i))) = true) /\
  (forall i c, l !! i = Some c -> c <> 0 /\ umem e (u32 (a + Z.of_nat i)) = c) /\ umem e (u32 (a + Z.of_nat (length l))) = 0.
Lemma user_string_cons e a k c l : user_string e a (S k) (c :: l) <->
  page_mapped e (page_of (u32 a)) = true /\ c <> 0 /\ umem e (u32 a) = c /\ user_string e (a + 1) k l.
Proof.
  unfold user_string. split.
  - intros (Hl & Hp & Hc & Hz). split_and!.
    + specialize (Hp 0%nat ltac:(lia)). by rewrite Z.add_0_r in Hp.
    + by apply (Hc 0%nat c).
    + destruct (Hc 0%nat c eq_refl) as [_ Hu]. by rewrite Z.add_0_r in Hu.
    + simpl in Hl. lia.
    + intros i Hi. specialize (Hp (S i) ltac:(simpl; lia)). by replace (a + 1 + Z.of_nat i) with (a + Z.of_nat (S i)) by lia.
    + intros i d Hd. destruct (Hc (S i) d Hd) as [? ?]. by replace (a + 1 + Z.of_nat i) with (a + Z.of_nat (S i)) by lia.
    + simpl in Hz. by replace (a + 1 + Z.of_nat (length l)) with (a + Z.of_nat (S (length l))) by lia.
  - intros (Hp0 & Hc0 & Hu0 & Hl & Hp & Hc & Hz). split_and!.
    + simpl. lia.
    + intros [|i] Hi; [by rewrite Z.add_0_r|]. simpl in Hi. replace (a + Z.of_nat (S i)) with (a + 1 + Z.of_nat i) by lia. apply Hp. lia.
    + intros [|i] d Hd; [injection Hd as <-; by rewrite Z.add_0_r|]. replace (a + Z.of_nat (S i)) with (a + 1 + Z.of_nat i) by lia. by apply Hc.
    + simpl. by replace (a + Z.of_nat (S (length l))) with (a + 1 + Z.of_nat (length l)) by lia.
Qed.
Lemma user_string_nil e a k : user_string e a (S k) [] <-> page_mapped e (page_of (u32 a)) = true /\ umem e (u32 a) = 0.
Proof.
  unfold user_string. simpl. rewrite Z.add_0_r. split.
  - intros (_ & Hp & _ & Hz). specialize (Hp 0%nat ltac:(lia)). by rewrite Z.add_0_r in Hp.
  - intros [Hp Hz]. split_and!; [lia| |done|done]. intros [|i] Hi; [by rewrite Z.add_0_r|lia].
Qed.
Lemma copy_string_exact k : forall s a page, env_ok (env s) -> page_mapped (env s) page = true ->
  exists r, copy_string_loop k a page s = Ok (r, s) /\ forall l, r = Some l <-> user_string (env s) a k l.
Proof.
  induction k as [|k IH]; intros s a page He Hpg; cbn [copy_string_loop].
  { exists None. split; [done|]. intros l. split; [done|]. intros [? _]. lia. }
  set (np := page_of (u32 a)). assert (exists ok, (if np =? page then ret true else p <- on_env (vmm_virt_to_phys np);; ret (if p then true else false)) s = Ok (ok, s) /\ (ok = true <-> page_mapped (env s) np = true)) as (ok & Eok & Hok).
  { destruct (Z.eqb_spec np page) as [->|]; [by exists true|]. destruct (virt_eq s np He) as (x & Ex & Hx). exists (if x then true else false). unfold bind. rewrite Ex. split; [done|].
    rewrite <-Hx. destruct x; split; [eauto|done|done|by intros [? ?]]. }
  unfold bind at 1. rewrite Eok. destruct ok.
  - assert (page_mapped (env s) np = true) as Hnp by (by apply Hok). unfold bind. rewrite load8_eq by done. destruct (Z.eqb_spec (umem (env s) (u32 a)) 0) as [E0|E0].
    + exists (Some []). split; [done|]. intros [|c l].
      * rewrite user_string_nil. split; done.
      * rewrite user_string_cons. split; [done|]. intros (_ & ? & ? & _). congruence.
    + destruct (IH s (a + 1) np He Hnp) as (r & Er & Hr). rewrite Er. exists (match r with Some l => Some (umem (env s) (u32 a) :: l) | None => None end). split; [by destruct r|].
      intros [|c l].
      * rewrite user_string_nil. split; [by destruct r|]. intros [_ ?]. done.
      * rewrite user_string_cons, <-Hr. destruct r as [l'|]; [|split; [done|]; by intros (_ & _ & _ & ?)]. split; [intros [= <- <-]; done|]. by intros (_ & _ & -> & [= ->]).
  - exists None. split; [done|]. intros l. split; [done|]. intros Hl. exfalso. assert (page_mapped (env s) np = true) as Hnp; [|apply Hok in Hnp; done]. destruct l as [|c l]; [apply user_string_nil in Hl|apply user_string_cons in Hl]; by destruct Hl.
Qed.
Lemma copy_user_exact s src mx : env_ok (env s) -> is_u32 src -> 1 < mx ->
  exists r, copy_user_string src mx s = Ok (r, s) /\ forall l, r = Some l <-> src <> 0 /\ user_string (env s) src (Z.to_nat (mx - 1)) l.
Proof.
  intros He Hs Hm. unfold copy_user_string. destruct (Z.eqb_spec src 0) as [->|Hs0]; [exists None; split; [done|]; intros l; split; [done|by intros [? _]]|].
  rewrite (proj2 (Z.eqb_neq mx 0)) by lia. cbn [orb]. destruct (virt_eq s (page_of src) He) as (x & Ex & Hx). unfold bind. rewrite Ex. destruct x as [ph|].
  - destruct (copy_string_exact (Z.to_nat (mx - 1)) s src (page_of src) He) as (r & Er & Hr); [apply Hx; eauto|]. exists r. split; [done|]. intros l. rewrite Hr. tauto.
  - exists None. split; [done|]. intros l. split; [done|]. intros (_ & Hl & Hp & _). specialize (Hp 0%nat ltac:(lia)). rewrite Z.add_0_r, u32_small in Hp by done. apply Hx in Hp as [? ?]. done.
Qed.

(** ** What a call keeps

    L are the blocks that the call has taken and still holds; mp says that the process and its pages
    are still those of the start.  The open files of other processes stay, unless these have exited. *)
Definition foreign s (f : syscall_fd_t) : Prop :=
  used f = true /\ cur_pid (env s) <> 0 /\ owner_pid f <> cur_pid (env s) /\ alive (env s) (owner_pid f) = true.
(** The descriptor i is not one of another process. *)
Definition own_slot s (i : Z) : Prop := forall f, fd_table s !! Z.to_nat i = Some f -> ~ foreign s f.
Record keep (mp : bool) s0 (L : list Z) s : Prop := {
  k_ok : sys_ok s;
  k_map : mp = true -> forall p, page_mapped (env s) p = page_mapped (env s0) p;
  k_pid : mp = true -> cur_pid (env s) = cur_pid (env s0);
  k_fds : forall i f, fd_table s0 !! i = Some f -> foreign s0 f -> fd_table s !! i = Some f;
  k_held : held (env s) = list_to_set L ∪ held (env s0);
  k_nodup : NoDup L;
  k_fresh : forall x, x ∈ L -> x ∉ held (env s0);
  k_alive : forall p, p <> cur_pid (env s0) -> alive (env s0) p = true -> alive (env s) p = true;
}.
Lemma keep_start s : sys_ok s -> keep true s [] s.
Proof. intros Hs. constructor; [done|done|done|done|set_solver|constructor|by intros x ?%elem_of_nil|done]. Qed.
(** The pages and the process that a change of the environment leaves *)
Definition stays (mp : bool) (e e' : E) : Prop := mp = true -> (forall p, page_mapped e' p = page_mapped e p) /\ cur_pid e' = cur_pid e.
Lemma keep_env_but mp s0 L s e : keep mp s0 L s -> env_ok e -> stays mp (env s) e -> held e = held (env s) ->
  (forall p, p <> cur_pid (env s0) -> alive (env s) p = true -> alive e p = true) -> keep mp s0 L (with_env e s).
Proof.
  intros [Hok Hm Hpi Hfd Hh Hn Hf Ha] He Hp Hhe Hal. constructor; [by apply sys_ok_env| | |done|cbn [env with_env]; congruence|done|done|]; [intros Hmp; cbn [env with_env]; destruct (Hp Hmp) as [Hp1 Hp2]..|].
  - intros p. rewrite Hp1. by apply Hm.
  - rewrite Hp2. by apply Hpi.
  - intros p Hne Hp0. cbn [env with_env]. auto.
Qed.
Lemma keep_env mp s0 L s e : keep mp s0 L s -> env_ok e -> stays mp (env s) e -> held e = held (env s) -> steady (env s) e -> keep mp s0 L (with_env e s).
Proof. intros Hk He Hp Hh [Ha _]. apply keep_env_but; auto. Qed.
Lemma keep_weaken mp s0 L s : keep mp s0 L s -> keep false s0 L s.
Proof. intros []. by constructor. Qed.
Lemma looks_serves {A} (c : M E A) : looks c -> serves c.
Proof. intros Hl e He. eapply wp_mono; [by apply Hl|]. by intros a e' [? _]. Qed.

Section rules.
Context (s0 : @sys E).

Lemma wp_answer {A} (P : A -> Prop) (c : M E A) mp L s (Q : A -> sys -> Prop) : keep mp s0 L s -> (forall e, env_ok e -> wp False c (fun a e' => same_user e e' /\ P a) e) ->
  (forall a s', keep mp s0 L s' -> P a -> Q a s') -> wp False (on_env c) Q s.
Proof.
  intros Hk Hc HQ. apply wp_sys_env. eapply wp_mono; [apply Hc, (so_env s (k_ok _ _ _ _ Hk))|]. intros a e' [[He Hm _ Hh Hp Hst] Ha]. apply HQ; [|done]. by apply keep_env.
Qed.
Lemma wp_serve {A} (c : M E A) mp L s (Q : A -> sys -> Prop) : keep mp s0 L s -> serves c -> (forall a s', keep mp s0 L s' -> Q a s') -> wp False (on_env c) Q s.
Proof. intros Hk Hc HQ. eapply (wp_answer (fun _ => True)); [exact Hk| |by intros; apply HQ]. intros e He. eapply wp_mono; [by apply Hc|done]. Qed.
Lemma wp_look {A} (c : M E A) mp L s (Q : A -> sys -> Prop) : keep mp s0 L s -> looks c -> (forall a s', keep mp s0 L s' -> Q a s') -> wp False (on_env c) Q s.
Proof. intros Hk Hc. by eapply wp_serve, looks_serves. Qed.
Lemma wp_switch {A} (c : M E A) mp L s (Q : A -> sys -> Prop) : keep mp s0 L s -> switches c -> (forall a s', keep false s0 L s' -> Q a s') -> wp False (on_env c) Q s.
Proof.
  intros Hk Hc HQ. apply wp_sys_env. eapply wp_mono; [apply Hc, (so_env s (k_ok _ _ _ _ Hk))|]. intros a e' (He & Hh & Hst). apply HQ. apply keep_env; [by eapply keep_weaken|done|done|done|done].
Qed.
(** Closing descriptors of processes that are not those of [foreign] ones *)
Lemma wp_close_all mp L l : forall s (Q : unit -> sys -> Prop), keep mp s0 L s -> (forall p, p ∈ l -> p = cur_pid (env s0) \/ alive (env s0) p = false) ->
  (forall s', keep mp s0 L s' -> Q tt s') -> wp False (close_all l) Q s.
Proof.
  induction l as [|p l IH]; intros s Q Hk Hl HQ; cbn [close_all]; [by apply wp_ret, HQ|]. apply wp_bind. assert (Hl' : forall q, q ∈ l -> q = cur_pid (env s0) \/ alive (env s0) q = false) by (intros q Hq; apply Hl; by right).
  unfold sys_close_fds_for_pid. destruct (p =? 0); [by apply wp_ret, IH|]. apply wp_modify, IH; [|done|done]. destruct Hk as [[] Hm Hpi Hfd Hh Hn Hf Ha]. constructor; try done.
  - constructor; try done; cbn [fd_table]; [by rewrite length_map|]. apply Forall_fmap. eapply list.Forall_impl; [exact so_fd0|]. intros f Hfo. unfold compose, close_of. destruct (_ && _); [|done]. split_and!; [unfold is_u32; cbn; lia..|apply path_nil].
  - intros i f Hi Hfo. cbn [fd_table]. change (map (close_of p) (fd_table s)) with (close_of p <$> fd_table s). rewrite list_lookup_fmap, (Hfd i f Hi Hfo). cbn. f_equal. unfold close_of. destruct Hfo as (_ & _ & Hne & Hal).
    destruct (Z.eqb_spec (owner_pid f) p) as [<-|]; [|by rewrite andb_false_r]. destruct (Hl (owner_pid f) ltac:(by left)); congruence.
Qed.
Lemma wp_recycle_in {A} (c : M E (A * list Z)) mp L s (Q : A -> sys -> Prop) : keep mp s0 L s -> recycles_in (env s) c -> (forall a s', keep false s0 L s' -> Q a s') -> wp False (on_proc c) Q s.
Proof.
  intros Hk Hc HQ. unfold on_proc. apply wp_bind, wp_sys_env. eapply wp_mono; [exact Hc|]. intros [a l] e' (He & Hh & Hst & Hl). cbn [fst snd] in *. apply wp_bind.
  eapply (wp_close_all false L); [apply keep_env; [by eapply keep_weaken|done|done|done|done]| |].
  - intros p Hp. rewrite list.Forall_forall in Hl. specialize (Hl p Hp). destruct (Z.eq_dec p (cur_pid (env s0))) as [|Hne]; [by left|right]. destruct (alive (env s0) p) eqn:Ea; [|done].
    by rewrite (k_alive _ _ _ _ Hk p Hne Ea) in Hl.
  - intros s' Hk'. by apply wp_ret, HQ.
Qed.
Lemma wp_recycle {A} (c : M E (A * list Z)) mp L s (Q : A -> sys -> Prop) : keep mp s0 L s -> recycles c -> (forall a s', keep false s0 L s' -> Q a s') -> wp False (on_proc c) Q s.
Proof. intros Hk Hc. eapply wp_recycle_in; [exact Hk|]. apply Hc, (so_env s (k_ok _ _ _ _ Hk)). Qed.
Lemma wp_sys_proc_exit L c s (Q : unit -> sys -> Prop) : keep true s0 L s -> (forall s', keep false s0 L s' -> Q tt s') -> wp False (on_env (proc_exit c)) Q s.
Proof.
  intros Hk HQ. apply wp_sys_env. eapply wp_mono; [apply exit_law, (so_env s (k_ok _ _ _ _ Hk))|]. intros [] e' (He & Hh & Ha). apply HQ. rewrite (k_pid _ _ _ _ Hk eq_refl) in Ha.
  apply keep_env_but; [by eapply keep_weaken|done|done|done|done].
Qed.
Lemma wp_pid L s (Q : Z -> sys -> Prop) : keep true s0 L s -> (is_u32 (cur_pid (env s0)) -> Q (cur_pid (env s0)) s) -> wp False (on_env proc_current_pid) Q s.
Proof. intros Hk HQ. destruct (pid_law (env s) (so_env s (k_ok _ _ _ _ Hk))) as [Ep Hp]. eapply wp_ok; [by apply on_env_eq|]. rewrite (k_pid _ _ _ _ Hk) in * by done. by apply HQ. Qed.
Lemma wp_gets_reg mp L s (f : registers_t -> Z) (Q : Z -> sys -> Prop) : keep mp s0 L s -> (forall r, regs_ok r -> is_u32 (f r)) -> (forall v, v = f (regs s) -> is_u32 v -> Q v s) -> wp False (gets (fun s => f (regs s))) Q s.
Proof. intros Hk Hf HQ. apply wp_gets, HQ; [done|]. apply Hf, (so_regs s (k_ok _ _ _ _ Hk)). Qed.
Lemma wp_regs mp L s (f : registers_t -> registers_t) (Q : unit -> sys -> Prop) : keep mp s0 L s -> (forall r, regs_ok r -> regs_ok (f r)) -> (forall s', keep mp s0 L s' -> Q tt s') -> wp False (set_regs f) Q s.
Proof. intros [[] Hm Hpi Hfd Hh Hn Hf2 Hal2] Hf HQ. apply wp_modify, HQ. constructor; try done. constructor; try done. by apply Hf. Qed.
Lemma wp_eax mp L s v (Q : unit -> sys -> Prop) : keep mp s0 L s -> is_u32 v -> (forall s', keep mp s0 L s' -> Q tt s') -> wp False (eax v) Q s.
Proof. intros Hk Hv HQ. eapply wp_regs; [exact Hk| |done]. intros r (? & ? & ? & ?). unfold regs_ok in *. by split_and!. Qed.
Lemma wp_set_fd mp L s i f (Q : unit -> sys -> Prop) : keep mp s0 L s -> fd_ok f -> own_slot s0 i ->
  (forall s', keep mp s0 L s' -> Q tt s') -> wp False (set_fd i f) Q s.
Proof.
  intros [[] Hm Hpi Hfd Hh Hn Hf2 Hal2] Hf Hno HQ. apply wp_modify, HQ. constructor; try done.
  - constructor; try done; cbn [fd_table]; [by rewrite length_insert|]. by apply Forall_insert.
  - intros j f0 Hj Hfo. cbn [fd_table]. pose proof (Hfd j f0 Hj Hfo) as Hj'. rewrite list_lookup_insert_ne; [done|]. intros <-. by apply (Hno f0).
Qed.
Lemma wp_set_queue mp L s q h t (Q : unit -> sys -> Prop) : keep mp s0 L s -> length q = 64%nat -> Forall msg_ok q -> 0 <= h < 64 -> 0 <= t < 64 ->
  (forall s', keep mp s0 L s' -> Q tt s') -> wp False (set_queue q h t) Q s.
Proof. intros [[] Hm Hpi Hfd Hh Hn Hf2 Hal2] Hq Hf Hh' Ht HQ. apply wp_modify, HQ. constructor; try done. Qed.
Lemma wp_set_server mp L s p (Q : unit -> sys -> Prop) : keep mp s0 L s -> (forall s', keep mp s0 L s' -> Q tt s') -> wp False (set_server p) Q s.
Proof. intros [[] Hm Hpi Hfd Hh Hn Hf2 Hal2] HQ. apply wp_modify, HQ. constructor; try done. Qed.

Lemma accessible_keep L s a n : keep true s0 L s -> accessible (env s0) a n <-> accessible (env s) a n.
Proof. intros [_ Hm _ _ _ _ _ _]. unfold accessible. setoid_rewrite Hm; done. Qed.
Lemma wp_validate L s a n (Q : bool -> sys -> Prop) : keep true s0 L s -> is_u32 a -> is_u32 n ->
  (forall b, (b = true -> n = 0 \/ (a <> 0 /\ accessible (env s0) a n)) -> Q b s) -> wp False (validate_user_buffer a n) Q s.
Proof.
  intros Hk Ha Hn HQ. destruct (validate_exact s a n (so_env s (k_ok _ _ _ _ Hk)) Ha Hn) as (b & Eb & Hb). eapply wp_ok; [exact Eb|]. apply HQ.
  rewrite Hb. by rewrite (accessible_keep L s a n Hk).
Qed.
Lemma wp_string L s a mx (Q : option (list Z) -> sys -> Prop) : keep true s0 L s -> is_u32 a -> 1 < mx -> (forall r, (forall l, r = Some l -> user_string (env s) a (Z.to_nat (mx - 1)) l) -> Q r s) -> wp False (copy_user_string a mx) Q s.
Proof. intros Hk Ha Hm HQ. destruct (copy_user_exact s a mx (so_env s (k_ok _ _ _ _ Hk)) Ha Hm) as (r & Er & Hr). eapply wp_ok; [exact Er|]. apply HQ. intros l ->. by apply Hr. Qed.
Lemma wp_load_bytes L s n a (Q : list Z -> sys -> Prop) : keep true s0 L s -> 0 <= a -> accessible (env s0) a (Z.of_nat n) ->
  (forall l, l = ubytes (env s) a n -> length l = n -> Forall is_u8 l -> Q l s) -> wp False (load_bytes n a) Q s.
Proof.
  intros Hk Ha Hac HQ. rewrite (accessible_keep L s a _ Hk) in Hac. pose proof (so_env s (k_ok _ _ _ _ Hk)) as He. eapply wp_ok; [by apply load_bytes_eq|].
  destruct (ubytes_u8 (env s) a n He Hac). by apply HQ.
Qed.
Lemma wp_store_bytes L l : forall s a (Q : unit -> sys -> Prop), keep true s0 L s -> 0 <= a -> accessible (env s0) a (Z.of_nat (length l)) -> Forall is_u8 l ->
  (forall s', keep true s0 L s' -> Q tt s') -> wp False (store_bytes a l) Q s.
Proof.
  induction l as [|b l IH]; intros s a Q Hk Ha [Hw Hac] Hu HQ; cbn [store_bytes]; [by apply wp_ret, HQ|]. apply list.Forall_cons in Hu as [Hb Hu]. cbn [length] in *.
  rewrite u32_small by (unfold is_u32; lia). apply wp_bind, wp_sys_env. eapply wp_mono.
  { apply (store_law (env s) a b (so_env s (k_ok _ _ _ _ Hk))); [|done]. change (Z.land a 0xFFFFF000) with (page_of a). rewrite (k_map _ _ _ _ Hk) by done. apply Hac. lia. }
  intros [] e' (He & Hm & Hh & Hp & Hst & _). eapply IH; [by apply keep_env|lia| |done|done]. split; [lia|]. intros x Hx. apply Hac. lia.
Qed.

(** Blocks taken and given back *)
Lemma keep_perm mp L L' s : L ≡ₚ L' -> keep mp s0 L s -> keep mp s0 L' s.
Proof.
  intros Hp [? ? ? ? Hh Hn Hf ?]. constructor; [done|done|done|done|rewrite Hh; f_equal; apply leibniz_equiv; by rewrite Hp|by rewrite <-Hp| |done]. intros x Hx. apply Hf. by rewrite Hp.
Qed.
Lemma keep_null mp L s x : keep mp s0 L s -> x ∈ L -> x <> 0.
Proof.
  intros Hk Hx ->. apply (held_null (env s) (so_env s (k_ok _ _ _ _ Hk))). rewrite (k_held _ _ _ _ Hk). apply elem_of_union_l. by apply elem_of_list_to_set.
Qed.
Lemma keep_take mp L s p : keep mp s0 L s -> p <> 0 -> p ∉ held (env s) -> forall e', env_ok e' -> stays mp (env s) e' ->
  held e' = {[p]} ∪ held (env s) -> steady (env s) e' -> keep mp s0 (p :: L) (with_env e' s).
Proof.
  intros [Hok Hm Hpi Hfd Hh Hn Hf Hal] Hp0 Hp e' He Hpg Hhe [Hst _]. rewrite Hh in Hp. apply not_elem_of_union in Hp as [Hp1 Hp2]. rewrite elem_of_list_to_set in Hp1.
  constructor; [by apply sys_ok_env| | |done|cbn [env with_env]; rewrite Hhe, Hh; set_solver|by constructor| |cbn [env with_env]; auto].
  - intros Hmp q. cbn [env with_env]. rewrite (proj1 (Hpg Hmp)). by apply Hm.
  - intros Hmp. cbn [env with_env]. rewrite (proj2 (Hpg Hmp)). by apply Hpi.
  - intros x [->|Hx]%elem_of_cons; [done|by apply Hf].
Qed.
Lemma keep_give mp L s p : keep mp s0 (p :: L) s -> forall e', env_ok e' -> stays mp (env s) e' ->
  held e' = held (env s) ∖ {[p]} -> steady (env s) e' -> keep mp s0 L (with_env e' s).
Proof.
  intros [Hok Hm Hpi Hfd Hh Hn Hf Hal] e' He Hpg Hhe [Hst _]. apply list.NoDup_cons in Hn as [HpL Hn]. pose proof (Hf p ltac:(by left)) as Hp0.
  constructor; [by apply sys_ok_env| | |done|cbn [env with_env]; rewrite Hhe, Hh; set_solver|done| |cbn [env with_env]; auto].
  - intros Hmp q. cbn [env with_env]. rewrite (proj1 (Hpg Hmp)). by apply Hm.
  - intros Hmp. cbn [env with_env]. rewrite (proj2 (Hpg Hmp)). by apply Hpi.
  - intros x Hx. apply Hf. by right.
Qed.
Lemma wp_sys_kmalloc mp L s n (Q : Z -> sys -> Prop) : keep mp s0 L s -> 0 < n -> (forall s', keep mp s0 L s' -> Q 0 s') ->
  (forall p s', p <> 0 -> keep mp s0 (p :: L) s' -> Q p s') -> wp False (on_env (kmalloc n)) Q s.
Proof.
  intros Hk Hn HN H1'. apply wp_sys_env. eapply wp_mono; [apply kmalloc_law; [apply (so_env s (k_ok _ _ _ _ Hk))|done]|]. intros p e' (He & Hm & _ & Hpi & Hst & [[-> Hh]|(Hp & Hf & Hh)]).
  - apply HN. by apply keep_env.
  - apply H1'; [done|]. by apply keep_take.
Qed.
Lemma wp_sys_kfree mp L s p (Q : unit -> sys -> Prop) : keep mp s0 (p :: L) s -> (forall s', keep mp s0 L s' -> Q tt s') -> wp False (on_env (kfree p)) Q s.
Proof.
  intros Hk HQ. apply wp_sys_env. eapply wp_mono; [apply kfree_law; [apply (so_env s (k_ok _ _ _ _ Hk))|rewrite (k_held _ _ _ _ Hk); set_solver]|].
  intros [] e' (He & Hm & _ & Hpi & Hst & Hh). apply HQ. by eapply keep_give.
Qed.
End rules.
End safe.
