(* ===== verification/SysCalls.v ===== *)
(** * System calls: the calls one by one

    Each call keeps the invariant of the handler, whatever its arguments are. *)
From S2P Require Import Prelude SysEnv Syscall SysSafe.
Import Syscall.

Create HintDb sys.
#[export] Hint Resolve name_law ls_law cat_law cd_law note_law disk_law disk_ls_law reaper_law config_law bootcmd_law bootlog_law path_nil path_home path_motd : sys.
#[export] Hint Resolve current_law is_kernel_law context_law foreground_law alive_law cli_law sti_law kprint_law color_law char_law clear_law beep_law cursor_law : sys.
#[export] Hint Resolve set_cursor_law cols_law rows_law fb_law rect_law text_law visible_law pause_law getkey_law getkey_nb_law kbd_law kbd_set_law flush_law mouse_law mouse_draw_law : sys.
#[export] Hint Resolve block_law schedule_law fork_law make_current_law wake_law next_esp_law create_process_law : sys.
Lemma u32_is x : is_u32 (u32 x).
Proof. unfold is_u32, u32. apply Z.mod_pos_bound. lia. Qed.
#[export] Hint Resolve u32_is : sys.

(** Every string at a that is short enough is a path that the file systems take. *)
Definition paths {E} `{SysEnvOk E} (s : @sys E) (a : Z) : Prop := forall l, user_string (env s) a 255 l -> path_ok l.
Lemma wp_user_path {E} `{SysEnvOk E} (s0 : @sys E) L s a (Q : option (list Z) -> @sys E -> Prop) : keep true s0 L s -> is_u32 a -> paths s a ->
  Q None s -> (forall l, path_ok l -> (length l < 255)%nat -> Q (Some l) s) -> wp False (user_path a) Q s.
Proof.
  intros Hk Ha Hp HN HS. eapply wp_string; [exact Hk|done|unfold MAX_PATH_LEN; lia|]. intros [l|] Hl; [|done]. specialize (Hl l eq_refl). apply HS; [by apply Hp|apply Hl].
Qed.
(** A path that may be missing *)
Definition opt_ok {E} `{SysEnvOk E} (p : option (list Z)) : Prop := forall q, p = Some q -> path_ok q.
Lemma opt_default {E} `{SysEnvOk E} (p : option (list Z)) : opt_ok p -> path_ok (default [] p).
Proof. intros Hp. destruct p as [q|]; [by apply Hp|apply path_nil]. Qed.
Lemma opt_nonempty {E} `{SysEnvOk E} (p : option (list Z)) : opt_ok p -> forall q, nonempty p = Some q -> path_ok q.
Proof. intros Hp q. destruct p as [[|c l]|]; [done| |done]. intros [= <-]. by apply Hp. Qed.
#[export] Hint Resolve opt_default opt_nonempty : sys.

(** Values of registers *)
Ltac u32_solve := first [assumption | apply u32_is | (unfold is_u32 in *; lia) | (vm_compute; split; congruence)].
Ltac fd_solve := split_and!; cbn [offset size path no_fd]; first [assumption | apply path_nil | u32_solve].
(** One step of a call under the invariant [keep] *)
Ltac sys_step :=
  match goal with
  | |- wp _ (bind _ _) _ _ => apply wp_bind
  | |- wp _ (ret _) _ _ => apply wp_ret
  | |- wp _ ebx _ _ => eapply (wp_gets_reg _ _ _ _ r_ebx); [eassumption|by intros r (? & ? & ? & ?)|intros ? ? ?]
  | |- wp _ ecx _ _ => eapply (wp_gets_reg _ _ _ _ r_ecx); [eassumption|by intros r (? & ? & ? & ?)|intros ? ? ?]
  | |- wp _ edx _ _ => eapply (wp_gets_reg _ _ _ _ r_edx); [eassumption|by intros r (? & ? & ? & ?)|intros ? ? ?]
  | |- wp _ (gets _) _ _ => apply wp_gets
  | |- wp _ (eax _) _ _ => eapply wp_eax; [eassumption|u32_solve|intros ? ?]
  | |- wp _ (on_env proc_current_pid) _ _ => eapply wp_pid; [eassumption|intros ?]
  | |- wp _ (on_env (proc_pid _)) _ _ => eapply (wp_answer _ is_u32); [eassumption|apply proc_pid_law|intros ? ? ? ?]
  | |- wp _ (on_env _) _ _ => eapply wp_look; [eassumption|solve [eauto with sys nocore]|intros ? ? ?]
  | |- wp _ (on_env _) _ _ => eapply wp_serve; [eassumption|solve [eauto with sys nocore]|intros ? ? ?]
  | |- wp _ (on_env _) _ _ => eapply wp_switch; [eassumption|solve [eauto with sys nocore]|intros ? ? ?]
  | |- wp _ (on_env (proc_exit _)) _ _ => eapply wp_sys_proc_exit; [eassumption|intros ? ?]
  | |- wp _ (on_proc _) _ _ => eapply wp_recycle; [eassumption|solve [eauto with sys nocore]|intros ? ? ?]
  | |- wp _ (user_path ?v) _ _ => eapply wp_user_path; [eassumption|u32_solve|solve [assumption | match goal with Hv : v = _ |- _ => rewrite Hv; assumption end]| |intros ? ? ?]; cbv beta iota
  | |- wp _ (if ?b then _ else _) _ _ => destruct b eqn:?
  | |- wp _ (let '(_, _) := ?r in _) _ _ => destruct r
  | |- wp _ (match ?r with Some _ => _ | None => _ end) _ _ => destruct r eqn:?
  end.

(** The invariant of the current state, taken apart *)
Ltac cur_ok := match goal with Hk : keep _ _ _ ?x |- wp _ _ _ ?x => pose proof (k_ok _ _ _ _ Hk) as [] end.

Section calls.
Context {E : Type} `{SysEnvOk E}.
Implicit Types s : @sys E.
Context (s0 : @sys E).
(** What a whole call leaves *)
Definition done_ (_ : unit) (s : @sys E) : Prop := exists mp, keep mp s0 [] s.
Lemma keep_done mp s u : keep mp s0 [] s -> done_ u s.
Proof. by exists mp. Qed.
Hint Resolve keep_done : sys.

(** ** Arguments of programs *)

Definition argv_blocks (a : option kargv) : list Z := match a with Some ka => map fst (ka_bufs ka) ++ [ka_array ka] | None => [] end.
Lemma wp_free_bufs l : forall mp L s (Q : unit -> sys -> Prop), keep mp s0 (map fst l ++ L) s -> (forall s', keep mp s0 L s' -> Q tt s') -> wp False (free_bufs l) Q s.
Proof.
  induction l as [|[p str] l IH]; intros mp L s Q Hk HQ; cbn [free_bufs map app fst] in *; [by apply wp_ret, HQ|].
  apply wp_bind. rewrite (proj2 (Z.eqb_neq p 0)) by (eapply keep_null; [exact Hk|by left]). eapply wp_sys_kfree; [exact Hk|]. intros s' Hk'. by eapply IH.
Qed.
Lemma wp_free_argv a argc mp L s (Q : unit -> sys -> Prop) : keep mp s0 (argv_blocks a ++ L) s -> (a <> None -> 0 < argc) -> (forall s', keep mp s0 L s' -> Q tt s') ->
  wp False (free_kernel_argv a argc) Q s.
Proof.
  intros Hk Hc HQ. destruct a as [ka|]; cbn [free_kernel_argv argv_blocks] in *; [|by apply wp_ret, HQ]. rewrite (proj2 (Z.leb_gt _ _)) by (by apply Hc).
  apply wp_bind. rewrite <-app_assoc in Hk. eapply wp_free_bufs; [exact Hk|]. intros s' Hk'. by eapply wp_sys_kfree.
Qed.
Lemma wp_copy_argv_loop k : forall s ua argc ka L (Q : option kargv -> sys -> Prop), keep true s0 (argv_blocks (Some ka) ++ L) s -> 0 <= ua -> accessible (env s0) ua (4 * Z.of_nat k) -> 0 < argc ->
  (forall s', keep true s0 L s' -> Q None s') -> (forall ka' s', keep true s0 (argv_blocks (Some ka') ++ L) s' -> Q (Some ka') s') ->
  wp False (copy_argv_loop k ua argc ka) Q s.
Proof.
  induction k as [|k IH]; intros s ua argc ka L Q Hk Hua [Hw Hac] Hc HN HS; cbn [copy_argv_loop]; [by apply wp_ret, HS|].
  apply wp_bind. unfold load32. apply wp_bind. eapply (wp_load_bytes s0); [exact Hk|done|split; [lia|intros x Hx; apply Hac; lia]|]. intros l Hleq Hl Hu. apply wp_ret.
  apply wp_bind. eapply wp_sys_kmalloc; [exact Hk|unfold MAX_PATH_LEN; lia| |].
  - intros s1 Hk1. rewrite Z.eqb_refl. apply wp_bind. eapply wp_free_argv; [exact Hk1|done|]. intros s2 Hk2. by apply wp_ret, HN.
  - intros p s1 Hp Hk1. rewrite (proj2 (Z.eqb_neq p 0)) by done. apply wp_bind. eapply wp_string; [exact Hk1|by apply get32_u32|unfold MAX_PATH_LEN; lia|]. intros [str|] _.
    + eapply IH; [|lia|split; [lia|intros x Hx; apply Hac; lia]|done|done|done]. cbn [argv_blocks ka_bufs ka_array] in *. rewrite map_app. eapply keep_perm; [|exact Hk1].
      cbn [map fst]. rewrite <-!app_assoc. cbn [app]. apply Permutation_middle.
    + apply wp_bind. eapply wp_sys_kfree; [exact Hk1|]. intros s2 Hk2. apply wp_bind. eapply wp_free_argv; [exact Hk2|done|]. intros s3 Hk3. by apply wp_ret, HN.
Qed.
Lemma wp_copy_argv s p argc L (Q : option (option kargv) -> sys -> Prop) : keep true s0 L s -> is_u32 p -> (forall s', keep true s0 L s' -> Q None s') ->
  (forall a s', keep true s0 (argv_blocks a ++ L) s' -> (a <> None -> 0 < argc) -> Q (Some a) s') -> wp False (copy_user_argv p argc) Q s.
Proof.
  intros Hk Hp HN HS. unfold copy_user_argv, MAX_ARGC. destruct (Z.eqb_spec p 0); [destruct (Z.leb_spec argc 0); apply wp_ret; [by apply HS|by apply HN]|].
  destruct (Z.leb_spec argc 0); [apply wp_ret; by apply HS|]. destruct (Z.ltb_spec 16 argc); [by apply wp_ret, HN|].
  apply wp_bind. eapply wp_validate; [exact Hk|done|unfold is_u32; lia|]. intros [] Hv; cbn [negb]; [|by apply wp_ret, HN]. destruct (Hv eq_refl) as [?|[_ Hac]]; [lia|].
  apply wp_bind. eapply wp_sys_kmalloc; [exact Hk|lia| |].
  - intros s1 Hk1. rewrite Z.eqb_refl. by apply wp_ret, HN.
  - intros a s1 Ha Hk1. rewrite (proj2 (Z.eqb_neq a 0)) by done. apply wp_bind. eapply wp_copy_argv_loop; [exact Hk1|unfold is_u32 in Hp; lia|rewrite Z2Nat.id by lia; done|lia| |].
    + intros s2 Hk2. by apply wp_ret, HN.
    + intros ka s2 Hk2. by apply wp_ret, HS.
Qed.

(** ** Files *)

Lemma wp_alloc_fd mp L s o (Q : Z -> sys -> Prop) : keep mp s0 L s -> (forall i s', keep mp s0 L s' -> -1 <= i < 16 -> (0 <= i -> own_slot s0 i) -> Q i s') -> wp False (alloc_fd o) Q s.
Proof.
  intros Hk HQ. unfold alloc_fd. apply wp_bind, wp_gets. pose proof (so_fds s (k_ok _ _ _ _ Hk)) as Hl.
  assert (forall l i j, find_unused l i = Some j -> i <= j < i + Z.of_nat (length l) /\ exists f, l !! Z.to_nat (j - i) = Some f /\ used f = false) as Hfu.
  { induction l as [|f l IH]; intros i j Hf; [done|]. simpl in Hf. destruct (used f) eqn:Hu.
    - apply IH in Hf as (Hr & f' & Hf' & Hu'). split; [simpl; lia|]. exists f'. by replace (Z.to_nat (j - i)) with (S (Z.to_nat (j - (i + 1)))) by lia.
    - injection Hf as <-. split; [simpl; lia|]. exists f. by rewrite Z.sub_diag. }
  destruct (find_unused _ 0) as [i|] eqn:Ef; [|apply wp_ret, HQ; [done|lia|lia]]. apply Hfu in Ef as (Hr & f & Hf & Hu). rewrite Hl in Hr. rewrite Z.sub_0_r in Hf.
  assert (own_slot s0 i) as Hown. { intros f0 Hf0 Hfo. rewrite (k_fds _ _ _ _ Hk _ _ Hf0 Hfo) in Hf. injection Hf as <-. destruct Hfo as [? _]. congruence. }
  apply wp_bind. eapply wp_set_fd; [exact Hk|fd_solve|done|].
  intros s' Hk'. apply wp_ret, HQ; [done|lia|done].
Qed.
Lemma wp_get_fd mp L s fd (Q : option syscall_fd_t -> sys -> Prop) : keep mp s0 L s -> is_u32 fd -> Q None s -> (forall f, fd_ok f -> own_slot s0 fd -> Q (Some f) s) ->
  wp False (get_fd fd (cur_pid (env s0))) Q s.
Proof.
  intros Hk Hfd HN HS. unfold get_fd, MAX_OPEN_FILES. destruct (Z.leb_spec 16 fd); [by apply wp_ret|]. apply wp_bind, wp_gets. apply wp_bind.
  pose proof (so_fds s (k_ok _ _ _ _ Hk)) as Hl. destruct (lookup_lt_is_Some_2 (fd_table s) (Z.to_nat fd)) as [f Hf]; [unfold is_u32 in Hfd; lia|]. rewrite Hf. apply wp_lift_some.
  pose proof (so_fd s (k_ok _ _ _ _ Hk)) as Hok. repeat sys_step; try done. apply HS; [by eapply list.Forall_lookup_1|].
  intros f0 Hf0 Hfo. rewrite (k_fds _ _ _ _ Hk _ _ Hf0 Hfo) in Hf. injection Hf as <-. destruct Hfo as (_ & Hp0%Z.eqb_neq & Hne%Z.eqb_neq & _). by rewrite Hp0, Hne in Heqb0.
Qed.
Lemma wp_open_fd s o p z : keep true s0 [] s -> path_ok (take 255 p) -> (forall s1 (Q : Z -> sys -> Prop), keep true s0 [] s1 -> (forall n s2, keep true s0 [] s2 -> is_u32 n -> Q n s2) -> wp False z Q s1) ->
  wp False (open_fd o p z) done_ s.
Proof.
  intros Hk Hp Hz. unfold open_fd. apply wp_bind. eapply wp_alloc_fd; [exact Hk|]. intros i s1 Hk1 Hi Hown. sys_step; [sys_step; eauto with sys|]. apply Z.ltb_ge in Heqb. specialize (Hown Heqb).
  apply wp_bind. eapply wp_set_fd; [exact Hk1|fd_solve|done|]. intros s2 Hk2. apply wp_bind. apply Hz; [done|]. intros n s3 Hk3 Hn.
  apply wp_bind. eapply wp_set_fd; [exact Hk3|fd_solve|done|]. intros s4 Hk4. sys_step. eauto with sys.
Qed.
Lemma sys_open_ok s : keep true s0 [] s -> paths s (r_ebx (regs s)) -> wp False sys_open done_ s.
Proof.
  intros Hk Hpa. unfold sys_open. do 4 sys_step; [sys_step; eauto with sys|]. assert (Htk : take 255 l = l) by (apply take_ge; lia). do 2 sys_step. sys_step.
  - eapply wp_open_fd; [done|by rewrite Htk|]. intros s1 Q Hk1 HQ. apply wp_ret, HQ; [done|unfold is_u32; lia].
  - apply wp_bind. eapply (wp_answer s0 (fun _ => True)); [eassumption| |].
    + intros e He. eapply wp_mono; [by apply exists_law|]. by intros b e' (? & _).
    + intros ex s1 Hk1 _. apply wp_bind. assert (forall (Q : bool -> sys -> Prop), (forall b s2, keep true s0 [] s2 -> Q b s2) -> wp False (if ex then ret true else on_env (fscmd_write_file l [])) Q s1) as Hw.
      { intros Q HQ. destruct ex; [by apply wp_ret, HQ|]. eapply (wp_answer s0 (fun _ => True)); [exact Hk1| |intros b s2 Hk2 _; by apply HQ].
        intros e He. eapply wp_mono; [by apply write_law|]. by intros b e' (? & _). }
      apply Hw. intros b s2 Hk2. sys_step; [sys_step; eauto with sys|]. rewrite Htk. eapply wp_open_fd; [done|by rewrite Htk|]. intros s3 Q Hk3 HQ.
      eapply (wp_answer s0 is_u32); [exact Hk3| |intros n s4 Hk4 Hn; by apply HQ]. intros e He. eapply wp_mono; [by apply size_law|]. by intros n e' (? & _ & ? & _).
Qed.
Lemma sys_read_ok s : keep true s0 [] s -> wp False sys_read done_ s.
Proof.
  intros Hk. unfold sys_read. do 5 sys_step. eapply wp_get_fd; [eassumption|done| |].
  - repeat sys_step; eauto with sys.
  - intros f (Hof & Hsz & Hpf) Hfd. do 4 sys_step. sys_step; [sys_step; eauto with sys|]. apply orb_false_iff in Heqb as [Hl0%Z.eqb_neq Hb0%Z.eqb_neq]. apply wp_bind. eapply wp_validate; [eassumption|done|done|].
    intros [] Hv; cbn [negb]; [|sys_step; eauto with sys]. destruct (Hv eq_refl) as [?|[_ [Hw Hac]]]; [done|]. sys_step; [sys_step; eauto with sys|]. apply Z.leb_gt in Heqb.
    rewrite (u32_small (size f - offset f)) by (unfold is_u32 in *; lia). set (n := if _ <? _ then _ else _). assert (0 <= n <= v0) as Hn by (unfold n; unfold is_u32 in *; bdestr; lia).
    apply wp_bind. eapply (wp_answer s0 (fun r => Forall is_u8 (snd r) /\ Z.of_nat (length (snd r)) <= n)); [eassumption| |].
    { intros e He. eapply wp_mono; [apply read_law; [done|done|done|lia]|]. by intros r e' (? & _ & ? & ? & _). }
    intros [k bytes] s1 Hk1 [Hu Hlen]. cbn [snd] in *. apply wp_bind. eapply wp_store_bytes; [exact Hk1|unfold is_u32 in *; lia|split; [lia|intros x Hx; apply Hac; lia]|done|].
    intros s2 Hk2. sys_step; [sys_step; eauto with sys|]. apply wp_bind. eapply wp_set_fd; [exact Hk2|fd_solve|done|]. intros s3 Hk3. sys_step; eauto with sys.
Qed.
Lemma wp_write_console mp L l : forall s (Q : unit -> sys -> Prop), keep mp s0 L s -> (forall s', keep mp s0 L s' -> Q tt s') -> wp False (write_console l) Q s.
Proof. induction l as [|c l IH]; intros s Q Hk HQ; cbn [write_console]; [by apply wp_ret, HQ|]. do 2 sys_step. by eapply IH. Qed.
Lemma wp_unlock mp L f s (Q : unit -> sys -> Prop) : keep mp s0 L s -> (forall s', keep mp s0 L s' -> Q tt s') -> wp False (console_write_unlock f) Q s.
Proof. intros Hk HQ. unfold console_write_unlock. sys_step; [by apply wp_ret, HQ|]. eapply wp_look; [exact Hk|apply sti_law|]. intros [] s' Hk'. by apply HQ. Qed.
Lemma sys_write_ok s : keep true s0 [] s -> wp False sys_write done_ s.
Proof.
  intros Hk. unfold sys_write. do 5 sys_step. eapply wp_get_fd; [eassumption|done| |].
  - repeat sys_step; eauto with sys.
  - intros f (Hof & Hsz & Hpf) Hfd. do 4 sys_step. sys_step; [sys_step; eauto with sys|]. apply Z.eqb_neq in Heqb. apply wp_bind.
    assert (forall (Q : bool -> sys -> Prop), (forall b, (b = true -> accessible (env s0) v1 v0) -> Q b s) -> wp False (if v1 =? 0 then ret false else validate_user_buffer v1 v0) Q s) as Hv.
    { intros Q HQ. sys_step; [by apply wp_ret, HQ|]. eapply wp_validate; [eassumption|done|done|]. intros b Hb. apply HQ. intros Hbt. by destruct (Hb Hbt) as [?|[_ ?]]. }
    apply Hv. intros [] Hac; cbn [negb]; [|sys_step; eauto with sys]. specialize (Hac eq_refl). apply wp_bind.
    eapply wp_load_bytes; [eassumption|unfold is_u32 in *; lia|rewrite Z2Nat.id by (unfold is_u32 in *; lia); done|]. intros data Hleq Hl Hu. sys_step.
    + unfold console_write_lock. do 2 sys_step. apply wp_bind. eapply wp_write_console; [eassumption|]. intros s2 Hk2. apply wp_bind. eapply wp_unlock; [exact Hk2|]. intros s3 Hk3. sys_step; eauto with sys.
    + apply wp_bind. eapply (wp_answer s0 (fun _ => True)); [eassumption|intros e He; eapply wp_mono; [by apply write_law|by intros b e' (? & _)]|].
      intros b s1 Hk1 _. sys_step; [sys_step; eauto with sys|]. apply wp_bind. eapply wp_set_fd; [exact Hk1|fd_solve|done|]. intros s2 Hk2. sys_step; eauto with sys.
Qed.
Lemma sys_close_ok s : keep true s0 [] s -> wp False sys_close done_ s.
Proof.
  intros Hk. unfold sys_close. do 5 sys_step. eapply wp_get_fd; [eassumption|done|sys_step; eauto with sys|].
  intros f _ Hfd. apply wp_bind. eapply wp_set_fd; [eassumption|fd_solve|done|]. intros s1 Hk1. sys_step; eauto with sys.
Qed.

(** ** Processes *)

Lemma wp_trampoline mp s : keep mp s0 [] s -> wp False to_trampoline done_ s.
Proof. intros Hk. unfold to_trampoline. eapply wp_regs; [exact Hk| |eauto with sys]. by intros r (? & ? & ? & ?). Qed.
Lemma sys_exit_ok s : keep true s0 [] s -> wp False sys_exit done_ s.
Proof. intros Hk. unfold sys_exit. repeat sys_step; eauto using wp_trampoline with sys. Qed.
Lemma sys_spawn_thread_ok s : keep true s0 [] s -> r_ecx (regs s) = 0 \/ readable_name (env s) (r_ecx (regs s)) -> wp False sys_spawn_thread done_ s.
Proof.
  intros Hk Hn. unfold sys_spawn_thread. do 5 sys_step. sys_step; [repeat sys_step; eauto with sys|].
  eapply wp_recycle_in; [exact Hk|apply create_law; [apply (so_env s (k_ok _ _ _ _ Hk))|congruence]|]. intros c s1 Hk1. repeat sys_step; eauto with sys.
Qed.
Lemma sys_spawn_ok s : keep true s0 [] s -> paths s (r_ebx (regs s)) -> wp False sys_spawn done_ s.
Proof.
  intros Hk Hpa. unfold sys_spawn. do 8 sys_step; [sys_step; eauto with sys|]. sys_step; [sys_step; eauto with sys|]. apply wp_bind. eapply wp_copy_argv; [eassumption|done| |].
  - intros s1 Hk1. sys_step; eauto with sys.
  - intros a s1 Hk1 Ha. sys_step. sys_step. sys_step. assert (forall (Q : Z -> sys -> Prop), (forall v s2, keep false s0 (argv_blocks a ++ []) s2 -> is_u32 v -> Q v s2) -> wp False (if a0 =? 0 then ret 0 else on_env (proc_pid a0)) Q s') as Hp.
    { intros Q HQ. sys_step; [apply wp_ret, HQ; [done|unfold is_u32; lia]|]. sys_step. by apply HQ. }
    apply Hp. intros v2 s2 Hk2 Hv2. do 2 sys_step. eapply wp_free_argv; [eassumption|done|]. eauto with sys.
Qed.
Lemma sys_wait_ok s : keep true s0 [] s -> wp False sys_wait done_ s.
Proof.
  intros Hk. unfold sys_wait. sys_step. sys_step. sys_step; [sys_step; eauto with sys|]. apply wp_bind.
  eapply (wp_answer s0 (fun r => forall c, r = Some c -> is_u32 c)); [eassumption|apply exited_law|]. intros [c|] s1 Hk1 Hc.
  - specialize (Hc c eq_refl). sys_step; eauto with sys.
  - do 2 sys_step. destruct a; sys_step; eauto with sys.
Qed.
Lemma wp_free_image mp b L s (Q : unit -> sys -> Prop) : (if decide (b = 0) then keep mp s0 L s else keep mp s0 (b :: L) s) -> (forall s', keep mp s0 L s' -> Q tt s') -> wp False (free_image b) Q s.
Proof. intros Hk HQ. unfold free_image. destruct (Z.eqb_spec b 0) as [->|]; case_decide; try done; [by apply wp_ret, HQ|]. by eapply wp_sys_kfree. Qed.
Lemma sys_fork_ok s : keep true s0 [] s -> wp False sys_fork done_ s.
Proof. intros Hk. unfold sys_fork. repeat sys_step; eauto with sys. Qed.

Lemma wp_sys_load_image mp L s p (Q : option (Z * Z * Z * Z) -> sys -> Prop) : keep mp s0 L s -> path_ok p -> (forall s', keep false s0 L s' -> Q None s') ->
  (forall en b sz lb s', (if decide (b = 0) then keep false s0 L s' else keep false s0 (b :: L) s') -> Q (Some (en, b, sz, lb)) s') -> wp False (on_env (bin_load_image p)) Q s.
Proof.
  intros Hk%keep_weaken Hpa HN HS. apply wp_sys_env. eapply wp_mono; [apply load_image_law; [apply (so_env s (k_ok _ _ _ _ Hk))|done]|]. intros [[[[en b] sz] lb]|] e' (He & Hst & Hh).
  - apply HS. destruct Hh as [[-> Hh]|(Hb & Hf & Hh)]; case_decide; try done; [by apply keep_env|by eapply keep_take].
  - apply HN. by apply keep_env.
Qed.
Lemma wp_proc_exec L s c en b sz lb av (Q : bool -> sys -> Prop) : let held_b s := if decide (b = 0) then keep false s0 L s else keep false s0 (b :: L) s in
  held_b s -> (forall s', keep false s0 L s' -> Q true s') -> (forall s', held_b s' -> Q false s') -> wp False (on_env (proc_exec c en b sz lb av)) Q s.
Proof.
  intros hb Hk HT HF. assert (sys_ok s) as Hs by (unfold hb in Hk; case_decide; apply Hk). apply wp_sys_env. eapply wp_mono; [apply exec_law, (so_env s Hs)|].
  intros [] e' (He & Hst & Hh); [apply HT|apply HF]; unfold hb in *; case_decide as Hb.
  - apply keep_env; [done|done|done| |done]. rewrite Hh. subst b. pose proof (held_null (env s) (so_env s Hs)). set_solver.
  - by eapply keep_give.
  - by apply keep_env.
  - by apply keep_env.
Qed.
(** What is held when exec gives up: the arguments and, when there is one, the image *)
Definition holding (b : Z) (L : list Z) s : Prop := if decide (b = 0) then keep false s0 L s else keep false s0 (b :: L) s.
Lemma exec_fails a argc b err s : holding b (argv_blocks a ++ []) s -> (a <> None -> 0 < argc) -> is_u32 err ->
  wp False (free_kernel_argv a argc;;; free_image b;;; eax err) done_ s.
Proof.
  intros Hk Ha He. apply wp_bind. unfold holding in Hk. destruct (decide (b = 0)) as [->|Hb].
  - eapply wp_free_argv; [exact Hk|done|]. intros s1 Hk1. apply wp_bind. eapply (wp_free_image false 0 []); [by rewrite decide_True by done|]. intros s2 Hk2. sys_step; eauto with sys.
  - eapply (wp_free_argv _ _ false [b]); [|done|].
    { eapply keep_perm; [|exact Hk]. rewrite app_nil_r. apply Permutation_cons_append. }
    intros s1 Hk1. apply wp_bind. eapply (wp_free_image false b []); [by rewrite decide_False by done|]. intros s2 Hk2. sys_step; eauto with sys.
Qed.
Lemma sys_exec_ok s : keep true s0 [] s -> paths s (r_ebx (regs s)) -> wp False sys_exec done_ s.
Proof.
  intros Hk Hpa. unfold sys_exec. do 8 sys_step; [sys_step; eauto with sys|]. sys_step; [sys_step; eauto with sys|]. apply wp_bind. eapply wp_copy_argv; [eassumption|done| |].
  { intros s1 Hk1. sys_step; eauto with sys. }
  intros a s1 Hk1 Ha. apply wp_bind. eapply (wp_answer s0 (fun _ => True)); [exact Hk1|intros e He; eapply wp_mono; [by apply exists_law|by intros b e' (? & _)]|].
  intros ex s2 Hk2 _. sys_step; [apply wp_bind; eapply wp_free_argv; [exact Hk2|done|]; intros s3 Hk3; sys_step; eauto with sys|].
  apply wp_bind. eapply wp_sys_load_image; [exact Hk2|done| |].
  { intros s3 Hk3. apply wp_bind. eapply wp_free_argv; [exact Hk3|done|]. intros s4 Hk4. sys_step; eauto with sys. }
  intros en b sz lb s3 Hk3. change (holding b (argv_blocks a ++ []) s3) in Hk3.
  assert (forall A (c : M E A) (Q : A -> sys -> Prop) s4, holding b (argv_blocks a ++ []) s4 -> looks c -> (forall x s5, holding b (argv_blocks a ++ []) s5 -> Q x s5) -> wp False (on_env c) Q s4) as Hlook.
  { intros A c Q s4 Hh Hc HQ. unfold holding in *. case_decide; (eapply wp_look; [exact Hh|exact Hc|exact HQ]). }
  apply wp_bind. eapply Hlook; [exact Hk3|apply current_law|]. intros cur s4 Hk4. apply wp_bind.
  assert (forall (Q : bool -> sys -> Prop), (forall x s5, holding b (argv_blocks a ++ []) s5 -> Q x s5) -> wp False (if cur =? 0 then ret true else on_env (proc_is_kernel cur)) Q s4) as Hkern.
  { intros Q HQ. sys_step; [by apply wp_ret, HQ|]. eapply Hlook; [exact Hk4|apply is_kernel_law|done]. }
  apply Hkern. intros kn s5 Hk5. sys_step; [apply exec_fails; [done|done|u32_solve]|]. apply wp_bind. eapply (wp_proc_exec (argv_blocks a ++ [])); [exact Hk5| |].
  - intros s6 Hk6. cbn [negb]. apply wp_bind. eapply wp_free_argv; [exact Hk6|done|]. intros s7 Hk7. repeat sys_step; eauto with sys.
  - intros s6 Hk6. cbn [negb]. apply exec_fails; [done|done|u32_solve].
Qed.

(** ** Calls with a path *)

Lemma wp_with_path nd (f : option (list Z) -> M sys unit) s : keep true s0 [] s -> paths s (r_ebx (regs s)) -> (forall p s1, keep true s0 [] s1 -> opt_ok p -> wp False (f p) done_ s1) -> wp False (with_path nd f) done_ s.
Proof.
  intros Hk Hpa Hf. assert (Hn : forall s1, keep true s0 [] s1 -> wp False (f None) done_ s1) by (intros s1 Hk1; apply Hf; [done|by intros q]).
  unfold with_path. do 2 sys_step. sys_step; [destruct nd; [sys_step; eauto with sys|by apply Hn]|]. do 2 sys_step; [sys_step; eauto with sys|]. apply Hf; [done|]. by intros q [= <-].
Qed.
Lemma sys_ls_ok s : keep true s0 [] s -> paths s (r_ebx (regs s)) -> wp False sys_ls done_ s.
Proof. intros Hk Hpa. eapply wp_with_path; [done|done|]. intros p s1 Hk1 Hp1. repeat sys_step; eauto with sys. Qed.
Lemma sys_cat_ok s : keep true s0 [] s -> paths s (r_ebx (regs s)) -> wp False sys_cat done_ s.
Proof. intros Hk Hpa. eapply wp_with_path; [done|done|]. intros p s1 Hk1 Hp1. repeat sys_step; eauto with sys. Qed.
Lemma sys_chdir_ok s : keep true s0 [] s -> paths s (r_ebx (regs s)) -> wp False sys_chdir done_ s.
Proof. intros Hk Hpa. eapply wp_with_path; [done|done|]. intros p s1 Hk1 Hp1. do 2 sys_step. destruct a; sys_step; eauto with sys. Qed.
Lemma sys_note_ok s : keep true s0 [] s -> paths s (r_ebx (regs s)) -> wp False sys_note done_ s.
Proof. intros Hk Hpa. eapply wp_with_path; [done|done|]. intros p s1 Hk1 Hp1. repeat sys_step; eauto with sys. Qed.
Lemma sys_disk_ok s : keep true s0 [] s -> paths s (r_ebx (regs s)) -> wp False sys_disk done_ s.
Proof. intros Hk Hpa. eapply wp_with_path; [done|done|]. intros p s1 Hk1 Hp1. repeat sys_step; eauto with sys. Qed.
Lemma wp_motd_line mp s l (Q : unit -> sys -> Prop) : keep mp s0 [] s -> (forall s', keep mp s0 [] s' -> Q tt s') -> wp False (print_motd_line l) Q s.
Proof.
  intros Hk HQ. unfold print_motd_line. set (l' := if _ =? 13 then _ else _). apply wp_bind. destruct (parse_motd_color_suffix l') as [[[t fg] bg]|].
  - do 2 sys_step. destruct a0. by apply HQ.
  - destruct l'; [apply wp_ret|sys_step]; sys_step; destruct a; try destruct a0; by apply HQ.
Qed.
Lemma wp_motd_lines mp l : forall s line (Q : unit -> sys -> Prop), keep mp s0 [] s -> (forall s', keep mp s0 [] s' -> Q tt s') -> wp False (motd_lines line l) Q s.
Proof.
  induction l as [|c l IH]; intros s line Q Hk HQ; cbn [motd_lines].
  - destruct line; [by apply wp_ret, HQ|]. by eapply wp_motd_line.
  - sys_step; [|by eapply IH]. apply wp_bind. eapply wp_motd_line; [exact Hk|]. intros s1 Hk1. by eapply IH.
Qed.
Lemma sys_print_motd_ok s : keep true s0 [] s -> paths s (r_ebx (regs s)) -> wp False sys_print_motd done_ s.
Proof.
  intros Hk Hpa. unfold sys_print_motd. do 3 sys_step. assert (forall p s1, keep true s0 [] s1 -> path_ok p -> wp False (print_motd_file p;;; eax 1) done_ s1) as Hp.
  { intros p s1 Hk1 Hp1. apply wp_bind. unfold print_motd_file. apply wp_bind. eapply (wp_answer s0 (fun _ => True)); [exact Hk1|intros e He; eapply wp_mono; [by apply exists_law|by intros b e' (? & _)]|].
    intros ex s2 Hk2 _. destruct ex; cbn [negb]; [|apply wp_ret; sys_step; eauto with sys]. do 2 sys_step. destruct a as [n bytes]. sys_step; [apply wp_ret; sys_step; eauto with sys|].
    eapply wp_motd_lines; [eassumption|]. intros s3 Hk3. sys_step; eauto with sys. }
  sys_step; [sys_step; apply Hp; [done|apply path_motd]|]. sys_step; [sys_step; eauto with sys|by apply Hp].
Qed.

(** ** Screen, mouse and the graphical server *)

Lemma sys_set_cursor_ok s : keep true s0 [] s -> wp False sys_set_cursor done_ s.
Proof. intros Hk. unfold sys_set_cursor. do 7 sys_step. eapply wp_look; [eassumption|apply set_cursor_law|]. intros [] s1 Hk1. sys_step; eauto with sys. Qed.
Lemma wp_user_struct s n (Q : option Z -> sys -> Prop) : keep true s0 [] s -> is_u32 n -> 0 < n -> Q None s -> (forall b, b = r_ebx (regs s) -> is_u32 b -> accessible (env s0) b n -> Q (Some b) s) -> wp False (user_struct n) Q s.
Proof.
  intros Hk Hn Hn0 HN HS. unfold user_struct. do 2 sys_step. sys_step; [by apply wp_ret|]. apply wp_bind. eapply wp_validate; [eassumption|done|done|]. intros [] Hb; apply wp_ret; [|done].
  destruct (Hb eq_refl) as [?|[_ ?]]; [lia|]. by apply HS.
Qed.
Lemma bytes32_list_u8 l : Forall is_u8 (concat (map bytes32 l)).
Proof. induction l as [|x l IH]; [constructor|]. cbn [map concat]. apply Forall_app. split; [apply bytes32_u8|done]. Qed.
Lemma sys_fb_info_ok s : keep true s0 [] s -> wp False sys_fb_info done_ s.
Proof.
  intros Hk. unfold sys_fb_info. apply wp_bind. eapply wp_user_struct; [done|unfold is_u32; lia|lia|sys_step; eauto with sys|]. intros b Hbeq Hb Hac. do 2 sys_step. destruct a as [i|]; [|sys_step; eauto with sys].
  apply wp_bind. eapply wp_store_bytes; [eassumption|unfold is_u32 in Hb; lia|exact Hac|apply bytes32_list_u8|]. intros s1 Hk1. sys_step; eauto with sys.
Qed.
Lemma sys_fb_fill_rect_ok s : keep true s0 [] s -> wp False sys_fb_fill_rect done_ s.
Proof.
  intros Hk. unfold sys_fb_fill_rect. apply wp_bind. eapply wp_user_struct; [done|unfold is_u32; lia|lia|sys_step; eauto with sys|]. intros b Hbeq Hb Hac.
  apply wp_bind. eapply wp_load_bytes; [eassumption|unfold is_u32 in Hb; lia|exact Hac|]. intros l Hleq Hl Hu. repeat sys_step; eauto with sys.
Qed.
Lemma sys_fb_draw_text_ok s : keep true s0 [] s -> wp False sys_fb_draw_text done_ s.
Proof.
  intros Hk. unfold sys_fb_draw_text. apply wp_bind. eapply wp_user_struct; [done|unfold is_u32; lia|lia|sys_step; eauto with sys|]. intros b Hbeq Hb Hac.
  apply wp_bind. eapply wp_load_bytes; [eassumption|unfold is_u32 in Hb; lia|exact Hac|]. intros l Hleq Hl Hu. sys_step; [sys_step; eauto with sys|].
  apply wp_bind. eapply wp_string; [eassumption|by apply get32_u32|lia|]. intros [str|] _; repeat sys_step; eauto with sys.
Qed.
Lemma sys_mouse_state_ok s : keep true s0 [] s -> wp False sys_mouse_state done_ s.
Proof.
  intros Hk. unfold sys_mouse_state. apply wp_bind. eapply wp_user_struct; [done|unfold is_u32; lia|lia|sys_step; eauto with sys|]. intros b Hbeq Hb Hac. do 2 sys_step. destruct a as [[x y] bt].
  apply wp_bind. eapply wp_store_bytes; [eassumption|unfold is_u32 in Hb; lia|exact Hac| |].
  { rewrite !Forall_app. split_and!; apply bytes32_u8. }
  intros s1 Hk1. sys_step; eauto with sys.
Qed.
Lemma sys_gui_bind_ok s : keep true s0 [] s -> wp False sys_gui_bind done_ s.
Proof.
  intros Hk. unfold sys_gui_bind. do 4 sys_step. apply wp_bind.
  assert (forall (Q : bool -> sys -> Prop), (forall x s1, keep true s0 [] s1 -> Q x s1) -> wp False (if (gui_server_pid s =? 0) || (gui_server_pid s =? cur_pid (env s0)) then ret false else on_env (proc_pid_alive (gui_server_pid s))) Q s) as Hal.
  { intros Q HQ. sys_step; [by apply wp_ret, HQ|]. sys_step. by apply HQ. }
  apply Hal. intros x s1 Hk1. sys_step; [sys_step; eauto with sys|]. apply wp_bind. eapply wp_set_server; [exact Hk1|]. intros s2 Hk2. apply wp_bind, wp_gets, wp_bind.
  pose proof (k_ok _ _ _ _ Hk2) as []. eapply wp_set_queue; [exact Hk2|done|done|lia|lia|]. intros s3 Hk3. sys_step; eauto with sys.
Qed.
Lemma msg_of_ok l pid : Z.of_nat (length l) = MSG_SIZE -> Forall is_u8 l -> let m := msg_of l in msg_ok (Msg pid (type m) (msg_a m) (msg_b m) (msg_c m) (text m)).
Proof.
  intros Hl Hu m. unfold MSG_SIZE, GUI_MSG_TEXT_MAX in Hl. split; unfold m, msg_of; cbn [text]; [rewrite length_take, length_drop; lia|by apply Forall_take, Forall_drop].
Qed.
Lemma sys_gui_send_ok s : keep true s0 [] s -> wp False sys_gui_send done_ s.
Proof.
  intros Hk. unfold sys_gui_send. do 2 sys_step. sys_step; [sys_step; eauto with sys|]. apply wp_bind.
  eapply wp_user_struct; [done|vm_compute; split; congruence|vm_compute; congruence|sys_step; eauto with sys|]. intros b Hbeq Hb Hac.
  apply wp_bind. eapply wp_load_bytes; [eassumption|unfold is_u32 in Hb; lia|exact Hac|]. intros l Hleq Hl Hu. unfold console_write_lock. do 4 sys_step. apply wp_bind.
  unfold gui_queue_push. apply wp_bind. unfold get. eapply wp_ok; [reflexivity|]. cur_ok. cbv zeta. unfold GUI_QUEUE_MAX. sys_step.
  - apply wp_ret. apply wp_bind. eapply wp_unlock; [eassumption|]. intros s2 Hk2. sys_step; eauto with sys.
  - apply wp_bind. eapply wp_set_queue; [eassumption|by rewrite length_insert| |apply Z.mod_pos_bound; lia|done|].
    { apply Forall_insert; [done|]. apply msg_of_ok; [rewrite Hl; reflexivity|done]. }
    intros s2 Hk2. apply wp_ret. apply wp_bind. eapply wp_unlock; [eassumption|]. intros s3 Hk3. sys_step; eauto with sys.
Qed.
Lemma sys_gui_recv_ok s : keep true s0 [] s -> wp False sys_gui_recv done_ s.
Proof.
  intros Hk. unfold sys_gui_recv. do 4 sys_step. sys_step; [sys_step; eauto with sys|]. apply wp_bind.
  eapply wp_user_struct; [done|vm_compute; split; congruence|vm_compute; congruence|sys_step; eauto with sys|]. intros b Hbeq Hb Hac. unfold console_write_lock. do 2 sys_step. apply wp_bind.
  unfold gui_queue_pop. apply wp_bind. unfold get. eapply wp_ok; [reflexivity|]. cur_ok. unfold GUI_QUEUE_MAX. sys_step.
  - apply wp_ret. apply wp_bind. eapply wp_unlock; [eassumption|]. intros s2 Hk2. sys_step; eauto with sys.
  - apply wp_bind. destruct (lookup_lt_is_Some_2 (gui_queue s') (Z.to_nat (gui_queue_tail s'))) as [m Hm]; [lia|]. rewrite Hm. apply wp_lift_some. apply wp_bind.
    eapply wp_set_queue; [eassumption|done|done|done|apply Z.mod_pos_bound; lia|]. intros s2 Hk2. apply wp_ret. apply wp_bind. eapply wp_unlock; [exact Hk2|]. intros s3 Hk3.
    assert (msg_ok m) as [Hml Hmu] by (by eapply list.Forall_lookup_1). apply wp_bind. eapply wp_store_bytes; [exact Hk3|unfold is_u32 in Hb; lia| | |].
    + unfold msg_bytes. rewrite !length_app, Hml. exact Hac.
    + unfold msg_bytes. rewrite !Forall_app. split_and!; (apply bytes32_u8 || done).
    + intros s4 Hk4. sys_step; eauto with sys.
Qed.
Lemma sys_dir_list_ok s : keep true s0 [] s -> paths s (get32 (ubytes (env s) (r_ebx (regs s)) 20) 0) -> wp False sys_dir_list done_ s.
Proof.
  intros Hk Hpa. unfold sys_dir_list. apply wp_bind. eapply wp_user_struct; [done|unfold is_u32; lia|lia|sys_step; eauto with sys|]. intros b Hbeq Hb Hac.
  apply wp_bind. eapply wp_load_bytes; [eassumption|unfold is_u32 in Hb; lia|exact Hac|]. intros l Hleq Hl Hu. cbv zeta. sys_step; [sys_step; eauto with sys|].
  rewrite !orb_false_iff, !Z.eqb_neq in Heqb0. destruct Heqb0 as (((Hn0 & Hd0) & Hm0) & Hl0).
  pose proof (get32_u32 l 4 Hu) as H4'. pose proof (get32_u32 l 8 Hu) as H8'. pose proof (get32_u32 l 12 Hu) as H12'. pose proof (get32_u32 l 16 Hu) as H16'.
  set (mx := if 256 <? get32 l 12 then 256 else get32 l 12). set (nl := if 64 <? get32 l 16 then 64 else get32 l 16).
  assert (0 < mx <= 256 /\ 0 < nl <= 64) as [Hmx Hnl] by (unfold mx, nl, is_u32 in *; split; bdestr; lia). clearbody mx nl. assert (0 < mx * nl <= 16384) as Hmn by nia.
  apply wp_bind. eapply wp_validate; [eassumption|done|unfold is_u32; lia|]. intros ok1 Hok1. apply wp_bind.
  assert (forall (Q : bool -> sys -> Prop), (forall x, (x = true -> ok1 = true /\ accessible (env s0) (get32 l 8) mx) -> Q x s) -> wp False (if ok1 then validate_user_buffer (get32 l 8) mx else ret false) Q s) as Hv2.
  { intros Q HQ. destruct ok1; [|by apply wp_ret, HQ]. eapply wp_validate; [eassumption|done|unfold is_u32; lia|]. intros x Hx. apply HQ. intros Hxt. split; [done|]. destruct (Hx Hxt) as [?|[_ ?]]; [lia|done]. }
  apply Hv2. intros x Hx. destruct x; cbn [negb]; [|sys_step; eauto with sys]. destruct (Hx eq_refl) as [-> Hacd]. destruct (Hok1 eq_refl) as [?|[_ Hacn]]; [lia|].
  apply wp_bind. assert (forall (Q : option (option (list Z)) -> sys -> Prop), (forall x, (forall p, x = Some p -> opt_ok p) -> Q x s) -> wp False (if get32 l 0 =? 0 then ret (Some None) else r <- user_path (get32 l 0);; ret (match r with Some p => Some (nonempty (Some p)) | None => None end)) Q s) as Hp.
  { intros Q HQ. sys_step; [apply wp_ret, HQ; by intros p [= <-]|]. apply wp_bind. eapply wp_user_path; [eassumption|by apply get32_u32|by rewrite Hleq, Hbeq|by apply wp_ret, HQ|].
    intros q Hq _. apply wp_ret, HQ. intros p [= <-]. refine (opt_nonempty (Some q) _). by intros ? [= <-]. }
  apply Hp. intros [p|] Hp1; [|sys_step; eauto with sys]. specialize (Hp1 p eq_refl). apply wp_bind.
  eapply (wp_answer s0 (fun r => Forall is_u8 (snd (fst r)) /\ Forall is_u8 (snd r) /\ Z.of_nat (length (snd (fst r))) <= mx * nl /\ Z.of_nat (length (snd r)) <= mx)); [eassumption|intros e He; by apply list_law|].
  intros [[cnt nm] dr] s1 Hk1 (Hnu & Hdu & Hnlen & Hdlen). cbn [fst snd] in *. apply wp_bind. destruct Hacn as [Hnw Hacn], Hacd as [Hdw Hacd]. unfold is_u32 in *.
  eapply wp_store_bytes; [exact Hk1|lia|split; [lia|intros y Hy; apply Hacn; lia]|done|]. intros s2 Hk2. apply wp_bind.
  eapply wp_store_bytes; [exact Hk2|lia|split; [lia|intros y Hy; apply Hacd; lia]|done|]. intros s3 Hk3. destruct (cnt <? 0); sys_step; eauto with sys.
Qed.

(** ** The handler *)

(** The address of the path that a call takes *)
Definition path_arg s : option Z :=
  match r_eax (regs s) with
  | 12 | 17 | 18 | 20 | 21 | 22 | 23 | 24 | 26 => Some (r_ebx (regs s))
  | 40 => Some (get32 (ubytes (env s) (r_ebx (regs s)) 20) 0)
  | _ => None
  end.
(** The calls that the handler answers: not number 2, which prints from any address, nor number 7,
    which restarts the machine; a path is one that the file systems take; and the name of a thread,
    which call 10 reads unchecked, can be read. *)
Record call_ok s : Prop := {
  co_print : r_eax (regs s) <> 2;
  co_reboot : r_eax (regs s) <> 7;
  co_path : forall a, path_arg s = Some a -> paths s a;
  co_name : r_eax (regs s) = 10 -> r_ecx (regs s) = 0 \/ readable_name (env s) (r_ecx (regs s));
}.
Lemma handler_ok s : keep true s0 [] s -> call_ok s -> wp False syscall_handler done_ s.
Proof.
  intros Hk [H2 H7 Hpa Hna]. unfold syscall_handler. apply wp_bind, wp_gets. unfold path_arg in Hpa.
  repeat match goal with |- wp _ (match ?n with _ => _ end) _ _ => destruct n; try congruence end; try (apply wp_ret; by eapply keep_done);
    try specialize (Hpa _ eq_refl); try specialize (Hna eq_refl);
    match goal with
    | |- wp _ sys_exit _ _ => by apply sys_exit_ok
    | |- wp _ sys_spawn_thread _ _ => by apply sys_spawn_thread_ok
    | |- wp _ sys_open _ _ => by apply sys_open_ok
    | |- wp _ sys_read _ _ => by apply sys_read_ok
    | |- wp _ sys_write _ _ => by apply sys_write_ok
    | |- wp _ sys_close _ _ => by apply sys_close_ok
    | |- wp _ sys_print_motd _ _ => by apply sys_print_motd_ok
    | |- wp _ sys_spawn _ _ => by apply sys_spawn_ok
    | |- wp _ sys_wait _ _ => by apply sys_wait_ok
    | |- wp _ sys_exec _ _ => by apply sys_exec_ok
    | |- wp _ sys_ls _ _ => by apply sys_ls_ok
    | |- wp _ sys_cat _ _ => by apply sys_cat_ok
    | |- wp _ sys_chdir _ _ => by apply sys_chdir_ok
    | |- wp _ sys_note _ _ => by apply sys_note_ok
    | |- wp _ sys_fork _ _ => by apply sys_fork_ok
    | |- wp _ sys_disk _ _ => by apply sys_disk_ok
    | |- wp _ sys_set_cursor _ _ => by apply sys_set_cursor_ok
    | |- wp _ sys_fb_info _ _ => by apply sys_fb_info_ok
    | |- wp _ sys_fb_fill_rect _ _ => by apply sys_fb_fill_rect_ok
    | |- wp _ sys_fb_draw_text _ _ => by apply sys_fb_draw_text_ok
    | |- wp _ sys_mouse_state _ _ => by apply sys_mouse_state_ok
    | |- wp _ sys_gui_bind _ _ => by apply sys_gui_bind_ok
    | |- wp _ sys_gui_send _ _ => by apply sys_gui_send_ok
    | |- wp _ sys_gui_recv _ _ => by apply sys_gui_recv_ok
    | |- wp _ sys_dir_list _ _ => by apply sys_dir_list_ok
    | _ => idtac
    end.
  3: { apply wp_bind. eapply (wp_answer s0 is_u32); [exact Hk|apply flags_law|]. intros f s1 Hk1 Hf. sys_step. by eapply keep_done. }
  7: { do 2 sys_step. eapply wp_regs; [eassumption| |intros s1 Hk1; by eapply keep_done]. intros r (? & ? & ? & ?). split_and!; [done|done|apply u32_is|done]. }
  9: { do 2 sys_step. destruct a; sys_step; by eapply keep_done. }
  all: repeat sys_step; by eapply keep_done.
Qed.
End calls.
