(* ===== verification/Olibc.v ===== *)
(** * The C library of user programs (olibc/)

    olibc/string.c is libc/string.c with another hex_to_ascii ([LibcNum.olibc_hex_to_ascii]): its
    functions are the ones of [Libc] and [LibcNum].  olibc/syscall.c are the system call stubs: each
    puts its arguments into registers, raises interrupt 0xA5 and returns a register. *)
From S2P Require Import Prelude Fat16Name Libc LibcNum SysEnv.
From S2P Require Import Syscall.

Module Olibc.
(** ** olibc/string.c *)
Definition int_to_ascii := LibcNum.int_to_ascii.
Definition hex_to_ascii := LibcNum.olibc_hex_to_ascii.
Definition reverse := Libc.reverse.
Definition strlen := Libc.strlen.
Definition backspace := Libc.backspace.
Definition append := Libc.append.
Definition strcmp := Libc.strcmp.
Definition strncmp := Libc.strncmp.
Definition strstr := Libc.strstr.
Definition strchr := Libc.strchr.
Definition memcpy := Libc.memcpy.
Definition memcmp := Libc.memcmp.
Definition strncpy := Libc.strncpy.
Definition strcasecmp := Libc.strcasecmp.
Definition rtrim := Libc.rtrim.
Definition strlower := Libc.strlower.
Definition memmove := Libc.memmove.
Definition parse_color_args := LibcNum.parse_color_args.
Definition strtok := Libc.strtok.
Definition strcpy := Libc.strcpy.
Definition strcat := Libc.strcat.
Definition strrchr := Libc.strrchr.
Definition itoa := LibcNum.itoa.
Definition snprintf := LibcNum.snprintf.
Definition toupper := Libc.toupper.
Definition tolower := Libc.tolower.
Definition isdigit := Libc.isdigit.
Definition strtol := LibcNum.strtol.
Definition strncat := Libc.strncat.
Definition sprintf := LibcNum.sprintf.
Definition memset := Libc.memset.
Definition atoi := LibcNum.atoi.
Definition rand := LibcNum.rand.
Definition strtoul := LibcNum.strtoul.

(** ** olibc/syscall.c *)
Section stubs.
Context {E : Type} `{SysEnv E}.
Abbreviation U A := (M (@Syscall.sys E) A).

Definition with_args (num b c d : Z) (r : registers_t) : registers_t :=
  Regs (r_ds r) (r_edi r) (r_esi r) (r_ebp r) (r_useless r) b d c num (r_int_no r) (r_err_code r) (r_eip r) (r_cs r) (r_eflags r) (r_esp r) (r_ss r).
(** The interrupt: the handler runs on the registers of the program, which gets back what it leaves. *)
Definition interrupt (f : registers_t -> registers_t) : U registers_t := Syscall.set_regs f;;; Syscall.syscall_handler;;; gets Syscall.regs.
Definition sys_call0 (num : Z) : U Z := r <- interrupt (fun r => with_args num (r_ebx r) (r_ecx r) (r_edx r) r);; ret (r_eax r).
Definition sys_call1 (num arg1 : Z) : U Z := r <- interrupt (fun r => with_args num arg1 (r_ecx r) (r_edx r) r);; ret (r_eax r).
Definition sys_call2 (num arg1 arg2 : Z) : U Z := r <- interrupt (fun r => with_args num arg1 arg2 (r_edx r) r);; ret (r_eax r).
Definition sys_call3 (num arg1 arg2 arg3 : Z) : U Z := r <- interrupt (fun r => with_args num arg1 arg2 arg3 r);; ret (r_eax r).
Definition as_int (c : U Z) : U Z := v <- c;; ret (s32 v).
Definition as_void (c : U Z) : U unit := c;;; ret tt.

Definition sys_start_shell : U unit := as_void (sys_call0 1).
Definition sys_kprint (str : Z) : U unit := as_void (sys_call1 2 str).
Definition sys_clear_screen : U unit := as_void (sys_call0 3).
Definition sys_beep (freq duration : Z) : U unit := as_void (sys_call2 4 freq duration).
Definition sys_pause : U unit := as_void (sys_call0 5).
Definition sys_getkey : U Z := r <- interrupt (fun r => with_args 6 (r_ebx r) (r_ecx r) (r_edx r) r);; ret (r_ecx r).
Definition sys_reboot : U unit := as_void (sys_call0 7).
Definition sys_exit (code : Z) : U unit := as_void (sys_call1 8 code).
Definition sys_yield : U unit := as_void (sys_call0 9).
Definition sys_spawn_thread (entry name : Z) : U Z := sys_call2 10 entry name.
Definition sys_get_boot_flags : U Z := sys_call0 11.
Definition sys_open (path : Z) : U Z := as_int (sys_call1 12 path).
Definition sys_read (fd buf len : Z) : U Z := as_int (sys_call3 13 (u32 fd) len buf).
Definition sys_write (fd buf len : Z) : U Z := as_int (sys_call3 14 (u32 fd) len buf).
Definition sys_close (fd : Z) : U Z := as_int (sys_call1 15 (u32 fd)).
Definition sys_ls (path : Z) : U Z := as_int (sys_call1 21 path).
Definition sys_cat (path : Z) : U Z := as_int (sys_call1 22 path).
Definition sys_chdir (path : Z) : U Z := as_int (sys_call1 23 path).
Definition sys_note (path : Z) : U Z := as_int (sys_call1 24 path).
Definition sys_fork : U Z := as_int (sys_call0 25).
Definition sys_disk (cmd : Z) : U Z := as_int (sys_call1 26 cmd).
Definition sys_get_cursor_offset : U Z := sys_call0 28.
Definition sys_set_cursor_offset (offset : Z) : U unit := as_void (sys_call1 29 offset).
Definition sys_spawn (path argv argc : Z) : U Z := sys_call3 18 path argv (u32 argc).
(** The stub asks until the result is not -1. *)
Definition wait_step (pid : Z) (_ : unit) : U (unit + Z) :=
  rc <- as_int (sys_call1 19 pid);;
  if rc =? -1 then sys_yield;;; ret (inl tt) else ret (inr rc).
Definition sys_wait (pid : Z) : U Z := loop (wait_step pid) tt.
Definition sys_exec (path argv argc : Z) : U Z := as_int (sys_call3 20 path argv (u32 argc)).
Definition sys_getkey_nb : U Z := sys_call0 36.
Definition sys_gui_bind : U Z := as_int (sys_call0 37).
Definition sys_gui_send (msg : Z) : U Z := as_int (sys_call1 38 msg).
Definition sys_gui_recv (msg : Z) : U Z := as_int (sys_call1 39 msg).
Definition sys_dir_list (req : Z) : U Z := as_int (sys_call1 40 req).
Definition sys_fb_info (out : Z) : U Z := as_int (sys_call1 30 out).
Definition sys_fb_fill_rect (rect : Z) : U Z := as_int (sys_call1 31 rect).
Definition sys_fb_draw_text (text : Z) : U Z := as_int (sys_call1 32 text).
Definition sys_cursor_visible (visible : Z) : U unit := as_void (sys_call1 33 (u32 visible)).
Definition sys_mouse_state (out : Z) : U Z := as_int (sys_call1 34 out).
Definition sys_mouse_draw (visible : Z) : U unit := as_void (sys_call1 35 (u32 visible)).

(** ** Messages to the graphical server *)
Definition GUI_CREATE_PACK_WH (w h : Z) : Z := Z.lor (u32 (Z.shiftl (Z.land (u32 w) 0xffff) 16)) (Z.land (u32 h) 0xffff).
Definition GUI_CREATE_UNPACK_W (c : Z) : Z := Z.land (Z.shiftr (u32 c) 16) 0xffff.
Definition GUI_CREATE_UNPACK_H (c : Z) : Z := Z.land (u32 c) 0xffff.
(** The text of a message: cut at 255 characters and padded with zeros *)
Definition msg_text (t : list Z) : list Z := let t := take 255 t in t ++ replicate (256 - length t) 0.
(** msg is the address of the local structure; the strings are given as their characters. *)
Definition gui_create (msg x y w h : Z) (title : list Z) : U Z :=
  let c := if (0 <? w) && (0 <? h) then GUI_CREATE_PACK_WH w h else 0 in
  Syscall.store_bytes msg (Syscall.msg_bytes (Syscall.Msg 0 1 (u32 x) (u32 y) c (msg_text title)));;; sys_gui_send msg.
Definition gui_set_text (msg : Z) (text : list Z) : U Z :=
  Syscall.store_bytes msg (Syscall.msg_bytes (Syscall.Msg 0 2 0 0 0 (msg_text text)));;; sys_gui_send msg.
End stubs.
End Olibc.
