(* ===== verification/SysApp.v ===== *)
(** * A user program on system calls

    The stubs of olibc, the handler and the file interface composed: a program that opens a file,
    writes it and reads it back, as olibc/app.c does; and a small kernel (one process with a few pages,
    a heap that counts up, a map of files; process 100 has exited, and choosing the next process cleans
    it up) that fulfils the laws of [SysEnvOk], on which the handler
    is run. *)
From S2P Require Import Prelude SysEnv Syscall SysSafe SysCalls Olibc.
Import Syscall.

(** ** The kernel, seen from a program *)

Record kern := Kern { kn_pages : list Z; kn_mem : gmap Z Z; kn_next : Z; kn_held : gset Z; kn_pid : Z; kn_files : gmap (list Z) (list Z) }.
Definition kn_mapped (k : kern) (p : Z) : bool := bool_decide (p ∈ kn_pages k).
Definition kn_byte (k : kern) (a : Z) : Z := default 0 (kn_mem k !! a).
Definition kn_load (a : Z) : M kern Z := fun k => if kn_mapped k (Z.land a 0xFFFFF000) then Ok (kn_byte k a, k) else Fault.
Definition kn_store (a v : Z) : M kern unit := fun k =>
  if kn_mapped k (Z.land a 0xFFFFF000) then Ok (tt, Kern (kn_pages k) (<[a := v]> (kn_mem k)) (kn_next k) (kn_held k) (kn_pid k) (kn_files k)) else Fault.
Definition kn_alloc : M kern Z := fun k =>
  if kn_next k <? 4294967296 then Ok (kn_next k, Kern (kn_pages k) (kn_mem k) (kn_next k + 1) ({[kn_next k]} ∪ kn_held k) (kn_pid k) (kn_files k)) else Ok (0, k).
Definition kn_free (p : Z) : M kern unit := fun k => Ok (tt, Kern (kn_pages k) (kn_mem k) (kn_next k) (kn_held k ∖ {[p]}) (kn_pid k) (kn_files k)).
Definition kn_fits (d : list Z) : bool := forallb (fun c => (0 <=? c) && (c <? 256)) d && (Z.of_nat (length d) <? 4294967296).
Definition kn_write (p d : list Z) : M kern bool := fun k =>
  if kn_fits d then Ok (true, Kern (kn_pages k) (kn_mem k) (kn_next k) (kn_held k) (kn_pid k) (<[p := d]> (kn_files k))) else Ok (false, k).
Definition kn_read (p : list Z) (off n : Z) : M kern (Z * list Z) := fun k =>
  Ok (match kn_files k !! p with
      | Some d => let b := take (Z.to_nat n) (drop (Z.to_nat off) d) in (Z.of_nat (length b), b)
      | None => (-1, [])
      end, k).

#[global] Instance kern_env : SysEnv kern := {
  vmm_virt_to_phys p := fun k => Ok (if kn_mapped k p then Some p else None, k);
  load8 := kn_load; store8 := kn_store; kmalloc _ := kn_alloc; kfree := kn_free;
  fscmd_exists p := gets (fun k => bool_decide (is_Some (kn_files k !! p)));
  fscmd_write_file := kn_write;
  fscmd_get_file_size p := gets (fun k => match kn_files k !! p with Some d => Z.of_nat (length d) | None => 0 end);
  fscmd_read_file := kn_read; fscmd_read_file_by_name p n := kn_read p 0 n; fscmd_list_dir p mx nl := ret (0, [], []);
  fscmd_ls p := ret tt; fscmd_cat p := ret tt; fscmd_cd p := ret false; note p := ret tt; m_disk p := ret tt; cmd_disk_ls := ret tt;
  proc_current := ret 1; proc_current_pid := gets kn_pid; proc_pid p := gets kn_pid; proc_is_kernel p := ret false; proc_context_esp p := ret 0; proc_block p := ret tt;
  proc_is_foreground_pid p := ret true; proc_pid_alive p := ret true; proc_pid_exited p := ret None; proc_exit c := ret tt; proc_schedule r b := ret (false, [100]);
  proc_create n en := ret (0, []); proc_fork r := ret (0, []); proc_make_current p r := ret false;
  proc_exec p en ib sz lb av := kn_free ib;;; ret true;
  proc_wake_vfork_parent p := ret tt; proc_start_reaper := ret (true, []); set_sched_next_esp v := ret tt; bin_exit_trampoline := 0x100000;
  bin_load_image p := b <- kn_alloc;; ret (if b =? 0 then None else Some (0x400000, b, 4096, 0x400000));
  bin_create_process p av b := ret (0, []); orion_config_load := ret tt; parse_bootcmd := ret tt; bootlog_disable := ret tt; orion_boot_flags := ret 0; reboot := ret tt;
  pushf_cli := ret 0x202; sti := ret tt; kprint l := ret tt; kprint_color l f b := ret tt; kprint_char c := ret tt; clear_screen := ret tt; beep f d := ret tt;
  get_cursor_offset := ret 0; set_cursor_offset o := ret tt; screen_get_cols := ret 80; screen_get_rows := ret 25; screen_get_framebuffer_info := ret None;
  screen_fb_fill_rect x y w h c := ret tt; screen_fb_draw_text x y t f b tr := ret tt; screen_set_cursor_visible b := ret tt;
  pause := ret tt; getkey := ret 0; getkey_nonblock := ret 0; keyboard_input_enabled := ret true; keyboard_set_input b := ret tt; keyboard_flush := ret tt;
  mouse_state := ret (0, 0, 0); mouse_set_draw b := ret tt;
}.
Record kern_ok (k : kern) : Prop := {
  ko_mem : forall a v, kn_mem k !! a = Some v -> is_u8 v;
  ko_next : 0 < kn_next k;
  ko_held : forall p, p ∈ kn_held k -> 0 < p < kn_next k;
  ko_pid : is_u32 (kn_pid k);
  ko_files : forall p d, kn_files k !! p = Some d -> Forall is_u8 d /\ Z.of_nat (length d) < 4294967296;
}.

#[global] Instance kern_laws : SysLaws kern := {
  env_ok := kern_ok; page_mapped := kn_mapped; umem := kn_byte; held := kn_held; cur_pid := kn_pid; file_of k p := kn_files k !! p;
  alive _ p := negb (p =? 100); path_ok _ := True; disk_ok _ := True;
}.
Lemma kern_same k : kern_ok k -> same_user k k.
Proof. intros Hk. by constructor. Qed.
Lemma kern_looks {A} (a : A) : looks (ret a : M kern A).
Proof. intros k Hk. apply wp_ret. split; [by apply kern_same|done]. Qed.
Lemma kern_serves {A} (a : A) : serves (ret a : M kern A).
Proof. intros k Hk. apply wp_ret. by apply kern_same. Qed.
Lemma kern_steady (k k' : kern) : steady k k'.
Proof. by constructor. Qed.
Lemma kern_switches {A} (a : A) : switches (ret a : M kern A).
Proof. intros k Hk. apply wp_ret. split_and!; [done|done|apply kern_steady]. Qed.
Lemma kern_recycles {A} (a : A) l : Forall (fun p => negb (p =? 100) = false) l -> recycles (ret (a, l) : M kern (A * list Z)).
Proof. intros Hl k Hk. apply wp_ret. split_and!; [done|done|apply kern_steady|done]. Qed.
Lemma kn_fits_ok d : kn_fits d = true -> Forall is_u8 d /\ Z.of_nat (length d) < 4294967296.
Proof.
  unfold kn_fits. rewrite andb_true_iff, forallb_forall, Z.ltb_lt. intros [Hf Hl]. split; [|done]. apply list.Forall_forall. intros c Hc%list_elem_of_In. apply Hf in Hc. unfold is_u8. lia.
Qed.
Lemma kn_alloc_ok k : kern_ok k -> wp False kn_alloc (fun p k' => kern_ok k' /\ (forall q, kn_mapped k' q = kn_mapped k q) /\ (forall a, kn_byte k' a = kn_byte k a) /\
  kn_pid k' = kn_pid k /\ steady k k' /\ ((p = 0 /\ kn_held k' = kn_held k) \/ (p <> 0 /\ p ∉ kn_held k /\ kn_held k' = {[p]} ∪ kn_held k))) k.
Proof.
  intros Hk. pose proof Hk as [Hm Hn Hh Hp Hf]. unfold kn_alloc, wp. destruct (Z.ltb_spec (kn_next k) 4294967296); [|split_and!; [done|done|done|done|apply kern_steady|by left]].
  split_and!; [|done|done|done|apply kern_steady|].
  - constructor; cbn; try done; [lia|]. intros q [Hq%elem_of_singleton|Hq]%elem_of_union; [subst; lia|]. specialize (Hh q Hq). lia.
  - right. split_and!; [lia| |done]. intros Hq%Hh. lia.
Qed.
Lemma kn_free_ok k p : kern_ok k -> kern_ok (Kern (kn_pages k) (kn_mem k) (kn_next k) (kn_held k ∖ {[p]}) (kn_pid k) (kn_files k)).
Proof. intros [Hm Hn Hh Hp Hf]. constructor; try done. cbn. intros q Hq. apply Hh. set_solver. Qed.
Lemma kn_read_ok k p off n : kern_ok k -> is_u32 off -> 0 <= n -> wp False (kn_read p off n)
  (fun r k' => k' = k /\ Forall is_u8 (snd r) /\ Z.of_nat (length (snd r)) <= n /\
     forall d, kn_files k !! p = Some d -> off + n <= Z.of_nat (length d) -> fst r = n /\ snd r = take (Z.to_nat n) (drop (Z.to_nat off) d)) k.
Proof.
  intros [_ _ _ _ Hf] Ho Hn. unfold kn_read, wp. destruct (kn_files k !! p) as [d|] eqn:Ed; cbn [fst snd].
  - destruct (Hf p d Ed) as [Hu _]. split_and!; [done|by apply Forall_take, Forall_drop|rewrite length_take; lia|]. intros d' [= <-] Hle. split; [|done].
    rewrite length_take, length_drop. unfold is_u32 in Ho. lia.
  - by split_and!.
Qed.
#[global] Instance kern_env_ok : SysEnvOk kern.
Proof.
  constructor; try (intros; apply kern_looks); try (intros; apply kern_serves); try (intros; apply kern_switches); try (intros; apply kern_recycles; by repeat constructor); try done.
  - intros k p Hk. eexists. split; [reflexivity|]. cbn. destruct (kn_mapped k p); split; [done|eauto|by intros [? ?]|done].
  - intros k a Hk Hp. cbn in *. unfold kn_load. rewrite Hp. split; [done|]. unfold kn_byte. destruct (kn_mem k !! a) eqn:Ea; [by eapply ko_mem|cbn; unfold is_u8; lia].
  - intros k a v Hk Hp Hv. cbn in *. unfold wp, kn_store. rewrite Hp. split_and!; try done.
    + destruct Hk as [Hm ? ? ? ?]. constructor; try done. cbn. intros b w. rewrite lookup_insert_Some. intros [[_ <-]|[_ ?]]; [done|by eapply Hm].
    + intros b. unfold kn_byte. cbn. case_decide; [subst; by rewrite lookup_insert_eq|by rewrite lookup_insert_ne].
  - intros k Hk H0. cbn in H0. pose proof (ko_held k Hk 0 H0). lia.
  - intros k n Hk Hn. cbn. apply kn_alloc_ok. done.
  - intros k p Hk Hp. cbn. unfold wp, kn_free. split_and!; try done. by apply kn_free_ok.
  - intros k p Hk _. unfold wp; cbn. split_and!; [by apply kern_same|done|]. by rewrite bool_decide_eq_true.
  - intros k p d Hk _. cbn. unfold wp, kn_write. destruct (kn_fits d) eqn:Ef; [|split; [by apply kern_same|done]]. apply kn_fits_ok in Ef. split.
    + constructor; try done. destruct Hk as [? ? ? ? Hf]. constructor; try done. cbn. intros q d'. rewrite lookup_insert_Some. intros [[_ <-]|[_ ?]]; [done|by eapply Hf].
    + intros _. cbn. by rewrite lookup_insert_eq.
  - intros k p Hk _. unfold wp; cbn. split_and!; [by apply kern_same|done| |].
    + destruct (kn_files k !! p) as [d|] eqn:Ed; [|unfold is_u32; lia]. destruct (ko_files k Hk p d Ed). unfold is_u32. lia.
    + intros d ->. done.
  - intros k p off n Hk _ Ho Hn. eapply wp_mono; [by apply kn_read_ok|]. intros r k' (-> & Hu & Hl & Hd). split_and!; [by apply kern_same|done|done|done|]. intros d Hf Hle. right. by apply Hd.
  - intros k p mx nl Hk _ Hm Hn. apply wp_ret. cbn [fst snd length]. split_and!; [by apply kern_same|constructor|constructor|lia|lia].
  - intros k Hk. cbn. split; [done|apply Hk].
  - intros p k Hk. unfold wp; cbn. split; [by apply kern_same|apply Hk].
  - intros k p en ib sz lb av Hk. cbn. unfold bind, kn_free, wp, ret. split_and!; [by apply kn_free_ok|apply kern_steady|done].
  - intros k p Hk _. apply wp_bind. eapply wp_mono; [by apply kn_alloc_ok|]. intros b k' (Hk' & _ & _ & _ & _ & Hh). apply wp_ret. split; [done|]. split; [apply kern_steady|].
    destruct Hh as [[-> Hh]|(Hb & Hf & Hh)]; [done|]. rewrite (proj2 (Z.eqb_neq b 0)) by done. by right.
Qed.

Section app.
Context {E : Type} `{SysEnvOk E}.
Implicit Types s : @sys E.

Lemma same_user_refl e : env_ok e -> same_user e e.
Proof. intros He. by repeat constructor. Qed.
Lemma same_user_trans e1 e2 e3 : same_user e1 e2 -> same_user e2 e3 -> same_user e1 e3.
Proof. intros [? H1' H2' H3' H4' [Ha Hd]] [? H5' H6' H7' H8' [Ha' Hd']]. constructor; [done|intros; by rewrite H5'|intros; by rewrite H6'|congruence|congruence|constructor; auto]. Qed.
Lemma accessible_same e e' a n : same_user e e' -> accessible e a n -> accessible e' a n.
Proof. intros [_ Hm _ _ _ _] [Hw Hac]. split; [done|]. intros x Hx. rewrite Hm. by apply Hac. Qed.
Lemma ubytes_same e e' a n : same_user e e' -> ubytes e' a n = ubytes e a n.
Proof. intros [_ _ Hu _ _ _]. unfold ubytes. apply map_ext. intros i. apply Hu. Qed.

(** ** The stubs *)

Definition args num b c d s : sys := Mk (env s) (Olibc.with_args num b c d (regs s)) (fd_table s) (gui_queue s) (gui_queue_head s) (gui_queue_tail s) (gui_server_pid s).
Lemma args_ok num b c d s : sys_ok s -> is_u32 num -> is_u32 b -> is_u32 c -> is_u32 d -> sys_ok (args num b c d s).
Proof. intros [] ? ? ? ?. constructor; try done. Qed.
Lemma wp_call1 num b s (Q : Z -> sys -> Prop) : wp False syscall_handler (fun _ s' => Q (s32 (r_eax (regs s'))) s') (args num b (r_ecx (regs s)) (r_edx (regs s)) s) -> wp False (Olibc.as_int (Olibc.sys_call1 num b)) Q s.
Proof.
  intros Hh. unfold Olibc.as_int, Olibc.sys_call1, Olibc.interrupt. do 3 apply wp_bind. apply wp_modify. apply wp_bind. eapply wp_mono; [apply Hh|]. intros [] s' HQ. apply wp_gets, wp_ret, wp_ret. done.
Qed.
Lemma wp_call3 num b c d s (Q : Z -> sys -> Prop) : wp False syscall_handler (fun _ s' => Q (s32 (r_eax (regs s'))) s') (args num b c d s) -> wp False (Olibc.as_int (Olibc.sys_call3 num b c d)) Q s.
Proof.
  intros Hh. unfold Olibc.as_int, Olibc.sys_call3, Olibc.interrupt. do 3 apply wp_bind. apply wp_modify. apply wp_bind. eapply wp_mono; [apply Hh|]. intros [] s' HQ. apply wp_gets, wp_ret, wp_ret. done.
Qed.

(** ** The three calls, exactly *)

(** A call that answers v: the process and its memory stay. *)
Record answers (v : Z) s s' : Prop := { an_eax : r_eax (regs s') = v; an_user : same_user (env s) (env s'); an_ok : sys_ok s' }.
Definition fd_at s (i : Z) : option syscall_fd_t := fd_table s !! Z.to_nat i.

Lemma wp_eax_exact v s (Q : unit -> sys -> Prop) : sys_ok s -> is_u32 v -> (forall s', r_eax (regs s') = v -> env s' = env s -> fd_table s' = fd_table s -> sys_ok s' -> Q tt s') -> wp False (eax v) Q s.
Proof. intros [] Hv HQ. apply wp_modify, HQ; [done|done|done|]. constructor; try done. destruct so_regs as (? & ? & ? & ?). by split_and!. Qed.
Lemma wp_set_fd_exact i f s (Q : unit -> sys -> Prop) : sys_ok s -> fd_ok f -> 0 <= i < 16 ->
  (forall s', fd_at s' i = Some f -> env s' = env s -> regs s' = regs s -> sys_ok s' -> Q tt s') -> wp False (set_fd i f) Q s.
Proof.
  intros [] Hf Hi HQ. apply wp_modify, HQ; [|done|done|].
  - unfold fd_at. cbn. apply list_lookup_insert_eq. lia.
  - constructor; try done; cbn; [by rewrite length_insert|by apply Forall_insert].
Qed.
Lemma pid_eq s : sys_ok s -> on_env proc_current_pid s = Ok (cur_pid (env s), s).
Proof. intros Hs. apply on_env_eq. by apply pid_law, so_env. Qed.
Lemma fd_at_path s i f : sys_ok s -> fd_at s i = Some f -> path_ok (path f).
Proof. intros [] Hf. eapply list.Forall_lookup_1 in Hf; [|done]. apply Hf. Qed.
Lemma get_fd_exact s i f : fd_at s i = Some f -> used f = true -> owner_pid f = cur_pid (env s) -> 0 <= i < 16 -> get_fd i (cur_pid (env s)) s = Ok (Some f, s).
Proof.
  intros Hf Hu Ho Hi. unfold get_fd, MAX_OPEN_FILES. rewrite (proj2 (Z.leb_gt _ _)) by lia. unfold bind, gets, lift_opt. unfold fd_at in Hf. rewrite Hf, Hu, Ho, Z.eqb_refl. cbn. by rewrite andb_false_r.
Qed.
Lemma validate_true s a n : sys_ok s -> is_u32 a -> is_u32 n -> a <> 0 -> accessible (env s) a n -> validate_user_buffer a n s = Ok (true, s).
Proof. intros Hs Ha Hn Ha0 Hac. destruct (validate_exact s a n (so_env s Hs) Ha Hn) as (b & Eb & Hb). rewrite Eb. f_equal. f_equal. apply Hb. by right. Qed.
Lemma wp_store_exact l : forall s a (Q : unit -> sys -> Prop), sys_ok s -> 0 <= a -> accessible (env s) a (Z.of_nat (length l)) -> Forall is_u8 l ->
  (forall s', sys_ok s' -> regs s' = regs s -> fd_table s' = fd_table s -> (forall p, page_mapped (env s') p = page_mapped (env s) p) -> cur_pid (env s') = cur_pid (env s) ->
     ubytes (env s') a (length l) = l -> (forall x, x < a \/ a + Z.of_nat (length l) <= x -> umem (env s') x = umem (env s) x) -> Q tt s') -> wp False (store_bytes a l) Q s.
Proof.
  induction l as [|b l IH]; intros s a Q Hs Ha [Hw Hac] Hu HQ; cbn [store_bytes]; [by apply wp_ret, HQ|]. apply list.Forall_cons in Hu as [Hb Hu]. cbn [length] in *.
  rewrite u32_small by (unfold is_u32; lia). apply wp_bind, wp_sys_env. eapply wp_mono; [apply (store_law (env s) a b (so_env s Hs)); [apply Hac; lia|done]|].
  intros [] e' (He & Hm & Hh & Hp & _ & _ & Hum). eapply IH; [by apply sys_ok_env|lia| |done|].
  { split; [lia|]. intros x Hx. cbn [env with_env]. rewrite Hm. apply Hac. lia. }
  intros s' Hs' Hr Hfd Hm' Hp' Hub Hfr. cbn [env with_env regs fd_table] in *. apply HQ; [done|done|done|intros; by rewrite Hm'|congruence| |].
  - rewrite ubytes_S, Hub. f_equal. rewrite Hfr by lia. rewrite Hum. by rewrite decide_True.
  - intros x Hx. rewrite Hfr by lia. rewrite Hum. by rewrite decide_False by lia.
Qed.

Lemma wp_env_same {A} (P : A -> E -> Prop) (c : M E A) s (Q : A -> sys -> Prop) : sys_ok s -> wp False c (fun a e' => same_user (env s) e' /\ P a e') (env s) ->
  (forall a s', same_user (env s) (env s') -> P a (env s') -> regs s' = regs s -> fd_table s' = fd_table s -> sys_ok s' -> Q a s') -> wp False (on_env c) Q s.
Proof.
  intros Hs Hc HQ. apply wp_sys_env. eapply wp_mono; [exact Hc|]. intros a e' [Hu HP]. apply HQ; [done|done|done|done|]. apply sys_ok_env; [done|apply Hu].
Qed.
Lemma user_path_exact s p str : sys_ok s -> is_u32 p -> p <> 0 -> user_string (env s) p 255 str -> user_path p s = Ok (Some str, s).
Proof.
  intros Hs Hp Hp0 Hu. unfold user_path, MAX_PATH_LEN. destruct (copy_user_exact s p 256 (so_env s Hs) Hp ltac:(lia)) as (r & Er & Hr). rewrite Er. f_equal. f_equal. by apply Hr.
Qed.
Lemma wp_open_fd_exact s o p z (Q : unit -> sys -> Prop) : sys_ok s -> is_u32 o -> path_ok (take 255 p) ->
  (forall s1, same_user (env s) (env s1) -> sys_ok s1 -> forall (R : Z -> sys -> Prop), (forall n s2, is_u32 n -> same_user (env s) (env s2) -> fd_table s2 = fd_table s1 -> sys_ok s2 -> R n s2) -> wp False z R s1) ->
  (forall s', answers (u32 (-1)) s s' -> Q tt s') -> (forall fd sz s', 0 <= fd < 16 -> answers fd s s' -> fd_at s' fd = Some (Fd true o 0 sz (take 255 p)) -> Q tt s') ->
  wp False (open_fd o p z) Q s.
Proof.
  intros Hs Ho Hpo Hz HN HS. unfold open_fd. apply wp_bind. unfold alloc_fd. apply wp_bind, wp_gets. pose proof (same_user_refl _ (so_env s Hs)) as Href.
  destruct (find_unused (fd_table s) 0) as [i|] eqn:Ef.
  - assert (0 <= i < 16) as Hi. { revert Ef. rewrite <-(Z.add_0_l 16). change 16 with (Z.of_nat 16). rewrite <-(so_fds s Hs). generalize 0 at 1 2 3. generalize (fd_table s). clear.
      induction l as [|f l IH]; intros k Hf; [done|]. cbn in *. destruct (used f); [apply IH in Hf; lia|]. injection Hf as <-. lia. }
    apply wp_bind. eapply wp_set_fd_exact; [done|fd_solve|done|]. intros s1 _ He1 Hr1 Hs1. apply wp_ret. rewrite (proj2 (Z.ltb_ge i 0)) by lia.
    apply wp_bind. eapply wp_set_fd_exact; [done|fd_solve|done|]. intros s2 Hf2 He2 Hr2 Hs2. apply wp_bind. apply Hz; [rewrite He2, He1; done|done|].
    intros n s3 Hn Hu3 Hfd3 Hs3. apply wp_bind. eapply wp_set_fd_exact; [done|fd_solve|done|]. intros s4 Hf4 He4 Hr4 Hs4.
    eapply wp_eax_exact; [done|apply u32_is|]. intros s5 Hx5 He5 Hfd5 Hs5. rewrite u32_small in Hx5 by (unfold is_u32; lia). eapply (HS i n s5); [done| |unfold fd_at in *; rewrite Hfd5; done].
    constructor; [done|rewrite He5, He4; done|done].
  - apply wp_ret. rewrite (proj2 (Z.ltb_lt (-1) 0)) by lia. eapply wp_eax_exact; [done|apply u32_is|]. intros s' Hx He _ Hs'. apply HN. constructor; [done|by rewrite He|done].
Qed.
Lemma wp_sys_open s p str (Q : unit -> sys -> Prop) : sys_ok s -> r_ebx (regs s) = p -> p <> 0 -> user_string (env s) p 255 str -> path_ok str -> is_console_path str = false ->
  (forall s', answers (u32 (-1)) s s' -> Q tt s') -> (forall fd sz s', 0 <= fd < 16 -> answers fd s s' -> fd_at s' fd = Some (Fd true (cur_pid (env s)) 0 sz str) -> Q tt s') ->
  wp False Syscall.sys_open Q s.
Proof.
  intros Hs Hb Hp Hstr Hpo Hcon HN HS. pose proof (so_regs s Hs) as (_ & Hbu & _). rewrite Hb in Hbu. unfold Syscall.sys_open. apply wp_bind, wp_gets. rewrite Hb. apply wp_bind.
  eapply wp_ok; [by apply user_path_exact|]. apply wp_bind. eapply wp_ok; [by apply pid_eq|]. rewrite Hcon. pose proof (pid_law (env s) (so_env s Hs)) as [_ Hpu].
  assert (take 255 str = str) as Etk by (apply take_ge; destruct Hstr as [? _]; lia).
  apply wp_bind. eapply (wp_env_same (fun _ _ => True)); [done|eapply wp_mono; [apply exists_law; [by apply so_env|done]|by intros ? ? (? & _)]|]. intros ex s1 Hu1 _ Hr1 Hfd1 Hs1. apply wp_bind.
  assert (forall (R : bool -> sys -> Prop), (forall b s2, same_user (env s) (env s2) -> sys_ok s2 -> R b s2) -> wp False (if ex then ret true else on_env (fscmd_write_file str [])) R s1) as Hw.
  { intros R HR. destruct ex; [by apply wp_ret, HR|]. eapply (wp_env_same (fun _ _ => True)); [done|eapply wp_mono; [apply write_law; [by apply so_env|done]|by intros ? ? (? & _)]|].
    intros b s2 Hu2 _ _ _ Hs2. apply HR; [by eapply same_user_trans|done]. }
  apply Hw. intros b s2 Hu2 Hs2. destruct b; cbn [negb].
  - eapply wp_open_fd_exact; [done|done|by rewrite Etk| | |].
    + intros s3 Hu3 Hs3 R HR. eapply (wp_env_same (fun n _ => is_u32 n)); [done|eapply wp_mono; [apply size_law; [by apply so_env|by rewrite Etk]|by intros ? ? (? & _ & ? & _)]|].
      intros n s4 Hu4 Hn _ Hfd4 Hs4. apply HR; [done|by eapply same_user_trans|done|done].
    + intros s' [Hx Hu Ho]. apply HN. constructor; [done|by eapply same_user_trans|done].
    + intros fd sz s' Hfd [Hx Hu Ho] Hat. rewrite Etk in Hat. eapply HS; [done| |exact Hat]. constructor; [done|by eapply same_user_trans|done].
  - eapply wp_eax_exact; [done|apply u32_is|]. intros s' Hx He _ Hs'. apply HN. constructor; [done|rewrite He; done|done].
Qed.
Lemma wp_sys_write s fd f buf n (Q : unit -> sys -> Prop) : sys_ok s -> r_ebx (regs s) = fd -> r_ecx (regs s) = n -> r_edx (regs s) = buf -> 0 <= fd < 16 ->
  fd_at s fd = Some f -> used f = true -> owner_pid f = cur_pid (env s) -> is_console_path (path f) = false -> 0 < n -> buf <> 0 -> accessible (env s) buf n ->
  (forall s', answers (u32 (-1)) s s' -> Q tt s') ->
  (forall s', answers n s s' -> file_of (env s') (path f) = Some (ubytes (env s) buf (Z.to_nat n)) -> fd_at s' fd = Some (Fd true (owner_pid f) 0 n (path f)) -> Q tt s') ->
  wp False Syscall.sys_write Q s.
Proof.
  intros Hs Hb Hc Hd Hfd Hf Hused Hown Hcon Hn Hbuf Hac HN HS. pose proof (so_regs s Hs) as (_ & Hbu & Hcu & Hdu). rewrite Hb in Hbu. rewrite Hc in Hcu. rewrite Hd in Hdu.
  pose proof (fd_at_path s fd f Hs Hf) as Hpo. unfold Syscall.sys_write. apply wp_bind, wp_gets. rewrite Hb. apply wp_bind. eapply wp_ok; [by apply pid_eq|]. apply wp_bind. eapply wp_ok; [by apply get_fd_exact|].
  apply wp_bind, wp_gets. rewrite Hc. apply wp_bind, wp_gets. rewrite Hd. rewrite (proj2 (Z.eqb_neq n 0)), (proj2 (Z.eqb_neq buf 0)) by (done || lia). apply wp_bind.
  eapply wp_ok; [by apply validate_true|]. cbn [negb]. apply wp_bind. eapply wp_ok; [apply load_bytes_eq; [by apply so_env|unfold is_u32 in Hdu; lia|by rewrite Z2Nat.id by lia]|]. rewrite Hcon.
  apply wp_bind. eapply (wp_env_same (fun b e' => b = true -> file_of e' (path f) = Some (ubytes (env s) buf (Z.to_nat n)))); [done|apply write_law; [by apply so_env|done]|].
  intros b s1 Hu1 Hfile Hr1 Hfd1 Hs1. destruct b; cbn [negb].
  - apply wp_bind. eapply wp_set_fd_exact; [done|fd_solve|done|]. intros s2 Hf2 He2 Hr2 Hs2. eapply wp_eax_exact; [done|done|]. intros s3 Hx3 He3 Hfd3 Hs3.
    apply HS; [constructor; [done|by rewrite He3, He2|done]|rewrite He3, He2; by apply Hfile|]. unfold fd_at in *. by rewrite Hfd3, Hf2, Hused.
  - eapply wp_eax_exact; [done|apply u32_is|]. intros s' Hx He _ Hs'. apply HN. constructor; [done|by rewrite He|done].
Qed.
Lemma wp_sys_read s fd f buf m data (Q : unit -> sys -> Prop) : sys_ok s -> r_ebx (regs s) = fd -> r_ecx (regs s) = m -> r_edx (regs s) = buf -> 0 <= fd < 16 ->
  fd_at s fd = Some f -> used f = true -> owner_pid f = cur_pid (env s) -> 0 < m -> buf <> 0 -> accessible (env s) buf m ->
  file_of (env s) (path f) = Some data -> offset f = 0 -> size f = Z.of_nat (length data) -> 0 < Z.of_nat (length data) < 2147483648 ->
  (forall s', sys_ok s' -> ~ disk_ok (env s) -> s32 (r_eax (regs s')) <= 0 -> Q tt s') ->
  (forall s', let k := Z.min m (Z.of_nat (length data)) in sys_ok s' -> r_eax (regs s') = k -> ubytes (env s') buf (Z.to_nat k) = take (Z.to_nat k) data ->
     fd_at s' fd = Some (Fd true (owner_pid f) k (size f) (path f)) -> Q tt s') ->
  wp False Syscall.sys_read Q s.
Proof.
  intros Hs Hb Hc Hd Hfd Hf Hused Hown Hm Hbuf Hac Hfile Hoff Hsz Hlen HN HS. pose proof (so_regs s Hs) as (_ & Hbu & Hcu & Hdu). rewrite Hb in Hbu. rewrite Hc in Hcu. rewrite Hd in Hdu.
  pose proof (fd_at_path s fd f Hs Hf) as Hpo. unfold Syscall.sys_read. apply wp_bind, wp_gets. rewrite Hb. apply wp_bind. eapply wp_ok; [by apply pid_eq|]. apply wp_bind. eapply wp_ok; [by apply get_fd_exact|].
  apply wp_bind, wp_gets. rewrite Hc. apply wp_bind, wp_gets. rewrite Hd. rewrite (proj2 (Z.eqb_neq m 0)), (proj2 (Z.eqb_neq buf 0)) by (done || lia). cbn [orb]. apply wp_bind.
  eapply wp_ok; [by apply validate_true|]. cbn [negb]. rewrite Hoff, Hsz, (proj2 (Z.leb_gt _ _)), Z.sub_0_r, u32_small by (unfold is_u32; lia). cbv zeta.
  replace (if m <? Z.of_nat (length data) then m else Z.of_nat (length data)) with (Z.min m (Z.of_nat (length data))) by (bdestr; lia). set (k := Z.min m (Z.of_nat (length data))).
  apply wp_bind. eapply (wp_env_same (fun r _ => Forall is_u8 (snd r) /\ Z.of_nat (length (snd r)) <= k /\ ((~ disk_ok (env s) /\ fst r <= 0 /\ snd r = []) \/ (fst r = k /\ snd r = take (Z.to_nat k) data)))); [done| |].
  { eapply wp_mono; [apply (read_law (env s) (path f) 0 k); [by apply so_env|done|unfold is_u32; lia|unfold k; lia]|]. intros r e' (Hu & _ & Hu8 & Hl & Hr). split; [done|]. split_and!; [done|done|].
    specialize (Hr data Hfile ltac:(unfold k; lia)). by rewrite drop_0 in Hr. }
  intros [n bytes] s1 Hu1 (Hu8 & Hl & Hr) Hr1 Hfd1 Hs1. cbn [fst snd] in *. apply wp_bind.
  eapply wp_store_exact; [done|unfold is_u32 in Hdu; lia| |done|].
  { destruct Hac as [Hw Hac]. split; [unfold k in *; lia|]. intros x Hx. rewrite (su_mapped _ _ Hu1). apply Hac. unfold k in *. lia. }
  intros s2 Hs2 Hr2 Hfd2 _ _ Hub _. destruct Hr as [(Hdk & Hn0 & ->)|[-> ->]].
  - sys_step; [eapply wp_eax_exact; [done|apply u32_is|]; intros s3 Hx3 _ _ Hs3; apply HN; [done|done|by rewrite Hx3]|]. apply Z.ltb_ge in Heqb. assert (n = 0) as -> by lia.
    apply wp_bind. eapply wp_set_fd_exact; [done|fd_solve|done|]. intros s3 _ _ _ Hs3. eapply wp_eax_exact; [done|apply u32_is|]. intros s4 Hx4 _ _ Hs4. apply HN; [done|done|by rewrite Hx4].
  - rewrite (proj2 (Z.ltb_ge k 0)) by (unfold k; lia). apply wp_bind. eapply wp_set_fd_exact; [done|fd_solve|done|]. intros s3 Hf3 He3 _ Hs3.
    eapply wp_eax_exact; [done|apply u32_is|]. intros s4 Hx4 He4 Hfd4 Hs4. rewrite !u32_small in * by (unfold is_u32, k; lia). apply HS; [done|done| |].
    + rewrite He4, He3. rewrite length_take, Nat.min_l in Hub by (unfold k; lia). done.
    + unfold fd_at in *. by rewrite Hfd4, Hf3, Hused, Hsz, Z.add_0_l.
Qed.

(** ** The program *)

Definition session (path buf len buf2 len2 : Z) : M (@sys E) (Z * Z * Z) :=
  fd <- Olibc.sys_open path;; w <- Olibc.sys_write fd buf len;; r <- Olibc.sys_read fd buf2 len2;; ret (fd, w, r).
Lemma sys_s32_small x : 0 <= x < 2147483648 -> s32 x = x.
Proof. intros Hx. unfold s32. rewrite u32_small by (unfold is_u32; lia). by rewrite (proj2 (Z.ltb_lt _ _)) by lia. Qed.
Lemma wp_any_call s : sys_ok s -> call_ok s -> wp False syscall_handler (fun _ s' => sys_ok s') s.
Proof. intros Hs H2. eapply wp_mono; [apply (handler_ok s s); [by apply keep_start|done]|]. intros [] s' (mp & Hk). apply Hk. Qed.
Lemma wp_any_args num b c d s : sys_ok s -> num = 13 \/ num = 14 -> is_u32 b -> is_u32 c -> is_u32 d -> wp False syscall_handler (fun _ s' => sys_ok s') (args num b c d s).
Proof. intros Hs Hn Hb Hc Hd. apply wp_any_call; [apply args_ok; (done || (unfold is_u32; lia))|]. constructor; unfold path_arg; cbn; destruct Hn as [-> | ->]; done. Qed.
Lemma wp_session s ps str buf n buf2 m (Q : Z * Z * Z -> sys -> Prop) : let data := ubytes (env s) buf (Z.to_nat n) in
  sys_ok s -> is_u32 ps -> ps <> 0 -> user_string (env s) ps 255 str -> path_ok str -> is_console_path str = false ->
  is_u32 buf -> buf <> 0 -> 0 < n < 2147483648 -> accessible (env s) buf n -> is_u32 buf2 -> buf2 <> 0 -> 0 < m < 2147483648 -> accessible (env s) buf2 m ->
  (forall w r s', sys_ok s' -> Q (-1, w, r) s') -> (forall fd r s', sys_ok s' -> 0 <= fd < 16 -> Q (fd, -1, r) s') -> (forall fd r s', sys_ok s' -> 0 <= fd < 16 -> ~ disk_ok (env s) -> r <= 0 -> Q (fd, n, r) s') ->
  (forall fd s', sys_ok s' -> 0 <= fd < 16 -> ubytes (env s') buf2 (Z.to_nat (Z.min m n)) = take (Z.to_nat (Z.min m n)) data -> Q (fd, n, Z.min m n) s') ->
  wp False (session ps buf n buf2 m) Q s.
Proof.
  intros data Hs Hp Hp0 Hstr Hpo Hcon Hb Hb0 Hn Hac Hb2 Hb20 Hm Hac2 HE1 HE2 HE3 HOk. unfold session.
  assert (Forall is_u8 data /\ length data = Z.to_nat n) as [_ Hlen] by (apply ubytes_u8; [by apply so_env|by rewrite Z2Nat.id by lia]).
  pose proof (so_regs s Hs) as (_ & _ & Hcu & Hdu).
  apply wp_bind. unfold Olibc.sys_open. apply wp_call1. set (sa := args 12 ps _ _ s). assert (sys_ok sa) as Hsa by (apply args_ok; (done || (unfold is_u32; lia))).
  change syscall_handler with (syscall_handler (E := E)). unfold syscall_handler at 1. apply wp_bind, wp_gets. change (r_eax (regs sa)) with 12. cbv iota.
  eapply (wp_sys_open sa ps str); [done|done|done|done|done|done| |].
  - intros s1 [Hx1 Hu1 Hs1]. rewrite Hx1. change (s32 (u32 (-1))) with (-1). pose proof (so_regs s1 Hs1) as (_ & _ & Hc1 & Hd1).
    apply wp_bind. unfold Olibc.sys_write. apply wp_call3. eapply wp_mono; [apply wp_any_args; [done|lia|apply u32_is|unfold is_u32; lia|done]|].
    intros [] s2 Hs2. apply wp_bind. unfold Olibc.sys_read. apply wp_call3. eapply wp_mono; [apply wp_any_args; [done|lia|apply u32_is|unfold is_u32; lia|done]|].
    intros [] s3 Hs3. apply wp_ret. by apply HE1.
  - intros fd sz s1 Hfd [Hx1 Hu1 Hs1] Hat1. change (env sa) with (env s) in *. rewrite Hx1, sys_s32_small by lia. apply wp_bind. unfold Olibc.sys_write. apply wp_call3. rewrite u32_small by (unfold is_u32; lia).
    set (sb := args 14 fd n buf s1). assert (sys_ok sb) as Hsb by (apply args_ok; (done || (unfold is_u32; lia))).
    unfold syscall_handler at 1. apply wp_bind, wp_gets. change (r_eax (regs sb)) with 14. cbv iota.
    assert (accessible (env sb) buf n) as Hacb by (by eapply accessible_same). assert (accessible (env s1) buf2 m) as Hac1 by (by eapply accessible_same).
    assert (cur_pid (env s1) = cur_pid (env s)) as Hpid by apply Hu1.
    eapply (wp_sys_write sb fd _ buf n); [done|done|done|done|done|exact Hat1|done|cbn; congruence|done|lia|done|done| |].
    + intros s2 [Hx2 Hu2 Hs2]. rewrite Hx2. change (s32 (u32 (-1))) with (-1).
      apply wp_bind. unfold Olibc.sys_read. apply wp_call3. eapply wp_mono; [apply wp_any_args; [done|lia|apply u32_is|unfold is_u32; lia|done]|]. intros [] s3 Hs3. apply wp_ret. by apply HE2.
    + intros s2 [Hx2 Hu2 Hs2] Hfile Hat2. cbn [path owner_pid] in *. change (env sb) with (env s1) in *. rewrite (ubytes_same _ _ _ _ Hu1) in Hfile. fold data in Hfile. rewrite Hx2, sys_s32_small by lia.
      apply wp_bind. unfold Olibc.sys_read. apply wp_call3. rewrite u32_small by (unfold is_u32; lia). set (sc := args 13 fd m buf2 s2).
      assert (sys_ok sc) as Hsc by (apply args_ok; (done || (unfold is_u32; lia))). unfold syscall_handler at 1. apply wp_bind, wp_gets. change (r_eax (regs sc)) with 13. cbv iota.
      assert (cur_pid (env s2) = cur_pid (env s1)) as Hpid2 by apply Hu2.
      eapply (wp_sys_read sc fd _ buf2 m data); [done|done|done|done|done|exact Hat2|done|cbn; congruence|lia|done|by eapply (accessible_same (env s1))|done|done|cbn; lia|lia| |].
      * intros s3 Hs3 Hdk Hr3. apply wp_ret. apply HE3; [done|done| |done]. intros Hd0. apply Hdk. by apply (st_disk _ _ (su_steady _ _ Hu2)), (st_disk _ _ (su_steady _ _ Hu1)).
      * replace (Z.of_nat (length data)) with n by lia. intros s3 k Hs3 Hx3 Hub3 _. unfold k in *. rewrite Hx3, sys_s32_small by lia. apply wp_ret. by apply HOk.
Qed.
End app.
