(* ===== verification/SysClaims.v ===== *)
(** * System calls: the properties

    Safety of the handler, the checks of user memory, the table of open files, the message queue of
    the graphical server. *)
From S2P Require Import Prelude SysEnv Syscall SysSafe SysCalls Olibc SysApp.
Import Syscall.

Section claims.
Context {E : Type} `{SysEnvOk E}.
Implicit Types s : @sys E.



(** validate_user_buffer accepts a range exactly when it is empty, or does not start at 0, does
    not wrap around and has every byte in a mapped page; copy_user_string returns a string exactly
    when it ends within the limit and all its bytes are mapped.  Neither changes anything. *)
Theorem user_memory_checks s addr n mx : env_ok (env s) -> is_u32 addr -> is_u32 n -> 1 < mx ->
  (exists b, validate_user_buffer addr n s = Ok (b, s) /\ (b = true <-> n = 0 \/ (addr <> 0 /\ accessible (env s) addr n))) /\
  (exists r, copy_user_string addr mx s = Ok (r, s) /\ forall l, r = Some l <-> addr <> 0 /\ user_string (env s) addr (Z.to_nat (mx - 1)) l).
Proof. intros He Ha Hn Hm. split; [by apply validate_exact|by apply copy_user_exact]. Qed.
End claims.

(** ** The message queue *)

Section queue.
Context {E : Type} `{SysEnvOk E}.
Implicit Types s : @sys E.

(** The messages that wait, the oldest first *)
Definition pending s : list sys_gui_msg_t :=
  omap (fun i => gui_queue s !! Z.to_nat ((gui_queue_tail s + Z.of_nat i) mod 64)) (seq 0 (Z.to_nat ((gui_queue_head s - gui_queue_tail s) mod 64))).
Lemma omap_total {A B} (f : A -> option B) (l : list A) : (forall x, x ∈ l -> is_Some (f x)) -> length (omap f l) = length l.
Proof.
  induction l as [|x l IH]; intros Hf; [done|]. cbn. destruct (Hf x ltac:(by left)) as [y ->]. cbn. f_equal. apply IH. intros z Hz. apply Hf. by right.
Qed.
Lemma omap_ext_in {A B} (f g : A -> option B) (l : list A) : (forall x, x ∈ l -> f x = g x) -> omap f l = omap g l.
Proof. induction l as [|x l IH]; intros Hf; [done|]. cbn. rewrite Hf by (by left). destruct (g x); [f_equal|]; apply IH; intros z Hz; apply Hf; by right. Qed.
Lemma omap_snoc {A B} (f : A -> option B) (l : list A) x y : f x = Some y -> omap f (l ++ [x]) = omap f l ++ [y].
Proof. intros Hf. induction l as [|z l IH]; cbn; [by rewrite Hf|]. rewrite IH. by destruct (f z). Qed.
Lemma pending_length s : sys_ok s -> Z.of_nat (length (pending s)) = (gui_queue_head s - gui_queue_tail s) mod 64.
Proof.
  intros []. unfold pending. rewrite omap_total, length_seq; [rewrite Z2Nat.id; [done|]; apply Z.mod_pos_bound; lia|].
  intros i Hi. apply lookup_lt_is_Some_2. pose proof (Z.mod_pos_bound (gui_queue_tail s + Z.of_nat i) 64 ltac:(lia)). lia.
Qed.
Lemma push_fifo s m : sys_ok s -> if Z.of_nat (length (pending s)) <? 63
  then exists s', gui_queue_push m s = Ok (true, s') /\ pending s' = pending s ++ [m] /\ (msg_ok m -> sys_ok s')
  else gui_queue_push m s = Ok (false, s).
Proof.
  intros Hs. rewrite (pending_length s Hs). pose proof Hs as []. unfold gui_queue_push, bind, get, GUI_QUEUE_MAX. cbn -[Z.modulo].
  rewrite u32_small by (unfold is_u32; lia). destruct (Z.ltb_spec ((gui_queue_head s - gui_queue_tail s) mod 64) 63) as [Hlt|Hge].
  - rewrite (proj2 (Z.eqb_neq _ _)) by word_lia. eexists. split; [reflexivity|]. split.
    + unfold pending. cbn -[Z.modulo]. set (n := Z.to_nat ((gui_queue_head s - gui_queue_tail s) mod 64)).
      replace (Z.to_nat (((gui_queue_head s + 1) mod 64 - gui_queue_tail s) mod 64)) with (n + 1)%nat by (unfold n; word_lia).
      rewrite seq_app. cbn [seq]. erewrite omap_snoc; [f_equal|].
      * apply omap_ext_in. intros i Hi%elem_of_seq. rewrite list_lookup_insert_ne; [done|]. unfold n in Hi. word_lia.
      * replace (Z.to_nat ((gui_queue_tail s + Z.of_nat (0 + n)) mod 64)) with (Z.to_nat (gui_queue_head s)) by (unfold n; word_lia). apply list_lookup_insert_eq. lia.
    + intros Hm. constructor; try done; cbn -[Z.modulo]; [by rewrite length_insert|by apply Forall_insert|apply Z.mod_pos_bound; lia].
  - rewrite (proj2 (Z.eqb_eq _ _)) by word_lia. done.
Qed.
Lemma pop_fifo s : sys_ok s -> match pending s with
  | [] => gui_queue_pop s = Ok (None, s)
  | m :: q => exists s', gui_queue_pop s = Ok (Some m, s') /\ pending s' = q /\ sys_ok s'
  end.
Proof.
  intros Hs. pose proof Hs as []. unfold gui_queue_pop, bind, get, GUI_QUEUE_MAX. destruct (Z.eqb_spec (gui_queue_head s) (gui_queue_tail s)) as [Eq|Hne].
  - unfold pending. rewrite Eq, Z.sub_diag. done.
  - unfold pending. set (n := Z.to_nat ((gui_queue_head s - gui_queue_tail s) mod 64)). assert (n = S (n - 1)) as En by (unfold n; word_lia). rewrite En. cbn [seq]. cbn -[Z.modulo seq].
    destruct (lookup_lt_is_Some_2 (gui_queue s) (Z.to_nat (gui_queue_tail s))) as [m Hm]; [lia|]. rewrite Z.add_0_r, Z.mod_small, Hm by lia. cbn -[Z.modulo seq].
    eexists. split; [reflexivity|]. rewrite u32_small by (unfold is_u32; lia). split.
    + unfold pending. cbn -[Z.modulo seq]. replace (Z.to_nat ((gui_queue_head s - (gui_queue_tail s + 1) mod 64) mod 64)) with (n - 1)%nat by (unfold n; word_lia).
      rewrite <-(seq_shift (n - 1) 0). generalize (seq 0 (n - 1)). intros l. induction l as [|i l IH]; [done|]. cbn -[Z.modulo].
      replace ((gui_queue_tail s + Z.of_nat (S i)) mod 64) with (((gui_queue_tail s + 1) mod 64 + Z.of_nat i) mod 64) by word_lia. by rewrite IH.
    + constructor; try done. cbn -[Z.modulo]. apply Z.mod_pos_bound. lia.
Qed.

(** Sequences of sends and receives, on the ring and on a list that holds at most 63 messages *)
Inductive gui_op := Send (m : sys_gui_msg_t) | Receive.
Definition gui_step (o : gui_op) : M (@sys E) (option sys_gui_msg_t * bool) :=
  match o with
  | Send m => b <- gui_queue_push m;; ret (None, b)
  | Receive => r <- gui_queue_pop;; ret (r, if r then true else false)
  end.
Definition fifo_step (o : gui_op) (q : list sys_gui_msg_t) : (option sys_gui_msg_t * bool) * list sys_gui_msg_t :=
  match o with
  | Send m => if Z.of_nat (length q) <? 63 then ((None, true), q ++ [m]) else ((None, false), q)
  | Receive => match q with [] => ((None, false), []) | m :: q' => ((Some m, true), q') end
  end.
Fixpoint gui_run (ops : list gui_op) : M (@sys E) (list (option sys_gui_msg_t * bool)) :=
  match ops with [] => ret [] | o :: ops' => r <- gui_step o;; rs <- gui_run ops';; ret (r :: rs) end.
Fixpoint fifo_run (ops : list gui_op) (q : list sys_gui_msg_t) : list (option sys_gui_msg_t * bool) * list sys_gui_msg_t :=
  match ops with [] => ([], q) | o :: ops' => let '(r, q1) := fifo_step o q in let '(rs, q2) := fifo_run ops' q1 in (r :: rs, q2) end.
Definition op_ok (o : gui_op) : Prop := match o with Send m => msg_ok m | Receive => True end.

(** the ring of messages behaves like a first-in first-out queue of at most 63 messages under
    every sequence of sends and receives: no message is lost, repeated, reordered or changed, and a
    send is refused exactly when the queue is full. *)
Theorem gui_queue_refines_fifo ops s : sys_ok s -> Forall op_ok ops ->
  exists s', gui_run ops s = Ok (fst (fifo_run ops (pending s)), s') /\ pending s' = snd (fifo_run ops (pending s)) /\ sys_ok s'.
Proof.
  revert s. induction ops as [|o ops IH]; intros s Hs Hok; [by exists s|]. apply list.Forall_cons in Hok as [Ho Hok].
  assert (exists s1, gui_step o s = Ok (fst (fifo_step o (pending s)), s1) /\ pending s1 = snd (fifo_step o (pending s)) /\ sys_ok s1) as (s1 & E1 & Hp1 & Hs1).
  { destruct o as [m|]; cbn [gui_step fifo_step].
    - pose proof (push_fifo s m Hs) as Hp. destruct (_ <? 63); [destruct Hp as (s1 & Ep & Hq & Hk)|]; unfold bind; [rewrite Ep; exists s1; by auto|rewrite Hp; by exists s].
    - pose proof (pop_fifo s Hs) as Hp. unfold bind. destruct (pending s) as [|m q] eqn:Eq; [rewrite Hp; by exists s|]. destruct Hp as (s1 & Ep & Hq & Hk). rewrite Ep. by exists s1. }
  destruct (IH s1 Hs1 Hok) as (s' & E2 & Hp2 & Hs2). exists s'. cbn [gui_run fifo_run]. unfold bind. rewrite E1, E2. rewrite Hp1 in *.
  destruct (fifo_step o (pending s)) as [r q1]. cbn [fst snd] in *. by destruct (fifo_run ops q1) as [rs q2].
Qed.
End queue.


(** ** Examples

    A process with the pages 0x400000 and 0x401000; the string /f is at 0x400010, the bytes 1, 2, 3
    at 0x400100. *)
Definition ex_kern : kern :=
  Kern [0x400000; 0x401000] (list_to_map [(0x400010, 47); (0x400011, 102); (0x400100, 1); (0x400101, 2); (0x400102, 3); (0x400200, 16); (0x400202, 64)]) 1 ∅ 5 ∅.
Definition ex_regs (num b c d : Z) : registers_t := Regs 0 0 0 0 0 b d c num 0 0 0 0 0 0 0.
Definition no_msg : sys_gui_msg_t := Msg 0 0 0 0 0 (replicate 256 0).
Definition ex_sys (num b c d : Z) : @sys kern := Mk ex_kern (ex_regs num b c d) (replicate 15 no_fd ++ [Fd true 9 0 0 []]) (replicate 64 no_msg) 0 0 0.
Lemma ex_sys_ok num b c d : is_u32 num -> is_u32 b -> is_u32 c -> is_u32 d -> sys_ok (ex_sys num b c d).
Proof.
  intros ? ? ? ?. constructor; cbn [env regs ex_sys fd_table gui_queue gui_queue_head gui_queue_tail].
  - constructor; cbn [ex_kern kn_mem kn_next kn_held kn_pid kn_files]; [|lia|set_solver|unfold is_u32; lia|intros p dd; by rewrite lookup_empty].
    intros a v Hv. apply elem_of_list_to_map_2 in Hv. assert (Forall (fun p => is_u8 (snd p)) [(0x400010, 47); (0x400011, 102); (0x400100, 1); (0x400101, 2); (0x400102, 3); (0x400200, 16); (0x400202, 64)]) as Hf by (repeat constructor; cbn; lia).
    rewrite list.Forall_forall in Hf. by apply (Hf (a, v)).
  - by split_and!.
  - reflexivity.
  - apply Forall_app. split; [apply Forall_replicate|apply list.Forall_singleton]; split_and!; try done; unfold is_u32; cbn; lia.
  - reflexivity.
  - apply Forall_replicate. split; [reflexivity|]. apply Forall_replicate. unfold is_u8. lia.
  - lia.
  - lia.
Qed.
Lemma ex_call_ok num b c d : num <> 2 -> num <> 7 -> num <> 10 -> call_ok (ex_sys num b c d).
Proof. intros H2 H7 H10. by constructor. Qed.
Lemma user_memory_checks_witness : let s := ex_sys 1 0 0 0 in
  (exists b, validate_user_buffer 0x401FF0 17 s = Ok (b, s) /\ (b = true <-> 17 = 0 \/ (0x401FF0 <> 0 /\ accessible (env s) 0x401FF0 17))) /\
  (exists r, copy_user_string 0x401FF0 256 s = Ok (r, s) /\ forall l, r = Some l <-> 0x401FF0 <> 0 /\ user_string (env s) 0x401FF0 (Z.to_nat (256 - 1)) l).
Proof.
  refine (user_memory_checks (ex_sys 1 0 0 0) 0x401FF0 17 256 (so_env _ (ex_sys_ok _ _ _ _ _ _ _ _)) _ _ _); (unfold is_u32; lia).
Defined.
Lemma gui_queue_refines_fifo_witness : exists s', gui_run [Receive; Send no_msg; Receive; Receive] (ex_sys 1 0 0 0) =
  Ok ([(None, false); (None, true); (Some no_msg, true); (None, false)], s') /\ pending s' = [] /\ sys_ok s'.
Proof.
  refine (gui_queue_refines_fifo [Receive; Send no_msg; Receive; Receive] (ex_sys 1 0 0 0) (ex_sys_ok _ _ _ _ _ _ _ _) _); try (unfold is_u32; lia).
  repeat constructor; cbn; try lia.
Defined.
Lemma ex_accessible a n : 0x400000 <= a -> 0 <= n -> a + n <= 0x402000 -> accessible ex_kern a n.
Proof.
  intros Ha Hn Hl. split; [lia|]. intros x Hx. rewrite page_of_mul by (unfold is_u32; lia). cbn. unfold kn_mapped, ex_kern. cbn [kn_pages]. apply bool_decide_eq_true.
  assert (x / 4096 = 1024 \/ x / 4096 = 1025) as [-> | ->] by word_lia; set_solver.
Qed.
Lemma ex_string : user_string ex_kern 0x400010 255 [47; 102].
Proof.
  split_and!; [cbn; lia| | |vm_compute; reflexivity].
  - intros i Hi. cbn in Hi. destruct i as [|[|[|i]]]; [vm_compute; reflexivity..|lia].
  - intros i c Hi. destruct i as [|[|i]]; [injection Hi as <-..|done]; split; (lia || (vm_compute; reflexivity)).
Qed.
(** On this kernel no call fails: the file is created, written and read. *)
Example app_run : exists s', session 0x400010 0x400100 3 0x401000 100 (ex_sys 0 0 0 0) = Ok ((0, 3, 3), s') /\ ubytes (env s') 0x401000 3 = [1; 2; 3].
Proof. eexists. split; [vm_compute; reflexivity|vm_compute; reflexivity]. Qed.
(** A call that gives the processor away cleans up process 100, which has exited, and closes its file. *)
Example yield_closes_of_exited : exists s', syscall_handler (Mk ex_kern (ex_regs 9 0 0 0) [Fd true 100 0 0 []; Fd true 9 0 0 []] [] 0 0 0) = Ok (tt, s') /\
  fd_table s' = [no_fd; Fd true 9 0 0 []].
Proof. eexists. split; vm_compute; reflexivity. Qed.
(** System call 2 follows any pointer. *)
Example kprint_bad_pointer : syscall_handler (ex_sys 2 0x500000 0 0) = Fault.
Proof. vm_compute. reflexivity. Qed.
(** A program may pass the address of any mapped page, one of the kernel included: the check has no
    notion of user pages. *)
Example buffer_of_the_kernel : exists b, validate_user_buffer 0xC0000000 16 (Mk (Kern [0xC0000000] ∅ 1 ∅ 5 ∅) (ex_regs 0 0 0 0) [] [] 0 0 0) = Ok (b, Mk (Kern [0xC0000000] ∅ 1 ∅ 5 ∅) (ex_regs 0 0 0 0) [] [] 0 0 0) /\ b = true.
Proof. eexists. split; [vm_compute; reflexivity|reflexivity]. Qed.
