(* ===== verification/Klog.v ===== *)
(** * The kernel log (kernel/log.c)

    The boot log keeps the first 8191 characters that it is given, the kernel log the last 16384:
    a ring of characters that klog_get lays out again in order.  A C string is the list of its
    characters without the NUL, a pointer that the code compares with NULL an option. *)
From S2P Require Import Prelude.

Module Klog.

Definition LOG_BUF_SIZE : Z := 8192.
Definition KLOG_BUF_SIZE : Z := 16384.

Record log := Log {
  bootlog_buf : list Z; bootlog_index : Z; bootlog_enabled : bool;
  klog_buf : list Z; klog_head : Z; klog_count : Z;
  klog_out : list Z;
}.
Definition log0 : log :=
  Log (replicate (Z.to_nat LOG_BUF_SIZE) 0) 0 true (replicate (Z.to_nat KLOG_BUF_SIZE) 0) 0 0 (replicate (Z.to_nat (KLOG_BUF_SIZE + 1)) 0).

Definition with_boot (b : list Z) (i : Z) (s : log) : log := Log b i (bootlog_enabled s) (klog_buf s) (klog_head s) (klog_count s) (klog_out s).
Definition with_enabled (v : bool) (s : log) : log := Log (bootlog_buf s) (bootlog_index s) v (klog_buf s) (klog_head s) (klog_count s) (klog_out s).
Definition with_klog (b : list Z) (h c : Z) (s : log) : log := Log (bootlog_buf s) (bootlog_index s) (bootlog_enabled s) b h c (klog_out s).
Definition with_out (b : list Z) (s : log) : log := Log (bootlog_buf s) (bootlog_index s) (bootlog_enabled s) (klog_buf s) (klog_head s) (klog_count s) b.

(** The body of the loop in klog_add *)
Definition klog_putc (c : Z) : M log unit :=
  s <- get;;
  b <- lift_opt (lset (klog_buf s) (klog_head s) c);;
  let h := klog_head s + 1 in
  let h := if KLOG_BUF_SIZE <=? h then 0 else h in
  let n := if klog_count s <? KLOG_BUF_SIZE then klog_count s + 1 else klog_count s in
  modify (with_klog b h n).
Fixpoint klog_loop (s : list Z) : M log unit :=
  match s with
  | [] => ret tt
  | c :: s' => klog_putc c;;; klog_loop s'
  end.
Definition klog_add (s : option (list Z)) : M log unit :=
  match s with None => ret tt | Some s => klog_loop s end.

(** while ( *s && bootlog_index < LOG_BUF_SIZE - 1) *)
Fixpoint bootlog_loop (s : list Z) : M log unit :=
  match s with
  | [] => ret tt
  | c :: s' =>
    i <- gets bootlog_index;;
    if i <? LOG_BUF_SIZE - 1 then
      b <- gets bootlog_buf;; b' <- lift_opt (lset b i c);; modify (with_boot b' (i + 1));;; bootlog_loop s'
    else ret tt
  end.
Definition bootlog_add (s : option (list Z)) : M log unit :=
  match s with
  | None => ret tt
  | Some str =>
    klog_add (Some str);;;
    en <- gets bootlog_enabled;;
    if negb en then ret tt
    else
      bootlog_loop str;;;
      i <- gets bootlog_index;; b <- gets bootlog_buf;;
      b' <- lift_opt (lset b i 0);; modify (with_boot b' i)
  end.

(** memcpy of n bytes of b from offset off on to offset d of the output array *)
Definition copy_out (d : Z) (b : list Z) (off n : Z) : M log unit :=
  c <- lift_opt (slice b off n);; o <- gets klog_out;; o' <- lift_opt (splice o d c);; modify (with_out o').
(** The result is the static array klog_out. *)
Definition klog_get : M log (list Z) :=
  s <- get;;
  out_len <- (if klog_count s =? 0 then ret 0
              else if klog_count s <? KLOG_BUF_SIZE then copy_out 0 (klog_buf s) 0 (klog_count s);;; ret (klog_count s)
              else
                let tail := KLOG_BUF_SIZE - klog_head s in
                copy_out 0 (klog_buf s) (klog_head s) tail;;; copy_out tail (klog_buf s) 0 (klog_head s);;; ret KLOG_BUF_SIZE);;
  o <- gets klog_out;; o' <- lift_opt (lset o out_len 0);; modify (with_out o');;; ret o'.
Definition klog_clear : M log unit :=
  s <- get;; b <- lift_opt (lset (klog_buf s) 0 0);; modify (with_klog b 0 0).
Definition bootlog_get : M log (list Z) := gets bootlog_buf.
Definition bootlog_clear : M log unit :=
  b <- gets bootlog_buf;; b' <- lift_opt (lset b 0 0);; modify (with_boot b' 0).

(** ** What the logs hold *)

Definition last_n {A} (n : nat) (l : list A) : list A := drop (length l - n) l.
Definition KLOG : nat := Z.to_nat KLOG_BUF_SIZE.
Definition BOOTLOG : nat := Z.to_nat (LOG_BUF_SIZE - 1).

(** h is all that was added since the log was cleared. *)
Record klog_holds (h : list Z) (s : log) : Prop := {
  kh_len : Z.of_nat (length (klog_buf s)) = KLOG_BUF_SIZE;
  kh_out : Z.of_nat (length (klog_out s)) = KLOG_BUF_SIZE + 1;
  kh_count : klog_count s = Z.min (Z.of_nat (length h)) KLOG_BUF_SIZE;
  kh_head : klog_head s = Z.of_nat (length h) mod KLOG_BUF_SIZE;
  kh_cells : forall i c, h !! i = Some c -> Z.of_nat (length h) - KLOG_BUF_SIZE <= Z.of_nat i ->
    lget (klog_buf s) (Z.of_nat i mod KLOG_BUF_SIZE) = Some c;
}.
Record bootlog_holds (h : list Z) (s : log) : Prop := {
  bh_len : Z.of_nat (length (bootlog_buf s)) = LOG_BUF_SIZE;
  bh_fits : (length h <= BOOTLOG)%nat;
  bh_index : bootlog_index s = Z.of_nat (length h);
  bh_text : take (length h) (bootlog_buf s) = h;
}.

Lemma wp_lset {S A B} F (l : list A) i v (k : list A -> M S B) Q s :
  0 <= i < Z.of_nat (length l) -> wp F (k (<[Z.to_nat i := v]> l)) Q s -> wp F (bind (lift_opt (lset l i v)) k) Q s.
Proof. intros Hi Hk. apply wp_bind. rewrite lset_in by done. by apply wp_lift_some. Qed.

Lemma klog_putc_ok h c s : klog_holds h s ->
  wp False (klog_putc c) (fun _ s' => klog_holds (h ++ [c]) s' /\ bootlog_buf s' = bootlog_buf s /\ bootlog_index s' = bootlog_index s /\ bootlog_enabled s' = bootlog_enabled s) s.
Proof.
  intros [Hl Ho Hc Hh Hx]. unfold klog_putc. apply wp_bind, wp_gets; cbv beta. pose proof (Z.mod_pos_bound (Z.of_nat (length h)) KLOG_BUF_SIZE eq_refl).
  apply wp_lset; [lia|]. apply wp_modify. split; [|done]. rewrite Hh, Hc in *. unfold KLOG_BUF_SIZE in *.
  constructor; cbn [klog_buf klog_out klog_count klog_head with_klog]; rewrite ?length_insert, ?length_app; cbn [length]; unfold KLOG_BUF_SIZE in *.
  - done.
  - done.
  - bdestr; lia.
  - bdestr; Z.div_mod_to_equations; lia.
  - intros i d Hi Hr. rewrite lget_insert by lia. apply lookup_app_Some in Hi as [Hi|[Hge Hi]].
    + pose proof (lookup_lt_Some _ _ _ Hi). case_decide as E; [|apply Hx; [done|lia]]. exfalso. Z.div_mod_to_equations. lia.
    + assert (i = length h) as -> by (pose proof (lookup_lt_Some _ _ _ Hi) as Hlt; cbn in Hlt; lia).
      rewrite Nat.sub_diag in Hi. injection Hi as ->. by rewrite decide_True.
Qed.
Lemma klog_loop_ok str : forall h s, klog_holds h s ->
  wp False (klog_loop str) (fun _ s' => klog_holds (h ++ str) s' /\ bootlog_buf s' = bootlog_buf s /\ bootlog_index s' = bootlog_index s /\ bootlog_enabled s' = bootlog_enabled s) s.
Proof.
  induction str as [|c str IH]; intros h s Hs; cbn [klog_loop]; [apply wp_ret; by rewrite app_nil_r|].
  apply wp_bind. eapply wp_mono; [by apply klog_putc_ok|]. intros _ s1 (H1 & E1 & E2 & E3).
  eapply wp_mono; [by apply IH|]. intros _ s2 (H2 & E4 & E5 & E6). rewrite <-app_assoc in H2. split_and!; [done|congruence..].
Qed.
Lemma klog_clear_ok h s : klog_holds h s -> wp False klog_clear (fun _ s' => klog_holds [] s') s.
Proof.
  intros [Hl Ho Hc Hh Hx]. unfold klog_clear. apply wp_bind, wp_gets; cbv beta. apply wp_lset; [unfold KLOG_BUF_SIZE in *; lia|].
  apply wp_modify. constructor; cbn [klog_buf klog_out klog_count klog_head with_klog]; rewrite ?length_insert; try done.
Qed.

(** The last n elements of h by position *)
Lemma last_n_lookup {A} n (h : list A) i : last_n n h !! i = h !! (length h - n + i)%nat.
Proof. unfold last_n. by rewrite lookup_drop. Qed.
Lemma last_n_length {A} n (h : list A) : length (last_n n h) = (length h `min` n)%nat.
Proof. unfold last_n. rewrite length_drop. lia. Qed.

(** The characters of the ring in the order in which klog_get lays them out *)
Lemma klog_layout h s : klog_holds h s ->
  last_n KLOG h = if klog_count s <? KLOG_BUF_SIZE then take (Z.to_nat (klog_count s)) (klog_buf s)
                  else drop (Z.to_nat (klog_head s)) (klog_buf s) ++ take (Z.to_nat (klog_head s)) (klog_buf s).
Proof.
  intros [Hl Ho Hc Hh Hx]. unfold KLOG. rewrite Hc, Hh in *. clear Hc Hh. unfold KLOG_BUF_SIZE in *.
  assert (Hcell : forall i c, h !! i = Some c -> Z.of_nat (length h) - 16384 <= Z.of_nat i ->
    klog_buf s !! Z.to_nat (Z.of_nat i mod 16384) = Some c).
  { intros i c Hi Hr. rewrite <-lget_lookup by (Z.div_mod_to_equations; lia). by apply Hx. }
  apply list_eq. intros i. rewrite last_n_lookup.
  destruct (Z.ltb_spec (Z.of_nat (length h) `min` 16384) 16384).
  - replace (length h - Z.to_nat 16384 + i)%nat with i by lia. destruct (h !! i) as [c|] eqn:E.
    + pose proof (lookup_lt_Some _ _ _ E). symmetry. rewrite lookup_take_lt by lia. specialize (Hcell i c E ltac:(lia)).
      rewrite Z.mod_small, Nat2Z.id in Hcell by lia. done.
    + apply lookup_ge_None in E. symmetry. apply lookup_ge_None. rewrite length_take. lia.
  - set (k := (length h - Z.to_nat 16384 + i)%nat). destruct (h !! k) as [c|] eqn:E.
    + pose proof (lookup_lt_Some _ _ _ E). specialize (Hcell k c E ltac:(lia)). symmetry.
      pose proof (Z.mod_pos_bound (Z.of_nat (length h)) 16384 eq_refl).
      rewrite lookup_app. rewrite lookup_drop, length_drop.
      destruct (decide (Z.to_nat (Z.of_nat (length h) mod 16384) + i < length (klog_buf s))%nat).
      * replace (Z.to_nat (Z.of_nat k mod 16384)) with (Z.to_nat (Z.of_nat (length h) mod 16384) + i)%nat in Hcell
          by (subst k; Z.div_mod_to_equations; lia). by rewrite Hcell.
      * rewrite (lookup_ge_None_2 (klog_buf s)) by lia. rewrite lookup_take_lt by lia. rewrite <-Hcell. f_equal. subst k. Z.div_mod_to_equations. lia.
    + apply lookup_ge_None in E. symmetry. apply lookup_ge_None. rewrite length_app, length_take, length_drop. subst k.
      pose proof (Z.mod_pos_bound (Z.of_nat (length h)) 16384 eq_refl). lia.
Qed.

(** copy_out puts n characters of b at offset d and leaves what lies before. *)
Lemma copy_out_ok d b off n s : 0 <= d -> 0 <= off -> 0 <= n -> off + n <= Z.of_nat (length b) -> d + n <= Z.of_nat (length (klog_out s)) ->
  wp False (copy_out d b off n) (fun _ s' => exists o, s' = with_out o s /\ length o = length (klog_out s) /\
    take (Z.to_nat (d + n)) o = take (Z.to_nat d) (klog_out s) ++ take (Z.to_nat n) (drop (Z.to_nat off) b)) s.
Proof.
  intros Hd Ho Hn Hb Hl. unfold copy_out. apply wp_bind. rewrite slice_in by done. apply wp_lift_some. apply wp_bind, wp_gets, wp_bind.
  set (c := take (Z.to_nat n) (drop (Z.to_nat off) b)). assert (Hc : length c = Z.to_nat n) by (subst c; rewrite length_take, length_drop; lia).
  unfold splice. rewrite (proj2 (Z.leb_le 0 d)), (proj2 (Z.leb_le _ _)) by lia. cbn [andb]. apply wp_lift_some, wp_modify.
  eexists. split; [done|]. split; [rewrite !length_app, length_take, length_drop; lia|].
  rewrite Z2Nat.inj_add, app_assoc by lia. rewrite take_app_length'; [done|]. rewrite length_app, length_take. lia.
Qed.
Lemma klog_get_ok h s : klog_holds h s ->
  wp False klog_get (fun o s' => klog_holds h s' /\ (exists rest, o = last_n KLOG h ++ 0 :: rest) /\
    bootlog_buf s' = bootlog_buf s /\ bootlog_index s' = bootlog_index s /\ bootlog_enabled s' = bootlog_enabled s) s.
Proof.
  intros Hs. pose proof Hs as [Hl Ho Hc Hh Hx]. pose proof (klog_layout h s Hs) as Hlay. pose proof (last_n_length KLOG h) as Hlen.
  pose proof (Z.mod_pos_bound (Z.of_nat (length h)) KLOG_BUF_SIZE eq_refl) as Hm. rewrite <-Hh in Hm.
  unfold klog_get. apply wp_bind, wp_gets; cbv beta. apply wp_bind.
  apply (wp_mono False _ (fun n s' => exists o, s' = with_out o s /\ length o = length (klog_out s) /\ n = Z.of_nat (length (last_n KLOG h)) /\ take (Z.to_nat n) o = last_n KLOG h)).
  - unfold KLOG in *. assert (0 <= klog_count s <= KLOG_BUF_SIZE) by (unfold KLOG_BUF_SIZE in *; lia).
    apply wp_if; intros E1; [|apply wp_if; intros E2].
    + apply Z.eqb_eq in E1. apply wp_ret. exists (klog_out s). assert (length h = 0%nat) by (unfold KLOG_BUF_SIZE in *; lia).
      destruct h; [|done]. split_and!; try done. by destruct s.
    + apply wp_bind. eapply wp_mono; [apply (copy_out_ok 0 (klog_buf s) 0 (klog_count s)); lia|]. intros _ s' (o & -> & Hlo & Ht).
      apply wp_ret. exists o. rewrite E2 in Hlay. split_and!; [done|done| |rewrite Hlay; exact Ht].
      rewrite Hlen. apply Z.ltb_lt in E2. unfold KLOG_BUF_SIZE in *. lia.
    + apply Z.ltb_ge in E2. apply wp_bind. eapply wp_mono; [apply (copy_out_ok 0 (klog_buf s) (klog_head s)); lia|]. intros _ s1 (o1 & -> & Hl1 & Ht1).
      apply wp_bind. eapply wp_mono; [apply (copy_out_ok (KLOG_BUF_SIZE - klog_head s) (klog_buf s) 0 (klog_head s)); cbn [klog_out with_out]; lia|].
      intros _ s2 (o2 & -> & Hl2 & Ht2). apply wp_ret. exists o2. cbn [klog_out with_out] in *. split_and!; [done|congruence|unfold KLOG_BUF_SIZE in *; lia|].
      rewrite (proj2 (Z.ltb_ge _ _)) in Hlay by done. rewrite Hlay. rewrite Z.add_0_l in Ht1. rewrite Ht1 in Ht2. replace (KLOG_BUF_SIZE - klog_head s + klog_head s) with KLOG_BUF_SIZE in Ht2 by lia.
      rewrite Ht2. cbn [Z.to_nat take app]. rewrite drop_0. rewrite (take_ge (drop _ _)) by (rewrite length_drop; lia). done.
  - intros n s' (o & -> & Hlo & -> & Ht). apply wp_bind, wp_gets; cbv beta. cbn [klog_out with_out]. apply wp_lset; [unfold KLOG, KLOG_BUF_SIZE in *; lia|].
    apply wp_bind, wp_modify, wp_ret. split_and!; [|exists (drop (S (length (last_n KLOG h))) o)|done..].
    + destruct Hs. constructor; cbn [klog_buf klog_out klog_count klog_head with_out]; rewrite ?length_insert, ?Hlo; done.
    + rewrite Nat2Z.id in *. rewrite insert_take_drop by (unfold KLOG, KLOG_BUF_SIZE in *; lia). by rewrite Ht.
Qed.

(** ** The boot log *)
Lemma bootlog_loop_ok str : forall h s, bootlog_holds h s ->
  wp False (bootlog_loop str) (fun _ s' => bootlog_holds (take BOOTLOG (h ++ str)) s' /\
    klog_buf s' = klog_buf s /\ klog_head s' = klog_head s /\ klog_count s' = klog_count s /\ klog_out s' = klog_out s /\ bootlog_enabled s' = bootlog_enabled s) s.
Proof.
  induction str as [|c str IH]; intros h s Hs; pose proof Hs as [Hl Hf Hi Ht]; cbn [bootlog_loop].
  - apply wp_ret. rewrite app_nil_r, take_ge by done. done.
  - apply wp_bind, wp_gets; cbv beta. apply wp_if; intros E.
    + apply Z.ltb_lt in E. unfold BOOTLOG, LOG_BUF_SIZE in *. apply wp_bind, wp_gets, wp_lset; [lia|]. apply wp_bind, wp_modify.
      eapply wp_mono; [apply (IH (h ++ [c]))|].
      * constructor; cbn [bootlog_buf bootlog_index with_boot]; rewrite ?length_insert, ?length_app; cbn [length]; unfold BOOTLOG, LOG_BUF_SIZE in *; try lia.
        rewrite Hi, Nat2Z.id, insert_take_drop by lia. rewrite Ht. change (h ++ c :: drop (S (length h)) (bootlog_buf s)) with (h ++ [c] ++ drop (S (length h)) (bootlog_buf s)).
        rewrite app_assoc. apply take_app_length'. rewrite length_app. done.
      * intros _ s' (H1 & ?). rewrite <-app_assoc in H1. done.
    + apply Z.ltb_ge in E. apply wp_ret. rewrite take_app_le, take_ge by (unfold BOOTLOG, LOG_BUF_SIZE in *; lia). done.
Qed.

(** ** Sequences of operations *)

Inductive log_op := KAdd (s : list Z) | BAdd (s : list Z) | KGet | KClear | BClear | BEnable (v : bool).
Definition log_run (o : log_op) : M log unit :=
  match o with
  | KAdd s => klog_add (Some s)
  | BAdd s => bootlog_add (Some s)
  | KGet => klog_get;;; ret tt
  | KClear => klog_clear
  | BClear => bootlog_clear
  | BEnable v => modify (with_enabled v)
  end.
(** What the logs are for: the kernel log since it was cleared, and the boot log. *)
Record log_spec := LogSpec { ls_klog : list Z; ls_boot : list Z; ls_on : bool }.
Definition log_step (a : log_spec) (o : log_op) : log_spec :=
  match o with
  | KAdd s => LogSpec (ls_klog a ++ s) (ls_boot a) (ls_on a)
  | BAdd s => LogSpec (ls_klog a ++ s) (if ls_on a then take BOOTLOG (ls_boot a ++ s) else ls_boot a) (ls_on a)
  | KGet => a
  | KClear => LogSpec [] (ls_boot a) (ls_on a)
  | BClear => LogSpec (ls_klog a) [] (ls_on a)
  | BEnable v => LogSpec (ls_klog a) (ls_boot a) v
  end.
Fixpoint log_runs (l : list log_op) : M log unit :=
  match l with [] => ret tt | o :: l' => log_run o;;; log_runs l' end.

Record log_rel (a : log_spec) (s : log) : Prop := {
  lr_klog : klog_holds (ls_klog a) s;
  lr_boot : bootlog_holds (ls_boot a) s;
  lr_nul : lget (bootlog_buf s) (bootlog_index s) = Some 0;
  lr_on : bootlog_enabled s = ls_on a;
}.
Lemma log_run_ok a o s : log_rel a s -> wp False (log_run o) (fun _ s' => log_rel (log_step a o) s') s.
Proof.
  intros [Hk Hb Hn Ho]. destruct o as [str|str| | | |v]; cbn [log_run log_step klog_add bootlog_add].
  - eapply wp_mono; [by apply (klog_loop_ok str)|]. intros _ s' (H1 & E1 & E2 & E3).
    constructor; cbn [ls_klog ls_boot ls_on]; rewrite ?E1, ?E2, ?E3; [done| |done|done]. destruct Hb. constructor; by rewrite ?E1, ?E2.
  - apply wp_bind. eapply wp_mono; [by apply (klog_loop_ok str)|]. intros _ s' (H1 & E1 & E2 & E3).
    assert (Hb' : bootlog_holds (ls_boot a) s') by (destruct Hb; constructor; by rewrite ?E1, ?E2).
    apply wp_bind, wp_gets; cbv beta. rewrite E3, Ho. destruct (ls_on a) eqn:Eon; cbn [negb].
    + apply wp_bind. eapply wp_mono; [by apply (bootlog_loop_ok str)|]. intros _ s2 (H2 & F1 & F2 & F3 & F4 & F5).
      apply wp_bind, wp_gets, wp_bind, wp_gets; cbv beta. pose proof H2 as [Hl Hf Hi Ht]. assert (Hin : 0 <= bootlog_index s2 < Z.of_nat (length (bootlog_buf s2))) by (unfold BOOTLOG, LOG_BUF_SIZE in *; lia).
      apply wp_lset; [done|]. apply wp_modify. constructor; cbn [ls_klog ls_boot ls_on].
      * destruct H1. constructor; cbn [klog_buf klog_out klog_count klog_head with_boot]; by rewrite ?F1, ?F2, ?F3, ?F4.
      * constructor; cbn [bootlog_buf bootlog_index with_boot]; rewrite ?length_insert; try done. rewrite Hi, Nat2Z.id.
        rewrite <-Ht at 3. apply take_insert_ge. lia.
      * cbn [bootlog_buf bootlog_index with_boot]. rewrite lget_insert by done. by rewrite decide_True.
      * cbn [bootlog_enabled with_boot]. by rewrite F5, E3.
    + apply wp_ret. constructor; cbn [ls_klog ls_boot ls_on]; [done|done| |congruence]. by rewrite E1, E2.
  - apply wp_bind. eapply wp_mono; [by apply klog_get_ok|]. intros o s' (H1 & _ & E1 & E2 & E3). apply wp_ret.
    constructor; rewrite ?E1, ?E2, ?E3; [done| |done|done]. destruct Hb. constructor; by rewrite ?E1, ?E2.
  - unfold klog_clear. destruct Hk. apply wp_bind, wp_gets; cbv beta. apply wp_lset; [unfold KLOG_BUF_SIZE in *; lia|].
    apply wp_modify. constructor; cbn [ls_klog ls_boot ls_on]; [|by destruct Hb|done|done].
    constructor; cbn [klog_buf klog_out klog_count klog_head with_klog ls_klog]; rewrite ?length_insert; done.
  - unfold bootlog_clear. pose proof Hb as [Hl Hf Hi Ht]. apply wp_bind, wp_gets; cbv beta. apply wp_lset; [unfold LOG_BUF_SIZE in *; lia|].
    apply wp_modify. constructor; cbn [ls_klog ls_boot ls_on]; [by destruct Hk| |cbn [bootlog_buf bootlog_index with_boot]|done].
    + constructor; cbn [bootlog_buf bootlog_index with_boot length]; rewrite ?length_insert; try done. unfold BOOTLOG. lia.
    + rewrite lget_insert by (unfold LOG_BUF_SIZE in *; lia). done.
  - apply wp_modify. constructor; cbn [ls_klog ls_boot ls_on]; [by destruct Hk|by destruct Hb|done|done].
Qed.
Lemma log_runs_ok l : forall a s, log_rel a s -> wp False (log_runs l) (fun _ s' => log_rel (foldl log_step a l) s') s.
Proof.
  induction l as [|o l IH]; intros a s Hs; cbn [log_runs foldl]; [by apply wp_ret|].
  apply wp_bind. eapply wp_mono; [by apply log_run_ok|]. intros u s' Hs'. by apply IH.
Qed.
Lemma log0_rel : log_rel (LogSpec [] [] true) log0.
Proof. constructor; [constructor|constructor| |]; vm_compute; try done; try lia. Qed.

(** C30: The logs keep what they promise.  After any sequence of additions, reads, clears and
    switches from the initial state, klog_get returns the last 16384 characters that were added
    to either log since the kernel log was last cleared, NUL-terminated, and bootlog_get the
    first 8191 characters added to the boot log while it was enabled since it was cleared, NUL-
    terminated; no step leaves an array. *)
Theorem logs_refine_history l :
  let a := foldl log_step (LogSpec [] [] true) l in
  wp False (log_runs l;;; k <- klog_get;; b <- bootlog_get;; ret (k, b))
    (fun r _ => (exists rest, fst r = last_n KLOG (ls_klog a) ++ 0 :: rest) /\
                (exists rest, snd r = ls_boot a ++ 0 :: rest)) log0.
Proof.
  intros a. apply wp_bind. eapply wp_mono; [by apply log_runs_ok, log0_rel|]. intros _ s [Hk Hb Hn Ho].
  apply wp_bind. eapply wp_mono; [by apply klog_get_ok|]. intros o s' (_ & Hr & E1 & E2 & _).
  apply wp_bind, wp_gets, wp_ret. split; [done|]. cbn [snd]. rewrite E1. destruct Hb as [Hl Hf Hi Ht].
  exists (drop (S (length (ls_boot a))) (bootlog_buf s)). rewrite Hi, lget_lookup, Nat2Z.id in Hn by lia.
  rewrite <-(take_drop_middle _ _ _ Hn) at 1. by rewrite Ht.
Qed.
End Klog.
