(* ===== verification/Font.v ===== *)
(** * Fonts (drivers/font.c)

    The console font: 256 glyphs of 32 bytes, read from PSF files, with a few glyphs of the system's
    own, and its copy in plane 2 of the VGA memory.  [Vga] is the part of the display adapter that the
    code programs: index and data ports, and the font plane, which can be reached through the window
    at 0xA0000 only while the sequencer and the graphics controller are set up for it. *)
From Stdlib Require Import String Ascii.
From S2P Require Import Prelude.

Module Vga.

(** [latch]: the register that an index port selects; [regs]: the registers behind a data port *)
Record vga := Vga { latch : gmap Z Z; regs : gmap (Z * Z) Z; plane2 : list Z }.
Definition is_index (port : Z) : bool := (port =? 0x3C4) || (port =? 0x3CE) || (port =? 0x3D4).
Definition reg (v : vga) (port i : Z) : Z := default 0 (regs v !! (port, i)).
Definition selected (v : vga) (port : Z) : Z := default 0 (latch v !! (port - 1)).
Definition hal_out8 (port data : Z) : M vga unit :=
  modify (fun v => if is_index port then Vga (<[port := data]> (latch v)) (regs v) (plane2 v)
                   else Vga (latch v) (<[(port, selected v port) := data]> (regs v)) (plane2 v)).
Definition hal_in8 (port : Z) : M vga Z := gets (fun v => reg v port (selected v port)).

(** Bytes of the window are bytes of plane 2: only that plane is written and read, its addresses are
    neither paired nor chained, and the window begins at 0xA0000. *)
Definition plane_open (v : vga) : bool :=
  (reg v 0x3C5 2 =? 4) && (reg v 0x3C5 4 =? 7) && (reg v 0x3CF 4 =? 2) && (reg v 0x3CF 5 =? 0) && (reg v 0x3CF 6 =? 0).
Definition read_plane (n : Z) : M vga (list Z) :=
  v <- get;; if plane_open v then lift_opt (slice (plane2 v) 0 n) else fault.
Definition write_plane (l : list Z) : M vga unit :=
  v <- get;; if plane_open v then p <- lift_opt (splice (plane2 v) 0 l);; modify (fun v => Vga (latch v) (regs v) p) else fault.
(** The registers as text mode needs them *)
Definition text_mode (v : vga) : Prop :=
  reg v 0x3C5 2 = 3 /\ reg v 0x3C5 4 = 3 /\ reg v 0x3CF 4 = 0 /\ reg v 0x3CF 5 = 0x10 /\ reg v 0x3CF 6 = 0x0E.
End Vga.

Module Font.
Import Vga.

Definition PSF1_MAGIC : Z := 0x0436.
Definition PSF2_MAGIC : Z := 0x864ab572.
Definition PSF1_MODE512 : Z := 0x01.
Definition FONT_GLYPH_STRIDE : Z := 32.

Record font := Font {
  saved_charmap : Z;
  fontbuf : list Z;
  g_font_width : Z; g_font_height : Z; g_font_row_bytes : Z;
  adapter : vga;
}.
Definition font0 (v : vga) : font := Font 0 (replicate (Z.to_nat 8192) 0) 8 16 1 v.
Definition with_charmap (c : Z) (s : font) : font := Font c (fontbuf s) (g_font_width s) (g_font_height s) (g_font_row_bytes s) (adapter s).
Definition with_fontbuf (b : list Z) (s : font) : font := Font (saved_charmap s) b (g_font_width s) (g_font_height s) (g_font_row_bytes s) (adapter s).
Definition with_size (w h r : Z) (s : font) : font := Font (saved_charmap s) (fontbuf s) w h r (adapter s).
Definition with_adapter (v : vga) (s : font) : font := Font (saved_charmap s) (fontbuf s) (g_font_width s) (g_font_height s) (g_font_row_bytes s) v.
Definition on_vga {A} (m : M vga A) : M font A := fun s =>
  match m (adapter s) with Ok (a, v) => Ok (a, with_adapter v s) | Fault => Fault | NoFuel => NoFuel end.
Definition out (port data : Z) : M font unit := on_vga (hal_out8 port data).

Definition vga_begin_font_access : M font unit :=
  out 0x3C4 0x03;;; c <- on_vga (hal_in8 0x3C5);; modify (with_charmap c);;;
  out 0x3C4 0x03;;; out 0x3C5 0;;;
  out 0x3C4 0x04;;; out 0x3C5 0x07;;;
  out 0x3C4 0x02;;; out 0x3C5 0x04;;;
  out 0x3CE 0x06;;; out 0x3CF 0;;;
  out 0x3CE 0x05;;; out 0x3CF 0;;;
  out 0x3CE 0x04;;; out 0x3CF 0x02.
Definition vga_end_font_access : M font unit :=
  c <- gets saved_charmap;;
  out 0x3C4 0x03;;; out 0x3C5 c;;;
  out 0x3C4 0x02;;; out 0x3C5 0x03;;;
  out 0x3C4 0x04;;; out 0x3C5 0x03;;;
  out 0x3CE 0x04;;; out 0x3CF 0;;;
  out 0x3CE 0x05;;; out 0x3CF 0x10;;;
  out 0x3CE 0x06;;; out 0x3CF 0x0E.

Definition vga_write_font (buf8192 : list Z) : M font unit :=
  vga_begin_font_access;;;
  l <- lift_opt (slice buf8192 0 8192);; on_vga (write_plane l);;;
  vga_end_font_access.
(** [fb]: screen_is_framebuffer() *)
Definition font_write_vga_if_enabled (fb : bool) : M font unit :=
  if negb fb then b <- gets fontbuf;; vga_write_font b else ret tt.

Definition write_korean (buf : list Z) (ascii : Z) (glyph16 : list Z) : option (list Z) :=
  match slice glyph16 0 16 with Some g => splice buf (ascii * 32) g | None => None end.
Definition copy_default_font : M font unit :=
  vga_begin_font_access;;;
  src <- on_vga (read_plane 8192);; b <- gets fontbuf;; b' <- lift_opt (splice b 0 src);; modify (with_fontbuf b');;;
  vga_end_font_access.

Definition font_ga : list Z := [0; 0; 0; 0xF2; 0x0A; 0x0A; 0x0A; 0x13; 0x12; 0x22; 0xC2; 0x02; 0; 0; 0; 0].
Definition font_na : list Z := [0; 0; 0; 0x82; 0x82; 0x82; 0x82; 0x83; 0x82; 0x82; 0x7A; 0x02; 0; 0; 0; 0].
Definition font_da : list Z := [0; 0; 0; 0x7A; 0x82; 0x82; 0x82; 0x83; 0x82; 0x82; 0x7A; 0x02; 0; 0; 0; 0].
Definition font_de : list Z := [0; 0; 0; 0x75; 0x85; 0x85; 0x87; 0x85; 0x85; 0x85; 0x75; 0x05; 0; 0; 0; 0].
Definition font_han : list Z := [0; 0x30; 0; 0x78; 0x02; 0x32; 0x4B; 0x4A; 0x32; 0; 0x20; 0x20; 0x1E; 0; 0; 0].
Definition font_min : list Z := [0; 0; 0; 0x7A; 0x4A; 0x4A; 0x4A; 0x7A; 0; 0x20; 0x20; 0x20; 0x1E; 0; 0; 0].
Definition font_guk : list Z := [0; 0; 0; 0x7C; 0x02; 0x02; 0; 0xFF; 0x10; 0; 0x7C; 0x02; 0x02; 0; 0; 0].
Definition font_cursor : list Z := [0; 0x80; 0xC0; 0xE0; 0xF0; 0xF8; 0xFC; 0xFE; 0xD0; 0x90; 0x08; 0x08; 0x04; 0x04; 0; 0].
Definition overrides : list (Z * list Z) :=
  [(0x80, font_ga); (0x81, font_na); (0x82, font_da); (0x83, font_de); (0x84, font_han); (0x85, font_min); (0x86, font_guk); (0x7F, font_cursor)].
Fixpoint write_overrides (l : list (Z * list Z)) (buf : list Z) : option (list Z) :=
  match l with
  | [] => Some buf
  | (c, g) :: l' => match write_korean buf c g with Some b => write_overrides l' b | None => None end
  end.
Definition apply_orion_overrides : M font unit :=
  b <- gets fontbuf;; b' <- lift_opt (write_overrides overrides b);; modify (with_fontbuf b').

(** The error buffer of the caller, of errbuf_len bytes, or NULL *)
Abbreviation errbuf_t := (option (list Z)).
Fixpoint strncpy (n : nat) (src : list Z) : list Z :=
  match n with
  | O => []
  | S n' => match src with c :: src' => c :: strncpy n' src' | [] => 0 :: strncpy n' [] end
  end.
Definition text (s : string) : list Z := (fun a => Z.of_N (N_of_ascii a)) <$> list_ascii_of_string s.
Definition set_error (errbuf : errbuf_t) (msg : string) : errbuf_t :=
  match errbuf with
  | None => None
  | Some b => if Z.of_nat (length b) =? 0 then Some b else Some (strncpy (length b - 1) (text msg) ++ [0])
  end.

(** A little-endian field of a header; outside the file is a fault *)
Definition field (data : list Z) (off len : Z) : option Z :=
  match slice data off len with
  | Some l => Some (foldr (fun b acc => b + 256 * acc) 0 l)
  | None => None
  end.
(** Glyph i from the file into its 32 bytes of the font *)
Definition copy_glyph (data : list Z) (base charsize i : Z) : M font unit :=
  b <- gets fontbuf;;
  b1 <- lift_opt (splice b (i * 32) (replicate 32 0));;
  g <- lift_opt (slice data (base + i * charsize) charsize);;
  b2 <- lift_opt (splice b1 (i * 32) g);;
  modify (with_fontbuf b2).
Fixpoint copy_glyphs (n : nat) (data : list Z) (base charsize i : Z) : M font unit :=
  match n with
  | O => ret tt
  | S n' => copy_glyph data base charsize i;;; copy_glyphs n' data base charsize (i + 1)
  end.

Definition font_load_psf2 (fb : bool) (data : option (list Z)) (errbuf : errbuf_t) : M font (bool * errbuf_t) :=
  let fail n := ret (false, set_error errbuf n) in
  match data with
  | None => fail "psf2: buffer too small"%string
  | Some d =>
    let size := Z.of_nat (length d) in
    if size <? 32 then fail "psf2: buffer too small"%string
    else
      magic <- lift_opt (field d 0 4);;
      if negb (magic =? PSF2_MAGIC) then fail "psf2: magic mismatch"%string
      else
        version <- lift_opt (field d 4 4);;
        if negb (version =? 0) then fail "psf2: unsupported version"%string
        else
          headersize <- lift_opt (field d 8 4);;
          if (headersize <? 32) || (size <=? headersize) then fail "psf2: invalid header size"%string
          else
            width <- lift_opt (field d 28 4);;
            if (width =? 0) || (8 <? width) then fail "psf2: width must be 1..8 for VGA text mode"%string
            else
              height <- lift_opt (field d 24 4);;
              if (height =? 0) || (32 <? height) then fail "psf2: height must be 1..32"%string
              else
                charsize <- lift_opt (field d 20 4);;
                if (charsize =? 0) || (32 <? charsize) then fail "psf2: charsize exceeds VGA limit"%string
                else
                  modify (with_size (u8 width) (u8 height) (u8 ((width + 7) / 8)));;;
                  let row_bytes := (width + 7) / 8 in
                  if negb (charsize =? u32 (height * row_bytes)) then fail "psf2: unexpected charsize for glyphs"%string
                  else
                    len <- lift_opt (field d 16 4);;
                    if size <? u64 (headersize + u64 (len * charsize)) then fail "psf2: file truncated"%string
                    else if len =? 0 then fail "psf2: no glyphs in file"%string
                    else
                      copy_default_font;;;
                      let glyphs_to_copy := if 256 <? len then 256 else len in
                      copy_glyphs (Z.to_nat glyphs_to_copy) d headersize charsize 0;;;
                      apply_orion_overrides;;;
                      font_write_vga_if_enabled fb;;;
                      ret (true, set_error errbuf (if 256 <? len then "psf2: loaded first 256 glyphs only"%string else EmptyString))
  end.

Definition font_load_psf1 (fb : bool) (data : option (list Z)) (errbuf : errbuf_t) : M font (bool * errbuf_t) :=
  let fail n := ret (false, set_error errbuf n) in
  match data with
  | None => fail "psf1: buffer too small"%string
  | Some d =>
    let size := Z.of_nat (length d) in
    if size <? 4 then fail "psf1: buffer too small"%string
    else
      magic <- lift_opt (field d 0 2);;
      if negb (magic =? PSF1_MAGIC) then fail "psf1: magic mismatch"%string
      else
        charsize <- lift_opt (field d 3 1);;
        if (charsize =? 0) || (32 <? charsize) then fail "psf1: invalid charsize"%string
        else
          modify (with_size 8 charsize 1);;;
          mode <- lift_opt (field d 2 1);;
          let glyph_count := if negb (Z.land mode PSF1_MODE512 =? 0) then 512 else 256 in
          if size <? u64 (4 + u64 (glyph_count * charsize)) then fail "psf1: file truncated"%string
          else
            copy_default_font;;;
            let glyphs_to_copy := if 256 <? glyph_count then 256 else glyph_count in
            copy_glyphs (Z.to_nat glyphs_to_copy) d 4 charsize 0;;;
            apply_orion_overrides;;;
            font_write_vga_if_enabled fb;;;
            ret (true, set_error errbuf (if 256 <? glyph_count then "psf1: loaded first 256 glyphs only"%string else EmptyString))
  end.

Definition font_load_psf (fb : bool) (data : option (list Z)) (errbuf : errbuf_t) : M font (bool * errbuf_t) :=
  let fail n := ret (false, set_error errbuf n) in
  match data with
  | None => fail "psf: buffer too small"%string
  | Some d =>
    let size := Z.of_nat (length d) in
    if size <? 4 then fail "psf: buffer too small"%string
    else
      psf2 <- (if 32 <=? size then m <- lift_opt (field d 0 4);; ret (m =? PSF2_MAGIC) else ret false);;
      if psf2 then font_load_psf2 fb data errbuf
      else
        psf1 <- (if 4 <=? size then m <- lift_opt (field d 0 2);; ret (m =? PSF1_MAGIC) else ret false);;
        if psf1 then font_load_psf1 fb data errbuf else fail "psf: unknown format"%string
  end.

(** [builtin]: font_builtin_psf *)
Definition init_font (builtin : list Z) (fb : bool) : M font unit :=
  r <- font_load_psf fb (Some builtin) (Some (replicate 64 0));;
  if negb (fst r) then
    modify (with_size 8 16 1);;; copy_default_font;;; apply_orion_overrides;;; font_write_vga_if_enabled fb
  else ret tt.
Definition font_reset_default (builtin : list Z) (fb : bool) : M font unit := init_font builtin fb.

(** A pointer into [fontbuf] *)
Definition font_get_glyph (ch : Z) : Z := ch * FONT_GLYPH_STRIDE.
Definition font_get_width : M font Z := gets g_font_width.
Definition font_get_height : M font Z := gets g_font_height.
Definition font_get_row_bytes : M font Z := gets g_font_row_bytes.

(** ** The invariant *)

Record font_ok (s : font) : Prop := {
  fo_buf : length (fontbuf s) = Z.to_nat 8192;
  fo_plane : length (plane2 (adapter s)) = Z.to_nat 8192;
  fo_width : 1 <= g_font_width s <= 8;
  fo_height : 1 <= g_font_height s <= 32;
  fo_bytes : g_font_row_bytes s = 1;
}.
Lemma font0_ok v : length (plane2 v) = Z.to_nat 8192 -> font_ok (font0 v).
Proof. intros Hv. by constructor; cbn; rewrite ?length_replicate. Qed.

(** ** Access to the font plane *)

(** Registers of the other ports keep their values. *)
Definition same_regs (v v' : vga) : Prop := forall p i, p <> 0x3C5 -> p <> 0x3CF -> reg v' p i = reg v p i.
(** Writing a register through its index and its data port *)
Definition poke (p i d : Z) (v : vga) : vga := Vga (<[p := i]> (latch v)) (<[(p + 1, i) := d]> (regs v)) (plane2 v).
Lemma wp_poke {A} p i d (k : M font A) Q s : is_index p = true -> is_index (p + 1) = false ->
  wp False k Q (with_adapter (poke p i d (adapter s)) s) -> wp False (out p i;;; out (p + 1) d;;; k) Q s.
Proof.
  intros H1 H2 Hk. unfold wp, bind, out, on_vga, hal_out8, modify. rewrite H1. cbn [adapter with_adapter]. rewrite H2.
  unfold selected. cbn [latch regs plane2]. replace (p + 1 - 1) with p by lia. rewrite lookup_insert_eq. exact Hk.
Qed.
Lemma wp_poke_last p i d (Q : unit -> font -> Prop) s : is_index p = true -> is_index (p + 1) = false ->
  Q tt (with_adapter (poke p i d (adapter s)) s) -> wp False (out p i;;; out (p + 1) d) Q s.
Proof. intros H1 H2 HQ. apply (wp_poke p i d (ret tt) Q s) in HQ; [|done..]. exact HQ. Qed.
Lemma reg_poke p i d v q j : reg (poke p i d v) q j = if bool_decide ((q, j) = (p + 1, i)) then d else reg v q j.
Proof. unfold reg, poke. cbn [regs]. case_bool_decide as E; [by rewrite E, lookup_insert_eq|by rewrite lookup_insert_ne by congruence]. Qed.

Lemma wp_begin (Q : unit -> font -> Prop) s :
  (forall v, plane_open v = true -> plane2 v = plane2 (adapter s) -> same_regs (adapter s) v -> Q tt (with_charmap (reg (adapter s) 0x3C5 3) (with_adapter v s))) ->
  wp False vga_begin_font_access Q s.
Proof.
  intros HQ. unfold vga_begin_font_access. apply wp_bind. unfold out at 1, on_vga, hal_out8, modify. unfold wp at 1. change (is_index 0x3C4) with true. cbv iota.
  apply wp_bind. unfold on_vga, hal_in8, gets. unfold wp at 1. cbn [adapter with_adapter]. apply wp_bind, wp_modify.
  replace (selected _ 0x3C5) with 3 by (unfold selected; cbn [latch]; by rewrite lookup_insert_eq).
  repeat (apply wp_poke; [done|done|]). apply wp_poke_last; [done|done|].
  cbn [adapter with_adapter with_charmap]. unfold with_charmap at 1, with_adapter. cbn [saved_charmap fontbuf g_font_width g_font_height g_font_row_bytes].
  apply (HQ (poke _ _ _ _)).
  - unfold plane_open. by rewrite !reg_poke.
  - done.
  - intros q j H1 H2. rewrite !reg_poke. by repeat (rewrite bool_decide_false by (intros [= -> ->]; lia)).
Qed.
Lemma wp_end (Q : unit -> font -> Prop) s :
  (forall v, text_mode v -> reg v 0x3C5 3 = saved_charmap s -> plane2 v = plane2 (adapter s) -> same_regs (adapter s) v -> Q tt (with_adapter v s)) ->
  wp False vga_end_font_access Q s.
Proof.
  intros HQ. unfold vga_end_font_access. apply wp_bind, wp_gets. repeat (apply wp_poke; [done|done|]). apply wp_poke_last; [done|done|].
  cbn [adapter with_adapter]. unfold with_adapter. cbn [saved_charmap fontbuf g_font_width g_font_height g_font_row_bytes].
  apply (HQ (poke _ _ _ _)).
  - unfold text_mode. by rewrite !reg_poke.
  - by rewrite !reg_poke.
  - done.
  - intros q j H1 H2. rewrite !reg_poke. by repeat (rewrite bool_decide_false by (intros [= -> ->]; lia)).
Qed.
Lemma con_same_regs_trans v v' v'' : same_regs v v' -> same_regs v' v'' -> same_regs v v''.
Proof. intros H1 H2 p i Hp Hq. by rewrite H2, H1. Qed.

(** What a visit to the font plane leaves: the adapter in text mode, with the same character map *)
Record visited (s s' : font) : Prop := {
  vi_text : text_mode (adapter s');
  vi_map : reg (adapter s') 0x3C5 3 = reg (adapter s) 0x3C5 3;
  vi_regs : same_regs (adapter s) (adapter s');
  vi_size : g_font_width s' = g_font_width s /\ g_font_height s' = g_font_height s /\ g_font_row_bytes s' = g_font_row_bytes s;
}.
Lemma slice_all (b : list Z) n : length b = Z.to_nat n -> 0 <= n -> slice b 0 n = Some b.
Proof. intros Hl Hn. rewrite slice_in by lia. by rewrite drop_0, take_ge by lia. Qed.
Lemma splice_all (b l : list Z) : length l = length b -> splice b 0 l = Some l.
Proof.
  intros Hl. unfold splice. rewrite (proj2 (Z.leb_le _ _)), (proj2 (Z.leb_le _ _)) by lia. cbn [andb Z.to_nat take app].
  by rewrite drop_ge, app_nil_r by lia.
Qed.
Lemma wp_on_vga {A} (m : M vga A) (Q : A -> font -> Prop) s : wp False m (fun a v => Q a (with_adapter v s)) (adapter s) -> wp False (on_vga m) Q s.
Proof. unfold wp, on_vga. by destruct (m (adapter s)) as [[a v]| |]. Qed.
Lemma wp_copy_default s (Q : unit -> font -> Prop) : length (fontbuf s) = Z.to_nat 8192 -> length (plane2 (adapter s)) = Z.to_nat 8192 ->
  (forall s', visited s s' -> plane2 (adapter s') = plane2 (adapter s) -> fontbuf s' = plane2 (adapter s) -> Q tt s') -> wp False copy_default_font Q s.
Proof.
  intros Hb Hp HQ. unfold copy_default_font. apply wp_bind, wp_begin. intros v Ho Hv Hr. apply wp_bind.
  apply wp_on_vga. unfold read_plane. apply wp_bind, wp_gets. cbv beta. cbn [adapter with_adapter with_charmap]. rewrite Ho, Hv, slice_all by done. apply wp_lift_some.
  apply wp_bind, wp_gets, wp_bind. rewrite splice_all by (cbn; lia). apply wp_lift_some, wp_bind, wp_modify, wp_end. intros v' Ht Hc Hv' Hr'.
  apply HQ; [|by cbn in *; congruence|done]. constructor; [done|done|by eapply con_same_regs_trans|done].
Qed.
Lemma wp_write_font b s (Q : unit -> font -> Prop) : length b = Z.to_nat 8192 -> length (plane2 (adapter s)) = Z.to_nat 8192 ->
  (forall s', visited s s' -> plane2 (adapter s') = b -> fontbuf s' = fontbuf s -> Q tt s') -> wp False (vga_write_font b) Q s.
Proof.
  intros Hb Hp HQ. unfold vga_write_font. apply wp_bind, wp_begin. intros v Ho Hv Hr. apply wp_bind. rewrite slice_all by done. apply wp_lift_some, wp_bind.
  apply wp_on_vga. unfold write_plane. apply wp_bind, wp_gets. cbv beta. cbn [adapter with_adapter with_charmap]. rewrite Ho, splice_all by congruence.
  apply wp_bind, wp_lift_some, wp_modify, wp_end. intros v' Ht Hc Hv' Hr'.
  apply HQ; [|by cbn in *; congruence|done]. constructor; [done|done|by eapply con_same_regs_trans|done].
Qed.

(** ** Glyphs *)

(** Byte k of the font lies in row k mod 32 of glyph k / 32. *)
Definition file_byte (d : list Z) (base charsize : Z) (k : nat) : option Z :=
  if Z.of_nat k mod 32 <? charsize then d !! Z.to_nat (base + Z.of_nat k / 32 * charsize + Z.of_nat k mod 32) else Some 0.
Lemma copy_glyph_ok d base cs i s (Q : unit -> font -> Prop) : length (fontbuf s) = Z.to_nat 8192 -> 0 <= i < 256 -> 0 <= cs <= 32 -> 0 <= base -> base + (i + 1) * cs <= Z.of_nat (length d) ->
  (forall b, length b = Z.to_nat 8192 -> (forall k, (k < Z.to_nat 8192)%nat -> b !! k = if Z.of_nat k / 32 =? i then file_byte d base cs k else fontbuf s !! k) -> Q tt (with_fontbuf b s)) ->
  wp False (copy_glyph d base cs i) Q s.
Proof.
  intros Hl Hi Hcs Hb Hd HQ. unfold copy_glyph. apply wp_bind, wp_gets, wp_bind.
  destruct (splice_in (fontbuf s) (i * 32) (replicate 32 0)) as (b1 & E1 & L1 & K1); [lia|rewrite length_replicate; lia|]. rewrite E1. apply wp_lift_some, wp_bind.
  assert (0 <= i * cs) by nia. rewrite slice_in by lia. apply wp_lift_some, wp_bind.
  assert (Hg : length (take (Z.to_nat cs) (drop (Z.to_nat (base + i * cs)) d)) = Z.to_nat cs) by (rewrite length_take, length_drop; lia).
  destruct (splice_in b1 (i * 32) (take (Z.to_nat cs) (drop (Z.to_nat (base + i * cs)) d))) as (b2 & E2 & L2 & K2); [lia|lia|]. rewrite E2. apply wp_lift_some, wp_modify.
  apply HQ; [lia|]. intros k Hk. rewrite K2, K1, Hg, length_replicate. unfold file_byte.
  pose proof (Z.div_mod (Z.of_nat k) 32 ltac:(lia)). pose proof (Z.mod_pos_bound (Z.of_nat k) 32 ltac:(lia)).
  destruct (Z.eqb_spec (Z.of_nat k / 32) i) as [Ei|Ei].
  - destruct (Z.ltb_spec (Z.of_nat k mod 32) cs).
    + rewrite decide_True by lia. rewrite lookup_take_lt, lookup_drop by lia. f_equal. rewrite Ei in *. lia.
    + rewrite decide_False, decide_True by lia. apply lookup_replicate_2. lia.
  - rewrite !decide_False by lia. done.
Qed.
Lemma copy_glyphs_ok d base cs n : forall i s (Q : unit -> font -> Prop), length (fontbuf s) = Z.to_nat 8192 -> 0 <= i -> i + Z.of_nat n <= 256 -> 0 <= cs <= 32 -> 0 <= base ->
  base + (i + Z.of_nat n) * cs <= Z.of_nat (length d) ->
  (forall b, length b = Z.to_nat 8192 -> (forall k, (k < Z.to_nat 8192)%nat -> b !! k = if (i <=? Z.of_nat k / 32) && (Z.of_nat k / 32 <? i + Z.of_nat n) then file_byte d base cs k else fontbuf s !! k) -> Q tt (with_fontbuf b s)) ->
  wp False (copy_glyphs n d base cs i) Q s.
Proof.
  induction n as [|n IH]; intros i s Q Hl Hi Hn Hcs Hb Hd HQ; cbn [copy_glyphs].
  - apply wp_ret. destruct s. apply HQ; [done|]. intros k Hk. destruct (Z.leb_spec i (Z.of_nat k / 32)), (Z.ltb_spec (Z.of_nat k / 32) (i + Z.of_nat 0)); try done. lia.
  - apply wp_bind, copy_glyph_ok; [done|lia|done|done|nia|]. intros b1 L1 K1. apply (IH (i + 1)); [done|lia|lia|done|done|by replace (i + 1 + Z.of_nat n) with (i + Z.of_nat (S n)) by lia|].
    intros b2 L2 K2. apply HQ; [done|]. intros k Hk. rewrite K2 by done. cbn [fontbuf with_fontbuf]. rewrite K1 by done. bdestr; cbn [andb]; try done; lia.
Qed.

(** The byte that an override puts at k; a later one goes over an earlier one *)
Fixpoint override (l : list (Z * list Z)) (k : nat) : option Z :=
  match l with
  | [] => None
  | (c, g) :: l' =>
    match override l' k with
    | Some v => Some v
    | None => if (c * 32 <=? Z.of_nat k) && (Z.of_nat k <? c * 32 + 16) then g !! (k - Z.to_nat (c * 32))%nat else None
    end
  end.
Lemma write_overrides_ok l : forall b, length b = Z.to_nat 8192 -> Forall (fun cg => 0 <= fst cg < 256 /\ length (snd cg) = 16%nat) l ->
  exists b', write_overrides l b = Some b' /\ length b' = Z.to_nat 8192 /\ forall k, b' !! k = match override l k with Some v => Some v | None => b !! k end.
Proof.
  induction l as [|[c g] l IH]; intros b Hb Hl; cbn [write_overrides override]; [by exists b|].
  apply list.Forall_cons in Hl as [[Hc Hg] Hl]. cbn [fst snd] in *. unfold write_korean. rewrite slice_all by (try done; lia).
  destruct (splice_in b (c * 32) g) as (b1 & E1 & L1 & K1); [lia|lia|]. rewrite E1. destruct (IH b1) as (b2 & E2 & L2 & K2); [lia|done|].
  exists b2. split_and!; [done|done|]. intros k. rewrite K2. destruct (override l k); [done|]. rewrite K1. case_decide as Hk.
  - rewrite (proj2 (Z.leb_le _ _)), (proj2 (Z.ltb_lt _ _)) by lia. cbn [andb]. destruct (lookup_lt_is_Some_2 g (k - Z.to_nat (c * 32))%nat) as [x Hx]; [lia|]. by rewrite Hx.
  - destruct (Z.leb_spec (c * 32) (Z.of_nat k)), (Z.ltb_spec (Z.of_nat k) (c * 32 + 16)); try done. lia.
Qed.
Lemma wp_overrides s (Q : unit -> font -> Prop) : length (fontbuf s) = Z.to_nat 8192 ->
  (forall b, length b = Z.to_nat 8192 -> (forall k, b !! k = match override overrides k with Some v => Some v | None => fontbuf s !! k end) -> Q tt (with_fontbuf b s)) ->
  wp False apply_orion_overrides Q s.
Proof.
  intros Hl HQ. unfold apply_orion_overrides. apply wp_bind, wp_gets, wp_bind.
  destruct (write_overrides_ok overrides (fontbuf s)) as (b & -> & Hb & Hk); [done|repeat constructor; done|]. apply wp_lift_some, wp_modify. by apply HQ.
Qed.

(** ** PSF files *)

(** A font of count glyphs of charsize bytes each, from offset base of the file on *)
Record psf := Psf { ps_width : Z; ps_height : Z; ps_base : Z; ps_charsize : Z; ps_count : Z }.
Definition psf_layout (d : list Z) : option psf :=
  let size := Z.of_nat (length d) in
  if (32 <=? size) && (get32 d 0 =? PSF2_MAGIC) then
    let w := get32 d 28 in let h := get32 d 24 in let hs := get32 d 8 in let n := get32 d 16 in
    if (get32 d 4 =? 0) && (32 <=? hs) && (hs <? size) && (1 <=? w) && (w <=? 8) && (1 <=? h) && (h <=? 32) && (get32 d 20 =? h) && (1 <=? n) && (hs + n * h <=? size)
    then Some (Psf w h hs h n) else None
  else if (4 <=? size) && (get16 d 0 =? PSF1_MAGIC) then
    let h := nth 3 d 0 in let n := if Z.testbit (nth 2 d 0) 0 then 512 else 256 in
    if (1 <=? h) && (h <=? 32) && (4 + n * h <=? size) then Some (Psf 8 h 4 h n) else None
  else None.
(** Byte k of the font that is made of a file: the system's own glyphs, those of the file, those of
    the adapter *)
Definition font_byte (p : psf) (d plane : list Z) (k : nat) : option Z :=
  match override overrides k with
  | Some v => Some v
  | None => if Z.of_nat k / 32 <? ps_count p then file_byte d (ps_base p) (ps_charsize p) k else plane !! k
  end.

Definition install (fb : bool) (d : list Z) (n base cs : Z) : M font unit :=
  copy_default_font;;; copy_glyphs (Z.to_nat (if 256 <? n then 256 else n)) d base cs 0;;; apply_orion_overrides;;; font_write_vga_if_enabled fb.
Record installed (fb : bool) (p : psf) (d : list Z) (s s' : font) : Prop := {
  in_visit : visited s s';
  in_buf : length (fontbuf s') = Z.to_nat 8192;
  in_bytes : forall k, (k < Z.to_nat 8192)%nat -> fontbuf s' !! k = font_byte p d (plane2 (adapter s)) k;
  in_plane : plane2 (adapter s') = if fb then plane2 (adapter s) else fontbuf s';
}.
Lemma wp_install fb p d s (Q : unit -> font -> Prop) : length (fontbuf s) = Z.to_nat 8192 -> length (plane2 (adapter s)) = Z.to_nat 8192 ->
  0 <= ps_charsize p <= 32 -> 0 <= ps_base p -> 0 <= ps_count p -> ps_base p + ps_count p * ps_charsize p <= Z.of_nat (length d) ->
  (forall s', installed fb p d s s' -> Q tt s') -> wp False (install fb d (ps_count p) (ps_base p) (ps_charsize p)) Q s.
Proof.
  intros Hb Hp Hc Hba Hn Hd HQ. unfold install. apply wp_bind, wp_copy_default; [done..|]. intros s1 V1 P1 B1. apply wp_bind.
  assert (Hn' : 0 <= (if 256 <? ps_count p then 256 else ps_count p) <= 256 /\ (if 256 <? ps_count p then 256 else ps_count p) <= ps_count p) by (bdestr; lia).
  set (n := if 256 <? ps_count p then 256 else ps_count p) in *. apply copy_glyphs_ok; [congruence|lia|lia|done|done|nia|].
  intros b2 L2 K2. apply wp_bind, wp_overrides; [done|]. intros b3 L3 K3. cbn [fontbuf with_fontbuf] in K3.
  assert (Hbytes : forall k, (k < Z.to_nat 8192)%nat -> b3 !! k = font_byte p d (plane2 (adapter s)) k).
  { intros k Hk. rewrite K3, K2, B1 by done. unfold font_byte. destruct (override overrides k); [done|].
    assert (Z.of_nat k / 32 < 256) by (apply Z.div_lt_upper_bound; lia). pose proof (Z.div_pos (Z.of_nat k) 32).
    subst n. bdestr; cbn [andb]; try done; lia. }
  unfold font_write_vga_if_enabled. destruct fb; cbn [negb].
  - apply wp_ret, HQ. destruct V1. by constructor.
  - apply wp_bind, wp_gets, wp_write_font; [done|cbn; congruence|]. intros s4 V4 P4 B4. apply HQ. cbn in B4, P4. destruct V1, V4. constructor.
    + constructor; [done|cbn in *; congruence|by eapply con_same_regs_trans|cbn in *; naive_solver congruence].
    + congruence.
    + by rewrite B4.
    + congruence.
Qed.

Lemma field_32 d off : 0 <= off -> off + 4 <= Z.of_nat (length d) -> field d off 4 = Some (get32 d (Z.to_nat off)).
Proof.
  intros H0 H1. unfold field. rewrite slice_in by lia. f_equal. rewrite <-(Nat.add_0_r (Z.to_nat off)) at 2. rewrite <-(get32_take_drop d (Z.to_nat off) 4 0) by lia.
  assert (Hl : length (take (Z.to_nat 4) (drop (Z.to_nat off) d)) = 4%nat) by (rewrite length_take, length_drop; lia).
  change (Z.to_nat 4) with 4%nat in *. destruct (take 4 (drop (Z.to_nat off) d)) as [|a [|b [|c [|e [|]]]]]; try done. unfold get32, le32. cbn. lia.
Qed.
Lemma field_16 d off : 0 <= off -> off + 2 <= Z.of_nat (length d) -> field d off 2 = Some (get16 d (Z.to_nat off)).
Proof.
  intros H0 H1. unfold field, get16. rewrite slice_in by lia. f_equal.
  assert (Hl : length (take (Z.to_nat 2) (drop (Z.to_nat off) d)) = 2%nat) by (rewrite length_take, length_drop; lia). change (Z.to_nat 2) with 2%nat in *.
  replace (nth (Z.to_nat off) d 0) with (nth 0 (take 2 (drop (Z.to_nat off) d)) 0) by (rewrite !nth_lookup, lookup_take_lt, lookup_drop by lia; do 2 f_equal; lia).
  replace (nth (Z.to_nat off + 1) d 0) with (nth 1 (take 2 (drop (Z.to_nat off) d)) 0) by (rewrite !nth_lookup, lookup_take_lt, lookup_drop by lia; do 2 f_equal; lia).
  destruct (take 2 (drop (Z.to_nat off) d)) as [|a [|b [|]]]; try done. cbn. lia.
Qed.
Lemma field_8 d off : 0 <= off -> off + 1 <= Z.of_nat (length d) -> field d off 1 = Some (nth (Z.to_nat off) d 0).
Proof.
  intros H0 H1. unfold field. rewrite slice_in by lia. f_equal.
  replace (nth (Z.to_nat off) d 0) with (nth 0 (take 1 (drop (Z.to_nat off) d)) 0) by (rewrite !nth_lookup, lookup_take_lt, lookup_drop by lia; do 2 f_equal; lia).
  assert (Hl : length (take (Z.to_nat 1) (drop (Z.to_nat off) d)) = 1%nat) by (rewrite length_take, length_drop; lia). change (Z.to_nat 1) with 1%nat in *.
  destruct (take 1 (drop (Z.to_nat off) d)) as [|a [|]]; try done. cbn. lia.
Qed.

(** What a load leaves, whatever the file *)
Definition outcome (fb : bool) (d : list Z) (s : font) (r : bool * errbuf_t) (s' : font) : Prop :=
  font_ok s' /\
  match psf_layout d with
  | Some p => fst r = true /\ g_font_width s' = ps_width p /\ g_font_height s' = ps_height p /\ installed fb p d (with_size (ps_width p) (ps_height p) 1 s) s'
  | None => fst r = false /\ fontbuf s' = fontbuf s /\ adapter s' = adapter s
  end.
Lemma outcome_fail fb d e (m : string) w h r s s0 : psf_layout d = None -> font_ok s -> s0 = s \/ (s0 = with_size w h r s /\ 1 <= w <= 8 /\ 1 <= h <= 32 /\ r = 1) ->
  outcome fb d s (false, set_error e m) s0.
Proof. intros E [Hb Hp Hw Hh Hr] Hs. unfold outcome. rewrite E. destruct Hs as [->|(-> & ? & ? & ->)]; split; try done; by constructor. Qed.
Lemma outcome_ok fb d p s e (m : string) : psf_layout d = Some p -> font_ok s -> 1 <= ps_width p <= 8 -> 1 <= ps_height p <= 32 ->
  0 <= ps_charsize p <= 32 -> 0 <= ps_base p -> 0 <= ps_count p -> ps_base p + ps_count p * ps_charsize p <= Z.of_nat (length d) ->
  wp False (install fb d (ps_count p) (ps_base p) (ps_charsize p);;; ret (true, set_error e m)) (outcome fb d s) (with_size (ps_width p) (ps_height p) 1 s).
Proof.
  intros E [Hb Hp Hw Hh Hr] Hpw Hph Hc Hba Hn Hd. apply wp_bind, wp_install; try done. intros s' I. pose proof I as [[Vt Vm Vr (V1 & V2 & V3)] Ib Ik Ip]. cbn in V1, V2, V3.
  apply wp_ret. unfold outcome. rewrite E. split_and!; try done. constructor; try congruence; try lia. rewrite Ip. destruct fb; [done|]. by rewrite Ib.
Qed.

Lemma install_bind {A} fb d n base cs (k : M font A) s :
  (copy_default_font;;; copy_glyphs (Z.to_nat (if 256 <? n then 256 else n)) d base cs 0;;; apply_orion_overrides;;; font_write_vga_if_enabled fb;;; k) s = (install fb d n base cs;;; k) s.
Proof. unfold install. rewrite !bind_bind. apply bind_ext. intros _ s1. rewrite !bind_bind. apply bind_ext. intros _ s2. by rewrite bind_bind. Qed.
Lemma wp_eq {S A} F (m m' : M S A) Q s : m s = m' s -> wp F m' Q s -> wp F m Q s.
Proof. unfold wp. by intros ->. Qed.

Lemma psf2_layout d p : 32 <= Z.of_nat (length d) -> get32 d 0 = PSF2_MAGIC -> psf_layout d = Some p <->
  get32 d 4 = 0 /\ 32 <= get32 d 8 < Z.of_nat (length d) /\ 1 <= get32 d 28 <= 8 /\ 1 <= get32 d 24 <= 32 /\ get32 d 20 = get32 d 24 /\ 1 <= get32 d 16 /\
  get32 d 8 + get32 d 16 * get32 d 24 <= Z.of_nat (length d) /\ p = Psf (get32 d 28) (get32 d 24) (get32 d 8) (get32 d 24) (get32 d 16).
Proof.
  intros Hs Hm. unfold psf_layout. rewrite (proj2 (Z.leb_le _ _)), (proj2 (Z.eqb_eq _ _)) by done. cbn [andb].
  match goal with |- (if ?c then _ else _) = _ <-> _ => destruct c eqn:E end.
  - rewrite !andb_true_iff, ?Z.eqb_eq, ?Z.leb_le, ?Z.ltb_lt in E. split; [intros [= <-]; naive_solver lia|]. intros (? & ? & ? & ? & ? & ? & ? & ->). done.
  - split; [done|]. intros (? & ? & ? & ? & ? & ? & ? & ->). exfalso. revert E. apply not_false_iff_true. rewrite !andb_true_iff, ?Z.eqb_eq, ?Z.leb_le, ?Z.ltb_lt. lia.
Qed.
Lemma psf2_none d : 32 <= Z.of_nat (length d) -> get32 d 0 = PSF2_MAGIC ->
  ~ (get32 d 4 = 0 /\ 32 <= get32 d 8 < Z.of_nat (length d) /\ 1 <= get32 d 28 <= 8 /\ 1 <= get32 d 24 <= 32 /\ get32 d 20 = get32 d 24 /\ 1 <= get32 d 16 /\
  get32 d 8 + get32 d 16 * get32 d 24 <= Z.of_nat (length d)) -> psf_layout d = None.
Proof. intros Hs Hm Hn. destruct (psf_layout d) as [p|] eqn:E; [|done]. apply psf2_layout in E; [|done..]. tauto. Qed.

Lemma psf2_ok fb d e s : font_ok s -> Forall is_u8 d -> 32 <= Z.of_nat (length d) -> get32 d 0 = PSF2_MAGIC -> wp False (font_load_psf2 fb (Some d) e) (outcome fb d s) s.
Proof.
  intros Hs Hd Hl Hm. pose proof (fun o => get32_u32 d o Hd) as Hu. unfold is_u32 in Hu. unfold font_load_psf2. rewrite (proj2 (Z.ltb_ge _ _)) by done.
  pose proof (psf2_none d Hl Hm) as Hnone.
  apply wp_bind. rewrite field_32 by lia. apply wp_lift_some. change (Z.to_nat 0) with 0%nat. rewrite Hm. cbn [negb Z.eqb]. rewrite Z.eqb_refl. cbn [negb].
  apply wp_bind. rewrite field_32 by lia. apply wp_lift_some. change (Z.to_nat 4) with 4%nat. apply wp_if; intros E1; [apply wp_ret; apply (outcome_fail _ _ _ _ 0 0 0); [apply Hnone; bdestr; (done || lia)|done|by left]|].
  apply wp_bind. rewrite field_32 by lia. apply wp_lift_some. change (Z.to_nat 8) with 8%nat. apply wp_if; intros E2; [apply wp_ret; apply (outcome_fail _ _ _ _ 0 0 0); [apply Hnone; bdestr; (done || lia)|done|by left]|].
  apply wp_bind. rewrite field_32 by lia. apply wp_lift_some. change (Z.to_nat 28) with 28%nat. apply wp_if; intros E3; [apply wp_ret; apply (outcome_fail _ _ _ _ 0 0 0); [apply Hnone; bdestr; (done || lia)|done|by left]|].
  apply wp_bind. rewrite field_32 by lia. apply wp_lift_some. change (Z.to_nat 24) with 24%nat. apply wp_if; intros E4; [apply wp_ret; apply (outcome_fail _ _ _ _ 0 0 0); [apply Hnone; bdestr; (done || lia)|done|by left]|].
  apply wp_bind. rewrite field_32 by lia. apply wp_lift_some. change (Z.to_nat 20) with 20%nat. apply wp_if; intros E5; [apply wp_ret; apply (outcome_fail _ _ _ _ 0 0 0); [apply Hnone; bdestr; (done || lia)|done|by left]|].
  rewrite !orb_false_iff, ?negb_false_iff, ?Z.eqb_eq, ?Z.eqb_neq, ?Z.ltb_ge, ?Z.leb_gt in *. pose proof (Hu 4%nat). pose proof (Hu 8%nat). pose proof (Hu 28%nat). pose proof (Hu 24%nat). pose proof (Hu 20%nat). pose proof (Hu 16%nat).
  assert (Hrow : (get32 d 28 + 7) / 8 = 1) by (Z.div_mod_to_equations; lia).
  apply wp_bind, wp_modify. cbv zeta. rewrite Hrow, Z.mul_1_r. rewrite !u8_small, (u32_small (get32 d 24)) by (unword; lia).
  apply wp_if; intros E6; [apply wp_ret; eapply outcome_fail; [apply Hnone; bdestr; (done || lia)|done|right; split; [done|lia]]|].
  apply wp_bind. rewrite field_32 by lia. apply wp_lift_some. change (Z.to_nat 16) with 16%nat. rewrite negb_false_iff, Z.eqb_eq in E6.
  assert (0 <= get32 d 16 * get32 d 20 < 4294967296 * 32) by nia. rewrite (u64_small (get32 d 16 * get32 d 20)), u64_small by (unword; lia). apply wp_if; intros E7; [apply wp_ret; eapply outcome_fail; [apply Hnone; rewrite <-E6; bdestr; (done || lia)|done|right; split; [done|lia]]|].
  apply wp_if; intros E8; [apply wp_ret; eapply outcome_fail; [apply Hnone; bdestr; (done || lia)|done|right; split; [done|lia]]|].
  rewrite ?Z.eqb_neq, ?Z.ltb_ge in *. eapply wp_eq; [apply install_bind|]. rewrite E6.
  apply (outcome_ok fb d (Psf (get32 d 28) (get32 d 24) (get32 d 8) (get32 d 24) (get32 d 16)) s); cbn; try done; try lia.
  apply psf2_layout; try done. by split_and!; try done; try lia.
Qed.
Lemma psf1_layout d : 4 <= Z.of_nat (length d) -> (32 <=? Z.of_nat (length d)) && (get32 d 0 =? PSF2_MAGIC) = false -> get16 d 0 = PSF1_MAGIC ->
  let n := if Z.testbit (nth 2 d 0) 0 then 512 else 256 in
  psf_layout d = if (1 <=? nth 3 d 0) && (nth 3 d 0 <=? 32) && (4 + n * nth 3 d 0 <=? Z.of_nat (length d)) then Some (Psf 8 (nth 3 d 0) 4 (nth 3 d 0) n) else None.
Proof. intros Hl H2 Hm n. unfold psf_layout. rewrite H2, (proj2 (Z.leb_le _ _)), (proj2 (Z.eqb_eq _ _)) by done. done. Qed.
Lemma psf1_ok fb d e s : font_ok s -> Forall is_u8 d -> 4 <= Z.of_nat (length d) -> (32 <=? Z.of_nat (length d)) && (get32 d 0 =? PSF2_MAGIC) = false ->
  get16 d 0 = PSF1_MAGIC -> wp False (font_load_psf1 fb (Some d) e) (outcome fb d s) s.
Proof.
  intros Hs Hd Hl H2 Hm. pose proof (psf1_layout d Hl H2 Hm) as Hlay. cbv zeta in Hlay. pose proof (nth_u8 d 3 Hd) as H3. unfold is_u8 in H3.
  unfold font_load_psf1. rewrite (proj2 (Z.ltb_ge _ _)) by done. apply wp_bind. rewrite field_16 by lia. apply wp_lift_some. change (Z.to_nat 0) with 0%nat. rewrite Hm, Z.eqb_refl. cbn [negb].
  apply wp_bind. rewrite field_8 by lia. apply wp_lift_some. change (Z.to_nat 3) with 3%nat.
  apply wp_if; intros E1; [apply wp_ret; apply (outcome_fail _ _ _ _ 0 0 0); [rewrite Hlay; bdestr; (done || lia)|done|by left]|].
  rewrite orb_false_iff, Z.eqb_neq, Z.ltb_ge in E1. apply wp_bind, wp_modify, wp_bind. rewrite field_8 by lia. apply wp_lift_some. change (Z.to_nat 2) with 2%nat.
  replace (negb (Z.land (nth 2 d 0) PSF1_MODE512 =? 0)) with (Z.testbit (nth 2 d 0) 0) by (change PSF1_MODE512 with (Z.shiftl 1 0); rewrite land_pow2 by lia; by rewrite negb_involutive).
  set (n := if Z.testbit (nth 2 d 0) 0 then 512 else 256) in *. cbv zeta. assert (n = 256 \/ n = 512) by (subst n; destruct (Z.testbit _ _); lia).
  rewrite (u64_small (n * _)), u64_small by (unword; nia).
  apply wp_if; intros E2; [apply wp_ret; eapply outcome_fail; [rewrite Hlay; bdestr; (done || lia)|done|right; split; [done|lia]]|].
  rewrite Z.ltb_ge in E2. eapply wp_eq; [apply install_bind|]. apply (outcome_ok fb d (Psf 8 (nth 3 d 0) 4 (nth 3 d 0) n) s); cbn; try done; try lia.
  rewrite Hlay. by rewrite (proj2 (Z.leb_le _ _)), (proj2 (Z.leb_le (nth 3 d 0) _)), (proj2 (Z.leb_le _ (Z.of_nat _))) by lia.
Qed.

Lemma font_load_ok fb d e s : font_ok s -> Forall is_u8 d ->
  wp False (font_load_psf fb (Some d) e) (outcome fb d s) s.
Proof.
  intros Hs Hd. unfold font_load_psf. apply wp_if; intros E0.
  { apply Z.ltb_lt in E0. apply wp_ret; apply (outcome_fail _ _ _ _ 0 0 0); [|done|by left]. unfold psf_layout.
    by rewrite (proj2 (Z.leb_gt 32 _)), (proj2 (Z.leb_gt 4 _)) by lia. }
  apply Z.ltb_ge in E0. apply wp_bind. apply wp_mono with (P := fun b s' => s' = s /\ b = (32 <=? Z.of_nat (length d)) && (get32 d 0 =? PSF2_MAGIC)).
  { apply wp_if; intros E1; [|apply wp_ret; split; [done|by rewrite E1]]. apply wp_bind. rewrite field_32 by (apply Z.leb_le in E1; lia). apply wp_lift_some, wp_ret. split; [done|by rewrite E1]. }
  intros b s' [-> Eb]. apply wp_if; intros ->.
  { symmetry in Eb. apply andb_true_iff in Eb as [?%Z.leb_le ?%Z.eqb_eq]. by apply psf2_ok. }
  apply wp_bind. rewrite (proj2 (Z.leb_le 4 _)) by done. apply wp_bind. rewrite field_16 by lia. apply wp_lift_some, wp_ret. change (Z.to_nat 0) with 0%nat.
  apply wp_if; intros E1; [apply Z.eqb_eq in E1; by apply psf1_ok|]. apply wp_ret; apply (outcome_fail _ _ _ _ 0 0 0); [|done|by left].
  unfold psf_layout. by rewrite <-Eb, E1, andb_false_r.
Qed.

(** C37: Whatever bytes a font file has, font_load_psf reads and writes only inside the file, the font
    buffer and the font plane of the adapter.  It succeeds exactly on the well-formed PSF files
    ([psf_layout]): then the size of the font is the one in the header and every byte of the font is
    that of the system's own glyphs, of the file, or of the adapter's font for glyphs that the file
    does not have; in text mode the adapter has the same font, is back in text mode and uses the same
    character map.  Otherwise the glyphs and the adapter are as before. *)
Theorem font_load_glyphs fb d e s : font_ok s -> Forall is_u8 d ->
  wp False (font_load_psf fb (Some d) e) (outcome fb d s) s.
Proof. apply font_load_ok. Qed.

(** A file with one glyph of 2 by 3 pixels *)
Definition small_psf : list Z :=
  bytes32 PSF2_MAGIC ++ bytes32 0 ++ bytes32 32 ++ bytes32 0 ++ bytes32 1 ++ bytes32 3 ++ bytes32 3 ++ bytes32 2 ++ [0x80; 0x40; 0xC0].
Lemma font_load_glyphs_witness :
  wp False (font_load_psf false (Some small_psf) None) (outcome false small_psf (font0 (Vga ∅ ∅ (replicate (Z.to_nat 8192) 7)))) (font0 (Vga ∅ ∅ (replicate (Z.to_nat 8192) 7))) /\
  psf_layout small_psf = Some (Psf 2 3 32 3 1).
Proof. split; [apply font_load_glyphs; [apply font0_ok; vm_compute; reflexivity|apply u8_list; vm_compute; reflexivity]|vm_compute; reflexivity]. Defined.
(** A file that is refused because it is truncated has changed the size of the font all the same. *)
Example refused_font_changes_size :
  match font_load_psf true (Some (bytes32 PSF2_MAGIC ++ bytes32 0 ++ bytes32 32 ++ bytes32 0 ++ bytes32 9 ++ bytes32 32 ++ bytes32 32 ++ bytes32 8 ++ [1])) None (font0 (Vga ∅ ∅ [])) with
  | Ok ((ok, _), s) => ok = false /\ g_font_height (font0 (Vga ∅ ∅ [])) = 16 /\ g_font_height s = 32
  | _ => False
  end.
Proof. by vm_compute. Qed.
End Font.
