(* ===== verification/Screen.v ===== *)
(** * The console (drivers/screen.c)

    Text goes to a buffer of lines and, at the same time, to the display: the text memory of the VGA
    adapter or, once one is set, a frame buffer on which the console draws glyphs.  [vram] is the text
    memory in cells of 16 bits, [fbm] the memory around the frame buffer by address.  Signed
    arithmetic wraps around.  kprint_float, which needs floating point, and print_hex_pad are left
    out. *)
From Stdlib Require Import String Ascii.
From S2P Require Import Prelude Klog Font.
Import Klog Vga Font.

Module Screen.

Definition MAX_SCROLL_LINES : Z := 500.
Definition MAX_ROWS : Z := 25.
Definition MAX_COLS : Z := 80.
Definition SCREEN_MAX_COLS : Z := 240.
Definition SCREEN_MAX_ROWS : Z := 100.
Definition WHITE_ON_BLACK : Z := 0x0f.
Definition BLACK : Z := 0.
Definition WHITE : Z := 15.
Definition REG_SCREEN_CTRL : Z := 0x3d4.
Definition REG_SCREEN_DATA : Z := 0x3d5.
Definition FB_CURSOR_UNDERLINE_HEIGHT : Z := 2.
Definition FB_CURSOR_BLINK_TICKS : Z := 50.

Record fb_state_t := Fb { addr : Z; width : Z; height : Z; pitch : Z; bpp : Z; bytes_per_pixel : Z; enabled : bool }.
Record cursor := Cursor {
  fb_cursor_row : Z; fb_cursor_col : Z; fb_cursor_visible : bool;
  cursor_user_visible : bool; cursor_blink_enabled : bool; cursor_blink_state : bool; cursor_blink_ticks : Z;
}.
(** [buf_col]: the static variable of putchar_with_buf *)
Record lines := Lines { textbuf : list (list Z); buf_hydrated : bool; total_lines : Z; scroll_pos : Z; buf_col : Z }.
Record screen := Scr {
  tx : lines; cu : cursor;
  screen_cols : Z; screen_rows : Z; g_fb : fb_state_t;
  g_text_fg : Z; g_text_bg : Z; g_text_attr : Z;
  prompt_col : Z; prompt_row : Z; input_start_offset : Z;
  fnt : font; vram : list Z; fbm : mem; klog : log;
}.

Definition with_tx (v : lines) (s : screen) : screen :=
  Scr v (cu s) (screen_cols s) (screen_rows s) (g_fb s) (g_text_fg s) (g_text_bg s) (g_text_attr s) (prompt_col s) (prompt_row s) (input_start_offset s) (fnt s) (vram s) (fbm s) (klog s).
Definition with_cu (v : cursor) (s : screen) : screen :=
  Scr (tx s) v (screen_cols s) (screen_rows s) (g_fb s) (g_text_fg s) (g_text_bg s) (g_text_attr s) (prompt_col s) (prompt_row s) (input_start_offset s) (fnt s) (vram s) (fbm s) (klog s).
Definition with_geometry (c r : Z) (s : screen) : screen :=
  Scr (tx s) (cu s) c r (g_fb s) (g_text_fg s) (g_text_bg s) (g_text_attr s) (prompt_col s) (prompt_row s) (input_start_offset s) (fnt s) (vram s) (fbm s) (klog s).
Definition with_g_fb (v : fb_state_t) (s : screen) : screen :=
  Scr (tx s) (cu s) (screen_cols s) (screen_rows s) v (g_text_fg s) (g_text_bg s) (g_text_attr s) (prompt_col s) (prompt_row s) (input_start_offset s) (fnt s) (vram s) (fbm s) (klog s).
Definition with_color (f b : Z) (s : screen) : screen :=
  Scr (tx s) (cu s) (screen_cols s) (screen_rows s) (g_fb s) f b (g_text_attr s) (prompt_col s) (prompt_row s) (input_start_offset s) (fnt s) (vram s) (fbm s) (klog s).
Definition with_fnt (v : font) (s : screen) : screen :=
  Scr (tx s) (cu s) (screen_cols s) (screen_rows s) (g_fb s) (g_text_fg s) (g_text_bg s) (g_text_attr s) (prompt_col s) (prompt_row s) (input_start_offset s) v (vram s) (fbm s) (klog s).
Definition with_vram (v : list Z) (s : screen) : screen :=
  Scr (tx s) (cu s) (screen_cols s) (screen_rows s) (g_fb s) (g_text_fg s) (g_text_bg s) (g_text_attr s) (prompt_col s) (prompt_row s) (input_start_offset s) (fnt s) v (fbm s) (klog s).
Definition with_fbm (v : mem) (s : screen) : screen :=
  Scr (tx s) (cu s) (screen_cols s) (screen_rows s) (g_fb s) (g_text_fg s) (g_text_bg s) (g_text_attr s) (prompt_col s) (prompt_row s) (input_start_offset s) (fnt s) (vram s) v (klog s).
Definition with_klog (v : log) (s : screen) : screen :=
  Scr (tx s) (cu s) (screen_cols s) (screen_rows s) (g_fb s) (g_text_fg s) (g_text_bg s) (g_text_attr s) (prompt_col s) (prompt_row s) (input_start_offset s) (fnt s) (vram s) (fbm s) v.
(** Where the input begins: the variables that kernel.c and keyboard.c set *)
Definition with_prompt (c r o : Z) (s : screen) : screen :=
  Scr (tx s) (cu s) (screen_cols s) (screen_rows s) (g_fb s) (g_text_fg s) (g_text_bg s) (g_text_attr s) c r o (fnt s) (vram s) (fbm s) (klog s).
Definition with_textbuf (v : list (list Z)) (t : lines) : lines := Lines v (buf_hydrated t) (total_lines t) (scroll_pos t) (buf_col t).
Definition with_total (v : Z) (t : lines) : lines := Lines (textbuf t) (buf_hydrated t) v (scroll_pos t) (buf_col t).
Definition with_scroll (v : Z) (t : lines) : lines := Lines (textbuf t) (buf_hydrated t) (total_lines t) v (buf_col t).
Definition with_hydrated (t : lines) : lines := Lines (textbuf t) true (total_lines t) (scroll_pos t) (buf_col t).
Definition with_buf_col (v : Z) (t : lines) : lines := Lines (textbuf t) (buf_hydrated t) (total_lines t) (scroll_pos t) v.
Definition with_pos (r c : Z) (k : cursor) : cursor :=
  Cursor r c (fb_cursor_visible k) (cursor_user_visible k) (cursor_blink_enabled k) (cursor_blink_state k) (cursor_blink_ticks k).
Definition with_visible (v : bool) (k : cursor) : cursor :=
  Cursor (fb_cursor_row k) (fb_cursor_col k) v (cursor_user_visible k) (cursor_blink_enabled k) (cursor_blink_state k) (cursor_blink_ticks k).
Definition with_blink (user en st : bool) (n : Z) (k : cursor) : cursor :=
  Cursor (fb_cursor_row k) (fb_cursor_col k) (fb_cursor_visible k) user en st n.
Definition mod_tx (f : lines -> lines) : M screen unit := modify (fun s => with_tx (f (tx s)) s).
Definition mod_cu (f : cursor -> cursor) : M screen unit := modify (fun s => with_cu (f (cu s)) s).

Definition on_fbm {A} (m : M mem A) : M screen A := fun s =>
  match m (fbm s) with Ok (a, v) => Ok (a, with_fbm v s) | Fault => Fault | NoFuel => NoFuel end.
Definition on_font {A} (m : M font A) : M screen A := fun s =>
  match m (fnt s) with Ok (a, v) => Ok (a, with_fnt v s) | Fault => Fault | NoFuel => NoFuel end.
Definition on_log {A} (m : M log A) : M screen A := fun s =>
  match m (klog s) with Ok (a, v) => Ok (a, with_klog v s) | Fault => Fault | NoFuel => NoFuel end.

(** for (i = lo; i < lo + n; i++) *)
Fixpoint for_from {S} (n : nat) (i : Z) (f : Z -> M S unit) : M S unit :=
  match n with
  | O => ret tt
  | Datatypes.S n' => f i;;; for_from n' (i + 1) f
  end.
(** for (i = lo; i < hi; i++) *)
Definition for_ {S} (lo hi : Z) (f : Z -> M S unit) : M S unit := for_from (Z.to_nat (hi - lo)) lo f.
Fixpoint each {S A} (l : list A) (f : A -> M S unit) : M S unit :=
  match l with
  | [] => ret tt
  | x :: l' => f x;;; each l' f
  end.

(** ** Cells and colours *)

Definition mkcell (attr ch : Z) : Z := u16 (Z.lor (Z.shiftl attr 8) ch).
Definition blank_cell : Z := mkcell WHITE_ON_BLACK 32.
Definition vga_attr (fg bg : Z) : Z := u8 (Z.lor (Z.shiftl bg 4) (Z.land fg 0x0F)).
Definition set_color (fg bg : Z) : M screen unit := modify (with_color fg bg).
Definition color_current : M screen Z := gets (fun s => u8 (Z.lor (Z.shiftl (g_text_bg s) 4) (Z.land (g_text_fg s) 0x0F))).
Definition fb_palette : list Z :=
  [0x000000; 0x0000aa; 0x00aa00; 0x00aaaa; 0xaa0000; 0xaa00aa; 0xaa5500; 0xaaaaaa; 0x555555; 0x5555ff; 0x55ff55; 0x55ffff; 0xff5555; 0xff55ff; 0xffff55; 0xffffff].
Definition fb_palette_color (index : Z) : Z := nth (Z.to_nat (Z.land index 0x0f)) fb_palette 0.

(** ** Pixels *)

Definition screen_is_framebuffer : M screen bool := gets (fun s => enabled (g_fb s)).
Record screen_fb_info_t := Info { i_width : Z; i_height : Z; i_pitch : Z; i_bpp : Z; i_bytes_per_pixel : Z; i_font_w : Z; i_font_h : Z }.
Definition screen_get_framebuffer_info : M screen (option screen_fb_info_t) :=
  s <- get;; let f := g_fb s in
  if negb (enabled f) then ret None
  else ret (Some (Info (width f) (height f) (pitch f) (bpp f) (bytes_per_pixel f) (g_font_width (fnt s)) (g_font_height (fnt s)))).
Definition fb_write_ready (f : fb_state_t) : bool := enabled f && ((bytes_per_pixel f =? 3) || (bytes_per_pixel f =? 4)).
Definition fb_write_color (f : fb_state_t) (dst color : Z) : M mem unit :=
  store dst (Z.land color 0xff);;; store (dst + 1) (Z.land (Z.shiftr color 8) 0xff);;; store (dst + 2) (Z.land (Z.shiftr color 16) 0xff);;;
  if bytes_per_pixel f =? 4 then store (dst + 3) 0 else ret tt.
(** g_fb.addr + (uint32_t)y * g_fb.pitch + (uint32_t)x * bytes *)
Definition pixel_addr (f : fb_state_t) (bytes x y : Z) : Z := u32 (addr f + u32 (u32 y * pitch f) + u32 (u32 x * bytes)).
Definition on_screen (f : fb_state_t) (x y : Z) : bool := negb ((x <? 0) || (y <? 0) || (s32 (width f) <=? x) || (s32 (height f) <=? y)).
(** The result is true and the pixel, or false *)
Definition screen_fb_get_pixel (x y : Z) : M screen (option Z) :=
  f <- gets g_fb;;
  if negb (fb_write_ready f) then ret None
  else if negb (on_screen f x y) then ret None
  else
    let src := pixel_addr f (bytes_per_pixel f) x y in
    b0 <- on_fbm (load src);; b1 <- on_fbm (load (src + 1));; b2 <- on_fbm (load (src + 2));;
    ret (Some (Z.lor b0 (Z.lor (Z.shiftl b1 8) (Z.shiftl b2 16)))).
Definition screen_fb_set_pixel (x y color : Z) : M screen unit :=
  f <- gets g_fb;;
  if negb (fb_write_ready f) then ret tt
  else if negb (on_screen f x y) then ret tt
  else on_fbm (fb_write_color f (pixel_addr f (bytes_per_pixel f) x y) color).
Definition screen_fb_fill_rect (x y w h color : Z) : M screen unit :=
  f <- gets g_fb;;
  if negb (fb_write_ready f) then ret tt
  else if (w <=? 0) || (h <=? 0) then ret tt
  else
    let x1 := s32 (x + w) in let y1 := s32 (y + h) in
    let max_w := s32 (width f) in let max_h := s32 (height f) in
    if (x1 <=? 0) || (y1 <=? 0) || (max_w <=? x) || (max_h <=? y) then ret tt
    else
      let x0 := if x <? 0 then 0 else x in let y0 := if y <? 0 then 0 else y in
      let x1 := if max_w <? x1 then max_w else x1 in let y1 := if max_h <? y1 then max_h else y1 in
      if (x1 <=? x0) || (y1 <=? y0) then ret tt
      else
        let bytes := bytes_per_pixel f in
        on_fbm (for_ y0 y1 (fun py => let dst := pixel_addr f bytes x0 py in for_ x0 x1 (fun px => fb_write_color f (dst + (px - x0) * bytes) color))).

(** Bit gx of row gy of a glyph *)
Definition glyph_bit (ft : font) (ch gy gx : Z) : option bool :=
  match lget (fontbuf ft) (font_get_glyph ch + gy * g_font_row_bytes ft + Z.shiftr gx 3) with
  | Some byte => Some (negb (Z.land byte (u8 (Z.shiftr 0x80 (Z.land gx 7))) =? 0))
  | None => None
  end.
Definition fb_draw_glyph_px (f : fb_state_t) (ft : font) (x y ch fg bg : Z) (transparent : bool) : M mem unit :=
  if negb (fb_write_ready f) then ret tt
  else if (g_font_width ft =? 0) || (g_font_height ft =? 0) || (g_font_row_bytes ft =? 0) then ret tt
  else
    let max_w := s32 (width f) in let max_h := s32 (height f) in
    for_ 0 (g_font_height ft) (fun gy =>
      let py := s32 (y + gy) in
      if (py <? 0) || (max_h <=? py) then ret tt
      else for_ 0 (g_font_width ft) (fun gx =>
        let px := s32 (x + gx) in
        if (px <? 0) || (max_w <=? px) then ret tt
        else
          on <- lift_opt (glyph_bit ft ch gy gx);;
          let dst := pixel_addr f (bytes_per_pixel f) px py in
          if (on : bool) then fb_write_color f dst fg
          else if negb transparent then fb_write_color f dst bg
          else ret tt)).
Fixpoint draw_text_loop (f : fb_state_t) (ft : font) (start_x cx cy : Z) (text : list Z) (fg bg : Z) (transparent : bool) : M mem unit :=
  match text with
  | [] => ret tt
  | ch :: rest =>
    let fw := g_font_width ft in
    if ch =? 10 then draw_text_loop f ft start_x start_x (s32 (cy + g_font_height ft)) rest fg bg transparent
    else if ch =? 13 then draw_text_loop f ft start_x start_x cy rest fg bg transparent
    else if ch =? 9 then draw_text_loop f ft start_x (s32 (cx + fw * 4)) cy rest fg bg transparent
    else fb_draw_glyph_px f ft cx cy ch fg bg transparent;;; draw_text_loop f ft start_x (s32 (cx + fw)) cy rest fg bg transparent
  end.
Definition screen_fb_draw_text (x y : Z) (text : option (list Z)) (fg bg : Z) (transparent : bool) : M screen unit :=
  f <- gets g_fb;; ft <- gets fnt;;
  match text with
  | None => ret tt
  | Some t =>
    if negb (fb_write_ready f) then ret tt
    else if (g_font_width ft =? 0) || (g_font_height ft =? 0) then ret tt
    else on_fbm (draw_text_loop f ft x x y t fg bg transparent)
  end.

(** One row of the glyph of a cell, in 32 and in 24 bits per pixel *)
Definition store32 (p v : Z) : M mem unit := store p v;;; store (p + 1) (Z.shiftr v 8);;; store (p + 2) (Z.shiftr v 16);;; store (p + 3) (Z.shiftr v 24).
Definition store24 (p v : Z) : M mem unit := store p (Z.land v 0xff);;; store (p + 1) (Z.land (Z.shiftr v 8) 0xff);;; store (p + 2) (Z.land (Z.shiftr v 16) 0xff).
Definition cell_row (f : fb_state_t) (ft : font) (ch fg bg px py bytes : Z) (put : Z -> Z -> M mem unit) (y : Z) : M mem unit :=
  let row_ptr := font_get_glyph ch + y * g_font_row_bytes ft in
  bits <- lift_opt (lget (fontbuf ft) row_ptr);;
  let dst := pixel_addr f bytes px (py + y) in
  if g_font_row_bytes ft =? 1 then
    for_ 0 (g_font_width ft) (fun x => put (dst + bytes * x) (if negb (Z.land bits (u8 (Z.shiftr 0x80 x)) =? 0) then fg else bg))
  else
    for_ 0 (g_font_width ft) (fun x =>
      byte <- lift_opt (lget (fontbuf ft) (row_ptr + Z.shiftr x 3));;
      put (dst + bytes * x) (if negb (Z.land byte (u8 (Z.shiftr 0x80 (Z.land x 7))) =? 0) then fg else bg)).
Definition fb_draw_cell (col row cell : Z) : M screen unit :=
  f <- gets g_fb;; ft <- gets fnt;;
  if negb (enabled f) then ret tt
  else
    let ch := u8 (Z.land cell 0xff) in let attr := u8 (Z.shiftr cell 8) in
    let fg := fb_palette_color (Z.land attr 0x0f) in let bg := fb_palette_color (Z.land (Z.shiftr attr 4) 0x0f) in
    let font_w := g_font_width ft in let font_h := g_font_height ft in
    if (font_w =? 0) || (font_h =? 0) || (g_font_row_bytes ft =? 0) then ret tt
    else
      let px := s32 (col * font_w) in let py := s32 (row * font_h) in
      if bpp f =? 32 then on_fbm (for_ 0 font_h (cell_row f ft ch fg bg px py 4 store32))
      else if bpp f =? 24 then on_fbm (for_ 0 font_h (cell_row f ft ch fg bg px py 3 store24))
      else ret tt.

(** ** The text buffer *)

Definition tget (b : list (list Z)) (r c : Z) : option Z := match lget b r with Some l => lget l c | None => None end.
Definition tset (b : list (list Z)) (r c v : Z) : option (list (list Z)) :=
  match lget b r with
  | Some l => match lset l c v with Some l' => lset b r l' | None => None end
  | None => None
  end.
Definition set_cell (r c v : Z) : M screen unit :=
  b <- gets (fun s => textbuf (tx s));; b' <- lift_opt (tset b r c v);; mod_tx (with_textbuf b').
(** for (c = 0; c < SCREEN_MAX_COLS; c++) textbuf[r][c] = v *)
Definition fill_line (v r : Z) : M screen unit :=
  b <- gets (fun s => textbuf (tx s));; b' <- lift_opt (lset b r (replicate (Z.to_nat SCREEN_MAX_COLS) v));; mod_tx (with_textbuf b').
(** memmove(textbuf, textbuf + 1, (MAX_SCROLL_LINES - 1) * sizeof(textbuf[0])) *)
Definition shift_lines (t : lines) : lines := with_textbuf (drop 1 (textbuf t) ++ drop (length (textbuf t) - 1) (textbuf t)) t.

Definition screen_get_cols : M screen Z := gets screen_cols.
Definition screen_get_rows : M screen Z := gets screen_rows.
Definition get_offset (cols col row : Z) : Z := s32 (2 * (row * cols + col)).
Definition get_offset_row (cols offset : Z) : Z := Z.quot offset (2 * cols).
Definition get_offset_col (cols offset : Z) : Z := Z.quot (offset - get_offset_row cols offset * 2 * cols) 2.

Definition clamp (lo hi v : Z) : Z := let v := if hi <? v then hi else v in if v <? lo then lo else v.
Definition max_start (s : screen) : Z := if screen_rows s <? total_lines (tx s) then total_lines (tx s) - screen_rows s else 0.
Definition screen_visible_start : M screen Z :=
  ms <- gets max_start;;
  mod_tx (fun t => with_scroll (clamp 0 ms (scroll_pos t)) t);;;
  p <- gets (fun s => scroll_pos (tx s));;
  let start := ms - p in ret (if start <? 0 then 0 else start).
Definition screen_compute_start_for_scroll (v : Z) : M screen Z :=
  ms <- gets max_start;;
  let start := ms - clamp 0 ms v in ret (if start <? 0 then 0 else start).
Definition screen_set_geometry (cols rows : Z) : M screen unit :=
  let cols := if cols <? 1 then 1 else cols in let rows := if rows <? 1 then 1 else rows in
  let cols := if SCREEN_MAX_COLS <? cols then SCREEN_MAX_COLS else cols in
  let rows := if SCREEN_MAX_ROWS <? rows then SCREEN_MAX_ROWS else rows in
  modify (with_geometry cols rows).
Definition screen_update_textbuf_cell (scr_row scr_col cell : Z) : M screen unit :=
  s <- get;;
  if (scr_row <? 0) || (scr_col <? 0) then ret tt
  else if (screen_rows s <=? scr_row) || (screen_cols s <=? scr_col) then ret tt
  else
    start <- screen_visible_start;;
    total <- gets (fun s => total_lines (tx s));;
    let buf_row := start + scr_row in
    if MAX_SCROLL_LINES <=? buf_row then
      mod_tx shift_lines;;; mod_tx (with_total MAX_SCROLL_LINES);;; set_cell (MAX_SCROLL_LINES - 1) scr_col cell
    else
      (if total <=? buf_row then mod_tx (with_total (buf_row + 1)) else ret tt);;;
      set_cell buf_row scr_col cell.
Definition screen_append_blank_line (attr : Z) : M screen unit :=
  let blank := mkcell attr 32 in
  total <- gets (fun s => total_lines (tx s));;
  (if MAX_SCROLL_LINES <=? total then mod_tx shift_lines;;; mod_tx (with_total (MAX_SCROLL_LINES - 1)) else ret tt);;;
  total <- gets (fun s => total_lines (tx s));;
  fill_line blank total;;;
  mod_tx (with_total (total + 1));;; mod_tx (with_scroll 0).
Definition hydrate_buffer_from_vga_once : M screen unit :=
  h <- gets (fun s => buf_hydrated (tx s));;
  if (h : bool) then ret tt
  else
    rows <- gets screen_rows;;
    for_ 0 rows (fill_line blank_cell);;;
    mod_tx (with_total rows);;; mod_tx (with_scroll 0);;; mod_tx with_hydrated.

(** ** The display *)

(** The part of vga_putc behind the frame buffer: a cell of the text memory *)
Definition vga_poke (x y ch attr : Z) : M screen unit :=
  s <- get;; v <- lift_opt (lset (vram s) (y * screen_cols s + x) (mkcell attr ch));; modify (with_vram v).
Definition outside (s : screen) (x y : Z) : bool := (x <? 0) || (screen_cols s <=? x) || (y <? 0) || (screen_rows s <=? y).
(** vga_putc does not reach screen_put_at here, since there is no frame buffer. *)
Definition screen_draw_cell (col row cell : Z) : M screen unit :=
  s <- get;;
  if outside s col row then ret tt
  else if enabled (g_fb s) then fb_draw_cell col row cell
  else vga_poke col row (Z.land cell 0xff) (u8 (Z.shiftr cell 8)).
Definition cell_at (start x y : Z) : M screen Z :=
  let buf_row := start + y in
  total <- gets (fun s => total_lines (tx s));;
  if total <=? buf_row then ret blank_cell
  else b <- gets (fun s => textbuf (tx s));; lift_opt (tget b buf_row x).
Definition screen_get_at (x y : Z) : M screen Z :=
  s <- get;;
  if outside s x y then ret 0
  else if negb (enabled (g_fb s)) then lift_opt (lget (vram s) (y * 80 + x))
  else hydrate_buffer_from_vga_once;;; start <- screen_visible_start;; cell_at start x y.
Definition screen_get_at_start (start x y : Z) : M screen Z :=
  s <- get;; if outside s x y then ret 0 else cell_at start x y.
Definition fb_cursor_erase_at (col row : Z) : M screen unit :=
  s <- get;;
  if negb (enabled (g_fb s)) then ret tt
  else if outside s col row then ret tt
  else cell <- screen_get_at col row;; fb_draw_cell col row cell.
Definition fb_cursor_erase_at_start (start col row : Z) : M screen unit :=
  s <- get;;
  if negb (enabled (g_fb s)) then ret tt
  else if outside s col row then ret tt
  else cell <- screen_get_at_start start col row;; fb_draw_cell col row cell.
(** The line under the cursor; [FB_CURSOR_STYLE] is [FB_CURSOR_STYLE_UNDERLINE]. *)
Definition fb_cursor_draw_at (col row : Z) : M screen unit :=
  s <- get;;
  if negb (enabled (g_fb s)) || negb (fb_cursor_visible (cu s)) then ret tt
  else if outside s col row then ret tt
  else
    cell <- screen_get_at col row;;
    f <- gets g_fb;; ft <- gets fnt;;
    let fg := Z.land (u8 (Z.shiftr cell 8)) 0x0f in
    let font_w := g_font_width ft in let font_h := g_font_height ft in
    if (font_w =? 0) || (font_h =? 0) then ret tt
    else
      let color := fb_palette_color fg in
      let px := u32 (u32 col * font_w) in let start_y := u32 (u32 row * font_h) in
      let thickness := if font_h <? FB_CURSOR_UNDERLINE_HEIGHT then font_h else FB_CURSOR_UNDERLINE_HEIGHT in
      let py := u32 (start_y + font_h - thickness) in
      if (width f <=? px) || (height f <=? py) then ret tt
      else
        let max_w := width f - px in
        let w := if max_w <? font_w then max_w else font_w in
        on_fbm (for_ 0 thickness (fun y =>
          if u32 (py + y) <? height f then
            let dst := u32 (addr f + u32 (u32 (py + y) * pitch f) + u32 (px * bytes_per_pixel f)) in
            for_ 0 w (fun x => fb_write_color f (dst + x * bytes_per_pixel f) color)
          else ret tt)).

(** ** The cursor *)

Definition get_cursor_offset : M screen Z :=
  s <- get;;
  if enabled (g_fb s) then ret (get_offset (screen_cols s) (fb_cursor_col (cu s)) (fb_cursor_row (cu s)))
  else
    on_font (out REG_SCREEN_CTRL 14);;; hi <- on_font (on_vga (hal_in8 REG_SCREEN_DATA));;
    on_font (out REG_SCREEN_CTRL 15);;; lo <- on_font (on_vga (hal_in8 REG_SCREEN_DATA));;
    ret ((Z.shiftl hi 8 + lo) * 2).
Definition set_cursor_offset (offset : Z) : M screen unit :=
  s <- get;;
  if enabled (g_fb s) then
    let old_row := fb_cursor_row (cu s) in let old_col := fb_cursor_col (cu s) in
    let row := get_offset_row (screen_cols s) offset in let col := get_offset_col (screen_cols s) offset in
    let row := if row <? 0 then 0 else row in let col := if col <? 0 then 0 else col in
    let row := if screen_rows s <=? row then screen_rows s - 1 else row in
    let col := if screen_cols s <=? col then screen_cols s - 1 else col in
    mod_cu (with_pos row col);;;
    if fb_cursor_visible (cu s) then fb_cursor_erase_at old_col old_row;;; fb_cursor_draw_at col row else ret tt
  else
    let offset := Z.quot offset 2 in
    on_font (out REG_SCREEN_CTRL 14);;; on_font (out REG_SCREEN_DATA (u8 (Z.shiftr offset 8)));;;
    on_font (out REG_SCREEN_CTRL 15);;; on_font (out REG_SCREEN_DATA (u8 (Z.land offset 0xff))).
Definition set_cursor (row col : Z) : M screen unit := cols <- gets screen_cols;; set_cursor_offset (get_offset cols col row).
Definition get_cursor_row : M screen Z := cols <- gets screen_cols;; o <- get_cursor_offset;; ret (get_offset_row cols o).
Definition get_cursor_col : M screen Z := cols <- gets screen_cols;; o <- get_cursor_offset;; ret (get_offset_col cols o).

(** The end of the functions that show or hide the cursor *)
Definition show_cursor (effective : bool) : M screen unit :=
  v <- gets (fun s => fb_cursor_visible (cu s));;
  if eqb v effective then ret tt
  else
    mod_cu (with_visible effective);;;
    k <- gets cu;;
    if effective then fb_cursor_draw_at (fb_cursor_col k) (fb_cursor_row k) else fb_cursor_erase_at (fb_cursor_col k) (fb_cursor_row k).
Definition screen_set_cursor_visible (visible : bool) : M screen unit :=
  mod_cu (fun k => with_blink visible (cursor_blink_enabled k) (if visible then true else cursor_blink_state k) (if visible then 0 else cursor_blink_ticks k) k);;;
  s <- get;;
  if negb (enabled (g_fb s)) then ret tt
  else show_cursor (cursor_user_visible (cu s) && (negb (cursor_blink_enabled (cu s)) || cursor_blink_state (cu s))).
Definition screen_set_cursor_blink (on : bool) : M screen unit :=
  mod_cu (fun k => with_blink (cursor_user_visible k) on true 0 k);;;
  s <- get;;
  if negb (enabled (g_fb s)) then ret tt
  else show_cursor (cursor_user_visible (cu s) && (negb (cursor_blink_enabled (cu s)) || cursor_blink_state (cu s))).
Definition screen_cursor_blink_tick : M screen unit :=
  s <- get;; let k := cu s in
  if negb (enabled (g_fb s)) then ret tt
  else if negb (cursor_blink_enabled k) || negb (cursor_user_visible k) then ret tt
  else
    let n := u32 (cursor_blink_ticks k + 1) in
    if n <? FB_CURSOR_BLINK_TICKS then mod_cu (fun k => with_blink (cursor_user_visible k) (cursor_blink_enabled k) (cursor_blink_state k) n k)
    else
      let st := negb (cursor_blink_state k) in
      mod_cu (fun k => with_blink (cursor_user_visible k) (cursor_blink_enabled k) st 0 k);;;
      show_cursor (cursor_user_visible k && st).

(** ** Drawing the buffer *)

Definition fb_redraw_rows (start row_start row_count : Z) : M screen unit :=
  if row_count <=? 0 then ret tt
  else
    let row_count := if row_start <? 0 then row_count + row_start else row_count in
    let row_start := if row_start <? 0 then 0 else row_start in
    s <- get;;
    if screen_rows s <=? row_start then ret tt
    else
      let row_count := if screen_rows s <? row_start + row_count then screen_rows s - row_start else row_count in
      for_ 0 row_count (fun r =>
        let screen_row := row_start + r in let buf_row := start + screen_row in
        if buf_row <? total_lines (tx s) then
          for_ 0 (screen_cols s) (fun c => cell <- lift_opt (tget (textbuf (tx s)) buf_row c);; fb_draw_cell c screen_row cell)
        else for_ 0 (screen_cols s) (fun c => fb_draw_cell c screen_row blank_cell)).
(** [FB_SCROLL_USE_MEMMOVE] is 0: the view is always drawn again. *)
Definition fb_scroll_view (old_start new_start : Z) : M screen bool := ret false.
Definition vm_copy (r : Z) (l : list Z) : M screen unit :=
  s <- get;; v <- lift_opt (splice (vram s) (r * screen_cols s) l);; modify (with_vram v).
Definition redraw_from_buffer : M screen unit :=
  start <- screen_visible_start;;
  s <- get;;
  if enabled (g_fb s) then
    fb_redraw_rows start 0 (screen_rows s);;;
    fb_cursor_draw_at (fb_cursor_col (cu s)) (fb_cursor_row (cu s))
  else
    for_ 0 (screen_rows s) (fun r =>
      if start + r <? total_lines (tx s) then
        l <- lift_opt (lget (textbuf (tx s)) (start + r));; l' <- lift_opt (slice l 0 (screen_cols s));; vm_copy r l'
      else vm_copy r (replicate (Z.to_nat (screen_cols s)) (mkcell 0x07 32))).
Definition putchar_with_buf (c attr : Z) : M screen unit :=
  total <- gets (fun s => total_lines (tx s));;
  (if MAX_SCROLL_LINES <=? total then mod_tx shift_lines;;; mod_tx (with_total (MAX_SCROLL_LINES - 1)) else ret tt);;;
  s <- get;;
  set_cell (total_lines (tx s)) (buf_col (tx s)) (mkcell attr c);;;
  let col := buf_col (tx s) + 1 in
  (if (screen_cols s <=? col) || (c =? 10) then mod_tx (with_buf_col 0);;; mod_tx (with_total (total_lines (tx s) + 1)) else mod_tx (with_buf_col col));;;
  redraw_from_buffer.
Definition scroll_step (s : screen) : Z := let step := Z.quot (screen_rows s) 4 in if step <? 3 then 3 else step.
(** The end of the scrolling functions *)
Definition show_scrolled (old_start new_start : Z) : M screen unit :=
  s <- get;; let k := cu s in
  if enabled (g_fb s) then
    (if fb_cursor_visible k then fb_cursor_erase_at_start old_start (fb_cursor_col k) (fb_cursor_row k) else ret tt);;;
    done <- fb_scroll_view old_start new_start;;
    (if negb done then redraw_from_buffer else ret tt);;;
    if fb_cursor_visible k then fb_cursor_draw_at (fb_cursor_col k) (fb_cursor_row k) else ret tt
  else redraw_from_buffer.
Definition scroll_pos_now : M screen Z := gets (fun s => scroll_pos (tx s)).
Definition scroll_up_screen : M screen unit :=
  hydrate_buffer_from_vga_once;;;
  p <- scroll_pos_now;; old_start <- screen_compute_start_for_scroll p;;
  s <- get;; let max_scroll := max_start s in let step := scroll_step s in
  let p := if p + step <=? max_scroll then p + step else if p <? max_scroll then max_scroll else p in
  let p := clamp 0 max_scroll p in
  mod_tx (with_scroll p);;;
  new_start <- screen_compute_start_for_scroll p;;
  if old_start =? new_start then ret tt else show_scrolled old_start new_start.
Definition scroll_down_screen : M screen unit :=
  hydrate_buffer_from_vga_once;;;
  p <- scroll_pos_now;; old_start <- screen_compute_start_for_scroll p;;
  s <- get;; let max_scroll := max_start s in let step := scroll_step s in
  let p := if step <=? p then p - step else if 0 <? p then 0 else p in
  let p := clamp 0 max_scroll p in
  mod_tx (with_scroll p);;;
  new_start <- screen_compute_start_for_scroll p;;
  if old_start =? new_start then ret tt else show_scrolled old_start new_start.
Definition screen_is_scrolled : M screen bool := p <- scroll_pos_now;; ret (negb (p =? 0)).
Definition screen_scroll_to_bottom : M screen unit :=
  hydrate_buffer_from_vga_once;;;
  p <- scroll_pos_now;;
  if p =? 0 then ret tt
  else
    old_start <- screen_compute_start_for_scroll p;;
    mod_tx (with_scroll 0);;;
    new_start <- screen_compute_start_for_scroll 0;;
    show_scrolled old_start new_start.

(** ** Characters *)

(** The text memory one line up, with the last line cleared *)
Definition vga_scroll : M screen unit :=
  s <- get;;
  for_ 1 (screen_rows s) (fun i => v <- gets vram;; l <- lift_opt (slice v (i * screen_cols s) (screen_cols s));; vm_copy (i - 1) l);;;
  vm_copy (screen_rows s - 1) (replicate (Z.to_nat (screen_cols s)) 0).
(** What follows when the next position lies behind the last cell *)
Definition scroll_lines (attr : Z) : M screen unit :=
  s <- get;; let k := cu s in
  old_start <- (if enabled (g_fb s) then
                  start <- screen_compute_start_for_scroll (scroll_pos (tx s));;
                  (if fb_cursor_visible k then fb_cursor_erase_at_start start (fb_cursor_col k) (fb_cursor_row k) else ret tt);;; ret start
                else ret 0);;
  (if negb (enabled (g_fb s)) then vga_scroll else ret tt);;;
  screen_append_blank_line attr;;;
  if enabled (g_fb s) then
    p <- scroll_pos_now;; new_start <- screen_compute_start_for_scroll p;;
    done <- fb_scroll_view old_start new_start;;
    if negb done then redraw_from_buffer else ret tt
  else ret tt.
Definition print_char (c col row attr : Z) : M screen Z :=
  attr <- (if attr =? 0 then color_current else ret attr);;
  hydrate_buffer_from_vga_once;;;
  s <- get;; let cols := screen_cols s in
  offset <- (if (0 <=? col) && (0 <=? row) then ret (get_offset cols col row) else get_cursor_offset);;
  let scr_row := get_offset_row cols offset in let scr_col := get_offset_col cols offset in
  if c =? 8 then
    offset <- (if 2 <=? offset then
                 let offset := offset - 2 in
                 let scr_row := get_offset_row cols offset in let scr_col := get_offset_col cols offset in
                 let cell := mkcell attr 32 in
                 screen_draw_cell scr_col scr_row cell;;; screen_update_textbuf_cell scr_row scr_col cell;;; ret offset
               else ret offset);;
    set_cursor_offset offset;;; ret offset
  else
    offset <- (if c =? 10 then ret (get_offset cols 0 (scr_row + 1))
               else
                 let cell := mkcell attr c in
                 screen_draw_cell scr_col scr_row cell;;; screen_update_textbuf_cell scr_row scr_col cell;;; ret (s32 (offset + 2)));;
    offset <- (if screen_rows s * cols * 2 <=? offset then scroll_lines attr;;; ret (offset - 2 * cols) else ret offset);;
    set_cursor_offset offset;;; ret offset.

Definition screen_put_at (x y ch color : Z) : M screen unit :=
  s <- get;;
  if outside s x y then ret tt
  else
    hydrate_buffer_from_vga_once;;;
    let cell := mkcell color ch in
    screen_update_textbuf_cell y x cell;;;
    screen_draw_cell x y cell;;;
    k <- gets cu;;
    if enabled (g_fb s) && fb_cursor_visible k && (x =? fb_cursor_col k) && (y =? fb_cursor_row k) then fb_cursor_draw_at x y else ret tt.
Definition vga_putc (x y ch attr : Z) : M screen unit :=
  s <- get;;
  if outside s x y then ret tt
  else if enabled (g_fb s) then screen_put_at x y ch attr
  else vga_poke x y ch attr.

Definition putchar (c : Z) : M screen Z :=
  s <- get;; print_char (u8 c) (-1) (-1) (vga_attr (g_text_fg s) (g_text_bg s));;; ret (u8 c).
Definition putchar_color (ch fg bg : Z) : M screen Z := print_char ch (-1) (-1) (vga_attr fg bg);;; ret ch.
Definition kprint_char (c : Z) : M screen unit := print_char c (-1) (-1) 0;;; ret tt.

(** ** Strings *)

Fixpoint kprint_loop (message : list Z) (col row : Z) : M screen unit :=
  match message with
  | [] => ret tt
  | c :: rest =>
    offset <- print_char c col row 0;;
    cols <- gets screen_cols;;
    kprint_loop rest (get_offset_col cols offset) (get_offset_row cols offset)
  end.
Definition kprint_at_str (message : list Z) (col row : Z) : M screen unit :=
  if (0 <=? col) && (0 <=? row) then kprint_loop message col row
  else
    offset <- get_cursor_offset;;
    cols <- gets screen_cols;;
    kprint_loop message (get_offset_col cols offset) (get_offset_row cols offset).
Definition kprint (message : list Z) : M screen unit := on_log (bootlog_add (Some message));;; kprint_at_str message (-1) (-1).
Definition kprint_at (message : option (list Z)) (col row : Z) : M screen unit :=
  match message with
  | None => kprint (text "kprint_at: NULL message!" ++ [10])
  | Some m => kprint_at_str m col row
  end.
Definition kprint_color (message : list Z) (fg bg : Z) : M screen unit :=
  on_log (bootlog_add (Some message));;;
  each message (fun c => print_char c (-1) (-1) (vga_attr fg bg);;; ret tt).
Definition kprint_backspace : M screen unit :=
  cur <- get_cursor_offset;;
  st <- gets input_start_offset;;
  if cur <=? st then ret tt
  else
    let prev := cur - 2 in
    set_cursor_offset prev;;; print_char 32 (-1) (-1) WHITE_ON_BLACK;;; set_cursor_offset prev.
Definition clear_screen : M screen unit :=
  for_ 0 MAX_SCROLL_LINES (fill_line blank_cell);;;
  mod_tx (with_total 1);;; mod_tx (with_scroll 0);;;
  redraw_from_buffer;;;
  cols <- gets screen_cols;; set_cursor_offset (get_offset cols 0 0);;;
  mod_tx with_hydrated.
Definition clear_input_line : M screen unit :=
  s <- get;; let col := prompt_col s in let row := prompt_row s in
  hydrate_buffer_from_vga_once;;;
  let blank := mkcell (g_text_attr s) 32 in
  for_ col (screen_cols s) (fun i => screen_update_textbuf_cell row i blank;;; screen_draw_cell i row blank);;;
  set_cursor_offset (get_offset (screen_cols s) col row).

Definition screen_set_framebuffer (addr64 w h p b : Z) : M screen unit :=
  if (addr64 =? 0) || (w =? 0) || (h =? 0) || (p =? 0) then ret tt
  else if negb (b =? 32) && negb (b =? 24) then ret tt
  else
    cur_row <- get_cursor_row;; cur_col <- get_cursor_col;;
    prev_cols <- gets screen_cols;; ft <- gets fnt;;
    let font_w := g_font_width ft in let font_h := g_font_height ft in
    let cols := if negb (font_w =? 0) then s32 (w / font_w) else MAX_COLS in
    let rows := if negb (font_h =? 0) then s32 (h / font_h) else MAX_ROWS in
    modify (with_g_fb (Fb (u32 addr64) w h p b (u8 ((b + 7) / 8)) true));;;
    screen_set_geometry cols rows;;;
    hydrate_buffer_from_vga_once;;;
    s <- get;;
    (if prev_cols <? screen_cols s then
       let blank := mkcell (g_text_attr s) 32 in
       for_ 0 (total_lines (tx s)) (fun r => for_ prev_cols (screen_cols s) (fun c => set_cell r c blank))
     else ret tt);;;
    let row := if screen_rows s <=? cur_row then screen_rows s - 1 else cur_row in
    let col := if screen_cols s <=? cur_col then screen_cols s - 1 else cur_col in
    mod_cu (with_pos row col);;;
    redraw_from_buffer;;;
    screen_set_cursor_visible (cursor_user_visible (cu s)).

(** ** Numbers *)

(** The digits of v, lowest first, in a buffer of k characters *)
Fixpoint digits (k : nat) (base : Z) (digit : Z -> Z) (v : Z) : option (list Z) :=
  if v =? 0 then Some []
  else match k with
       | O => None
       | S k' => match digits k' base digit (v / base) with Some l => Some (digit (v mod base) :: l) | None => None end
       end.
Definition dec_digit (d : Z) : Z := 48 + d.
Definition HEX_digit (d : Z) : Z := if d <? 10 then 48 + d else 65 + (d - 10).
Definition hex_digit (d : Z) : Z := if d <? 10 then 48 + d else 97 + (d - 10).
(** do ... while (value > 0) *)
Definition digits1 (k : nat) (base : Z) (digit : Z -> Z) (v : Z) : option (list Z) := if v =? 0 then Some [digit 0] else digits k base digit v.
(** A string in an array of n characters *)
Definition fits (n : Z) (l : list Z) : option (list Z) := if Z.of_nat (length l) + 1 <=? n then Some l else None.

Definition print_dec (num : Z) : M screen unit :=
  if num =? 0 then kprint [48]
  else buf <- lift_opt (digits 16 10 dec_digit num);; each (rev buf) (fun c => kprint [c]).
Definition print_hex (num : Z) : M screen unit :=
  kprint ([48; 120] ++ rev ((fun i => HEX_digit (Z.land (Z.shiftr num (4 * Z.of_nat i)) 0xF)) <$> seq 0 8)).
Definition print_byte (val : Z) : M screen unit := kprint [HEX_digit (Z.land (Z.shiftr val 4) 0xF); HEX_digit (Z.land val 0xF)].
Definition print_offset (val : Z) : M screen unit :=
  (if val <? 0x1000 then kprint [48] else ret tt);;; (if val <? 0x100 then kprint [48] else ret tt);;; (if val <? 0x10 then kprint [48] else ret tt);;;
  print_hex val.
(** -INT_MIN is INT_MIN, whose last digit is the only one. *)
Definition int_to_str (value : Z) : option (list Z) :=
  let neg := value <? 0 in
  let v := if neg then s32 (- value) else value in
  match (if v <? 0 then Some [u8 (48 + Z.rem v 10)] else digits1 16 10 dec_digit v) with
  | Some l => Some ((if neg then [45] else []) ++ rev l)
  | None => None
  end.
Definition uint_to_str (value : Z) : option (list Z) :=
  match digits1 16 10 dec_digit value with Some l => Some (rev l) | None => None end.
Definition hex_to_str (value : Z) (upper : bool) : option (list Z) :=
  match digits1 16 16 (if upper then HEX_digit else hex_digit) value with Some l => Some ([48; 120] ++ rev l) | None => None end.
Definition kprint_int (num : Z) : M screen unit :=
  l <- lift_opt (int_to_str (s32 num));; buf <- lift_opt (fits 12 l);; kprint buf.
Definition putchars (l : list Z) : M screen unit := each l (fun c => putchar c;;; ret tt).
Definition print_uint (val : Z) : M screen unit :=
  if val =? 0 then putchar 48;;; ret tt
  else buf <- lift_opt (digits 16 10 dec_digit val);; putchars (rev buf).
Definition put_str (s : list Z) : M screen unit := putchars s.
(** The loop ends after 16 digits *)
Fixpoint digits_upto (k : nat) (base : Z) (digit : Z -> Z) (v : Z) : list Z :=
  match k with
  | O => []
  | S k' => if v =? 0 then [] else digit (v mod base) :: digits_upto k' base digit (v / base)
  end.
Definition print_uint_padded (val wid pad : Z) : M screen unit :=
  let buf := if val =? 0 then [48] else digits_upto 16 10 dec_digit val in
  putchars (replicate (Z.to_nat (wid - Z.of_nat (length buf))) pad);;; putchars (rev buf).
Definition print_int_padded (val wid pad : Z) : M screen unit :=
  if val <? 0 then putchar 45;;; print_uint_padded (u32 (- val)) (s32 (wid - 1)) pad else print_uint_padded (u32 val) wid pad.
(** while (i < width) buf[i++] = pad, in an array of 16 characters *)
Definition pad_digits (l : list Z) (wid pad : Z) : option (list Z) :=
  let n := Z.of_nat (length l) in
  if wid <=? n then Some l else if 16 <? wid then None else Some (l ++ replicate (Z.to_nat (wid - n)) pad).
Definition print_hex_padded (val wid pad : Z) : M screen unit :=
  let buf := if val =? 0 then [48] else digits_upto 16 16 HEX_digit val in
  b <- lift_opt (pad_digits buf wid pad);;
  putchar 48;;; putchar 120;;; putchars (rev b).
Definition print_HEX_padded (val wid pad : Z) : M screen unit :=
  buf <- lift_opt (digits1 16 16 HEX_digit val);;
  b <- lift_opt (pad_digits buf wid pad);;
  putchars (rev b).

(** ** kprintf *)

Inductive va := VInt (z : Z) | VStr (l : list Z).
(** The characters that still fit into the 512 bytes of the log line *)
Definition push (buffer l : list Z) : list Z := buffer ++ take (511 - length buffer) l.
Definition va_int (args : list va) : option (Z * list va) := match args with VInt z :: r => Some (z, r) | _ => None end.
Definition va_str (args : list va) : option (list Z * list va) := match args with VStr l :: r => Some (l, r) | _ => None end.
Fixpoint read_width (p : list Z) (w : Z) : Z * list Z :=
  match p with
  | c :: p' => if (48 <=? c) && (c <=? 57) then read_width p' (s32 (w * 10 + (c - 48))) else (w, p)
  | [] => (w, p)
  end.
(** The directive c; the line for the log and the arguments that are left *)
Definition kprintf_directive (c pad wid : Z) (args : list va) (buffer : list Z) : M screen (list va * list Z) :=
  if c =? 115 then
    a <- lift_opt (va_str args);; put_str (fst a);;; ret (snd a, push buffer (fst a))
  else if c =? 100 then
    a <- lift_opt (va_int args);; print_int_padded (s32 (fst a)) wid pad;;;
    l <- lift_opt (int_to_str (s32 (fst a)));; l <- lift_opt (fits 16 l);; ret (snd a, push buffer l)
  else if c =? 117 then
    a <- lift_opt (va_int args);; print_uint_padded (u32 (fst a)) wid pad;;;
    l <- lift_opt (uint_to_str (u32 (fst a)));; l <- lift_opt (fits 16 l);; ret (snd a, push buffer l)
  else if c =? 120 then
    a <- lift_opt (va_int args);; print_hex_padded (u32 (fst a)) wid pad;;;
    l <- lift_opt (hex_to_str (u32 (fst a)) false);; l <- lift_opt (fits 16 l);; ret (snd a, push buffer l)
  else if c =? 88 then
    a <- lift_opt (va_int args);; print_HEX_padded (u32 (fst a)) wid pad;;;
    l <- lift_opt (hex_to_str (u32 (fst a)) true);; l <- lift_opt (fits 16 l);; ret (snd a, push buffer l)
  else if c =? 99 then
    a <- lift_opt (va_int args);; putchar (u8 (fst a));;; ret (snd a, push buffer [u8 (fst a)])
  else if c =? 112 then
    a <- lift_opt (va_int args);; print_hex_padded (u32 (fst a)) (if negb (wid =? 0) then wid else 8) 48;;;
    l <- lift_opt (hex_to_str (u32 (fst a)) false);; l <- lift_opt (fits 16 l);; ret (snd a, push buffer l)
  else if c =? 37 then putchar 37;;; ret (args, push buffer [37])
  else
    putchar 37;;; putchar c;;;
    ret (args, if Z.of_nat (length buffer) <? 510 then buffer ++ [37; c] else buffer).
(** A format that ends inside a directive is read on behind its end. *)
Fixpoint kprintf_loop (n : nat) (p : list Z) (args : list va) (buffer : list Z) : M screen (list Z) :=
  match n with
  | O => nofuel
  | S n' =>
    match p with
    | [] => ret buffer
    | c :: p' =>
      if negb (c =? 37) then putchar c;;; kprintf_loop n' p' args (push buffer [c])
      else
        let '(pad, p1) := match p' with 48 :: q => (48, q) | _ => (32, p') end in
        let '(wid, p2) := read_width p1 0 in
        match p2 with
        | [] => kprintf_directive 0 pad wid args buffer;;; fault
        | d :: p3 => r <- kprintf_directive d pad wid args buffer;; kprintf_loop n' p3 (fst r) (snd r)
        end
    end
  end.
(** bootlog_add stops at the first NUL of the line. *)
Fixpoint until_nul (l : list Z) : list Z := match l with [] => [] | c :: l' => if c =? 0 then [] else c :: until_nul l' end.
Definition kprintf (fmt : list Z) (args : list va) : M screen unit :=
  buffer <- kprintf_loop (S (length fmt)) fmt args [];;
  on_log (bootlog_add (Some (until_nul buffer))).
End Screen.
