(* ===== verification/ScreenSafe.v ===== *)
(** * The console: drawing, the text buffer, and what the display shows

    [ScreenDraw]: every drawing routine stays inside the frame buffer and leaves the rest of memory
    alone; [paints] says which pixels it changes and to which colours, [shows] that the display has the
    glyph of a given cell, with or without the line of the cursor, at every position of the screen.
    [ScreenSafe]: the invariant of the console and the rules for its parts, the buffer of lines, the
    cursor and the display, which shows the visible lines of the buffer. *)
From S2P Require Import Prelude Klog Font Screen.

Module ScreenDraw.
Import Vga Font Screen.

(** ** Loops *)

Lemma wp_for_from {S} (I : Z -> S -> Prop) (f : Z -> M S unit) n : forall i s, I i s ->
  (forall j s, i <= j < i + Z.of_nat n -> I j s -> wp False (f j) (fun _ => I (j + 1)) s) -> wp False (for_from n i f) (fun _ => I (i + Z.of_nat n)) s.
Proof.
  induction n as [|n IH]; intros i s Hi Hf; cbn [for_from].
  - apply wp_ret. by rewrite Z.add_0_r.
  - apply wp_bind. eapply wp_mono; [apply Hf; [lia|done]|]. intros [] s' Hs. replace (i + Z.of_nat (Datatypes.S n)) with (i + 1 + Z.of_nat n) by lia.
    apply IH; [done|]. intros j s2 Hj. apply Hf. lia.
Qed.
Lemma wp_for {S} (I : Z -> S -> Prop) (f : Z -> M S unit) lo hi (Q : unit -> S -> Prop) s : I lo s ->
  (forall j s, lo <= j < hi -> I j s -> wp False (f j) (fun _ => I (j + 1)) s) -> (forall s, I (Z.max lo hi) s -> Q tt s) -> wp False (for_ lo hi f) Q s.
Proof.
  intros Hi Hf HQ. unfold for_. eapply wp_mono; [apply (wp_for_from I); [done|]|].
  - intros j s' Hj. apply Hf. lia.
  - intros [] s' Hs. apply HQ. replace (Z.max lo hi) with (lo + Z.of_nat (Z.to_nat (hi - lo))) by lia. done.
Qed.
(** A loop whose body keeps an invariant *)
Lemma wp_for_keep {S} (I : S -> Prop) (f : Z -> M S unit) lo hi (Q : unit -> S -> Prop) s : I s ->
  (forall j s, lo <= j < hi -> I s -> wp False (f j) (fun _ => I) s) -> (forall s, I s -> Q tt s) -> wp False (for_ lo hi f) Q s.
Proof. intros Hi Hf HQ. by apply (wp_for (fun _ => I)). Qed.
Lemma for_ext {S} (f g : Z -> M S unit) lo hi s : (forall i s, f i s = g i s) -> for_ lo hi f s = for_ lo hi g s.
Proof.
  intros E. unfold for_. generalize (Z.to_nat (hi - lo)). intros n. revert lo s. induction n as [|n IH]; intros lo s; cbn [for_from]; [done|].
  unfold bind. rewrite E. destruct (g lo s) as [[[] s']| |]; [apply IH|done..].
Qed.

(** ** The frame buffer *)

Record fb_ok (f : fb_state_t) (m : mem) : Prop := {
  fk_on : enabled f = true;
  fk_bpp : bpp f = 32 /\ bytes_per_pixel f = 4 \/ bpp f = 24 /\ bytes_per_pixel f = 3;
  fk_size : 0 < width f /\ 0 < height f;
  fk_pitch : width f * bytes_per_pixel f <= pitch f;
  fk_addr : 0 <= addr f;
  fk_end : addr f + height f * pitch f <= 4294967296;
  fk_mapped : forall a, addr f <= a < addr f + height f * pitch f -> is_Some (m !! a);
}.
Definition pa (f : fb_state_t) (x y : Z) : Z := addr f + y * pitch f + x * bytes_per_pixel f.
Definition in_fb (f : fb_state_t) (x y : Z) : Prop := 0 <= x < width f /\ 0 <= y < height f.
(** The colour of a pixel; the fourth byte does not count *)
Definition pix (f : fb_state_t) (m : mem) (x y : Z) : option Z :=
  match m !! pa f x y, m !! (pa f x y + 1), m !! (pa f x y + 2) with
  | Some b, Some g, Some r => Some (b + 256 * g + 65536 * r)
  | _, _, _ => None
  end.

Lemma fb_bytes f m : fb_ok f m -> 3 <= bytes_per_pixel f <= 4.
Proof. intros []. lia. Qed.
Lemma fb_sizes f m : fb_ok f m -> 0 < pitch f /\ 3 * width f <= pitch f /\ width f < 2147483648 /\ height f < 2147483648.
Proof. intros H. pose proof (fb_bytes f m H). destruct H. nia. Qed.
Lemma pa_inside f m x y : fb_ok f m -> in_fb f x y -> addr f <= pa f x y /\ pa f x y + bytes_per_pixel f <= addr f + height f * pitch f.
Proof. intros H [Hx Hy]. pose proof (fb_bytes f m H). pose proof (fb_sizes f m H). destruct H. unfold pa. nia. Qed.
(** Different pixels do not share a byte. *)
Lemma pa_apart f m x y x' y' : fb_ok f m -> in_fb f x y -> in_fb f x' y' -> (x, y) <> (x', y') ->
  pa f x y + bytes_per_pixel f <= pa f x' y' \/ pa f x' y' + bytes_per_pixel f <= pa f x y.
Proof.
  intros H [Hx Hy] [Hx' Hy'] Hne. pose proof (fb_bytes f m H). pose proof (fb_sizes f m H). destruct H. unfold pa.
  destruct (Z.lt_total y y') as [Hl|[->|Hl]]; [left; nia| |right; nia]. assert (x <> x') by congruence. nia.
Qed.
Lemma u32_id x : 0 <= x < 4294967296 -> u32 x = x.
Proof. intros. by apply u32_small. Qed.
Lemma pixel_addr_pa f m x y : fb_ok f m -> in_fb f x y -> pixel_addr f (bytes_per_pixel f) x y = pa f x y.
Proof.
  intros H Hxy. pose proof (pa_inside f m x y H Hxy). pose proof (fb_bytes f m H). pose proof (fb_sizes f m H). destruct Hxy as [Hx Hy], H.
  unfold pixel_addr, pa in *. assert (0 <= y * pitch f) by nia. assert (0 <= x * bytes_per_pixel f) by nia.
  rewrite (u32_id y), (u32_id x) by lia. rewrite (u32_id (y * _)), (u32_id (x * _)) by lia. apply u32_id. lia.
Qed.

(** m' is m with the pixels of g painted over it; nothing outside the frame buffer changes. *)
Record paints (f : fb_state_t) (g : Z -> Z -> option Z) (m m' : mem) : Prop := {
  pt_ok : fb_ok f m';
  pt_pix : forall x y, in_fb f x y -> pix f m' x y = match g x y with Some c => Some c | None => pix f m x y end;
  pt_rest : forall a, ~ (addr f <= a < addr f + height f * pitch f) -> m' !! a = m !! a;
}.
Lemma paints_none f m : fb_ok f m -> paints f (fun _ _ => None) m m.
Proof. by intros H. Qed.
Lemma paints_over f g h m m' m'' : paints f g m m' -> paints f h m' m'' -> paints f (fun x y => match h x y with Some c => Some c | None => g x y end) m m''.
Proof.
  intros [G1 G2 G3] [H1 H2 H3]. constructor; [done| |].
  - intros x y Hxy. rewrite H2, G2 by done. by destruct (h x y).
  - intros a Ha. by rewrite H3, G3.
Qed.
Lemma paints_ext f g h m m' : paints f g m m' -> (forall x y, in_fb f x y -> g x y = h x y) -> paints f h m m'.
Proof. intros [G1 G2 G3] E. constructor; [done| |done]. intros x y Hxy. by rewrite G2, E. Qed.

(** A routine that writes the colour c to a pixel *)
Definition single (x y c : Z) : Z -> Z -> option Z := fun x' y' => if (x' =? x) && (y' =? y) then Some (c mod 16777216) else None.
Definition puts (f : fb_state_t) (put : Z -> Z -> M mem unit) : Prop :=
  forall m x y c, fb_ok f m -> in_fb f x y -> wp False (put (pa f x y) c) (fun _ => paints f (single x y c) m) m.

Lemma wp_store (a v : Z) (m : mem) (Q : unit -> mem -> Prop) : is_Some (m !! a) -> Q tt (<[a := u8 v]> m) -> wp False (store a v) Q m.
Proof. intros [w Hw] HQ. unfold wp, store. by rewrite Hw. Qed.
Lemma insert_some (m : mem) a v b : is_Some (m !! b) -> is_Some (<[a := v]> m !! b).
Proof. intros Hb. destruct (decide (a = b)) as [->|Hne]; [by rewrite lookup_insert_eq|by rewrite lookup_insert_ne]. Qed.
(** Three or four bytes stored at a pixel *)
Lemma stored_pixel f m x y (c b0 b1 b2 : Z) (tail : option Z) : fb_ok f m -> in_fb f x y -> (is_Some tail -> bytes_per_pixel f = 4) ->
  u8 b0 + 256 * u8 b1 + 65536 * u8 b2 = c mod 16777216 ->
  let m1 := <[pa f x y + 2 := u8 b2]> (<[pa f x y + 1 := u8 b1]> (<[pa f x y := u8 b0]> m)) in
  paints f (single x y c) m (match tail with Some t => <[pa f x y + 3 := t]> m1 | None => m1 end).
Proof.
  intros H Hxy Ht Hc m1. pose proof (fb_bytes f m H) as Hb. pose proof (pa_inside f m x y H Hxy) as Hin.
  set (m' := match tail with Some t => _ | None => _ end).
  assert (Hout : forall a, ~ (pa f x y <= a < pa f x y + bytes_per_pixel f) -> m' !! a = m !! a).
  { intros a Ha. subst m' m1. destruct tail as [t|]; [rewrite lookup_insert_ne by (rewrite Ht in Ha by done; lia)|]; rewrite !lookup_insert_ne by lia; done. }
  assert (Hat : forall i, i = 0 \/ i = 1 \/ i = 2 -> m' !! (pa f x y + i) = m1 !! (pa f x y + i)).
  { intros i Hi. subst m'. destruct tail; [|done]. rewrite lookup_insert_ne by lia. done. }
  constructor.
  - destruct H. constructor; try done. intros a Ha. subst m' m1. destruct tail; repeat apply insert_some; by apply fk_mapped0.
  - intros x' y' Hxy'. unfold single. destruct (Z.eqb_spec x' x) as [->|Hx]; [destruct (Z.eqb_spec y' y) as [->|Hy]|]; cbn [andb].
    + unfold pix. rewrite <-(Z.add_0_r (pa f x y)) at 1. rewrite !Hat by lia. subst m1. rewrite Z.add_0_r.
      rewrite !lookup_insert_ne by lia. rewrite lookup_insert_eq, lookup_insert_ne, !lookup_insert_eq by lia. by rewrite Hc.
    + destruct (pa_apart f m x y x y' H Hxy Hxy') as [Hp|Hp]; [congruence|unfold pix; rewrite !Hout by lia; done..].
    + destruct (pa_apart f m x y x' y' H Hxy Hxy') as [Hp|Hp]; [congruence|unfold pix; rewrite !Hout by lia; done..].
  - intros a Ha. apply Hout. lia.
Qed.
Lemma bytes_color c : u8 c + 256 * u8 (Z.shiftr c 8) + 65536 * u8 (Z.shiftr c 16) = c mod 16777216.
Proof. rewrite !Z.shiftr_div_pow2 by lia. change (2 ^ 8) with 256. change (2 ^ 16) with 65536. word_lia. Qed.
Lemma u8_land_ff x : u8 (Z.land x 0xff) = u8 x.
Proof. change 0xff with (2 ^ 8 - 1). rewrite land_ones_mod by lia. change (2 ^ 8) with 256. unfold u8. by rewrite Z.mod_mod. Qed.

Ltac store_step H := apply wp_store; [repeat apply insert_some; apply (fk_mapped _ _ H); lia|].
Lemma puts_write_color f m0 : fb_ok f m0 -> puts f (fb_write_color f).
Proof.
  intros _ m x y c H Hxy. pose proof (fb_bytes f m H). pose proof (pa_inside f m x y H Hxy). unfold fb_write_color.
  apply wp_bind; store_step H. apply wp_bind; store_step H. apply wp_bind; store_step H.
  pose proof (bytes_color c) as Hc. rewrite <-(u8_land_ff c), <-(u8_land_ff (Z.shiftr c 8)), <-(u8_land_ff (Z.shiftr c 16)) in Hc.
  apply wp_if; intros E.
  - apply Z.eqb_eq in E. store_step H. apply (stored_pixel f m x y c _ _ _ (Some (u8 0))); done.
  - apply wp_ret. apply (stored_pixel f m x y c _ _ _ None); try done.
Qed.
Lemma puts_store32 f : bytes_per_pixel f = 4 -> puts f store32.
Proof.
  intros Hb m x y c H Hxy. pose proof (pa_inside f m x y H Hxy). unfold store32.
  apply wp_bind; store_step H. apply wp_bind; store_step H. apply wp_bind; store_step H. store_step H.
  apply (stored_pixel f m x y c _ _ _ (Some _)); try done. apply bytes_color.
Qed.
Lemma puts_store24 f : bytes_per_pixel f = 3 -> puts f store24.
Proof.
  intros Hb m x y c H Hxy. pose proof (pa_inside f m x y H Hxy). unfold store24.
  apply wp_bind; store_step H. apply wp_bind; store_step H. store_step H.
  pose proof (bytes_color c) as Hc. rewrite <-(u8_land_ff c), <-(u8_land_ff (Z.shiftr c 8)), <-(u8_land_ff (Z.shiftr c 16)) in Hc.
  apply (stored_pixel f m x y c _ _ _ None); try done.
Qed.

(** ** Rectangles *)

Definition box (px py w h : Z) (cf : Z -> Z -> Z) : Z -> Z -> option Z := fun x y =>
  if (px <=? x) && (x <? px + w) && (py <=? y) && (y <? py + h) then Some (cf (x - px) (y - py) mod 16777216) else None.
Lemma pa_step f x y i : pa f x y + i * bytes_per_pixel f = pa f (x + i) y.
Proof. unfold pa. lia. Qed.
(** A row of pixels, from (px, y) on *)
Lemma wp_row f put m px y w cf (Q : unit -> mem -> Prop) : puts f put -> fb_ok f m -> 0 <= px -> px + w <= width f -> 0 <= y < height f ->
  (forall m', paints f (box px y w 1 (fun gx _ => cf gx)) m m' -> Q tt m') ->
  wp False (for_ 0 w (fun x => put (pa f (px + x) y) (cf x))) Q m.
Proof.
  intros Hp Hm Hx Hw Hy HQ. apply (wp_for (fun i => paints f (box px y i 1 (fun gx _ => cf gx)) m)).
  - eapply paints_ext; [by apply paints_none|]. intros x' y' _. unfold box. bdestr; cbn [andb]; try done; lia.
  - intros i m1 Hi H1. eapply wp_mono; [apply Hp; [apply H1|split; lia]|]. intros [] m2 H2. eapply paints_ext; [by eapply paints_over|].
    intros x' y' _. unfold single, box. bdestr; cbn [andb]; try done; try lia. subst. do 3 f_equal. lia.
  - intros m' H'. apply HQ. eapply paints_ext; [done|]. intros x' y' _. unfold box. bdestr; cbn [andb]; try done; lia.
Qed.
(** Rows of boxes one below the other *)
Lemma wp_rows f (row : Z -> M mem unit) m px py w h cf (Q : unit -> mem -> Prop) : fb_ok f m ->
  (forall y m1 (R : unit -> mem -> Prop), 0 <= y < h -> fb_ok f m1 -> (forall m2, paints f (box px (py + y) w 1 (fun gx _ => cf gx y)) m1 m2 -> R tt m2) -> wp False (row y) R m1) ->
  (forall m', paints f (box px py w h cf) m m' -> Q tt m') ->
  wp False (for_ 0 h row) Q m.
Proof.
  intros Hm Hr HQ. apply (wp_for (fun i => paints f (box px py w i cf) m)).
  - eapply paints_ext; [by apply paints_none|]. intros x' y' _. unfold box. bdestr; cbn [andb]; try done; lia.
  - intros i m1 Hi H1. apply Hr; [lia|apply H1|]. intros m2 H2. eapply paints_ext; [by eapply paints_over|].
    intros x' y' _. unfold box. bdestr; cbn [andb]; try done; try lia. do 3 f_equal. lia.
  - intros m' H'. apply HQ. eapply paints_ext; [done|]. intros x' y' _. unfold box. bdestr; cbn [andb]; try done; lia.
Qed.

(** ** Cells *)

Definition cell_fg (cell : Z) : Z := fb_palette_color (Z.land (u8 (Z.shiftr cell 8)) 0x0f).
Definition cell_bg (cell : Z) : Z := fb_palette_color (Z.land (Z.shiftr (u8 (Z.shiftr cell 8)) 4) 0x0f).
Definition cell_ch (cell : Z) : Z := u8 (Z.land cell 0xff).
(** The colour of pixel (gx, gy) of a cell *)
Definition cell_pixel (ft : font) (cell gx gy : Z) : Z :=
  if negb (Z.land (nth (Z.to_nat (cell_ch cell * 32 + gy)) (fontbuf ft) 0) (u8 (Z.shiftr 0x80 gx)) =? 0) then cell_fg cell else cell_bg cell.
Lemma palette_small i : 0 <= fb_palette_color i < 16777216.
Proof.
  unfold fb_palette_color. assert (0 <= Z.land i 0x0f < 16) by (change 0x0f with (2 ^ 4 - 1); rewrite land_ones_mod by lia; by apply Z.mod_pos_bound).
  generalize dependent (Z.land i 0x0f). intros j Hj. assert (Hn : (Z.to_nat j < 16)%nat) by lia. revert Hn. generalize (Z.to_nat j). intros n Hn.
  do 16 (destruct n as [|n]; [cbn; lia|]). lia.
Qed.
Lemma cell_pixel_small ft cell gx gy : 0 <= cell_pixel ft cell gx gy < 16777216.
Proof. unfold cell_pixel, cell_fg, cell_bg. destruct (negb _); apply palette_small. Qed.

(** A screen of cols by rows cells lies inside the frame buffer. *)
Record grid_ok (f : fb_state_t) (ft : font) (cols rows : Z) : Prop := {
  gk_cols : 1 <= cols <= 240;
  gk_rows : 1 <= rows <= 100;
  gk_w : cols * g_font_width ft <= width f;
  gk_h : rows * g_font_height ft <= height f;
}.
Definition cell_box (ft : font) (col row cell : Z) : Z -> Z -> option Z :=
  box (col * g_font_width ft) (row * g_font_height ft) (g_font_width ft) (g_font_height ft) (cell_pixel ft cell).
Lemma wp_cell_row f ft put m cell px py y (Q : unit -> mem -> Prop) : puts f put -> fb_ok f m -> font_ok ft -> 0 <= y < g_font_height ft ->
  0 <= px -> px + g_font_width ft <= width f -> 0 <= py + y < height f ->
  (forall m', paints f (box px (py + y) (g_font_width ft) 1 (fun gx _ => cell_pixel ft cell gx y)) m m' -> Q tt m') ->
  wp False (cell_row f ft (cell_ch cell) (cell_fg cell) (cell_bg cell) px py (bytes_per_pixel f) put y) Q m.
Proof.
  intros Hp Hm [Fb Fp Fw Fh Fr] Hy Hpx Hw Hpy HQ. unfold cell_row. rewrite Fr, Z.mul_1_r. pose proof (u8_range (Z.land cell 0xff)) as Hc. fold (cell_ch cell) in Hc. unfold is_u8 in Hc.
  unfold font_get_glyph, FONT_GLYPH_STRIDE. apply wp_bind. rewrite lget_lookup, (lookup_nth _ _ 0) by lia. apply wp_lift_some. rewrite Z.eqb_refl.
  rewrite (pixel_addr_pa f m) by (try done; split; lia).
  eapply wp_eq; [|eapply (wp_row f put m px (py + y) (g_font_width ft) (fun gx => cell_pixel ft cell gx y)); done].
  apply for_ext. intros i s'. rewrite Z.mul_comm, pa_step. done.
Qed.
(** fb_draw_cell, on memory alone *)
Definition draw_cell (f : fb_state_t) (ft : font) (col row cell : Z) : M mem unit :=
  for_ 0 (g_font_height ft) (cell_row f ft (cell_ch cell) (cell_fg cell) (cell_bg cell) (col * g_font_width ft) (row * g_font_height ft) (bytes_per_pixel f)
    (if bpp f =? 32 then store32 else store24)).
Lemma wp_draw_cell f ft cols rows col row cell m (Q : unit -> mem -> Prop) : fb_ok f m -> font_ok ft -> grid_ok f ft cols rows -> 0 <= col < cols -> 0 <= row < rows ->
  (forall m', paints f (cell_box ft col row cell) m m' -> Q tt m') -> wp False (draw_cell f ft col row cell) Q m.
Proof.
  intros Hm Hft [G1 G2 G3 G4] Hc Hr HQ. pose proof Hft as [Fb Fp Fw Fh Fr]. unfold draw_cell. apply (wp_rows f _ m (col * g_font_width ft) (row * g_font_height ft) (g_font_width ft) (g_font_height ft) (cell_pixel ft cell)); [done| |done].
  intros y m1 R Hy H1 HR. apply wp_cell_row; try done; try nia.
  destruct (fk_bpp _ _ Hm) as [[-> Hb]|[-> Hb]]; cbn [Z.eqb Pos.eqb]; [by apply puts_store32|by apply puts_store24].
Qed.
Lemma fb_draw_cell_eq s col row cell cols rows : fb_ok (g_fb s) (fbm s) -> font_ok (fnt s) -> grid_ok (g_fb s) (fnt s) cols rows -> 0 <= col < cols -> 0 <= row < rows ->
  fb_draw_cell col row cell s = on_fbm (draw_cell (g_fb s) (fnt s) col row cell) s.
Proof.
  intros Hm Hft [G1 G2 G3 G4] Hc Hr. pose proof Hft as [Fb Fp Fw Fh Fr]. pose proof (fk_on _ _ Hm) as Hon. unfold fb_draw_cell, draw_cell. rewrite !bind_gets, Hon. cbn [negb].
  rewrite (proj2 (Z.eqb_neq (g_font_width _) 0)), (proj2 (Z.eqb_neq (g_font_height _) 0)), (proj2 (Z.eqb_neq (g_font_row_bytes _) 0)) by lia. cbn [orb].
  rewrite !s32_small by nia. destruct (fk_bpp _ _ Hm) as [[-> ->]|[-> ->]]; cbn [Z.eqb Pos.eqb]; done.
Qed.

(** ** What the display shows *)

(** A cell, and whether the cursor is on it *)
Definition face : Type := Z * bool.
Definition thickness (ft : font) : Z := Z.min (g_font_height ft) FB_CURSOR_UNDERLINE_HEIGHT.
Definition look (ft : font) (d : face) (gx gy : Z) : Z :=
  if snd d && (g_font_height ft - thickness ft <=? gy) then cell_fg (fst d) else cell_pixel ft (fst d) gx gy.
(** The faces of the positions for which D has one *)
Definition shows (f : fb_state_t) (ft : font) (cols rows : Z) (D : Z -> Z -> option face) (m : mem) : Prop :=
  forall col row d gx gy, 0 <= col < cols -> 0 <= row < rows -> D col row = Some d -> 0 <= gx < g_font_width ft -> 0 <= gy < g_font_height ft ->
  pix f m (col * g_font_width ft + gx) (row * g_font_height ft + gy) = Some (look ft d gx gy).
(** Faces that look the same *)
Definition alike (ft : font) (d d' : face) : Prop := forall gx gy, 0 <= gx < g_font_width ft -> 0 <= gy < g_font_height ft -> look ft d gx gy = look ft d' gx gy.
#[export] Instance alike_refl ft : Reflexive (alike ft).
Proof. by intros d gx gy. Qed.
Definition upd (D : Z -> Z -> option face) (col row : Z) (d : face) : Z -> Z -> option face := fun c r => if (c =? col) && (r =? row) then Some d else D c r.
Lemma con_upd_eq D col row d : upd D col row d col row = Some d.
Proof. unfold upd. by rewrite !Z.eqb_refl. Qed.
Lemma con_upd_ne D col row d c r : (c, r) <> (col, row) -> upd D col row d c r = D c r.
Proof. intros Hne. unfold upd. destruct (Z.eqb_spec c col), (Z.eqb_spec r row); try done. congruence. Qed.
Lemma shows_alike f ft cols rows D D' m : shows f ft cols rows D m ->
  (forall c r d', 0 <= c < cols -> 0 <= r < rows -> D' c r = Some d' -> exists d, D c r = Some d /\ alike ft d d') -> shows f ft cols rows D' m.
Proof. intros H E col row d' gx gy Hc Hr Hd Hx Hy. destruct (E col row d' Hc Hr Hd) as (d & Ed & Ha). rewrite (H col row d) by done. f_equal. by apply Ha. Qed.
Lemma shows_nothing f ft cols rows m : shows f ft cols rows (fun _ _ => None) m.
Proof. by intros col row d gx gy _ _ E. Qed.
Lemma shows_cell f ft cols rows D col row cell m m' : font_ok ft -> grid_ok f ft cols rows -> 0 <= col < cols -> 0 <= row < rows ->
  shows f ft cols rows D m -> paints f (cell_box ft col row cell) m m' -> shows f ft cols rows (upd D col row (cell, false)) m'.
Proof.
  intros [Fb Fp Fw Fh Fr] [G1 G2 G3 G4] Hc Hr H [P1 P2 P3] c r d gx gy Hc' Hr' Hd Hx Hy. rewrite P2 by (split; nia). unfold cell_box, box. revert Hd. unfold upd.
  destruct (Z.eqb_spec c col) as [->|Hne]; [destruct (Z.eqb_spec r row) as [->|Hne]|]; cbn [andb].
  - intros [= <-]. rewrite (proj2 (Z.leb_le _ _)), (proj2 (Z.ltb_lt _ _)), (proj2 (Z.leb_le (row * _) _)), (proj2 (Z.ltb_lt _ (row * _ + _))) by lia. cbn [andb].
    unfold look. cbn [fst snd andb]. rewrite Z.mod_small by apply cell_pixel_small. do 2 f_equal; lia.
  - intros Hd. rewrite (H col r d) by done. destruct (Z.leb_spec (row * g_font_height ft) (r * g_font_height ft + gy)), (Z.ltb_spec (r * g_font_height ft + gy) (row * g_font_height ft + g_font_height ft)); rewrite ?andb_false_r; try done. nia.
  - intros Hd. rewrite (H c r d) by done. destruct (Z.leb_spec (col * g_font_width ft) (c * g_font_width ft + gx)), (Z.ltb_spec (c * g_font_width ft + gx) (col * g_font_width ft + g_font_width ft)); rewrite ?andb_false_r; try done. nia.
Qed.
(** The line under the cursor *)
Definition line_box (ft : font) (col row color : Z) : Z -> Z -> option Z :=
  box (col * g_font_width ft) (row * g_font_height ft + g_font_height ft - thickness ft) (g_font_width ft) (thickness ft) (fun _ _ => color).
Lemma shows_line f ft cols rows D col row cell b m m' : font_ok ft -> grid_ok f ft cols rows -> 0 <= col < cols -> 0 <= row < rows -> D col row = Some (cell, b) ->
  shows f ft cols rows D m -> paints f (line_box ft col row (cell_fg cell)) m m' -> shows f ft cols rows (upd D col row (cell, true)) m'.
Proof.
  intros [Fb Fp Fw Fh Fr] [G1 G2 G3 G4] Hc Hr HD H [P1 P2 P3] c r d gx gy Hc' Hr' Hd Hx Hy. rewrite P2 by (split; nia). unfold line_box, box. revert Hd. unfold upd.
  assert (Ht : 0 <= thickness ft <= g_font_height ft) by (unfold thickness, FB_CURSOR_UNDERLINE_HEIGHT; lia).
  destruct (Z.eqb_spec c col) as [->|Hne]; [destruct (Z.eqb_spec r row) as [->|Hne]|]; cbn [andb].
  - intros [= <-]. rewrite (proj2 (Z.leb_le _ _)), (proj2 (Z.ltb_lt _ _)) by lia. cbn [andb]. rewrite (proj2 (Z.ltb_lt _ (row * _ + _ - _ + _))) by lia. rewrite andb_true_r.
    unfold look at 1. cbn [fst snd andb]. destruct (Z.leb_spec (g_font_height ft - thickness ft) gy).
    + rewrite (proj2 (Z.leb_le _ _)) by lia. rewrite Z.mod_small by apply palette_small. done.
    + rewrite (proj2 (Z.leb_gt _ _)) by lia. rewrite (H col row (cell, b)) by done. unfold look. cbn [fst snd]. rewrite (proj2 (Z.leb_gt _ _)) by lia. by rewrite andb_false_r.
  - intros Hd. rewrite (H col r d) by done. destruct (Z.leb_spec (row * g_font_height ft + g_font_height ft - thickness ft) (r * g_font_height ft + gy)), (Z.ltb_spec (r * g_font_height ft + gy) (row * g_font_height ft + g_font_height ft - thickness ft + thickness ft)); rewrite ?andb_false_r; try done. nia.
  - intros Hd. rewrite (H c r d) by done. destruct (Z.leb_spec (col * g_font_width ft) (c * g_font_width ft + gx)), (Z.ltb_spec (c * g_font_width ft + gx) (col * g_font_width ft + g_font_width ft)); rewrite ?andb_false_r; try done. nia.
Qed.

(** The body of fb_cursor_draw_at for a position on the screen *)
Definition draw_line (f : fb_state_t) (ft : font) (px py w color : Z) : M mem unit :=
  for_ 0 (thickness ft) (fun y =>
    if u32 (py + y) <? height f then
      let dst := u32 (addr f + u32 (u32 (py + y) * pitch f) + u32 (px * bytes_per_pixel f)) in
      for_ 0 w (fun x => fb_write_color f (dst + x * bytes_per_pixel f) color)
    else ret tt).
Lemma wp_draw_line f ft cols rows col row color m (Q : unit -> mem -> Prop) : fb_ok f m -> font_ok ft -> grid_ok f ft cols rows -> 0 <= col < cols -> 0 <= row < rows ->
  (forall m', paints f (line_box ft col row color) m m' -> Q tt m') ->
  wp False (draw_line f ft (col * g_font_width ft) (row * g_font_height ft + g_font_height ft - thickness ft) (g_font_width ft) color) Q m.
Proof.
  intros Hm Hft [G1 G2 G3 G4] Hc Hr HQ. pose proof Hft as [Fb Fp Fw Fh Fr]. assert (Ht : 0 <= thickness ft <= g_font_height ft) by (unfold thickness, FB_CURSOR_UNDERLINE_HEIGHT; lia).
  pose proof (fb_sizes f m Hm) as (_ & _ & Hw & Hh). set (px := col * g_font_width ft). set (py := row * g_font_height ft + g_font_height ft - thickness ft).
  assert (Hpx : 0 <= px /\ px + g_font_width ft <= width f) by (subst px; nia). assert (Hpy : 0 <= py /\ py + thickness ft <= height f) by (subst py; nia).
  unfold draw_line. apply (wp_rows f _ m px py (g_font_width ft) (thickness ft) (fun _ _ => color)); [done| |done].
  intros y m1 R Hy H1 HR. rewrite (u32_id (py + y)) by lia. rewrite (proj2 (Z.ltb_lt _ _)) by lia. cbv zeta.
  pose proof (pixel_addr_pa f m1 px (py + y) H1 ltac:(split; lia)) as Ha. unfold pixel_addr in Ha. rewrite (u32_id px), (u32_id (py + y)) in Ha by lia. rewrite Ha.
  eapply wp_eq; [|apply (wp_row f (fb_write_color f) m1 px (py + y) (g_font_width ft) (fun _ => color) R); try done; try lia; by apply (puts_write_color f m1)].
  apply for_ext. intros i s'. by rewrite pa_step.
Qed.
End ScreenDraw.

Module ScreenSafe.
Import Vga Font Screen ScreenDraw.
Implicit Types s : screen.

(** ** The invariant *)

Definition crtc (s : screen) (i : Z) : Z := reg (adapter (fnt s)) REG_SCREEN_DATA i.
Definition line_ok (l : list Z) : Prop := length l = Z.to_nat SCREEN_MAX_COLS.
Definition cursor_in (s : screen) : Prop := 0 <= fb_cursor_row (cu s) < screen_rows s /\ 0 <= fb_cursor_col (cu s) < screen_cols s.
Definition display_ok (s : screen) : Prop :=
  enabled (g_fb s) = false /\ screen_cols s = 80 /\ screen_rows s = 25 \/
  fb_ok (g_fb s) (fbm s) /\ grid_ok (g_fb s) (fnt s) (screen_cols s) (screen_rows s) /\ cursor_in s /\ buf_hydrated (tx s) = true.
Record core_ok (s : screen) : Prop := {
  co_len : length (textbuf (tx s)) = Z.to_nat MAX_SCROLL_LINES;
  co_lines : Forall line_ok (textbuf (tx s));
  co_total : 0 <= total_lines (tx s) <= MAX_SCROLL_LINES;
  co_col : 0 <= buf_col (tx s) < SCREEN_MAX_COLS;
  co_cols : 1 <= screen_cols s <= SCREEN_MAX_COLS;
  co_rows : 1 <= screen_rows s <= SCREEN_MAX_ROWS;
  co_font : font_ok (fnt s);
  co_vram : length (vram s) = Z.to_nat 16384;
  co_log : exists a, Klog.log_rel a (klog s);
  co_crtc : is_u8 (crtc s 14) /\ is_u8 (crtc s 15);
  co_display : display_ok s;
}.
Record base_ok (s : screen) : Prop := {
  bo_core : core_ok s;
  bo_scroll : 0 <= scroll_pos (tx s) <= max_start s;
}.

(** ** The visible lines *)

Definition start_of (s : screen) : Z := max_start s - scroll_pos (tx s).
Definition cell_of (b : list (list Z)) (r c : Z) : Z := default 0 (tget b r c).
Definition view_at (s : screen) (start col row : Z) : Z := if total_lines (tx s) <=? start + row then blank_cell else cell_of (textbuf (tx s)) (start + row) col.
Definition view (s : screen) : Z -> Z -> Z := view_at s (start_of s).

Lemma max_start_bounds s : core_ok s -> 0 <= max_start s <= MAX_SCROLL_LINES /\ (total_lines (tx s) <= max_start s + screen_rows s) /\ max_start s + screen_rows s <= Z.max (total_lines (tx s)) (screen_rows s).
Proof. intros [? ? ? ? ? ? ? ?]. unfold max_start. bdestr; lia. Qed.
Lemma tget_in s r c : core_ok s -> 0 <= r < MAX_SCROLL_LINES -> 0 <= c < SCREEN_MAX_COLS -> tget (textbuf (tx s)) r c = Some (cell_of (textbuf (tx s)) r c).
Proof.
  intros [Hl Hf _ _ _ _ _ _ _ _ _] Hr Hc. unfold cell_of, tget, MAX_SCROLL_LINES in *. destruct (lget_in (textbuf (tx s)) r) as [l El]; [lia|]. rewrite El.
  assert (line_ok l) as Hll by (rewrite lget_lookup in El by lia; eapply Forall_lookup_1; done). unfold line_ok in Hll.
  destruct (lget_in l c) as [v Ev]; [lia|]. by rewrite Ev.
Qed.
Lemma clamp_id lo hi v : lo <= v <= hi -> clamp lo hi v = v.
Proof. intros. unfold clamp. bdestr; lia. Qed.
Lemma clamp_in lo hi v : lo <= hi -> lo <= clamp lo hi v <= hi.
Proof. intros. unfold clamp. bdestr; lia. Qed.
(** The scroll position brought into its range *)
Definition settle (s : screen) : screen := with_tx (with_scroll (clamp 0 (max_start s) (scroll_pos (tx s))) (tx s)) s.
Lemma visible_start_run s : core_ok s -> screen_visible_start s = Ok (start_of (settle s), settle s).
Proof.
  intros Hs. destruct (max_start_bounds s Hs) as [H0 _]. pose proof (clamp_in 0 (max_start s) (scroll_pos (tx s)) ltac:(lia)).
  unfold screen_visible_start. rewrite bind_gets. unfold mod_tx. rewrite bind_modify, bind_gets. unfold ret, start_of, settle. cbn [tx with_tx scroll_pos with_scroll].
  change (max_start (with_tx _ s)) with (max_start s). rewrite (proj2 (Z.ltb_ge _ 0)) by lia. done.
Qed.
Lemma settle_id s : base_ok s -> settle s = s.
Proof. intros [_ Hp]. unfold settle. rewrite clamp_id by done. by destruct s as [[] ? ? ? ? ? ? ? ? ? ? ? ? ? ?]. Qed.
Lemma settle_ok s : core_ok s -> base_ok (settle s).
Proof.
  intros Hs. destruct (max_start_bounds s Hs) as [H0 _]. split; [by destruct Hs|]. change (max_start (settle s)) with (max_start s). cbn [settle tx with_tx with_scroll scroll_pos]. apply clamp_in. lia.
Qed.
Lemma visible_start_ok s : base_ok s -> screen_visible_start s = Ok (start_of s, s).
Proof. intros Hs. rewrite visible_start_run by apply Hs. by rewrite settle_id. Qed.
Lemma compute_start_ok s v : core_ok s -> 0 <= v <= max_start s -> screen_compute_start_for_scroll v s = Ok (max_start s - v, s).
Proof. intros Hs Hv. unfold screen_compute_start_for_scroll. rewrite bind_gets. unfold ret. rewrite clamp_id by done. by rewrite (proj2 (Z.ltb_ge _ 0)) by lia. Qed.
Lemma start_bounds s : base_ok s -> 0 <= start_of s <= max_start s.
Proof. intros [Hc Hp]. unfold start_of. lia. Qed.

(** ** Reading cells *)

Lemma cell_at_ok s start x y : core_ok s -> 0 <= start <= max_start s -> 0 <= x < screen_cols s -> 0 <= y < screen_rows s -> cell_at start x y s = Ok (view_at s start x y, s).
Proof.
  intros Hs Hst Hx Hy. pose proof Hs as [Hl Hf Ht _ Hc Hr _ _ _ _ _]. unfold cell_at, view_at. rewrite bind_gets. destruct (Z.leb_spec (total_lines (tx s)) (start + y)); [done|].
  rewrite bind_gets. rewrite tget_in by (unfold MAX_SCROLL_LINES, SCREEN_MAX_COLS in *; try done; lia). done.
Qed.
Lemma inside s x y : 0 <= x < screen_cols s -> 0 <= y < screen_rows s -> outside s x y = false.
Proof. intros. unfold outside. bdestr; cbn [orb]; try done; lia. Qed.
Lemma outside_iff s x y : outside s x y = false <-> 0 <= x < screen_cols s /\ 0 <= y < screen_rows s.
Proof. unfold outside. rewrite !orb_false_iff, !Z.ltb_ge, !Z.leb_gt. lia. Qed.
Lemma hydrated_run s : buf_hydrated (tx s) = true -> hydrate_buffer_from_vga_once s = Ok (tt, s).
Proof. intros H. unfold hydrate_buffer_from_vga_once. by rewrite bind_gets, H. Qed.
Lemma fb_mode s : core_ok s -> enabled (g_fb s) = true ->
  fb_ok (g_fb s) (fbm s) /\ grid_ok (g_fb s) (fnt s) (screen_cols s) (screen_rows s) /\ cursor_in s /\ buf_hydrated (tx s) = true.
Proof. intros Hs He. destruct (co_display _ Hs) as [(E & _)|H]; [congruence|done]. Qed.
Lemma vga_mode s : core_ok s -> enabled (g_fb s) = false -> screen_cols s = 80 /\ screen_rows s = 25.
Proof. intros Hs He. destruct (co_display _ Hs) as [(_ & H)|(H & _)]; [done|]. destruct H. congruence. Qed.
Lemma get_at_ok s x y : base_ok s -> enabled (g_fb s) = true -> 0 <= x < screen_cols s -> 0 <= y < screen_rows s -> screen_get_at x y s = Ok (view s x y, s).
Proof.
  intros Hs He Hx Hy. destruct (fb_mode s (bo_core _ Hs) He) as (_ & _ & _ & Hh). unfold screen_get_at. rewrite bind_get, inside by done. rewrite He. cbn [negb].
  rewrite (bind_ok _ _ _ _ _ (hydrated_run s Hh)), (bind_ok _ _ _ _ _ (visible_start_ok s Hs)). apply cell_at_ok; [apply Hs|by apply start_bounds|done|done].
Qed.

(** ** Memory that is drawn on *)

(** Only the memory of the frame buffer changes; [g] are the faces that are drawn. *)
Definition redrawn (s s' : screen) : Prop := exists m, s' = with_fbm m s /\ fb_ok (g_fb s) m.
Lemma redrawn_core s s' : core_ok s -> redrawn s s' -> core_ok s'.
Proof.
  intros [? ? ? ? ? ? ? ? ? ? Hd] (m & -> & Hm). constructor; try done. destruct Hd as [(E & ?)|(_ & ? & ? & ?)]; [|by right]. destruct Hm. congruence.
Qed.
Lemma redrawn_base s s' : base_ok s -> redrawn s s' -> base_ok s'.
Proof. intros [Hc Hp] Hr. split; [by eapply redrawn_core|]. destruct Hr as (m & -> & _). done. Qed.
Lemma redrawn_refl s : fb_ok (g_fb s) (fbm s) -> redrawn s s.
Proof. intros H. exists (fbm s). split; [by destruct s|done]. Qed.
Lemma redrawn_trans s s' s'' : redrawn s s' -> redrawn s' s'' -> redrawn s s''.
Proof. intros (m & -> & H) (m' & -> & H'). by exists m'. Qed.
Lemma redrawn_view s s' : redrawn s s' -> view s' = view s.
Proof. by intros (m & -> & _). Qed.

Definition showing (s : screen) (D : Z -> Z -> option face) : Prop := shows (g_fb s) (fnt s) (screen_cols s) (screen_rows s) D (fbm s).
Lemma wp_on_fbm {A} (m : M mem A) (Q : A -> screen -> Prop) s : wp False m (fun a v => Q a (with_fbm v s)) (fbm s) -> wp False (on_fbm m) Q s.
Proof. unfold wp, on_fbm. by destruct (m (fbm s)) as [[a v]| |]. Qed.
Lemma draw_cell_ok s col row cell (Q : unit -> screen -> Prop) : core_ok s -> enabled (g_fb s) = true -> 0 <= col < screen_cols s -> 0 <= row < screen_rows s ->
  (forall s', redrawn s s' -> (forall D, showing s D -> showing s' (upd D col row (cell, false))) -> Q tt s') -> wp False (fb_draw_cell col row cell) Q s.
Proof.
  intros Hs He Hc Hr HQ. destruct (fb_mode s Hs He) as (Hm & Hg & _ & _). pose proof (co_font _ Hs) as Hft.
  eapply wp_eq; [by apply (fb_draw_cell_eq s col row cell (screen_cols s) (screen_rows s))|]. apply wp_on_fbm. apply (wp_draw_cell _ _ (screen_cols s) (screen_rows s)); try done.
  intros m' Hp. apply HQ; [exists m'; split; [done|apply Hp]|]. intros D HD. by eapply shows_cell.
Qed.

(** ** The cursor on the display *)

Lemma erase_at_ok s col row (Q : unit -> screen -> Prop) : base_ok s -> enabled (g_fb s) = true -> 0 <= col < screen_cols s -> 0 <= row < screen_rows s ->
  (forall s', redrawn s s' -> (forall D, showing s D -> showing s' (upd D col row (view s col row, false))) -> Q tt s') -> wp False (fb_cursor_erase_at col row) Q s.
Proof.
  intros Hs He Hc Hr HQ. unfold fb_cursor_erase_at. apply wp_bind, wp_gets. rewrite He, inside by done. cbn [negb].
  apply wp_bind. eapply wp_ok; [by apply get_at_ok|]. apply draw_cell_ok; try done. apply Hs.
Qed.
Lemma erase_at_start_ok s start col row (Q : unit -> screen -> Prop) : base_ok s -> enabled (g_fb s) = true -> 0 <= start <= max_start s -> 0 <= col < screen_cols s -> 0 <= row < screen_rows s ->
  (forall s', redrawn s s' -> Q tt s') -> wp False (fb_cursor_erase_at_start start col row) Q s.
Proof.
  intros Hs He Hst Hc Hr HQ. unfold fb_cursor_erase_at_start. apply wp_bind, wp_gets. rewrite He, inside by done. cbn [negb].
  apply wp_bind. unfold screen_get_at_start. apply wp_bind, wp_gets. rewrite inside by done. eapply wp_ok; [apply cell_at_ok; try done; apply Hs|].
  apply draw_cell_ok; try done; [apply Hs|]. intros s' H _. by apply HQ.
Qed.
Lemma draw_at_ok s col row (Q : unit -> screen -> Prop) : base_ok s -> enabled (g_fb s) = true -> 0 <= col < screen_cols s -> 0 <= row < screen_rows s ->
  (forall s', redrawn s s' -> (fb_cursor_visible (cu s) = false -> s' = s) ->
     (forall D b, fb_cursor_visible (cu s) = true -> D col row = Some (view s col row, b) -> showing s D -> showing s' (upd D col row (view s col row, true))) -> Q tt s') ->
  wp False (fb_cursor_draw_at col row) Q s.
Proof.
  intros Hs He Hc Hr HQ. destruct (fb_mode s (bo_core _ Hs) He) as (Hm & Hg & _ & _). pose proof (co_font _ (bo_core _ Hs)) as Hft. pose proof Hft as [Fb Fp Fw Fh Fr]. pose proof Hg as [G1 G2 G3 G4].
  unfold fb_cursor_draw_at. apply wp_bind, wp_gets. rewrite He, inside by done. cbn [negb orb]. destruct (fb_cursor_visible (cu s)) eqn:Ev; cbn [negb].
  2: { apply wp_ret, HQ; [by apply redrawn_refl|done|done]. }
  apply wp_bind. eapply wp_ok; [by apply get_at_ok|]. apply wp_bind, wp_gets, wp_bind, wp_gets.
  rewrite (proj2 (Z.eqb_neq (g_font_width _) 0)), (proj2 (Z.eqb_neq (g_font_height _) 0)) by lia. cbn [orb]. cbv zeta.
  assert (Hth : (if g_font_height (fnt s) <? FB_CURSOR_UNDERLINE_HEIGHT then g_font_height (fnt s) else FB_CURSOR_UNDERLINE_HEIGHT) = thickness (fnt s)) by (unfold thickness; bdestr; lia).
  rewrite Hth. assert (Ht : 0 <= thickness (fnt s) <= g_font_height (fnt s)) by (unfold thickness, FB_CURSOR_UNDERLINE_HEIGHT; lia).
  assert (1 <= thickness (fnt s)) by (unfold thickness, FB_CURSOR_UNDERLINE_HEIGHT; lia).
  pose proof (fb_sizes _ _ Hm) as (_ & _ & Hw & Hh).
  assert (Hpx : 0 <= col * g_font_width (fnt s) /\ col * g_font_width (fnt s) + g_font_width (fnt s) <= width (g_fb s)) by nia.
  assert (Hpy : 0 <= row * g_font_height (fnt s) /\ row * g_font_height (fnt s) + g_font_height (fnt s) <= height (g_fb s)) by nia.
  rewrite (u32_id col), (u32_id row), (u32_id (col * _)), (u32_id (row * _)), (u32_id (row * _ + _ - _)) by lia.
  rewrite (proj2 (Z.leb_gt _ _)), (proj2 (Z.leb_gt (height _) _)) by lia. cbn [orb]. rewrite (proj2 (Z.ltb_ge _ (g_font_width (fnt s)))) by lia.
  apply wp_on_fbm. apply (wp_draw_line (g_fb s) (fnt s) (screen_cols s) (screen_rows s)); try done. intros m' Hp. apply HQ; [exists m'; split; [done|apply Hp]|done|].
  intros D b _ HD Hsh. by eapply shows_line.
Qed.

(** ** Drawing all lines *)

Definition plain (V : Z -> Z -> Z) : Z -> Z -> option face := fun c r => Some (V c r, false).
Lemma redraw_rows_ok s (Q : unit -> screen -> Prop) : base_ok s -> enabled (g_fb s) = true ->
  (forall s', redrawn s s' -> showing s' (plain (view s)) -> Q tt s') -> wp False (fb_redraw_rows (start_of s) 0 (screen_rows s)) Q s.
Proof.
  intros Hs He HQ. pose proof (bo_core _ Hs) as Hc. destruct (fb_mode s Hc He) as (Hm & Hg & _ & _). destruct Hc as [Hl Hf Ht _ Hcols Hrows _ _ _ _ _].
  unfold fb_redraw_rows. rewrite (proj2 (Z.leb_gt _ 0)) by lia. cbn [Z.ltb Z.compare]. apply wp_bind, wp_gets. cbv beta. rewrite (proj2 (Z.leb_gt _ 0)), Z.add_0_l, (proj2 (Z.ltb_ge _ (screen_rows s))) by lia.
  set (E := fun i c r => if r <? i then Some (view s c r, false) else None : option face).
  set (E2 := fun i k c r => if (r <? i) || (r =? i) && (c <? k) then Some (view s c r, false) else None : option face).
  assert (Hrow : forall i s1 (R : unit -> screen -> Prop), 0 <= i < screen_rows s -> redrawn s s1 -> showing s1 (E i) -> (forall s2, redrawn s s2 -> showing s2 (E (i + 1)) -> R tt s2) ->
    forall body, (forall c s1 (P : unit -> screen -> Prop), 0 <= c < screen_cols s -> redrawn s s1 -> wp False (fb_draw_cell c i (view s c i)) P s1 -> wp False (body c) P s1) -> wp False (for_ 0 (screen_cols s) body) R s1).
  { intros i s1 R Hi H1 S1 HR body Hbody. apply (wp_for (fun k s2 => redrawn s s2 /\ showing s2 (E2 i k))).
    - split; [done|]. eapply shows_alike; [done|]. intros c r d Hcc Hrr Hd. exists d. split; [|done]. unfold E2 in Hd. unfold E. destruct (Z.ltb_spec r i); [done|]. cbn [orb] in Hd. destruct (Z.eqb_spec r i), (Z.ltb_spec c 0); try done. lia.
    - intros k s2 Hk [H2 S2]. apply Hbody; [done|done|]. assert (Heq : g_fb s2 = g_fb s /\ screen_cols s2 = screen_cols s /\ screen_rows s2 = screen_rows s) by (destruct H2 as (? & -> & _); done).
      destruct Heq as (E1 & E3 & E4). apply draw_cell_ok; [by eapply redrawn_core; [apply Hs|]|by rewrite E1|by rewrite E3|by rewrite E4|]. intros s3 H3 S3. split; [by eapply redrawn_trans|].
      eapply shows_alike; [by apply S3|]. intros c r d Hcc Hrr Hd. exists d. split; [|done]. unfold upd, E2 in *. destruct (Z.eqb_spec c k), (Z.eqb_spec r i), (Z.ltb_spec r i), (Z.ltb_spec c (k + 1)), (Z.ltb_spec c k); cbn [andb orb] in *; subst; try done; lia.
    - intros s2 [H2 S2]. apply HR; [done|]. eapply shows_alike; [done|]. intros c r d Hcc Hrr Hd. exists d. split; [|done]. unfold E, E2 in *.
      assert (screen_cols s2 = screen_cols s) as Ec by (destruct H2 as (? & -> & _); done). rewrite Ec in Hcc.
      destruct (Z.ltb_spec r (i + 1)), (Z.ltb_spec r i), (Z.eqb_spec r i), (Z.ltb_spec c (Z.max 0 (screen_cols s))); cbn [andb orb] in *; try done; lia. }
  apply (wp_for (fun i s1 => redrawn s s1 /\ showing s1 (E i))).
  - split; [by apply redrawn_refl|]. eapply shows_alike; [apply shows_nothing|]. intros c r d Hcc Hrr Hd. unfold E in Hd. rewrite (proj2 (Z.ltb_ge _ 0)) in Hd by lia. done.
  - intros i s1 Hi [H1 S1]. rewrite Z.add_0_l. pose proof (start_bounds s Hs). destruct (Z.ltb_spec (start_of s + i) (total_lines (tx s))) as [Hlt|Hge].
    + apply (Hrow i s1); try done. intros c s2 P Hcc H2 HP. apply wp_bind. rewrite tget_in by (try apply Hs; unfold MAX_SCROLL_LINES, SCREEN_MAX_COLS in *; lia). apply wp_lift_some.
      unfold view, view_at in HP. by rewrite (proj2 (Z.leb_gt _ _)) in HP by lia.
    + apply (Hrow i s1); try done. intros c s2 P Hcc H2 HP. unfold view, view_at in HP. by rewrite (proj2 (Z.leb_le _ _)) in HP by lia.
  - intros s1 [H1 S1]. apply HQ; [done|]. eapply shows_alike; [done|]. intros c r d Hcc Hrr Hd. exists d. split; [|done]. unfold E. assert (screen_rows s1 = screen_rows s) as Er by (destruct H1 as (? & -> & _); done).
    rewrite (proj2 (Z.ltb_lt _ _)) by lia. done.
Qed.

(** ** The faces of the screen *)

Definition on_cursor (s : screen) (c r : Z) : bool := fb_cursor_visible (cu s) && (c =? fb_cursor_col (cu s)) && (r =? fb_cursor_row (cu s)).
(** The display shows the visible lines, with the cursor when it is visible. *)
Definition shown (s : screen) : Prop := showing s (fun c r => Some (view s c r, on_cursor s c r)).
Lemma shown_faces s : shown s <-> exists D, showing s D /\ forall c r, 0 <= c < screen_cols s -> 0 <= r < screen_rows s -> exists d, D c r = Some (d, on_cursor s c r) /\ d = view s c r.
Proof.
  split; [intros H; eexists; split; [exact H|]; intros c r _ _; by eexists|]. intros (D & HD & Hall). eapply shows_alike; [exact HD|]. intros c r d Hc Hr [= <-].
  destruct (Hall c r Hc Hr) as (d & Ed & ->). eexists. split; [exact Ed|reflexivity].
Qed.
(** ... at all positions but that of the cursor *)
Definition almost (s : screen) : Prop := showing s (fun c r => if on_cursor s c r then None else Some (view s c r, false)).
Lemma on_cursor_true s c r : on_cursor s c r = true <-> fb_cursor_visible (cu s) = true /\ c = fb_cursor_col (cu s) /\ r = fb_cursor_row (cu s).
Proof. unfold on_cursor. rewrite !andb_true_iff, !Z.eqb_eq. tauto. Qed.

(** The cursor drawn over faces without one *)
Lemma draw_cursor_ok s (Q : unit -> screen -> Prop) : base_ok s -> enabled (g_fb s) = true ->
  (forall s', redrawn s s' -> (showing s (plain (view s)) -> shown s') -> Q tt s') ->
  wp False (fb_cursor_draw_at (fb_cursor_col (cu s)) (fb_cursor_row (cu s))) Q s.
Proof.
  intros Hs He HQ. destruct (fb_mode s (bo_core _ Hs) He) as (_ & _ & [Hr Hc] & _). apply draw_at_ok; [done..|]. intros s' R Hinv Hvis. apply HQ; [done|]. intros Hp. unfold shown.
  assert (Es : view s' = view s /\ cu s' = cu s) by (destruct R as (m & -> & _); done). destruct Es as [Ev Ec].
  destruct (fb_cursor_visible (cu s)) eqn:E.
  - eapply shows_alike; [apply (Hvis _ false eq_refl eq_refl Hp)|]. intros c r d _ _ [= <-]. rewrite Ev. unfold on_cursor. rewrite Ec, E. cbn [andb]. unfold upd, plain.
    destruct (Z.eqb_spec c (fb_cursor_col (cu s))) as [->|], (Z.eqb_spec r (fb_cursor_row (cu s))) as [->|]; cbn [andb]; eexists; split; reflexivity.
  - rewrite (Hinv eq_refl) in *. eapply shows_alike; [done|]. intros c r d _ _ [= <-]. unfold on_cursor. rewrite E. cbn [andb]. eexists; split; reflexivity.
Qed.
Lemma redraw_fb_ok s (Q : unit -> screen -> Prop) : core_ok s -> enabled (g_fb s) = true ->
  (forall s', redrawn (settle s) s' -> shown s' -> Q tt s') -> wp False redraw_from_buffer Q s.
Proof.
  intros Hs He HQ. pose proof (settle_ok s Hs) as Hb. unfold redraw_from_buffer. apply wp_bind. eapply wp_ok; [by apply visible_start_run|]. apply wp_bind, wp_gets. cbv beta.
  change (g_fb (settle s)) with (g_fb s). rewrite He. apply wp_bind, redraw_rows_ok; [done|done|]. intros s1 R1 S1.
  assert (cu (settle s) = cu s1) as -> by (destruct R1 as (m & -> & _); done). apply draw_cursor_ok; [by eapply redrawn_base|by destruct R1 as (m & -> & _)|].
  intros s2 R2 S2. apply HQ; [by eapply redrawn_trans|]. apply S2. by rewrite (redrawn_view _ _ R1).
Qed.

(** ** Text memory *)

Definition vram_only (s s' : screen) : Prop := exists v, s' = with_vram v s /\ length v = length (vram s).
Lemma vram_only_refl s : vram_only s s.
Proof. exists (vram s). split; [by destruct s|done]. Qed.
Lemma vram_only_trans s s' s'' : vram_only s s' -> vram_only s' s'' -> vram_only s s''.
Proof. intros (v & -> & H) (v' & -> & H'). exists v'. split; [done|]. cbn in H'. congruence. Qed.
Lemma vram_only_core s s' : core_ok s -> vram_only s s' -> core_ok s'.
Proof. intros [] (v & -> & Hv). constructor; try done. cbn. congruence. Qed.
Lemma vram_only_base s s' : base_ok s -> vram_only s s' -> base_ok s'.
Proof. intros [Hc Hp] Hv. split; [by eapply vram_only_core|]. by destruct Hv as (v & -> & _). Qed.
Lemma vm_copy_ok s r l (Q : unit -> screen -> Prop) : core_ok s -> enabled (g_fb s) = false -> 0 <= r < screen_rows s -> length l = Z.to_nat (screen_cols s) ->
  (forall s', vram_only s s' -> Q tt s') -> wp False (vm_copy r l) Q s.
Proof.
  intros Hs He Hr Hl HQ. destruct (vga_mode s Hs He) as [Ec Er]. pose proof (co_vram _ Hs). unfold vm_copy. apply wp_bind, wp_gets, wp_bind.
  destruct (splice_in (vram s) (r * screen_cols s) l) as (v & Ev & Lv & _); [nia|rewrite Ec in *; lia|]. rewrite Ev. apply wp_lift_some, wp_modify, HQ. by exists v.
Qed.
Lemma redraw_vga_ok s (Q : unit -> screen -> Prop) : core_ok s -> enabled (g_fb s) = false ->
  (forall s', vram_only (settle s) s' -> Q tt s') -> wp False redraw_from_buffer Q s.
Proof.
  intros Hs He HQ. pose proof (settle_ok s Hs) as Hb. pose proof (bo_core _ Hb) as Hc. unfold redraw_from_buffer. apply wp_bind. eapply wp_ok; [by apply visible_start_run|]. apply wp_bind, wp_gets. cbv beta.
  change (g_fb (settle s)) with (g_fb s). rewrite He. pose proof (start_bounds _ Hb). pose proof (max_start_bounds _ Hc). set (s0 := settle s) in *. apply (wp_for_keep (vram_only s0)); [apply vram_only_refl| |done].
  intros r s1 Hr V1. assert (Hc1 : core_ok s1) by (by eapply vram_only_core). assert (E1 : g_fb s1 = g_fb s /\ screen_cols s1 = screen_cols s0 /\ screen_rows s1 = screen_rows s0) by (by destruct V1 as (v & -> & _)).
  destruct E1 as (E1 & E2 & E3). destruct Hc as [Hl Hf Ht _ Hcols Hrows _ _ _ _ _]. unfold MAX_SCROLL_LINES in *. destruct (Z.ltb_spec (start_of s0 + r) (total_lines (tx s0))).
  - apply wp_bind. destruct (lget_in (textbuf (tx s0)) (start_of s0 + r)) as [l El]; [lia|]. rewrite El. apply wp_lift_some, wp_bind.
    assert (line_ok l) as Hll by (rewrite lget_lookup in El by lia; eapply Forall_lookup_1; done). unfold line_ok in Hll. unfold SCREEN_MAX_COLS in *. rewrite slice_in by lia. apply wp_lift_some.
    apply vm_copy_ok; [done|congruence|by rewrite E3|rewrite E2, length_take, length_drop; lia|]. intros s2 V2. by eapply vram_only_trans.
  - apply vm_copy_ok; [done|congruence|by rewrite E3|by rewrite E2, length_replicate|]. intros s2 V2. by eapply vram_only_trans.
Qed.

(** ** Writing the buffer *)

Record buf_ok (b : list (list Z)) : Prop := { bk_len : length b = Z.to_nat MAX_SCROLL_LINES; bk_lines : Forall line_ok b }.
Lemma core_buf s : core_ok s -> buf_ok (textbuf (tx s)).
Proof. by intros []. Qed.
(** A buffer that differs from b in the cells of g *)
Definition wrote (b b' : list (list Z)) (g : Z -> Z -> option Z) : Prop :=
  buf_ok b' /\ forall r c, 0 <= r < MAX_SCROLL_LINES -> 0 <= c < SCREEN_MAX_COLS -> cell_of b' r c = default (cell_of b r c) (g r c).
Lemma tset_ok b r c v : buf_ok b -> 0 <= r < MAX_SCROLL_LINES -> 0 <= c < SCREEN_MAX_COLS ->
  exists b', tset b r c v = Some b' /\ wrote b b' (fun r' c' => if (r' =? r) && (c' =? c) then Some v else None).
Proof.
  intros [Hl Hf] Hr Hc. unfold MAX_SCROLL_LINES, SCREEN_MAX_COLS in *. unfold tset. destruct (lget_in b r) as [l El]; [lia|]. rewrite El.
  assert (line_ok l) as Hll by (rewrite lget_lookup in El by lia; eapply Forall_lookup_1; done). unfold line_ok, SCREEN_MAX_COLS in Hll.
  rewrite lset_in by lia. rewrite lset_in by lia. eexists. split; [done|]. split.
  - split; [by rewrite length_insert|]. apply Forall_insert; [done|]. unfold line_ok. by rewrite length_insert.
  - intros r' c' Hr' Hc'. unfold cell_of, tget. rewrite lget_insert by lia. destruct (Z.eqb_spec r' r) as [->|Hne].
    + rewrite decide_True by done. rewrite El, lget_insert by lia. destruct (Z.eqb_spec c' c) as [->|]; cbn [andb]; [by rewrite decide_True|by rewrite decide_False by congruence].
    + rewrite decide_False by congruence. done.
Qed.
Lemma fill_ok b r v : buf_ok b -> 0 <= r < MAX_SCROLL_LINES ->
  exists b', lset b r (replicate (Z.to_nat SCREEN_MAX_COLS) v) = Some b' /\ wrote b b' (fun r' c' => if r' =? r then Some v else None).
Proof.
  intros [Hl Hf] Hr. unfold MAX_SCROLL_LINES in *. rewrite lset_in by lia. eexists. split; [done|]. split.
  - split; [by rewrite length_insert|]. apply Forall_insert; [done|]. unfold line_ok. by rewrite length_replicate.
  - intros r' c' Hr' Hc'. unfold cell_of, tget. rewrite lget_insert by lia. destruct (Z.eqb_spec r' r) as [->|Hne].
    + rewrite decide_True by done. unfold SCREEN_MAX_COLS in *. rewrite lget_lookup, lookup_replicate_2 by lia. done.
    + rewrite decide_False by congruence. done.
Qed.
Lemma shift_ok b : buf_ok b -> let b' := drop 1 b ++ drop (length b - 1) b in
  buf_ok b' /\ forall r c, 0 <= r < MAX_SCROLL_LINES - 1 -> cell_of b' r c = cell_of b (r + 1) c.
Proof.
  intros [Hl Hf] b'. unfold MAX_SCROLL_LINES in *. split.
  - split; [subst b'; rewrite length_app, !length_drop; unfold MAX_SCROLL_LINES; lia|]. apply Forall_app. split; by apply Forall_drop.
  - intros r c Hr. unfold cell_of, tget, b'. rewrite !lget_lookup by lia. rewrite lookup_app_l by (rewrite length_drop; lia). rewrite lookup_drop. by replace (1 + Z.to_nat r)%nat with (Z.to_nat (r + 1)) by lia.
Qed.

(** Another buffer, with the display as it is *)
Lemma core_tx s t : core_ok s -> buf_ok (textbuf t) -> 0 <= total_lines t <= MAX_SCROLL_LINES -> 0 <= buf_col t < SCREEN_MAX_COLS -> (buf_hydrated (tx s) = true -> buf_hydrated t = true) -> core_ok (with_tx t s).
Proof. intros [? ? ? ? ? ? ? ? ? ? Hd] [? ?] Ht Hc Hh. constructor; try done. destruct Hd as [?|(? & ? & ? & ?)]; [by left|]. right. split_and!; try done. by apply Hh. Qed.

Definition written (s : screen) (row col cell : Z) (t : lines) : Prop :=
  wrote (textbuf (tx s)) (textbuf t) (fun r c => if (r =? start_of s + row) && (c =? col) then Some cell else None) /\
  total_lines t = Z.max (total_lines (tx s)) (start_of s + row + 1) /\ scroll_pos t = scroll_pos (tx s) /\ buf_hydrated t = buf_hydrated (tx s) /\ buf_col t = buf_col (tx s).
Lemma con_update_ok s row col cell (Q : unit -> screen -> Prop) : base_ok s -> 0 <= row < screen_rows s -> 0 <= col < screen_cols s ->
  (forall t, written s row col cell t -> base_ok (with_tx t s) -> start_of (with_tx t s) = start_of s -> Q tt (with_tx t s)) -> wp False (screen_update_textbuf_cell row col cell) Q s.
Proof.
  intros Hs Hr Hc HQ. pose proof (bo_core _ Hs) as Hco. pose proof (start_bounds s Hs) as Hst. pose proof (max_start_bounds s Hco) as (Hm1 & Hm2 & Hm3). pose proof (co_total _ Hco) as Ht. pose proof (co_rows _ Hco) as Hrows. pose proof (co_cols _ Hco) as Hcols.
  unfold screen_update_textbuf_cell. apply wp_bind, wp_gets. cbv beta. rewrite (proj2 (Z.ltb_ge row 0)), (proj2 (Z.ltb_ge col 0)), (proj2 (Z.leb_gt _ row)), (proj2 (Z.leb_gt _ col)) by lia. cbn [orb].
  apply wp_bind. eapply wp_ok; [by apply visible_start_ok|]. apply wp_bind, wp_gets. cbv beta zeta. unfold MAX_SCROLL_LINES, SCREEN_MAX_ROWS, SCREEN_MAX_COLS in *. rewrite (proj2 (Z.leb_gt 500 _)) by lia.
  destruct (tset_ok (textbuf (tx s)) (start_of s + row) col cell) as (b' & Eb & Wb); [by apply core_buf|unfold MAX_SCROLL_LINES; lia|unfold SCREEN_MAX_COLS; lia|].
  assert (Hgo : forall t, textbuf t = textbuf (tx s) -> total_lines t = Z.max (total_lines (tx s)) (start_of s + row + 1) -> scroll_pos t = scroll_pos (tx s) -> buf_hydrated t = buf_hydrated (tx s) -> buf_col t = buf_col (tx s) ->
    wp False (set_cell (start_of s + row) col cell) Q (with_tx t s)).
  { intros t E1 E2 E3 E4 E5. unfold set_cell. apply wp_bind, wp_gets. cbv beta. cbn [tx with_tx]. rewrite E1. apply wp_bind. rewrite Eb. apply wp_lift_some. unfold mod_tx. apply wp_modify.
    cbn [tx with_tx]. change (with_tx (with_textbuf b' t) (with_tx t s)) with (with_tx (with_textbuf b' t) s).
    assert (Hmax : max_start (with_tx (with_textbuf b' t) s) = max_start s) by (unfold max_start; cbn [tx with_tx total_lines with_textbuf screen_rows]; rewrite E2; unfold max_start in *; bdestr; lia).
    apply HQ; [unfold written; cbn [textbuf with_textbuf total_lines scroll_pos buf_hydrated buf_col]; done| |].
    - split; [apply core_tx; cbn [textbuf with_textbuf total_lines buf_hydrated buf_col]; try done; [apply Wb|rewrite E2; unfold MAX_SCROLL_LINES; lia|rewrite E5; apply Hco|by rewrite E4]|].
      rewrite Hmax. cbn [tx with_tx scroll_pos with_textbuf]. rewrite E3. apply Hs.
    - unfold start_of. rewrite Hmax. cbn [tx with_tx scroll_pos with_textbuf]. by rewrite E3. }
  apply wp_bind. apply wp_if; intros E.
  - apply Z.leb_le in E. unfold mod_tx. apply wp_modify. apply Hgo; try done. cbn. lia.
  - apply Z.leb_gt in E. apply wp_ret. replace s with (with_tx (tx s) s) by (by destruct s). apply Hgo; try done. lia.
Qed.
Lemma update_outside s row col cell : ~ (0 <= row < screen_rows s /\ 0 <= col < screen_cols s) -> screen_update_textbuf_cell row col cell s = Ok (tt, s).
Proof.
  intros H. unfold screen_update_textbuf_cell. rewrite bind_get. destruct (_ || _) eqn:E1; [done|]. destruct ((_ <=? _) || _) eqn:E2; [done|].
  rewrite !orb_false_iff, !Z.ltb_ge, !Z.leb_gt in *. lia.
Qed.

(** A blank line at the end *)
Definition appended (s : screen) (attr : Z) (t : lines) : Prop :=
  buf_ok (textbuf t) /\ scroll_pos t = 0 /\ buf_hydrated t = buf_hydrated (tx s) /\ buf_col t = buf_col (tx s) /\
  total_lines t = Z.min (total_lines (tx s) + 1) MAX_SCROLL_LINES /\
  let k := if MAX_SCROLL_LINES <=? total_lines (tx s) then 1 else 0 in
  (forall r c, 0 <= r < total_lines t - 1 -> 0 <= c < SCREEN_MAX_COLS -> cell_of (textbuf t) r c = cell_of (textbuf (tx s)) (r + k) c) /\
  (forall c, 0 <= c < SCREEN_MAX_COLS -> cell_of (textbuf t) (total_lines t - 1) c = mkcell attr 32) /\
  (forall r c, total_lines t <= r < MAX_SCROLL_LINES -> 0 <= c < SCREEN_MAX_COLS -> cell_of (textbuf t) r c = cell_of (textbuf (tx s)) r c).
Lemma append_ok s attr (Q : unit -> screen -> Prop) : core_ok s -> (forall t, appended s attr t -> base_ok (with_tx t s) -> Q tt (with_tx t s)) -> wp False (screen_append_blank_line attr) Q s.
Proof.
  intros Hs HQ. pose proof (co_total _ Hs) as Ht. pose proof (co_col _ Hs) as Hcol. pose proof (core_buf s Hs) as Hb. unfold screen_append_blank_line. apply wp_bind, wp_gets. cbv beta.
  set (k := if MAX_SCROLL_LINES <=? total_lines (tx s) then 1 else 0).
  assert (Hgo : forall t, buf_ok (textbuf t) -> total_lines t = total_lines (tx s) - k -> buf_hydrated t = buf_hydrated (tx s) -> buf_col t = buf_col (tx s) ->
    (forall r c, 0 <= r < total_lines t -> cell_of (textbuf t) r c = cell_of (textbuf (tx s)) (r + k) c) ->
    (k = 0 -> textbuf t = textbuf (tx s)) ->
    wp False (total <- gets (fun s => total_lines (tx s));; fill_line (mkcell attr 32) total;;; mod_tx (with_total (total + 1));;; mod_tx (with_scroll 0)) Q (with_tx t s)).
  { intros t B1 E1 E2 E3 E4 E5. assert (Hk : 0 <= k <= 1) by (subst k; bdestr; lia). assert (Hk1 : total_lines t < MAX_SCROLL_LINES) by (subst k; rewrite E1; bdestr; lia). assert (Hk2 : 0 <= total_lines t) by (unfold MAX_SCROLL_LINES in *; rewrite E1; subst k; bdestr; lia).
    apply wp_bind, wp_gets. cbv beta. cbn [tx with_tx]. unfold fill_line. apply wp_bind, wp_bind, wp_gets. cbv beta. cbn [tx with_tx].
    destruct (fill_ok (textbuf t) (total_lines t) (mkcell attr 32) B1 ltac:(lia)) as (b' & Eb & W1 & W2). rewrite Eb. apply wp_bind, wp_lift_some. unfold mod_tx. apply wp_modify, wp_bind, wp_modify, wp_modify.
    cbn [tx with_tx]. set (t' := with_scroll 0 (with_total (total_lines t + 1) (with_textbuf b' t))).
    change (Q tt (with_tx t' s)). apply HQ.
    - unfold appended. cbn [textbuf t' total_lines with_scroll with_total with_textbuf scroll_pos buf_hydrated buf_col]. split_and!; try done.
      + rewrite E1. subst k. bdestr; lia.
      + intros r c Hr Hc. rewrite W2 by lia. rewrite (proj2 (Z.eqb_neq _ _)) by lia. cbn. apply E4. lia.
      + intros c Hc. rewrite W2 by lia. replace (total_lines t + 1 - 1) with (total_lines t) by lia. by rewrite Z.eqb_refl.
      + intros r c Hr Hc. rewrite W2 by lia. rewrite (proj2 (Z.eqb_neq _ _)) by lia. cbn. rewrite E5; [done|]. subst k. unfold MAX_SCROLL_LINES in *. destruct (Z.leb_spec 500 (total_lines (tx s))); [|done]. lia.
    - split; [apply core_tx; cbn; try done; [lia|congruence|by rewrite E2]|]. cbn. unfold max_start. cbn. bdestr; lia. }
  apply wp_bind. apply wp_if; intros E.
  - unfold mod_tx. apply wp_bind, wp_modify, wp_modify. cbn [tx with_tx]. destruct (shift_ok _ Hb) as [S1 S2]. assert (k = 1) as Ek by (subst k; by rewrite E). apply Z.leb_le in E.
    apply (Hgo (with_total (MAX_SCROLL_LINES - 1) (shift_lines (tx s)))); try done.
    + cbn. lia.
    + intros r c Hr. cbn in Hr. rewrite Ek. cbn [textbuf with_total shift_lines with_textbuf]. by apply S2.
    + lia.
  - assert (k = 0) as Ek by (subst k; by rewrite E). apply wp_ret. assert (Hid : with_tx (tx s) s = s) by (by destruct s). specialize (Hgo (tx s)). rewrite Hid in Hgo. apply Hgo; try done; [rewrite Ek; lia|]. intros r c Hr. by rewrite Ek, Z.add_0_r.
Qed.

(** ** The invariant with what the display shows *)

(** Lines behind the last one are blank. *)
Definition tail_blank (t : lines) : Prop := (buf_hydrated t = false -> total_lines t = 0) /\ forall r c, total_lines t <= r < MAX_SCROLL_LINES -> 0 <= c < SCREEN_MAX_COLS -> cell_of (textbuf t) r c = blank_cell.
Lemma shown_almost s : shown s -> almost s.
Proof.
  intros H. eapply shows_alike; [exact H|]. intros c r d Hc Hr Hd. cbv beta in *. destruct (on_cursor s c r) eqn:E; [done|]. injection Hd as <-. eexists. split; [done|reflexivity].
Qed.
(** [P]: whether the display is to show the text *)
Definition nice (P : bool) (s : screen) : Prop := P = true -> tail_blank (tx s).
Record inv (P : bool) (s : screen) : Prop := {
  iv_base : base_ok s;
  iv_nice : nice P s;
  iv_shown : P = true -> enabled (g_fb s) = true -> shown s;
}.
Record pre (P : bool) (s : screen) : Prop := {
  pr_base : base_ok s;
  pr_nice : nice P s;
  pr_almost : P = true -> enabled (g_fb s) = true -> almost s;
}.
Lemma inv_pre P s : inv P s -> pre P s.
Proof. intros [Hb Hn Hs]. split; [done|done|]. intros HP He. by apply shown_almost, Hs. Qed.

(** ** Filling lines *)

Definition filled (t0 t : lines) (n : Z) : Prop :=
  wrote (textbuf t0) (textbuf t) (fun r _ => if r <? n then Some blank_cell else None) /\ total_lines t = total_lines t0 /\ scroll_pos t = scroll_pos t0 /\ buf_hydrated t = buf_hydrated t0 /\ buf_col t = buf_col t0.
Lemma fill_lines_ok s n (Q : unit -> screen -> Prop) : buf_ok (textbuf (tx s)) -> 0 <= n <= MAX_SCROLL_LINES -> (forall t, filled (tx s) t n -> Q tt (with_tx t s)) ->
  wp False (for_ 0 n (fill_line blank_cell)) Q s.
Proof.
  intros Hb Hn HQ. apply (wp_for (fun i s1 => exists t, s1 = with_tx t s /\ filled (tx s) t i)).
  - exists (tx s). split; [by destruct s|]. split; [|done]. split; [done|]. intros r c Hr Hc. by rewrite (proj2 (Z.ltb_ge _ _)) by lia.
  - intros i s1 Hi (t & -> & (W1 & W2) & E1 & E2 & E3 & E4). unfold fill_line. apply wp_bind, wp_gets. cbv beta. cbn [tx with_tx].
    destruct (fill_ok (textbuf t) i blank_cell W1 ltac:(lia)) as (b' & Eb & V1 & V2). apply wp_bind. rewrite Eb. apply wp_lift_some. unfold mod_tx. apply wp_modify.
    exists (with_textbuf b' t). split; [done|]. split; [|done]. split; [done|]. intros r c Hr Hc. cbn [textbuf with_textbuf]. rewrite V2, W2 by done.
    destruct (Z.eqb_spec r i), (Z.ltb_spec r i), (Z.ltb_spec r (i + 1)); try done; lia.
  - intros s1 (t & -> & Hf). apply HQ. by replace (Z.max 0 n) with n in Hf by lia.
Qed.
(** What filling the buffer for the first time does to it *)
Definition hydration (rows : Z) (t0 t : lines) : Prop :=
  buf_hydrated t = true /\ buf_col t = buf_col t0 /\ buf_ok (textbuf t) /\ (0 <= total_lines t0 <= MAX_SCROLL_LINES -> 0 <= total_lines t <= MAX_SCROLL_LINES) /\
  (buf_hydrated t0 = true -> t = t0) /\ (tail_blank t0 -> tail_blank t) /\
  (buf_hydrated t0 = false -> total_lines t = rows /\ scroll_pos t = 0 /\ forall r c, 0 <= r < rows -> 0 <= c < SCREEN_MAX_COLS -> cell_of (textbuf t) r c = blank_cell).
Lemma hydrate_tx s (Q : unit -> screen -> Prop) : buf_ok (textbuf (tx s)) -> 1 <= screen_rows s <= SCREEN_MAX_ROWS -> (forall t, hydration (screen_rows s) (tx s) t -> Q tt (with_tx t s)) ->
  wp False hydrate_buffer_from_vga_once Q s.
Proof.
  intros Hbuf Hrows HQ. unfold hydrate_buffer_from_vga_once, SCREEN_MAX_ROWS in *. apply wp_bind, wp_gets. cbv beta. destruct (buf_hydrated (tx s)) eqn:E.
  - apply wp_ret. assert (Hid : with_tx (tx s) s = s) by (by destruct s). rewrite <-Hid. apply HQ. unfold hydration. split_and!; try done; congruence.
  - apply wp_bind, wp_gets, wp_bind. cbv beta. apply fill_lines_ok; [done|unfold MAX_SCROLL_LINES in *; lia|].
    intros t ((W1 & W2) & E1 & E2 & E3 & E4). unfold mod_tx. apply wp_bind, wp_modify, wp_bind, wp_modify, wp_modify. cbn [tx with_tx].
    set (t' := with_hydrated (with_scroll 0 (with_total (screen_rows s) t))). change (Q tt (with_tx t' s)). apply HQ. unfold hydration. split_and!; try done.
    + cbn. unfold MAX_SCROLL_LINES. lia.
    + congruence.
    + intros [Ht0 Ht]. split; [done|]. intros r c Hr Hcc. cbn in *. rewrite W2 by lia. rewrite (proj2 (Z.ltb_ge _ _)) by lia. cbn. apply Ht; [|done]. rewrite Ht0 by done. lia.
    + intros _. split; [done|]. split; [done|]. intros r c Hr Hcc. cbn. rewrite W2 by (unfold MAX_SCROLL_LINES in *; lia). by rewrite (proj2 (Z.ltb_lt _ _)) by lia.
Qed.
Lemma hydrate_ok s (Q : unit -> screen -> Prop) : base_ok s -> (forall t, hydration (screen_rows s) (tx s) t -> base_ok (with_tx t s) -> Q tt (with_tx t s)) -> wp False hydrate_buffer_from_vga_once Q s.
Proof.
  intros Hs HQ. pose proof (bo_core _ Hs) as Hc. pose proof (co_total _ Hc) as Ht. apply hydrate_tx; [by apply core_buf|apply Hc|]. intros t Hy. apply HQ; [done|]. destruct Hy as (H1 & H2 & H3 & H4 & H5 & H6 & H7).
  destruct (buf_hydrated (tx s)) eqn:E; [rewrite H5 by done; by replace (with_tx (tx s) s) with s by (by destruct s)|]. destruct (H7 eq_refl) as (E1 & E2 & _).
  split; [apply core_tx; try done; [by apply H4|rewrite H2; apply Hc]|]. cbn [tx with_tx]. rewrite E2. unfold max_start. cbn. bdestr; lia.
Qed.

(** ** The position of the cursor *)

(** The cell of the cursor, counted from the first *)
Definition cursor_at (s : screen) : Z :=
  if enabled (g_fb s) then fb_cursor_row (cu s) * screen_cols s + fb_cursor_col (cu s) else Z.shiftl (crtc s 14) 8 + crtc s 15.
(** The same state, but for the index that the adapter remembers *)
Definition quiet (s s' : screen) : Prop :=
  (enabled (g_fb s) = true -> s' = s) /\ exists v, s' = with_fnt (with_adapter v (fnt s)) s /\ plane2 v = plane2 (adapter (fnt s)) /\ regs v = regs (adapter (fnt s)).
Lemma quiet_refl s : quiet s s.
Proof. split; [done|]. exists (adapter (fnt s)). split; [by destruct s as [? ? ? ? ? ? ? ? ? ? ? [] ? ? ?]|done]. Qed.
Lemma font_ok_adapter v ft : font_ok ft -> plane2 v = plane2 (adapter ft) -> font_ok (with_adapter v ft).
Proof. intros [] E. constructor; try done. cbn. by rewrite E. Qed.
Lemma core_adapter s v : core_ok s -> plane2 v = plane2 (adapter (fnt s)) -> is_u8 (reg v REG_SCREEN_DATA 14) -> is_u8 (reg v REG_SCREEN_DATA 15) -> core_ok (with_fnt (with_adapter v (fnt s)) s).
Proof. intros [? ? ? ? ? ? ? ? ? ? Hd] Ev H14 H15. constructor; try done; [by apply font_ok_adapter|]. destruct Hd as [?|(? & [] & ? & ?)]; [by left|]. right. split_and!; try done. Qed.
Lemma quiet_base s s' : base_ok s -> quiet s s' -> base_ok s'.
Proof. intros [Hc Hp] (_ & v & -> & E & Er). destruct (co_crtc _ Hc) as [H14 H15]. split; [|done]. apply core_adapter; [done|done|unfold crtc, reg in *; by rewrite Er..]. Qed.
Lemma quiet_pre P s s' : pre P s -> quiet s s' -> pre P s'.
Proof.
  intros [Hb Hn Ha] Hq. pose proof Hq as (Hon & v & E & _). split; [by eapply quiet_base|subst s'; done|]. intros HP He. assert (enabled (g_fb s) = true) as He' by (by subst s'). rewrite (Hon He') in *. by apply Ha.
Qed.
Lemma wp_on_font {A} (m : M font A) (Q : A -> screen -> Prop) s : wp False m (fun a v => Q a (with_fnt v s)) (fnt s) -> wp False (on_font m) Q s.
Proof. unfold wp, on_font. by destruct (m (fnt s)) as [[a v]| |]. Qed.
Lemma wp_select i (Q : unit -> screen -> Prop) s : Q tt (with_fnt (with_adapter (Vga (<[REG_SCREEN_CTRL := i]> (latch (adapter (fnt s)))) (regs (adapter (fnt s))) (plane2 (adapter (fnt s)))) (fnt s)) s) ->
  wp False (on_font (out REG_SCREEN_CTRL i)) Q s.
Proof. intros HQ. apply wp_on_font. unfold out. apply wp_on_vga. unfold hal_out8. apply wp_modify. exact HQ. Qed.
Lemma con_wp_read_data (Q : Z -> screen -> Prop) s : Q (crtc s (selected (adapter (fnt s)) REG_SCREEN_DATA)) s -> wp False (on_font (on_vga (hal_in8 REG_SCREEN_DATA))) Q s.
Proof.
  intros HQ. apply wp_on_font, wp_on_vga. unfold hal_in8. apply wp_gets.
  replace (with_fnt (with_adapter (adapter (fnt s)) (fnt s)) s) with s by (by destruct s as [? ? ? ? ? ? ? ? ? ? ? [] ? ? ?]). exact HQ.
Qed.
Lemma cursor_bounds s : core_ok s -> cursor_in s -> 0 <= fb_cursor_row (cu s) * screen_cols s + fb_cursor_col (cu s) < screen_rows s * screen_cols s.
Proof. intros Hs [Hr Hc]. pose proof (co_cols _ Hs). pose proof (co_rows _ Hs). nia. Qed.
Lemma get_cursor_ok s (Q : Z -> screen -> Prop) : core_ok s -> (forall s', quiet s s' -> Q (2 * cursor_at s) s') -> wp False get_cursor_offset Q s.
Proof.
  intros Hs HQ. unfold get_cursor_offset. apply wp_bind, wp_gets. cbv beta. unfold cursor_at in HQ. destruct (enabled (g_fb s)) eqn:E.
  - destruct (fb_mode s Hs E) as (_ & _ & Hin & _). pose proof (cursor_bounds s Hs Hin). pose proof (co_cols _ Hs). pose proof (co_rows _ Hs). unfold SCREEN_MAX_COLS, SCREEN_MAX_ROWS in *.
    apply wp_ret. unfold get_offset. rewrite s32_small by nia. apply HQ, quiet_refl.
  - apply wp_bind, wp_select, wp_bind, con_wp_read_data, wp_bind, wp_select, wp_bind, con_wp_read_data, wp_ret. unfold selected. cbn [fnt with_fnt adapter with_adapter latch]. change (REG_SCREEN_DATA - 1) with REG_SCREEN_CTRL. rewrite !lookup_insert_eq. cbn [from_option default].
    unfold crtc. cbn [fnt with_fnt adapter with_adapter]. unfold reg. cbn [regs]. rewrite Z.mul_comm. apply HQ. split; [congruence|]. eexists. split; [reflexivity|done].
Qed.

(** ** Moving the cursor *)

Definition moved (s s' : screen) : Prop :=
  if enabled (g_fb s) then exists m r c, s' = with_fbm m (with_cu (with_pos r c (cu s)) s)
  else exists v, s' = with_fnt (with_adapter v (fnt s)) s.
Lemma nice_same P s s' : nice P s -> tx s' = tx s -> nice P s'.
Proof. unfold nice. by intros H ->. Qed.
Lemma clip_range row n : 0 < n -> 0 <= (if n <=? (if row <? 0 then 0 else row) then n - 1 else if row <? 0 then 0 else row) < n.
Proof. intros. bdestr; lia. Qed.

(** The cursor goes to another cell: the old one is drawn without it, the new one with it. *)
Lemma con_move_cursor_ok P s r c (Q : unit -> screen -> Prop) : pre P s -> enabled (g_fb s) = true -> 0 <= r < screen_rows s -> 0 <= c < screen_cols s ->
  (forall m, inv P (with_fbm m (with_cu (with_pos r c (cu s)) s)) -> Q tt (with_fbm m (with_cu (with_pos r c (cu s)) s))) ->
  wp False (mod_cu (with_pos r c);;; if fb_cursor_visible (cu s) then fb_cursor_erase_at (fb_cursor_col (cu s)) (fb_cursor_row (cu s));;; fb_cursor_draw_at c r else ret tt) Q s.
Proof.
  intros [Hb Hn Ha] He Hr Hc HQ. destruct (fb_mode s (bo_core _ Hb) He) as (Hm & Hg & [Hcr Hcc] & Hh). unfold mod_cu. apply wp_bind, wp_modify.
  set (s1 := with_cu (with_pos r c (cu s)) s). assert (Hb1 : base_ok s1). { destruct Hb as [Hc0 Hp0]. split; [|done]. destruct Hc0. constructor; try done. right. by split_and!. }
  destruct (fb_cursor_visible (cu s)) eqn:Ev.
  - apply wp_bind, erase_at_ok; try done. intros s2 R2 D2. pose proof R2 as (m2 & -> & _).
    apply draw_at_ok; [by eapply redrawn_base|done|done|done|]. intros s3 R3 _ D3. pose proof R3 as (m3 & -> & _). change (with_fbm m3 (with_fbm m2 s1)) with (with_fbm m3 s1) in *. apply HQ.
    split; [by eapply redrawn_base, R3; eapply redrawn_base|by apply (nice_same P s)|]. intros HP _. specialize (Ha HP He). unfold almost in *.
    specialize (D2 _ Ha). change (view s1) with (view s) in D2. change (view (with_fbm m2 s1)) with (view s) in D3.
    assert (Hall : showing (with_fbm m2 s1) (plain (view s))).
    { eapply shows_alike; [exact D2|]. intros c' r' d _ _ [= <-]. exists (view s c' r', false). split; [|reflexivity].
      destruct (decide ((c', r') = (fb_cursor_col (cu s), fb_cursor_row (cu s)))) as [E|E]; [injection E as -> ->; apply con_upd_eq|]. rewrite con_upd_ne by done.
      destruct (on_cursor s c' r') eqn:Eo; [|done]. apply on_cursor_true in Eo as (_ & -> & ->). done. }
    eapply shows_alike; [exact (D3 _ false Ev eq_refl Hall)|]. intros c' r' d _ _ [= <-]. change (view (with_fbm m3 s1)) with (view s). unfold on_cursor. cbn [cu with_fbm s1 with_cu fb_cursor_visible with_pos fb_cursor_col fb_cursor_row]. rewrite Ev. cbn [andb].
    unfold upd, plain. destruct (Z.eqb_spec c' c) as [->|], (Z.eqb_spec r' r) as [->|]; cbn [andb]; eexists; split; reflexivity.
  - apply wp_ret. replace s1 with (with_fbm (fbm s) s1) by done. apply HQ. split; [done|by apply (nice_same P s)|]. intros HP _. specialize (Ha HP He). eapply shows_alike; [exact Ha|].
    intros c' r' d _ _ [= <-]. cbv beta. change (view (with_fbm _ s1)) with (view s). unfold on_cursor. cbn [cu with_fbm s1 with_cu fb_cursor_visible with_pos]. rewrite Ev. cbn [andb]. eexists; split; reflexivity.
Qed.
End ScreenSafe.
