(* ===== verification/ScreenClaims.v ===== *)
(** * The console: every operation, and what it promises

    Any sequence of operations stays inside its arrays, the text memory and the frame buffer, and the
    display shows the visible lines of the buffer; printed text is that of a simple terminal. *)
From S2P Require Import Prelude Klog Font Screen ScreenSafe.

Module ScreenClaims.
Import Vga Font Screen ScreenDraw ScreenSafe.
Implicit Types s : screen.

(** ** Offsets *)

Lemma offset_pos cols k : 1 <= cols -> 0 <= k -> get_offset_row cols (2 * k) = k / cols /\ get_offset_col cols (2 * k) = k mod cols.
Proof.
  intros Hc Hk. assert (Hr : get_offset_row cols (2 * k) = k / cols).
  { unfold get_offset_row. rewrite Z.quot_div_nonneg by lia. apply Z.div_mul_cancel_l; lia. }
  split; [done|]. unfold get_offset_col. rewrite Hr. pose proof (Z.div_mod k cols ltac:(lia)). pose proof (Z.mod_pos_bound k cols ltac:(lia)).
  replace (2 * k - k / cols * 2 * cols) with (2 * (k mod cols)) by lia. rewrite Z.quot_div_nonneg by lia. rewrite Z.mul_comm. by apply Z.div_mul.
Qed.
Lemma clip_id row n : 0 <= row < n -> (if n <=? (if row <? 0 then 0 else row) then n - 1 else if row <? 0 then 0 else row) = row.
Proof. intros. bdestr; lia. Qed.
Lemma crtc_bytes k : 0 <= k < 65536 -> Z.shiftl (u8 (Z.shiftr k 8)) 8 + u8 (Z.land k 0xff) = k.
Proof. intros Hk. rewrite u8_land_ff, Z.shiftl_mul_pow2, Z.shiftr_div_pow2 by lia. change (2 ^ 8) with 256. word_lia. Qed.
Lemma con_wp_write_data v (Q : unit -> screen -> Prop) s :
  Q tt (with_fnt (with_adapter (Vga (latch (adapter (fnt s))) (<[(REG_SCREEN_DATA, selected (adapter (fnt s)) REG_SCREEN_DATA) := v]> (regs (adapter (fnt s)))) (plane2 (adapter (fnt s)))) (fnt s)) s) ->
  wp False (on_font (out REG_SCREEN_DATA v)) Q s.
Proof. intros HQ. apply wp_on_font. unfold out. apply wp_on_vga. unfold hal_out8. apply wp_modify. exact HQ. Qed.

Lemma set_cursor_ok P s off (Q : unit -> screen -> Prop) : pre P s ->
  (forall s', moved s s' -> inv P s' -> (forall k, off = 2 * k -> 0 <= k < screen_rows s * screen_cols s -> cursor_at s' = k) -> Q tt s') -> wp False (set_cursor_offset off) Q s.
Proof.
  intros Hp HQ. pose proof Hp as [Hb Hn Ha]. pose proof (bo_core _ Hb) as Hc. pose proof (co_cols _ Hc) as Hcols. pose proof (co_rows _ Hc) as Hrows.
  unfold set_cursor_offset. apply wp_bind, wp_gets. cbv beta. unfold moved in HQ. destruct (enabled (g_fb s)) eqn:E.
  - cbv zeta. apply (con_move_cursor_ok P); [done|done|apply clip_range; lia|apply clip_range; lia|]. intros m Hi. apply HQ; [by do 3 eexists|done|].
    intros k -> Hk. destruct (offset_pos (screen_cols s) k ltac:(lia) ltac:(lia)) as [-> ->]. pose proof (Z.div_mod k (screen_cols s) ltac:(lia)). pose proof (Z.mod_pos_bound k (screen_cols s) ltac:(lia)).
    assert (0 <= k / screen_cols s < screen_rows s) by (split; [apply Z.div_pos; lia|apply Z.div_lt_upper_bound; lia]).
    rewrite !clip_id by lia. unfold cursor_at. cbn [g_fb with_fbm with_cu cu fb_cursor_row with_pos fb_cursor_col screen_cols]. rewrite E. lia.
  - destruct (vga_mode s Hc E) as [E80 E25]. cbv zeta. apply wp_bind, wp_select, wp_bind, con_wp_write_data, wp_bind, wp_select, con_wp_write_data. unfold selected. cbn [fnt with_fnt adapter with_adapter latch regs plane2]. change (REG_SCREEN_DATA - 1) with REG_SCREEN_CTRL. rewrite !lookup_insert_eq. cbn [default from_option].
    match goal with |- Q tt ?x => assert (Hx : exists v, x = with_fnt (with_adapter v (fnt s)) s /\ plane2 v = plane2 (adapter (fnt s)) /\ reg v REG_SCREEN_DATA 14 = u8 (Z.shiftr (Z.quot off 2) 8) /\ reg v REG_SCREEN_DATA 15 = u8 (Z.land (Z.quot off 2) 0xff)) end.
    { eexists. split; [reflexivity|]. split; [done|]. unfold reg, id. cbn [regs]. split; [rewrite lookup_insert_ne by congruence; by rewrite lookup_insert_eq|by rewrite lookup_insert_eq]. }
    destruct Hx as (v & -> & Hv & H14 & H15). apply HQ; [by eexists| |].
    + split; [split; [apply core_adapter; [done|done|rewrite H14; apply u8_range|rewrite H15; apply u8_range]|apply Hb]|done|]. intros _ He. cbn in He. congruence.
    + intros k -> Hk. unfold cursor_at, crtc. cbn [g_fb with_fnt fnt adapter with_adapter]. rewrite E, H14, H15. rewrite Z.mul_comm, Z.quot_mul by lia. apply crtc_bytes. nia.
Qed.

(** ** Cells on the display and in the buffer *)

Lemma draw_outside s col row cell : outside s col row = true -> screen_draw_cell col row cell s = Ok (tt, s).
Proof. intros H. unfold screen_draw_cell. by rewrite bind_get, H. Qed.
(** The display is drawn on, nothing else changes. *)
Definition painted (s s' : screen) : Prop := exists m v, s' = with_vram v (with_fbm m s) /\ length v = length (vram s) /\ (enabled (g_fb s) = true -> fb_ok (g_fb s) m) /\ (enabled (g_fb s) = false -> m = fbm s).
Lemma painted_core s s' : core_ok s -> painted s s' -> core_ok s'.
Proof.
  intros [? ? ? ? ? ? ? ? ? ? Hd] (m & v & -> & Hv & Hm & _). constructor; try done; [cbn; congruence|]. destruct Hd as [?|(? & ? & ? & ?)]; [by left|]. right. split_and!; try done. apply Hm. by destruct H.
Qed.
Lemma painted_base s s' : base_ok s -> painted s s' -> base_ok s'.
Proof. intros [Hc Hp] Hr. split; [by eapply painted_core|]. by destruct Hr as (m & v & -> & _). Qed.
Lemma redrawn_painted s s' : enabled (g_fb s) = true -> redrawn s s' -> painted s s'.
Proof. intros He (m & -> & Hm). exists m, (vram s). split_and!; try done. congruence. Qed.
Lemma vram_painted s s' : enabled (g_fb s) = false -> vram_only s s' -> painted s s'.
Proof. intros He (v & -> & Hv). exists (fbm s), v. split_and!; try done. congruence. Qed.
Lemma painted_refl s : core_ok s -> painted s s.
Proof. intros Hc. exists (fbm s), (vram s). split_and!; try done; [by destruct s|]. intros He. by apply fb_mode. Qed.
Lemma screen_draw_ok s col row cell (Q : unit -> screen -> Prop) : core_ok s ->
  (forall s', painted s s' -> (outside s col row = true -> s' = s) ->
     (outside s col row = false -> forall D, enabled (g_fb s) = true -> showing s D -> showing s' (upd D col row (cell, false))) -> Q tt s') ->
  wp False (screen_draw_cell col row cell) Q s.
Proof.
  intros Hc HQ. unfold screen_draw_cell. apply wp_bind, wp_gets. cbv beta. destruct (outside s col row) eqn:E; [apply wp_ret, HQ; [by apply painted_refl|done|done]|].
  apply outside_iff in E as [Hx Hy]. destruct (enabled (g_fb s)) eqn:He.
  - apply draw_cell_ok; try done. intros s' R D. apply HQ; [by apply redrawn_painted|done|]. intros _ D0 _. apply D.
  - unfold vga_poke. destruct (vga_mode s Hc He) as [E80 E25]. pose proof (co_vram _ Hc). apply wp_bind, wp_gets, wp_bind. cbv beta. rewrite lset_in by nia. apply wp_lift_some, wp_modify, HQ; [|done|done].
    apply vram_painted; [done|]. eexists. split; [done|]. by rewrite length_insert.
Qed.

Lemma written_view s row col cell t c r : base_ok s -> written s row col cell t -> start_of (with_tx t s) = start_of s -> 0 <= row < screen_rows s -> 0 <= col < screen_cols s -> 0 <= c < screen_cols s -> 0 <= r < screen_rows s ->
  view (with_tx t s) c r = (if (c =? col) && (r =? row) then cell else view s c r) \/
  (c, r) <> (col, row) /\ view s c r = blank_cell /\ total_lines (tx s) <= start_of s + r < MAX_SCROLL_LINES /\ view (with_tx t s) c r = cell_of (textbuf (tx s)) (start_of s + r) c.
Proof.
  intros Hb ((W1 & W2) & Et & _) Hst Hr Hc Hcc Hrr. pose proof (bo_core _ Hb) as Hco. pose proof (start_bounds s Hb). pose proof (max_start_bounds s Hco). pose proof (co_total _ Hco). pose proof (co_cols _ Hco). pose proof (co_rows _ Hco).
  unfold view, view_at. rewrite Hst. cbn [tx with_tx]. rewrite Et. unfold MAX_SCROLL_LINES, SCREEN_MAX_COLS, SCREEN_MAX_ROWS in *. rewrite (W2 (start_of s + r) c) by lia.
  destruct (Z.eqb_spec c col) as [->|Hne1], (Z.eqb_spec r row) as [->|Hne2]; cbn [andb].
  - left. rewrite Z.eqb_refl. by rewrite (proj2 (Z.leb_gt _ _)) by lia.
  - rewrite (proj2 (Z.eqb_neq (start_of s + r) _)) by lia. cbn [andb default from_option id]. destruct (Z.leb_spec (total_lines (tx s)) (start_of s + r)), (Z.leb_spec (Z.max (total_lines (tx s)) (start_of s + row + 1)) (start_of s + r)); try lia; try (by left).
    right. split_and!; try done; try lia. congruence.
  - rewrite Z.eqb_refl. cbn [andb default from_option id]. destruct (Z.leb_spec (total_lines (tx s)) (start_of s + row)), (Z.leb_spec (Z.max (total_lines (tx s)) (start_of s + row + 1)) (start_of s + row)); try lia; try (by left).
    right. split_and!; try done; try lia. congruence.
  - rewrite (proj2 (Z.eqb_neq (start_of s + r) _)) by lia. cbn [andb default from_option id]. destruct (Z.leb_spec (total_lines (tx s)) (start_of s + r)), (Z.leb_spec (Z.max (total_lines (tx s)) (start_of s + row + 1)) (start_of s + r)); try lia; try (by left).
    right. split_and!; try done; try lia. congruence.
Qed.
Lemma written_tail s row col cell t : base_ok s -> 0 <= row < screen_rows s -> written s row col cell t -> buf_hydrated (tx s) = true -> tail_blank (tx s) -> tail_blank t.
Proof.
  intros Hb Hr ((W1 & W2) & Et & _ & Eh & _) Hh [_ Ht]. split; [congruence|]. intros r c Hrr Hcc. pose proof (start_bounds s Hb). pose proof (co_total _ (bo_core _ Hb)). rewrite W2 by lia.
  rewrite (proj2 (Z.eqb_neq r _)) by lia. cbn. apply Ht; lia.
Qed.

(** The lines and the display change, nothing else. *)
Definition edited (s s' : screen) : Prop := exists t, painted (with_tx t s) s' /\ buf_hydrated t = buf_hydrated (tx s).
Lemma painted_edited s s' : painted s s' -> edited s s'.
Proof. intros H. exists (tx s). split; [|done]. by replace (with_tx (tx s) s) with s by (by destruct s). Qed.
(** After the cell at (col, row) was drawn and written *)
Lemma put_pre P s s' t row col cell : pre P s -> buf_hydrated (tx s) = true -> 0 <= row < screen_rows s -> 0 <= col < screen_cols s -> written s row col cell t -> base_ok (with_tx t s) ->
  start_of (with_tx t s) = start_of s -> painted (with_tx t s) s' ->
  (forall D, enabled (g_fb s) = true -> showing s D -> showing s' (upd D col row (cell, false))) -> pre P s'.
Proof.
  intros [Hb Hn Ha] Hh Hr Hc Hw Hb' Hst Hp HD. pose proof Hp as (m & v & -> & _). split; [by eapply painted_base| |].
  - intros HP. apply (written_tail s row col cell t); try done. by apply Hn.
  - intros HP He. specialize (Ha HP He). pose proof (Hn HP) as [_ Ht]. eapply shows_alike; [exact (HD _ He Ha)|].
    intros c r d Hcc Hrr Hd. cbv beta in Hd. change (on_cursor _ c r) with (on_cursor s c r) in Hd. destruct (on_cursor s c r) eqn:Eo; [done|]. injection Hd as <-.
    change (view _ c r) with (view (with_tx t s) c r). destruct (written_view s row col cell t c r Hb Hw Hst Hr Hc Hcc Hrr) as [E|(Hne & E1 & E2 & E3)].
    + rewrite E. unfold upd. destruct (_ && _); [eexists; split; [done|reflexivity]|]. rewrite Eo. eexists; split; [done|reflexivity].
    + rewrite con_upd_ne by done. rewrite Eo. eexists. split; [done|]. rewrite E1, E3, Ht; [reflexivity|done|]. pose proof (co_cols _ (bo_core _ Hb)). cbn in Hcc. lia.
Qed.
Definition put_effect (s s' : screen) (row col cell : Z) : Prop := if outside s col row then tx s' = tx s else written s row col cell (tx s').
Lemma put_ok P s row col cell (Q : unit -> screen -> Prop) : pre P s -> buf_hydrated (tx s) = true ->
  (forall s', pre P s' -> edited s s' -> put_effect s s' row col cell -> Q tt s') -> wp False (screen_draw_cell col row cell;;; screen_update_textbuf_cell row col cell) Q s.
Proof.
  intros Hpre Hh HQ. pose proof Hpre as [Hb Hn Ha]. apply wp_bind, screen_draw_ok; [apply Hb|]. intros s1 P1 Hout Hin. unfold put_effect in HQ. destruct (outside s col row) eqn:E.
  - rewrite (Hout eq_refl) in *. eapply wp_ok; [apply update_outside|apply HQ; [done|by apply painted_edited|done]]. intros [Hr Hc]. rewrite inside in E by done. done.
  - apply outside_iff in E as [Hx Hy]. pose proof P1 as (m & v & -> & Hv & Hm & Hm'). apply con_update_ok; [by eapply painted_base|done|done|]. intros t Hw Hb1 Hst.
    assert (Hb2 : base_ok (with_tx t s)). { destruct Hb1 as [Hc1 Hs1]. split; [|done]. destruct Hc1 as [? ? ? ? ? ? ? ? ? ? Hd]. constructor; try done; [cbn in *; apply Hb|]. destruct Hd as [?|(? & ? & ? & ?)]; [by left|]. right. split_and!; try done. cbn. apply (fb_mode s); [apply Hb|]. by destruct H. }
    assert (Hp2 : painted (with_tx t s) (with_tx t (with_vram v (with_fbm m s)))) by (by exists m, v).
    apply HQ; [|exists t; split; [done|]; by destruct Hw as (_ & _ & _ & -> & _)|done]. eapply (put_pre P s); try done. intros D He. by apply Hin.
Qed.

(** ** Scrolling *)

Lemma vga_scroll_ok s (Q : unit -> screen -> Prop) : core_ok s -> enabled (g_fb s) = false -> (forall s', vram_only s s' -> Q tt s') -> wp False vga_scroll Q s.
Proof.
  intros Hc He HQ. destruct (vga_mode s Hc He) as [E80 E25]. pose proof (co_vram _ Hc) as Hv. unfold vga_scroll. apply wp_bind, wp_gets, wp_bind. cbv beta.
  apply (wp_for_keep (vram_only s)); [apply vram_only_refl| |].
  - intros i s1 Hi V1. pose proof (vram_only_core _ _ Hc V1) as Hc1. pose proof V1 as (v1 & E1 & L1). apply wp_bind, wp_gets, wp_bind. cbv beta. assert (vram s1 = v1) as Ev by (by subst s1). rewrite Ev, slice_in by nia. apply wp_lift_some.
    apply vm_copy_ok; [done|by subst s1|subst s1; cbn; lia|subst s1; cbn; rewrite length_take, length_drop; nia|]. intros s2 V2. by eapply vram_only_trans.
  - intros s1 V1. pose proof V1 as (v1 & E1 & L1). apply vm_copy_ok; [by eapply vram_only_core|by subst s1|subst s1; cbn; lia|subst s1; by rewrite length_replicate|]. intros s2 V2. apply HQ. by eapply vram_only_trans.
Qed.
Lemma appended_tail s attr t : appended s attr t -> buf_hydrated (tx s) = true -> core_ok s -> tail_blank (tx s) -> tail_blank t.
Proof.
  intros (_ & _ & Eh & _ & Et & _ & _ & H3) Hh Hc [_ Ht]. split; [congruence|]. intros r c Hr Hcc. rewrite H3 by done. apply Ht; [|done]. pose proof (co_total _ Hc). lia.
Qed.
Lemma scroll_lines_ok P s attr (Q : unit -> screen -> Prop) : pre P s -> buf_hydrated (tx s) = true ->
  (forall s', inv P s' -> edited s s' -> appended s attr (tx s') -> Q tt s') -> wp False (scroll_lines attr) Q s.
Proof.
  intros [Hb Hn Ha] Hh HQ. pose proof (bo_core _ Hb) as Hc. unfold scroll_lines. apply wp_bind, wp_gets. cbv beta. destruct (enabled (g_fb s)) eqn:He; cbn [negb].
  - destruct (fb_mode s Hc He) as (_ & _ & [Hcr Hcc] & _). apply wp_bind, wp_bind. eapply wp_ok; [apply compute_start_ok; [done|apply Hb]|]. apply wp_bind.
    assert (Hgo : forall s1, redrawn s s1 -> wp False (ret (max_start s - scroll_pos (tx s))) (fun old_start => wp False (ret tt;;; screen_append_blank_line attr;;; p <- scroll_pos_now;; new_start <- screen_compute_start_for_scroll p;; done <- fb_scroll_view old_start new_start;; (if negb done then redraw_from_buffer else ret tt)) Q) s1).
    { intros s1 R1. pose proof (redrawn_core _ _ Hc R1) as Hc1. apply wp_ret, wp_bind, wp_ret, wp_bind, append_ok; [done|]. intros t Hap Hb2. apply wp_bind. unfold scroll_pos_now. apply wp_gets. cbv beta.
      apply wp_bind. eapply wp_ok; [apply compute_start_ok; [apply Hb2|apply Hb2]|]. unfold fb_scroll_view. apply wp_bind, wp_ret. cbn [negb].
      pose proof R1 as (m1 & -> & Hm1). apply redraw_fb_ok; [apply Hb2|done|]. rewrite settle_id by done. intros s3 R3 S3. pose proof R3 as (m3 & -> & Hm3). apply HQ.
      - split; [by eapply redrawn_base|intros HP; apply (appended_tail s attr t); try done; by apply Hn|done].
      - exists t. split; [|by destruct Hap as (_ & _ & -> & _)]. apply (redrawn_painted (with_tx t s)); [done|]. by exists m3.
      - exact Hap. }
    destruct (fb_cursor_visible (cu s)).
    + apply erase_at_start_ok; [done|done|pose proof (bo_scroll _ Hb); lia|done|done|]. exact Hgo.
    + apply wp_ret. apply Hgo. apply redrawn_refl. by apply fb_mode.
  - apply wp_bind, wp_ret, wp_bind, vga_scroll_ok; [done|done|]. intros s1 V1. pose proof V1 as (v1 & -> & L1). apply wp_bind, append_ok; [by eapply vram_only_core|]. intros t Hap Hb2. apply wp_ret. apply HQ.
    + split; [done|intros HP; apply (appended_tail s attr t); try done; by apply Hn|cbn; congruence].
    + exists t. split; [|by destruct Hap as (_ & _ & -> & _)]. apply (vram_painted (with_tx t s)); [done|]. by exists v1.
    + exact Hap.
Qed.

(** ** print_char *)

Lemma edited_frame s s' : edited s s' -> screen_cols s' = screen_cols s /\ screen_rows s' = screen_rows s /\ g_fb s' = g_fb s /\ buf_hydrated (tx s') = buf_hydrated (tx s) /\ cu s' = cu s /\ fnt s' = fnt s.
Proof. intros (t & (m & v & -> & _) & Et). done. Qed.
Lemma print_char_inv P s c col row attr (Q : Z -> screen -> Prop) : inv P s -> (forall o s', inv P s' -> Q o s') -> wp False (print_char c col row attr) Q s.
Proof.
  intros Hi HQ. pose proof (iv_base _ _ Hi) as Hb. unfold print_char. apply wp_bind.
  apply wp_mono with (P := fun _ s' => s' = s); [by apply wp_if; intros _|]. intros a s' ->. apply wp_bind, hydrate_ok; [done|]. intros t (Hh & _ & _ & _ & Hsame & Htail & _) Hb1.
  assert (Hp1 : pre P (with_tx t s)).
  { apply inv_pre in Hi as [_ Hn Ha]. split; [done| |].
    - intros HP. by apply Htail, Hn.
    - intros HP He. destruct (fb_mode s (bo_core _ Hb) He) as (_ & _ & _ & Hh0). rewrite (Hsame Hh0). replace (with_tx (tx s) s) with s by (by destruct s). by apply Ha. }
  set (s1 := with_tx t s) in *. apply wp_bind, wp_gets. cbv beta zeta. apply wp_bind.
  apply wp_mono with (P := fun o s2 => pre P s2 /\ buf_hydrated (tx s2) = true).
  { apply wp_if; intros _; [by apply wp_ret|]. apply get_cursor_ok; [apply Hb1|]. intros s2 Q2. split; [by eapply quiet_pre|]. by destruct Q2 as (_ & v & -> & _). }
  intros o s2 [Hp2 Hh2]. apply wp_if; intros _.
  - apply wp_bind. apply wp_mono with (P := fun _ s3 => pre P s3).
    { apply wp_if; intros _; [|by apply wp_ret]. eapply wp_eq; [symmetry; apply bind_bind|]. apply wp_bind, (put_ok P); [done|done|]. intros s3 Hp3 _ _. by apply wp_ret. }
    intros o3 s3 Hp3. apply wp_bind, (set_cursor_ok P); [done|]. intros s4 _ Hi4 _. by apply wp_ret, HQ.
  - apply wp_bind. apply wp_mono with (P := fun _ s3 => pre P s3 /\ buf_hydrated (tx s3) = true).
    { apply wp_if; intros _; [by apply wp_ret|]. eapply wp_eq; [symmetry; apply bind_bind|]. apply wp_bind, (put_ok P); [done|done|]. intros s3 Hp3 He3 _. apply wp_ret. split; [done|]. apply edited_frame in He3 as (_ & _ & _ & -> & _). done. }
    intros o3 s3 [Hp3 Hh3]. apply wp_bind. apply wp_mono with (P := fun _ s4 => pre P s4).
    { apply wp_if; intros _; [|by apply wp_ret]. apply wp_bind, (scroll_lines_ok P); [done|done|]. intros s4 Hi4 _ _. by apply wp_ret, inv_pre. }
    intros o4 s4 Hp4. apply wp_bind, (set_cursor_ok P); [done|]. intros s5 _ Hi5 _. by apply wp_ret, HQ.
Qed.

(** ** Operations that keep the invariant *)

Definition keeps {A} (P : bool) (m : M screen A) : Prop := forall s, inv P s -> wp False m (fun _ => inv P) s.
Lemma con_keeps_ret {A} P (a : A) : keeps P (ret a).
Proof. by intros s Hs. Qed.
Lemma con_keeps_bind {A B} P (m : M screen A) (k : A -> M screen B) : keeps P m -> (forall a, keeps P (k a)) -> keeps P (bind m k).
Proof. intros Hm Hk s Hs. apply wp_bind. eapply wp_mono; [by apply Hm|]. intros a s' Hs'. by apply Hk. Qed.
Lemma keeps_gets {A} P (f : screen -> A) : keeps P (gets f).
Proof. by intros s Hs. Qed.
Lemma keeps_get P : keeps P get.
Proof. by intros s Hs. Qed.
Lemma keeps_if {A} P (b : bool) (m k : M screen A) : keeps P m -> keeps P k -> keeps P (if b then m else k).
Proof. by destruct b. Qed.
Lemma keeps_each {A} P (l : list A) f : (forall x, keeps P (f x)) -> keeps P (each l f).
Proof. intros Hf. induction l as [|x l IH]; cbn [each]; [apply con_keeps_ret|]. by apply con_keeps_bind. Qed.
Lemma keeps_lift {A} P (o : option A) : is_Some o -> keeps P (lift_opt o).
Proof. intros [a ->] s Hs. by apply wp_lift_some. Qed.
Lemma keeps_print_char P c col row attr : keeps P (print_char c col row attr).
Proof. intros s Hs. by apply (print_char_inv P). Qed.
Create HintDb console.
#[local] Hint Resolve con_keeps_ret keeps_gets keeps_get keeps_if keeps_each keeps_print_char : console.
Ltac keeps_tac :=
  repeat (intros; cbv zeta;
    match goal with
    | |- keeps _ (bind _ _) => apply con_keeps_bind
    | |- keeps _ (if _ then _ else _) => apply keeps_if
    | |- keeps _ (each _ _) => apply keeps_each
    | |- _ => solve [auto with console]
    end).

Lemma quiet_inv P s s' : inv P s -> quiet s s' -> inv P s'.
Proof.
  intros [Hb Hn Ha] Hq. pose proof Hq as (Hon & v & E & _). split; [by eapply quiet_base|subst s'; done|]. intros HP He. assert (enabled (g_fb s) = true) as He' by (by subst s'). rewrite (Hon He') in *. by apply Ha.
Qed.
Lemma keeps_get_cursor P : keeps P get_cursor_offset.
Proof. intros s Hs. apply get_cursor_ok; [apply Hs|]. intros s' Hq. by eapply quiet_inv. Qed.
Lemma keeps_set_cursor_offset P off : keeps P (set_cursor_offset off).
Proof. intros s Hs. apply (set_cursor_ok P); [by apply inv_pre|]. by intros s' _ Hi _. Qed.
Lemma keeps_log P l : keeps P (on_log (Klog.bootlog_add (Some l))).
Proof.
  intros s [[Hc Hp] Hn Hs]. destruct (co_log _ Hc) as [a Ha]. pose proof (Klog.log_run_ok a (Klog.BAdd l) (klog s) Ha) as H. cbn [Klog.log_run] in H. unfold wp, on_log in *.
  destruct (Klog.bootlog_add (Some l) (klog s)) as [[u v]| |]; [|done..]. split; [split; [|done]|done|done]. destruct Hc as [? ? ? ? ? ? ? ? ? ? Hd]. constructor; try done. by eexists.
Qed.
Lemma keeps_color P f b : keeps P (set_color f b).
Proof. intros s [[[] ?] ? ?]. apply wp_modify. split; [split; [by constructor|done]|done|done]. Qed.
#[local] Hint Resolve keeps_get_cursor keeps_set_cursor_offset keeps_log keeps_color : console.
Lemma keeps_putchar P c : keeps P (putchar c).
Proof. unfold putchar. keeps_tac. Qed.
Lemma keeps_kprint_loop P m : forall col row, keeps P (kprint_loop m col row).
Proof. induction m as [|c m IH]; intros col row; cbn [kprint_loop]; keeps_tac. Qed.
#[local] Hint Resolve keeps_putchar keeps_kprint_loop : console.
Lemma keeps_kprint_at_str P m col row : keeps P (kprint_at_str m col row).
Proof. unfold kprint_at_str. keeps_tac. Qed.
#[local] Hint Resolve keeps_kprint_at_str : console.
Lemma keeps_kprint P m : keeps P (kprint m).
Proof. unfold kprint. keeps_tac. Qed.
#[local] Hint Resolve keeps_kprint : console.
Lemma keeps_kprint_at P m col row : keeps P (kprint_at m col row).
Proof. unfold kprint_at. destruct m; keeps_tac. Qed.
Lemma keeps_kprint_color P m f b : keeps P (kprint_color m f b).
Proof. unfold kprint_color. keeps_tac. Qed.
Lemma keeps_kprint_backspace P : keeps P kprint_backspace.
Proof. unfold kprint_backspace. keeps_tac. Qed.
Lemma keeps_set_cursor P r c : keeps P (set_cursor r c).
Proof. unfold set_cursor. keeps_tac. Qed.
Lemma keeps_putchar_color P ch f b : keeps P (putchar_color ch f b).
Proof. unfold putchar_color. keeps_tac. Qed.

(** ** Showing and hiding the cursor *)

Lemma show_cursor_ok P s b (Q : unit -> screen -> Prop) : inv P s -> enabled (g_fb s) = true -> (forall s', inv P s' -> Q tt s') -> wp False (show_cursor b) Q s.
Proof.
  intros [Hb Hn Hs] He HQ. unfold show_cursor. apply wp_bind, wp_gets. cbv beta. apply wp_if; intros E; [by apply wp_ret, HQ|]. apply eqb_false_iff in E. unfold mod_cu. apply wp_bind, wp_modify, wp_bind, wp_gets. cbv beta.
  set (s1 := with_cu (with_visible b (cu s)) s). pose proof (bo_core _ Hb) as Hc. destruct (fb_mode s Hc He) as (Hm & Hg & [Hr Hcc] & Hh).
  assert (Hb1 : base_ok s1). { destruct Hb as [[] Hp]. split; [|done]. by constructor; try done. }
  change (fb_cursor_col (cu s1)) with (fb_cursor_col (cu s)). change (fb_cursor_row (cu s1)) with (fb_cursor_row (cu s)).
  assert (Hal : P = true -> almost s) by (intros HP; by apply shown_almost, Hs). destruct b.
  - assert (Hv : fb_cursor_visible (cu s) = false) by (by destruct (fb_cursor_visible (cu s))). apply (draw_cursor_ok s1); [done|done|]. intros s2 R2 D2. pose proof R2 as (m & -> & _). apply HQ. split; [by eapply redrawn_base|by apply (nice_same P s)|].
    intros HP _. apply D2. eapply shows_alike; [exact (Hal HP)|]. intros c r d _ _ [= <-]. cbv beta. unfold on_cursor. rewrite Hv. cbn [andb]. eexists; split; reflexivity.
  - assert (Hv : fb_cursor_visible (cu s) = true) by (by destruct (fb_cursor_visible (cu s))). apply (erase_at_ok s1); try done. intros s2 R2 D2. pose proof R2 as (m & -> & _). apply HQ. split; [by eapply redrawn_base|by apply (nice_same P s)|].
    intros HP _. eapply shows_alike; [exact (D2 _ (Hal HP))|]. intros c r d _ _ [= <-]. change (view (with_fbm m s1)) with (view s). change (on_cursor (with_fbm m s1) c r) with false.
    exists (view s c r, false). split; [|reflexivity]. change (view s1) with (view s). destruct (decide ((c, r) = (fb_cursor_col (cu s), fb_cursor_row (cu s)))) as [E2|E2]; [injection E2 as -> ->; apply con_upd_eq|]. rewrite con_upd_ne by done.
    destruct (on_cursor s c r) eqn:Eo; [|done]. apply on_cursor_true in Eo as (_ & -> & ->). done.
Qed.
Lemma blink_inv P s u e st n : inv P s -> inv P (with_cu (with_blink u e st n (cu s)) s).
Proof.
  intros [[[] Hp] Hn Hs]. split; [split; [|done]|done|done]. constructor; done.
Qed.
Lemma keeps_set_visible P v : keeps P (screen_set_cursor_visible v).
Proof.
  intros s Hs. unfold screen_set_cursor_visible, mod_cu. apply wp_bind, wp_modify, wp_bind, wp_gets. cbv beta. pose proof (blink_inv P s v (cursor_blink_enabled (cu s)) (if v then true else cursor_blink_state (cu s)) (if v then 0 else cursor_blink_ticks (cu s)) Hs) as H1.
  apply wp_if; intros E; [by apply wp_ret|]. apply negb_false_iff in E. by apply (show_cursor_ok P).
Qed.
Lemma keeps_set_blink P v : keeps P (screen_set_cursor_blink v).
Proof.
  intros s Hs. unfold screen_set_cursor_blink, mod_cu. apply wp_bind, wp_modify, wp_bind, wp_gets. cbv beta. pose proof (blink_inv P s (cursor_user_visible (cu s)) v true 0 Hs) as H1.
  apply wp_if; intros E; [by apply wp_ret|]. apply negb_false_iff in E. by apply (show_cursor_ok P).
Qed.
Lemma keeps_blink_tick P : keeps P screen_cursor_blink_tick.
Proof.
  intros s Hs. unfold screen_cursor_blink_tick, mod_cu. apply wp_bind, wp_gets. cbv beta zeta. apply wp_if; intros E; [by apply wp_ret|]. apply negb_false_iff in E. apply wp_if; intros _; [by apply wp_ret|].
  apply wp_if; intros _; [apply wp_modify; by apply blink_inv|]. apply wp_bind, wp_modify. apply (show_cursor_ok P); [by apply blink_inv|done|done].
Qed.

(** ** Cells at a position *)

Lemma hydrate_inv P s t : inv P s -> base_ok (with_tx t s) -> (buf_hydrated (tx s) = true -> t = tx s) -> (tail_blank (tx s) -> tail_blank t) -> inv P (with_tx t s).
Proof.
  intros [Hb Hn Hs] Hb1 Hsame Htail. split; [done| |].
  - intros HP. by apply Htail, Hn.
  - intros HP He. destruct (fb_mode s (bo_core _ Hb) He) as (_ & _ & _ & Hh0). rewrite (Hsame Hh0). replace (with_tx (tx s) s) with s by (by destruct s). by apply Hs.
Qed.
Lemma keeps_put_at P x y ch color : keeps P (screen_put_at x y ch color).
Proof.
  intros s0 Hs0. unfold screen_put_at. apply wp_bind, wp_gets. cbv beta. destruct (outside s0 x y) eqn:Eo; [by apply wp_ret|]. apply wp_bind, hydrate_ok; [apply Hs0|]. intros t0 (Hh0 & _ & _ & _ & Hsame & Htail & _) Hb0.
  pose proof (hydrate_inv P s0 t0 Hs0 Hb0 Hsame Htail) as [Hb Hn Hs]. set (s := with_tx t0 s0) in *. change (outside s0 x y) with (outside s x y) in Eo. change (g_fb s0) with (g_fb s). assert (Hh : buf_hydrated (tx s) = true) by done. clearbody s. clear s0 t0 Hs0 Hb0 Hh0 Hsame Htail.
  apply outside_iff in Eo as [Hx Hy]. cbv zeta. set (cell := mkcell color ch). apply wp_bind, con_update_ok; [done|done|done|]. intros t Hw Hb1 Hst. apply wp_bind, screen_draw_ok; [apply Hb1|]. intros s2 P2 _ D2.
  change (outside (with_tx t s) x y) with (outside s x y) in D2. specialize (D2 (inside _ _ _ Hx Hy)). change (g_fb (with_tx t s)) with (g_fb s) in D2.
  assert (Hn2 : nice P s2). { destruct P2 as (m & v & -> & _). intros HP. apply (written_tail s y x cell t); try done. by apply Hn. }
  assert (Hb2 : base_ok s2) by (by eapply painted_base). apply wp_bind, wp_gets. cbv beta.
  assert (Hcu : cu s2 = cu s /\ g_fb s2 = g_fb s /\ screen_cols s2 = screen_cols s /\ screen_rows s2 = screen_rows s /\ view s2 = view (with_tx t s)) by (by destruct P2 as (m & v & -> & _)). destruct Hcu as (Ecu & Efb & Eco & Ero & Evi). rewrite Ecu.
  assert (Hview : P = true -> forall c r, 0 <= c < screen_cols s -> 0 <= r < screen_rows s -> (c, r) <> (x, y) -> forall d, d = view s c r -> d = view s2 c r).
  { intros HP c r Hc Hr Hne d Hd. rewrite Evi. destruct (Hn HP) as [_ Ht]. destruct (written_view s y x cell t c r) as [E|(_ & E1 & E2 & E3)]; try done.
    - rewrite E. destruct (Z.eqb_spec c x), (Z.eqb_spec r y); try done. congruence.
    - rewrite E3, Ht; [congruence|done|]. pose proof (co_cols _ (bo_core _ Hb)). lia. }
  assert (Hcell : view s2 x y = cell).
  { rewrite Evi. destruct (written_view s y x cell t x y) as [E|(E & _)]; try done. by rewrite !Z.eqb_refl in E. }
  apply wp_if; intros Ec.
  - rewrite !andb_true_iff, !Z.eqb_eq in Ec. destruct Ec as [[[He Ev] Ex] Ey]. apply draw_at_ok; [done|by rewrite Efb|by rewrite Eco|by rewrite Ero|]. intros s3 R3 _ D3. pose proof R3 as (m3 & -> & _). split; [by eapply redrawn_base|done|].
    intros HP _. destruct (proj1 (shown_faces s) (Hs HP He)) as (D & HD & Hall). apply shown_faces. exists (upd (upd D x y (cell, false)) x y (view s2 x y, true)). split.
    + apply (D3 _ false); [by rewrite Ecu|by rewrite con_upd_eq, Hcell|]. by apply D2.
    + intros c r Hc Hr. cbn [screen_cols with_fbm screen_rows] in Hc, Hr. rewrite Eco in Hc. rewrite Ero in Hr. change (view (with_fbm m3 s2)) with (view s2). unfold on_cursor. cbn [cu with_fbm]. rewrite Ecu, Ev. cbn [andb]. rewrite <-Ex, <-Ey.
      destruct (decide ((c, r) = (x, y))) as [[= -> ->]|Hne]; [rewrite con_upd_eq, !Z.eqb_refl; eexists; split; done|]. rewrite !con_upd_ne by done.
      destruct (Hall c r Hc Hr) as (d & Ed & Hd). exists d. split; [|by apply Hview]. rewrite Ed. unfold on_cursor. rewrite Ev. cbn [andb]. by rewrite <-Ex, <-Ey.
  - apply wp_ret. split; [done|done|]. intros HP He. rewrite Efb in He. destruct (proj1 (shown_faces s) (Hs HP He)) as (D & HD & Hall). apply shown_faces. exists (upd D x y (cell, false)). split; [by apply D2|].
    intros c r Hc Hr. rewrite Eco in Hc. rewrite Ero in Hr. unfold on_cursor. rewrite Ecu. rewrite He in Ec. cbn [andb] in Ec.
    destruct (decide ((c, r) = (x, y))) as [[= -> ->]|Hne].
    + rewrite con_upd_eq, Hcell. exists cell. split; [|done]. by rewrite Ec.
    + rewrite con_upd_ne by done. destruct (Hall c r Hc Hr) as (d & Ed & Hd). exists d. split; [done|by apply Hview].
Qed.
Lemma painted_vga_inv P s s' : inv P s -> enabled (g_fb s) = false -> painted s s' -> inv P s'.
Proof. intros [Hb Hn Hs] He Hp. split; [by eapply painted_base|by destruct Hp as (m & v & -> & _)|]. intros _ He'. destruct Hp as (m & v & -> & _). cbn in He'. congruence. Qed.
Lemma keeps_vga_putc P x y ch attr : keeps P (vga_putc x y ch attr).
Proof.
  intros s Hs. unfold vga_putc. apply wp_bind, wp_gets. cbv beta. destruct (outside s x y) eqn:Eo; [by apply wp_ret|]. apply wp_if; intros He; [by apply keeps_put_at|].
  pose proof (bo_core _ (iv_base _ _ Hs)) as Hc. apply outside_iff in Eo as [Hx Hy]. unfold vga_poke. destruct (vga_mode s Hc He) as [E80 E25]. pose proof (co_vram _ Hc). apply wp_bind, wp_gets, wp_bind. cbv beta. rewrite lset_in by nia. apply wp_lift_some, wp_modify.
  apply (painted_vga_inv P s); [done|done|]. apply vram_painted; [done|]. eexists. split; [done|]. by rewrite length_insert.
Qed.

(** ** The view *)

Lemma redraw_inv P s (Q : unit -> screen -> Prop) : core_ok s -> nice P s -> (forall s', inv P s' -> cu s' = cu s -> tx s' = tx (settle s) -> screen_rows s' = screen_rows s -> screen_cols s' = screen_cols s -> g_fb s' = g_fb s -> fnt s' = fnt s -> Q tt s') -> wp False redraw_from_buffer Q s.
Proof.
  intros Hc Hn HQ. pose proof (settle_ok s Hc) as Hb. assert (Hn' : nice P (settle s)) by exact Hn. destruct (enabled (g_fb s)) eqn:He.
  - apply redraw_fb_ok; [done|done|]. intros s' R S. pose proof R as (m & E & _). apply HQ; [|by subst s'..]. split; [by eapply redrawn_base|by subst s'|done].
  - apply redraw_vga_ok; [done|done|]. intros s' V. pose proof V as (v & E & _). apply HQ; [|by subst s'..]. split; [by eapply vram_only_base|by subst s'|]. intros _ He'. subst s'. cbn in He'. congruence.
Qed.
(** A new scroll position; what is drawn before is drawn over. *)
Lemma show_scrolled_ok P s p old new (Q : unit -> screen -> Prop) : base_ok s -> nice P s -> 0 <= p <= max_start s -> 0 <= old <= max_start s -> (forall s', inv P s' -> Q tt s') ->
  wp False (show_scrolled old new) Q (with_tx (with_scroll p (tx s)) s).
Proof.
  intros Hb Hn Hp Hold HQ. set (s1 := with_tx (with_scroll p (tx s)) s). pose proof (bo_core _ Hb) as Hc.
  assert (Hb1 : base_ok s1). { split; [|done]. destruct Hc. by constructor. } assert (Hn1 : nice P s1) by exact Hn.
  unfold show_scrolled. apply wp_bind, wp_gets. cbv beta zeta. destruct (enabled (g_fb s1)) eqn:He.
  - destruct (fb_mode s1 (bo_core _ Hb1) He) as (_ & _ & [Hr Hcc] & _). apply wp_bind. apply wp_mono with (P := fun _ s2 => redrawn s1 s2).
    { apply wp_if; intros _; [|apply wp_ret, redrawn_refl; destruct (fb_mode s1 (bo_core _ Hb1) He) as (Hm & _); exact Hm]. by apply erase_at_start_ok. }
    intros u s2 R2. apply wp_bind. unfold fb_scroll_view. apply wp_ret. cbn [negb]. apply wp_bind. pose proof (redrawn_base _ _ Hb1 R2) as Hb2.
    apply redraw_fb_ok; [apply Hb2|by destruct R2 as (m2 & -> & _)|]. rewrite settle_id by done. intros s3 R3 S3. pose proof (redrawn_trans _ _ _ R2 R3) as (m3 & -> & Hm3). pose proof (redrawn_base _ _ Hb2 R3) as Hb3.
    apply wp_if; intros Ev; [|apply wp_ret, HQ; split; [done|done|done]].
    apply draw_at_ok; [done|done|done|done|]. intros s4 R4 _ D4. pose proof R4 as (m4 & -> & _). apply HQ. split; [by eapply redrawn_base|done|]. intros HP _.
    assert (Hon : on_cursor (with_fbm m3 s1) (fb_cursor_col (cu s1)) (fb_cursor_row (cu s1)) = true) by (by apply on_cursor_true).
    eapply shows_alike; [eapply (D4 _ true Ev); [|exact S3]; cbv beta; by rewrite Hon|]. intros c r d _ _ [= <-]. exists (view s1 c r, on_cursor s1 c r). split; [|reflexivity].
    destruct (decide ((c, r) = (fb_cursor_col (cu s1), fb_cursor_row (cu s1)))) as [[= -> ->]|Hne]; [rewrite con_upd_eq; do 2 f_equal; symmetry; exact Hon|by rewrite con_upd_ne].
  - apply (redraw_inv P); [apply Hb1|done|]. intros s3 Hi3 _ _ _ _ _ _. by apply HQ.
Qed.
Lemma scroll_inv P s p : inv P s -> enabled (g_fb s) = false \/ p = scroll_pos (tx s) -> 0 <= p <= max_start s -> inv P (with_tx (with_scroll p (tx s)) s).
Proof.
  intros [[[] Hp] Hn Hs] Hor Hr. split; [split; [by constructor|done]|done|]. intros HP He. destruct Hor as [E|E]; [cbn in He; congruence|]. rewrite E.
  replace (with_tx (with_scroll (scroll_pos (tx s)) (tx s)) s) with s by (by destruct s as [[] ? ? ? ? ? ? ? ? ? ? ? ? ? ?]). by apply Hs.
Qed.
(** The end of scroll_up_screen and scroll_down_screen *)
Lemma rescroll_ok P s p (Q : unit -> screen -> Prop) : inv P s -> 0 <= p <= max_start s -> (forall s', inv P s' -> Q tt s') ->
  wp False (mod_tx (with_scroll p);;; new_start <- screen_compute_start_for_scroll p;; if start_of s =? new_start then ret tt else show_scrolled (start_of s) new_start) Q s.
Proof.
  intros Hi Hp HQ. pose proof Hi as [Hb Hn Hs]. unfold mod_tx. apply wp_bind, wp_modify, wp_bind. set (s1 := with_tx _ s). eapply wp_ok; [apply compute_start_ok; [destruct Hb as [[] ?]; by constructor|done]|]. cbv beta.
  change (max_start s1) with (max_start s). apply wp_if; intros E.
  - apply Z.eqb_eq in E. apply wp_ret, HQ. apply scroll_inv; [done| |done]. right. unfold start_of in E. lia.
  - apply (show_scrolled_ok P); [done|done|done|by apply start_bounds|done].
Qed.
Lemma keeps_hydrate P : keeps P hydrate_buffer_from_vga_once.
Proof. intros s Hs. apply hydrate_ok; [apply Hs|]. intros t (_ & _ & _ & _ & Hsame & Htail & _) Hb1. by apply (hydrate_inv P). Qed.
Lemma keeps_scroll_up P : keeps P scroll_up_screen.
Proof.
  intros s0 Hs0. unfold scroll_up_screen. apply wp_bind. eapply wp_mono; [by apply keeps_hydrate|]. intros u s Hs. pose proof (iv_base _ _ Hs) as Hb. unfold scroll_pos_now. apply wp_bind, wp_gets, wp_bind. cbv beta.
  eapply wp_ok; [apply compute_start_ok; [apply Hb|apply Hb]|]. cbv beta. apply wp_bind, wp_gets. cbv beta zeta. pose proof (max_start_bounds s (bo_core _ Hb)). fold (start_of s). apply (rescroll_ok P); [done|apply clamp_in; lia|done].
Qed.
Lemma keeps_scroll_down P : keeps P scroll_down_screen.
Proof.
  intros s0 Hs0. unfold scroll_down_screen. apply wp_bind. eapply wp_mono; [by apply keeps_hydrate|]. intros u s Hs. pose proof (iv_base _ _ Hs) as Hb. unfold scroll_pos_now. apply wp_bind, wp_gets, wp_bind. cbv beta.
  eapply wp_ok; [apply compute_start_ok; [apply Hb|apply Hb]|]. cbv beta. apply wp_bind, wp_gets. cbv beta zeta. pose proof (max_start_bounds s (bo_core _ Hb)). fold (start_of s). apply (rescroll_ok P); [done|apply clamp_in; lia|done].
Qed.
Lemma keeps_scroll_to_bottom P : keeps P screen_scroll_to_bottom.
Proof.
  intros s0 Hs0. unfold screen_scroll_to_bottom. apply wp_bind. eapply wp_mono; [by apply keeps_hydrate|]. intros u s Hs. pose proof Hs as [Hb Hn _]. pose proof (max_start_bounds s (bo_core _ Hb)). unfold scroll_pos_now. apply wp_bind, wp_gets. cbv beta.
  apply wp_if; intros _; [by apply wp_ret|]. apply wp_bind. eapply wp_ok; [apply compute_start_ok; [apply Hb|apply Hb]|]. cbv beta. unfold mod_tx. apply wp_bind, wp_modify, wp_bind.
  eapply wp_ok; [apply compute_start_ok; [destruct Hb as [[] ?]; by constructor|split; [done|]; apply H]|]. cbv beta. apply (show_scrolled_ok P); [done|done|lia|by apply start_bounds|done].
Qed.
Lemma clear_screen_ok P s (Q : unit -> screen -> Prop) : base_ok s -> (forall s', inv P s' -> Q tt s') -> wp False clear_screen Q s.
Proof.
  intros Hb HQ. pose proof (bo_core _ Hb) as Hc. unfold clear_screen. apply wp_bind, fill_lines_ok; [by apply core_buf|done|]. intros t ((W1 & W2) & E1 & E2 & E3 & E4). unfold mod_tx. apply wp_bind, wp_modify, wp_bind, wp_modify. cbn [tx with_tx].
  set (t1 := with_scroll 0 (with_total 1 t)). change (with_tx t1 (with_tx (with_total 1 t) (with_tx t s))) with (with_tx t1 s).
  assert (Hc1 : core_ok (with_tx t1 s)). { apply core_tx; [done|done|cbn; unfold MAX_SCROLL_LINES; lia|cbn; rewrite E4; apply Hc|cbn; by rewrite E3]. }
  assert (Ht1 : forall r c, 0 <= r < MAX_SCROLL_LINES -> 0 <= c < SCREEN_MAX_COLS -> cell_of (textbuf t1) r c = blank_cell).
  { intros r c Hr Hcc. cbn. rewrite W2 by done. unfold MAX_SCROLL_LINES in *. by rewrite (proj2 (Z.ltb_lt _ _)) by lia. }
  assert (Htl : buf_hydrated (tx s) = true -> tail_blank t1). { intros Hh. split; [cbn; congruence|]. intros r c Hr. apply Ht1. cbn in Hr. lia. }
  set (P0 := P && enabled (g_fb s)). assert (HP0 : P0 = true -> P = true /\ enabled (g_fb s) = true) by (subst P0; by rewrite andb_true_iff).
  apply wp_bind, (redraw_inv P0); [done| |].
  { intros HP. destruct (HP0 HP) as [HP' He]. apply Htl. by destruct (fb_mode s Hc He) as (_ & _ & _ & Hh). }
  intros s1 Hi1 _ Et1 Er1 Ec1 Ef1 En1. apply wp_bind, wp_gets, wp_bind, (set_cursor_ok P0); [by apply inv_pre|]. intros s2 Mv Hi2 _. apply wp_modify.
  assert (Hs2 : tx s2 = tx s1 /\ g_fb s2 = g_fb s1 /\ fontbuf (fnt s2) = fontbuf (fnt s1)) by (unfold moved in Mv; destruct (enabled (g_fb s1)); [destruct Mv as (m & r & c & ->)|destruct Mv as (v & ->)]; done). destruct Hs2 as (Et2 & Ef2 & En2).
  destruct Hi2 as [[Hc2 Hp2] Hn2 Hsh2]. apply HQ. split.
  - split; [|done]. apply core_tx; [done|by apply core_buf|apply Hc2|apply Hc2|done].
  - intros HP. split; [done|].
    intros r c Hr. cbn [tx with_tx with_hydrated textbuf total_lines] in *. rewrite Et2, Et1 in *. apply Ht1. cbn in Hr. lia.
  - intros HP He. cbn in He. rewrite Ef2, Ef1 in He. assert (He2 : enabled (g_fb s) = true) by exact He. apply Hsh2; [subst P0; by rewrite HP, He2|by rewrite Ef2, Ef1].
Qed.
Lemma keeps_clear_screen P : keeps P clear_screen.
Proof. intros s [Hb Hn Hs]. apply (clear_screen_ok P); done. Qed.

(** ** The input line *)

(** As [put_ok], but the buffer comes first *)
Lemma put_pre_ok P s row col cell (Q : unit -> screen -> Prop) : pre P s -> buf_hydrated (tx s) = true ->
  (forall s', pre P s' -> edited s s' -> Q tt s') -> wp False (screen_update_textbuf_cell row col cell;;; screen_draw_cell col row cell) Q s.
Proof.
  intros Hpre Hh HQ. pose proof Hpre as [Hb Hn Ha]. apply wp_bind. destruct (outside s col row) eqn:E.
  - eapply wp_ok; [apply update_outside; intros [Hr Hc]; by rewrite inside in E|]. eapply wp_ok; [by apply draw_outside|]. apply HQ; [done|]. apply painted_edited, painted_refl, Hb.
  - apply outside_iff in E as [Hx Hy]. apply con_update_ok; [done|done|done|]. intros t Hw Hb1 Hst. apply screen_draw_ok; [apply Hb1|]. intros s2 P2 _ D2.
    change (outside (with_tx t s) col row) with (outside s col row) in D2. specialize (D2 (inside _ _ _ Hx Hy)).
    apply HQ; [|exists t; split; [done|]; by destruct Hw as (_ & _ & _ & -> & _)]. eapply (put_pre P s); try done.
Qed.
Lemma keeps_clear_input_line P : keeps P clear_input_line.
Proof.
  intros s0 Hs0. unfold clear_input_line. apply wp_bind, wp_gets. cbv beta zeta. apply wp_bind, hydrate_ok; [apply Hs0|]. intros t (Hh & _ & _ & _ & Hsame & Htail & _) Hb0. pose proof (hydrate_inv P s0 t Hs0 Hb0 Hsame Htail) as Hs.
  apply wp_bind. apply (wp_for_keep (fun s => pre P s /\ buf_hydrated (tx s) = true)); [split; [by apply inv_pre|done]| |].
  - intros i s Hi [Hp1 Hh1]. apply (put_pre_ok P); [done|done|]. intros s' Hp' He'. split; [done|]. apply edited_frame in He' as (_ & _ & _ & -> & _). done.
  - intros s [Hp1 Hh1]. apply (set_cursor_ok P); [done|]. by intros s' _ Hi _.
Qed.

(** ** A new frame buffer *)

(** The frame buffer that is announced lies in memory and has room for a cell. *)
Definition announced (s : screen) (addr64 w h p b : Z) : Prop :=
  fb_ok (Fb (u32 addr64) w h p b (u8 ((b + 7) / 8)) true) (fbm s) /\ g_font_width (fnt s) <= w /\ g_font_height (fnt s) <= h.
Lemma cursor_nonneg s : core_ok s -> 0 <= cursor_at s.
Proof.
  intros Hc. unfold cursor_at. destruct (enabled (g_fb s)) eqn:E.
  - destruct (fb_mode s Hc E) as (_ & _ & Hin & _). apply (cursor_bounds s Hc Hin).
  - destruct (co_crtc _ Hc) as [H14 H15]. unfold is_u8 in *. rewrite Z.shiftl_mul_pow2 by lia. lia.
Qed.
Lemma quiet_cursor s s' : quiet s s' -> cursor_at s' = cursor_at s.
Proof. intros (_ & v & -> & _ & Er). unfold cursor_at, crtc, reg. cbn [g_fb with_fnt cu screen_cols fnt adapter with_adapter]. by rewrite Er. Qed.
Lemma quiet_trans s s' s'' : quiet s s' -> quiet s' s'' -> quiet s s''.
Proof.
  intros (H1 & v & -> & Ev & Er) (H2 & v' & -> & Ev' & Er'). split; [intros He; rewrite (H2 He); by apply H1|]. exists v'. cbn in *. split_and!; [done|congruence|congruence].
Qed.
Lemma get_row_ok s (Q : Z -> screen -> Prop) : core_ok s -> (forall s', quiet s s' -> Q (cursor_at s / screen_cols s) s') -> wp False get_cursor_row Q s.
Proof.
  intros Hc HQ. unfold get_cursor_row. apply wp_bind, wp_gets, wp_bind, get_cursor_ok; [done|]. intros s' Hq. apply wp_ret. destruct (offset_pos (screen_cols s) (cursor_at s)) as [-> _]; [apply Hc|by apply cursor_nonneg|]. by apply HQ.
Qed.
Lemma get_col_ok s (Q : Z -> screen -> Prop) : core_ok s -> (forall s', quiet s s' -> Q (cursor_at s mod screen_cols s) s') -> wp False get_cursor_col Q s.
Proof.
  intros Hc HQ. unfold get_cursor_col. apply wp_bind, wp_gets, wp_bind, get_cursor_ok; [done|]. intros s' Hq. apply wp_ret. destruct (offset_pos (screen_cols s) (cursor_at s)) as [_ ->]; [apply Hc|by apply cursor_nonneg|]. by apply HQ.
Qed.
(** Cells of the first n lines, from column lo on *)
Lemma widen_ok s n lo hi v (Q : unit -> screen -> Prop) : buf_ok (textbuf (tx s)) -> 0 <= n <= MAX_SCROLL_LINES -> 0 <= lo -> hi <= SCREEN_MAX_COLS ->
  (forall b, buf_ok b -> (forall r c, n <= r < MAX_SCROLL_LINES -> 0 <= c < SCREEN_MAX_COLS -> cell_of b r c = cell_of (textbuf (tx s)) r c) -> Q tt (with_tx (with_textbuf b (tx s)) s)) ->
  wp False (for_ 0 n (fun r => for_ lo hi (fun c => set_cell r c v))) Q s.
Proof.
  intros Hb Hn Hlo Hhi HQ. set (I := fun s1 => exists b, s1 = with_tx (with_textbuf b (tx s)) s /\ buf_ok b /\ forall r c, n <= r < MAX_SCROLL_LINES -> 0 <= c < SCREEN_MAX_COLS -> cell_of b r c = cell_of (textbuf (tx s)) r c).
  apply (wp_for_keep I).
  - exists (textbuf (tx s)). split; [by destruct s as [[] ? ? ? ? ? ? ? ? ? ? ? ? ? ?]|done].
  - intros r s1 Hr I1. apply (wp_for_keep I); [done| |done]. intros c s2 Hc (b & -> & Hb2 & Hsame). unfold set_cell. apply wp_bind, wp_gets, wp_bind. cbv beta. cbn [tx with_tx textbuf with_textbuf].
    destruct (tset_ok b r c v Hb2 ltac:(lia) ltac:(lia)) as (b' & -> & W1 & W2). apply wp_lift_some. unfold mod_tx. apply wp_modify. exists b'. split; [done|]. split; [done|].
    intros r' c' Hr' Hc'. rewrite W2 by lia. rewrite (proj2 (Z.eqb_neq r' r)) by lia. by apply Hsame.
  - intros s1 (b & -> & Hb1 & Hsame). by apply HQ.
Qed.
Lemma geometry_cols w fw : 1 <= fw -> fw <= w -> w < 2147483648 ->
  let c := s32 (w / fw) in let c := if c <? 1 then 1 else c in let c := if SCREEN_MAX_COLS <? c then SCREEN_MAX_COLS else c in 1 <= c <= SCREEN_MAX_COLS /\ c * fw <= w.
Proof.
  intros H1 H2 H3. cbv zeta. assert (1 <= w / fw <= w) by (split; [apply Z.div_le_lower_bound; lia|apply Z.div_le_upper_bound; nia]). rewrite s32_small by lia. pose proof (Z.mul_div_le w fw ltac:(lia)). unfold SCREEN_MAX_COLS. bdestr; nia.
Qed.
Lemma geometry_rows h fh : 1 <= fh -> fh <= h -> h < 2147483648 ->
  let c := s32 (h / fh) in let c := if c <? 1 then 1 else c in let c := if SCREEN_MAX_ROWS <? c then SCREEN_MAX_ROWS else c in 1 <= c <= SCREEN_MAX_ROWS /\ c * fh <= h.
Proof.
  intros H1 H2 H3. cbv zeta. assert (1 <= h / fh <= h) by (split; [apply Z.div_le_lower_bound; lia|apply Z.div_le_upper_bound; nia]). rewrite s32_small by lia. pose proof (Z.mul_div_le h fh ltac:(lia)). unfold SCREEN_MAX_ROWS. bdestr; nia.
Qed.
Lemma set_framebuffer_ok P s addr64 w h p b (Q : unit -> screen -> Prop) : inv P s -> announced s addr64 w h p b -> (forall s', inv P s' -> Q tt s') -> wp False (screen_set_framebuffer addr64 w h p b) Q s.
Proof.
  intros Hi0 (Hfb0 & Hw0 & Hh0) HQ. unfold screen_set_framebuffer. apply wp_if; intros _; [by apply wp_ret, HQ|]. apply wp_if; intros _; [by apply wp_ret, HQ|].
  pose proof (bo_core _ (iv_base _ _ Hi0)) as Hc0. apply wp_bind, get_row_ok; [done|]. intros s1 Hq1. pose proof (quiet_inv _ _ _ Hi0 Hq1) as Hi1. apply wp_bind, get_col_ok; [apply Hi1|]. intros s2 Hq2. pose proof (quiet_inv _ _ _ Hi1 Hq2) as Hi2.
  pose proof (quiet_trans _ _ _ Hq1 Hq2) as Hq. pose proof Hq as (_ & v & Ev & _). assert (Hfb : fb_ok (Fb (u32 addr64) w h p b (u8 ((b + 7) / 8)) true) (fbm s2)) by (by subst s2). assert (Hw : g_font_width (fnt s2) <= w) by (by subst s2). assert (Hh : g_font_height (fnt s2) <= h) by (by subst s2).
  pose proof (cursor_nonneg s Hc0) as Hcur0. pose proof (cursor_nonneg s1 (bo_core _ (iv_base _ _ Hi1))) as Hcur1. assert (Hrow : 0 <= cursor_at s / screen_cols s) by (apply Z.div_pos; [done|pose proof (co_cols _ Hc0); lia]).
  assert (Hcol : 0 <= cursor_at s1 mod screen_cols s1) by (apply Z.mod_pos_bound; pose proof (co_cols _ (bo_core _ (iv_base _ _ Hi1))); lia).
  generalize dependent (cursor_at s / screen_cols s). generalize dependent (cursor_at s1 mod screen_cols s1). intros ccol Hccol crow Hcrow. clear dependent s. clear dependent s1. rename s2 into s, Hi2 into Hi.
  pose proof Hi as [Hb Hn Hs]. pose proof (bo_core _ Hb) as Hc. pose proof (co_font _ Hc) as [Fb1 Fp1 Fw Fh Fr]. apply wp_bind, wp_gets, wp_bind, wp_gets. cbv beta. rewrite (proj2 (Z.eqb_neq (g_font_width _) 0)), (proj2 (Z.eqb_neq (g_font_height _) 0)) by lia. cbn [negb].
  pose proof (fb_sizes _ _ Hfb) as (_ & _ & Hw2 & Hh2). cbn [width height] in Hw2, Hh2. apply wp_bind, wp_modify. unfold screen_set_geometry. cbv zeta. apply wp_bind, wp_modify.
  pose proof (geometry_cols w (g_font_width (fnt s)) ltac:(lia) Hw ltac:(lia)) as [Hgc Hgcw]. pose proof (geometry_rows h (g_font_height (fnt s)) ltac:(lia) Hh ltac:(lia)) as [Hgr Hgrh]. cbv zeta in Hgc, Hgcw, Hgr, Hgrh.
  match goal with |- wp _ _ _ (with_geometry ?c ?r _) => set (cols := c) in *; set (rows := r) in * end. set (f := Fb _ _ _ _ _ _ _) in *. clearbody cols rows.
  apply wp_bind, hydrate_tx; [exact (core_buf s Hc)|done|]. intros t (Th & Tc & Tb & Tt & Tsame & Ttail & _). specialize (Tt (co_total _ Hc)). apply wp_bind, wp_gets. cbv beta. set (s3 := with_tx t (with_geometry cols rows (with_g_fb f s))).
  apply wp_bind. apply wp_mono with (P := fun _ s4 => exists b4, s4 = with_tx (with_textbuf b4 t) s3 /\ buf_ok b4 /\ forall r c, total_lines t <= r < MAX_SCROLL_LINES -> 0 <= c < SCREEN_MAX_COLS -> cell_of b4 r c = cell_of (textbuf t) r c).
  { apply wp_if; intros _.
    - apply widen_ok; [done|done|pose proof (co_cols _ Hc); lia|apply Hgc|]. intros b4 Hb4 Hsame. by exists b4.
    - apply wp_ret. exists (textbuf t). split_and!; try done. unfold s3. by destruct t. }
  intros u s4 (b4 & -> & Hb4 & Hsame4). unfold mod_cu. apply wp_bind, wp_modify. change (screen_rows s3) with rows. change (screen_cols s3) with cols.
  set (row := if rows <=? crow then rows - 1 else crow). set (col := if cols <=? ccol then cols - 1 else ccol). set (s5 := with_cu _ _).
  assert (Hc5 : core_ok s5).
  { pose proof (co_col _ Hc) as Hbc. change (buf_col (tx s)) with (buf_col (tx (with_geometry cols rows (with_g_fb f s)))) in Hbc. rewrite <-Tc in Hbc. destruct Hc, Hb4. constructor; try done. right. split_and!; try done.
    split; cbn [cu s5 with_cu with_tx fb_cursor_row fb_cursor_col with_pos screen_rows screen_cols s3 with_geometry]; subst row col; bdestr; lia. }
  assert (Hn5 : nice P s5). { intros HP. destruct (Ttail (Hn HP)) as [_ Ht2]. split; [cbn; by rewrite Th|]. intros r c Hr Hcc. cbn in Hr. cbn [s5 with_cu tx with_tx textbuf with_textbuf]. rewrite Hsame4 by done. by apply Ht2. }
  apply wp_bind, (redraw_inv P); [done|done|]. intros s6 Hi6 _ _ _ _ _ _. eapply wp_mono; [by apply keeps_set_visible|]. intros [] s7 Hi7. by apply HQ.
Qed.

(** ** Graphics *)

Lemma graphics_inv s m : inv false s -> enabled (g_fb s) = true -> fb_ok (g_fb s) m -> inv false (with_fbm m s).
Proof. intros [Hb _ _] He Hm. split; [eapply redrawn_base; [done|by exists m]|done|done]. Qed.
Lemma write_pixel_ok f m x y c (Q : unit -> mem -> Prop) : fb_ok f m -> in_fb f x y -> (forall m', fb_ok f m' -> Q tt m') -> wp False (fb_write_color f (pa f x y) c) Q m.
Proof. intros Hm Hxy HQ. eapply wp_mono; [by apply (puts_write_color f m)|]. intros [] m' Hp. apply HQ, Hp. Qed.
Lemma on_screen_in f m x y : fb_ok f m -> on_screen f x y = true -> in_fb f x y.
Proof.
  intros Hm. pose proof (fb_sizes f m Hm). unfold on_screen. rewrite negb_true_iff, !orb_false_iff, !Z.ltb_ge, !Z.leb_gt. destruct Hm as [_ _ [? ?] _ _ _ _]. rewrite !s32_small by lia. unfold in_fb. lia.
Qed.
Lemma keeps_set_pixel x y c : keeps false (screen_fb_set_pixel x y c).
Proof.
  intros s Hs. unfold screen_fb_set_pixel. apply wp_bind, wp_gets. cbv beta. apply wp_if; intros E; [by apply wp_ret|]. apply wp_if; intros E2; [by apply wp_ret|]. apply negb_false_iff in E, E2. apply andb_true_iff in E as [He _].
  destruct (fb_mode s (bo_core _ (iv_base _ _ Hs)) He) as (Hfb & _). pose proof (on_screen_in _ _ _ _ Hfb E2) as Hin. apply wp_on_fbm. rewrite (pixel_addr_pa _ (fbm s)) by done. apply write_pixel_ok; [done|done|]. intros m' Hm'. by apply graphics_inv.
Qed.
Lemma keeps_fill_rect x y w h c : keeps false (screen_fb_fill_rect x y w h c).
Proof.
  intros s Hs. unfold screen_fb_fill_rect. apply wp_bind, wp_gets. cbv beta. apply wp_if; intros E; [by apply wp_ret|]. apply negb_false_iff, andb_true_iff in E as [He _]. destruct (fb_mode s (bo_core _ (iv_base _ _ Hs)) He) as (Hfb & _). pose proof (fb_sizes _ _ Hfb) as (_ & _ & Hw & Hh). pose proof (fk_size _ _ Hfb) as [Hw0 Hh0].
  apply wp_if; intros _; [by apply wp_ret|]. cbv zeta. rewrite (s32_small (width _)), (s32_small (height _)) by lia. apply wp_if; intros _; [by apply wp_ret|].
  set (x0 := if x <? 0 then 0 else x). set (y0 := if y <? 0 then 0 else y). assert (0 <= x0 /\ 0 <= y0) as [Hx0 Hy0] by (subst x0 y0; bdestr; lia).
  set (x1 := if width (g_fb s) <? s32 (x + w) then width (g_fb s) else s32 (x + w)). set (y1 := if height (g_fb s) <? s32 (y + h) then height (g_fb s) else s32 (y + h)). assert (x1 <= width (g_fb s) /\ y1 <= height (g_fb s)) as [Hx1 Hy1] by (subst x1 y1; bdestr; lia).
  clearbody x0 y0 x1 y1. apply wp_if; intros E; [by apply wp_ret|]. rewrite orb_false_iff, !Z.leb_gt in E. apply wp_on_fbm. apply (wp_for_keep (fb_ok (g_fb s))); [done| |].
  - intros py m1 Hpy H1. rewrite (pixel_addr_pa _ m1) by (try done; split; lia). apply (wp_for_keep (fb_ok (g_fb s))); [done| |done]. intros px m2 Hpx H2. rewrite pa_step. apply write_pixel_ok; [done|split; lia|done].
  - intros m1 H1. by apply graphics_inv.
Qed.
Lemma draw_glyph_ok f ft x y ch fg bg tr m : fb_ok f m -> font_ok ft -> 0 <= ch < 256 -> wp False (fb_draw_glyph_px f ft x y ch fg bg tr) (fun _ => fb_ok f) m.
Proof.
  intros Hm [Fb1 Fp Fw Fh Fr] Hch. unfold fb_draw_glyph_px. apply wp_if; intros _; [by apply wp_ret|]. apply wp_if; intros _; [by apply wp_ret|]. pose proof (fb_sizes _ _ Hm) as (_ & _ & Hw & Hh). pose proof (fk_size _ _ Hm) as [Hw0 Hh0]. cbv zeta. rewrite (s32_small (width _)), (s32_small (height _)) by lia.
  apply (wp_for_keep (fb_ok f)); [done| |done]. intros gy m1 Hgy H1. apply wp_if; intros E1; [by apply wp_ret|]. rewrite orb_false_iff, Z.ltb_ge, Z.leb_gt in E1. apply (wp_for_keep (fb_ok f)); [done| |done]. intros gx m2 Hgx H2. apply wp_if; intros E2; [by apply wp_ret|]. rewrite orb_false_iff, Z.ltb_ge, Z.leb_gt in E2.
  apply wp_bind. unfold glyph_bit. rewrite Fr, Z.mul_1_r, Z.shiftr_div_pow2, Z.div_small by lia. unfold font_get_glyph, FONT_GLYPH_STRIDE. rewrite lget_lookup, (lookup_nth _ _ 0) by lia. apply wp_lift_some. rewrite (pixel_addr_pa _ m2) by (try done; split; lia).
  apply wp_if; intros _; [apply write_pixel_ok; [done|split; lia|done]|]. apply wp_if; intros _; [apply write_pixel_ok; [done|split; lia|done]|by apply wp_ret].
Qed.
Lemma draw_text_ok f ft sx txt fg bg tr : font_ok ft -> Forall is_u8 txt -> forall cx cy m, fb_ok f m -> wp False (draw_text_loop f ft sx cx cy txt fg bg tr) (fun _ => fb_ok f) m.
Proof.
  intros Hft Hu. induction Hu as [|c txt Hc Hu IH]; intros cx cy m Hm; cbn [draw_text_loop]; [by apply wp_ret|]. cbv zeta. repeat (apply wp_if; intros _; [by apply IH|]).
  apply wp_bind. eapply wp_mono; [by apply draw_glyph_ok|]. intros [] m' Hm'. by apply IH.
Qed.
Lemma keeps_draw_text x y txt fg bg tr : Forall is_u8 txt -> keeps false (screen_fb_draw_text x y (Some txt) fg bg tr).
Proof.
  intros Hu s Hs. unfold screen_fb_draw_text. apply wp_bind, wp_gets, wp_bind, wp_gets. cbv beta. apply wp_if; intros E; [by apply wp_ret|]. apply negb_false_iff, andb_true_iff in E as [He _]. destruct (fb_mode s (bo_core _ (iv_base _ _ Hs)) He) as (Hfb & _). apply wp_if; intros _; [by apply wp_ret|].
  apply wp_on_fbm. eapply wp_mono; [apply draw_text_ok; [apply Hs|done|done]|]. intros [] m' Hm'. by apply graphics_inv.
Qed.
Lemma keeps_get_pixel x y : keeps false (screen_fb_get_pixel x y).
Proof.
  intros s Hs. unfold screen_fb_get_pixel. apply wp_bind, wp_gets. cbv beta. apply wp_if; intros E; [by apply wp_ret|]. apply wp_if; intros E2; [by apply wp_ret|]. apply negb_false_iff in E, E2. apply andb_true_iff in E as [He _].
  destruct (fb_mode s (bo_core _ (iv_base _ _ Hs)) He) as (Hfb & _). pose proof (on_screen_in _ _ _ _ Hfb E2) as Hin. pose proof (pa_inside _ _ _ _ Hfb Hin). pose proof (fb_bytes _ _ Hfb). cbv zeta. rewrite (pixel_addr_pa _ (fbm s)) by done.
  assert (Hload : forall a (Q : Z -> screen -> Prop), addr (g_fb s) <= a < addr (g_fb s) + height (g_fb s) * pitch (g_fb s) -> (forall v, Q v s) -> wp False (on_fbm (load a)) Q s).
  { intros a Q Ha HQ. apply wp_on_fbm. destruct (fk_mapped _ _ Hfb a Ha) as [v Ev]. unfold wp, load. rewrite Ev. replace (with_fbm (fbm s) s) with s by (by destruct s). apply HQ. }
  apply wp_bind, Hload; [lia|]. intros b0. apply wp_bind, Hload; [lia|]. intros b1. apply wp_bind, Hload; [lia|]. intros b2. by apply wp_ret.
Qed.

(** ** putchar_with_buf *)

Lemma keeps_putchar_with_buf c attr : keeps false (putchar_with_buf c attr).
Proof.
  intros s [Hb _ _]. pose proof (bo_core _ Hb) as Hc. pose proof (co_total _ Hc) as Ht. pose proof (co_col _ Hc) as Hbc. pose proof (core_buf s Hc) as Hbuf. unfold putchar_with_buf. apply wp_bind, wp_gets, wp_bind. cbv beta.
  apply wp_mono with (P := fun _ s1 => exists t, s1 = with_tx t s /\ buf_ok (textbuf t) /\ 0 <= total_lines t < MAX_SCROLL_LINES /\ buf_hydrated t = buf_hydrated (tx s) /\ buf_col t = buf_col (tx s)).
  { apply wp_if; intros E.
    - unfold mod_tx. apply wp_bind, wp_modify, wp_modify. cbn [tx with_tx]. eexists. split; [reflexivity|]. destruct (shift_ok _ Hbuf) as [S1 _]. split; [exact S1|]. split; [cbn; unfold MAX_SCROLL_LINES; lia|done].
    - apply Z.leb_gt in E. apply wp_ret. exists (tx s). split; [by destruct s|]. split_and!; try done; lia. }
  intros u s1 (t & -> & Tb & Tt & Th & Tc). apply wp_bind, wp_gets. cbv beta. cbn [tx with_tx]. apply wp_bind. unfold set_cell. apply wp_bind, wp_gets, wp_bind. cbv beta. cbn [tx with_tx].
  destruct (tset_ok (textbuf t) (total_lines t) (buf_col t) (mkcell attr c) Tb Tt ltac:(lia)) as (b' & -> & W1 & _). apply wp_lift_some. unfold mod_tx. apply wp_modify. cbn [tx with_tx]. cbv zeta. apply wp_bind.
  assert (Hgo : forall t', textbuf t' = b' -> 0 <= total_lines t' <= MAX_SCROLL_LINES -> 0 <= buf_col t' < SCREEN_MAX_COLS -> buf_hydrated t' = buf_hydrated (tx s) -> wp False redraw_from_buffer (fun _ => inv false) (with_tx t' s)).
  { intros t' E1 E2 E3 E4. apply (redraw_inv false); [|done|by intros s' Hi _ _ _ _ _ _]. apply core_tx; [done|by rewrite E1|done|done|by rewrite E4]. }
  pose proof (co_cols _ Hc) as Hcols. change (screen_cols (with_tx t s)) with (screen_cols s). apply wp_if; intros E.
  - apply wp_bind, wp_modify, wp_modify. cbn [tx with_tx]. match goal with |- wp _ _ _ (with_tx ?t' _) => apply (Hgo t') end; cbn; try done; unfold MAX_SCROLL_LINES, SCREEN_MAX_COLS in *; lia.
  - rewrite orb_false_iff, Z.leb_gt in E. apply wp_modify. cbn [tx with_tx]. match goal with |- wp _ _ _ (with_tx ?t' _) => apply (Hgo t') end; cbn; try done; unfold MAX_SCROLL_LINES, SCREEN_MAX_COLS in *; lia.
Qed.

(** ** Numbers *)

Lemma digits_some base digit : 2 <= base -> forall k v, 0 <= v < base ^ Z.of_nat k -> exists l, digits k base digit v = Some l /\ (length l <= k)%nat.
Proof.
  intros Hb. induction k as [|k IH]; intros v Hv; cbn [digits].
  - rewrite (proj2 (Z.eqb_eq v 0)) by (cbn in Hv; lia). by exists [].
  - destruct (Z.eqb_spec v 0); [exists []; split; [done|cbn; lia]|]. rewrite Nat2Z.inj_succ, Z.pow_succ_r in Hv by lia.
    destruct (IH (v / base)) as (l & -> & Hl); [split; [apply Z.div_pos; lia|apply Z.div_lt_upper_bound; lia]|]. eexists. split; [done|]. cbn. lia.
Qed.
Lemma digits_more base digit k : forall v l n, digits k base digit v = Some l -> digits (k + n) base digit v = Some l.
Proof.
  induction k as [|k IH]; intros v l n; cbn [digits Nat.add].
  - destruct (Z.eqb_spec v 0) as [->|]; [|done]. intros [= <-]. by destruct n.
  - destruct (v =? 0); [done|]. destruct (digits k base digit (v / base)) as [l'|] eqn:E; [|done]. intros [= <-]. by rewrite (IH _ _ n E).
Qed.
(** A 32-bit number has at most 10 decimal and 8 hexadecimal digits. *)
Lemma digits1_dec digit v : is_u32 v -> exists l, digits1 16 10 digit v = Some l /\ (1 <= length l <= 10)%nat.
Proof.
  intros Hv. unfold digits1, is_u32 in *. destruct (Z.eqb_spec v 0); [exists [digit 0]; cbn; split; [done|lia]|].
  destruct (digits_some 10 digit ltac:(lia) 10 v) as (l & El & Hl); [change (10 ^ Z.of_nat 10) with 10000000000; lia|]. exists l. split; [by apply (digits_more 10 digit 10 v l 6)|]. split; [|done].
  destruct l; [|cbn; lia]. cbn in El. rewrite (proj2 (Z.eqb_neq v 0)) in El by done. by repeat case_match; simplify_eq.
Qed.
Lemma digits1_hex digit v : is_u32 v -> exists l, digits1 16 16 digit v = Some l /\ (1 <= length l <= 8)%nat.
Proof.
  intros Hv. unfold digits1, is_u32 in *. destruct (Z.eqb_spec v 0); [exists [digit 0]; cbn; split; [done|lia]|].
  destruct (digits_some 16 digit ltac:(lia) 8 v) as (l & El & Hl); [change (16 ^ Z.of_nat 8) with 4294967296; lia|]. exists l. split; [by apply (digits_more 16 digit 8 v l 8)|]. split; [|done].
  destruct l; [|cbn; lia]. cbn in El. rewrite (proj2 (Z.eqb_neq v 0)) in El by done. by repeat case_match; simplify_eq.
Qed.
Lemma digits_dec v : is_u32 v -> v <> 0 -> is_Some (digits 16 10 dec_digit v).
Proof. intros Hv Hn. destruct (digits1_dec dec_digit v Hv) as (l & El & _). unfold digits1 in El. rewrite (proj2 (Z.eqb_neq v 0)) in El by done. by exists l. Qed.
Lemma s32_range v : -2147483648 <= s32 v < 2147483648.
Proof. unfold s32. pose proof (u32_range v) as H. unfold is_u32 in H. bdestr; lia. Qed.
Lemma int_to_str_ok v : exists l, int_to_str (s32 v) = Some l /\ (length l <= 11)%nat.
Proof.
  pose proof (s32_range v) as Hr. unfold int_to_str. generalize dependent (s32 v). intros x Hr. set (y := if x <? 0 then s32 (- x) else x). assert (Hy : y < 2147483648 /\ (0 <= y \/ y = -2147483648)).
  { subst y. destruct (Z.ltb_spec x 0); [|lia]. destruct (Z.eq_dec x (-2147483648)) as [->|]; [change (s32 (- -2147483648)) with (-2147483648); lia|]. rewrite s32_small by lia. lia. }
  destruct (Z.ltb_spec y 0).
  - eexists. split; [done|]. destruct (x <? 0); cbn; lia.
  - destruct (digits1_dec dec_digit y) as (l & -> & Hl); [unfold is_u32; lia|]. eexists. split; [done|]. rewrite length_app, length_rev. destruct (x <? 0); cbn; lia.
Qed.
Lemma uint_to_str_ok v : exists l, uint_to_str (u32 v) = Some l /\ (length l <= 10)%nat.
Proof. unfold uint_to_str. destruct (digits1_dec dec_digit (u32 v)) as (l & -> & Hl); [apply u32_range|]. eexists. split; [done|]. rewrite length_rev. lia. Qed.
Lemma hex_to_str_ok v up : exists l, hex_to_str (u32 v) up = Some l /\ (length l <= 10)%nat.
Proof. unfold hex_to_str. destruct (digits1_hex (if up then HEX_digit else hex_digit) (u32 v)) as (l & -> & Hl); [apply u32_range|]. eexists. split; [done|]. rewrite length_app, length_rev. cbn. lia. Qed.
Lemma fits_ok n l : Z.of_nat (length l) + 1 <= n -> fits n l = Some l.
Proof. intros H. unfold fits. by rewrite (proj2 (Z.leb_le _ _)). Qed.
Lemma keeps_putchars P l : keeps P (putchars l).
Proof. unfold putchars. keeps_tac. Qed.
#[local] Hint Resolve keeps_putchars : console.
Lemma keeps_print_dec P v : is_u32 v -> keeps P (print_dec v).
Proof. intros Hv. unfold print_dec. destruct (Z.eqb_spec v 0); [auto with console|]. apply con_keeps_bind; [by apply keeps_lift, digits_dec|]. keeps_tac. Qed.
Lemma keeps_print_uint P v : is_u32 v -> keeps P (print_uint v).
Proof. intros Hv. unfold print_uint. destruct (Z.eqb_spec v 0); [keeps_tac|]. apply con_keeps_bind; [by apply keeps_lift, digits_dec|]. keeps_tac. Qed.
Lemma keeps_print_hex P v : keeps P (print_hex v).
Proof. unfold print_hex. auto with console. Qed.
#[local] Hint Resolve keeps_print_hex : console.
Lemma keeps_print_offset P v : keeps P (print_offset v).
Proof. unfold print_offset. keeps_tac. Qed.
Lemma keeps_lift_bind {A B} P (a : A) (k : A -> M screen B) : keeps P (k a) -> keeps P (bind (lift_opt (Some a)) k).
Proof. intros Hk s Hs. apply wp_bind, wp_lift_some. by apply Hk. Qed.
Lemma keeps_kprint_int P v : keeps P (kprint_int v).
Proof. unfold kprint_int. destruct (int_to_str_ok v) as (l & -> & Hl). apply keeps_lift_bind. rewrite fits_ok by lia. apply keeps_lift_bind. auto with console. Qed.
Lemma keeps_uint_padded P v w p : keeps P (print_uint_padded v w p).
Proof. unfold print_uint_padded. keeps_tac. Qed.
#[local] Hint Resolve keeps_uint_padded : console.
Lemma keeps_int_padded P v w p : keeps P (print_int_padded v w p).
Proof. unfold print_int_padded. keeps_tac. Qed.
Lemma pad_ok l w p : (length l <= 16)%nat -> w <= 16 -> is_Some (pad_digits l w p).
Proof. intros Hl Hw. unfold pad_digits. destruct (w <=? _); [done|]. by rewrite (proj2 (Z.ltb_ge 16 w)) by lia. Qed.
Lemma digits_upto_len base digit k : forall v, (length (digits_upto k base digit v) <= k)%nat.
Proof. induction k as [|k IH]; intros v; cbn; [lia|]. destruct (v =? 0); cbn; [lia|]. specialize (IH (v / base)). lia. Qed.
Lemma keeps_hex_padded P v w p : w <= 16 -> keeps P (print_hex_padded v w p).
Proof.
  intros Hw. unfold print_hex_padded. apply con_keeps_bind; [|keeps_tac]. apply keeps_lift, pad_ok; [|done]. destruct (v =? 0); [cbn; lia|apply digits_upto_len].
Qed.
Lemma keeps_HEX_padded P v w p : w <= 16 -> keeps P (print_HEX_padded (u32 v) w p).
Proof.
  intros Hw. unfold print_HEX_padded. destruct (digits1_hex HEX_digit (u32 v)) as (l & -> & Hl); [apply u32_range|]. apply keeps_lift_bind. destruct (pad_ok l w p) as [b ->]; [lia|done|]. apply keeps_lift_bind. keeps_tac.
Qed.

(** ** kprintf *)

(** The directive c with the width wid has an argument of its kind, and fits its buffer: the arguments that are left *)
Definition directive_ok (c wid : Z) (args : list va) : option (list va) :=
  if c =? 115 then match args with VStr _ :: r => Some r | _ => None end
  else if (c =? 100) || (c =? 117) || (c =? 99) then match args with VInt _ :: r => Some r | _ => None end
  else if (c =? 120) || (c =? 88) || (c =? 112) then match args with VInt _ :: r => if wid <=? 16 then Some r else None | _ => None end
  else Some args.
(** Every directive of the format is complete and can be printed. *)
Fixpoint format_ok (n : nat) (p : list Z) (args : list va) : bool :=
  match n with
  | O => false
  | S n' =>
    match p with
    | [] => true
    | c :: p' =>
      if negb (c =? 37) then format_ok n' p' args
      else
        let p1 := match p' with 48 :: q => q | _ => p' end in
        let '(wid, p2) := read_width p1 0 in
        match p2 with
        | [] => false
        | d :: p3 => match directive_ok d wid args with Some args' => format_ok n' p3 args' | None => false end
        end
    end
  end.
Lemma directive_keeps P c pad wid args args' buffer s (Q : list va * list Z -> screen -> Prop) : inv P s -> directive_ok c wid args = Some args' -> (forall b s', inv P s' -> Q (args', b) s') ->
  wp False (kprintf_directive c pad wid args buffer) Q s.
Proof.
  intros Hs Hd HQ. unfold directive_ok in Hd. unfold kprintf_directive.
  assert (Hgo : forall (m : M screen unit) l s, keeps P m -> inv P s -> (Z.of_nat (length l) + 1 <= 16) -> wp False (m;;; l0 <- lift_opt (Some l);; l1 <- lift_opt (fits 16 l0);; ret (args', push buffer l1)) Q s).
  { intros m l s1 Hm Hs1 Hl. apply wp_bind. eapply wp_mono; [by apply Hm|]. intros u s2 Hs2. apply wp_bind, wp_lift_some, wp_bind. rewrite fits_ok by done. apply wp_lift_some, wp_ret. by apply HQ. }
  destruct (c =? 115) eqn:E1; [destruct args as [|[z|l] r]; simplify_eq; apply wp_bind, wp_lift_some, wp_bind; eapply wp_mono; [by apply keeps_putchars|]; intros u s2 Hs2; apply wp_ret; by apply HQ|].
  destruct (c =? 100) eqn:E2; [cbn [orb] in Hd; destruct args as [|[z|l] r]; simplify_eq; apply wp_bind, wp_lift_some; cbn [fst snd]; destruct (int_to_str_ok z) as (l & -> & Hl); apply Hgo; [apply keeps_int_padded|done|lia]|].
  destruct (c =? 117) eqn:E3; [cbn [orb] in Hd; destruct args as [|[z|l] r]; simplify_eq; apply wp_bind, wp_lift_some; cbn [fst snd]; destruct (uint_to_str_ok z) as (l & -> & Hl); apply Hgo; [apply keeps_uint_padded|done|lia]|].
  cbn [orb] in Hd. destruct (c =? 99) eqn:E6.
  { cbn [orb] in Hd. destruct args as [|[z|l] r]; simplify_eq. apply Z.eqb_eq in E6 as ->. cbn [Z.eqb Pos.eqb]. apply wp_bind, wp_lift_some, wp_bind. eapply wp_mono; [by apply keeps_putchar|]. intros u s2 Hs2. apply wp_ret. by apply HQ. }
  destruct (c =? 120) eqn:E4; [cbn [orb] in Hd; destruct args as [|[z|l] r]; simplify_eq; destruct (Z.leb_spec wid 16); simplify_eq; apply wp_bind, wp_lift_some; cbn [fst snd]; destruct (hex_to_str_ok z false) as (l & -> & Hl); apply Hgo; [by apply keeps_hex_padded|done|lia]|].
  destruct (c =? 88) eqn:E5; [cbn [orb] in Hd; destruct args as [|[z|l] r]; simplify_eq; destruct (Z.leb_spec wid 16); simplify_eq; apply wp_bind, wp_lift_some; cbn [fst snd]; destruct (hex_to_str_ok z true) as (l & -> & Hl); apply Hgo; [by apply keeps_HEX_padded|done|lia]|].
  destruct (c =? 112) eqn:E7; [cbn [orb] in Hd; destruct args as [|[z|l] r]; simplify_eq; destruct (Z.leb_spec wid 16); simplify_eq; apply wp_bind, wp_lift_some; cbn [fst snd]; destruct (hex_to_str_ok z false) as (l & -> & Hl); apply Hgo; [apply keeps_hex_padded; by destruct (negb _)|done|lia]|].
  cbn [orb] in Hd. injection Hd as ->. destruct (c =? 37).
  - apply wp_bind. eapply wp_mono; [by apply keeps_putchar|]. intros u s2 Hs2. apply wp_ret. by apply HQ.
  - apply wp_bind. eapply wp_mono; [by apply (keeps_putchar P)|]. intros u s2 Hs2. apply wp_bind. eapply wp_mono; [by apply (keeps_putchar P)|]. intros u' s3 Hs3. apply wp_ret. by apply HQ.
Qed.
Lemma kprintf_loop_keeps P n : forall p args buffer, format_ok n p args = true -> keeps P (kprintf_loop n p args buffer).
Proof.
  induction n as [|n IH]; intros p args buffer Hok; cbn [format_ok] in Hok; [done|]. cbn [kprintf_loop]. destruct p as [|c p']; [apply con_keeps_ret|]. destruct (negb (c =? 37)).
  { apply con_keeps_bind; [apply keeps_putchar|]. intros _. by apply IH. }
  set (pp := match p' with 48 :: q => (48, q) | _ => (32, p') end). set (p1 := match p' with 48 :: q => q | _ => p' end) in Hok. assert (Hpp : pp = (fst pp, p1)) by (subst pp p1; repeat case_match; done). rewrite Hpp. clear Hpp. generalize (fst pp). intros pad. clear pp.
  destruct (read_width p1 0) as [wid p2]. destruct p2 as [|d p3]; [done|]. destruct (directive_ok d wid args) as [args'|] eqn:Ed; [|done].
  intros s Hs. apply wp_bind. eapply (directive_keeps P); [done|done|]. intros b s' Hs'. by apply IH.
Qed.
Lemma keeps_kprintf P fmt args : format_ok (S (length fmt)) fmt args = true -> keeps P (kprintf fmt args).
Proof. intros H. unfold kprintf. apply con_keeps_bind; [by apply kprintf_loop_keeps|]. intros b. apply keeps_log. Qed.

(** ** Sequences of operations *)

(** Text *)
Inductive text_op :=
| OPrintChar (c col row attr : Z) | OPutchar (c : Z) | OPutcharColor (c fg bg : Z) | OKprint (m : list Z) | OKprintAt (m : option (list Z)) (col row : Z) | OKprintColor (m : list Z) (fg bg : Z)
| OKprintf (fmt : list Z) (args : list va) | OPrintDec (v : Z) | OPrintHex (v : Z) | OPrintUint (v : Z) | OPrintOffset (v : Z) | OKprintInt (v : Z)
| OBackspace | OSetColor (fg bg : Z) | OSetCursor (row col : Z) | OClear | OClearInput | OPutAt (x y ch color : Z) | OVgaPutc (x y ch attr : Z)
| OScrollUp | OScrollDown | OBottom | OPrompt (col row off : Z) | OVisible (v : bool) | OBlink (v : bool) | OTick.
(** Graphics, the display itself, and what else changes it *)
Inductive op :=
| OText (o : text_op)
| OSetPixel (x y c : Z) | OGetPixel (x y : Z) | OFillRect (x y w h c : Z) | ODrawText (x y : Z) (t : list Z) (fg bg : Z) (tr : bool)
| OBufChar (c attr : Z) | OFont (d : list Z) | OFramebuffer (addr64 w h p b : Z).
Definition discard {A} (m : M screen A) : M screen unit := m;;; ret tt.
Definition text_run (o : text_op) : M screen unit :=
  match o with
  | OPrintChar c col row attr => discard (print_char c col row attr)
  | OPutchar c => discard (putchar c)
  | OPutcharColor c fg bg => discard (putchar_color c fg bg)
  | OKprint m => kprint m
  | OKprintAt m col row => kprint_at m col row
  | OKprintColor m fg bg => kprint_color m fg bg
  | OKprintf fmt args => kprintf fmt args
  | OPrintDec v => print_dec v
  | OPrintHex v => print_hex v
  | OPrintUint v => print_uint v
  | OPrintOffset v => print_offset v
  | OKprintInt v => kprint_int v
  | OBackspace => kprint_backspace
  | OSetColor fg bg => set_color fg bg
  | OSetCursor row col => set_cursor row col
  | OClear => clear_screen
  | OClearInput => clear_input_line
  | OPutAt x y ch color => screen_put_at x y ch color
  | OVgaPutc x y ch attr => vga_putc x y ch attr
  | OScrollUp => scroll_up_screen
  | OScrollDown => scroll_down_screen
  | OBottom => screen_scroll_to_bottom
  | OPrompt col row off => modify (with_prompt col row off)
  | OVisible v => screen_set_cursor_visible v
  | OBlink v => screen_set_cursor_blink v
  | OTick => screen_cursor_blink_tick
  end.
(** Formats whose directives end, whose arguments are there and whose hexadecimal numbers have a width of
    at most 16; numbers of 32 bits *)
Definition text_ok (o : text_op) : Prop :=
  match o with
  | OKprintf fmt args => format_ok (S (length fmt)) fmt args = true
  | OPrintDec v | OPrintUint v => is_u32 v
  | _ => True
  end.
Definition run (o : op) : M screen unit :=
  match o with
  | OText o => text_run o
  | OSetPixel x y c => screen_fb_set_pixel x y c
  | OGetPixel x y => discard (screen_fb_get_pixel x y)
  | OFillRect x y w h c => screen_fb_fill_rect x y w h c
  | ODrawText x y t fg bg tr => screen_fb_draw_text x y (Some t) fg bg tr
  | OBufChar c attr => putchar_with_buf c attr
  | OFont d => fb <- screen_is_framebuffer;; discard (on_font (font_load_psf fb (Some d) None))
  | OFramebuffer addr64 w h p b => screen_set_framebuffer addr64 w h p b
  end.
(** A frame buffer must be there; and with a font that is loaded while it is on, the screen must still
    fit on it. *)
Definition op_ok (s : screen) (o : op) : Prop :=
  match o with
  | OText o => text_ok o
  | ODrawText _ _ t _ _ _ => Forall is_u8 t
  | OFont d => Forall is_u8 d /\ (enabled (g_fb s) = true -> forall r ft, font_load_psf true (Some d) None (fnt s) = Ok (r, ft) -> grid_ok (g_fb s) ft (screen_cols s) (screen_rows s))
  | OFramebuffer addr64 w h p b => announced s addr64 w h p b
  | _ => True
  end.

#[local] Hint Resolve keeps_kprint_at keeps_kprint_color keeps_kprint_backspace keeps_set_cursor keeps_putchar_color keeps_set_visible keeps_set_blink keeps_blink_tick keeps_put_at keeps_vga_putc
  keeps_scroll_up keeps_scroll_down keeps_scroll_to_bottom keeps_clear_screen keeps_clear_input_line keeps_print_offset keeps_kprint_int keeps_kprintf keeps_print_dec keeps_print_uint
  keeps_set_pixel keeps_get_pixel keeps_fill_rect keeps_draw_text keeps_putchar_with_buf : console.
Lemma keeps_prompt P c r o : keeps P (modify (with_prompt c r o)).
Proof. intros s [[Hc Hp] Hn Hs]. apply wp_modify. split; [split; [|done]|done|done]. by destruct Hc; constructor. Qed.
#[local] Hint Resolve keeps_prompt : console.
Lemma text_keeps P o : text_ok o -> keeps P (text_run o).
Proof. intros Ho. destruct o; cbn [text_ok] in Ho; cbn [text_run]; unfold discard; keeps_tac. Qed.
Lemma font_keeps s d : inv false s -> op_ok s (OFont d) -> wp False (run (OFont d)) (fun _ => inv false) s.
Proof.
  intros [[Hc Hp] _ _] [Hd Hfit]. cbn [run]. unfold screen_is_framebuffer, discard. apply wp_bind, wp_gets, wp_bind, wp_on_font.
  destruct (wp_run _ _ _ (font_load_ok (enabled (g_fb s)) d None (fnt s) (co_font _ Hc) Hd)) as ([r e] & ft & Er & Hft & Ho). eapply wp_ok; [exact Er|]. apply wp_ret.
  split; [split; [|done]|done|done]. assert (Hreg : forall i, reg (adapter ft) REG_SCREEN_DATA i = crtc s i).
  { intros i. destruct (psf_layout d) as [p|]; [destruct Ho as (_ & _ & _ & [[_ _ Hr _] _ _ _]); by apply Hr|by destruct Ho as (_ & _ & ->)]. }
  destruct Hc as [? ? ? ? ? ? ? ? ? Hcr Hd']. constructor; try done; [by unfold crtc; cbn [fnt with_fnt]; rewrite !Hreg|].
  destruct Hd' as [?|(Hm & _ & ? & ?)]; [by left|right]. split_and!; try done. destruct Hm as [He]. rewrite He in Er. by apply (Hfit He _ _ Er).
Qed.
Lemma run_keeps s o : inv false s -> op_ok s o -> wp False (run o) (fun _ => inv false) s.
Proof.
  intros Hs Ho. destruct o; cbn [op_ok] in Ho; try (by apply font_keeps); cbn [run]; unfold discard.
  - by apply text_keeps.
  - by apply keeps_set_pixel.
  - revert s Hs Ho. intros s Hs _. revert s Hs. change (keeps false (screen_fb_get_pixel x y;;; ret tt)). keeps_tac.
  - by apply keeps_fill_rect.
  - by apply keeps_draw_text.
  - by apply keeps_putchar_with_buf.
  - by apply (set_framebuffer_ok false).
Qed.

(** The console when the kernel starts: text mode, an empty buffer *)
Definition boot (v : vga) (vr : list Z) (m : mem) (l : Klog.log) : screen :=
  Scr (Lines (replicate (Z.to_nat MAX_SCROLL_LINES) (replicate (Z.to_nat SCREEN_MAX_COLS) 0)) false 0 0 0) (Cursor 0 0 true true true true 0)
    MAX_COLS MAX_ROWS (Fb 0 0 0 0 0 0 false) WHITE BLACK 0x07 0 0 0 (font0 v) vr m l.
Record machine_ok (v : vga) (vr : list Z) (l : Klog.log) : Prop := {
  mo_plane : length (plane2 v) = Z.to_nat 8192;
  mo_crtc : is_u8 (reg v REG_SCREEN_DATA 14) /\ is_u8 (reg v REG_SCREEN_DATA 15);
  mo_vram : length vr = Z.to_nat 16384;
  mo_log : exists a, Klog.log_rel a l;
}.
Lemma boot_inv v vr m l : machine_ok v vr l -> inv false (boot v vr m l).
Proof.
  intros [Hp Hcr Hv Hl]. split; [split|done|done].
  - constructor; try done; [apply Forall_replicate; unfold line_ok; by rewrite length_replicate|by left].
  - done.
Qed.
(** The states that the console can be in *)
Inductive reach : screen -> Prop :=
| reach_boot v vr m l : machine_ok v vr l -> reach (boot v vr m l)
| reach_step s o u s' : reach s -> op_ok s o -> run o s = Ok (u, s') -> reach s'.
Lemma con_reach_inv s : reach s -> inv false s.
Proof. induction 1 as [v vr m l Hm|s o u s' _ IH Ho Hr]; [by apply boot_inv|]. exact (wp_inv _ _ _ _ _ _ (run_keeps s o IH Ho) Hr). Qed.

(** C38: The console never leaves its arrays.  In every state that can be reached from the start by
    any sequence of operations (characters, strings, formats, cells, cursor movements and a prompt with
    any arguments, scrolling, clearing, blinking, graphics, fonts, a frame buffer) that [op_ok] admits,
    every further such operation ends without an access outside the text buffer, the text memory, the frame
    buffer, the font or the log; the buffer has at most 500 lines, the scroll position stays inside
    it, and the cursor of the frame buffer stays on the screen.  [op_ok] asks that a frame buffer is in
    memory where it is announced, that the lines and columns of the screen still fit on it with a font
    that is loaded while it is on, that a format does not end within a directive, has its arguments and
    gives hexadecimal numbers a width of at most 16, that strings and fonts are bytes, and that decimal
    numbers are of 32 bits; without these the code leaves its arrays ([tall_font_outside],
    [kprintf_outside]). *)
Theorem console_safe s o : reach s -> op_ok s o ->
  wp False (run o) (fun _ s' => reach s' /\ 0 <= total_lines (tx s') <= MAX_SCROLL_LINES /\ 0 <= scroll_pos (tx s') <= Z.max 0 (total_lines (tx s') - screen_rows s') /\
    (enabled (g_fb s') = true -> cursor_in s')) s.
Proof.
  intros Hr Ho. pose proof (run_keeps s o (con_reach_inv s Hr) Ho) as H. unfold wp in *. destruct (run o s) as [[u s']| |] eqn:E; [|done..]. destruct H as [[Hc Hp] _ _]. split_and!; try apply Hc.
  - by eapply reach_step.
  - apply Hp.
  - unfold max_start in Hp. revert Hp. bdestr; lia.
  - intros He. by destruct (fb_mode s' Hc He) as (_ & _ & ? & _).
Qed.

Fixpoint text_runs (l : list text_op) : M screen unit := match l with [] => ret tt | o :: l' => text_run o;;; text_runs l' end.
Lemma text_runs_keep P l : Forall text_ok l -> keeps P (text_runs l).
Proof. induction 1 as [|o l Ho _ IH]; cbn [text_runs]; [apply con_keeps_ret|]. apply con_keeps_bind; [by apply text_keeps|by intros _]. Qed.
(** C39: The display shows the text.  In any state that the console can be in, a frame buffer being on:
    after clear_screen and any sequence of text operations with well-formed formats and numbers of 32
    bits, every pixel of every cell of the frame buffer has the colour that the glyph and the colours of
    the cell of the visible lines of the text buffer give it, the lower lines of the cell of the cursor
    being those of the cursor while it is visible. *)
Theorem console_shows_text s l : reach s -> Forall text_ok l ->
  wp False (clear_screen;;; text_runs l) (fun _ s' => enabled (g_fb s') = true -> shown s') s.
Proof.
  intros Hr Hl. apply wp_bind, (clear_screen_ok true); [apply (con_reach_inv s Hr)|]. intros s1 Hi1. eapply wp_mono; [by apply (text_runs_keep true)|]. intros u s2 Hi2 He. by apply (iv_shown _ _ Hi2).
Qed.

(** ** A terminal *)

(** Lines of cells, of which the last ones are on the screen, and the position of the cursor there, in
    cells from the first *)
Record term := Term { t_len : Z; t_cell : Z -> Z -> Z; t_pos : Z }.
Section terminal.
Context (rows cols : Z).
Definition t_write (k v : Z) (T : term) : term :=
  let line := t_len T - rows + k / cols in
  Term (t_len T) (fun r c => if (r =? line) && (c =? k mod cols) then v else t_cell T r c) (t_pos T).
(** A blank line below the last; of 500 lines the first is dropped. *)
Definition t_scroll (attr : Z) (T : term) : term :=
  let n := Z.min (t_len T + 1) MAX_SCROLL_LINES in let k := t_len T + 1 - n in
  Term n (fun r c => if r =? n - 1 then mkcell attr 32 else t_cell T (r + k) c) (t_pos T - cols).
Definition t_goto (p : Z) (T : term) : term := Term (t_len T) (t_cell T) p.
Definition t_put (attr : Z) (T : term) (c : Z) : term :=
  let p := t_pos T in
  if c =? 8 then if 1 <=? p then t_goto (p - 1) (t_write (p - 1) (mkcell attr 32) T) else T
  else
    let T := if c =? 10 then t_goto ((p / cols + 1) * cols) T else t_goto (p + 1) (t_write p (mkcell attr c) T) in
    if rows * cols <=? t_pos T then t_scroll attr T else T.
End terminal.

Record rel (T : term) (s : screen) : Prop := {
  re_hydrated : buf_hydrated (tx s) = true;
  re_scroll : scroll_pos (tx s) = 0;
  re_len : total_lines (tx s) = t_len T;
  re_full : screen_rows s <= t_len T;
  re_cell : forall r c, 0 <= r < t_len T -> 0 <= c < screen_cols s -> cell_of (textbuf (tx s)) r c = t_cell T r c;
}.
Definition sized (s s' : screen) : Prop := screen_cols s' = screen_cols s /\ screen_rows s' = screen_rows s.
Lemma rel_same T s s' : rel T s -> tx s' = tx s -> sized s s' -> rel T s'.
Proof. intros [] Et [Ec Er]. constructor; rewrite ?Et, ?Ec, ?Er; done. Qed.
Lemma rel_start T s : rel T s -> start_of s = t_len T - screen_rows s.
Proof. intros [Hh Hs Hl Hf _]. unfold start_of, max_start. rewrite Hs, Hl. bdestr; lia. Qed.
Lemma pos_split k rows cols : 1 <= cols -> 0 <= k < rows * cols -> 0 <= k / cols < rows /\ 0 <= k mod cols < cols.
Proof. intros Hc Hk. split; [split; [apply Z.div_pos; lia|apply Z.div_lt_upper_bound; lia]|apply Z.mod_pos_bound; lia]. Qed.
Lemma rel_write T s s' k v : base_ok s -> rel T s -> 0 <= k < screen_rows s * screen_cols s -> written s (k / screen_cols s) (k mod screen_cols s) v (tx s') -> sized s s' -> rel (t_write (screen_rows s) (screen_cols s) k v T) s'.
Proof.
  intros Hb HT Hk ((W1 & W2) & Et & Es & Eh & _) [Ec Er]. pose proof (rel_start T s HT) as Hst. pose proof HT as [Hh Hs Hl Hf Hce]. pose proof (bo_core _ Hb) as Hc. pose proof (co_total _ Hc). pose proof (co_cols _ Hc). destruct (pos_split k (screen_rows s) (screen_cols s) ltac:(lia) Hk) as [Hkr Hkc].
  constructor; rewrite ?Ec, ?Er; cbn [t_write t_len t_cell]; try congruence; try lia. intros r c Hr Hcc. unfold MAX_SCROLL_LINES, SCREEN_MAX_COLS in *. rewrite W2 by lia. rewrite Hst. destruct (_ && _); [done|]. cbn. by apply Hce.
Qed.
Lemma rel_scroll T s s' attr : base_ok s -> rel T s -> appended s attr (tx s') -> sized s s' -> rel (t_scroll (screen_cols s) attr T) s'.
Proof.
  intros Hb HT (A1 & A2 & A3 & A4 & A5 & A6 & A7 & A8) [Ec Er]. pose proof HT as [Hh Hs Hl Hf Hce]. pose proof (bo_core _ Hb) as Hc. pose proof (co_total _ Hc). pose proof (co_cols _ Hc). pose proof (co_rows _ Hc). rewrite Hl in *. unfold MAX_SCROLL_LINES, SCREEN_MAX_COLS, SCREEN_MAX_ROWS in *.
  constructor; rewrite ?Ec, ?Er; cbn [t_scroll t_len t_cell]; unfold MAX_SCROLL_LINES; try congruence; try lia. intros r c Hr Hcc. destruct (Z.eqb_spec r (Z.min (t_len T + 1) 500 - 1)) as [->|Hne].
  - rewrite <-A5. by apply A7; lia.
  - rewrite A6 by lia. replace (if 500 <=? t_len T then 1 else 0) with (t_len T + 1 - Z.min (t_len T + 1) 500) by (bdestr; lia). apply Hce; lia.
Qed.
Lemma moved_rel T s s' : rel T s -> moved s s' -> rel T s' /\ sized s s' /\ g_text_fg s' = g_text_fg s /\ g_text_bg s' = g_text_bg s.
Proof.
  intros HT Hm. unfold moved in Hm. destruct (enabled (g_fb s)).
  - destruct Hm as (m & r & c & ->). split; [by apply (rel_same T s)|done].
  - destruct Hm as (v & ->). split; [by apply (rel_same T s)|done].
Qed.
Definition ink (s s' : screen) : Prop := sized s s' /\ g_text_fg s' = g_text_fg s /\ g_text_bg s' = g_text_bg s.
Lemma edited_ink s s' : edited s s' -> ink s s'.
Proof. by intros (t & (m & v & -> & _) & _). Qed.
Lemma ink_trans s s' s'' : ink s s' -> ink s' s'' -> ink s s''.
Proof. unfold ink, sized. intuition congruence. Qed.

Lemma print_char_term T s c col row attr a (Q : Z -> screen -> Prop) : inv false s -> rel T s -> cursor_at s = t_pos T -> 0 <= t_pos T < screen_rows s * screen_cols s ->
  (col = -1 \/ col = t_pos T mod screen_cols s /\ row = t_pos T / screen_cols s) -> a = (if attr =? 0 then vga_attr (g_text_fg s) (g_text_bg s) else attr) ->
  (forall s' T', T' = t_put (screen_rows s) (screen_cols s) a T c -> inv false s' -> rel T' s' -> cursor_at s' = t_pos T' -> 0 <= t_pos T' < screen_rows s * screen_cols s -> ink s s' -> Q (2 * t_pos T') s') ->
  wp False (print_char c col row attr) Q s.
Proof.
  intros Hi HT Hcur Hp Hat Ha HQ. pose proof (iv_base _ _ Hi) as Hb. pose proof (bo_core _ Hb) as Hc. pose proof (co_cols _ Hc) as Hcols. pose proof (co_rows _ Hc) as Hrows. unfold SCREEN_MAX_COLS, SCREEN_MAX_ROWS in *.
  unfold print_char. apply wp_bind. apply wp_mono with (P := fun x s' => s' = s /\ x = a); [rewrite Ha; by destruct (attr =? 0)|]. intros x s' [-> ->].
  apply wp_bind. eapply wp_ok; [apply hydrated_run, HT|]. apply wp_bind, wp_gets. cbv beta zeta. apply wp_bind. pose proof (pos_split _ _ (screen_cols s) ltac:(lia) Hp) as [Hpr Hpc]. pose proof (Z.div_mod (t_pos T) (screen_cols s) ltac:(lia)) as Hdm.
  apply wp_mono with (P := fun o s2 => o = 2 * t_pos T /\ inv false s2 /\ rel T s2 /\ ink s s2).
  { destruct Hat as [->|[-> ->]].
    - cbn [Z.leb Z.compare andb]. apply get_cursor_ok; [done|]. intros s2 Hq. rewrite Hcur. split; [done|]. split; [by eapply quiet_inv|]. destruct Hq as (_ & v & -> & _). split; [by apply (rel_same T s)|done].
    - rewrite (proj2 (Z.leb_le 0 _)), (proj2 (Z.leb_le 0 (_ / _))) by lia. cbn [andb]. apply wp_ret. split; [unfold get_offset; rewrite s32_small by nia; lia|done]. }
  intros o s2 (-> & Hi2 & HT2 & Hk2). destruct (offset_pos (screen_cols s) (t_pos T) ltac:(lia) ltac:(lia)) as [-> ->]. pose proof Hk2 as ([Ec2 Er2] & _).
  assert (Hput : forall k cell (R : unit -> screen -> Prop), 0 <= k < screen_rows s * screen_cols s -> (forall s3, pre false s3 -> rel (t_write (screen_rows s) (screen_cols s) k cell T) s3 -> ink s s3 -> R tt s3) ->
    wp False (screen_draw_cell (k mod screen_cols s) (k / screen_cols s) cell;;; screen_update_textbuf_cell (k / screen_cols s) (k mod screen_cols s) cell) R s2).
  { intros k cell R Hk HR. pose proof (pos_split k _ (screen_cols s) ltac:(lia) Hk) as [Hkr Hkc]. apply (put_ok false); [by apply inv_pre|apply HT2|]. intros s3 Hp3 He3 Heff. unfold put_effect in Heff. rewrite inside in Heff by lia. pose proof (edited_ink _ _ He3) as Hk3. apply HR; [done| |by eapply ink_trans].
    rewrite <-Ec2, <-Er2 in *. apply rel_write; [apply Hi2|done|done|done|apply Hk3]. }
  unfold t_put in HQ. destruct (Z.eqb_spec c 8) as [->|Hc8].
  - destruct (Z.leb_spec 2 (2 * t_pos T)) as [H1|H1].
    + rewrite (proj2 (Z.leb_le 1 _)) in HQ by lia. apply wp_bind. replace (2 * t_pos T - 2) with (2 * (t_pos T - 1)) by lia. destruct (offset_pos (screen_cols s) (t_pos T - 1) ltac:(lia) ltac:(lia)) as [-> ->].
      eapply wp_eq; [symmetry; apply bind_bind|]. apply wp_bind, Hput; [lia|]. intros s3 Hp3 HT3 Hk3. apply wp_ret. apply wp_bind, (set_cursor_ok false); [done|]. intros s4 Mv Hi4 Hcur4. destruct (moved_rel _ _ _ HT3 Mv) as (HT4 & Hs4). apply wp_ret.
      pose proof Hk3 as ([Ec3 Er3] & _). apply (HQ s4 (t_goto (t_pos T - 1) (t_write (screen_rows s) (screen_cols s) (t_pos T - 1) (mkcell a 32) T)) eq_refl); [done|by destruct HT4|apply Hcur4; [done|cbn; rewrite Ec3, Er3; lia]|cbn; lia|by eapply ink_trans].
    + rewrite (proj2 (Z.leb_gt 1 _)) in HQ by lia. apply wp_bind, wp_ret. apply wp_bind, (set_cursor_ok false); [by apply inv_pre|]. intros s4 Mv Hi4 Hcur4. destruct (moved_rel _ _ _ HT2 Mv) as (HT4 & Hs4). apply wp_ret.
      apply (HQ s4 T eq_refl); [done|done|apply Hcur4; [done|rewrite Ec2, Er2; lia]|done|by eapply ink_trans].
  - set (T1 := if c =? 10 then t_goto ((t_pos T / screen_cols s + 1) * screen_cols s) T else t_goto (t_pos T + 1) (t_write (screen_rows s) (screen_cols s) (t_pos T) (mkcell a c) T)) in HQ.
    assert (HT1 : 0 <= t_pos T1 <= screen_rows s * screen_cols s) by (subst T1; destruct (c =? 10); cbn; nia).
    apply wp_bind. apply wp_mono with (P := fun o s3 => o = 2 * t_pos T1 /\ pre false s3 /\ rel T1 s3 /\ ink s s3).
    { subst T1. destruct (c =? 10).
      - apply wp_ret. split; [unfold get_offset; rewrite s32_small by nia; cbn; lia|]. split; [by apply inv_pre|]. split; [|done]. destruct HT2. by constructor.
      - eapply wp_eq; [symmetry; apply bind_bind|]. apply wp_bind, Hput; [done|]. intros s3 Hp3 HT3 Hk3. apply wp_ret. split; [rewrite s32_small by nia; cbn; lia|]. split; [done|]. split; [|done]. destruct HT3. by constructor. }
    intros o s3 (-> & Hp3 & HT3 & Hk3). pose proof Hk3 as ([Ec3 Er3] & _). set (T2 := if screen_rows s * screen_cols s <=? t_pos T1 then t_scroll (screen_cols s) a T1 else T1) in HQ.
    apply wp_bind. apply wp_mono with (P := fun o s4 => o = 2 * t_pos T2 /\ pre false s4 /\ rel T2 s4 /\ ink s s4).
    { subst T2. destruct (Z.leb_spec (screen_rows s * screen_cols s) (t_pos T1)).
      - rewrite (proj2 (Z.leb_le _ _)) by lia. apply wp_bind, (scroll_lines_ok false); [done|apply HT3|]. intros s4 Hi4 He4 Hap. apply wp_ret. pose proof (edited_ink _ _ He4) as Hk4. split; [cbn; lia|]. split; [by apply inv_pre|]. split; [|by eapply ink_trans]. rewrite <-Ec3. apply rel_scroll with (s := s3); [apply Hp3|done|done|apply Hk4].
      - rewrite (proj2 (Z.leb_gt _ _)) by lia. by apply wp_ret. }
    intros o s4 (-> & Hp4 & HT4 & Hk4). pose proof Hk4 as ([Ec4 Er4] & _). assert (HT2b : 0 <= t_pos T2 < screen_rows s * screen_cols s) by (subst T2; destruct (Z.leb_spec (screen_rows s * screen_cols s) (t_pos T1)); cbn; nia).
    apply wp_bind, (set_cursor_ok false); [done|]. intros s5 Mv Hi5 Hcur5. destruct (moved_rel _ _ _ HT4 Mv) as (HT5 & Hs5). apply wp_ret.
    apply (HQ s5 T2 eq_refl); [done|done|apply Hcur5; [done|rewrite Ec4, Er4; lia]|done|by eapply ink_trans].
Qed.
Lemma kprint_loop_term m : forall T s rows cols attr (Q : unit -> screen -> Prop), inv false s -> rel T s -> cursor_at s = t_pos T -> 0 <= t_pos T < screen_rows s * screen_cols s ->
  rows = screen_rows s -> cols = screen_cols s -> attr = vga_attr (g_text_fg s) (g_text_bg s) ->
  (forall s', inv false s' -> rel (foldl (t_put rows cols attr) T m) s' -> cursor_at s' = t_pos (foldl (t_put rows cols attr) T m) -> sized s s' -> Q tt s') ->
  wp False (kprint_loop m (t_pos T mod screen_cols s) (t_pos T / screen_cols s)) Q s.
Proof.
  induction m as [|c m IH]; intros T s rows cols attr Q Hi HT Hcur Hp Er Ec Ea HQ; cbn [kprint_loop foldl] in *; [by apply wp_ret, HQ|].
  apply wp_bind, (print_char_term T s c _ _ 0 attr); [done..|by right|done|]. intros s1 T1 ET Hi1 HT1 Hcur1 Hp1 [[Ec1 Er1] [Ef1 Eb1]]. apply wp_bind, wp_gets. cbv beta.
  pose proof (co_cols _ (bo_core _ (iv_base _ _ Hi1))). destruct (offset_pos (screen_cols s1) (t_pos T1) ltac:(lia) ltac:(lia)) as [-> ->].
  apply (IH T1 s1 rows cols attr); [done|done|done|by rewrite Er1, Ec1|congruence|congruence|congruence|]. intros s2 Hi2 HT2 Hcur2 [Ec2 Er2]. rewrite <-Er, <-Ec in ET. rewrite ET in *. apply HQ; [done|done|done|split; congruence].
Qed.
(** C40: Printing is that of a simple terminal.  When the screen is full of lines and shows the last of
    them, kprint turns the lines and the cursor, in text mode and on a frame buffer alike, into those
    that [t_put] gives for one character after the other: a character is written at the cursor, a
    newline goes to the next line, a backspace clears the cell before, and behind the last cell the
    screen scrolls by one blank line and keeps the last 500 lines; and the visible lines are the last
    ones. *)
Theorem kprint_is_terminal T s m : reach s -> rel T s -> cursor_at s = t_pos T -> 0 <= t_pos T < screen_rows s * screen_cols s ->
  let T' := foldl (t_put (screen_rows s) (screen_cols s) (vga_attr (g_text_fg s) (g_text_bg s))) T m in
  wp False (kprint m) (fun _ s' => rel T' s' /\ cursor_at s' = t_pos T' /\
    forall x y, 0 <= x < screen_cols s -> 0 <= y < screen_rows s -> view s' x y = t_cell T' (t_len T' - screen_rows s + y) x) s.
Proof.
  intros Hr HT Hcur Hp T'. pose proof (con_reach_inv s Hr) as Hi. pose proof (bo_core _ (iv_base _ _ Hi)) as Hc. unfold kprint. apply wp_bind. pose proof (keeps_log false m s Hi) as Hlog. unfold wp in Hlog |- * at 1. unfold on_log in *.
  destruct (Klog.bootlog_add (Some m) (klog s)) as [[u v]| |]; [|done..]. set (s1 := with_klog v s) in *. change (wp False (kprint_at_str m (-1) (-1)) (fun _ s' => rel T' s' /\ cursor_at s' = t_pos T' /\
    forall x y, 0 <= x < screen_cols s -> 0 <= y < screen_rows s -> view s' x y = t_cell T' (t_len T' - screen_rows s + y) x) s1).
  unfold kprint_at_str. cbn [Z.leb Z.compare andb]. apply wp_bind, get_cursor_ok; [apply Hlog|]. intros s2 Hq. apply wp_bind, wp_gets. cbv beta. assert (Hcur2 : cursor_at s2 = t_pos T) by (by rewrite (quiet_cursor _ _ Hq)). assert (cursor_at s1 = t_pos T) as -> by exact Hcur.
  pose proof (quiet_inv _ _ _ Hlog Hq) as Hi2. assert (HT2 : rel T s2) by (destruct Hq as (_ & w & -> & _); by apply (rel_same T s)). assert (Hs2 : ink s s2) by (by destruct Hq as (_ & w & -> & _)). destruct Hs2 as [[Ec Er] [Ef Eb]].
  pose proof (co_cols _ (bo_core _ (iv_base _ _ Hi2))). destruct (offset_pos (screen_cols s2) (t_pos T) ltac:(lia) ltac:(lia)) as [-> ->].
  apply (kprint_loop_term m T s2 (screen_rows s) (screen_cols s) (vga_attr (g_text_fg s) (g_text_bg s))); [done|done|done|by rewrite Er, Ec|congruence|congruence|congruence|]. intros s3 Hi3 HT3 Hcur3 [Ec3 Er3]. fold T' in HT3, Hcur3. split; [done|]. split; [done|].
  intros x y Hx Hy. unfold view. rewrite (rel_start _ _ HT3). unfold view_at. pose proof HT3 as [_ _ Hl Hf Hce]. rewrite Hl. rewrite Er3, Er in *. rewrite (proj2 (Z.leb_gt _ _)) by lia. apply Hce; [lia|]. rewrite Ec3, Ec. done.
Qed.

(** ** Runs *)

Definition adapter0 : vga := Vga ∅ ∅ (replicate (Z.to_nat 8192) 0).
Definition vram0 : list Z := replicate (Z.to_nat 16384) 0.
(** A frame buffer of 16 by 32 pixels, for 2 by 2 cells *)
Definition mem0 : mem := mem_of 0x1000 (replicate 2048 0).
Definition boot0 : screen := boot adapter0 vram0 mem0 Klog.log0.
Definition fb0 : op := OFramebuffer 0x1000 16 32 64 32.
Lemma machine0_ok : machine_ok adapter0 vram0 Klog.log0.
Proof. constructor; [apply length_replicate|done|apply length_replicate|]. eexists. apply Klog.log0_rel. Qed.
Lemma mem0_mapped : forallb (fun a => bool_decide (is_Some (mem0 !! a))) (seqZ 0x1000 2048) = true.
Proof. vm_compute. reflexivity. Qed.
Lemma fb0_ok : op_ok boot0 fb0.
Proof.
  cbn [op_ok fb0]. split; [|by vm_compute]. constructor; [done|by left|done|done|done|done|]. cbn [addr height pitch]. change (u32 4096) with 4096. intros a Ha. pose proof mem0_mapped as H. rewrite forallb_forall in H.
  eapply bool_decide_eq_true_1, H, (proj1 (list_elem_of_In _ _)), elem_of_seqZ. lia.
Qed.
Lemma con_run_ok s o : reach s -> op_ok s o -> run o s = Ok (tt, final (run o s) s).
Proof. intros Hr Ho. pose proof (run_keeps s o (con_reach_inv s Hr) Ho) as H. unfold wp in H. destruct (run o s) as [[[] s']| |]; done. Qed.
Definition screen0 : screen := final (run fb0 boot0) boot0.
Lemma screen0_reach : reach screen0.
Proof. eapply reach_step; [apply reach_boot, machine0_ok|apply fb0_ok|]. apply con_run_ok; [apply reach_boot, machine0_ok|apply fb0_ok]. Qed.
Lemma console_safe_witness :
  wp False (run (OText (OPrintChar 65 (-7) 3 0))) (fun _ s' => reach s' /\ 0 <= total_lines (tx s') <= MAX_SCROLL_LINES /\ 0 <= scroll_pos (tx s') <= Z.max 0 (total_lines (tx s') - screen_rows s') /\
    (enabled (g_fb s') = true -> cursor_in s')) screen0.
Proof. apply console_safe; [apply screen0_reach|done]. Defined.
Definition ops0 : list text_op := [OKprint [72; 105; 10]; OPutcharColor 66 BLACK WHITE; OScrollUp; OPrompt 1 0 2; OBackspace; OClearInput; OTick].
Lemma console_shows_text_witness : wp False (clear_screen;;; text_runs ops0) (fun _ s' => enabled (g_fb s') = true -> shown s') screen0.
Proof. apply console_shows_text; [apply screen0_reach|]. repeat constructor. Defined.

(** Text mode, with 25 blank lines *)
Definition text0 : screen := final (run (OText OBottom) boot0) boot0.
Lemma text0_reach : reach text0.
Proof. apply (reach_step boot0 (OText OBottom) tt); [apply reach_boot, machine0_ok|done|]. apply (con_run_ok boot0 (OText OBottom)); [apply reach_boot, machine0_ok|done]. Qed.
Definition term0 : term := Term 25 (fun _ _ => blank_cell) 0.
Lemma text0_rel : rel term0 text0.
Proof.
  assert (H : forallb (fun r => forallb (fun c => cell_of (textbuf (tx text0)) r c =? blank_cell) (seqZ 0 80)) (seqZ 0 25) = true) by (vm_compute; reflexivity).
  constructor; [by vm_compute..|]. assert (E : screen_cols text0 = 80) by (by vm_compute). rewrite E. intros r c Hr Hc. cbn [t_len t_cell term0] in *. rewrite forallb_forall in H. specialize (H r). rewrite forallb_forall in H.
  apply Z.eqb_eq, H; apply (proj1 (list_elem_of_In _ _)), elem_of_seqZ; lia.
Qed.
Lemma kprint_is_terminal_witness :
  let T' := foldl (t_put (screen_rows text0) (screen_cols text0) (vga_attr (g_text_fg text0) (g_text_bg text0))) term0 [72; 105; 10; 33; 8] in
  wp False (kprint [72; 105; 10; 33; 8]) (fun _ s' => rel T' s' /\ cursor_at s' = t_pos T' /\
    forall x y, 0 <= x < screen_cols text0 -> 0 <= y < screen_rows text0 -> view s' x y = t_cell T' (t_len T' - screen_rows text0 + y) x) text0.
Proof. apply (kprint_is_terminal term0 text0); [apply text0_reach|apply text0_rel|by vm_compute|by vm_compute]. Defined.

(** ** Corners *)

Definition rows_of (s : screen) : list (list Z) := (fun y => (fun x => Z.land (view s x y) 0xff) <$> seqZ 0 (screen_cols s)) <$> seqZ 0 (screen_rows s).
(** After clear_screen the buffer has one line, and a newline does not add the line of the cursor: the
    second newline on a screen of two lines, which should scroll the first one away, adds the line
    that is on the screen already. *)
Example newline_lost : rows_of (final ((clear_screen;;; kprint [65; 10; 10]) screen0) screen0) = [[65; 32]; [32; 32]] /\
  rows_of (final ((clear_screen;;; kprint [65; 10; 66; 10]) screen0) screen0) = [[66; 32]; [32; 32]].
Proof. vm_compute. split; reflexivity. Qed.
(** -INT_MIN does not fit: the number is written as a minus and an open bracket. *)
Example int_min_text : int_to_str (-2147483648) = Some [45; 40].
Proof. reflexivity. Qed.
(** A width of more than 16 leaves the array of the hexadecimal digits, and a format that ends in a
    percent sign is read behind its end. *)
Example kprintf_outside : kprintf [37; 49; 55; 120] [VInt 1] screen0 = Fault /\ kprintf [37] [] screen0 = Fault.
Proof. split; vm_compute; reflexivity. Qed.
(** A glyph of 8 by 32 pixels *)
Definition tall_psf : list Z := bytes32 PSF2_MAGIC ++ bytes32 0 ++ bytes32 32 ++ bytes32 0 ++ bytes32 1 ++ bytes32 32 ++ bytes32 32 ++ bytes32 8 ++ replicate 32 255.
(** A taller font that is loaded while the frame buffer is on leaves the number of lines as it was: the
    lower ones are drawn outside the frame buffer. *)
Example tall_font_outside : run (OFont tall_psf) screen0 = Ok (tt, final (run (OFont tall_psf) screen0) screen0) /\ (run (OFont tall_psf);;; kprint [65; 66; 67; 68]) screen0 = Fault.
Proof. split; vm_compute; reflexivity. Qed.
End ScreenClaims.
