(* ===== verification/Keyboard.v ===== *)
(** * The keyboard (drivers/keyboard.c)

    Scan codes of set 1 arrive one by one, from the PS/2 port or from the USB driver.  In shell
    mode they edit a line of at most 255 characters, with a history of 16 lines, and Enter hands
    the line to the shell; otherwise they go into a ring of 128 key codes that getkey empties.

    The console, the process table, the ports and the shell are what the driver is given
    ([KbdEnv], [user_input]).  An array is the list of its bytes, an access outside it a fault.  An
    int that only ever is 0 or 1 is a bool. *)
From S2P Require Import Prelude Klog.

Module Keyboard.
Import Klog.

Definition BACKSPACE : Z := 0x0E.
Definition ENTER : Z := 0x1C.
Definition CAPSLOCK : Z := 0x3A.
Definition LSHIFT_MAKE : Z := 0x2A.
Definition RSHIFT_MAKE : Z := 0x36.
Definition LSHIFT_BREAK : Z := 0xAA.
Definition RSHIFT_BREAK : Z := 0xB6.
Definition ALT_MAKE : Z := 0x38.
Definition ALT_BREAK : Z := 0xB8.
Definition CTRL_MAKE : Z := 0x1D.
Definition CTRL_BREAK : Z := 0x9D.
Definition KBD_E0_PREFIX : Z := 0xE0.
Definition KEY_LEFT_MAKE : Z := 0x4B.
Definition KEY_RIGHT_MAKE : Z := 0x4D.
Definition KEY_UP_MAKE : Z := 0x48.
Definition KEY_DOWN_MAKE : Z := 0x50.
Definition ESCAPE : Z := 0x01.
Definition MAX_LINE : Z := 256.
Definition MAX_HISTORY : Z := 16.
Definition SC_MAX : Z := 57.
Definition NUMLOCK_MAKE : Z := 0x45.
Definition KEY_PGUP_MAKE : Z := 0x49.
Definition KEY_PGDN_MAKE : Z := 0x51.
Definition NOTE_KEYBUF_SIZE : Z := 128.
Definition NOTE_KEYBUF_MASK : Z := NOTE_KEYBUF_SIZE - 1.
Definition NOTE_KEY_LEFT : Z := 0x90.
Definition NOTE_KEY_RIGHT : Z := 0x91.
Definition NOTE_KEY_UP : Z := 0x92.
Definition NOTE_KEY_DOWN : Z := 0x93.
Definition LF : Z := 10.
Definition BS : Z := 8.

(** ** State *)

(** The line being edited *)
Record line := Line { key_buffer : list Z; in_len : Z; cur_ix : Z; prompt_row : Z; prompt_col : Z; last_drawn_len : Z }.
(** The lines entered before *)
Record history := History { hist : list (list Z); hist_head : Z; hist_size : Z; hist_view : Z; edit_scratch : list Z; saved_edit : bool }.
(** Prefix byte and modifiers *)
Record modifiers := Mods {
  kbd_e0 : bool; shift_pressed : bool; capslock_on : bool; alt_left_pressed : bool; alt_right_pressed : bool;
  numlock_on : bool; scrolllock_on : bool; ctrl_pressed : bool;
}.
(** The ring of key codes for getkey *)
Record notebuf := Note { note_keybuf : list Z; note_keybuf_head : Z; note_keybuf_tail : Z; g_key_pressed : bool; last_ascii : Z }.
Record kbd (E : Type) := Kbd {
  ln : line; hs : history; md : modifiers; nt : notebuf;
  ignore_ps2_scancodes : bool; keyboard_input_enabled : bool; g_break_script : bool;
  klog : log; env : E;
}.
Arguments Kbd {E}.
Arguments ln {E}.
Arguments hs {E}.
Arguments md {E}.
Arguments nt {E}.
Arguments ignore_ps2_scancodes {E}.
Arguments keyboard_input_enabled {E}.
Arguments g_break_script {E}.
Arguments klog {E}.
Arguments env {E}.

(** The arrays and counters as the kernel starts *)
Definition line0 : line := Line (replicate 256 0) 0 0 0 0 0.
Definition history0 : history := History (replicate 16 (replicate 256 0)) 0 0 (-1) (replicate 256 0) false.
Definition mods0 : modifiers := Mods false false false false false false false false.
Definition note0 : notebuf := Note (replicate 128 0) 0 0 false 0.
Definition kbd0 {E} (e : E) : kbd E := Kbd line0 history0 mods0 note0 false false false log0 e.

(** What the driver calls: the cursor and the scrolled view of drivers/screen.c, processes, ports *)
Class KbdEnv (E : Type) := {
  kprint_char : Z -> M E unit;
  get_cursor_row : M E Z;
  get_cursor_col : M E Z;
  get_offset : Z -> Z -> M E Z;
  set_cursor : Z -> Z -> M E unit;
  set_cursor_offset : Z -> M E unit;
  (** the cells of the row from the column on *)
  clear_input_line : Z -> Z -> M E unit;
  screen_is_scrolled : M E bool;
  screen_scroll_to_bottom : M E unit;
  scroll_up_screen : M E unit;
  scroll_down_screen : M E unit;
  proc_get_foreground_pid : M E Z;
  proc_kill : Z -> bool -> M E bool;
  proc_current_is_user : M E bool;
  proc_request_kill : M E unit;
  hal_in8 : Z -> M E Z;
  hal_out8 : Z -> Z -> M E unit;
  hal_enable_interrupts : M E unit;
  hal_disable_interrupts : M E unit;
  (** the tick counter, and the handler of IRQ 1 put in place *)
  tick : M E Z;
  register_irq1 : M E unit;
}.

Section ops.
Context {E : Type} `{KbdEnv E}.
(** The shell: it runs the line, and while it does keys may arrive. *)
Variable user_input : list Z -> M (kbd E) unit.
Implicit Types s : kbd E.

Definition with_ln (l : line) s : kbd E := Kbd l (hs s) (md s) (nt s) (ignore_ps2_scancodes s) (keyboard_input_enabled s) (g_break_script s) (klog s) (env s).
Definition with_hs (h : history) s : kbd E := Kbd (ln s) h (md s) (nt s) (ignore_ps2_scancodes s) (keyboard_input_enabled s) (g_break_script s) (klog s) (env s).
Definition with_md (m : modifiers) s : kbd E := Kbd (ln s) (hs s) m (nt s) (ignore_ps2_scancodes s) (keyboard_input_enabled s) (g_break_script s) (klog s) (env s).
Definition with_nt (n : notebuf) s : kbd E := Kbd (ln s) (hs s) (md s) n (ignore_ps2_scancodes s) (keyboard_input_enabled s) (g_break_script s) (klog s) (env s).
Definition with_ignore (v : bool) s : kbd E := Kbd (ln s) (hs s) (md s) (nt s) v (keyboard_input_enabled s) (g_break_script s) (klog s) (env s).
Definition with_enabled (v : bool) s : kbd E := Kbd (ln s) (hs s) (md s) (nt s) (ignore_ps2_scancodes s) v (g_break_script s) (klog s) (env s).
Definition with_break (v : bool) s : kbd E := Kbd (ln s) (hs s) (md s) (nt s) (ignore_ps2_scancodes s) (keyboard_input_enabled s) v (klog s) (env s).
Definition with_klog (l : log) s : kbd E := Kbd (ln s) (hs s) (md s) (nt s) (ignore_ps2_scancodes s) (keyboard_input_enabled s) (g_break_script s) l (env s).
Definition with_env (e : E) s : kbd E := Kbd (ln s) (hs s) (md s) (nt s) (ignore_ps2_scancodes s) (keyboard_input_enabled s) (g_break_script s) (klog s) e.
Definition on_env {A} (m : M E A) : M (kbd E) A := fun s =>
  match m (env s) with Ok (a, e) => Ok (a, with_env e s) | Fault => Fault | NoFuel => NoFuel end.
Definition on_log {A} (m : M log A) : M (kbd E) A := fun s =>
  match m (klog s) with Ok (a, l) => Ok (a, with_klog l s) | Fault => Fault | NoFuel => NoFuel end.

Definition line_len (n : Z) (l : line) : line := Line (key_buffer l) n (cur_ix l) (prompt_row l) (prompt_col l) (last_drawn_len l).
Definition line_ix (n : Z) (l : line) : line := Line (key_buffer l) (in_len l) n (prompt_row l) (prompt_col l) (last_drawn_len l).
Definition line_prompt (r c : Z) (l : line) : line := Line (key_buffer l) (in_len l) (cur_ix l) r c (last_drawn_len l).
Definition line_drawn (n : Z) (l : line) : line := Line (key_buffer l) (in_len l) (cur_ix l) (prompt_row l) (prompt_col l) n.
Definition line_buf (b : list Z) (l : line) : line := Line b (in_len l) (cur_ix l) (prompt_row l) (prompt_col l) (last_drawn_len l).
Definition on_line (f : line -> line) : M (kbd E) unit := modify (fun s => with_ln (f (ln s)) s).
Definition on_hist (f : history -> history) : M (kbd E) unit := modify (fun s => with_hs (f (hs s)) s).
Definition on_mods (f : modifiers -> modifiers) : M (kbd E) unit := modify (fun s => with_md (f (md s)) s).
Definition hist_set_view (v : Z) (h : history) : history := History (hist h) (hist_head h) (hist_size h) v (edit_scratch h) (saved_edit h).
Definition hist_set_saved (b : bool) (h : history) : history := History (hist h) (hist_head h) (hist_size h) (hist_view h) (edit_scratch h) b.
Definition hist_set_scratch (b : list Z) (h : history) : history := History (hist h) (hist_head h) (hist_size h) (hist_view h) b (saved_edit h).
Definition set_e0 (b : bool) (m : modifiers) : modifiers :=
  Mods b (shift_pressed m) (capslock_on m) (alt_left_pressed m) (alt_right_pressed m) (numlock_on m) (scrolllock_on m) (ctrl_pressed m).
Definition set_shift (b : bool) (m : modifiers) : modifiers :=
  Mods (kbd_e0 m) b (capslock_on m) (alt_left_pressed m) (alt_right_pressed m) (numlock_on m) (scrolllock_on m) (ctrl_pressed m).
Definition set_caps (b : bool) (m : modifiers) : modifiers :=
  Mods (kbd_e0 m) (shift_pressed m) b (alt_left_pressed m) (alt_right_pressed m) (numlock_on m) (scrolllock_on m) (ctrl_pressed m).
Definition set_alt_left (b : bool) (m : modifiers) : modifiers :=
  Mods (kbd_e0 m) (shift_pressed m) (capslock_on m) b (alt_right_pressed m) (numlock_on m) (scrolllock_on m) (ctrl_pressed m).
Definition set_alt_right (b : bool) (m : modifiers) : modifiers :=
  Mods (kbd_e0 m) (shift_pressed m) (capslock_on m) (alt_left_pressed m) b (numlock_on m) (scrolllock_on m) (ctrl_pressed m).
Definition set_num (b : bool) (m : modifiers) : modifiers :=
  Mods (kbd_e0 m) (shift_pressed m) (capslock_on m) (alt_left_pressed m) (alt_right_pressed m) b (scrolllock_on m) (ctrl_pressed m).
Definition set_ctrl (b : bool) (m : modifiers) : modifiers :=
  Mods (kbd_e0 m) (shift_pressed m) (capslock_on m) (alt_left_pressed m) (alt_right_pressed m) (numlock_on m) (scrolllock_on m) b.

(** ** The ring of key codes *)

Definition note_keybuf_clear_unsafe : M (kbd E) unit := modify (fun s => with_nt (Note (note_keybuf (nt s)) 0 0 false 0) s).
Definition note_key_emit (code : Z) : M (kbd E) unit :=
  n <- gets nt;;
  let next := Z.land (u32 (note_keybuf_head n + 1)) NOTE_KEYBUF_MASK in
  let tail := if next =? note_keybuf_tail n then Z.land (u32 (note_keybuf_tail n + 1)) NOTE_KEYBUF_MASK else note_keybuf_tail n in
  b <- lift_opt (lset (note_keybuf n) (note_keybuf_head n) code);;
  modify (with_nt (Note b next tail true code)).
(** None is false: there was no key. *)
Definition note_keybuf_pop : M (kbd E) (option Z) :=
  on_env hal_disable_interrupts;;;
  n <- gets nt;;
  r <- (if negb (note_keybuf_head n =? note_keybuf_tail n) then
          c <- lift_opt (lget (note_keybuf n) (note_keybuf_tail n));;
          ret (Some c, Z.land (u32 (note_keybuf_tail n + 1)) NOTE_KEYBUF_MASK)
        else ret (None, note_keybuf_tail n));;
  let '(out, tail) := r in
  let pressed := negb (note_keybuf_head n =? tail) in
  modify (with_nt (Note (note_keybuf n) (note_keybuf_head n) tail pressed (if negb pressed then 0 else last_ascii n)));;;
  on_env hal_enable_interrupts;;; ret out.

(** ** LEDs *)

(** for (int i = 0; i < 100000; i++): until the status byte of port 0x64 fits *)
Fixpoint ps2_wait (k : nat) (stop : Z -> bool) : M E unit :=
  match k with
  | O => ret tt
  | S k' => st <- hal_in8 0x64;; if stop st then ret tt else ps2_wait k' stop
  end.
Definition ps2_wait_write : M E unit := ps2_wait (Z.to_nat 100000) (fun st => Z.land st 0x02 =? 0).
Definition ps2_wait_read : M E unit := ps2_wait (Z.to_nat 100000) (fun st => negb (Z.land st 0x01 =? 0)).
Definition kbd_write (val : Z) : M E unit := ps2_wait_write;;; hal_out8 0x60 val.
Definition kbd_read : M E Z := ps2_wait_read;;; hal_in8 0x60.
Definition kbd_set_leds (caps num scroll : bool) : M E unit :=
  let val := Z.lor (Z.lor (if scroll then 1 else 0) (if num then 2 else 0)) (if caps then 4 else 0) in
  kbd_write 0xED;;;
  ack <- kbd_read;;
  if negb (ack =? 0xFA) then ret tt else kbd_write val;;; kbd_read;;; ret tt.

Definition modifiers_off (m : modifiers) : modifiers := Mods false false (capslock_on m) false false (numlock_on m) (scrolllock_on m) (ctrl_pressed m).
Definition reset_modifiers : M (kbd E) unit := on_mods modifiers_off.

(** ** The line *)

(** The C string that an array holds; without a NUL in the array reading it would not stop there. *)
Fixpoint c_string (b : list Z) : option (list Z) :=
  match b with
  | [] => None
  | c :: b' => if c =? 0 then Some [] else r ← c_string b'; Some (c :: r)
  end.
(** memmove within an array, and strncpy into one of at least n characters *)
Definition move (b : list Z) (dst src n : Z) : option (list Z) := c ← slice b src n; splice b dst c.
Definition strncpy (b s : list Z) (n : nat) : option (list Z) := splice b 0 (take n s ++ replicate (n - length s) 0).

Fixpoint print_chars (l : list Z) : M E unit :=
  match l with
  | [] => ret tt
  | c :: l' => kprint_char c;;; print_chars l'
  end.
Definition redraw_line : M (kbd E) unit :=
  l <- gets ln;;
  on_env (set_cursor (prompt_row l) (prompt_col l));;;
  text <- lift_opt (slice (key_buffer l) 0 (in_len l));;
  on_env (print_chars text);;;
  (let tail := last_drawn_len l - in_len l in
   if 0 <? tail then on_env (print_chars (replicate (Z.to_nat tail) 32)) else ret tt);;;
  on_env (set_cursor (prompt_row l) (prompt_col l + cur_ix l));;;
  on_line (line_drawn (in_len l)).
Definition log_input_line : M (kbd E) unit :=
  l <- gets ln;; str <- lift_opt (c_string (key_buffer l));;
  on_log (klog_add (Some str));;; on_log (klog_add (Some [LF])).

(** s is never NULL here. *)
Definition hist_push (s : list Z) : M (kbd E) unit :=
  match s with
  | [] => ret tt
  | _ :: _ =>
    h <- gets hs;;
    same <- (if 0 <? hist_size h then
               last <- lift_opt (lget (hist h) (Z.rem (hist_head h - 1 + MAX_HISTORY) MAX_HISTORY));;
               t <- lift_opt (c_string last);; ret (bool_decide (t = s))
             else ret false);;
    if (same : bool) then ret tt
    else
      cell <- lift_opt (lget (hist h) (hist_head h));;
      c1 <- lift_opt (strncpy cell s 255);; c2 <- lift_opt (lset c1 (MAX_LINE - 1) 0);;
      hl <- lift_opt (lset (hist h) (hist_head h) c2);;
      let size := if hist_size h <? MAX_HISTORY then hist_size h + 1 else hist_size h in
      on_hist (fun h => History hl (Z.rem (hist_head h + 1) MAX_HISTORY) size (hist_view h) (edit_scratch h) (saved_edit h))
  end.
Definition load_history_view : M (kbd E) unit :=
  l <- gets ln;; h <- gets hs;;
  o <- on_env (get_offset (prompt_col l) (prompt_row l));; on_env (set_cursor_offset o);;;
  on_env (clear_input_line (prompt_row l) (prompt_col l));;;
  cell <- lift_opt (lget (hist h) (Z.rem (hist_head h - 1 - hist_view h + MAX_HISTORY) MAX_HISTORY));;
  str <- lift_opt (c_string cell);;
  b1 <- lift_opt (strncpy (key_buffer l) str 255);; b2 <- lift_opt (lset b1 (MAX_LINE - 1) 0);;
  text <- lift_opt (c_string b2);;
  let n := Z.of_nat (length text) in
  on_line (fun l => line_ix n (line_len n (line_buf b2 l)));;;
  redraw_line;;;
  b3 <- lift_opt (lset b2 n 0);; b4 <- lift_opt (splice b3 n (replicate (Z.to_nat (MAX_LINE - n)) 0));;
  on_line (line_buf b4).

(** Enter: the line goes to the log, to the history and to the shell. *)
Definition enter_line : M (kbd E) unit :=
  on_env (kprint_char LF);;;
  log_input_line;;;
  l <- gets ln;; str <- lift_opt (c_string (key_buffer l));;
  hist_push str;;;
  user_input str;;;
  l' <- gets ln;; b <- lift_opt (lset (key_buffer l') 0 0);;
  on_line (fun l => line_drawn 0 (line_ix 0 (line_len 0 (line_buf b l))));;;
  on_hist (fun h => hist_set_saved false (hist_set_view (-1) h));;;
  reset_modifiers.

Definition backspace_line : M (kbd E) unit :=
  l <- gets ln;;
  if 0 <? cur_ix l then
    b <- lift_opt (move (key_buffer l) (cur_ix l - 1) (cur_ix l) (in_len l - cur_ix l));;
    b' <- lift_opt (lset b (in_len l - 1) 0);;
    on_line (fun l => line_ix (cur_ix l - 1) (line_len (in_len l - 1) (line_buf b' l)));;;
    redraw_line
  else ret tt.
Definition insert_line (base : Z) : M (kbd E) unit :=
  l <- gets ln;;
  if in_len l <? MAX_LINE - 1 then
    b <- lift_opt (move (key_buffer l) (cur_ix l + 1) (cur_ix l) (in_len l - cur_ix l));;
    b1 <- lift_opt (lset b (cur_ix l) base);;
    b2 <- lift_opt (lset b1 (in_len l + 1) 0);;
    on_line (fun l => line_ix (cur_ix l + 1) (line_len (in_len l + 1) (line_buf b2 l)));;;
    redraw_line
  else ret tt.
(** The label insert_char *)
Definition insert_char (base : Z) : M (kbd E) unit :=
  if negb (base =? 0) then
    en <- gets keyboard_input_enabled;;
    if (en : bool) then insert_line base else note_key_emit base
  else ret tt.

(** History: up and down *)
Definition history_up : M (kbd E) unit :=
  h <- gets hs;; l <- gets ln;;
  (if hist_view h =? -1 then
     str <- lift_opt (c_string (key_buffer l));;
     e1 <- lift_opt (strncpy (edit_scratch h) str 255);; e2 <- lift_opt (lset e1 (MAX_LINE - 1) 0);;
     on_hist (fun h => hist_set_view 0 (hist_set_saved true (hist_set_scratch e2 h)))
   else if hist_view h <? hist_size h - 1 then on_hist (fun h => hist_set_view (hist_view h + 1) h)
   else ret tt);;;
  load_history_view;;;
  reset_modifiers.
Definition history_down : M (kbd E) unit :=
  h <- gets hs;; l <- gets ln;;
  (if 0 <? hist_view h then
     on_hist (fun h => hist_set_view (hist_view h - 1) h);;; load_history_view
   else
     on_hist (hist_set_view (-1));;;
     b <- (if saved_edit h then
             str <- lift_opt (c_string (edit_scratch h));; lift_opt (strncpy (key_buffer l) str 255)
           else lift_opt (lset (key_buffer l) 0 0));;
     text <- lift_opt (c_string b);;
     let n := Z.of_nat (length text) in
     on_line (fun l => line_ix n (line_len n (line_buf b l)));;;
     redraw_line);;;
  reset_modifiers.

(** The cursor keys in shell mode; behind the prefix the two page keys belong to the same chain. *)
Definition shell_cursor (paging : bool) (sc : Z) : M (kbd E) unit :=
  l <- gets ln;; h <- gets hs;;
  if (sc =? KEY_LEFT_MAKE) && (0 <? cur_ix l) then on_line (fun l => line_ix (cur_ix l - 1) l);;; redraw_line;;; reset_modifiers
  else if (sc =? KEY_RIGHT_MAKE) && (cur_ix l <? in_len l) then on_line (fun l => line_ix (cur_ix l + 1) l);;; redraw_line;;; reset_modifiers
  else if (sc =? KEY_UP_MAKE) && (0 <? hist_size h) then history_up
  else if (sc =? KEY_DOWN_MAKE) && negb (hist_view h =? -1) then history_down
  else if paging && (sc =? KEY_PGUP_MAKE) then on_env scroll_up_screen;;; reset_modifiers
  else if paging && (sc =? KEY_PGDN_MAKE) then on_env scroll_down_screen;;; reset_modifiers
  else ret tt.
Definition note_cursor (sc : Z) : M (kbd E) unit :=
  (if sc =? KEY_LEFT_MAKE then note_key_emit NOTE_KEY_LEFT;;; reset_modifiers else ret tt);;;
  (if sc =? KEY_RIGHT_MAKE then note_key_emit NOTE_KEY_RIGHT;;; reset_modifiers else ret tt);;;
  (if sc =? KEY_UP_MAKE then note_key_emit NOTE_KEY_UP;;; reset_modifiers else ret tt);;;
  (if sc =? KEY_DOWN_MAKE then note_key_emit NOTE_KEY_DOWN;;; reset_modifiers else ret tt).

(** ** Scan codes *)

Definition sc_ascii : list Z :=
  [0; 27; 49; 50; 51; 52; 53; 54; 55; 56; 57; 48; 45; 61; 8;
   9;
   113; 119; 101; 114; 116; 121; 117; 105; 111; 112; 91; 93; 10;
   0;
   97; 115; 100; 102; 103; 104; 106; 107; 108; 59; 39; 96;
   0;
   92;
   122; 120; 99; 118; 98; 110; 109; 44; 46; 47;
   0;
   42;
   0;
   32;
   0].
Definition sc_ascii_shift : list Z :=
  [0; 27; 33; 64; 35; 36; 37; 94; 38; 42; 40; 41; 95; 43; 8;
   9;
   0; 0; 0; 0; 0; 0; 0; 0; 0; 0; 123; 125; 10;
   0;
   0; 0; 0; 0; 0; 0; 0; 0; 0; 58; 34; 126;
   0;
   124;
   0; 0; 0; 0; 0; 0; 0; 60; 62; 63;
   0;
   42;
   0;
   32;
   0].
Definition translate_numpad (num : bool) (sc : Z) (e0 : bool) : Z :=
  let n c := if num then c else 0 in
  if e0 then (if sc =? 0x35 then 47 else 0)
  else
    match sc with
    | 0x37 => 42 | 0x4A => 45 | 0x4E => 43
    | 0x52 => n 48 | 0x53 => n 46 | 0x4F => n 49 | 0x50 => n 50 | 0x51 => n 51 | 0x4B => n 52
    | 0x4C => n 53 | 0x4D => n 54 | 0x47 => n 55 | 0x48 => n 56 | 0x49 => n 57
    | _ => 0
    end.
(** A key that has its bit 7 set is released. *)
Definition key_break (sc : Z) : M (kbd E) unit :=
  m <- gets md;;
  if kbd_e0 m then
    (if sc =? ALT_BREAK then on_mods (set_alt_right false) else ret tt);;; on_mods (set_e0 false)
  else
    (if sc =? ALT_BREAK then on_mods (set_alt_left false) else ret tt);;;
    (if (sc =? LSHIFT_BREAK) || (sc =? RSHIFT_BREAK) then on_mods (set_shift false) else ret tt).
(** Ctrl+E *)
Definition key_kill : M (kbd E) unit :=
  fg_pid <- on_env proc_get_foreground_pid;;
  (if negb (fg_pid =? 0) then on_env (proc_kill fg_pid false);;; ret tt
   else
     u <- on_env proc_current_is_user;;
     if (u : bool) then on_env proc_request_kill else modify (with_break true));;;
  on_mods (set_ctrl false);;; reset_modifiers.
(** A key behind the prefix 0xE0 *)
Definition key_extended (sc : Z) : M (kbd E) unit :=
  en <- gets keyboard_input_enabled;; m <- gets md;;
  if sc =? 0x1C then
    (if (en : bool) then enter_line else note_key_emit LF);;; on_mods (set_e0 false)
  else
    let np := translate_numpad (numlock_on m) sc true in
    if negb (np =? 0) then on_mods (set_e0 false);;; insert_char np
    else (if en then shell_cursor true sc else note_cursor sc);;; on_mods (set_e0 false).
(** The character of a key: the tables, shifted or not *)
Definition key_base (m : modifiers) (sc : Z) : option Z :=
  if alt_left_pressed m then Some (u8 (sc + 255))
  else if alt_right_pressed m then Some (u8 (sc + 126))
  else
    base ← lget sc_ascii sc;
    if (97 <=? base) && (base <=? 122) then Some (if xorb (shift_pressed m) (capslock_on m) then base - 97 + 65 else base)
    else if shift_pressed m then lget sc_ascii_shift sc else Some base.
(** A key that is no cursor, page or numpad key *)
Definition key_plain (sc : Z) : M (kbd E) unit :=
  m <- gets md;;
  if SC_MAX <? sc then ret tt else base <- lift_opt (key_base m sc);; insert_char base.
(** The keys behind the test of the prefix *)
Definition key_make (sc : Z) : M (kbd E) unit :=
  en <- gets keyboard_input_enabled;; m <- gets md;;
  if sc =? BACKSPACE then (if (en : bool) then backspace_line else note_key_emit BS)
  else if sc =? ENTER then (if en then enter_line else note_key_emit LF)
  else if sc =? ESCAPE then (if negb en then note_key_emit 27 else ret tt);;; reset_modifiers
  else
    let np := translate_numpad (numlock_on m) sc false in
    if negb (np =? 0) then insert_char np
    else if negb (numlock_on m) && ((sc =? KEY_LEFT_MAKE) || (sc =? KEY_RIGHT_MAKE) || (sc =? KEY_UP_MAKE) || (sc =? KEY_DOWN_MAKE)) then
      (if en then shell_cursor false sc else note_cursor sc)
    else if negb (numlock_on m) && (sc =? KEY_PGUP_MAKE) then on_env scroll_up_screen;;; reset_modifiers
    else if negb (numlock_on m) && (sc =? KEY_PGDN_MAKE) then on_env scroll_down_screen;;; reset_modifiers
    else key_plain sc.
(** Where the line starts, and the view scrolled back *)
Definition key_prepare (sc : Z) : M (kbd E) unit :=
  l <- gets ln;; en <- gets keyboard_input_enabled;;
  (if (in_len l =? 0) && (cur_ix l =? 0) then
     r <- on_env get_cursor_row;; c <- on_env get_cursor_col;; on_line (line_prompt r c)
   else ret tt);;;
  if (en : bool) then
    sd <- on_env screen_is_scrolled;;
    if (sd : bool) && negb (sc =? KEY_PGUP_MAKE) && negb (sc =? KEY_PGDN_MAKE) then on_env screen_scroll_to_bottom;;; redraw_line else ret tt
  else ret tt.

Definition keyboard_handle_scancode (sc : Z) : M (kbd E) unit :=
  m <- gets md;;
  if sc =? KBD_E0_PREFIX then on_mods (set_e0 true)
  else if negb (Z.land sc 0x80 =? 0) then key_break sc
  else if sc =? ALT_MAKE then on_mods (if kbd_e0 m then set_alt_right true else set_alt_left true)
  else if (sc =? LSHIFT_MAKE) || (sc =? RSHIFT_MAKE) then on_mods (set_shift true)
  else if sc =? CAPSLOCK then
    on_mods (set_caps (negb (capslock_on m)));;; on_env (kbd_set_leds (negb (capslock_on m)) (numlock_on m) (scrolllock_on m))
  else if sc =? NUMLOCK_MAKE then
    on_mods (set_num (negb (numlock_on m)));;; on_env (kbd_set_leds (capslock_on m) (negb (numlock_on m)) (scrolllock_on m))
  else if sc =? CTRL_MAKE then on_mods (set_ctrl true)
  else if sc =? CTRL_BREAK then on_mods (set_ctrl false)
  else if ctrl_pressed m && (sc =? 0x12) then key_kill
  else
    key_prepare sc;;;
    if kbd_e0 m then key_extended sc else key_make sc.

(** IRQ 1 *)
Definition keyboard_callback : M (kbd E) unit :=
  sc <- on_env (hal_in8 0x60);;
  ig <- gets ignore_ps2_scancodes;;
  if (ig : bool) then ret tt else keyboard_handle_scancode sc.
Definition keyboard_inject_scancode (sc : Z) : M (kbd E) unit := keyboard_handle_scancode sc.
Definition keyboard_set_ignore_ps2 (ignore : bool) : M (kbd E) unit := modify (with_ignore ignore).
Definition keyboard_flush : M (kbd E) unit :=
  on_env hal_disable_interrupts;;; note_keybuf_clear_unsafe;;; on_env hal_enable_interrupts;;; reset_modifiers.

(** ** Waiting for a key *)

(** hlt: until the next interrupt, whose handler has run when it returns *)
Variable hal_halt : M (kbd E) unit.

Definition allow_keyboard_only : M E unit := hal_out8 0x21 0xF8;;; hal_out8 0xA1 0xEF.
Definition allow_all_irqs : M E unit := hal_out8 0x21 0x00;;; hal_out8 0xA1 0x00.
Fixpoint wait_pressed (fuel : nat) : M (kbd E) unit :=
  n <- gets nt;;
  if g_key_pressed n then ret tt
  else match fuel with O => nofuel | S fuel' => hal_halt;;; wait_pressed fuel' end.
Definition wait_for_note_key (fuel : nat) : M (kbd E) unit := on_env hal_enable_interrupts;;; wait_pressed fuel.
Fixpoint getkey (fuel : nat) : M (kbd E) Z :=
  match fuel with
  | O => nofuel
  | S fuel' =>
    r <- note_keybuf_pop;;
    match r with
    | None => wait_for_note_key fuel';;; getkey fuel'
    | Some c => if c =? 0 then getkey fuel' else ret c
    end
  end.
Definition getkey_nonblock : M (kbd E) Z := r <- note_keybuf_pop;; ret (match r with None => 0 | Some c => c end).

(** Until three ticks have passed: keys that arrive are dropped. *)
Fixpoint debounce (fuel : nat) (start : Z) : M (kbd E) unit :=
  t <- on_env tick;;
  if u32 (t - start) <? 3 then
    match fuel with
    | O => nofuel
    | S fuel' =>
      hal_halt;;; on_env hal_disable_interrupts;;; note_keybuf_clear_unsafe;;; on_env hal_enable_interrupts;;; debounce fuel' start
    end
  else ret tt.
Definition keyboard_note_debounce (fuel : nat) : M (kbd E) unit :=
  on_env hal_disable_interrupts;;; note_keybuf_clear_unsafe;;; on_env hal_enable_interrupts;;;
  start <- on_env tick;; debounce fuel start.
Definition wait_for_keypress (fuel : nat) : M (kbd E) unit :=
  on_env hal_disable_interrupts;;; note_keybuf_clear_unsafe;;; on_env allow_keyboard_only;;; on_env hal_enable_interrupts;;;
  start <- on_env tick;; debounce fuel start;;;
  wait_pressed fuel;;;
  on_env allow_all_irqs.

(** ** Start *)

Fixpoint kbd_wait_status (fuel : nat) (busy : Z -> bool) : M E unit :=
  st <- hal_in8 0x64;;
  if busy st then match fuel with O => nofuel | S fuel' => kbd_wait_status fuel' busy end else ret tt.
Definition kbd_wait_input (fuel : nat) : M E unit := kbd_wait_status fuel (fun st => negb (Z.land st 0x02 =? 0)).
Definition kbd_wait_output (fuel : nat) : M E unit := kbd_wait_status fuel (fun st => Z.land st 0x01 =? 0).
(** while (hal_in8(0x64) & 1) hal_in8(0x60); *)
Fixpoint kbd_drain (fuel : nat) : M E unit :=
  st <- hal_in8 0x64;;
  if negb (Z.land st 1 =? 0) then hal_in8 0x60;;; match fuel with O => nofuel | S fuel' => kbd_drain fuel' end else ret tt.
Definition kbd_command (fuel : nat) (port v : Z) : M E unit := kbd_wait_input fuel;;; hal_out8 port v.
Definition kbd_answer (fuel : nat) : M E Z := kbd_wait_output fuel;;; hal_in8 0x60.
Definition init_keyboard (fuel : nat) : M (kbd E) unit :=
  on_env register_irq1;;;
  on_env (kbd_command fuel 0x64 0xAD);;;
  on_env (kbd_drain fuel);;;
  on_env (kbd_command fuel 0x64 0x20);;;
  cmd <- on_env (kbd_answer fuel);;
  let cmd := Z.lor cmd 0x01 in
  on_env (kbd_command fuel 0x64 0x60);;;
  on_env (kbd_command fuel 0x60 cmd);;;
  on_env (kbd_command fuel 0x64 0xAE);;;
  on_env (kbd_command fuel 0x60 0xF4);;; on_env (kbd_answer fuel);;;
  on_env (kbd_command fuel 0x60 0xED);;; on_env (kbd_answer fuel);;;
  on_env (kbd_command fuel 0x60 0x00);;; on_env (kbd_answer fuel);;;
  on_mods (fun m => Mods (kbd_e0 m) (shift_pressed m) false (alt_left_pressed m) (alt_right_pressed m) false false (ctrl_pressed m));;;
  reset_modifiers;;;
  mask <- on_env (hal_in8 0x21);;
  on_env (hal_out8 0x21 (Z.land mask (u8 (Z.lnot (Z.shiftl 1 1))))).
End ops.
End Keyboard.
