(* ===== verification/KbdEdit.v ===== *)
(** * The keyboard as a line editor and a queue of keys

    [editor] is a line with a cursor and the lines entered before, [decode] the key that a scan code
    stands for under the modifiers, [ed_step] what the key does to the editor and [push] the queue of
    at most 127 keys that drops its oldest.  The driver of keyboard.c does with its arrays what these
    say; [inv] relates the two. *)
From S2P Require Import Prelude Klog Keyboard.

Module KbdEdit.
Import Klog Keyboard.

(** ** The abstract keyboard *)

Record editor := Ed { ed_text : list Z; ed_pos : nat; ed_hist : list (list Z); ed_view : option nat; ed_saved : list Z }.
Inductive key := KIns (c : Z) | KBack | KEnter | KLeft | KRight | KUp | KDown | KEsc | KNone.

Definition cursor_key (sc : Z) : key :=
  if sc =? KEY_LEFT_MAKE then KLeft else if sc =? KEY_RIGHT_MAKE then KRight else if sc =? KEY_UP_MAKE then KUp else if sc =? KEY_DOWN_MAKE then KDown else KNone.
Definition char_key (c : Z) : key := if c =? 0 then KNone else KIns c.
Definition modifier_codes : list Z := [ALT_MAKE; LSHIFT_MAKE; RSHIFT_MAKE; CAPSLOCK; NUMLOCK_MAKE; CTRL_MAKE].
Definition plain_key (m : modifiers) (sc : Z) : key :=
  if sc =? BACKSPACE then KBack else if sc =? ENTER then KEnter else if sc =? ESCAPE then KEsc
  else match char_key (translate_numpad (numlock_on m) sc false) with
       | KIns c => KIns c
       | _ => match cursor_key sc with
              | KNone => if SC_MAX <? sc then KNone else char_key (default 0 (key_base m sc))
              | k => k
              end
       end.
Definition decode (m : modifiers) (sc : Z) : key :=
  if 0x80 <=? sc then KNone
  else if bool_decide (sc ∈ modifier_codes) then KNone
  else if ctrl_pressed m && (sc =? 0x12) then KNone
  else if kbd_e0 m then (if sc =? ENTER then KEnter else if sc =? 0x35 then KIns 47 else cursor_key sc)
  else plain_key m sc.

Definition remember (t : list Z) (h : list (list Z)) : list (list Z) :=
  match t with
  | [] => h
  | _ => if bool_decide (head h = Some t) then h else take 16 (t :: h)
  end.
Definition recall (v : nat) (e : editor) (saved : list Z) : editor :=
  let t := default [] (ed_hist e !! v) in Ed t (length t) (ed_hist e) (Some v) saved.
Definition ed_step (e : editor) (k : key) : editor :=
  let '(Ed t p h v sv) := e in
  match k with
  | KIns c => if (length t <? 255)%nat then Ed (take p t ++ c :: drop p t) (S p) h v sv else e
  | KBack => if (0 <? p)%nat then Ed (take (p - 1) t ++ drop p t) (p - 1) h v sv else e
  | KEnter => Ed [] 0 (remember t h) None []
  | KLeft => Ed t (p - 1) h v sv
  | KRight => if (p <? length t)%nat then Ed t (S p) h v sv else e
  | KUp =>
    match h, v with
    | [], _ => e
    | _, None => recall 0 e t
    | _, Some i => recall (if (S i <? length h)%nat then S i else i) e sv
    end
  | KDown =>
    match v with
    | None => e
    | Some 0%nat => Ed sv (length sv) h None sv
    | Some (S i) => recall i e sv
    end
  | KEsc | KNone => e
  end.
(** The lines that go to the shell *)
Definition entered (e : editor) (k : key) : list (list Z) := match k with KEnter => [ed_text e] | _ => [] end.

Definition CAPACITY : nat := 127.
Definition push (q : list Z) (c : Z) : list Z := (if (length q <? CAPACITY)%nat then q else tail q) ++ [c].
(** The codes that go into the queue *)
Definition codes (k : key) : list Z :=
  match k with
  | KIns c => [c] | KBack => [BS] | KEnter => [LF] | KEsc => [27]
  | KLeft => [NOTE_KEY_LEFT] | KRight => [NOTE_KEY_RIGHT] | KUp => [NOTE_KEY_UP] | KDown => [NOTE_KEY_DOWN]
  | KNone => []
  end.

(** ** What the arrays hold *)

Record line_rel (t : list Z) (p : nat) (l : line) : Prop := {
  lr_buf : exists rest, key_buffer l = t ++ 0 :: rest;
  lr_size : length (key_buffer l) = 256%nat;
  lr_last : lget (key_buffer l) 255 = Some 0;
  lr_chars : Forall is_char t;
  lr_len : in_len l = Z.of_nat (length t);
  lr_ix : cur_ix l = Z.of_nat p;
  lr_pos : (p <= length t)%nat;
}.
(** A buffer of 256 that holds a line *)
Definition holds (t : list Z) (b : list Z) : Prop := length b = 256%nat /\ Forall is_char t /\ exists rest, b = t ++ 0 :: rest.
Definition view_of (v : option nat) : Z := match v with None => -1 | Some i => Z.of_nat i end.
Record hist_rel (e : editor) (h : history) : Prop := {
  hr_len : length (hist h) = 16%nat;
  hr_cells : Forall (fun b => length b = 256%nat) (hist h);
  hr_head : 0 <= hist_head h < 16;
  hr_size : hist_size h = Z.of_nat (length (ed_hist e));
  hr_max : (length (ed_hist e) <= 16)%nat;
  hr_hist : forall i t, ed_hist e !! i = Some t -> exists b, lget (hist h) ((hist_head h - 1 - Z.of_nat i) mod 16) = Some b /\ holds t b;
  hr_view : hist_view h = view_of (ed_view e);
  hr_bound : forall v, ed_view e = Some v -> (v < length (ed_hist e))%nat /\ saved_edit h = true /\ holds (ed_saved e) (edit_scratch h);
  hr_scratch : length (edit_scratch h) = 256%nat;
}.
Record note_rel (q : list Z) (n : notebuf) : Prop := {
  nr_len : length (note_keybuf n) = 128%nat;
  nr_tail : 0 <= note_keybuf_tail n < 128;
  nr_max : (length q <= CAPACITY)%nat;
  nr_head : note_keybuf_head n = (note_keybuf_tail n + Z.of_nat (length q)) mod 128;
  nr_cells : forall i c, q !! i = Some c -> lget (note_keybuf n) ((note_keybuf_tail n + Z.of_nat i) mod 128) = Some c;
  nr_pressed : g_key_pressed n = match q with [] => false | _ => true end;
  nr_last : last_ascii n = default 0 (list.last q);
}.

(** ** Arrays *)
Lemma c_string_app t rest : Forall is_char t -> c_string (t ++ 0 :: rest) = Some t.
Proof.
  induction t as [|c t IH]; intros Ht; [done|]. apply list.Forall_cons in Ht as [Hc Ht]. cbn [app c_string]. unfold is_char in Hc.
  rewrite (proj2 (Z.eqb_neq c 0)) by lia. by rewrite IH.
Qed.
Lemma holds_string t b : holds t b -> c_string b = Some t.
Proof. intros (_ & Hc & rest & ->). by apply c_string_app. Qed.
Lemma holds_length t b : holds t b -> (length t <= 255)%nat.
Proof. intros (Hl & _ & rest & ->). rewrite length_app in Hl. cbn in Hl. lia. Qed.
Lemma strncpy_ok b t : length b = 256%nat -> (length t <= 255)%nat -> strncpy b t 255 = Some (t ++ replicate (255 - length t) 0 ++ drop 255 b).
Proof.
  intros Hb Ht. unfold strncpy, splice. rewrite take_ge by lia. rewrite length_app, length_replicate, Hb.
  rewrite (proj2 (Z.leb_le _ _)) by lia. change (0 <=? 0) with true. cbn [andb take Z.to_nat app]. rewrite <-app_assoc. cbn [Nat.add].
  by replace (length t + (255 - length t))%nat with 255%nat by lia.
Qed.
(** A line of at most 255 characters stored with its NUL in place *)
Lemma store_line b t : length b = 256%nat -> (length t <= 255)%nat -> Forall is_char t ->
  exists b1 b2, strncpy b t 255 = Some b1 /\ length b1 = 256%nat /\ lset b1 (MAX_LINE - 1) 0 = Some b2 /\ holds t b2 /\ lget b2 255 = Some 0.
Proof.
  intros Hb Ht Hc. eexists _, _. split; [by apply strncpy_ok|].
  assert (Hl : length (t ++ replicate (255 - length t) 0 ++ drop 255 b) = 256%nat) by (rewrite !length_app, length_replicate, length_drop; lia).
  split; [done|]. split; [apply lset_in; rewrite Hl; unfold MAX_LINE; lia|]. split.
  - split; [by rewrite length_insert|]. split; [done|]. change (Z.to_nat (MAX_LINE - 1)) with 255%nat. rewrite app_assoc, insert_app_r_alt; rewrite length_app, length_replicate; [|lia].
    replace (255 - (length t + (255 - length t)))%nat with 0%nat by lia. destruct (drop 255 b) as [|x [|y r]] eqn:Ed.
    + apply (f_equal length) in Ed. rewrite length_drop in Ed. cbn in Ed. lia.
    + cbn. destruct (decide (length t = 255)%nat) as [E|E]; [exists []; rewrite E; cbn; by rewrite app_nil_r|].
      destruct (255 - length t)%nat as [|k] eqn:Ek; [lia|]. cbn. exists (replicate k 0 ++ [0]). by rewrite <-app_assoc.
    + apply (f_equal length) in Ed. rewrite length_drop in Ed. cbn in Ed. lia.
  - change 255 with (MAX_LINE - 1). rewrite lget_insert by (rewrite Hl; unfold MAX_LINE; lia). by rewrite decide_True.
Qed.

(** ** The ring *)
Lemma ring_next x : 0 <= x < 128 -> Z.land (u32 (x + 1)) NOTE_KEYBUF_MASK = (x + 1) mod 128.
Proof. intros. rewrite u32_small by (unfold is_u32; lia). apply (land_ones_mod (x + 1) 7). lia. Qed.

Lemma note_emit_rel q n c : note_rel q n ->
  exists b, lset (note_keybuf n) (note_keybuf_head n) c = Some b /\
    note_rel (push q c) (Note b (Z.land (u32 (note_keybuf_head n + 1)) NOTE_KEYBUF_MASK)
      (if Z.land (u32 (note_keybuf_head n + 1)) NOTE_KEYBUF_MASK =? note_keybuf_tail n then Z.land (u32 (note_keybuf_tail n + 1)) NOTE_KEYBUF_MASK else note_keybuf_tail n) true c).
Proof.
  intros [Hl Ht Hm Hh Hc Hp Ha]. pose proof (Z.mod_pos_bound (note_keybuf_tail n + Z.of_nat (length q)) 128 eq_refl) as Hb.
  rewrite !ring_next by lia. eexists. split; [apply lset_in; lia|]. unfold push, CAPACITY in *.
  destruct (Nat.ltb_spec (length q) 127) as [Hlt|Hge].
  - rewrite (proj2 (Z.eqb_neq _ _)) by (rewrite Hh; Z.div_mod_to_equations; lia).
    constructor; cbn [note_keybuf note_keybuf_head note_keybuf_tail g_key_pressed last_ascii]; rewrite ?length_insert, ?length_app; cbn [length]; unfold CAPACITY; try lia.
    + rewrite Hh. Z.div_mod_to_equations. lia.
    + intros i d Hi. rewrite lget_insert by lia. apply lookup_app_Some in Hi as [Hi|[Hi Hd]].
      * pose proof (lookup_lt_Some _ _ _ Hi). rewrite decide_False; [by apply Hc|]. rewrite Hh. Z.div_mod_to_equations. lia.
      * pose proof (lookup_lt_Some _ _ _ Hd) as Hd'. cbn in Hd'. assert (i = length q) as -> by lia. rewrite Nat.sub_diag in Hd. injection Hd as ->. by rewrite decide_True.
    + by destruct q.
    + by rewrite last_snoc.
  - rewrite (proj2 (Z.eqb_eq _ _)) by (rewrite Hh; Z.div_mod_to_equations; lia). destruct q as [|x q]; cbn [length tail] in *; [lia|].
    constructor; cbn [note_keybuf note_keybuf_head note_keybuf_tail g_key_pressed last_ascii]; rewrite ?length_insert, ?length_app; cbn [length]; unfold CAPACITY; try lia.
    + Z.div_mod_to_equations. lia.
    + rewrite Hh. Z.div_mod_to_equations. lia.
    + intros i d Hi. rewrite lget_insert by lia. apply lookup_app_Some in Hi as [Hi|[Hi Hd]].
      * pose proof (lookup_lt_Some _ _ _ Hi). rewrite decide_False by (rewrite Hh; Z.div_mod_to_equations; lia).
        rewrite <-(Hc (S i) d) by done. f_equal. Z.div_mod_to_equations. lia.
      * pose proof (lookup_lt_Some _ _ _ Hd) as Hd'. cbn in Hd'. assert (i = length q) as -> by lia. rewrite Nat.sub_diag in Hd. injection Hd as ->.
        rewrite decide_True; [done|]. rewrite Hh. Z.div_mod_to_equations. lia.
    + by destruct q.
    + by rewrite last_snoc.
Qed.
Lemma note_pop_rel x q n : note_rel (x :: q) n ->
  negb (note_keybuf_head n =? note_keybuf_tail n) = true /\ lget (note_keybuf n) (note_keybuf_tail n) = Some x /\
  let tail := Z.land (u32 (note_keybuf_tail n + 1)) NOTE_KEYBUF_MASK in
  let pressed := negb (note_keybuf_head n =? tail) in
  note_rel q (Note (note_keybuf n) (note_keybuf_head n) tail pressed (if negb pressed then 0 else last_ascii n)).
Proof.
  intros [Hl Ht Hm Hh Hc Hp Ha]. unfold CAPACITY in *. cbn [length] in *. split; [rewrite (proj2 (Z.eqb_neq _ _)); [done|rewrite Hh; Z.div_mod_to_equations; lia]|].
  split; [rewrite <-(Hc 0%nat x eq_refl); f_equal; Z.div_mod_to_equations; lia|]. rewrite ring_next by lia. cbv zeta.
  assert (He : (note_keybuf_head n =? (note_keybuf_tail n + 1) mod 128) = match q with [] => true | _ => false end).
  { destruct q as [|y q]; cbn [length] in *; [apply Z.eqb_eq|apply Z.eqb_neq]; rewrite Hh; Z.div_mod_to_equations; lia. }
  rewrite He. constructor; cbn [note_keybuf note_keybuf_head note_keybuf_tail g_key_pressed last_ascii]; unfold CAPACITY; try done; try lia.
  - Z.div_mod_to_equations. lia.
  - rewrite Hh. Z.div_mod_to_equations. lia.
  - intros i d Hi. rewrite <-(Hc (S i) d) by done. f_equal. pose proof (lookup_lt_Some _ _ _ Hi). Z.div_mod_to_equations. lia.
  - by destruct q.
  - rewrite Ha. by destruct q.
Qed.
Lemma note_empty_rel n : note_rel [] n -> (note_keybuf_head n =? note_keybuf_tail n) = true /\ last_ascii n = 0.
Proof. intros [Hl Ht Hm Hh Hc Hp Ha]. split; [|done]. apply Z.eqb_eq. cbn [length] in Hh. rewrite Hh. Z.div_mod_to_equations. lia. Qed.

(** ** The environment *)

(** The lines that the shell was given *)
Class KbdLaws (E : Type) := { submitted : E -> list (list Z) }.
Definition keeps {E A} `{KbdLaws E} (m : M E A) : Prop := forall e, wp False m (fun _ e' => submitted e' = submitted e) e.
Class KbdEnvOk (E : Type) {KE : KbdEnv E} {KL : KbdLaws E} := {
  kprint_char_law : forall c, keeps (kprint_char c);
  row_law : keeps get_cursor_row;
  col_law : keeps get_cursor_col;
  offset_law : forall c r, keeps (get_offset c r);
  set_cursor_law : forall r c, keeps (set_cursor r c);
  set_offset_law : forall o, keeps (set_cursor_offset o);
  clear_line_law : forall r c, keeps (clear_input_line r c);
  scrolled_law : keeps screen_is_scrolled;
  bottom_law : keeps screen_scroll_to_bottom;
  up_law : keeps scroll_up_screen;
  down_law : keeps scroll_down_screen;
  fg_law : keeps proc_get_foreground_pid;
  kill_law : forall p b, keeps (proc_kill p b);
  is_user_law : keeps proc_current_is_user;
  request_law : keeps proc_request_kill;
  in8_law : forall p, keeps (hal_in8 p);
  out8_law : forall p v, keeps (hal_out8 p v);
  sti_law : keeps hal_enable_interrupts;
  cli_law : keeps hal_disable_interrupts;
}.
Create HintDb kbd.
#[export] Hint Resolve kprint_char_law row_law col_law offset_law set_cursor_law set_offset_law clear_line_law scrolled_law bottom_law up_law down_law
  fg_law kill_law is_user_law request_law in8_law out8_law sti_law cli_law : kbd.

Section refine.
Context {E : Type} {KE : KbdEnv E} {KL : KbdLaws E} {KO : KbdEnvOk E}.

(** m, en: modifiers and mode; e, q: editor and queue; subs: the lines that the shell was given *)
Record inv (m : modifiers) (en : bool) (e : editor) (q : list Z) (subs : list (list Z)) (s : kbd E) : Prop := {
  iv_line : line_rel (ed_text e) (ed_pos e) (ln s);
  iv_hist : hist_rel e (hs s);
  iv_note : note_rel q (nt s);
  iv_log : exists h, klog_holds h (klog s);
  iv_md : md s = m;
  iv_en : keyboard_input_enabled s = en;
  iv_sub : submitted (env s) = subs;
}.

Lemma wp_kbd_env {A} (c : M E A) m en e q subs s (Q : A -> kbd E -> Prop) :
  keeps c -> inv m en e q subs s -> (forall a s', inv m en e q subs s' -> ln s' = ln s -> hs s' = hs s -> Q a s') -> wp False (on_env c) Q s.
Proof.
  intros Hc Hi HQ. specialize (Hc (env s)). unfold wp, on_env in *. destruct (c (env s)) as [[a e']| |]; [|done|done].
  destruct Hi. apply HQ; [constructor|done..]; cbn; try done. congruence.
Qed.
Lemma on_env_inv {A} (c : M E A) m en e q subs s : keeps c -> inv m en e q subs s -> wp False (on_env c) (fun _ s' => inv m en e q subs s' /\ ln s' = ln s /\ hs s' = hs s) s.
Proof. intros Hc Hi. eapply wp_kbd_env; [done|done|]. by auto. Qed.
Lemma on_mods_inv f m en e q subs s : inv m en e q subs s -> wp False (on_mods f) (fun _ s' => inv (f m) en e q subs s') s.
Proof. intros []. apply wp_modify. constructor; try done. cbn. by f_equal. Qed.
Lemma keeps_bind {A B} (c : M E A) (k : A -> M E B) : keeps c -> (forall a, keeps (k a)) -> keeps (bind c k).
Proof. intros Hc Hk e. apply wp_bind. eapply wp_mono; [apply Hc|]. intros a e' He. eapply wp_mono; [apply Hk|]. intros b e2 He2. cbn in *. congruence. Qed.
Lemma keeps_ret {A} (a : A) : keeps (ret a : M E A).
Proof. intros e. by apply wp_ret. Qed.
Lemma print_chars_keeps l : keeps (print_chars l).
Proof. induction l as [|c l IH]; cbn [print_chars]; [apply keeps_ret|apply keeps_bind; [auto with kbd|done]]. Qed.
Lemma ps2_wait_keeps k p : keeps (ps2_wait k p : M E unit).
Proof. induction k as [|k IH]; cbn [ps2_wait]; [apply keeps_ret|]. apply keeps_bind; [auto with kbd|]. intros st. destruct (p st); [apply keeps_ret|done]. Qed.
Lemma leds_keeps a b c : keeps (kbd_set_leds a b c).
Proof.
  unfold kbd_set_leds, kbd_write, kbd_read, ps2_wait_read, ps2_wait_write. repeat first [apply keeps_ret | apply ps2_wait_keeps | apply in8_law | apply out8_law | apply keeps_bind; intros].
  destruct (negb _); repeat first [apply keeps_ret | apply ps2_wait_keeps | apply in8_law | apply out8_law | apply keeps_bind; intros].
Qed.

Lemma redraw_ok m en e q subs s : inv m en e q subs s ->
  wp False redraw_line (fun _ s' => inv m en e q subs s' /\ hs s' = hs s /\ key_buffer (ln s') = key_buffer (ln s)) s.
Proof.
  intros Hi. unfold redraw_line. apply wp_bind, wp_gets; cbv beta. pose proof (iv_line _ _ _ _ _ _ Hi) as Hl.
  apply wp_bind. eapply wp_mono; [apply on_env_inv; [auto with kbd|done]|]. intros _ s1 (H1 & E1 & F1).
  apply wp_bind. rewrite slice_in; [|lia|].
  2: { destruct Hl as [[rest Hb] Hs _ _ Hn _ _]. rewrite Hn, Hb, length_app. lia. }
  apply wp_lift_some. apply wp_bind. eapply wp_mono; [apply on_env_inv; [apply print_chars_keeps|done]|]. intros _ s2 (H2 & E2 & F2).
  apply wp_bind. apply (wp_mono False _ (fun _ s' => inv m en e q subs s' /\ ln s' = ln s2 /\ hs s' = hs s2)).
  { apply wp_if; intros _; [apply on_env_inv; [apply print_chars_keeps|done]|by apply wp_ret]. }
  intros _ s3 (H3 & E3 & F3). apply wp_bind. eapply wp_mono; [apply on_env_inv; [auto with kbd|done]|]. intros _ s4 ([Ha Hb Hc Hd He Hf Hg] & E4 & F4).
  apply wp_modify. split_and!; [constructor; try done; by destruct Ha|cbn; congruence|cbn; congruence].
Qed.

Lemma insert_at_length {A} (l : list A) x y r n : n = length l -> <[n := y]> (l ++ x :: r) = l ++ y :: r.
Proof. intros ->. rewrite <-(Nat.add_0_r (length l)). by rewrite insert_app_r. Qed.
(** A line in the buffer split at the cursor *)
Lemma line_split t p l : line_rel t p l ->
  exists t1 t2 rest, t = t1 ++ t2 /\ length t1 = p /\ key_buffer l = t1 ++ t2 ++ 0 :: rest.
Proof.
  intros [[rest Hb] Hs _ _ _ _ Hp]. exists (take p t), (drop p t), rest. rewrite take_drop, length_take. split_and!; [done|lia|].
  by rewrite app_assoc, take_drop.
Qed.
Lemma insert_buf t p l c : line_rel t p l -> (length t < 255)%nat -> is_char c ->
  exists b b1 b2, move (key_buffer l) (cur_ix l + 1) (cur_ix l) (in_len l - cur_ix l) = Some b /\ lset b (cur_ix l) c = Some b1 /\ lset b1 (in_len l + 1) 0 = Some b2 /\
    line_rel (take p t ++ c :: drop p t) (S p) (line_ix (cur_ix l + 1) (line_len (in_len l + 1) (line_buf b2 l))).
Proof.
  intros Hl Ht Hc. destruct (line_split t p l Hl) as (t1 & t2 & rest & -> & Hp & Hb). destruct Hl as [_ Hs Hz Hch Hn Hx _].
  rewrite length_app in *. rewrite Hb in Hs, Hz. rewrite !length_app in Hs. cbn [length] in Hs. rewrite take_app_length', drop_app_length' by done.
  destruct rest as [|y rest]; [cbn in Hs; lia|]. cbn [length] in Hs.
  assert (exists x r0, t2 ++ 0 :: y :: rest = x :: r0) as (x & r0 & Ex) by (destruct t2; cbn; eauto).
  unfold move. rewrite Hb, Hn, Hx, slice_in by (rewrite ?length_app; cbn [length]; lia). cbn [mbind option_bind].
  rewrite Nat2Z.id, drop_app_length' by lia. rewrite take_app_length' by lia.
  unfold splice. rewrite (proj2 (Z.leb_le _ _)), (proj2 (Z.leb_le _ _)) by (rewrite ?length_app; cbn [length]; lia). cbn [andb].
  eexists _, _, _. split; [reflexivity|]. replace (Z.to_nat (Z.of_nat p + 1)) with (length t1 + 1)%nat by lia. rewrite take_app_add', Ex by done. cbn [take]. rewrite take_0.
  replace (drop (length t1 + 1 + length t2) (t1 ++ x :: r0)) with (y :: rest).
  2: { rewrite <-Ex, drop_app_ge by lia. replace (length t1 + 1 + length t2 - length t1)%nat with (length (t2 ++ [0])) by (rewrite length_app; cbn; lia).
       change (t2 ++ 0 :: y :: rest) with (t2 ++ [0] ++ y :: rest). rewrite app_assoc. by rewrite drop_app_length. }
  rewrite <-app_assoc. cbn [app]. split; [apply lset_in; rewrite !length_app; cbn [length]; rewrite length_app; cbn [length]; lia|].
  rewrite Nat2Z.id, insert_at_length by done.
  replace (t1 ++ c :: t2 ++ y :: rest) with ((t1 ++ c :: t2) ++ y :: rest) by (by rewrite <-app_assoc).
  split; [apply lset_in; rewrite !length_app; cbn [length]; lia|].
  rewrite insert_at_length by (rewrite length_app; cbn; lia).
  constructor; cbn [key_buffer in_len cur_ix line_ix line_len line_buf]; try (rewrite ?length_app; cbn [length]; lia).
  - by exists rest.
  - rewrite lget_lookup in * by lia. change (Z.to_nat 255) with 255%nat in *. 
    destruct (decide (length t1 + length t2 = 254)%nat).
    + rewrite lookup_app_r by (rewrite length_app; cbn; lia). rewrite length_app; cbn [length]. by replace (255 - (length t1 + S (length t2)))%nat with 0%nat by lia.
    + rewrite app_assoc, lookup_app_r in Hz by (rewrite length_app; lia). rewrite lookup_app_r by (rewrite length_app; cbn; lia).
      rewrite !length_app in *; cbn [length] in *. replace (255 - (length t1 + length t2))%nat with (S (S (253 - (length t1 + length t2)))) in Hz by lia.
      replace (255 - (length t1 + S (length t2)))%nat with (S (253 - (length t1 + length t2))) by lia. exact Hz.
  - apply Forall_app in Hch as [H1 H2]. apply Forall_app. split; [done|by constructor].
Qed.
Lemma backspace_buf t p l : line_rel t p l -> (0 < p)%nat ->
  exists b b', move (key_buffer l) (cur_ix l - 1) (cur_ix l) (in_len l - cur_ix l) = Some b /\ lset b (in_len l - 1) 0 = Some b' /\
    line_rel (take (p - 1) t ++ drop p t) (p - 1) (line_ix (cur_ix l - 1) (line_len (in_len l - 1) (line_buf b' l))).
Proof.
  intros Hl Hp0. destruct (line_split t p l Hl) as (t1' & t2 & rest & -> & Hp & Hb). destruct Hl as [_ Hs Hz Hch Hn Hx _].
  destruct t1' as [|x t1 _] using rev_ind; [cbn in Hp; lia|]. rewrite !length_app in *. cbn [length] in *. rewrite Hb in Hs, Hz. rewrite !length_app in Hs. cbn [length] in Hs.
  rewrite drop_app_length' by (rewrite length_app; cbn; lia). rewrite <-app_assoc, take_app_length' by lia.
  unfold move. rewrite Hb, Hn, Hx, slice_in by (rewrite ?length_app; cbn [length]; lia). cbn [mbind option_bind].
  rewrite Nat2Z.id, drop_app_length' by (rewrite length_app; cbn; lia). rewrite take_app_length' by lia.
  unfold splice. rewrite (proj2 (Z.leb_le _ _)), (proj2 (Z.leb_le _ _)) by (rewrite ?length_app; cbn [length]; lia). cbn [andb].
  rewrite <-!app_assoc. cbn [app]. replace (Z.to_nat (Z.of_nat p - 1)) with (length t1) by lia. rewrite take_app_length.
  assert (exists z, drop (length t1 + length t2) (t1 ++ x :: t2 ++ 0 :: rest) = z :: 0 :: rest) as [z ->].
  { rewrite drop_app_add. change (x :: t2 ++ 0 :: rest) with ((x :: t2) ++ 0 :: rest). destruct t2 as [|y t2 _] using rev_ind; [by exists x|].
    exists y. rewrite length_app. cbn [length]. replace (x :: (t2 ++ [y])) with ((x :: t2) ++ [y]) by done. rewrite <-app_assoc. rewrite drop_app_length'; [done|cbn; lia]. }
  eexists _, _. split; [reflexivity|]. split; [apply lset_in; rewrite !length_app; cbn [length]; lia|]. rewrite app_assoc, insert_at_length by (rewrite length_app; lia).
  constructor; cbn [key_buffer in_len cur_ix line_ix line_len line_buf]; try (rewrite ?length_app; cbn [length]; lia).
  - eauto.
  - rewrite lget_lookup in * by lia. change (Z.to_nat 255) with 255%nat in *.
    rewrite app_assoc, lookup_app_r in Hz by (rewrite !length_app; cbn; lia). rewrite lookup_app_r by (rewrite length_app; lia).
    rewrite !length_app in *; cbn [length] in *. replace (255 - (length t1 + length t2))%nat with (S (255 - (length t1 + 1 + length t2))) by lia. exact Hz.
  - rewrite !Forall_app in *. tauto.
Qed.

Lemma wp_seq {S A B C} F (a : M S A) (b : M S B) (k : B -> M S C) Q s :
  wp F (a;;; b) (fun x s' => wp F (k x) Q s') s -> wp F (a;;; (x <- b;; k x)) Q s.
Proof. unfold wp, bind. destruct (a s) as [[x s1]| |]; [|done..]. by destruct (b s1) as [[y s2]| |]. Qed.
Lemma hist_rel_ext e e' h : ed_hist e' = ed_hist e -> ed_view e' = ed_view e -> ed_saved e' = ed_saved e -> hist_rel e h -> hist_rel e' h.
Proof. intros E1 E2 E3 []. constructor; rewrite ?E1, ?E2, ?E3; done. Qed.
(** A step that changes the line and draws it *)
Lemma redraw_with m en e q subs s f t p : inv m en e q subs s -> line_rel t p (f (ln s)) ->
  wp False (on_line f;;; redraw_line) (fun _ s' => inv m en (Ed t p (ed_hist e) (ed_view e) (ed_saved e)) q subs s') s.
Proof.
  intros [Ha Hb Hc Hd He Hf Hg] Hl. apply wp_bind, wp_modify. eapply wp_mono.
  - apply (redraw_ok m en (Ed t p (ed_hist e) (ed_view e) (ed_saved e)) q subs). constructor; try done. by apply (hist_rel_ext e).
  - by intros _ s' [? _].
Qed.
Lemma insert_line_ok c m en e q subs s : inv m en e q subs s -> is_char c -> wp False (insert_line c) (fun _ s' => inv m en (ed_step e (KIns c)) q subs s') s.
Proof.
  intros Hi Hc. pose proof (iv_line _ _ _ _ _ _ Hi) as Hl. destruct e as [t p h v sv]. cbn [ed_step ed_text ed_pos] in *. unfold insert_line. apply wp_bind, wp_gets; cbv beta.
  rewrite (lr_len _ _ _ Hl). replace (Z.of_nat (length t) <? MAX_LINE - 1) with (length t <? 255)%nat by (unfold MAX_LINE; bdestr; destruct (Nat.ltb_spec (length t) 255); lia).
  destruct (Nat.ltb_spec (length t) 255) as [Hlt|Hge]; [|by apply wp_ret]. rewrite <-(lr_len _ _ _ Hl).
  destruct (insert_buf t p (ln s) c Hl Hlt Hc) as (b & b1 & b2 & E1 & E2 & E3 & Hl'). apply wp_bind. rewrite E1. apply wp_lift_some, wp_bind. rewrite E2. apply wp_lift_some, wp_bind.
  rewrite E3. apply wp_lift_some. apply (redraw_with m en (Ed t p h v sv)); done.
Qed.
Lemma backspace_line_ok m en e q subs s : inv m en e q subs s -> wp False backspace_line (fun _ s' => inv m en (ed_step e KBack) q subs s') s.
Proof.
  intros Hi. pose proof (iv_line _ _ _ _ _ _ Hi) as Hl. destruct e as [t p h v sv]. cbn [ed_step ed_text ed_pos] in *. unfold backspace_line. apply wp_bind, wp_gets; cbv beta.
  replace (0 <? cur_ix (ln s)) with (0 <? p)%nat by (rewrite (lr_ix _ _ _ Hl); bdestr; destruct (Nat.ltb_spec 0 p); lia).
  destruct (Nat.ltb_spec 0 p) as [Hlt|Hge]; [|by apply wp_ret].
  destruct (backspace_buf t p (ln s) Hl Hlt) as (b & b' & E1 & E2 & Hl'). apply wp_bind. rewrite E1. apply wp_lift_some, wp_bind. rewrite E2. apply wp_lift_some.
  apply (redraw_with m en (Ed t p h v sv)); done.
Qed.
Lemma move_cursor_ok p' f m en e q subs s : inv m en e q subs s -> f (ln s) = line_ix (Z.of_nat p') (ln s) -> (p' <= length (ed_text e))%nat ->
  wp False (on_line f;;; redraw_line;;; reset_modifiers) (fun _ s' => inv (modifiers_off m) en (Ed (ed_text e) p' (ed_hist e) (ed_view e) (ed_saved e)) q subs s') s.
Proof.
  intros Hi Hf Hp. assert (Hl : line_rel (ed_text e) p' (f (ln s))) by (rewrite Hf; destruct (iv_line _ _ _ _ _ _ Hi); by constructor).
  apply wp_seq. eapply wp_mono; [by apply redraw_with|]. intros u s' Hs'. by apply on_mods_inv.
Qed.

(** ** History *)
Lemma hist_index x v : 0 <= x < 16 -> 0 <= v < 16 -> Z.rem (x - 1 - v + MAX_HISTORY) MAX_HISTORY = (x - 1 - v) mod 16.
Proof. intros. unfold MAX_HISTORY. rewrite Z.rem_mod_nonneg by lia. Z.div_mod_to_equations. lia. Qed.
Lemma load_view_ok v m en e q subs s : inv m en e q subs s -> ed_view e = Some v ->
  wp False load_history_view (fun _ s' => inv m en (recall v e (ed_saved e)) q subs s') s.
Proof.
  intros Hi Hv. pose proof (iv_line _ _ _ _ _ _ Hi) as Hl. pose proof (iv_hist _ _ _ _ _ _ Hi) as Hh. unfold load_history_view. apply wp_bind, wp_gets, wp_bind, wp_gets; cbv beta.
  apply wp_bind. eapply wp_mono; [apply on_env_inv; [auto with kbd|done]|]. intros o s1 (H1 & E1 & F1). apply wp_bind. eapply wp_mono; [apply on_env_inv; [auto with kbd|done]|]. intros _ s2 (H2 & E2 & F2).
  apply wp_bind. eapply wp_mono; [apply on_env_inv; [auto with kbd|done]|]. intros _ s3 (H3 & E3 & F3). apply wp_bind.
  destruct (hr_bound _ _ Hh v Hv) as (Hlt & _ & _). destruct (lookup_lt_is_Some_2 (ed_hist e) v Hlt) as [t Ht]. pose proof (hr_max _ _ Hh).
  destruct (hr_hist _ _ Hh v t Ht) as (b & Hb & Hhold). rewrite (hr_view _ _ Hh), Hv. cbn [view_of]. rewrite hist_index by (pose proof (hr_head _ _ Hh); lia). rewrite Hb.
  apply wp_lift_some, wp_bind. rewrite (holds_string _ _ Hhold). apply wp_lift_some, wp_bind. pose proof (holds_length _ _ Hhold) as Ht255. destruct Hhold as (_ & Hch & _).
  destruct (store_line (key_buffer (ln s)) t (lr_size _ _ _ Hl) Ht255 Hch) as (b1 & b2 & Eb1 & _ & Eb2 & Hhold & Hlast). rewrite Eb1. apply wp_lift_some, wp_bind. rewrite Eb2. apply wp_lift_some, wp_bind.
  rewrite (holds_string _ _ Hhold). apply wp_lift_some. cbv zeta.
  set (f := fun l => line_ix _ (line_len _ (line_buf b2 l))). assert (Hl' : forall l, line_rel t (length t) (f l)).
  { intros l. destruct Hhold as (? & ? & ?). by constructor. }
  apply wp_bind, wp_modify, wp_bind. set (e' := Ed t (length t) (ed_hist e) (ed_view e) (ed_saved e)).
  eapply wp_mono; [apply (redraw_ok m en e' q subs)|].
  { destruct H3. constructor; try done; [apply Hl'|]. by apply (hist_rel_ext e). }
  intros _ s4 (H4 & E4 & F4). destruct Hhold as (Hlen & _ & rest & Hrest). assert (Hn : (length t + S (length rest) = 256)%nat) by (rewrite <-Hlen, Hrest, length_app; done).
  apply wp_bind. rewrite lset_in by lia. apply wp_lift_some, wp_bind. rewrite Nat2Z.id, Hrest, insert_at_length by done.
  unfold splice. rewrite length_replicate, (proj2 (Z.leb_le _ _)), (proj2 (Z.leb_le _ _)) by (unfold MAX_LINE; rewrite ?length_app; cbn [length]; lia). cbn [andb]. apply wp_lift_some, wp_modify.
  rewrite Nat2Z.id, take_app_length, drop_ge, app_nil_r by (rewrite length_app; unfold MAX_LINE; cbn [length]; lia).
  replace (Z.to_nat (MAX_LINE - Z.of_nat (length t))) with (S (length rest)) by (unfold MAX_LINE; lia).
  destruct H4. unfold recall. rewrite Ht. cbn [default from_option]. constructor; try done.
  - destruct iv_line0 as [? ? ? ? Hn' Hx' ?]. cbn [ed_text ed_pos e'] in *. constructor; cbn [ln with_ln key_buffer line_buf in_len cur_ix ed_text ed_pos]; try done; [by exists (replicate (length rest) 0)| |].
    + rewrite length_app, length_replicate. lia.
    + rewrite lget_lookup by lia. rewrite lookup_app_r by lia. apply lookup_replicate. split; [done|lia].
  - cbn [hs with_ln]. apply (hist_rel_ext e'); try done.
Qed.

Lemma on_hist_inv f m en e e' q subs s : inv m en e q subs s -> ed_text e' = ed_text e -> ed_pos e' = ed_pos e -> hist_rel e' (f (hs s)) ->
  wp False (on_hist f) (fun _ s' => inv m en e' q subs s') s.
Proof. intros [] E1 E2 Hh. apply wp_modify. constructor; try done. by rewrite E1, E2. Qed.
Lemma inv_holds m en e q subs s : inv m en e q subs s -> holds (ed_text e) (key_buffer (ln s)).
Proof. intros [[] _ _ _ _ _ _]. done. Qed.

Lemma history_up_ok m en e q subs s : inv m en e q subs s -> ed_hist e <> [] ->
  wp False history_up (fun _ s' => inv (modifiers_off m) en (ed_step e KUp) q subs s') s.
Proof.
  intros Hi Hne. pose proof (iv_hist _ _ _ _ _ _ Hi) as Hh. pose proof (inv_holds _ _ _ _ _ _ Hi) as Ht. destruct e as [t p h v sv]. cbn [ed_text ed_pos ed_hist] in *.
  assert (0 < length h)%nat by (destruct h; [done|cbn; lia]).
  unfold history_up. apply wp_bind, wp_gets, wp_bind, wp_gets; cbv beta.
  apply wp_bind. apply (wp_mono False _ (fun _ s' => exists i sv', inv m en (Ed t p h (Some i) sv') q subs s' /\ ed_step (Ed t p h v sv) KUp = recall i (Ed t p h (Some i) sv') sv')).
  - rewrite (hr_view _ _ Hh), (hr_size _ _ Hh). cbn [ed_view ed_hist]. destruct v as [i|]; cbn [view_of].
    + rewrite (proj2 (Z.eqb_neq _ _)) by lia. destruct (hr_bound _ _ Hh i eq_refl) as (Hlt & Hsv & Hsc). cbn [ed_hist ed_saved] in *.
      destruct (Nat.ltb_spec (S i) (length h)) as [Hs|Hs].
      * rewrite (proj2 (Z.ltb_lt _ _)) by lia. eapply wp_mono; [eapply (on_hist_inv _ _ _ _ (Ed t p h (Some (S i)) sv)); [exact Hi|done|done|]|].
        -- destruct Hh. constructor; try done; cbn [hist_set_view hist_view ed_view view_of]; [rewrite hr_view0; cbn; lia|]. intros w [= <-]. done.
        -- intros ? s' Hs'. exists (S i), sv. split; [done|]. cbn [ed_step]. rewrite (proj2 (Nat.ltb_lt _ _)) by done. by destruct h.
      * rewrite (proj2 (Z.ltb_ge _ _)) by lia. apply wp_ret. exists i, sv. split; [done|]. cbn [ed_step]. rewrite (proj2 (Nat.ltb_ge _ _)) by done. by destruct h.
    + apply wp_bind. rewrite (holds_string _ _ Ht). apply wp_lift_some, wp_bind.
      destruct (store_line (edit_scratch (hs s)) t (hr_scratch _ _ Hh) (holds_length _ _ Ht) ltac:(by destruct Ht as (_ & ? & _))) as (b1 & b2 & Eb1 & _ & Eb2 & Hhold & _).
      rewrite Eb1. apply wp_lift_some, wp_bind. rewrite Eb2. apply wp_lift_some. eapply wp_mono; [eapply (on_hist_inv _ _ _ _ (Ed t p h (Some 0%nat) t)); [exact Hi|done|done|]|].
      * destruct Hh. constructor; try done; cbn [ed_hist ed_saved edit_scratch hist_set_view hist_set_saved hist_set_scratch]; [intros w [= <-]; done|]. by destruct Hhold.
      * intros ? s' Hs'. exists 0%nat, t. split; [done|]. cbn. by destruct h.
  - intros ? s1 (i & sv' & H1 & Eq). apply wp_bind. eapply wp_mono; [by apply (load_view_ok i)|]. intros ? s2 H2. rewrite Eq. by apply on_mods_inv.
Qed.
Lemma history_down_ok i m en e q subs s : inv m en e q subs s -> ed_view e = Some i ->
  wp False history_down (fun _ s' => inv (modifiers_off m) en (ed_step e KDown) q subs s') s.
Proof.
  intros Hi Hv. pose proof (iv_hist _ _ _ _ _ _ Hi) as Hh. pose proof (iv_line _ _ _ _ _ _ Hi) as Hl. destruct e as [t p h v sv]. cbn [ed_text ed_pos ed_view] in *. subst v.
  destruct (hr_bound _ _ Hh i eq_refl) as (Hlt & Hsv & Hsc). cbn [ed_hist ed_saved] in *.
  unfold history_down. apply wp_bind, wp_gets, wp_bind, wp_gets; cbv beta. rewrite (hr_view _ _ Hh). cbn [ed_view view_of].
  apply wp_bind. apply (wp_mono False _ (fun _ s' => inv m en (ed_step (Ed t p h (Some i) sv) KDown) q subs s')).
  - destruct i as [|i]; cbn [ed_step].
    + rewrite (proj2 (Z.ltb_ge _ _)) by lia. apply wp_bind. eapply wp_mono; [eapply (on_hist_inv _ _ _ _ (Ed t p h None sv)); [exact Hi|done|done|]|].
      { destruct Hh. by constructor. }
      intros ? s1 H1. rewrite Hsv. apply wp_bind, wp_bind. rewrite (holds_string _ _ Hsc). apply wp_lift_some. pose proof (holds_length _ _ Hsc) as H255. destruct Hsc as (_ & Hch & _).
      rewrite strncpy_ok by (try apply Hl; done). apply wp_lift_some, wp_bind.
      assert (Hz : exists rest, sv ++ replicate (255 - length sv) 0 ++ drop 255 (key_buffer (ln s)) = sv ++ 0 :: rest /\ lget (sv ++ 0 :: rest) 255 = Some 0 /\ (length sv + S (length rest) = 256)%nat).
      { pose proof (lr_last _ _ _ Hl) as Hz. rewrite lget_lookup in Hz by lia. change (Z.to_nat 255) with 255%nat in Hz. rewrite (drop_S _ _ _ Hz), drop_ge by (rewrite (lr_size _ _ _ Hl); lia).
        destruct (255 - length sv)%nat as [|k] eqn:Ek; cbn [replicate app].
        - exists []. split_and!; [done| |cbn; lia]. rewrite lget_lookup by lia. change (Z.to_nat 255) with 255%nat. rewrite lookup_app_r by lia. by rewrite Ek.
        - exists (replicate k 0 ++ [0]). split_and!; [done| |rewrite length_app, length_replicate; cbn; lia]. rewrite lget_lookup by lia. change (Z.to_nat 255) with 255%nat.
          rewrite lookup_app_r by lia. rewrite Ek. change ((replicate k 0 ++ [0]) !! k = Some 0). rewrite lookup_app_r by (rewrite length_replicate; lia). by rewrite length_replicate, Nat.sub_diag. }
      destruct Hz as (rest & -> & Hlast & Hlen). rewrite c_string_app by done. apply wp_lift_some. cbv zeta. eapply (redraw_with m en (Ed t p h None sv)); [done|].
      constructor; cbn [key_buffer in_len cur_ix line_ix line_len line_buf]; try done; [by exists rest|]. rewrite length_app. cbn [length]. lia.
    + rewrite (proj2 (Z.ltb_lt _ _)) by lia. apply wp_bind. eapply wp_mono; [eapply (on_hist_inv _ _ _ _ (Ed t p h (Some i) sv)); [exact Hi|done|done|]|].
      { destruct Hh. constructor; try done; cbn [hist_set_view hist_view ed_view view_of]; [rewrite hr_view0; cbn; lia|]. intros w [= <-]. split; [cbn; lia|done]. }
      intros ? s1 H1. by apply (load_view_ok i _ _ (Ed t p h (Some i) sv)).
  - intros _ s1 H1. by apply on_mods_inv.
Qed.
(** The cursor keys: what the editor does with them, or nothing *)
Lemma shell_cursor_ok b sc m en e q subs s : inv m en e q subs s ->
  wp False (shell_cursor b sc) (fun _ s' => exists m', inv m' en (ed_step e (cursor_key sc)) q subs s') s.
Proof.
  intros Hi. pose proof (iv_hist _ _ _ _ _ _ Hi) as Hh. pose proof (iv_line _ _ _ _ _ _ Hi) as Hl. unfold shell_cursor, cursor_key. apply wp_bind, wp_gets, wp_bind, wp_gets; cbv beta.
  destruct e as [t p h v sv]. cbn [ed_text ed_pos] in *. rewrite (lr_ix _ _ _ Hl), (lr_len _ _ _ Hl), (hr_size _ _ Hh), (hr_view _ _ Hh). cbn [ed_hist ed_view]. pose proof (lr_pos _ _ _ Hl).
  destruct (sc =? KEY_LEFT_MAKE) eqn:E1; [|destruct (sc =? KEY_RIGHT_MAKE) eqn:E2; [|destruct (sc =? KEY_UP_MAKE) eqn:E3; [|destruct (sc =? KEY_DOWN_MAKE) eqn:E4]]];
    rewrite ?Z.eqb_eq in *; subst; cbn [andb Z.eqb Pos.eqb KEY_LEFT_MAKE KEY_RIGHT_MAKE KEY_UP_MAKE KEY_DOWN_MAKE KEY_PGUP_MAKE KEY_PGDN_MAKE]; rewrite ?andb_false_r.
  - destruct (Z.ltb_spec 0 (Z.of_nat p)).
    + eapply wp_mono; [apply (move_cursor_ok (p - 1) _ _ _ _ _ _ _ Hi); [f_equal; rewrite (lr_ix _ _ _ Hl); lia|cbn; lia]|]. intros ? s' Hs'. by exists (modifiers_off m).
    + apply wp_ret. exists m. cbn [ed_step]. by replace (p - 1)%nat with p by lia.
  - cbn [ed_step]. destruct (Z.ltb_spec (Z.of_nat p) (Z.of_nat (length t))).
    + rewrite (proj2 (Nat.ltb_lt _ _)) by lia. eapply wp_mono; [apply (move_cursor_ok (S p) _ _ _ _ _ _ _ Hi); [f_equal; rewrite (lr_ix _ _ _ Hl); lia|cbn; lia]|]. intros ? s' Hs'. by exists (modifiers_off m).
    + rewrite (proj2 (Nat.ltb_ge _ _)) by lia. apply wp_ret. by exists m.
  - destruct h as [|x h]; [apply wp_ret; by exists m|]. cbn [length]. rewrite (proj2 (Z.ltb_lt _ _)) by lia. eapply wp_mono; [by apply history_up_ok|]. intros ? s' Hs'. by exists (modifiers_off m).
  - destruct v as [i|]; [|apply wp_ret; by exists m]. cbn [view_of]. rewrite (proj2 (Z.eqb_neq _ _)) by lia. cbn [negb]. eapply wp_mono; [by apply (history_down_ok i)|]. intros ? s' Hs'. by exists (modifiers_off m).
  - rewrite ?andb_false_l. destruct (b && _); [|destruct (b && _); [|apply wp_ret; by exists m]];
      (apply wp_bind; eapply wp_mono; [apply on_env_inv; [auto with kbd|done]|]; intros _ s' (H1 & _); eapply wp_mono; [by apply on_mods_inv|]; intros ? s2 Hs2; by exists (modifiers_off m)).
Qed.
End refine.
End KbdEdit.
