(* ===== verification/KbdClaims.v ===== *)
(** * The keyboard driver refines the editor and the queue

    Enter and the history, the dispatch of scan codes, getkey; then the theorems about
    keyboard.c, with a small console and shell on which they are run. *)
From S2P Require Import Prelude Klog Keyboard KbdEdit.

Module KbdClaims.
Import Klog Keyboard KbdEdit.

Section refine.
Context {E : Type} {KE : KbdEnv E} {KL : KbdLaws E} {KO : KbdEnvOk E}.

Lemma on_log_inv str m en e q subs s : inv m en e q subs s -> wp False (on_log (klog_add (Some str))) (fun _ s' => inv m en e q subs s' /\ ln s' = ln s) s.
Proof.
  intros [Ha Hb Hc [h Hd] He Hf Hg]. pose proof (klog_loop_ok str h (klog s) Hd) as Hw. unfold wp, on_log in *. cbn [klog_add].
  destruct (klog_loop str (klog s)) as [[a l']| |]; [|done..]. destruct Hw as [Hw _]. split; [|done]. constructor; try done. by exists (h ++ str).
Qed.

(** The test for a line entered twice *)
Lemma hist_same e h t s : hist_rel e h ->
  wp False (if 0 <? hist_size h then
              last <- lift_opt (lget (hist h) (Z.rem (hist_head h - 1 + MAX_HISTORY) MAX_HISTORY));;
              t' <- lift_opt (c_string last);; ret (bool_decide (t' = t))
            else ret false) (fun b s' => s' = s /\ b = bool_decide (head (ed_hist e) = Some t)) (s : kbd E).
Proof.
  intros [Hl Hc Hh Hs Hm Hx _ _ _]. destruct (ed_hist e) as [|x h'] eqn:Ee; rewrite Hs; [by apply wp_ret|]. cbn [length]. rewrite (proj2 (Z.ltb_lt _ _)) by lia.
  destruct (Hx 0%nat x eq_refl) as (b & Hb & Hhold). replace (hist_head h - 1 + MAX_HISTORY) with (hist_head h - 1 - 0 + MAX_HISTORY) by lia.
  rewrite hist_index by lia. change (Z.of_nat 0) with 0 in Hb. rewrite Hb. apply wp_bind, wp_lift_some, wp_bind. rewrite (holds_string _ _ Hhold). apply wp_lift_some, wp_ret.
  split; [done|]. cbn [head]. apply bool_decide_ext. split; congruence.
Qed.
(** A new line put at hist_head *)
Lemma hist_store e h t c2 : hist_rel e h -> holds t c2 ->
  hist_rel (Ed (ed_text e) (ed_pos e) (take 16 (t :: ed_hist e)) (ed_view e) (ed_saved e))
    (History (<[Z.to_nat (hist_head h) := c2]> (hist h)) (Z.rem (hist_head h + 1) MAX_HISTORY)
       (if hist_size h <? MAX_HISTORY then hist_size h + 1 else hist_size h) (hist_view h) (edit_scratch h) (saved_edit h)).
Proof.
  intros [Hl Hc Hh Hs Hm Hx Hv Hb Hsc] Hhold. unfold MAX_HISTORY. rewrite Z.rem_mod_nonneg by lia.
  constructor; cbn [hist hist_head hist_size hist_view edit_scratch saved_edit ed_hist ed_view ed_saved]; try done.
  - by rewrite length_insert.
  - apply Forall_insert; [done|]. by destruct Hhold.
  - apply Z.mod_pos_bound. lia.
  - rewrite length_take. cbn [length]. bdestr; lia.
  - rewrite length_take. lia.
  - intros i t' Hi. apply lookup_take_Some in Hi as [Hi Hlt]. rewrite lget_insert by lia. destruct i as [|i]; cbn in Hi.
    + injection Hi as <-. exists c2. rewrite decide_True; [done|]. Z.div_mod_to_equations. lia.
    + rewrite decide_False by (Z.div_mod_to_equations; lia). destruct (Hx i t' Hi) as (b & Hb' & Hh'). exists b. split; [|done]. rewrite <-Hb'. f_equal. Z.div_mod_to_equations. lia.
  - intros v Ev. destruct (Hb v Ev) as (? & ? & ?). split_and!; [|done|done]. rewrite length_take. cbn [length]. lia.
Qed.
Lemma hist_push_ok m en e q subs s : inv m en e q subs s ->
  wp False (hist_push (ed_text e)) (fun _ s' => inv m en (Ed (ed_text e) (ed_pos e) (remember (ed_text e) (ed_hist e)) (ed_view e) (ed_saved e)) q subs s') s.
Proof.
  intros Hi. pose proof (iv_hist _ _ _ _ _ _ Hi) as Hh. pose proof (inv_holds _ _ _ _ _ _ Hi) as Ht. destruct e as [t p h v sv]. cbn [ed_text ed_pos ed_hist ed_view ed_saved] in *.
  destruct t as [|c t]; [by apply wp_ret|]. cbn [hist_push remember]. set (l := c :: t) in *. apply wp_bind, wp_gets; cbv beta. apply wp_bind. eapply wp_mono; [exact (hist_same _ _ l s Hh)|].
  intros b s' (-> & ->). cbn [ed_hist]. case_bool_decide as Ehd; [by apply wp_ret|].
  destruct (lget_in (hist (hs s)) (hist_head (hs s))) as [cell Ecell]; [rewrite (hr_len _ _ Hh); pose proof (hr_head _ _ Hh); lia|].
  apply wp_bind. rewrite Ecell. apply wp_lift_some, wp_bind. assert (Hcl : length cell = 256%nat).
  { pose proof (hr_cells _ _ Hh) as Hc. rewrite lget_lookup in Ecell by (pose proof (hr_head _ _ Hh); lia). by apply (Forall_lookup_1 _ _ _ _ Hc Ecell). }
  destruct (store_line cell l Hcl (holds_length _ _ Ht) ltac:(by destruct Ht as (_ & ? & _))) as (c1 & c2 & E1 & _ & E2 & Hhold & _). rewrite E1. apply wp_lift_some, wp_bind. rewrite E2. apply wp_lift_some.
  apply wp_lset; [rewrite (hr_len _ _ Hh); pose proof (hr_head _ _ Hh); lia|]. eapply on_hist_inv; [exact Hi|done|done|]. by apply (hist_store (Ed l p h v sv)).
Qed.

(** The shell runs a line: keys may arrive meanwhile, but the history is not touched. *)
Definition shell_ok (user_input : list Z -> M (kbd E) unit) : Prop := forall l m en e q subs s, inv m en e q subs s ->
  wp False (user_input l) (fun _ s' => exists m' en' e' q', inv m' en' e' q' (subs ++ [l]) s' /\ ed_hist e' = ed_hist e) s.

Lemma enter_line_ok ui m en e q subs s : shell_ok ui -> inv m en e q subs s ->
  wp False (enter_line ui) (fun _ s' => exists m' en' q', inv m' en' (ed_step e KEnter) q' (subs ++ [ed_text e]) s') s.
Proof.
  intros Hui Hi. unfold enter_line, log_input_line. apply wp_bind. eapply wp_mono; [apply on_env_inv; [auto with kbd|done]|]. intros _ s1 (H1 & _).
  pose proof (inv_holds _ _ _ _ _ _ H1) as Ht1. apply wp_bind, wp_bind, wp_gets; cbv beta. apply wp_bind. rewrite (holds_string _ _ Ht1). apply wp_lift_some, wp_bind.
  eapply wp_mono; [by apply on_log_inv|]. intros _ s2 (H2 & _). eapply wp_mono; [by apply on_log_inv|]. intros _ s3 (H3 & _).
  apply wp_bind, wp_gets; cbv beta. apply wp_bind. rewrite (holds_string _ _ (inv_holds _ _ _ _ _ _ H3)). apply wp_lift_some, wp_bind.
  eapply wp_mono; [by apply hist_push_ok|]. intros ? s4 H4. apply wp_bind. eapply wp_mono; [eapply Hui; exact H4|]. intros _ s5 (m' & en' & e' & q' & H5 & Eh). cbn [ed_hist] in Eh.
  pose proof H5 as [Hl Hh Hn Hk Hm He Hs]. apply wp_bind, wp_gets; cbv beta. apply wp_lset; [rewrite (lr_size _ _ _ Hl); lia|].
  apply wp_bind, wp_modify, wp_bind, wp_modify, wp_modify. exists (modifiers_off m'), en', q'. destruct e as [t p h v sv]. cbn [ed_text ed_hist ed_step] in *.
  constructor; try done.
  - destruct Hl as [_ Hsz Hz _ _ _ _]. constructor; cbn [ln with_md with_hs with_ln key_buffer in_len cur_ix line_drawn line_ix line_len line_buf ed_text ed_pos]; rewrite ?length_insert; try done.
    + destruct (key_buffer (ln s5)) as [|x b]; [done|]. by exists b.
    + rewrite lget_insert by (rewrite Hsz; lia). by rewrite decide_False by lia.
  - destruct Hh as [? ? ? Hsz ? Hx _ _ ?]. rewrite Eh in *. by constructor.
  - cbn. by f_equal.
Qed.
Lemma emit_ok c m en e q subs s : inv m en e q subs s -> wp False (note_key_emit c) (fun _ s' => inv m en e (push q c) subs s') s.
Proof.
  intros [Ha Hb Hc Hd He Hf Hg]. unfold note_key_emit. apply wp_bind, wp_gets; cbv beta. destruct (note_emit_rel q (nt s) c Hc) as (b & Eb & Hr).
  apply wp_bind. rewrite Eb. apply wp_lift_some, wp_modify. by constructor.
Qed.

(** ** Scan codes *)

(** What a key does: in shell mode it edits, otherwise it goes into the queue. *)
Definition outcome (en : bool) (e : editor) (q : list Z) (subs : list (list Z)) (k : key) (s : kbd E) : Prop :=
  if en then exists m' en' q', inv m' en' (ed_step e k) q' (subs ++ entered e k) s /\ (k <> KEnter -> q' = q /\ en' = true)
  else exists m', inv m' false e (foldl push q (codes k)) subs s.
Lemma outcome_edit m e q subs k s : k <> KEnter -> inv m true (ed_step e k) q subs s -> outcome true e q subs k s.
Proof. intros Hk Hi. exists m, true, q. split; [|done]. assert (entered e k = []) as -> by (by destruct k). by rewrite app_nil_r. Qed.
Lemma outcome_none m en e q subs s : inv m en e q subs s -> outcome en e q subs KNone s.
Proof. intros Hi. destruct en; [|by exists m]. apply (outcome_edit m); [done|]. by destruct e. Qed.
Lemma outcome_mods f en e q subs k s : outcome en e q subs k s -> wp False (on_mods f) (fun _ s' => outcome en e q subs k s') s.
Proof.
  destruct en; cbn [outcome].
  - intros (m' & en' & q' & Hi & Hk). eapply wp_mono; [by apply on_mods_inv|]. intros u s' Hs'. by exists (f m'), en', q'.
  - intros (m' & Hi). eapply wp_mono; [by apply on_mods_inv|]. intros u s' Hs'. by exists (f m').
Qed.
Lemma mods_none f m en e q subs s : inv m en e q subs s -> wp False (on_mods f) (fun _ s' => outcome en e q subs KNone s') s.
Proof. intros Hi. apply outcome_mods. by apply (outcome_none m). Qed.
Lemma env_none {A} (c : M E A) f m en e q subs s : keeps c -> inv m en e q subs s -> wp False (on_env c;;; on_mods f) (fun _ s' => outcome en e q subs KNone s') s.
Proof. intros Hc Hi. apply wp_bind. eapply wp_mono; [by apply on_env_inv|]. intros ? s1 (H1 & _). by apply (mods_none f m). Qed.

Lemma char_ok c m en e q subs s : inv m en e q subs s -> is_u8 c -> wp False (insert_char c) (fun _ s' => outcome en e q subs (char_key c) s') s.
Proof.
  intros Hi Hc. unfold insert_char, char_key. destruct (Z.eqb_spec c 0) as [->|Hz]; cbn [negb]; [apply wp_ret; by apply (outcome_none m)|].
  apply wp_bind, wp_gets; cbv beta. rewrite (iv_en _ _ _ _ _ _ Hi). destruct en.
  - eapply wp_mono; [apply insert_line_ok; [done|unfold is_char, is_u8 in *; lia]|]. intros u s' Hs'. by apply (outcome_edit m).
  - eapply wp_mono; [by apply emit_ok|]. intros u s' Hs'. by exists m.
Qed.
Lemma emit_reset c m en e q subs s : inv m en e q subs s -> wp False (note_key_emit c;;; reset_modifiers) (fun _ s' => inv (modifiers_off m) en e (push q c) subs s') s.
Proof. intros Hi. apply wp_bind. eapply wp_mono; [by apply emit_ok|]. intros u s' Hs'. by apply on_mods_inv. Qed.
Lemma note_cursor_ok sc m e q subs s : inv m false e q subs s -> wp False (note_cursor sc) (fun _ s' => outcome false e q subs (cursor_key sc) s') s.
Proof.
  intros Hi. unfold note_cursor, cursor_key. cbn [outcome].
  destruct (sc =? KEY_LEFT_MAKE) eqn:E1; [|destruct (sc =? KEY_RIGHT_MAKE) eqn:E2; [|destruct (sc =? KEY_UP_MAKE) eqn:E3; [|destruct (sc =? KEY_DOWN_MAKE) eqn:E4]]];
    rewrite ?Z.eqb_eq in *; subst; cbn [Z.eqb Pos.eqb KEY_LEFT_MAKE KEY_RIGHT_MAKE KEY_UP_MAKE KEY_DOWN_MAKE codes foldl];
    do 3 (apply wp_bind; first [eapply wp_mono; [by apply emit_reset|]; intros ? ? ? | apply wp_ret]);
    first [eapply wp_mono; [by apply emit_reset|]; intros ? ? ?; by exists (modifiers_off m) | apply wp_ret; first [by exists (modifiers_off m) | by exists m]].
Qed.
Lemma cursor_ok b sc m en e q subs s : inv m en e q subs s -> wp False (if en then shell_cursor b sc else note_cursor sc) (fun _ s' => outcome en e q subs (cursor_key sc) s') s.
Proof.
  intros Hi. destruct en; [|by eapply note_cursor_ok]. eapply wp_mono; [eapply shell_cursor_ok; exact Hi|]. intros u s' [m' Hs']. apply (outcome_edit m'); [|done].
  unfold cursor_key. by repeat case_match.
Qed.
Lemma enter_key_ok ui m en e q subs s : shell_ok ui -> inv m en e q subs s ->
  wp False (if en then enter_line ui else note_key_emit LF) (fun _ s' => outcome en e q subs KEnter s') s.
Proof.
  intros Hui Hi. destruct en.
  - eapply wp_mono; [eapply enter_line_ok; [done|exact Hi]|]. intros u s' (m' & en' & q' & Hs'). by exists m', en', q'.
  - eapply wp_mono; [by apply emit_ok|]. intros u s' Hs'. by exists m.
Qed.

Lemma numpad_u8 num sc e0 : is_u8 (translate_numpad num sc e0).
Proof. unfold translate_numpad, is_u8. destruct e0; [destruct (sc =? 53); lia|]. repeat case_match; lia. Qed.
Lemma tables_u8 : Forall is_u8 sc_ascii /\ Forall is_u8 sc_ascii_shift.
Proof. split; apply u8_list; reflexivity. Qed.
Lemma key_base_ok m sc : 0 <= sc <= SC_MAX -> exists c, key_base m sc = Some c /\ is_u8 c.
Proof.
  intros Hs. destruct tables_u8 as [T1 T2]. unfold key_base. destruct (alt_left_pressed m); [eexists; split; [done|apply u8_range]|].
  destruct (alt_right_pressed m); [eexists; split; [done|apply u8_range]|]. unfold SC_MAX in Hs.
  destruct (lget_in sc_ascii sc) as [b Eb]; [cbn; lia|]. destruct (lget_in sc_ascii_shift sc) as [b' Eb']; [cbn; lia|].
  assert (is_u8 b /\ is_u8 b') as [Hb Hb'].
  { rewrite lget_lookup in Eb, Eb' by lia. split; [exact (Forall_lookup_1 _ _ _ _ T1 Eb)|exact (Forall_lookup_1 _ _ _ _ T2 Eb')]. }
  rewrite Eb, Eb'. cbn [mbind option_bind]. destruct ((97 <=? b) && (b <=? 122)) eqn:Er.
  - apply andb_true_iff in Er as [?%Z.leb_le ?%Z.leb_le]. eexists. split; [done|]. unfold is_u8 in *. destruct (xorb _ _); lia.
  - destruct (shift_pressed m); eexists; done.
Qed.
Lemma prepare_ok sc m en e q subs s : inv m en e q subs s -> wp False (key_prepare sc) (fun _ s' => inv m en e q subs s') s.
Proof.
  intros Hi. unfold key_prepare. apply wp_bind, wp_gets, wp_bind, wp_gets; cbv beta. rewrite (iv_en _ _ _ _ _ _ Hi).
  apply wp_bind. apply (wp_mono False _ (fun _ s' => inv m en e q subs s')).
  - apply wp_if; intros _; [|by apply wp_ret]. apply wp_bind. eapply wp_mono; [apply on_env_inv; [auto with kbd|exact Hi]|]. intros r s1 (H1 & _).
    apply wp_bind. eapply wp_mono; [apply on_env_inv; [auto with kbd|exact H1]|]. intros c s2 ([Hl ? ? ? ? ? ?] & _). apply wp_modify. constructor; try done. by destruct Hl.
  - intros u s1 H1. destruct en; [|by apply wp_ret]. apply wp_bind. eapply wp_mono; [apply on_env_inv; [auto with kbd|exact H1]|]. intros sd s2 (H2 & _).
    apply wp_if; intros _; [|by apply wp_ret]. apply wp_bind. eapply wp_mono; [apply on_env_inv; [auto with kbd|exact H2]|]. intros v s3 (H3 & _).
    eapply wp_mono; [apply redraw_ok; exact H3|]. by intros ? ? [? _].
Qed.
Lemma extended_ok ui sc m en e q subs s : shell_ok ui -> inv m en e q subs s ->
  wp False (key_extended ui sc) (fun _ s' => outcome en e q subs (if sc =? ENTER then KEnter else if sc =? 0x35 then KIns 47 else cursor_key sc) s') s.
Proof.
  intros Hui Hi. unfold key_extended. apply wp_bind, wp_gets, wp_bind, wp_gets; cbv beta. rewrite (iv_en _ _ _ _ _ _ Hi). change 0x1C with ENTER. destruct (sc =? ENTER).
  - apply wp_bind. eapply wp_mono; [eapply enter_key_ok; [done|exact Hi]|]. intros u s' Hs'. by apply outcome_mods.
  - cbn [translate_numpad]. destruct (sc =? 0x35); cbn [negb Z.eqb].
    + apply wp_bind. eapply wp_mono; [apply on_mods_inv; exact Hi|]. intros u s' Hs'. eapply (char_ok 47); [exact Hs'|unfold is_u8; lia].
    + apply wp_bind. eapply wp_mono; [eapply cursor_ok; exact Hi|]. intros u s' Hs'. by apply outcome_mods.
Qed.
(** With num lock on the cursor and page keys are digits. *)
Lemma numpad_digits sc : translate_numpad true sc false = 0 -> cursor_key sc = KNone /\ sc <> KEY_PGUP_MAKE /\ sc <> KEY_PGDN_MAKE.
Proof.
  intros Hn. unfold cursor_key. destruct (Z.eqb_spec sc KEY_LEFT_MAKE); [by subst|]. destruct (Z.eqb_spec sc KEY_RIGHT_MAKE); [by subst|].
  destruct (Z.eqb_spec sc KEY_UP_MAKE); [by subst|]. destruct (Z.eqb_spec sc KEY_DOWN_MAKE); [by subst|]. split_and!; [done|by intros ->..].
Qed.
Lemma cursor_key_test sc : (sc =? KEY_LEFT_MAKE) || (sc =? KEY_RIGHT_MAKE) || (sc =? KEY_UP_MAKE) || (sc =? KEY_DOWN_MAKE) = match cursor_key sc with KNone => false | _ => true end.
Proof. unfold cursor_key. by destruct (sc =? KEY_LEFT_MAKE), (sc =? KEY_RIGHT_MAKE), (sc =? KEY_UP_MAKE), (sc =? KEY_DOWN_MAKE). Qed.
Lemma plain_ok sc m en e q subs s : inv m en e q subs s -> 0 <= sc ->
  wp False (key_plain sc) (fun _ s' => outcome en e q subs (if SC_MAX <? sc then KNone else char_key (default 0 (key_base m sc))) s') s.
Proof.
  intros Hi Hs. unfold key_plain. apply wp_bind, wp_gets; cbv beta. rewrite (iv_md _ _ _ _ _ _ Hi). destruct (Z.ltb_spec SC_MAX sc); [apply wp_ret; by eapply outcome_none|].
  destruct (key_base_ok m sc) as (c & Ec & Hc); [lia|]. rewrite Ec. apply wp_bind, wp_lift_some. by eapply char_ok.
Qed.
Lemma make_ok ui sc m en e q subs s : shell_ok ui -> inv m en e q subs s -> 0 <= sc ->
  wp False (key_make ui sc) (fun _ s' => outcome en e q subs (plain_key m sc) s') s.
Proof.
  intros Hui Hi Hs. unfold key_make, plain_key. apply wp_bind, wp_gets, wp_bind, wp_gets; cbv beta. rewrite (iv_en _ _ _ _ _ _ Hi), (iv_md _ _ _ _ _ _ Hi).
  destruct (sc =? BACKSPACE).
  { destruct en; [eapply wp_mono; [apply backspace_line_ok; exact Hi|]; intros ? ? Hb; apply (outcome_edit m); [done|exact Hb]|eapply wp_mono; [apply emit_ok; exact Hi|]; intros; by exists m]. }
  destruct (sc =? ENTER); [by eapply enter_key_ok|]. destruct (sc =? ESCAPE).
  { apply wp_bind. apply (wp_mono False _ (fun _ s' => outcome en e q subs KEsc s')); [|intros; by apply outcome_mods].
    destruct en; [apply wp_ret; eapply outcome_edit; [done|destruct e; exact Hi]|eapply wp_mono; [apply emit_ok; exact Hi|]; intros; by exists m]. }
  cbv zeta. pose proof (numpad_u8 (numlock_on m) sc false) as Hu. destruct (Z.eqb_spec (translate_numpad (numlock_on m) sc false) 0) as [E0|E0]; cbn [negb].
  2: { pose proof (char_ok _ _ _ _ _ _ _ Hi Hu) as Hc. unfold char_key in *. by rewrite (proj2 (Z.eqb_neq _ 0)) in * by done. }
  rewrite E0. cbn [char_key Z.eqb]. rewrite cursor_key_test. destruct (numlock_on m) eqn:En; cbn [negb andb].
  - apply numpad_digits in E0 as (-> & _). by apply plain_ok.
  - destruct (cursor_key sc) eqn:Ek; try (rewrite <-Ek; by eapply cursor_ok). destruct (Z.eqb_spec sc KEY_PGUP_MAKE) as [->|]; [eapply env_none; [auto with kbd|exact Hi]|].
    destruct (Z.eqb_spec sc KEY_PGDN_MAKE) as [->|]; [eapply env_none; [auto with kbd|exact Hi]|]. by apply plain_ok.
Qed.
Lemma break_ok sc m en e q subs s : inv m en e q subs s -> wp False (key_break sc) (fun _ s' => outcome en e q subs KNone s') s.
Proof.
  intros Hi. unfold key_break. apply wp_bind, wp_gets; cbv beta. assert (Hn : outcome en e q subs KNone s) by (by eapply outcome_none).
  assert (Hif : forall (b : bool) f s, outcome en e q subs KNone s -> wp False (if b then on_mods f else ret tt) (fun _ s' => outcome en e q subs KNone s') s).
  { intros [] f s' Hs'; [by apply outcome_mods|by apply wp_ret]. }
  apply wp_if; intros _; (apply wp_bind; eapply wp_mono; [by apply Hif|]; intros u s' Hs'); [by apply outcome_mods|by apply Hif].
Qed.
Lemma key_kill_ok m en e q subs s : inv m en e q subs s -> wp False key_kill (fun _ s' => outcome en e q subs KNone s') s.
Proof.
  intros Hi. unfold key_kill. apply wp_bind. eapply wp_mono; [apply on_env_inv; [auto with kbd|exact Hi]|]. intros fg s1 (H1 & _). apply wp_bind.
  apply (wp_mono False _ (fun _ s' => inv m en e q subs s')).
  - apply wp_if; intros _.
    + apply wp_bind. eapply wp_mono; [apply on_env_inv; [auto with kbd|exact H1]|]. intros u s2 (H2 & _). by apply wp_ret.
    + apply wp_bind. eapply wp_mono; [apply on_env_inv; [auto with kbd|exact H1]|]. intros u s2 (H2 & _). destruct u.
      * eapply wp_mono; [apply on_env_inv; [auto with kbd|exact H2]|]. by intros ? ? [? _].
      * apply wp_modify. destruct H2. by constructor.
  - intros u s2 H2. apply wp_bind. eapply wp_mono; [apply on_mods_inv; exact H2|]. intros v s3 H3. eapply mods_none; exact H3.
Qed.
Lemma bit7 sc : is_u8 sc -> negb (Z.land sc 0x80 =? 0) = (0x80 <=? sc).
Proof.
  intros Hs. assert (Hall : forallb (fun x => Bool.eqb (negb (Z.land x 0x80 =? 0)) (0x80 <=? x)) (Z.of_nat <$> seq 0 256) = true) by reflexivity.
  rewrite forallb_forall in Hall. apply Bool.eqb_prop, Hall. apply list_elem_of_In, list_elem_of_fmap. exists (Z.to_nat sc). unfold is_u8 in Hs. split; [lia|]. apply elem_of_seq. lia.
Qed.
Lemma handle_ok ui sc m en e q subs s : shell_ok ui -> inv m en e q subs s -> is_u8 sc ->
  wp False (keyboard_handle_scancode ui sc) (fun _ s' => outcome en e q subs (decode m sc) s') s.
Proof.
  intros Hui Hi Hs. unfold keyboard_handle_scancode, decode. apply wp_bind, wp_gets; cbv beta. rewrite (iv_md _ _ _ _ _ _ Hi), bit7 by done.
  destruct (Z.eqb_spec sc KBD_E0_PREFIX) as [->|]; [by eapply mods_none|]. destruct (Z.leb_spec 0x80 sc); [by eapply break_ok|].
  rewrite (proj2 (Z.eqb_neq sc CTRL_BREAK)) by (unfold CTRL_BREAK; lia).
  destruct (Z.eqb_spec sc ALT_MAKE) as [->|]; [destruct (kbd_e0 m); by eapply mods_none|].
  destruct (Z.eqb_spec sc LSHIFT_MAKE) as [->|]; [by eapply mods_none|]. destruct (Z.eqb_spec sc RSHIFT_MAKE) as [->|]; [by eapply mods_none|]. cbn [orb].
  assert (Hled : forall f a b c, wp False (on_mods f;;; on_env (kbd_set_leds a b c)) (fun _ s' => outcome en e q subs KNone s') s).
  { intros f a b c. apply wp_bind. eapply wp_mono; [apply on_mods_inv; exact Hi|]. intros u s' Hs'. eapply wp_mono; [apply on_env_inv; [apply leds_keeps|exact Hs']|].
    intros v s2 (H2 & _). by eapply outcome_none. }
  destruct (Z.eqb_spec sc CAPSLOCK) as [->|]; [apply Hled|]. destruct (Z.eqb_spec sc NUMLOCK_MAKE) as [->|]; [apply Hled|].
  destruct (Z.eqb_spec sc CTRL_MAKE) as [->|]; [by eapply mods_none|].
  rewrite bool_decide_eq_false_2 by (unfold modifier_codes; rewrite !not_elem_of_cons; split_and!; [done..|apply not_elem_of_nil]). destruct (ctrl_pressed m && (sc =? 0x12)); [by eapply key_kill_ok|].
  apply wp_bind. eapply wp_mono; [apply prepare_ok; exact Hi|]. intros u s' Hs'. destruct (kbd_e0 m); [eapply extended_ok; [done|exact Hs']|]. eapply make_ok; [done|exact Hs'|]. unfold is_u8 in Hs. lia.
Qed.

(** ** Typing *)

(** A key that stands for a character leaves the modifiers as they are. *)
Lemma typed_ok c m en e q subs s : inv m en e q subs s -> is_char c ->
  wp False (insert_char c) (fun _ s' => if en then inv m true (ed_step e (KIns c)) q subs s' else inv m false e (push q c) subs s') s.
Proof.
  intros Hi Hc. unfold insert_char. unfold is_char in Hc. rewrite (proj2 (Z.eqb_neq c 0)) by lia. cbn [negb]. apply wp_bind, wp_gets; cbv beta. rewrite (iv_en _ _ _ _ _ _ Hi).
  destruct en; [by apply insert_line_ok|by apply emit_ok].
Qed.
Lemma char_key_ins c d : char_key c = KIns d -> c = d /\ c <> 0.
Proof. unfold char_key. destruct (Z.eqb_spec c 0); [done|]. by intros [= ->]. Qed.
Lemma cursor_not_ins sc c : cursor_key sc <> KIns c.
Proof. unfold cursor_key. by repeat case_match. Qed.
(** Where the character of a plain key comes from *)
Lemma plain_key_ins m sc c : plain_key m sc = KIns c -> 0 <= sc ->
  sc <> BACKSPACE /\ sc <> ENTER /\ sc <> ESCAPE /\ is_char c /\
  ((translate_numpad (numlock_on m) sc false = c) \/ (translate_numpad (numlock_on m) sc false = 0 /\ cursor_key sc = KNone /\ sc <= SC_MAX /\ key_base m sc = Some c)).
Proof.
  intros Hk Hs. unfold plain_key in Hk. pose proof (numpad_u8 (numlock_on m) sc false) as Hu.
  destruct (Z.eqb_spec sc BACKSPACE); [done|]. destruct (Z.eqb_spec sc ENTER); [done|]. destruct (Z.eqb_spec sc ESCAPE); [done|]. split_and!; [done..| |].
  all: unfold char_key at 1 in Hk; destruct (Z.eqb_spec (translate_numpad (numlock_on m) sc false) 0).
  2: { assert (c = translate_numpad (numlock_on m) sc false) as -> by congruence. unfold is_u8, is_char in *. lia. }
  3: { left. congruence. }
  all: destruct (cursor_key sc) eqn:Ek; try done; try (by apply cursor_not_ins in Ek); destruct (Z.ltb_spec SC_MAX sc); try done; destruct (key_base_ok m sc) as (d & Ed & Hd); [lia|];
    rewrite Ed in *; cbn [default from_option id] in Hk; apply char_key_ins in Hk as [<- Hne].
  - unfold is_u8, is_char in *. lia.
  - right. split_and!; done.
Qed.
Lemma handle_char ui sc c m en e q subs s : inv m en e q subs s -> is_u8 sc -> kbd_e0 m = false -> decode m sc = KIns c ->
  wp False (keyboard_handle_scancode ui sc) (fun _ s' => if en then inv m true (ed_step e (KIns c)) q subs s' else inv m false e (push q c) subs s') s.
Proof.
  intros Hi Hs He0 Hk. unfold decode in Hk. destruct (Z.leb_spec 0x80 sc) as [|Hlt]; [done|]. case_bool_decide as Hmod; [done|]. destruct (ctrl_pressed m && (sc =? 0x12)) eqn:Ekill; [done|].
  rewrite He0 in Hk. unfold modifier_codes in Hmod. rewrite !not_elem_of_cons in Hmod. destruct Hmod as (M1 & M2 & M3 & M4 & M5 & M6 & _).
  unfold keyboard_handle_scancode. apply wp_bind, wp_gets; cbv beta. rewrite (iv_md _ _ _ _ _ _ Hi), bit7, (proj2 (Z.leb_gt _ _)) by done.
  rewrite !(proj2 (Z.eqb_neq sc _)) by (done || unfold KBD_E0_PREFIX, CTRL_BREAK; lia). cbn [orb]. unfold is_u8 in Hs.
  destruct (plain_key_ins m sc c Hk ltac:(lia)) as (P1 & P2 & P3 & Hc & Hcase). rewrite Ekill. clear Ekill.
  apply wp_bind. eapply wp_mono; [apply prepare_ok; exact Hi|]. intros u s1 H1. rewrite He0. unfold key_make. apply wp_bind, wp_gets, wp_bind, wp_gets; cbv beta.
  rewrite (iv_en _ _ _ _ _ _ H1), (iv_md _ _ _ _ _ _ H1), !(proj2 (Z.eqb_neq sc _)) by done. cbv zeta. destruct Hcase as [->|(-> & Ecur & Hmax & Eb)].
  - unfold is_char in Hc. rewrite (proj2 (Z.eqb_neq c 0)) by lia. by apply typed_ok.
  - cbn [Z.eqb negb]. rewrite cursor_key_test, Ecur, andb_false_r. unfold SC_MAX, KEY_PGUP_MAKE, KEY_PGDN_MAKE in *. rewrite !(proj2 (Z.eqb_neq sc _)) by lia. rewrite !andb_false_r.
    unfold key_plain. apply wp_bind, wp_gets; cbv beta. rewrite (iv_md _ _ _ _ _ _ H1), Eb. unfold SC_MAX. rewrite (proj2 (Z.ltb_ge _ _)) by lia. apply wp_bind, wp_lift_some. by apply typed_ok.
Qed.
(** A sequence of scan codes *)
Fixpoint handle_all (ui : list Z -> M (kbd E) unit) (scs : list Z) : M (kbd E) unit :=
  match scs with
  | [] => ret tt
  | sc :: scs' => keyboard_handle_scancode ui sc;;; handle_all ui scs'
  end.
(** The scan codes stand for the characters of t. *)
Definition types (m : modifiers) (scs t : list Z) : Prop := Forall2 (fun sc c => is_u8 sc /\ decode m sc = KIns c) scs t.
Lemma type_text ui m scs t : types m scs t -> kbd_e0 m = false -> forall p e q subs s,
  inv m true e q subs s -> e = Ed p (length p) (ed_hist e) (ed_view e) (ed_saved e) -> (length p + length t <= 255)%nat ->
  forall k (Q : unit -> kbd E -> Prop),
  (forall s', inv m true (Ed (p ++ t) (length (p ++ t)) (ed_hist e) (ed_view e) (ed_saved e)) q subs s' -> wp False (handle_all ui k) Q s') ->
  wp False (handle_all ui (scs ++ k)) Q s.
Proof.
  intros Ht He0. induction Ht as [|sc c scs t [Hsc Hk] Ht IH]; intros p e q subs s Hi Ee Hlen k Q HQ; cbn [app handle_all].
  - apply HQ. rewrite app_nil_r. by rewrite <-Ee.
  - apply wp_bind. eapply wp_mono; [apply (handle_char ui sc c); [exact Hi|done..]|]. intros u s' Hs'. cbv beta iota in Hs'. cbn [length] in Hlen. rewrite Ee in Hs'. cbn [ed_step] in Hs'.
    rewrite (proj2 (Nat.ltb_lt _ _)), take_ge, drop_ge in Hs' by lia. eapply (IH (p ++ [c])); [exact Hs'|cbn [ed_hist ed_view ed_saved]; rewrite length_app; cbn; f_equal; lia|rewrite length_app; cbn; lia|].
    intros s2 H2. apply HQ. cbn [ed_hist ed_view ed_saved] in H2. rewrite <-app_assoc in H2. exact H2.
Qed.
Lemma type_keys ui m scs t : types m scs t -> kbd_e0 m = false -> forall q e subs s,
  inv m false e q subs s -> (length q + length t <= CAPACITY)%nat -> wp False (handle_all ui scs) (fun _ s' => inv m false e (q ++ t) subs s') s.
Proof.
  intros Ht He0. induction Ht as [|sc c scs t [Hsc Hk] Ht IH]; intros q e subs s Hi Hlen; cbn [handle_all].
  - apply wp_ret. by rewrite app_nil_r.
  - apply wp_bind. eapply wp_mono; [apply (handle_char ui sc c); [exact Hi|done..]|]. intros u s' Hs'. cbv beta iota in Hs'. cbn [length] in Hlen. unfold push in Hs'.
    rewrite (proj2 (Nat.ltb_lt _ _)) in Hs' by lia. eapply wp_mono; [eapply IH; [exact Hs'|rewrite length_app; cbn; lia]|]. intros v s2 H2. by rewrite <-app_assoc in H2.
Qed.
Lemma pop_ok c m en e q subs s : inv m en e (c :: q) subs s -> wp False note_keybuf_pop (fun r s' => r = Some c /\ inv m en e q subs s') s.
Proof.
  intros Hi. unfold note_keybuf_pop. apply wp_bind. eapply wp_mono; [apply on_env_inv; [auto with kbd|exact Hi]|]. intros u s1 (H1 & _).
  destruct (note_pop_rel c q (nt s1) (iv_note _ _ _ _ _ _ H1)) as (E1 & E2 & Hr). apply wp_bind, wp_gets; cbv beta. rewrite E1. apply wp_bind, wp_bind. rewrite E2. apply wp_lift_some, wp_ret. cbv beta iota zeta.
  apply wp_bind, wp_modify, wp_bind. eapply wp_mono; [apply (on_env_inv _ m en e q subs); [auto with kbd|]|]; [destruct H1; by constructor|]. intros v s2 (H2 & _). by apply wp_ret.
Qed.
Lemma pop_empty m en e subs s : inv m en e [] subs s -> wp False note_keybuf_pop (fun r s' => r = None /\ inv m en e [] subs s') s.
Proof.
  intros Hi. unfold note_keybuf_pop. apply wp_bind. eapply wp_mono; [apply on_env_inv; [auto with kbd|exact Hi]|]. intros u s1 (H1 & _).
  destruct (note_empty_rel (nt s1) (iv_note _ _ _ _ _ _ H1)) as (E1 & E2). apply wp_bind, wp_gets; cbv beta. rewrite E1. cbn [negb]. apply wp_bind, wp_ret. cbv beta iota zeta. rewrite E1.
  apply wp_bind, wp_modify, wp_bind. eapply wp_mono; [apply (on_env_inv _ m en e [] subs); [auto with kbd|]|]; [|intros v s2 (H2 & _); by apply wp_ret].
  destruct H1 as [Ha Hb [] Hd He Hf Hg]. by constructor.
Qed.
(** n calls of getkey *)
Fixpoint getkeys (hlt : M (kbd E) unit) (fuel n : nat) : M (kbd E) (list Z) :=
  match n with
  | O => ret []
  | S n' => c <- getkey hlt fuel;; r <- getkeys hlt fuel n';; ret (c :: r)
  end.
Lemma getkeys_ok hlt fuel m en e subs t : Forall is_char t -> forall q s, inv m en e (t ++ q) subs s ->
  wp False (getkeys hlt (S fuel) (length t)) (fun r s' => r = t /\ inv m en e q subs s') s.
Proof.
  induction t as [|c t IH]; intros Hf q s Hi; cbn [length getkeys]; [by apply wp_ret|]. apply list.Forall_cons in Hf as [Hc Hf]. apply wp_bind. cbn [getkey].
  apply wp_bind. eapply wp_mono; [exact (pop_ok c m en e (t ++ q) subs s Hi)|]. intros r s1 (-> & H1). cbv beta iota. unfold is_char in Hc. rewrite (proj2 (Z.eqb_neq c 0)) by lia. apply wp_ret, wp_bind.
  eapply wp_mono; [apply (IH Hf q); exact H1|]. intros r s2 (-> & H2). by apply wp_ret.
Qed.

(** ** Claims *)

(** C28: Every scan code does what the abstract keyboard says, and no array is left.  If the
    driver's arrays hold an editor e (line, cursor, history, saved line) and a queue q, then after
    any scan code in shell mode they hold the editor after the key that the code stands for, the
    queue is untouched, and the shell has been given the line if the key was Enter and nothing
    otherwise; in the other mode editor and shell are untouched and the codes of the key are in the
    queue, its oldest dropped when it held 127. *)
Theorem keyboard_refines_editor ui sc m en e q subs s : shell_ok ui -> inv m en e q subs s -> is_u8 sc ->
  wp False (keyboard_handle_scancode ui sc) (fun _ s' => outcome en e q subs (decode m sc) s') s.
Proof. apply handle_ok. Qed.

(** C29: What is typed is what runs.  On an empty line in shell mode, keys that stand for the
    characters of t (at most 255 of them) followed by Enter make the shell run exactly t, once;
    t is then the newest line of the history, and the line is empty again. *)
Theorem typed_line_runs ui m scs t e q subs s : shell_ok ui -> inv m true e q subs s -> kbd_e0 m = false ->
  ed_text e = [] -> types m scs t -> (length t <= 255)%nat ->
  wp False (handle_all ui (scs ++ [ENTER]))
    (fun _ s' => exists m' en' q', inv m' en' (Ed [] 0 (remember t (ed_hist e)) None []) q' (subs ++ [t]) s') s.
Proof.
  intros Hui Hi He0 Et Ht Hl. assert (Ee : e = Ed [] (length (@nil Z)) (ed_hist e) (ed_view e) (ed_saved e)).
  { pose proof (lr_pos _ _ _ (iv_line _ _ _ _ _ _ Hi)) as Hp. rewrite Et in Hp. destruct e; cbn in *. subst. f_equal. lia. }
  eapply (type_text ui m scs t Ht He0 [] e); [exact Hi|exact Ee|cbn; lia|]. intros s' Hs'. cbn [handle_all app] in *. apply wp_bind.
  eapply wp_mono; [apply (handle_ok ui ENTER); [done|exact Hs'|unfold is_u8, ENTER; lia]|].
  assert (Hdec : decode m ENTER = KEnter) by (unfold decode, plain_key; rewrite He0; by destruct (ctrl_pressed m)). rewrite Hdec.
  intros u s2 (m' & en' & q' & H2 & _). apply wp_ret. by exists m', en', q'.
Qed.

(** Keys come out of getkey in the order in which they were struck: when up to 127 keys that
    stand for the characters of t arrive outside shell mode and the queue is empty, as many
    calls of getkey return t, without waiting, and leave the queue empty. *)
Theorem getkey_returns_typed ui hlt fuel m scs t e subs s : inv m false e [] subs s -> kbd_e0 m = false ->
  types m scs t -> (length t <= CAPACITY)%nat ->
  wp False (handle_all ui scs;;; getkeys hlt (S fuel) (length t)) (fun r s' => r = t /\ inv m false e [] subs s') s.
Proof.
  intros Hi He0 Ht Hl. apply wp_bind. eapply wp_mono; [eapply (type_keys ui m scs t Ht He0 []); [exact Hi|cbn; lia]|]. intros u s' Hs'.
  apply getkeys_ok; [|by rewrite app_nil_r]. clear -Ht He0. induction Ht as [|sc c scs t [Hsc Hk] Ht IH]; constructor; [|done].
  unfold decode in Hk. repeat case_match; try done. unfold is_u8 in Hsc. by apply plain_key_ins in Hk as (_ & _ & _ & ? & _); [|lia].
Qed.
End refine.

(** ** A console that does nothing and a shell that notes its lines *)

Record desk := Desk { dk_lines : list (list Z); dk_fg : Z; dk_killed : list Z }.
#[global] Instance desk_env : KbdEnv desk := {
  kprint_char c := ret tt; get_cursor_row := ret 0; get_cursor_col := ret 2; get_offset c r := ret (2 * (80 * r + c)); set_cursor r c := ret tt;
  set_cursor_offset o := ret tt; clear_input_line r c := ret tt; screen_is_scrolled := ret false; screen_scroll_to_bottom := ret tt;
  scroll_up_screen := ret tt; scroll_down_screen := ret tt; proc_get_foreground_pid := gets dk_fg;
  proc_kill p b := modify (fun d => Desk (dk_lines d) 0 (p :: dk_killed d));;; ret true;
  proc_current_is_user := ret false; proc_request_kill := ret tt; hal_in8 p := ret (if p =? 0x60 then 0xFA else 1); hal_out8 p v := ret tt;
  hal_enable_interrupts := ret tt; hal_disable_interrupts := ret tt; tick := ret 0; register_irq1 := ret tt;
}.
#[global] Instance desk_laws : KbdLaws desk := { submitted := dk_lines }.
#[global] Instance desk_env_ok : KbdEnvOk desk.
Proof. constructor; intros; intros d; done. Qed.
Definition desk_shell (l : list Z) : M (kbd desk) unit := on_env (modify (fun d => Desk (dk_lines d ++ [l]) (dk_fg d) (dk_killed d))).
Lemma desk_shell_ok : shell_ok desk_shell.
Proof. intros l m en e q subs s []. unfold wp, desk_shell, on_env, modify. exists m, en, e, q. split; [|done]. constructor; try done. cbn in *. congruence. Qed.
Definition start (en : bool) (fg : Z) : kbd desk := with_enabled en (kbd0 (Desk [] fg [])).
Definition ed0 : editor := Ed [] 0 [] None [].
Lemma start_inv en fg : inv mods0 en ed0 [] [] (start en fg).
Proof.
  constructor; try done.
  - constructor; try done. by exists (replicate 255 0).
  - constructor; try done; cbn [ed_hist ed0 length]; [|lia]. cbn [hs start with_enabled kbd0 history0 hist]. by apply Forall_replicate.
  - constructor; try done. cbn. unfold CAPACITY. lia.
  - exists []. apply log0_rel.
Qed.

(** The keys of "ls", and their codes with Shift held *)
Definition ls_keys : list Z := [0x26; 0x1F].
Lemma ls_types : types mods0 ls_keys [108; 115].
Proof. repeat constructor; vm_compute; done. Qed.

Example keyboard_refines_editor_witness :
  wp False (keyboard_handle_scancode desk_shell 0x1E) (fun _ s' => outcome true ed0 [] [] (KIns 97) s') (start true 0).
Proof. apply (keyboard_refines_editor desk_shell 0x1E mods0 true ed0 [] [] (start true 0) desk_shell_ok (start_inv true 0)). vm_compute. done. Defined.
Example typed_line_runs_witness :
  wp False (handle_all desk_shell (ls_keys ++ [ENTER]))
    (fun _ s' => exists m' en' q', inv m' en' (Ed [] 0 [[108; 115]] None []) q' [[108; 115]] s') (start true 0).
Proof. apply (typed_line_runs desk_shell mods0 ls_keys [108; 115] ed0 [] [] (start true 0) desk_shell_ok (start_inv true 0)); [done|done|apply ls_types|cbn; lia]. Defined.
Example getkey_returns_typed_witness :
  wp False (handle_all desk_shell ls_keys;;; getkeys (ret tt) 1 2) (fun r s' => r = [108; 115] /\ inv mods0 false ed0 [] [] s') (start false 0).
Proof. apply (getkey_returns_typed desk_shell (ret tt) 0 mods0 ls_keys [108; 115] ed0 [] (start false 0) (start_inv false 0)); [done|apply ls_types|unfold CAPACITY; cbn; lia]. Defined.

(** Editing: "lx", back over the x, "s", Enter; then the arrow up brings the line back. *)
Example editing_run :
  dk_lines (env (final (handle_all desk_shell [0x26; 0x2D; BACKSPACE; 0x1F; ENTER; KBD_E0_PREFIX; KEY_UP_MAKE; ENTER] (start true 0)) (start true 0)))
    = [[108; 115]; [108; 115]].
Proof. vm_compute. reflexivity. Qed.

(** ** Where the driver does not do what it means to *)

(** The release of Ctrl arrives as 0x9D, which the test of bit 7 takes before the line that would
    clear ctrl_pressed: after Ctrl was struck and released, e alone kills the foreground process. *)
Example ctrl_never_released :
  dk_killed (env (final (handle_all desk_shell [CTRL_MAKE; CTRL_BREAK; 0x12] (start true 7)) (start true 7))) = [7].
Proof. vm_compute. reflexivity. Qed.
(** The right Alt key leaves the prefix flag set: the key struck with it is taken for an extended
    key and lost, the second one arrives. *)
Example altgr_loses_key :
  let s := final (handle_all desk_shell [KBD_E0_PREFIX; ALT_MAKE; 0x10; 0x10] (start true 0)) (start true 0) in
  take 2 (key_buffer (ln s)) = [142; 0] /\ in_len (ln s) = 1.
Proof. vm_compute. split; reflexivity. Qed.
End KbdClaims.
