(* ===== verification/Progress.v ===== *)
(** * The progress of a write (fs/fscmd.c)

    fscmd_write_progress_begin, _update and _finish keep a percentage, which the drivers drive by
    reporting how many bytes are written, and draw it at the place where the cursor was.  What is
    drawn is kept in [drawn], oldest first, with its percentage; the lines that begin prints are
    left out. *)
From S2P Require Import Prelude Keyboard.
From S2P Require KbdEdit.
From Stdlib Require Import Sorted.

Module Progress.

(** ** Numbers as text (int_to_str of drivers/screen.c) *)

(** do { tmp[i++] = '0' + value % 10; value /= 10; } while (value > 0), most significant first *)
Fixpoint digits (fuel : nat) (value : Z) (acc : list Z) : list Z :=
  match fuel with
  | O => acc
  | S fuel' =>
    let acc' := (48 + Z.rem value 10) :: acc in
    let v := Z.quot value 10 in
    if 0 <? v then digits fuel' v acc' else acc'
  end.
(** The characters that int_to_str stores before the NUL *)
Definition int_to_str (value : Z) : list Z :=
  if value <? 0 then 45 :: digits 16 (s32 (- value)) [] else digits 16 value [].

(** ** State *)

Record progress := Progress {
  active : bool; total : Z; last : Z; label : option (list Z); step : Z; next : Z; small : bool;
  row : Z; col : Z; pad_len : Z; drawn : list (Z * list Z);
}.
Definition progress0 : progress := Progress false 0 0 None 0 0 false (-1) (-1) 0 [].

Definition set_last (v : Z) (s : progress) : progress :=
  Progress (active s) (total s) v (label s) (step s) (next s) (small s) (row s) (col s) (pad_len s) (drawn s).
Definition set_next (v : Z) (s : progress) : progress :=
  Progress (active s) (total s) (last s) (label s) (step s) v (small s) (row s) (col s) (pad_len s) (drawn s).
Definition draw (p : Z) (t : list Z) (s : progress) : progress :=
  Progress (active s) (total s) (last s) (label s) (step s) (next s) (small s) (row s) (col s) (pad_len s) (drawn s ++ [(p, t)]).

(** "write", and the size of the buffer *)
Definition s_write : list Z := [119; 114; 105; 116; 101].
Definition BUF : Z := 64.

(** ** Drawing *)

Definition fscmd_render_progress (percent : Z) : M progress unit :=
  s <- get;;
  let lab := default s_write (label s) in
  let buf := replicate (Z.to_nat BUF) 0 in
  let text := take (Z.to_nat (BUF - 1)) lab in
  buf <- lift_opt (splice buf 0 text);;
  let idx := Z.of_nat (length text) in
  let idx := if BUF <=? idx + 4 then BUF - 5 else idx in
  buf <- lift_opt (lset buf idx 58);;
  buf <- lift_opt (lset buf (idx + 1) 32);;
  let idx := idx + 2 in
  let d := int_to_str percent in
  buf <- lift_opt (splice buf idx (d ++ [0]));;
  let idx := idx + Z.of_nat (length d) in
  r <- (if idx <? BUF - 1 then b <- lift_opt (lset buf idx 37);; ret (b, idx + 1) else ret (buf, idx));;
  let '(buf, idx) := r in
  let pad := if BUF <=? pad_len s then BUF - 1 else pad_len s in
  let blanks := Z.max 0 (Z.min pad (BUF - 1) - idx) in
  buf <- lift_opt (splice buf idx (replicate (Z.to_nat blanks) 32));;
  buf <- lift_opt (lset buf (idx + blanks) 0);;
  out <- lift_opt (Keyboard.c_string buf);;
  modify (draw percent out).

(** ** The three calls *)

(** label && *label ? label : "write" *)
Definition fscmd_write_progress_begin (lab : option (list Z)) (tot cursor_row cursor_col : Z) : M progress unit :=
  let l := match lab with Some (c :: l) => c :: l | _ => s_write end in
  modify (fun s => Progress true tot 0 (Some l) 0 0 false cursor_row cursor_col 0 (drawn s));;;
  if tot =? 0 then modify (set_last 100)
  else
    let pad := u32 (Z.of_nat (length l) + 6) in
    if tot <? 100 then
      modify (fun s => Progress true tot (last s) (label s) (step s) 1 true (row s) (col s) pad (drawn s))
    else
      let st := tot / 100 in
      let st := if st =? 0 then 1 else st in
      modify (fun s => Progress true tot (last s) (label s) st st false (row s) (col s) pad (drawn s)).

(** The next count at which something is drawn *)
Definition set_next_large (percent written : Z) : M progress unit :=
  s <- get;;
  if (99 <=? percent) && (written <? total s) then modify (set_next (total s))
  else modify (set_next (u32 (u32 (percent + 1) * step s))).
Definition fscmd_write_progress_update (w : Z) : M progress unit :=
  s <- get;;
  if negb (active s) || (total s =? 0) then ret tt
  else
    let written := if total s <? w then total s else w in
    if negb (small s) then
      if (written <? next s) && (written <? total s) then ret tt
      else if step s =? 0 then fault
      else
        let percent := written / step s in
        let percent := if 100 <? percent then 100 else percent in
        let percent := if (written <? total s) && (100 <=? percent) then 99 else percent in
        if percent =? last s then set_next_large percent written
        else
          modify (set_last percent);;; fscmd_render_progress percent;;; set_next_large percent written
    else
      if (written <? next s) && (written <? total s) then ret tt
      else
        let percent := u32 (written * 100) / total s in
        if percent =? last s then modify (set_next (u32 (written + 1)))
        else
          modify (set_last percent);;; fscmd_render_progress percent;;; modify (set_next (u32 (written + 1))).

Definition fscmd_write_progress_finish (success : bool) : M progress unit :=
  s <- get;;
  if negb (active s) then ret tt
  else
    (if success then fscmd_write_progress_update (total s) else ret tt);;;
    modify (fun s => Progress false 0 0 None 0 0 false (-1) (-1) 0 (drawn s)).
Fixpoint updates (l : list Z) : M progress unit :=
  match l with
  | [] => ret tt
  | w :: l' => fscmd_write_progress_update w;;; updates l'
  end.

(** ** What is drawn *)

(** label: percent%, padded with blanks *)
Definition shown (l : list Z) (p : Z) : list Z :=
  let t := l ++ [58; 32] ++ int_to_str p ++ [37] in t ++ replicate (length l + 6 - length t) 32.

Lemma percent_digits p : 0 <= p <= 100 -> (1 <= length (int_to_str p) <= 3)%nat /\ Forall is_char (int_to_str p).
Proof.
  intros Hp. assert (Hall : forallb (fun x => let d := int_to_str (Z.of_nat x) in (1 <=? length d)%nat && (length d <=? 3)%nat && forallb (fun c => (0 <? c) && (c <? 256)) d) (seq 0 101) = true) by (vm_compute; reflexivity).
  rewrite forallb_forall in Hall. specialize (Hall (Z.to_nat p)). rewrite Z2Nat.id in Hall by lia. cbv zeta in Hall. rewrite !andb_true_iff, !Nat.leb_le in Hall.
  destruct Hall as [[H1 H2] H3]; [apply in_seq; lia|]. split; [lia|]. apply list.Forall_forall. intros c Hc. rewrite forallb_forall in H3. specialize (H3 c). unfold is_char. apply list_elem_of_In in Hc. specialize (H3 Hc). lia.
Qed.
(** Writing behind the text that a buffer already holds *)
Lemma splice_at (pre rest c : list Z) i : i = Z.of_nat (length pre) -> (length c <= length rest)%nat ->
  splice (pre ++ rest) i c = Some ((pre ++ c) ++ drop (length c) rest).
Proof.
  intros -> Hc. unfold splice. rewrite (proj2 (Z.leb_le _ _)), (proj2 (Z.leb_le _ _)) by (rewrite ?length_app; lia). cbn [andb]. rewrite Nat2Z.id, take_app_length, drop_app_add, <-app_assoc. done.
Qed.
Lemma lset_at (pre rest : list Z) c i : i = Z.of_nat (length pre) -> (1 <= length rest)%nat -> lset (pre ++ rest) i c = Some ((pre ++ [c]) ++ drop 1 rest).
Proof.
  intros -> Hc. destruct rest as [|x rest]; [cbn in Hc; lia|]. rewrite lset_in by (rewrite length_app; cbn [length]; lia).
  rewrite Nat2Z.id. cbn [drop]. rewrite <-app_assoc. cbn [app]. f_equal. rewrite <-(Nat.add_0_r (length pre)). by rewrite insert_app_r.
Qed.
Lemma render_ok l p s : label s = Some l -> Forall is_char l -> (length l <= 57)%nat -> 0 <= p <= 100 -> pad_len s = Z.of_nat (length l) + 6 ->
  fscmd_render_progress p s = Ok (tt, draw p (shown l p) s).
Proof.
  intros El Hl Hlen Hp Epad. destruct (percent_digits p Hp) as [Hd Hdc]. unfold fscmd_render_progress. rewrite bind_get, El, Epad. cbn [default from_option]. unfold BUF. cbv zeta. unfold id.
  rewrite take_ge by lia. set (d := int_to_str p) in *.
  change (replicate (Z.to_nat 64) 0) with ([] ++ replicate 64 0). rewrite splice_at by (rewrite ?length_replicate; done || lia). rewrite bind_lift_some. cbn [app].
  rewrite drop_replicate. rewrite (proj2 (Z.leb_gt _ _)) by lia.
  rewrite lset_at by (rewrite ?length_replicate; done || lia). rewrite bind_lift_some. rewrite lset_at by (rewrite ?length_app, ?length_drop, ?length_replicate; cbn [length]; lia). rewrite bind_lift_some.
  rewrite splice_at by (rewrite ?length_app, ?length_drop, ?length_replicate; cbn [length]; lia). rewrite bind_lift_some, !drop_drop, drop_replicate.
  rewrite (app_assoc _ d [0]), <-(app_assoc _ [0]). rewrite (proj2 (Z.ltb_lt _ _)) by lia.
  rewrite lset_at by (rewrite ?length_app, ?length_replicate; cbn [length]; lia). rewrite bind_bind, bind_lift_some, bind_ret. cbv beta iota. cbn [drop app]. rewrite drop_0.
  rewrite (proj2 (Z.leb_gt 64 _)) by lia. set (T := (((l ++ [58]) ++ [32]) ++ d) ++ [37]).
  assert (HT : T = l ++ [58; 32] ++ d ++ [37]) by (unfold T; by rewrite <-!app_assoc).
  assert (HTl : length T = (length l + 3 + length d)%nat) by (rewrite HT, !length_app; cbn [length]; lia).
  replace (Z.max 0 (Z.min (Z.of_nat (length l) + 6) (64 - 1) - (Z.of_nat (length l) + 2 + Z.of_nat (length d) + 1))) with (Z.of_nat (length l + 6 - length T)) by lia.
  rewrite splice_at by (rewrite ?HTl, ?length_replicate, ?length_app; cbn [length]; lia). rewrite bind_lift_some, length_replicate, drop_replicate.
  rewrite lset_at by (rewrite ?length_app, ?HTl, ?length_replicate, ?length_app; cbn [length]; lia). rewrite bind_lift_some, <-app_assoc. cbn [app]. rewrite Nat2Z.id.
  assert (Hs : T ++ replicate (length l + 6 - length T) 32 = shown l p) by (unfold shown; fold d; by rewrite HT). rewrite Hs.
  rewrite KbdEdit.KbdEdit.c_string_app; [by rewrite bind_lift_some|].
  rewrite <-Hs, HT, !Forall_app. split_and!; [done|by repeat constructor|done|by repeat constructor|by apply Forall_replicate].
Qed.

(** ** A write of T bytes in progress *)

(** The percentage that belongs to w bytes *)
Definition percent_of (T w : Z) : Z :=
  if T <? 100 then 100 * w / T else if w <? T then Z.min 99 (w / (T / 100)) else 100.
(** w is the number of bytes reported last. *)
Record running (l : list Z) (T w : Z) (s : progress) : Prop := {
  r_active : active s = true;
  r_total : total s = T;
  r_label : label s = Some l;
  r_pad : pad_len s = Z.of_nat (length l) + 6;
  r_small : small s = (T <? 100);
  r_step : 100 <= T -> step s = T / 100;
  r_w : 0 <= w <= T;
  r_last : last s = percent_of T w;
  r_next : w < T -> 100 <= T -> next s = if last s =? 99 then T else (last s + 1) * (T / 100);
  r_next_small : T < 100 -> next s <= w + 1;
}.
Definition fits (l : list Z) : Prop := l <> [] /\ Forall is_char l /\ (length l <= 57)%nat.

Lemma percent_range T w : 0 < T -> 0 <= w <= T -> 0 <= percent_of T w <= 100.
Proof.
  intros HT Hw. unfold percent_of. destruct (Z.ltb_spec T 100); [Z.div_mod_to_equations; nia|].
  assert (0 < T / 100) by (Z.div_mod_to_equations; lia). pose proof (Z.div_pos w (T / 100)). destruct (Z.ltb_spec w T); lia.
Qed.
Lemma percent_end T : 0 < T -> percent_of T T = 100.
Proof. intros HT. unfold percent_of. rewrite Z.ltb_irrefl. destruct (Z.ltb_spec T 100); [rewrite Z.div_mul; lia|done]. Qed.
Lemma percent_below T w : 0 < T -> 0 <= w < T -> percent_of T w < 100.
Proof. intros HT Hw. unfold percent_of. destruct (Z.ltb_spec T 100); [Z.div_mod_to_equations; nia|]. rewrite (proj2 (Z.ltb_lt _ _)) by lia. lia. Qed.
Lemma percent_mono T v w : 0 < T -> 0 <= v <= w -> w <= T -> percent_of T v <= percent_of T w.
Proof.
  intros HT Hv Hw. unfold percent_of. destruct (Z.ltb_spec T 100); [apply Z.div_le_mono; lia|].
  assert (0 < T / 100) by (Z.div_mod_to_equations; lia). assert (v / (T / 100) <= w / (T / 100)) by (apply Z.div_le_mono; lia). bdestr; lia.
Qed.
(** It is never below the true percentage, and for more than 10000 bytes at most one above. *)
Lemma percent_close T w : 0 < T -> 0 <= w <= T -> 100 * w / T <= percent_of T w /\ (10000 <= T -> percent_of T w <= 100 * w / T + 1).
Proof.
  intros HT Hw. unfold percent_of. destruct (Z.ltb_spec T 100); [lia|]. destruct (Z.ltb_spec w T).
  - assert (Hs : 0 < T / 100) by (Z.div_mod_to_equations; lia). assert (100 * w / T <= 99) by (apply Z.lt_succ_r, Z.div_lt_upper_bound; lia). split.
    + apply Z.min_glb; [lia|]. apply Z.div_le_lower_bound; [lia|]. assert (Hq : 100 * w / T * T <= 100 * w) by (Z.div_mod_to_equations; lia). assert (T / 100 * 100 <= T) by (Z.div_mod_to_equations; lia).
      assert (0 <= 100 * w / T) by (apply Z.div_pos; lia). nia.
    + intros HT2. transitivity (w / (T / 100)); [lia|]. apply Z.lt_succ_r. apply Z.div_lt_upper_bound; [lia|].
      assert (Hq : 100 * w < (100 * w / T + 1) * T) by (Z.div_mod_to_equations; lia). assert (Hr : T < T / 100 * 100 + 100) by (Z.div_mod_to_equations; lia). assert (100 <= T / 100) by (apply Z.div_le_lower_bound; lia).
      set (q := 100 * w / T) in *. assert (0 <= q) by (apply Z.div_pos; lia). nia.
  - replace w with T by lia. rewrite Z.div_mul by lia. lia.
Qed.

(** What the next report has to reach, for a write of at least 100 bytes *)
Lemma set_next_large_ok l T u s : 100 <= T < 4294967296 -> 0 <= u <= T -> active s = true -> total s = T -> label s = Some l -> pad_len s = Z.of_nat (length l) + 6 ->
  small s = false -> step s = T / 100 -> last s = percent_of T u ->
  wp False (set_next_large (percent_of T u) u) (fun _ s2 => running l T u s2 /\ drawn s2 = drawn s) s.
Proof.
  intros HT Hu A1 A2 A3 A4 A5 A6 A7. assert (Hs : small s = (T <? 100)) by (rewrite A5; symmetry; apply Z.ltb_ge; lia). pose proof (percent_range T u ltac:(lia) Hu) as Hp.
  unfold set_next_large. apply wp_bind, wp_gets; cbv beta. rewrite A2. destruct (Z.ltb_spec u T) as [Hut|]; rewrite ?andb_false_r, ?andb_true_r.
  - pose proof (percent_below T u ltac:(lia) ltac:(lia)). destruct (Z.leb_spec 99 (percent_of T u)).
    + apply wp_modify. split; [|done]. constructor; try done; try lia. intros _ _. cbn [last set_next next]. rewrite A7. by rewrite (proj2 (Z.eqb_eq _ 99)) by lia.
    + apply wp_modify. split; [|done]. constructor; try done; try lia. intros _ _. cbn [last set_next next]. rewrite A7, A6. rewrite (proj2 (Z.eqb_neq _ 99)) by lia.
      assert (T / 100 * 100 <= T) by (Z.div_mod_to_equations; lia). assert (0 <= T / 100) by (apply Z.div_pos; lia).
      rewrite (u32_small (percent_of T u + 1)) by (unfold is_u32; lia). rewrite u32_small by (unfold is_u32; nia). done.
  - apply wp_modify. split; [|done]. constructor; try done; lia.
Qed.
(** A report draws the percentage when it is a new one. *)
Lemma update_ok l T w v s : fits l -> 0 < T < 4294967296 -> running l T w s -> w <= v ->
  let u := Z.min T v in
  wp False (fscmd_write_progress_update v) (fun _ s' => running l T u s' /\
    drawn s' = drawn s ++ (if percent_of T u =? last s then [] else [(percent_of T u, shown l (percent_of T u))])) s.
Proof.
  intros Hl HT Hr Hv u. pose proof Hr as [Ha Ht Hlab Hpad Hsm Hst Hw Hla Hn Hns]. unfold fscmd_write_progress_update. apply wp_bind, wp_gets; cbv beta. rewrite Ha, Ht. cbn [negb orb].
  rewrite (proj2 (Z.eqb_neq T 0)) by lia. cbv zeta. replace (if T <? v then T else v) with u by (unfold u; bdestr; lia). assert (Hu : w <= u <= T) by (unfold u; lia). clearbody u. clear Hv v.
  pose proof (percent_range T u ltac:(lia) ltac:(lia)) as Hp. pose proof (percent_mono T w u ltac:(lia) ltac:(lia) ltac:(lia)) as Hmono. rewrite Hsm.
  assert (Hdraw : forall k (Q : unit -> progress -> Prop), (forall s', s' = draw (percent_of T u) (shown l (percent_of T u)) (set_last (percent_of T u) s) -> wp False k Q s') ->
    wp False (modify (set_last (percent_of T u));;; fscmd_render_progress (percent_of T u);;; k) Q s).
  { intros k Q HQ. apply wp_bind, wp_modify, wp_bind. eapply wp_ok; [apply (render_ok l); try done; by destruct Hl as (? & ? & ?)|]. by apply HQ. }
  destruct (Z.ltb_spec T 100) as [Hlt|Hge]; cbn [negb].
  - specialize (Hns Hlt). destruct ((u <? next s) && (u <? T)) eqn:Ee.
    + apply andb_true_iff in Ee as [E1%Z.ltb_lt E2%Z.ltb_lt]. assert (u = w) as -> by lia. apply wp_ret. rewrite Hla, Z.eqb_refl, app_nil_r. done.
    + rewrite u32_small by (unfold is_u32; lia). replace (u * 100 / T) with (percent_of T u) by (unfold percent_of; rewrite (proj2 (Z.ltb_lt _ _)) by done; f_equal; lia).
      rewrite u32_small by (unfold is_u32; lia). apply wp_if; intros E; rewrite E.
      * apply Z.eqb_eq in E. apply wp_modify. split; [|by rewrite app_nil_r]. constructor; try done; cbn [last set_next next]; first [lia | intros; exfalso; lia | rewrite (proj2 (Z.ltb_lt T 100)) by lia; exact Hsm].
      * apply Hdraw. intros s' ->. apply wp_modify. split; [|done]. constructor; try done; cbn; first [lia | intros; exfalso; lia | rewrite (proj2 (Z.ltb_lt T 100)) by lia; exact Hsm].
  - assert (Hs : 0 < T / 100) by (Z.div_mod_to_equations; lia). destruct ((u <? next s) && (u <? T)) eqn:Ee.
    + apply andb_true_iff in Ee as [E1%Z.ltb_lt E2%Z.ltb_lt]. rewrite Hn in E1 by lia. assert (Hsame : percent_of T u = last s).
      { rewrite Hla in *. apply Z.le_antisymm; [|done]. pose proof (percent_below T u ltac:(lia) ltac:(lia)). destruct (Z.eqb_spec (percent_of T w) 99); [lia|].
        unfold percent_of at 1. rewrite (proj2 (Z.ltb_ge T 100)), (proj2 (Z.ltb_lt u T)) by lia. transitivity (u / (T / 100)); [lia|]. apply Z.lt_succ_r, Z.div_lt_upper_bound; lia. }
      apply wp_ret. rewrite Hsame, Z.eqb_refl, app_nil_r. split; [|done]. constructor; try done; first [lia | by rewrite (proj2 (Z.ltb_ge T 100)) by lia | intros; by apply Hn; lia].
    + rewrite (Hst Hge). rewrite (proj2 (Z.eqb_neq (T / 100) 0)) by lia.
      assert (Epc : (if (u <? T) && (100 <=? (if 100 <? u / (T / 100) then 100 else u / (T / 100))) then 99 else if 100 <? u / (T / 100) then 100 else u / (T / 100)) = percent_of T u).
      { unfold percent_of. rewrite (proj2 (Z.ltb_ge T 100)) by lia. destruct (Z.ltb_spec u T); cbn [andb]; [bdestr; lia|]. replace u with T by lia.
        assert (100 <= T / (T / 100)) by (apply Z.div_le_lower_bound; [lia|]; Z.div_mod_to_equations; lia). bdestr; lia. }
      rewrite Epc.
      apply wp_if; intros E; rewrite E.
      * apply Z.eqb_eq in E. rewrite app_nil_r. apply set_next_large_ok; try done; [lia..|by apply Hst].
      * apply Hdraw. intros s' ->. eapply wp_mono; [apply (set_next_large_ok l); try done; [lia..|by apply Hst]|]. done.
Qed.

Lemma percent_0 T : 0 < T -> percent_of T 0 = 0.
Proof.
  intros HT. unfold percent_of. destruct (Z.ltb_spec T 100); [rewrite Z.mul_0_r; apply Z.div_0_l; lia|].
  rewrite (proj2 (Z.ltb_lt 0 T)) by lia. assert (0 < T / 100) by (Z.div_mod_to_equations; lia). rewrite Z.div_0_l by lia. done.
Qed.
Lemma begin_ok l T r c s : fits l -> 0 < T < 4294967296 ->
  wp False (fscmd_write_progress_begin (Some l) T r c) (fun _ s' => running l T 0 s' /\ drawn s' = drawn s) s.
Proof.
  intros (Hne & Hc & Hlen) HT. unfold fscmd_write_progress_begin. destruct l as [|x l]; [done|]. cbv iota zeta. apply wp_bind, wp_modify. rewrite (proj2 (Z.eqb_neq T 0)) by lia.
  rewrite u32_small by (unfold is_u32; cbn [length] in *; lia). pose proof (percent_0 T ltac:(lia)) as Hz.
  destruct (Z.ltb_spec T 100) as [Hlt|Hge].
  - apply wp_modify. split; [|done]. constructor; try done; cbn; first [lia | by rewrite (proj2 (Z.ltb_lt T 100)) by lia | intros; exfalso; lia].
  - assert (0 < T / 100) by (Z.div_mod_to_equations; lia). rewrite (proj2 (Z.eqb_neq (T / 100) 0)) by lia.
    apply wp_modify. split; [|done]. constructor; try done; cbn; first [lia | by rewrite (proj2 (Z.ltb_ge T 100)) by lia | intros; lia].
Qed.
(** ps: the percentages drawn since s0 for reports from w0 on *)
Record drew (l : list Z) (T p0 : Z) (from : list Z) (s0 s : progress) (ps : list Z) : Prop := {
  dr_text : drawn s = drawn s0 ++ ((fun p => (p, shown l p)) <$> ps);
  dr_sorted : StronglySorted Z.lt (p0 :: ps);
  dr_from : forall p, p ∈ ps -> exists w, w ∈ from /\ p = percent_of T (Z.min T w);
}.
Lemma updates_ok l T : fits l -> 0 < T < 4294967296 -> forall ws w s, running l T w s -> StronglySorted Z.le (w :: ws) ->
  wp False (updates ws) (fun _ s' => exists ps, drew l T (percent_of T w) ws s s' ps /\ running l T (Z.min T (default w (list.last ws))) s' /\
    default (percent_of T w) (list.last ps) = percent_of T (Z.min T (default w (list.last ws)))) s.
Proof.
  intros Hl HT ws. induction ws as [|v ws IH]; intros w s Hr Hs; cbn [updates].
  - apply wp_ret. pose proof (r_w _ _ _ _ Hr). exists []. cbn [list.last default from_option id]. rewrite Z.min_r by lia. split_and!; [|done|done].
    constructor; [by rewrite app_nil_r|by repeat constructor|by intros p ?%elem_of_nil].
  - apply StronglySorted_inv in Hs as [Hs Hall]. apply list.Forall_cons in Hall as [Hwv Hall]. pose proof (r_w _ _ _ _ Hr) as Hw. set (u := Z.min T v).
    apply wp_bind. eapply wp_mono; [by apply (update_ok l T w v)|]. intros _ s1 [H1 D1]. fold u in H1, D1. rewrite (r_last _ _ _ _ Hr) in D1.
    pose proof (percent_mono T w u ltac:(lia) ltac:(unfold u; lia) ltac:(unfold u; lia)) as Hm.
    assert (Hs' : StronglySorted Z.le (u :: ws)).
    { constructor; [by inversion Hs|]. apply StronglySorted_inv in Hs as [_ Hs]. apply (list.Forall_impl _ _ _ Hs). intros x Hx. unfold u. lia. }
    eapply wp_mono; [by apply (IH u)|]. intros _ s2 (ps & [E2 S2 F2] & H2 & L2).
    assert (Elast : Z.min T (default u (list.last ws)) = Z.min T (default w (list.last (v :: ws)))).
    { destruct ws as [|x ws]; [cbn; unfold u; lia|]. cbn [list.last]. destruct (list.last (x :: ws)) eqn:E; [done|]. by apply list.last_None in E. }
    rewrite Elast in *. destruct (Z.eqb_spec (percent_of T u) (percent_of T w)) as [Eq|Ne].
    + exists ps. split_and!; [constructor|done|by rewrite <-Eq].
      * rewrite E2, D1, app_nil_r. done.
      * by rewrite <-Eq.
      * intros p Hp. destruct (F2 p Hp) as (x & Hx & ->). exists x. split; [by right|done].
    + exists (percent_of T u :: ps). split_and!; [constructor|done|].
      * rewrite E2, D1, <-app_assoc. done.
      * constructor; [done|]. apply list.Forall_cons. split; [lia|]. apply StronglySorted_inv in S2 as [_ S2]. apply (list.Forall_impl _ _ _ S2). intros x Hx. lia.
      * intros p [->|Hp]%elem_of_cons; [exists v; split; [by left|done]|]. destruct (F2 p Hp) as (x & Hx & ->). exists x. split; [by right|done].
      * rewrite <-L2. destruct ps as [|x ps]; [done|]. cbn [list.last]. destruct (list.last (x :: ps)) eqn:E; [done|]. by apply list.last_None in E.
Qed.

Lemma sorted_snoc (l : list Z) x : StronglySorted Z.lt l -> Forall (fun y => y < x) l -> StronglySorted Z.lt (l ++ [x]).
Proof.
  induction 1 as [|y l Hs IH Hy]; intros Hf; cbn; [by repeat constructor|]. apply list.Forall_cons in Hf as [H1 H2]. constructor; [by apply IH|].
  apply Forall_app. split; [done|by repeat constructor].
Qed.
Lemma sorted_below ps b p : StronglySorted Z.lt (0 :: ps) -> default 0 (list.last ps) < b -> p ∈ 0 :: ps -> p < b.
Proof.
  intros Hs Hb Hp. destruct ps as [|x ps _] using rev_ind; [apply list_elem_of_singleton in Hp; subst; exact Hb|]. rewrite list.last_snoc in Hb. cbn in Hb.
  change (0 :: ps ++ [x]) with ((0 :: ps) ++ [x]) in *. apply elem_of_app in Hp as [Hp| ->%list_elem_of_singleton]; [|done].
  enough (p < x) by lia. clear Hb. revert Hs Hp. generalize (0 :: ps). intros l. induction l as [|y l IH]; [by intros _ ?%elem_of_nil|].
  intros [Hs Hy]%StronglySorted_inv [->|Hp]%elem_of_cons; [|by apply IH]. rewrite Forall_app in Hy. destruct Hy as [_ Hy]. by inversion Hy.
Qed.

(** The progress of a write.  Whatever counts the driver reports, as long as they do not go
    down, the percentages that appear after begin with a label of at most 57 characters and a
    total of T bytes go up strictly and end with 100 when the write succeeds; each is drawn as
    "label: p%" padded to a fixed width, belongs to a count that was reported, is not below the
    true percentage of that count, and for totals from 10000 bytes on at most one above it; no
    buffer is left, and the display is switched off at the end. *)
Theorem write_progress_faithful l T r c ws s : fits l -> 0 < T < 4294967296 -> StronglySorted Z.le (0 :: ws) ->
  wp False (fscmd_write_progress_begin (Some l) T r c;;; updates ws;;; fscmd_write_progress_finish true)
    (fun _ s' => exists ps, drawn s' = drawn s ++ ((fun p => (p, shown l p)) <$> ps) /\ StronglySorted Z.lt (0 :: ps) /\ list.last ps = Some 100 /\
       (forall p, p ∈ ps -> exists w, w ∈ ws ++ [T] /\ 100 * Z.min T w / T <= p /\ (10000 <= T -> p <= 100 * Z.min T w / T + 1)) /\
       active s' = false) s.
Proof.
  intros Hl HT Hs. apply wp_bind. eapply wp_mono; [by apply (begin_ok l T)|]. intros ? s1 [H1 D1]. apply wp_bind.
  eapply wp_mono; [by apply (updates_ok l T Hl HT ws 0)|]. intros ? s2 (ps & [E2 S2 F2] & H2 & L2). rewrite percent_0 in * by lia.
  unfold fscmd_write_progress_finish. apply wp_bind, wp_gets; cbv beta. rewrite (r_active _ _ _ _ H2). cbn [negb]. apply wp_bind. rewrite (r_total _ _ _ _ H2).
  eapply wp_mono; [apply (update_ok l T (Z.min T (default 0 (list.last ws))) T s2 Hl HT H2 ltac:(lia))|]. intros ? s3 [H3 D3]. rewrite Z.min_id, percent_end, (r_last _ _ _ _ H2), <-L2 in D3 by lia. apply wp_modify.
  exists (if 100 =? default 0 (list.last ps) then ps else ps ++ [100]). cbn [drawn active].
  assert (Hclose : forall p, p ∈ ps -> exists w, w ∈ ws ++ [T] /\ 100 * Z.min T w / T <= p /\ (10000 <= T -> p <= 100 * Z.min T w / T + 1)).
  { intros p Hp. destruct (F2 p Hp) as (w & Hw & ->). exists w. rewrite elem_of_app. split; [by left|]. assert (0 <= w) by (apply StronglySorted_inv in Hs as [_ Hs]; rewrite list.Forall_forall in Hs; by apply Hs).
    apply percent_close; lia. }
  assert (Hlt : default 0 (list.last ps) <> 100 -> forall p, p ∈ 0 :: ps -> p < 100).
  { intros Hne p Hp. apply (sorted_below ps); [done| |done]. rewrite L2 in *. pose proof (r_w _ _ _ _ H2). pose proof (percent_range T _ ltac:(lia) H). lia. }
  destruct (Z.eqb_spec 100 (default 0 (list.last ps))) as [E|E]; split_and!; try done.
  - rewrite D3, app_nil_r, E2, D1. done.
  - destruct (list.last ps) as [x|]; cbn in E; [by subst|done].
  - rewrite D3, E2, D1, <-app_assoc, fmap_app. done.
  - apply (sorted_snoc (0 :: ps)); [done|]. apply list.Forall_forall. apply Hlt. lia.
  - by rewrite list.last_snoc.
  - intros p [Hp| ->%list_elem_of_singleton]%elem_of_app; [by apply Hclose|]. exists T. rewrite elem_of_app. split; [right; by apply list_elem_of_singleton|]. rewrite Z.min_id, Z.div_mul by lia. lia.
Qed.

(** ** Runs *)

Definition s_svrd : list Z := [115; 118; 114; 100].
Example write_progress_faithful_witness :
  wp False (fscmd_write_progress_begin (Some s_svrd) 20000 3 0;;; updates [512; 1024; 20000];;; fscmd_write_progress_finish true)
    (fun _ s' => exists ps, drawn s' = drawn progress0 ++ ((fun p => (p, shown s_svrd p)) <$> ps) /\ StronglySorted Z.lt (0 :: ps) /\ list.last ps = Some 100 /\
       (forall p, p ∈ ps -> exists w, w ∈ [512; 1024; 20000] ++ [20000] /\ 100 * Z.min 20000 w / 20000 <= p /\ (10000 <= 20000 -> p <= 100 * Z.min 20000 w / 20000 + 1)) /\
       active s' = false) progress0.
Proof.
  apply (write_progress_faithful s_svrd 20000 3 0 [512; 1024; 20000] progress0); [|lia|repeat constructor; lia].
  split_and!; [done|repeat constructor|cbn; lia].
Defined.
(** With totals between 100 and 199 bytes the percentage is the number of bytes: half of 198 bytes
    written is shown as 99%. *)
Example progress_doubled :
  fst <$> drawn (final ((fscmd_write_progress_begin (Some s_svrd) 198 0 0;;; updates [99]) progress0) progress0) = [99].
Proof. vm_compute. reflexivity. Qed.
(** A label of 59 characters: the NUL behind 100 leaves the buffer. *)
Example render_overflow :
  (fscmd_write_progress_begin (Some (replicate 59 97)) 100 0 0;;; updates [100]) progress0 = Fault.
Proof. vm_compute. reflexivity. Qed.
End Progress.
