(* ===== verification/Fscmd.v ===== *)
(** * The front end of the file systems (fs/fscmd.c)

    The drive and the file system that are current, and the operations that the shell and the
    system calls use, each handed on to XVFS, FAT16 or FAT32.  The three drivers share the drives,
    the current path and the progress display: an operation of a driver runs on the shared values,
    and its reports of progress are handed to the display when it is done.  A listing is the list of
    the names with their kind; terminal output is left out, and with it fscmd_ls. *)
From S2P Require Import Prelude BlockDev Fat16Name Fat32Name Fat16 Fat32 Xvfs Ata Disk Progress.
Import Fat16Name.Fat16Name Ata.Ata Disk.Disk Progress.Progress.

Module Fscmd.

Inductive fs_type_t := FS_NONE | FS_FAT16 | FS_FAT32 | FS_XVFS.
#[global] Instance fs_type_eq_dec : EqDecision fs_type_t.
Proof. solve_decision. Defined.

(** "FAT16", "FAT32", "XVFS", "NONE" *)
Definition s_FAT16 : list Z := [70; 65; 84; 49; 54].
Definition s_FAT32 : list Z := [70; 65; 84; 51; 50].
Definition s_XVFS : list Z := [88; 86; 70; 83].
Definition s_NONE : list Z := [78; 79; 78; 69].
Definition fs_to_string (t : fs_type_t) : list Z :=
  match t with FS_NONE => s_NONE | FS_FAT16 => s_FAT16 | FS_FAT32 => s_FAT32 | FS_XVFS => s_XVFS end.

(** A directory entry of one of the three kinds *)
Inductive any_entry := E16 (e : FAT16_DirEntry) | E32 (e : Fat32Name.FAT32_DirEntry) | EX (e : Xvfs.XVFS_FileEntry).

Section ops.
Context {D : Type} `{BlockDev D} `{Fat16.Buffers D}.
(** The stack behind the arrays that xvfs.c and fat32.c write out too far *)
Context (beyond : list Z).

Record vfs := Vfs {
  v_dev : D; v_16 : @Fat16.fat16 D; v_32 : @Fat32.fat32 D; v_x : @Xvfs.xvfs D;
  current_fs : fs_type_t; current_drive : Z; current_path : list Z; v_disks : list DiskInfo; v_prog : progress;
}.
Abbreviation V A := (M vfs A).

(** ** The three drivers on the shared state *)

Definition load16 (s : vfs) : @Fat16.fat16 D :=
  let f := v_16 s in
  Fat16.Mk (v_dev s) (Fat16.fat16_bpb f) (Fat16.fat_start_lba f) (Fat16.root_dir_lba f) (Fat16.data_region_lba f) (Fat16.root_dir_sectors f)
    (Fat16.fat16_first_data_sector f) (Fat16.current_dir_cluster16 f) (Fat16.fat16_alloc_hint f) (Fat16.fat16_drive f) (current_path s) [].
Definition load32 (s : vfs) : @Fat32.fat32 D :=
  let f := v_32 s in
  Fat32.Mk (v_dev s) (Fat32.bpb f) (Fat32.fat_start_lba f) (Fat32.data_start_lba f) (Fat32.root_dir_cluster32 f) (Fat32.current_dir_cluster32 f)
    (Fat32.fat32_alloc_hint f) (Fat32.fat32_drive f) (current_path s) [].
Definition loadx (s : vfs) : @Xvfs.xvfs D :=
  let f := v_x s in
  Xvfs.Mk (v_dev s) (Xvfs.sb f) (Xvfs.xvfs_base_lba f) (Xvfs.xvfs_drive f) (Xvfs.current_dir_block f) (current_path s) [].
(** The reports of the driver go to the display. *)
Definition report {A} (a : A) (l : list Z) (s : vfs) (s' : progress -> vfs) : res (A * vfs) :=
  match updates l (v_prog s) with Ok (_, p) => Ok (a, s' p) | Fault => Fault | NoFuel => NoFuel end.
Definition on16 {A} (m : M (@Fat16.fat16 D) A) : V A := fun s =>
  match m (load16 s) with
  | Ok (a, f) => report a (Fat16.progress f) s
      (Vfs (Fat16.dev f) f (v_32 s) (v_x s) (current_fs s) (current_drive s) (Fat16.current_path f) (v_disks s))
  | Fault => Fault | NoFuel => NoFuel
  end.
Definition on32 {A} (m : M (@Fat32.fat32 D) A) : V A := fun s =>
  match m (load32 s) with
  | Ok (a, f) => report a (Fat32.progress f) s
      (Vfs (Fat32.dev f) (v_16 s) f (v_x s) (current_fs s) (current_drive s) (Fat32.current_path f) (v_disks s))
  | Fault => Fault | NoFuel => NoFuel
  end.
Definition onx {A} (m : M (@Xvfs.xvfs D) A) : V A := fun s =>
  match m (loadx s) with
  | Ok (a, f) => report a (Xvfs.progress f) s
      (Vfs (Xvfs.dev f) (v_16 s) (v_32 s) f (current_fs s) (current_drive s) (Xvfs.current_path f) (v_disks s))
  | Fault => Fault | NoFuel => NoFuel
  end.
Definition set_path (p : list Z) (s : vfs) : vfs :=
  Vfs (v_dev s) (v_16 s) (v_32 s) (v_x s) (current_fs s) (current_drive s) p (v_disks s) (v_prog s).
Definition on_dev {A} (m : M D A) : V A := fun s =>
  match m (v_dev s) with
  | Ok (a, d) => Ok (a, Vfs d (v_16 s) (v_32 s) (v_x s) (current_fs s) (current_drive s) (current_path s) (v_disks s) (v_prog s))
  | Fault => Fault | NoFuel => NoFuel
  end.

(** if (current_fs == FS_FAT16) ... else if (current_fs == FS_FAT32) ... else if (current_fs == FS_XVFS) ... else none *)
Definition dispatch {A} (m16 : M (@Fat16.fat16 D) A) (m32 : M (@Fat32.fat32 D) A) (mx : M (@Xvfs.xvfs D) A) (none : A) : V A :=
  fs <- gets current_fs;;
  match fs with
  | FS_FAT16 => on16 m16
  | FS_FAT32 => on32 m32
  | FS_XVFS => onx mx
  | FS_NONE => ret none
  end.

(** ** Operations *)

(** root_dir_cluster16 is the constant 0 of fat16.c *)
Definition fscmd_reset_path : V unit :=
  fs <- gets current_fs;;
  (match fs with
   | FS_FAT16 => on16 (modify (fun f => Fat16.with_cwd 0 (Fat16.current_path f) f))
   | FS_FAT32 => on32 (modify (fun f => Fat32.with_cwd (Fat32.root_dir_cluster32 f) (Fat32.current_path f) f))
   | _ => ret tt
   end);;;
  modify (set_path [SLASH]).

(** The entries of an XVFS directory as names of at most name_len - 1 characters: strncpy stops at
    the first NUL, which for a name of sixteen characters lies in the fields behind it. *)
Fixpoint xvfs_names (name_len : nat) (es : list Xvfs.XVFS_FileEntry) : option (list (list Z * bool)) :=
  match es with
  | [] => Some []
  | e :: es' =>
    let raw := concat (Xvfs.entry_bytes <$> es) in
    let str := Xvfs.until_nul raw in
    if (length str <? length raw)%nat || (name_len - 1 <=? length raw)%nat then
      l ← xvfs_names name_len es'; Some ((take (name_len - 1) str, Z.testbit (Xvfs.fe_attr e) 0) :: l)
    else None
  end.
Definition listing (r : option (list (list Z * bool))) : Z * list (list Z * bool) :=
  match r with None => (-1, []) | Some l => (Z.of_nat (length l), l) end.
(** Non-NULL names and is_dir; a path that is NULL or empty is the current directory. *)
Definition fscmd_list_dir (path : option (list Z)) (max_entries name_len : Z) : V (Z * list (list Z * bool)) :=
  if (max_entries =? 0) || (name_len =? 0) then ret (-1, [])
  else
    fs <- gets current_fs;;
    let here := match path with None | Some [] => true | _ => false end in
    let p := default [] path in
    let nl := Z.to_nat name_len in
    match fs with
    | FS_FAT16 =>
      on16 (cluster <- (if here then gets Fat16.current_dir_cluster16 else Fat16.fat16_resolve_dir p);;
            if negb here && (cluster =? 0xFFFF) then ret (-1, [])
            else r <- Fat16.fat16_list_dir_lfn cluster (s32 max_entries) nl;; ret (listing r))
    | FS_FAT32 =>
      on32 (cluster <- (if here then gets Fat32.current_dir_cluster32 else Fat32.fat32_resolve_dir p);;
            if negb here && ((cluster <? 2) || (0x0FFFFFF8 <=? cluster)) then ret (-1, [])
            else r <- Fat32.fat32_list_dir_lfn cluster (s32 max_entries) nl;; ret (listing r))
    | FS_XVFS =>
      let mx := if 256 <? max_entries then 256 else max_entries in
      entries <- on_dev (Fat16.kmalloc (u32 (mx * 25)));;
      if entries =? 0 then ret (-1, [])
      else
        r <- onx (Xvfs.xvfs_read_dir_entries path true mx);;
        let '(count, es) := r in
        if count <? 0 then on_dev (Fat16.kfree entries);;; ret (-1, [])
        else l <- lift_opt (xvfs_names nl es);; on_dev (Fat16.kfree entries);;; ret (count, l)
    | FS_NONE => ret (-1, [])
    end.

(** What is printed *)
Definition fscmd_cat (path : list Z) : V (option (list Z)) := dispatch (Fat16.fat16_cat path) (Fat32.fat32_cat path) (Xvfs.xvfs_cat path) None.
Definition fscmd_rm (path : list Z) : V bool := dispatch (Fat16.fat16_rm path) (Fat32.fat32_rm path) (Xvfs.xvfs_rm path) false.
(** By the kind of the current drive, not by current_fs *)
Definition fscmd_write_file (filename data : list Z) (len : Z) : V bool :=
  s <- get;;
  d <- lift_opt (lget (v_disks s) (current_drive s));;
  let fs := dk_fs_type d in
  if bool_decide (fs = s_FAT16) then w <- on16 (Fat16.fat16_write_file (Some filename) (Some data) (s32 len));; ret (0 <=? w)
  else if bool_decide (fs = s_FAT32) then on32 (Fat32.fat32_write_file filename data len)
  else if bool_decide (fs = s_XVFS) then onx (Xvfs.xvfs_write_file filename data len)
  else ret false.
Definition fscmd_exists (path : list Z) : V bool := dispatch (Fat16.fat16_exists path) (Fat32.fat32_exists path) (Xvfs.xvfs_exists (Some path)) false.
Definition fscmd_read_file_by_name (path : list Z) (size : Z) : V (Z * list Z) :=
  dispatch (Fat16.fat16_read_file_by_name path size) (Fat32.fat32_read_file_by_name path size) (Xvfs.xvfs_read_file_by_name (Some path) size) (-1, []).
Definition fscmd_cp (src dst : list Z) : V bool := dispatch (Fat16.fat16_cp src dst) (Fat32.fat32_cp src dst) (Xvfs.xvfs_cp src dst) false.
Definition fscmd_mv (src dst : list Z) : V bool := dispatch (Fat16.fat16_mv src dst) (Fat32.fat32_mv src dst) (Xvfs.xvfs_mv src dst) false.
Definition fscmd_get_file_size (filename : list Z) : V Z :=
  dispatch (Fat16.fat16_get_file_size filename) (Fat32.fat32_get_file_size filename) (Xvfs.xvfs_get_file_size filename) 0.
(** The bytes that were put into the buffer, None when the call returns false *)
Definition bytes_of {S} (m : M S (bool * list Z)) : M S (option (list Z)) := r <- m;; let '(ok, b) := r in ret (if (ok : bool) then Some b else None).
Definition fscmd_read_file_partial (filename : list Z) (offset size : Z) : V (option (list Z)) :=
  dispatch (Fat16.fat16_read_file_partial filename offset size) (Fat32.fat32_read_file_partial filename offset size)
    (bytes_of (Xvfs.xvfs_read_file_partial filename offset true size)) None.
Definition fscmd_mkdir (dirname : list Z) : V bool := dispatch (Fat16.fat16_mkdir (Some dirname)) (Fat32.fat32_mkdir dirname) (Xvfs.xvfs_mkdir beyond (Some dirname)) false.
Definition fscmd_cd (path : list Z) : V bool := dispatch (Fat16.fat16_cd (Some path)) (Fat32.fat32_cd path) (Xvfs.xvfs_cd (Some path)) false.
Definition fscmd_rmdir (dirname : list Z) : V bool := dispatch (Fat16.fat16_rmdir dirname) (Fat32.fat32_rmdir dirname) (Xvfs.xvfs_rmdir dirname) false.
Definition fscmd_find_file (path : list Z) : V (option any_entry) :=
  dispatch (r <- Fat16.fat16_find_file path;; ret (E16 <$> r)) (r <- Fat32.fat32_find_file path;; ret (E32 <$> r)) (r <- Xvfs.xvfs_find_file path;; ret (EX <$> r)) None.
(** An entry of another kind than current_fs would be read as what it is not. *)
Definition fscmd_read_file_range (entry : option any_entry) (offset size : Z) : V (option (list Z)) :=
  match entry with
  | None => ret None
  | Some e =>
    if size =? 0 then ret None
    else
      fs <- gets current_fs;;
      match fs, e with
      | FS_FAT16, E16 e => on16 (Fat16.fat16_read_file_range e offset size)
      | FS_FAT32, E32 e => on32 (Fat32.fat32_read_file_range e offset size)
      | FS_XVFS, EX e => onx (bytes_of (Xvfs.xvfs_read_file_range (Some e) true offset size))
      | FS_NONE, _ => ret None
      | _, _ => fault
      end
  end.
Definition fscmd_read_file (filename : list Z) (offset size : Z) : V (Z * list Z) :=
  dispatch
    (r <- Fat16.fat16_find_file filename;; match r with None => ret (-1, []) | Some e => Fat16.fat16_read_file e offset size end)
    (Fat32.fat32_read_file filename offset size)
    (r <- Xvfs.xvfs_find_file filename;; match r with None => ret (-1, []) | Some e => Xvfs.xvfs_read_file (Some e) true offset size end)
    (-1, []).

(** ** Formatting *)

(** An entry of the partition table of a boot sector: [part_type], [part_lba] and the sectors *)
Definition part_sectors (sec : list Z) (i : nat) : Z := get32 sec (0x1BE + 16 * i + 12).
Definition set_part_type (sec : list Z) (i : nat) (t : Z) : list Z := <[(0x1BE + 16 * i + 4)%nat := t]> sec.
(** The partition that starts at base_lba, else the first one in use: index, start, length *)
Definition find_part (mbr : list Z) (base_lba : Z) : option (nat * Z * Z) :=
  match List.find (fun i => negb (part_type mbr i =? 0) && (part_lba mbr i =? base_lba)) (seq 0 4) with
  | Some i => Some (i, base_lba, part_sectors mbr i)
  | None => match first_part mbr with
            | Some i => Some (i, part_lba mbr i, part_sectors mbr i)
            | None => None
            end
  end.
Definition lower (l : list Z) : list Z := (fun c => if (65 <=? c) && (c <=? 90) then c + 32 else c) <$> l.
Definition s_fat16 : list Z := [102; 97; 116; 49; 54].
Definition s_fat32 : list Z := [102; 97; 116; 51; 50].
Definition s_xvfs : list Z := [120; 118; 102; 115].
Definition s_ORION16 : list Z := [79; 82; 73; 79; 78; 49; 54].
Definition s_ORION32 : list Z := [79; 82; 73; 79; 78; 51; 50].
(** update_mbr_type *)
Definition update_mbr_type (drive : Z) (part : option nat) (t : Z) : V unit :=
  match part with
  | None => ret tt
  | Some i =>
    r <- on_dev (BlockDev.ata_read drive 0 1);;
    match r with
    | Some mbr => if has_55aa mbr then on_dev (BlockDev.ata_write drive 0 1 (set_part_type mbr i t));;; ret tt else ret tt
    | None => ret tt
    end
  end.
(** Where to format: the partition with its index, or the whole drive (0 sectors) *)
Definition format_place (drive total base_lba : Z) : V (option nat * Z * Z) :=
  if 0 <? base_lba then
    r <- on_dev (BlockDev.ata_read drive 0 1);;
    let '(part, base, sectors) :=
      match r with
      | Some mbr => if has_55aa mbr then match find_part mbr base_lba with Some (i, b, n) => (Some i, b, n) | None => (None, base_lba, 0) end
                    else (None, base_lba, 0)
      | None => (None, base_lba, 0)
      end in
    ret (part, base, if (sectors =? 0) && (base <? total) then total - base else sectors)
  else ret (None, base_lba, 0).
Definition fscmd_format (drive : Z) (fs : option (list Z)) : V bool :=
  match fs with
  | None | Some [] => ret false
  | Some fs =>
    total <- on_dev (BlockDev.ata_get_sector_count drive);;
    if total =? 0 then ret false
    else
      s <- get;;
      d <- lift_opt (lget (v_disks s) drive);;
      r <- format_place drive total (dk_base_lba d);;
      let '(part, base, sectors) := r in
      let type := lower (take 15 fs) in
      let in_part := (0 <? base) && (0 <? sectors) in
      let run (at_ whole : V bool) (t : Z) : V bool :=
        if in_part then
          ok <- at_;; if (ok : bool) then update_mbr_type drive part t;;; ret true else ret false
        else whole in
      if bool_decide (type = s_fat16) then
        run (on16 (Fat16.fat16_format_at drive base sectors (Some s_ORION16))) (on16 (Fat16.fat16_format drive (Some s_ORION16))) 0x06
      else if bool_decide (type = s_fat32) then
        run (on32 (Fat32.fat32_format_at beyond drive base sectors (Some s_ORION32))) (on32 (Fat32.fat32_format beyond drive (Some s_ORION32))) 0x0C
      else if bool_decide (type = s_xvfs) then
        run (onx (Xvfs.xvfs_format_at beyond drive base sectors)) (onx (Xvfs.xvfs_format beyond drive)) 0x83
      else ret false
  end.
End ops.
End Fscmd.
