(* ===== verification/FscmdClaims.v ===== *)
(** * The front end of the file systems: the properties

    A file written and read through fscmd.c on a FAT16 drive, and what the front end does when no
    file system or no drive is current. *)
From S2P Require Import Prelude BlockDev Fat16Name Fat32Name Fat16 Fat32 Xvfs SparseDev Fat16Vol Fat16Chain Fat16Write Fat16Dir Fat16File Fat16Claims Ata Disk Progress Fscmd.
Import Fat16Name.Fat16Name Fscmd.Fscmd.

Module FscmdClaims.

(** Reports are ignored while nothing is displayed. *)
Lemma updates_off l : forall p, Progress.active p = false -> Progress.updates l p = Ok (tt, p).
Proof.
  induction l as [|w l IH]; intros p Hp; cbn [Progress.updates]; [done|].
  assert (E : Progress.fscmd_write_progress_update w p = Ok (tt, p)) by (unfold Progress.fscmd_write_progress_update; rewrite bind_get, Hp; done).
  mstep E. by apply IH.
Qed.

Section claims.
Context {D : Type} `{BlockDevOk D} `{Fat16.Buffers D} (g : geo).
Implicit Types s : @vfs D.

Lemma on16_ok {A} (m : M (@Fat16.fat16 D) A) s a f : Progress.active (v_prog s) = false -> m (load16 s) = Ok (a, f) ->
  on16 m s = Ok (a, Vfs (Fat16.dev f) f (v_32 s) (v_x s) (current_fs s) (current_drive s) (Fat16.current_path f) (v_disks s) (v_prog s)).
Proof. intros Hp Hm. unfold on16, report. by rewrite Hm, updates_off. Qed.
(** The volume does not depend on the reports. *)
Lemma vol_reload s f F m : vol g f F m -> v_dev s = Fat16.dev f -> v_16 s = f -> vol g (load16 s) F m.
Proof. intros [] E1 E2. unfold load16. rewrite E1, E2. by constructor. Qed.

(** Through the front end, when the current drive and file system are FAT16, writing a file of
    the current directory succeeds and reading it by its name returns its bytes, cut at the
    caller's buffer, when the free clusters and those of the file suffice; drive, path and kind of
    the file system stay. *)
Theorem fscmd_write_read s F m L ds name it cs av data max d :
  current_fs s = FS_FAT16 -> lget (v_disks s) (current_drive s) = Some d -> Ata.dk_fs_type d = s_FAT16 -> Progress.active (v_prog s) = false ->
  vol g (load16 s) F m -> file_at g F m (Fat16.current_dir_cluster16 (v_16 s)) L ds name it cs -> simple_name name ->
  NoDup av -> Forall (fun x => cluster_ok g x /\ (F x = 0 \/ x ∈ cs)) av -> clusters_for g (Z.of_nat (length data)) <= Z.of_nat (length av) ->
  Forall is_u8 data -> 0 < Z.of_nat (length data) < 2147483648 -> cluster_size g <= Fat16.READ_BUF -> 0 <= max ->
  exists s' s'', fscmd_write_file name data (Z.of_nat (length data)) s = Ok (true, s') /\
    fscmd_read_file_by_name name max s' = Ok ((Z.min max (Z.of_nat (length data)), take (Z.to_nat max) data), s'') /\
    current_fs s'' = FS_FAT16 /\ current_drive s'' = current_drive s /\ current_path s'' = current_path s.
Proof.
  intros Hfs Hd Ed Hp Hv Hf Hname Hnd Hav Hcnt Hu Hlen Hbuf Hmax.
  destruct (wp_run (Fat16.fat16_write_file (Some name) (Some data) (Z.of_nat (length data))) (fun r f => r = Z.of_nat (length data) /\
    exists F' m' ns e', vol g f F' m' /\ dir_at g F' (Fat16.current_dir_cluster16 (load16 s)) L ds /\ find_in (dir_raws g m' L) name = Some (with_entry e' it) /\
      holds g F' m' e' ns data /\ same_env (load16 s) f) (load16 s)) as (r & f & E & -> & F' & m' & ns & e' & Hv' & Hd' & Hfi & Hh & Hcur & Hpath & _).
  { eapply (wp_write_existing g); [exact Hv|exact Hf|done|exact Hnd|done|done|done|lia|]. intros. split; [done|]. by eexists _, _, _, _. }
  set (s' := Vfs (Fat16.dev f) f (v_32 s) (v_x s) (current_fs s) (current_drive s) (Fat16.current_path f) (v_disks s) (v_prog s)).
  assert (Hv2 : vol g (load16 s') F' m') by (by apply (vol_reload s' f)).
  destruct (wp_run (Fat16.fat16_read_file_by_name name max) (fun r f2 => r = (Z.min max (Z.of_nat (length data)), take (Z.to_nat max) data) /\ same_env (load16 s') f2) (load16 s')) as (r & f2 & E' & -> & He2).
  { eapply (wp_read_here g); [exact Hv2|cbn; rewrite Hcur; exact Hd'|done|exact Hfi|exact Hh|by intros ->; simpl in Hlen; lia|done|done|done]. }
  eexists s', _. split; [|split].
  - unfold fscmd_write_file. rewrite bind_get, Hd, bind_lift_some, Ed. cbv zeta. rewrite bool_decide_eq_true_2 by done. rewrite s32_small by lia.
    mstep (on16_ok _ _ _ _ Hp E). unfold ret. rewrite (proj2 (Z.leb_le _ _)) by lia. done.
  - unfold fscmd_read_file_by_name, dispatch. rewrite bind_gets. cbn [current_fs s']. rewrite Hfs. apply on16_ok; [done|exact E'].
  - cbn [current_fs current_drive current_path]. destruct He2 as (_ & Hp2 & _). split_and!; [done|done|]. rewrite Hp2. cbn. by rewrite Hpath.
Qed.
End claims.

(** ** On the small volume *)

Definition ex_disk : Ata.DiskInfo := Ata.Disk true 0 s_FAT16 0.
Definition ex_vfs (fs : fs_type_t) (drive : Z) : @vfs sparse :=
  Vfs (Fat16.dev ex_vol) ex_vol (Fat32.Mk (Fat16.dev ex_vol) (Fat32Name.bpb_of []) 0 0 2 2 2 0 [] [])
    (Xvfs.Mk (Fat16.dev ex_vol) (Xvfs.sb_of []) 0 0 0 [] []) fs drive [] (replicate 8 ex_disk) Progress.progress0.
Lemma fscmd_write_read_witness : exists s' s'',
  fscmd_write_file [65] (replicate 1200 88) 1200 (ex_vfs FS_FAT16 0) = Ok (true, s') /\
  fscmd_read_file_by_name [65] 5000 s' = Ok ((1200, replicate 1200 88), s'') /\
  current_fs s'' = FS_FAT16 /\ current_drive s'' = 0 /\ current_path s'' = [].
Proof.
  refine (fscmd_write_read ex_geo (ex_vfs FS_FAT16 0) ex_F ex_m [(0, 0)] [] [65] ex_item [2; 3] [2; 3; 5] (replicate 1200 88) 5000 ex_disk
    eq_refl eq_refl eq_refl eq_refl ex_vol_ok ex_file_A _ _ _ _ _ _ _ _).
  - split; [done|]. split; [|simpl; lia]. repeat constructor. intros E%list_elem_of_singleton. done.
  - repeat constructor; set_solver.
  - repeat (apply list.Forall_cons; split; [split; [unfold cluster_ok; vm_compute; split; congruence|]|]); [right; set_solver..|left; vm_compute; reflexivity|by constructor].
  - vm_compute. congruence.
  - apply Forall_replicate. unfold is_u8. lia.
  - simpl. lia.
  - vm_compute. congruence.
  - lia.
Defined.

(** ** Where the front end does not do what it means to *)

(** fscmd_write_file asks the entry of the current drive in the table of disks for the file system,
    without looking whether there is a current drive: before the first mount it is -1. *)
Example write_without_drive : fscmd_write_file [65] [88] 1 (ex_vfs FS_NONE (-1)) = Fault.
Proof. reflexivity. Qed.
(** A name of sixteen characters has no NUL: a listing shows the number of its first block too. *)
Example long_xvfs_name :
  xvfs_names 64 [{| Xvfs.fe_name := replicate 16 97; Xvfs.fe_start := 65; Xvfs.fe_size := 3; Xvfs.fe_attr := 0 |}] = Some [(replicate 16 97 ++ [65], false)].
Proof. vm_compute. reflexivity. Qed.
End FscmdClaims.
