(* ===== verification/Fsbg.v ===== *)
(** * Copying between file systems (fs/fsbg.c)

    Files and directories are copied and moved through a table of functions per file system
    ([FSDriver]) and the helpers that mount a drive and work on directories ([FsOps]); [bg_ops] and
    the three drivers at the end are those of fsbg.c on the front end's state.  Paths are never NULL
    here; a path buffer of n bytes holds at most n - 1 characters. *)
From S2P Require Import Prelude BlockDev Fat16Name Fat32Name Fat16 Fat32 Xvfs Ata Disk Progress Fscmd.
Import Fat16Name.Fat16Name Ata.Ata Disk.Disk Fscmd.Fscmd.

Module Fsbg.

Definition FSBG_MAX_DIR_ENTRIES : Z := 512.

(** ** Paths *)

(** while (len > 1 && path[len - 1] == '/') *)
Fixpoint fsbg_strip_trailing_slash (k : nat) (path : list Z) : list Z :=
  match k with
  | O => path
  | S k' => if (1 <? length path)%nat && bool_decide (list.last path = Some SLASH) then fsbg_strip_trailing_slash k' (removelast path) else path
  end.
Definition fsbg_basename (path : list Z) : list Z :=
  match split_last SLASH path with Some (_, b) => b | None => path end.
(** snprintf into size bytes: the text, and its result, the number of characters written *)
Definition snprintf (size : nat) (t : list Z) : list Z * Z := let o := take (size - 1) t in (o, Z.of_nat (length o)).
(** The path and whether the call succeeds *)
Definition fsbg_join_path (out_size : nat) (base name : list Z) : list Z * bool :=
  if (out_size =? 0)%nat || bool_decide (name = []) then ([], false)
  else
    let r := snprintf out_size (if bool_decide (base = []) then name
                                else if bool_decide (list.last base = Some SLASH) then base ++ name else base ++ [SLASH] ++ name) in
    (fst r, snd r <? Z.of_nat out_size).

(** ** Drivers *)

Section generic.
Context {S : Type}.
Abbreviation B A := (M S A).

Record FSDriver := Driver {
  dr_name : list Z;
  dr_exists : list Z -> B bool;
  dr_get_size : list Z -> B Z;
  dr_create : list Z -> list Z -> Z -> B bool;
  dr_read_file : list Z -> Z -> B (Z * list Z);
  dr_write_file : list Z -> list Z -> Z -> B bool;
  dr_remove : list Z -> B bool;
}.
(** The helpers that take a file system by its name and a drive, or -1 *)
Class FsOps := {
  fsbg_mount_disk : list Z -> Z -> B bool;
  fsbg_auto_mount_if_needed : list Z -> B unit;
  fsbg_is_dir_by_fs : list Z -> Z -> list Z -> B bool;
  fsbg_mkdir_by_fs : list Z -> Z -> list Z -> B bool;
  fsbg_rmdir_by_fs : list Z -> Z -> list Z -> B bool;
  fsbg_list_dir_entries : list Z -> Z -> list Z -> Z -> B (Z * list (list Z * bool));
  kmalloc : Z -> B Z;
  kfree : Z -> B unit;
}.
Context `{FsOps}.
Implicit Types src dst : FSDriver.

(** ** Files *)

(** An existing file of that name is removed first. *)
Definition replace_file dst (dst_name data : list Z) (size : Z) : B bool :=
  e <- dr_exists dst dst_name;;
  (if (e : bool) then dr_remove dst dst_name;;; ret tt else ret tt);;;
  dr_create dst dst_name data size.
(** The source is read into a buffer; mount says whether the drive of the destination is mounted. *)
Definition copy_content src dst (mount : B bool) (src_name dst_name : list Z) : B bool :=
  size <- dr_get_size src src_name;;
  if size =? 0 then
    m <- mount;; if negb m then ret false else replace_file dst dst_name [0] 0
  else
    buf <- kmalloc size;;
    if buf =? 0 then ret false
    else
      r <- dr_read_file src src_name size;;
      let '(read, bytes) := r in
      if s32 read <=? 0 then kfree buf;;; ret false
      else
        let size := if u32 read <? size then u32 read else size in
        data <- lift_opt (slice bytes 0 size);;
        m <- mount;;
        if negb m then kfree buf;;; ret false
        else
          ok <- replace_file dst dst_name data size;;
          kfree buf;;; ret ok.
Definition fsbg_copy_file_disk src dst (src_fs dst_fs : list Z) (src_disk dst_disk : Z) (src_name dst_name : list Z) : B bool :=
  m <- fsbg_mount_disk src_fs src_disk;;
  if negb m then ret false
  else
    e <- dr_exists src src_name;;
    if negb e then ret false else copy_content src dst (fsbg_mount_disk dst_fs dst_disk) src_name dst_name.

(** ** Directories *)

Fixpoint fsbg_copy_dir_recursive (fuel : nat) src dst (src_fs dst_fs : list Z) (src_disk dst_disk : Z) (src_dir dst_dir : list Z) (remove_src : bool) : B bool :=
  match fuel with
  | O => nofuel
  | Datatypes.S fuel' =>
    ready <- (if bool_decide (dst_dir <> []) then
                m <- fsbg_mount_disk dst_fs dst_disk;;
                if negb m then ret false
                else
                  e <- dr_exists dst dst_dir;;
                  if (e : bool) then fsbg_is_dir_by_fs dst_fs dst_disk dst_dir else fsbg_mkdir_by_fs dst_fs dst_disk dst_dir
              else ret true);;
    if negb ready then ret false
    else
      entries <- kmalloc (u32 (65 * FSBG_MAX_DIR_ENTRIES));;
      if entries =? 0 then ret false
      else
        r <- fsbg_list_dir_entries src_fs src_disk src_dir FSBG_MAX_DIR_ENTRIES;;
        let '(count, es) := r in
        if count <? 0 then kfree entries;;; ret false
        else
          ok <- (fix each (l : list (list Z * bool)) : B bool :=
                   match l with
                   | [] => ret true
                   | (name, is_dir) :: l' =>
                     let '(src_child, ok1) := fsbg_join_path 256 src_dir name in
                     let '(dst_child, ok2) := fsbg_join_path 256 dst_dir name in
                     if negb (ok1 && ok2) then ret false
                     else
                       ok <- (if (is_dir : bool) then
                                fsbg_copy_dir_recursive fuel' src dst src_fs dst_fs src_disk dst_disk src_child dst_child remove_src
                              else
                                c <- fsbg_copy_file_disk src dst src_fs dst_fs src_disk dst_disk src_child dst_child;;
                                if negb c then ret false
                                else if remove_src then
                                  m <- fsbg_mount_disk src_fs src_disk;; if negb m then ret false else dr_remove src src_child
                                else ret true);;
                       if (ok : bool) then each l' else ret false
                   end) es;;
          kfree entries;;;
          if (ok : bool) && remove_src && bool_decide (src_dir <> []) then fsbg_rmdir_by_fs src_fs src_disk src_dir else ret ok
  end.

(** ** Copying and moving *)

Definition fsbg_copy src dst (src_name dst_name : list Z) : B bool :=
  fsbg_auto_mount_if_needed (dr_name src);;; fsbg_auto_mount_if_needed (dr_name dst);;;
  e <- dr_exists src src_name;;
  if negb e then ret false else copy_content src dst (ret true) src_name dst_name.
Definition fsbg_move (fuel : nat) src dst (src_name dst_name : list Z) : B bool :=
  fsbg_auto_mount_if_needed (dr_name src);;; fsbg_auto_mount_if_needed (dr_name dst);;;
  d <- fsbg_is_dir_by_fs (dr_name src) (-1) src_name;;
  if (d : bool) then fsbg_copy_dir_recursive fuel src dst (dr_name src) (dr_name dst) (-1) (-1) src_name dst_name true
  else
    c <- fsbg_copy src dst src_name dst_name;;
    if negb c then ret false else dr_remove src src_name.
End generic.
Arguments FSDriver : clear implicits.
Arguments FsOps : clear implicits.

(** ** The three file systems *)

Section bg.
Context {D : Type} `{BlockDev D} `{Fat16.Buffers D} (beyond : list Z).

Record bg := Bg {
  bg_vfs : @vfs D;
  fat16_ready : bool; fat32_ready : bool; xvfs_ready : bool;
  fat16_mounted_disk : Z; fat32_mounted_disk : Z; xvfs_mounted_disk : Z;
}.
Abbreviation G A := (M bg A).
Definition with_vfs (v : @vfs D) (s : bg) : bg :=
  Bg v (fat16_ready s) (fat32_ready s) (xvfs_ready s) (fat16_mounted_disk s) (fat32_mounted_disk s) (xvfs_mounted_disk s).
Definition set_ready (fs : fs_type_t) (s : bg) : bg :=
  Bg (bg_vfs s) (fat16_ready s || bool_decide (fs = FS_FAT16)) (fat32_ready s || bool_decide (fs = FS_FAT32)) (xvfs_ready s || bool_decide (fs = FS_XVFS))
     (fat16_mounted_disk s) (fat32_mounted_disk s) (xvfs_mounted_disk s).
Definition set_mounted (fs : fs_type_t) (d : Z) (s : bg) : bg :=
  Bg (bg_vfs s) (fat16_ready s) (fat32_ready s) (xvfs_ready s) (if decide (fs = FS_FAT16) then d else fat16_mounted_disk s)
     (if decide (fs = FS_FAT32) then d else fat32_mounted_disk s) (if decide (fs = FS_XVFS) then d else xvfs_mounted_disk s).
Definition on_vfs {A} (m : M (@vfs D) A) : G A := fun s =>
  match m (bg_vfs s) with Ok (a, v) => Ok (a, with_vfs v s) | Fault => Fault | NoFuel => NoFuel end.
(** strcmp(fs, "FAT16") == 0 and so on *)
Definition fs_of (fs : list Z) : fs_type_t :=
  if bool_decide (fs = s_FAT16) then FS_FAT16 else if bool_decide (fs = s_FAT32) then FS_FAT32 else if bool_decide (fs = s_XVFS) then FS_XVFS else FS_NONE.
Definition by_fs {A} (fs : list Z) (m16 : M (@Fat16.fat16 D) A) (m32 : M (@Fat32.fat32 D) A) (mx : M (@Xvfs.xvfs D) A) (none : A) : G A :=
  match fs_of fs with
  | FS_FAT16 => on_vfs (on16 m16) | FS_FAT32 => on_vfs (on32 m32) | FS_XVFS => on_vfs (onx mx) | FS_NONE => ret none
  end.
Definition ready_of (fs : fs_type_t) (s : bg) : bool :=
  match fs with FS_FAT16 => fat16_ready s | FS_FAT32 => fat32_ready s | FS_XVFS => xvfs_ready s | FS_NONE => true end.
Definition mounted_of (fs : fs_type_t) (s : bg) : Z :=
  match fs with FS_FAT16 => fat16_mounted_disk s | FS_FAT32 => fat32_mounted_disk s | FS_XVFS => xvfs_mounted_disk s | FS_NONE => -1 end.
Definition init_fs (fs : list Z) (disk base : Z) : G bool :=
  by_fs fs (Fat16.fat16_init disk base) (Fat32.fat32_init disk base) (Xvfs.xvfs_init disk base) false.

Fixpoint auto_mount_loop (l : list DiskInfo) (i : Z) (fs_name : list Z) : G unit :=
  match l with
  | [] => ret tt
  | d :: l' =>
    s <- get;;
    (if negb (dk_present d) || bool_decide (dk_fs_type d = []) then ret tt
     else if bool_decide (fs_of fs_name <> FS_NONE) && negb (ready_of (fs_of fs_name) s) && bool_decide (dk_fs_type d = fs_name) then
       ok <- init_fs fs_name i (dk_base_lba d);; if (ok : bool) then modify (set_ready (fs_of fs_name)) else ret tt
     else ret tt);;;
    auto_mount_loop l' (i + 1) fs_name
  end.
Definition bg_auto_mount (fs_name : list Z) : G unit := s <- get;; auto_mount_loop (v_disks (bg_vfs s)) 0 fs_name.
Definition bg_mount_disk (fs_name : list Z) (disk : Z) : G bool :=
  s <- get;;
  if disk <? 0 then ret true
  else if Z.of_nat MAX_DISKS <=? disk then ret false
  else
    d <- lift_opt (lget (v_disks (bg_vfs s)) disk);;
    if negb (dk_present d) then ret false
    else if bool_decide (fs_of fs_name = FS_NONE) then ret false
    else if mounted_of (fs_of fs_name) s =? disk then ret true
    else
      ok <- init_fs fs_name disk (dk_base_lba d);;
      if negb ok then ret false else modify (set_mounted (fs_of fs_name) disk);;; ret true.
Definition with_mount {A} (fs : list Z) (disk : Z) (none : A) (k : G A) : G A :=
  m <- (if 0 <=? disk then bg_mount_disk fs disk else ret true);; if negb m then ret none else k.
Definition is_root (path : list Z) : bool := bool_decide (path = []) || bool_decide (path = [SLASH]).
Definition bg_is_dir (fs : list Z) (disk : Z) (path : list Z) : G bool :=
  with_mount fs disk false
    (if is_root path then ret (bool_decide (fs_of fs <> FS_NONE))
     else by_fs fs (r <- Fat16.fat16_find_file_path path;; ret (match r with Some e => negb (Z.land (Attr e) 0x10 =? 0) | None => false end))
            (r <- Fat32.fat32_find_file path;; ret (match r with Some e => negb (Z.land (Fat32Name.Attr e) 0x10 =? 0) | None => false end))
            (Xvfs.xvfs_is_dir (Some path)) false).
Definition bg_mkdir (fs : list Z) (disk : Z) (path : list Z) : G bool :=
  with_mount fs disk false (by_fs fs (Fat16.fat16_mkdir (Some path)) (Fat32.fat32_mkdir path) (Xvfs.xvfs_mkdir_path beyond (Some path)) false).
Definition bg_rmdir (fs : list Z) (disk : Z) (path : list Z) : G bool :=
  if bool_decide (path = []) then ret false
  else with_mount fs disk false (by_fs fs (Fat16.fat16_rmdir path) (Fat32.fat32_rmdir path) (Xvfs.xvfs_rmdir path) false).

(** A listing needs two buffers; ls is run on them. *)
Definition with_names (max_entries : Z) (ls : G (option (list (list Z * bool)))) : G (Z * list (list Z * bool)) :=
  names <- on_vfs (on_dev (Fat16.kmalloc (u32 (max_entries * 64))));; dirs <- on_vfs (on_dev (Fat16.kmalloc max_entries));;
  if (names =? 0) || (dirs =? 0) then
    (if names =? 0 then ret tt else on_vfs (on_dev (Fat16.kfree names)));;;
    (if dirs =? 0 then ret tt else on_vfs (on_dev (Fat16.kfree dirs)));;; ret (-1, [])
  else
    r <- ls;;
    on_vfs (on_dev (Fat16.kfree names));;; on_vfs (on_dev (Fat16.kfree dirs));;;
    ret (match r with None => (-1, []) | Some l => (Z.of_nat (length l), l) end).
(** The entries but for . and .., with the names cut at sixteen characters *)
Definition xvfs_listed (es : list Xvfs.XVFS_FileEntry) : list (list Z * bool) :=
  List.filter (fun '(n, _) => negb (bool_decide (n = []) || bool_decide (n = [DOT]) || bool_decide (n = [DOT; DOT])))
    ((fun e => (Xvfs.until_nul (take 16 (Xvfs.fe_name e)), Z.testbit (Xvfs.fe_attr e) 0)) <$> es).
Definition bg_list_dir (fs : list Z) (disk : Z) (path : list Z) (max_entries : Z) : G (Z * list (list Z * bool)) :=
  if max_entries <=? 0 then ret (-1, [])
  else with_mount fs disk (-1, [])
    (match fs_of fs with
     | FS_FAT16 =>
       c <- (if is_root path then ret (Some 0)
             else r <- on_vfs (on16 (Fat16.fat16_find_file_path path));;
                  ret (match r with Some e => if Z.land (Attr e) 0x10 =? 0 then None else Some (FirstCluster e) | None => None end));;
       match c with
       | None => ret (-1, [])
       | Some cluster => with_names max_entries (on_vfs (on16 (Fat16.fat16_list_dir_lfn cluster max_entries 64)))
       end
     | FS_FAT32 =>
       cluster <- (if is_root path then on_vfs (on32 (gets Fat32.root_dir_cluster32)) else on_vfs (on32 (Fat32.fat32_resolve_dir path)));;
       if (cluster <? 2) || (0x0FFFFFF8 <=? cluster) then ret (-1, [])
       else with_names max_entries (on_vfs (on32 (Fat32.fat32_list_dir_lfn cluster max_entries 64)))
     | FS_XVFS =>
       entries <- on_vfs (on_dev (Fat16.kmalloc (u32 (25 * max_entries))));;
       if entries =? 0 then ret (-1, [])
       else
         r <- on_vfs (onx (Xvfs.xvfs_read_dir_entries (Some path) true max_entries));;
         on_vfs (on_dev (Fat16.kfree entries));;;
         let '(count, es) := r in
         if (count <? 0) || (max_entries <=? count) then ret (-1, [])
         else let l := xvfs_listed es in ret (Z.of_nat (length l), l)
     | FS_NONE => ret (-1, [])
     end).
#[global] Instance bg_ops : FsOps bg := {
  fsbg_mount_disk := bg_mount_disk; fsbg_auto_mount_if_needed := bg_auto_mount; fsbg_is_dir_by_fs := bg_is_dir;
  fsbg_mkdir_by_fs := bg_mkdir; fsbg_rmdir_by_fs := bg_rmdir; fsbg_list_dir_entries := bg_list_dir;
  kmalloc n := on_vfs (on_dev (Fat16.kmalloc n)); kfree p := on_vfs (on_dev (Fat16.kfree p));
}.

(** ** The drivers *)

Definition fat16_create_file_compat (path data : list Z) (size : Z) : M (@Fat16.fat16 D) bool :=
  c <- Fat16.fat16_create_file path (s32 size);;
  if c <? 0 then ret false
  else w <- Fat16.fat16_write_file (Some path) (Some data) (s32 size);; ret (0 <=? w).
Definition fat32_create_file_compat (path data : list Z) (size : Z) : M (@Fat32.fat32 D) bool :=
  c <- Fat32.fat32_create_file path;; if negb c then ret false else Fat32.fat32_write_file path data size.
Definition fat16_write_file_compat (path data : list Z) (size : Z) : M (@Fat16.fat16 D) bool :=
  w <- Fat16.fat16_write_file (Some path) (Some data) (s32 size);; ret (0 <=? w).
Definition fs_fat16 : FSDriver bg :=
  Driver s_FAT16 (fun p => on_vfs (on16 (Fat16.fat16_exists p))) (fun p => on_vfs (on16 (Fat16.fat16_get_file_size p)))
    (fun p d n => on_vfs (on16 (fat16_create_file_compat p d n))) (fun p n => on_vfs (on16 (Fat16.fat16_read_file_by_name p n)))
    (fun p d n => on_vfs (on16 (fat16_write_file_compat p d n))) (fun p => on_vfs (on16 (Fat16.fat16_rm p))).
Definition fs_fat32 : FSDriver bg :=
  Driver s_FAT32 (fun p => on_vfs (on32 (Fat32.fat32_exists p))) (fun p => on_vfs (on32 (Fat32.fat32_get_file_size p)))
    (fun p d n => on_vfs (on32 (fat32_create_file_compat p d n))) (fun p n => on_vfs (on32 (Fat32.fat32_read_file_by_name p n)))
    (fun p d n => on_vfs (on32 (Fat32.fat32_write_file p d n))) (fun p => on_vfs (on32 (Fat32.fat32_rm p))).
Definition fs_xvfs : FSDriver bg :=
  Driver s_XVFS (fun p => on_vfs (onx (Xvfs.xvfs_exists (Some p)))) (fun p => on_vfs (onx (Xvfs.xvfs_get_file_size p)))
    (fun p d n => on_vfs (onx (Xvfs.xvfs_create_file p d n))) (fun p n => on_vfs (onx (Xvfs.xvfs_read_file_by_name (Some p) n)))
    (fun p d n => on_vfs (onx (Xvfs.xvfs_write_file p d n))) (fun p => on_vfs (onx (Xvfs.xvfs_rm p))).
Definition fsbg_get_driver_by_fs (fs : list Z) : option (FSDriver bg) :=
  match fs_of fs with FS_FAT16 => Some fs_fat16 | FS_FAT32 => Some fs_fat32 | FS_XVFS => Some fs_xvfs | FS_NONE => None end.

(** ** cp -b *)

Definition HASH : Z := 35.
(** strchr(arg, '#') + 1 *)
Fixpoint after_hash (l : list Z) : option (list Z) :=
  match l with [] => None | c :: l' => if c =? HASH then Some l' else after_hash l' end.
Definition disk_of (arg : list Z) : Z := s8 (hd 0 arg) - 48.
Definition fsbg_copy_disk (fuel : nat) (src_arg dst_arg : list Z) : G bool :=
  let src_disk := disk_of src_arg in
  let dst_disk := disk_of dst_arg in
  if (src_disk <? 0) || (Z.of_nat MAX_DISKS <=? src_disk) || (dst_disk <? 0) || (Z.of_nat MAX_DISKS <=? dst_disk) then ret false
  else
    match after_hash src_arg, after_hash dst_arg with
    | Some src_path, Some dst_path =>
      s <- get;;
      sd <- lift_opt (lget (v_disks (bg_vfs s)) src_disk);; dd <- lift_opt (lget (v_disks (bg_vfs s)) dst_disk);;
      let src_fs := dk_fs_type sd in
      let dst_fs := dk_fs_type dd in
      match fsbg_get_driver_by_fs src_fs, fsbg_get_driver_by_fs dst_fs with
      | Some src, Some dst =>
        let src_fixed := fsbg_strip_trailing_slash 128 (take 127 src_path) in
        let dst_fixed := fsbg_strip_trailing_slash 256 (take 255 dst_path) in
        bg_auto_mount (dr_name src);;; bg_auto_mount (dr_name dst);;;
        d <- bg_is_dir src_fs src_disk src_fixed;;
        if (d : bool) then
          let base := fsbg_basename src_fixed in
          let '(dst_dir, ok) := if bool_decide (base <> []) then fsbg_join_path 256 dst_fixed base else (take 255 dst_fixed, true) in
          if negb ok then ret false
          else fsbg_copy_dir_recursive fuel src dst src_fs dst_fs src_disk dst_disk src_fixed dst_dir false
        else
          e <- dr_exists src src_fixed;;
          if negb e then ret false
          else
            let filename := fsbg_basename src_fixed in
            if (64 <=? length filename)%nat then fault
            else
              let '(dst_full, ok) := fsbg_join_path 256 dst_fixed filename in
              if negb ok then ret false
              else fsbg_copy_file_disk src dst src_fs dst_fs src_disk dst_disk src_fixed dst_full
      | _, _ => ret false
      end
    | _, _ => ret false
    end.
End bg.
End Fsbg.
