(* ===== verification/FsbgClaims.v ===== *)
(** * Copying and moving files: the properties

    What a file system promises to fsbg.c ([FsbgOk], [DriverOk]), that a move on such file systems does
    not lose the file, and what goes wrong with long paths, with a file moved onto itself and with the memory of
    what is mounted. *)
From S2P Require Import Prelude BlockDev Fat16 SparseDev Ata Disk Progress Fscmd Fsbg.
Import Fat16Name.Fat16Name Ata.Ata Disk.Disk Fscmd.Fscmd Fsbg.Fsbg.

Module FsbgClaims.

(** The files of the mounted volumes by file system and path, and the buffers that are in use *)
Abbreviation store := (gmap (list Z * list Z) (list Z)).
Class FsbgView (S : Type) := { files : S -> store; held : S -> gset Z }.

Section move.
Context {S : Type} {FO : FsOps S} {FV : FsbgView S}.
Implicit Types d : FSDriver S.

(** Nothing but the store changes, and that as said. *)
Definition reads {A} (m : M S A) (Q : S -> A -> Prop) : Prop :=
  forall s, wp False m (fun a s' => files s' = files s /\ held s' = held s /\ Q s a) s.
(** Files outside T are untouched, and so are the buffers. *)
Definition others (T : list Z * list Z -> Prop) (s s' : S) : Prop := (forall k, ~ T k -> files s' !! k = files s !! k) /\ held s' = held s.

Class FsbgOk := {
  auto_law : forall n, reads (fsbg_auto_mount_if_needed n) (fun _ _ => True);
  is_dir_law : forall n p, reads (fsbg_is_dir_by_fs n (-1) p) (fun s r => is_Some (files s !! (n, p)) -> r = false);
  malloc_law : forall n s, wp False (kmalloc n) (fun p s' => files s' = files s /\ ((p = 0 /\ held s' = held s) \/ (p <> 0 /\ (p ∉ held s) /\ held s' = ({[p]} ∪ held s)))) s;
  free_law : forall p s, wp False (kfree p) (fun _ s' => files s' = files s /\ held s' = (held s ∖ {[p]})) s;
}.
(** T p are the files that creating or removing p may change: for a driver that keeps its files apart p
    itself; for XVFS, which marks one block of a file as taken and may hand out the others again, those
    of its volume.  A removal that fails may do so half-way. *)
Record DriverOk d (T : list Z -> list Z * list Z -> Prop) : Prop := {
  exists_law : forall p, reads (dr_exists d p) (fun s r => r = bool_decide (is_Some (files s !! (dr_name d, p))));
  size_law : forall p, reads (dr_get_size d p) (fun s r => forall b, files s !! (dr_name d, p) = Some b -> r = Z.of_nat (length b));
  (** a file that fits into the buffer is read whole or not at all *)
  read_law : forall p n, reads (dr_read_file d p n) (fun s r => forall b, files s !! (dr_name d, p) = Some b -> Z.of_nat (length b) <= n ->
    s32 (fst r) <= 0 \/ (fst r = Z.of_nat (length b) /\ snd r = b));
  (** created with its bytes, or not completely *)
  create_law : forall p b n s, 0 <= n <= Z.of_nat (length b) -> wp False (dr_create d p b n) (fun r s' => others (T p) s s' /\
    (r = true -> files s' !! (dr_name d, p) = Some (take (Z.to_nat n) b))) s;
  remove_law : forall p s, wp False (dr_remove d p) (fun r s' => others (T p) s s' /\ (r = true -> files s' !! (dr_name d, p) = None)) s;
}.
Context {FK : FsbgOk}.

Lemma wp_reads {A B} (m : M S A) (k : A -> M S B) P Q s : reads m P ->
  (forall a s', files s' = files s -> held s' = held s -> P s a -> wp False (k a) Q s') -> wp False (bind m k) Q s.
Proof. intros Hm Hk. apply wp_bind. eapply wp_mono; [apply Hm|]. intros a s' (? & ? & ?). by apply Hk. Qed.

Lemma others_trans T s1 s2 s3 : others T s1 s2 -> others T s2 s3 -> others T s1 s3.
Proof. intros [A1 B1] [A2 B2]. split; [intros k' Hk; by rewrite A2, A1|congruence]. Qed.
Lemma others_same T s s1 s2 : others T s1 s2 -> files s1 = files s -> held s1 = held s -> others T s s2.
Proof. intros [A B] E1 E2. split; [intros k' Hk; by rewrite A, E1|congruence]. Qed.
Lemma replace_ok dst T p b n s : DriverOk dst T -> 0 <= n <= Z.of_nat (length b) ->
  wp False (replace_file dst p b n) (fun r s' => others (T p) s s' /\ (r = true -> files s' !! (dr_name dst, p) = Some (take (Z.to_nat n) b))) s.
Proof.
  intros Hd Hn. unfold replace_file. eapply wp_reads; [by apply (exists_law dst T Hd)|]. intros e s1 F1 H1 _. apply wp_bind.
  apply (wp_mono False _ (fun _ s2 => others (T p) s s2)).
  - destruct e; [|apply wp_ret; split; [by rewrite F1|done]]. apply wp_bind. eapply wp_mono; [by apply (remove_law dst T Hd)|]. intros r s2 (Ho & _). apply wp_ret. by eapply others_same.
  - intros ? s2 Ho. eapply wp_mono; [by apply (create_law dst T Hd)|]. intros r s3 (Ho' & Hr). split; [by eapply others_trans|done].
Qed.
Lemma copy_content_ok src Ts dst T sn dn b s : DriverOk src Ts -> DriverOk dst T -> files s !! (dr_name src, sn) = Some b -> Z.of_nat (length b) < 2147483648 ->
  wp False (copy_content src dst (ret true) sn dn) (fun r s' => others (T dn) s s' /\ (r = true -> files s' !! (dr_name dst, dn) = Some b)) s.
Proof.
  intros Hs Hd Hb Hl. unfold copy_content. eapply wp_reads; [by apply (size_law src Ts Hs)|]. intros n s1 F1 H1 Hn. rewrite (Hn b Hb). clear n Hn.
  destruct (Z.eqb_spec (Z.of_nat (length b)) 0) as [Hz|Hz].
  - apply wp_bind, wp_ret. cbn [negb]. eapply wp_mono; [apply (replace_ok dst T dn [0] 0 s1 Hd); cbn; lia|]. intros r s2 (Ho & Hr). split; [by eapply others_same|].
    intros E. rewrite (Hr E). by destruct b.
  - apply wp_bind. eapply wp_mono; [apply malloc_law|]. intros p s2 (F2 & Hp).
    destruct Hp as [[-> H2]|(Hp & Hfresh & H2)]; [apply wp_ret; split; [split; [by rewrite F2, F1|congruence]|done]|]. rewrite (proj2 (Z.eqb_neq p 0)) by done.
    eapply wp_reads; [by apply (read_law src Ts Hs)|]. intros [rd bytes] s3 F3 H3 Hrd. cbn [fst snd] in Hrd.
    assert (Hfree : forall (r : bool) s4, others (T dn) s3 s4 -> (r = true -> files s4 !! (dr_name dst, dn) = Some b) ->
      wp False (kfree p;;; ret r) (fun r s' => others (T dn) s s' /\ (r = true -> files s' !! (dr_name dst, dn) = Some b)) s4).
    { intros r s4 [Ho Hh] Hr. apply wp_bind. eapply wp_mono; [apply free_law|]. intros ? s5 (F5 & H5). apply wp_ret. split; [split|by rewrite F5].
      - intros k Hk. by rewrite F5, Ho, F3, F2, F1.
      - rewrite H1 in Hfresh. rewrite H5, Hh, H3, H2, H1. clear -Hfresh. set_solver. }
    specialize (Hrd b). rewrite F2, F1 in Hrd. destruct (Hrd Hb ltac:(lia)) as [Hle|[-> ->]].
    + rewrite (proj2 (Z.leb_le _ _)) by done. apply Hfree; [by split|done].
    + rewrite s32_small, (proj2 (Z.leb_gt _ _)) by lia. rewrite u32_small by (unfold is_u32; lia). rewrite Z.ltb_irrefl. apply wp_bind.
      rewrite slice_in by lia. apply wp_lift_some, wp_bind, wp_ret. cbn [negb]. cbn [drop Z.to_nat]. rewrite drop_0, take_ge by lia. apply wp_bind.
      eapply wp_mono; [apply (replace_ok dst T dn b (Z.of_nat (length b)) s3 Hd); lia|]. intros r s4 (Ho & Hr). rewrite Nat2Z.id, take_ge in Hr by lia. by apply Hfree.
Qed.

(** C31: Moving a file does not lose it, when the drivers keep the promises of [DriverOk] and neither
    the write at the new place nor the removal at the old one is among those that may change the other
    file: as between two file systems, or within one that keeps its files apart when the file is not
    moved onto itself.  For a file of less than 2^31 bytes fsbg_move then returns; on success the file is
    at its new place with its bytes and no longer at the old one; on failure it is still at the old
    place or complete at the new one; no file that these two operations may not touch changes, and every
    buffer is given back. *)
Theorem fsbg_move_keeps_file fuel src dst Ts Td sn dn b s : DriverOk src Ts -> DriverOk dst Td ->
  ~ Td dn (dr_name src, sn) -> ~ Ts sn (dr_name dst, dn) ->
  files s !! (dr_name src, sn) = Some b -> Z.of_nat (length b) < 2147483648 ->
  wp False (fsbg_move fuel src dst sn dn) (fun r s' =>
    (if (r : bool) then files s' !! (dr_name dst, dn) = Some b /\ files s' !! (dr_name src, sn) = None
     else files s' !! (dr_name src, sn) = Some b \/ files s' !! (dr_name dst, dn) = Some b) /\
    (forall k, ~ Ts sn k -> ~ Td dn k -> files s' !! k = files s !! k) /\ held s' = held s) s.
Proof.
  intros Hs Hd Hnd Hns Hb Hl. unfold fsbg_move. eapply wp_reads; [apply auto_law|]. intros ? s1 F1 H1 _. eapply wp_reads; [apply auto_law|]. intros ? s2 F2 H2 _.
  eapply wp_reads; [apply is_dir_law|]. intros r s3 F3 H3 Hr. rewrite Hr by (rewrite F2, F1; eauto). unfold fsbg_copy. apply wp_bind.
  eapply wp_reads; [apply auto_law|]. intros ? s4 F4 H4 _. eapply wp_reads; [apply auto_law|]. intros ? s5 F5 H5 _.
  eapply wp_reads; [by apply (exists_law src Ts Hs)|]. intros e s6 F6 H6 ->. assert (E6 : files s6 = files s) by congruence. assert (E6h : held s6 = held s) by congruence.
  rewrite bool_decide_eq_true_2 by (rewrite F5, F4, F3, F2, F1; eauto). cbn [negb]. rewrite <-E6 in Hb.
  eapply wp_mono; [by apply (copy_content_ok src Ts dst Td sn dn b s6)|]. intros c s7 ([Ho Hh] & Hc). destruct c; cbn [negb].
  - specialize (Hc eq_refl). eapply wp_mono; [apply (remove_law src Ts Hs)|]. intros rr s8 ([Ho8 Hh8] & Ht). split_and!.
    + destruct rr; [split; [by rewrite Ho8|by apply Ht]|right; by rewrite Ho8].
    + intros k K1 K2. by rewrite Ho8, Ho, E6.
    + congruence.
  - apply wp_ret. split_and!; [left; by rewrite Ho|intros k K1 K2; by rewrite Ho, E6|congruence].
Qed.
End move.

(** ** File systems in memory that keep the promises *)

Record ram := Ram { rm_files : store; rm_held : gset Z; rm_next : Z }.
#[global] Instance ram_view : FsbgView ram := { files := rm_files; held s := filter (fun p => p < rm_next s) (rm_held s) }.
Definition with_files (f : store) (s : ram) : ram := Ram f (rm_held s) (rm_next s).
(** Every path that is no file is a directory whose one entry is the directory a: 129 directories
    inside each other look like this, since no path of more than 255 characters can be named. *)
#[global] Instance ram_ops : FsOps ram := {
  fsbg_mount_disk n k := ret true; fsbg_auto_mount_if_needed n := ret tt;
  fsbg_is_dir_by_fs n k p := gets (fun s => negb (bool_decide (is_Some (rm_files s !! (n, p)))));
  fsbg_mkdir_by_fs n k p := ret true; fsbg_rmdir_by_fs n k p := ret true; fsbg_list_dir_entries n k p mx := ret (1, [([97], true)]);
  kmalloc n := fun s => if 0 <? rm_next s then Ok (rm_next s, Ram (rm_files s) ({[rm_next s]} ∪ rm_held s) (rm_next s + 1)) else Ok (0, s);
  kfree p := fun s => Ok (tt, Ram (rm_files s) (rm_held s ∖ {[p]}) (rm_next s));
}.
Definition ram_driver (n : list Z) : FSDriver ram :=
  Driver n (fun p => gets (fun s => bool_decide (is_Some (rm_files s !! (n, p))))) (fun p => gets (fun s => Z.of_nat (length (default [] (rm_files s !! (n, p))))))
    (fun p b k => modify (fun s => with_files (<[(n, p) := take (Z.to_nat k) b]> (rm_files s)) s);;; ret true)
    (fun p k => gets (fun s => let b := default [] (rm_files s !! (n, p)) in if Z.of_nat (length b) <=? k then (Z.of_nat (length b), b) else (-1, [])))
    (fun p b k => ret false)
    (fun p => modify (fun s => with_files (delete (n, p) (rm_files s)) s);;; ret true).
#[global] Instance ram_ok : FsbgOk (S := ram).
Proof.
  constructor.
  - done.
  - intros n p s. split_and!; [done|done|]. intros Hp. by rewrite bool_decide_eq_true_2.
  - intros n s. unfold wp; cbn. destruct (Z.ltb_spec 0 (rm_next s)); cbn; [|split; [done|by left]]. split; [done|]. right. split_and!; [lia| |].
    + rewrite elem_of_filter. lia.
    + apply set_eq. intros x. rewrite elem_of_union, !elem_of_filter, elem_of_union, elem_of_singleton. cbn. split; [|intros [->|?]; [split; [lia|by left]|split; [lia|right; tauto]]].
      intros [Hx [->|Hin]]; [by left|]. destruct (decide (x = rm_next s)); [by left|]. right. split; [lia|done].
  - intros p s. split; [done|]. cbn. apply set_eq. intros x. rewrite elem_of_difference, !elem_of_filter, elem_of_difference. cbn. tauto.
Qed.
Lemma ram_driver_ok n : DriverOk (ram_driver n) (fun p k => k = (n, p)).
Proof.
  constructor.
  - done.
  - intros p s. split_and!; [done|done|]. intros b Hb. cbn in *. by rewrite Hb.
  - intros p k s. split_and!; [done|done|]. intros b Hb Hk. cbn in *. rewrite Hb. cbn. rewrite (proj2 (Z.leb_le _ _)) by done. by right.
  - intros p b k s Hk. split; [split; [|done]|intros _; cbn; by rewrite lookup_insert_eq]. intros k' Hk'. cbn in *. by rewrite lookup_insert_ne.
  - intros p s. split; [split; [|done]|intros _; cbn; by rewrite lookup_delete_eq]. intros k' Hk'. cbn in *. by rewrite lookup_delete_ne.
Qed.
Definition name16 : list Z := s_FAT16.
Definition namex : list Z := s_XVFS.
Definition disk0 : ram := Ram {[(name16, [97]) := [1; 2; 3]]} ∅ 4096.

(** A driver whose new files overwrite others of its volume, as those of XVFS do: here the file z *)
Definition careless_driver (n : list Z) : FSDriver ram :=
  let d := ram_driver n in
  Driver n (dr_exists d) (dr_get_size d) (fun p b k => modify (fun s => with_files (delete (n, [122]) (rm_files s)) s);;; dr_create d p b k) (dr_read_file d) (dr_write_file d) (dr_remove d).
Lemma careless_driver_ok n : DriverOk (careless_driver n) (fun p k => fst k = n).
Proof.
  destruct (ram_driver_ok n) as [H1 H2 H3 H4 H5]. constructor; [exact H1|exact H2|exact H3| |].
  - intros p b k s Hk. split; [split; [|done]|intros _; cbn; by rewrite lookup_insert_eq]. intros k' Hk'. cbn in *. rewrite lookup_insert_ne, lookup_delete_ne; [done|intros <-; by apply Hk'..].
  - intros p s. eapply wp_mono; [apply H5|]. intros r s' ([Ho Hh] & Ht). split; [split; [|done]|done]. intros k Hk. apply Ho. intros ->. by apply Hk.
Qed.
Example fsbg_move_keeps_file_witness :
  wp False (fsbg_move 1 (ram_driver name16) (careless_driver namex) [97] [98]) (fun r s' =>
    (if (r : bool) then files s' !! (namex, [98]) = Some [1; 2; 3] /\ files s' !! (name16, [97]) = None
     else files s' !! (name16, [97]) = Some [1; 2; 3] \/ files s' !! (namex, [98]) = Some [1; 2; 3]) /\
    (forall k, ~ (k = (name16, [97])) -> ~ (fst k = namex) -> files s' !! k = files disk0 !! k) /\ held s' = held disk0) disk0.
Proof.
  apply (fsbg_move_keeps_file 1 (ram_driver name16) (careless_driver namex) _ _ [97] [98] [1; 2; 3] disk0 (ram_driver_ok _) (careless_driver_ok _)); [done|done|reflexivity|cbn; lia].
Defined.

(** ** Where the code does not do what it means to *)

(** A file moved onto itself is copied over itself and then removed: it is lost, and the call
    returns true. *)
Example move_onto_itself_loses :
  let r := fsbg_move 1 (ram_driver name16) (ram_driver name16) [97] [97] disk0 in
  match r with Ok (ok, s') => ok = true /\ files s' !! (name16, [97]) = None | _ => False end.
Proof. vm_compute. split; reflexivity. Qed.

(** snprintf returns the number of characters that it has written, so the test for a path that is
    too long never refuses one: the path is cut. *)
Lemma join_path_never_refuses base name : name <> [] -> exists p, fsbg_join_path 256 base name = (p, true) /\ (length p <= 255)%nat.
Proof.
  intros Hn. unfold fsbg_join_path, snprintf. rewrite bool_decide_eq_false_2 by done. cbn [Nat.eqb orb]. cbv zeta. eexists. split.
  - cbn [fst snd]. apply f_equal2; [reflexivity|]. apply Z.ltb_lt. rewrite length_take. lia.
  - rewrite length_take. lia.
Qed.
Lemma join_path_saturates base name : length base = 255%nat -> name <> [] -> fsbg_join_path 256 base name = (base, true).
Proof.
  intros Hb Hn. unfold fsbg_join_path, snprintf. rewrite bool_decide_eq_false_2 by done. cbn [Nat.eqb orb]. rewrite (bool_decide_eq_false_2 (base = [])) by (by intros ->).
  change (256 - 1)%nat with 255%nat. destruct (bool_decide (list.last base = Some SLASH)); cbv zeta; cbn [fst snd]; rewrite take_app_length' by done; rewrite Hb; done.
Qed.
(** So a copy of directories that lie deep enough inside each other lists the same directory for
    ever. *)
Theorem deep_copy_never_ends fuel : forall disk dst dir (s : ram), length dir = 255%nat -> dst <> [] -> 0 < rm_next s ->
  (forall p, rm_files s !! (name16, p) = None) ->
  fsbg_copy_dir_recursive fuel (ram_driver name16) (ram_driver name16) name16 name16 0 disk dir dst false s = NoFuel.
Proof.
  induction fuel as [|fuel IH]; intros disk dst dir s Hl Hd Hn Hf; [done|]. cbn [fsbg_copy_dir_recursive]. rewrite bool_decide_eq_true_2 by done.
  unfold bind at 1 2 3. cbn [fsbg_mount_disk ram_ops ret negb]. cbn [dr_exists ram_driver gets]. rewrite bool_decide_eq_false_2 by (rewrite Hf; by intros [? ?]).
  cbn [fsbg_mkdir_by_fs ram_ops ret negb]. unfold bind at 1. cbn [kmalloc ram_ops]. rewrite (proj2 (Z.ltb_lt _ _)) by done. rewrite (proj2 (Z.eqb_neq _ 0)) by lia.
  unfold bind at 1. cbn [fsbg_list_dir_entries ram_ops ret]. change (1 <? 0) with false. cbv iota. unfold bind at 1.
  rewrite join_path_saturates by done. destruct (join_path_never_refuses dst [97]) as (p & Ep & _); [done|]. rewrite Ep. cbn [andb negb]. unfold bind at 1.
  rewrite IH; [done|done| |cbn; lia|done]. intros ->. unfold fsbg_join_path, snprintf in Ep. rewrite (bool_decide_eq_false_2 (dst = [])) in Ep by done.
  destruct dst as [|c dst]; [done|]. destruct (bool_decide (list.last (c :: dst) = Some SLASH)) in Ep; cbn in Ep; discriminate Ep.
Qed.

(** The drive that was mounted last through fsbg.c is taken for mounted, whatever drive the driver
    works on since: a mount by the shell or by fsbg_auto_mount_if_needed is not noticed. *)
Lemma mount_is_remembered {D} `{BlockDev D} `{Fat16.Buffers D} (s : @bg D) disk i : 0 <= disk < 8 -> lget (v_disks (bg_vfs s)) disk = Some i -> dk_present i = true ->
  fat16_mounted_disk s = disk -> bg_mount_disk s_FAT16 disk s = Ok (true, s).
Proof.
  intros Hd Hi Hp Hm. unfold bg_mount_disk. rewrite bind_get, (proj2 (Z.ltb_ge disk 0)) by lia. rewrite (proj2 (Z.leb_gt (Z.of_nat MAX_DISKS) disk)) by (unfold MAX_DISKS; lia). cbn [orb]. rewrite Hi, bind_lift_some, Hp. cbn [negb].
  rewrite bool_decide_eq_false_2 by done. change (mounted_of (fs_of s_FAT16) s) with (fat16_mounted_disk s). by rewrite Hm, Z.eqb_refl.
Qed.
End FsbgClaims.
