(* ===== verification/UsbHc.v ===== *)
(** * The interface of a USB host controller (drivers/usb/usbhc.h)

    The drivers for USB devices reach a host controller through the functions of usb_hc_ops_t, any of
    which may be missing.  A controller is a number, the address of its usb_hc_t, 0 being NULL; a
    transfer that is left running is known by the driver that owns it and the slot there.  A buffer
    that is handed over is the list of its bytes, and comes back as it is after the transfer. *)
From S2P Require Import Prelude.

Module UsbHc.

Inductive usb_speed_t := USB_SPEED_FULL | USB_SPEED_LOW | USB_SPEED_HIGH | USB_SPEED_SUPER.
Inductive usb_ep_type_t := USB_EP_CONTROL | USB_EP_ISOCH | USB_EP_BULK | USB_EP_INTERRUPT.
#[global] Instance usb_speed_eq_dec : EqDecision usb_speed_t.
Proof. solve_decision. Defined.

(** usb_setup_pkt_t *)
Record usb_setup_pkt_t := Setup { bmRequestType : Z; bRequest : Z; wValue : Z; wIndex : Z; wLength : Z }.
(** Which members of usb_hc_ops_t are not NULL *)
Record usb_hc_ops_t := Ops {
  has_control_transfer : bool; has_bulk_transfer : bool;
  has_async_in_init : bool; has_async_in_check : bool; has_async_in_rearm : bool; has_async_in_cancel : bool;
  has_configure_endpoint : bool; has_enum_open : bool; has_enum_set_address : bool; has_enum_close : bool;
  has_alloc_address : bool; has_reset_address_allocator : bool;
}.
(** A transfer that was begun for a keyboard of hid_boot_kbd.c, or for a device of usb.c: into the
    buffer of that slot.  usb.c moves devices, so theirs are numbered. *)
Inductive usb_async_in_t := KbdIn (slot : Z) | HidIn (slot n : Z).
(** Where a device is: its handle, its speed and the transaction translator *)
Record place := Place { p_hc : Z; p_dev : Z; p_speed : usb_speed_t; p_tt_hub_addr : Z; p_tt_port : Z }.

Class UsbHc (E : Type) := {
  (** hc->ops *)
  ops : Z -> option usb_hc_ops_t;
  control_transfer : place -> Z -> Z -> usb_setup_pkt_t -> list Z -> M E (bool * list Z);
  (** endpoint, in, packet size, toggle, data *)
  bulk_transfer : place -> Z -> bool -> Z -> Z -> list Z -> M E (bool * list Z);
  (** endpoint, packet size, toggle, length of the buffer *)
  async_in_init : place -> usb_async_in_t -> Z -> Z -> Z -> Z -> M E bool;
  (** result, count, and the bytes at the front of the buffer *)
  async_in_check : Z -> usb_async_in_t -> M E (Z * Z * list Z);
  async_in_rearm : Z -> usb_async_in_t -> M E unit;
  async_in_cancel : Z -> usb_async_in_t -> M E unit;
  configure_endpoint : Z -> Z -> Z -> bool -> usb_ep_type_t -> Z -> Z -> M E bool;
  enum_open : Z -> Z -> usb_speed_t -> M E (option Z);
  (** device, packet size, speed, translator, address: the new device, and whether it worked *)
  enum_set_address : place -> Z -> Z -> M E (bool * Z);
  enum_close : Z -> Z -> M E unit;
  alloc_address : Z -> M E Z;
  reset_address_allocator : Z -> M E unit;
  tick : M E Z;
  kmalloc : Z -> M E Z;
  kfree : Z -> M E unit;
}.

(** hc && hc->ops && hc->ops->f *)
Definition can {E} `{UsbHc E} (f : usb_hc_ops_t -> bool) (hc : Z) : bool :=
  negb (hc =? 0) && match ops hc with Some o => f o | None => false end.
Definition known {E} `{UsbHc E} (hc : Z) : bool := can (fun _ => true) hc.
End UsbHc.
