(* ===== verification/HidParse.v ===== *)
(** * Report descriptors of USB input devices (drivers/usb/hid_boot_kbd.c, drivers/usb/usb.c)

    A device describes its reports by a list of items; hid_parse_report_desc walks it and notes where
    in a report the modifiers, the keys, the buttons and the axes are.  The two files have the same
    walk and differ in what they note of an element and in which report they choose: [elem], [good]
    and [usable] below.  The members that only usb.c has stay 0 in hid_boot_kbd.c. *)
From S2P Require Import Prelude.

Module HidParse.

Definition HID_REPORT_MAX_TRACKED : nat := 4.
Definition HID_USAGE_PAGE_GENERIC : Z := 0x01.
Definition HID_USAGE_PAGE_KBD : Z := 0x07.
Definition HID_USAGE_PAGE_BUTTON : Z := 0x09.
Definition HID_USAGE_X : Z := 0x30.
Definition HID_USAGE_Y : Z := 0x31.
Definition HID_USAGE_WHEEL : Z := 0x38.

(** ** Data *)

(** A row of bits: modifiers, buttons *)
Record bits := Bits { b_has : bool; b_off : Z; b_count : Z }.
(** The array of keys *)
Record keys := Keys { k_has : bool; k_off : Z; k_count : Z; k_size : Z }.
Record axis := Axis { a_has : bool; a_off : Z; a_size : Z; a_rel : bool }.
Record hid_report_info_t := Info {
  used : bool; report_id : Z; bit_off : Z; report_bits : Z;
  i_mods : bits; i_keys : keys; i_buttons : bits; i_x : axis; i_y : axis; i_wheel : axis;
}.
Definition bits0 : bits := Bits false 0 0.
Definition axis0 : axis := Axis false 0 0 false.
Definition info0 : hid_report_info_t := Info false 0 0 0 bits0 (Keys false 0 0 0) bits0 axis0 axis0 axis0.
Record hid_global_t := Global { usage_page : Z; report_size : Z; report_count : Z; g_report_id : Z }.
Record hid_local_t := Local { usages : list Z; usage_count : Z; usage_min : Z; usage_max : Z; has_usage_minmax : bool }.
(** hid_local_reset *)
Definition local0 : hid_local_t := Local (replicate 16 0) 0 0 0 false.

Definition set_mods (v : bits) (i : hid_report_info_t) : hid_report_info_t :=
  Info (used i) (report_id i) (bit_off i) (report_bits i) v (i_keys i) (i_buttons i) (i_x i) (i_y i) (i_wheel i).
Definition set_keys (v : keys) (i : hid_report_info_t) : hid_report_info_t :=
  Info (used i) (report_id i) (bit_off i) (report_bits i) (i_mods i) v (i_buttons i) (i_x i) (i_y i) (i_wheel i).
Definition set_buttons (v : bits) (i : hid_report_info_t) : hid_report_info_t :=
  Info (used i) (report_id i) (bit_off i) (report_bits i) (i_mods i) (i_keys i) v (i_x i) (i_y i) (i_wheel i).
Definition set_x (v : axis) (i : hid_report_info_t) : hid_report_info_t :=
  Info (used i) (report_id i) (bit_off i) (report_bits i) (i_mods i) (i_keys i) (i_buttons i) v (i_y i) (i_wheel i).
Definition set_y (v : axis) (i : hid_report_info_t) : hid_report_info_t :=
  Info (used i) (report_id i) (bit_off i) (report_bits i) (i_mods i) (i_keys i) (i_buttons i) (i_x i) v (i_wheel i).
Definition set_wheel (v : axis) (i : hid_report_info_t) : hid_report_info_t :=
  Info (used i) (report_id i) (bit_off i) (report_bits i) (i_mods i) (i_keys i) (i_buttons i) (i_x i) (i_y i) v.

(** ** Helpers *)

(** The entry of a report: its index, and the table with the entry in use; None when all are taken *)
Definition hid_get_report_info (infos : list hid_report_info_t) (id : Z) : option (nat * list hid_report_info_t) :=
  match list_find (fun i => used i = true /\ report_id i = id) infos with
  | Some (n, _) => Some (n, infos)
  | None =>
    match list_find (fun i => used i = false) infos with
    | Some (n, _) => Some (n, <[n := Info true id 0 0 bits0 (Keys false 0 0 0) bits0 axis0 axis0 axis0]> infos)
    | None => None
    end
  end.
Definition hid_local_usage (l : hid_local_t) (idx : Z) : option Z :=
  if idx <? usage_count l then lget (usages l) idx
  else
    Some (if has_usage_minmax l && (usage_min l <=? usage_max l) then
            let usage := u16 (usage_min l + idx) in if usage <=? usage_max l then usage else 0
          else 0).

(** The bits of a report from bit_off on, least significant first; i counts up to bit_len. *)
Fixpoint get_bits_loop (k : nat) (i : Z) (buf : list Z) (off v : Z) : option Z :=
  match k with
  | O => Some v
  | S k' =>
    let b := u16 (off + i) in
    byte ← lget buf (Z.shiftr b 3);
    let bit := Z.land (Z.shiftr byte (Z.land b 7)) 1 in
    get_bits_loop k' (i + 1) buf off (Z.lor v (u32 (Z.shiftl bit i)))
  end.
Definition hid_get_bits (buf : list Z) (off bit_len : Z) : option Z := get_bits_loop (Z.to_nat bit_len) 0 buf off 0.
Definition hid_get_bits_signed (buf : list Z) (off bit_len : Z) : option Z :=
  if bit_len =? 0 then Some 0
  else
    v ← hid_get_bits buf off bit_len;
    Some (s32 (if (bit_len <? 32) && Z.testbit v (bit_len - 1) then Z.lor v (not32 (u32 (Z.shiftl 1 bit_len) - 1)) else v)).

(** ** The walk *)

(** An Input item: page, flags, count, size and where its first element is *)
Record item := Item { it_page : Z; it_const : bool; it_var : bool; it_rel : bool; it_count : Z; it_size : Z; it_off : Z }.
Section parse.
(** What is noted of an element, by usage and offset *)
Variable elem : item -> Z -> Z -> hid_report_info_t -> hid_report_info_t.
(** Which report is taken at once, and which for want of a better one *)
Variable good usable : hid_report_info_t -> bool.

Fixpoint elems (k : nat) (idx : Z) (it : item) (l : hid_local_t) (i : hid_report_info_t) : option hid_report_info_t :=
  match k with
  | O => Some i
  | S k' =>
    usage ← hid_local_usage l idx;
    elems k' (idx + 1) it l (elem it usage (u16 (it_off it + idx * it_size it)) i)
  end.
Definition advance (it : item) (i : hid_report_info_t) : hid_report_info_t :=
  let off := u16 (it_off it + it_count it * it_size it) in
  Info (used i) (report_id i) off (if report_bits i <? off then off else report_bits i) (i_mods i) (i_keys i) (i_buttons i) (i_x i) (i_y i) (i_wheel i).
Definition input_item (g : hid_global_t) (l : hid_local_t) (data : Z) (i : hid_report_info_t) : option hid_report_info_t :=
  let it := Item (usage_page g) (Z.testbit data 0) (Z.testbit data 1) (Z.testbit data 2) (report_count g) (report_size g) (bit_off i) in
  if negb (it_size it =? 0) && negb (it_count it =? 0) then
    i' ← (if negb (it_const it) then elems (Z.to_nat (it_count it)) 0 it l i else Some i);
    Some (advance it i')
  else Some i.

Record walk := Walk { w_infos : list hid_report_info_t; w_g : hid_global_t; w_l : hid_local_t; w_i : Z }.
Definition walk0 : walk := Walk (replicate HID_REPORT_MAX_TRACKED info0) (Global 0 0 0 0) local0 0.
Definition set_i (v : Z) (w : walk) : walk := Walk (w_infos w) (w_g w) (w_l w) v.
Definition set_l (v : hid_local_t) (w : walk) : walk := Walk (w_infos w) (w_g w) v (w_i w).
Definition set_g (v : hid_global_t) (w : walk) : walk := Walk (w_infos w) v (w_l w) (w_i w).
Definition set_infos (v : list hid_report_info_t) (w : walk) : walk := Walk v (w_g w) (w_l w) (w_i w).

Definition global_item (tag data : Z) (g : hid_global_t) : hid_global_t :=
  match tag with
  | 0x0 => Global (u16 data) (report_size g) (report_count g) (g_report_id g)
  | 0x7 => Global (usage_page g) (u8 data) (report_count g) (g_report_id g)
  | 0x8 => Global (usage_page g) (report_size g) (report_count g) (u8 data)
  | 0x9 => Global (usage_page g) (report_size g) (u8 data) (g_report_id g)
  | _ => g
  end.
Definition local_item (tag data : Z) (l : hid_local_t) : option hid_local_t :=
  match tag with
  | 0x0 => if usage_count l <? 16 then
             us ← lset (usages l) (usage_count l) (u16 data);
             Some (Local us (usage_count l + 1) (usage_min l) (usage_max l) (has_usage_minmax l))
           else Some l
  | 0x1 => Some (Local (usages l) (usage_count l) (u16 data) (usage_max l) true)
  | 0x2 => Some (Local (usages l) (usage_count l) (usage_min l) (u16 data) true)
  | _ => Some l
  end.
(** The value of an item: at most item_size bytes, fewer at the end; the position behind it *)
Fixpoint item_data (k : nat) (j : Z) (desc : list Z) (len i data : Z) : option (Z * Z) :=
  match k with
  | O => Some (data, i)
  | S k' =>
    if i <? len then
      b ← lget desc i;
      item_data k' (j + 1) desc len (u16 (i + 1)) (Z.lor data (u32 (Z.shiftl b (8 * j))))
    else Some (data, i)
  end.
Definition run_item (type tag data : Z) : M walk unit :=
  w <- get;;
  if type =? 1 then modify (set_g (global_item tag data (w_g w)))
  else if type =? 2 then l <- lift_opt (local_item tag data (w_l w));; modify (set_l l)
  else if type =? 0 then
    if tag =? 0x8 then
      match hid_get_report_info (w_infos w) (g_report_id (w_g w)) with
      | None => modify (set_l local0)
      | Some (n, infos) =>
        info <- lift_opt (infos !! n);;
        info' <- lift_opt (input_item (w_g w) (w_l w) data info);;
        modify (set_infos (<[n := info']> infos));;; modify (set_l local0)
      end
    else modify (set_l local0)
  else ret tt.
Fixpoint parse_loop (fuel : nat) (desc : list Z) (len : Z) : M walk unit :=
  match fuel with
  | O => nofuel
  | S fuel' =>
    w <- get;;
    if w_i w <? len then
      b <- lift_opt (lget desc (w_i w));;
      let i := u16 (w_i w + 1) in
      if b =? 0xFE then
        if len <=? i + 1 then ret tt
        else
          data_size <- lift_opt (lget desc i);;
          modify (set_i (u16 (i + 2 + data_size)));;; parse_loop fuel' desc len
      else
        let size_code := Z.land b 3 in
        r <- lift_opt (item_data (Z.to_nat (if size_code =? 3 then 4 else size_code)) 0 desc len i 0);;
        let '(data, i) := r in
        modify (set_i i);;;
        run_item (Z.land (Z.shiftr b 2) 3) (Z.land (Z.shiftr b 4) 0xF) data;;;
        parse_loop fuel' desc len
    else ret tt
  end.
Fixpoint best_report (infos : list hid_report_info_t) (best : option hid_report_info_t) : option hid_report_info_t :=
  match infos with
  | [] => best
  | i :: infos' =>
    if negb (used i) then best_report infos' best
    else if good i then Some i
    else best_report infos' (match best with None => if usable i then Some i else None | Some _ => best end)
  end.
(** None is false.  Each turn of the loop moves on by at least one byte. *)
Definition hid_parse_report_desc {S} (desc : list Z) (len : Z) : M S (option hid_report_info_t) :=
  match parse_loop (Datatypes.S (Z.to_nat len)) desc len walk0 with
  | Ok (_, w) => ret (best_report (w_infos w) None)
  | Fault => fault
  | NoFuel => nofuel
  end.

(** ** The walk stays within the descriptor and the tables *)

(** An offset counts only for a size that is read. *)
Definition axis_ok (a : axis) : Prop := 0 <= a_off a < 65536 /\ 0 <= a_size a < 256 /\ (a_size a <= 16 -> a_off a <= 512).
Record fields_ok (i : hid_report_info_t) : Prop := {
  fo_mods : 0 <= b_off (i_mods i) <= 512 /\ 0 <= b_count (i_mods i) <= 8;
  fo_keys : 0 <= k_off (i_keys i) <= 512 /\ 0 <= k_count (i_keys i) < 256;
  fo_buttons : 0 <= b_off (i_buttons i) <= 512 /\ 0 <= b_count (i_buttons i) < 256;
  fo_x : axis_ok (i_x i); fo_y : axis_ok (i_y i); fo_wheel : axis_ok (i_wheel i);
}.
(** In a report of at most 64 bytes everything that was noted begins within the 64 bytes: for an
    element to lie beyond the end, the offset behind it must have wrapped around, and no item of
    small elements is long enough for that. *)
Record info_ok (i : hid_report_info_t) : Prop := {
  io_bits : 0 <= bit_off i <= report_bits i;
  io_max : report_bits i < 65536;
  io_id : is_u8 (report_id i);
  io_fields : report_bits i <= 512 -> fields_ok i;
}.
Record walk_ok (w : walk) : Prop := {
  wo_len : length (w_infos w) = HID_REPORT_MAX_TRACKED;
  wo_infos : Forall info_ok (w_infos w);
  wo_size : is_u8 (report_size (w_g w)); wo_count : is_u8 (report_count (w_g w)); wo_id : is_u8 (g_report_id (w_g w));
  wo_usages : length (usages (w_l w)) = 16%nat;
  wo_used : 0 <= usage_count (w_l w) <= 16;
  wo_i : 0 <= w_i w;
}.
(** What is asked of [elem]: it only notes places, those it is given *)
Hypothesis elem_same : forall it u o i, let i' := elem it u o i in
  used i' = used i /\ report_id i' = report_id i /\ bit_off i' = bit_off i /\ report_bits i' = report_bits i.
Hypothesis elem_ok : forall it u o i, 0 <= it_off it <= 512 -> is_u8 (it_size it) -> is_u8 (it_count it) -> 0 <= o < 65536 ->
  (it_size it <= 16 -> o <= 512) -> fields_ok i -> fields_ok (elem it u o i).

Lemma fields0 : fields_ok info0.
Proof. constructor; cbn; unfold axis_ok; cbn; lia. Qed.
Lemma local_usage_ok l idx : length (usages l) = 16%nat -> 0 <= usage_count l <= 16 -> 0 <= idx -> exists u, hid_local_usage l idx = Some u.
Proof. intros Hl Hc Hi. unfold hid_local_usage. case_match eqn:E; [|by eexists]. apply Z.ltb_lt in E. apply lget_in. lia. Qed.
Lemma u16_range x : 0 <= u16 x < 65536.
Proof. unfold u16. apply Z.mod_pos_bound. lia. Qed.
Lemma u16_small x : 0 <= x < 65536 -> u16 x = x.
Proof. intros. unfold u16. by apply Z.mod_small. Qed.

Lemma elems_ok it l k : forall idx i, length (usages l) = 16%nat -> 0 <= usage_count l <= 16 -> is_u8 (it_size it) -> is_u8 (it_count it) ->
  0 <= idx -> idx + Z.of_nat k = it_count it ->
  exists i', elems k idx it l i = Some i' /\ used i' = used i /\ report_id i' = report_id i /\ bit_off i' = bit_off i /\ report_bits i' = report_bits i /\
    (0 <= it_off it <= 512 -> u16 (it_off it + it_count it * it_size it) <= 512 -> fields_ok i -> fields_ok i').
Proof.
  induction k as [|k IH]; intros idx i Hl Hc Hs Hn Hi Hk; [by exists i|]. cbn [elems].
  destruct (local_usage_ok l idx Hl Hc Hi) as [u ->]. cbn [mbind option_bind].
  destruct (IH (idx + 1) (elem it u (u16 (it_off it + idx * it_size it)) i)) as (i' & E & E1 & E2 & E3 & E4 & Hf); [done..|lia|lia|].
  destruct (elem_same it u (u16 (it_off it + idx * it_size it)) i) as (F1 & F2 & F3 & F4). exists i'. split_and!; [done|congruence..|].
  intros Ho Hw Hfi. apply Hf; [done|done|]. apply elem_ok; [done..|apply u16_range| |done].
  intros H16. unfold is_u8 in *. assert (it_count it * it_size it <= 4080) by nia. assert (idx * it_size it <= it_count it * it_size it) by nia.
  rewrite u16_small in Hw by nia. rewrite u16_small by nia. lia.
Qed.
Lemma input_item_ok g l data i : info_ok i -> is_u8 (report_size g) -> is_u8 (report_count g) -> length (usages l) = 16%nat -> 0 <= usage_count l <= 16 ->
  exists i', input_item g l data i = Some i' /\ info_ok i'.
Proof.
  intros [Hb Hm Hid Hf] Hs Hn Hl Hc. unfold input_item. cbn [it_size it_count it_const]. case_match; [|by eexists; split].
  set (it := Item (usage_page g) (Z.testbit data 0) (Z.testbit data 1) (Z.testbit data 2) (report_count g) (report_size g) (bit_off i)).
  assert (H' : exists i', (if negb (Z.testbit data 0) then elems (Z.to_nat (report_count g)) 0 it l i else Some i) = Some i' /\
    report_id i' = report_id i /\ bit_off i' = bit_off i /\ report_bits i' = report_bits i /\
    (0 <= it_off it <= 512 -> u16 (it_off it + it_count it * it_size it) <= 512 -> fields_ok i -> fields_ok i')).
  { case_match; [|by exists i]. destruct (elems_ok it l (Z.to_nat (report_count g)) 0 i) as (i' & E & _ & E2 & E3 & E4 & Hx); [done..|lia|unfold is_u8 in *; cbn; lia|]. by exists i'. }
  destruct H' as (i' & -> & E2 & E3 & E4 & Hx). cbn [mbind option_bind]. eexists. split; [done|]. unfold advance. cbn [it_off it_count it_size it].
  pose proof (u16_range (bit_off i + report_count g * report_size g)) as Hr. rewrite E4. set (off := u16 (bit_off i + report_count g * report_size g)) in *.
  constructor; cbn [bit_off report_bits report_id used i_mods i_keys i_buttons i_x i_y i_wheel]; [case_match eqn:Hlt; rewrite ?Z.ltb_lt, ?Z.ltb_ge in Hlt; lia..| by rewrite E2|].
  intros H512. assert (Hsmall : report_bits i <= 512 /\ off <= 512) by (case_match eqn:Hlt; rewrite ?Z.ltb_lt, ?Z.ltb_ge in Hlt; lia).
  destruct (Hx ltac:(cbn; lia) ltac:(cbn; lia) (Hf ltac:(lia))). constructor; done.
Qed.
Lemma get_report_info_ok infos id n infos' : Forall info_ok infos -> is_u8 id -> hid_get_report_info infos id = Some (n, infos') ->
  length infos' = length infos /\ Forall info_ok infos' /\ exists i, infos' !! n = Some i /\ info_ok i.
Proof.
  intros Hf Hid. unfold hid_get_report_info. destruct (list_find _ infos) as [[m i]|] eqn:E.
  - intros [= <- <-]. apply list_find_Some in E as (E & _ & _). split_and!; [done..|]. exists i. split; [done|]. by apply (Forall_lookup_1 _ _ _ _ Hf E).
  - clear E. destruct (list_find _ infos) as [[m i]|] eqn:E; [|done]. intros [= <- <-]. apply list_find_Some in E as (E & _ & _).
    set (i1 := Info true id 0 0 _ _ _ _ _ _). assert (H1 : info_ok i1) by (constructor; cbn; [lia|lia|done|intros _; destruct fields0; by constructor]).
    split_and!; [by rewrite length_insert|by apply Forall_insert|]. exists i1. split; [|done]. apply list_lookup_insert_eq. by apply lookup_lt_Some in E.
Qed.
Lemma item_data_ok desc len k : forall j i data, Z.of_nat (length desc) = len -> 0 <= i <= len -> len <= 60000 ->
  exists d i', item_data k j desc len i data = Some (d, i') /\ i <= i' <= len.
Proof.
  induction k as [|k IH]; intros j i data Hl Hi Hm; [exists data, i; split; [done|lia]|]. cbn [item_data]. case_match eqn:E; [|exists data, i; split; [done|lia]].
  apply Z.ltb_lt in E. destruct (lget_in desc i ltac:(lia)) as [b ->]. cbn [mbind option_bind]. rewrite u16_small by lia.
  destruct (IH (j + 1) (i + 1) (Z.lor data (u32 (Z.shiftl b (8 * j)))) Hl ltac:(lia) Hm) as (d & i' & -> & ?). exists d, i'. split; [done|lia].
Qed.
Lemma run_item_ok type tag data w : walk_ok w -> wp False (run_item type tag data) (fun _ w' => walk_ok w' /\ w_i w' = w_i w) w.
Proof.
  intros [Hl Hf Hs Hn Hid Hu Hc Hi]. unfold run_item. apply wp_bind, wp_gets; cbv beta.
  assert (Hreset : wp False (modify (set_l local0)) (fun _ w' => walk_ok w' /\ w_i w' = w_i w) w) by (apply wp_modify; split; [|done]; constructor; cbn; try done; lia).
  case_match; [apply wp_modify; split; [|done]; constructor; try done; cbn [set_g w_g w_l w_infos]; unfold global_item;
    repeat case_match; cbn; try done; apply u8_range|].
  case_match.
  { assert (H' : exists l, local_item tag data (w_l w) = Some l /\ length (usages l) = 16%nat /\ 0 <= usage_count l <= 16).
    { unfold local_item. repeat case_match; try (by eexists). rewrite Z.ltb_lt in *. rewrite lset_in by lia. cbn. eexists. split; [done|]. cbn. rewrite length_insert. lia. }
    destruct H' as (l & -> & ? & ?). apply wp_bind, wp_lift_some, wp_modify. split; [|done]. by constructor. }
  case_match; [|apply wp_ret; split; [by constructor|done]]. case_match; [|done].
  destruct (hid_get_report_info _ _) as [[n infos]|] eqn:Eg; [|done]. destruct (get_report_info_ok _ _ _ _ Hf Hid Eg) as (Hl' & Hf' & i & -> & Hio).
  apply wp_bind, wp_lift_some, wp_bind. destruct (input_item_ok (w_g w) (w_l w) data i Hio Hs Hn Hu Hc) as (i' & -> & Hi').
  apply wp_lift_some, wp_bind, wp_modify, wp_modify. split; [|done]. constructor; cbn [set_l set_infos w_infos w_g w_l w_i]; try done; [by rewrite length_insert, Hl'|by apply Forall_insert].
Qed.
Lemma parse_loop_ok desc len fuel : forall w, Forall is_u8 desc -> Z.of_nat (length desc) = len -> len <= 60000 -> walk_ok w -> Z.max 0 (len - w_i w) < Z.of_nat fuel ->
  wp False (parse_loop fuel desc len) (fun _ w' => walk_ok w') w.
Proof.
  induction fuel as [|fuel IH]; intros w Hd Hl Hm Hw Hk; cbn [parse_loop]; [lia|]. pose proof (wo_i _ Hw) as Hi. apply wp_bind, wp_gets; cbv beta.
  case_match eqn:E; [|by apply wp_ret]. apply Z.ltb_lt in E. apply wp_bind. destruct (lget_in desc (w_i w) ltac:(lia)) as [b Eb]. rewrite Eb. apply wp_lift_some.
  rewrite (u16_small (w_i w + 1)) by lia. case_match.
  - case_match eqn:E2; [by apply wp_ret|]. apply Z.leb_gt in E2. apply wp_bind. destruct (lget_in desc (w_i w + 1) ltac:(lia)) as [d Ed]. rewrite Ed. apply wp_lift_some, wp_bind, wp_modify.
    assert (is_u8 d) as Hu by (rewrite lget_lookup in Ed by lia; by apply (Forall_lookup_1 _ _ _ _ Hd Ed)). unfold is_u8 in Hu. rewrite u16_small by lia.
    apply IH; [done..| |cbn; lia]. destruct Hw. constructor; cbn; try done; lia.
  - apply wp_bind. destruct (item_data_ok desc len (Z.to_nat (if Z.land b 3 =? 3 then 4 else Z.land b 3)) 0 (w_i w + 1) 0 Hl ltac:(lia) Hm) as (d & i' & -> & Hi'). apply wp_lift_some, wp_bind, wp_modify, wp_bind.
    eapply wp_mono; [apply run_item_ok; destruct Hw; constructor; cbn; try done; lia|]. intros ? w' (Hw' & Ei). apply IH; [done..|]. rewrite Ei. cbn. lia.
Qed.
Lemma best_report_ok infos : forall best i, Forall info_ok infos -> (forall b, best = Some b -> info_ok b /\ (good b = true \/ usable b = true)) ->
  best_report infos best = Some i -> info_ok i /\ (good i = true \/ usable i = true).
Proof.
  induction infos as [|j infos IH]; intros best i Hf Hb; cbn [best_report]; [apply Hb|]. apply list.Forall_cons in Hf as [Hj Hf].
  case_match; [by apply IH|]. case_match eqn:Eg; [intros [= <-]; by split; [|left]|]. apply IH; [done|]. intros b. destruct best as [c|]; [apply Hb|].
  case_match eqn:Eu; [|done]. intros [= <-]. by split; [|right].
Qed.
(** A descriptor of at most 60000 bytes is parsed to its end without an access outside it or the
    tables, whatever it holds. *)
Lemma hid_parse_ok {S} desc len (s : S) : Forall is_u8 desc -> Z.of_nat (length desc) = len -> len <= 60000 ->
  wp False (hid_parse_report_desc desc len) (fun r s' => s' = s /\ forall i, r = Some i -> info_ok i /\ (good i = true \/ usable i = true)) s.
Proof.
  intros Hd Hl Hm. unfold hid_parse_report_desc.
  assert (Hw : wp False (parse_loop (Datatypes.S (Z.to_nat len)) desc len) (fun _ w' => walk_ok w') walk0).
  { apply parse_loop_ok; [done..| |cbn; lia]. constructor; cbn; try done; try lia; [|unfold is_u8; lia..]. repeat constructor; cbn; unfold is_u8, axis_ok; cbn; lia. }
  unfold wp in Hw. destruct (parse_loop _ _ _ _) as [[? w]| |]; [|done..]. apply wp_ret. split; [done|]. intros i. apply best_report_ok; [apply Hw|done].
Qed.

(** ** Reading bits *)
Lemma get_bits_ok buf off k : forall i v, 0 <= off -> 0 <= i -> off + i + Z.of_nat k <= 8 * Z.of_nat (length buf) -> Z.of_nat (length buf) <= 8191 ->
  exists r, get_bits_loop k i buf off v = Some r.
Proof.
  induction k as [|k IH]; intros i v Ho Hi Hk Hl; [by exists v|]. cbn [get_bits_loop]. rewrite u16_small by lia.
  destruct (lget_in buf (Z.shiftr (off + i) 3)) as [b ->]; [rewrite Z.shiftr_div_pow2 by lia; change (2 ^ 3) with 8; Z.div_mod_to_equations; lia|]. cbn [mbind option_bind].
  apply IH; lia.
Qed.
End parse.
End HidParse.
