(* ===== verification/UsbKbd.v ===== *)
(** * The USB keyboard (drivers/usb/hid_boot_kbd.c)

    Up to four keyboards.  A keyboard is added with a boot report of 8 bytes or, when its report
    descriptor can be used, with the report described there; the controller leaves reports in the
    buffer of the keyboard, and hid_boot_kbd_poll, called on every tick, turns the difference between
    two reports into scan codes for keyboard.c and repeats a key that is held.

    A scan code may run the shell, and with it anything: [keyboard_inject_scancode] acts on the whole
    state, and the code reads its tables anew behind it.  Messages are left out. *)
From S2P Require Import Prelude UsbHc HidParse.

Module UsbKbd.
Import UsbHc HidParse.

Definition HID_KBD_MAX_DEVS : nat := 4.
Definition HID_KBD_REPEAT_DELAY_TICKS : Z := 35.
Definition HID_KBD_REPEAT_RATE_TICKS : Z := 5.
Definition HID_KBD_IDLE_RATE_4MS : Z := 10.
Definition HID_KBD_REPORT_TIMEOUT_TICKS : Z := 100.
Definition HID_KBD_MAX_KEYS : Z := 16.

(** ** State *)

Record ident := Ident { at_ : place; iface_num : Z; ep : Z; mps : Z; interval : Z }.
(** The reports as they were last *)
Record before := Before { prev_report : list Z; prev_mod : Z; prev_keys : list Z; prev_keys_count : Z }.
Record repeat_t := Repeat { repeat_active : bool; repeat_hid : Z; repeat_prefix : Z; repeat_sc : Z; repeat_next_tick : Z }.
(** The member [in] belongs to the controller. *)
Record hid_kbd_dev_t := Dev {
  id : ident; buf : list Z; buf_len : Z; prev : before; report_proto : bool; report : hid_report_info_t;
  active : bool; rpt : repeat_t; last_report_tick : Z;
}.
Definition before0 : before := Before (replicate 8 0) 0 (replicate 16 0) 0.
Definition repeat0 : repeat_t := Repeat false 0 0 0 0.
Definition dev0 : hid_kbd_dev_t :=
  Dev (Ident (Place 0 0 USB_SPEED_FULL 0 0) 0 0 0 0) (replicate 64 0) 0 before0 false info0 false repeat0 0.
Record usb_kbd (E : Type) := UsbKbd { kbds : list hid_kbd_dev_t; kbd_count : Z; env : E }.
Arguments UsbKbd {E}.
Arguments kbds {E}.
Arguments kbd_count {E}.
Arguments env {E}.
Definition usb_kbd0 {E} (e : E) : usb_kbd E := UsbKbd (replicate HID_KBD_MAX_DEVS dev0) 0 e.
Definition hc_of (d : hid_kbd_dev_t) : Z := p_hc (at_ (id d)).

Definition set_buf (b : list Z) (d : hid_kbd_dev_t) : hid_kbd_dev_t :=
  Dev (id d) b (buf_len d) (prev d) (report_proto d) (report d) (active d) (rpt d) (last_report_tick d).
Definition set_prev (p : before) (d : hid_kbd_dev_t) : hid_kbd_dev_t :=
  Dev (id d) (buf d) (buf_len d) p (report_proto d) (report d) (active d) (rpt d) (last_report_tick d).
Definition set_report (proto : bool) (r : hid_report_info_t) (len : Z) (d : hid_kbd_dev_t) : hid_kbd_dev_t :=
  Dev (id d) (buf d) len (prev d) proto r (active d) (rpt d) (last_report_tick d).
Definition set_active (v : bool) (d : hid_kbd_dev_t) : hid_kbd_dev_t :=
  Dev (id d) (buf d) (buf_len d) (prev d) (report_proto d) (report d) v (rpt d) (last_report_tick d).
Definition set_rpt (r : repeat_t) (d : hid_kbd_dev_t) : hid_kbd_dev_t :=
  Dev (id d) (buf d) (buf_len d) (prev d) (report_proto d) (report d) (active d) r (last_report_tick d).
Definition set_tick (t : Z) (d : hid_kbd_dev_t) : hid_kbd_dev_t :=
  Dev (id d) (buf d) (buf_len d) (prev d) (report_proto d) (report d) (active d) (rpt d) t.
(** repeat_active = false *)
Definition stop_repeat (d : hid_kbd_dev_t) : hid_kbd_dev_t :=
  set_rpt (Repeat false (repeat_hid (rpt d)) (repeat_prefix (rpt d)) (repeat_sc (rpt d)) (repeat_next_tick (rpt d))) d.

(** ** Tables *)

(** hid_to_set1_t: usage, prefix and scan code *)
Definition hid_set1_map : list (Z * (Z * Z)) :=
  [
   (0x04, (0, 0x1E)); (0x05, (0, 0x30)); (0x06, (0, 0x2E)); (0x07, (0, 0x20)); (0x08, (0, 0x12)); (0x09, (0, 0x21)); (0x0A, (0, 0x22)); (0x0B, (0, 0x23));
   (0x0C, (0, 0x17)); (0x0D, (0, 0x24)); (0x0E, (0, 0x25)); (0x0F, (0, 0x26)); (0x10, (0, 0x32)); (0x11, (0, 0x31)); (0x12, (0, 0x18)); (0x13, (0, 0x19));
   (0x14, (0, 0x10)); (0x15, (0, 0x13)); (0x16, (0, 0x1F)); (0x17, (0, 0x14)); (0x18, (0, 0x16)); (0x19, (0, 0x2F)); (0x1A, (0, 0x11)); (0x1B, (0, 0x2D));
   (0x1C, (0, 0x15)); (0x1D, (0, 0x2C)); (0x1E, (0, 0x02)); (0x1F, (0, 0x03)); (0x20, (0, 0x04)); (0x21, (0, 0x05)); (0x22, (0, 0x06)); (0x23, (0, 0x07));
   (0x24, (0, 0x08)); (0x25, (0, 0x09)); (0x26, (0, 0x0A)); (0x27, (0, 0x0B)); (0x28, (0, 0x1C)); (0x29, (0, 0x01)); (0x2A, (0, 0x0E)); (0x2B, (0, 0x0F));
   (0x2C, (0, 0x39)); (0x2D, (0, 0x0C)); (0x2E, (0, 0x0D)); (0x2F, (0, 0x1A)); (0x30, (0, 0x1B)); (0x31, (0, 0x2B)); (0x32, (0, 0x56)); (0x33, (0, 0x27));
   (0x34, (0, 0x28)); (0x35, (0, 0x29)); (0x36, (0, 0x33)); (0x37, (0, 0x34)); (0x38, (0, 0x35)); (0x39, (0, 0x3A)); (0x3A, (0, 0x3B)); (0x3B, (0, 0x3C));
   (0x3C, (0, 0x3D)); (0x3D, (0, 0x3E)); (0x3E, (0, 0x3F)); (0x3F, (0, 0x40)); (0x40, (0, 0x41)); (0x41, (0, 0x42)); (0x42, (0, 0x43)); (0x43, (0, 0x44));
   (0x44, (0, 0x57)); (0x45, (0, 0x58)); (0x47, (0, 0x46)); (0x49, (0xE0, 0x52)); (0x4A, (0xE0, 0x47)); (0x4B, (0xE0, 0x49)); (0x4C, (0xE0, 0x53)); (0x4D, (0xE0, 0x4F));
   (0x4E, (0xE0, 0x51)); (0x4F, (0xE0, 0x4D)); (0x50, (0xE0, 0x4B)); (0x51, (0xE0, 0x50)); (0x52, (0xE0, 0x48)); (0x53, (0, 0x45)); (0x54, (0xE0, 0x35)); (0x55, (0, 0x37));
   (0x56, (0, 0x4A)); (0x57, (0, 0x4E)); (0x58, (0xE0, 0x1C)); (0x59, (0, 0x4F)); (0x5A, (0, 0x50)); (0x5B, (0, 0x51)); (0x5C, (0, 0x4B)); (0x5D, (0, 0x4C));
   (0x5E, (0, 0x4D)); (0x5F, (0, 0x47)); (0x60, (0, 0x48)); (0x61, (0, 0x49)); (0x62, (0, 0x52)); (0x63, (0, 0x53)); (0x64, (0, 0x56)); (0x65, (0xE0, 0x5D))].
Fixpoint assoc (l : list (Z * (Z * Z))) (usage : Z) : option (Z * Z) :=
  match l with [] => None | (u, r) :: l' => if u =? usage then Some r else assoc l' usage end.
Definition hid_usage_to_set1 (usage : Z) : option (Z * Z) := assoc hid_set1_map usage.
(** struct mod_map: bit, prefix and scan code *)
Definition mods : list (Z * (Z * Z)) :=
  [(0, (0, 0x1D)); (1, (0, 0x2A)); (2, (0, 0x38)); (3, (0xE0, 0x5B));
   (4, (0xE0, 0x1D)); (5, (0, 0x36)); (6, (0xE0, 0x38)); (7, (0xE0, 0x5C))].
Definition hid_to_ps2_map : list Z :=
  [
   0; 0; 0; 0; 0x1E; 0x30; 0x2E; 0x20; 0x12; 0x21; 0x22; 0x23; 0x17; 0x24; 0x25; 0x26;
   0x32; 0x31; 0x18; 0x19; 0x10; 0x13; 0x1F; 0x14; 0x16; 0x2F; 0x11; 0x2D; 0x15; 0x2C; 0x02; 0x03;
   0x04; 0x05; 0x06; 0x07; 0x08; 0x09; 0x0A; 0x0B; 0x1C; 0x01; 0x0E; 0x0F; 0x39; 0x0C; 0x0D; 0x1A;
   0x1B; 0x2B; 0; 0x27; 0x28; 0x29; 0x33; 0x34; 0x35; 0x3A; 0x3B; 0x3C; 0x3D; 0x3E; 0x3F; 0x40;
   0x41; 0x42; 0x43; 0x44; 0x57; 0x58; 0; 0x46; 0; 0; 0; 0; 0; 0; 0; 0;
   0x45; 0; 0; 0; 0; 0; 0; 0; 0; 0; 0; 0; 0; 0; 0; 0;
   0; 0; 0; 0; 0x56; 0].
Definition hid_keycode_to_ps2 (hid_code : Z) : Z := if hid_code <? 0x66 then default 0 (lget hid_to_ps2_map hid_code) else 0.

(** ** Reports *)

(** for (int i = 2; i < 8; i++) if (f (rep[i])) return true *)
Fixpoint any_key (k : nat) (i : Z) (rep : list Z) (f : Z -> bool) : option bool :=
  match k with
  | O => Some false
  | S k' => c ← lget rep i; if f c then Some true else any_key k' (i + 1) rep f
  end.
Definition hid_report_has_rollover (rep : list Z) : option bool := any_key 6 2 rep (fun c => (0x01 <=? c) && (c <=? 0x03)).
Definition hid_usage_present (rep : list Z) (usage : Z) : option bool :=
  if usage =? 0 then Some false else any_key 6 2 rep (fun c => c =? usage).
Definition kbd_key_present (keys : list Z) (count key : Z) : option bool := any_key (Z.to_nat count) 0 keys (fun c => c =? key).

(** None is false; else the modifiers, the array of keys and how many count.  The array is that of
    the caller. *)
Fixpoint extract_keys (k : nat) (i : Z) (buf : list Z) (base : Z) (r : hid_report_info_t) (keys : list Z) : option (list Z) :=
  match k with
  | O => Some keys
  | S k' =>
    v ← hid_get_bits buf (u16 (base + k_off (i_keys r) + i * k_size (i_keys r))) (k_size (i_keys r));
    keys' ← lset keys i (u8 v);
    extract_keys k' (i + 1) buf base r keys'
  end.
Definition kbd_report_extract (d : hid_kbd_dev_t) (actual : Z) (keys : list Z) : option (option (Z * list Z * Z)) :=
  let r := report d in
  if negb (k_has (i_keys r)) || negb (k_size (i_keys r) =? 8) then Some None
  else
    b0 ← lget (buf d) 0;
    if negb (report_id r =? 0) && ((actual <? 1) || negb (b0 =? report_id r)) then Some None
    else
      let base := if negb (report_id r =? 0) then 8 else 0 in
      let need_bits := u16 (k_off (i_keys r) + k_count (i_keys r) * k_size (i_keys r)) in
      let mod_bits := u16 (b_off (i_mods r) + b_count (i_mods r)) in
      let total_bits := if mod_bits <? need_bits then need_bits else mod_bits in
      if actual * 8 <? base + total_bits then Some None
      else
        let count := if HID_KBD_MAX_KEYS <? k_count (i_keys r) then HID_KBD_MAX_KEYS else k_count (i_keys r) in
        keys' ← extract_keys (Z.to_nat count) 0 (buf d) base r keys;
        m ← (if b_has (i_mods r) then
               let mod_count := if 8 <? b_count (i_mods r) then 8 else b_count (i_mods r) in
               v ← hid_get_bits (buf d) (u16 (base + b_off (i_mods r))) mod_count; Some (u8 v)
             else Some 0);
        Some (Some (m, keys', count)).

(** What is noted of a report descriptor here: modifiers and keys *)
Definition kbd_elem (it : item) (usage elem_off : Z) (i : hid_report_info_t) : hid_report_info_t :=
  if it_page it =? HID_USAGE_PAGE_KBD then
    if it_var it && (it_size it =? 1) && (0xE0 <=? usage) && (usage <=? 0xE7) then
      if negb (b_has (i_mods i)) then set_mods (Bits true elem_off (if 8 <? it_count it then 8 else it_count it)) i else i
    else if negb (it_var it) && (it_size it =? 8) && negb (k_has (i_keys i)) then set_keys (Keys true (it_off it) (it_count it) (it_size it)) i
    else i
  else i.
Definition kbd_parse_report_desc {S} (desc : list Z) (len : Z) : M S (option hid_report_info_t) :=
  hid_parse_report_desc kbd_elem (fun i => k_has (i_keys i) && b_has (i_mods i)) (fun i => k_has (i_keys i)) desc len.

Section ops.
Context {E : Type} `{UsbHc E}.
Abbreviation K A := (M (usb_kbd E) A).
Variable keyboard_inject_scancode : Z -> K unit.
Variable keyboard_set_ignore_ps2 : bool -> K unit.

Definition on_env {A} (m : M E A) : K A := fun s =>
  match m (env s) with Ok (a, e) => Ok (a, UsbKbd (kbds s) (kbd_count s) e) | Fault => Fault | NoFuel => NoFuel end.
(** dev = &kbds[i] *)
Definition getd (i : Z) : K hid_kbd_dev_t := s <- get;; lift_opt (lget (kbds s) i).
Definition putd (i : Z) (f : hid_kbd_dev_t -> hid_kbd_dev_t) : K unit :=
  s <- get;; d <- lift_opt (lget (kbds s) i);; l <- lift_opt (lset (kbds s) i (f d));;
  modify (fun s => UsbKbd l (kbd_count s) (env s)).

(** ** Scan codes *)

Definition send_scancode (prefix sc : Z) (make : bool) : K unit :=
  (if negb (prefix =? 0) then keyboard_inject_scancode prefix else ret tt);;;
  keyboard_inject_scancode (if make then sc else Z.lor sc 0x80).
Fixpoint send_mods (l : list (Z * (Z * Z))) (changed cur_mod : Z) : K unit :=
  match l with
  | [] => ret tt
  | (bit, (prefix, sc)) :: l' =>
    (if Z.testbit changed bit then send_scancode prefix sc (Z.testbit cur_mod bit) else ret tt);;; send_mods l' changed cur_mod
  end.
(** for (j = from; j < end; j++): the keys that were down and are no longer; the index is a byte *)
Fixpoint release_keys (k : nat) (i j : Z) (end_ : K Z) (key_at : Z -> K Z) (present : Z -> K bool) : K unit :=
  e <- end_;;
  if j <? e then
    match k with
    | O => nofuel
    | S k' =>
      key <- key_at j;;
      (if key =? 0 then ret tt
       else
         p <- present key;;
         if (p : bool) then ret tt
         else match hid_usage_to_set1 key with
              | Some (prefix, sc) =>
                send_scancode prefix sc false;;;
                d <- getd i;;
                if repeat_active (rpt d) && (repeat_hid (rpt d) =? key) then putd i stop_repeat else ret tt
              | None => ret tt
              end);;;
      release_keys k' i (j + 1) end_ key_at present
    end
  else ret tt.
(** The keys that are down and were not; the first of them is to be repeated. *)
Fixpoint press_keys (k : nat) (j : Z) (end_ : K Z) (key_at : Z -> K Z) (present : Z -> K bool) (new : Z * Z * Z) : K (Z * Z * Z) :=
  e <- end_;;
  if j <? e then
    match k with
    | O => nofuel
    | S k' =>
      key <- key_at j;;
      new' <- (if (key =? 0) || (key <=? 0x03) then ret new
               else
                 p <- present key;;
                 if (p : bool) then ret new
                 else match hid_usage_to_set1 key with
                      | Some (prefix, sc) =>
                        send_scancode prefix sc true;;;
                        ret (if fst (fst new) =? 0 then (key, prefix, sc) else new)
                      | None => ret new
                      end);;
      press_keys k' (j + 1) end_ key_at present new'
    end
  else ret new.
(** The key to repeat from now on *)
Definition set_repeat (i : Z) (new : Z * Z * Z) (present : Z -> K bool) : K unit :=
  let '(hid, prefix, sc) := new in
  if negb (hid =? 0) then
    t <- on_env tick;;
    putd i (fun d => set_rpt (Repeat true hid prefix sc (u32 (t + HID_KBD_REPEAT_DELAY_TICKS))) d)
  else
    d <- getd i;;
    if repeat_active (rpt d) then
      p <- present (repeat_hid (rpt d));; if negb p then putd i stop_repeat else ret tt
    else ret tt.

Definition process_report_boot (i actual : Z) : K unit :=
  if actual <? 8 then ret tt
  else
    d <- getd i;;
    roll <- lift_opt (hid_report_has_rollover (buf d));;
    if (roll : bool) then ret tt
    else
      cur_mod <- lift_opt (lget (buf d) 0);; prev_mod <- lift_opt (lget (prev_report (prev d)) 0);;
      send_mods mods (Z.lxor cur_mod prev_mod) cur_mod;;;
      let rep_at j := d <- getd i;; lift_opt (lget (buf d) j) in
      let prev_at j := d <- getd i;; lift_opt (lget (prev_report (prev d)) j) in
      let in_rep key := d <- getd i;; lift_opt (hid_usage_present (buf d) key) in
      let in_prev key := d <- getd i;; lift_opt (hid_usage_present (prev_report (prev d)) key) in
      release_keys 256 i 2 (ret 8) prev_at in_rep;;;
      new <- press_keys 256 2 (ret 8) rep_at in_prev (0, 0, 0);;
      set_repeat i new in_rep;;;
      d <- getd i;;
      c <- lift_opt (slice (buf d) 0 8);; p <- lift_opt (splice (prev_report (prev d)) 0 c);;
      putd i (fun d => set_prev (Before p (UsbKbd.prev_mod (prev d)) (prev_keys (prev d)) (prev_keys_count (prev d))) d).

(** keys[16] is what the stack holds. *)
Definition process_report_report (i actual : Z) (stack : list Z) : K unit :=
  d <- getd i;;
  r <- lift_opt (kbd_report_extract d actual stack);;
  match r with
  | None => ret tt
  | Some (cur_mod, keys, key_count) =>
    send_mods mods (Z.lxor cur_mod (prev_mod (prev d))) cur_mod;;;
    let prev_at j := d <- getd i;; lift_opt (lget (prev_keys (prev d)) j) in
    let in_keys key := lift_opt (kbd_key_present keys key_count key) in
    let in_prev key := d <- getd i;; lift_opt (kbd_key_present (prev_keys (prev d)) (prev_keys_count (prev d)) key) in
    release_keys 256 i 0 (d <- getd i;; ret (prev_keys_count (prev d))) prev_at in_keys;;;
    new <- press_keys 256 0 (ret key_count) (fun j => lift_opt (lget keys j)) in_prev (0, 0, 0);;
    set_repeat i new in_keys;;;
    c <- lift_opt (slice keys 0 key_count);; p <- lift_opt (splice (replicate 16 0) 0 c);;
    putd i (fun d => set_prev (Before (prev_report (prev d)) cur_mod p key_count) d)
  end.

Definition repeat_tick (i : Z) : K unit :=
  d <- getd i;;
  if negb (repeat_active (rpt d)) then ret tt
  else
    t <- on_env tick;;
    if t <? repeat_next_tick (rpt d) then ret tt
    else
      still_down <- lift_opt (if report_proto d then kbd_key_present (prev_keys (prev d)) (prev_keys_count (prev d)) (repeat_hid (rpt d))
                              else any_key 6 2 (prev_report (prev d)) (fun c => c =? repeat_hid (rpt d)));;
      if negb still_down then putd i stop_repeat
      else
        send_scancode (repeat_prefix (rpt d)) (repeat_sc (rpt d)) true;;;
        t <- on_env tick;;
        putd i (fun d => set_rpt (Repeat (repeat_active (rpt d)) (repeat_hid (rpt d)) (repeat_prefix (rpt d)) (repeat_sc (rpt d)) (u32 (t + HID_KBD_REPEAT_RATE_TICKS))) d).

(** ** Keyboards come and go *)

Definition hid_boot_kbd_refresh_ps2_ignore : K unit :=
  s <- get;; keyboard_set_ignore_ps2 (existsb active (kbds s)).
Definition hid_boot_kbd_find_free_slot : K Z :=
  s <- get;; ret (match list_find (fun d => active d = false) (kbds s) with Some (i, _) => Z.of_nat i | None => -1 end).
Definition hid_boot_kbd_deactivate (i : Z) : K unit :=
  d <- getd i;;
  if negb (active d) then ret tt
  else
    (if can has_async_in_cancel (hc_of d) then on_env (async_in_cancel (hc_of d) (KbdIn i)) else ret tt);;;
    putd i (fun d => Dev (id d) (buf d) (buf_len d) before0 false info0 false
                       (Repeat false 0 (repeat_prefix (rpt d)) (repeat_sc (rpt d)) (repeat_next_tick (rpt d))) (last_report_tick d));;;
    modify (fun s => UsbKbd (kbds s) (if 0 <? kbd_count s then kbd_count s - 1 else kbd_count s) (env s));;;
    hid_boot_kbd_refresh_ps2_ignore.

Definition usb_control (at_ : place) (ep0_mps : Z) (setup : usb_setup_pkt_t) (data : list Z) : K (bool * list Z) :=
  if negb (can has_control_transfer (p_hc at_)) then ret (false, data) else on_env (control_transfer at_ 0 ep0_mps setup data).
Definition hid_set_protocol (at_ : place) (ep0_mps iface protocol : Z) : K bool :=
  r <- usb_control at_ ep0_mps (Setup 0x21 0x0B protocol iface 0) [];; ret (fst r).
Definition hid_set_idle (at_ : place) (ep0_mps iface duration rid : Z) : K bool :=
  r <- usb_control at_ ep0_mps (Setup 0x21 0x0A (u16 (Z.lor (Z.shiftl duration 8) rid)) iface 0) [];; ret (fst r).
(** The buffer holds len bytes, [garbage] before the transfer. *)
Definition usb_get_report_desc (at_ : place) (ep0_mps iface : Z) (garbage : list Z) (len : Z) : K (bool * list Z) :=
  usb_control at_ ep0_mps (Setup 0x81 0x06 (u16 (Z.shiftl 0x22 8)) iface len) garbage.

Fixpoint cancel_all (k : nat) (i : Z) : K unit :=
  match k with
  | O => ret tt
  | S k' =>
    d <- getd i;;
    (if can has_async_in_cancel (hc_of d) then on_env (async_in_cancel (hc_of d) (KbdIn i)) else ret tt);;; cancel_all k' (i + 1)
  end.
Definition hid_boot_kbd_init : K unit :=
  cancel_all HID_KBD_MAX_DEVS 0;;;
  modify (fun s => UsbKbd (replicate HID_KBD_MAX_DEVS dev0) 0 (env s));;;
  hid_boot_kbd_refresh_ps2_ignore.

(** The report descriptor is read and the report taken, when it fits. *)
Definition choose_report (slot ep0_mps report_len : Z) (garbage : list Z) : K unit :=
  if (0 <? report_len) && (report_len <=? 1024) then
    p <- on_env (kmalloc report_len);;
    if p =? 0 then ret tt
    else
      d <- getd slot;;
      r <- usb_get_report_desc (at_ (id d)) ep0_mps (iface_num (id d)) garbage report_len;;
      (if fst r : bool then
         o <- kbd_parse_report_desc (snd r) report_len;;
         match o with
         | None => ret tt
         | Some info =>
           let rpt_bytes := u16 ((report_bits info + 7) / 8) in
           let rpt_bytes := if negb (report_id info =? 0) then u16 (rpt_bytes + 1) else rpt_bytes in
           if (0 <? rpt_bytes) && (rpt_bytes <=? mps (id d)) && (rpt_bytes <=? 64) then putd slot (set_report true info rpt_bytes)
           else putd slot (fun d => set_report (report_proto d) info (buf_len d) d)
         end
       else ret tt);;;
      on_env (kfree p)
  else ret tt.
Definition clamp_len (m : Z) : Z := let l := if m <? 8 then 8 else m in if 64 <? l then 64 else l.
Definition hid_boot_kbd_add_device (at_ : place) (ep0_mps iface ep mps0 interval report_len : Z) (garbage : list Z) : K bool :=
  if negb (known (p_hc at_)) then ret false
  else if ep =? 0 then ret false
  else
    slot <- hid_boot_kbd_find_free_slot;;
    if slot <? 0 then ret false
    else
      let m := if negb (mps0 =? 0) then mps0 else 8 in
      c <- (if can has_configure_endpoint (p_hc at_) then
              on_env (configure_endpoint (p_hc at_) (p_dev at_) ep true USB_EP_INTERRUPT m interval)
            else ret true);;
      if negb c then ret false
      else
        putd slot (fun _ => Dev (Ident at_ iface (Z.land ep 0x0F) m interval) (replicate 64 0) 0 before0 false info0 false repeat0 0);;;
        choose_report slot ep0_mps report_len garbage;;;
        d <- getd slot;;
        (if negb (report_proto d) then putd slot (set_report false (report d) (clamp_len m)) else ret tt);;;
        hid_set_idle at_ ep0_mps iface HID_KBD_IDLE_RATE_4MS 0;;;
        hid_set_protocol at_ ep0_mps iface (if report_proto d then 1 else 0);;;
        d <- getd slot;;
        ok <- (if can has_async_in_init (p_hc at_) then on_env (async_in_init at_ (KbdIn slot) (UsbKbd.ep (id d)) (mps (id d)) 0 (buf_len d)) else ret false);;
        if negb ok then putd slot (fun _ => dev0);;; ret false
        else
          t <- on_env tick;;
          putd slot (fun d => set_tick t (set_active true d));;;
          modify (fun s => UsbKbd (kbds s) (kbd_count s + 1) (env s));;;
          hid_boot_kbd_refresh_ps2_ignore;;;
          ret true.

(** ** Polling *)

(** Until the controller has no report; [stack] is what keys[16] of process_report_report holds. *)
Fixpoint poll_reports (fuel : nat) (i : Z) (stack : list Z) : K unit :=
  match fuel with
  | O => nofuel
  | S fuel' =>
    d <- getd i;;
    r <- on_env (async_in_check (hc_of d) (KbdIn i));;
    let '(rc, actual, bytes) := r in
    b <- lift_opt (splice (buf d) 0 bytes);; putd i (set_buf b);;;
    if rc =? 0 then ret tt
    else if rc <? 0 then hid_boot_kbd_deactivate i
    else
      (if 0 <? actual then if report_proto d then process_report_report i actual stack else process_report_boot i actual else ret tt);;;
      t <- on_env tick;; putd i (set_tick t);;;
      d <- getd i;;
      on_env (async_in_rearm (hc_of d) (KbdIn i));;;
      poll_reports fuel' i stack
  end.
Definition poll_dev (fuel : nat) (i : Z) (stack : list Z) : K unit :=
  d <- getd i;;
  if negb (active d) then ret tt
  else
    t <- on_env tick;;
    (if HID_KBD_REPORT_TIMEOUT_TICKS <? u32 (t - last_report_tick d) then
       putd i (fun d => set_tick t (set_prev before0 (set_rpt (Repeat false 0 (repeat_prefix (rpt d)) (repeat_sc (rpt d)) (repeat_next_tick (rpt d))) d)))
     else ret tt);;;
    repeat_tick i;;;
    d <- getd i;;
    if negb (can has_async_in_check (hc_of d)) || negb (can has_async_in_rearm (hc_of d)) then ret tt else poll_reports fuel i stack.
Fixpoint poll_all (k fuel : nat) (i : Z) (stack : list Z) : K unit :=
  match k with
  | O => ret tt
  | S k' => poll_dev fuel i stack;;; poll_all k' fuel (i + 1) stack
  end.
Definition hid_boot_kbd_poll (fuel : nat) (stack : list Z) : K unit := poll_all HID_KBD_MAX_DEVS fuel 0 stack.

Fixpoint drop_loop (k : nat) (i : Z) (which : hid_kbd_dev_t -> bool) : K unit :=
  match k with
  | O => ret tt
  | S k' =>
    d <- getd i;;
    (if active d && which d then hid_boot_kbd_deactivate i else ret tt);;; drop_loop k' (i + 1) which
  end.
Definition hid_boot_kbd_drop_device (hc dev : Z) : K unit :=
  if hc =? 0 then ret tt else drop_loop HID_KBD_MAX_DEVS 0 (fun d => (hc_of d =? hc) && (p_dev (at_ (id d)) =? dev)).
Definition hid_boot_kbd_drop_controller (hc : Z) : K unit :=
  if hc =? 0 then ret tt else drop_loop HID_KBD_MAX_DEVS 0 (fun d => hc_of d =? hc).
End ops.
End UsbKbd.
