(* ===== verification/UsbKbdClaims.v ===== *)
(** * USB keyboards: every operation is safe, and the keys that are down are those of the report

    The operations keep the invariant of [UsbKbdSafe]; the scan codes that reports are turned into,
    followed from the first one on, say which keys are down; a small controller and keyboard on which
    the theorems are run. *)
From S2P Require Import Prelude UsbHc HidParse UsbKbd UsbKbdSafe.

Module UsbKbdClaims.
Import UsbHc HidParse UsbKbd UsbKbdSafe.

Section ops.
Context {E : Type} {HC : UsbHc E} {WA : Watch E}.
Abbreviation K A := (M (usb_kbd E) A).
Context {inject : Z -> K unit} {set_ignore : bool -> K unit} {UW : UsbWorld inject set_ignore}.
Implicit Types s : usb_kbd E.

Section frame.
Context {mice : Z -> Z -> option Z}.
Abbreviation kbd_ok := (kbd_ok (mice := mice)).

Definition inv s : Prop := kbd_ok s /\ tuned s.

(** ** The count of active keyboards *)

Lemma active_count (l : list hid_kbd_dev_t) i d d' : l !! i = Some d ->
  Z.of_nat (length (filter (fun d => active d = true) (<[i := d']> l))) =
  Z.of_nat (length (filter (fun d => active d = true) l)) - (if active d then 1 else 0) + (if active d' then 1 else 0).
Proof.
  intros Hi. pose proof (lookup_lt_Some _ _ _ Hi) as Hlt. rewrite insert_take_drop by done. rewrite <-(take_drop_middle _ _ _ Hi) at 3.
  rewrite !list.filter_app, !list.filter_cons, !length_app. repeat case_decide; cbn [length]; repeat case_match; try congruence; lia.
Qed.
(** Keyboard i replaced, and its transfer started or stopped *)
Lemma ok_replace s i d d' e : kbd_ok s -> kbds s !! i = Some d -> dev_shape d' -> (forall y, y <> KbdIn (Z.of_nat i) -> armed e y = armed (env s) y) ->
  (active d' = true -> armed e (KbdIn (Z.of_nat i)) = Some (buf_len d') /\ 0 <= buf_len d' <= 64) ->
  kbd_ok (UsbKbd (<[i := d']> (kbds s)) (kbd_count s - (if active d then 1 else 0) + (if active d' then 1 else 0)) e).
Proof.
  intros [Hl Hd Hc Hm] Hi Hs Ha Hact. constructor; cbn [kbds kbd_count env].
  - by rewrite length_insert.
  - intros j c Hj. apply list_lookup_insert_Some in Hj as [(-> & <- & _)|(Hne & Hj)]; [by split|]. destruct (Hd _ _ Hj) as [Hsj Haj]. split; [done|].
    rewrite Ha; [done|]. intros [= E']. lia.
  - rewrite (active_count _ _ d) by done. lia.
  - intros. by rewrite Ha.
Qed.
Lemma shape0 d : length (buf d) = 64%nat -> Forall is_u8 (buf d) -> prev d = before0 -> report_proto d = false -> repeat_active (rpt d) = false -> dev_shape d.
Proof. intros Hb Hu Hp Hr Ha. constructor; rewrite ?Hp, ?Hr; try done; unfold rpt_ok; by rewrite Ha. Qed.
Lemma shape_dev0 : dev_shape dev0.
Proof. apply shape0; try done. cbn [buf dev0]. by apply Forall_replicate. Qed.

Lemma refresh_ok s : kbd_ok s -> wp False (hid_boot_kbd_refresh_ps2_ignore set_ignore) (fun _ s' => inv s' /\ kbds s' = kbds s) s.
Proof.
  intros Hok. unfold hid_boot_kbd_refresh_ps2_ignore. apply wp_bind, wp_gets; cbv beta. eapply wp_mono; [apply ignore_law|]. intros _ s' (Hk & Hc & Ha & _ & _ & Hi).
  split; [split|done]. 2: unfold tuned; by rewrite Hk.
  pose proof (ok_env s (env s') Ha Hok) as H'. rewrite <-Hk, <-Hc in H'. by destruct s'.
Qed.
Lemma deactivate_ok i s : inv s -> (i < HID_KBD_MAX_DEVS)%nat ->
  wp False (hid_boot_kbd_deactivate set_ignore (Z.of_nat i)) (fun _ s' => inv s' /\ forall d, kbds s' !! i = Some d -> active d = false) s.
Proof.
  intros [Hok Ht] Hi. destruct (lookup_lt_is_Some_2 (kbds s) i) as [d Hd]; [by rewrite (ok_len _ Hok)|]. unfold hid_boot_kbd_deactivate.
  apply wp_bind. eapply wp_getd; [rewrite lget_lookup, Nat2Z.id by lia; exact Hd|]. destruct (active d) eqn:Ea; cbn [negb]; [|apply wp_ret; split; [done|congruence]].
  apply wp_bind. set (P := fun (_ : unit) (s1 : usb_kbd E) => kbds s1 = kbds s /\ kbd_count s1 = kbd_count s /\ forall y, y <> KbdIn (Z.of_nat i) -> armed (env s1) y = armed (env s) y).
  assert (Hc : wp False (if can has_async_in_cancel (hc_of d) then on_env (async_in_cancel (hc_of d) (KbdIn (Z.of_nat i))) else ret tt) P s).
  { case_match; [|by apply wp_ret]. eapply wp_kbd_hc; [apply cancel_law|]. intros ? e [Ho _ _]. by split_and!. }
  eapply wp_mono; [exact Hc|]. intros _ s1 (Hk & Hn & Ha). apply wp_bind. eapply wp_putd; [rewrite lget_lookup, Nat2Z.id, Hk by lia; exact Hd|]. apply wp_bind, wp_modify. cbn [kbds kbd_count env].
  rewrite Hk, Hn, Nat2Z.id. set (d' := Dev (id d) (buf d) (buf_len d) before0 false info0 false _ _).
  destruct (ok_devs _ Hok _ _ Hd) as [Hs _]. assert (Hs' : dev_shape d') by (apply shape0; try done; apply Hs).
  pose proof (ok_replace s i d d' (env s1) Hok Hd Hs' Ha ltac:(done)) as Hok'. rewrite Ea in Hok'. cbn [active d'] in Hok'.
  assert (Hpos : 0 < kbd_count s).
  { pose proof (ok_count _ Hok) as Hc'. pose proof (ok_count _ Hok') as Hc2. cbn [kbd_count] in Hc2. lia. }
  rewrite (proj2 (Z.ltb_lt _ _)) by done. rewrite Z.add_0_r in Hok'. eapply wp_mono; [by apply refresh_ok|]. intros _ s2 [H2 Hk2]. split; [done|].
  rewrite Hk2. cbn [kbds]. rewrite list_lookup_insert_eq by (by apply lookup_lt_Some in Hd). by intros d2 [= <-].
Qed.
Lemma drop_loop_ok which k : forall i s, inv s -> (i + k = HID_KBD_MAX_DEVS)%nat -> wp False (drop_loop set_ignore k (Z.of_nat i) which) (fun _ s' => inv s') s.
Proof.
  induction k as [|k IH]; intros i s Hi Hk; cbn [drop_loop]; [by apply wp_ret|]. destruct (lookup_lt_is_Some_2 (kbds s) i) as [d Hd]; [destruct Hi as [[Hl _ _ _] _]; lia|].
  apply wp_bind. eapply wp_getd; [rewrite lget_lookup, Nat2Z.id by lia; exact Hd|]. apply wp_bind. replace (Z.of_nat i + 1) with (Z.of_nat (S i)) by lia.
  case_match; [eapply wp_mono; [apply deactivate_ok; [done|lia]|]; intros _ s' [H' _]|apply wp_ret]; apply IH; try done; lia.
Qed.
Lemma cancel_all_ok k : forall i s, length (kbds s) = HID_KBD_MAX_DEVS -> (i + k = HID_KBD_MAX_DEVS)%nat -> wp False (cancel_all k (Z.of_nat i)) (fun _ s' => forall slot n, armed (env s') (HidIn slot n) = armed (env s) (HidIn slot n)) s.
Proof.
  induction k as [|k IH]; intros i s Hl Hk; cbn [cancel_all]; [by apply wp_ret|]. destruct (lookup_lt_is_Some_2 (kbds s) i) as [d Hd]; [lia|].
  apply wp_bind. eapply wp_getd; [rewrite lget_lookup, Nat2Z.id by lia; exact Hd|]. apply wp_bind. replace (Z.of_nat i + 1) with (Z.of_nat (S i)) by lia.
  case_match; [eapply wp_kbd_hc; [apply cancel_law|]; intros ? e Ho|apply wp_ret; by apply IH; [|lia]].
  eapply wp_mono; [apply IH; [done|lia]|]. intros ? s' Hs' slot n. rewrite Hs'. by apply (o_armed _ _ _ Ho).
Qed.
Lemma init_ok s : length (kbds s) = HID_KBD_MAX_DEVS -> (forall slot n, armed (env s) (HidIn slot n) = mice slot n) -> wp False (hid_boot_kbd_init set_ignore) (fun _ s' => inv s') s.
Proof.
  intros Hl Hm. unfold hid_boot_kbd_init. apply wp_bind. eapply wp_mono; [by apply (cancel_all_ok HID_KBD_MAX_DEVS 0)|]. intros ? s1 H1. apply wp_bind, wp_modify.
  eapply wp_mono; [apply refresh_ok|by intros _ s2 [H2 _]]. constructor; [done| |done|intros; cbn; by rewrite H1]. cbn [kbds env]. intros i d Hd. apply lookup_replicate in Hd as [-> _]. split; [apply shape_dev0|done].
Qed.

(** ** Polling *)

Lemma before0_shape d : dev_shape d -> dev_shape (set_prev before0 d).
Proof. intros []. by constructor. Qed.
Lemma rpt_shape d r : dev_shape d -> rpt_ok r -> dev_shape (set_rpt r d).
Proof. intros [] Hr. by constructor. Qed.
Lemma tick_shape d t : dev_shape d -> dev_shape (set_tick t d).
Proof. intros []. by constructor. Qed.
(** What is kept of a report has its shape. *)
Definition before_ok (p : before) : Prop := length (prev_report p) = 8%nat /\ length (prev_keys p) = 16%nat /\ 0 <= prev_keys_count p <= 16.
Lemma boot_step_shape d actual : dev_shape d -> before_ok (snd (boot_step d actual)).
Proof. intros []. unfold boot_step. case_match; cbn [snd]; unfold before_ok; [done|]. cbn. rewrite length_take. split_and!; try done; lia. Qed.
Lemma report_step_shape d x : dev_shape d -> (forall m keys n, x = Some (m, keys, n) -> length keys = 16%nat /\ 0 <= n <= 16) -> before_ok (snd (report_step d x)).
Proof.
  intros [] Hx. destruct x as [[[m keys] n]|]; [|done]. destruct (Hx m keys n eq_refl) as [Hl Hn]. unfold before_ok. cbn. split_and!; [done| |lia|lia].
  rewrite length_app, length_take, length_drop. change (length [0;0;0;0;0;0;0;0;0;0;0;0;0;0;0;0]) with 16%nat. lia.
Qed.
Lemma processed_inv i d x s s' : inv s -> kbds s !! i = Some d -> before_ok (snd x) -> processed i d x s s' ->
  inv s' /\ (forall y, armed (env s') y = armed (env s) y) /\ (forall y, pending (env s') y = pending (env s) y) /\
  exists d', kbds s' !! i = Some d' /\ active d' = active d /\ id d' = id d /\ report_proto d' = report_proto d.
Proof.
  intros [Hok Ht] Hd (Hp1 & Hp2 & Hp3) (r & Hr & Hk & Hc & Ha & Hp & Hg & _). destruct (ok_devs _ Hok _ _ Hd) as [Hs _].
  assert (Hs' : dev_shape (set_prev (snd x) (set_rpt r d))) by (destruct Hs; by constructor).
  destruct (ok_insert s i d (set_prev (snd x) (set_rpt r d)) Hok Hd Hs' eq_refl eq_refl) as [Hok' Ht']. specialize (Ht' Ht).
  pose proof (ok_env (UsbKbd (<[i := set_prev (snd x) (set_rpt r d)]> (kbds s)) (kbd_count s) (env s)) (env s') Ha Hok') as Hok2. cbn [kbds kbd_count env] in Hok2. rewrite <-Hk, <-Hc in Hok2. split_and!; [split|done|done|].
  - by destruct s'.
  - unfold tuned in *. cbn [env kbds] in Ht'. by rewrite Hg, Hk.
  - exists (set_prev (snd x) (set_rpt r d)). split_and!; try done. rewrite Hk. apply list_lookup_insert_eq. by apply lookup_lt_Some in Hd.
Qed.
Lemma put_inv i f s d Q : inv s -> kbds s !! i = Some d -> dev_shape (f d) -> active (f d) = active d -> buf_len (f d) = buf_len d ->
  (forall s', inv s' -> env s' = env s -> kbds s' !! i = Some (f d) -> Q tt s') -> wp False (putd (Z.of_nat i) f) Q s.
Proof.
  intros [Hok Ht] Hd Hs Ha Hb HQ. eapply wp_putd; [rewrite lget_lookup, Nat2Z.id by lia; exact Hd|]. rewrite Nat2Z.id.
  destruct (ok_insert s i d (f d) Hok Hd Hs Ha Hb) as [H1 H2]. apply HQ; [split; [done|by apply H2]|done|]. apply list_lookup_insert_eq. by apply lookup_lt_Some in Hd.
Qed.
Lemma calm_inv {A} (m : M E A) P Q s : inv s -> calm m P ->
  (forall a e, inv (UsbKbd (kbds s) (kbd_count s) e) -> quiet (env s) e -> P a -> Q a (UsbKbd (kbds s) (kbd_count s) e)) -> wp False (on_env m) Q s.
Proof.
  intros [Hok Ht] Hm HQ. eapply wp_calm; [exact Hm|]. intros a e Hq Ha. apply HQ; [|done|done]. split; [by apply ok_env; [apply Hq|]|]. unfold tuned in *. cbn. by rewrite (q_ignored _ _ Hq).
Qed.
Lemma get_inv {A} i s d (k : hid_kbd_dev_t -> K A) Q : kbds s !! i = Some d -> wp False (k d) Q s -> wp False (d <- getd (Z.of_nat i);; k d) Q s.
Proof. intros Hd Hk. apply wp_bind. eapply wp_getd; [rewrite lget_lookup, Nat2Z.id by lia; exact Hd|done]. Qed.

(** A repeated key is one of the report before. *)
Definition repeat_codes (d : hid_kbd_dev_t) (c : list Z) : Prop := c = [] \/ exists k,
  c = code_of k true /\ (k ∈ if report_proto d then take (Z.to_nat (prev_keys_count (prev d))) (prev_keys (prev d)) else keys6 (prev_report (prev d))).
Lemma near_calm i s0 s e : near i s0 s -> quiet (env s) e -> near i s0 (UsbKbd (kbds s) (kbd_count s) e).
Proof. intros (d & r & ? & ? & ? & ? & Ha & Hp & Hg) []. exists d, r. cbn. split_and!; try done; try congruence; intros x; congruence. Qed.
Lemma repeat_tick_ok i s d : kbds s !! i = Some d -> dev_shape d ->
  wp False (repeat_tick inject (Z.of_nat i)) (fun _ s' => near i s s' /\ exists c, sent (env s') = sent (env s) ++ c /\ repeat_codes d c) s.
Proof.
  intros Hd [Hb _ Hr Hk Hc _ Hrp]. pose proof (near_refl i s d Hd Hrp) as Hn0. unfold repeat_tick. apply (get_inv i s d); [done|].
  assert (Hnone : forall s', near i s s' -> sent (env s') = sent (env s) -> near i s s' /\ exists c, sent (env s') = sent (env s) ++ c /\ repeat_codes d c).
  { intros s' H' E'. split; [done|]. exists []. rewrite app_nil_r. split; [done|by left]. }
  destruct (repeat_active (rpt d)) eqn:Era; cbn [negb]; [|by apply wp_ret, Hnone]. apply wp_bind. eapply wp_calm; [apply tick_law|]. intros t e Hq _.
  pose proof (near_calm i s s e Hn0 Hq) as Hn1. case_match; [apply wp_ret, Hnone; [done|apply Hq]|]. apply wp_bind.
  set (keys := if report_proto d then take (Z.to_nat (prev_keys_count (prev d))) (prev_keys (prev d)) else keys6 (prev_report (prev d))).
  assert (Hdown : (if report_proto d then kbd_key_present (prev_keys (prev d)) (prev_keys_count (prev d)) (repeat_hid (rpt d))
     else any_key 6 2 (prev_report (prev d)) (fun c => c =? repeat_hid (rpt d))) = Some (bool_decide (repeat_hid (rpt d) ∈ keys))).
  { unfold keys. destruct (report_proto d); [by rewrite key_present_ok by lia|]. rewrite any_key_ok by lia. by rewrite existsb_elem. }
  rewrite Hdown. apply wp_lift_some. case_bool_decide as Hin; cbn [negb].
  - apply wp_bind. eapply (send_scancode_ok i s _ (repeat_prefix (rpt d), repeat_sc (rpt d))); [exact Hn1|]. intros s2 H2 E2. cbn [env] in E2. apply wp_bind. eapply wp_calm; [apply tick_law|]. intros t' e' Hq' _.
    eapply near_put; [apply near_calm; [exact H2|done]| |].
    + intros d1. eexists. split; [done|]. intros Hr1 Hact. by apply Hr1.
    + intros s3 H3 E3. split; [done|]. exists (scan (repeat_prefix (rpt d), repeat_sc (rpt d)) true). split; [rewrite E3; cbn [env]; rewrite (q_sent _ _ Hq'), E2; by rewrite (q_sent _ _ Hq)|].
      right. exists (repeat_hid (rpt d)). split; [|exact Hin]. unfold code_of. by rewrite (Hrp Era).
  - eapply near_put; [exact Hn1|apply stop_is_rpt|]. intros s3 H3 E3. apply Hnone; [done|]. rewrite E3. apply Hq.
Qed.
Lemma near_inv i s s' : inv s -> near i s s' -> inv s' /\ (forall y, pending (env s') y = pending (env s) y) /\ exists d d', kbds s !! i = Some d /\ kbds s' !! i = Some d' /\ active d' = active d /\ dev_shape d'.
Proof.
  intros [Hok Ht] (d & r & Hd & Hr & Hk & Hc & Ha & Hp & Hg). destruct (ok_devs _ Hok _ _ Hd) as [Hs _]. pose proof (rpt_shape d r Hs Hr) as Hs'.
  destruct (ok_insert s i d (set_rpt r d) Hok Hd Hs' eq_refl eq_refl) as [Hok' Ht']. pose proof (ok_env (UsbKbd (<[i := set_rpt r d]> (kbds s)) (kbd_count s) (env s)) (env s') Ha Hok') as Hok2. cbn [kbds kbd_count env] in Hok2. rewrite <-Hk, <-Hc in Hok2.
  split_and!; [split|done|].
  - by destruct s'.
  - unfold tuned in *. rewrite Hg, Hk. by apply Ht'.
  - exists d, (set_rpt r d). split_and!; try done. rewrite Hk. apply list_lookup_insert_eq. by apply lookup_lt_Some in Hd.
Qed.

Lemma poll_reports_ok i stack fuel : length stack = 16%nat -> (i < HID_KBD_MAX_DEVS)%nat -> forall s d, inv s -> kbds s !! i = Some d -> active d = true ->
  (pending (env s) (KbdIn (Z.of_nat i)) < fuel)%nat -> wp False (poll_reports inject set_ignore fuel (Z.of_nat i) stack) (fun _ s' => inv s') s.
Proof.
  intros Hst Hi. induction fuel as [|fuel IH]; intros s d Hinv Hd Hact Hf; [lia|]. cbn [poll_reports]. apply (get_inv i s d); [done|]. pose proof Hinv as [Hok Ht].
  destruct (ok_devs _ Hok _ _ Hd) as [Hs Hrun]. destruct (Hrun Hact) as [Harm Hlen]. apply wp_bind. eapply wp_kbd_hc; [apply check_law; [done|lia]|].
  intros [[rc actual] bytes] e (Ha & _ & Hg & Hac & Hby & Hu & Hpe). set (s1 := UsbKbd (kbds s) (kbd_count s) e).
  assert (H1 : inv s1) by (split; [by apply ok_env|unfold tuned in *; cbn; by rewrite Hg]). pose proof (ds_buf _ Hs) as Hb.
  apply wp_bind. rewrite splice_front by lia. apply wp_lift_some, wp_bind. set (b := bytes ++ drop (length bytes) (buf d)).
  assert (Hs1 : dev_shape (set_buf b d)).
  { destruct Hs. constructor; try done; cbn [set_buf buf]; unfold b; [rewrite length_app, length_drop; lia|]. apply Forall_app. split; [done|]. by apply Forall_drop. }
  eapply (put_inv i _ s1 d); [done|done|done|done|done|]. intros s2 H2 Ee Hd2. case_match eqn:E0; [by apply wp_ret|]. case_match eqn:En; [eapply wp_mono; [by apply deactivate_ok|]; by intros ? s3 [H3 _]|].
  apply Z.eqb_neq in E0. apply Z.ltb_ge in En.
  assert (Hproc : wp False (if 0 <? actual then if report_proto d then process_report_report inject (Z.of_nat i) actual stack else process_report_boot inject (Z.of_nat i) actual else ret tt)
    (fun _ s3 => inv s3 /\ (forall y, pending (env s3) y = pending (env s2) y) /\ exists d3, kbds s3 !! i = Some d3 /\ active d3 = active d) s2).
  { case_match; [|apply wp_ret; split_and!; try done; by eexists]. destruct (report_proto d) eqn:Erp.
    - destruct (process_report_ok i (set_buf b d) s2 actual stack Hd2 Hs1 Erp Hst ltac:(lia)) as (x & _ & Hx & Hwp). eapply wp_mono; [exact Hwp|]. intros ? s3 H3.
      destruct (processed_inv i _ _ s2 s3 H2 Hd2 (report_step_shape _ _ Hs1 Hx) H3) as (? & ? & ? & d3 & ? & ? & ? & ?). split_and!; try done. by exists d3.
    - eapply wp_mono; [by apply process_boot_ok|]. intros ? s3 H3.
      destruct (processed_inv i _ _ s2 s3 H2 Hd2 (boot_step_shape _ _ Hs1) H3) as (? & ? & ? & d3 & ? & ? & ? & ?). split_and!; try done. by exists d3. }
  apply wp_bind. eapply wp_mono; [exact Hproc|]. intros ? s3 (H3 & Hp3 & d3 & Hd3 & Ha3). apply wp_bind. eapply calm_inv; [done|apply tick_law|]. intros t e3 H4 Hq _.
  apply wp_bind. eapply (put_inv i _ _ d3); [done|done|apply tick_shape; destruct H3 as [Hok3 _]; by apply (ok_devs _ Hok3 i)|done|done|]. intros s5 H5 Ee5 Hd5. apply (get_inv i s5 (set_tick t d3)); [done|].
  apply wp_bind. eapply calm_inv; [done|apply rearm_law|]. intros ? e6 H6 Hq6 _. eapply IH; [done|exact Hd5|by cbn; rewrite Ha3|]. cbn [env].
  rewrite (q_pending _ _ Hq6), Ee5. cbn [env]. rewrite (q_pending _ _ Hq), Hp3, Ee. cbn [env s1]. specialize (Hpe ltac:(lia)). lia.
Qed.
Lemma poll_all_ok fuel stack k : length stack = 16%nat -> (burst < fuel)%nat -> forall i s, inv s -> (i + k = HID_KBD_MAX_DEVS)%nat ->
  wp False (poll_all inject set_ignore k fuel (Z.of_nat i) stack) (fun _ s' => inv s') s.
Proof.
  intros Hst Hf. induction k as [|k IH]; intros i s Hinv Hk; cbn [poll_all]; [by apply wp_ret|]. apply wp_bind. replace (Z.of_nat i + 1) with (Z.of_nat (S i)) by lia.
  eapply wp_mono; [|intros ? s' H'; apply (IH (S i) s' H'); lia]. pose proof Hinv as [Hok _]. destruct (lookup_lt_is_Some_2 (kbds s) i) as [d Hd]; [rewrite (ok_len _ Hok); lia|].
  unfold poll_dev. apply (get_inv i s d); [done|]. destruct (active d) eqn:Ea; cbn [negb]; [|by apply wp_ret]. destruct (ok_devs _ Hok _ _ Hd) as [Hs _].
  apply wp_bind. eapply calm_inv; [done|apply tick_law|]. intros t e H1 _ _. apply wp_bind.
  eapply (wp_mono _ _ (fun _ s2 => inv s2 /\ exists d2, kbds s2 !! i = Some d2 /\ active d2 = true /\ dev_shape d2)).
  { case_match; [|apply wp_ret; split; [done|]; by exists d]. eapply (put_inv i _ _ d); [done|done|apply tick_shape, before0_shape, rpt_shape; [done|done]|done|done|].
    intros s2 H2 _ Hd2. split; [done|]. eexists. split_and!; [exact Hd2|done|]. by apply tick_shape, before0_shape, rpt_shape. }
  intros ? s2 (H2 & d2 & Hd2 & Ha2 & Hs2). apply wp_bind. eapply wp_mono; [by apply (repeat_tick_ok i s2 d2)|]. intros ? s3 [Hn3 _].
  destruct (near_inv i s2 s3 H2 Hn3) as (H3 & _ & d2' & d3 & Hd2' & Hd3 & Ha3 & _). apply (get_inv i s3 d3); [done|]. case_match; [by apply wp_ret|].
  eapply poll_reports_ok; [done|lia|done|exact Hd3|congruence|]. pose proof (burst_law (env s3) (KbdIn (Z.of_nat i))). lia.
Qed.

(** ** Adding a keyboard *)

Lemma kbd_elem_same it u o i : let i' := kbd_elem it u o i in used i' = used i /\ report_id i' = report_id i /\ bit_off i' = bit_off i /\ report_bits i' = report_bits i.
Proof. unfold kbd_elem. by repeat case_match. Qed.
Lemma kbd_elem_ok it u o i : 0 <= it_off it <= 512 -> is_u8 (it_size it) -> is_u8 (it_count it) -> 0 <= o < 65536 ->
  (it_size it <= 16 -> o <= 512) -> fields_ok i -> fields_ok (kbd_elem it u o i).
Proof.
  intros Ho Hs Hc Hr Ho' []. unfold is_u8 in *. unfold kbd_elem. repeat case_match; try (by constructor);
    repeat match goal with Hb : _ && _ = true |- _ => apply andb_prop in Hb as [? ?] end; rewrite ?Z.eqb_eq, ?Z.ltb_lt, ?Z.ltb_ge in *;
    constructor; cbn; try done; lia.
Qed.
Lemma put_idle i f s d Q : inv s -> kbds s !! i = Some d -> active d = false -> dev_shape (f d) -> active (f d) = false ->
  (forall s', inv s' -> env s' = env s -> kbds s' !! i = Some (f d) -> Q tt s') -> wp False (putd (Z.of_nat i) f) Q s.
Proof.
  intros [Hok Ht] Hd Ha Hs Ha' HQ. pose proof (lookup_lt_Some _ _ _ Hd) as Hlt. eapply wp_putd; [rewrite lget_lookup, Nat2Z.id by lia; exact Hd|]. rewrite Nat2Z.id.
  pose proof (ok_replace s i d (f d) (env s) Hok Hd Hs ltac:(done) ltac:(congruence)) as H'. rewrite Ha, Ha', Z.sub_0_r, Z.add_0_r in H'.
  apply HQ; [split; [done|]|done|by apply list_lookup_insert_eq]. unfold tuned in *. cbn [env kbds]. rewrite Ht, insert_take_drop by done. rewrite <-(take_drop_middle _ _ _ Hd) at 1. rewrite !existsb_app. cbn [existsb]. by rewrite Ha, Ha'.
Qed.
Lemma control_ok at_ ep0 setup data s Q : inv s -> Forall is_u8 data ->
  (forall r e, inv (UsbKbd (kbds s) (kbd_count s) e) -> length (snd r) = length data -> Forall is_u8 (snd r) -> Q r (UsbKbd (kbds s) (kbd_count s) e)) ->
  wp False (usb_control at_ ep0 setup data) Q s.
Proof.
  intros Hi Hu HQ. unfold usb_control. case_match; [|eapply calm_inv; [done|by apply control_law|]; intros r e H1 _ [? ?]; by apply HQ].
  apply wp_ret. specialize (HQ (false, data) (env s)). destruct s. by apply HQ.
Qed.
(** A keyboard that is being added: in slot i, not active *)
Definition added (i : nat) (idn : ident) s : Prop := inv s /\ exists d, kbds s !! i = Some d /\ id d = idn /\ active d = false /\ dev_shape d /\ (report_proto d = true -> 0 <= buf_len d <= 64).
Lemma choose_report_ok i idn ep0 len garbage s : added i idn s -> (forall d, kbds s !! i = Some d -> report_proto d = false) -> Forall is_u8 garbage -> (0 < len -> Z.of_nat (length garbage) = len) ->
  wp False (choose_report (Z.of_nat i) ep0 len garbage) (fun _ s' => added i idn s') s.
Proof.
  intros Hadd Hnp Hu Hl. unfold choose_report. case_match eqn:Er; [|by apply wp_ret]. apply andb_prop in Er as [El Er]. apply Z.ltb_lt in El. apply Z.leb_le in Er. specialize (Hl El).
  destruct Hadd as (Hinv & d & Hd & Hid & Ha & Hs & Hlen). specialize (Hnp d Hd). apply wp_bind. eapply calm_inv; [done|apply kmalloc_law|]. intros p e H1 _ _.
  case_match; [apply wp_ret; split; [done|]; by exists d|]. eapply (get_inv i _ d); [done|]. apply wp_bind. unfold usb_get_report_desc. apply control_ok; [done|done|].
  intros r e2 H2 Hlr Hur. apply wp_bind.
  assert (Hdone : forall s', added i idn s' -> wp False (on_env (kfree p)) (fun _ s' => added i idn s') s').
  { intros s' (H' & d' & ? & ? & ? & ? & ?). eapply calm_inv; [done|apply kfree_law|]. intros ? e' H'' _ _. split; [done|]. by exists d'. }
  assert (Hstay : added i idn (UsbKbd (kbds s) (kbd_count s) e2)) by (split; [done|]; by exists d).
  destruct (fst r); [|apply wp_ret; by apply Hdone]. apply wp_bind. eapply wp_mono; [unfold kbd_parse_report_desc; apply hid_parse_ok; [apply kbd_elem_same|intros; by apply kbd_elem_ok|done|lia|lia]|].
  intros o s3 [-> Ho]. cbn [kbds kbd_count] in *. destruct o as [info|]; [|apply wp_ret; by apply Hdone]. destruct (Ho info eq_refl) as [[Hb Hm Hrid Hf] _].
  assert (Hq : 0 <= (report_bits info + 7) / 8 < 8193) by (Z.div_mod_to_equations; lia). rewrite (u16_small ((report_bits info + 7) / 8)) by lia.
  case_match eqn:Efit.
  - apply andb_prop in Efit as [Efit E64]. apply andb_prop in Efit as [E0 _]. apply Z.ltb_lt in E0. apply Z.leb_le in E64.
    assert (H512 : report_bits info <= 512) by (revert E64; case_match; intros E64; rewrite ?u16_small in E64 by lia; Z.div_mod_to_equations; lia).
    eapply (put_idle i _ _ d); [done|done|done| |done|].
    + destruct Hs. constructor; try done. intros _. by apply Hf.
    + intros s4 H4 _ Hd4. apply Hdone. split; [done|]. eexists. split_and!; [exact Hd4|done|done| |cbn; lia]. destruct Hs. constructor; try done. intros _. by apply Hf.
  - eapply (put_idle i _ _ d); [done|done|done|destruct Hs; constructor; try done; cbn; congruence|done|]. intros s4 H4 _ Hd4. apply Hdone. split; [done|].
    eexists. split_and!; [exact Hd4|done|done| |cbn; congruence]. destruct Hs; constructor; try done; cbn; congruence.
Qed.
Lemma clamp_len_ok m : 0 <= clamp_len m <= 64.
Proof. unfold clamp_len. bdestr; lia. Qed.
Lemma find_free_ok s : inv s -> exists r, hid_boot_kbd_find_free_slot s = Ok (r, s) /\ (r = -1 \/ exists i d, r = Z.of_nat i /\ kbds s !! i = Some d /\ active d = false).
Proof.
  intros _. unfold hid_boot_kbd_find_free_slot, bind, get. eexists. split; [done|]. destruct (list_find _ _) as [[i d]|] eqn:Ef; [|by left]. right.
  apply list_find_Some in Ef as (Hd & Ha & _). by exists i, d.
Qed.
Lemma add_device_ok at_ ep0 iface ep mps interval len garbage s : inv s -> Forall is_u8 garbage -> (0 < len -> Z.of_nat (length garbage) = len) ->
  wp False (hid_boot_kbd_add_device set_ignore at_ ep0 iface ep mps interval len garbage) (fun _ s' => inv s') s.
Proof.
  intros Hinv Hu Hl. unfold hid_boot_kbd_add_device. case_match eqn:Ek0; [by apply wp_ret|]. case_match eqn:Ek1; [by apply wp_ret|]. apply wp_bind. destruct (find_free_ok s Hinv) as (r & Er & Hr).
  eapply wp_ok; [exact Er|]. destruct Hr as [->|(i & d & -> & Hd & Ha)]; [by apply wp_ret|]. rewrite (proj2 (Z.ltb_ge _ _)) by lia. apply wp_bind.
  set (m := if negb (mps =? 0) then mps else 8). eapply (wp_mono _ _ (fun _ s1 => inv s1 /\ kbds s1 = kbds s)).
  { case_match; [|by apply wp_ret]. eapply calm_inv; [done|apply configure_law|]. done. }
  intros c s1 [H1 Hk1]. case_match eqn:Ek2; [by apply wp_ret|]. apply wp_bind. eapply (put_idle i _ s1 d); [done|by rewrite Hk1|done|apply shape0; try done; by apply Forall_replicate|done|].
  intros s2 H2 _ Hd2. apply wp_bind. eapply wp_mono; [apply (choose_report_ok i (Ident at_ iface (Z.land ep 0x0F) m interval) ep0 len); [| |done|done]|].
  { split; [done|]. eexists. split_and!; [exact Hd2|done|done| |done]. apply shape0; try done. by apply Forall_replicate. }
  { intros d' Hd'. rewrite Hd2 in Hd'. by injection Hd' as <-. }
  intros ? s3 (H3 & d3 & Hd3 & Hid3 & Ha3 & Hs3 & Hlen3). apply (get_inv i s3 d3); [done|]. apply wp_bind.
  eapply (wp_mono _ _ (fun _ s4 => inv s4 /\ exists d4, kbds s4 !! i = Some d4 /\ active d4 = false /\ dev_shape d4 /\ 0 <= buf_len d4 <= 64)).
  { destruct (report_proto d3) eqn:Ep; cbn [negb]; [apply wp_ret; split; [done|]; exists d3; split_and!; try done; by apply Hlen3|].
    assert (Hs4 : dev_shape (set_report false (report d3) (clamp_len m) d3)) by (destruct Hs3; by constructor).
    eapply (put_idle i _ s3 d3); [done|done|done|exact Hs4|done|]. intros s4 H4 _ Hd4. split; [done|]. eexists. split_and!; [exact Hd4|done|exact Hs4|apply clamp_len_ok..]. }
  intros ? s4 (H4 & d4 & Hd4 & Ha4 & Hs4 & Hlen4).
  assert (Hctl : forall {A} at_ ep0 setup (k : bool * list Z -> K A) s Q, inv s -> kbds s !! i = Some d4 ->
    (forall r s', inv s' -> kbds s' !! i = Some d4 -> wp False (k r) Q s') -> wp False (r <- usb_control at_ ep0 setup [];; k r) Q s).
  { intros A at1 ep1 setup k s5 Q H5 Hd5 HQ. apply wp_bind. apply control_ok; [done|done|]. intros r e He _ _. by apply HQ. }
  apply wp_bind. unfold hid_set_idle. apply Hctl; [done|done|]. intros ? s5 H5 Hd5. apply wp_ret, wp_bind. unfold hid_set_protocol. apply Hctl; [done|done|]. intros ? s6 H6 Hd6. apply wp_ret.
  apply (get_inv i s6 d4); [done|]. apply wp_bind.
  eapply (wp_mono _ _ (fun ok s7 => kbds s7 = kbds s6 /\ kbd_count s7 = kbd_count s6 /\ ignored (env s7) = ignored (env s6) /\
    (forall y, y <> KbdIn (Z.of_nat i) -> armed (env s7) y = armed (env s6) y) /\ (ok = true -> armed (env s7) (KbdIn (Z.of_nat i)) = Some (buf_len d4)))).
  { case_match; [|apply wp_ret; by split_and!]. eapply wp_kbd_hc; [apply init_law|]. intros ok e [[Ho _ Hg] Harm]. by split_and!. }
  intros ok s7 (Hk7 & Hc7 & Hg7 & Ho7 & Harm7). pose proof H6 as [Hok6 Ht6]. destruct ok; cbn [negb].
  - apply wp_bind. eapply wp_calm; [apply tick_law|]. intros t e Hq _. apply wp_bind. eapply (wp_putd _ _ _ _ d4); [rewrite lget_lookup, Nat2Z.id by lia; cbn [kbds]; by rewrite Hk7|]. cbn [kbds kbd_count env].
    apply wp_bind, wp_modify. cbn [kbds kbd_count env]. rewrite Nat2Z.id, Hk7, Hc7. set (d8 := set_tick t (set_active true d4)).
    assert (Hs8 : dev_shape d8) by (destruct Hs4; by constructor).
    pose proof (ok_replace s6 i d4 d8 e Hok6 Hd6 Hs8) as Hok8. rewrite Ha4 in Hok8. cbn [active d8 set_tick set_active] in Hok8. rewrite Z.sub_0_r in Hok8.
    apply wp_bind. eapply wp_mono; [apply refresh_ok, Hok8|].
    + intros y Hy. by rewrite (q_armed _ _ Hq), Ho7.
    + intros _. rewrite (q_armed _ _ Hq), Harm7 by done. done.
    + intros ? s9 [H9 _]. by apply wp_ret.
  - apply wp_bind. eapply (wp_putd _ _ _ _ d4); [rewrite lget_lookup, Nat2Z.id, Hk7 by lia; done|]. apply wp_ret. rewrite Nat2Z.id, Hk7, Hc7.
    pose proof (ok_replace s6 i d4 dev0 (env s7) Hok6 Hd6 shape_dev0 Ho7 ltac:(done)) as Hok8. rewrite Ha4 in Hok8. cbn [active dev0] in Hok8. rewrite Z.sub_0_r, Z.add_0_r in Hok8.
    split; [done|]. unfold tuned in *. cbn [env kbds]. rewrite Hg7, Ht6, insert_take_drop by (by apply lookup_lt_Some in Hd6). rewrite <-(take_drop_middle _ _ _ Hd6) at 1. rewrite !existsb_app. cbn [existsb]. by rewrite Ha4.
Qed.

(** ** Any sequence of operations *)

Inductive op :=
| OInit
| OAdd (at_ : place) (ep0 iface ep mps interval len : Z) (garbage : list Z)
| OPoll (stack : list Z)
| ODropDevice (hc dev : Z)
| ODropController (hc : Z).
(** The buffers that an operation finds: one of the length asked for, and an array of 16 *)
Definition op_ok (o : op) : Prop :=
  match o with
  | OAdd _ _ _ _ _ _ len garbage => Forall is_u8 garbage /\ Z.of_nat (length garbage) = len
  | OPoll stack => length stack = 16%nat
  | _ => True
  end.
Definition run_op (o : op) : K unit :=
  match o with
  | OInit => hid_boot_kbd_init set_ignore
  | OAdd at_ ep0 iface ep mps interval len garbage => hid_boot_kbd_add_device set_ignore at_ ep0 iface ep mps interval len garbage;;; ret tt
  | OPoll stack => hid_boot_kbd_poll inject set_ignore (S burst) stack
  | ODropDevice hc dev => hid_boot_kbd_drop_device set_ignore hc dev
  | ODropController hc => hid_boot_kbd_drop_controller set_ignore hc
  end.
Fixpoint run_ops (l : list op) : K unit := match l with [] => ret tt | o :: l' => run_op o;;; run_ops l' end.
Lemma run_op_ok o s : op_ok o -> inv s -> wp False (run_op o) (fun _ s' => inv s') s.
Proof.
  intros Ho Hi. destruct o as [|at_ ep0 iface ep mps interval len garbage|stack|hc dev|hc]; cbn [run_op op_ok] in *.
  - destruct Hi as [[] _]. by apply init_ok.
  - destruct Ho as [Hu Hl]. apply wp_bind. eapply wp_mono; [by apply add_device_ok|]. intros ? s' H'. by apply wp_ret.
  - apply (poll_all_ok (S burst) stack HID_KBD_MAX_DEVS Ho (Nat.lt_succ_diag_r burst) 0); done.
  - unfold hid_boot_kbd_drop_device. case_match; [by apply wp_ret|]. by apply (drop_loop_ok _ HID_KBD_MAX_DEVS 0).
  - unfold hid_boot_kbd_drop_controller. case_match; [by apply wp_ret|]. by apply (drop_loop_ok _ HID_KBD_MAX_DEVS 0).
Qed.

End frame.

(** C32: Whatever descriptors and reports the devices send, any sequence of additions, polls and
    removals of USB keyboards ends, without an access outside the buffers and tables; at most four
    keyboards are active, kbd_count is their number, every active one has its transfer running into
    its buffer of at most 64 bytes, and the PS/2 port is ignored exactly while there is one. *)
Theorem usb_kbd_safe l e : ignored e = false -> Forall op_ok l ->
  wp False (run_ops l) (fun _ s' =>
    length (kbds s') = 4%nat /\ kbd_count s' = Z.of_nat (length (filter (fun d => active d = true) (kbds s'))) /\
    (forall i d, kbds s' !! i = Some d -> active d = true -> armed (env s') (KbdIn (Z.of_nat i)) = Some (buf_len d) /\ 0 <= buf_len d <= 64) /\
    ignored (env s') = existsb active (kbds s')) (usb_kbd0 e).
Proof.
  intros He Hl. eapply (wp_mono _ _ (fun _ s' => inv (mice := fun slot n => armed e (HidIn slot n)) s')).
  - assert (H0 : inv (mice := fun slot n => armed e (HidIn slot n)) (usb_kbd0 e)).
    { split; [|done]. constructor; [done| |done|done]. cbn [kbds env usb_kbd0]. intros i d Hd. apply lookup_replicate in Hd as [-> _]. split; [apply shape_dev0|done]. }
    revert H0. generalize (usb_kbd0 e), (fun slot n => armed e (HidIn slot n)). clear He. intros s mice. revert s. induction Hl as [|o l Ho Hl IH]; intros s Hi; cbn [run_ops]; [by apply wp_ret|]. apply wp_bind.
    eapply wp_mono; [by apply (run_op_ok (mice := mice))|]. intros ? s' H'. by apply IH.
  - intros ? s' [[Hlen Hd Hc _] Ht]. split_and!; [done|done| |done]. intros i d Hi Ha. by apply (Hd i d Hi).
Qed.
End ops.
End UsbKbdClaims.
