(* ===== verification/UsbKbdKeys.v ===== *)
(** * USB keyboards: the keys that are down

    keyboard.c sees a keyboard as a stream of scan codes; [follow] reads from such a stream which keys
    are down.  The codes that the driver sends for a sequence of reports say that the keys of the last
    report are down.  Then a controller with one keyboard on which the driver is run. *)
From S2P Require Import Prelude UsbHc HidParse UsbKbd UsbKbdSafe UsbKbdClaims.
From stdpp Require Import gmap.
Local Open Scope Z_scope.

Module UsbKbdKeys.
Import UsbHc HidParse UsbKbd UsbKbdSafe UsbKbdClaims.

(** ** A stream of scan codes *)

(** The prefix that was seen, and the keys that are down *)
Definition follow_step (st : Z * gset (Z * Z)) (c : Z) : Z * gset (Z * Z) :=
  if c =? 0xE0 then (0xE0, snd st)
  else if 0x80 <=? c then (0, snd st ∖ {[(fst st, c - 0x80)]})
  else (0, {[(fst st, c)]} ∪ snd st).
Definition follow_from (st : Z * gset (Z * Z)) (l : list Z) : Z * gset (Z * Z) := fold_left follow_step l st.
Definition follow (l : list Z) : Z * gset (Z * Z) := follow_from (0, ∅) l.
Lemma follow_app st l1 l2 : follow_from st (l1 ++ l2) = follow_from (follow_from st l1) l2.
Proof. apply fold_left_app. Qed.

(** The keys of a report *)
Definition codes (X : list Z) : gset (Z * Z) := list_to_set (omap hid_usage_to_set1 X).
Definition mod_set (l : list (Z * (Z * Z))) (m : Z) : gset (Z * Z) := list_to_set (snd <$> filter (fun bc => Z.testbit m (fst bc) = true) l).
Definition held (m : Z) (X : list Z) : gset (Z * Z) := mod_set mods m ∪ codes X.
Lemma elem_codes c X : c ∈ codes X <-> exists k, k ∈ X /\ hid_usage_to_set1 k = Some c.
Proof. unfold codes. rewrite elem_of_list_to_set, list_elem_of_omap. done. Qed.
Lemma elem_mod_set l m c : c ∈ mod_set l m <-> exists b, (b, c) ∈ l /\ Z.testbit m b = true.
Proof.
  unfold mod_set. rewrite elem_of_list_to_set, list_elem_of_fmap. setoid_rewrite list_elem_of_filter. split.
  - intros ([b c'] & -> & ? & ?). by exists b.
  - intros (b & ? & ?). by exists (b, c).
Qed.

(** ** The tables *)

Definition wire (c : Z * Z) : bool := ((fst c =? 0) || (fst c =? 0xE0)) && (0 <=? snd c) && (snd c <? 128) && negb (snd c =? 0x60).
Lemma assoc_elem l u r : assoc l u = Some r -> (u, r) ∈ l.
Proof. induction l as [|[v c] l IH]; [done|]. cbn [assoc]. destruct (Z.eqb_spec v u) as [->|]; [intros [= ->]; left|]. intros H. right. by apply IH. Qed.
Lemma set1_table k c : hid_usage_to_set1 k = Some c -> wire c = true /\ (c ∉ (snd <$> mods)) /\ 3 < k.
Proof.
  intros Hk. apply assoc_elem in Hk.
  assert (Ht : Forall (fun kc => wire (snd kc) = true /\ (snd kc ∉ (snd <$> mods)) /\ 3 < fst kc) hid_set1_map) by (apply (bool_decide_unpack _); vm_compute; exact I).
  rewrite list.Forall_forall in Ht. exact (Ht (k, c) Hk).
Qed.
(** Only the keys 0x32 and 0x64 share a code. *)
Definition one_iso (l : list Z) : Prop := ~ (0x32 ∈ l /\ 0x64 ∈ l).
#[global] Instance one_iso_dec l : Decision (one_iso l).
Proof. unfold one_iso. apply _. Defined.
Lemma set1_inj k1 k2 c : hid_usage_to_set1 k1 = Some c -> hid_usage_to_set1 k2 = Some c -> k1 = k2 \/ (k1 = 0x32 /\ k2 = 0x64) \/ (k1 = 0x64 /\ k2 = 0x32).
Proof.
  intros H1%assoc_elem H2%assoc_elem.
  assert (Ht : Forall (fun a => Forall (fun b => snd a = snd b -> fst a = fst b \/ (fst a = 0x32 /\ fst b = 0x64) \/ (fst a = 0x64 /\ fst b = 0x32)) hid_set1_map) hid_set1_map)
    by (apply (bool_decide_unpack _); vm_compute; exact I).
  rewrite list.Forall_forall in Ht. specialize (Ht _ H1). rewrite list.Forall_forall in Ht. by apply (Ht _ H2).
Qed.
Lemma mods_wire b c : (b, c) ∈ mods -> wire c = true.
Proof.
  intros H. assert (Ht : Forall (fun bc => wire (snd bc) = true) mods) by (apply (bool_decide_unpack _); vm_compute; exact I). rewrite list.Forall_forall in Ht. by apply (Ht _ H).
Qed.
Lemma mods_nodup : NoDup (snd <$> mods).
Proof. apply (bool_decide_unpack _). vm_compute. exact I. Qed.

(** ** The codes of a key, of the modifiers and of a report *)

Lemma lor_128 sc : 0 <= sc < 128 -> Z.lor sc 0x80 = sc + 128.
Proof.
  intros H. assert (Ht : Forall (fun n => Z.lor (Z.of_nat n) 0x80 = Z.of_nat n + 128) (seq 0 128)) by (apply (bool_decide_unpack _); vm_compute; exact I).
  rewrite list.Forall_forall in Ht. specialize (Ht (Z.to_nat sc)). rewrite Z2Nat.id in Ht by lia. apply Ht. apply elem_of_seq. lia.
Qed.
Lemma follow_scan c make D : wire c = true -> follow_from (0, D) (scan c make) = (0, if make then {[c]} ∪ D else D ∖ {[c]}).
Proof.
  destruct c as [p sc]. unfold wire. rewrite !andb_true_iff, orb_true_iff, negb_true_iff, !Z.eqb_eq, Z.eqb_neq, Z.leb_le, Z.ltb_lt. cbn [fst snd]. intros [[[Hp H0] H1] Hne].
  assert (Hlast : forall q, follow_step (q, D) (if make then sc else Z.lor sc 0x80) = (0, if make then {[(q, sc)]} ∪ D else D ∖ {[(q, sc)]})).
  { intros q. unfold follow_step. cbn [fst snd]. destruct make.
    - rewrite (proj2 (Z.eqb_neq _ _)), (proj2 (Z.leb_gt _ _)) by lia. done.
    - rewrite lor_128, (proj2 (Z.eqb_neq _ _)), (proj2 (Z.leb_le _ _)) by lia. by replace (sc + 128 - 0x80) with sc by lia. }
  unfold scan. cbn [fst snd]. destruct Hp as [Hp|Hp]; subst p; cbn [Z.eqb app follow_from fold_left]; apply Hlast.
Qed.
Lemma follow_code k make D : follow_from (0, D) (code_of k make) = (0, if make then codes [k] ∪ D else D ∖ codes [k]).
Proof.
  unfold code_of. destruct (hid_usage_to_set1 k) as [c|] eqn:Ek.
  - rewrite follow_scan by (by apply (set1_table k)). f_equal. assert (codes [k] = {[c]}) as -> by (apply set_eq; intros x; rewrite elem_codes, elem_of_singleton; split; [intros (k' & ->%list_elem_of_singleton & E'); congruence|intros ->; exists k; by split; [apply list_elem_of_singleton|]]). done.
  - cbn [follow_from fold_left]. assert (codes [k] = ∅) as -> by (apply set_eq; intros x; rewrite elem_codes; split; [intros (k' & ->%list_elem_of_singleton & E'); congruence|set_solver]). f_equal. destruct make; set_solver.
Qed.
Lemma follow_mods l changed cur : forall D, (forall b c, (b, c) ∈ l -> wire c = true) -> NoDup (snd <$> l) ->
  exists D', follow_from (0, D) (mod_codes l changed cur) = (0, D') /\ (forall c, c ∉ (snd <$> l) -> c ∈ D' <-> c ∈ D) /\
    (forall b c, (b, c) ∈ l -> c ∈ D' <-> if Z.testbit changed b then Z.testbit cur b = true else c ∈ D).
Proof.
  induction l as [|[b c] l IH]; intros D Hw Hnd; [exists D; split_and!; [done|done|by intros ? ? ?%elem_of_nil]|].
  apply NoDup_cons in Hnd as [Hn Hnd]. cbn [snd] in Hn. cbn [mod_codes flat_map]. rewrite follow_app. set (D1 := if Z.testbit changed b then if Z.testbit cur b then {[c]} ∪ D else D ∖ {[c]} else D).
  assert (E1 : follow_from (0, D) (if Z.testbit changed b then scan c (Z.testbit cur b) else []) = (0, D1)).
  { unfold D1. destruct (Z.testbit changed b); [|done]. apply follow_scan. apply (Hw b). left. }
  rewrite E1. destruct (IH D1) as (D' & E' & Hout & Hin); [intros b' c' H'; apply (Hw b'); by right|done|]. exists D'. split; [exact E'|]. split.
  - intros c' Hc'. rewrite fmap_cons, not_elem_of_cons in Hc'. destruct Hc' as [Hne Hc']. rewrite Hout by done. cbn [snd] in Hne. unfold D1. repeat case_match; set_solver.
  - intros b' c' Hx. apply elem_of_cons in Hx as [Hx|Hin']; [injection Hx as -> ->|].
    + rewrite Hout by done. unfold D1. repeat case_match; set_solver.
    + rewrite (Hin b' c') by done. destruct (Z.testbit changed b'); [done|]. assert (c' <> c) by (intros ->; apply Hn, list_elem_of_fmap; by exists (b', c)). unfold D1. repeat case_match; set_solver.
Qed.
Lemma follow_released P R : forall D, follow_from (0, D) (released P R) = (0, D ∖ codes (filter (fun k => k ∉ R) P)).
Proof.
  induction P as [|k P IH]; intros D; [cbn; f_equal; set_solver|]. cbn [released flat_map]. fold (released P R). rewrite follow_app, list.filter_cons.
  destruct (Z.eqb_spec k 0) as [->|Hne]; cbn [orb].
  - cbn [follow_from fold_left] in *. fold (follow_from (0, D)). rewrite IH. f_equal. case_decide; [|done]. assert (codes (0 :: filter (fun k => k ∉ R) P) = codes (filter (fun k => k ∉ R) P)) as ->; done.
  - case_bool_decide; [rewrite decide_False by tauto; apply IH|]. rewrite decide_True by done. rewrite follow_code, IH. f_equal.
    apply set_eq. intros c. rewrite !elem_of_difference, !elem_codes. set_solver.
Qed.
Lemma follow_pressed R P : forall D, follow_from (0, D) (pressed R P) = (0, D ∪ codes (filter (fun k => k ∉ P) R)).
Proof.
  induction R as [|k R IH]; intros D; [cbn; f_equal; set_solver|]. cbn [pressed flat_map]. fold (pressed R P). rewrite follow_app, list.filter_cons.
  destruct ((k =? 0) || (k <=? 3)) eqn:Ek; cbn [orb].
  - cbn [follow_from fold_left] in *. fold (follow_from (0, D)). rewrite IH. f_equal. case_decide; [|done].
    assert (Hno : hid_usage_to_set1 k = None). { destruct (hid_usage_to_set1 k) as [c|] eqn:E; [|done]. apply set1_table in E as (_ & _ & ?). rewrite orb_true_iff, Z.eqb_eq, Z.leb_le in Ek. lia. }
    f_equal. apply set_eq. intros c. rewrite !elem_codes. split; intros (k' & Hk' & E'); [exists k'; by split; [right|]|]. apply elem_of_cons in Hk' as [->|?]; [congruence|by exists k'].
  - case_bool_decide; [rewrite decide_False by tauto; apply IH|]. rewrite decide_True by done. rewrite follow_code, IH. f_equal.
    apply set_eq. intros c. rewrite !elem_of_union, !elem_codes. set_solver.
Qed.
(** The codes sent between two reports *)
Lemma follow_diff pm m P R : one_iso P -> follow_from (0, held pm P) (diff_codes pm m P R) = (0, held m R).
Proof.
  intros HP. unfold diff_codes. rewrite !follow_app. destruct (follow_mods mods (Z.lxor m pm) m (held pm P) mods_wire mods_nodup) as (D & -> & Hout & Hin).
  rewrite follow_released, follow_pressed. f_equal. apply set_eq. intros c. rewrite elem_of_union, elem_of_difference. unfold held in *.
  destruct (decide (c ∈ (snd <$> mods))) as [Hm|Hm].
  - apply list_elem_of_fmap in Hm as ([b c'] & -> & Hb). cbn [snd]. assert (Hno : forall X, c' ∉ codes X).
    { intros X (k & _ & Hk)%elem_codes. apply set1_table in Hk as (_ & Hk & _). apply Hk, list_elem_of_fmap. by exists (b, c'). }
    assert (Huniq : forall x, c' ∈ mod_set mods x <-> Z.testbit x b = true).
    { intros x. rewrite elem_mod_set. split; [|intros; by exists b]. intros (b' & Hb' & Hx). enough (b' = b) as -> by done. clear -Hb Hb'.
      assert (Ht : Forall (fun a => Forall (fun d => snd a = snd d -> fst a = fst d) mods) mods) by (apply (bool_decide_unpack _); vm_compute; exact I).
      rewrite list.Forall_forall in Ht. specialize (Ht _ Hb'). rewrite list.Forall_forall in Ht. by apply (Ht _ Hb). }
    specialize (Hin b c' Hb). rewrite Z.lxor_spec in Hin. assert (HD : c' ∈ D <-> Z.testbit m b = true).
    { rewrite Hin. destruct (Z.testbit m b) eqn:Em, (Z.testbit pm b) eqn:Ep; cbn [xorb]; try reflexivity; rewrite elem_of_union, Huniq, Ep; specialize (Hno P); tauto. }
    rewrite elem_of_union, Huniq, HD. pose proof (Hno R). pose proof (Hno (filter (fun k => k ∉ R) P)). pose proof (Hno (filter (fun k => k ∉ P) R)). tauto.
  - rewrite Hout by done. assert (Hno : forall x, c ∉ mod_set mods x) by (intros x (b & Hb & _)%elem_mod_set; apply Hm, list_elem_of_fmap; by exists (b, c)).
    rewrite !elem_of_union, !elem_codes. setoid_rewrite list_elem_of_filter. split.
    + intros [[[Hx|(k & Hk & Ek)] Hrel]|(k & [_ Hk] & Ek)]; [by apply Hno in Hx| |right; by exists k]. right. exists k. split; [|done]. destruct (decide (k ∈ R)) as [|Hn]; [done|]. exfalso. apply Hrel. by exists k.
    + intros [Hx|(k & Hk & Ek)]; [by apply Hno in Hx|]. destruct (decide (k ∈ P)) as [Hkp|Hkp]; [left|right; by exists k]. split; [right; by exists k|].
      intros (k' & [Hn' Hk'] & Ek'). destruct (set1_inj k k' c Ek Ek') as [<-|[[-> ->]|[-> ->]]]; [done|by apply HP..].
Qed.

(** ** A keyboard in the boot protocol *)

Section events.
Context {E : Type} {HC : UsbHc E} {WA : Watch E}.
Abbreviation K A := (M (usb_kbd E) A).
Context {inject : Z -> K unit} {set_ignore : bool -> K unit} {UW : UsbWorld inject set_ignore}.

(** A report arrives in the buffer of keyboard i, or its key is repeated. *)
Inductive event := EReport (rep : list Z) (actual : Z) | ERepeat.
Definition event_ok (ev : event) : Prop := match ev with EReport rep _ => length rep = 64%nat /\ Forall is_u8 rep /\ one_iso (keys6 rep) | ERepeat => True end.
Definition run_event (i : nat) (ev : event) : K unit :=
  match ev with
  | EReport rep actual => putd (Z.of_nat i) (set_buf rep);;; process_report_boot inject (Z.of_nat i) actual
  | ERepeat => repeat_tick inject (Z.of_nat i)
  end.
Fixpoint run_events (i : nat) (l : list event) : K unit := match l with [] => ret tt | ev :: l' => run_event i ev;;; run_events i l' end.
(** The last report that is complete and no error report *)
Definition accept (p : list Z) (ev : event) : list Z :=
  match ev with EReport rep actual => if (actual <? 8) || rollover rep then p else take 8 rep | ERepeat => p end.
(** What is known of keyboard i when p was its last report *)
Record seen (i : nat) (p : list Z) (s : usb_kbd E) : Prop := {
  sn_dev : exists d, kbds s !! i = Some d /\ dev_shape d /\ report_proto d = false /\ prev_report (prev d) = p;
  sn_iso : one_iso (keys6 p);
  sn_down : follow (sent (env s)) = (0, held (hd 0 p) (keys6 p));
}.
Lemma keys6_take rep : keys6 (take 8 rep) = keys6 rep.
Proof. unfold keys6. rewrite skipn_firstn_comm. change (8 - 2)%nat with 6%nat. by rewrite take_take. Qed.
Lemma event_seen i p ev s : event_ok ev -> seen i p s -> wp False (run_event i ev) (fun _ s' => seen i (accept p ev) s') s.
Proof.
  intros Hev [(d & Hd & Hs & Hp & Ep) Hiso Hdown]. destruct ev as [rep actual|]; cbn [run_event accept event_ok] in *.
  - destruct Hev as (Hl & Hu & Hr). apply wp_bind. eapply wp_putd; [rewrite lget_lookup, Nat2Z.id by lia; exact Hd|]. rewrite Nat2Z.id. set (s1 := UsbKbd (<[i := set_buf rep d]> (kbds s)) (kbd_count s) (env s)).
    pose proof (lookup_lt_Some _ _ _ Hd) as Hlt. assert (Hd1 : kbds s1 !! i = Some (set_buf rep d)) by (by apply list_lookup_insert_eq).
    assert (Hs1 : dev_shape (set_buf rep d)) by (destruct Hs; by constructor). eapply wp_mono; [by apply process_boot_ok|]. intros ? s2 (r & Hrk & Hk & _ & _ & _ & _ & Hsent).
    assert (Hlt1 : (i < length (kbds s1))%nat) by (by apply lookup_lt_Some in Hd1). unfold boot_step in *. cbn [buf set_buf prev] in *. rewrite Ep in *.
    destruct ((actual <? 8) || rollover rep); cbn [fst snd] in *.
    + constructor; [|done|by rewrite Hsent, app_nil_r]. eexists. rewrite Hk, list_lookup_insert_eq by done. split_and!; [done|destruct Hs1; by constructor|done|done].
    + constructor.
      * eexists. rewrite Hk, list_lookup_insert_eq by done. split_and!; [done| |done|done]. destruct Hs1. constructor; try done. cbn. rewrite length_take. lia.
      * by rewrite keys6_take.
      * unfold follow in *. rewrite Hsent, follow_app. cbn [env s1]. rewrite Hdown, follow_diff by done. rewrite keys6_take. destruct rep; [done|]. done.
  - eapply wp_mono; [by apply (repeat_tick_ok i s d)|]. intros ? s' [Hn (c & Hc & Hrc)]. destruct (near_dev _ _ _ _ Hn Hd) as (r & Hr & Hd'). constructor; [|done|].
    + exists (set_rpt r d). split_and!; [done|by apply rpt_shape|done|done].
    + unfold follow in *. rewrite Hc, follow_app, Hdown. destruct Hrc as [->|(k & -> & Hk)]; [done|]. rewrite Hp, Ep in Hk. rewrite follow_code. f_equal.
      apply set_eq. intros x. unfold held. rewrite !elem_of_union, !elem_codes. setoid_rewrite list_elem_of_singleton. set_solver.
Qed.

(** C33: The scan codes that a keyboard in the boot protocol sends to keyboard.c, read from the first
    one on, say after any sequence of repetitions and of reports, none of which names both of the keys
    0x32 and 0x64, that exactly the keys and modifiers of the last accepted report are down: no key is
    lost and none stays down.  Reports that are too short or that tell of too many keys change nothing.
    (0x32 and 0x64 have the same scan code: [iso_keys_share_code].) *)
Theorem usb_keys_follow_reports i p l (s : usb_kbd E) : seen i p s -> Forall event_ok l ->
  wp False (run_events i l) (fun _ s' =>
    let p' := fold_left accept l p in follow (sent (env s')) = (0, held (hd 0 p') (keys6 p')) /\
    exists d, kbds s' !! i = Some d /\ prev_report (prev d) = p') s.
Proof.
  intros Hs Hl. revert p s Hs. induction Hl as [|ev l Hev Hl IH]; intros p s Hs; cbn [run_events fold_left].
  - apply wp_ret. destruct Hs as [(d & Hd & _ & _ & Ep) _ Hdown]. split; [done|]. by exists d.
  - apply wp_bind. eapply wp_mono; [by apply event_seen|]. intros ? s' H'. by apply IH.
Qed.
End events.

(** ** A controller with a keyboard *)

Record toy := Toy { t_armed : usb_async_in_t -> option Z; t_desc : list Z; t_queue : list (list Z); t_sent : list Z; t_ignored : bool; t_now : Z }.
#[global] Instance in_eq_dec : EqDecision usb_async_in_t.
Proof. solve_decision. Defined.
Definition toy_arm (x : usb_async_in_t) (v : option Z) (e : toy) : toy :=
  Toy (fun y => if decide (y = x) then v else t_armed e y) (t_desc e) (t_queue e) (t_sent e) (t_ignored e) (t_now e).
Definition all_ops : usb_hc_ops_t := Ops true true true true true true true true true true true true.
#[global] Instance toy_hc : UsbHc toy := {
  ops _ := Some all_ops;
  control_transfer _ _ _ _ data := e <- get;; ret (true, u8 <$> take (length data) (t_desc e ++ replicate (length data) 0));
  bulk_transfer _ _ _ _ _ data := ret (false, data);
  async_in_init _ x _ _ _ len := modify (toy_arm x (Some len));;; ret true;
  async_in_check _ x := fun e =>
    match t_armed e x, take 8 (t_queue e) with
    | Some n, rep :: q => let r := u8 <$> take (Z.to_nat n) rep in Ok ((1, Z.of_nat (length r), r), Toy (t_armed e) (t_desc e) q (t_sent e) (t_ignored e) (t_now e))
    | _, _ => Ok ((0, 0, []), e)
    end;
  async_in_rearm _ _ := ret tt;
  async_in_cancel _ x := modify (toy_arm x None);
  configure_endpoint _ _ _ _ _ _ _ := ret true;
  enum_open _ _ _ := ret None;
  enum_set_address _ _ _ := ret (false, 0);
  enum_close _ _ := ret tt;
  alloc_address _ := ret 1;
  reset_address_allocator _ := ret tt;
  tick := e <- get;; ret (u32 (t_now e));
  kmalloc _ := ret 4096;
  kfree _ := ret tt;
}.
#[global] Instance toy_watch : Watch toy := {
  armed := t_armed; pending e _ := length (take 8 (t_queue e)); sent := t_sent; ignored := t_ignored; burst := 8;
}.
Definition toy_inject (sc : Z) : M (usb_kbd toy) unit :=
  modify (fun s => UsbKbd (kbds s) (kbd_count s) (Toy (t_armed (env s)) (t_desc (env s)) (t_queue (env s)) (t_sent (env s) ++ [sc]) (t_ignored (env s)) (t_now (env s)))).
Definition toy_ignore (b : bool) : M (usb_kbd toy) unit :=
  modify (fun s => UsbKbd (kbds s) (kbd_count s) (Toy (t_armed (env s)) (t_desc (env s)) (t_queue (env s)) (t_sent (env s)) b (t_now (env s)))).
Lemma u8_fmap l : Forall is_u8 (u8 <$> l).
Proof. apply Forall_fmap, Forall_true. intros x. apply u8_range. Qed.
#[global] Instance toy_ok : UsbWorld toy_inject toy_ignore.
Proof.
  split; try (intros; intros e; cbn; split; [by constructor|done]); try done.
  - intros e x. cbn. rewrite length_take. lia.
  - intros at_ ep m setup data _ e. cbn. split; [by constructor|]. split; [|apply u8_fmap]. rewrite length_fmap, length_take, length_app, length_replicate. lia.
  - intros e. cbn. split; [by constructor|apply u32_range].
  - intros at_ x ep m t len e. cbn. split; [constructor; try done; intros y Hy; cbn; by rewrite decide_False|]. intros _. by rewrite decide_True.
  - intros hc x e. cbn. constructor; try done. intros y Hy. cbn. by rewrite decide_False.
  - intros hc x e n Hn H0. unfold wp. cbn [async_in_check toy_hc armed toy_watch pending sent ignored] in *. rewrite Hn. destruct (take 8 (t_queue e)) as [|rep q] eqn:Eq.
    + split_and!; try done; lia.
    + split_and!; try done; rewrite ?length_fmap, ?length_take; try lia; [apply u8_fmap|]. intros _. apply (Nat.le_lt_trans _ (length q)); [apply Nat.le_min_r|apply Nat.lt_succ_diag_r].
Qed.

(** The usual report descriptor of a keyboard: 8 modifiers, a reserved byte, 6 keys *)
Definition boot_desc : list Z :=
  [0x05; 0x01; 0x09; 0x06; 0xA1; 0x01; 0x05; 0x07; 0x19; 0xE0; 0x29; 0xE7; 0x15; 0x00; 0x25; 0x01; 0x75; 0x01; 0x95; 0x08; 0x81; 0x02;
   0x95; 0x01; 0x75; 0x08; 0x81; 0x03; 0x95; 0x06; 0x75; 0x08; 0x15; 0x00; 0x25; 0x65; 0x05; 0x07; 0x19; 0x00; 0x29; 0x65; 0x81; 0x00; 0xC0].
Definition toy0 (q : list (list Z)) : toy := Toy (fun _ => None) boot_desc q [] false 7.
Definition toy_place : place := Place 1 5 USB_SPEED_LOW 0 0.
(** Shift and a key go down, the key goes up, then Shift. *)
Definition typed : list (list Z) := [[2; 0; 4; 0; 0; 0; 0; 0]; [2; 0; 0; 0; 0; 0; 0; 0]; replicate 8 0].
Definition toy_add : op := OAdd toy_place 8 0 0x81 8 10 45 (replicate 45 0).

Example usb_kbd_safe_witness :
  wp False (run_ops (inject := toy_inject) (set_ignore := toy_ignore) [toy_add; OPoll (replicate 16 0); ODropDevice 1 5]) (fun _ s' =>
    length (kbds s') = 4%nat /\ kbd_count s' = Z.of_nat (length (filter (fun d => active d = true) (kbds s'))) /\
    (forall i d, kbds s' !! i = Some d -> active d = true -> armed (env s') (KbdIn (Z.of_nat i)) = Some (buf_len d) /\ 0 <= buf_len d <= 64) /\
    ignored (env s') = existsb active (kbds s')) (usb_kbd0 (toy0 typed)).
Proof.
  apply (usb_kbd_safe (inject := toy_inject) (set_ignore := toy_ignore)); [done|]. repeat constructor; cbn; try done; apply u8_list; vm_compute; reflexivity.
Defined.
(** The report descriptor is used, and the codes are those of the two keys. *)
Example typed_codes :
  let s := final (run_ops (inject := toy_inject) (set_ignore := toy_ignore) [toy_add; OPoll (replicate 16 0)] (usb_kbd0 (toy0 typed))) (usb_kbd0 (toy0 [])) in
  (report_proto <$> (kbds s !! 0%nat)) = Some true /\ t_sent (env s) = [0x2A; 0x1E; 0x9E; 0xAA] /\ t_ignored (env s) = true.
Proof. vm_compute. done. Qed.
Definition toy_dev : hid_kbd_dev_t := Dev (Ident toy_place 0 1 8 10) (replicate 64 0) 8 before0 false info0 true repeat0 0.
Definition toy_kbd (q : list (list Z)) : usb_kbd toy := UsbKbd (toy_dev :: replicate 3 dev0) 1 (toy_arm (KbdIn 0) (Some 8) (toy0 q)).
Definition pad (l : list Z) : list Z := l ++ replicate (64 - length l) 0.
Lemma toy_seen q : seen 0 (replicate 8 0) (toy_kbd q).
Proof.
  constructor; [exists toy_dev; split_and!; try done; apply shape0; try done; by apply Forall_replicate|apply (bool_decide_unpack _); vm_compute; exact I|].
  cbn [sent toy_watch env toy_kbd toy_arm toy0 t_sent]. vm_compute. reflexivity.
Qed.
Example usb_keys_follow_reports_witness :
  let l := [EReport (pad [2; 0; 4; 5; 0; 0; 0; 0]) 8; ERepeat; EReport (pad [0; 0; 1; 1; 1; 1; 1; 1]) 8; EReport (pad [0; 0; 5; 0x32; 0; 0; 0; 0]) 8] in
  wp False (run_events (inject := toy_inject) 0 l) (fun _ s' =>
    let p' := fold_left accept l (replicate 8 0) in follow (sent (env s')) = (0, held (hd 0 p') (keys6 p')) /\
    exists d, kbds s' !! 0%nat = Some d /\ prev_report (prev d) = p') (toy_kbd []).
Proof.
  intros l. apply (usb_keys_follow_reports (set_ignore := toy_ignore) 0 (replicate 8 0) l (toy_kbd [])); [apply toy_seen|].
  unfold l. repeat constructor; try (apply (bool_decide_unpack _); vm_compute; exact I); apply u8_list; vm_compute; reflexivity.
Defined.

(** ** What goes wrong *)

(** The keys 0x32 and 0x64 have the same code: when one of them is released the other one, still
    down, is released with it. *)
Example iso_keys_share_code :
  let s := final (run_events (inject := toy_inject) 0 [EReport (pad [0; 0; 0x32; 0x64]) 8; EReport (pad [0; 0; 0x64]) 8] (toy_kbd [])) (toy_kbd []) in
  (0, 0x56) ∉ (follow (t_sent (env s))).2 /\ (0, 0x56) ∈ held 0 [0x64].
Proof. split; apply (bool_decide_unpack _); vm_compute; exact I. Qed.
(** A keyboard that sends no report for more than 100 ticks, Shift being held, is taken to have all
    its keys up, but no code says so; when Shift is then released, none is sent either. *)
Definition later (s : usb_kbd toy) : usb_kbd toy :=
  UsbKbd (kbds s) (kbd_count s) (Toy (t_armed (env s)) (t_desc (env s)) [replicate 8 0] (t_sent (env s)) (t_ignored (env s)) 200).
Example shift_stays_down :
  let poll := hid_boot_kbd_poll toy_inject toy_ignore 9 (replicate 16 0) in
  let s1 := final (poll (toy_kbd [[2; 0; 0; 0; 0; 0; 0; 0]])) (toy_kbd []) in
  let s2 := final (poll (later s1)) (toy_kbd []) in
  (0, 0x2A) ∈ (follow (t_sent (env s2))).2 /\ (prev_report <$> (prev <$> (kbds s2 !! 0%nat))) = Some (replicate 8 0).
Proof. split; [apply (bool_decide_unpack _); vm_compute; exact I|vm_compute; reflexivity]. Qed.
End UsbKbdKeys.
