(* ===== verification/Usb.v ===== *)
(** * USB: requests, hubs' requests and storage (drivers/usb/usb.c)

    The state of usb.c and the mass storage devices: SCSI commands in the bulk-only transport, with
    retries.  A device is &storage_devs[i], and is read anew behind every call that may let an
    interrupt in.  The enumeration of devices and the mice are in [UsbDev].

    The controller is that of [UsbHc]; [hal_wait_for_interrupt], within which anything that an
    interrupt does may happen, acts on the whole state.  What csw held before the transfer is
    [csw_stack].  Messages are left out. *)
From S2P Require Import Prelude UsbHc HidParse UsbKbd.

Module Usb.
Import UsbHc HidParse.

Definition USB_DRIVE_BASE : Z := 4.
Definition USB_MAX_STORAGE_DEVS : Z := 4.
Definition USB_STORAGE_SETTLE_DELAY_MS : Z := 200.
Definition USB_MSC_GET_MAX_LUN_RETRIES : nat := 2.
Definition USB_MSC_GET_MAX_LUN_RETRY_DELAY_MS : Z := 20.
Definition USB_MSC_BOT_RETRIES : nat := 2.
Definition USB_MSC_BOT_RETRY_DELAY_MS : Z := 20.
Definition USB_MSC_TUR_RETRIES : nat := 5.
Definition USB_MSC_TUR_NOT_READY_DELAY_MS : Z := 50.
Definition USB_MSC_TUR_FAIL_DELAY_MS : Z := 20.
Definition USB_MSC_READ_CAPACITY_RETRIES : nat := 2.
Definition USB_MSC_READ_CAPACITY_NOT_READY_DELAY_MS : Z := 50.
Definition USB_MSC_READ_CAPACITY_FAIL_DELAY_MS : Z := 20.
Definition USB_MSC_POST_MAX_LUN_DELAY_MS : Z := 200.
Definition USB_MAX_HID_DEVS : Z := 4.
Definition MSC_CBW_SIGNATURE : Z := 0x43425355.
Definition MSC_CSW_SIGNATURE : Z := 0x53425355.
Definition USB_DESC_DEVICE : Z := 1.
Definition USB_DESC_CONFIG : Z := 2.
Definition USB_DESC_INTERFACE : Z := 4.
Definition USB_DESC_ENDPOINT : Z := 5.
Definition USB_DESC_HID : Z := 0x21.
Definition USB_DESC_HID_REPORT : Z := 0x22.
Definition USB_DESC_HUB : Z := 0x29.

(** ** State *)

Record usb_msc_dev_t := Msc {
  m_at : place; ep0_mps : Z; interface_num : Z; bulk_in_ep : Z; bulk_out_ep : Z; bulk_in_mps : Z; bulk_out_mps : Z;
  bulk_in_toggle : Z; bulk_out_toggle : Z; block_size : Z; block_count : Z; drive_id : Z; max_lun : Z;
}.
Definition msc0 : usb_msc_dev_t := Msc (Place 0 0 USB_SPEED_FULL 0 0) 0 0 0 0 0 0 0 0 0 0 0 0.
(** 0 is neither of the two kinds *)
Inductive usb_hid_kind_t := NO_KIND | USB_HID_BOOT_KBD | USB_HID_BOOT_MOUSE.
#[global] Instance usb_hid_kind_eq_dec : EqDecision usb_hid_kind_t.
Proof. solve_decision. Defined.
Record usb_hid_dev_t := Hid {
  h_at : place; h_kind : usb_hid_kind_t; h_iface_num : Z; intr_in_ep : Z; intr_in_mps : Z; intr_in_interval : Z;
  h_report_proto : bool; h_report : hid_report_info_t; h_in : option usb_async_in_t; h_buf : list Z; h_buf_len : Z;
}.
Definition hid0 : usb_hid_dev_t := Hid (Place 0 0 USB_SPEED_FULL 0 0) NO_KIND 0 0 0 0 false info0 None (replicate 64 0) 0.
(** [started] counts the transfers begun for the devices of hid_devs, to tell them apart. *)
Record usb (E : Type) := Mk {
  storage_devs : list usb_msc_dev_t; storage_dev_count : Z; msc_tag : Z;
  hid_devs : list usb_hid_dev_t; hid_dev_count : Z; started : Z; kb : UsbKbd.usb_kbd E;
}.
Arguments Mk {E}.
Arguments storage_devs {E}.
Arguments storage_dev_count {E}.
Arguments msc_tag {E}.
Arguments hid_devs {E}.
Arguments hid_dev_count {E}.
Arguments started {E}.
Arguments kb {E}.
Definition usb0 {E} (e : E) : usb E := Mk (replicate 4 msc0) 0 1 (replicate 4 hid0) 0 0 (UsbKbd.usb_kbd0 e).
Definition env_of {E} (s : usb E) : E := UsbKbd.env (kb s).

Definition set_toggles (i o : Z) (d : usb_msc_dev_t) : usb_msc_dev_t :=
  Msc (m_at d) (ep0_mps d) (interface_num d) (bulk_in_ep d) (bulk_out_ep d) (bulk_in_mps d) (bulk_out_mps d) i o (block_size d) (block_count d) (drive_id d) (max_lun d).
Definition set_capacity (count size : Z) (d : usb_msc_dev_t) : usb_msc_dev_t :=
  Msc (m_at d) (ep0_mps d) (interface_num d) (bulk_in_ep d) (bulk_out_ep d) (bulk_in_mps d) (bulk_out_mps d) (bulk_in_toggle d) (bulk_out_toggle d) size count (drive_id d) (max_lun d).
Definition set_max_lun (v : Z) (d : usb_msc_dev_t) : usb_msc_dev_t :=
  Msc (m_at d) (ep0_mps d) (interface_num d) (bulk_in_ep d) (bulk_out_ep d) (bulk_in_mps d) (bulk_out_mps d) (bulk_in_toggle d) (bulk_out_toggle d) (block_size d) (block_count d) (drive_id d) v.
Definition set_drive_id (v : Z) (d : usb_msc_dev_t) : usb_msc_dev_t :=
  Msc (m_at d) (ep0_mps d) (interface_num d) (bulk_in_ep d) (bulk_out_ep d) (bulk_in_mps d) (bulk_out_mps d) (bulk_in_toggle d) (bulk_out_toggle d) (block_size d) (block_count d) v (max_lun d).

(** Numbers of several bytes, least significant first, and most significant first *)
Definition be32 (b : list Z) (o : nat) : Z := 16777216 * nth o b 0 + 65536 * nth (o + 1) b 0 + 256 * nth (o + 2) b 0 + nth (o + 3) b 0.
Definition be64 (b : list Z) (o : nat) : Z := 4294967296 * be32 b o + be32 b (o + 4).

Section ops.
Context {E : Type} `{UsbHc E}.
Abbreviation U A := (M (usb E) A).
Variable hal_wait_for_interrupt : U unit.
Variable csw_stack : list Z.

Definition on_env {A} (m : M E A) : U A := fun s =>
  match UsbKbd.on_env m (kb s) with
  | Ok (a, k) => Ok (a, Mk (storage_devs s) (storage_dev_count s) (msc_tag s) (hid_devs s) (hid_dev_count s) (started s) k)
  | Fault => Fault | NoFuel => NoFuel
  end.
Definition with_storage (l : list usb_msc_dev_t) (n : Z) : U unit := modify (fun s => Mk l n (msc_tag s) (hid_devs s) (hid_dev_count s) (started s) (kb s)).
Definition with_tag (t : Z) : U unit := modify (fun s => Mk (storage_devs s) (storage_dev_count s) t (hid_devs s) (hid_dev_count s) (started s) (kb s)).
Definition with_hid (l : list usb_hid_dev_t) (n : Z) : U unit := modify (fun s => Mk (storage_devs s) (storage_dev_count s) (msc_tag s) l n (started s) (kb s)).
(** dev = &storage_devs[i] *)
Definition getm (i : Z) : U usb_msc_dev_t := s <- get;; lift_opt (lget (storage_devs s) i).
Definition putm (i : Z) (f : usb_msc_dev_t -> usb_msc_dev_t) : U unit :=
  s <- get;; d <- lift_opt (lget (storage_devs s) i);; l <- lift_opt (lset (storage_devs s) i (f d));; with_storage l (storage_dev_count s).

(** while ((tick - start) < ticks_needed) *)
Fixpoint delay_loop (fuel : nat) (start needed : Z) : U unit :=
  t <- on_env tick;;
  if u32 (t - start) <? needed then match fuel with O => nofuel | S fuel' => hal_wait_for_interrupt;;; delay_loop fuel' start needed end else ret tt.
Definition delay_ms (fuel : nat) (ms : Z) : U unit :=
  start <- on_env tick;;
  let ticks_needed := u32 (ms + 9) / 10 in
  delay_loop fuel start (if ticks_needed =? 0 then 1 else ticks_needed).
(** How long a wait may take, in turns of the loop above *)
Variable fuel : nat.

(** ** Control requests *)

Definition usb_control (at_ : place) (mps : Z) (setup : usb_setup_pkt_t) (data : list Z) : U (bool * list Z) :=
  if negb (can has_control_transfer (p_hc at_)) then ret (false, data) else on_env (control_transfer at_ 0 mps setup data).
(** Requests that carry no data *)
Definition control_none (at_ : place) (mps : Z) (setup : usb_setup_pkt_t) : U bool := r <- usb_control at_ mps setup [];; ret (fst r).
Definition usb_get_desc (at_ : place) (mps type index : Z) (buf : list Z) : U (bool * list Z) :=
  usb_control at_ mps (Setup 0x80 6 (u16 (Z.lor (Z.shiftl type 8) index)) 0 (Z.of_nat (length buf))) buf.
Definition usb_get_report_desc (at_ : place) (mps iface : Z) (buf : list Z) : U (bool * list Z) :=
  usb_control at_ mps (Setup 0x81 6 (u16 (Z.shiftl USB_DESC_HID_REPORT 8)) iface (Z.of_nat (length buf))) buf.
Definition usb_set_configuration (at_ : place) (mps cfg_value : Z) : U bool := control_none at_ mps (Setup 0x00 9 cfg_value 0 0).
Definition usb_set_interface (at_ : place) (mps iface alt : Z) : U bool := control_none at_ mps (Setup 0x01 0x0B alt iface 0).
Definition usb_hid_set_protocol (at_ : place) (mps iface protocol : Z) : U bool := control_none at_ mps (Setup 0x21 0x0B protocol iface 0).
Definition usb_hid_set_idle (at_ : place) (mps iface duration report_id : Z) : U bool :=
  control_none at_ mps (Setup 0x21 0x0A (u16 (Z.lor (Z.shiftl duration 8) report_id)) iface 0).
Definition usb_hub_get_descriptor (at_ : place) (mps : Z) (buf : list Z) : U (bool * list Z) :=
  usb_control at_ mps (Setup 0xA0 6 (u16 (Z.shiftl USB_DESC_HUB 8)) 0 (Z.of_nat (length buf))) buf.
Definition usb_hub_port_set_feature (at_ : place) (mps feature port : Z) : U bool := control_none at_ mps (Setup 0x23 3 feature port 0).
Definition usb_hub_port_clear_feature (at_ : place) (mps feature port : Z) : U bool := control_none at_ mps (Setup 0x23 1 feature port 0).
(** usb_hub_port_status_t: status and changes, as bytes *)
Definition usb_hub_port_get_status (at_ : place) (mps port : Z) (st : list Z) : U (bool * list Z) :=
  usb_control at_ mps (Setup 0xA3 0 0 port 4) st.

(** ** Bulk-only transport *)

Definition msc_clear_halt (i ep_addr : Z) : U bool := d <- getm i;; control_none (m_at d) (ep0_mps d) (Setup 0x02 1 0 ep_addr 0).
Definition msc_bulk_only_reset (i : Z) : U bool := d <- getm i;; control_none (m_at d) (ep0_mps d) (Setup 0x21 0xFF 0 (interface_num d) 0).
Definition msc_reset_recovery (i : Z) : U unit :=
  msc_bulk_only_reset i;;;
  d <- getm i;; msc_clear_halt i (u8 (Z.lor 0x80 (bulk_in_ep d)));;;
  d <- getm i;; msc_clear_halt i (bulk_out_ep d);;;
  putm i (set_toggles 0 0).

Definition msc_bulk_in (i : Z) (data : list Z) : U (bool * list Z) :=
  d <- getm i;;
  if negb (can has_bulk_transfer (p_hc (m_at d))) then ret (false, data)
  else
    r <- on_env (bulk_transfer (m_at d) (bulk_in_ep d) true (bulk_in_mps d) (bulk_in_toggle d) data);;
    (if fst r && (0 <? Z.of_nat (length data)) then putm i (fun d => set_toggles (Z.lxor (bulk_in_toggle d) 1) (bulk_out_toggle d) d) else ret tt);;;
    ret r.
Definition msc_bulk_out (i : Z) (data : list Z) : U bool :=
  d <- getm i;;
  if negb (can has_bulk_transfer (p_hc (m_at d))) then ret false
  else
    r <- on_env (bulk_transfer (m_at d) (bulk_out_ep d) false (bulk_out_mps d) (bulk_out_toggle d) data);;
    (if fst r && (0 <? Z.of_nat (length data)) then putm i (fun d => set_toggles (bulk_in_toggle d) (Z.lxor (bulk_out_toggle d) 1) d) else ret tt);;;
    ret (fst r).

(** msc_cbw_t as its 31 bytes; cdb has at most 16 *)
Definition cbw_bytes (tag len : Z) (data_in : bool) (lun : Z) (cdb : list Z) : list Z :=
  bytes32 MSC_CBW_SIGNATURE ++ bytes32 tag ++ bytes32 len ++ [if data_in then 0x80 else 0x00; lun; Z.of_nat (length cdb)] ++ cdb ++ replicate (16 - length cdb) 0.
(** One attempt: None is goto retry.  The data is a buffer of data_len bytes, or NULL: []; the length
    of a transfer has 16 bits. *)
Definition bot_attempt (i lun : Z) (cdb : list Z) (data_in : bool) (data : list Z) : U (option bool * list Z) :=
  s <- get;;
  let tag := msc_tag s in
  let data_len := Z.of_nat (length data) in
  with_tag (u32 (tag + 1));;;
  ok <- msc_bulk_out i (cbw_bytes tag data_len data_in lun cdb);;
  if negb ok then ret (None, data)
  else
    r <- (if 0 <? data_len then
            let part := take (Z.to_nat (u16 data_len)) data in
            if data_in then r <- msc_bulk_in i part;; ret (fst r, snd r ++ drop (length part) data)
            else ok <- msc_bulk_out i part;; ret (ok, data)
          else ret (true, data));;
    let '(ok, data) := r in
    if negb ok then ret (None, data)
    else
      r <- msc_bulk_in i csw_stack;;
      let '(ok, csw) := r in
      if negb ok then ret (None, data)
      else if negb (get32 csw 0 =? MSC_CSW_SIGNATURE) || negb (get32 csw 4 =? tag) then ret (None, data)
      else
        let status := nth 12 csw 0 in
        if status =? 0 then ret (Some true, data)
        else if status =? 2 then ret (None, data)
        else ret (Some false, data).
Fixpoint bot_retry (k : nat) (i lun : Z) (cdb : list Z) (data_in : bool) (data : list Z) : U (bool * list Z) :=
  match k with
  | O => ret (false, data)
  | S k' =>
    r <- bot_attempt i lun cdb data_in data;;
    match r with
    | (Some b, data) => ret (b, data)
    | (None, data) => msc_reset_recovery i;;; delay_ms fuel USB_MSC_BOT_RETRY_DELAY_MS;;; bot_retry k' i lun cdb data_in data
    end
  end.
(** csw_status_out is not used by any caller. *)
Definition msc_bot_cmd (i lun : Z) (cdb : list Z) (data_in : bool) (data : list Z) : U (bool * list Z) :=
  bot_retry USB_MSC_BOT_RETRIES i lun cdb data_in data.

(** ** SCSI commands *)

Definition msc_scsi_test_unit_ready (i : Z) : U bool := r <- msc_bot_cmd i 0 [0x00; 0; 0; 0; 0; 0] false [];; ret (fst r).
(** Some (key, asc, ascq), or None for false *)
Definition msc_scsi_request_sense (i : Z) : U (option (Z * Z * Z)) :=
  r <- msc_bot_cmd i 0 [0x03; 0; 0; 0; 18; 0] true (replicate 18 0);;
  let '(ok, buf) := r in
  ret (if (ok : bool) then Some (Z.land (nth 2 buf 0) 0x0F, nth 12 buf 0, nth 13 buf 0) else None).
(** The last block and the size of a block, and whether the call returned true; None when they
    were not stored *)
Definition msc_scsi_read_capacity10 (i : Z) : U (option (Z * Z * bool)) :=
  r <- msc_bot_cmd i 0 [0x25; 0; 0; 0; 0; 0; 0; 0; 0; 0] true (replicate 8 0);;
  let '(ok, buf) := r in
  ret (if (ok : bool) then let blksz := be32 buf 4 in Some (be32 buf 0, blksz, negb (blksz =? 0)) else None).
Definition msc_scsi_read_capacity16 (i : Z) : U (option (Z * Z * bool)) :=
  r <- msc_bot_cmd i 0 [0x9E; 0x10; 0; 0; 0; 0; 0; 0; 0; 0; 0; 0; 0; 32; 0; 0] true (replicate 32 0);;
  let '(ok, buf) := r in
  ret (if (ok : bool) then let blksz := be32 buf 8 in Some (be64 buf 0, blksz, negb (blksz =? 0)) else None).
Definition msc_scsi_sync_cache (i : Z) : U bool := r <- msc_bot_cmd i 0 [0x35; 0; 0; 0; 0; 0; 0; 0; 0; 0] false [];; ret (fst r).
(** Sense key 2 or 6: not ready, or attention *)
Definition sense_wait (i not_ready failed : Z) : U unit :=
  r <- msc_scsi_request_sense i;;
  match r with
  | Some (key, _, _) => delay_ms fuel (if (key =? 0x02) || (key =? 0x06) then not_ready else failed)
  | None => delay_ms fuel failed
  end.
Fixpoint wait_ready_loop (k : nat) (i : Z) : U unit :=
  match k with
  | O => ret tt
  | S k' =>
    ok <- msc_scsi_test_unit_ready i;;
    if (ok : bool) then ret tt else sense_wait i USB_MSC_TUR_NOT_READY_DELAY_MS USB_MSC_TUR_FAIL_DELAY_MS;;; wait_ready_loop k' i
  end.
Definition msc_wait_ready (i : Z) : U unit := wait_ready_loop USB_MSC_TUR_RETRIES i.
Fixpoint capacity_loop (k : nat) (i : Z) : U bool :=
  match k with
  | O => ret false
  | S k' =>
    r <- msc_scsi_read_capacity10 i;;
    match r with
    | Some (last_lba, blksz, true) =>
      if last_lba =? 0xFFFFFFFF then
        r <- msc_scsi_read_capacity16 i;;
        match r with
        | Some (last64, blksz, true) =>
          putm i (set_capacity (if 0xFFFFFFFF <=? last64 then 0xFFFFFFFF else u32 (last64 + 1)) blksz);;; ret (negb (blksz =? 0))
        | _ => ret false
        end
      else putm i (set_capacity (u32 (last_lba + 1)) blksz);;; ret (negb (blksz =? 0))
    | _ =>
      sense_wait i USB_MSC_READ_CAPACITY_NOT_READY_DELAY_MS USB_MSC_READ_CAPACITY_FAIL_DELAY_MS;;; capacity_loop k' i
    end
  end.
Definition msc_scsi_read_capacity (i : Z) : U bool := msc_wait_ready i;;; capacity_loop USB_MSC_READ_CAPACITY_RETRIES i.

(** cdb of READ(10) and WRITE(10) *)
Definition cdb10 (op lba blocks : Z) : list Z :=
  [op; 0; Z.land (Z.shiftr lba 24) 0xFF; Z.land (Z.shiftr lba 16) 0xFF; Z.land (Z.shiftr lba 8) 0xFF; Z.land lba 0xFF; 0;
   Z.land (Z.shiftr blocks 8) 0xFF; Z.land blocks 0xFF; 0].
(** The buffer is what begins at out; blocks * block_size bytes of it are used. *)
Definition msc_scsi_read10 (i lba blocks : Z) (out : list Z) : U (bool * list Z) :=
  d <- getm i;;
  let len := u32 (blocks * block_size d) in
  part <- lift_opt (slice out 0 len);;
  r <- msc_bot_cmd i 0 (cdb10 0x28 lba blocks) true part;;
  ret (fst r, snd r ++ drop (Z.to_nat len) out).
Definition msc_scsi_write10 (i lba blocks : Z) (inbuf : list Z) : U bool :=
  d <- getm i;;
  part <- lift_opt (slice inbuf 0 (u32 (blocks * block_size d)));;
  r <- msc_bot_cmd i 0 (cdb10 0x2A lba blocks) false part;; ret (fst r).
Fixpoint max_lun_loop (k : nat) (i mps : Z) : U (option Z) :=
  match k with
  | O => ret None
  | S k' =>
    d <- getm i;;
    r <- usb_control (m_at d) mps (Setup 0xA1 0xFE 0 (interface_num d) 1) [0];;
    if fst r : bool then ret (Some (hd 0 (snd r))) else delay_ms fuel USB_MSC_GET_MAX_LUN_RETRY_DELAY_MS;;; max_lun_loop k' i mps
  end.
Definition msc_get_max_lun (i mps : Z) : U (option Z) := max_lun_loop USB_MSC_GET_MAX_LUN_RETRIES i mps.

(** ** Drives *)

(** The index of the device, -1 for NULL *)
Definition find_dev_by_drive (drive : Z) : U Z :=
  s <- get;;
  ret (match list_find (fun d => drive_id d = drive) (take (Z.to_nat (storage_dev_count s)) (storage_devs s)) with Some (i, _) => Z.of_nat i | None => -1 end).
Fixpoint read_loop (k : nat) (i lba count done : Z) (buffer : list Z) : U (bool * list Z) :=
  if done <? count then
    match k with
    | O => nofuel
    | S k' =>
      let chunk := u16 (count - done) in
      let chunk := if 32 <? chunk then 32 else chunk in
      out <- lift_opt (slice buffer (done * 512) (Z.of_nat (length buffer) - done * 512));;
      r <- msc_scsi_read10 i (u32 (lba + done)) chunk out;;
      let buffer := take (Z.to_nat (done * 512)) buffer ++ snd r in
      if negb (fst r) then ret (false, buffer) else read_loop k' i lba count (done + chunk) buffer
    end
  else ret (true, buffer).
Definition usb_storage_read_sectors (drive lba count : Z) (buffer : list Z) : U (bool * list Z) :=
  i <- find_dev_by_drive drive;;
  if i <? 0 then ret (false, buffer)
  else
    d <- getm i;;
    if negb (block_size d =? 512) then ret (false, buffer) else read_loop (Z.to_nat count) i lba count 0 buffer.
Fixpoint write_loop (k : nat) (i lba count done : Z) (buffer : list Z) : U bool :=
  if done <? count then
    match k with
    | O => nofuel
    | S k' =>
      let chunk := u16 (count - done) in
      let chunk := if 32 <? chunk then 32 else chunk in
      inb <- lift_opt (slice buffer (done * 512) (Z.of_nat (length buffer) - done * 512));;
      ok <- msc_scsi_write10 i (u32 (lba + done)) chunk inb;;
      if negb ok then ret false else write_loop k' i lba count (done + chunk) buffer
    end
  else ret true.
Definition usb_storage_write_sectors (drive lba count : Z) (buffer : list Z) : U bool :=
  i <- find_dev_by_drive drive;;
  if i <? 0 then ret false
  else
    d <- getm i;;
    if negb (block_size d =? 512) then ret false else write_loop (Z.to_nat count) i lba count 0 buffer.
Definition usb_storage_get_sector_count (drive : Z) : U Z :=
  i <- find_dev_by_drive drive;; if i <? 0 then ret 0 else d <- getm i;; ret (block_count d).
Definition usb_storage_get_sector_size (drive : Z) : U Z :=
  i <- find_dev_by_drive drive;; if i <? 0 then ret 0 else d <- getm i;; ret (block_size d).
Definition usb_storage_sync (drive : Z) : U bool :=
  i <- find_dev_by_drive drive;; if i <? 0 then ret false else msc_scsi_sync_cache i.
Definition usb_storage_reset : U unit :=
  modify (fun s => Mk (replicate 4 msc0) 0 1 (hid_devs s) (hid_dev_count s) (started s) (kb s)).
Definition usb_storage_device_count : U Z := s <- get;; ret (storage_dev_count s).
End ops.
End Usb.
