(* ===== verification/UsbMsc.v ===== *)
(** * USB storage: what is written is read back

    [BotLaws] says what a storage device promises in the bulk-only transport: a command, its data and
    its status, one after the other; a transfer may fail, and then nothing works until the device is
    reset.  The controller keeps the data toggles itself, as that of xhci.c does.  Under these
    promises usb.c reads and writes the sectors it is asked for, with its retries. *)
From S2P Require Import Prelude UsbHc HidParse UsbKbd Usb.

Module UsbMsc.
Import UsbHc Usb.

(** ** The device *)

(** Between the parts of a command; [Stuck] after a transfer that failed *)
Inductive phase := Idle | DataIn (tag : Z) (bytes : list Z) | DataOut (tag lba n : Z) | Status (tag st : Z) | Stuck.
(** n blocks from lba on *)
Fixpoint blocks (disc : Z -> list Z) (lba : Z) (n : nat) : list Z := match n with O => [] | S n' => disc lba ++ blocks disc (lba + 1) n' end.
(** The disc with data stored from lba on *)
Definition stored (disc : Z -> list Z) (lba n : Z) (data : list Z) (b : Z) : list Z :=
  if (lba <=? b) && (b <? lba + n) then take 512 (drop (Z.to_nat (512 * (b - lba))) data) else disc b.
Definition same_out (lba n : Z) (d d' : Z -> list Z) : Prop := forall b, b < lba \/ lba + n <= b -> d' b = d b.

Section device.
Context {E : Type} {HC : UsbHc E}.
Abbreviation U A := (M (usb E) A).
Context (at_ : place) (ein eout iface : Z).

Class Bot := { phase_of : E -> phase; disc : E -> Z -> list Z; now : E -> Z; capacity : Z; flaky : bool }.
Context {BO : Bot}.
(** What every transfer keeps, and the result of one that may fail *)
Definition outcome (e e' : E) (ok : bool) (good : Prop) : Prop :=
  (flaky = false -> ok = true) /\ (if ok then good else phase_of e' = Stuck).
Class BotLaws (wait : U unit) := {
  block_law : forall e b, length (disc e b) = 512%nat;
  tick_law : forall e, wp False tick (fun t e' => e' = e /\ t = u32 (now e)) e;
  (** An interrupt is a tick; the device and the drives stay. *)
  wait_law : forall s, wp False wait (fun _ s' => storage_devs s' = storage_devs s /\ storage_dev_count s' = storage_dev_count s /\ msc_tag s' = msc_tag s /\
    phase_of (env_of s') = phase_of (env_of s) /\ (forall b, disc (env_of s') b = disc (env_of s) b) /\ now (env_of s') = now (env_of s) + 1) s;
  read_law : forall m tg tag lba n e, phase_of e = Idle -> 0 <= lba -> 0 < n <= 32 -> lba + n <= capacity -> is_u32 tag ->
    wp False (bulk_transfer at_ eout false m tg (cbw_bytes tag (n * 512) true 0 (cdb10 0x28 lba n)))
      (fun r e' => (forall b, disc e' b = disc e b) /\ outcome e e' (fst r) (phase_of e' = DataIn tag (blocks (disc e) lba (Z.to_nat n)))) e;
  write_law : forall m tg tag lba n e, phase_of e = Idle -> 0 <= lba -> 0 < n <= 32 -> lba + n <= capacity -> is_u32 tag ->
    wp False (bulk_transfer at_ eout false m tg (cbw_bytes tag (n * 512) false 0 (cdb10 0x2A lba n)))
      (fun r e' => (forall b, disc e' b = disc e b) /\ outcome e e' (fst r) (phase_of e' = DataOut tag lba n)) e;
  in_law : forall m tg tag bytes data e, phase_of e = DataIn tag bytes -> length data = length bytes ->
    wp False (bulk_transfer at_ ein true m tg data)
      (fun r e' => (forall b, disc e' b = disc e b) /\ length (snd r) = length data /\ outcome e e' (fst r) (snd r = bytes /\ phase_of e' = Status tag 0)) e;
  (** A write that fails may have changed some of its blocks. *)
  out_law : forall m tg tag lba n data e, phase_of e = DataOut tag lba n -> Z.of_nat (length data) = n * 512 ->
    wp False (bulk_transfer at_ eout false m tg data)
      (fun r e' => same_out lba n (disc e) (disc e') /\ outcome e e' (fst r) ((forall b, disc e' b = stored (disc e) lba n data b) /\ phase_of e' = Status tag 0)) e;
  status_law : forall m tg tag st data e, phase_of e = Status tag st -> is_u32 tag -> length data = 13%nat ->
    wp False (bulk_transfer at_ ein true m tg data)
      (fun r e' => (forall b, disc e' b = disc e b) /\
        outcome e e' (fst r) (get32 (snd r) 0 = MSC_CSW_SIGNATURE /\ get32 (snd r) 4 = tag /\ nth 12 (snd r) 0 = st /\ phase_of e' = Idle)) e;
  stuck_law : forall ep d m tg data e, phase_of e = Stuck ->
    wp False (bulk_transfer at_ ep d m tg data) (fun r e' => (forall b, disc e' b = disc e b) /\ fst r = false /\ phase_of e' = Stuck) e;
  (** A reset may fail; it leaves the device ready or stuck. *)
  control_law : forall m setup data e, phase_of e = Idle \/ phase_of e = Stuck ->
    wp False (control_transfer at_ 0 m setup data) (fun r e' => (forall b, disc e' b = disc e b) /\ (phase_of e' = Idle \/ phase_of e' = Stuck)) e;
}.
Context {wait : U unit} {BL : BotLaws wait}.
Implicit Types s : usb E.

(** ** Steps *)

(** The drive i is this device; only its toggles have changed. *)
Definition mine (d : usb_msc_dev_t) : Prop := m_at d = at_ /\ bulk_in_ep d = ein /\ bulk_out_ep d = eout.
Definition near (i : nat) (s0 s : usb E) : Prop := exists d a b, storage_devs s0 !! i = Some d /\ mine d /\
  storage_devs s = <[i := set_toggles a b d]> (storage_devs s0) /\ storage_dev_count s = storage_dev_count s0 /\ is_u32 (msc_tag s).
Definition calm_disc s s' : Prop := forall b, disc (env_of s') b = disc (env_of s) b.
Definition ready s : Prop := phase_of (env_of s) = Idle \/ phase_of (env_of s) = Stuck.

Lemma msc_near_refl i s d : storage_devs s !! i = Some d -> mine d -> is_u32 (msc_tag s) -> near i s s.
Proof. intros Hd Hm Ht. exists d, (bulk_in_toggle d), (bulk_out_toggle d). split_and!; try done. rewrite list_insert_id; [done|]. rewrite Hd. by destruct d. Qed.
Lemma msc_near_dev i s0 s d : near i s0 s -> storage_devs s0 !! i = Some d -> exists a b, storage_devs s !! i = Some (set_toggles a b d) /\ mine d.
Proof. intros (d' & a & b & Hd' & Hm & -> & _) Hd. rewrite Hd in Hd'. injection Hd' as <-. exists a, b. split; [|done]. apply list_lookup_insert_eq. by apply lookup_lt_Some in Hd. Qed.
Lemma wp_getm i s0 s d (Q : usb_msc_dev_t -> usb E -> Prop) : near i s0 s -> storage_devs s0 !! i = Some d -> (forall a b, Q (set_toggles a b d) s) -> wp False (getm (Z.of_nat i)) Q s.
Proof.
  intros Hn Hd HQ. destruct (msc_near_dev _ _ _ _ Hn Hd) as (a & b & Hd' & _). unfold getm. apply wp_bind, wp_gets; cbv beta. rewrite lget_lookup, Nat2Z.id, Hd' by lia. by apply wp_lift_some.
Qed.
Lemma wp_putm i s0 s f (Q : unit -> usb E -> Prop) : near i s0 s -> (forall d, exists a b, f d = set_toggles a b d) ->
  (forall s', near i s0 s' -> env_of s' = env_of s -> msc_tag s' = msc_tag s -> Q tt s') -> wp False (putm (Z.of_nat i) f) Q s.
Proof.
  intros Hn Hf HQ. pose proof Hn as (d & a & b & Hd & Hm & Hk & Hc & Ht). destruct (msc_near_dev _ _ _ _ Hn Hd) as (a' & b' & Hd' & _). pose proof (lookup_lt_Some _ _ _ Hd') as Hlt.
  unfold putm. apply wp_bind, wp_gets; cbv beta. rewrite lget_lookup, Nat2Z.id, Hd' by lia. apply wp_bind, wp_lift_some, wp_bind. rewrite lset_in by lia. apply wp_lift_some. unfold with_storage. apply wp_modify. apply HQ; [|done|done].
  destruct (Hf (set_toggles a' b' d)) as (a2 & b2 & ->). exists d, a2, b2. cbn. rewrite Nat2Z.id, Hk, list_insert_insert_eq. by split_and!.
Qed.
Lemma wp_on_msc {A} (m : M E A) (P : A -> E -> Prop) i s0 s Q : near i s0 s -> wp False m P (env_of s) ->
  (forall a s', near i s0 s' -> P a (env_of s') -> msc_tag s' = msc_tag s -> Q a s') -> wp False (on_env m) Q s.
Proof.
  intros (d & a & b & Hn) HP HQ. unfold wp, on_env, UsbKbd.on_env, env_of in *. destruct (m (UsbKbd.env (kb s))) as [[x e]| |]; [|done..]. apply HQ; [|done|done]. by exists d, a, b.
Qed.


Context (Hbulk : can has_bulk_transfer (p_hc at_) = true).
Lemma bulk_in_ok i s0 s d data P Q : storage_devs s0 !! i = Some d -> near i s0 s -> (forall m tg, wp False (bulk_transfer at_ ein true m tg data) P (env_of s)) ->
  (forall r s', near i s0 s' -> P r (env_of s') -> msc_tag s' = msc_tag s -> Q r s') -> wp False (msc_bulk_in (Z.of_nat i) data) Q s.
Proof.
  intros Hd Hn HP HQ. unfold msc_bulk_in. apply wp_bind. eapply wp_getm; [done|exact Hd|]. intros a b. destruct (msc_near_dev _ _ _ _ Hn Hd) as (_ & _ & _ & (Ea & Ei & _)).
  cbn [m_at set_toggles bulk_in_ep]. rewrite Ea, Ei, Hbulk. cbn [negb]. apply wp_bind. eapply wp_on_msc; [done|apply HP|]. intros r s1 H1 HP1 Ht1. apply wp_bind.
  case_match; [|apply wp_ret, wp_ret; by apply HQ]. eapply wp_putm; [done|by intros d'; eexists _, _|]. intros s2 H2 E2 T2. apply wp_ret. apply HQ; [done|by rewrite E2|congruence].
Qed.
Lemma bulk_out_ok i s0 s d data P Q : storage_devs s0 !! i = Some d -> near i s0 s -> (forall m tg, wp False (bulk_transfer at_ eout false m tg data) P (env_of s)) ->
  (forall r s', near i s0 s' -> P r (env_of s') -> msc_tag s' = msc_tag s -> Q (fst r) s') -> wp False (msc_bulk_out (Z.of_nat i) data) Q s.
Proof.
  intros Hd Hn HP HQ. unfold msc_bulk_out. apply wp_bind. eapply wp_getm; [done|exact Hd|]. intros a b. destruct (msc_near_dev _ _ _ _ Hn Hd) as (_ & _ & _ & (Ea & _ & Eo)).
  cbn [m_at set_toggles bulk_out_ep]. rewrite Ea, Eo, Hbulk. cbn [negb]. apply wp_bind. eapply wp_on_msc; [done|apply HP|]. intros r s1 H1 HP1 Ht1. apply wp_bind.
  case_match; [|apply wp_ret, wp_ret; by apply HQ]. eapply wp_putm; [done|by intros d'; eexists _, _|]. intros s2 H2 E2 T2. apply wp_ret. apply HQ; [done|by rewrite E2|congruence].
Qed.

(** ** Waiting and resetting *)

Lemma near_keep i s0 s s' : near i s0 s -> storage_devs s' = storage_devs s -> storage_dev_count s' = storage_dev_count s -> msc_tag s' = msc_tag s -> near i s0 s'.
Proof. intros (d & a & b & ? & ? & ? & ? & ?) Ed Ec Et. exists d, a, b. rewrite Ed, Ec, Et. by split_and!. Qed.
Lemma delay_loop_ok i s0 start needed fuel : forall s (Q : unit -> usb E -> Prop), near i s0 s -> 0 <= now (env_of s) - start <= needed -> needed < 4294967296 ->
  needed - (now (env_of s) - start) <= Z.of_nat fuel ->
  (forall s', near i s0 s' -> phase_of (env_of s') = phase_of (env_of s) -> calm_disc s s' -> Q tt s') -> wp False (delay_loop wait fuel (u32 start) needed) Q s.
Proof.
  induction fuel as [|fuel IH]; intros s Q Hn Hs Hmax Hf HQ; cbn [delay_loop]; (apply wp_bind; eapply wp_on_msc; [exact Hn|apply tick_law|]); intros t s1 H1 [Ee ->] Ht; cbv beta;
    (assert (Hel : u32 (u32 (now (env_of s)) - u32 start) = now (env_of s) - start) by (unfold u32; rewrite <-Zminus_mod; apply Z.mod_small; lia)); rewrite Hel;
    (destruct (Z.ltb_spec (now (env_of s) - start) needed) as [Hlt|_]; [|apply wp_ret, HQ; [done|congruence|intros b; congruence]]); [lia|].
  apply wp_bind. eapply wp_mono; [apply wait_law|]. intros ? s2 (Ed & Ec & Et & Ep & Edisc & Enow). rewrite Ee in *.
  apply IH; [by apply (near_keep i s0 s1)|lia|done|lia|]. intros s3 H3 P3 C3. apply HQ; [done|congruence|]. intros b. by rewrite C3, Edisc.
Qed.
Context (fuel : nat) (Hfuel : 100 <= Z.of_nat fuel).
Lemma delay_ok i s0 ms s (Q : unit -> usb E -> Prop) : near i s0 s -> 0 <= ms <= 900 ->
  (forall s', near i s0 s' -> phase_of (env_of s') = phase_of (env_of s) -> calm_disc s s' -> Q tt s') -> wp False (delay_ms wait fuel ms) Q s.
Proof.
  intros Hn Hms HQ. unfold delay_ms. apply wp_bind. eapply wp_on_msc; [exact Hn|apply tick_law|]. intros t s1 H1 [Ee ->] Ht. cbv beta. rewrite (u32_small (ms + 9)) by (unfold is_u32; lia).
  assert (0 <= (ms + 9) / 10 <= 90) by (Z.div_mod_to_equations; lia). apply (delay_loop_ok i s0); try done; rewrite ?Ee.
  1-3: case_match; lia. intros s2 H2 P2 C2. apply HQ; [done|congruence|]. intros b. rewrite C2. by rewrite Ee.
Qed.
(** Ready, or stuck after a failure *)
Definition fit s : Prop := phase_of (env_of s) = Idle \/ (phase_of (env_of s) = Stuck /\ flaky = true).
Lemma control_none_ok i s0 mps setup s (Q : bool -> usb E -> Prop) : near i s0 s -> ready s ->
  (forall r s', near i s0 s' -> ready s' -> calm_disc s s' -> Q r s') -> wp False (control_none at_ mps setup) Q s.
Proof.
  intros Hn Hr HQ. unfold control_none, usb_control. apply wp_bind. case_match; [apply wp_ret, wp_ret; by apply HQ|].
  eapply wp_on_msc; [exact Hn|by apply control_law|]. intros r s1 H1 [Hd Hp] _. apply wp_ret. by apply HQ.
Qed.
Lemma reset_ok i s0 d s (Q : unit -> usb E -> Prop) : storage_devs s0 !! i = Some d -> near i s0 s -> ready s ->
  (forall s', near i s0 s' -> ready s' -> calm_disc s s' -> Q tt s') -> wp False (msc_reset_recovery (Z.of_nat i)) Q s.
Proof.
  intros Hd Hn Hr HQ. destruct (msc_near_dev _ _ _ _ Hn Hd) as (_ & _ & _ & (Ea & _)). unfold msc_reset_recovery, msc_bulk_only_reset, msc_clear_halt.
  apply wp_bind, wp_bind. eapply wp_getm; [exact Hn|exact Hd|]. intros a b. cbn [m_at set_toggles]. rewrite Ea. eapply control_none_ok; [done|done|]. intros ? s1 H1 R1 C1.
  apply wp_bind. eapply wp_getm; [exact H1|exact Hd|]. intros a1 b1. apply wp_bind, wp_bind. eapply wp_getm; [exact H1|exact Hd|]. intros a1' b1'. cbn [m_at set_toggles]. rewrite Ea. eapply control_none_ok; [done|done|]. intros ? s2 H2 R2 C2.
  apply wp_bind. eapply wp_getm; [exact H2|exact Hd|]. intros a2 b2. apply wp_bind, wp_bind. eapply wp_getm; [exact H2|exact Hd|]. intros a2' b2'. cbn [m_at set_toggles]. rewrite Ea. eapply control_none_ok; [done|done|]. intros ? s3 H3 R3 C3.
  eapply wp_putm; [done|by intros d'; eexists _, _|]. intros s4 H4 E4 _. apply HQ; [done|unfold ready in *; by rewrite E4|]. intros b'. rewrite E4. by rewrite C3, C2, C1.
Qed.

(** ** A command and its retries *)

Context (csw_stack : list Z) (Hcsw : length csw_stack = 13%nat).
Section retry.
Context (i : nat) (s0 : usb E) (d : usb_msc_dev_t) (Hd : storage_devs s0 !! i = Some d).
Context (cdb : list Z) (din : bool) (keep good : (Z -> list Z) -> list Z -> Prop).
Hypothesis keep_ext : forall D D' data, (forall b, D' b = D b) -> keep D data -> keep D' data.
(** What an attempt does *)
Hypothesis attempt_ok : forall s data, near i s0 s -> fit s -> keep (disc (env_of s)) data ->
  wp False (bot_attempt csw_stack (Z.of_nat i) 0 cdb din data) (fun r s' => near i s0 s' /\
    match fst r with
    | Some b => b = true /\ phase_of (env_of s') = Idle /\ good (disc (env_of s')) (snd r)
    | None => phase_of (env_of s') = Stuck /\ flaky = true /\ keep (disc (env_of s')) (snd r)
    end) s.
Lemma retry_ok k : forall s data, near i s0 s -> fit s -> keep (disc (env_of s)) data ->
  wp False (bot_retry wait csw_stack fuel k (Z.of_nat i) 0 cdb din data) (fun r s' => near i s0 s' /\ fit s' /\
    if fst r then good (disc (env_of s')) (snd r) else keep (disc (env_of s')) (snd r) /\ (flaky = true \/ k = O)) s.
Proof.
  induction k as [|k IH]; intros s data Hn Hf Hk; cbn [bot_retry]; [apply wp_ret; cbn [fst snd]; split_and!; auto|]. apply wp_bind. eapply wp_mono; [by apply attempt_ok|].
  intros [[b|] data'] s1 [H1 H1']; cbn [fst snd] in H1'.
  - destruct H1' as (-> & Hp & Hg). apply wp_ret. split_and!; [done|by left|done].
  - destruct H1' as (Hp & Hfl & Hk1). apply wp_bind. eapply reset_ok; [done|done|by right|]. intros s2 H2 R2 C2. apply wp_bind. eapply (delay_ok i s0); [done|unfold USB_MSC_BOT_RETRY_DELAY_MS; lia|]. intros s3 H3 P3 C3.
    eapply wp_mono; [apply IH; [done| |]|].
    + unfold fit. rewrite P3. destruct R2; tauto.
    + eapply keep_ext; [|exact Hk1]. intros b. by rewrite C3, C2.
    + intros [r data2] s4 (H4 & F4 & K4). split_and!; try done. cbn [fst snd] in *. destruct r; [done|]. split; [apply K4|by left].
Qed.
End retry.

(** ** Reading and writing blocks *)

Lemma blocks_ext D D' n : forall lba, (forall b, D' b = D b) -> blocks D' lba n = blocks D lba n.
Proof. induction n as [|n IH]; intros lba He; [done|]. cbn [blocks]. by rewrite He, IH. Qed.
Lemma sectors_length D n : forall lba, (forall b, length (D b) = 512%nat) -> length (blocks D lba n) = (512 * n)%nat.
Proof. induction n as [|n IH]; intros lba Hl; [done|]. cbn [blocks]. rewrite length_app, Hl, IH by done. lia. Qed.
Section command.
Context (i : nat) (s0 : usb E) (d : usb_msc_dev_t) (Hd : storage_devs s0 !! i = Some d).
Context (lba n : Z) (Hlba : 0 <= lba) (Hn : 0 < n <= 32) (Hcap : lba + n <= capacity).

Lemma tag_ok s t (Q : unit -> usb E -> Prop) : near i s0 s -> is_u32 t -> (forall s', near i s0 s' -> env_of s' = env_of s -> Q tt s') -> wp False (with_tag t) Q s.
Proof.
  intros Hne Ht HQ. unfold with_tag. apply wp_modify, HQ; [|done]. destruct Hne as (d' & a & b & ? & ? & ? & ? & ?). exists d', a, b. by split_and!.
Qed.
(** The command goes out. *)
Lemma command_ok s data (P : phase) : near i s0 s -> fit s ->
  (phase_of (env_of s) = Idle -> forall m tg, wp False (bulk_transfer at_ eout false m tg data) (fun r e' => (forall b, disc e' b = disc (env_of s) b) /\ outcome (env_of s) e' (fst r) (phase_of e' = P)) (env_of s)) ->
  wp False (msc_bulk_out (Z.of_nat i) data) (fun ok s' => near i s0 s' /\ calm_disc s s' /\ if ok then phase_of (env_of s') = P else phase_of (env_of s') = Stuck /\ flaky = true) s.
Proof.
  intros Hne Hf Hlaw. destruct Hf as [Hidle|[Hstuck Hfl]].
  - eapply bulk_out_ok; [exact Hd|exact Hne|intros m tg; by apply Hlaw|]. intros r s2 H2 [Hc [Ho Hp]] _. split_and!; [done|done|]. destruct (fst r); [done|].
    split; [done|]. destruct flaky; [done|]. by specialize (Ho eq_refl).
  - eapply bulk_out_ok; [exact Hd|exact Hne|intros m tg; by apply stuck_law|]. intros r s2 H2 (Hc & -> & Hp) _. by split_and!.
Qed.
(** The status ends the command. *)
Lemma status_ok s tag (data : list Z) (Q : option bool * list Z -> usb E -> Prop) : near i s0 s -> is_u32 tag -> phase_of (env_of s) = Status tag 0 ->
  (forall s', near i s0 s' -> calm_disc s s' -> phase_of (env_of s') = Idle -> Q (Some true, data) s') ->
  (forall s', near i s0 s' -> calm_disc s s' -> phase_of (env_of s') = Stuck -> flaky = true -> Q (None, data) s') ->
  wp False (r <- msc_bulk_in (Z.of_nat i) csw_stack;; let '(ok, csw) := r in
    if negb ok then ret (None, data)
    else if negb (get32 csw 0 =? MSC_CSW_SIGNATURE) || negb (get32 csw 4 =? tag) then ret (None, data)
    else let status := nth 12 csw 0 in if status =? 0 then ret (Some true, data) else if status =? 2 then ret (None, data) else ret (Some false, data)) Q s.
Proof.
  intros Hne Htag Hp Hgood Hbad. apply wp_bind. eapply bulk_in_ok; [exact Hd|exact Hne|intros m tg; by eapply status_law|]. intros [ok csw] s1 H1 [Hc [Ho Hout]] _. cbn [fst snd] in *.
  destruct ok; cbn [negb].
  - destruct Hout as (-> & -> & -> & Hi). rewrite !Z.eqb_refl. cbn [negb orb]. by apply wp_ret, Hgood.
  - apply wp_ret, Hbad; try done. destruct flaky; [done|]. by specialize (Ho eq_refl).
Qed.
Definition read_keep (D0 D : Z -> list Z) (data : list Z) : Prop := Z.of_nat (length data) = n * 512 /\ forall b, D b = D0 b.
Definition read_good (D0 D : Z -> list Z) (data : list Z) : Prop := data = blocks D0 lba (Z.to_nat n) /\ forall b, D b = D0 b.
Lemma read_attempt_ok D0 s data : near i s0 s -> fit s -> read_keep D0 (disc (env_of s)) data ->
  wp False (bot_attempt csw_stack (Z.of_nat i) 0 (cdb10 0x28 lba n) true data) (fun r s' => near i s0 s' /\
    match fst r with
    | Some b => b = true /\ phase_of (env_of s') = Idle /\ read_good D0 (disc (env_of s')) (snd r)
    | None => phase_of (env_of s') = Stuck /\ flaky = true /\ read_keep D0 (disc (env_of s')) (snd r)
    end) s.
Proof.
  intros Hne Hf [Hl HD]. unfold bot_attempt. rewrite Hl. apply wp_bind, wp_gets; cbv beta. assert (Htag : is_u32 (msc_tag s)) by (by destruct Hne as (? & ? & ? & ? & ? & ? & ? & ?)).
  apply wp_bind. eapply tag_ok; [done|apply u32_range|]. intros s1 H1 E1. apply wp_bind. eapply wp_mono; [apply (command_ok s1 _ (DataIn (msc_tag s) (blocks (disc (env_of s1)) lba (Z.to_nat n))))|].
  { done. } { unfold fit. by rewrite E1. } { intros Hi m tg. by apply read_law. }
  assert (Hblk : blocks (disc (env_of s1)) lba (Z.to_nat n) = blocks D0 lba (Z.to_nat n)) by (apply blocks_ext; intros b; by rewrite E1).
  intros ok s2 (H2 & C2 & P2). destruct ok; cbn [negb]; [|destruct P2; apply wp_ret; cbn [fst snd]; unfold read_keep; split_and!; try done; intros b; by rewrite C2, E1]. rewrite Hblk in P2.
  rewrite (proj2 (Z.ltb_lt _ _)) by lia. rewrite HidParse.u16_small by lia. rewrite take_ge, drop_all by lia. apply wp_bind, wp_bind.
  eapply bulk_in_ok; [exact Hd|exact H2|intros m tg; eapply in_law; [exact P2|rewrite sectors_length; [lia|intros b; rewrite <-HD; apply block_law]]|].
  intros [ok3 data3] s3 H3 (C3 & L3 & O3 & P3) _. cbn [fst snd] in *. apply wp_ret. rewrite app_nil_r.
  assert (Hc : forall b, disc (env_of s3) b = D0 b) by (intros b; by rewrite C3, C2, E1).
  destruct ok3; cbn [negb].
  - destruct P3 as [-> P3]. eapply status_ok; [exact H3|exact Htag|exact P3| |].
    + intros s4 H4 C4 P4. cbn [fst snd]. unfold read_good. split_and!; try done. intros b. by rewrite C4.
    + intros s4 H4 C4 P4 F4. cbn [fst snd]. unfold read_keep. split_and!; try done; [rewrite sectors_length; [lia|intros b; rewrite <-HD; apply block_law]|]. intros b. by rewrite C4.
  - apply wp_ret. cbn [fst snd]. unfold read_keep. split_and!; try done; [|lia]. destruct flaky; [done|]. by specialize (O3 eq_refl).
Qed.
Definition write_keep (D0 : Z -> list Z) (data0 : list Z) (D : Z -> list Z) (data : list Z) : Prop := data = data0 /\ same_out lba n D0 D.
Definition write_good (D0 : Z -> list Z) (data0 : list Z) (D : Z -> list Z) (data : list Z) : Prop := forall b, D b = stored D0 lba n data0 b.
Lemma stored_again D0 D data b : same_out lba n D0 D -> stored D lba n data b = stored D0 lba n data b.
Proof. intros Hs. unfold stored. destruct ((lba <=? b) && (b <? lba + n)) eqn:Eb; [done|]. apply Hs. rewrite andb_false_iff, Z.leb_gt, Z.ltb_ge in Eb. lia. Qed.
Lemma write_attempt_ok D0 data0 s data : Z.of_nat (length data0) = n * 512 -> near i s0 s -> fit s -> write_keep D0 data0 (disc (env_of s)) data ->
  wp False (bot_attempt csw_stack (Z.of_nat i) 0 (cdb10 0x2A lba n) false data) (fun r s' => near i s0 s' /\
    match fst r with
    | Some b => b = true /\ phase_of (env_of s') = Idle /\ write_good D0 data0 (disc (env_of s')) (snd r)
    | None => phase_of (env_of s') = Stuck /\ flaky = true /\ write_keep D0 data0 (disc (env_of s')) (snd r)
    end) s.
Proof.
  intros Hl Hne Hf [-> HD]. unfold bot_attempt. rewrite Hl. apply wp_bind, wp_gets; cbv beta. assert (Htag : is_u32 (msc_tag s)) by (by destruct Hne as (? & ? & ? & ? & ? & ? & ? & ?)).
  apply wp_bind. eapply tag_ok; [done|apply u32_range|]. intros s1 H1 E1. apply wp_bind. eapply wp_mono; [apply (command_ok s1 _ (DataOut (msc_tag s) lba n))|].
  { done. } { unfold fit. by rewrite E1. } { intros Hi m tg. by apply write_law. }
  intros ok s2 (H2 & C2 & P2). assert (Hs2 : same_out lba n D0 (disc (env_of s2))) by (intros b Hb; rewrite C2, E1; by apply HD).
  destruct ok; cbn [negb]; [|destruct P2; apply wp_ret; by split_and!]. rewrite (proj2 (Z.ltb_lt _ _)) by lia. rewrite HidParse.u16_small by lia. rewrite take_ge by lia. apply wp_bind, wp_bind.
  eapply bulk_out_ok; [exact Hd|exact H2|intros m tg; eapply out_law; [exact P2|done]|]. intros r s3 H3 (C3 & O3 & P3) _. apply wp_ret.
  destruct (fst r); cbn [negb].
  - destruct P3 as [D3 P3]. assert (Hg : forall b, disc (env_of s3) b = stored D0 lba n data0 b) by (intros b; rewrite D3; by apply stored_again).
    eapply status_ok; [exact H3|exact Htag|exact P3| |].
    + intros s4 H4 C4 P4. cbn [fst snd]. unfold write_good. split_and!; try done. intros b. by rewrite C4.
    + intros s4 H4 C4 P4 F4. cbn [fst snd]. unfold write_keep. split_and!; try done. intros b Hb. rewrite C4, Hg. unfold stored. destruct ((lba <=? b) && (b <? lba + n)) eqn:Eb; [|done]. rewrite andb_true_iff, Z.leb_le, Z.ltb_lt in Eb. lia.
  - apply wp_ret. cbn [fst snd]. unfold write_keep. split_and!; try done; [destruct flaky; [done|]; by specialize (O3 eq_refl)|]. intros b Hb. rewrite C3 by done. by apply Hs2.
Qed.
End command.

Section drive.
Context (i : nat) (s0 : usb E) (d : usb_msc_dev_t) (Hd : storage_devs s0 !! i = Some d) (Hbs : block_size d = 512).

Lemma read10_ok s lba n out : near i s0 s -> fit s -> 0 <= lba -> 0 < n <= 32 -> lba + n <= capacity -> n * 512 <= Z.of_nat (length out) ->
  wp False (msc_scsi_read10 wait csw_stack fuel (Z.of_nat i) lba n out) (fun r s' => near i s0 s' /\ fit s' /\ calm_disc s s' /\ length (snd r) = length out /\
    if fst r then snd r = blocks (disc (env_of s)) lba (Z.to_nat n) ++ drop (Z.to_nat (n * 512)) out else flaky = true) s.
Proof.
  intros Hne Hf Hl Hn Hc Ho. unfold msc_scsi_read10. apply wp_bind. eapply wp_getm; [exact Hne|exact Hd|]. intros a b. cbn [block_size set_toggles]. rewrite Hbs, u32_small by (unfold is_u32; lia).
  apply wp_bind. rewrite slice_in by lia. apply wp_lift_some, wp_bind. cbn [Z.to_nat]. rewrite drop_0. set (D0 := disc (env_of s)).
  eapply wp_mono; [apply (retry_ok i s0 d Hd _ true (read_keep n D0) (read_good lba n D0)); [|by intros; eapply read_attempt_ok|done|done|]|].
  - intros D D' data He [? HD]. split; [done|]. intros b'. by rewrite He.
  - split; [rewrite length_take; lia|done].
  - intros [ok data] s1 (H1 & F1 & K1). cbn [fst snd] in *. apply wp_ret. cbn [fst snd]. rewrite length_app, length_drop. destruct ok.
    + destruct K1 as [-> HD]. assert (Hb : length (blocks D0 lba (Z.to_nat n)) = (512 * Z.to_nat n)%nat) by (apply sectors_length; intros; apply block_law). split_and!; try done. lia.
    + destruct K1 as [[K1 HD] [Hfl|?]]; [|done]. split_and!; try done. lia.
Qed.
Lemma write10_ok s lba n inb : near i s0 s -> fit s -> 0 <= lba -> 0 < n <= 32 -> lba + n <= capacity -> n * 512 <= Z.of_nat (length inb) ->
  wp False (msc_scsi_write10 wait csw_stack fuel (Z.of_nat i) lba n inb) (fun r s' => near i s0 s' /\ fit s' /\ same_out lba n (disc (env_of s)) (disc (env_of s')) /\
    if r : bool then forall b, disc (env_of s') b = stored (disc (env_of s)) lba n inb b else flaky = true) s.
Proof.
  intros Hne Hf Hl Hn Hc Ho. unfold msc_scsi_write10. apply wp_bind. eapply wp_getm; [exact Hne|exact Hd|]. intros a b. cbn [block_size set_toggles]. rewrite Hbs, u32_small by (unfold is_u32; lia).
  apply wp_bind. rewrite slice_in by lia. apply wp_lift_some, wp_bind. cbn [Z.to_nat]. rewrite drop_0. set (D0 := disc (env_of s)). set (data0 := take (Z.to_nat (n * 512)) inb).
  assert (Hst : forall b, stored D0 lba n data0 b = stored D0 lba n inb b).
  { intros b'. unfold stored, data0. destruct ((lba <=? b') && (b' <? lba + n)) eqn:Eb; [|done]. rewrite andb_true_iff, Z.leb_le, Z.ltb_lt in Eb.
    rewrite skipn_firstn_comm, take_take. f_equal. lia. }
  eapply wp_mono; [apply (retry_ok i s0 d Hd _ false (write_keep lba n D0 data0) (write_good lba n D0 data0)); [|intros; eapply write_attempt_ok; try done; unfold data0; rewrite length_take; lia|done|done|by split]|].
  - intros D D' data He [-> HD]. split; [done|]. intros b' Hb'. rewrite He. by apply HD.
  - intros [ok data] s1 (H1 & F1 & K1). cbn [fst snd] in *. apply wp_ret. destruct ok.
    + split_and!; try done; [|intros b'; rewrite K1; apply Hst]. intros b' Hb'. rewrite K1. unfold stored. destruct ((lba <=? b') && (b' <? lba + n)) eqn:Eb; [|done]. rewrite andb_true_iff, Z.leb_le, Z.ltb_lt in Eb. lia.
    + destruct K1 as [[_ HD] [Hfl|?]]; [|done]. by split_and!.
Qed.

Lemma blocks_app D a : forall lba b, blocks D lba (a + b) = blocks D lba a ++ blocks D (lba + Z.of_nat a) b.
Proof.
  induction a as [|a IH]; intros lba b; [cbn; f_equal; lia|]. cbn [blocks Nat.add]. rewrite IH, <-app_assoc. do 3 f_equal. lia.
Qed.
Lemma chunk_of count done : 0 <= done < count -> count <= 65535 ->
  exists c, (if 32 <? u16 (count - done) then 32 else u16 (count - done)) = c /\ 0 < c <= 32 /\ done + c <= count.
Proof. intros. eexists. split; [done|]. rewrite HidParse.u16_small by lia. case_match eqn:Ec; rewrite ?Z.ltb_lt, ?Z.ltb_ge in Ec; lia. Qed.
Lemma read_loop_ok lba count k : forall done buffer s, near i s0 s -> fit s -> 0 <= lba -> lba + count <= capacity -> capacity <= 4294967296 -> count <= 65535 ->
  0 <= done <= count -> count - done <= Z.of_nat k -> Z.of_nat (length buffer) = count * 512 -> take (Z.to_nat (done * 512)) buffer = blocks (disc (env_of s)) lba (Z.to_nat done) ->
  wp False (read_loop wait csw_stack fuel k (Z.of_nat i) lba count done buffer) (fun r s' => near i s0 s' /\ fit s' /\ calm_disc s s' /\
    if fst r then snd r = blocks (disc (env_of s)) lba (Z.to_nat count) else flaky = true) s.
Proof.
  induction k as [|k IH]; intros done buffer s Hne Hf Hl Hc Hcap H16 Hdo Hk Hb Ht; cbn [read_loop]; destruct (Z.ltb_spec done count) as [Hlt|Hge]; try lia.
  1, 3: apply wp_ret; split_and!; [done|done|done|]; assert (done = count) as -> by lia; cbn [fst snd]; rewrite <-Ht, take_ge by lia; done.
  destruct (chunk_of count done ltac:(lia) H16) as (c & -> & Hc0 & Hc1). apply wp_bind. rewrite slice_in by lia. apply wp_lift_some, wp_bind. rewrite u32_small by (unfold is_u32; lia).
  set (out := take _ _). assert (Hlo : Z.of_nat (length out) = count * 512 - done * 512) by (unfold out; rewrite length_take, length_drop; lia).
  eapply wp_mono; [apply (read10_ok s (lba + done) c out); try done; try lia|]. intros [ok data] s1 (H1 & F1 & C1 & L1 & K1). cbn [fst snd] in *. destruct ok; cbn [negb]; [|by apply wp_ret; split_and!].
  eapply wp_mono; [apply IH; try done; try lia|].
  - rewrite length_app, length_take, L1. lia.
  - rewrite Ht, K1. assert (Hbl : forall l m, length (blocks (disc (env_of s)) l m) = (512 * m)%nat) by (intros; apply sectors_length; intros; apply block_law).
    rewrite (blocks_ext (disc (env_of s)) _ _ _ C1). rewrite app_assoc, take_app_le by (rewrite length_app, !Hbl; lia). rewrite take_ge by (rewrite length_app, !Hbl; lia).
    replace (Z.to_nat (done + c)) with (Z.to_nat done + Z.to_nat c)%nat by lia. rewrite blocks_app. by rewrite Z2Nat.id by lia.
  - intros r s2 (H2 & F2 & C2 & K2). split_and!; try done; [intros b; by rewrite C2, C1|]. destruct (fst r); [|done]. rewrite K2. by apply blocks_ext.
Qed.
Lemma stored_app D lba a b data x : 0 <= a -> 0 <= b ->
  stored (stored D lba a data) (lba + a) b (drop (Z.to_nat (a * 512)) data) x = stored D lba (a + b) data x.
Proof.
  intros Ha Hb. unfold stored. destruct (Z.leb_spec (lba + a) x), (Z.ltb_spec x (lba + a + b)), (Z.leb_spec lba x), (Z.ltb_spec x (lba + (a + b))), (Z.ltb_spec x (lba + a)); cbn [andb]; try lia; try done.
  rewrite drop_drop. do 2 f_equal. lia.
Qed.
Lemma stored_ext D D' lba n data x : (forall b, D' b = D b) -> stored D' lba n data x = stored D lba n data x.
Proof. intros He. unfold stored. by rewrite He. Qed.
Lemma write_loop_ok lba count data D0 k : forall done s, near i s0 s -> fit s -> 0 <= lba -> lba + count <= capacity -> capacity <= 4294967296 -> count <= 65535 ->
  0 <= done <= count -> count - done <= Z.of_nat k -> Z.of_nat (length data) = count * 512 -> (forall b, disc (env_of s) b = stored D0 lba done data b) ->
  wp False (write_loop wait csw_stack fuel k (Z.of_nat i) lba count done data) (fun r s' => near i s0 s' /\ fit s' /\ same_out lba count D0 (disc (env_of s')) /\
    if r : bool then forall b, disc (env_of s') b = stored D0 lba count data b else flaky = true) s.
Proof.
  intros done s. revert done s. induction k as [|k IH]; intros done s Hne Hf Hl Hc Hcap H16 Hdo Hk Hb Ht; cbn [write_loop]; destruct (Z.ltb_spec done count) as [Hlt|Hge]; try lia.
  1, 3: assert (done = count) as -> by lia; apply wp_ret; split_and!; try done; intros b Hb'; rewrite Ht; unfold stored; destruct ((lba <=? b) && (b <? lba + count)) eqn:Eb; [|done]; rewrite andb_true_iff, Z.leb_le, Z.ltb_lt in Eb; lia.
  destruct (chunk_of count done ltac:(lia) H16) as (c & -> & Hc0 & Hc1). apply wp_bind. rewrite slice_in by lia. apply wp_lift_some, wp_bind. rewrite u32_small by (unfold is_u32; lia).
  rewrite take_ge by (rewrite length_drop; lia). eapply wp_mono; [apply (write10_ok s (lba + done) c); try done; try lia; rewrite length_drop; lia|].
  intros ok s1 (H1 & F1 & C1 & K1). destruct ok; cbn [negb].
  - apply IH; try done; try lia. intros b. rewrite K1, (stored_ext _ _ _ _ _ _ Ht). apply stored_app; lia.
  - apply wp_ret. split_and!; try done. intros b Hb'. rewrite C1, Ht by lia. unfold stored. destruct ((lba <=? b) && (b <? lba + done)) eqn:Eb; [|done]. rewrite andb_true_iff, Z.leb_le, Z.ltb_lt in Eb. lia.
Qed.

(** ** Drives *)

(** The drive number belongs to this device. *)
Definition serves (drive : Z) (s : usb E) : Prop := list_find (fun d => drive_id d = drive) (take (Z.to_nat (storage_dev_count s)) (storage_devs s)) = Some (i, d).
Lemma find_dev_ok drive s : serves drive s0 -> near i s0 s -> find_dev_by_drive drive s = Ok (Z.of_nat i, s).
Proof.
  intros Hs (d' & a & b & Hd' & _ & Hk & Hc & _). rewrite Hd in Hd'. injection Hd' as <-. unfold find_dev_by_drive, bind, get, ret. rewrite Hk, Hc.
  apply list_find_Some in Hs as (Hi & Hid & Hfirst). apply lookup_take_Some in Hi as [_ Hi].
  assert (list_find (fun d0 => drive_id d0 = drive) (take (Z.to_nat (storage_dev_count s0)) (<[i := set_toggles a b d]> (storage_devs s0))) = Some (i, set_toggles a b d)) as ->; [|done].
  apply list_find_Some. split_and!; [|done|].
  - rewrite lookup_take_lt by done. apply list_lookup_insert_eq. by apply lookup_lt_Some in Hd.
  - intros j y Hj Hlt. apply lookup_take_Some in Hj as [Hj Hjn]. rewrite list_lookup_insert_ne in Hj by lia. apply (Hfirst j); [|done]. by rewrite lookup_take_lt.
Qed.
Lemma write_sectors_ok drive lba count data s : serves drive s0 -> near i s0 s -> fit s -> 0 <= lba -> lba + count <= capacity -> capacity <= 4294967296 -> 0 <= count <= 65535 ->
  Z.of_nat (length data) = count * 512 ->
  wp False (usb_storage_write_sectors wait csw_stack fuel drive lba count data) (fun r s' => near i s0 s' /\ fit s' /\ same_out lba count (disc (env_of s)) (disc (env_of s')) /\
    if r : bool then forall b, disc (env_of s') b = stored (disc (env_of s)) lba count data b else flaky = true) s.
Proof.
  intros Hs Hne Hf Hl Hc Hcap H16 Hb. unfold usb_storage_write_sectors. apply wp_bind. eapply wp_ok; [by apply find_dev_ok|]. rewrite (proj2 (Z.ltb_ge _ _)) by lia.
  apply wp_bind. eapply wp_getm; [exact Hne|exact Hd|]. intros a b. cbn [block_size set_toggles]. rewrite Hbs. cbn [Z.eqb negb]. eapply write_loop_ok; try done; try lia.
  intros x. unfold stored. destruct (Z.leb_spec lba x), (Z.ltb_spec x (lba + 0)); cbn [andb]; try done; lia.
Qed.
Lemma read_sectors_ok drive lba count buffer s : serves drive s0 -> near i s0 s -> fit s -> 0 <= lba -> lba + count <= capacity -> capacity <= 4294967296 -> 0 <= count <= 65535 ->
  Z.of_nat (length buffer) = count * 512 ->
  wp False (usb_storage_read_sectors wait csw_stack fuel drive lba count buffer) (fun r s' => near i s0 s' /\ fit s' /\ calm_disc s s' /\
    if fst r then snd r = blocks (disc (env_of s)) lba (Z.to_nat count) else flaky = true) s.
Proof.
  intros Hs Hne Hf Hl Hc Hcap H16 Hb. unfold usb_storage_read_sectors. apply wp_bind. eapply wp_ok; [by apply find_dev_ok|]. rewrite (proj2 (Z.ltb_ge _ _)) by lia.
  apply wp_bind. eapply wp_getm; [exact Hne|exact Hd|]. intros a b. cbn [block_size set_toggles]. rewrite Hbs. cbn [Z.eqb negb]. eapply read_loop_ok; try done; try lia.
Qed.
Lemma blocks_stored D lba n : forall data, length data = (512 * n)%nat -> forall k, 0 <= k ->
  blocks (stored D lba (k + Z.of_nat n) (replicate (Z.to_nat (512 * k)) 0 ++ data)) (lba + k) n = data.
Proof.
  induction n as [|n IH]; intros data Hl k Hk; [by destruct data|]. cbn [blocks].
  assert (Hhead : stored D lba (k + Z.of_nat (S n)) (replicate (Z.to_nat (512 * k)) 0 ++ data) (lba + k) = take 512 data).
  { unfold stored. rewrite (proj2 (Z.leb_le _ _)), (proj2 (Z.ltb_lt _ _)) by lia. cbn [andb]. rewrite drop_app_ge; rewrite length_replicate; [|lia]. f_equal. rewrite <-(drop_0 data) at 2. f_equal. lia. }
  rewrite Hhead. replace (lba + k + 1) with (lba + (k + 1)) by lia. rewrite <-(take_drop 512 data) at 3. f_equal. rewrite <-(IH (drop 512 data)) with (k := k + 1); [|rewrite length_drop; lia|lia].
  assert (Hsame : forall m l, k + 1 <= l -> blocks (stored D lba (k + Z.of_nat (S n)) (replicate (Z.to_nat (512 * k)) 0 ++ data)) (lba + l) m =
    blocks (stored D lba (k + 1 + Z.of_nat n) (replicate (Z.to_nat (512 * (k + 1))) 0 ++ drop 512 data)) (lba + l) m).
  { induction m as [|m IHm]; intros l Hlk; [done|]. cbn [blocks]. replace (lba + l + 1) with (lba + (l + 1)) by lia. rewrite IHm by lia. f_equal. unfold stored.
    replace (lba + (k + 1 + Z.of_nat n)) with (lba + (k + Z.of_nat (S n))) by lia. destruct ((lba <=? lba + l) && (lba + l <? lba + (k + Z.of_nat (S n)))); [|done]. f_equal.
    rewrite !drop_app_ge; rewrite ?length_replicate; try lia. rewrite drop_drop. f_equal. lia. }
  by rewrite Hsame by lia.
Qed.
Lemma blocks_stored_0 D lba n data : length data = (512 * n)%nat -> blocks (stored D lba (Z.of_nat n) data) lba n = data.
Proof. intros Hl. pose proof (blocks_stored D lba n data Hl 0 ltac:(lia)) as H'. cbn [Z.to_nat replicate app Z.mul Z.add] in H'. by rewrite Z.add_0_r in H'. Qed.
End drive.

(** C34: USB storage keeps what it is given.  Writing count sectors to a drive and reading them back
    ends, with the chunks of 32 sectors and the retries of usb.c; when both calls report success the
    bytes read are those written, sectors outside the range are not touched, and when the transport
    does not fail both calls do succeed. *)
Theorem usb_storage_write_read i s d drive lba count data buffer :
  storage_devs s !! i = Some d -> mine d -> block_size d = 512 -> serves i d drive s -> is_u32 (msc_tag s) -> phase_of (env_of s) = Idle ->
  0 <= lba -> lba + count <= capacity -> capacity <= 4294967296 -> 0 <= count <= 65535 -> Z.of_nat (length data) = count * 512 -> length buffer = length data ->
  wp False (ok <- usb_storage_write_sectors wait csw_stack fuel drive lba count data;; r <- usb_storage_read_sectors wait csw_stack fuel drive lba count buffer;; ret (ok, r))
    (fun '(ok, (rok, back)) s' => (ok = true -> rok = true -> back = data) /\ (flaky = false -> ok = true /\ rok = true) /\ same_out lba count (disc (env_of s)) (disc (env_of s'))) s.
Proof.
  intros Hd Hm Hbs Hs Ht Hp Hl Hc Hcap H16 Hlen Hb. pose proof (msc_near_refl i s d Hd Hm Ht) as Hn. apply wp_bind. eapply wp_mono; [apply (write_sectors_ok i s d Hd Hbs drive lba count data s); try done; by left|].
  intros ok s1 (H1 & F1 & C1 & K1). apply wp_bind. eapply wp_mono; [apply (read_sectors_ok i s d Hd Hbs drive lba count buffer s1); try done; lia|].
  intros [rok back] s2 (H2 & F2 & C2 & K2). apply wp_ret. cbn [fst snd] in *. split_and!.
  - intros -> ->. rewrite K2, (blocks_ext _ _ _ _ K1). replace count with (Z.of_nat (Z.to_nat count)) at 1 by lia. apply blocks_stored_0. lia.
  - intros Hfl. split; [destruct ok|destruct rok]; congruence.
  - intros b Hb'. rewrite C2. by apply C1.
Qed.
End device.

(** ** A storage device *)

Record sdev := Sdev { sd_phase : phase; sd_disc : Z -> list Z; sd_now : Z }.
Definition sd_block (e : sdev) (b : Z) : list Z := take 512 (sd_disc e b ++ replicate 512 0).
Definition sd_command (data : list Z) (e : sdev) : res ((bool * list Z) * sdev) :=
  let tag := get32 data 4 in
  let lba := be32 data 17 in
  let n := 256 * nth 22 data 0 + nth 23 data 0 in
  if nth 15 data 0 =? 0x28 then Ok ((true, data), Sdev (DataIn tag (blocks (sd_block e) lba (Z.to_nat n))) (sd_disc e) (sd_now e))
  else if nth 15 data 0 =? 0x2A then Ok ((true, data), Sdev (DataOut tag lba n) (sd_disc e) (sd_now e))
  else Ok ((false, data), Sdev Stuck (sd_disc e) (sd_now e)).
Definition sd_transfer (data : list Z) (e : sdev) : res ((bool * list Z) * sdev) :=
  match sd_phase e with
  | Idle => sd_command data e
  | DataIn tag bytes => Ok ((true, bytes), Sdev (Status tag 0) (sd_disc e) (sd_now e))
  | DataOut tag lba n => Ok ((true, data), Sdev (Status tag 0) (stored (sd_block e) lba n data) (sd_now e))
  | Status tag st => Ok ((true, bytes32 MSC_CSW_SIGNATURE ++ bytes32 tag ++ [0; 0; 0; 0; st]), Sdev Idle (sd_disc e) (sd_now e))
  | Stuck => Ok ((false, data), e)
  end.
#[global] Instance sdev_hc : UsbHc sdev := {
  ops _ := Some (Ops true true true true true true true true true true true true);
  control_transfer _ _ _ _ data := ret (true, data);
  bulk_transfer _ _ _ _ _ data := sd_transfer data;
  async_in_init _ _ _ _ _ _ := ret false;
  async_in_check _ _ := ret (0, 0, []);
  async_in_rearm _ _ := ret tt;
  async_in_cancel _ _ := ret tt;
  configure_endpoint _ _ _ _ _ _ _ := ret true;
  enum_open _ _ _ := ret None;
  enum_set_address _ _ _ := ret (false, 0);
  enum_close _ _ := ret tt;
  alloc_address _ := ret 1;
  reset_address_allocator _ := ret tt;
  tick := e <- get;; ret (u32 (sd_now e));
  kmalloc _ := ret 4096;
  kfree _ := ret tt;
}.
#[global] Instance sdev_bot : Bot := { phase_of := sd_phase; disc := sd_block; now := sd_now; capacity := 64; flaky := false }.
Definition sd_wait : M (usb sdev) unit := on_env (modify (fun e => Sdev (sd_phase e) (sd_disc e) (sd_now e + 1))).
Lemma sd_block_length e b : length (sd_block e b) = 512%nat.
Proof. unfold sd_block. rewrite length_take, length_app, length_replicate. lia. Qed.
Lemma cdb10_decode lba n : 0 <= lba < 4294967296 -> 0 <= n < 65536 ->
  be32 (cdb10 0 lba n) 2 = lba /\ 256 * nth 7 (cdb10 0 lba n) 0 + nth 8 (cdb10 0 lba n) 0 = n.
Proof.
  intros Hl Hn. unfold be32, cdb10. cbn [nth Nat.add]. change 0xFF with (2 ^ 8 - 1). rewrite !land_ones_mod, !Z.shiftr_div_pow2 by lia.
  change (2 ^ 8) with 256. change (2 ^ 16) with 65536. change (2 ^ 24) with 16777216. split; Z.div_mod_to_equations; lia.
Qed.
Lemma sd_command_ok tag din op lba n e : is_u32 tag -> 0 <= lba -> 0 < n <= 32 -> lba + n <= 64 -> op = 0x28 \/ op = 0x2A ->
  let data := cbw_bytes tag (n * 512) din 0 (cdb10 op lba n) in
  sd_command data e = Ok ((true, data), Sdev (if op =? 0x28 then DataIn tag (blocks (sd_block e) lba (Z.to_nat n)) else DataOut tag lba n) (sd_disc e) (sd_now e)).
Proof.
  intros Ht Hl Hn Hc Hop data. destruct (cdb10_decode lba n ltac:(lia) ltac:(lia)) as [Elba En].
  assert (Etag : get32 data 4 = tag) by (unfold data, cbw_bytes; by apply (get32_at (bytes32 MSC_CBW_SIGNATURE))).
  assert (E17 : be32 data 17 = lba) by exact Elba. assert (E22 : 256 * nth 22 data 0 + nth 23 data 0 = n) by exact En.
  unfold sd_command. rewrite Etag, E17, E22. change (nth 15 data 0) with op. destruct Hop as [Hop|Hop]; subst op; done.
Qed.
Definition sd_place : place := Place 1 3 USB_SPEED_SUPER 0 0.
#[global] Instance sdev_laws : BotLaws sd_place 1 2 sd_wait.
Proof.
  constructor; unfold outcome; cbn [block_law phase_of disc now capacity flaky sdev_bot tick control_transfer bulk_transfer sdev_hc].
  - apply sd_block_length.
  - intros e. by apply wp_bind, wp_gets, wp_ret.
  - intros s. by destruct s as [? ? ? ? ? ? []].
  - intros m tg tag lba n e Hp Hl Hn Hc Ht. unfold wp, sd_transfer. rewrite Hp, sd_command_ok by (auto; lia). by split_and!.
  - intros m tg tag lba n e Hp Hl Hn Hc Ht. unfold wp, sd_transfer. rewrite Hp, sd_command_ok by (auto; lia). by split_and!.
  - intros m tg tag bytes data e Hp Hl. unfold wp, sd_transfer. rewrite Hp. by split_and!.
  - intros m tg tag lba n data e Hp Hl. unfold wp, sd_transfer. rewrite Hp. cbn [fst sd_phase].
    assert (Hst : forall b, sd_block (Sdev (Status tag 0) (stored (sd_block e) lba n data) (sd_now e)) b = stored (sd_block e) lba n data b).
    { intros b. unfold sd_block at 1. cbn [sd_disc]. rewrite take_app_le, take_ge; [done|..]; unfold stored; case_match eqn:Eb; rewrite ?sd_block_length, ?length_take, ?length_drop; try lia;
        rewrite andb_true_iff, Z.leb_le, Z.ltb_lt in Eb; lia. }
    split_and!; try done. intros b Hb. rewrite Hst. unfold stored. destruct ((lba <=? b) && (b <? lba + n)) eqn:Eb; [|done]. rewrite andb_true_iff, Z.leb_le, Z.ltb_lt in Eb. lia.
  - intros m tg tag st data e Hp Ht Hl. unfold wp, sd_transfer. rewrite Hp. cbn [fst snd sd_phase]. split_and!; try done. by apply (get32_at (bytes32 MSC_CSW_SIGNATURE)).
  - intros ep d m tg data e Hp. unfold wp, sd_transfer. rewrite Hp. by split_and!.
  - intros m setup data e Hp. by apply wp_ret.
Qed.

(** One drive, number 4, behind [sd_place] *)
Definition sd_drive : usb_msc_dev_t := Msc sd_place 64 0 1 2 512 512 0 0 512 64 4 0.
Definition sd_usb : usb sdev :=
  Mk (sd_drive :: replicate 3 msc0) 1 1 (replicate 4 hid0) 0 0 (UsbKbd.usb_kbd0 (Sdev Idle (fun b => replicate 512 (b mod 256)) 0)).
Lemma usb_storage_write_read_witness :
  wp False (ok <- usb_storage_write_sectors sd_wait (replicate 13 0) 100 4 3 2 (replicate 1024 7);;
            r <- usb_storage_read_sectors sd_wait (replicate 13 0) 100 4 3 2 (replicate 1024 0);; ret (ok, r))
    (fun '(ok, (rok, back)) s' => (ok = true -> rok = true -> back = replicate 1024 7) /\ (flaky = false -> ok = true /\ rok = true) /\ same_out 3 2 (disc (env_of sd_usb)) (disc (env_of s'))) sd_usb.
Proof.
  refine (usb_storage_write_read sd_place 1 2 (wait := sd_wait) _ 100 _ (replicate 13 0) _ 0 sd_usb sd_drive 4 3 2 (replicate 1024 7) (replicate 1024 0) _ _ _ _ _ _ _ _ _ _ _ _).
  all: first [reflexivity | done | lia | unfold is_u32; cbn; lia].
Defined.
(** The toggle changes once for a transfer, whatever the number of its packets: two blocks of 512
    bytes are two packets, and the endpoint expects the toggle it had. *)
Example toggle_counts_transfers :
  match msc_bulk_out 0 (replicate 1024 0) (Mk (storage_devs sd_usb) 1 1 (hid_devs sd_usb) 0 0 (UsbKbd.usb_kbd0 (Sdev (DataOut 1 0 2) (fun _ => []) 0))) with
  | Ok (_, s) => (bulk_out_mps sd_drive, bulk_out_toggle sd_drive, option_map bulk_out_toggle (head (storage_devs s))) = (512, 0, Some 1)
  | _ => False
  end.
Proof. reflexivity. Qed.
End UsbMsc.
