(* ===== verification/UsbCfg.v ===== *)
(** * Configurations and reports of USB devices (drivers/usb/usb.c)

    usb_parse_config looks for a hub, a storage interface, a keyboard and a mouse in the descriptors
    of a configuration; hid_parse_report_desc, over the walk of [HidParse], for the axes and buttons of
    a mouse.  A descriptor is the list of its bytes: usb.c reads cfg[off + j] for j below its length. *)
From S2P Require Import Prelude UsbHc HidParse UsbKbd Usb.

Module UsbCfg.
Import HidParse Usb.

Definition USB_CLASS_HID : Z := 0x03.
Definition USB_CLASS_MSC : Z := 0x08.
Definition USB_CLASS_HUB : Z := 0x09.
Definition USB_HID_SUBCLASS_BOOT : Z := 0x01.
Definition USB_HID_PROTO_KBD : Z := 0x01.
Definition USB_HID_PROTO_MOUSE : Z := 0x02.
Definition USB_MSC_SUBCLASS_SCSI : Z := 0x06.
Definition USB_MSC_PROTO_BULK_ONLY : Z := 0x50.

(** ** Configurations *)

(** The members hid_kbd_... or hid_mouse_... *)
Record hid_iface := Iface { hi_num : Z; hi_ep : Z; hi_mps : Z; hi_interval : Z; hi_report_len : Z }.
(** A setting of the storage interface: cur_... and best_... *)
Record setting := Setting { s_iface : Z; s_alt : Z; s_in : Z; s_out : Z; s_in_mps : Z; s_out_mps : Z; s_eps : Z }.
Record usb_parse_result_t := Parsed {
  is_hub : bool; msc_iface_present : bool; msc_iface_found : bool; msc_iface_num : Z; msc_alt_setting : Z;
  r_bulk_in_ep : Z; r_bulk_out_ep : Z; r_bulk_in_mps : Z; r_bulk_out_mps : Z;
  r_kbd : hid_iface; r_mouse : hid_iface;
  last_iface_class : Z; last_iface_sub : Z; last_iface_proto : Z; last_alt : Z;
}.
Definition setting0 : setting := Setting 0 0 0 0 0 0 0.
Definition iface0 : hid_iface := Iface 0 0 0 0 0.
Definition parsed0 : usb_parse_result_t := Parsed false false false 0 0 0 0 0 0 iface0 iface0 0 0 0 0.
(** What the loop keeps; best is None as long as !best_valid. *)
Record scan := Scan {
  in_msc_iface : bool; in_hid_kbd_iface : bool; in_hid_mouse_iface : bool; primary_msc_iface : Z;
  cur : setting; best : option setting; out : usb_parse_result_t;
}.
Definition scan0 : scan := Scan false false false 0xFF setting0 None parsed0.
Definition with_best (b : option setting) (w : scan) : scan :=
  Scan (in_msc_iface w) (in_hid_kbd_iface w) (in_hid_mouse_iface w) (primary_msc_iface w) (cur w) b (out w).
Definition with_cur (c : setting) (w : scan) : scan :=
  Scan (in_msc_iface w) (in_hid_kbd_iface w) (in_hid_mouse_iface w) (primary_msc_iface w) c (best w) (out w).
Definition with_kbd (k : hid_iface) (w : scan) : scan :=
  let o := out w in
  Scan (in_msc_iface w) (in_hid_kbd_iface w) (in_hid_mouse_iface w) (primary_msc_iface w) (cur w) (best w)
    (Parsed (is_hub o) (msc_iface_present o) (msc_iface_found o) (msc_iface_num o) (msc_alt_setting o) (r_bulk_in_ep o) (r_bulk_out_ep o) (r_bulk_in_mps o) (r_bulk_out_mps o)
       k (r_mouse o) (last_iface_class o) (last_iface_sub o) (last_iface_proto o) (last_alt o)).
Definition with_mouse (m : hid_iface) (w : scan) : scan :=
  let o := out w in
  Scan (in_msc_iface w) (in_hid_kbd_iface w) (in_hid_mouse_iface w) (primary_msc_iface w) (cur w) (best w)
    (Parsed (is_hub o) (msc_iface_present o) (msc_iface_found o) (msc_iface_num o) (msc_alt_setting o) (r_bulk_in_ep o) (r_bulk_out_ep o) (r_bulk_in_mps o) (r_bulk_out_mps o)
       (r_kbd o) m (last_iface_class o) (last_iface_sub o) (last_iface_proto o) (last_alt o)).

(** More endpoints, then larger packets, then larger packets from the device *)
Definition mps_sum (c : setting) : Z := u32 (s_in_mps c + s_out_mps c).
Definition better (c : setting) (best : option setting) : bool :=
  match best with
  | None => true
  | Some b =>
    if s_eps b <? s_eps c then true
    else if (s_eps c =? s_eps b) && (mps_sum b <? mps_sum c) then true
    else (s_eps c =? s_eps b) && (mps_sum c =? mps_sum b) && (s_in_mps b <? s_in_mps c)
  end.
(** A setting that ends with both endpoints found is compared with the best. *)
Definition settle (w : scan) : scan :=
  if in_msc_iface w && negb (s_in (cur w) =? 0) && negb (s_out (cur w) =? 0) then
    if better (cur w) (best w) then with_best (Some (cur w)) w else w
  else w.
Definition parse_interface (d : list Z) (w : scan) : option scan :=
  let w := settle w in
  number ← lget d 2; alt ← lget d 3; neps ← lget d 4; class ← lget d 5; sub ← lget d 6; proto ← lget d 7;
  let o := out w in
  let is_msc := (class =? USB_CLASS_MSC) && (sub =? USB_MSC_SUBCLASS_SCSI) && (proto =? USB_MSC_PROTO_BULK_ONLY) in
  let primary := if is_msc && (primary_msc_iface w =? 0xFF) then number else primary_msc_iface w in
  let in_msc := is_msc && (number =? primary) in
  let in_kbd := (class =? USB_CLASS_HID) && (sub =? USB_HID_SUBCLASS_BOOT) && (proto =? USB_HID_PROTO_KBD) in
  let in_mouse := (class =? USB_CLASS_HID) && (sub =? USB_HID_SUBCLASS_BOOT) && (proto =? USB_HID_PROTO_MOUSE) in
  let named (b : bool) (h : hid_iface) := if b then Iface number (hi_ep h) (hi_mps h) (hi_interval h) (hi_report_len h) else h in
  Some (Scan in_msc in_kbd in_mouse primary (if in_msc then Setting number alt 0 0 0 0 neps else cur w) (best w)
    (Parsed (is_hub o || (class =? USB_CLASS_HUB)) (msc_iface_present o || is_msc) (msc_iface_found o) (msc_iface_num o) (msc_alt_setting o)
       (r_bulk_in_ep o) (r_bulk_out_ep o) (r_bulk_in_mps o) (r_bulk_out_mps o) (named in_kbd (r_kbd o)) (named in_mouse (r_mouse o)) class sub proto alt)).
(** for (d = 0; d < num_desc; d++); j is desc_off - off *)
Fixpoint hid_descs (k : nat) (j : Z) (d : list Z) (w : scan) : option scan :=
  match k with
  | O => Some w
  | S k' =>
    if Z.of_nat (length d) <=? j + 2 then Some w
    else
      type ← lget d j; lo ← lget d (j + 1); hi ← lget d (j + 2);
      let len := Z.lor lo (Z.shiftl hi 8) in
      let sized (h : hid_iface) := Iface (hi_num h) (hi_ep h) (hi_mps h) (hi_interval h) len in
      let w := if (type =? USB_DESC_HID_REPORT) && in_hid_kbd_iface w then with_kbd (sized (r_kbd (out w))) w else w in
      let w := if (type =? USB_DESC_HID_REPORT) && in_hid_mouse_iface w then with_mouse (sized (r_mouse (out w))) w else w in
      hid_descs k' (j + 3) d w
  end.
Definition parse_endpoint (d : list Z) (w : scan) : option scan :=
  addr ← lget d 2; attr ← lget d 3; lo ← lget d 4; hi ← lget d 5; interval ← lget d 6;
  let mps := Z.land (Z.lor lo (Z.shiftl hi 8)) 0x7FF in
  let c := cur w in
  if in_msc_iface w then
    if Z.land attr 3 =? 2 then
      Some (with_cur (if Z.testbit addr 7 then Setting (s_iface c) (s_alt c) (Z.land addr 0x0F) (s_out c) mps (s_out_mps c) (s_eps c)
                      else Setting (s_iface c) (s_alt c) (s_in c) (Z.land addr 0x0F) (s_in_mps c) mps (s_eps c)) w)
    else Some w
  else if in_hid_kbd_iface w || in_hid_mouse_iface w then
    if (Z.land attr 3 =? 3) && Z.testbit addr 7 then
      let found (h : hid_iface) := Iface (hi_num h) (Z.land addr 0x0F) mps interval (hi_report_len h) in
      let w := if in_hid_kbd_iface w && (hi_ep (r_kbd (out w)) =? 0) then with_kbd (found (r_kbd (out w))) w else w in
      Some (if in_hid_mouse_iface w && (hi_ep (r_mouse (out w)) =? 0) then with_mouse (found (r_mouse (out w))) w else w)
    else Some w
  else Some w.
Definition parse_desc (type : Z) (d : list Z) (w : scan) : option scan :=
  let len := Z.of_nat (length d) in
  if (type =? USB_DESC_INTERFACE) && (9 <=? len) then parse_interface d w
  else if (in_hid_kbd_iface w || in_hid_mouse_iface w) && (type =? USB_DESC_HID) && (9 <=? len) then
    num_desc ← lget d 5; hid_descs (Z.to_nat num_desc) 6 d w
  else if (type =? USB_DESC_ENDPOINT) && (7 <=? len) then parse_endpoint d w
  else Some w.
Fixpoint config_loop (fuel : nat) (cfg : list Z) (total_len off : Z) : M scan unit :=
  if off + 2 <=? total_len then
    match fuel with
    | O => nofuel
    | S fuel' =>
      len <- lift_opt (lget cfg off);; type <- lift_opt (lget cfg (off + 1));;
      if len <? 2 then ret tt
      else if total_len <? off + len then ret tt
      else
        d <- lift_opt (slice cfg off len);;
        w <- get;; w' <- lift_opt (parse_desc type d w);; modify (fun _ => w');;;
        config_loop fuel' cfg total_len (u16 (off + len))
    end
  else ret tt.
Definition chosen (w : scan) : usb_parse_result_t :=
  let o := out w in
  match best w with
  | None => o
  | Some b =>
    Parsed (is_hub o) (msc_iface_present o) true (s_iface b) (s_alt b) (s_in b) (s_out b) (s_in_mps b) (s_out_mps b)
      (r_kbd o) (r_mouse o) (last_iface_class o) (last_iface_sub o) (last_iface_proto o) (last_alt o)
  end.
(** Each turn of the loop moves on by at least two bytes. *)
Definition usb_parse_config {S} (cfg : list Z) (total_len : Z) : M S usb_parse_result_t :=
  if total_len <? 2 then ret parsed0
  else
    match config_loop (length cfg) cfg total_len 0 scan0 with
    | Ok (_, w) => ret (chosen (settle w))
    | Fault => fault
    | NoFuel => nofuel
    end.

(** ** Reports of a mouse *)

Definition mouse_elem (it : item) (usage elem_off : Z) (i : hid_report_info_t) : hid_report_info_t :=
  if (it_page it =? HID_USAGE_PAGE_BUTTON) && it_var it && (it_size it =? 1) then
    if negb (b_has (i_buttons i)) then set_buttons (Bits true elem_off (it_count it)) i else i
  else if (it_page it =? HID_USAGE_PAGE_GENERIC) && it_var it then
    let a := Axis true elem_off (it_size it) (it_rel it) in
    if (usage =? HID_USAGE_X) && negb (a_has (i_x i)) then set_x a i
    else if (usage =? HID_USAGE_Y) && negb (a_has (i_y i)) then set_y a i
    else if (usage =? HID_USAGE_WHEEL) && negb (a_has (i_wheel i)) then set_wheel a i
    else i
  else i.
Definition hid_parse_report_desc {S} (desc : list Z) (len : Z) (is_mouse : bool) : M S (option hid_report_info_t) :=
  if is_mouse then
    HidParse.hid_parse_report_desc mouse_elem (fun i => a_has (i_x i) && a_has (i_y i) && b_has (i_buttons i)) (fun i => a_has (i_x i) && a_has (i_y i)) desc len
  else UsbKbd.kbd_parse_report_desc desc len.

Definition read_axis (buf : list Z) (base : Z) (a : axis) : option Z :=
  if a_rel a then hid_get_bits_signed buf (u16 (base + a_off a)) (a_size a) else hid_get_bits buf (u16 (base + a_off a)) (a_size a).
Definition max_bits (r : hid_report_info_t) : Z :=
  let m := u16 (a_off (i_x r) + a_size (i_x r)) in
  let y := u16 (a_off (i_y r) + a_size (i_y r)) in
  let m := if m <? y then y else m in
  let m := if b_has (i_buttons r) then let b := u16 (b_off (i_buttons r) + b_count (i_buttons r)) in if m <? b then b else m else m in
  if a_has (i_wheel r) then let w := u16 (a_off (i_wheel r) + a_size (i_wheel r)) in if m <? w then w else m else m.
(** What mouse_inject is called with; Some None when it is not called *)
Definition mouse_report (report_proto : bool) (r : hid_report_info_t) (buf : list Z) (actual : Z) : option (option (Z * Z * Z * Z)) :=
  if report_proto then
    if negb (a_has (i_x r)) || negb (a_has (i_y r)) then Some None
    else
      first ← (if negb (report_id r =? 0) && negb (actual <? 1) then lget buf 0 else Some 0);
      if negb (report_id r =? 0) && ((actual <? 1) || negb (first =? report_id r)) then Some None
      else
        let base := if negb (report_id r =? 0) then 8 else 0 in
        if actual * 8 <? base + max_bits r then Some None
        else if (16 <? a_size (i_x r)) || (16 <? a_size (i_y r)) then Some None
        else
          dx ← read_axis buf base (i_x r);
          dy ← read_axis buf base (i_y r);
          wheel ← (if a_has (i_wheel r) && (a_size (i_wheel r) <=? 16) then read_axis buf base (i_wheel r) else Some 0);
          buttons ← (if b_has (i_buttons r) then
                       hid_get_bits buf (u16 (base + b_off (i_buttons r))) (if 8 <? b_count (i_buttons r) then 8 else b_count (i_buttons r))
                     else Some 0);
          Some (Some (dx, dy, wheel, buttons))
  else if actual <? 3 then Some None
  else
    buttons ← lget buf 0; x ← lget buf 1; y ← lget buf 2;
    w ← (if 4 <=? actual then lget buf 3 else Some 0);
    Some (Some (s8 x, s8 y, s8 w, buttons)).

(** ** What is chosen *)

(** The descriptors one after the other, up to one that is too short or does not fit *)
Fixpoint descriptors (fuel : nat) (b : list Z) : list (list Z) :=
  match fuel, b with
  | S fuel', len :: _ :: _ => if (len <? 2) || (Z.of_nat (length b) <? len) then [] else take (Z.to_nat len) b :: descriptors fuel' (drop (Z.to_nat len) b)
  | _, _ => []
  end.
Definition field (j : nat) (d : list Z) : Z := nth j d 0.
Definition is_interface (d : list Z) : bool := (field 1 d =? 4) && (9 <=? Z.of_nat (length d)).
(** Mass storage, SCSI commands, bulk-only transport *)
Definition is_storage (d : list Z) : bool := is_interface d && (field 5 d =? 8) && (field 6 d =? 6) && (field 7 d =? 0x50).
(** The endpoints behind an interface descriptor complete the setting. *)
Definition add_endpoint (c : setting) (d : list Z) : setting :=
  let mps := Z.land (Z.lor (field 4 d) (Z.shiftl (field 5 d) 8)) 0x7FF in
  if (field 1 d =? 5) && (7 <=? Z.of_nat (length d)) && (Z.land (field 3 d) 3 =? 2) then
    if Z.testbit (field 2 d) 7 then Setting (s_iface c) (s_alt c) (Z.land (field 2 d) 0x0F) (s_out c) mps (s_out_mps c) (s_eps c)
    else Setting (s_iface c) (s_alt c) (s_in c) (Z.land (field 2 d) 0x0F) (s_in_mps c) mps (s_eps c)
  else c.
Fixpoint with_endpoints (c : setting) (ds : list (list Z)) : setting :=
  match ds with [] => c | d :: ds' => if is_interface d then c else with_endpoints (add_endpoint c d) ds' end.
(** The settings of the storage interface number p.  255 stands for no interface yet: then the next
    storage interface is taken, and its number is p from there on. *)
Fixpoint settings (p : Z) (ds : list (list Z)) : list setting :=
  match ds with
  | [] => []
  | d :: ds' =>
    if is_storage d && ((p =? 255) || (field 2 d =? p)) then with_endpoints (Setting (field 2 d) (field 3 d) 0 0 0 0 (field 4 d)) ds' :: settings (field 2 d) ds'
    else settings p ds'
  end.
Definition complete (c : setting) : bool := negb (s_in c =? 0) && negb (s_out c =? 0).
(** One setting is preferred to another: more endpoints, or as many and larger packets in both directions
    together, or those as large and larger packets from the device. *)
Definition preferred (c b : setting) : Prop :=
  s_eps b < s_eps c \/ (s_eps b = s_eps c /\
    (s_in_mps b + s_out_mps b < s_in_mps c + s_out_mps c \/ (s_in_mps b + s_out_mps b = s_in_mps c + s_out_mps c /\ s_in_mps b < s_in_mps c))).
(** The first of the most preferred complete settings of a list *)
Definition best_of (cs : list setting) (b : setting) : Prop :=
  exists i, cs !! i = Some b /\ complete b = true /\
    (forall j c, cs !! j = Some c -> complete c = true -> ~ preferred c b) /\
    (forall j c, (j < i)%nat -> cs !! j = Some c -> complete c = true -> preferred b c).
Definition pick (b : option setting) (c : setting) : option setting := if complete c then if better c b then Some c else b else b.

Lemma lget_field d j : 0 <= j < Z.of_nat (length d) -> lget d j = Some (field (Z.to_nat j) d).
Proof. intros Hj. rewrite lget_lookup by lia. unfold field. rewrite nth_lookup. destruct (lookup_lt_is_Some_2 d (Z.to_nat j)) as [x Hx]; [lia|]. by rewrite Hx. Qed.
Definition flags (w : scan) : bool * bool * bool * Z := (in_msc_iface w, in_hid_kbd_iface w, in_hid_mouse_iface w, primary_msc_iface w).
Lemma hid_descs_ok k : forall j d w, 0 <= j -> exists w', hid_descs k j d w = Some w' /\ flags w' = flags w /\ cur w' = cur w /\ best w' = best w.
Proof.
  induction k as [|k IH]; intros j d w Hj; cbn [hid_descs]; [by exists w|]. case_match eqn:E; [by exists w|]. apply Z.leb_gt in E. rewrite !lget_field by lia. cbn [mbind option_bind].
  match goal with |- context [hid_descs k (j + 3) d ?x] => destruct (IH (j + 3) d x ltac:(lia)) as (w' & -> & F & C & B) end.
  exists w'. split; [done|]. rewrite F, C, B. repeat case_match; done.
Qed.
(** A storage interface is neither a keyboard nor a mouse. *)
Definition sane (w : scan) : Prop := in_msc_iface w = true -> in_hid_kbd_iface w = false /\ in_hid_mouse_iface w = false.
Lemma parse_other_ok d w : is_interface d = false -> sane w -> exists w', parse_desc (field 1 d) d w = Some w' /\ flags w' = flags w /\ best w' = best w /\
  (in_msc_iface w = true -> cur w' = add_endpoint (cur w) d).
Proof.
  unfold is_interface. intros Hi Hs. unfold parse_desc, USB_DESC_INTERFACE, USB_DESC_ENDPOINT. rewrite Hi. destruct (_ && (field 1 d =? USB_DESC_HID) && _) eqn:Eh.
  - rewrite !andb_true_iff, orb_true_iff, Z.eqb_eq, Z.leb_le in Eh. destruct Eh as [[Hk Ht] Hl]. rewrite lget_field by lia. cbn [mbind option_bind].
    destruct (hid_descs_ok (Z.to_nat (field (Z.to_nat 5) d)) 6 d w ltac:(lia)) as (w' & -> & F & C & B). exists w'. split_and!; try done.
    intros Hm. destruct (Hs Hm). intuition congruence.
  - unfold add_endpoint. destruct ((field 1 d =? 5) && _) eqn:Ee; cbn [andb]; [|by exists w].
    rewrite andb_true_iff, Z.leb_le in Ee. unfold parse_endpoint. rewrite !lget_field by lia. cbn [mbind option_bind].
    change (Z.to_nat 2) with 2%nat; change (Z.to_nat 3) with 3%nat; change (Z.to_nat 4) with 4%nat; change (Z.to_nat 5) with 5%nat; change (Z.to_nat 6) with 6%nat.
    destruct (in_msc_iface w) eqn:Em; [case_match; eexists; split_and!; try done; by destruct w|].
    case_match; [|by exists w]. case_match; [|by exists w]. eexists. split; [done|]. split_and!; [repeat case_match; done..|done].
Qed.
Definition storage_of (w : scan) (d : list Z) : bool := is_storage d && (field 2 d =? (if primary_msc_iface w =? 0xFF then field 2 d else primary_msc_iface w)).
Lemma parse_interface_ok d w : is_interface d = true -> exists w', parse_desc (field 1 d) d w = Some w' /\ sane w' /\ best w' = best (settle w) /\
  in_msc_iface w' = storage_of w d /\ primary_msc_iface w' = (if is_storage d && (primary_msc_iface w =? 0xFF) then field 2 d else primary_msc_iface w) /\
  (in_msc_iface w' = true -> cur w' = Setting (field 2 d) (field 3 d) 0 0 0 0 (field 4 d)).
Proof.
  unfold storage_of, is_storage. intros Hi. rewrite Hi. cbn [andb]. unfold is_interface in Hi. unfold parse_desc, USB_DESC_INTERFACE. rewrite Hi. rewrite andb_true_iff, Z.leb_le in Hi.
  unfold parse_interface, USB_CLASS_MSC, USB_MSC_SUBCLASS_SCSI, USB_MSC_PROTO_BULK_ONLY. rewrite !lget_field by lia. cbn [mbind option_bind]. change (Z.to_nat 2) with 2%nat; change (Z.to_nat 3) with 3%nat; change (Z.to_nat 4) with 4%nat; change (Z.to_nat 5) with 5%nat; change (Z.to_nat 6) with 6%nat; change (Z.to_nat 7) with 7%nat.
  assert (Ep : primary_msc_iface (settle w) = primary_msc_iface w) by (unfold settle; repeat case_match; done).
  eexists. split; [done|]. cbn [in_msc_iface primary_msc_iface best cur]. rewrite Ep. set (st := (field 5 d =? 8) && _ && _).
  split_and!; [|done| |done|by intros ->].
  - unfold sane. cbn. rewrite andb_true_iff. intros [Hst _]. unfold st in Hst. rewrite !andb_true_iff, Z.eqb_eq in Hst. destruct Hst as [[-> _] _]. done.
  - destruct st; [|done]. cbn [andb]. by destruct (primary_msc_iface w =? 255).
Qed.

Fixpoint run (ds : list (list Z)) (w : scan) : option scan :=
  match ds with [] => Some w | d :: ds' => w' ← parse_desc (field 1 d) d w; run ds' w' end.
(** The settings that are still to be compared *)
Definition rest (w : scan) (ds : list (list Z)) : list setting := (if in_msc_iface w then [with_endpoints (cur w) ds] else []) ++ settings (primary_msc_iface w) ds.
Lemma best_settle w : best (settle w) = if in_msc_iface w then pick (best w) (cur w) else best w.
Proof. unfold settle, pick, complete. destruct (in_msc_iface w); [|done]. cbn [andb]. repeat case_match; done. Qed.
Lemma run_ok ds : forall w, sane w -> exists w', run ds w = Some w' /\ best (settle w') = foldl pick (best w) (rest w ds).
Proof.
  induction ds as [|d ds IH]; intros w Hs; cbn [run].
  { exists w. split; [done|]. rewrite best_settle. unfold rest. cbn [settings with_endpoints]. by destruct (in_msc_iface w). }
  destruct (is_interface d) eqn:Ei.
  - destruct (parse_interface_ok d w Ei) as (w1 & -> & S1 & B1 & M1 & P1 & C1). cbn [mbind option_bind]. destruct (IH w1 S1) as (w' & -> & E'). exists w'. split; [done|].
    rewrite E', B1, best_settle. unfold rest at 2. cbn [settings with_endpoints]. rewrite Ei.
    assert (Eq : rest w1 ds = settings (primary_msc_iface w) (d :: ds)).
    { unfold rest. cbn [settings]. rewrite M1, P1. unfold storage_of in *. destruct (is_storage d) eqn:Est; cbn [andb] in *; [|done].
      destruct (primary_msc_iface w =? 255) eqn:Ep; cbn [orb]; [rewrite Z.eqb_refl in *; by rewrite C1|]. destruct (Z.eqb_spec (field 2 d) (primary_msc_iface w)) as [E2|]; [|done]. rewrite C1 by done. by rewrite E2. }
    rewrite Eq. by destruct (in_msc_iface w).
  - destruct (parse_other_ok d w Ei Hs) as (w1 & -> & F1 & B1 & C1). cbn [mbind option_bind]. injection F1 as Fm Fk Fo Fp.
    destruct (IH w1) as (w' & -> & E'); [unfold sane; by rewrite Fm, Fk, Fo|]. exists w'. split; [done|]. rewrite E', B1. f_equal.
    unfold rest. cbn [settings with_endpoints]. unfold is_storage. rewrite Ei, Fm, Fp. cbn [andb app]. destruct (in_msc_iface w); [|done]. by rewrite C1.
Qed.
Lemma config_loop_run cfg fuel : forall off w, 0 <= off <= Z.of_nat (length cfg) -> Z.of_nat (length cfg) <= 65535 -> (length cfg <= Z.to_nat off + fuel)%nat ->
  config_loop fuel cfg (Z.of_nat (length cfg)) off w = match run (descriptors fuel (drop (Z.to_nat off) cfg)) w with Some w' => Ok (tt, w') | None => Fault end.
Proof.
  induction fuel as [|fuel IH]; intros off w Ho Hm Hf; cbn [config_loop descriptors].
  { rewrite (proj2 (Z.leb_gt _ _)) by lia. done. }
  destruct (Z.leb_spec (off + 2) (Z.of_nat (length cfg))) as [Hle|Hgt].
  2: { destruct (drop (Z.to_nat off) cfg) as [|x [|y l]] eqn:Ed; [done..|]. apply (f_equal length) in Ed. rewrite length_drop in Ed. cbn in Ed. lia. }
  pose proof (length_drop cfg (Z.to_nat off)) as Hl. assert (Hx : forall j, (j < length cfg - Z.to_nat off)%nat -> lget cfg (off + Z.of_nat j) = drop (Z.to_nat off) cfg !! j).
  { intros j Hj. rewrite lget_lookup by lia. rewrite lookup_drop. f_equal. lia. }
  pose proof (Hx 0%nat ltac:(lia)) as H0. pose proof (Hx 1%nat ltac:(lia)) as H1. rewrite Z.add_0_r in H0. destruct (drop (Z.to_nat off) cfg) as [|len [|type l]] eqn:Ed; cbn in Hl; [lia..|].
  change (Z.of_nat 1) with 1 in H1. rewrite H0, H1. cbn [lookup list_lookup]. rewrite !bind_lift_some. destruct (Z.ltb_spec len 2); [done|]. cbn [orb].
  destruct (Z.ltb_spec (Z.of_nat (length cfg)) (off + len)); destruct (Z.ltb_spec (Z.of_nat (length (len :: type :: l))) len); cbn [length] in *; try lia; [done|].
  unfold slice. rewrite (proj2 (Z.leb_le _ _)), (proj2 (Z.leb_le _ _)) by lia. cbn [andb]. rewrite Ed, bind_lift_some. unfold bind at 1, get. cbn [run].
  assert (Ef : field 1 (take (Z.to_nat len) (len :: type :: l)) = type). { destruct (Z.to_nat len) as [|[|n]] eqn:En; [lia..|done]. }
  rewrite Ef. destruct (parse_desc type _ w) as [w1|]; [|done]. rewrite bind_lift_some. cbn [mbind option_bind]. unfold bind, modify. rewrite u16_small by lia. rewrite IH by lia. rewrite <-Ed, drop_drop. by replace (Z.to_nat off + Z.to_nat len)%nat with (Z.to_nat (off + len)) by lia.
Qed.

(** Only the end notes a storage interface in the result. *)
Definition blank (w : scan) : Prop := msc_iface_found (out w) = false /\ r_bulk_in_ep (out w) = 0 /\ r_bulk_out_ep (out w) = 0.
Lemma settle_out w : out (settle w) = out w.
Proof. unfold settle. by repeat case_match. Qed.
Lemma hid_descs_blank k : forall j d w w', hid_descs k j d w = Some w' -> blank w -> blank w'.
Proof.
  induction k as [|k IH]; intros j d w w'; cbn [hid_descs]; [congruence|]. case_match; [congruence|].
  destruct (lget d j); [|done]. destruct (lget d (j + 1)); [|done]. destruct (lget d (j + 2)); [|done]. cbn [mbind option_bind]. intros Hr Hb. eapply IH; [exact Hr|]. by repeat case_match.
Qed.
Ltac opts := repeat match goal with |- context [mbind _ ?o] => destruct o; cbn [mbind option_bind]; [|discriminate] end.
Lemma parse_desc_blank type d w w' : parse_desc type d w = Some w' -> blank w -> blank w'.
Proof.
  unfold parse_desc. case_match; [|case_match; [|case_match; [|congruence]]].
  - unfold parse_interface. opts. intros [= <-] Hb. unfold blank. cbn. by rewrite settle_out.
  - opts. apply hid_descs_blank.
  - unfold parse_endpoint. opts. intros Hr Hb. repeat case_match; injection Hr as <-; done.
Qed.
Lemma run_blank ds : forall w w', run ds w = Some w' -> blank w -> blank w'.
Proof.
  induction ds as [|d ds IH]; intros w w'; cbn [run]; [congruence|]. destruct (parse_desc _ d w) as [w1|] eqn:E; [|done]. cbn [mbind option_bind].
  intros Hr Hb. eapply IH; [exact Hr|]. by eapply parse_desc_blank.
Qed.

(** The order of the settings *)
Lemma better_irrefl c : better c (Some c) = false.
Proof. unfold better. by rewrite !Z.ltb_irrefl, !andb_false_r. Qed.
Ltac by_keys := unfold better; repeat match goal with |- context [mps_sum ?c] => generalize (mps_sum c); intro end;
  repeat match goal with |- context [?x <? ?y] => destruct (Z.ltb_spec x y) | |- context [?x =? ?y] => destruct (Z.eqb_spec x y) end; cbn [andb]; try done; intros; exfalso; lia.
Lemma better_asym b c : better c (Some b) = true -> better b (Some c) = false.
Proof. by_keys. Qed.
Lemma better_trans b c d : better c (Some b) = true -> better d (Some c) = true -> better d (Some b) = true.
Proof. by_keys. Qed.
Lemma better_over b c d : better d (Some b) = true -> better c (Some b) = false -> better d (Some c) = true.
Proof. by_keys. Qed.
(** What is kept: the best so far, if nothing later is better, or the first of the best of the list *)
Definition picks (b0 : option setting) (l : list setting) (b : setting) : Prop :=
  Forall (fun c => complete c = true -> better c (Some b) = false) l /\
  (b0 = Some b \/ exists i, l !! i = Some b /\ complete b = true /\ (forall j c, (j < i)%nat -> l !! j = Some c -> complete c = true -> better b (Some c) = true) /\
     forall b1, b0 = Some b1 -> better b (Some b1) = true).
Lemma picks_cons b0 c l b : picks (pick b0 c) l b -> picks b0 (c :: l) b.
Proof.
  unfold picks, pick. destruct (complete c) eqn:Ec.
  - destruct (better c b0) eqn:Eb; intros [Hl [Hb|(i & Hi & Hcb & Hj & H0)]].
    + injection Hb as ->. split; [constructor; [intros _; apply better_irrefl|done]|]. right. exists 0%nat. split_and!; [done|done|lia|]. by intros b1 ->.
    + specialize (H0 c eq_refl). split; [constructor; [intros _; by apply better_asym|done]|]. right. exists (S i). split_and!; [done|done| |].
      * intros [|j] d Hlt Hd Hc; [by injection Hd as <-|]. apply (Hj j); [lia|done|done].
      * intros b1 ->. by eapply better_trans.
    + subst b0. split; [by constructor|]. by left.
    + destruct b0 as [b1|]; [|done]. specialize (H0 b1 eq_refl). pose proof (better_over b1 c b H0 Eb) as Hbc. split; [constructor; [intros _; by apply better_asym|done]|]. right. exists (S i). split_and!; [done|done| |].
      * intros [|j] d Hlt Hd Hc; [by injection Hd as <-|]. apply (Hj j); [lia|done|done].
      * by intros b2 [= <-].
  - intros [Hl [Hb|(i & Hi & Hcb & Hj & H0)]]; (split; [constructor; [congruence|done]|]); [by left|]. right. exists (S i). split_and!; [done|done| |done].
    intros [|j] d Hlt Hd Hc; [injection Hd as <-; congruence|]. apply (Hj j); [lia|done|done].
Qed.
Lemma pick_spec l : forall b0, match foldl pick b0 l with None => b0 = None /\ Forall (fun c => complete c = false) l | Some b => picks b0 l b end.
Proof.
  induction l as [|c l IH]; intros b0; cbn [foldl]; [destruct b0 as [b|]; [|done]; split; [done|by left]|].
  specialize (IH (pick b0 c)). destruct (foldl pick (pick b0 c) l) as [b|]; [by apply picks_cons|].
  destruct IH as [H0 Hl]. unfold pick in H0. destruct (complete c) eqn:Ec; [|split; [done|by constructor]]. destruct (better c b0) eqn:Eb; [done|]. by rewrite H0 in Eb.
Qed.

Lemma land_range x k : 0 <= k -> 0 <= Z.land x (2 ^ k - 1) < 2 ^ k.
Proof. intros Hk. rewrite land_ones_mod by done. apply Z.mod_pos_bound. lia. Qed.
Definition small (c : setting) : Prop := 0 <= s_in c <= 15 /\ 0 <= s_out c <= 15 /\ 0 <= s_in_mps c <= 2047 /\ 0 <= s_out_mps c <= 2047.
Lemma with_endpoints_small ds : forall c, small c -> small (with_endpoints c ds).
Proof.
  induction ds as [|d ds IH]; intros c Hc; cbn [with_endpoints]; [done|]. case_match; [done|]. apply IH. unfold add_endpoint. destruct Hc as (? & ? & ? & ?).
  pose proof (land_range (field 2 d) 4 ltac:(lia)). pose proof (land_range (Z.lor (field 4 d) (Z.shiftl (field 5 d) 8)) 11 ltac:(lia)).
  change (2 ^ 4 - 1) with 15 in *. change (2 ^ 11 - 1) with 2047 in *. repeat case_match; unfold small; cbn [s_in s_out s_in_mps s_out_mps]; lia.
Qed.
Lemma settings_small ds : forall p, Forall small (settings p ds).
Proof. induction ds as [|d ds IH]; intros p; cbn [settings]; [done|]. case_match; [|done]. constructor; [|done]. apply with_endpoints_small. unfold small. cbn. lia. Qed.
Lemma better_preferred c b : small c -> small b -> better c (Some b) = true <-> preferred c b.
Proof.
  intros (_ & _ & ? & ?) (_ & _ & ? & ?). unfold better, preferred, mps_sum. rewrite !u32_small by (unfold is_u32; lia). bdestr; cbn [andb]; split; try done; lia.
Qed.
Lemma picks_best l b : Forall small l -> picks None l b -> best_of l b /\ small b.
Proof.
  intros Hs [Hl [?|(i & Hi & Hc & Hj & _)]]; [done|]. assert (Hsm : forall j c, l !! j = Some c -> small c) by (intros j c Hjc; by eapply list.Forall_lookup_1 in Hjc).
  split; [|by eapply Hsm]. exists i. split_and!; [done|done| |].
  - intros j c Hjc Hcc Hp. apply better_preferred in Hp; [|by eapply Hsm..]. eapply list.Forall_lookup_1 in Hl; [|exact Hjc]. rewrite Hl in Hp; done.
  - intros j c Hlt Hjc Hcc. apply better_preferred; [by eapply Hsm..|]. by eapply Hj.
Qed.
(** The result shows the setting b. *)
Definition shows (r : usb_parse_result_t) (b : setting) : Prop :=
  msc_iface_num r = s_iface b /\ msc_alt_setting r = s_alt b /\ r_bulk_in_ep r = s_in b /\ r_bulk_out_ep r = s_out b /\ r_bulk_in_mps r = s_in_mps b /\ r_bulk_out_mps r = s_out_mps b.
(** C35: The configuration of a device, whatever its bytes, is read to its end without an access outside
    it; of the alternate settings of its first storage interface that have a bulk endpoint in each
    direction the best one is taken, the one with the most endpoints, then the largest packets in both
    directions together, then the largest packets from the device, and the first of equals; and none is
    taken exactly when there is none.  (The number 255 stands for no interface: the settings of an
    interface of that number count, but so do those of the next storage interface.) *)
Theorem usb_parse_config_best {S} cfg (s : S) :
  let cs := settings 255 (descriptors (length cfg) cfg) in
  2 <= Z.of_nat (length cfg) <= 65535 ->
  exists r, usb_parse_config cfg (Z.of_nat (length cfg)) s = Ok (r, s) /\
    if msc_iface_found r then exists b, shows r b /\ best_of cs b /\ small b
    else Forall (fun c => complete c = false) cs /\ r_bulk_in_ep r = 0 /\ r_bulk_out_ep r = 0.
Proof.
  intros cs Hl. unfold usb_parse_config. rewrite (proj2 (Z.ltb_ge _ _)), config_loop_run by lia. change (drop (Z.to_nat 0) cfg) with cfg.
  destruct (run_ok (descriptors (length cfg) cfg) scan0) as (w & Er & Eb); [done|]. rewrite Er. eexists. split; [done|]. pose proof (run_blank _ _ _ Er ltac:(done)) as Hb.
  change (rest scan0 (descriptors (length cfg) cfg)) with cs in Eb. pose proof (pick_spec cs None) as Hp. change (best scan0) with (@None setting) in Eb. unfold chosen. rewrite Eb. destruct (foldl pick None cs) as [b|].
  - cbn [msc_iface_found]. exists b. split; [by unfold shows; split_and!|]. apply picks_best; [apply settings_small|done].
  - rewrite settle_out. destruct Hb as (-> & ? & ?). by destruct Hp.
Qed.
(** A device with two settings of its storage interface, the second with larger packets *)
Definition stick : list Z :=
  [9; 2; 55; 0; 1; 1; 0; 128; 50] ++ [9; 4; 0; 0; 2; 8; 6; 80; 0] ++ [7; 5; 0x81; 2; 64; 0; 0] ++ [7; 5; 0x02; 2; 64; 0; 0] ++
  [9; 4; 0; 1; 2; 8; 6; 80; 0] ++ [7; 5; 0x81; 2; 0; 2; 0] ++ [7; 5; 0x02; 2; 0; 2; 0].
Lemma usb_parse_config_best_witness : exists r, usb_parse_config stick 55 tt = Ok (r, tt) /\
  if msc_iface_found r then exists b, shows r b /\ best_of (settings 255 (descriptors 55 stick)) b /\ small b
  else Forall (fun c => complete c = false) (settings 255 (descriptors 55 stick)) /\ r_bulk_in_ep r = 0 /\ r_bulk_out_ep r = 0.
Proof. apply (usb_parse_config_best stick tt). cbn; lia. Defined.
Example stick_setting : match usb_parse_config stick 55 tt with Ok (r, _) => (msc_iface_found r, msc_alt_setting r, r_bulk_in_ep r, r_bulk_in_mps r) = (true, 1, 1, 512) | _ => False end.
Proof. vm_compute. reflexivity. Qed.
End UsbCfg.
