(* ===== verification/UsbDev.v ===== *)
(** * USB devices come and go (drivers/usb/usb.c)

    The mice of hid_devs, the enumeration of a device behind a port, hubs, removal of devices and the
    polling from the timer interrupt.  mouse.c, disk_request_rescan and the polling of the ports by
    the controllers are parameters that act on the whole state, as hal_wait_for_interrupt of [Usb]
    does.  [fresh n] is what n bytes from kmalloc hold. *)
From S2P Require Import Prelude UsbHc HidParse UsbKbd Usb UsbCfg.

Module UsbDev.
Import UsbHc HidParse Usb UsbCfg.

Definition USB_HUB_PORT_FEAT_RESET : Z := 4.
Definition USB_HUB_PORT_FEAT_POWER : Z := 8.
Definition USB_HUB_PORT_FEAT_C_CONNECTION : Z := 16.
Definition USB_HUB_PORT_FEAT_C_ENABLE : Z := 17.
Definition USB_HUB_PORT_FEAT_C_SUSPEND : Z := 18.
Definition USB_HUB_PORT_FEAT_C_OVER_CURRENT : Z := 19.
Definition USB_HUB_PORT_FEAT_C_RESET : Z := 20.

(** usb_hub_port_status_t, a list of four bytes *)
Definition wPortStatus (st : list Z) : Z := get16 st 0.
Definition wPortChange (st : list Z) : Z := get16 st 2.
Definition connected (st : list Z) : bool := Z.testbit (wPortStatus st) 0.
Definition enabled (st : list Z) : bool := Z.testbit (wPortStatus st) 1.
Definition in_reset (st : list Z) : bool := Z.testbit (wPortStatus st) 4.
Definition child_speed (st : list Z) : usb_speed_t :=
  if Z.testbit (wPortStatus st) 10 then USB_SPEED_HIGH else if Z.testbit (wPortStatus st) 9 then USB_SPEED_LOW else USB_SPEED_FULL.

Definition set_hid_report (proto : bool) (r : hid_report_info_t) (len : Z) (d : usb_hid_dev_t) : usb_hid_dev_t :=
  Hid (h_at d) (h_kind d) (h_iface_num d) (intr_in_ep d) (intr_in_mps d) (intr_in_interval d) proto r (h_in d) (h_buf d) len.
Definition set_hid_in (x : usb_async_in_t) (d : usb_hid_dev_t) : usb_hid_dev_t :=
  Hid (h_at d) (h_kind d) (h_iface_num d) (intr_in_ep d) (intr_in_mps d) (intr_in_interval d) (h_report_proto d) (h_report d) (Some x) (h_buf d) (h_buf_len d).
Definition set_hid_buf (b : list Z) (d : usb_hid_dev_t) : usb_hid_dev_t :=
  Hid (h_at d) (h_kind d) (h_iface_num d) (intr_in_ep d) (intr_in_mps d) (intr_in_interval d) (h_report_proto d) (h_report d) (h_in d) b (h_buf_len d).

Section ops.
Context {E : Type} `{UsbHc E}.
Abbreviation U A := (M (usb E) A).
Variable hal_wait_for_interrupt : U unit.
Variable csw_stack : list Z.
Variable fuel : nat.
Variable fresh : Z -> list Z.
Variable keyboard_inject_scancode : Z -> M (UsbKbd.usb_kbd E) unit.
Variable keyboard_set_ignore_ps2 : bool -> M (UsbKbd.usb_kbd E) unit.
Variable mouse_inject : Z -> Z -> Z -> Z -> U unit.
Variable mouse_set_ignore_ps2 : bool -> U unit.
Variable disk_request_rescan : U unit.
Variable poll_changes : U unit.

(** hid_boot_kbd.c *)
Definition on_kbd {A} (m : M (UsbKbd.usb_kbd E) A) : U A := fun s =>
  match m (kb s) with
  | Ok (a, k) => Ok (a, Mk (storage_devs s) (storage_dev_count s) (msc_tag s) (hid_devs s) (hid_dev_count s) (started s) k)
  | Fault => Fault | NoFuel => NoFuel
  end.
(** &hid_devs[i] *)
Definition geth (i : Z) : U usb_hid_dev_t := s <- get;; lift_opt (lget (hid_devs s) i).
Definition puth (i : Z) (f : usb_hid_dev_t -> usb_hid_dev_t) : U unit :=
  s <- get;; d <- lift_opt (lget (hid_devs s) i);; l <- lift_opt (lset (hid_devs s) i (f d));; with_hid l (hid_dev_count s).
Definition add_hid_count (v : Z) : U unit := s <- get;; with_hid (hid_devs s) (hid_dev_count s + v).

(** ** Mice *)

Definition usb_hid_mouse_process (i actual : Z) : U unit :=
  d <- geth i;;
  r <- lift_opt (mouse_report (h_report_proto d) (h_report d) (h_buf d) actual);;
  match r with Some (dx, dy, wheel, buttons) => mouse_inject dx dy wheel buttons | None => ret tt end.

(** The report descriptor is read, and the report taken when it fits. *)
Definition attach_report (i ep0_mps report_len : Z) : U unit :=
  if (0 <? report_len) && (report_len <=? 1024) then
    p <- on_env (kmalloc report_len);;
    if p =? 0 then ret tt
    else
      d <- geth i;;
      r <- usb_get_report_desc (h_at d) ep0_mps (h_iface_num d) (fresh report_len);;
      (if fst r : bool then
         o <- hid_parse_report_desc (snd r) report_len (bool_decide (h_kind d = USB_HID_BOOT_MOUSE));;
         match o with
         | None => ret tt
         | Some info =>
           let rpt_bytes := u16 ((report_bits info + 7) / 8) in
           let rpt_bytes := if negb (report_id info =? 0) then u16 (rpt_bytes + 1) else rpt_bytes in
           if (0 <? rpt_bytes) && (rpt_bytes <=? intr_in_mps d) && (rpt_bytes <=? 64) then puth i (set_hid_report true info rpt_bytes)
           else puth i (fun d => set_hid_report (h_report_proto d) info (h_buf_len d) d)
         end
       else ret tt);;;
      on_env (kfree p)
  else ret tt.
(** A transfer into the buffer of slot i *)
Definition begin_in (i : Z) : U bool :=
  d <- geth i;;
  if can has_async_in_init (p_hc (h_at d)) then
    s <- get;;
    let x := HidIn i (started s) in
    modify (fun s => Mk (storage_devs s) (storage_dev_count s) (msc_tag s) (hid_devs s) (hid_dev_count s) (started s + 1) (kb s));;;
    ok <- on_env (async_in_init (h_at d) x (intr_in_ep d) (intr_in_mps d) 0 (h_buf_len d));;
    puth i (set_hid_in x);;; ret ok
  else ret false.
Definition usb_hid_attach (at_ : place) (ep0_mps : Z) (kind : usb_hid_kind_t) (iface_num ep mps interval report_len : Z) : U unit :=
  s <- get;;
  if USB_MAX_HID_DEVS <=? hid_dev_count s then ret tt
  else if (ep =? 0) || (mps =? 0) then ret tt
  else
    ok <- (if can has_configure_endpoint (p_hc at_) then on_env (configure_endpoint (p_hc at_) (p_dev at_) ep true USB_EP_INTERRUPT mps interval) else ret true);;
    if negb ok then ret tt
    else
      s <- get;;
      let i := hid_dev_count s in
      add_hid_count 1;;;
      puth i (fun _ => Hid at_ kind iface_num ep mps interval false info0 None (replicate 64 0) 0);;;
      attach_report i ep0_mps report_len;;;
      d <- geth i;;
      (if negb (h_report_proto d) then puth i (set_hid_report false (h_report d) (UsbKbd.clamp_len mps)) else ret tt);;;
      usb_hid_set_idle at_ ep0_mps iface_num 0 0;;;
      d <- geth i;;
      usb_hid_set_protocol at_ ep0_mps iface_num (if h_report_proto d then 1 else 0);;;
      ok <- begin_in i;;
      if negb ok then add_hid_count (-1);;; puth i (fun _ => hid0)
      else if decide (kind = USB_HID_BOOT_MOUSE) then mouse_set_ignore_ps2 true
      else ret tt.

(** ** Enumeration *)

Fixpoint get_desc8 (k : nat) (at_ : place) (buf : list Z) : U (option (list Z)) :=
  match k with
  | O => ret None
  | S k' =>
    r <- usb_control at_ 8 (Setup 0x80 6 (u16 (Z.shiftl USB_DESC_DEVICE 8)) 0 8) buf;;
    if fst r : bool then ret (Some (snd r)) else delay_ms hal_wait_for_interrupt fuel 50;;; get_desc8 k' at_ (snd r)
  end.
(** A storage device is entered; false is goto fail. *)
Definition attach_storage (at_ : place) (ep0_mps : Z) (p : usb_parse_result_t) : U bool :=
  let in_mps := if r_bulk_in_mps p =? 0 then 64 else r_bulk_in_mps p in
  let out_mps := if r_bulk_out_mps p =? 0 then 64 else r_bulk_out_mps p in
  ok <- (if can has_configure_endpoint (p_hc at_) then
           ok <- on_env (configure_endpoint (p_hc at_) (p_dev at_) (r_bulk_out_ep p) false USB_EP_BULK out_mps 0);;
           if (ok : bool) then on_env (configure_endpoint (p_hc at_) (p_dev at_) (r_bulk_in_ep p) true USB_EP_BULK in_mps 0) else ret false
         else ret true);;
  if negb ok then ret false
  else
    s <- get;;
    let i := storage_dev_count s in
    putm i (fun _ => Msc at_ ep0_mps (msc_iface_num p) (r_bulk_in_ep p) (r_bulk_out_ep p) in_mps out_mps 0 0 0 0 (u8 (USB_DRIVE_BASE + i)) 0);;;
    delay_ms hal_wait_for_interrupt fuel USB_STORAGE_SETTLE_DELAY_MS;;;
    putm i (set_max_lun 0);;;
    (if msc_iface_found p then
       l <- msc_get_max_lun hal_wait_for_interrupt fuel i ep0_mps;; putm i (set_max_lun (default 0 l))
     else ret tt);;;
    delay_ms hal_wait_for_interrupt fuel USB_MSC_POST_MAX_LUN_DELAY_MS;;;
    ok <- msc_scsi_read_capacity hal_wait_for_interrupt csw_stack fuel i;;
    if negb ok then
      msc_scsi_request_sense hal_wait_for_interrupt csw_stack fuel i;;;
      delay_ms hal_wait_for_interrupt fuel 500;;; ret false
    else
      s <- get;; with_storage (storage_devs s) (storage_dev_count s + 1);;;
      disk_request_rescan;;; ret true.
(** Keyboards and mice; a mouse that has no packet size takes 4, a keyboard 8. *)
Definition attach_hid (at_ : place) (ep0_mps : Z) (p : usb_parse_result_t) : U unit :=
  let k := r_kbd p in
  let m := r_mouse p in
  (if negb (hi_ep k =? 0) then
     on_kbd (UsbKbd.hid_boot_kbd_add_device keyboard_set_ignore_ps2 at_ ep0_mps (hi_num k) (hi_ep k) (if hi_mps k =? 0 then 8 else hi_mps k) (hi_interval k) (hi_report_len k)
               (fresh (hi_report_len k)));;; ret tt
   else ret tt);;;
  if negb (hi_ep m =? 0) then
    usb_hid_attach at_ ep0_mps USB_HID_BOOT_MOUSE (hi_num m) (hi_ep m) (if hi_mps m =? 0 then 4 else hi_mps m) (hi_interval m) (hi_report_len m)
  else ret tt.
(** What is done with a configured device; [hub] is usb_handle_hub. *)
Definition take_device (hub : place -> Z -> U unit) (at_ : place) (ep0_mps : Z) (hub_class : bool) (p : usb_parse_result_t) : U bool :=
  if hub_class || is_hub p then
    hub at_ ep0_mps;;;
    (if can has_enum_close (p_hc at_) then on_env (enum_close (p_hc at_) (p_dev at_)) else ret tt);;; ret true
  else if (r_bulk_in_ep p =? 0) || (r_bulk_out_ep p =? 0) then
    (if negb (msc_iface_present p) then attach_hid at_ ep0_mps p else ret tt);;; ret true
  else
    s <- get;;
    if USB_MAX_STORAGE_DEVS <=? storage_dev_count s then ret true else attach_storage at_ ep0_mps p.
(** From SET_ADDRESS on: whether to goto out, and cfg_buf *)
Definition configure (hub : place -> Z -> U unit) (at_ : place) (ep0_mps : Z) : U (bool * Z) :=
  r <- usb_get_desc at_ ep0_mps USB_DESC_DEVICE 0 (replicate 18 0);;
  let '(ok, dev_desc) := r in
  if negb ok then ret (false, 0)
  else
    r <- usb_get_desc at_ ep0_mps USB_DESC_CONFIG 0 (replicate 9 0);;
    let '(ok, cfg_hdr) := r in
    if negb ok then ret (false, 0)
    else
      let total_len := get16 cfg_hdr 2 in
      let total_len := if (total_len <? 9) || (512 <? total_len) then 512 else total_len in
      cfg_buf <- on_env (kmalloc total_len);;
      if cfg_buf =? 0 then ret (false, 0)
      else
        r <- usb_get_desc at_ ep0_mps USB_DESC_CONFIG 0 (fresh total_len);;
        if negb (fst r) then ret (false, cfg_buf)
        else
          parsed <- usb_parse_config (snd r) total_len;;
          ok <- usb_set_configuration at_ ep0_mps (nth 5 cfg_hdr 0);;
          if negb ok then ret (false, cfg_buf)
          else
            ok <- (if msc_iface_found parsed && negb (msc_alt_setting parsed =? 0) then
                     usb_set_interface at_ ep0_mps (msc_iface_num parsed) (msc_alt_setting parsed)
                   else ret true);;
            if negb ok then ret (false, cfg_buf)
            else
              ok <- take_device hub at_ ep0_mps (nth 4 dev_desc 0 =? USB_CLASS_HUB) parsed;; ret (ok, cfg_buf).
Definition enumerate (hub : place -> Z -> U unit) (hc : Z) (speed : usb_speed_t) (root_port tt_hub_addr tt_port : Z) : U unit :=
  s <- get;;
  if (USB_MAX_STORAGE_DEVS <=? storage_dev_count s) && (USB_MAX_HID_DEVS <=? hid_dev_count s) then ret tt
  else if negb (can has_enum_open hc) || negb (can has_enum_set_address hc) || negb (can has_alloc_address hc) then ret tt
  else
    o <- on_env (enum_open hc root_port speed);;
    match o with
    | None => ret tt
    | Some dev_default =>
      let at0 := Place hc dev_default speed tt_hub_addr tt_port in
      d8 <- get_desc8 3 at0 (replicate 8 0);;
      r <- match d8 with
           | None => ret (false, 0)
           | Some d8 =>
             let ep0_mps := if nth 7 d8 0 =? 0 then 8 else nth 7 d8 0 in
             addr <- on_env (alloc_address hc);;
             r <- on_env (enum_set_address at0 ep0_mps addr);;
             if negb (fst r) then ret (false, 0) else configure hub (Place hc (snd r) speed tt_hub_addr tt_port) ep0_mps
           end;;
      let '(ok, cfg_buf) := r in
      (if negb (cfg_buf =? 0) then on_env (kfree cfg_buf) else ret tt);;;
      if negb ok then if can has_enum_close hc then on_env (enum_close hc dev_default) else ret tt else ret tt
    end.

(** ** Hubs *)

Section hub.
(** usb_enumerate_default of the speed and the port, one level down *)
Variable child : usb_speed_t -> Z -> U unit.
Variable at_ : place.
Variable ep0_mps : Z.

Fixpoint power_ports (k : nat) (port : Z) : U unit :=
  match k with O => ret tt | S k' => usb_hub_port_set_feature at_ ep0_mps USB_HUB_PORT_FEAT_POWER port;;; power_ports k' (port + 1) end.
Fixpoint clear_changes (l : list (Z * Z)) (change port : Z) : U unit :=
  match l with
  | [] => ret tt
  | (bit, feature) :: l' => (if Z.testbit change bit then usb_hub_port_clear_feature at_ ep0_mps feature port;;; ret tt else ret tt);;; clear_changes l' change port
  end.
Definition changes : list (Z * Z) :=
  [(0, USB_HUB_PORT_FEAT_C_CONNECTION); (1, USB_HUB_PORT_FEAT_C_ENABLE); (2, USB_HUB_PORT_FEAT_C_SUSPEND); (3, USB_HUB_PORT_FEAT_C_OVER_CURRENT); (4, USB_HUB_PORT_FEAT_C_RESET)].
Fixpoint wait_reset (k : nat) (port : Z) (st : list Z) : U (list Z) :=
  match k with
  | O => ret st
  | S k' =>
    r <- usb_hub_port_get_status at_ ep0_mps port st;;
    if negb (fst r) then ret (snd r)
    else if negb (in_reset (snd r)) then ret (snd r)
    else delay_ms hal_wait_for_interrupt fuel 10;;; wait_reset k' port (snd r)
  end.
Definition hub_port (port : Z) : U unit :=
  r <- usb_hub_port_get_status at_ ep0_mps port (replicate 4 0);;
  let '(ok, st) := r in
  if negb ok then ret tt
  else if negb (connected st) then ret tt
  else
    clear_changes changes (wPortChange st) port;;;
    ok <- usb_hub_port_set_feature at_ ep0_mps USB_HUB_PORT_FEAT_RESET port;;
    if negb ok then ret tt
    else
      delay_ms hal_wait_for_interrupt fuel 60;;;
      st <- wait_reset 50 port st;;
      r <- usb_hub_port_get_status at_ ep0_mps port st;;
      let st := snd r in
      if negb (connected st) then ret tt
      else if negb (enabled st) then ret tt
      else
        delay_ms hal_wait_for_interrupt fuel 100;;;
        child (child_speed st) port;;;
        usb_hub_port_clear_feature at_ ep0_mps USB_HUB_PORT_FEAT_C_RESET port;;; ret tt.
Fixpoint hub_ports (k : nat) (port : Z) : U unit := match k with O => ret tt | S k' => hub_port port;;; hub_ports k' (port + 1) end.
Definition usb_handle_hub (depth : Z) : U unit :=
  if 4 <? depth then ret tt
  else
    r <- usb_hub_get_descriptor at_ ep0_mps (replicate 8 0);;
    if negb (fst r) then ret tt
    else
      let n_ports := nth 2 (snd r) 0 in
      let pwr2good := nth 5 (snd r) 0 in
      if (n_ports =? 0) || (32 <? n_ports) then ret tt
      else
        power_ports (Z.to_nat n_ports) 1;;;
        let wait_ms := pwr2good * 2 in
        delay_ms hal_wait_for_interrupt fuel (if wait_ms <? 20 then 20 else wait_ms);;;
        hub_ports (Z.to_nat n_ports) 1.
End hub.

(** The two functions call each other; depth grows by one each time and 4 is the last at which a hub
    looks for devices. *)
Fixpoint usb_enumerate_default (k : nat) (hc : Z) (speed : usb_speed_t) (root_port tt_hub_addr tt_port depth : Z) : U unit :=
  match k with
  | O => nofuel
  | S k' =>
    enumerate (fun at_ ep0_mps => usb_handle_hub (fun speed port => usb_enumerate_default k' hc speed 0 (u8 (p_dev at_)) port (depth + 1)) at_ ep0_mps depth)
      hc speed root_port tt_hub_addr tt_port
  end.
Definition usb_port_connected (hc : Z) (speed : usb_speed_t) (root_port tt_hub_addr tt_port : Z) : U unit :=
  usb_enumerate_default 6 hc speed root_port tt_hub_addr tt_port 0.

(** ** Removal *)

Definition cancel_hid (d : usb_hid_dev_t) : U unit :=
  match h_in d with
  | Some x => if can has_async_in_cancel (p_hc (h_at d)) then on_env (async_in_cancel (p_hc (h_at d)) x) else ret tt
  | None => ret tt
  end.
Fixpoint cancel_hids (k : nat) (i : Z) : U unit := match k with O => ret tt | S k' => d <- geth i;; cancel_hid d;;; cancel_hids k' (i + 1) end.
Definition usb_hid_reset : U unit :=
  mouse_set_ignore_ps2 false;;;
  s <- get;; cancel_hids (Z.to_nat (hid_dev_count s)) 0;;;
  with_hid (replicate 4 hid0) 0;;;
  on_kbd (UsbKbd.hid_boot_kbd_init keyboard_set_ignore_ps2).
Definition is_at {D} (at_ : D -> place) (hc dev : Z) (d : D) : bool := (p_hc (at_ d) =? hc) && (p_dev (at_ d) =? dev).
(** A turn moves on or shortens the table. *)
Fixpoint drop_hids (k : nat) (i hc dev : Z) : U unit :=
  s <- get;;
  if i <? hid_dev_count s then
    match k with
    | O => nofuel
    | S k' =>
      d <- geth i;;
      if is_at h_at hc dev d then
        cancel_hid d;;;
        s <- get;;
        let last := hid_dev_count s - 1 in
        (if negb (i =? last) then l <- geth last;; puth i (fun _ => l) else ret tt);;;
        puth last (fun _ => hid0);;; add_hid_count (-1);;; drop_hids k' i hc dev
      else drop_hids k' (i + 1) hc dev
    end
  else ret tt.
Definition usb_hid_drop_device (hc dev : Z) : U unit :=
  if hc =? 0 then ret tt
  else
    s <- get;; drop_hids (Z.to_nat (hid_dev_count s)) 0 hc dev;;;
    s <- get;;
    mouse_set_ignore_ps2 (existsb (fun d => bool_decide (h_kind d = USB_HID_BOOT_MOUSE)) (take (Z.to_nat (hid_dev_count s)) (hid_devs s))).
Fixpoint drop_mscs (k : nat) (i hc dev : Z) (changed : bool) : U bool :=
  s <- get;;
  if i <? storage_dev_count s then
    match k with
    | O => nofuel
    | S k' =>
      d <- getm i;;
      if is_at m_at hc dev d then
        s <- get;;
        let last := storage_dev_count s - 1 in
        (if negb (i =? last) then l <- getm last;; putm i (fun _ => set_drive_id (u8 (USB_DRIVE_BASE + i)) l) else ret tt);;;
        putm last (fun _ => msc0);;;
        s <- get;; with_storage (storage_devs s) (storage_dev_count s - 1);;; drop_mscs k' i hc dev true
      else drop_mscs k' (i + 1) hc dev changed
    end
  else ret changed.
Definition usb_storage_drop_device (hc dev : Z) : U unit :=
  if hc =? 0 then ret tt
  else
    s <- get;; changed <- drop_mscs (Z.to_nat (storage_dev_count s)) 0 hc dev false;;
    if (changed : bool) then disk_request_rescan else ret tt.
Fixpoint drop_all_hids (k : nat) (i hc : Z) : U unit :=
  s <- get;;
  if i <? hid_dev_count s then
    match k with
    | O => nofuel
    | S k' =>
      d <- geth i;;
      if p_hc (h_at d) =? hc then usb_hid_drop_device hc (p_dev (h_at d));;; drop_all_hids k' i hc else drop_all_hids k' (i + 1) hc
    end
  else ret tt.
Fixpoint drop_all_mscs (k : nat) (i hc : Z) : U unit :=
  s <- get;;
  if i <? storage_dev_count s then
    match k with
    | O => nofuel
    | S k' =>
      d <- getm i;;
      if p_hc (m_at d) =? hc then usb_storage_drop_device hc (p_dev (m_at d));;; drop_all_mscs k' i hc else drop_all_mscs k' (i + 1) hc
    end
  else ret tt.
Definition usb_drop_controller_devices (hc : Z) : U unit :=
  if hc =? 0 then ret tt
  else
    on_kbd (UsbKbd.hid_boot_kbd_drop_controller keyboard_set_ignore_ps2 hc);;;
    s <- get;; drop_all_hids (Z.to_nat (hid_dev_count s)) 0 hc;;;
    s <- get;; drop_all_mscs (Z.to_nat (storage_dev_count s)) 0 hc.

(** ** Polling *)

(** What arrived is in the buffer of the slot at which the transfer was begun. *)
Fixpoint poll_mouse (k : nat) (i : Z) : U unit :=
  match k with
  | O => nofuel
  | S k' =>
    d <- geth i;;
    match h_in d with
    | Some (HidIn slot n) =>
      r <- on_env (async_in_check (p_hc (h_at d)) (HidIn slot n));;
      let '(rc, actual, bytes) := r in
      o <- geth slot;; b <- lift_opt (splice (h_buf o) 0 bytes);; puth slot (set_hid_buf b);;;
      if rc <=? 0 then ret tt
      else
        (if (0 <? actual) && bool_decide (h_kind d = USB_HID_BOOT_MOUSE) then usb_hid_mouse_process i actual else ret tt);;;
        on_env (async_in_rearm (p_hc (h_at d)) (HidIn slot n));;; poll_mouse k' i
    | _ => ret tt
    end
  end.
Fixpoint poll_mice (k : nat) (i : Z) : U unit :=
  s <- get;;
  if i <? hid_dev_count s then
    match k with
    | O => nofuel
    | S k' =>
      d <- geth i;;
      (if negb (can has_async_in_check (p_hc (h_at d))) || negb (can has_async_in_rearm (p_hc (h_at d))) then ret tt else poll_mouse fuel i);;;
      poll_mice k' (i + 1)
    end
  else ret tt.
(** [stack] is what keys[16] of hid_boot_kbd.c holds. *)
Definition usb_poll (stack : list Z) : U unit :=
  on_kbd (UsbKbd.hid_boot_kbd_poll keyboard_inject_scancode keyboard_set_ignore_ps2 fuel stack);;;
  poll_changes;;;
  poll_mice 4 0.
End ops.
End UsbDev.
