(* ===== verification/UsbDevSafe.v ===== *)
(** * USB devices: the tables of usb.c stay sound

    [CoreWorld] says what usb.c relies on besides [UsbWorld]: transfers leave the running transfers
    alone, the interrupts that come while it waits keep the tables as they are, up to the reports that
    arrive, and mouse.c and the queues do not touch them.  Under these promises every operation keeps
    [core_ok], whatever the devices send: drives are numbered from 4 on without a gap, and every mouse
    has a transfer of its own that fits the buffer it goes to. *)
From S2P Require Import Prelude UsbHc HidParse UsbKbd UsbKbdSafe UsbKbdClaims Usb UsbCfg UsbDev.

Module UsbDevSafe.
Import UsbHc HidParse Usb UsbCfg UsbDev.
Import UsbKbdSafe(Watch, armed, pending, sent, ignored, burst, quiet, calm, others, UsbWorld).

(** ** Steps that keep an invariant *)

Definition does {S A} (I : S -> Prop) (m : M S A) (P : A -> Prop) : Prop := forall s, I s -> wp False m (fun a s' => I s' /\ P a) s.
Definition keeps {S A} (I : S -> Prop) (m : M S A) : Prop := does I m (fun _ => True).
Section does.
Context {S : Type} (I : S -> Prop).
Lemma does_mono {A} (m : M S A) (P Q : A -> Prop) : does I m P -> (forall a, P a -> Q a) -> does I m Q.
Proof. intros Hm HQ s Hs. eapply wp_mono; [by apply Hm|]. intros a s' [? ?]. split; [done|by apply HQ]. Qed.
Lemma keeps_of {A} (m : M S A) P : does I m P -> keeps I m.
Proof. intros Hm. by eapply does_mono. Qed.
Lemma does_bind {A B} (m : M S A) (k : A -> M S B) P Q : does I m P -> (forall a, P a -> does I (k a) Q) -> does I (bind m k) Q.
Proof. intros Hm Hk s Hs. apply wp_bind. eapply wp_mono; [by apply Hm|]. intros a s' [? ?]. by apply Hk. Qed.
Lemma keep_bind {A B} (m : M S A) (k : A -> M S B) Q : keeps I m -> (forall a, does I (k a) Q) -> does I (bind m k) Q.
Proof. intros Hm Hk. eapply does_bind; [exact Hm|]. intros a _. apply Hk. Qed.
Lemma does_ret {A} (a : A) (P : A -> Prop) : P a -> does I (ret a) P.
Proof. intros HP s Hs. by apply wp_ret. Qed.
(** A step that looks at the state *)
Lemma does_get {A} (k : S -> M S A) P : (forall s, I s -> wp False (k s) (fun a s' => I s' /\ P a) s) -> does I (bind get k) P.
Proof. intros Hk s Hs. apply wp_bind, wp_gets. by apply Hk. Qed.
Lemma does_get_any {A} (k : S -> M S A) P : (forall s, does I (k s) P) -> does I (bind get k) P.
Proof. intros Hk. apply does_get. intros s Hs. by apply Hk. Qed.
Lemma keep_ret {A} (a : A) : keeps I (ret a).
Proof. by apply does_ret. Qed.
End does.
Create HintDb usb.
#[export] Hint Resolve keep_ret : usb.
(** Step through a program whose parts are known to keep the invariant. *)
Ltac keep1 :=
  match goal with
  | |- keeps _ (bind get _) => apply does_get_any; intro
  | |- does _ (bind get _) _ => apply does_get_any; intro
  | |- keeps _ (bind _ _) => apply keep_bind; [|intro]
  | |- does ?I ?m (fun _ => True) => change (keeps I m)
  | |- keeps _ (if ?b then _ else _) => destruct b
  | |- does _ (if ?b then _ else _) _ => destruct b
  | |- keeps _ (match ?o with Some _ => _ | None => _ end) => destruct o
  | |- does _ (match ?o with Some _ => _ | None => _ end) _ => destruct o
  | |- keeps _ (let '(_, _) := ?r in _) => destruct r
  | |- does _ (let '(_, _) := ?r in _) _ => destruct r
  end; cbv beta iota.
Ltac keep := repeat (first [solve [eauto with usb nocore] | keep1]).

Section world.
Context {E : Type} {HC : UsbHc E} {WA : Watch E}.
Abbreviation U A := (M (usb E) A).
Context {inject : Z -> M (UsbKbd.usb_kbd E) unit} {set_ignore : bool -> M (UsbKbd.usb_kbd E) unit} {UW : UsbWorld inject set_ignore}.
Implicit Types s : usb E.

(** ** The invariant *)

(** The keyboards, with the transfers of the mice as they are *)
Definition kinv (k : UsbKbd.usb_kbd E) : Prop := UsbKbdClaims.inv (mice := fun slot n => armed (UsbKbd.env k) (HidIn slot n)) k.
Record msc_ok s : Prop := {
  mo_len : length (storage_devs s) = 4%nat;
  mo_count : 0 <= storage_dev_count s <= 4;
  mo_drive : forall i d, storage_devs s !! i = Some d -> Z.of_nat i < storage_dev_count s -> drive_id d = USB_DRIVE_BASE + Z.of_nat i;
}.
Definition hid_shape (d : usb_hid_dev_t) : Prop := length (h_buf d) = 64%nat /\ Forall is_u8 (h_buf d) /\ (h_report_proto d = true -> fields_ok (h_report d)).
(** A device whose transfer runs *)
Definition hid_live s (d : usb_hid_dev_t) : Prop := exists slot n len,
  h_in d = Some (HidIn slot n) /\ 0 <= slot < 4 /\ n < started s /\ armed (env_of s) (HidIn slot n) = Some len /\ 0 <= len <= 64.
(** The first k devices *)
Record hid_ok (k : nat) s : Prop := {
  ho_len : length (hid_devs s) = 4%nat;
  ho_shape : Forall hid_shape (hid_devs s);
  ho_live : forall i d, hid_devs s !! i = Some d -> (i < k)%nat -> hid_live s d;
  ho_apart : forall i j d d', hid_devs s !! i = Some d -> hid_devs s !! j = Some d' -> (i < k)%nat -> (j < k)%nat -> h_in d = h_in d' -> i = j;
}.
Record core_ok s : Prop := {
  co_msc : msc_ok s;
  co_hid : hid_ok (Z.to_nat (hid_dev_count s)) s;
  co_hcount : 0 <= hid_dev_count s <= 4;
  co_kbd : kinv (kb s);
}.

(** ** Promises *)

Class Clock := { now : E -> Z }.
Context {CK : Clock}.
Definition steady s s' : Prop := storage_devs s' = storage_devs s /\ storage_dev_count s' = storage_dev_count s.
(** Nothing of usb.c and hid_boot_kbd.c has changed. *)
Record still s s' : Prop := {
  st_storage : storage_devs s' = storage_devs s; st_count : storage_dev_count s' = storage_dev_count s;
  st_hid : hid_devs s' = hid_devs s; st_hcount : hid_dev_count s' = hid_dev_count s; st_started : started s' = started s;
  st_kbds : UsbKbd.kbds (kb s') = UsbKbd.kbds (kb s); st_kcount : UsbKbd.kbd_count (kb s') = UsbKbd.kbd_count (kb s);
  st_armed : forall x, armed (env_of s') x = armed (env_of s) x;
  st_pending : forall x, pending (env_of s') x = pending (env_of s) x;
  st_ignored : ignored (env_of s') = ignored (env_of s);
}.
Class CoreWorld (mouse_inject : Z -> Z -> Z -> Z -> U unit) (mouse_ignore : bool -> U unit) (rescan changes : U unit) := {
  clock_law : forall e, wp False tick (fun t e' => quiet e e' /\ now e' = now e /\ t = u32 (now e)) e;
  bulk_law : forall at_ ep d m tg data, calm (bulk_transfer at_ ep d m tg data) (fun r => length (snd r) = length data);
  open_law : forall hc port speed, calm (enum_open hc port speed) (fun _ => True);
  address_law : forall at_ m a, calm (enum_set_address at_ m a) (fun _ => True);
  close_law : forall hc dev, calm (enum_close hc dev) (fun _ => True);
  alloc_law : forall hc, calm (alloc_address hc) (fun _ => True);
  changes_law : forall s, core_ok s -> wp False changes (fun _ s' => core_ok s' /\ steady s s') s;
  minject_law : forall x y w b s, wp False (mouse_inject x y w b) (fun _ s' => still s s') s;
  mignore_law : forall b s, wp False (mouse_ignore b) (fun _ s' => still s s') s;
  rescan_law : forall s, wp False rescan (fun _ s' => still s s') s;
}.
(** An interrupt may come in while usb.c waits; it is a tick of the clock. *)
Class WaitWorld (wait : U unit) := {
  wait_law : forall s, core_ok s -> wp False wait (fun _ s' => core_ok s' /\ steady s s' /\ now (env_of s') = now (env_of s) + 1) s;
}.
Context {wait : U unit} {mouse_inject : Z -> Z -> Z -> Z -> U unit} {mouse_ignore : bool -> U unit} {rescan changes : U unit}.
Context {CW : CoreWorld mouse_inject mouse_ignore rescan changes} {WW : WaitWorld wait}.

(** ** Frames *)

Lemma kinv_of mice k : UsbKbdClaims.inv (mice := mice) k -> kinv k.
Proof. intros [[Hl Hd Hc Hm] Ht]. split; [|done]. by constructor. Qed.
Lemma kinv_env k e : (forall i, armed e (KbdIn i) = armed (UsbKbd.env k) (KbdIn i)) -> ignored e = ignored (UsbKbd.env k) -> kinv k ->
  kinv (UsbKbd.UsbKbd (UsbKbd.kbds k) (UsbKbd.kbd_count k) e).
Proof.
  intros Ha Hg [[Hl Hd Hc Hm] Ht]. split; [|unfold UsbKbdSafe.tuned in *; cbn; by rewrite Hg]. constructor; cbn; try done. intros i d Hi. destruct (Hd i d Hi) as [Hs Hr]. split; [done|]. by rewrite Ha.
Qed.
Lemma hid_ok_env k s s' : hid_devs s' = hid_devs s -> started s' = started s -> (forall slot n, armed (env_of s') (HidIn slot n) = armed (env_of s) (HidIn slot n)) -> hid_ok k s -> hid_ok k s'.
Proof.
  intros Hh Hst Ha [Hl Hs Hv Hp]. constructor; rewrite ?Hh; try done. intros i d Hi Hk. destruct (Hv i d Hi Hk) as (slot & n & len & ? & ? & ? & ? & ?).
  exists slot, n, len. rewrite Hst, Ha. split_and!; try done; lia.
Qed.
Lemma msc_ok_of s s' : steady s s' -> msc_ok s -> msc_ok s'.
Proof. intros [Hd Hc] [H1 H2 H3]. constructor; rewrite ?Hd, ?Hc; [exact H1|exact H2|exact H3]. Qed.
Lemma still_kinv s s' : still s s' -> kinv (kb s) -> kinv (kb s').
Proof.
  intros [] Hk. pose proof (kinv_env (kb s) (UsbKbd.env (kb s')) (fun i => st_armed0 _) st_ignored0 Hk) as H'. rewrite <-st_kbds0, <-st_kcount0 in H'. by destruct (kb s').
Qed.
Lemma still_ok s s' : still s s' -> core_ok s -> core_ok s'.
Proof.
  intros Hs [Hm Hh Hc Hk]. pose proof (still_kinv _ _ Hs Hk). destruct Hs. constructor; rewrite ?st_hcount0; [by apply (msc_ok_of s)|by apply (hid_ok_env _ s)|done|done].
Qed.
Lemma quiet_still {A} (m : M E A) P s (Q : A -> usb E -> Prop) : calm m P -> (forall a s', still s s' -> P a -> Q a s') -> wp False (on_env m) Q s.
Proof.
  intros Hm HQ. specialize (Hm (env_of s)). unfold wp, on_env, UsbKbd.on_env, env_of in *. destruct (m (UsbKbd.env (kb s))) as [[a e]| |]; [|done..].
  destruct Hm as [[] Ha]. apply HQ; [|done]. by constructor.
Qed.
Lemma steady_still s s' : still s s' -> steady s s'.
Proof. by intros []. Qed.

(** ** Requests and waits *)

(** What only the storage devices may add to the invariant *)
Record framed (J : usb E -> Prop) : Prop := {
  fr_core : forall s, J s -> core_ok s;
  fr_steady : forall s s', J s -> core_ok s' -> steady s s' -> J s';
}.
Definition stable (J : usb E -> Prop) : Prop := forall s s', still s s' -> J s -> J s'.
Section stable.
Context (J : usb E -> Prop) (HS : stable J).
Lemma does_env {A} (m : M E A) P : calm m P -> does J (on_env m) P.
Proof. intros Hm s Hs. eapply quiet_still; [exact Hm|]. intros a s' Hst Ha. split; [by apply (HS s)|done]. Qed.
Lemma keeps_env {A} (m : M E A) P : calm m P -> keeps J (on_env m).
Proof. intros Hm. by eapply keeps_of, does_env. Qed.
Lemma does_control at_ mps setup data : Forall is_u8 data -> does J (usb_control at_ mps setup data) (fun r => length (snd r) = length data /\ Forall is_u8 (snd r)).
Proof. intros Hu. unfold usb_control. case_match; [apply does_ret; cbn; by split|]. by apply does_env, UsbKbdSafe.control_law. Qed.
Lemma keeps_control at_ mps setup data : Forall is_u8 data -> keeps J (usb_control at_ mps setup data).
Proof. intros Hu. by eapply keeps_of, does_control. Qed.
Lemma keeps_none at_ mps setup : keeps J (control_none at_ mps setup).
Proof. unfold control_none. apply keep_bind; [by apply keeps_control|]. intros r. apply keep_ret. Qed.
End stable.
Lemma framed_stable J : framed J -> stable J.
Proof. intros HJ s s' Hs Hj. eapply (fr_steady _ HJ); [exact Hj|eapply still_ok; [exact Hs|by apply (fr_core _ HJ)]|by apply steady_still]. Qed.
Section framed.
Context (J : usb E -> Prop) (HJ : framed J).
Lemma read_tick s : J s -> wp False (on_env tick) (fun t s1 => J s1 /\ now (env_of s1) = now (env_of s) /\ t = u32 (now (env_of s))) s.
Proof.
  intros Hj. pose proof (clock_law (env_of s)) as Hc. unfold wp, on_env, UsbKbd.on_env, env_of in *. destruct (tick (UsbKbd.env (kb s))) as [[t e]| |]; [|done..].
  destruct Hc as ([] & En & ->). split_and!; [|done|done]. eapply (framed_stable J HJ); [|exact Hj]. by constructor.
Qed.
Lemma delay_loop_keeps start needed fuel : forall s, J s -> 0 <= now (env_of s) - start <= needed -> needed < 4294967296 -> needed - (now (env_of s) - start) <= Z.of_nat fuel ->
  wp False (delay_loop wait fuel (u32 start) needed) (fun _ s' => J s' /\ True) s.
Proof.
  induction fuel as [|fuel IH]; intros s Hj Hs Hmax Hf; cbn [delay_loop]; (apply wp_bind; eapply wp_mono; [by apply read_tick|]); intros t s1 (H1 & En & ->); cbv beta;
    (assert (Hel : u32 (u32 (now (env_of s)) - u32 start) = now (env_of s) - start) by (unfold u32; rewrite <-Zminus_mod; apply Z.mod_small; lia)); rewrite Hel;
    (destruct (Z.ltb_spec (now (env_of s) - start) needed) as [Hlt|_]; [|by apply wp_ret]); [lia|].
  apply wp_bind. eapply wp_mono; [apply wait_law, (fr_core _ HJ), H1|]. intros ? s2 (H2 & S2 & N2). apply IH; [by eapply (fr_steady _ HJ)|lia..].
Qed.
Context (fuel : nat) (Hfuel : 100 <= Z.of_nat fuel).
Lemma keeps_delay ms : 0 <= ms <= 900 -> keeps J (delay_ms wait fuel ms).
Proof.
  intros Hms s Hj. unfold delay_ms. apply wp_bind. eapply wp_mono; [by apply read_tick|].
  intros t s1 (H1 & En & ->). cbv beta. rewrite (u32_small (ms + 9)) by (unfold is_u32; lia). assert (0 <= (ms + 9) / 10 <= 90) by (Z.div_mod_to_equations; lia).
  apply delay_loop_keeps; [done|..]; case_match; lia.
Qed.
End framed.
Context (fuel : nat) (Hfuel : 100 <= Z.of_nat fuel) (csw_stack : list Z).
Lemma core_framed : framed core_ok.
Proof. by constructor. Qed.

(** ** A storage device that is being entered in slot i *)

Section storage.
Context (i : nat).
Definition filling s : Prop := core_ok s /\ storage_dev_count s = Z.of_nat i /\ (i < 4)%nat /\ exists d, storage_devs s !! i = Some d /\ drive_id d = USB_DRIVE_BASE + Z.of_nat i.
Lemma filling_framed : framed filling.
Proof. constructor; [by intros s []|]. intros s s' (_ & Hc & Hi & d & Hd & Ed) Hok [Es Ec]. split_and!; [done|congruence|done|]. exists d. by rewrite Es. Qed.
Lemma put_storage s d : core_ok s -> storage_dev_count s = Z.of_nat i -> core_ok (Mk (<[i := d]> (storage_devs s)) (storage_dev_count s) (msc_tag s) (hid_devs s) (hid_dev_count s) (started s) (kb s)).
Proof.
  intros [[Hl Hc Hd] Hh Hn Hk] Ei. constructor; cbn; [|by apply (hid_ok_env _ s)|done|done]. constructor; cbn; [by rewrite length_insert|done|].
  intros j d' Hj Hlt. apply list_lookup_insert_Some in Hj as [(-> & _)|[_ Hj]]; [lia|by apply Hd].
Qed.
Lemma does_getm : keeps filling (getm (Z.of_nat i)).
Proof. intros s Hs. pose proof Hs as (_ & _ & _ & d & Hd & _). unfold getm. apply wp_bind, wp_gets; cbv beta. rewrite lget_lookup, Nat2Z.id, Hd by lia. by apply wp_lift_some. Qed.
Lemma does_putm f : (forall d, drive_id (f d) = drive_id d) -> keeps filling (putm (Z.of_nat i) f).
Proof.
  intros Hf s (Hok & Hc & Hi & d & Hd & Ed). pose proof (lookup_lt_Some _ _ _ Hd) as Hlt. unfold putm. apply wp_bind, wp_gets; cbv beta. rewrite lget_lookup, Nat2Z.id, Hd by lia.
  apply wp_bind, wp_lift_some, wp_bind. rewrite lset_in, Nat2Z.id by lia. apply wp_lift_some. unfold with_storage. apply wp_modify. split; [|done]. split_and!; [by apply put_storage|done|done|].
  exists (f d). cbn. split; [by apply list_lookup_insert_eq|by rewrite Hf].
Qed.
Lemma does_tag v : keeps filling (with_tag v).
Proof. intros s Hs. unfold with_tag. apply wp_modify. split; [|done]. eapply (framed_stable _ filling_framed); [|exact Hs]. by constructor. Qed.
Lemma does_bulk at_ ep d m tg data : keeps filling (on_env (bulk_transfer at_ ep d m tg data)).
Proof. eapply keeps_env; [apply framed_stable, filling_framed|apply bulk_law]. Qed.
Lemma does_wait ms : 0 <= ms <= 900 -> keeps filling (delay_ms wait fuel ms).
Proof. by apply keeps_delay; [apply filling_framed|]. Qed.
Lemma does_none at_ mps setup : keeps filling (control_none at_ mps setup).
Proof. apply keeps_none, framed_stable, filling_framed. Qed.
#[local] Hint Resolve does_getm does_tag does_bulk does_none : usb.
#[local] Hint Extern 1 (keeps filling (putm _ _)) => (apply does_putm; done) : usb.
#[local] Hint Extern 1 (keeps filling (delay_ms _ _ _)) => (apply does_wait; unfold USB_MSC_BOT_RETRY_DELAY_MS, USB_MSC_TUR_NOT_READY_DELAY_MS; (lia || done)) : usb.
Lemma does_reset : keeps filling (msc_reset_recovery (Z.of_nat i)).
Proof. unfold msc_reset_recovery, msc_bulk_only_reset, msc_clear_halt. keep. Qed.
Lemma does_bulk_in data : keeps filling (msc_bulk_in (Z.of_nat i) data).
Proof. unfold msc_bulk_in. keep. Qed.
Lemma does_bulk_out data : keeps filling (msc_bulk_out (Z.of_nat i) data).
Proof. unfold msc_bulk_out. keep. Qed.
#[local] Hint Resolve does_reset does_bulk_in does_bulk_out : usb.
Lemma does_attempt lun cdb din data : keeps filling (bot_attempt csw_stack (Z.of_nat i) lun cdb din data).
Proof. unfold bot_attempt. keep. Qed.
#[local] Hint Resolve does_attempt : usb.
Lemma does_bot lun cdb din data : keeps filling (msc_bot_cmd wait csw_stack fuel (Z.of_nat i) lun cdb din data).
Proof. unfold msc_bot_cmd. generalize USB_MSC_BOT_RETRIES. intros k. revert data. induction k as [|k IH]; intros data; cbn [bot_retry]; keep. Qed.
#[local] Hint Resolve does_bot : usb.
Lemma does_sense : keeps filling (msc_scsi_request_sense wait csw_stack fuel (Z.of_nat i)).
Proof. unfold msc_scsi_request_sense. keep. Qed.
#[local] Hint Resolve does_sense : usb.
Lemma does_sense_wait a b : 0 <= a <= 900 -> 0 <= b <= 900 -> keeps filling (sense_wait wait csw_stack fuel (Z.of_nat i) a b).
Proof. intros Ha Hb. unfold sense_wait. apply keep_bind; [apply does_sense|]. intros [[[key ?] ?]|]; apply does_wait; [case_match|]; lia. Qed.
Lemma does_capacity : keeps filling (msc_scsi_read_capacity wait csw_stack fuel (Z.of_nat i)).
Proof.
  unfold msc_scsi_read_capacity. apply keep_bind.
  - unfold msc_wait_ready. generalize USB_MSC_TUR_RETRIES. intros k. induction k as [|k IH]; cbn [wait_ready_loop]; [apply keep_ret|]. unfold msc_scsi_test_unit_ready.
    apply keep_bind; [keep|]. intros []; [apply keep_ret|]. apply keep_bind; [by apply does_sense_wait|done].
  - intros _. generalize USB_MSC_READ_CAPACITY_RETRIES. intros k. induction k as [|k IH]; cbn [capacity_loop]; [apply keep_ret|]. unfold msc_scsi_read_capacity10, msc_scsi_read_capacity16.
    assert (Hn : keeps filling (sense_wait wait csw_stack fuel (Z.of_nat i) USB_MSC_READ_CAPACITY_NOT_READY_DELAY_MS USB_MSC_READ_CAPACITY_FAIL_DELAY_MS;;; capacity_loop wait csw_stack fuel k (Z.of_nat i)))
      by (apply keep_bind; [by apply does_sense_wait|done]).
    apply keep_bind; [keep|]. intros [[[last sz] []]|]; [|done..]. case_match; [|keep]. apply keep_bind; [keep|]. intros [[[? ?] []]|]; keep.
Qed.
Lemma does_max_lun mps : keeps filling (msc_get_max_lun wait fuel (Z.of_nat i) mps).
Proof.
  unfold msc_get_max_lun. generalize USB_MSC_GET_MAX_LUN_RETRIES. intros k. induction k as [|k IH]; cbn [max_lun_loop]; [keep|]. apply keep_bind; [keep|]. intros d.
  apply keep_bind; [apply keeps_control; [apply framed_stable, filling_framed|repeat constructor; done]|]. intros r. case_match; [keep|]. apply keep_bind; [|done]. by apply does_wait.
Qed.
End storage.
(** A place is left. *)
Definition room s : Prop := core_ok s /\ storage_dev_count s < 4.
Lemma room_framed : framed room.
Proof. constructor; [by intros s []|]. intros s s' [_ Hc] Hok [_ Ec]. split; [done|]. by rewrite Ec. Qed.
Lemma to_filling s i d (Q : unit -> usb E -> Prop) : room s -> storage_dev_count s = i -> drive_id d = USB_DRIVE_BASE + i -> (forall s', filling (Z.to_nat i) s' -> Q tt s') -> wp False (putm i (fun _ => d)) Q s.
Proof.
  intros [Hok Hlt] <- Ed HQ. pose proof (co_msc _ Hok) as [Hl Hc _]. destruct (lookup_lt_is_Some_2 (storage_devs s) (Z.to_nat (storage_dev_count s))) as [d0 Hd0]; [lia|].
  unfold putm. apply wp_bind, wp_gets; cbv beta. rewrite lget_lookup, Hd0 by lia. apply wp_bind, wp_lift_some, wp_bind. rewrite lset_in by lia. apply wp_lift_some. unfold with_storage. apply wp_modify.
  apply HQ. split_and!; [apply put_storage; [done|lia]|cbn; lia|lia|]. exists d. cbn. split; [apply list_lookup_insert_eq; lia|rewrite Ed; f_equal; lia].
Qed.
Lemma filled i s : filling i s -> core_ok (Mk (storage_devs s) (storage_dev_count s + 1) (msc_tag s) (hid_devs s) (hid_dev_count s) (started s) (kb s)).
Proof.
  intros ([[Hl Hc Hd] Hh Hn Hk] & Ei & Hi & d & Hdi & Ed). constructor; cbn; [|by apply (hid_ok_env _ s)|done|done]. constructor; cbn; [done|lia|].
  intros j d' Hj Hlt. destruct (decide (j = i)) as [->|Hne]; [rewrite Hdi in Hj; by injection Hj as <-|]. apply Hd; [done|lia].
Qed.
Abbreviation attach_storage := (attach_storage wait csw_stack fuel rescan).
Lemma filled_keeps i : forall s, filling i s -> wp False (s <- get;; with_storage (storage_devs s) (storage_dev_count s + 1);;; rescan;;; ret true) (fun _ s' => core_ok s') s.
Proof.
  intros s Hs. apply wp_bind, wp_gets; cbv beta. apply wp_bind. unfold with_storage. apply wp_modify. apply wp_bind. eapply wp_mono; [apply rescan_law|]. intros ? s' Hst. apply wp_ret.
  eapply still_ok; [exact Hst|]. by apply (filled i).
Qed.
Lemma attach_storage_ok at_ mps p s : room s -> wp False (attach_storage at_ mps p) (fun _ s' => core_ok s') s.
Proof.
  intros Hr. unfold UsbDev.attach_storage. apply wp_bind. eapply (wp_mono _ _ (fun _ s' => room s' /\ True)).
  { revert s Hr. change (keeps room (if can has_configure_endpoint (p_hc at_) then
      ok <- on_env (configure_endpoint (p_hc at_) (p_dev at_) (r_bulk_out_ep p) false USB_EP_BULK (if r_bulk_out_mps p =? 0 then 64 else r_bulk_out_mps p) 0);;
      if (ok : bool) then on_env (configure_endpoint (p_hc at_) (p_dev at_) (r_bulk_in_ep p) true USB_EP_BULK (if r_bulk_in_mps p =? 0 then 64 else r_bulk_in_mps p) 0) else ret false else ret true)).
    assert (Hcf : forall ep d m, keeps room (on_env (configure_endpoint (p_hc at_) (p_dev at_) ep d USB_EP_BULK m 0))) by (intros; eapply keeps_env; [apply framed_stable, room_framed|apply UsbKbdSafe.configure_law]).
    case_match; [|apply keep_ret]. apply keep_bind; [apply Hcf|]. intros []; [apply Hcf|apply keep_ret]. }
  intros ok s1 [H1 _]. case_match; [apply wp_ret, H1|]. apply wp_bind, wp_gets; cbv beta. apply wp_bind. pose proof H1 as [[[_ Hc _] _ _ _] Hlt]. eapply to_filling; [done|done| |].
  { cbn [drive_id]. unfold USB_DRIVE_BASE, u8. apply Z.mod_small. lia. }
  intros s2 H2. replace (storage_dev_count s1) with (Z.of_nat (Z.to_nat (storage_dev_count s1))) by lia. set (i := Z.to_nat (storage_dev_count s1)) in *.
  assert (Hk : forall {A B} (m : U A) (k : A -> U B) s (Q : B -> usb E -> Prop), filling i s -> keeps (filling i) m -> (forall a s', filling i s' -> wp False (k a) Q s') -> wp False (bind m k) Q s).
  { intros A B m k s3 Q H3 Hm HQ. apply wp_bind. eapply wp_mono; [by apply Hm|]. intros a s' [? _]. by apply HQ. }
  apply Hk; [done|by apply does_wait|]. intros _ s3 H3. apply Hk; [done|by apply does_putm|]. intros _ s4 H4. apply Hk; [done| |].
  { case_match; [|apply keep_ret]. apply keep_bind; [apply does_max_lun|]. intros l. by apply does_putm. }
  intros _ s5 H5. apply Hk; [done|by apply does_wait|]. intros _ s6 H6. apply Hk; [done|apply does_capacity|]. intros ok' s7 H7. case_match.
  - apply Hk; [done|apply does_sense|]. intros _ s8 H8. apply Hk; [done|by apply does_wait|]. intros _ s9 H9. apply wp_ret, H9.
  - by apply (filled_keeps i).
Qed.
End world.
End UsbDevSafe.
