(* ===== verification/UsbHidSafe.v ===== *)
(** * USB mice: reports and transfers stay within their buffers

    The reports that usb.c accepts for a mouse are read within its buffer; attaching, polling and
    removing mice keep the invariant of [UsbDevSafe]. *)
From S2P Require Import Prelude UsbHc HidParse UsbKbd UsbKbdSafe UsbKbdClaims Usb UsbCfg UsbDev UsbDevSafe.

Module UsbHidSafe.
Import UsbHc HidParse Usb UsbCfg UsbDev UsbDevSafe.
Import UsbKbdSafe(Watch, armed, pending, sent, ignored, burst, quiet, calm, others, UsbWorld).

(** ** Reports *)

Lemma mouse_elem_same it u o i : let i' := mouse_elem it u o i in used i' = used i /\ report_id i' = report_id i /\ bit_off i' = bit_off i /\ report_bits i' = report_bits i.
Proof. unfold mouse_elem. by repeat case_match. Qed.
Lemma mouse_elem_ok it u o i : 0 <= it_off it <= 512 -> is_u8 (it_size it) -> is_u8 (it_count it) -> 0 <= o < 65536 ->
  (it_size it <= 16 -> o <= 512) -> fields_ok i -> fields_ok (mouse_elem it u o i).
Proof.
  intros Ho Hs Hc Hr Ho' []. unfold is_u8 in *. unfold mouse_elem. repeat case_match; try (by constructor);
    repeat match goal with Hb : _ && _ = true |- _ => apply andb_prop in Hb as [? ?] end; rewrite ?Z.eqb_eq, ?Z.ltb_lt, ?Z.ltb_ge in *;
    constructor; cbn; unfold axis_ok in *; cbn; try done; try lia.
Qed.
Lemma parse_ok {S} desc len m (s : S) : Forall is_u8 desc -> Z.of_nat (length desc) = len -> len <= 60000 ->
  wp False (hid_parse_report_desc desc len m) (fun r s' => s' = s /\ forall i, r = Some i -> info_ok i) s.
Proof.
  intros Hu Hl Hm. unfold hid_parse_report_desc, UsbKbd.kbd_parse_report_desc. case_match.
  - eapply wp_mono; [apply hid_parse_ok; [apply mouse_elem_same|intros; by apply mouse_elem_ok|done..]|]. intros r s' [-> Hr]. split; [done|]. intros i Hi. by apply Hr.
  - eapply wp_mono; [apply hid_parse_ok; [apply UsbKbdClaims.kbd_elem_same|intros; by apply UsbKbdClaims.kbd_elem_ok|done..]|]. intros r s' [-> Hr]. split; [done|]. intros i Hi. by apply Hr.
Qed.
Lemma bits_read buf base off n : length buf = 64%nat -> 0 <= base <= 8 -> 0 <= off -> 0 <= n -> base + off + n <= 512 -> exists v, hid_get_bits buf (u16 (base + off)) n = Some v.
Proof. intros Hl Hb Ho Hn Hs. unfold hid_get_bits. rewrite u16_small by lia. apply get_bits_ok; lia. Qed.
Lemma axis_read buf base a : length buf = 64%nat -> 0 <= base <= 8 -> axis_ok a -> a_size a <= 16 -> base + u16 (a_off a + a_size a) <= 512 -> exists v, read_axis buf base a = Some v.
Proof.
  intros Hl Hb (Ho & Hs & Hlow) H16 Hfit. specialize (Hlow H16). rewrite u16_small in Hfit by lia. destruct (bits_read buf base (a_off a) (a_size a)) as [v Hv]; [done|lia..|].
  unfold read_axis. destruct (a_rel a); [|by exists v]. unfold hid_get_bits_signed. rewrite Hv. cbn [mbind option_bind]. case_match; by eexists.
Qed.
Lemma max_bits_spec r : u16 (a_off (i_x r) + a_size (i_x r)) <= max_bits r /\ u16 (a_off (i_y r) + a_size (i_y r)) <= max_bits r /\
  (b_has (i_buttons r) = true -> u16 (b_off (i_buttons r) + b_count (i_buttons r)) <= max_bits r) /\
  (a_has (i_wheel r) = true -> u16 (a_off (i_wheel r) + a_size (i_wheel r)) <= max_bits r).
Proof. unfold max_bits. repeat case_match; rewrite ?Z.ltb_lt, ?Z.ltb_ge in *; split_and!; try done; intros; lia. Qed.
(** Whatever the device sends, and whatever report it described *)
Lemma mouse_report_ok proto r buf actual : length buf = 64%nat -> 0 <= actual <= 64 -> (proto = true -> fields_ok r) -> exists o, mouse_report proto r buf actual = Some o.
Proof.
  intros Hl Ha Hf. assert (Hg : forall j, 0 <= j < 64 -> exists b, lget buf j = Some b) by (intros j Hj; apply lget_in; lia). unfold mouse_report. destruct proto.
  2: { case_match; [by eexists|]. destruct (Hg 0) as [b0 E0], (Hg 1) as [b1 E1], (Hg 2) as [b2 E2], (Hg 3) as [b3 E3]; try lia. rewrite E0. cbn [mbind option_bind]. rewrite E1. cbn [mbind option_bind]. rewrite E2, E3. cbn [mbind option_bind]. case_match; by eexists. }
  specialize (Hf eq_refl) as []. case_match; [by eexists|].
  assert (Hfirst : exists first, (if negb (report_id r =? 0) && negb (actual <? 1) then lget buf 0 else Some 0) = Some first) by (case_match; [apply Hg; lia|by eexists]).
  destruct Hfirst as [first ->]. cbn [mbind option_bind]. case_match; [by eexists|]. set (base := if negb (report_id r =? 0) then 8 else 0). assert (Hbase : 0 <= base <= 8) by (unfold base; case_match; lia).
  case_match eqn:Efit; [by eexists|]. apply Z.ltb_ge in Efit. case_match eqn:E16; [by eexists|]. apply orb_false_iff in E16 as [Ex Ey]. rewrite Z.ltb_ge in Ex, Ey. destruct (max_bits_spec r) as (Mx & My & Mb & Mw).
  destruct (axis_read buf base (i_x r)) as [dx ->]; [done|lia|done|done|lia|]. cbn [mbind option_bind]. destruct (axis_read buf base (i_y r)) as [dy ->]; [done|lia|done|done|lia|]. cbn [mbind option_bind].
  assert (Hw : exists w, (if a_has (i_wheel r) && (a_size (i_wheel r) <=? 16) then read_axis buf base (i_wheel r) else Some 0) = Some w).
  { case_match eqn:Ew; [|by eexists]. apply andb_true_iff in Ew as [Hw Hz]. apply Z.leb_le in Hz. specialize (Mw Hw). apply axis_read; [done|lia|done|done|lia]. }
  destruct Hw as [w ->]. cbn [mbind option_bind].
  assert (Hb : exists b, (if b_has (i_buttons r) then hid_get_bits buf (u16 (base + b_off (i_buttons r))) (if 8 <? b_count (i_buttons r) then 8 else b_count (i_buttons r)) else Some 0) = Some b).
  { destruct (b_has (i_buttons r)) eqn:Eb; [|by eexists]. specialize (Mb eq_refl). rewrite u16_small in Mb by lia. case_match eqn:E8; rewrite ?Z.ltb_lt, ?Z.ltb_ge in E8; apply bits_read; lia. }
  destruct Hb as [b ->]. cbn [mbind option_bind]. by eexists.
Qed.

Section world.
Context {E : Type} {HC : UsbHc E} {WA : Watch E} {CK : Clock (E := E)}.
Abbreviation U A := (M (usb E) A).
Context {inject : Z -> M (UsbKbd.usb_kbd E) unit} {set_ignore : bool -> M (UsbKbd.usb_kbd E) unit} {UW : UsbWorld inject set_ignore}.
Context {wait : U unit} {mouse_inject : Z -> Z -> Z -> Z -> U unit} {mouse_ignore : bool -> U unit} {rescan changes : U unit}.
Context {CW : CoreWorld mouse_inject mouse_ignore rescan changes} {WW : WaitWorld wait}.
Context (fresh : Z -> list Z) (Hfresh : forall n, Forall is_u8 (fresh n) /\ (0 <= n -> Z.of_nat (length (fresh n)) = n)).
Implicit Types s : usb E.

(** ** A device that is being attached in slot i *)

Definition put_hid s i d : usb E := Mk (storage_devs s) (storage_dev_count s) (msc_tag s) (<[i := d]> (hid_devs s)) (hid_dev_count s) (started s) (kb s).
Definition building (i : nat) (P : usb_hid_dev_t -> Prop) s : Prop :=
  msc_ok s /\ hid_ok i s /\ hid_dev_count s = Z.of_nat i + 1 /\ (i < 4)%nat /\ kinv (kb s) /\ exists d, hid_devs s !! i = Some d /\ P d.
Lemma building_stable i P : stable (building i P).
Proof.
  intros s s' Hst (Hm & Hh & Hc & Hi & Hk & d & Hd & HP). pose proof (still_kinv _ _ Hst Hk). destruct Hst. split_and!; [by apply (msc_ok_of s)|by apply (hid_ok_env _ s)|congruence|done|done|].
  exists d. by rewrite st_hid0.
Qed.
Lemma wp_geth i s d (Q : usb_hid_dev_t -> usb E -> Prop) : hid_devs s !! i = Some d -> Q d s -> wp False (geth (Z.of_nat i)) Q s.
Proof. intros Hd HQ. unfold geth. apply wp_bind, wp_gets; cbv beta. rewrite lget_lookup, Nat2Z.id, Hd by lia. by apply wp_lift_some. Qed.
Lemma wp_puth i s d f (Q : unit -> usb E -> Prop) : hid_devs s !! i = Some d -> Q tt (put_hid s i (f d)) -> wp False (puth (Z.of_nat i) f) Q s.
Proof.
  intros Hd HQ. pose proof (lookup_lt_Some _ _ _ Hd). unfold puth. apply wp_bind, wp_gets; cbv beta. rewrite lget_lookup, Nat2Z.id, Hd by lia. apply wp_bind, wp_lift_some, wp_bind.
  rewrite lset_in, Nat2Z.id by lia. apply wp_lift_some. unfold with_hid. by apply wp_modify.
Qed.
Lemma hid_ok_put k i d s : hid_ok k s -> (k <= i)%nat -> hid_shape d -> hid_ok k (put_hid s i d).
Proof.
  intros [Hl Hs Hv Hp] Hk Hd. constructor; cbn; [by rewrite length_insert|by apply Forall_insert| |].
  - intros j d' Hj Hlt. rewrite list_lookup_insert_ne in Hj by lia. by apply (Hv j).
  - intros j j' d1 d2 H1 H2 Hj Hj'. rewrite list_lookup_insert_ne in H1, H2 by lia. by apply Hp.
Qed.
Lemma building_get i P s (Q : usb_hid_dev_t -> usb E -> Prop) : building i P s -> (forall d, hid_devs s !! i = Some d -> P d -> hid_shape d -> Q d s) -> wp False (geth (Z.of_nat i)) Q s.
Proof.
  intros (_ & Hh & _ & _ & _ & d & Hd & HP) HQ. eapply wp_geth; [done|]. apply HQ; [done..|]. apply (Forall_lookup_1 _ _ _ _ (ho_shape _ _ Hh) Hd).
Qed.
Lemma building_put i (P P' : usb_hid_dev_t -> Prop) f s (Q : unit -> usb E -> Prop) : building i P s -> (forall d, P d -> hid_shape d -> hid_shape (f d) /\ P' (f d)) ->
  (forall s', building i P' s' -> Q tt s') -> wp False (puth (Z.of_nat i) f) Q s.
Proof.
  intros (Hm & Hh & Hc & Hi & Hk & d & Hd & HP) Hf HQ. eapply wp_puth; [done|]. destruct (Hf d HP) as [Hs HP']; [apply (Forall_lookup_1 _ _ _ _ (ho_shape _ _ Hh) Hd)|].
  apply HQ. split_and!; [by apply (msc_ok_of s)|by apply hid_ok_put|done|done|done|]. exists (f d). split; [|done]. cbn. apply list_lookup_insert_eq. by apply lookup_lt_Some in Hd.
Qed.
Lemma building_mono i (P P' : usb_hid_dev_t -> Prop) s : building i P s -> (forall d, P d -> P' d) -> building i P' s.
Proof. intros (? & ? & ? & ? & ? & d & ? & ?) HP. split_and!; try done. exists d. split; [done|by apply HP]. Qed.
Definition fits (d : usb_hid_dev_t) : Prop := 0 <= h_buf_len d <= 64.
Definition plain (d : usb_hid_dev_t) : Prop := h_report_proto d = false.
Definition suited (d : usb_hid_dev_t) : Prop := h_report_proto d = true -> fits d.
Lemma plain_suited i s : building i plain s -> building i suited s.
Proof. intros Hb. eapply building_mono; [exact Hb|]. unfold plain, suited. congruence. Qed.
Lemma attach_report_ok i mps len s : building i plain s -> wp False (attach_report fresh (Z.of_nat i) mps len) (fun _ s' => building i suited s') s.
Proof.
  intros Hb. unfold attach_report. pose proof (plain_suited _ _ Hb) as Hb'. case_match eqn:Er; [|by apply wp_ret].
  apply andb_prop in Er as [El Er]. apply Z.ltb_lt in El. apply Z.leb_le in Er. destruct (Hfresh len) as [Hfu Hfl]. specialize (Hfl ltac:(lia)).
  apply wp_bind. eapply wp_mono; [apply (keeps_env _ (building_stable i plain) _ _ (UsbKbdSafe.kmalloc_law _)); exact Hb|]. intros p s1 [H1 _].
  pose proof (plain_suited _ _ H1) as H1'. case_match; [by apply wp_ret|]. apply wp_bind. eapply building_get; [exact H1|]. intros d Hd Hnp Hsh.
  apply wp_bind. unfold usb_get_report_desc. eapply wp_mono; [by apply (does_control _ (building_stable i plain))|]. intros r s2 (H2 & Hlr & Hur).
  assert (Hfree : forall s', building i suited s' -> wp False (on_env (kfree p)) (fun _ s' => building i suited s') s').
  { intros s' H'. eapply wp_mono; [apply (keeps_env _ (building_stable i suited) _ _ (UsbKbdSafe.kfree_law _)); exact H'|]. by intros ? ? [? _]. }
  pose proof (plain_suited _ _ H2) as H2'. apply wp_bind.
  destruct (fst r); [|apply wp_ret; by apply Hfree]. apply wp_bind. eapply wp_mono; [apply parse_ok; [done|lia|lia]|]. intros o s3 [-> Ho]. destruct o as [info|]; [|apply wp_ret; by apply Hfree].
  destruct (Ho info eq_refl) as [Hbits Hmax Hrid Hf]. assert (Hq : 0 <= (report_bits info + 7) / 8 < 8193) by (Z.div_mod_to_equations; lia). rewrite (u16_small ((report_bits info + 7) / 8)) by lia.
  case_match eqn:Efit.
  - apply andb_prop in Efit as [Efit E64]. apply andb_prop in Efit as [E0 _]. apply Z.ltb_lt in E0. apply Z.leb_le in E64.
    assert (H512 : report_bits info <= 512) by (revert E64; case_match; intros E64; rewrite ?u16_small in E64 by lia; Z.div_mod_to_equations; lia).
    eapply building_put; [exact H2| |intros s4 H4; by apply Hfree]. intros d' Hp' (? & ? & ?). split; [split_and!; try done; intros _; by apply Hf|]. intros _. unfold fits. cbn. lia.
  - eapply building_put; [exact H2| |intros s4 H4; by apply Hfree]. intros d' Hp' (? & ? & ?). unfold plain in Hp'. split; [split_and!; try done; cbn; congruence|]. unfold suited. cbn. congruence.
Qed.

(** The transfers of the other devices go on. *)
Lemma live_others x e s s' d : hid_live s d -> h_in d <> Some x -> others x (env_of s) e -> env_of s' = e -> started s <= started s' -> hid_live s' d.
Proof.
  intros (slot & n & len & Hin & Hs & Hn & Ha & Hl) Hne [Ho _ _] <- Hst. exists slot, n, len. split_and!; try done; try lia. rewrite Ho; [done|congruence].
Qed.
Lemma kinv_others slot n e k : others (HidIn slot n) (UsbKbd.env k) e -> kinv k -> kinv (UsbKbd.UsbKbd (UsbKbd.kbds k) (UsbKbd.kbd_count k) e).
Proof. intros [Ho _ Hg] Hk. apply kinv_env; [|done|done]. intros i. by apply Ho. Qed.
Lemma wp_on_any {A} (m : M E A) P s (Q : A -> usb E -> Prop) : wp False m P (env_of s) ->
  (forall a e, P a e -> Q a (Mk (storage_devs s) (storage_dev_count s) (msc_tag s) (hid_devs s) (hid_dev_count s) (started s) (UsbKbd.UsbKbd (UsbKbd.kbds (kb s)) (UsbKbd.kbd_count (kb s)) e))) ->
  wp False (on_env m) Q s.
Proof. intros Hm HQ. unfold wp, on_env, UsbKbd.on_env, env_of in *. destruct (m (UsbKbd.env (kb s))) as [[a e]| |]; [|done..]. by apply HQ. Qed.
Lemma begin_in_ok i s : building i fits s -> wp False (begin_in (Z.of_nat i)) (fun ok s' => if ok then core_ok s' else building i (fun _ => True) s') s.
Proof.
  intros Hb. unfold begin_in. apply wp_bind. eapply building_get; [exact Hb|]. intros d Hd Hfit (Hbl & Hbu & Hbf). case_match; [|apply wp_ret; by eapply building_mono].
  apply wp_bind, wp_gets; cbv beta. apply wp_bind, wp_modify. apply wp_bind. set (x := HidIn (Z.of_nat i) (started s)). eapply wp_on_any; [apply UsbKbdSafe.init_law|]. intros ok e [Ho Harm]. cbn [env_of kb storage_devs storage_dev_count msc_tag hid_devs hid_dev_count started] in *.
  destruct Hb as (Hm & [Hl Hs Hv Hp] & Hc & Hi & Hk & d' & Hd' & _). rewrite Hd in Hd'. injection Hd' as <-. apply wp_bind. eapply wp_puth; [exact Hd|]. apply wp_ret. unfold put_hid. cbn.
  assert (Hnew : forall n' slot', n' < started s -> HidIn slot' n' <> x) by (intros n' slot' Hn [= _ E']; lia).
  assert (Hk' : kinv (UsbKbd.UsbKbd (UsbKbd.kbds (kb s)) (UsbKbd.kbd_count (kb s)) e)) by (by apply (kinv_others (Z.of_nat i) (started s))).
  assert (Hold : forall j dj s', hid_devs s !! j = Some dj -> (j < i)%nat -> env_of s' = e -> started s' = started s + 1 -> hid_live s' dj).
  { intros j dj s' Hj Hlt He Hst. apply (live_others x e s); [by apply (Hv j)| |done|done|lia]. destruct (Hv j dj Hj Hlt) as (slot & n & len & -> & _ & Hn & _). intros E'. apply (Hnew n slot Hn). congruence. }
  assert (Hshape : Forall hid_shape (<[i := set_hid_in x d]> (hid_devs s))) by (apply Forall_insert; [done|by split_and!]).
  destruct ok.
  - constructor; cbn; [by apply (msc_ok_of s)| |lia|done]. rewrite Hc. replace (Z.to_nat (Z.of_nat i + 1)) with (S i) by lia. constructor; cbn; [by rewrite length_insert|done| |].
    + intros j dj Hj Hlt. apply list_lookup_insert_Some in Hj as [(-> & <- & _)|[Hne Hj]]; [|apply (Hold j); try done; lia].
      exists (Z.of_nat j), (started s), (h_buf_len d). cbn. split_and!; try done; try lia; [by apply Harm|apply Hfit..].
    + intros j j' d1 d2 H1 H2 Hj Hj' Hin. apply list_lookup_insert_Some in H1 as [(<- & <- & _)|[Hne1 H1]]; apply list_lookup_insert_Some in H2 as [(<- & <- & _)|[Hne2 H2]]; try done.
      * destruct (Hv j' d2 H2 ltac:(lia)) as (slot & n & len & E2 & _ & Hn & _). rewrite E2 in Hin. cbn in Hin. destruct (Hnew n slot Hn). congruence.
      * destruct (Hv j d1 H1 ltac:(lia)) as (slot & n & len & E1 & _ & Hn & _). rewrite E1 in Hin. cbn in Hin. destruct (Hnew n slot Hn). congruence.
      * eapply Hp; [exact H1|exact H2|lia|lia|done].
  - split; [by apply (msc_ok_of s)|]. split; [|do 3 (split; [done|]); by eexists; split; [apply list_lookup_insert_eq; by apply lookup_lt_Some in Hd|]].
    constructor; cbn; [by rewrite length_insert|done| |].
    + intros j dj Hj Hlt. rewrite list_lookup_insert_ne in Hj by lia. by apply (Hold j).
    + intros j j' d1 d2 H1 H2 Hj Hj'. rewrite list_lookup_insert_ne in H1, H2 by lia. by apply Hp.
Qed.
Lemma hid0_shape : hid_shape hid0.
Proof. split_and!; [done|by apply Forall_replicate|done]. Qed.
Definition hid_room s : Prop := core_ok s /\ hid_dev_count s < 4.
Lemma hid_room_stable : stable hid_room.
Proof. intros s s' Hst [Hok Hc]. split; [by apply (still_ok s)|]. by rewrite (st_hcount _ _ Hst). Qed.
Lemma hid_attach_ok at_ ep0 kind iface ep mps interval len : keeps core_ok (usb_hid_attach fresh mouse_ignore at_ ep0 kind iface ep mps interval len).
Proof.
  apply does_get. intros s Hs. pose proof Hs as [Hm Hh Hc Hk]. unfold USB_MAX_HID_DEVS. case_match eqn:E4; [by apply wp_ret|]. apply Z.leb_gt in E4. case_match; [by apply wp_ret|].
  apply wp_bind. eapply (wp_mono _ _ (fun _ s' => hid_room s')).
  { case_match; [|by apply wp_ret]. eapply wp_mono; [apply (keeps_env _ hid_room_stable _ _ (UsbKbdSafe.configure_law _ _ _ _ _ _ _)); by split|]. by intros ? ? [? _]. }
  intros ok s1 [H1 Hlt1]. case_match; [by apply wp_ret|]. apply wp_bind, wp_gets; cbv beta. pose proof H1 as [Hm1 Hh1 Hc1 Hk1]. set (i := Z.to_nat (hid_dev_count s1)). replace (hid_dev_count s1) with (Z.of_nat i) by lia.
  apply wp_bind. unfold add_hid_count. apply wp_bind, wp_gets; cbv beta. unfold with_hid. apply wp_modify. apply wp_bind.
  destruct (lookup_lt_is_Some_2 (hid_devs s1) i) as [d0 Hd0]; [rewrite (ho_len _ _ Hh1); lia|]. eapply wp_puth; [exact Hd0|]. unfold put_hid. cbn [storage_devs storage_dev_count msc_tag hid_devs hid_dev_count started kb]. set (d1 := Hid _ _ _ _ _ _ _ _ _ _ _).
  match goal with |- wp _ _ _ ?x => set (s2 := x) end. assert (H2 : building i plain s2).
  { split_and!; [by apply (msc_ok_of s1)| |cbn; lia|lia|done|exists d1; split; [apply list_lookup_insert_eq; by apply lookup_lt_Some in Hd0|done]].
    assert (Hsh : hid_shape d1) by (split_and!; [done|by apply Forall_replicate|done]). by apply (hid_ok_env i (put_hid s1 i d1)), hid_ok_put. }
  clearbody s2. apply wp_bind. eapply wp_mono; [by apply attach_report_ok|]. intros ? s3 H3. apply wp_bind. eapply building_get; [exact H3|]. intros d3 Hd3 Hsuit _. apply wp_bind.
  eapply (wp_mono _ _ (fun _ s' => building i fits s')).
  { destruct (h_report_proto d3) eqn:Ep; cbn [negb].
    - apply wp_ret. destruct H3 as (? & ? & ? & ? & ? & _). split_and!; try done. exists d3. split; [done|by apply Hsuit].
    - eapply building_put; [exact H3| |done]. intros d' _ (? & ? & ?). split; [by split_and!|]. apply UsbKbdClaims.clamp_len_ok. }
  intros ? s4 H4. pose proof (building_stable i fits) as Hst. apply wp_bind. unfold usb_hid_set_idle. eapply wp_mono; [by apply (keeps_none _ Hst)|]. intros ? s5 [H5 _]. apply wp_bind. eapply building_get; [exact H5|]. intros d5 _ _ _.
  apply wp_bind. unfold usb_hid_set_protocol. eapply wp_mono; [by apply (keeps_none _ Hst)|]. intros ? s6 [H6 _]. apply wp_bind. eapply wp_mono; [by apply begin_in_ok|]. intros ok' s7 H7. destruct ok'; cbn [negb].
  - destruct (decide _); [|by apply wp_ret]. eapply wp_mono; [apply mignore_law|]. intros ? s8 H8. split; [|done]. by apply (still_ok s7).
  - apply wp_bind. unfold add_hid_count. apply wp_bind, wp_gets; cbv beta. unfold with_hid. apply wp_modify. destruct H7 as (Hm7 & Hh7 & Hc7 & Hi7 & Hk7 & d7 & Hd7 & _). eapply wp_puth; [exact Hd7|]. split; [|done].
    constructor; cbn; [by apply (msc_ok_of s7)| |lia|done]. rewrite Hc7. replace (Z.to_nat (Z.of_nat i + 1 + -1)) with i by lia.
    apply (hid_ok_env i (put_hid s7 i hid0)); try done. apply hid_ok_put; [done|lia|apply hid0_shape].
Qed.

(** ** Removal *)

(** Device i is replaced by the last one and its transfer is over. *)
Lemma remove_ok s i d x l s' : core_ok s -> hid_devs s !! i = Some d -> h_in d = Some x -> Z.of_nat i < hid_dev_count s -> length l = 4%nat -> Forall hid_shape l ->
  (forall j, Z.of_nat j < hid_dev_count s - 1 -> l !! j = hid_devs s !! (if decide (j = i) then Z.to_nat (hid_dev_count s - 1) else j)) ->
  others x (env_of s) (env_of s') -> storage_devs s' = storage_devs s -> storage_dev_count s' = storage_dev_count s -> hid_devs s' = l -> hid_dev_count s' = hid_dev_count s - 1 -> started s' = started s ->
  kinv (kb s') -> core_ok s'.
Proof.
  intros [Hm [Hl Hs Hv Hp] Hc Hk] Hd Hx Hi Hll Hsl Hget Ho E1 E2 E3 E4 E5 Hk'. set (f := fun j => if decide (j = i) then Z.to_nat (hid_dev_count s - 1) else j).
  assert (Hf : forall j, Z.of_nat j < hid_dev_count s - 1 -> (f j < Z.to_nat (hid_dev_count s))%nat /\ f j <> i) by (intros j Hj; unfold f; case_decide; lia).
  constructor; [by apply (msc_ok_of s)| |lia|done]. rewrite E4. constructor; rewrite ?E3; [done|done| |].
  - intros j dj Hj Hlt. rewrite Hget in Hj by lia. fold (f j) in Hj. destruct (Hf j ltac:(lia)) as [Hfj Hne]. eapply (live_others x (env_of s') s); [by apply (Hv (f j))| |done|done|lia].
    intros Ein. apply Hne. eapply Hp; [exact Hj|exact Hd|done|lia|congruence].
  - intros j j' d1 d2 H1 H2 Hj Hj' Hin. rewrite Hget in H1, H2 by lia. fold (f j) in H1. fold (f j') in H2. destruct (Hf j ltac:(lia)) as [Hfj _], (Hf j' ltac:(lia)) as [Hfj' _].
    assert (Ef : f j = f j') by (by eapply Hp). unfold f in Ef. repeat case_decide; lia.
Qed.
Lemma live_in s i d : core_ok s -> hid_devs s !! i = Some d -> Z.of_nat i < hid_dev_count s -> exists slot n, h_in d = Some (HidIn slot n).
Proof. intros Hok Hd Hi. destruct (ho_live _ _ (co_hid _ Hok) i d Hd) as (slot & n & len & Hin & _); [lia|]. by exists slot, n. Qed.
Lemma cancel_ok s i d (Q : unit -> usb E -> Prop) : core_ok s -> hid_devs s !! i = Some d -> Z.of_nat i < hid_dev_count s ->
  (forall e x, h_in d = Some x -> others x (env_of s) e -> kinv (UsbKbd.UsbKbd (UsbKbd.kbds (kb s)) (UsbKbd.kbd_count (kb s)) e) ->
     Q tt (Mk (storage_devs s) (storage_dev_count s) (msc_tag s) (hid_devs s) (hid_dev_count s) (started s) (UsbKbd.UsbKbd (UsbKbd.kbds (kb s)) (UsbKbd.kbd_count (kb s)) e))) ->
  wp False (cancel_hid d) Q s.
Proof.
  intros Hok Hd Hi HQ. destruct (live_in s i d Hok Hd Hi) as (slot & n & Hin). unfold cancel_hid. rewrite Hin. case_match.
  - eapply wp_on_any; [apply UsbKbdSafe.cancel_law|]. intros [] e Ho. eapply HQ; [done|exact Ho|]. eapply kinv_others; [exact Ho|by apply co_kbd].
  - apply wp_ret. specialize (HQ (env_of s) (HidIn slot n) Hin). destruct s as [? ? ? ? ? ? [? ? ?]]. apply HQ; [by constructor|by apply co_kbd in Hok].
Qed.
Lemma drop_hids_ok hc dev k : forall i s, core_ok s -> 0 <= i -> hid_dev_count s - i <= Z.of_nat k ->
  wp False (drop_hids k i hc dev) (fun _ s' => core_ok s' /\ hid_dev_count s' <= hid_dev_count s /\ steady s s' /\
    forall j d, i <= Z.of_nat j < hid_dev_count s -> hid_devs s !! j = Some d -> is_at h_at hc dev d = true -> hid_dev_count s' < hid_dev_count s) s.
Proof.
  induction k as [|k IH]; intros i s Hok Hi Hk; cbn [drop_hids]; apply wp_bind, wp_gets; cbv beta; (destruct (Z.ltb_spec i (hid_dev_count s)) as [Hlt|Hge]; [|apply wp_ret; split_and!; try done; intros; lia]); [lia|].
  pose proof Hok as [Hm [Hl Hs Hv Hp] Hc Hkb]. set (n := Z.to_nat i) in *. replace i with (Z.of_nat n) by lia. destruct (lookup_lt_is_Some_2 (hid_devs s) n) as [d Hd]; [lia|]. apply wp_bind. eapply wp_geth; [exact Hd|].
  case_match eqn:Eat.
  2: { replace (Z.of_nat n + 1) with (i + 1) by lia. eapply wp_mono; [apply (IH (i + 1) s); [done|lia|lia]|]. intros ? s3 (H3 & Hle & St & Hrm). split_and!; [done|done|apply St..|].
    intros j dj Hj Hdj Hat. apply (Hrm j dj); try done. assert (j <> n) by (intros ->; congruence). subst n. lia. }
  apply wp_bind. eapply (cancel_ok s n); [done|done|lia|]. intros e x Hx Ho Hk'. apply wp_bind, wp_gets; cbv beta. cbn [hid_dev_count].
  set (last := Z.to_nat (hid_dev_count s - 1)). replace (hid_dev_count s - 1) with (Z.of_nat last) by lia. destruct (lookup_lt_is_Some_2 (hid_devs s) last) as [dl Hdl]; [lia|]. apply wp_bind.
  eapply (wp_mono _ _ (fun _ s1 => s1 = Mk (storage_devs s) (storage_dev_count s) (msc_tag s) (<[n := dl]> (hid_devs s)) (hid_dev_count s) (started s) (UsbKbd.UsbKbd (UsbKbd.kbds (kb s)) (UsbKbd.kbd_count (kb s)) e))).
  { destruct (Z.eqb_spec (Z.of_nat n) (Z.of_nat last)) as [El|Hne]; cbn [negb].
    - apply wp_ret. assert (n = last) as -> by lia. by rewrite list_insert_id.
    - apply wp_bind. eapply wp_geth; [exact Hdl|]. eapply wp_puth; [exact Hd|]. done. }
  intros ? s1 ->. apply wp_bind. assert (Hlast : exists d1, <[n := dl]> (hid_devs s) !! last = Some d1) by (apply lookup_lt_is_Some_2; rewrite length_insert; lia). destruct Hlast as [d1 Hd1].
  eapply wp_puth; [exact Hd1|]. apply wp_bind. unfold add_hid_count. apply wp_bind, wp_gets; cbv beta. unfold with_hid. apply wp_modify. unfold put_hid. cbn [storage_devs storage_dev_count msc_tag hid_devs hid_dev_count started kb].
  match goal with |- wp _ _ _ ?x => set (s2 := x) end. assert (H2 : core_ok s2).
  { eapply (remove_ok s n d x (<[last := hid0]> (<[n := dl]> (hid_devs s)))); try done; [lia|by rewrite !length_insert| |].
    - apply Forall_insert; [apply Forall_insert; [done|]|apply hid0_shape]. by apply (Forall_lookup_1 _ _ _ _ Hs Hdl).
    - intros j Hj. rewrite list_lookup_insert_ne by lia. fold last. case_decide as Hjn; [subst j; rewrite Hdl; apply list_lookup_insert_eq; lia|]. by rewrite list_lookup_insert_ne by lia. }
  eapply wp_mono; [apply IH; [done|lia|cbn; lia]|]. intros ? s3 (H3 & Hle & St & _). split_and!; [done|cbn in Hle; lia|apply St..|]. intros. cbn in Hle. lia.
Qed.
Lemma drop_device_ok hc dev s : core_ok s ->
  wp False (usb_hid_drop_device mouse_ignore hc dev) (fun _ s' => core_ok s' /\ hid_dev_count s' <= hid_dev_count s /\ steady s s' /\
    forall j d, hc <> 0 -> Z.of_nat j < hid_dev_count s -> hid_devs s !! j = Some d -> is_at h_at hc dev d = true -> hid_dev_count s' < hid_dev_count s) s.
Proof.
  intros Hok. pose proof (co_hcount _ Hok). unfold usb_hid_drop_device. destruct (Z.eqb_spec hc 0); [apply wp_ret; split_and!; try done; intros; lia|]. apply wp_bind, wp_gets; cbv beta. apply wp_bind.
  eapply wp_mono; [apply drop_hids_ok; [done|lia|lia]|]. intros ? s1 (H1 & Hle & [St1 St2] & Hrm). apply wp_bind, wp_gets; cbv beta. eapply wp_mono; [apply mignore_law|]. intros ? s2 H2. pose proof (st_hcount _ _ H2) as Ec. pose proof (steady_still _ _ H2) as [Sd Sc].
  split_and!; [by apply (still_ok s1)|lia|split; congruence|]. intros j d _ Hj Hd Hat. rewrite Ec. apply (Hrm j d); [lia|done|done].
Qed.
Lemma drop_all_hids_ok hc k : forall i s, core_ok s -> hc <> 0 -> 0 <= i -> hid_dev_count s - i <= Z.of_nat k ->
  wp False (drop_all_hids mouse_ignore k i hc) (fun _ s' => core_ok s' /\ steady s s') s.
Proof.
  induction k as [|k IH]; intros i s Hok Hh Hi Hk; cbn [drop_all_hids]; apply wp_bind, wp_gets; cbv beta; (destruct (Z.ltb_spec i (hid_dev_count s)) as [Hlt|_]; [|by apply wp_ret]); [lia|].
  pose proof (co_hcount _ Hok). pose proof (ho_len _ _ (co_hid _ Hok)). destruct (lookup_lt_is_Some_2 (hid_devs s) (Z.to_nat i)) as [d Hd]; [lia|]. replace i with (Z.of_nat (Z.to_nat i)) at 1 by lia. apply wp_bind. eapply wp_geth; [exact Hd|].
  case_match eqn:Eh; [|apply IH; [done|done|lia|lia]]. apply wp_bind. eapply wp_mono; [by apply drop_device_ok|]. intros ? s1 (H1 & Hle & [S1 S2] & Hrm).
  assert (hid_dev_count s1 < hid_dev_count s). { apply (Hrm (Z.to_nat i) d); [done|lia|done|]. unfold is_at. by rewrite Eh, Z.eqb_refl. }
  eapply wp_mono; [apply IH; [done|done|lia|lia]|]. intros ? s2 (K2 & [S3 S4]). split; [done|split; congruence].
Qed.
Lemma cancel_hids_ok k : forall i s, length (hid_devs s) = 4%nat -> (i + k <= 4)%nat -> kinv (kb s) ->
  (forall j d, hid_devs s !! j = Some d -> (j < i + k)%nat -> exists slot n, h_in d = Some (HidIn slot n)) ->
  wp False (cancel_hids k (Z.of_nat i)) (fun _ s' => steady s s' /\ kinv (kb s')) s.
Proof.
  induction k as [|k IH]; intros i s Hl Hk Hkb Hin; cbn [cancel_hids]; [by apply wp_ret|]. destruct (lookup_lt_is_Some_2 (hid_devs s) i) as [d Hd]; [lia|]. apply wp_bind. eapply wp_geth; [exact Hd|]. apply wp_bind.
  destruct (Hin i d Hd ltac:(lia)) as (slot & n & Hx). replace (Z.of_nat i + 1) with (Z.of_nat (S i)) by lia. unfold cancel_hid. rewrite Hx. case_match.
  - eapply wp_on_any; [apply UsbKbdSafe.cancel_law|]. intros ? e Ho. eapply wp_mono; [apply IH; cbn; [done|lia|eapply kinv_others; [exact Ho|done]|]|].
    + intros j dj Hj Hlt. apply (Hin j); [done|lia].
    + intros ? s' [[? ?] ?]. by split_and!.
  - apply wp_ret. apply IH; [done|lia|done|]. intros j dj Hj Hlt. apply (Hin j); [done|lia].
Qed.
Lemma reset_hids_ok s : core_ok s -> wp False (usb_hid_reset set_ignore mouse_ignore) (fun _ s' => core_ok s' /\ steady s s' /\ hid_dev_count s' = 0) s.
Proof.
  intros Hok. unfold usb_hid_reset. apply wp_bind. eapply wp_mono; [apply mignore_law|]. intros ? s1 S1. pose proof (still_ok _ _ S1 Hok) as H1. pose proof (co_hcount _ H1). apply wp_bind, wp_gets; cbv beta. apply wp_bind.
  eapply wp_mono; [apply (cancel_hids_ok _ 0 s1); [apply (ho_len _ _ (co_hid _ H1))|lia|by apply co_kbd|intros j d Hd Hj; eapply live_in; [done|exact Hd|lia]]|].
  intros ? s2 [[Sd2 Sc2] K2]. apply wp_bind. unfold with_hid. apply wp_modify. unfold on_kbd, wp. cbn [kb].
  pose proof (UsbKbdClaims.init_ok (mice := fun slot n => armed (UsbKbd.env (kb s2)) (HidIn slot n)) (kb s2) (UsbKbdSafe.ok_len _ (proj1 K2)) ltac:(done)) as Hi. unfold wp in Hi.
  destruct (UsbKbd.hid_boot_kbd_init set_ignore (kb s2)) as [[u k]| |]; [|done..]. destruct (steady_still _ _ S1) as [Sd1 Sc1].
  split; [|split; [split; cbn; congruence|done]]. constructor; cbn; [|constructor; cbn; [done|repeat constructor; try done; apply hid0_shape| |]; intros; lia|lia|by eapply kinv_of].
  apply (msc_ok_of s1); [|apply H1]. split; cbn; congruence.
Qed.

(** ** Polling *)

Definition calmly s s' : Prop := core_ok s' /\ steady s s' /\ hid_dev_count s' = hid_dev_count s.
Lemma calmly_trans s1 s2 s3 : calmly s1 s2 -> calmly s2 s3 -> calmly s1 s3.
Proof. intros (_ & [? ?] & ?) (? & [? ?] & ?). split; [done|split; [split; congruence|congruence]]. Qed.
Lemma still_calmly s s' : core_ok s -> still s s' -> calmly s s'.
Proof. intros Hok Hst. split; [by apply (still_ok s)|]. split; [by apply steady_still|apply Hst]. Qed.
Lemma put_buf_ok s j d b : core_ok s -> hid_devs s !! j = Some d -> length b = 64%nat -> Forall is_u8 b -> calmly s (put_hid s j (set_hid_buf b d)).
Proof.
  intros [Hm [Hl Hs Hv Hp] Hc Hk] Hd Hb Hu. pose proof (Forall_lookup_1 _ _ _ _ Hs Hd) as (_ & _ & Hsd). pose proof (lookup_lt_Some _ _ _ Hd) as Hlt. split; [|by split]. constructor; cbn; [by apply (msc_ok_of s)| |done|done].
  assert (Hsame : forall k d', <[j := set_hid_buf b d]> (hid_devs s) !! k = Some d' -> exists d0, hid_devs s !! k = Some d0 /\ h_in d0 = h_in d').
  { intros k d' Hk'. apply list_lookup_insert_Some in Hk' as [(-> & <- & _)|[_ Hk']]; eexists; split; [exact Hd|done|exact Hk'|done]. }
  constructor; cbn; [by rewrite length_insert|apply Forall_insert; [done|by split_and!]| |].
  - intros k d' Hk' Hlk. destruct (Hsame k d' Hk') as (d0 & H0 & E0). destruct (Hv k d0 H0 Hlk) as (slot & n & len & Hin & Hr). exists slot, n, len. by rewrite <-E0.
  - intros k k' d1 d2 H1 H2 Hk1 Hk2 Hin. destruct (Hsame _ _ H1) as (c1 & G1 & F1), (Hsame _ _ H2) as (c2 & G2 & F2). eapply Hp; [exact G1|exact G2|done|done|congruence].
Qed.
Lemma process_ok i s d actual : core_ok s -> hid_devs s !! i = Some d -> 0 <= actual <= 64 -> wp False (usb_hid_mouse_process mouse_inject (Z.of_nat i) actual) (fun _ s' => still s s') s.
Proof.
  intros Hok Hd Ha. unfold usb_hid_mouse_process. apply wp_bind. eapply wp_geth; [exact Hd|]. destruct (Forall_lookup_1 _ _ _ _ (ho_shape _ _ (co_hid _ Hok)) Hd) as (Hl & _ & Hf).
  destruct (mouse_report_ok (h_report_proto d) (h_report d) (h_buf d) actual Hl Ha Hf) as [o ->]. apply wp_bind, wp_lift_some. destruct o as [[[[dx dy] w] b]|]; [apply minject_law|]. apply wp_ret. by constructor.
Qed.
Lemma poll_mouse_ok i k : forall s d slot n, core_ok s -> Z.of_nat i < hid_dev_count s -> hid_devs s !! i = Some d -> h_in d = Some (HidIn slot n) -> (pending (env_of s) (HidIn slot n) < k)%nat ->
  wp False (poll_mouse mouse_inject k (Z.of_nat i)) (fun _ s' => calmly s s') s.
Proof.
  induction k as [|k IH]; intros s d slot n Hok Hi Hd Hin Hp; [lia|]. cbn [poll_mouse]. apply wp_bind. eapply wp_geth; [exact Hd|]. rewrite Hin. pose proof Hok as [_ Hh Hc _].
  destruct (ho_live _ _ Hh i d Hd ltac:(lia)) as (slot' & n' & len & Hin' & Hslot & _ & Harm & Hlen). rewrite Hin in Hin'. injection Hin' as <- <-. apply wp_bind. eapply wp_on_any; [apply UsbKbdSafe.check_law; [exact Harm|lia]|].
  intros [[rc actual] bytes] e (Ha & _ & Hg & Hact & Hby & Hbu & Hpe). match goal with |- wp _ _ _ ?x => set (s1 := x) end.
  assert (H1 : calmly s s1). { split; [|by split]. destruct Hok. constructor; [by apply (msc_ok_of s)|by apply (hid_ok_env _ s)|done|]. apply kinv_env; [intros; apply Ha|exact Hg|done]. }
  replace slot with (Z.of_nat (Z.to_nat slot)) by lia. set (j := Z.to_nat slot). destruct (lookup_lt_is_Some_2 (hid_devs s) j) as [o Ho]; [rewrite (ho_len _ _ Hh); lia|].
  apply wp_bind. eapply wp_geth; [exact Ho|]. destruct (Forall_lookup_1 _ _ _ _ (ho_shape _ _ Hh) Ho) as (Hbl & Hbf & _). apply wp_bind. rewrite UsbKbdSafe.splice_front by lia. apply wp_lift_some. set (b := bytes ++ drop (length bytes) (h_buf o)).
  assert (Hb : length b = 64%nat /\ Forall is_u8 b) by (unfold b; split; [rewrite length_app, length_drop; lia|apply Forall_app; split; [done|by apply Forall_drop]]). destruct Hb as [Hb1 Hb2].
  apply wp_bind. eapply wp_puth; [exact Ho|]. pose proof (put_buf_ok s1 j o b (proj1 H1) Ho Hb1 Hb2) as H2. set (s2 := put_hid s1 j (set_hid_buf b o)) in *. pose proof (calmly_trans _ _ _ H1 H2) as H12. case_match eqn:Erc; [by apply wp_ret|]. apply Z.leb_gt in Erc. specialize (Hpe Erc).
  assert (Hd2 : exists d2, hid_devs s2 !! i = Some d2 /\ h_in d2 = Some (HidIn slot n)).
  { cbn. destruct (decide (i = j)) as [->|Hne]; [rewrite list_lookup_insert_eq by (rewrite (ho_len _ _ Hh); lia); eexists; split; [done|]; rewrite Ho in Hd; by injection Hd as ->|rewrite list_lookup_insert_ne by done; by exists d]. }
  destruct Hd2 as (d2 & Hd2 & Hin2). apply wp_bind. eapply (wp_mono _ _ (fun _ s3 => still s2 s3)).
  { case_match; [apply (process_ok i s2 d2); [apply H12|done|lia]|]. apply wp_ret. by constructor. }
  intros ? s3 S3. pose proof (still_calmly _ _ (proj1 H2) S3) as H3. apply wp_bind. replace (Z.of_nat j) with slot by lia. eapply quiet_still; [apply UsbKbdSafe.rearm_law|]. intros ? s4 S4 _. pose proof (still_calmly _ _ (proj1 H3) S4) as H4.
  pose proof (calmly_trans _ _ _ H12 (calmly_trans _ _ _ H3 H4)) as H04. eapply wp_mono; [eapply (IH s4 d2 slot n)|].
  - apply H4.
  - destruct H04 as (_ & _ & ->). done.
  - by rewrite (st_hid _ _ S4), (st_hid _ _ S3).
  - done.
  - rewrite (st_pending _ _ S4), (st_pending _ _ S3). cbn. lia.
  - intros ? s5 H5. by eapply calmly_trans.
Qed.
Context (fuel : nat) (Hburst : (burst < fuel)%nat).
Lemma poll_mice_ok k : forall i s, core_ok s -> hid_dev_count s <= Z.of_nat (i + k) -> wp False (poll_mice fuel mouse_inject k (Z.of_nat i)) (fun _ s' => calmly s s') s.
Proof.
  induction k as [|k IH]; intros i s Hok Hk; cbn [poll_mice]; apply wp_bind, wp_gets; cbv beta; (destruct (Z.ltb_spec (Z.of_nat i) (hid_dev_count s)) as [Hlt|_]; [|by apply wp_ret]); [lia|].
  pose proof (co_hcount _ Hok). destruct (lookup_lt_is_Some_2 (hid_devs s) i) as [d Hd]; [rewrite (ho_len _ _ (co_hid _ Hok)); lia|]. apply wp_bind. eapply wp_geth; [exact Hd|]. apply wp_bind.
  destruct (live_in s i d Hok Hd Hlt) as (slot & n & Hin). eapply (wp_mono _ _ (fun _ s1 => calmly s s1)).
  { case_match; [by apply wp_ret|]. eapply poll_mouse_ok; [done|done|exact Hd|exact Hin|]. pose proof (UsbKbdSafe.burst_law (env_of s) (HidIn slot n)). lia. }
  intros ? s1 H1. replace (Z.of_nat i + 1) with (Z.of_nat (S i)) by lia. eapply wp_mono; [apply IH; [apply H1|destruct H1 as (_ & _ & ->); lia]|]. intros ? s2 H2. by eapply calmly_trans.
Qed.
End world.
End UsbHidSafe.
