(* ===== verification/UsbDevClaims.v ===== *)
(** * USB: any sequence of connections, removals and polls is safe

    The enumeration of devices and hubs, the removal of storage devices and the polling keep the
    invariant of [UsbDevSafe]; a small controller on which the theorem is run, with the timer
    interrupt polling the devices while usb.c waits; the examples show what goes wrong when one of two
    mice is removed. *)
From S2P Require Import Prelude UsbHc HidParse UsbKbd UsbKbdSafe UsbKbdClaims Usb UsbCfg UsbDev UsbDevSafe UsbHidSafe.

Module UsbDevClaims.
Import UsbHc HidParse Usb UsbCfg UsbDev UsbDevSafe UsbHidSafe.
Import UsbKbdSafe(Watch, armed, pending, sent, ignored, burst, quiet, calm, others, UsbWorld).

(** A configuration is read, whatever its numbers. *)
Lemma run_total ds : forall w, sane w -> exists w', run ds w = Some w'.
Proof.
  induction ds as [|d ds IH]; intros w Hs; cbn [run]; [by exists w|]. destruct (is_interface d) eqn:Ei.
  - destruct (parse_interface_ok d w Ei) as (w1 & -> & S1 & _). by apply IH.
  - destruct (parse_other_ok d w Ei Hs) as (w1 & -> & F1 & _). apply IH. injection F1 as Fm Fk Fo _. unfold sane. by rewrite Fm, Fk, Fo.
Qed.
Lemma parse_config_keeps {S} (I : S -> Prop) cfg len : Z.of_nat (length cfg) = len -> len <= 65535 -> keeps I (usb_parse_config cfg len).
Proof.
  intros <- Hl. unfold usb_parse_config. case_match; [apply keep_ret|]. rewrite config_loop_run by lia. destruct (run_total (descriptors (length cfg) (drop (Z.to_nat 0) cfg)) scan0) as [w ->]; [done|]. apply keep_ret.
Qed.

Section world.
Context {E : Type} {HC : UsbHc E} {WA : Watch E} {CK : Clock (E := E)}.
Abbreviation U A := (M (usb E) A).
Context {inject : Z -> M (UsbKbd.usb_kbd E) unit} {set_ignore : bool -> M (UsbKbd.usb_kbd E) unit} {UW : UsbWorld inject set_ignore}.
Context {wait : U unit} {mouse_inject : Z -> Z -> Z -> Z -> U unit} {mouse_ignore : bool -> U unit} {rescan changes : U unit}.
Context {CW : CoreWorld mouse_inject mouse_ignore rescan changes} {WW : WaitWorld wait}.
Context (fresh : Z -> list Z) (Hfresh : forall n, Forall is_u8 (fresh n) /\ (0 <= n -> Z.of_nat (length (fresh n)) = n)).
Context (fuel : nat) (Hfuel : 100 <= Z.of_nat fuel) (Hburst : (burst < fuel)%nat) (csw_stack : list Z).
Implicit Types s : usb E.

(** ** Keyboards *)

Lemma kbd_calmly {A} (m : M (UsbKbd.usb_kbd E) A) s : core_ok s -> (forall mice, UsbKbdClaims.inv (mice := mice) (kb s) -> wp False m (fun _ k => UsbKbdClaims.inv (mice := mice) k) (kb s)) ->
  wp False (on_kbd m) (fun _ s' => calmly s s') s.
Proof.
  intros [Hm Hh Hc Hk] Hop. specialize (Hop _ Hk). unfold wp, on_kbd in *. destruct (m (kb s)) as [[a k]| |]; [|done..]. split; [|by split].
  constructor; cbn; [by apply (msc_ok_of s)| |done|by eapply kinv_of]. apply (hid_ok_env _ s); [done|done| |done]. apply (UsbKbdSafe.ok_mice _ (proj1 Hop)).
Qed.
Lemma calmly_keeps {A} (m : U A) : (forall s, core_ok s -> wp False m (fun _ s' => calmly s s') s) -> keeps core_ok m.
Proof. intros Hm s Hs. eapply wp_mono; [by apply Hm|]. intros a s' H'. split; [apply H'|done]. Qed.
Lemma core_env {A} (m : M E A) P : calm m P -> keeps core_ok (on_env m).
Proof. apply keeps_env, framed_stable, core_framed. Qed.
Lemma core_control at_ mps setup data : Forall is_u8 data -> does core_ok (usb_control at_ mps setup data) (fun r => length (snd r) = length data /\ Forall is_u8 (snd r)).
Proof. apply does_control, framed_stable, core_framed. Qed.
Lemma core_none at_ mps setup : keeps core_ok (control_none at_ mps setup).
Proof. apply keeps_none, framed_stable, core_framed. Qed.
Lemma core_delay ms : 0 <= ms <= 900 -> keeps core_ok (delay_ms wait fuel ms).
Proof. by apply keeps_delay; [apply core_framed|]. Qed.
Lemma u8_zeros n : Forall is_u8 (replicate n 0).
Proof. by apply Forall_replicate. Qed.

(** ** Enumeration *)

Abbreviation attach_hid := (attach_hid fresh set_ignore mouse_ignore).
Lemma attach_hid_ok at_ mps p : keeps core_ok (attach_hid at_ mps p).
Proof.
  unfold UsbDev.attach_hid. apply keep_bind.
  - case_match; [|apply keep_ret]. apply keep_bind; [|intros; apply keep_ret]. apply calmly_keeps. intros s Hs. apply kbd_calmly; [done|]. intros mice Hk.
    destruct (Hfresh (hi_report_len (r_kbd p))) as [Hu Hl]. apply UsbKbdClaims.add_device_ok; [done|done|]. intros Hpos. apply Hl. lia.
  - intros _. case_match; [by apply hid_attach_ok|apply keep_ret].
Qed.
Section hub.
Context (hub : place -> Z -> U unit) (Hhub : forall at_ mps, keeps core_ok (hub at_ mps)).
Lemma take_device_ok at_ mps c p : keeps core_ok (take_device wait csw_stack fuel fresh set_ignore mouse_ignore rescan hub at_ mps c p).
Proof.
  unfold take_device. case_match; [|case_match].
  - apply keep_bind; [apply Hhub|]. intros _. apply keep_bind; [|intros; apply keep_ret]. case_match; [eapply core_env, close_law|apply keep_ret].
  - apply keep_bind; [|intros; apply keep_ret]. case_match; [apply attach_hid_ok|apply keep_ret].
  - apply does_get. intros s Hs. case_match eqn:E4; [by apply wp_ret|]. apply Z.leb_gt in E4. eapply wp_mono; [by apply attach_storage_ok|]. by intros.
Qed.
Lemma configure_ok at_ mps : keeps core_ok (configure wait csw_stack fuel fresh set_ignore mouse_ignore rescan hub at_ mps).
Proof.
  unfold configure, usb_get_desc. eapply does_bind; [apply core_control, u8_zeros|]. intros [ok dd] [Hld Hud]. case_match; [apply keep_ret|].
  eapply does_bind; [apply core_control, u8_zeros|]. intros [ok' hdr] [Hlh Huh]. case_match; [apply keep_ret|]. set (total := if (get16 hdr 2 <? 9) || (512 <? get16 hdr 2) then 512 else get16 hdr 2).
  assert (Ht : 9 <= total <= 512) by (unfold total; case_match eqn:Et; [lia|]; apply orb_false_iff in Et as [E1 E2]; rewrite Z.ltb_ge in E1, E2; lia).
  apply keep_bind; [eapply core_env, UsbKbdSafe.kmalloc_law|]. intros buf. case_match; [apply keep_ret|]. destruct (Hfresh total) as [Hfu Hfl]. specialize (Hfl ltac:(lia)).
  eapply does_bind; [by apply core_control|]. intros r [Hlr Hur]. case_match; [apply keep_ret|]. apply keep_bind; [apply parse_config_keeps; lia|]. intros p.
  apply keep_bind; [apply core_none|]. intros ok2. case_match; [apply keep_ret|]. apply keep_bind; [case_match; [apply core_none|apply keep_ret]|]. intros ok3. case_match; [apply keep_ret|].
  apply keep_bind; [apply take_device_ok|]. intros; apply keep_ret.
Qed.
Lemma desc8_ok k : forall at_ buf, length buf = 8%nat -> Forall is_u8 buf -> keeps core_ok (get_desc8 wait fuel k at_ buf).
Proof.
  induction k as [|k IH]; intros at_ buf Hl Hu; cbn [get_desc8]; [apply keep_ret|]. eapply does_bind; [by apply core_control|]. intros r [Hlr Hur]. case_match; [apply keep_ret|].
  apply keep_bind; [by apply core_delay|]. intros _. apply IH; [lia|done].
Qed.
Lemma enumerate_ok hc speed root a b : keeps core_ok (enumerate wait csw_stack fuel fresh set_ignore mouse_ignore rescan hub hc speed root a b).
Proof.
  unfold enumerate. apply does_get_any. intros s. case_match; [apply keep_ret|]. case_match; [apply keep_ret|]. apply keep_bind; [eapply core_env, open_law|]. intros [dev|]; [|apply keep_ret].
  apply keep_bind; [apply desc8_ok; [done|apply u8_zeros]|]. intros d8. apply keep_bind.
  - destruct d8 as [d8|]; [|apply keep_ret]. apply keep_bind; [eapply core_env, alloc_law|]. intros addr. apply keep_bind; [eapply core_env, address_law|]. intros r.
    case_match; [apply keep_ret|]. apply configure_ok.
  - intros [ok buf]. apply keep_bind; [case_match; [eapply core_env, UsbKbdSafe.kfree_law|apply keep_ret]|]. intros _. repeat case_match; try apply keep_ret. eapply core_env, close_law.
Qed.
End hub.

(** ** Hubs *)

Section ports.
Context (child : usb_speed_t -> Z -> U unit) (Hchild : forall speed port, keeps core_ok (child speed port)) (at_ : place) (mps : Z).
Lemma power_ok k : forall port, keeps core_ok (power_ports at_ mps k port).
Proof. induction k as [|k IH]; intros port; cbn [power_ports]; [apply keep_ret|]. apply keep_bind; [apply core_none|]. intros _. apply IH. Qed.
Lemma clear_ok l change port : keeps core_ok (clear_changes at_ mps l change port).
Proof.
  induction l as [|[bit feature] l IH]; cbn [clear_changes]; [apply keep_ret|]. apply keep_bind; [|intros _; apply IH]. case_match; [|apply keep_ret]. apply keep_bind; [apply core_none|]. intros; apply keep_ret.
Qed.
Lemma port_status_ok port st : Forall is_u8 st -> does core_ok (usb_hub_port_get_status at_ mps port st) (fun r => Forall is_u8 (snd r)).
Proof. intros Hu. eapply does_mono; [by apply core_control|]. by intros a [_ ?]. Qed.
Lemma wait_reset_ok k : forall port st, Forall is_u8 st -> does core_ok (wait_reset wait fuel at_ mps k port st) (Forall is_u8).
Proof.
  induction k as [|k IH]; intros port st Hu; cbn [wait_reset]; [by apply does_ret|]. eapply does_bind; [by apply port_status_ok|]. intros r Hr. case_match; [by apply does_ret|]. case_match; [by apply does_ret|].
  apply keep_bind; [by apply core_delay|]. intros _. by apply IH.
Qed.
Lemma hub_port_ok port : keeps core_ok (hub_port wait fuel child at_ mps port).
Proof.
  unfold hub_port. eapply does_bind; [apply port_status_ok, u8_zeros|]. intros [ok st] Hst. case_match; [apply keep_ret|]. case_match; [apply keep_ret|]. apply keep_bind; [apply clear_ok|]. intros _.
  apply keep_bind; [apply core_none|]. intros ok'. case_match; [apply keep_ret|]. apply keep_bind; [by apply core_delay|]. intros _. eapply does_bind; [by apply wait_reset_ok|]. intros st' Hst'.
  eapply does_bind; [by apply port_status_ok|]. intros r Hr. case_match; [apply keep_ret|]. case_match; [apply keep_ret|]. apply keep_bind; [by apply core_delay|]. intros _. apply keep_bind; [apply Hchild|]. intros _.
  apply keep_bind; [apply core_none|]. intros; apply keep_ret.
Qed.
Lemma handle_hub_ok depth : depth <= 4 -> keeps core_ok (usb_handle_hub wait fuel child at_ mps depth).
Proof.
  intros Hd. unfold usb_handle_hub. case_match; [apply keep_ret|]. unfold usb_hub_get_descriptor. eapply does_bind; [apply core_control, u8_zeros|]. intros r [_ Hr]. case_match; [apply keep_ret|]. case_match; [apply keep_ret|].
  apply keep_bind; [apply power_ok|]. intros _. pose proof (nth_u8 (snd r) 5 Hr) as H5. unfold is_u8 in H5. apply keep_bind; [apply core_delay; case_match eqn:E2; rewrite ?Z.ltb_ge in E2; lia|]. intros _.
  generalize (Z.to_nat (nth 2 (snd r) 0)), 1. intros k. induction k as [|k IH]; intros port; cbn [hub_ports]; [apply keep_ret|]. apply keep_bind; [apply hub_port_ok|]. intros _. apply IH.
Qed.
End ports.
Abbreviation usb_enumerate_default := (usb_enumerate_default wait csw_stack fuel fresh set_ignore mouse_ignore rescan).
(** Six levels are enough: the hub at depth 5 looks for no devices. *)
Lemma enumerate_default_ok k : forall hc speed root a b depth, 0 <= depth -> 6 <= depth + Z.of_nat k -> (1 <= k)%nat -> keeps core_ok (usb_enumerate_default k hc speed root a b depth).
Proof.
  induction k as [|k IH]; intros hc speed root a b depth Hd Hk H1; [lia|]. cbn [UsbDev.usb_enumerate_default]. apply enumerate_ok. intros at_ mps. destruct (Z.le_gt_cases depth 4) as [Hle|Hgt].
  - apply handle_hub_ok; [|done]. intros speed' port. apply IH; lia.
  - unfold usb_handle_hub. rewrite (proj2 (Z.ltb_lt _ _)) by lia. apply keep_ret.
Qed.
Lemma port_connected_ok hc speed root a b : keeps core_ok (usb_port_connected wait csw_stack fuel fresh set_ignore mouse_ignore rescan hc speed root a b).
Proof. apply enumerate_default_ok; lia. Qed.

(** ** Removal of storage devices *)

Definition put_msc s i d : usb E := Mk (<[i := d]> (storage_devs s)) (storage_dev_count s) (msc_tag s) (hid_devs s) (hid_dev_count s) (started s) (kb s).
Lemma wp_getm_at i s d (Q : usb_msc_dev_t -> usb E -> Prop) : storage_devs s !! i = Some d -> Q d s -> wp False (getm (Z.of_nat i)) Q s.
Proof. intros Hd HQ. unfold getm. apply wp_bind, wp_gets; cbv beta. rewrite lget_lookup, Nat2Z.id, Hd by lia. by apply wp_lift_some. Qed.
Lemma wp_putm_at i s d f (Q : unit -> usb E -> Prop) : storage_devs s !! i = Some d -> Q tt (put_msc s i (f d)) -> wp False (putm (Z.of_nat i) f) Q s.
Proof.
  intros Hd HQ. pose proof (lookup_lt_Some _ _ _ Hd). unfold putm. apply wp_bind, wp_gets; cbv beta. rewrite lget_lookup, Nat2Z.id, Hd by lia. apply wp_bind, wp_lift_some, wp_bind.
  rewrite lset_in, Nat2Z.id by lia. apply wp_lift_some. unfold with_storage. by apply wp_modify.
Qed.
Lemma core_storage s l n : core_ok s -> length l = 4%nat -> 0 <= n <= 4 -> (forall i d, l !! i = Some d -> Z.of_nat i < n -> drive_id d = USB_DRIVE_BASE + Z.of_nat i) ->
  core_ok (Mk l n (msc_tag s) (hid_devs s) (hid_dev_count s) (started s) (kb s)).
Proof. intros [_ Hh Hc Hk] Hl Hn Hd. constructor; cbn; [by constructor|by apply (hid_ok_env _ s)|done|done]. Qed.
Lemma drop_mscs_ok hc dev k : forall i s changed, core_ok s -> 0 <= i -> storage_dev_count s - i <= Z.of_nat k ->
  wp False (drop_mscs k i hc dev changed) (fun _ s' => core_ok s' /\ storage_dev_count s' <= storage_dev_count s /\
    forall j d, i <= Z.of_nat j < storage_dev_count s -> storage_devs s !! j = Some d -> is_at m_at hc dev d = true -> storage_dev_count s' < storage_dev_count s) s.
Proof.
  induction k as [|k IH]; intros i s changed Hok Hi Hk; cbn [drop_mscs]; apply wp_bind, wp_gets; cbv beta; (destruct (Z.ltb_spec i (storage_dev_count s)) as [Hlt|Hge]; [|apply wp_ret; split_and!; try done; intros; lia]); [lia|].
  pose proof (co_msc _ Hok) as [Hl Hc Hd]. set (n := Z.to_nat i) in *. replace i with (Z.of_nat n) by lia. destruct (lookup_lt_is_Some_2 (storage_devs s) n) as [d Hdn]; [lia|]. apply wp_bind. eapply wp_getm_at; [exact Hdn|].
  case_match eqn:Eat.
  2: { replace (Z.of_nat n + 1) with (i + 1) by lia. eapply wp_mono; [apply (IH (i + 1) s); [done|lia|lia]|]. intros ? s3 (H3 & Hle & Hrm). split_and!; [done|done|].
    intros j dj Hj Hdj Hat. apply (Hrm j dj); try done. assert (j <> n) by (intros ->; congruence). subst n. lia. }
  apply wp_bind, wp_gets; cbv beta. set (last := Z.to_nat (storage_dev_count s - 1)). replace (storage_dev_count s - 1) with (Z.of_nat last) by lia.
  destruct (lookup_lt_is_Some_2 (storage_devs s) last) as [dl Hdl]; [lia|]. apply wp_bind. set (d1 := set_drive_id (USB_DRIVE_BASE + Z.of_nat n) dl).
  assert (Eid : u8 (USB_DRIVE_BASE + Z.of_nat n) = USB_DRIVE_BASE + Z.of_nat n) by (apply Z.mod_small; unfold USB_DRIVE_BASE; lia).
  eapply (wp_mono _ _ (fun _ s1 => s1 = put_msc s n d1)).
  { destruct (Z.eqb_spec (Z.of_nat n) (Z.of_nat last)) as [El|Hne]; cbn [negb].
    - apply wp_ret. assert (Enl : n = last) by lia. assert (Edl : dl = d) by congruence. unfold put_msc, d1. rewrite Edl. rewrite list_insert_id; [by destruct s|]. rewrite Hdn. f_equal. specialize (Hd n d Hdn ltac:(lia)). rewrite <-Hd. by destruct d.
    - apply wp_bind. eapply wp_getm_at; [exact Hdl|]. eapply wp_putm_at; [exact Hdn|]. by rewrite Eid. }
  intros ? s1 ->. apply wp_bind. assert (Hlast : exists d2, <[n := d1]> (storage_devs s) !! last = Some d2) by (apply lookup_lt_is_Some_2; rewrite length_insert; lia). destruct Hlast as [d2 Hd2].
  eapply wp_putm_at; [exact Hd2|]. apply wp_bind, wp_gets; cbv beta. apply wp_bind. unfold with_storage. apply wp_modify. unfold put_msc. cbn [storage_devs storage_dev_count msc_tag hid_devs hid_dev_count started kb].
  match goal with |- wp _ _ _ ?x => set (s2 := x) end. assert (H2 : core_ok s2).
  { apply core_storage; [done|by rewrite !length_insert|lia|]. intros j dj Hj Hjl. rewrite list_lookup_insert_ne in Hj by lia. apply list_lookup_insert_Some in Hj as [(<- & <- & _)|[_ Hj]]; [done|]. apply (Hd j); [done|lia]. }
  eapply wp_mono; [apply IH; [done|lia|cbn; lia]|]. intros ? s3 (H3 & Hle & _). cbn in Hle. split_and!; [done|lia|]. intros. lia.
Qed.
Lemma drop_storage_ok hc dev s : core_ok s ->
  wp False (usb_storage_drop_device rescan hc dev) (fun _ s' => core_ok s' /\ storage_dev_count s' <= storage_dev_count s /\
    forall j d, hc <> 0 -> Z.of_nat j < storage_dev_count s -> storage_devs s !! j = Some d -> is_at m_at hc dev d = true -> storage_dev_count s' < storage_dev_count s) s.
Proof.
  intros Hok. pose proof (mo_count _ (co_msc _ Hok)). unfold usb_storage_drop_device. destruct (Z.eqb_spec hc 0); [apply wp_ret; split_and!; try done; intros; lia|]. apply wp_bind, wp_gets; cbv beta. apply wp_bind.
  eapply wp_mono; [apply drop_mscs_ok; [done|lia|lia]|]. intros changed s1 (H1 & Hle & Hrm). eapply (wp_mono _ _ (fun _ s2 => still s1 s2)); [case_match; [apply rescan_law|apply wp_ret; by constructor]|].
  intros ? s2 H2. pose proof (st_count _ _ H2) as Ec. split_and!; [by apply (still_ok s1)|lia|]. intros j d _ Hj Hd Hat. rewrite Ec. apply (Hrm j d); [lia|done|done].
Qed.
Lemma drop_all_mscs_ok hc k : forall i s, core_ok s -> hc <> 0 -> 0 <= i -> storage_dev_count s - i <= Z.of_nat k -> wp False (drop_all_mscs rescan k i hc) (fun _ s' => core_ok s' /\ True) s.
Proof.
  induction k as [|k IH]; intros i s Hok Hh Hi Hk; cbn [drop_all_mscs]; apply wp_bind, wp_gets; cbv beta; (destruct (Z.ltb_spec i (storage_dev_count s)) as [Hlt|_]; [|by apply wp_ret]); [lia|].
  pose proof (co_msc _ Hok) as [Hl Hc _]. destruct (lookup_lt_is_Some_2 (storage_devs s) (Z.to_nat i)) as [d Hd]; [lia|]. replace i with (Z.of_nat (Z.to_nat i)) at 1 by lia. apply wp_bind. eapply wp_getm_at; [exact Hd|].
  case_match eqn:Eh; [|apply IH; [done|done|lia|lia]]. apply wp_bind. eapply wp_mono; [by apply drop_storage_ok|]. intros ? s1 (H1 & Hle & Hrm).
  assert (storage_dev_count s1 < storage_dev_count s). { apply (Hrm (Z.to_nat i) d); [done|lia|done|]. unfold is_at. by rewrite Eh, Z.eqb_refl. }
  apply IH; [done|done|lia|lia].
Qed.
Lemma drop_controller_ok hc : keeps core_ok (usb_drop_controller_devices set_ignore mouse_ignore rescan hc).
Proof.
  intros s Hs. unfold usb_drop_controller_devices. destruct (Z.eqb_spec hc 0); [by apply wp_ret|]. apply wp_bind. eapply wp_mono; [apply kbd_calmly; [done|]|].
  { intros mice Hk. apply (UsbKbdClaims.run_op_ok (inject := inject) (UsbKbdClaims.ODropController hc)); done. }
  intros ? s1 (H1 & _ & _). apply wp_bind, wp_gets; cbv beta. apply wp_bind. pose proof (co_hcount _ H1). eapply wp_mono; [apply drop_all_hids_ok; [done|done|lia|lia]|]. intros ? s2 [H2 _]. apply wp_bind, wp_gets; cbv beta.
  pose proof (mo_count _ (co_msc _ H2)). apply drop_all_mscs_ok; [done|done|lia|lia].
Qed.
Lemma poll_ok stack s : length stack = 16%nat -> core_ok s -> wp False (usb_poll fuel inject set_ignore mouse_inject changes stack) (fun _ s' => core_ok s' /\ steady s s') s.
Proof.
  intros Hst Hok. unfold usb_poll. apply wp_bind. eapply wp_mono; [apply kbd_calmly; [done|]|].
  { intros mice Hk. apply (UsbKbdClaims.poll_all_ok fuel stack UsbKbd.HID_KBD_MAX_DEVS Hst Hburst 0); done. }
  intros ? s1 (H1 & [? ?] & _). apply wp_bind. eapply wp_mono; [by apply changes_law|]. intros ? s2 [H2 [? ?]]. pose proof (co_hcount _ H2). eapply wp_mono; [apply (poll_mice_ok fuel Hburst 4 0); [done|lia]|].
  intros ? s3 (K3 & [? ?] & _). split; [done|split; congruence].
Qed.

(** ** Any sequence of operations *)

Inductive op :=
| OConnect (hc : Z) (speed : usb_speed_t) (root_port tt_hub_addr tt_port : Z)
| ODropHid (hc dev : Z)
| ODropStorage (hc dev : Z)
| ODropAll (hc : Z)
| OReset
| OPoll (stack : list Z).
Definition op_ok (o : op) : Prop := match o with OPoll stack => length stack = 16%nat | _ => True end.
Definition run_op (o : op) : U unit :=
  match o with
  | OConnect hc speed root a b => usb_port_connected wait csw_stack fuel fresh set_ignore mouse_ignore rescan hc speed root a b
  | ODropHid hc dev => usb_hid_drop_device mouse_ignore hc dev
  | ODropStorage hc dev => usb_storage_drop_device rescan hc dev
  | ODropAll hc => usb_drop_controller_devices set_ignore mouse_ignore rescan hc
  | OReset => usb_storage_reset;;; usb_hid_reset set_ignore mouse_ignore
  | OPoll stack => usb_poll fuel inject set_ignore mouse_inject changes stack
  end.
Fixpoint run_ops (l : list op) : U unit := match l with [] => ret tt | o :: l' => run_op o;;; run_ops l' end.
Lemma usb_op_ok o : op_ok o -> keeps core_ok (run_op o).
Proof.
  intros Ho s Hs. destruct o as [hc speed root a b|hc dev|hc dev|hc| |stack]; cbn [run_op op_ok] in *.
  - by apply port_connected_ok.
  - eapply wp_mono; [by apply drop_device_ok|]. by intros ? s' (? & _).
  - eapply wp_mono; [by apply drop_storage_ok|]. by intros ? s' (? & _).
  - by apply drop_controller_ok.
  - apply wp_bind. unfold usb_storage_reset. apply wp_modify. eapply wp_mono; [apply reset_hids_ok|by intros ? s' (? & _)].
    destruct Hs as [_ Hh Hc Hk]. constructor; cbn; [|by apply (hid_ok_env _ s)|done|done]. constructor; cbn; [done|lia|intros; lia].
  - eapply wp_mono; [by apply poll_ok|]. by intros ? s' [? _].
Qed.
Lemma numbered_find (l : list usb_msc_dev_t) (k : Z) : forall j i, (forall i d, l !! i = Some d -> drive_id d = k + Z.of_nat i) -> (i < length l)%nat -> j = k + Z.of_nat i ->
  exists d, list_find (fun d => drive_id d = j) l = Some (i, d).
Proof.
  intros j i Hn Hi ->. destruct (lookup_lt_is_Some_2 l i Hi) as [d Hd]. exists d. apply list_find_Some. split_and!; [done|by apply Hn|]. intros i' d' Hd' Hlt Eq. rewrite (Hn _ _ Hd') in Eq. lia.
Qed.
(** C36: Whatever the devices send, any sequence of connections (through hubs up to five deep), removals,
    resets and polls ends without an access outside the tables and buffers of usb.c, interrupts that
    poll included.  There are then at most four drives, numbered from 4 on without a gap, and drive
    4 + i is found at place i; every mouse has a transfer of its own, of at most 64 bytes. *)
Theorem usb_devices_safe l e : ignored e = false -> Forall op_ok l ->
  wp False (run_ops l) (fun _ s' =>
    0 <= storage_dev_count s' <= 4 /\ 0 <= hid_dev_count s' <= 4 /\
    (forall i, 0 <= i < storage_dev_count s' -> find_dev_by_drive (USB_DRIVE_BASE + i) s' = Ok (i, s')) /\
    (forall i d, hid_devs s' !! i = Some d -> Z.of_nat i < hid_dev_count s' -> hid_live s' d) /\
    (forall i j d d', hid_devs s' !! i = Some d -> hid_devs s' !! j = Some d' -> Z.of_nat i < hid_dev_count s' -> Z.of_nat j < hid_dev_count s' -> h_in d = h_in d' -> i = j)) (usb0 e).
Proof.
  intros He Hl. eapply (wp_mono _ _ (fun _ s' => core_ok s')).
  - assert (H0 : core_ok (usb0 e)).
    { constructor; cbn; [constructor; cbn; [done|lia|intros; lia]|constructor; cbn; [done|change (Forall hid_shape (replicate 4 hid0)); apply Forall_replicate, hid0_shape|intros; lia|intros; lia]|lia|].
      split; [|done]. constructor; [done| |done|done]. cbn. intros i d Hd. change (replicate 4 UsbKbd.dev0 !! i = Some d) in Hd. apply lookup_replicate in Hd as [-> _]. split; [apply UsbKbdClaims.shape_dev0|done]. }
    revert H0. generalize (usb0 e). clear He. induction Hl as [|o l Ho Hl IH]; intros s Hs; cbn [run_ops]; [by apply wp_ret|]. apply wp_bind. eapply wp_mono; [by apply usb_op_ok|]. intros ? s' [H' _]. by apply IH.
  - intros ? s' [[Hml Hmc Hmd] [Hhl _ Hhv Hhp] Hhc _]. split_and!; try lia.
    + intros i Hi. unfold find_dev_by_drive, bind, get, ret. destruct (numbered_find (take (Z.to_nat (storage_dev_count s')) (storage_devs s')) USB_DRIVE_BASE (USB_DRIVE_BASE + i) (Z.to_nat i)) as [d ->].
      * intros j d Hj. apply lookup_take_Some in Hj as [Hj Hlt]. apply (Hmd j); [done|lia].
      * rewrite length_take. lia.
      * lia.
      * do 2 f_equal. lia.
    + intros i d Hd Hi. apply (Hhv i); [done|lia].
    + intros i j d d' Hd Hd' Hi Hj. apply Hhp; [done|done|lia|lia].
Qed.
End world.
End UsbDevClaims.

(** ** A controller with mice, on which the claims are run *)

Module UsbRig.
Import UsbHc HidParse Usb UsbCfg UsbDev UsbDevSafe UsbHidSafe UsbDevClaims.
Import UsbKbdSafe(Watch, armed, pending, sent, ignored, burst, quiet, calm, others, UsbWorld).

Record rig := Rig { g_armed : usb_async_in_t -> option Z; g_queue : list (list Z); g_sent : list Z; g_moves : list (Z * Z * Z * Z); g_ignored : bool; g_now : Z; g_addr : Z }.
#[global] Instance rig_in_eq_dec : EqDecision usb_async_in_t.
Proof. solve_decision. Defined.
Definition rig_arm (x : usb_async_in_t) (v : option Z) (e : rig) : rig :=
  Rig (fun y => if decide (y = x) then v else g_armed e y) (g_queue e) (g_sent e) (g_moves e) (g_ignored e) (g_now e) (g_addr e).
Definition rig_at (n : Z) (e : rig) : rig := Rig (g_armed e) (g_queue e) (g_sent e) (g_moves e) (g_ignored e) n (g_addr e).
(** The descriptors of a mouse with three buttons and a wheel *)
Definition mouse_device : list Z := [18; 1; 0; 2; 0; 0; 0; 8; 1; 2; 3; 4; 0; 1; 0; 0; 0; 1].
Definition mouse_config : list Z := [9; 2; 34; 0; 1; 1; 0; 160; 50] ++ [9; 4; 0; 0; 1; 3; 1; 2; 0] ++ [9; 0x21; 0x11; 1; 0; 1; 0x22; 52; 0] ++ [7; 5; 0x81; 3; 8; 0; 10].
Definition mouse_desc : list Z :=
  [0x05; 0x01; 0x09; 0x02; 0xA1; 0x01; 0x09; 0x01; 0xA1; 0x00; 0x05; 0x09; 0x19; 0x01; 0x29; 0x03; 0x15; 0x00; 0x25; 0x01; 0x95; 0x03; 0x75; 0x01; 0x81; 0x02;
   0x95; 0x01; 0x75; 0x05; 0x81; 0x01; 0x05; 0x01; 0x09; 0x30; 0x09; 0x31; 0x09; 0x38; 0x15; 0x81; 0x25; 0x7F; 0x75; 0x08; 0x95; 0x03; 0x81; 0x06; 0xC0; 0xC0].
Definition answer (setup : usb_setup_pkt_t) : list Z :=
  if bRequest setup =? 6 then
    if wValue setup =? 0x100 then mouse_device else if wValue setup =? 0x200 then mouse_config else if wValue setup =? 0x2200 then mouse_desc else []
  else [].
#[global] Instance rig_hc : UsbHc rig := {
  ops _ := Some (Ops true true true true true true true true true true true true);
  control_transfer _ _ _ setup data := ret (true, u8 <$> take (length data) (answer setup ++ data));
  bulk_transfer _ _ _ _ _ data := ret (false, data);
  async_in_init _ x _ _ _ len := modify (rig_arm x (Some len));;; ret true;
  async_in_check _ x := fun e =>
    match g_armed e x, take 8 (g_queue e) with
    | Some n, rep :: q => let r := u8 <$> take (Z.to_nat n) rep in Ok ((1, Z.of_nat (length r), r), Rig (g_armed e) q (g_sent e) (g_moves e) (g_ignored e) (g_now e) (g_addr e))
    | _, _ => Ok ((0, 0, []), e)
    end;
  async_in_rearm _ _ := ret tt;
  async_in_cancel _ x := modify (rig_arm x None);
  configure_endpoint _ _ _ _ _ _ _ := ret true;
  enum_open _ _ _ := ret (Some 0);
  enum_set_address _ _ addr := ret (true, addr);
  enum_close _ _ := ret tt;
  alloc_address _ := e <- get;; modify (fun e => Rig (g_armed e) (g_queue e) (g_sent e) (g_moves e) (g_ignored e) (g_now e) (g_addr e + 1));;; ret (g_addr e);
  reset_address_allocator _ := ret tt;
  tick := e <- get;; ret (u32 (g_now e));
  kmalloc _ := ret 4096;
  kfree _ := ret tt;
}.
#[global] Instance rig_watch : Watch rig := { armed := g_armed; pending e _ := length (take 8 (g_queue e)); sent := g_sent; ignored := g_ignored; burst := 8 }.
#[global] Instance rig_clock : Clock := { now := g_now }.
Definition rig_inject (sc : Z) : M (UsbKbd.usb_kbd rig) unit :=
  UsbKbd.on_env (modify (fun e => Rig (g_armed e) (g_queue e) (g_sent e ++ [sc]) (g_moves e) (g_ignored e) (g_now e) (g_addr e))).
Definition rig_ignore (b : bool) : M (UsbKbd.usb_kbd rig) unit :=
  UsbKbd.on_env (modify (fun e => Rig (g_armed e) (g_queue e) (g_sent e) (g_moves e) b (g_now e) (g_addr e))).
Definition rig_move (dx dy w b : Z) : M (usb rig) unit :=
  on_env (modify (fun e => Rig (g_armed e) (g_queue e) (g_sent e) (g_moves e ++ [(dx, dy, w, b)]) (g_ignored e) (g_now e) (g_addr e))).
Definition nothing : M (usb rig) unit := ret tt.
(** The timer interrupt: it ticks once, and polls. *)
Definition rig_wait : M (usb rig) unit :=
  s <- get;;
  let n := g_now (env_of s) + 1 in
  on_env (modify (rig_at n));;; usb_poll 100 rig_inject rig_ignore rig_move nothing (replicate 16 0);;; on_env (modify (rig_at n)).

Lemma rig_u8 l : Forall is_u8 (u8 <$> l).
Proof. apply Forall_fmap, Forall_true. intros x. apply u8_range. Qed.
#[global] Instance rig_world : UsbWorld rig_inject rig_ignore.
Proof.
  split; try (intros; intros e; cbn; split; [by constructor|done]); try done.
  - intros e x. cbn. rewrite length_take. lia.
  - intros at_ ep m setup data _ e. split; [by constructor|]. cbn [snd]. split; [|apply rig_u8]. rewrite length_fmap, length_take, length_app. lia.
  - intros e. split; [by constructor|apply u32_range].
  - intros at_ x ep m t len e. cbn. split; [constructor; try done; intros y Hy; cbn; by rewrite decide_False|]. intros _. by rewrite decide_True.
  - intros hc x e. cbn. constructor; try done. intros y Hy. cbn. by rewrite decide_False.
  - intros hc x e n Hn H0. unfold wp. cbn [async_in_check rig_hc armed rig_watch pending sent ignored] in *. rewrite Hn. destruct (take 8 (g_queue e)) as [|rep q] eqn:Eq.
    + split_and!; try done; lia.
    + split_and!; try done; rewrite ?length_fmap, ?length_take; try lia; [apply rig_u8|]. intros _. apply (Nat.le_lt_trans _ (length q)); [apply Nat.le_min_r|apply Nat.lt_succ_diag_r].
Qed.
#[global] Instance rig_core : CoreWorld rig_move (fun _ => nothing) nothing nothing.
Proof.
  split; try (intros; intros e; split; [by constructor|done]); try (intros; unfold nothing; apply wp_ret; by constructor).
  - intros e. by apply wp_bind, wp_gets, wp_ret.
  - intros x y w b s. by constructor.
Qed.
Lemma rig_at_ok n s : core_ok s -> wp False (on_env (modify (rig_at n))) (fun _ s' => core_ok s' /\ steady s s' /\ g_now (env_of s') = n) s.
Proof.
  intros Hs. eapply (wp_on_any _ (fun _ e => e = rig_at n (env_of s))); [done|]. intros ? e ->. split; [|done]. destruct Hs as [Hm Hh Hc Hk].
  constructor; [by apply (msc_ok_of s)|by apply (hid_ok_env _ s)|done|by apply kinv_env].
Qed.
(** What usb.c asks of an interrupt is what its own polling does. *)
#[global] Instance rig_waits : WaitWorld rig_wait.
Proof.
  constructor. intros s Hs. unfold rig_wait. apply wp_bind, wp_gets; cbv beta. apply wp_bind. eapply wp_mono; [by apply rig_at_ok|]. intros ? s1 (H1 & [? ?] & _). apply wp_bind. eapply wp_mono; [apply poll_ok; [cbn; lia|done|done]|].
  intros ? s2 (H2 & [? ?]). eapply wp_mono; [by apply rig_at_ok|]. intros ? s3 (K3 & [? ?] & En). split; [done|]. split; [split; congruence|done].
Qed.

Definition rig0 (q : list (list Z)) : rig := Rig (fun _ => None) q [] [] false 0 1.
Definition zeros (n : Z) : list Z := replicate (Z.to_nat n) 0.
Lemma zeros_fresh n : Forall is_u8 (zeros n) /\ (0 <= n -> Z.of_nat (length (zeros n)) = n).
Proof. unfold zeros. split; [by apply Forall_replicate|]. rewrite length_replicate. lia. Qed.
Abbreviation rig_ops := (run_ops (inject := rig_inject) (set_ignore := rig_ignore) (wait := rig_wait) (mouse_inject := rig_move) (mouse_ignore := fun _ => nothing) (rescan := nothing) (changes := nothing) zeros 100 (replicate 13 0)).
Definition session : list op := [OConnect 1 USB_SPEED_LOW 1 0 0; OPoll (replicate 16 0); OConnect 1 USB_SPEED_LOW 2 0 0; ODropHid 1 1; OPoll (replicate 16 0); ODropAll 1].
Lemma usb_devices_safe_witness :
  wp False (rig_ops session) (fun _ s' =>
    0 <= storage_dev_count s' <= 4 /\ 0 <= hid_dev_count s' <= 4 /\
    (forall i, 0 <= i < storage_dev_count s' -> find_dev_by_drive (USB_DRIVE_BASE + i) s' = Ok (i, s')) /\
    (forall i d, hid_devs s' !! i = Some d -> Z.of_nat i < hid_dev_count s' -> hid_live s' d) /\
    (forall i j d d', hid_devs s' !! i = Some d -> hid_devs s' !! j = Some d' -> Z.of_nat i < hid_dev_count s' -> Z.of_nat j < hid_dev_count s' -> h_in d = h_in d' -> i = j)) (usb0 (rig0 [])).
Proof. refine (usb_devices_safe zeros zeros_fresh 100 _ _ (replicate 13 0) session (rig0 []) _ _); [lia|cbn; lia|done|repeat constructor]. Defined.

(** A mouse is recognised and its moves arrive. *)
Definition after (l : list op) (q : list (list Z)) : usb rig :=
  match rig_ops l (usb0 (rig0 [])) with
  | Ok (_, s) => Mk (storage_devs s) (storage_dev_count s) (msc_tag s) (hid_devs s) (hid_dev_count s) (started s)
      (UsbKbd.UsbKbd (UsbKbd.kbds (kb s)) (UsbKbd.kbd_count (kb s)) (Rig (g_armed (env_of s)) q (g_sent (env_of s)) (g_moves (env_of s)) (g_ignored (env_of s)) (g_now (env_of s)) (g_addr (env_of s))))
  | _ => usb0 (rig0 [])
  end.
Definition moves (s : usb rig) : list (Z * Z * Z * Z) := match rig_ops [OPoll (replicate 16 0)] s with Ok (_, s') => g_moves (env_of s') | _ => [] end.
Example mouse_moves : moves (after [OConnect 1 USB_SPEED_LOW 1 0 0] [[1; 5; 251; 255]]) = [(5, -5, -1, 1)].
Proof. vm_compute. reflexivity. Qed.
(** Of two mice the first is removed: usb_hid_drop_device moves the second one in its table, but its
    transfer goes on into the buffer of the old place.  Its reports are no longer seen: instead of the
    move, whatever the copied buffer holds is reported. *)
Example moved_mouse_is_deaf :
  moves (after [OConnect 1 USB_SPEED_LOW 1 0 0; OConnect 1 USB_SPEED_LOW 2 0 0; ODropHid 1 1] [[1; 5; 251; 255]]) = [(0, 0, 0, 0)].
Proof. vm_compute. reflexivity. Qed.
End UsbRig.
